(* ===== verification/_CoqProject ===== *)
-Q . S2P
Prelude.v
PyStr.v
Sha256.v
Micros.v
Grouping.v
SqlTable.v
CrashProg.v
ChangeApprovals.v
BearerToken.v
Identifiers.v
AutomationTokens.v
ImportGrants.v
Auth.v
AuthState.v
AuthSessions.v
AuthAttempts.v
SessionBackend.v
TeamIdentity.v
TeamAttestations.v
TeamMembers.v
RequestGate.v
TeamAccess.v
IntegrationEvents.v
RecurrenceWindow.v
StampedIndex.v
RecurrenceIndex.v
Recurrence.v
VersionMatching.v
Correlation.v
IpAddress.v
PyValue.v
AssetTarget.v
IsoFormat.v
AssetRecord.v
ActiveAssets.v
AssetBatch.v
AssetRuns.v
AssetAuthorization.v
VerificationStore.v
VerificationRuns.v
JobRecord.v
JobIndex.v
JobStore.v
JobRuns.v
JobSafety.v
JobRetention.v
NmapPolicy.v
NmapHandoff.v
RunnerNmap.v
NmapChain.v
NmapBoundary.v
NmapClient.v
NmapRequest.v
NmapLifecycle.v
NmapJob.v
NmapStored.v
Findings.v
FindingStore.v
FindingChains.v
FindingVisible.v
FindingBatch.v
FindingRecovery.v
FindingAtomic.v
FindingHistory.v
FindingPages.v
