(* ===== verification/Prelude.v ===== *)
(** * Inspectra: a verification development

    Inspectra is a local-first security audit platform: a FastAPI backend
    ([backend/app]), a passive and an active runner ([tools]) and a command
    line client ([cli]).  This development models the parts of it that decide
    who may do what, what may be scanned, which vulnerabilities apply, and
    what is durably recorded of a finding, and proves what they promise.

    ** The modelled parts and their files

    - Foundations.  This file: Python calls as [outcome]s, dictionaries with
      their order, datetimes, tactics.  [PyStr]: texts and their methods;
      [Sha256]; [SqlTable]: SQL statements on a table, as a finite map;
      [Micros]: a timestamp through a double;
      [PyValue]: JSON values; [Grouping]: sorting and grouping by a
      key; [IpAddress]: Python's [ipaddress]; [IsoFormat]: a time's text;
      [Identifiers]: what the stores recognise; [StampedIndex]: an index
      rebuilt from the files it projects; [CrashProg]: programs over a
      durable state that may stop after any effect, with a Hoare logic.
    - Approvals, [active_change_approvals.py]: [ChangeApprovals].  The
      directory of collections is a map from organization to file, each
      operation one transition of it, and the run of a store a sequence of
      operations.  Four eyes on every decision, one claim per approval, a
      refinement of the lifecycle's state machine, validity of every store.
    - Bearers: [BearerToken] states as a class what a store of bearers owes
      its clients, [AutomationTokens] ([automation_tokens.py]) and
      [ImportGrants] ([repository_import_grants.py]) implement it.  The SQL
      table is a [gmap], a method one transaction.  Only issued bearers
      authenticate; revocation is final, a grant is used once; bounds on live
      credentials and on requests per window.
    - Sign-in, [auth.py] and [auth_state_sqlite.py]: [Auth], with a Module for
      the sessions, the login throttle and the password hash in memory;
      [AuthState], the SQL tables of sessions and attempts; [AuthSessions] and
      [AuthAttempts], the stores over them.  How many guesses a client has,
      that a hash verifies its password; the durable stores refine the ones in
      memory, sessions survive a restart, a lock outlasts any flood of
      requests and ends when it should.
    - Members, [team_identity.py]: [TeamIdentity] (six SQL tables and every
      operation), [TeamAttestations] (the packages an organization approves),
      [TeamMembers] (the operations as one transition system).  Every
      organization keeps an administrator, a revocation is final, an
      invitation makes one member, organizations are isolated; attestations
      are well formed and follow their life cycle.
    - Requests, [main.py]: [SessionBackend] states as a class what the routes
      ask of a session store and rely on, both stores implement it;
      [RequestGate] is the middleware before every route, where sessions,
      members, tokens and grants meet; [TeamAccess] the routes that sign in
      and out and change who is a member, as steps of a server.  A request is
      served only on evidence in the stores; a sign-in is honoured; a
      sign-out, a revocation and a role change take effect at once, whatever
      requests follow.
    - Integration events, [integration_events.py]: [IntegrationEvents].  The
      outbox table and every operation of its store, what an answer means,
      the dispatcher's claims.  Rows are well formed after any calls, two
      workers never hold one event, every due event gets its turn, attempts
      are bounded, a replay is what was previewed.
    - Recurrence, [active_recurrence.py] and [active_recurrence_index.py]:
      [RecurrenceWindow] (when a schedule runs next, in any time zone),
      [RecurrenceIndex] (the SQLite index of the policies' files, written
      against a class of records and the laws of their loader) and
      [Recurrence] (the store, one transition per call).  The time computed is
      the first of use; whatever index there is, a query answers what reading
      every file would; two dispatches of a schedule are its interval apart;
      an organization has at most 500 schedules and one for each probe.
    - Active assets, [active_assets.py]: [AssetTarget] (the exact target of an
      asset), [AssetRecord] (requests, records, the chain of authorization
      revisions with their digests), [ActiveAssets] (the store: the files, the
      SQLite index over them, every operation on an asset), [AssetBatch]
      (registering in one batch, with its journal and recovery, as a program
      that may stop after any effect).  [AssetRuns] puts the operations
      together: what an asset was authorized for is only added to, a
      revocation is final, no two assets of an organization have one name.
      [AssetAuthorization] is about one call: what is admitted is authorized, a
      renewal is guarded and made once, and what an asset that cannot be read
      does to the store.  A batch is registered whole or not at all; a
      canonical value is its own.
    - Verification of assets, [active_asset_verification.py] and
      [active_verification_index.py]: [VerificationStore] (challenges, the
      store and its index), [VerificationRuns] (its runs).  A record is
      verified only by who presented a challenge's token in time; an asset has
      one live challenge, and five in an hour.
    - Jobs, the store of [storage.py] and [active_job_index.py]: [JobRecord]
      (a job, what it was admitted for and how far it is, its validators and
      its loader), [JobIndex] (the index over the files and its queries),
      [JobStore] (admission, progress, claims, cancellation, revocation,
      recovery, deletion, retention), [JobRuns] (a call as one step, what it
      may change), [JobSafety] and [JobRetention].  A cancelled job stays so, a
      job is claimed once, a key is one job, the work in flight is within its
      limits; a purge ends and removes exactly what it is for.
    - Versions and vulnerabilities, [version_matching.py] and
      [vulnerability_correlation.py]: [VersionMatching], [Correlation].  The
      parsers and orders of seven ecosystems, the decision of a range, of an
      advisory and of a component, exactly and on every input.
    - Active nmap, backend and runner: [NmapPolicy] and [NmapHandoff] (which
      targets, which plan), [RunnerNmap] (the runner's contract, policy,
      command line, execution, [tools/active_runner]), [NmapBoundary],
      [NmapClient], [NmapLifecycle] ([active_nmap_boundary.py],
      [active_tools_client.py], [active_nmap_lifecycle.py]).  Their
      composition is in [NmapChain], [NmapRequest], [NmapJob], [NmapStored]:
      only private targets reach the command line, planned units execute,
      outputs name no target, a client is called only when approved, a stored
      result has a closed vocabulary.
    - Finding decisions, [finding_lifecycle.py] and its models: [Findings]
      (records, texts, chains), [FindingStore] (the three directories and
      every operation, with each file system effect).  [FindingChains]: the
      histories that load are the linked ones.  [FindingVisible]: what a
      reader sees, as a statement on the files.  [FindingBatch],
      [FindingRecovery], [FindingAtomic]: the phases of a batch, recovery
      from each, and atomicity of [record_many] across crashes, with replay.
      [FindingHistory]: recording appends one link to a history and changes
      no other.  [FindingPages]: the pages cover a history.

    An operation keeps the name it has in the code; the comment before a
    definition names its file and symbol.

    ** Conventions

    An exception is [Err] of its code.  A text is a list of code points below
    256: wider characters are not modelled, and what the code does with them
    is either a refusal by a pattern of ASCII classes or a byte-wise copy.  An
    integer is unbounded, as in Python; a datetime its wall clock microseconds
    with an offset.  The clock, the random source and the identifier factory
    are arguments of the operations, any values at all.  An SQL table is a
    finite map from primary key to row and a method one transaction on it; a
    REAL timestamp is the exact microsecond; where [ORDER BY] leaves rows tied
    their order is an argument, [rank].  SHA-256 is computed, and where a
    theorem needs it free of collisions it says on which texts.

    ** Parameters

    Code outside the repository is an argument: [packaging] for PyPI versions,
    the nmap process and the decoding of its output, the HTTP transport and
    the configured address, the exchange with an identity provider, the JSON
    text of an event's payload, of a schedule, of an asset, of a verification
    and of a job, the data of the time zones.
    Code of the repository that a part only calls and that is not modelled yet
    is one too: the redaction of secrets
    ([reporting.py]), the execution profile of a job and the normal form of
    its result, the ISO text of a datetime that pydantic writes, the
    digest of an operation that callers compute, whether an asset is being
    deleted.

    ** Fuel and bounds

    Recursion follows the data, but for four loops.  A chain is followed
    ([Findings.follow]) with one step more than there are records, each step
    adding one that was not there.  Pages are read ([FindingPages.read_pages])
    with one page more than the history has decisions, and the theorem says
    that is enough.  What is due is read in pages with one page more than the
    index has rows.  Jobs are purged in batches, with as much fuel as there are
    jobs to purge and one.  The decision store's limit of 100,000 files, checked when
    it is read, is a hypothesis where something is added.

    Times are looked for in the 371 local days the code looks in.

    ** Stamps

    The indexes of the schedules, of the assets, of the verifications and of
    the jobs compare the metadata of
    directories and files.  The model gives every change a stamp that no
    earlier state had, which is what the code relies on; a process may stop at
    any point of a call, and the schedules' files may be any others when it
    starts again.

    ** Crashes

    In the decision store, and where assets are registered in a batch, each
    renaming, unlinking or directory creation is atomic and durable when it
    returns, a temporary file may be left half written (the asset store writes
    it again when it recovers, or never looks at it), and no system call fails.  A run is the list of states it passes
    through; [after_crashes] closes it under stopped recoveries.  The one state
    atomicity excludes, a receipt half written, is shown to block the store.

    ** Not modelled

    The other stores of [storage.py] and the parts built on them (projects,
    uploads, the graphs attached to a finished job and the marks of its deleted
    source, the pages and snapshots of jobs, retention, deletion journals, other indexes and trends, remediation,
    reports, the pages and the snapshots of assets), the OIDC exchange, the
    floating-point scores of [cvss.py], the manifest and SBOM parsers, the
    advisory fetchers, backup, configuration, the routes of [main.py] other
    than those of [RequestGate] and [TeamAccess], the product audit and the
    metrics, the passive runner's heuristics and the command line client.
    Deletion journals, the trend clock, the runner's result parser and scores
    would come next; the others are input and output, or heuristics with no
    contract to state. *)

From Stdlib Require Export Ascii ZArith Lia.
From Stdlib Require String.
From stdpp Require Export base tactics option list gmap strings sorting.

#[export] Set Default Goal Selector "!".

Declare Scope py_scope.
Delimit Scope py_scope with py.
Open Scope py_scope.

(** ** Outcomes: a Python call either returns or raises

    The repository raises one exception class per component, each carrying a
    closed, non-sensitive reason [code]; the code is what the model keeps. *)
Inductive outcome (A : Type) : Type :=
| Ok (a : A)
| Err (code : string).
Arguments Ok {A} a.
Arguments Err {A} code.

#[export] Instance outcome_ret : MRet outcome := @Ok.
#[export] Instance outcome_bind : MBind outcome := λ A B f m,
  match m with Ok a => f a | Err c => Err c end.
#[export] Instance outcome_fmap : FMap outcome := λ A B f m,
  match m with Ok a => Ok (f a) | Err c => Err c end.

#[export] Instance outcome_eq_dec `{EqDecision A} : EqDecision (outcome A).
Proof. solve_decision. Defined.

Definition is_ok {A} (o : outcome A) : bool :=
  match o with Ok _ => true | Err _ => false end.

(** [raise c when b ;; k]: [if b: raise Error(c)], then the rest of the body. *)
Notation "'raise' c 'when' b ';;' k" := (if b then Err c else k)
  (at level 10, c at level 0, b at level 99, k at level 200,
   format "'[v' 'raise'  c  'when'  b ';;' '/' k ']'") : py_scope.

(** [x ?? c]: unwrap an option or raise [c]. *)
Definition or_raise {A} (o : option A) (c : string) : outcome A :=
  match o with Some a => Ok a | None => Err c end.

(** [mapM] over an outcome, in order, stopping at the first raise. *)
Fixpoint traverse {A B} (f : A → outcome B) (l : list A) : outcome (list B) :=
  match l with
  | [] => Ok []
  | x :: l' => y ← f x; ys ← traverse f l'; Ok (y :: ys)
  end.

(** ** Tactics *)

(** Case-split every [if] and [match] the hypotheses are stuck on, dropping
    the branches that raised. *)
Ltac unroll :=
  repeat (case_match; simplify_eq/=; try done).

(** Turn boolean tests into propositions. *)
Ltac to_prop :=
  repeat match goal with
  | H : _ && _ = true |- _ => apply andb_true_iff in H as [? ?]
  | H : _ || _ = false |- _ => apply orb_false_iff in H as [? ?]
  | H : negb _ = true |- _ => apply negb_true_iff in H
  | H : negb _ = false |- _ => apply negb_false_iff in H
  | H : bool_decide _ = true |- _ => apply bool_decide_eq_true in H
  | H : bool_decide _ = false |- _ => apply bool_decide_eq_false in H
  | H : (_ <? _)%Z = true |- _ => apply Z.ltb_lt in H
  | H : (_ <? _)%Z = false |- _ => apply Z.ltb_ge in H
  | H : (_ <=? _)%Z = true |- _ => apply Z.leb_le in H
  | H : (_ <=? _)%Z = false |- _ => apply Z.leb_gt in H
  | H : (_ <=? _)%nat = true |- _ => apply Nat.leb_le in H
  | H : (_ <=? _)%nat = false |- _ => apply Nat.leb_gt in H
  | H : (_ <? _)%nat = true |- _ => apply Nat.ltb_lt in H
  | H : (_ <? _)%nat = false |- _ => apply Nat.ltb_ge in H
  | H : (_ =? _)%nat = true |- _ => apply Nat.eqb_eq in H
  | H : (_ =? _)%nat = false |- _ => apply Nat.eqb_neq in H
  | H : (_ =? _)%Z = true |- _ => apply Z.eqb_eq in H
  | H : (_ =? _)%Z = false |- _ => apply Z.eqb_neq in H
  | H : (_ =? _)%string = true |- _ => apply String.eqb_eq in H
  | H : (_ =? _)%string = false |- _ => apply String.eqb_neq in H
  | H : ¬ (_ ≠ _) |- _ => apply dec_stable in H
  | H : ¬ ¬ _ |- _ => apply dec_stable in H
  end.

(** ** Outcomes: lemmas *)

Lemma bind_ok {A B} (m : outcome A) (f : A → outcome B) b :
  m ≫= f = Ok b ↔ ∃ a, m = Ok a ∧ f a = Ok b.
Proof. destruct m; cbn; naive_solver. Qed.

Lemma or_raise_ok {A} (o : option A) c a : or_raise o c = Ok a ↔ o = Some a.
Proof. destruct o; cbn; naive_solver. Qed.

Lemma traverse_ok {A B} (f : A → outcome B) l l' :
  traverse f l = Ok l' ↔ Forall2 (λ x y, f x = Ok y) l l'.
Proof.
  revert l'. induction l as [|x l IH]; intros l'; cbn.
  - split; [intros [= <-]; constructor|]. by inversion 1.
  - setoid_rewrite bind_ok. split.
    + intros (y & Hy & (ys & Hys & [= <-])%bind_ok). constructor; [done|by apply IH].
    + inversion 1 as [|? y ? ys Hy Hys]; subst. exists y. split; [done|].
      apply bind_ok. exists ys. split; [by apply IH|done].
Qed.

Lemma traverse_length {A B} (f : A → outcome B) l l' :
  traverse f l = Ok l' → length l' = length l.
Proof. intros H%traverse_ok. by apply Forall2_length in H. Qed.

(** Run a successful call backwards: name the intermediate values of its binds
    and keep the negated test of each [raise] it went past. *)
Ltac inv_ok H :=
  cbv zeta in H;
  repeat first
    [ apply bind_ok in H as (? & ? & H)
    | match type of H with
      | (if ?b then Err _ else _) = Ok _ => destruct b eqn:?; [discriminate H|]
      end ];
  try (apply (inj Ok) in H); simplify_eq.

#[export] Instance Ok_inj {A} : Inj (=) (=) (@Ok A).
Proof. by intros ?? [=]. Qed.

(** ** Finite searches: [any], [all], [next(...)] over Python iterables *)

Definition any_of {A} (p : A → bool) (l : list A) : bool := existsb p l.
Definition all_of {A} (p : A → bool) (l : list A) : bool := forallb p l.

Lemma any_of_true {A} (p : A → bool) l : any_of p l = true ↔ ∃ x, x ∈ l ∧ p x = true.
Proof.
  unfold any_of. rewrite existsb_exists. by setoid_rewrite list_elem_of_In.
Qed.

Lemma any_of_false {A} (p : A → bool) l : any_of p l = false ↔ ∀ x, x ∈ l → p x = false.
Proof.
  induction l as [|y l IH]; cbn; [set_solver|].
  rewrite orb_false_iff, IH. set_solver.
Qed.

Lemma all_of_true {A} (p : A → bool) l : all_of p l = true ↔ ∀ x, x ∈ l → p x = true.
Proof.
  unfold all_of. rewrite forallb_forall. by setoid_rewrite list_elem_of_In.
Qed.

(** [next((x for x in l if p(x)), None)] *)
Fixpoint first_match {A} (p : A → bool) (l : list A) : option A :=
  match l with
  | [] => None
  | x :: l' => if p x then Some x else first_match p l'
  end.

Lemma first_match_Some {A} (p : A → bool) l x :
  first_match p l = Some x → x ∈ l ∧ p x = true.
Proof. induction l as [|y l IH]; cbn; [done|]. case_match; set_solver. Qed.

Lemma first_match_None {A} (p : A → bool) l :
  first_match p l = None ↔ ∀ x, x ∈ l → p x = false.
Proof.
  induction l as [|y l IH]; cbn; [set_solver|]. destruct (p y) eqn:E.
  - split; [done|]. intros H. specialize (H y). rewrite H in E; [done|left].
  - rewrite IH. set_solver.
Qed.

(** [sum(p(x) for x in l)] *)
Fixpoint count_of {A} (p : A → bool) (l : list A) : nat :=
  match l with
  | [] => 0
  | x :: l' => (if p x then 1 else 0) + count_of p l'
  end.

Lemma count_of_0 {A} (p : A → bool) l : count_of p l = 0 ↔ ∀ x, x ∈ l → p x = false.
Proof.
  induction l as [|y l IH]; cbn; [set_solver|].
  destruct (p y) eqn:E; cbn.
  - split; [lia|]. intros H. specialize (H y). rewrite H in E; [done|left].
  - rewrite IH. set_solver.
Qed.

Lemma count_of_app {A} (p : A → bool) l k : count_of p (l ++ k) = count_of p l + count_of p k.
Proof. induction l as [|y l IH]; cbn; lia. Qed.

Lemma count_of_le_length {A} (p : A → bool) l : count_of p l ≤ length l.
Proof. induction l as [|y l IH]; cbn; [lia|]. case_match; lia. Qed.

Lemma filter_all {A} (P : A → Prop) `{∀ x, Decision (P x)} (l : list A) :
  (∀ x, x ∈ l → P x) → filter P l = l.
Proof.
  induction l as [|x l IH]; intros Hl; [done|]. rewrite filter_cons_True by (apply Hl; left).
  rewrite IH; [done|]. intros y Hy. apply Hl. by right.
Qed.

(** ** Datetimes

    A Python [datetime] is its wall-clock reading in microseconds together
    with its UTC offset; a naive value has none.  Aware values compare by
    their instant. *)
Record datetime : Type := DT { wall : Z; utcoffset : option Z }.

#[export] Instance datetime_eq_dec : EqDecision datetime.
Proof. solve_decision. Defined.

Definition aware (d : datetime) : bool := bool_decide (is_Some (utcoffset d)).

(** The UTC instant of a value, in microseconds. *)
Definition instant (d : datetime) : Z := wall d - default 0%Z (utcoffset d).

(** [d.astimezone(timezone.utc)] of an aware value. *)
Definition as_utc (d : datetime) : datetime := DT (instant d) (Some 0%Z).

(** [d.replace(tzinfo=timezone.utc)]. *)
Definition replace_utc (d : datetime) : datetime := DT (wall d) (Some 0%Z).

Definition seconds (n : Z) : Z := (n * 1000000)%Z.
Definition hours (n : Z) : Z := seconds (n * 3600).
Definition days (n : Z) : Z := hours (n * 24).

Lemma instant_as_utc d : instant (as_utc d) = instant d.
Proof. unfold instant, as_utc. cbn. by rewrite Z.sub_0_r. Qed.

(** [d == d'] of two datetimes: aware values by instant, naive ones by their
    reading, never one of each. *)
Definition datetime_eqb (d d' : datetime) : bool :=
  match aware d, aware d' with
  | true, true => (instant d =? instant d')%Z
  | false, false => (wall d =? wall d')%Z
  | _, _ => false
  end.

Lemma datetime_eqb_refl d : datetime_eqb d d = true.
Proof. unfold datetime_eqb. case_match; apply Z.eqb_refl. Qed.

(** [d + timedelta(seconds=n)]. *)
Definition plus_seconds (d : datetime) (n : Z) : datetime := DT (wall d + seconds n) (utcoffset d).

Lemma instant_plus_seconds d n : instant (plus_seconds d n) = (instant d + seconds n)%Z.
Proof. unfold instant, plus_seconds. cbn. lia. Qed.

(** ** Python dictionaries, in insertion order

    Assigning to a present key keeps its place; a new key goes last. *)
Abbreviation dict V := (list (string * V)).

Fixpoint dict_get {V} (k : string) (d : dict V) : option V :=
  match d with
  | [] => None
  | (k', v) :: d' => if String.eqb k' k then Some v else dict_get k d'
  end.

Fixpoint dict_set {V} (k : string) (v : V) (d : dict V) : dict V :=
  match d with
  | [] => [(k, v)]
  | (k', v') :: d' => if String.eqb k' k then (k', v) :: d' else (k', v') :: dict_set k v d'
  end.

(** [d.pop(k, None)]: the dictionary without the key. *)
Definition dict_pop {V} (k : string) (d : dict V) : dict V :=
  filter (λ kv, kv.1 ≠ k) d.

Definition dict_ok {V} (d : dict V) : Prop := NoDup d.*1.

Lemma dict_get_set {V} k k' (v : V) d :
  dict_get k (dict_set k' v d) = if String.eqb k' k then Some v else dict_get k d.
Proof.
  induction d as [|[k0 v0] d IH]; cbn; [done|].
  destruct (String.eqb_spec k0 k') as [->|H0]; cbn.
  - by destruct (String.eqb k' k).
  - rewrite IH. destruct (String.eqb_spec k0 k) as [->|]; [|done].
    by destruct (String.eqb_spec k' k) as [->|].
Qed.

Lemma dict_get_pop {V} k k' (d : dict V) :
  dict_get k (dict_pop k' d) = if String.eqb k' k then None else dict_get k d.
Proof.
  unfold dict_pop. induction d as [|[k0 v0] d IH]; [cbn; by destruct (String.eqb k' k)|].
  rewrite filter_cons. cbn [fst dict_get]. destruct (decide (k0 ≠ k')) as [H0|H0%dec_stable].
  - cbn. rewrite IH. destruct (String.eqb_spec k0 k) as [->|]; [|done].
    by destruct (String.eqb_spec k' k) as [->|].
  - subst k0. rewrite IH. by destruct (String.eqb k' k).
Qed.

Lemma dict_get_elem {V} k (v : V) d : dict_ok d → dict_get k d = Some v ↔ (k, v) ∈ d.
Proof.
  unfold dict_ok. induction d as [|[k0 v0] d IH]; cbn; [set_solver|].
  intros [Hn Hd]%NoDup_cons. rewrite elem_of_cons. destruct (String.eqb_spec k0 k) as [->|H0].
  - split; [intros [= ->]; by left|]. intros [[= ->]|Hin]; [done|].
    destruct Hn. apply list_elem_of_fmap. by exists (k, v).
  - rewrite IH by done. split; [by right|]. by intros [[= -> ->]|].
Qed.

Lemma dict_keys_get {V} k (d : dict V) : k ∈ d.*1 ↔ is_Some (dict_get k d).
Proof.
  induction d as [|[k0 v0] d IH]; cbn; [split; [set_solver|by intros [? ?]]|].
  rewrite elem_of_cons, IH. destruct (String.eqb_spec k0 k) as [->|H0].
  - split; [by eexists|by left].
  - split; [by intros [->|]|by right].
Qed.

Lemma dict_set_ok {V} k (v : V) d : dict_ok d → dict_ok (dict_set k v d).
Proof.
  unfold dict_ok. induction d as [|[k0 v0] d IH]; cbn; [intros _; apply NoDup_singleton|].
  intros [Hn Hd]%NoDup_cons. destruct (String.eqb_spec k0 k) as [->|H0]; cbn; [by constructor|].
  constructor; [|by apply IH]. rewrite dict_keys_get, dict_get_set in *.
  destruct (String.eqb_spec k k0); [congruence|done].
Qed.

Lemma dict_pop_ok {V} k (d : dict V) : dict_ok d → dict_ok (dict_pop k d).
Proof.
  unfold dict_ok, dict_pop. intros H. eapply sublist_NoDup; [exact H|].
  apply fmap_sublist, sublist_filter.
Qed.

Lemma dict_set_length {V} k (v : V) d :
  length (dict_set k v d) = (length d + match dict_get k d with Some _ => 0 | None => 1 end)%nat.
Proof.
  induction d as [|[k0 v0] d IH]; cbn; [done|].
  destruct (String.eqb k0 k); cbn; [lia|]. rewrite IH. lia.
Qed.

(** ** Calls that never raise *)

Lemma bind_total {A B} (m : outcome A) (f : A → outcome B) :
  is_ok m = true → (∀ a, m = Ok a → is_ok (f a) = true) → is_ok (m ≫= f) = true.
Proof. destruct m as [a|]; [|done]. intros _ H. by apply H. Qed.

Lemma traverse_total {A B} (f : A → outcome B) l :
  (∀ x, x ∈ l → is_ok (f x) = true) → is_ok (traverse f l) = true.
Proof.
  induction l as [|x l IH]; intros H; [done|]. cbn [traverse].
  apply bind_total; [apply H; left|]. intros y _. apply bind_total; [|done].
  apply IH. intros z Hz. apply H. by right.
Qed.

(** ** Sets of list elements: [len(set(l)) == len(l)] *)

Lemma remove_dups_length `{EqDecision A} (l : list A) : length (remove_dups l) ≤ length l.
Proof. induction l as [|x l IH]; cbn; [lia|]. destruct (decide_rel elem_of x l); cbn; lia. Qed.

Lemma concat_elem {A} (ls : list (list A)) x : x ∈ concat ls ↔ ∃ l, l ∈ ls ∧ x ∈ l.
Proof. rewrite list_elem_of_In, List.in_concat. by setoid_rewrite list_elem_of_In. Qed.

Lemma remove_dups_full `{EqDecision A} (l : list A) : length (remove_dups l) = length l → NoDup l.
Proof.
  induction l as [|x l IH]; cbn; [constructor|]. pose proof (remove_dups_length l).
  destruct (decide_rel elem_of x l); cbn; [lia|]. intros E. constructor; [done|apply IH; lia].
Qed.
