(* ===== verification/PyStr.v ===== *)
(** * PyStr: the [str] operations the program uses

    A Python [str] is modelled by its sequence of code points, restricted to
    the first 256 (one [ascii] per code point, U+0000 to U+00FF).  On that
    range the character predicates below are the ones of the Unicode tables
    CPython uses: U+0085 and U+00A0 are whitespace, the superscript digits
    are [isdigit] but not decimal, and [lower] maps U+00C0..U+00DE.  Text
    outside the range is not modelled. *)

From S2P Require Import Prelude.
From Stdlib Require Import DecimalString DecimalN DecimalFacts.

(** ** Characters *)

Definition code (c : ascii) : N := Ascii.N_of_ascii c.

Definition between (lo hi : N) (c : ascii) : bool := (lo <=? code c)%N && (code c <=? hi)%N.

Definition is_char (d c : ascii) : bool := Ascii.eqb d c.

(** [ch in "…"] *)
Definition one_of (cs : string) (c : ascii) : bool :=
  existsb (is_char c) (String.list_ascii_of_string cs).

(** [str.isspace] of one character. *)
Definition is_space (c : ascii) : bool :=
  between 9 13 c || between 28 32 c || (code c =? 133)%N || (code c =? 160)%N.

(** [0-9]; also what [\d] matches in this range. *)
Definition is_digit (c : ascii) : bool := between 48 57 c.

(** [str.isdigit] of one character: the decimals and U+00B2, U+00B3, U+00B9. *)
Definition is_digit_char (c : ascii) : bool :=
  is_digit c || between 178 179 c || (code c =? 185)%N.

Definition is_lower_az (c : ascii) : bool := between 97 122 c.
Definition is_upper_az (c : ascii) : bool := between 65 90 c.
Definition is_ascii_letter (c : ascii) : bool := is_lower_az c || is_upper_az c.
Definition is_ascii_alnum (c : ascii) : bool := is_digit c || is_ascii_letter c.

(** [str.isalpha] and [str.isalnum] of one character. *)
Definition is_alpha (c : ascii) : bool :=
  is_ascii_letter c || (code c =? 170)%N || (code c =? 181)%N || (code c =? 186)%N
  || between 192 214 c || between 216 246 c || between 248 255 c.

Definition is_alnum (c : ascii) : bool :=
  is_alpha c || is_digit_char c || between 188 190 c.

(** [a-f0-9] *)
Definition is_hex_lower (c : ascii) : bool := is_digit c || between 97 102 c.

(** [[A-Za-z0-9_-]], the URL-safe base64 alphabet. *)
Definition is_urlsafe (c : ascii) : bool := is_ascii_alnum c || one_of "_-" c.

(** [str.lower] of one character. *)
Definition lower_char (c : ascii) : ascii :=
  if is_upper_az c || (between 192 222 c && negb (code c =? 215)%N)
  then Ascii.ascii_of_N (code c + 32) else c.

(** ** Strings as lists of characters *)

Definition chars (s : string) : list ascii := String.list_ascii_of_string s.
Definition text (l : list ascii) : string := String.string_of_list_ascii l.

(** [len(s)] *)
Definition len (s : string) : nat := length (chars s).

Definition all_chars (p : ascii → bool) (s : string) : bool := forallb p (chars s).
Definition any_char (p : ascii → bool) (s : string) : bool := existsb p (chars s).

(** [bool(s)] *)
Definition truthy (s : string) : bool := negb (String.eqb s "").

(** [bool(x)] of an optional string. *)
Definition truthy_opt (s : option string) : bool := from_option truthy false s.

Definition last_char (s : string) : option ascii := last (chars s).
Definition first_char (s : string) : option ascii := head (chars s).

Fixpoint drop_while (p : ascii → bool) (l : list ascii) : list ascii :=
  match l with
  | [] => []
  | c :: l' => if p c then drop_while p l' else l
  end.

Fixpoint take_while (p : ascii → bool) (l : list ascii) : list ascii :=
  match l with
  | [] => []
  | c :: l' => if p c then c :: take_while p l' else []
  end.

Definition rdrop_while (p : ascii → bool) (l : list ascii) : list ascii :=
  reverse (drop_while p (reverse l)).

(** [s.strip()], [s.strip(chars)], [s.rstrip(chars)] *)
Definition strip (s : string) : string :=
  text (rdrop_while is_space (drop_while is_space (chars s))).
Definition strip_chars (cs : string) (s : string) : string :=
  text (rdrop_while (one_of cs) (drop_while (one_of cs) (chars s))).
Definition rstrip_chars (cs : string) (s : string) : string :=
  text (rdrop_while (one_of cs) (chars s)).

(** [s.lower()] *)
Definition lower (s : string) : string := text (map lower_char (chars s)).

(** [s.split(c)] on a one-character separator: never empty. *)
Fixpoint split_chars (d : ascii) (l : list ascii) : list (list ascii) :=
  match l with
  | [] => [[]]
  | c :: l' =>
      if is_char d c then [] :: split_chars d l'
      else match split_chars d l' with
           | [] => [[c]]
           | w :: ws => (c :: w) :: ws
           end
  end.
Definition split_on (d : ascii) (s : string) : list string := map text (split_chars d (chars s)).

(** [s.split()]: maximal runs of non-whitespace. *)
Fixpoint split_space_aux (cur : list ascii) (l : list ascii) : list (list ascii) :=
  match l with
  | [] => match cur with [] => [] | _ => [reverse cur] end
  | c :: l' =>
      if is_space c
      then match cur with [] => split_space_aux [] l' | _ => reverse cur :: split_space_aux [] l' end
      else split_space_aux (c :: cur) l'
  end.
Definition split_space (s : string) : list string := map text (split_space_aux [] (chars s)).

(** [s.split(c, 1)] / [s.partition(c)]: the parts around the first [c]. *)
Fixpoint partition_chars (d : ascii) (l : list ascii) : list ascii * option (list ascii) :=
  match l with
  | [] => ([], None)
  | c :: l' =>
      if is_char d c then ([], Some l')
      else let '(a, b) := partition_chars d l' in (c :: a, b)
  end.
Definition partition (d : ascii) (s : string) : string * option string :=
  let '(a, b) := partition_chars d (chars s) in (text a, text <$> b).

(** [s.rsplit(c, 1)] where [c] occurs: the parts around the last [c]. *)
Definition rpartition (d : ascii) (s : string) : option (string * string) :=
  match partition_chars d (reverse (chars s)) with
  | (tl, Some hd) => Some (text (reverse hd), text (reverse tl))
  | (_, None) => None
  end.

(** [sep.join(l)] *)
Definition join (sep : string) (l : list string) : string := String.concat sep l.

(** [s.startswith(p)], [s.endswith(p)], [p in s], [s.count(c)] *)
Definition startswith (p s : string) : bool := String.prefix p s.
Definition endswith (p s : string) : bool :=
  String.prefix (text (reverse (chars p))) (text (reverse (chars s))).
Fixpoint contains (p s : string) : bool :=
  String.prefix p s || match s with EmptyString => false | String _ s' => contains p s' end.
Definition count_char (d : ascii) (s : string) : nat := count_of (is_char d) (chars s).

(** [s.replace(a, b)] for one-character [a] and [b]. *)
Definition replace_char (a b : ascii) (s : string) : string :=
  text (map (λ c, if is_char a c then b else c) (chars s)).

(** [s[:n]] *)
Definition str_take (n : nat) (s : string) : string := text (take n (chars s)).

(** [s[n:]] *)
Definition str_drop (n : nat) (s : string) : string := text (drop n (chars s)).

(** [s.replace(old, new)] for a non-empty [old]: [skip] counts the characters
    of a replaced occurrence still to pass over. *)
Fixpoint replace_chars (old new : list ascii) (skip : nat) (l : list ascii) : list ascii :=
  match l with
  | [] => []
  | c :: l' =>
      match skip with
      | S k => replace_chars old new k l'
      | O =>
          if bool_decide (take (length old) l = old)
          then new ++ replace_chars old new (length old - 1) l'
          else c :: replace_chars old new 0 l'
      end
  end.
Definition replace_str (old new s : string) : string :=
  text (replace_chars (chars old) (chars new) 0 (chars s)).

(** [s.encode("utf-8")], as a string of bytes; every modelled code point
    takes one or two. *)
Definition utf8_char (c : ascii) : string :=
  (if (code c <? 128)%N then String c ""
   else String (Ascii.ascii_of_N (192 + code c / 64)) (String (Ascii.ascii_of_N (128 + code c mod 64)) ""))%N.
Definition utf8 (s : string) : string := join "" (map utf8_char (chars s)).

(** Membership of a string in a literal set or tuple. *)
Definition mem (s : string) (l : list string) : bool := existsb (String.eqb s) l.

(** ** Integers *)

(** [str(n)] of a non-negative integer. *)
Definition str_of_N (n : N) : string := NilEmpty.string_of_uint (N.to_uint n).
Definition str_of_nat (n : nat) : string := str_of_N (N.of_nat n).
Definition str_of_Z (z : Z) : string :=
  match z with
  | Zneg p => ("-" ++ str_of_N (Npos p))%string
  | _ => str_of_N (Z.to_N z)
  end.

(** The value of a run of decimal digits. *)
Definition digits_value (s : string) : N := default 0%N (N.of_uint <$> NilEmpty.uint_of_string s).

(** CPython's limit on the digits [int(str)] converts. *)
Definition INT_MAX_STR_DIGITS : nat := 4300.

(** [int(s)] of a string of decimal digits: more digits than the interpreter
    limit raise [ValueError]. *)
Definition py_int (s : string) : outcome N :=
  raise "ValueError" when (INT_MAX_STR_DIGITS <? len s)%nat;;
  Ok (digits_value s).

(** Lexicographic order of code points, [s < t]. *)
Fixpoint str_ltb (s t : string) : bool :=
  match s, t with
  | _, EmptyString => false
  | EmptyString, String _ _ => true
  | String a s', String b t' => (code a <? code b)%N || ((code a =? code b)%N && str_ltb s' t')
  end.

(** [sorted(...)] of strings: stable, by code points. *)
Definition str_le (s t : string) : Prop := str_ltb t s = false.
#[export] Instance str_le_dec s t : Decision (str_le s t).
Proof. unfold str_le. apply _. Defined.
Definition sorted_strs (l : list string) : list string := merge_sort str_le l.

(** [sorted(set(l))] *)
Definition sorted_set (l : list string) : list string := sorted_strs (remove_dups l).

(** ** Lemmas *)

Lemma chars_text l : chars (text l) = l.
Proof. apply String.list_ascii_of_string_of_list_ascii. Qed.

Lemma text_chars s : text (chars s) = s.
Proof. apply String.string_of_list_ascii_of_string. Qed.

Lemma append_cons c s t : (String c s ++ t)%string = String c (s ++ t)%string.
Proof. reflexivity. Qed.

Lemma append_nil t : ("" ++ t)%string = t.
Proof. reflexivity. Qed.

Lemma text_app l k : text (l ++ k) = (text l ++ text k)%string.
Proof.
  induction l as [|c l IH]; [done|].
  change (String c (text (l ++ k)) = String c (text l) ++ text k)%string. by rewrite IH, append_cons.
Qed.

Lemma chars_app s t : chars (s ++ t)%string = chars s ++ chars t.
Proof.
  induction s as [|c s IH]; [done|].
  change (c :: chars (s ++ t)%string = c :: chars s ++ chars t). by rewrite IH.
Qed.

Lemma chars_inj s t : chars s = chars t → s = t.
Proof. intros H. by rewrite <- (text_chars s), <- (text_chars t), H. Qed.

Lemma text_inj l k : text l = text k → l = k.
Proof. intros H. by rewrite <- (chars_text l), <- (chars_text k), H. Qed.

Lemma len_app s t : len (s ++ t)%string = len s + len t.
Proof. unfold len. by rewrite chars_app, length_app. Qed.

Lemma all_chars_app p s t : all_chars p (s ++ t)%string = all_chars p s && all_chars p t.
Proof. unfold all_chars. by rewrite chars_app, forallb_app. Qed.

Lemma all_chars_Forall p s : all_chars p s = true ↔ Forall (λ c, p c = true) (chars s).
Proof.
  unfold all_chars. rewrite forallb_forall, Forall_forall. by setoid_rewrite list_elem_of_In.
Qed.

Lemma all_chars_impl (p q : ascii → bool) s :
  (∀ c, p c = true → q c = true) → all_chars p s = true → all_chars q s = true.
Proof. rewrite !all_chars_Forall. intros Hpq H. by eapply Forall_impl. Qed.

Lemma mem_true s l : mem s l = true ↔ s ∈ l.
Proof.
  unfold mem. rewrite existsb_exists. setoid_rewrite String.eqb_eq.
  setoid_rewrite <- list_elem_of_In. naive_solver.
Qed.

(** A property of characters decided by running through all 256 of them. *)
Definition all_ascii : list ascii := Ascii.ascii_of_nat <$> seq 0 256.

Lemma all_ascii_complete c : c ∈ all_ascii.
Proof.
  unfold all_ascii. apply list_elem_of_fmap. exists (Ascii.nat_of_ascii c).
  rewrite Ascii.ascii_nat_embedding. split; [done|]. apply elem_of_seq.
  pose proof (Ascii.nat_ascii_bounded c). lia.
Qed.

Lemma every_char (p : ascii → bool) : forallb p all_ascii = true → ∀ c, p c = true.
Proof.
  intros H c. rewrite forallb_forall in H. apply H, list_elem_of_In, all_ascii_complete.
Qed.

(** Splitting on a separator undoes joining with it. *)
Lemma split_chars_no_sep d l : Forall (λ c, is_char d c = false) l → split_chars d l = [l].
Proof. induction 1 as [|c l Hc _ IH]; cbn; [done|]. by rewrite Hc, IH. Qed.

Lemma split_chars_app d l k :
  Forall (λ c, is_char d c = false) l → split_chars d (l ++ d :: k) = l :: split_chars d k.
Proof.
  induction 1 as [|c l Hc _ IH]; cbn.
  - unfold is_char at 1. by rewrite Ascii.eqb_refl.
  - by rewrite Hc, IH.
Qed.

Lemma split_join d ss :
  ss ≠ [] → Forall (λ s, all_chars (λ c, negb (is_char d c)) s = true) ss →
  split_on d (join (String d "") ss) = ss.
Proof.
  assert (Hno : ∀ s, all_chars (λ c, negb (is_char d c)) s = true →
            Forall (λ c, is_char d c = false) (chars s)).
  { intros s H%all_chars_Forall. eapply Forall_impl; [exact H|]. cbn. by intros c ->%negb_true_iff. }
  intros Hne Hss. unfold split_on, join.
  induction Hss as [|s ss Hs Hss IH]; [done|]. destruct ss as [|s' ss].
  - cbn. rewrite split_chars_no_sep by auto. cbn. by rewrite text_chars.
  - change (String.concat (String d "") (s :: s' :: ss))
      with (s ++ String d "" ++ String.concat (String d "") (s' :: ss))%string.
    rewrite !chars_app. cbn [chars String.list_ascii_of_string app].
    rewrite split_chars_app by auto. cbn [map]. rewrite text_chars, IH; done.
Qed.

(** ** The order of strings *)

Lemma str_ltb_asym s t : str_ltb s t = true → str_ltb t s = false.
Proof.
  revert t. induction s as [|a s IH]; intros [|b t]; cbn; try done.
  rewrite orb_true_iff, andb_true_iff, N.ltb_lt, N.eqb_eq. intros [H|[H Hs]].
  - rewrite orb_false_iff, andb_false_iff, N.ltb_ge, N.eqb_neq. split; [lia|left; lia].
  - rewrite orb_false_iff, andb_false_iff, N.ltb_ge. split; [lia|right; by apply IH].
Qed.

Lemma str_le_total s t : str_le s t ∨ str_le t s.
Proof.
  unfold str_le. destruct (str_ltb t s) eqn:E; [|by left]. right. by apply str_ltb_asym.
Qed.

Lemma code_inj a b : code a = code b → a = b.
Proof.
  unfold code. intros H. by rewrite <- (Ascii.ascii_N_embedding a), H, Ascii.ascii_N_embedding.
Qed.

Lemma str_le_antisym s t : str_le s t → str_le t s → s = t.
Proof.
  unfold str_le. revert t. induction s as [|a s IH]; intros [|b t]; cbn; try done.
  rewrite !orb_false_iff, !andb_false_iff, !N.ltb_ge, !N.eqb_neq. intros [? H1] [? H2].
  assert (Hab : code a = code b) by lia. rewrite (code_inj _ _ Hab). f_equal.
  apply IH; naive_solver.
Qed.

(** ** The decimal text of integers *)

Lemma string_of_uint_len u : len (NilEmpty.string_of_uint u) = Decimal.nb_digits u.
Proof. unfold len, chars. induction u; cbn; lia. Qed.

Lemma string_of_uint_digits u : all_chars is_digit (NilEmpty.string_of_uint u) = true.
Proof. unfold all_chars, chars. induction u as [|u IH|u IH|u IH|u IH|u IH|u IH|u IH|u IH|u IH|u IH]; cbn; done. Qed.

Lemma revapp_nb_digits u v :
  Decimal.nb_digits (Decimal.revapp u v) = Decimal.nb_digits u + Decimal.nb_digits v.
Proof. revert v. induction u; intros v; cbn [Decimal.revapp]; try rewrite IHu; cbn; lia. Qed.

Lemma double_nb_digits u :
  Decimal.nb_digits (Decimal.Little.double u) ≤ S (Decimal.nb_digits u)
  ∧ Decimal.nb_digits (Decimal.Little.succ_double u) ≤ S (Decimal.nb_digits u).
Proof. induction u; cbn; lia. Qed.

Lemma little_nb_digits p : Decimal.nb_digits (Pos.to_little_uint p) ≤ Pos.size_nat p.
Proof.
  induction p as [p IH|p IH|]; cbn; [| |lia];
    destruct (double_nb_digits (Pos.to_little_uint p)); lia.
Qed.

(** A number of [b] bits has at most [b] digits. *)
Lemma str_of_N_len n b : (n < 2 ^ N.of_nat b)%N → 1 ≤ b → len (str_of_N n) ≤ b.
Proof.
  intros Hn Hb. unfold str_of_N. rewrite string_of_uint_len. destruct n as [|p]; [cbn; lia|].
  cbn. unfold Pos.to_uint, Decimal.rev. rewrite revapp_nb_digits. cbn.
  pose proof (little_nb_digits p). enough (Pos.size_nat p ≤ b) by lia. clear H Hb.
  revert b Hn. induction p as [p IH|p IH|]; intros [|b] Hn; cbn; try lia.
  - rewrite Nat2N.inj_succ, N.pow_succ_r' in Hn. specialize (IH b). lia.
  - rewrite Nat2N.inj_succ, N.pow_succ_r' in Hn. specialize (IH b). lia.
Qed.

Lemma str_of_N_digits n : all_chars is_digit (str_of_N n) = true.
Proof. apply string_of_uint_digits. Qed.

Lemma str_of_N_value n : digits_value (str_of_N n) = n.
Proof.
  unfold digits_value, str_of_N. rewrite NilEmpty.usu. cbn. apply DecimalN.Unsigned.of_to.
Qed.

(** No leading zero. *)
Lemma str_of_N_first n : n ≠ 0%N → from_option (between 49 57) false (first_char (str_of_N n)) = true.
Proof.
  intros Hn. unfold str_of_N, first_char, chars.
  assert (Hu : N.to_uint n = Decimal.nzhead (N.to_uint n) ∧ N.to_uint n ≠ Decimal.Nil).
  { pose proof (DecimalN.Unsigned.to_of (N.to_uint n)) as H. rewrite DecimalN.Unsigned.of_to in H.
    assert (Hz : Decimal.nzhead (N.to_uint n) ≠ Decimal.Nil).
    { intros E%DecimalFacts.unorm_0. rewrite E in H. apply Hn. rewrite <- (DecimalN.Unsigned.of_to n), H. done. }
    pose proof (DecimalFacts.unorm_nzhead _ Hz) as Hn'. split; [congruence|].
    rewrite H. apply DecimalFacts.unorm_nonnil. }
  destruct Hu as [Hu Hnil]. destruct (N.to_uint n) eqn:E; cbn; try done.
  symmetry in Hu. by apply DecimalFacts.nzhead_nonzero in Hu.
Qed.

Lemma py_int_str_of_N n : (n < 2 ^ 4300)%N → py_int (str_of_N n) = Ok n.
Proof.
  intros Hn. unfold py_int, INT_MAX_STR_DIGITS.
  pose proof (str_of_N_len n (Z.to_nat 4300)) as Hl. rewrite Z_nat_N in Hl.
  specialize (Hl Hn ltac:(lia)). destruct (Nat.ltb_spec 4300 (len (str_of_N n))) as [Hlt|_]; [lia|].
  by rewrite str_of_N_value.
Qed.

(** ** Stripping *)

Lemma drop_while_head p l : from_option p false (head l) = false → drop_while p l = l.
Proof. destruct l as [|c l]; cbn; [done|]. by intros ->. Qed.

(** Text that neither starts nor ends with whitespace is its own strip. *)
Lemma strip_id s :
  from_option is_space false (first_char s) = false →
  from_option is_space false (last_char s) = false → strip s = s.
Proof.
  unfold first_char, last_char, strip, rdrop_while. intros Hf Hl.
  rewrite (drop_while_head is_space (chars s)) by done.
  rewrite drop_while_head; [by rewrite reverse_involutive, text_chars|].
  by rewrite head_reverse.
Qed.

Lemma drop_while_first p l : from_option p false (head (drop_while p l)) = false.
Proof. induction l as [|c l IH]; cbn; [done|]. by destruct (p c) eqn:E. Qed.

Lemma drop_while_suffix p l : ∃ l', l = l' ++ drop_while p l.
Proof.
  induction l as [|c l [l' IH]]; cbn; [by exists []|]. destruct (p c); [|by exists []].
  exists (c :: l'). cbn. by rewrite <- IH.
Qed.

(** [strip] is idempotent. *)
Lemma strip_strip s : strip (strip s) = strip s.
Proof.
  apply strip_id; unfold first_char, last_char, strip, rdrop_while; rewrite chars_text.
  - set (l := drop_while is_space (chars s)).
    destruct (drop_while_suffix is_space (reverse l)) as [l' E].
    apply (f_equal reverse) in E. rewrite reverse_involutive, reverse_app in E.
    pose proof (drop_while_first is_space (chars s)) as Hf. fold l in Hf. rewrite E in Hf.
    by destruct (reverse (drop_while is_space (reverse l))).
  - rewrite <- head_reverse, reverse_involutive. apply drop_while_first.
Qed.

Lemma lower_id s : all_chars is_hex_lower s = true → lower s = s.
Proof.
  intros H%all_chars_Forall. unfold lower. rewrite <- (text_chars s) at 2. f_equal.
  induction H as [|c l Hc _ IH]; cbn; [done|]. rewrite IH. f_equal.
  assert (Hall : ∀ c, negb (is_hex_lower c) || Ascii.eqb (lower_char c) c = true)
    by (apply every_char; vm_compute; reflexivity).
  specialize (Hall c). rewrite Hc in Hall. by apply Ascii.eqb_eq.
Qed.

Lemma every_char' (p q : ascii → bool) :
  forallb (λ c, negb (p c) || q c) all_ascii = true → ∀ c, p c = true → q c = true.
Proof. intros H c Hp. pose proof (every_char _ H c) as Hc. cbn in Hc. by rewrite Hp in Hc. Qed.

Lemma str_ltb_trans s t u : str_ltb s t = true → str_ltb t u = true → str_ltb s u = true.
Proof.
  revert t u. induction s as [|a s IH]; intros [|b t] [|c u]; cbn; try done.
  rewrite !orb_true_iff, !andb_true_iff, !N.ltb_lt, !N.eqb_eq.
  intros [H1|[H1 H1']] [H2|[H2 H2']]; [left; lia|left; lia|left; lia|right; split; [lia|by eapply IH]].
Qed.

(** ** Lengths *)

Lemma drop_while_length p l : length (drop_while p l) ≤ length l.
Proof. induction l as [|c l IH]; cbn; [lia|]. case_match; cbn; lia. Qed.

Lemma take_while_length p l : length (take_while p l) ≤ length l.
Proof. induction l as [|c l IH]; cbn; [lia|]. case_match; cbn; lia. Qed.

Lemma strip_len s : len (strip s) ≤ len s.
Proof.
  unfold strip, len, rdrop_while. rewrite chars_text, length_reverse.
  etrans; [apply drop_while_length|]. rewrite length_reverse. apply drop_while_length.
Qed.

Lemma split_chars_length d l w : w ∈ split_chars d l → length w ≤ length l.
Proof.
  revert w. induction l as [|c l IH]; intros w; cbn; [by intros ->%list_elem_of_singleton|].
  destruct (is_char d c).
  - intros [->|Hw]%elem_of_cons; [cbn; lia|]. apply IH in Hw. lia.
  - destruct (split_chars d l) as [|w0 ws]; [intros ->%list_elem_of_singleton; cbn; lia|].
    intros [->|Hw]%elem_of_cons; cbn; [specialize (IH w0 ltac:(left)); lia|].
    specialize (IH w ltac:(by right)). lia.
Qed.

Lemma split_on_len d s w : w ∈ split_on d s → len w ≤ len s.
Proof.
  unfold split_on, len. rewrite list_elem_of_fmap. intros (l & -> & Hl).
  rewrite chars_text. by eapply split_chars_length.
Qed.

Lemma partition_chars_length d l a b :
  partition_chars d l = (a, b) → length a ≤ length l ∧ from_option length 0 b ≤ length l.
Proof.
  revert a b. induction l as [|c l IH]; intros a b; cbn; [intros [= <- <-]; cbn; lia|].
  destruct (is_char d c); [intros [= <- <-]; cbn; lia|].
  destruct (partition_chars d l) as [a' b'] eqn:E. intros [= <- <-].
  destruct (IH _ _ eq_refl). cbn. lia.
Qed.

Lemma partition_len d s a b :
  partition d s = (a, b) → len a ≤ len s ∧ ∀ t, b = Some t → len t ≤ len s.
Proof.
  unfold partition, len. destruct (partition_chars d (chars s)) as [x y] eqn:E. intros [= <- <-].
  apply partition_chars_length in E as [Ha Hb]. rewrite chars_text. split; [done|].
  intros t Ht. destruct y as [y|]; [|done]. injection Ht as <-. by rewrite chars_text.
Qed.

Lemma split_space_aux_length cur l w : w ∈ split_space_aux cur l → length w ≤ length cur + length l.
Proof.
  revert cur w. induction l as [|c l IH]; intros cur w; cbn.
  - destruct cur; [by intros ?%elem_of_nil|]. intros ->%list_elem_of_singleton. rewrite length_reverse. lia.
  - destruct (is_space c).
    + destruct cur; [intros Hw%IH; cbn in *; lia|].
      intros [->|Hw%IH]%elem_of_cons; [rewrite length_reverse; lia|cbn in *; lia].
    + intros Hw%IH. cbn in *. lia.
Qed.

Lemma split_space_len s w : w ∈ split_space s → len w ≤ len s.
Proof.
  unfold split_space, len. rewrite list_elem_of_fmap. intros (l & -> & Hl).
  rewrite chars_text. apply split_space_aux_length in Hl. cbn in Hl. lia.
Qed.

Lemma replace_char_len a b s : len (replace_char a b s) = len s.
Proof. unfold replace_char, len. by rewrite chars_text, length_map. Qed.

Lemma py_int_ok s : len s ≤ Z.to_nat 4300 → is_ok (py_int s) = true.
Proof.
  intros H. unfold py_int, INT_MAX_STR_DIGITS.
  destruct (Nat.ltb_spec 4300 (len s)) as [Hlt|]; [lia|done].
Qed.

Lemma str_drop_len n s : len (str_drop n s) = len s - n.
Proof. unfold str_drop, len. by rewrite chars_text, length_drop. Qed.

(** ** Partition and strip of texts without the character *)

Lemma partition_none d s : all_chars (λ c, negb (is_char d c)) s = true → partition d s = (s, None).
Proof.
  intros H%all_chars_Forall. unfold partition. rewrite <- (text_chars s) at 2.
  enough (E : partition_chars d (chars s) = (chars s, None)) by by rewrite E.
  induction H as [|c l Hc _ IH]; cbn; [done|]. apply negb_true_iff in Hc. by rewrite Hc, IH.
Qed.

Lemma partition_some d s t :
  all_chars (λ c, negb (is_char d c)) s = true → partition d (s ++ String d t) = (s, Some t).
Proof.
  intros H%all_chars_Forall. unfold partition.
  enough (E : partition_chars d (chars (s ++ String d t)) = (chars s, Some (chars t)))
    by (rewrite E; cbn; by rewrite !text_chars).
  rewrite chars_app. induction H as [|c l Hc _ IH]; cbn.
  - unfold is_char. by rewrite Ascii.eqb_refl.
  - apply negb_true_iff in Hc. rewrite Hc. cbn in IH. by rewrite IH.
Qed.

Lemma strip_no_space s : all_chars (λ c, negb (is_space c)) s = true → strip s = s.
Proof.
  intros H%all_chars_Forall. rewrite Forall_forall in H. apply strip_id.
  - unfold first_char. destruct (chars s) as [|c l]; [done|]. cbn. apply negb_true_iff, H. left.
  - unfold last_char. destruct (last (chars s)) as [c|] eqn:E; [|done]. cbn.
    apply negb_true_iff, H. by apply last_Some_elem_of.
Qed.

Lemma all_chars_join p sep l :
  all_chars p sep = true → (∀ s, s ∈ l → all_chars p s = true) → all_chars p (join sep l) = true.
Proof.
  intros Hsep. unfold join. induction l as [|s l IH]; intros Hl; [done|].
  destruct l as [|s' l]; [apply Hl; left|].
  change (String.concat sep (s :: s' :: l)) with (s ++ sep ++ String.concat sep (s' :: l))%string.
  rewrite !all_chars_app, Hsep, (Hl s) by left. cbn [andb]. apply IH. intros x Hx. apply Hl. by right.
Qed.

Lemma split_on_chars p d s w :
  all_chars p s = true → w ∈ split_on d s → all_chars (λ c, p c && negb (is_char d c)) w = true.
Proof.
  intros H%all_chars_Forall. unfold split_on. rewrite list_elem_of_fmap. intros (l & -> & Hl).
  rewrite all_chars_Forall, chars_text. revert l Hl. induction H as [|c k Hc _ IH]; intros l; cbn.
  - intros ->%list_elem_of_singleton. constructor.
  - destruct (is_char d c) eqn:Ec.
    + intros [->|Hl]%elem_of_cons; [constructor|by apply IH].
    + destruct (split_chars d k) as [|w0 ws].
      * intros ->%list_elem_of_singleton. constructor; [by rewrite Hc, Ec|constructor].
      * intros [->|Hl]%elem_of_cons; [|apply IH; by right].
        constructor; [by rewrite Hc, Ec|]. apply IH. left.
Qed.

(** ** A text after a known prefix *)

Lemma startswith_text p s : startswith p (p ++ s)%string = true.
Proof.
  unfold startswith. induction p as [|c p IH]; [by destruct s|]. rewrite append_cons. cbn.
  destruct (Ascii.ascii_dec c c); [done|congruence].
Qed.

Lemma str_drop_text s t : str_drop (len s) (s ++ t)%string = t.
Proof. unfold str_drop, len. by rewrite chars_app, drop_app_length, text_chars. Qed.

Lemma startswith_inv p s : startswith p s = true → s = (p ++ str_drop (len p) s)%string.
Proof.
  unfold startswith, str_drop, len. revert s. induction p as [|c p IH]; intros [|d s] H; try done.
  - rewrite append_nil. cbn. symmetry. apply (text_chars (String d s)).
  - cbn in H. destruct (Ascii.ascii_dec c d) as [->|]; [|done]. rewrite append_cons. f_equal. by apply IH.
Qed.

(** ** Suffixes *)

Lemma startswith_chars p s : startswith p s = true ↔ ∃ r, chars s = chars p ++ r.
Proof.
  split.
  - intros H%startswith_inv. rewrite H, chars_app. eauto.
  - intros [r H]. rewrite <- (text_chars s), H, text_app, text_chars. apply startswith_text.
Qed.

Lemma endswith_chars p s : endswith p s = true ↔ ∃ r, chars s = r ++ chars p.
Proof.
  unfold endswith. change (String.prefix ?a ?b) with (startswith a b).
  rewrite startswith_chars, !chars_text. split; intros [r H].
  - exists (reverse r). apply (f_equal reverse) in H. by rewrite reverse_app, !reverse_involutive in H.
  - exists (reverse r). by rewrite H, reverse_app.
Qed.

(** The part after the last separator decides whether a text ends in one. *)
Lemma endswith_last_part d t pre s :
  all_chars (λ c, negb (is_char d c)) t = true → all_chars (λ c, negb (is_char d c)) s = true →
  endswith (String d t) (pre ++ String d s) = String.eqb s t.
Proof.
  intros Ht%all_chars_Forall Hs%all_chars_Forall. apply eq_bool_prop_intro.
  rewrite !Is_true_true, endswith_chars, String.eqb_eq. rewrite chars_app. cbn [chars String.list_ascii_of_string].
  split; [|intros ->; by exists (chars pre)]. intros [r H]. apply chars_inj. revert r H.
  change (String.list_ascii_of_string ?x) with (chars x).
  assert (Hd : ∀ l, Forall (λ c, negb (is_char d c) = true) l → d ∉ l).
  { intros l Hl Hin. rewrite Forall_forall in Hl. specialize (Hl d Hin). unfold is_char in Hl.
    by rewrite Ascii.eqb_refl in Hl. }
  apply Hd in Ht, Hs. generalize dependent (chars t). generalize dependent (chars s).
  induction (chars pre) as [|c l IH]; intros s' Hs t' Ht [|e r] H; simplify_eq/=; try done.
  - destruct Hs. apply elem_of_app. right. left.
  - destruct Ht. apply elem_of_app. right. left.
  - by eapply IH.
Qed.

(** ** Case folding *)

Lemma chars_lower s : chars (lower s) = map lower_char (chars s).
Proof. apply chars_text. Qed.

Lemma len_lower s : len (lower s) = len s.
Proof. unfold len. by rewrite chars_lower, length_map. Qed.

Lemma lower_lower s : lower (lower s) = lower s.
Proof.
  unfold lower. f_equal. rewrite chars_text, map_map. apply map_ext. intros c.
  assert (H : ∀ c, Ascii.eqb (lower_char (lower_char c)) (lower_char c) = true)
    by (apply every_char; vm_compute; reflexivity). by apply Ascii.eqb_eq.
Qed.

Lemma all_chars_lower p q s :
  (∀ c, implb (p c) (q (lower_char c)) = true) → all_chars p s = true → all_chars q (lower s) = true.
Proof.
  rewrite !all_chars_Forall, chars_lower. intros Hpq H. apply Forall_map. eapply Forall_impl; [exact H|].
  cbn. intros c Hc. specialize (Hpq c). by rewrite Hc in Hpq.
Qed.

Lemma lower_fixed p s :
  (∀ c, implb (p c) (Ascii.eqb (lower_char c) c) = true) → all_chars p s = true → lower s = s.
Proof.
  intros Hp H%all_chars_Forall. apply chars_inj. rewrite chars_lower.
  induction H as [|c l Hc _ IH]; cbn; [done|]. rewrite IH. f_equal. specialize (Hp c).
  rewrite Hc in Hp. by apply Ascii.eqb_eq.
Qed.

(** ** Substrings *)

Lemma contains_inv p s : contains p s = true ↔ ∃ a b, chars s = a ++ chars p ++ b.
Proof.
  revert p. induction s as [|c s IH]; intros p; cbn [contains]; rewrite orb_true_iff;
    change (String.prefix ?a ?b) with (startswith a b); rewrite startswith_chars.
  - split.
    + intros [[r H]|]; [|done]. by exists [], r.
    + intros (a & b & H). left. exists b. symmetry in H. by apply app_nil in H as [-> H].
  - rewrite IH. split.
    + intros [[r H]|(a & b & H)]; [by exists [], r|]. exists (c :: a), b.
      change (chars (String c s)) with (c :: chars s). by rewrite H.
    + intros ([|x a] & b & H); [left; by exists b|]. right. exists a, b.
      change (chars (String c s)) with (c :: chars s) in H. by injection H as -> H.
Qed.

(** A text whose characters are not all allowed is not a part of one whose
    characters are. *)
Lemma contains_outside p m s : all_chars p s = true → all_chars p m = false → contains m s = false.
Proof.
  intros Hs Hm. apply not_true_is_false. intros (a & b & H)%contains_inv.
  apply all_chars_Forall in Hs. rewrite H, !Forall_app in Hs. apply not_true_iff_false in Hm. apply Hm.
  apply all_chars_Forall. tauto.
Qed.

Lemma startswith_outside p m s : all_chars p s = true → all_chars p m = false → startswith m s = false.
Proof.
  intros Hs Hm. apply not_true_is_false. intros [r H]%startswith_chars.
  apply all_chars_Forall in Hs. rewrite H, !Forall_app in Hs. apply not_true_iff_false in Hm. apply Hm.
  apply all_chars_Forall. tauto.
Qed.

Lemma any_char_false p s : any_char p s = false ↔ all_chars (λ c, negb (p c)) s = true.
Proof.
  unfold any_char, all_chars. induction (chars s) as [|c l IH]; cbn; [done|].
  rewrite orb_false_iff, andb_true_iff, negb_true_iff. by rewrite IH.
Qed.

(** ** Joins and last separators *)

Lemma join_cons sep s t l : join sep (s :: t :: l) = (s ++ sep ++ join sep (t :: l))%string.
Proof. reflexivity. Qed.

(** ** Words *)

Lemma split_space_aux_word w : Forall (λ c, is_space c = false) w → ∀ cur l,
  split_space_aux cur (w ++ l) = split_space_aux (reverse w ++ cur) l.
Proof.
  induction 1 as [|c w Hc _ IH]; intros cur l; [done|].
  rewrite reverse_cons, <- app_assoc. cbn [app split_space_aux]. by rewrite Hc, IH.
Qed.

Lemma split_space_aux_words l cur : Forall (λ c, is_space c = false) cur →
  Forall (λ w, w ≠ [] ∧ Forall (λ c, is_space c = false) w) (split_space_aux cur l).
Proof.
  revert cur. induction l as [|c l IH]; intros cur Hc; cbn [split_space_aux].
  - destruct cur; constructor; [|constructor]. split; [intros E; apply (f_equal length) in E; rewrite length_reverse in E; done|by apply Forall_reverse].
  - destruct (is_space c) eqn:E; [|apply IH; by constructor].
    destruct cur; [by apply IH|]. constructor; [|by apply IH].
    split; [intros E'; apply (f_equal length) in E'; rewrite length_reverse in E'; done|by apply Forall_reverse].
Qed.

Lemma split_space_aux_join ws : Forall (λ w, w ≠ [] ∧ Forall (λ c, is_space c = false) w) ws →
  split_space_aux [] (chars (join " " (map text ws))) = ws.
Proof.
  induction 1 as [|w ws [Hne Hw] Hws IH]; [done|].
  assert (Hrev : ∀ l, split_space_aux (reverse w) (" "%char :: l) = w :: split_space_aux [] l).
  { intros l. cbn [split_space_aux]. change (is_space " "%char) with true. cbn [negb].
    destruct (reverse w) as [|x r] eqn:E; [apply (f_equal reverse) in E; rewrite reverse_involutive in E; done|].
    by rewrite <- E, reverse_involutive. }
  destruct ws as [|w' ws].
  - cbn [map join String.concat]. rewrite chars_text. rewrite <- (List.app_nil_r w) at 1. rewrite split_space_aux_word, List.app_nil_r by done.
    cbn. destruct (reverse w) as [|x r] eqn:E; [apply (f_equal reverse) in E; rewrite reverse_involutive in E; done|].
    by rewrite <- E, reverse_involutive.
  - cbn [map] in IH |- *. rewrite join_cons, !chars_app, chars_text, split_space_aux_word, List.app_nil_r by done.
    change (chars " ") with [" "%char]. cbn [app]. by rewrite Hrev, IH.
Qed.

(** [" ".join(s.split())] is split as [s] is. *)
Lemma split_space_join s : split_space (join " " (split_space s)) = split_space s.
Proof. unfold split_space. by rewrite split_space_aux_join by apply split_space_aux_words, Forall_nil_2. Qed.

Lemma join_len sep m l : (∀ s, s ∈ l → len s ≤ m) → len (join sep l) ≤ length l * (m + len sep).
Proof.
  intros H. induction l as [|s [|t l] IH]; [cbn; lia| |].
  - specialize (H s ltac:(left)). change (join sep [s]) with s. cbn [length]. lia.
  - rewrite join_cons, !len_app. specialize (IH ltac:(set_solver)). specialize (H s ltac:(left)).
    cbn [length] in *. lia.
Qed.

Lemma count_char_app d s t : count_char d (s ++ t)%string = count_char d s + count_char d t.
Proof. unfold count_char. by rewrite chars_app, count_of_app. Qed.

Lemma count_char_join d l : length l ≤ S (count_char d (join (String d "") l)).
Proof.
  induction l as [|s [|t l] IH]; [cbn; lia|cbn; lia|]. rewrite join_cons, !count_char_app.
  assert (E : count_char d (String d "") = 1) by (unfold count_char, is_char; cbn; by rewrite Ascii.eqb_refl).
  rewrite E. cbn [length] in *. lia.
Qed.

Lemma count_char_none d s : all_chars (λ c, negb (is_char d c)) s = true → count_char d s = 0.
Proof.
  intros H%all_chars_Forall. apply count_of_0. rewrite Forall_forall in H. intros c Hc.
  by apply negb_true_iff, H.
Qed.

Lemma rpartition_none d s : all_chars (λ c, negb (is_char d c)) s = true → rpartition d s = None.
Proof.
  intros H%all_chars_Forall. unfold rpartition.
  assert (E : ∀ l, Forall (λ c, negb (is_char d c) = true) l → partition_chars d l = (l, None)).
  { intros l Hl. induction Hl as [|c l Hc _ IH]; cbn; [done|]. apply negb_true_iff in Hc. by rewrite Hc, IH. }
  by rewrite E by by apply Forall_reverse.
Qed.

(** ** Tests that case folding does not change *)

(** A character no other character folds to. *)
Definition is_caseless (d : ascii) : bool :=
  Ascii.eqb (lower_char d) d && forallb (λ c, implb (Ascii.eqb (lower_char c) d) (Ascii.eqb c d)) all_ascii.

Lemma caseless_char d c : is_caseless d = true → is_char d (lower_char c) = is_char d c.
Proof.
  unfold is_caseless, is_char. rewrite andb_true_iff. intros [Hd Ha].
  apply Ascii.eqb_eq in Hd. pose proof (every_char _ Ha c) as Hc. cbn in Hc.
  destruct (Ascii.eqb_spec (lower_char c) d) as [E|E]; cbn in Hc.
  - apply Ascii.eqb_eq in Hc as <-. rewrite E. done.
  - destruct (Ascii.eqb_spec d c) as [->|]; [done|]. apply Ascii.eqb_neq. congruence.
Qed.

Lemma caseless_text p k : all_chars is_caseless p = true → map lower_char k = chars p → k = chars p.
Proof.
  intros H%all_chars_Forall. revert k. induction H as [|d l Hd _ IH]; intros k; destruct k as [|c k]; try done.
  cbn. intros [= Hc Hk]. rewrite (IH k Hk). f_equal. pose proof (caseless_char d c Hd) as E.
  rewrite Hc in E. unfold is_char in E. rewrite Ascii.eqb_refl in E. symmetry in E. by apply Ascii.eqb_eq in E.
Qed.

Lemma caseless_lower p : all_chars is_caseless p = true → map lower_char (chars p) = chars p.
Proof.
  intros H%all_chars_Forall. induction H as [|d l Hd _ IH]; cbn; [done|]. rewrite IH. f_equal.
  unfold is_caseless in Hd. apply andb_true_iff in Hd as [Hd _]. by apply Ascii.eqb_eq.
Qed.

Lemma contains_lower p s : all_chars is_caseless p = true → contains p (lower s) = contains p s.
Proof.
  intros Hp. apply eq_bool_prop_intro. rewrite !Is_true_true, !contains_inv, chars_lower. split.
  - intros (a & b & H). apply map_eq_app in H as (a' & l & -> & <- & H).
    apply map_eq_app in H as (p' & b' & -> & Hp' & <-). apply caseless_text in Hp' as ->; eauto.
  - intros (a & b & H). exists (map lower_char a), (map lower_char b). by rewrite H, !map_app, caseless_lower.
Qed.

Lemma startswith_lower p s : all_chars is_caseless p = true → startswith p (lower s) = startswith p s.
Proof.
  intros Hp. apply eq_bool_prop_intro. rewrite !Is_true_true, !startswith_chars, chars_lower. split.
  - intros (b & H). apply map_eq_app in H as (p' & b' & -> & Hp' & <-). apply caseless_text in Hp' as ->; eauto.
  - intros (b & H). exists (map lower_char b). by rewrite H, !map_app, caseless_lower.
Qed.

Lemma endswith_lower p s : all_chars is_caseless p = true → endswith p (lower s) = endswith p s.
Proof.
  intros Hp. apply eq_bool_prop_intro. rewrite !Is_true_true, !endswith_chars, chars_lower. split.
  - intros (a & H). apply map_eq_app in H as (a' & p' & -> & <- & Hp'). apply caseless_text in Hp' as ->; eauto.
  - intros (a & H). exists (map lower_char a). by rewrite H, !map_app, caseless_lower.
Qed.

Lemma partition_chars_lower d l :
  is_caseless d = true →
  partition_chars d (map lower_char l) =
    (map lower_char (partition_chars d l).1, map lower_char <$> (partition_chars d l).2).
Proof.
  intros Hd. induction l as [|c l IH]; cbn; [done|]. rewrite (caseless_char d c Hd).
  destruct (is_char d c); [done|]. rewrite IH. by destruct (partition_chars d l).
Qed.

Lemma rpartition_lower d s :
  is_caseless d = true → rpartition d (lower s) = (λ ht, (lower ht.1, lower ht.2)) <$> rpartition d s.
Proof.
  intros Hd. unfold rpartition. rewrite chars_lower.
  replace (reverse (map lower_char (chars s))) with (map lower_char (reverse (chars s)))
    by (unfold reverse; by rewrite <- !rev_alt, map_rev).
  rewrite partition_chars_lower by done. destruct (partition_chars d (reverse (chars s))) as [tl [hd|]]; [|done].
  cbn. unfold lower. rewrite !chars_text. unfold reverse. by rewrite <- !rev_alt, !map_rev.
Qed.

Lemma chars_forallb_lower p s :
  (∀ c, Bool.eqb (p (lower_char c)) (p c) = true) →
  all_chars p (lower s) = all_chars p s ∧ any_char p (lower s) = any_char p s.
Proof.
  intros Hp. unfold all_chars, any_char. rewrite chars_lower.
  induction (chars s) as [|c l IH]; [done|]. cbn. specialize (Hp c). apply eqb_prop in Hp as ->.
  by destruct IH as [-> ->].
Qed.

Lemma truthy_lower s : truthy (lower s) = truthy s.
Proof. by destruct s. Qed.

Lemma split_on_all_chars p d s :
  (∀ w, w ∈ split_on d s → all_chars p w = true) → all_chars (λ c, p c || is_char d c) s = true.
Proof.
  intros H. rewrite all_chars_Forall.
  assert (Hl : ∀ l, l ∈ split_chars d (chars s) → Forall (λ c, p c = true) l).
  { intros l Hl. specialize (H (text l)). rewrite all_chars_Forall, chars_text in H. apply H.
    unfold split_on. apply list_elem_of_fmap. eauto. }
  clear H. induction (chars s) as [|c l IH]; [constructor|]. cbn in Hl.
  destruct (is_char d c) eqn:Hd.
  - constructor; [by rewrite Hd, orb_true_r|]. apply IH. intros w Hw. apply Hl. by right.
  - destruct (split_chars d l) as [|w ws].
    + constructor; [specialize (Hl [c] ltac:(left)); apply Forall_cons in Hl as [-> _]; done|].
      apply IH. intros w Hw%elem_of_nil. done.
    + pose proof (Hl (c :: w) ltac:(left)) as Hc. apply Forall_cons in Hc as [Hc Hw].
      constructor; [by rewrite Hc|]. apply IH. intros w' [->|Hw']%elem_of_cons; [done|]. apply Hl. by right.
Qed.

(** ** Replacement *)

(** A text over a class of characters that occurs after replacements by a
    text outside the class occurred before them. *)
Lemma occurs_after_inserted (P : ascii → bool) new old r a b :
  Forall (λ c, P c = false) new → old ≠ [] → Forall (λ c, P c = true) old →
  new ++ r = a ++ old ++ b → ∃ a', r = a' ++ old ++ b.
Proof.
  intros Hnew Hne Ho. revert a. induction Hnew as [|e k He _ IH]; intros a H; [by exists a|].
  destruct a as [|y a].
  - destruct old as [|o old]; [done|]. cbn in H. injection H as -> _.
    apply Forall_cons in Ho as [Ho _]. congruence.
  - cbn in H. injection H as _ H. by eapply IH.
Qed.

Section replacement.
Context (P : ascii → bool) (q new : list ascii).
Hypothesis new_outside : Forall (λ c, P c = false) new.
Hypothesis new_nonempty : new ≠ [].

Lemma replace_prefix old l n :
  Forall (λ c, P c = true) old → take (length old) (replace_chars q new 0 l) = old →
  n = 0 → take (length old) l = old.
Proof.
  intros Ho. revert l. induction Ho as [|c old Hc _ IH]; intros l H Hn; [done|].
  destruct l as [|d l]; [done|]. cbn [replace_chars] in H.
  destruct (bool_decide _) eqn:E.
  - destruct new as [|e new']; [done|]. cbn in H. injection H as -> _.
    apply Forall_cons in new_outside as [He _]. congruence.
  - cbn in H |- *. injection H as -> H. f_equal. by apply IH.
Qed.

Lemma replace_skip k l : replace_chars q new k l = replace_chars q new 0 (drop k l).
Proof. revert l. induction k as [|k IH]; intros l; [done|]. destruct l as [|c l]; [done|]. cbn. apply IH. Qed.

Lemma replace_occurs old n l a b :
  length l ≤ n → old ≠ [] → Forall (λ c, P c = true) old →
  replace_chars q new 0 l = a ++ old ++ b → ∃ a b, l = a ++ old ++ b.
Proof.
  intros Hn Hne Ho. revert l a Hn. induction n as [|n IH]; intros l a Hn H.
  { destruct l; [|cbn in Hn; lia]. cbn in H. destruct a, old; cbn in H; congruence. }
  destruct l as [|c l]; [cbn in H; destruct a, old; cbn in H; congruence|].
  cbn [length] in Hn. destruct a as [|x a].
  - exists [], (drop (length old) (c :: l)). cbn [app].
    rewrite <- (take_drop (length old) (c :: l)) at 1. f_equal. eapply replace_prefix; [done| |done].
    rewrite H. cbn [app]. apply take_app_length.
  - cbn [replace_chars] in H. destruct (bool_decide _).
    + destruct (occurs_after_inserted P _ _ _ _ _ new_outside Hne Ho H) as [a' H']. rewrite replace_skip in H'.
      apply IH in H' as (a1 & b1 & Hd); [|rewrite length_drop; lia].
      exists (c :: take (length q - 1) l ++ a1), b1. cbn. rewrite <- app_assoc, <- Hd, take_drop. done.
    + injection H as -> H. destruct (IH l _ ltac:(lia) H) as (a' & b' & ->). by exists (x :: a'), b'.
Qed.
End replacement.

(** No occurrence of [old] is left by its own replacement. *)
Lemma replace_removes (P : ascii → bool) old new n l a b :
  Forall (λ c, P c = false) new → new ≠ [] → old ≠ [] → Forall (λ c, P c = true) old →
  length l ≤ n → replace_chars old new 0 l ≠ a ++ old ++ b.
Proof.
  intros Hnew Hne Hoe Ho. revert l a. induction n as [|n IH]; intros l a Hn H.
  { destruct l; [|cbn in Hn; lia]. cbn in H. destruct a, old; cbn in H; congruence. }
  destruct l as [|c l]; [cbn in H; destruct a, old; cbn in H; congruence|]. cbn [length] in Hn.
  destruct (bool_decide (take (length old) (c :: l) = old)) eqn:E.
  - cbn [replace_chars] in H. rewrite E in H.
    destruct (occurs_after_inserted P _ _ _ _ _ Hnew Hoe Ho H) as [a' H'].
    rewrite replace_skip in H'. apply IH in H'; [done|]. rewrite length_drop. lia.
  - destruct a as [|x a].
    + apply bool_decide_eq_false in E. apply E. eapply (replace_prefix P old new); [done|done|done| |done].
      rewrite H. cbn [app]. apply take_app_length.
    + cbn [replace_chars] in H. rewrite E in H. injection H as _ H. by apply IH in H; [|lia].
Qed.

Lemma contains_replace (P : ascii → bool) t q new s :
  all_chars (λ c, negb (P c)) new = true → new ≠ "" → t ≠ "" → all_chars P t = true →
  contains t s = false → contains t (replace_str q new s) = false.
Proof.
  intros Hnew Hne Hte Ht Hs. apply not_true_is_false. intros (a & b & H)%contains_inv.
  apply not_true_iff_false in Hs. apply Hs, contains_inv. unfold replace_str in H. rewrite chars_text in H.
  apply all_chars_Forall in Hnew, Ht.
  refine (replace_occurs P _ _ _ _ _ _ _ _ _ (le_n _) _ Ht H).
  - eapply Forall_impl; [exact Hnew|]. intros c. apply negb_true_iff.
  - by destruct new.
  - by destruct t.
Qed.

Lemma contains_replaced (P : ascii → bool) t new s :
  all_chars (λ c, negb (P c)) new = true → new ≠ "" → t ≠ "" → all_chars P t = true →
  contains t (replace_str t new s) = false.
Proof.
  intros Hnew Hne Hte Ht. apply not_true_is_false. intros (a & b & H)%contains_inv.
  unfold replace_str in H. rewrite chars_text in H. apply all_chars_Forall in Hnew, Ht.
  refine (replace_removes P _ _ _ _ _ _ _ _ _ Ht (le_n _) H).
  - eapply Forall_impl; [exact Hnew|]. intros c. apply negb_true_iff.
  - by destruct new.
  - by destruct t.
Qed.
