(* ===== verification/Sha256.v ===== *)
(** * Sha256: [hashlib.sha256(...).hexdigest()]

    The standard library's SHA-256, written out on 32-bit words held in [N]
    (FIPS 180-4), so that every digest of the model is computed and not
    assumed.  Nothing here claims collision resistance: the theorems that
    depend on it exhibit the collision instead. *)

From S2P Require Import Prelude PyStr.
Local Open Scope N_scope.

Definition mask32 (x : N) : N := N.land x 4294967295.
Definition add32 (x y : N) : N := mask32 (x + y).
Definition rotr (n x : N) : N :=
  N.lor (N.shiftr x n) (mask32 (N.shiftl x (32 - n))).
Definition ch (x y z : N) : N := N.lxor (N.land x y) (N.land (N.lxor x 4294967295) z).
Definition maj (x y z : N) : N := N.lxor (N.lxor (N.land x y) (N.land x z)) (N.land y z).
Definition big_sigma0 (x : N) : N := N.lxor (N.lxor (rotr 2 x) (rotr 13 x)) (rotr 22 x).
Definition big_sigma1 (x : N) : N := N.lxor (N.lxor (rotr 6 x) (rotr 11 x)) (rotr 25 x).
Definition small_sigma0 (x : N) : N := N.lxor (N.lxor (rotr 7 x) (rotr 18 x)) (N.shiftr x 3).
Definition small_sigma1 (x : N) : N := N.lxor (N.lxor (rotr 17 x) (rotr 19 x)) (N.shiftr x 10).

(** The constants are the first 32 fractional bits of the cube and square
    roots of the first primes; they are computed here from that description. *)
Definition first_primes (bound : nat) : list N :=
  filter (λ p, forallb (λ d, negb (p mod N.of_nat d =? 0)) (seq 2 (N.to_nat p - 2)) = true)
    (N.of_nat <$> seq 2 (bound - 1)).

(** The largest [r] with [r ^ 3 <= x], one bit of [r] at a time. *)
Fixpoint cube_root (bits : nat) (x r : N) : N :=
  match bits with
  | O => r
  | S b => let r' := N.setbit r (N.of_nat b) in
           cube_root b x (if r' * r' * r' <=? x then r' else r)
  end.

Definition round_constants : list N := Eval vm_compute in
  (λ p, mask32 (cube_root 36 (N.shiftl p 96) 0)) <$> first_primes 311.

Record state8 : Type := S8 { ha : N; hb : N; hc : N; hd : N; he : N; hf : N; hg : N; hh : N }.

Definition initial_state : state8 := Eval vm_compute in
  match (λ p, mask32 (N.sqrt (N.shiftl p 64))) <$> first_primes 19 with
  | [a; b; c; d; e; f; g; h] => S8 a b c d e f g h
  | _ => S8 0 0 0 0 0 0 0 0
  end.

(** The message schedule, newest word first. *)
Fixpoint schedule (n : nat) (ws : list N) : list N :=
  match n with
  | O => ws
  | S n' =>
      let w := add32 (add32 (small_sigma1 (nth 1 ws 0)) (nth 6 ws 0))
                     (add32 (small_sigma0 (nth 14 ws 0)) (nth 15 ws 0)) in
      schedule n' (w :: ws)
  end.

Definition compress_round (s : state8) (kw : N * N) : state8 :=
  let '(k, w) := kw in
  let t1 := add32 (add32 (add32 (hh s) (big_sigma1 (he s))) (add32 (ch (he s) (hf s) (hg s)) k)) w in
  let t2 := add32 (big_sigma0 (ha s)) (maj (ha s) (hb s) (hc s)) in
  S8 (add32 t1 t2) (ha s) (hb s) (hc s) (add32 (hd s) t1) (he s) (hf s) (hg s).

Definition compress (s : state8) (block : list N) : state8 :=
  let r := foldl compress_round s (zip round_constants (reverse (schedule 48 (reverse block)))) in
  S8 (add32 (ha s) (ha r)) (add32 (hb s) (hb r)) (add32 (hc s) (hc r)) (add32 (hd s) (hd r))
     (add32 (he s) (he r)) (add32 (hf s) (hf r)) (add32 (hg s) (hg r)) (add32 (hh s) (hh r)).

Fixpoint be_bytes (n : nat) (x : N) : list N :=
  match n with
  | O => []
  | S n' => be_bytes n' (N.shiftr x 8) ++ [N.land x 255]
  end.

(** Padding: 0x80, zeros up to 56 modulo 64, the bit length on 8 bytes. *)
Definition padding (bytes : nat) : list N :=
  128 :: repeat 0 (N.to_nat ((119 - N.of_nat bytes mod 64) mod 64)) ++ be_bytes 8 (8 * N.of_nat bytes).

Fixpoint words (l : list N) : list N :=
  match l with
  | a :: b :: c :: d :: l' =>
      (N.shiftl a 24 + N.shiftl b 16 + N.shiftl c 8 + d) :: words l'
  | _ => []
  end.

Fixpoint hash_blocks (fuel : nat) (s : state8) (ws : list N) : state8 :=
  match fuel, ws with
  | S f, _ :: _ => hash_blocks f (compress s (take 16 ws)) (drop 16 ws)
  | _, _ => s
  end.

Definition hex_digit (n : N) : ascii :=
  if n <? 10 then Ascii.ascii_of_N (48 + n) else Ascii.ascii_of_N (87 + n).
Fixpoint hex_digits (n : nat) (x : N) : list ascii :=
  match n with
  | O => []
  | S n' => hex_digits n' (N.shiftr x 4) ++ [hex_digit (N.land x 15)]
  end.
Definition word_hex (x : N) : list ascii := hex_digits 8 x.

(** [hashlib.sha256(s.encode(...)).hexdigest()] where the encoded bytes are
    the code points of [s] (ASCII text, or bytes). *)
Definition sha256_hex (s : string) : string :=
  let bytes := map code (chars s) in
  let ws := words (bytes ++ padding (length bytes)) in
  let r := hash_blocks (length ws) initial_state ws in
  text (word_hex (ha r) ++ word_hex (hb r) ++ word_hex (hc r) ++ word_hex (hd r)
        ++ word_hex (he r) ++ word_hex (hf r) ++ word_hex (hg r) ++ word_hex (hh r)).

(** A SHA-256 collision. *)
Definition sha256_collision (s t : string) : Prop := s ≠ t ∧ sha256_hex s = sha256_hex t.

Example sha256_abc :
  sha256_hex "abc" = "ba7816bf8f01cfea414140de5dae2223b00361a396177a9cb410ff61f20015ad".
Proof. vm_compute. reflexivity. Qed.

Example sha256_two_blocks :
  sha256_hex "abcdbcdecdefdefgefghfghighijhijkijkljklmklmnlmnomnopnopq"
  = "248d6a61d20638b8e5c026930c3e6039a33ce45964ff2167f6ecedd419db06c1".
Proof. vm_compute. reflexivity. Qed.

(** ** The shape of a digest *)

Lemma hex_digit_hex n : n < 16 → is_hex_lower (hex_digit n) = true.
Proof.
  intros Hn. assert (H : Forall (λ n, is_hex_lower (hex_digit n) = true)
    [0;1;2;3;4;5;6;7;8;9;10;11;12;13;14;15]) by (repeat constructor).
  rewrite Forall_forall in H. apply H. rewrite list_elem_of_In. cbn. lia.
Qed.

Lemma hex_digits_hex n x : Forall (λ c, is_hex_lower c = true) (hex_digits n x).
Proof.
  revert x. induction n as [|n IH]; intros x; cbn; [constructor|].
  apply Forall_app; split; [apply IH|]. constructor; [|constructor].
  apply hex_digit_hex. change 15 with (N.ones 4). rewrite N.land_ones.
  by apply N.mod_lt.
Qed.

Lemma hex_digits_length n x : length (hex_digits n x) = n.
Proof.
  revert x. induction n as [|n IH]; intros x; cbn; [done|]. rewrite length_app, IH. cbn. lia.
Qed.

Lemma sha256_hex_chars s :
  Forall (λ c, is_hex_lower c = true) (chars (sha256_hex s)) ∧ len (sha256_hex s) = 64%nat.
Proof.
  unfold sha256_hex, len, chars, text, word_hex.
  rewrite String.list_ascii_of_string_of_list_ascii. split.
  - rewrite !Forall_app. repeat split; apply hex_digits_hex.
  - rewrite !length_app, !hex_digits_length. reflexivity.
Qed.

#[global] Opaque sha256_hex.
