(* ===== verification/Micros.v ===== *)
(** * Micros: a timestamp through a double

    [int(value.timestamp() * 1_000_000)] as Python computes it: the quotient
    of the microseconds by a million is rounded to a binary64 number, so is
    its product with a million, and [int] truncates.  The result can be one
    microsecond short; the lemmas bound the loss. *)

From S2P Require Import Prelude.
Local Open Scope Z_scope.

(** [a / b] rounded to the nearest integer, ties to even ([b] positive). *)
Definition rne (a b : Z) : Z :=
  let q := a / b in
  let r := a mod b in
  if 2 * r <? b then q else if b <? 2 * r then q + 1 else if Z.even q then q else q + 1.

(** The double nearest to [a / b], for [1 <= a / b < 2^53]: a significand of
    53 bits and the power of two that divides it. *)
Definition exponent (a b : Z) : Z := 52 - Z.log2 (a / b).
Definition significand (a b : Z) : Z := rne (a * 2 ^ exponent a b) b.

(** [int((n / 1_000_000) * 1_000_000)] over doubles, for the [n]
    microseconds since the epoch of a time after 1970. *)
Definition truncated_micros (n : Z) : Z :=
  let million := 1000000 in
  let k := exponent n million in
  let q := significand n million in
  let j := exponent (q * million) (2 ^ k) in
  significand (q * million) (2 ^ k) / 2 ^ j.

Lemma rne_close a b : 0 < b → - b <= 2 * (b * rne a b - a) <= b.
Proof.
  intros Hb. unfold rne. pose proof (Z.div_mod a b ltac:(lia)) as E. pose proof (Z.mod_pos_bound a b Hb) as Hr.
  set (q := a / b) in *. set (r := a mod b) in *.
  destruct (Z.ltb_spec (2 * r) b); [lia|]. destruct (Z.ltb_spec b (2 * r)); [lia|]. destruct (Z.even q); lia.
Qed.

(** From September 2005 to January 2038 nothing is lost. *)
Lemma truncated_micros_exact n : 2 ^ 50 < n < 2147483648000000 → truncated_micros n = n.
Proof.
  intros Hn. unfold truncated_micros, significand. cbn zeta.
  assert (Hk : exponent n 1000000 = 22).
  { unfold exponent. rewrite (Z.log2_unique (n / 1000000) 30); [lia|lia|].
    split; [apply Z.div_le_lower_bound; lia|apply Z.div_lt_upper_bound; lia]. }
  rewrite Hk. pose proof (rne_close (n * 2 ^ 22) 1000000 ltac:(lia)) as Hq. set (q := rne _ 1000000) in *.
  assert (Hj : exponent (q * 1000000) (2 ^ 22) = 2).
  { unfold exponent. rewrite (Z.log2_unique (q * 1000000 / 2 ^ 22) 50); [lia|lia|].
    split; [apply Z.div_le_lower_bound; lia|apply Z.div_lt_upper_bound; lia]. }
  rewrite Hj. pose proof (rne_close (q * 1000000 * 2 ^ 2) (2 ^ 22) ltac:(lia)) as Hr. set (r := rne _ (2 ^ 22)) in *.
  assert (r = 4 * n) as -> by lia. change (2 ^ 2) with 4. rewrite Z.mul_comm. apply Z.div_mul. lia.
Qed.

(** Later it may be: 4383137484404.200 milliseconds lose a microsecond. *)
Example micros_lose_one : truncated_micros 4383137484404200 = 4383137484404199.
Proof. vm_compute. reflexivity. Qed.
