(* ===== verification/Grouping.v ===== *)
(** * Grouping: sorted texts, and lists grouped by a key

    [sorted(...)] over texts, [d.setdefault(key, []).append(x)] over a list,
    and the lists that are already in groups. *)

From S2P Require Import Prelude PyStr.

(** ** Sorted texts *)

#[export] Instance str_le_Total : Total str_le.
Proof. intros s t. apply str_le_total. Qed.

#[export] Instance str_le_Trans : Transitive str_le.
Proof.
  unfold str_le. intros s t u H1 H2. destruct (str_ltb u s) eqn:E; [|done].
  destruct (str_ltb t u) eqn:Etu.
  - pose proof (str_ltb_trans _ _ _ Etu E). congruence.
  - pose proof (str_le_antisym t u H2 Etu). subst. congruence.
Qed.

#[export] Instance str_le_AntiSymm : AntiSymm (=) str_le.
Proof. intros s t. apply str_le_antisym. Qed.

Lemma str_le_refl s : str_le s s.
Proof. destruct (str_le_total s s); done. Qed.

Lemma sorted_strs_perm l : sorted_strs l ≡ₚ l.
Proof. apply merge_sort_Permutation. Qed.

Lemma sorted_strs_sorted l : StronglySorted str_le (sorted_strs l).
Proof. apply (StronglySorted_merge_sort _). Qed.

Lemma sorted_strs_unique l k : StronglySorted str_le l → l ≡ₚ k → l = sorted_strs k.
Proof.
  intros Hl Hp. apply (StronglySorted_unique str_le); [done|apply sorted_strs_sorted|]. by rewrite sorted_strs_perm.
Qed.

#[export] Instance sorted_strs_Proper : Proper ((≡ₚ) ==> (=)) sorted_strs.
Proof. intros l k H. apply sorted_strs_unique; [apply sorted_strs_sorted|]. by rewrite sorted_strs_perm. Qed.

Lemma remove_dups_id `{EqDecision A} (l : list A) : NoDup l → remove_dups l = l.
Proof.
  induction 1 as [|x l Hx _ IH]; [done|]. cbn. case_decide; [done|]. by rewrite IH.
Qed.

(** [sorted(set(...))] of a list that is one already. *)
Lemma sorted_set_idem l : sorted_set (sorted_set l) = sorted_set l.
Proof.
  symmetry. apply sorted_strs_unique; [apply sorted_strs_sorted|]. rewrite remove_dups_id; [done|].
  unfold sorted_set. rewrite sorted_strs_perm. apply NoDup_remove_dups.
Qed.

(** ** Groups *)

(** [d.setdefault(key(x), []).append(x)], for each [x]. *)
Definition group_by {A} (key : A → string) (l : list A) : dict (list A) :=
  foldl (λ d x, dict_set (key x) (default [] (dict_get (key x) d) ++ [x]) d) [] l.

Definition of_key {A} (key : A → string) (k : string) (l : list A) : list A := filter (λ x, key x = k) l.

Lemma of_key_app {A} (key : A → string) k l l' : of_key key k (l ++ l') = of_key key k l ++ of_key key k l'.
Proof. unfold of_key. by rewrite filter_app. Qed.

Lemma of_key_none {A} (key : A → string) k l : k ∉ key <$> l → of_key key k l = [].
Proof.
  intros H. unfold of_key. induction l as [|x l IH]; [done|]. cbn in H. apply not_elem_of_cons in H as [Hx Hl].
  rewrite filter_cons_False by congruence. by apply IH.
Qed.

Lemma of_key_all {A} (key : A → string) k l : (∀ x, x ∈ l → key x = k) → of_key key k l = l.
Proof. apply filter_all. Qed.

Lemma of_key_elem {A} (key : A → string) k l x : x ∈ of_key key k l ↔ key x = k ∧ x ∈ l.
Proof. unfold of_key. by rewrite list_elem_of_filter. Qed.

#[export] Instance of_key_Proper {A} (key : A → string) k : Proper ((≡ₚ) ==> (≡ₚ)) (of_key key k).
Proof. intros l l' H. unfold of_key. by rewrite H. Qed.

Section group.
Context {A : Type} (key : A → string).
Abbreviation add := (λ d x, dict_set (key x) (default [] (dict_get (key x) d) ++ [x]) d).

Lemma fold_group_get l d k :
  dict_get k (foldl add d l)
  = if bool_decide (of_key key k l = []) then dict_get k d else Some (default [] (dict_get k d) ++ of_key key k l).
Proof.
  revert d. induction l as [|x l IH]; intros d; [done|]. cbn [foldl]. rewrite IH, dict_get_set.
  unfold of_key. rewrite filter_cons. fold (of_key key k l). destruct (decide (key x = k)) as [E|E].
  - rewrite E, String.eqb_refl. rewrite (bool_decide_false (_ :: _ = _)) by done. cbn [default].
    case_bool_decide as En; [by rewrite En|]. unfold id. by rewrite <- app_assoc.
  - by rewrite (proj2 (String.eqb_neq _ _) E).
Qed.

Lemma group_by_get l k :
  dict_get k (group_by key l) = if bool_decide (of_key key k l = []) then None else Some (of_key key k l).
Proof. unfold group_by. rewrite fold_group_get. done. Qed.

Lemma group_by_default l k : default [] (dict_get k (group_by key l)) = of_key key k l.
Proof. rewrite group_by_get. by case_bool_decide as E. Qed.

Lemma group_by_keys_nodup l : NoDup (group_by key l).*1.
Proof.
  unfold group_by. assert (H : dict_ok (@nil (string * list A))) by constructor. revert H.
  generalize (@nil (string * list A)). induction l as [|x l IH]; intros d Hd; [done|]. cbn [foldl].
  apply IH. by apply dict_set_ok.
Qed.

Lemma group_by_keys l k : k ∈ (group_by key l).*1 ↔ k ∈ key <$> l.
Proof.
  rewrite dict_keys_get, group_by_get. case_bool_decide as E.
  - split; [by intros [? ?]|]. intros (x & -> & Hx)%list_elem_of_fmap.
    assert (Hin : x ∈ of_key key (key x) l) by by apply of_key_elem. rewrite E in Hin. by apply elem_of_nil in Hin.
  - split; [|by eauto]. intros _. destruct (of_key key k l) as [|x] eqn:El; [done|].
    assert (Hin : x ∈ of_key key k l) by (rewrite El; left). apply of_key_elem in Hin as [<- Hx].
    by apply list_elem_of_fmap_2.
Qed.

(** The sorted keys are the distinct keys, sorted. *)
Lemma group_by_sorted_keys l : sorted_strs (group_by key l).*1 = sorted_set (key <$> l).
Proof.
  unfold sorted_set. apply sorted_strs_Proper. apply NoDup_Permutation.
  - apply group_by_keys_nodup.
  - apply NoDup_remove_dups.
  - intros k. by rewrite group_by_keys, elem_of_remove_dups.
Qed.

(** A list sorted by the key is the concatenation of its groups. *)
Lemma sorted_split k l :
  StronglySorted str_le (key <$> l) → (∀ x, x ∈ l → str_le k (key x)) →
  l = of_key key k l ++ filter (λ x, key x ≠ k) l.
Proof.
  induction l as [|x l IH]; intros Hs Hk; [done|]. cbn in Hs. inversion Hs as [|? ? Hs' Hx]; subst.
  unfold of_key. rewrite !filter_cons. destruct (decide (key x = k)) as [E|E].
  - rewrite decide_False by tauto. cbn. f_equal. apply IH; [done|]. intros y Hy. apply Hk. by right.
  - rewrite decide_True by done. fold (of_key key k l). rewrite of_key_none.
    + cbn. f_equal. symmetry. apply filter_all. intros y Hy E'. apply E.
      apply (anti_symm str_le); [|apply Hk; left]. rewrite Forall_forall in Hx.
      rewrite <- E'. apply Hx. by apply list_elem_of_fmap_2.
    + intros (y & E' & Hy)%list_elem_of_fmap. apply E. apply (anti_symm str_le); [|apply Hk; left].
      rewrite Forall_forall in Hx. rewrite E'. apply Hx. by apply list_elem_of_fmap_2.
Qed.

Lemma sorted_concat ks l :
  StronglySorted str_le (key <$> l) → StronglySorted str_le ks → NoDup ks → (∀ x, x ∈ l → key x ∈ ks) →
  l = concat ((λ k, of_key key k l) <$> ks).
Proof.
  revert l. induction ks as [|k ks IH]; intros l Hl Hks Hn Hin.
  - destruct l as [|x l]; [done|]. exfalso. specialize (Hin x ltac:(left)). by apply elem_of_nil in Hin.
  - inversion Hks as [|? ? Hks' Hk]; subst. apply NoDup_cons in Hn as [Hnk Hn]. rewrite Forall_forall in Hk.
    cbn. rewrite (sorted_split k l) at 1; [|done|].
    2: { intros x [->|Hx]%Hin%elem_of_cons; [apply str_le_refl|by apply Hk]. }
    f_equal. set (l' := filter (λ x, key x ≠ k) l).
    assert (Hl' : StronglySorted str_le (key <$> l')).
    { unfold l'. clear -Hl. induction l as [|x l IH]; [constructor|]. cbn in Hl. inversion Hl as [|? ? Hs Hx]; subst.
      rewrite filter_cons. destruct (decide (key x ≠ k)); [|by apply IH]. cbn. constructor; [by apply IH|].
      rewrite Forall_forall in *. intros s (y & -> & [_ Hy]%list_elem_of_filter)%list_elem_of_fmap.
      apply Hx. by apply list_elem_of_fmap_2. }
    rewrite (IH l') at 1; [|done..|].
    + f_equal. apply list_fmap_ext. intros i k' Hk'%list_elem_of_lookup_2. unfold l', of_key.
      rewrite list_filter_filter_l; [done|]. intros x -> ->. done.
    + intros x [Hx Hxl]%list_elem_of_filter. by apply Hin, elem_of_cons in Hxl as [?|].
Qed.
End group.

(** ** Sorted sets of keys *)

Lemma sorted_set_elem_of l x : x ∈ sorted_set l ↔ x ∈ l.
Proof. unfold sorted_set. by rewrite sorted_strs_perm, elem_of_remove_dups. Qed.

Lemma sorted_set_nodup l : NoDup (sorted_set l).
Proof. unfold sorted_set. rewrite sorted_strs_perm. apply NoDup_remove_dups. Qed.

Lemma sorted_set_sorted l : StronglySorted str_le (sorted_set l).
Proof. apply sorted_strs_sorted. Qed.

#[export] Instance sorted_set_Proper : Proper ((≡ₚ) ==> (=)) sorted_set.
Proof.
  intros l k H. unfold sorted_set. apply sorted_strs_Proper. apply NoDup_Permutation.
  - apply NoDup_remove_dups.
  - apply NoDup_remove_dups.
  - intros x. by rewrite !elem_of_remove_dups, H.
Qed.

(** The groups of distinct keys that cover a list make the list again. *)
Lemma groups_perm {A} (key : A → string) ks l :
  NoDup ks → (∀ x, x ∈ l → key x ∈ ks) → concat ((λ k, of_key key k l) <$> ks) ≡ₚ l.
Proof.
  revert l. induction ks as [|k ks IH]; intros l Hn Hin.
  - destruct l as [|x l]; [done|]. exfalso. specialize (Hin x ltac:(left)). by apply elem_of_nil in Hin.
  - apply NoDup_cons in Hn as [Hk Hn]. cbn.
    etrans; [|apply (filter_app_complement (λ x, key x = k))]. apply Permutation_app_head.
    etrans; [|apply IH; [done|]].
    + match goal with |- ?a ≡ₚ ?b => enough (E : a = b) by (by rewrite E) end. f_equal. apply list_fmap_ext. intros i k' Hk'%list_elem_of_lookup_2. unfold of_key.
      rewrite list_filter_filter_l; [done|]. intros x -> ->. done.
    + intros x [Hx Hxl]%list_elem_of_filter. by apply Hin, elem_of_cons in Hxl as [?|].
Qed.

(** What a concatenation of groups has of one key. *)
Lemma of_key_concat {A} (key : A → string) ks (chains : list (list A)) k chain :
  NoDup ks → Forall2 (λ k c, ∀ x, x ∈ c → key x = k) ks chains →
  (∀ i, ks !! i = Some k → chains !! i = Some chain) → (k ∉ ks → chain = []) →
  of_key key k (concat chains) = chain.
Proof.
  intros Hn Hf. revert chain. induction Hf as [|k' c ks chains Hc _ IH]; intros chain Hi Hnone.
  - cbn. symmetry. apply Hnone. by intros ?%elem_of_nil.
  - apply NoDup_cons in Hn as [Hk' Hn]. cbn [concat]. rewrite of_key_app. destruct (decide (k = k')) as [->|Hne].
    + specialize (Hi 0 eq_refl). injection Hi as ->. rewrite of_key_all by done. rewrite (IH Hn []); [by rewrite app_nil_r| |done].
      intros i Hi. destruct Hk'. by eapply list_elem_of_lookup_2.
    + rewrite (of_key_none key k c). 2: { intros (x & -> & Hx)%list_elem_of_fmap. by apply Hne, Hc. }
      cbn [app]. apply IH; [done| |].
      * intros i Hki. by apply (Hi (S i)).
      * intros Hk. apply Hnone. by intros [?|?]%elem_of_cons.
Qed.
