(* ===== verification/SqlTable.v ===== *)
(** * SqlTable: a table of the SQLite stores as a finite map

    The stores keep a table per kind of row.  A table is the map from primary
    key to the other columns; the statements the stores use are the functions
    below.  What SQL leaves open, the order of a [SELECT] without [ORDER BY]
    and between equal sort keys, no definition of the development depends on
    unless it takes that order as an argument. *)

From S2P Require Import Prelude PyStr.

Section table.
Context {K : Type} `{Countable K} {R : Type}.
Implicit Types (t : gmap K R) (p : K → R → bool).

(** [SELECT * ... WHERE p], [SELECT COUNT] and [cursor.rowcount]. *)
Definition select_where p t : gmap K R := filter (λ kv, p kv.1 kv.2 = true) t.
Definition row_count p t : nat := size (select_where p t).

(** [UPDATE ... SET f WHERE p] *)
Definition update_where p (f : R → R) t : gmap K R :=
  map_imap (λ k r, Some (if p k r then f r else r)) t.

(** [DELETE ... WHERE p] *)
Definition delete_where p t : gmap K R := filter (λ kv, p kv.1 kv.2 = false) t.

(** [fetchone()] on a condition that a [UNIQUE] column makes hold of at most
    one row. *)
Definition find_row p t : option (K * R) := head (map_to_list (select_where p t)).

(** The row an [INSERT] under a fresh key adds, or the integrity error. *)
Definition insert_row (k : K) (r : R) t (c : string) : outcome (gmap K R) :=
  raise c when (bool_decide (is_Some (t !! k)));;
  Ok (<[k := r]> t).

Lemma select_where_lookup p t k r : select_where p t !! k = Some r ↔ t !! k = Some r ∧ p k r = true.
Proof. apply map_lookup_filter_Some. Qed.

Lemma update_where_lookup p f t k :
  update_where p f t !! k = (λ r, if p k r then f r else r) <$> t !! k.
Proof. unfold update_where. rewrite map_lookup_imap. by destruct (t !! k). Qed.

Lemma delete_where_lookup p t k :
  delete_where p t !! k = r ← t !! k; if p k r then None else Some r.
Proof.
  unfold delete_where. destruct (t !! k) as [r|] eqn:Hk; cbn.
  - destruct (p k r) eqn:Hp.
    + apply map_lookup_filter_None. right. intros r' Hr'. cbn. assert (r' = r) as -> by congruence. by rewrite Hp.
    + by apply map_lookup_filter_Some.
  - apply map_lookup_filter_None. by left.
Qed.

Lemma delete_where_Some p t k r : delete_where p t !! k = Some r ↔ t !! k = Some r ∧ p k r = false.
Proof. apply map_lookup_filter_Some. Qed.

Lemma row_count_zero p t : row_count p t = 0 ↔ ∀ k r, t !! k = Some r → p k r = false.
Proof.
  unfold row_count. rewrite map_size_empty_iff. unfold select_where. rewrite map_empty.
  split.
  - intros He k r Hk. specialize (He k). apply map_lookup_filter_None in He as [He|He]; [congruence|].
    apply not_true_is_false. by apply (He r).
  - intros Ha k. apply map_lookup_filter_None. right. intros r Hk. cbn. by rewrite (Ha k r Hk).
Qed.

Lemma row_count_pos p t : 0 < row_count p t ↔ ∃ k r, t !! k = Some r ∧ p k r = true.
Proof.
  split.
  - intros Hp. unfold row_count in Hp.
    destruct (map_choose (select_where p t)) as (k & r & Hk%select_where_lookup); [|by exists k, r].
    intros He. rewrite He, map_size_empty in Hp. lia.
  - intros (k & r & Hk & Hp). destruct (row_count p t) eqn:E; [|lia].
    rewrite (proj1 (row_count_zero p t) E k r Hk) in Hp. done.
Qed.

Lemma find_row_Some p t k r : find_row p t = Some (k, r) → t !! k = Some r ∧ p k r = true.
Proof.
  unfold find_row. intros Hh. apply select_where_lookup. apply elem_of_map_to_list.
  destruct (map_to_list _); [done|]. injection Hh as ->. left.
Qed.

Lemma find_row_None p t : find_row p t = None ↔ ∀ k r, t !! k = Some r → p k r = false.
Proof.
  rewrite <- row_count_zero. unfold find_row, row_count. rewrite <- length_map_to_list.
  by destruct (map_to_list (select_where p t)).
Qed.

(** At most one row matches, so the row found is the one. *)
Lemma find_row_unique p t k r :
  (∀ k' r', t !! k' = Some r' → p k' r' = true → k' = k) → t !! k = Some r → p k r = true →
  find_row p t = Some (k, r).
Proof.
  intros Hu Hk Hp. destruct (find_row p t) as [[k' r']|] eqn:Hf.
  - apply find_row_Some in Hf as [Hk' Hp']. assert (k' = k) as -> by eauto. congruence.
  - rewrite find_row_None in Hf. rewrite (Hf k r Hk) in Hp. done.
Qed.

(** An [UPDATE] that matches one row rewrites that row. *)
Lemma update_where_one p f t k r :
  t !! k = Some r → p k r = true → (∀ k' r', t !! k' = Some r' → p k' r' = true → k' = k) →
  update_where p f t = <[k := f r]> t.
Proof.
  intros Hk Hp Hu. apply map_eq. intros j. rewrite update_where_lookup.
  destruct (decide (j = k)) as [->|Hne]; [by rewrite lookup_insert_eq, Hk; cbn; rewrite Hp|].
  rewrite lookup_insert_ne by done. destruct (t !! j) as [r'|] eqn:Hj; cbn; [|done].
  destruct (p j r') eqn:Hp'; [|done]. by apply (Hu j r') in Hj.
Qed.

Lemma update_where_none p f t : (∀ k r, t !! k = Some r → p k r = false) → update_where p f t = t.
Proof.
  intros Hn. apply map_eq. intros j. rewrite update_where_lookup. destruct (t !! j) as [r|] eqn:Hj; [|done].
  cbn. by rewrite (Hn j r Hj).
Qed.

Lemma update_where_size p f t : (size (update_where p f t) ≤ size t)%nat.
Proof. apply (dom_subseteq_size (D:=gset K)), dom_imap_subseteq. Qed.

Lemma delete_where_size p t : (size (delete_where p t) ≤ size t)%nat.
Proof. apply map_size_filter. Qed.

(** Counting after an [INSERT], and after replacing a row by one that counts
    the same. *)
Lemma row_count_fresh p t k r :
  t !! k = None → row_count p (<[k := r]> t) = ((if p k r then 1 else 0) + row_count p t)%nat.
Proof.
  intros Hk. unfold row_count, select_where. destruct (p k r) eqn:Hp.
  - rewrite map_filter_insert_True by done. apply map_size_insert_None.
    apply map_lookup_filter_None. by left.
  - rewrite map_filter_insert_False by (cbn; congruence). by rewrite delete_id by done.
Qed.

Lemma row_count_replace p t k r r' :
  t !! k = Some r → p k r' = p k r → row_count p (<[k := r']> t) = row_count p t.
Proof.
  intros Hk Hp. rewrite <- (insert_delete_id t k r Hk) at 2. rewrite <- (insert_delete_eq t k r').
  rewrite !row_count_fresh by apply lookup_delete_eq. by rewrite Hp.
Qed.

Lemma insert_row_ok k r t c t' : insert_row k r t c = Ok t' ↔ t !! k = None ∧ t' = <[k := r]> t.
Proof.
  unfold insert_row. destruct (t !! k) as [r'|] eqn:Hk.
  - rewrite bool_decide_true by eauto. split; [done|]. by intros [? _].
  - rewrite bool_decide_false by (by intros [? ?]). split; [intros [= <-]; done|]. by intros [_ ->].
Qed.
End table.
