(* ===== verification/CrashProg.v ===== *)
(** * CrashProg: programs over a durable state, with every crash point

    A program runs from a state, passes through the states its effects leave
    behind one after the other, and returns or raises.  The process may stop
    at any of those states: what holds then is a crash condition, and what
    holds when the program ends is a postcondition. *)

From S2P Require Import Prelude.

Section prog.
Context {S : Type}.

(** The states after each effect, and the result. *)
Definition prog (A : Type) : Type := S → list S * outcome A.

(** The state a run that passed through [t] ends in. *)
Definition final (s : S) (t : list S) : S := default s (last t).

#[export] Instance prog_ret : MRet prog := λ A a s, ([], Ok a).
#[export] Instance prog_bind : MBind prog := λ A B f m s,
  let '(t, r) := m s in
  match r with
  | Ok a => let '(t', r') := f a (final s t) in (t ++ t', r')
  | Err c => (t, Err c)
  end.

Definition throw {A} (c : string) : prog A := λ s, ([], Err c).
Definition lift {A} (o : outcome A) : prog A := λ s, ([], o).
Definition reads {A} (f : S → A) : prog A := λ s, ([], Ok (f s)).
(** One atomic change of the state. *)
Definition change (f : S → S) : prog unit := λ s, ([f s], Ok tt).

(** [try: m except: ... raise c]: the same effects, another error. *)
Definition catch {A} (m : prog A) (h : string → string) : prog A := λ s,
  let '(t, r) := m s in (t, match r with Ok a => Ok a | Err c => Err (h c) end).

(** [try: m except Exception: h; raise]. *)
Definition on_error {A} (m : prog A) (h : prog unit) : prog A := λ s,
  let '(t, r) := m s in
  match r with
  | Ok a => (t, Ok a)
  | Err c => let '(t', r') := h (final s t) in (t ++ t', match r' with Ok _ => Err c | Err c' => Err c' end)
  end.

(** [for x in l: f(x)], with the values it gathers. *)
Fixpoint each {A B} (f : A → prog B) (l : list A) : prog (list B) :=
  match l with
  | [] => mret []
  | x :: l' => y ← f x; ys ← each f l'; mret (y :: ys)
  end.

(** ** What a run ensures *)

(** From [s], every state the process may stop in satisfies [C], and the
    result and the final state satisfy [Q]. *)
Definition ensures {A} (C : S → Prop) (m : prog A) (s : S) (Q : outcome A → S → Prop) : Prop :=
  (∀ s', s' ∈ s :: (m s).1 → C s') ∧ Q (m s).2 (final s (m s).1).

Lemma final_app s t t' : final s (t ++ t') = final (final s t) t'.
Proof. unfold final. rewrite last_app. by destruct (last t'). Qed.

Lemma final_elem s t : final s t ∈ s :: t.
Proof.
  unfold final. destruct (last t) as [x|] eqn:E; cbn; [|by left]. right.
  apply last_Some in E as [l ->]. apply elem_of_app. right. by left.
Qed.

Lemma ensures_ret {A} C (a : A) s (Q : outcome A → S → Prop) :
  C s → Q (Ok a) s → ensures C (mret a) s Q.
Proof. split; [|done]. cbn. by intros s' ->%list_elem_of_singleton. Qed.

Lemma ensures_lift {A} C (o : outcome A) s (Q : outcome A → S → Prop) : C s → Q o s → ensures C (lift o) s Q.
Proof. split; [|done]. cbn. by intros s' ->%list_elem_of_singleton. Qed.

Lemma ensures_change C f s (Q : outcome () → S → Prop) : C s → C (f s) → Q (Ok tt) (f s) → ensures C (change f) s Q.
Proof.
  intros Hs Hf HQ. split; [|done]. cbn. intros s' [->|Hin]%elem_of_cons; [done|].
  apply list_elem_of_singleton in Hin as ->. done.
Qed.

Lemma ensures_bind {A B} C (m : prog A) (f : A → prog B) s (Q : outcome B → S → Prop) :
  ensures C m s (λ r s', match r with Ok a => ensures C (f a) s' Q | Err c => Q (Err c) s' end) →
  ensures C (m ≫= f) s Q.
Proof.
  unfold ensures, mbind, prog_bind. destruct (m s) as [t [a|c]]; cbn [fst snd]; [|done].
  destruct (f a (final s t)) as [t' r']; cbn [fst snd]. intros (Hm & Hf & HQ). split; [|by rewrite final_app]. intros s' [->|[Hin|Hin]%elem_of_app]%elem_of_cons.
  - apply Hm. by left.
  - apply Hm. by right.
  - apply Hf. by right.
Qed.

Lemma ensures_weaken {A} (C C' : S → Prop) (m : prog A) s (Q Q' : outcome A → S → Prop) :
  ensures C m s Q → (∀ s', C s' → C' s') → (∀ r s', Q r s' → C s' → Q' r s') → ensures C' m s Q'.
Proof. intros [Hm HQ] HC H. split; [auto|]. apply H; [done|]. apply Hm, final_elem. Qed.

Lemma ensures_catch {A} C (m : prog A) h s (Q : outcome A → S → Prop) :
  ensures C m s (λ r s', Q (match r with Ok a => Ok a | Err c => Err (h c) end) s') → ensures C (catch m h) s Q.
Proof. unfold ensures, catch. by destruct (m s). Qed.

Lemma ensures_on_error {A} C (m : prog A) h s (Q : outcome A → S → Prop) :
  ensures C m s (λ r s', match r with
    | Ok a => Q (Ok a) s'
    | Err c => ensures C h s' (λ r' s'', Q (match r' with Ok _ => Err c | Err c' => Err c' end) s'')
    end) →
  ensures C (on_error m h) s Q.
Proof.
  unfold ensures, on_error. destruct (m s) as [t [a|c]]; cbn [fst snd]; [done|].
  destruct (h (final s t)) as [t' r']; cbn [fst snd]. intros (Hm & Hf & HQ). split; [|by rewrite final_app].
  intros s' [->|[Hin|Hin]%elem_of_app]%elem_of_cons.
  - apply Hm. by left.
  - apply Hm. by right.
  - apply Hf. by right.
Qed.

(** Steps that only look. *)
Lemma reads_bind {A B} (f : S → A) (k : A → prog B) s : (reads f ≫= k) s = k (f s) s.
Proof. unfold mbind, prog_bind, reads. cbn. by destruct (k (f s) s). Qed.

Lemma lift_bind {A B} (a : A) (k : A → prog B) s : (lift (Ok a) ≫= k) s = k a s.
Proof. unfold mbind, prog_bind, lift. cbn. by destruct (k a s). Qed.

Lemma lift_err {A B} c (k : A → prog B) s : (lift (Err c) ≫= k) s = ([], Err c).
Proof. done. Qed.

Lemma ensures_reads {A B} C (f : S → A) (k : A → prog B) s Q :
  ensures C (k (f s)) s Q → ensures C (reads f ≫= k) s Q.
Proof. unfold ensures. by rewrite reads_bind. Qed.

Lemma ensures_lift_ok {A B} C (a : A) (k : A → prog B) s Q :
  ensures C (k a) s Q → ensures C (lift (Ok a) ≫= k) s Q.
Proof. unfold ensures. by rewrite lift_bind. Qed.

(** A step, then the rest. *)
Lemma ensures_seq {A B} C (m : prog A) (k : A → prog B) s Q P :
  ensures C m s (λ r s', ∃ a, r = Ok a ∧ P a s') → (∀ a s', P a s' → C s' → ensures C (k a) s' Q) →
  ensures C (m ≫= k) s Q.
Proof.
  intros Hm Hk. apply ensures_bind. eapply ensures_weaken; [exact Hm|done|].
  intros r s' (a & -> & Ha) HC. by apply Hk.
Qed.

Lemma ensures_change_seq {B} C f (k : () → prog B) s Q :
  C s → C (f s) → ensures C (k tt) (f s) Q → ensures C (change f ≫= k) s Q.
Proof. intros Hs Hf Hk. apply ensures_bind. by apply ensures_change. Qed.

(** A loop, by an invariant of the elements already passed. *)
Lemma ensures_each {A B} C (f : A → prog B) (I : list A → list B → S → Prop) l done ys s
    (Q : outcome (list B) → S → Prop) :
  I done ys s → C s →
  (∀ pre x post zs s', l = pre ++ x :: post → I (done ++ pre) zs s' → C s' →
     ensures C (f x) s' (λ r s'', match r with Ok y => I (done ++ pre ++ [x]) (zs ++ [y]) s'' | Err c => Q (Err c) s'' end)) →
  (∀ zs s', I (done ++ l) (ys ++ zs) s' → C s' → Q (Ok zs) s') →
  ensures C (each f l) s Q.
Proof.
  revert done ys s Q. induction l as [|x l IH]; intros done ys s Q HI HC Hf HQ.
  - apply ensures_ret; [done|]. apply HQ; [|done]. by rewrite !app_nil_r.
  - cbn [each]. apply ensures_bind. eapply ensures_weaken; [|done|].
    { apply (Hf [] x l ys); [done|by rewrite app_nil_r|done]. }
    intros [y|c] s' HI' HC'; [|done]. cbn [app] in HI'. apply ensures_bind.
    apply (IH (done ++ [x]) (ys ++ [y]) s'); [done|done| |].
    + intros pre x' post zs s'' -> HI'' HC''. rewrite <- !app_assoc in HI''. cbn [app] in HI''.
      eapply ensures_weaken; [apply (Hf (x :: pre) x' post zs)|done|]; [done..|].
      intros [y'|c'] s3 H3 _; [|done]. by rewrite <- !app_assoc.
    + intros zs s'' H'' HC''. apply ensures_ret; [done|]. apply HQ; [|done].
      by rewrite <- !app_assoc in H''.
Qed.
(** A loop that never raises, by an invariant of the elements passed. *)
Lemma ensures_each_ok {A B} C (f : A → prog B) (I : list A → S → Prop) l s :
  I [] s → C s →
  (∀ pre x post s', l = pre ++ x :: post → I pre s' → C s' →
     ensures C (f x) s' (λ r s'', ∃ y, r = Ok y ∧ I (pre ++ [x]) s'')) →
  ensures C (each f l) s (λ r s', ∃ ys, r = Ok ys ∧ I l s').
Proof.
  intros HI HC Hf. apply (ensures_each C f (λ d _ s', I d s') l [] [] s); [done|done| |].
  - intros pre x post zs s' Hl HI' HC'. eapply ensures_weaken; [by apply (Hf pre x post)|done|].
    intros r s'' (y & -> & HI'') _. done.
  - intros zs s' HI' _. by exists zs.
Qed.

(** A loop that only looks. *)
Lemma each_still {A B} (f : A → prog B) (g : A → B) l s :
  (∀ x, x ∈ l → f x s = ([], Ok (g x))) → each f l s = ([], Ok (g <$> l)).
Proof.
  intros H. induction l as [|x l IH]; [done|]. cbn [each]. unfold mbind, prog_bind at 1. rewrite H by left. cbn.
  unfold mbind, prog_bind. rewrite IH; [done|]. intros y Hy. apply H. by right.
Qed.
End prog.
Arguments prog S A : clear implicits.

(** [raise c], in a program. *)
Notation "'raises' c 'when' b ';;' k" := (if b then throw c else k)
  (at level 10, c at level 0, b at level 99, k at level 200,
   format "'[v' 'raises'  c  'when'  b ';;' '/' k ']'") : py_scope.
