(* ===== verification/ChangeApprovals.v ===== *)
(** * ChangeApprovals: the four-eyes gate for Active authorization changes

    Models [backend/app/active_change_approvals.py]: the approval record and
    its validators, the per-organization collection file, and every operation
    of [ActiveChangeApprovalStore].  The directory of collections is a map
    from organization to file; each operation runs under the storage lock and
    is one transition of that map. *)

From S2P Require Import Prelude PyStr Sha256.
Local Open Scope Z_scope.

(** ** Data *)

(** backend/app/active_change_approvals.py 29-33 [constants] *)
Definition ACTIVE_CHANGE_APPROVAL_TTL_HOURS : Z := 24.
Definition ACTIVE_CHANGE_APPROVAL_TERMINAL_RETENTION_DAYS : Z := 90.
Definition ACTIVE_CHANGE_APPROVAL_MAX_RECORDS : nat := 500.
Definition ACTIVE_CHANGE_APPROVAL_MAX_BYTES : N := 2 * 1024 * 1024.

(** backend/app/active_change_approvals.py [ActiveChangeKind] *)
Inductive ActiveChangeKind : Set := registration | renewal | revocation.

(** backend/app/active_change_approvals.py [ActiveChangeStatus] *)
Inductive ActiveChangeStatus : Set :=
| pending | approved | executing | consumed | rejected | expired | interrupted.

Inductive asset_type_t : Set := domain | host | ip | http_origin.
Inductive scope_change_t : Set :=
| new_registration | same_scope | expanded_scope | reduced_scope | scope_revocation.
Inductive reason_code_t : Set :=
| authorization_withdrawn | asset_retired | scope_changed | security_hold.

#[export] Instance kind_eq_dec : EqDecision ActiveChangeKind.
Proof. solve_decision. Defined.
#[export] Instance status_eq_dec : EqDecision ActiveChangeStatus.
Proof. solve_decision. Defined.
#[export] Instance asset_type_eq_dec : EqDecision asset_type_t.
Proof. solve_decision. Defined.
#[export] Instance scope_change_eq_dec : EqDecision scope_change_t.
Proof. solve_decision. Defined.
#[export] Instance reason_code_eq_dec : EqDecision reason_code_t.
Proof. solve_decision. Defined.

(** backend/app/active_change_approvals.py 40-42 [_ORGANIZATION_ID] *)
Definition _OPAQUE_ID (s : string) : bool := all_chars is_hex_lower s && (len s =? 32)%nat.
Definition _ORGANIZATION_ID (s : string) : bool := String.eqb s "local-admin" || _OPAQUE_ID s.
Definition _DIGEST (s : string) : bool := all_chars is_hex_lower s && (len s =? 64)%nat.

(** backend/app/active_change_approvals.py [ActiveChangeSummary] *)
Record ActiveChangeSummary : Type := Summary {
  asset_type : asset_type_t;
  review_target : option string;
  scope_change : scope_change_t;
  capabilities : list string;
  allowed_ports : list Z;
  allowed_protocols : list string;
  authorization_expires_at : option datetime;
  reason_code : option reason_code_t
}.

(** backend/app/active_change_approvals.py 67-85 [ActiveChangeApprovalRecord] *)
Record ActiveChangeApprovalRecord : Type := ApprovalRecord {
  approval_id : string;
  organization_id : string;
  asset_id : option string;
  kind : ActiveChangeKind;
  status : ActiveChangeStatus;
  operation_digest_sha256 : string;
  requester_digest_sha256 : string;
  requester_role : string;
  approver_digest_sha256 : option string;
  requested_at : datetime;
  expires_at : datetime;
  decided_at : option datetime;
  consumed_at : option datetime;
  summary : ActiveChangeSummary
}.

(** backend/app/active_change_approvals.py 104-112 [ActiveChangeApprovalCollection] *)
Record ActiveChangeApprovalCollection : Type := Collection {
  collection_organization_id : string;
  revision : nat;
  records : list ActiveChangeApprovalRecord
}.

#[export] Instance summary_eq_dec : EqDecision ActiveChangeSummary.
Proof. solve_decision. Defined.
#[export] Instance record_eq_dec : EqDecision ActiveChangeApprovalRecord.
Proof. solve_decision. Defined.
#[export] Instance collection_eq_dec : EqDecision ActiveChangeApprovalCollection.
Proof. solve_decision. Defined.

(** [status in {"pending", "approved", "executing"}] and its complement. *)
Definition actionable (st : ActiveChangeStatus) : bool :=
  match st with pending | approved | executing => true | _ => false end.
Definition terminal (st : ActiveChangeStatus) : bool := negb (actionable st).

(** The closed field constraints of the summary model (pydantic [Field]s). *)
(** backend/app/active_change_approvals.py 57-61 [ActiveChangeSummary fields] *)
Definition summary_fields_valid (s : ActiveChangeSummary) : bool :=
  from_option (λ t, (len t <=? 253)%nat) true (review_target s)
  && (length (capabilities s) <=? 10)%nat
  && (length (allowed_ports s) <=? 64)%nat
  && (length (allowed_protocols s) <=? 5)%nat.

(** backend/app/active_change_approvals.py 71-85 [ActiveChangeApprovalRecord fields] *)
Definition record_fields_valid (r : ActiveChangeApprovalRecord) : bool :=
  _OPAQUE_ID (approval_id r)
  && _ORGANIZATION_ID (organization_id r)
  && from_option _OPAQUE_ID true (asset_id r)
  && _DIGEST (operation_digest_sha256 r)
  && _DIGEST (requester_digest_sha256 r)
  && mem (requester_role r) ["administrator"; "maintainer"]
  && from_option _DIGEST true (approver_digest_sha256 r)
  && summary_fields_valid (summary r).

(** backend/app/active_change_approvals.py [validate_lifecycle] *)
Definition validate_lifecycle (r : ActiveChangeApprovalRecord) : bool :=
  aware (requested_at r) && aware (expires_at r)
  && from_option aware true (decided_at r) && from_option aware true (consumed_at r)
  && (instant (requested_at r) <? instant (expires_at r))
  && negb (bool_decide (kind r = registration) && bool_decide (is_Some (asset_id r)))
  && negb (bool_decide (kind r ≠ registration) && bool_decide (asset_id r = None))
  && negb (actionable (status r) && bool_decide (kind r = registration)
           && negb (truthy_opt (review_target (summary r))))
  && negb (terminal (status r) && bool_decide (is_Some (review_target (summary r)))).

Definition record_valid (r : ActiveChangeApprovalRecord) : bool :=
  record_fields_valid r && validate_lifecycle r.

(** backend/app/active_change_approvals.py [validate_scope] *)
Definition validate_scope (c : ActiveChangeApprovalCollection) : bool :=
  bool_decide (NoDup (approval_id <$> records c))
  && all_of (λ r, String.eqb (organization_id r) (collection_organization_id c)) (records c).

Definition collection_valid (c : ActiveChangeApprovalCollection) : bool :=
  _ORGANIZATION_ID (collection_organization_id c)
  && (length (records c) <=? ACTIVE_CHANGE_APPROVAL_MAX_RECORDS)%nat
  && all_of record_valid (records c)
  && validate_scope c.

(** ** [model_copy(update=...)]: copies are not re-validated *)

(** backend/app/active_change_approvals.py [_scrub_summary] *)
Definition _scrub_summary (s : ActiveChangeSummary) : ActiveChangeSummary :=
  Summary (asset_type s) None (scope_change s) (capabilities s) (allowed_ports s)
    (allowed_protocols s) (authorization_expires_at s) (reason_code s).

Definition update_record (r : ActiveChangeApprovalRecord) (st : ActiveChangeStatus)
    (approver : option string) (decided consumed' : option datetime)
    (sm : ActiveChangeSummary) : ActiveChangeApprovalRecord :=
  ApprovalRecord (approval_id r) (organization_id r) (asset_id r) (kind r) st
    (operation_digest_sha256 r) (requester_digest_sha256 r) (requester_role r) approver
    (requested_at r) (expires_at r) decided consumed' sm.

Definition update_collection (c : ActiveChangeApprovalCollection) (rev : nat)
    (rs : list ActiveChangeApprovalRecord) : ActiveChangeApprovalCollection :=
  Collection (collection_organization_id c) rev rs.

(** ** Digests and argument checks *)

Definition NUL : string := String "000"%char EmptyString.

(** [s.encode("ascii")] *)
Definition encode_ascii (s : string) : outcome string :=
  raise "UnicodeEncodeError" when (negb (all_chars (between 0 127) s));;
  Ok s.

(** backend/app/active_change_approvals.py [_actor_digest] *)
Definition _actor_digest (organization actor : string) : outcome string :=
  b ← encode_ascii ("inspectra-active-approver-v1" ++ NUL ++ organization ++ NUL ++ actor);
  Ok (sha256_hex b).

(** backend/app/active_change_approvals.py [_now] *)
Definition _now (raw : datetime) : outcome datetime :=
  raise "invalid_clock" when (negb (aware raw));;
  Ok (as_utc raw).

(** backend/app/active_change_approvals.py [_validate_organization] *)
Definition _validate_organization (organization : string) : outcome () :=
  raise "invalid_scope" when (negb (_ORGANIZATION_ID organization));;
  Ok ().

(** backend/app/active_change_approvals.py [_validate_scope] *)
Definition _validate_scope (organization actor role : string) : outcome () :=
  _ ← _validate_organization organization;
  raise "invalid_scope" when (negb (mem actor ["local-admin"; "team-admin"] || _OPAQUE_ID actor));;
  raise "maintainer_required" when (negb (mem role ["administrator"; "maintainer"]));;
  Ok ().

(** backend/app/active_change_approvals.py [_validate_approval_id] *)
Definition _validate_approval_id (i : string) : outcome () :=
  raise "approval_not_found" when (negb (_OPAQUE_ID i));;
  Ok ().

(** ** Normalization *)

(** backend/app/active_change_approvals.py [_normalize_expired] *)
Definition expire_record (now : datetime) (r : ActiveChangeApprovalRecord)
    : ActiveChangeApprovalRecord :=
  match status r with
  | pending | approved =>
      if instant (expires_at r) <=? instant now
      then update_record r expired (approver_digest_sha256 r) (Some now) (consumed_at r)
             (_scrub_summary (summary r))
      else r
  | _ => r
  end.

(** backend/app/active_change_approvals.py [_normalize_expired] *)
Definition _normalize_expired (c : ActiveChangeApprovalCollection) (now : datetime)
    : ActiveChangeApprovalCollection :=
  let rs := expire_record now <$> records c in
  if bool_decide (rs = records c) then c else update_collection c (S (revision c)) rs.

(** [(item.consumed_at or item.decided_at or item.requested_at) < cutoff]
    of a terminal record. *)
Definition past_retention (cutoff : Z) (r : ActiveChangeApprovalRecord) : bool :=
  terminal (status r)
  && (instant (match consumed_at r, decided_at r with
               | Some t, _ => t
               | None, Some t => t
               | None, None => requested_at r
               end) <? cutoff).

(** backend/app/active_change_approvals.py [_normalize] *)
Definition _normalize (c : ActiveChangeApprovalCollection) (now : datetime)
    : ActiveChangeApprovalCollection :=
  let normalized := _normalize_expired c now in
  let cutoff := instant now - days ACTIVE_CHANGE_APPROVAL_TERMINAL_RETENTION_DAYS in
  let rs := filter (λ r, past_retention cutoff r = false) (records normalized) in
  if bool_decide (rs = records normalized) then normalized
  else update_collection normalized (S (revision normalized)) rs.

(** ** The store *)

(** What [lstat] and the JSON text of [<organization>.json] show. *)
Inductive stored_file : Type :=
| NotRegular                                    (* symlink, directory, ... *)
| Regular (nlink size : N) (content : option ActiveChangeApprovalCollection).
                                                (* [None]: not this schema *)

Abbreviation store := (gmap string stored_file).

Section Store.
(** Lengths of [json.dumps(payload, sort_keys=True)] and of the indented
    text [_atomic_write_json] writes: properties of the JSON encoder. *)
Context (dumps_size file_size : ActiveChangeApprovalCollection → N).

(** backend/app/active_change_approvals.py [_load] *)
Definition _load (s : store) (organization : string) : outcome ActiveChangeApprovalCollection :=
  match s !! organization with
  | None => Ok (Collection organization 0 [])
  | Some NotRegular => Err "invalid_store"
  | Some (Regular nlink size content) =>
      raise "invalid_store" when (negb (nlink =? 1)%N || (ACTIVE_CHANGE_APPROVAL_MAX_BYTES <? size)%N);;
      match content with
      | None => Err "invalid_store"
      | Some c =>
          raise "invalid_store" when (negb (collection_valid c));;
          raise "invalid_store" when (negb (String.eqb (collection_organization_id c) organization));;
          Ok c
      end
  end.

(** backend/app/active_change_approvals.py [_save] *)
Definition _save (s : store) (c : ActiveChangeApprovalCollection) : outcome store :=
  raise "capacity_reached" when (ACTIVE_CHANGE_APPROVAL_MAX_BYTES <? dumps_size c)%N;;
  Ok (<[collection_organization_id c := Regular 1 (file_size c) (Some c)]> s).

(** backend/app/active_change_approvals.py [_find] *)
Definition _find (c : ActiveChangeApprovalCollection) (i : string)
    : outcome ActiveChangeApprovalRecord :=
  or_raise (first_match (λ r, String.eqb (approval_id r) i) (records c)) "approval_not_found".

(** [tuple(updated if item.id == updated.id else item for item in records)] *)
Definition replace_record (updated : ActiveChangeApprovalRecord)
    (rs : list ActiveChangeApprovalRecord) : list ActiveChangeApprovalRecord :=
  (λ r, if String.eqb (approval_id r) (approval_id updated) then updated else r) <$> rs.

(** backend/app/active_change_approvals.py [_replace_and_save] *)
Definition _replace_and_save (s : store) (c : ActiveChangeApprovalCollection)
    (updated : ActiveChangeApprovalRecord) : outcome store :=
  _save s (update_collection c (S (revision c)) (replace_record updated (records c))).

(** backend/app/active_change_approvals.py [ActiveChangeApprovalStore.request] *)
Definition request (s : store) (raw_now : datetime) (new_id : string)
    (organization actor role : string) (k : ActiveChangeKind) (asset : option string)
    (digest : string) (sm : ActiveChangeSummary)
    : outcome (ActiveChangeApprovalRecord * store) :=
  _ ← _validate_scope organization actor role;
  raise "invalid_request" when (negb (_DIGEST digest));;
  now ← _now raw_now;
  requester ← _actor_digest organization actor;
  loaded ← _load s organization;
  let c := _normalize loaded now in
  match first_match (λ r, String.eqb (operation_digest_sha256 r) digest
                          && String.eqb (requester_digest_sha256 r) requester
                          && actionable (status r)) (records c) with
  | Some existing => Ok (existing, s)
  | None =>
      raise "capacity_reached"
        when (ACTIVE_CHANGE_APPROVAL_MAX_RECORDS <=? length (records c))%nat;;
      let r := ApprovalRecord new_id organization asset k pending digest requester role None
                 now (DT (wall now + hours ACTIVE_CHANGE_APPROVAL_TTL_HOURS) (utcoffset now))
                 None None sm in
      raise "ValidationError" when (negb (record_valid r));;
      s' ← _save s (update_collection c (S (revision c)) (records c ++ [r]));
      Ok (r, s')
  end.

(** [sorted(records, key=lambda item: (item.requested_at, item.id), reverse=True)] *)
Definition newest_first (a b : ActiveChangeApprovalRecord) : Prop :=
  instant (requested_at b) < instant (requested_at a)
  ∨ (instant (requested_at b) = instant (requested_at a)
     ∧ str_ltb (approval_id a) (approval_id b) = false).
#[global] Instance newest_first_dec a b : Decision (newest_first a b).
Proof. unfold newest_first. apply _. Defined.

(** backend/app/active_change_approvals.py [ActiveChangeApprovalStore.list] *)
Definition list_approvals (s : store) (raw_now : datetime) (organization : string)
    : outcome (list ActiveChangeApprovalRecord * store) :=
  _ ← _validate_organization organization;
  now ← _now raw_now;
  current ← _load s organization;
  let normalized := _normalize current now in
  s' ← (if bool_decide (normalized = current) then Ok s else _save s normalized);
  Ok (merge_sort newest_first (records normalized), s').

(** backend/app/active_change_approvals.py [_decide] *)
Definition _decide (s : store) (raw_now : datetime) (organization i actor : string)
    (approve : bool) : outcome (ActiveChangeApprovalRecord * store) :=
  _ ← _validate_organization organization;
  _ ← _validate_approval_id i;
  now ← _now raw_now;
  actor_digest ← _actor_digest organization actor;
  loaded ← _load s organization;
  let c := _normalize loaded now in
  r ← _find c i;
  raise "approval_state_changed" when (bool_decide (status r ≠ pending));;
  raise "same_actor" when (String.eqb (requester_digest_sha256 r) actor_digest);;
  let updated := update_record r (if approve then approved else rejected) (Some actor_digest)
                   (Some now) (consumed_at r)
                   (if approve then summary r else _scrub_summary (summary r)) in
  s' ← _replace_and_save s c updated;
  Ok (updated, s').

(** backend/app/active_change_approvals.py [ActiveChangeApprovalStore.approve] *)
Definition approve (s : store) (raw_now : datetime) (organization i actor role : string)
    : outcome (ActiveChangeApprovalRecord * store) :=
  raise "administrator_required" when (negb (String.eqb role "administrator"));;
  _decide s raw_now organization i actor true.

(** backend/app/active_change_approvals.py [ActiveChangeApprovalStore.reject] *)
Definition reject (s : store) (raw_now : datetime) (organization i actor role : string)
    : outcome (ActiveChangeApprovalRecord * store) :=
  raise "administrator_required" when (negb (String.eqb role "administrator"));;
  _decide s raw_now organization i actor false.

(** [record.model_copy(update={"status": "executing"})] *)
Definition start_executing (r : ActiveChangeApprovalRecord) : ActiveChangeApprovalRecord :=
  update_record r executing (approver_digest_sha256 r) (decided_at r) (consumed_at r) (summary r).

(** backend/app/active_change_approvals.py [ActiveChangeApprovalStore.claim] *)
Definition claim (s : store) (raw_now : datetime) (organization i actor : string)
    (k : ActiveChangeKind) (asset : option string) (digest : string)
    : outcome (ActiveChangeApprovalRecord * store) :=
  _ ← _validate_organization organization;
  _ ← _validate_approval_id i;
  now ← _now raw_now;
  actor_digest ← _actor_digest organization actor;
  loaded ← _load s organization;
  let c := _normalize loaded now in
  r ← _find c i;
  raise "approval_not_ready" when (bool_decide (status r ≠ approved));;
  raise "requester_required" when (negb (String.eqb (requester_digest_sha256 r) actor_digest));;
  raise "approval_mismatch" when (bool_decide (kind r ≠ k) || bool_decide (asset_id r ≠ asset)
    || negb (_DIGEST digest) || negb (String.eqb (operation_digest_sha256 r) digest));;
  let updated := start_executing r in
  s' ← _replace_and_save s c updated;
  Ok (updated, s').

(** backend/app/active_change_approvals.py [ActiveChangeApprovalStore.claim_matching] *)
Definition claim_matching (s : store) (raw_now : datetime) (organization actor : string)
    (k : ActiveChangeKind) (asset : option string) (digest : string)
    : outcome (ActiveChangeApprovalRecord * store) :=
  _ ← _validate_organization organization;
  now ← _now raw_now;
  actor_digest ← _actor_digest organization actor;
  loaded ← _load s organization;
  let c := _normalize loaded now in
  match filter (λ r, status r = approved ∧ requester_digest_sha256 r = actor_digest
                     ∧ kind r = k ∧ asset_id r = asset ∧ operation_digest_sha256 r = digest)
               (records c) with
  | [r] =>
      let updated := start_executing r in
      s' ← _replace_and_save s c updated;
      Ok (updated, s')
  | _ => Err "approval_not_ready"
  end.

(** backend/app/active_change_approvals.py [ActiveChangeApprovalStore.finish] *)
Definition finish (s : store) (raw_now : datetime) (organization i : string) (succeeded : bool)
    : outcome (ActiveChangeApprovalRecord * store) :=
  now ← _now raw_now;
  c ← _load s organization;
  r ← _find c i;
  raise "approval_not_executing" when (bool_decide (status r ≠ executing));;
  let updated := update_record r (if succeeded then consumed else approved)
                   (approver_digest_sha256 r) (decided_at r)
                   (if succeeded then Some now else None)
                   (if succeeded then _scrub_summary (summary r) else summary r) in
  s' ← _replace_and_save s c updated;
  Ok (updated, s').

(** [item.model_copy(update={"status": "interrupted", ...}) if executing else item] *)
Definition interrupt_record (now : datetime) (r : ActiveChangeApprovalRecord)
    : ActiveChangeApprovalRecord :=
  if bool_decide (status r = executing)
  then update_record r interrupted (approver_digest_sha256 r) (Some now) (consumed_at r)
         (_scrub_summary (summary r))
  else r.

(** The body of the loop of [recover_interrupted] on one file. *)
(** backend/app/active_change_approvals.py 296-320 [recover_interrupted] *)
Definition recover_organization (s : store) (now : datetime) (organization : string)
    : outcome (nat * store) :=
  c ← _load s organization;
  let changed := interrupt_record now <$> records c in
  let count := count_of (λ r, bool_decide (status r = executing)) (records c) in
  let recovered := update_collection c (revision c + (if (count =? 0)%nat then 0 else 1)) changed in
  let normalized := _normalize recovered now in
  if bool_decide (normalized = c) then Ok (0%nat, s)
  else s' ← _save s normalized; Ok (count, s').

(** [for path in self.directory.glob("*.json")]: [stems] is the listing the
    file system gives; what was saved before a raise stays saved. *)
Fixpoint recover_loop (s : store) (now : datetime) (stems : list string) (recovered : nat)
    : outcome nat * store :=
  match stems with
  | [] => (Ok recovered, s)
  | organization :: rest =>
      if _ORGANIZATION_ID organization
      then match recover_organization s now organization with
           | Ok (n, s') => recover_loop s' now rest (recovered + n)
           | Err e => (Err e, s)
           end
      else recover_loop s now rest recovered
  end.

(** backend/app/active_change_approvals.py [ActiveChangeApprovalStore.recover_interrupted] *)
Definition recover_interrupted (s : store) (raw_now : datetime) (stems : list string)
    : outcome nat * store :=
  match _now raw_now with
  | Err e => (Err e, s)
  | Ok now => recover_loop s now stems 0
  end.

(** backend/app/active_change_approvals.py [count_for_asset_unlocked] *)
Definition count_for_asset_unlocked (s : store) (organization asset : string) : outcome nat :=
  _ ← _validate_organization organization;
  _ ← _validate_approval_id asset;
  c ← _load s organization;
  Ok (count_of (λ r, bool_decide (asset_id r = Some asset)) (records c)).

(** backend/app/active_change_approvals.py [remove_asset] *)
Definition remove_asset (s : store) (organization asset : string) : outcome (nat * store) :=
  _ ← _validate_organization organization;
  _ ← _validate_approval_id asset;
  c ← _load s organization;
  let rs := filter (λ r, asset_id r ≠ Some asset) (records c) in
  let removed := (length (records c) - length rs)%nat in
  s' ← (if (removed =? 0)%nat then Ok s
        else _save s (update_collection c (S (revision c)) rs));
  Ok (removed, s').

(** backend/app/active_change_approvals.py [purge_terminal] *)
Definition purge_terminal (s : store) (raw_now : datetime) (organization : string)
    (cutoff : datetime) : outcome (nat * store) :=
  _ ← _validate_organization organization;
  raise "invalid_clock" when (negb (aware cutoff));;
  current ← _load s organization;
  now ← _now raw_now;
  let normalized := _normalize_expired current now in
  let rs := filter (λ r, past_retention (instant cutoff) r = false) (records normalized) in
  let removed := (length (records normalized) - length rs)%nat in
  s' ← (if (removed =? 0)%nat && bool_decide (normalized = current) then Ok s
        else _save s (update_collection normalized
                        (revision normalized + (if (removed =? 0)%nat then 0 else 1)) rs));
  Ok (removed, s').
End Store.

(** backend/app/active_change_approvals.py [ActiveChangeApprovalView] *)
Record ActiveChangeApprovalView : Type := View {
  view_id : string;
  view_asset_id : option string;
  view_kind : ActiveChangeKind;
  view_status : ActiveChangeStatus;
  operation_digest_prefix : string;
  view_requested_at : datetime;
  view_expires_at : datetime;
  view_decided_at : option datetime;
  view_consumed_at : option datetime;
  requested_by_current_user : bool;
  can_approve : bool;
  can_apply : bool;
  view_summary : ActiveChangeSummary
}.

(** backend/app/active_change_approvals.py [ActiveChangeApprovalStore.view] *)
Definition view (r : ActiveChangeApprovalRecord) (organization actor role : string)
    : outcome ActiveChangeApprovalView :=
  raise "approval_not_found" when (negb (String.eqb (organization_id r) organization));;
  actor_digest ← _actor_digest organization actor;
  let own := String.eqb (requester_digest_sha256 r) actor_digest in
  Ok (View (approval_id r) (asset_id r) (kind r) (status r)
        (str_take 12 (operation_digest_sha256 r))
        (requested_at r) (expires_at r) (decided_at r) (consumed_at r) own
        (bool_decide (status r = pending) && String.eqb role "administrator" && negb own)
        (bool_decide (status r = approved) && own)
        (summary r)).

(** ** The abstract lifecycle

    What the store promises, as a state machine on one approval: the moves a
    record may make, everything that identifies the reviewed change fixed. *)
Inductive edge : ActiveChangeStatus → ActiveChangeStatus → Prop :=
| edge_approve : edge pending approved
| edge_reject : edge pending rejected
| edge_expire_pending : edge pending expired
| edge_expire_approved : edge approved expired
| edge_claim : edge approved executing
| edge_consume : edge executing consumed
| edge_rollback : edge executing approved
| edge_interrupt : edge executing interrupted.

Definition same_change (r r' : ActiveChangeApprovalRecord) : Prop :=
  approval_id r' = approval_id r ∧ organization_id r' = organization_id r
  ∧ asset_id r' = asset_id r ∧ kind r' = kind r
  ∧ operation_digest_sha256 r' = operation_digest_sha256 r
  ∧ requester_digest_sha256 r' = requester_digest_sha256 r
  ∧ requested_at r' = requested_at r ∧ expires_at r' = expires_at r.

Definition lifecycle_step (r r' : ActiveChangeApprovalRecord) : Prop :=
  r' = r ∨ (same_change r r' ∧ edge (status r) (status r')).

(** Two different people: the approver's digest is recorded and is not the
    requester's, in every state that an approval or rejection leads to. *)
Definition four_eyes (r : ActiveChangeApprovalRecord) : Prop :=
  match status r with
  | pending => approver_digest_sha256 r = None
  | expired => ∀ d, approver_digest_sha256 r = Some d → d ≠ requester_digest_sha256 r
  | _ => ∃ d, approver_digest_sha256 r = Some d ∧ d ≠ requester_digest_sha256 r
  end.

(** A consumption time is recorded exactly on consumed approvals. *)
Definition consumption_recorded (r : ActiveChangeApprovalRecord) : Prop :=
  is_Some (consumed_at r) ↔ status r = consumed.

Definition record_ok (organization : string) (r : ActiveChangeApprovalRecord) : Prop :=
  record_valid r = true ∧ organization_id r = organization ∧ four_eyes r ∧ consumption_recorded r.

Definition ids (c : ActiveChangeApprovalCollection) : list string := approval_id <$> records c.

Definition collection_ok (organization : string) (c : ActiveChangeApprovalCollection) : Prop :=
  collection_organization_id c = organization
  ∧ _ORGANIZATION_ID organization = true
  ∧ (length (records c) ≤ ACTIVE_CHANGE_APPROVAL_MAX_RECORDS)%nat
  ∧ NoDup (ids c)
  ∧ Forall (record_ok organization) (records c).

(** Every file of the directory is a well-formed collection of its own
    organization. *)
Definition store_ok (s : store) : Prop :=
  ∀ organization f, s !! organization = Some f →
    ∃ size c, f = Regular 1 size (Some c) ∧ collection_ok organization c.

(** [c'] holds the records of [c] after at most one lifecycle move each, and
    possibly new pending requests. *)
Definition evolves (c c' : ActiveChangeApprovalCollection) : Prop :=
  ∀ r', r' ∈ records c' →
    (∃ r, r ∈ records c ∧ lifecycle_step r r') ∨ (status r' = pending ∧ approval_id r' ∉ ids c).

(** ** Record-level lemmas *)

Lemma encode_ascii_ok s b : encode_ascii s = Ok b → b = s.
Proof. unfold encode_ascii. by case_match; intros [= <-]. Qed.

Lemma actor_digest_valid o a d : _actor_digest o a = Ok d → _DIGEST d = true.
Proof.
  intros (b & _ & [= <-])%bind_ok. destruct (sha256_hex_chars b) as [H1 H2].
  unfold _DIGEST, all_chars. rewrite H2, andb_true_r. apply forallb_forall.
  intros c Hc%list_elem_of_In. by eapply Forall_forall in H1.
Qed.

Lemma now_ok raw now : _now raw = Ok now → aware now = true ∧ instant now = instant raw.
Proof.
  unfold _now. case_match; [done|]. intros [= <-]. by rewrite instant_as_utc.
Qed.

Lemma scrub_fields s : summary_fields_valid s = true → summary_fields_valid (_scrub_summary s) = true.
Proof. unfold summary_fields_valid, _scrub_summary; cbn. rewrite !andb_true_iff. naive_solver. Qed.

(** Updating the lifecycle fields keeps the record valid as long as the
    summary is kept or scrubbed according to the new status. *)
Lemma update_record_valid r st approver decided consumed' sm :
  record_valid r = true →
  from_option _DIGEST true approver = true →
  from_option aware true decided = true →
  from_option aware true consumed' = true →
  (terminal st = false ∧ actionable (status r) = true ∧ sm = summary r)
  ∨ (terminal st = true ∧ sm = _scrub_summary (summary r)) →
  record_valid (update_record r st approver decided consumed' sm) = true.
Proof.
  unfold record_valid, record_fields_valid, validate_lifecycle, terminal.
  rewrite !andb_true_iff. intros Hr Ha Hd Hc Hsm; cbn.
  destruct Hr as ((((((((? & ?) & ?) & ?) & ?) & ?) & ?) & ?)
                  & ((((((((? & ?) & ?) & ?) & ?) & ?) & ?) & Hact) & Hterm)).
  rewrite !negb_true_iff in *.
  destruct Hsm as [(Hst & Hold & ->)|(Hst & ->)].
  - rewrite negb_false_iff in Hst. rewrite Hst, Hold in *. by repeat split.
  - rewrite Hst.
    repeat split; try done. by apply scrub_fields.
Qed.

Lemma update_same_change r st a d k sm : same_change r (update_record r st a d k sm).
Proof. repeat split. Qed.

Create HintDb approvals.
#[export] Hint Resolve update_same_change : approvals.

Lemma record_ok_actionable_not_consumed org r :
  record_ok org r → status r ≠ consumed → consumed_at r = None.
Proof.
  intros (_ & _ & _ & Hc) Hs. destruct (consumed_at r) eqn:E; [|done].
  destruct Hs. apply Hc. by rewrite E.
Qed.

Lemma record_ok_decided_aware org r :
  record_ok org r → from_option aware true (decided_at r) = true
    ∧ from_option aware true (consumed_at r) = true
    ∧ from_option _DIGEST true (approver_digest_sha256 r) = true.
Proof.
  intros (Hv & _). unfold record_valid, record_fields_valid, validate_lifecycle in Hv.
  rewrite !andb_true_iff in Hv. naive_solver.
Qed.

(** *** Expiry *)

Lemma expire_record_cases now r :
  expire_record now r = r ∨
  (actionable (status r) = true ∧ status r ≠ executing ∧ instant (expires_at r) ≤ instant now
   ∧ expire_record now r = update_record r expired (approver_digest_sha256 r) (Some now)
                             (consumed_at r) (_scrub_summary (summary r))).
Proof.
  unfold expire_record. destruct (status r) eqn:E; try (by left);
    (destruct (instant (expires_at r) <=? instant now) eqn:H; [right|by left]);
    apply Z.leb_le in H; done.
Qed.

Lemma expire_record_step now r : lifecycle_step r (expire_record now r).
Proof.
  destruct (expire_record_cases now r) as [->|(Ha & Hn & _ & ->)]; [by left|].
  right. split; [apply update_same_change|]. cbn.
  destruct (status r); try done; constructor.
Qed.

Lemma expire_record_keeps now r : status (expire_record now r) ≠ expired → expire_record now r = r.
Proof. destruct (expire_record_cases now r) as [->|(_ & _ & _ & ->)]; [done|]. by cbn. Qed.

Lemma expire_record_id now r : approval_id (expire_record now r) = approval_id r.
Proof. by destruct (expire_record_cases now r) as [->|(_ & _ & _ & ->)]. Qed.

Lemma expire_record_ok org now r :
  aware now = true → record_ok org r → record_ok org (expire_record now r).
Proof.
  intros Hnow Hr. destruct (expire_record_cases now r) as [->|(Ha & Hn & _ & ->)]; [done|].
  destruct (record_ok_decided_aware _ _ Hr) as (Hd & Hc & Hap).
  pose proof Hr as (Hv & Ho & Hf & Hk). repeat split; cbn; try done.
  - apply update_record_valid; try done. by right.
  - unfold four_eyes in *; cbn. destruct (status r); try done; naive_solver.
  - intros Hcon%Hk. by rewrite Hcon in Ha.
Qed.

(** *** The moves of the operations *)

Lemma decide_ok org now actor (ap : bool) r :
  aware now = true → _DIGEST actor = true → actor ≠ requester_digest_sha256 r →
  status r = pending → record_ok org r →
  let r' := update_record r (if ap then approved else rejected) (Some actor) (Some now)
              (consumed_at r) (if ap then summary r else _scrub_summary (summary r)) in
  record_ok org r' ∧ lifecycle_step r r'.
Proof.
  intros Hnow Hact Hne Hp Hr r'.
  destruct (record_ok_decided_aware _ _ Hr) as (Hd & Hc & Hap).
  pose proof (record_ok_actionable_not_consumed _ _ Hr) as Hnc. rewrite Hp in Hnc.
  specialize (Hnc ltac:(done)). destruct Hr as (Hv & Ho & Hf & Hk). subst r'. split.
  - repeat split; cbn; try done.
    + apply update_record_valid; try done. rewrite Hp. destruct ap; [left|right]; done.
    + unfold four_eyes; cbn. destruct ap; eauto.
    + rewrite Hnc. by intros [? ?].
    + by destruct ap.
  - right. split; [apply update_same_change|]. cbn. rewrite Hp. destruct ap; constructor.
Qed.

Lemma claim_record_ok org r :
  status r = approved → record_ok org r →
  record_ok org (start_executing r) ∧ lifecycle_step r (start_executing r).
Proof.
  intros Hp Hr. destruct (record_ok_decided_aware _ _ Hr) as (Hd & Hc & Hap).
  pose proof (record_ok_actionable_not_consumed _ _ Hr) as Hnc. rewrite Hp in Hnc.
  specialize (Hnc ltac:(done)). destruct Hr as (Hv & Ho & Hf & Hk).
  unfold start_executing. split.
  - repeat split; cbn; try done.
    + apply update_record_valid; try done. rewrite Hp. by left.
    + unfold four_eyes in *; cbn. by rewrite Hp in Hf.
    + rewrite Hnc. by intros [? ?].
  - right. split; [apply update_same_change|]. cbn. rewrite Hp. constructor.
Qed.

Lemma finish_record_ok org now (ok : bool) r :
  aware now = true → status r = executing → record_ok org r →
  let r' := update_record r (if ok then consumed else approved)
              (approver_digest_sha256 r) (decided_at r) (if ok then Some now else None)
              (if ok then _scrub_summary (summary r) else summary r) in
  record_ok org r' ∧ lifecycle_step r r'.
Proof.
  intros Hnow Hp Hr r'. destruct (record_ok_decided_aware _ _ Hr) as (Hd & Hc & Hap).
  destruct Hr as (Hv & Ho & Hf & Hk). subst r'. split.
  - repeat split; cbn; try done.
    + apply update_record_valid; try done; [by destruct ok|]. rewrite Hp.
      destruct ok; [right|left]; done.
    + unfold four_eyes in *; cbn. rewrite Hp in Hf. by destruct ok.
    + destruct ok; [done|]. by intros [? ?].
    + destruct ok; [|done]. eauto.
  - right. split; [apply update_same_change|]. cbn. rewrite Hp. destruct ok; constructor.
Qed.

Lemma interrupt_record_id now r : approval_id (interrupt_record now r) = approval_id r.
Proof. unfold interrupt_record. by case_bool_decide. Qed.

Lemma interrupt_record_not_executing now r : status (interrupt_record now r) ≠ executing.
Proof. unfold interrupt_record. by case_bool_decide. Qed.

Lemma interrupt_record_ok org now r :
  aware now = true → record_ok org r →
  record_ok org (interrupt_record now r) ∧ lifecycle_step r (interrupt_record now r).
Proof.
  intros Hnow Hr. unfold interrupt_record. case_bool_decide as Hp; [|by split; [|left]].
  destruct (record_ok_decided_aware _ _ Hr) as (Hd & Hc & Hap).
  pose proof (record_ok_actionable_not_consumed _ _ Hr) as Hnc. rewrite Hp in Hnc.
  specialize (Hnc ltac:(done)). destruct Hr as (Hv & Ho & Hf & Hk). split.
  - repeat split; cbn; try done.
    + apply update_record_valid; try done. by right.
    + unfold four_eyes in *; cbn. by rewrite Hp in Hf.
    + rewrite Hnc. by intros [? ?].
  - right. split; [apply update_same_change|]. cbn. rewrite Hp. constructor.
Qed.

(** *** Collections *)

Lemma collection_ok_valid org c : collection_ok org c → collection_valid c = true.
Proof.
  intros (<- & Ho & Hl & Hn & Hf). unfold collection_valid, validate_scope.
  rewrite Ho. apply Nat.leb_le in Hl. rewrite Hl. cbn.
  rewrite bool_decide_true by done. cbn. rewrite andb_true_iff, !all_of_true.
  rewrite Forall_forall in Hf. split; intros r Hr; apply Hf in Hr as (? & ? & _); [done|].
  by apply String.eqb_eq.
Qed.

Lemma collection_ok_map org c rev f :
  collection_ok org c → (∀ r, approval_id (f r) = approval_id r) →
  (∀ r, r ∈ records c → record_ok org r → record_ok org (f r)) →
  collection_ok org (update_collection c rev (f <$> records c)).
Proof.
  intros (Ho & Hv & Hl & Hn & Hf) Hid Hr. split_and!; cbn; try done.
  - by rewrite length_fmap.
  - unfold ids in *; cbn. rewrite <- list_fmap_compose.
    by rewrite (list_fmap_ext _ approval_id _ (λ _ r _, Hid r)).
  - rewrite Forall_forall in *. intros r' (r & -> & Hin)%list_elem_of_fmap. eauto.
Qed.

Lemma collection_ok_filter org c rev (P : ActiveChangeApprovalRecord → Prop)
    `{∀ r, Decision (P r)} :
  collection_ok org c → collection_ok org (update_collection c rev (filter P (records c))).
Proof.
  intros (Ho & Hv & Hl & Hn & Hf). pose proof (sublist_filter P (records c)) as Hs.
  split_and!; cbn; try done.
  - apply sublist_length in Hs. lia.
  - unfold ids in *; cbn. eapply sublist_NoDup; [exact Hn|]. by apply fmap_sublist.
  - rewrite Forall_forall in *. intros r [_ Hr]%list_elem_of_filter. auto.
Qed.

Lemma collection_ok_revision org c rev :
  collection_ok org c → collection_ok org (update_collection c rev (records c)).
Proof. by intros (? & ? & ? & ? & ?). Qed.

Lemma normalize_expired_records c now :
  records (_normalize_expired c now) = expire_record now <$> records c.
Proof. unfold _normalize_expired. by case_bool_decide as H; [rewrite H|]. Qed.

Lemma normalize_records c now :
  records (_normalize c now) =
  filter (λ r, past_retention (instant now - days ACTIVE_CHANGE_APPROVAL_TERMINAL_RETENTION_DAYS) r
               = false) (expire_record now <$> records c).
Proof.
  unfold _normalize. case_bool_decide as H; cbn; [rewrite <- H at 1|];
    by rewrite normalize_expired_records.
Qed.

Lemma normalize_expired_ok org c now :
  aware now = true → collection_ok org c → collection_ok org (_normalize_expired c now).
Proof.
  intros Hn Hc. unfold _normalize_expired. case_bool_decide; [done|].
  apply collection_ok_map; [done|intros r; apply expire_record_id|].
  intros r _. by apply expire_record_ok.
Qed.

Lemma normalize_ok org c now :
  aware now = true → collection_ok org c → collection_ok org (_normalize c now).
Proof.
  intros Hn Hc. unfold _normalize. case_bool_decide; [by apply normalize_expired_ok|].
  apply collection_ok_filter. by apply normalize_expired_ok.
Qed.

(** A record of the normalized collection comes from one of the original, by
    no move or by an expiry. *)
Lemma elem_of_normalize c now r :
  r ∈ records (_normalize c now) → ∃ r0, r0 ∈ records c ∧ r = expire_record now r0.
Proof.
  rewrite normalize_records, list_elem_of_filter, list_elem_of_fmap. naive_solver.
Qed.

Lemma normalize_not_expired c now r :
  r ∈ records (_normalize c now) → status r ≠ expired → r ∈ records c.
Proof.
  intros (r0 & Hin & ->)%elem_of_normalize Hs. by rewrite (expire_record_keeps _ _ Hs).
Qed.

Lemma normalize_evolves c now : evolves c (_normalize c now).
Proof.
  intros r' (r & Hin & ->)%elem_of_normalize. left. exists r. split; [done|].
  apply expire_record_step.
Qed.

Lemma normalize_ids c now i : i ∈ ids (_normalize c now) → i ∈ ids c.
Proof.
  intros (r & -> & (r0 & Hin & ->)%elem_of_normalize)%list_elem_of_fmap.
  rewrite expire_record_id. by apply list_elem_of_fmap_2.
Qed.

(** After normalization nothing actionable is past its expiry. *)
Lemma normalize_live c now r :
  r ∈ records (_normalize c now) → status r = pending ∨ status r = approved →
  instant now < instant (expires_at r).
Proof.
  intros (r0 & Hin & ->)%elem_of_normalize Hs.
  assert (Hk : expire_record now r0 = r0) by (apply expire_record_keeps; by destruct Hs as [Hs|Hs]; rewrite Hs).
  rewrite Hk in Hs |- *. unfold expire_record in Hk.
  destruct Hs as [Hs|Hs]; rewrite Hs in Hk;
    (destruct (instant (expires_at r0) <=? instant now) eqn:E; [|by apply Z.leb_gt in E]);
    apply (f_equal status) in Hk; cbn in Hk; congruence.
Qed.

Lemma find_ok c i r : _find c i = Ok r → r ∈ records c ∧ approval_id r = i.
Proof.
  unfold _find. rewrite or_raise_ok. intros [? ?%String.eqb_eq]%first_match_Some. done.
Qed.

(** Replacing one record by a valid successor. *)
Lemma replace_ok org c rev r r' :
  collection_ok org c → r ∈ records c → record_ok org r' → lifecycle_step r r' →
  collection_ok org (update_collection c rev (replace_record r' (records c))).
Proof.
  intros Hc Hin Hr' Hstep. apply collection_ok_map; [done| |].
  - intros x. case_match eqn:E; [|done]. by apply String.eqb_eq in E.
  - intros x _ Hx. by case_match.
Qed.

Lemma NoDup_ids_inj c r1 r2 :
  NoDup (ids c) → r1 ∈ records c → r2 ∈ records c → approval_id r1 = approval_id r2 → r1 = r2.
Proof.
  unfold ids. induction (records c) as [|x l IH]; cbn; [set_solver|].
  rewrite NoDup_cons. intros [Hx Hl] H1 H2 He.
  apply elem_of_cons in H1 as [->|H1]; apply elem_of_cons in H2 as [->|H2]; auto.
  - destruct Hx. rewrite He. by apply list_elem_of_fmap_2.
  - destruct Hx. rewrite <- He. by apply list_elem_of_fmap_2.
Qed.

Lemma replace_evolves c now rev r r' :
  r ∈ records (_normalize c now) → status r ≠ expired → lifecycle_step r r' →
  evolves c (update_collection (_normalize c now) rev (replace_record r' (records (_normalize c now)))).
Proof.
  intros Hin Hs Hstep x (y & -> & Hy)%list_elem_of_fmap. left. case_match eqn:E.
  - exists r. split; [by eapply normalize_not_expired|done].
  - apply elem_of_normalize in Hy as (y0 & Hy0 & ->). exists y0. split; [done|].
    apply expire_record_step.
Qed.

Lemma replace_plain_evolves c rev r r' :
  r ∈ records c → lifecycle_step r r' →
  evolves c (update_collection c rev (replace_record r' (records c))).
Proof.
  intros Hin Hstep x (y & -> & Hy)%list_elem_of_fmap. left.
  destruct (String.eqb _ _); [by exists r|]. exists y. split; [done|by left].
Qed.

(** ** The store as a state machine *)

Lemma load_ok s org c :
  store_ok s → _load s org = Ok c →
  collection_ok org c ∨ (s !! org = None ∧ c = Collection org 0 []).
Proof.
  unfold _load. intros Hs H. destruct (s !! org) as [f|] eqn:E; [|naive_solver].
  apply Hs in E as (size & c0 & -> & Hc). inv_ok H. by left.
Qed.

Lemma load_valid_ok s org c :
  store_ok s → _ORGANIZATION_ID org = true → _load s org = Ok c → collection_ok org c.
Proof.
  intros Hs Ho [?|[_ ->]]%load_ok; [done| |done].
  split_and!; cbn; try done; [lia|constructor].
Qed.

Lemma validate_organization_ok org u :
  _validate_organization org = Ok u → _ORGANIZATION_ID org = true.
Proof. unfold _validate_organization. by destruct (_ORGANIZATION_ID org). Qed.

Lemma load_some_ok s org c f :
  store_ok s → s !! org = Some f → _load s org = Ok c → collection_ok org c.
Proof. intros Hs Hf Hl. destruct (load_ok _ _ _ Hs Hl) as [?|[H _]]; [done|congruence]. Qed.

Lemma map_evolves c rev f :
  (∀ r, r ∈ records c → lifecycle_step r (f r)) → evolves c (update_collection c rev (f <$> records c)).
Proof. intros Hf x (y & -> & Hy)%list_elem_of_fmap. left. eauto. Qed.

Lemma filter_evolves c c' rev (P : ActiveChangeApprovalRecord → Prop) `{∀ r, Decision (P r)} :
  evolves c c' → evolves c (update_collection c' rev (filter P (records c'))).
Proof. intros Hev r' [_ Hin]%list_elem_of_filter. by apply Hev. Qed.

Lemma elem_record_ok org c r : collection_ok org c → r ∈ records c → record_ok org r.
Proof. intros (_ & _ & _ & _ & Hf) Hin. by eapply Forall_forall in Hf. Qed.

Section Machine.
Context (dumps_size file_size : ActiveChangeApprovalCollection → N).

(** What a successful operation on [organization] does to the directory. *)
Definition saved (s : store) (organization : string) (c : ActiveChangeApprovalCollection)
    (s' : store) : Prop :=
  s' = s ∨
  ∃ c', collection_ok organization c' ∧ evolves c c'
        ∧ s' = <[organization := Regular 1 (file_size c') (Some c')]> s.

Lemma save_saved s org c c' s' :
  collection_ok org c' → evolves c c' → _save dumps_size file_size s c' = Ok s' →
  saved s org c s'.
Proof.
  intros Hc' Hev H. unfold _save in H. inv_ok H. right. exists c'.
  destruct Hc' as (<- & ?); done.
Qed.

Lemma saved_store_ok s org c s' : store_ok s → saved s org c s' → store_ok s'.
Proof.
  intros Hs [->|(c' & Hc' & _ & ->)]; [done|]. intros o f.
  rewrite lookup_insert. case_decide as Ho; [|by apply Hs]. subst.
  intros [= <-]. eauto.
Qed.

(** Replace one live record of the normalized collection and save. *)
Lemma replace_and_save_saved s now org c r r' s' :
  aware now = true → collection_ok org c → r ∈ records (_normalize c now) →
  status r ≠ expired → record_ok org r' ∧ lifecycle_step r r' →
  _replace_and_save dumps_size file_size s (_normalize c now) r' = Ok s' → saved s org c s'.
Proof.
  intros Hn Hc Hin Hs [Hr' Hstep] H. eapply save_saved; [| |exact H].
  - eapply replace_ok; eauto. by apply normalize_ok.
  - by eapply replace_evolves.
Qed.


Lemma request_saved s raw i org actor role k asset digest sm r s' c :
  store_ok s → _load s org = Ok c → i ∉ ids c →
  request dumps_size file_size s raw i org actor role k asset digest sm = Ok (r, s') →
  saved s org c s'.
Proof.
  unfold request. intros Hs Hl Hi H. inv_ok H.
  rename select (_validate_scope _ _ _ = _) into Hv. unfold _validate_scope in Hv. inv_ok Hv.
  rename select (_now _ = Ok _) into Hnow. apply now_ok in Hnow as [Hnow _].
  assert (Hc : collection_ok org c)
    by (eapply load_valid_ok; eauto using validate_organization_ok).
  rewrite Hl in *. simplify_eq. case_match; [simplify_eq; by left|].
  inv_ok H. pose proof (normalize_ok _ _ _ Hnow Hc) as (Ho & Hv & Hle & Hnd & Hf).
  to_prop. eapply save_saved; [| |eassumption].
  - split_and!; cbn; try done.
    + rewrite length_app. cbn. lia.
    + unfold ids; cbn. rewrite fmap_app. apply NoDup_app. split_and!; [done| |apply NoDup_singleton].
      intros x Hx. cbn. rewrite list_elem_of_singleton. intros ->. by apply normalize_ids in Hx.
    + apply Forall_app. split; [done|]. constructor; [|constructor].
      split_and!; cbn; try done. split; [by intros [? ?]|done].
  - intros r'. cbn. rewrite elem_of_app, list_elem_of_singleton. intros [Hin| ->]; [|by right].
    by eapply normalize_evolves.
Qed.

Lemma list_saved s raw org l s' c :
  store_ok s → _load s org = Ok c →
  list_approvals dumps_size file_size s raw org = Ok (l, s') → saved s org c s'.
Proof.
  unfold list_approvals. intros Hs Hl H. inv_ok H.
  rename select (_now _ = Ok _) into Hnow. apply now_ok in Hnow as [Hnow _].
  assert (Hc : collection_ok org c) by (eapply load_valid_ok; eauto using validate_organization_ok).
  rewrite Hl in *. simplify_eq. case_bool_decide; simplify_eq; [by left|].
  eapply save_saved; [|apply normalize_evolves|eassumption]. by apply normalize_ok.
Qed.

(** What a decision had to find: a pending record of another requester. *)
Lemma decide_inv s raw org i actor ap r s' c :
  store_ok s → _load s org = Ok c →
  _decide dumps_size file_size s raw org i actor ap = Ok (r, s') →
  ∃ now d r0, aware now = true ∧ instant now = instant raw ∧ _actor_digest org actor = Ok d ∧
    collection_ok org c ∧ r0 ∈ records (_normalize c now) ∧ approval_id r0 = i ∧
    status r0 = pending ∧ d ≠ requester_digest_sha256 r0 ∧
    r = update_record r0 (if ap then approved else rejected) (Some d) (Some now) (consumed_at r0)
          (if ap then summary r0 else _scrub_summary (summary r0)) ∧
    _replace_and_save dumps_size file_size s (_normalize c now) r = Ok s'.
Proof.
  unfold _decide. intros Hs Hl H. inv_ok H.
  rename select (_now _ = Ok _) into Hnow. apply now_ok in Hnow as [Hnow Hi].
  assert (Hc : collection_ok org c) by (eapply load_valid_ok; eauto using validate_organization_ok).
  rewrite Hl in *. simplify_eq.
  rename select (_find _ _ = Ok _) into Hf. apply find_ok in Hf as [Hin <-]. to_prop.
  do 3 eexists. split_and!; eauto; congruence.
Qed.

Lemma decide_saved s raw org i actor ap r s' c :
  store_ok s → _load s org = Ok c →
  _decide dumps_size file_size s raw org i actor ap = Ok (r, s') → saved s org c s'.
Proof.
  intros Hs Hl H. eapply decide_inv in H as
    (now & d & r0 & Hn & _ & Hd & Hc & Hin & _ & Hp & Hne & -> & Hsave); [|done|done].
  eapply replace_and_save_saved; eauto; [by rewrite Hp|].
  eapply decide_ok; eauto using actor_digest_valid.
  eapply elem_record_ok; [by apply normalize_ok|done].
Qed.

(** What a claim had to find: the requester's own approved, unexpired
    record of exactly this change. *)
Lemma claim_inv s raw org i actor k asset digest r s' c :
  store_ok s → _load s org = Ok c →
  claim dumps_size file_size s raw org i actor k asset digest = Ok (r, s') →
  ∃ now d r0, aware now = true ∧ instant now = instant raw ∧ _actor_digest org actor = Ok d ∧
    collection_ok org c ∧ r0 ∈ records (_normalize c now) ∧ approval_id r0 = i ∧
    status r0 = approved ∧ requester_digest_sha256 r0 = d ∧ kind r0 = k ∧ asset_id r0 = asset ∧
    operation_digest_sha256 r0 = digest ∧ r = start_executing r0 ∧
    _replace_and_save dumps_size file_size s (_normalize c now) r = Ok s'.
Proof.
  unfold claim. intros Hs Hl H. inv_ok H.
  rename select (_now _ = Ok _) into Hnow. apply now_ok in Hnow as [Hnow Hi].
  assert (Hc : collection_ok org c) by (eapply load_valid_ok; eauto using validate_organization_ok).
  rewrite Hl in *. simplify_eq.
  rename select (_find _ _ = Ok _) into Hf. apply find_ok in Hf as [Hin <-]. to_prop.
  do 3 eexists. split_and!; eauto; congruence.
Qed.

Lemma claimed_saved s org c now r0 s' :
  aware now = true → collection_ok org c → r0 ∈ records (_normalize c now) → status r0 = approved →
  _replace_and_save dumps_size file_size s (_normalize c now) (start_executing r0) = Ok s' →
  saved s org c s'.
Proof.
  intros Hn Hc Hin Hp Hsave. eapply replace_and_save_saved; eauto; [by rewrite Hp|].
  apply claim_record_ok; [done|]. eapply elem_record_ok; [by apply normalize_ok|done].
Qed.

Lemma claim_saved s raw org i actor k asset digest r s' c :
  store_ok s → _load s org = Ok c →
  claim dumps_size file_size s raw org i actor k asset digest = Ok (r, s') → saved s org c s'.
Proof.
  intros Hs Hl H. eapply claim_inv in H as
    (now & d & r0 & Hn & _ & _ & Hc & Hin & _ & Hp & _ & _ & _ & _ & -> & Hsave); [|done|done].
  by eapply claimed_saved.
Qed.

Lemma claim_matching_saved s raw org actor k asset digest r s' c :
  store_ok s → _load s org = Ok c →
  claim_matching dumps_size file_size s raw org actor k asset digest = Ok (r, s') → saved s org c s'.
Proof.
  unfold claim_matching. intros Hs Hl H. inv_ok H.
  rename select (_now _ = Ok _) into Hnow. apply now_ok in Hnow as [Hnow Hi].
  assert (Hc : collection_ok org c) by (eapply load_valid_ok; eauto using validate_organization_ok).
  rewrite Hl in *. simplify_eq. case_match eqn:E; [done|]. case_match; [|done]. inv_ok H.
  assert (Hin : a ∈ [a]) by set_solver. rewrite <- E in Hin.
  apply list_elem_of_filter in Hin as [(Hp & _) Hin]. by eapply claimed_saved.
Qed.

Lemma finish_saved s raw org i ok r s' c :
  store_ok s → _load s org = Ok c →
  finish dumps_size file_size s raw org i ok = Ok (r, s') → saved s org c s'.
Proof.
  unfold finish. intros Hs Hl H. inv_ok H.
  rename select (_now _ = Ok _) into Hnow. apply now_ok in Hnow as [Hnow Hi].
  rewrite Hl in *. simplify_eq.
  rename select (_find _ _ = Ok _) into Hf. apply find_ok in Hf as [Hin <-]. to_prop.
  rename select (status _ = executing) into Hp.
  destruct (load_ok _ _ _ Hs Hl) as [Hc|[_ ->]]; [|by apply elem_of_nil in Hin].
  pose proof (elem_record_ok _ _ _ Hc Hin) as Hr.
  destruct (finish_record_ok org x ok _ Hnow Hp Hr) as [Hr' Hstep].
  eapply save_saved; [by eapply replace_ok|by eapply replace_plain_evolves|eassumption].
Qed.



Lemma remove_asset_saved s org asset n s' c :
  store_ok s → _load s org = Ok c →
  remove_asset dumps_size file_size s org asset = Ok (n, s') → saved s org c s'.
Proof.
  unfold remove_asset. intros Hs Hl H. inv_ok H.
  assert (Hc : collection_ok org c) by (eapply load_valid_ok; eauto using validate_organization_ok).
  rewrite Hl in *. simplify_eq. case_match; simplify_eq; [by left|].
  eapply save_saved; [| |eassumption]; [by apply collection_ok_filter|apply filter_evolves].
  intros r Hr. left. exists r. split; [done|by left].
Qed.

Lemma purge_terminal_saved s raw org cutoff n s' c :
  store_ok s → _load s org = Ok c →
  purge_terminal dumps_size file_size s raw org cutoff = Ok (n, s') → saved s org c s'.
Proof.
  unfold purge_terminal. intros Hs Hl H. inv_ok H.
  rename select (_now _ = Ok _) into Hnow. apply now_ok in Hnow as [Hnow Hi].
  assert (Hc : collection_ok org c) by (eapply load_valid_ok; eauto using validate_organization_ok).
  rewrite Hl in *. simplify_eq. case_match; simplify_eq; [by left|].
  eapply save_saved; [| |eassumption];
    [by apply collection_ok_filter, normalize_expired_ok|apply filter_evolves].
  intros r'. rewrite normalize_expired_records. intros (r & -> & Hin)%list_elem_of_fmap.
  left. exists r. split; [done|apply expire_record_step].
Qed.

(** A restart moves executing approvals to interrupted and expires the rest;
    a record makes one move only. *)
Lemma recover_organization_saved s now org n s' :
  store_ok s → aware now = true → _ORGANIZATION_ID org = true →
  recover_organization dumps_size file_size s now org = Ok (n, s') →
  ∃ c, _load s org = Ok c ∧ saved s org c s'.
Proof.
  unfold recover_organization. intros Hs Hn Ho H.
  apply bind_ok in H as (c & Hl & H). exists c. split; [done|].
  assert (Hc : collection_ok org c) by (by eapply load_valid_ok). cbv zeta in H.
  set (c1 := update_collection c _ _) in H.
  assert (Hc1 : collection_ok org c1).
  { apply collection_ok_map; [done|intros r; apply interrupt_record_id|].
    intros r _ Hr. by apply interrupt_record_ok. }
  case_bool_decide; [simplify_eq; by left|]. inv_ok H.
  eapply save_saved; [by apply normalize_ok| |eassumption].
  intros r' (r1 & (r & -> & Hin)%list_elem_of_fmap & ->)%elem_of_normalize.
  left. exists r. split; [done|].
  assert (Hi : lifecycle_step r (interrupt_record now r))
    by (eapply (interrupt_record_ok org); [done|by eapply (elem_record_ok _ c)]).
  unfold interrupt_record in *. case_bool_decide; [exact Hi|apply expire_record_step].
Qed.
End Machine.

(** ** Reachable stores *)

Section Properties.
Context (dumps_size file_size : ActiveChangeApprovalCollection → N).

(** One call on the store that did not raise (a restart may also stop half
    way).  [uuid4] identifiers are fresh in the collection they join, and a
    directory listing names a file once. *)
Inductive step : store → store → Prop :=
| step_request s raw i org actor role k asset digest sm r s' c :
    _load s org = Ok c → i ∉ ids c →
    request dumps_size file_size s raw i org actor role k asset digest sm = Ok (r, s') → step s s'
| step_list s raw org l s' :
    list_approvals dumps_size file_size s raw org = Ok (l, s') → step s s'
| step_approve s raw org i actor role r s' :
    approve dumps_size file_size s raw org i actor role = Ok (r, s') → step s s'
| step_reject s raw org i actor role r s' :
    reject dumps_size file_size s raw org i actor role = Ok (r, s') → step s s'
| step_claim s raw org i actor k asset digest r s' :
    claim dumps_size file_size s raw org i actor k asset digest = Ok (r, s') → step s s'
| step_claim_matching s raw org actor k asset digest r s' :
    claim_matching dumps_size file_size s raw org actor k asset digest = Ok (r, s') → step s s'
| step_finish s raw org i ok r s' :
    finish dumps_size file_size s raw org i ok = Ok (r, s') → step s s'
| step_remove_asset s org asset n s' :
    remove_asset dumps_size file_size s org asset = Ok (n, s') → step s s'
| step_purge s raw org cutoff n s' :
    purge_terminal dumps_size file_size s raw org cutoff = Ok (n, s') → step s s'
| step_recover s raw stems o s' :
    NoDup stems → recover_interrupted dumps_size file_size s raw stems = (o, s') → step s s'.

(** One organization's file is touched. *)
Definition touches (s : store) (org : string) (s' : store) : Prop :=
  ∃ c, _load s org = Ok c ∧ saved file_size s org c s'.

Lemma saved_frame s org c s' x : saved file_size s org c s' → x ≠ org → s' !! x = s !! x.
Proof. intros [->|(c' & _ & _ & ->)] Hx; [done|]. by rewrite lookup_insert_ne. Qed.

Lemma recover_loop_frame now stems s n o s' x :
  store_ok s → aware now = true → x ∉ stems →
  recover_loop dumps_size file_size s now stems n = (o, s') → s' !! x = s !! x.
Proof.
  revert s n. induction stems as [|y stems IH]; intros s n Hs Hn Hx; cbn; [by intros [= _ <-]|].
  apply not_elem_of_cons in Hx as [Hxy Hx]. destruct (_ORGANIZATION_ID y) eqn:Ho; [|by apply IH].
  destruct (recover_organization _ _ _ _ _) as [[k s1]|e] eqn:Hr; [|by intros [= _ <-]].
  apply recover_organization_saved in Hr as (c & Hl & Hsv); try done.
  intros Hloop. rewrite <- (saved_frame _ _ _ _ _ Hsv Hxy).
  eapply IH; eauto. by eapply saved_store_ok.
Qed.

(** A restart touches each listed organization at most once. *)
Lemma recover_loop_touches now stems s n o s' :
  store_ok s → aware now = true → NoDup stems →
  recover_loop dumps_size file_size s now stems n = (o, s') →
  store_ok s' ∧
  ∀ org, s' !! org = s !! org ∨
         (∃ s1 s2, s1 !! org = s !! org ∧ s2 !! org = s' !! org ∧ touches s1 org s2).
Proof.
  revert s n. induction stems as [|x stems IH]; intros s n Hs Hn Hnd; cbn.
  { intros [= _ <-]. split; [done|]. by left. }
  apply NoDup_cons in Hnd as [Hx Hnd]. destruct (_ORGANIZATION_ID x) eqn:Ho; [|by apply IH].
  destruct (recover_organization _ _ _ _ _) as [[k s1]|e] eqn:Hr;
    [|intros [= _ <-]; split; [done|by left]].
  apply recover_organization_saved in Hr as (c & Hl & Hsv); try done.
  assert (Hs1 : store_ok s1) by (by eapply saved_store_ok).
  intros Hloop. pose proof (IH _ _ Hs1 Hn Hnd Hloop) as [Hs' Hall]. split; [done|].
  intros org. destruct (decide (org = x)) as [->|Hne].
  - right. exists s, s1. split_and!; [done| |by exists c].
    symmetry. by eapply recover_loop_frame.
  - rewrite <- (saved_frame _ _ _ _ _ Hsv Hne). apply Hall.
Qed.


(** Every operation acts on one organization. *)
Lemma step_touches s s' :
  store_ok s → step s s' →
  store_ok s' ∧
  ∀ org, s' !! org = s !! org ∨
         (∃ s1 s2, s1 !! org = s !! org ∧ s2 !! org = s' !! org ∧ touches s1 org s2).
Proof.
  intros Hs Hstep.
  assert (Hone : ∀ o, touches s o s' → store_ok s' ∧ ∀ org, s' !! org = s !! org ∨
    (∃ s1 s2, s1 !! org = s !! org ∧ s2 !! org = s' !! org ∧ touches s1 org s2)).
  { intros o (c & Hl & Hsv). split; [by eapply saved_store_ok|]. intros org.
    destruct (decide (org = o)) as [->|Hne]; [right; exists s, s'; split_and!; [done..|by exists c]|].
    left. by eapply saved_frame. }
  destruct Hstep; try (eapply Hone; eexists; split; [eassumption|]; by eapply request_saved).
  9: { rename select (recover_interrupted _ _ _ _ _ = _) into Hrec.
       unfold recover_interrupted in Hrec. case_match eqn:Hn; [|simplify_eq; split; [done|by left]].
       apply now_ok in Hn as [Hn _]. by eapply recover_loop_touches. }
  all: apply (Hone org);
    match goal with H : ?call = Ok (_, ?t) |- touches _ _ ?t =>
      assert (∃ c, _load s org = Ok c) as [c Hl];
        [ clear -H; unfold list_approvals, approve, reject, _decide, claim, claim_matching, finish,
            remove_asset, purge_terminal in H; inv_ok H; by eexists
        | exists c; split; [done|] ]
    end;
    unfold approve, reject in *; repeat (case_match; [done|]);
    eauto using list_saved, decide_saved, claim_saved, claim_matching_saved, finish_saved,
      remove_asset_saved, purge_terminal_saved.
Qed.

Lemma reachable_ok s : rtc step ∅ s → store_ok s.
Proof.
  assert (H0 : store_ok ∅) by (intros ??; by rewrite lookup_empty).
  revert H0. generalize (∅ : store). intros s0 H0 Hr.
  induction Hr as [|s0 s1 s2 Hstep _ IH]; [done|]. by apply IH, (step_touches s0).
Qed.

Lemma reachable_record_ok s org c r :
  rtc step ∅ s → _load s org = Ok c → r ∈ records c → record_ok org r.
Proof.
  intros Hr Hl Hin. apply reachable_ok in Hr.
  destruct (load_ok _ _ _ Hr Hl) as [Hc|[_ ->]]; [by eapply elem_record_ok|by apply elem_of_nil in Hin].
Qed.

(** C1: Four eyes. In every store the operations can produce, an approval
    that is approved, executing or consumed records the digest of an
    approver that is not the requester. *)
Theorem four_eyes_always s org c r :
  rtc step ∅ s → _load s org = Ok c → r ∈ records c →
  status r = approved ∨ status r = executing ∨ status r = consumed →
  ∃ d, approver_digest_sha256 r = Some d ∧ d ≠ requester_digest_sha256 r.
Proof.
  intros Hs Hl Hin Hst. destruct (reachable_record_ok _ _ _ _ Hs Hl Hin) as (_ & _ & Hf & _).
  unfold four_eyes in Hf. by destruct Hst as [E|[E|E]]; rewrite E in Hf.
Qed.

(** The operations never write a file the loader rejects for its
    content: every file of a reachable store is a regular file whose
    collection passes all validators under its own organization, although
    [model_copy] re-validates nothing. *)
Theorem store_always_valid s org f :
  rtc step ∅ s → s !! org = Some f →
  ∃ size c, f = Regular 1 size (Some c) ∧ collection_valid c = true
            ∧ collection_organization_id c = org.
Proof.
  intros Hs Hf. apply reachable_ok in Hs. apply Hs in Hf as (size & c & -> & Hc).
  exists size, c. split_and!; [done|by eapply collection_ok_valid|]. by destruct Hc.
Qed.

(** C34: Refinement of the approval lifecycle. Across any operation, every
    record found afterwards is either a new pending request under a new
    identifier, or was there before and made at most one move of the
    lifecycle ([pending] to approved, rejected or expired; [approved] to
    executing or expired; [executing] to consumed, back to approved, or
    interrupted), with its identity, digests and expiry unchanged. In
    particular a terminal record never changes again. *)
Theorem step_refines_lifecycle s s' org c c' :
  rtc step ∅ s → step s s' → _load s org = Ok c → _load s' org = Ok c' → evolves c c'.
Proof.
  intros Hs Hstep Hl Hl'. apply reachable_ok in Hs.
  destruct (step_touches _ _ Hs Hstep) as [_ Hall].
  assert (Hload : ∀ s1 s2 : store, s1 !! org = s2 !! org → _load s1 org = _load s2 org)
    by (intros s1 s2 E; unfold _load; by rewrite E).
  assert (Hrefl : evolves c c) by (intros r Hr; left; exists r; split; [done|by left]).
  destruct (Hall org) as [E|(s1 & s2 & E1 & E2 & c1 & Hl1 & Hsv)].
  { rewrite (Hload _ _ E), Hl in Hl'. by simplify_eq. }
  rewrite (Hload _ _ E1), Hl in Hl1. simplify_eq. rewrite <- (Hload _ _ E2) in Hl'.
  destruct Hsv as [->|(c2 & Hc2 & Hev & ->)].
  { rewrite (Hload _ _ E1), Hl in Hl'. by simplify_eq. }
  unfold _load in Hl'. rewrite lookup_insert_eq in Hl'. inv_ok Hl'. done.
Qed.

(** A claim is authorized and single-use. It succeeds only for the
    requester, on a record of the store that a different person approved
    for exactly this change and that has not expired; afterwards no claim
    of the same approval succeeds, whoever makes it and whenever. *)
Theorem claim_authorized_once s raw org i actor k asset digest r s' :
  rtc step ∅ s → claim dumps_size file_size s raw org i actor k asset digest = Ok (r, s') →
  (∃ c r0 requester approver, _load s org = Ok c ∧ r0 ∈ records c ∧ approval_id r0 = i
    ∧ status r0 = approved ∧ instant raw < instant (expires_at r0)
    ∧ kind r0 = k ∧ asset_id r0 = asset ∧ operation_digest_sha256 r0 = digest
    ∧ _actor_digest org actor = Ok requester ∧ requester_digest_sha256 r0 = requester
    ∧ approver_digest_sha256 r0 = Some approver ∧ approver ≠ requester)
  ∧ ∀ raw' actor' k' asset' digest' res,
      claim dumps_size file_size s' raw' org i actor' k' asset' digest' ≠ Ok res.
Proof.
  intros Hs H. apply reachable_ok in Hs.
  assert (∃ c, _load s org = Ok c) as [c Hl] by (unfold claim in H; inv_ok H; by eexists).
  pose proof H as H'. apply (claim_saved dumps_size file_size _ _ _ _ _ _ _ _ _ _ c) in H'; [|done..].
  eapply claim_inv in H as
    (now & d & r0 & Hn & Hi & Hd & Hc & Hin & Hid & Hp & Hq & Hk & Ha & Hdg & -> & Hsave); [|done..].
  assert (Hin0 : r0 ∈ records c) by (apply (normalize_not_expired c now); [done|by rewrite Hp]).
  split.
  - pose proof (elem_record_ok _ _ _ Hc Hin0) as (_ & _ & Hf & _).
    unfold four_eyes in Hf. rewrite Hp in Hf. destruct Hf as (ap & Hap & Hne).
    exists c, r0, d, ap. rewrite <- Hi. split_and!; try done; [|congruence].
    eapply normalize_live; [exact Hin|by right].
  - intros raw' actor' k' asset' digest' [r2 s2] H2. unfold _replace_and_save, _save in Hsave.
    inv_ok Hsave. assert (Hs' : store_ok _) by (by eapply saved_store_ok).
    set (c2 := update_collection _ _ _) in *.
    assert (collection_organization_id c2 = org) as Ho
      by (by destruct (normalize_ok _ _ _ Hn Hc) as (? & _)). rewrite Ho in *.
    assert (∃ c', _load (<[org:=Regular 1 (file_size c2) (Some c2)]> s) org = Ok c') as [c' Hl']
      by (unfold claim in H2; inv_ok H2; by eexists).
    assert (c' = c2) as ->.
    { unfold _load in Hl'. rewrite lookup_insert_eq in Hl'. by inv_ok Hl'. }
    eapply claim_inv in H2 as (now2 & d2 & r3 & _ & _ & _ & Hc' & Hin2 & Hid2 & Hp2 & _); [|done..].
    apply normalize_not_expired in Hin2; [|by rewrite Hp2].
    assert (Hex : start_executing r0 ∈ records c2).
    { apply list_elem_of_fmap. exists r0. split; [|done]. cbn. by rewrite String.eqb_refl. }
    destruct Hc' as (_ & _ & _ & Hnd & _).
    assert (r3 = start_executing r0) as ->.
    { eapply (NoDup_ids_inj c2); eauto. }
    done.
Qed.

Lemma recover_organization_clears s now org n s' c (r : ActiveChangeApprovalRecord) :
  store_ok s → aware now = true → _ORGANIZATION_ID org = true →
  recover_organization dumps_size file_size s now org = Ok (n, s') →
  _load s' org = Ok c → r ∈ records c → status r ≠ executing.
Proof.
  intros Hs Hn Ho H Hl' Hin. unfold recover_organization in H.
  apply bind_ok in H as (c0 & Hl & H). cbv zeta in H. set (c1 := update_collection c0 _ _) in H.
  assert (c = _normalize c1 now) as ->.
  { case_bool_decide as E; simplify_eq; [congruence|]. inv_ok H.
    rename select (_save _ _ _ _ = _) into Hsave. unfold _save in Hsave. inv_ok Hsave.
    assert (Hc1 : collection_ok org c1).
    { apply collection_ok_map; [by eapply load_valid_ok|intros ?; apply interrupt_record_id|].
      intros ? _ Hr. by eapply interrupt_record_ok. }
    unfold _load in Hl'. destruct (normalize_ok _ _ _ Hn Hc1) as [Ho2 _].
    rewrite Ho2, lookup_insert_eq in Hl'. by inv_ok Hl'. }
  apply elem_of_normalize in Hin as (r1 & (r0 & -> & _)%list_elem_of_fmap & ->).
  destruct (expire_record_cases now (interrupt_record now r0)) as [->|(_ & _ & _ & ->)]; [|done].
  apply interrupt_record_not_executing.
Qed.

(** Restart recovery. When [recover_interrupted] has gone through every
    file of the directory, no approval of any organization is left
    executing: a change that was being applied when the process died must
    be reviewed again. *)
Theorem recover_leaves_no_executing s raw stems n s' org c (r : ActiveChangeApprovalRecord) :
  rtc step ∅ s → NoDup stems → (∀ o, is_Some (s !! o) → o ∈ stems) →
  recover_interrupted dumps_size file_size s raw stems = (Ok n, s') →
  _load s' org = Ok c → r ∈ records c → status r ≠ executing.
Proof.
  intros Hs%reachable_ok Hnd Hcov H Hl' Hin. unfold recover_interrupted in H.
  case_match eqn:Hn; [|done]. apply now_ok in Hn as [Hn _].
  assert (Hgen : ∀ stems s m, store_ok s → NoDup stems →
    (is_Some (s !! org) → org ∈ stems) →
    recover_loop dumps_size file_size s a stems m = (Ok n, s') → status r ≠ executing);
    [|eapply (Hgen stems s); eauto].
  clear -Hl' Hin Hn. induction stems as [|x stems IH]; intros s m Hs Hnd Hcov; cbn.
  { intros [= _ <-]. destruct (s !! org) eqn:E; [by apply not_elem_of_nil in Hcov|].
    unfold _load in Hl'. rewrite E in Hl'. simplify_eq. by apply elem_of_nil in Hin. }
  apply NoDup_cons in Hnd as [Hx Hnd].
  assert (Habsent : ∀ o f, s !! o = Some f → _ORGANIZATION_ID o = true).
  { intros o f Hf. by apply Hs in Hf as (? & ? & _ & _ & ? & _). }
  destruct (_ORGANIZATION_ID x) eqn:Ho.
  - destruct (recover_organization _ _ _ _ _) as [[k s1]|e] eqn:Hr; [|done]. intros Hloop.
    pose proof Hr as Hr'. apply recover_organization_saved in Hr' as (c1 & Hl & Hsv); try done.
    assert (Hs1 : store_ok s1) by (by eapply saved_store_ok).
    destruct (decide (org = x)) as [->|Hne].
    + eapply (recover_organization_clears s a x k s1 c); try done.
      unfold _load in *. by rewrite <- (recover_loop_frame _ _ _ _ _ _ x Hs1 Hn Hx Hloop).
    + eapply IH; [exact Hs1|done| |exact Hloop].
      rewrite (saved_frame _ _ _ _ _ Hsv Hne). intros [?|?]%Hcov%elem_of_cons; done.
  - apply IH; [done..|]. intros [f Hf]. pose proof (Habsent _ _ Hf).
    destruct (elem_of_cons stems org x) as [Hc _]. destruct Hc as [->|]; [eauto| |done]. congruence.
Qed.

Lemma find_elem c i r :
  NoDup (ids c) → r ∈ records c → approval_id r = i → _find c i = Ok r.
Proof.
  intros Hnd Hin Hi. unfold _find. apply or_raise_ok.
  destruct (first_match _ _) as [r'|] eqn:E.
  - apply first_match_Some in E as [Hin' He%String.eqb_eq]. f_equal.
    eapply NoDup_ids_inj; eauto. congruence.
  - rewrite first_match_None in E. apply E in Hin. by rewrite Hi, String.eqb_refl in Hin.
Qed.

(** The flags of a view are exactly what the store enforces: for a
    record as normalized at the current time, [can_approve] says whether
    this actor's approval would succeed and [can_apply] whether this
    actor's claim of the reviewed change would. *)
Theorem view_flags_exact s raw now org c r actor role v :
  rtc step ∅ s → (∀ c, (dumps_size c <= ACTIVE_CHANGE_APPROVAL_MAX_BYTES)%N) →
  _now raw = Ok now → _load s org = Ok c → r ∈ records (_normalize c now) →
  view r org actor role = Ok v →
  is_ok (approve dumps_size file_size s raw org (approval_id r) actor role) = can_approve v ∧
  is_ok (claim dumps_size file_size s raw org (approval_id r) actor (kind r) (asset_id r)
           (operation_digest_sha256 r)) = can_apply v.
Proof.
  intros Hs%reachable_ok Hfit Hnow Hl Hin Hview.
  assert (Hsave : ∀ c r, is_ok (_replace_and_save dumps_size file_size s c r) = true).
  { intros c0 r0. unfold _replace_and_save, _save. by rewrite (proj2 (N.ltb_ge _ _) (Hfit _)). }
  assert (Hc : collection_ok org c).
  { destruct (load_ok _ _ _ Hs Hl) as [?|[_ ->]]; [done|].
    by apply elem_of_normalize in Hin as (? & ?%elem_of_nil & _). }
  pose proof (now_ok _ _ Hnow) as [Hn _]. pose proof (normalize_ok _ _ _ Hn Hc) as Hc'.
  pose proof (elem_record_ok _ _ _ Hc' Hin) as (Hv & _).
  destruct Hc' as (_ & Ho & _ & Hnd & _).
  unfold record_valid, record_fields_valid in Hv. rewrite !andb_true_iff in Hv.
  destruct Hv as [(((((((Hid & _) & _) & Hdig) & _) & _) & _) & _) _].
  unfold view in Hview. case_match; [done|]. apply bind_ok in Hview as (d & Hd & [= <-]).
  unfold approve, _decide, claim, _validate_organization, _validate_approval_id. cbn [can_approve can_apply].
  rewrite Ho, Hid, Hnow, Hd, Hl. cbn. rewrite (find_elem _ _ r Hnd Hin eq_refl). cbn.
  rewrite Hdig, String.eqb_refl, (bool_decide_false (kind r ≠ kind r)),
    (bool_decide_false (asset_id r ≠ asset_id r)) by (intros Hx; by apply Hx). cbn.
  split; repeat case_bool_decide; try congruence; cbn;
    destruct (requester_digest_sha256 r =? d)%string, (role =? "administrator")%string; cbn; try done;
    destruct (_replace_and_save _ _ _ _ _) eqn:E; try done;
    match type of E with _replace_and_save _ _ _ ?c1 ?r1 = _ =>
      specialize (Hsave c1 r1); by rewrite E in Hsave end.
Qed.

(** What the size limit checks. A collection the operations built that
    [_save] accepts is read back unchanged exactly when the indented file it
    wrote is within the limit; the admission test measures the shorter,
    unindented text, so a file above the limit is written and every later
    load of that organization raises. *)
Theorem save_then_load s org c s' :
  collection_ok org c → _save dumps_size file_size s c = Ok s' →
  (dumps_size c <= ACTIVE_CHANGE_APPROVAL_MAX_BYTES)%N
  ∧ _load s' org = (if (file_size c <=? ACTIVE_CHANGE_APPROVAL_MAX_BYTES)%N
                    then Ok c else Err "invalid_store").
Proof.
  intros Hc H. unfold _save in H. inv_ok H. rename select (_ = false) into Hd.
  apply N.ltb_ge in Hd. split; [done|]. pose proof (collection_ok_valid _ _ Hc) as Hv.
  destruct Hc as (<- & _). unfold _load. rewrite lookup_insert_eq, Hv, String.eqb_refl. cbn.
  rewrite N.ltb_antisym. by destruct (_ <=? _)%N.
Qed.
End Properties.

(** ** Concrete runs

    A registration requested by one administrator, approved by another and
    claimed by the first. *)
Module Demo.
Definition no_size : ActiveChangeApprovalCollection → N := λ _, 0%N.
Definition at_hour (h : Z) : datetime := DT (hours h) (Some 0).
Definition org : string := "local-admin".
Definition alice : string := "aaaaaaaaaaaaaaaaaaaaaaaaaaaaaaaa".
Definition bob : string := "bbbbbbbbbbbbbbbbbbbbbbbbbbbbbbbb".
Definition new_id : string := "00000000000000000000000000000001".
Definition digest : string := "0123456789abcdef0123456789abcdef0123456789abcdef0123456789abcdef".
Definition scope : ActiveChangeSummary :=
  Summary domain (Some "example.org") new_registration ["active_dns"] [443] ["tcp"] None None.

Definition after {A} (o : outcome (A * store)) : store :=
  match o with Ok (_, s) => s | Err _ => ∅ end.
Definition result {A} (d : A) (o : outcome (A * store)) : A :=
  match o with Ok (r, _) => r | Err _ => d end.
Definition blank : ActiveChangeApprovalRecord :=
  ApprovalRecord "" "" None registration pending "" "" "" None (at_hour 0) (at_hour 0) None None scope.

Definition do_request : outcome (ActiveChangeApprovalRecord * store) :=
  request no_size no_size ∅ (at_hour 0) new_id org alice "administrator" registration None digest scope.
Definition s1 : store := Eval vm_compute in after do_request.
Definition do_approve : outcome (ActiveChangeApprovalRecord * store) :=
  approve no_size no_size s1 (at_hour 1) org new_id bob "administrator".
Definition s2 : store := Eval vm_compute in after do_approve.
Definition do_claim : outcome (ActiveChangeApprovalRecord * store) :=
  claim no_size no_size s2 (at_hour 2) org new_id alice registration None digest.
Definition s3 : store := Eval vm_compute in after do_claim.
Definition approved_record : ActiveChangeApprovalRecord := Eval vm_compute in result blank do_approve.
Definition claimed_record : ActiveChangeApprovalRecord := Eval vm_compute in result blank do_claim.
Definition c2 : ActiveChangeApprovalCollection := Eval vm_compute in
  match _load s2 org with Ok c => c | Err _ => Collection "" 0 [] end.
Definition c3 : ActiveChangeApprovalCollection := Eval vm_compute in
  match _load s3 org with Ok c => c | Err _ => Collection "" 0 [] end.

Lemma step1 : step no_size no_size ∅ s1.
Proof.
  eapply (step_request _ _ ∅ (at_hour 0) new_id org alice "administrator" registration None digest
            scope (result blank do_request) s1 (Collection org 0 [])).
  - reflexivity.
  - apply not_elem_of_nil.
  - vm_compute. reflexivity.
Qed.

Lemma step2 : step no_size no_size s1 s2.
Proof.
  eapply (step_approve _ _ s1 (at_hour 1) org new_id bob "administrator" approved_record).
  vm_compute. reflexivity.
Qed.

Lemma claim_run : claim no_size no_size s2 (at_hour 2) org new_id alice registration None digest
                  = Ok (claimed_record, s3).
Proof. vm_compute. reflexivity. Qed.

Lemma step3 : step no_size no_size s2 s3.
Proof. eapply step_claim, claim_run. Qed.

Lemma reach2 : rtc (step no_size no_size) ∅ s2.
Proof. eapply rtc_l; [apply step1|]. apply rtc_once, step2. Qed.

Lemma reach3 : rtc (step no_size no_size) ∅ s3.
Proof. eapply rtc_r; [apply reach2|apply step3]. Qed.
End Demo.

Lemma four_eyes_always_witness :
  ∃ d, approver_digest_sha256 Demo.claimed_record = Some d
       ∧ d ≠ requester_digest_sha256 Demo.claimed_record.
Proof.
  apply (four_eyes_always Demo.no_size Demo.no_size Demo.s3 Demo.org Demo.c3).
  - exact Demo.reach3.
  - vm_compute. reflexivity.
  - vm_compute. left.
  - right. left. reflexivity.
Defined.

Lemma store_always_valid_witness :
  ∃ size c, Demo.s3 !! Demo.org = Some (Regular 1 size (Some c)) ∧ collection_valid c = true
            ∧ collection_organization_id c = Demo.org.
Proof.
  assert (H : Demo.s3 !! Demo.org = Some (Regular 1 0 (Some Demo.c3))) by (vm_compute; reflexivity).
  destruct (store_always_valid Demo.no_size Demo.no_size Demo.s3 Demo.org _ Demo.reach3 H)
    as (size & c & E & Hc & Ho).
  exists size, c. rewrite H, E. auto.
Defined.

Lemma step_refines_lifecycle_witness : evolves Demo.c2 Demo.c3.
Proof.
  apply (step_refines_lifecycle Demo.no_size Demo.no_size Demo.s2 Demo.s3 Demo.org).
  - exact Demo.reach2.
  - exact Demo.step3.
  - vm_compute. reflexivity.
  - vm_compute. reflexivity.
Defined.

Lemma claim_authorized_once_witness :
  is_ok (claim Demo.no_size Demo.no_size Demo.s3 (Demo.at_hour 3) Demo.org Demo.new_id Demo.bob
           registration None Demo.digest) = false.
Proof.
  destruct (claim Demo.no_size Demo.no_size Demo.s3 _ _ _ Demo.bob _ _ _) as [res|e] eqn:E; [|reflexivity].
  destruct (proj2 (claim_authorized_once Demo.no_size Demo.no_size Demo.s2 _ _ _ _ _ _ _ _ Demo.s3
                  Demo.reach2 Demo.claim_run) (Demo.at_hour 3) Demo.bob registration None Demo.digest res E).
Defined.

Lemma recover_leaves_no_executing_witness :
  ∃ n s' c, recover_interrupted Demo.no_size Demo.no_size Demo.s3 (Demo.at_hour 3) [Demo.org] = (Ok n, s')
    ∧ n = 1%nat ∧ _load s' Demo.org = Ok c ∧ ∀ r, r ∈ records c → status r ≠ executing.
Proof.
  destruct (recover_interrupted Demo.no_size Demo.no_size Demo.s3 (Demo.at_hour 3) [Demo.org])
    as [[n|e] s'] eqn:E; [|vm_compute in E; discriminate].
  destruct (_load s' Demo.org) as [c|e] eqn:El;
    [|vm_compute in E; injection E as <- <-; vm_compute in El; discriminate].
  exists n, s', c. split; [reflexivity|]. split; [vm_compute in E; congruence|]. split; [exact El|].
  intros r Hr. apply (recover_leaves_no_executing Demo.no_size Demo.no_size Demo.s3 (Demo.at_hour 3)
    [Demo.org] n s' Demo.org c r Demo.reach3); [apply NoDup_singleton| |exact E|exact El|exact Hr].
  intros o [f Hf]. destruct (decide (o = Demo.org)) as [->|Hne]; [left|].
  replace Demo.s3 with (<[Demo.org := Regular 1 0 (Some Demo.c3)]> (∅ : store)) in Hf
    by (vm_compute; reflexivity).
  rewrite lookup_insert_ne in Hf by congruence. by rewrite lookup_empty in Hf.
Defined.

Lemma view_flags_exact_witness :
  ∃ v, view Demo.approved_record Demo.org Demo.alice "administrator" = Ok v ∧ can_apply v = true
    ∧ is_ok (claim Demo.no_size Demo.no_size Demo.s2 (Demo.at_hour 2) Demo.org Demo.new_id Demo.alice
               registration None Demo.digest) = true.
Proof.
  destruct (view Demo.approved_record Demo.org Demo.alice "administrator") as [v|e] eqn:E;
    [|vm_compute in E; discriminate].
  exists v. split; [reflexivity|]. assert (Hv : can_apply v = true) by (vm_compute in E; by injection E as <-).
  split; [exact Hv|].
  destruct (view_flags_exact Demo.no_size Demo.no_size Demo.s2 (Demo.at_hour 2) (Demo.at_hour 2) Demo.org
    Demo.c2 Demo.approved_record Demo.alice "administrator" v Demo.reach2) as [_ H].
  - intros c. vm_compute. discriminate.
  - reflexivity.
  - vm_compute. reflexivity.
  - vm_compute. left.
  - exact E.
  - rewrite Hv in H. exact H.
Defined.

Lemma save_then_load_witness :
  _load Demo.s3 Demo.org = Ok Demo.c3
  ∧ ∃ s', _save (λ _, 2097152%N) (λ _, 2097153%N) Demo.s3 Demo.c3 = Ok s'
          ∧ _load s' Demo.org = Err "invalid_store".
Proof.
  assert (Hc : collection_ok Demo.org Demo.c3).
  { pose proof (reachable_ok Demo.no_size Demo.no_size _ Demo.reach3) as Hs.
    apply (load_some_ok Demo.s3 Demo.org Demo.c3 (Regular 1 0 (Some Demo.c3)) Hs); vm_compute; reflexivity. }
  split; [vm_compute; reflexivity|].
  destruct (_save (λ _, 2097152%N) (λ _, 2097153%N) Demo.s3 Demo.c3) as [s'|e] eqn:E;
    [|vm_compute in E; discriminate].
  exists s'. split; [reflexivity|].
  exact (proj2 (save_then_load (λ _, 2097152%N) (λ _, 2097153%N) Demo.s3 Demo.org Demo.c3 s' Hc E)).
Defined.
