(* ===== verification/BearerToken.v ===== *)
(** * BearerToken: the opaque bearer credentials of the API

    [automation_tokens.py] and [repository_import_grants.py] issue bearers of
    one shape, [<prefix><32 hex digits>_<43 url-safe characters>], and keep
    only a domain-separated SHA-256 digest under the identifier.  This file
    has the shape, the digest and the interface of such a store, with the
    theorem both stores owe their clients: only an issued bearer
    authenticates. *)

From S2P Require Import Prelude PyStr Sha256.

(** [re.fullmatch(r"[a-f0-9]{32}", s)] *)
Definition is_hex32 (s : string) : bool := all_chars is_hex_lower s && (len s =? 32)%nat.

(** [re.fullmatch(r"[A-Za-z0-9_-]{43}", s)] *)
Definition is_secret (s : string) : bool := all_chars is_urlsafe s && (len s =? 43)%nat.

(** [f"{prefix}{id}_{secret}"] *)
Definition format_bearer (prefix i secret : string) : string := prefix ++ i ++ "_" ++ secret.

(** [re.fullmatch(prefix + r"([a-f0-9]{32})_([A-Za-z0-9_-]{43})", p)], its
    first group. *)
Definition parse_bearer (prefix p : string) : option string :=
  if negb (startswith prefix p) then None else
  let rest := str_drop (len prefix) p in
  let i := str_take 32 rest in
  let secret := str_drop 33 rest in
  if is_hex32 i && String.eqb (str_take 1 (str_drop 32 rest)) "_" && is_secret secret
  then Some i else None.

(** [hashlib.sha256(domain + b"\0" + plaintext.encode("ascii")).hexdigest()] *)
Definition bearer_hash (domain plaintext : string) : string :=
  sha256_hex (domain ++ String "000"%char "" ++ plaintext).

(** ** Lemmas *)

Lemma str_take_app s t : str_take (len s) (s ++ t)%string = s.
Proof. unfold str_take, len. by rewrite chars_app, take_app_length, text_chars. Qed.

Lemma str_take_drop n s : s = (str_take n s ++ str_drop n s)%string.
Proof. apply chars_inj. unfold str_take, str_drop. by rewrite chars_app, !chars_text, take_drop. Qed.

Lemma str_drop_drop n m s : str_drop n (str_drop m s) = str_drop (m + n) s.
Proof. unfold str_drop. by rewrite chars_text, drop_drop. Qed.

Lemma is_hex32_len i : is_hex32 i = true → len i = 32.
Proof. unfold is_hex32. intros H. by to_prop. Qed.

Lemma parse_format prefix i secret :
  is_hex32 i = true → is_secret secret = true →
  parse_bearer prefix (format_bearer prefix i secret) = Some i.
Proof.
  intros Hi Hs. pose proof (is_hex32_len _ Hi) as Hl. unfold parse_bearer, format_bearer.
  rewrite startswith_text. cbn [negb]. rewrite str_drop_text.
  change 33 with (32 + 1). rewrite <- str_drop_drop, <- Hl, str_take_app, str_drop_text.
  change (str_take 1 ("_" ++ secret)) with (str_take (len "_") ("_" ++ secret)).
  rewrite str_take_app. change (str_drop 1 ("_" ++ secret)) with (str_drop (len "_") ("_" ++ secret)).
  by rewrite str_drop_text, Hi, Hs.
Qed.

Lemma parse_bearer_inv prefix p i :
  parse_bearer prefix p = Some i →
  ∃ secret, p = format_bearer prefix i secret ∧ is_hex32 i = true ∧ is_secret secret = true.
Proof.
  unfold parse_bearer. destruct (startswith prefix p) eqn:Hp; [|done]. cbn.
  apply startswith_inv in Hp. set (rest := str_drop (len prefix) p) in *.
  destruct (is_hex32 (str_take 32 rest)) eqn:Hi; [|done].
  destruct (String.eqb_spec (str_take 1 (str_drop 32 rest)) "_") as [Hu|]; [|done].
  destruct (is_secret (str_drop 33 rest)) eqn:Hs; [|done]. intros [= <-].
  exists (str_drop 33 rest). split; [|done]. rewrite Hp at 1. unfold format_bearer. f_equal.
  rewrite (str_take_drop 32 rest) at 1. f_equal. rewrite (str_take_drop 1 (str_drop 32 rest)) at 1.
  by rewrite Hu, str_drop_drop.
Qed.

(** Equal digests in one domain mean equal bearers, or a collision. *)
Lemma bearer_hash_inj domain p q :
  bearer_hash domain p = bearer_hash domain q →
  p = q ∨ sha256_collision (domain ++ String "000"%char "" ++ p) (domain ++ String "000"%char "" ++ q).
Proof.
  intros H. destruct (decide (p = q)) as [|Hne]; [by left|right]. split; [|exact H].
  intros E. apply Hne. apply (f_equal (str_drop (len domain))) in E. rewrite !str_drop_text in E.
  by apply (f_equal (str_drop (len (String "000"%char "")))) in E; rewrite !str_drop_text in E.
Qed.

(** ** The interface of a bearer store

    [hash_of s i] is the digest column of the row [i].  A client sees issues
    and authentications; everything else a store does may only drop rows or
    keep their digests. *)
Class BearerStore (S P : Type) : Type := {
  bearer_prefix : string;
  bearer_domain : string;
  hash_of : S → string → option string;
  authenticate_bearer : S → datetime → string → outcome (option P * S);
  principal_id : P → string;
  (** A principal is only returned for a well-formed bearer whose digest is
      the stored one. *)
  authenticate_hash s now p pr s' :
    authenticate_bearer s now p = Ok (Some pr, s') →
    parse_bearer bearer_prefix p = Some (principal_id pr)
    ∧ hash_of s (principal_id pr) = Some (bearer_hash bearer_domain p)
}.

Section Issued.
Context {S P : Type} `{BearerStore S P}.

(** What an operation does to the digests: an issue adds the digest of the
    bearer it returns; any other operation adds nothing. *)
Definition issues (s s' : S) (p : string) : Prop :=
  ∀ i h, hash_of s' i = Some h →
    hash_of s i = Some h ∨ h = bearer_hash bearer_domain p.
Definition keeps_hashes (s s' : S) : Prop :=
  ∀ i h, hash_of s' i = Some h → hash_of s i = Some h.

(** The bearers handed out so far cover every digest in the store. *)
Definition covered (issued : list string) (s : S) : Prop :=
  ∀ i h, hash_of s i = Some h →
    ∃ p, p ∈ issued ∧ h = bearer_hash bearer_domain p.

Lemma covered_issue issued s s' p : covered issued s → issues s s' p → covered (p :: issued) s'.
Proof.
  intros Hc Hi i h [Hh | ->]%Hi; [|exists p; set_solver].
  destruct (Hc i h Hh) as (q & ? & ?). exists q. set_solver.
Qed.

Lemma covered_keep issued s s' : covered issued s → keeps_hashes s s' → covered issued s'.
Proof. intros Hc Hk i h Hh%Hk. by destruct (Hc i h Hh) as (p & ? & ?); exists p. Qed.

Lemma covered_authenticate issued s now p pr s' :
  covered issued s → authenticate_bearer s now p = Ok (Some pr, s') →
  p ∈ issued ∨ ∃ q, q ∈ issued ∧ sha256_collision (bearer_domain ++ String "000"%char "" ++ p)
                                                   (bearer_domain ++ String "000"%char "" ++ q).
Proof.
  intros Hc [Hp Hh]%authenticate_hash. destruct (Hc _ _ Hh) as (q & Hq & E).
  destruct (bearer_hash_inj _ _ _ E) as [->|]; eauto.
Qed.
End Issued.
