(* ===== verification/Identifiers.v ===== *)
(** * Identifiers: the identifiers the stores share

    The patterns by which the stores recognise organizations, actors and
    digests, and the checks of lengths and ranges of their models.  A record's
    identifier is [BearerToken.is_hex32]. *)

From S2P Require Import Prelude PyStr BearerToken.
Local Open Scope Z_scope.

(** [^(?:local-admin|[a-f0-9]{32})$] *)
Definition is_owner (s : string) : bool := String.eqb s "local-admin" || is_hex32 s.

(** [^(?:local-admin|team-admin|[a-f0-9]{32})$] *)
Definition is_actor (s : string) : bool := mem s ["local-admin"; "team-admin"] || is_hex32 s.

(** [^[a-f0-9]{64}$] *)
Definition is_hex64 (s : string) : bool := all_chars is_hex_lower s && (len s =? 64)%nat.

Definition in_range (lo hi : Z) (n : Z) : bool := (lo <=? n) && (n <=? hi).

(** [len(set(l)) == len(l)] *)
Definition unique {A} `{EqDecision A} (l : list A) : bool := (length (remove_dups l) =? length l)%nat.
