(* ===== verification/AutomationTokens.v ===== *)
(** * AutomationTokens: project-bound credentials of non-interactive clients

    Models [backend/app/automation_tokens.py].  The SQLite table
    [automation_tokens] is a finite map from primary key to row; every method
    is one transaction on it, and a method that raises leaves it as it was.
    A REAL timestamp column is the exact microsecond instant (until the year
    2242 distinct microseconds have distinct doubles, in the same order); only
    the float subtraction of the rate window can differ from the exact one,
    at the very microsecond the window ends.  SQLite being unavailable is not
    modelled; the one integrity error the statements can cause is. *)

From S2P Require Import Prelude PyStr Sha256 BearerToken.
Local Open Scope Z_scope.

(** ** Data *)

(** backend/app/automation_tokens.py 14-21 [constants] *)
Definition AUTOMATION_SCOPES : list string := ["project:read"; "project:scan"; "report:read"].
Definition AUTOMATION_TOKEN_PREFIX : string := "inspectra_at_".
Definition AUTOMATION_TOKEN_MAX_LIFETIME_SECONDS : Z := 90 * 24 * 60 * 60.
Definition AUTOMATION_TOKEN_RATE_WINDOW_SECONDS : Z := 60 * 60.
Definition AUTOMATION_TOKEN_MAX_REQUESTS_PER_WINDOW : Z := 600.
Definition AUTOMATION_TOKEN_MAX_ACTIVE_PER_PROJECT : nat := 2.
Definition AUTOMATION_TOKEN_LAST_USED_BUCKET_SECONDS : Z := 60 * 60.

(** backend/app/automation_tokens.py [AutomationPrincipal] *)
Record AutomationPrincipal : Type := Principal {
  principal_token_id : string;
  principal_organization_id : string;
  principal_project_id : string;
  principal_scopes : list string;
  principal_expires_at : datetime
}.

(** backend/app/automation_tokens.py [AutomationTokenRecord] *)
Record AutomationTokenRecord : Type := TokenRecord {
  token_id : string;
  record_name : string;
  record_organization_id : string;
  record_project_id : string;
  record_scopes : list string;
  record_created_by : string;
  record_created_at : datetime;
  record_expires_at : datetime;
  record_revoked_at : option datetime;
  record_last_used_at : option datetime
}.

(** The columns of a row, but for its key. *)
(** backend/app/automation_tokens.py [AutomationTokenStore._initialize_schema] *)
Record token_row : Type := TokenRow {
  token_hash : string;
  name : string;
  organization_id : string;
  project_id : string;
  scopes : string;
  created_by : string;
  created_at : Z;
  expires_at : Z;
  revoked_at : option Z;
  last_used_at : option Z;
  rate_window_started_at : Z;
  rate_window_requests : Z
}.

Abbreviation token_store := (gmap string token_row).

#[export] Instance token_record_eq_dec : EqDecision AutomationTokenRecord.
Proof. solve_decision. Defined.
#[export] Instance principal_eq_dec : EqDecision AutomationPrincipal.
Proof. solve_decision. Defined.

(** ** Helpers *)

(** backend/app/automation_tokens.py [_datetime] *)
Definition _datetime (timestamp : Z) : datetime := DT timestamp (Some 0).

(** backend/app/automation_tokens.py [_token_hash] *)
Definition _token_hash (plaintext : string) : string :=
  bearer_hash "inspectra-automation-token-v1" plaintext.

(** backend/app/automation_tokens.py [AutomationTokenStore._now] *)
Definition _now (value : datetime) : datetime := if aware value then value else replace_utc value.

(** [tuple(filter(None, text.split(",")))] *)
Definition split_scopes (s : string) : list string := filter (λ x, truthy x = true) (split_on "," s).

(** backend/app/automation_tokens.py [_record] *)
Definition _record (i : string) (row : token_row) : AutomationTokenRecord :=
  TokenRecord i (name row) (organization_id row) (project_id row) (split_scopes (scopes row))
    (created_by row) (_datetime (created_at row)) (_datetime (expires_at row))
    (_datetime <$> revoked_at row) (_datetime <$> last_used_at row).

(** ** Operations *)

(** backend/app/automation_tokens.py [AutomationTokenStore.get] *)
Definition get (s : token_store) (organization i : string) : outcome AutomationTokenRecord :=
  match s !! i with
  | Some row => if String.eqb (organization_id row) organization then Ok (_record i row)
                else Err "not_found"
  | None => Err "not_found"
  end.

(** [revoked_at IS NULL AND expires_at > ?] for one organization and project. *)
Definition active_row (organization project : string) (t : Z) (row : token_row) : bool :=
  String.eqb (organization_id row) organization && String.eqb (project_id row) project
  && bool_decide (revoked_at row = None) && (t <? expires_at row).

(** backend/app/automation_tokens.py 95-100 [SELECT COUNT] *)
Definition active_count (s : token_store) (organization project : string) (t : Z) : nat :=
  size (filter (λ kv, active_row organization project t kv.2 = true) s).

(** backend/app/automation_tokens.py [AutomationTokenStore.create] *)
Definition create (s : token_store) (raw_now : datetime) (new_id secret : string)
    (raw_name organization project : string) (requested : list string) (by' : string)
    (lifetime_seconds : Z) : outcome (AutomationTokenRecord * string * token_store) :=
  let normalized_name := strip raw_name in
  raise "invalid_name" when (negb ((3 <=? len normalized_name)%nat && (len normalized_name <=? 80)%nat));;
  raise "invalid_project" when (negb (is_hex32 project || String.eqb project "local-admin"));;
  let normalized_scopes := sorted_set requested in
  raise "invalid_scopes" when (bool_decide (normalized_scopes = [])
                               || any_of (λ x, negb (mem x AUTOMATION_SCOPES)) normalized_scopes);;
  raise "invalid_lifetime" when (negb ((300 <=? lifetime_seconds)
                                       && (lifetime_seconds <=? AUTOMATION_TOKEN_MAX_LIFETIME_SECONDS)));;
  let now := instant (_now raw_now) in
  raise "active_limit" when (AUTOMATION_TOKEN_MAX_ACTIVE_PER_PROJECT
                             <=? active_count s organization project now)%nat;;
  raise "token_generation_failed" when (negb (is_secret secret));;
  let plaintext := format_bearer AUTOMATION_TOKEN_PREFIX new_id secret in
  let row := TokenRow (_token_hash plaintext) normalized_name organization project
               (join "," normalized_scopes) by' now (now + seconds lifetime_seconds) None None now 0 in
  raise "store_unavailable" when (bool_decide (is_Some (s !! new_id)));;
  let s' := <[new_id := row]> s in
  r ← get s' organization new_id;
  Ok (r, plaintext, s').

(** [int(timestamp) // bucket * bucket], in microseconds. *)
Definition last_used_bucket (now : Z) : Z :=
  seconds ((now ÷ 1000000) / AUTOMATION_TOKEN_LAST_USED_BUCKET_SECONDS
           * AUTOMATION_TOKEN_LAST_USED_BUCKET_SECONDS).

(** backend/app/automation_tokens.py 162-171 [UPDATE automation_tokens] *)
Definition touch_row (row : token_row) (bucket window_started count : Z) : token_row :=
  TokenRow (token_hash row) (name row) (organization_id row) (project_id row) (scopes row)
    (created_by row) (created_at row) (expires_at row) (revoked_at row)
    (match last_used_at row with
     | None => Some bucket
     | Some t => if t <? bucket then Some bucket else Some t
     end)
    window_started count.

(** backend/app/automation_tokens.py [AutomationTokenStore.authenticate] *)
Definition authenticate (s : token_store) (raw_now : datetime) (plaintext : string)
    : outcome (option AutomationPrincipal * token_store) :=
  match parse_bearer AUTOMATION_TOKEN_PREFIX plaintext with
  | None => Ok (None, s)
  | Some i =>
      let now := instant (_now raw_now) in
      match s !! i with
      | None => Ok (None, s)
      | Some row =>
          if negb (String.eqb (token_hash row) (_token_hash plaintext)) then Ok (None, s)
          else if bool_decide (is_Some (revoked_at row)) || (expires_at row <=? now) then Ok (None, s)
          else
            let '(window_started, count) :=
              if seconds AUTOMATION_TOKEN_RATE_WINDOW_SECONDS <=? now - rate_window_started_at row
              then (now, 0)
              else (rate_window_started_at row, rate_window_requests row) in
            raise "rate_limited" when (AUTOMATION_TOKEN_MAX_REQUESTS_PER_WINDOW <=? count);;
            Ok (Some (Principal i (organization_id row) (project_id row) (split_scopes (scopes row))
                        (_datetime (expires_at row))),
                <[i := touch_row row (last_used_bucket now) window_started (count + 1)]> s)
      end
  end.

(** [ORDER BY created_at DESC, id DESC] *)
Definition newest_first (a b : string * token_row) : Prop :=
  created_at b.2 < created_at a.2 ∨ (created_at b.2 = created_at a.2 ∧ str_le b.1 a.1).
#[export] Instance newest_first_dec a b : Decision (newest_first a b).
Proof. unfold newest_first. apply _. Defined.

(** backend/app/automation_tokens.py [AutomationTokenStore.list] *)
Definition list_tokens (s : token_store) (organization : string) : list AutomationTokenRecord :=
  (λ kv, _record kv.1 kv.2) <$>
    merge_sort newest_first
      (map_to_list (filter (λ kv, String.eqb (organization_id kv.2) organization = true) s)).

(** [revoked_at = COALESCE(revoked_at, ?)] *)
Definition revoke_row (now : Z) (row : token_row) : token_row :=
  TokenRow (token_hash row) (name row) (organization_id row) (project_id row) (scopes row)
    (created_by row) (created_at row) (expires_at row)
    (match revoked_at row with Some t => Some t | None => Some now end)
    (last_used_at row) (rate_window_started_at row) (rate_window_requests row).

(** backend/app/automation_tokens.py [AutomationTokenStore.revoke] *)
Definition revoke (s : token_store) (raw_now : datetime) (organization i : string)
    : outcome (AutomationTokenRecord * token_store) :=
  let now := instant (_now raw_now) in
  match s !! i with
  | Some row =>
      raise "not_found" when (negb (String.eqb (organization_id row) organization));;
      let s' := <[i := revoke_row now row]> s in
      r ← get s' organization i;
      Ok (r, s')
  | None => Err "not_found"
  end.

(** The [WHERE] clause of the purge. *)
Definition purgeable (organization : string) (threshold : Z) (row : token_row) : bool :=
  String.eqb (organization_id row) organization
  && (from_option (λ t, t <? threshold) false (revoked_at row) || (expires_at row <? threshold)).

(** backend/app/automation_tokens.py [AutomationTokenStore.purge_inactive] *)
Definition purge_inactive (s : token_store) (organization : string) (cutoff : datetime)
    : nat * token_store :=
  let threshold := instant (_now cutoff) in
  let s' := filter (λ kv, purgeable organization threshold kv.2 = false) s in
  ((size s - size s')%nat, s').

(** ** Calls and histories

    A call is one request to the store with the values its clock and random
    source gave it; [after] is the table it leaves, raised or not. *)
Inductive call : Type :=
| Create (now : datetime) (new_id secret name organization project : string)
         (scopes : list string) (by' : string) (lifetime : Z)
| Authenticate (now : datetime) (plaintext : string)
| Revoke (now : datetime) (organization i : string)
| Purge (organization : string) (cutoff : datetime).

Definition after (s : token_store) (c : call) : token_store :=
  match c with
  | Create now i sec n o p sc by' life =>
      match create s now i sec n o p sc by' life with Ok (_, _, s') => s' | Err _ => s end
  | Authenticate now p => match authenticate s now p with Ok (_, s') => s' | Err _ => s end
  | Revoke now o i => match revoke s now o i with Ok (_, s') => s' | Err _ => s end
  | Purge o cutoff => (purge_inactive s o cutoff).2
  end.

(** The bearer a call hands out. *)
Definition handed_out (s : token_store) (c : call) : list string :=
  match c with
  | Create now i sec n o p sc by' life =>
      match create s now i sec n o p sc by' life with Ok (_, p, _) => [p] | Err _ => [] end
  | _ => []
  end.

(** The tables a sequence of calls can lead to, with the bearers handed out. *)
Inductive history : list string → token_store → Prop :=
| history_init : history [] ∅
| history_call issued s c : history issued s → history (handed_out s c ++ issued) (after s c).

(** Did the call authenticate the token [i]? *)
Definition authenticates (i : string) (s : token_store) (c : call) : bool :=
  match c with
  | Authenticate now p =>
      match authenticate s now p with
      | Ok (Some pr, _) => String.eqb (principal_token_id pr) i
      | _ => false
      end
  | _ => false
  end.

(** How many calls of a run authenticated [i]. *)
Fixpoint successes (i : string) (s : token_store) (cs : list call) : Z :=
  match cs with
  | [] => 0
  | c :: cs' => (if authenticates i s c then 1 else 0) + successes i (after s c) cs'
  end.

Definition run (s : token_store) (cs : list call) : token_store := foldl after s cs.

(** The call does not reuse the identifier [i] ([secrets.token_hex(16)]). *)
Definition avoids (i : string) (c : call) : Prop :=
  match c with Create _ new_id _ _ _ _ _ _ _ => new_id ≠ i | _ => True end.

(** ** What each operation does to a row *)

Lemma token_create_ok s raw i sec n o p sc by' life r pt s' :
  create s raw i sec n o p sc by' life = Ok (r, pt, s') →
  let now := instant (_now raw) in
  let row := TokenRow (_token_hash pt) (strip n) o p (join "," (sorted_set sc)) by' now
               (now + seconds life) None None now 0 in
  s !! i = None ∧ pt = format_bearer AUTOMATION_TOKEN_PREFIX i sec ∧ is_secret sec = true
  ∧ s' = <[i := row]> s ∧ r = _record i row
  ∧ (active_count s o p now < AUTOMATION_TOKEN_MAX_ACTIVE_PER_PROJECT)%nat.
Proof.
  intros H. unfold create in H. inv_ok H. to_prop. unfold get in *. rewrite lookup_insert_eq in *.
  cbn [organization_id] in *. rewrite String.eqb_refl in *. simplify_eq.
  repeat split; try done; by apply eq_None_not_Some.
Qed.

Lemma token_authenticate_ok s raw p pr s' :
  authenticate s raw p = Ok (Some pr, s') →
  let now := instant (_now raw) in
  ∃ row ws count,
    parse_bearer AUTOMATION_TOKEN_PREFIX p = Some (principal_token_id pr)
    ∧ s !! principal_token_id pr = Some row ∧ token_hash row = _token_hash p
    ∧ revoked_at row = None ∧ now < expires_at row
    ∧ pr = Principal (principal_token_id pr) (organization_id row) (project_id row)
             (split_scopes (scopes row)) (_datetime (expires_at row))
    ∧ s' = <[principal_token_id pr := touch_row row (last_used_bucket now) ws (count + 1)]> s
    ∧ count < AUTOMATION_TOKEN_MAX_REQUESTS_PER_WINDOW
    ∧ (ws = now ∧ count = 0
         ∧ seconds AUTOMATION_TOKEN_RATE_WINDOW_SECONDS <= now - rate_window_started_at row
       ∨ ws = rate_window_started_at row ∧ count = rate_window_requests row).
Proof.
  unfold authenticate. destruct (parse_bearer _ p) as [i|] eqn:Hp; [|done].
  destruct (s !! i) as [row|] eqn:Hi; [|done].
  destruct (String.eqb_spec (token_hash row) (_token_hash p)) as [Hh|]; [|done]. cbn [negb].
  destruct (revoked_at row) eqn:Hr; [done|]. rewrite bool_decide_false by (by intros [? ?]).
  cbn [orb]. destruct (expires_at row <=? _) eqn:He; [done|]. apply Z.leb_gt in He.
  destruct (seconds _ <=? _) eqn:Hw; [apply Z.leb_le in Hw | clear Hw];
    destruct (_ <=? _) eqn:Hc; try done; apply Z.leb_gt in Hc; intros [= <- <-];
    cbn [principal_token_id]; eauto 20.
Qed.

(** Any other outcome leaves the table alone. *)
Lemma authenticate_none s raw p s' : authenticate s raw p = Ok (None, s') → s' = s.
Proof.
  unfold authenticate. destruct (parse_bearer _ p) as [i|]; [|by intros [= <-]].
  destruct (s !! i) as [row|]; [|by intros [= <-]].
  destruct (negb _); [by intros [= <-]|]. destruct (_ || _); [by intros [= <-]|].
  destruct (_ <=? _); by destruct (_ <=? _).
Qed.

Lemma revoke_ok s raw o i r s' :
  revoke s raw o i = Ok (r, s') →
  ∃ row, s !! i = Some row ∧ organization_id row = o
    ∧ s' = <[i := revoke_row (instant (_now raw)) row]> s
    ∧ r = _record i (revoke_row (instant (_now raw)) row).
Proof.
  unfold revoke. destruct (s !! i) as [row|] eqn:Hi; [|done]. intros H. inv_ok H. to_prop.
  exists row. unfold get in *. rewrite lookup_insert_eq in *. cbn in *. case_match; simplify_eq. done.
Qed.

(** The row a call leaves under a key was there before, was touched by an
    authentication, revoked, or just created. *)
Lemma token_after_row s c i row' :
  after s c !! i = Some row' →
  s !! i = Some row'
  ∨ (∃ row now, s !! i = Some row ∧ row' = revoke_row now row)
  ∨ (∃ raw p pr s1, c = Authenticate raw p ∧ authenticate s raw p = Ok (Some pr, s1)
       ∧ principal_token_id pr = i ∧ s1 !! i = Some row')
  ∨ (∃ raw sec n o p sc by' life r pt s1, c = Create raw i sec n o p sc by' life
       ∧ create s raw i sec n o p sc by' life = Ok (r, pt, s1) ∧ s1 !! i = Some row').
Proof.
  destruct c as [raw k sec n o p sc by' life|raw p|raw o k|o cutoff]; cbn.
  - destruct (create _ _ _ _ _ _ _ _ _ _) as [[[r pt] s1]|] eqn:E; [|by left].
    intros Hi. destruct (decide (k = i)) as [->|Hne]; [eauto 20|].
    apply token_create_ok in E as (_ & _ & _ & -> & _). rewrite lookup_insert_ne in Hi by done. by left.
  - destruct (authenticate _ _ _) as [[[pr|] s1]|] eqn:E; intros Hi; [|by apply authenticate_none in E as ->; left|by left].
    destruct (decide (principal_token_id pr = i)) as [Heq|Hne]; [eauto 20|].
    apply token_authenticate_ok in E as (row & ws & cnt & _ & _ & _ & _ & _ & _ & -> & _).
    rewrite lookup_insert_ne in Hi by done. by left.
  - destruct (revoke _ _ _ _) as [[r s1]|] eqn:E; [|by left]. intros Hi.
    apply revoke_ok in E as (row & Hk & _ & -> & _). destruct (decide (k = i)) as [->|Hne].
    + rewrite lookup_insert_eq in Hi. simplify_eq. right. left. eauto.
    + rewrite lookup_insert_ne in Hi by done. by left.
  - intros [? _]%map_lookup_filter_Some. by left.
Qed.

(** ** The store implements the bearer interface *)

Lemma authenticate_token_hash s now p pr s' :
  authenticate s now p = Ok (Some pr, s') →
  parse_bearer AUTOMATION_TOKEN_PREFIX p = Some (principal_token_id pr)
  ∧ token_hash <$> s !! principal_token_id pr = Some (bearer_hash "inspectra-automation-token-v1" p).
Proof.
  intros H. apply token_authenticate_ok in H as (row & _ & _ & Hp & Hi & Hh & _).
  split; [done|]. rewrite Hi. cbn. by rewrite Hh.
Qed.

#[export] Instance token_bearer_store : BearerStore token_store AutomationPrincipal := {
  bearer_prefix := AUTOMATION_TOKEN_PREFIX;
  bearer_domain := "inspectra-automation-token-v1";
  hash_of s i := token_hash <$> s !! i;
  authenticate_bearer := authenticate;
  principal_id := principal_token_id;
  authenticate_hash := authenticate_token_hash
}.

(** Every digest after a call was there before or belongs to the bearer the
    call handed out. *)
Lemma after_hash s c i h :
  token_hash <$> after s c !! i = Some h →
  token_hash <$> s !! i = Some h ∨ ∃ p, handed_out s c = [p] ∧ h = _token_hash p.
Proof.
  intros (row & Hrow & ->)%fmap_Some.
  apply token_after_row in Hrow as [Hrow|[(row0 & now & Hrow & ->)|[(raw & p & pr & s1 & -> & Ha & Hi & Hrow)|
      (raw & sec & n & o & p & sc & by' & life & r & pt & s1 & -> & Hc & Hrow)]]].
  - left. by rewrite Hrow.
  - left. by rewrite Hrow.
  - left. apply token_authenticate_ok in Ha as (row0 & ws & cnt & _ & Hr0 & _ & _ & _ & _ & -> & _).
    rewrite Hi in *. rewrite lookup_insert_eq in Hrow. simplify_eq. by rewrite Hr0.
  - right. exists pt. cbn. rewrite Hc. split; [done|].
    apply token_create_ok in Hc as (_ & _ & _ & -> & _). rewrite lookup_insert_eq in Hrow. by simplify_eq.
Qed.

Lemma token_history_covered issued s : history issued s → covered issued s.
Proof.
  induction 1 as [|issued s c Hh IH]; [by intros ??|].
  intros i h [(p & Hp & ->)%IH | (p & -> & ->)]%after_hash; exists p; set_solver.
Qed.

(** C3: Only issued bearers authenticate. In a table any history of calls led
    to, a bearer that authenticates was handed out by an earlier [create], or
    it collides under SHA-256 with one that was; and it carries the identity
    and scopes of a row that is neither revoked nor expired. *)
Theorem only_issued_tokens_authenticate issued s now p pr s' :
  history issued s → authenticate s now p = Ok (Some pr, s') →
  (p ∈ issued ∨ ∃ q, q ∈ issued ∧ ∃ b, sha256_collision (b ++ p) (b ++ q))
  ∧ ∃ row, s !! principal_token_id pr = Some row
    ∧ revoked_at row = None ∧ instant (_now now) < expires_at row
    ∧ principal_organization_id pr = organization_id row
    ∧ principal_project_id pr = project_id row
    ∧ principal_scopes pr = split_scopes (scopes row).
Proof.
  intros Hh Ha. split.
  - destruct (covered_authenticate _ _ _ _ _ _ (token_history_covered _ _ Hh) Ha) as [|(q & Hq & Hcol)]; [by left|].
    right. exists q. split; [done|].
    exists ("inspectra-automation-token-v1" ++ String "000"%char "")%string. exact Hcol.
  - apply token_authenticate_ok in Ha as (row & ws & cnt & _ & Hr & _ & Hrev & He & -> & _). eauto 10.
Qed.

(** ** The rate window *)

Definition row_ok (row : token_row) : Prop :=
  0 <= rate_window_requests row <= AUTOMATION_TOKEN_MAX_REQUESTS_PER_WINDOW.
Definition table_ok (s : token_store) : Prop := map_Forall (λ _, row_ok) s.

Lemma after_table_ok s c : table_ok s → table_ok (after s c).
Proof.
  intros Hs i row Hrow.
  apply token_after_row in Hrow as [Hrow|[(row0 & now & Hrow & ->)|[(raw & p & pr & s1 & -> & Ha & Hi & Hrow)|
      (raw & sec & n & o & p & sc & by' & life & r & pt & s1 & -> & Hc & Hrow)]]].
  - by apply Hs in Hrow.
  - by apply Hs in Hrow.
  - apply token_authenticate_ok in Ha as (row0 & ws & cnt & _ & Hr0%Hs & _ & _ & _ & _ & -> & Hlt & Hcase).
    rewrite Hi, lookup_insert_eq in Hrow. simplify_eq. unfold row_ok in *. cbn.
    destruct Hcase as [(-> & -> & _)|(-> & ->)]; lia.
  - apply token_create_ok in Hc as (_ & _ & _ & -> & _). rewrite lookup_insert_eq in Hrow. simplify_eq.
    unfold row_ok, AUTOMATION_TOKEN_MAX_REQUESTS_PER_WINDOW. cbn. lia.
Qed.

Lemma history_table_ok issued s : history issued s → table_ok s.
Proof. induction 1; [by intros ??|by apply after_table_ok]. Qed.

(** The authentications a row still allows before the clock reaches
    [a + window]. *)
Definition budget (a : Z) (o : option token_row) : Z :=
  match o with
  | None => 0
  | Some row =>
      AUTOMATION_TOKEN_MAX_REQUESTS_PER_WINDOW - rate_window_requests row
      + (if a <=? rate_window_started_at row then 0 else AUTOMATION_TOKEN_MAX_REQUESTS_PER_WINDOW)
  end.

Definition clock_within (a : Z) (c : call) : Prop :=
  match c with
  | Authenticate now _ => a <= instant (_now now) < a + seconds AUTOMATION_TOKEN_RATE_WINDOW_SECONDS
  | _ => True
  end.

Lemma budget_nonneg a s i : table_ok s → 0 <= budget a (s !! i).
Proof.
  intros Hs. unfold budget. destruct (s !! i) as [row|] eqn:Hi; [|done].
  apply Hs in Hi. unfold row_ok, AUTOMATION_TOKEN_MAX_REQUESTS_PER_WINDOW in *. case_match; lia.
Qed.

Lemma budget_spent a s c i :
  table_ok s → avoids i c → clock_within a c →
  budget a (after s c !! i) + (if authenticates i s c then 1 else 0) <= budget a (s !! i).
Proof.
  intros Hs Hav Hcl. destruct (authenticates i s c) eqn:Hauth.
  - destruct c as [|raw p| |]; try done. cbn in *.
    destruct (authenticate s raw p) as [[[pr|] s1]|] eqn:E; try done. to_prop. subst i.
    apply token_authenticate_ok in E as (row & ws & cnt & _ & Hr & _ & _ & _ & _ & -> & Hlt & Hcase).
    rewrite lookup_insert_eq, Hr. apply Hs in Hr. unfold row_ok in Hr. cbn.
    unfold AUTOMATION_TOKEN_MAX_REQUESTS_PER_WINDOW, AUTOMATION_TOKEN_RATE_WINDOW_SECONDS, seconds in *.
    destruct Hcase as [(-> & -> & Hw)|(-> & ->)]; repeat case_match; to_prop; lia.
  - rewrite Z.add_0_r. destruct (after s c !! i) as [row'|] eqn:Hrow; [|by apply budget_nonneg].
    apply token_after_row in Hrow as [->|[(row0 & now & -> & ->)|[(raw & p & pr & s1 & -> & Ha & Hi & Hrow)|
      (raw & sec & n & o & p & sc & by' & life & r & pt & s1 & -> & _)]]]; [done|done| |done].
    cbn in Hauth. rewrite Ha, Hi, String.eqb_refl in Hauth. done.
Qed.

Lemma successes_budget a i cs : ∀ s,
  table_ok s → Forall (avoids i) cs → Forall (clock_within a) cs →
  successes i s cs <= budget a (s !! i).
Proof.
  induction cs as [|c cs IH]; intros s Hs Hav Hcl; [by apply budget_nonneg|].
  apply Forall_cons in Hav as [Ha Hav], Hcl as [Hc Hcl]. cbn.
  pose proof (budget_spent a s c i Hs Ha Hc). specialize (IH _ (after_table_ok s c Hs) Hav Hcl). lia.
Qed.

(** C8: The rate limit. Whatever calls are interleaved, and however the clock
    moves inside it, a window of one hour never sees more than twice
    [AUTOMATION_TOKEN_MAX_REQUESTS_PER_WINDOW] authentications of one token,
    and no more than what is left of the current count when the row's own
    window started inside it. *)
Theorem token_rate_bound issued s i a cs :
  history issued s → Forall (avoids i) cs → Forall (clock_within a) cs →
  successes i s cs <= 2 * AUTOMATION_TOKEN_MAX_REQUESTS_PER_WINDOW
  ∧ ∀ row, s !! i = Some row → a <= rate_window_started_at row →
      successes i s cs <= AUTOMATION_TOKEN_MAX_REQUESTS_PER_WINDOW - rate_window_requests row.
Proof.
  intros Hh Hav Hcl. pose proof (history_table_ok _ _ Hh) as Hs.
  pose proof (successes_budget a i cs s Hs Hav Hcl) as H. split.
  - unfold budget, AUTOMATION_TOKEN_MAX_REQUESTS_PER_WINDOW in *.
    destruct (s !! i) as [row|] eqn:Hi; [|lia]. apply Hs in Hi.
    unfold row_ok, AUTOMATION_TOKEN_MAX_REQUESTS_PER_WINDOW in *. case_match; lia.
  - intros row Hi Hw. rewrite Hi in H. unfold budget in H. apply Z.leb_le in Hw. rewrite Hw in H. lia.
Qed.

(** ** Revocation *)

(** The row is gone or revoked. *)
Definition dead (s : token_store) (i : string) : Prop :=
  ∀ row, s !! i = Some row → is_Some (revoked_at row).

Lemma after_dead s c i : dead s i → avoids i c → dead (after s c) i.
Proof.
  intros Hd Hav row' Hrow.
  apply token_after_row in Hrow as [Hrow|[(row0 & now & Hrow & ->)|[(raw & p & pr & s1 & -> & Ha & Hi & Hrow)|
      (raw & sec & n & o & p & sc & by' & life & r & pt & s1 & -> & _)]]]; [by apply Hd| | |done].
  - cbn. by destruct (revoked_at row0).
  - apply token_authenticate_ok in Ha as (row0 & ws & cnt & _ & Hr0 & _ & Hrev & _). rewrite Hi in Hr0.
    apply Hd in Hr0 as [? Hr0]. congruence.
Qed.

(** Revocation is final. Once [revoke] returned, no later sequence of
    calls lets any bearer of that token authenticate again, whatever the
    clock does. *)
Theorem revoke_final s now organization i r s' cs now' p pr s'' :
  revoke s now organization i = Ok (r, s') → Forall (avoids i) cs →
  authenticate (run s' cs) now' p = Ok (Some pr, s'') →
  record_revoked_at r ≠ None ∧ principal_token_id pr ≠ i.
Proof.
  intros Hr Hav Ha. apply revoke_ok in Hr as (row & Hi & _ & -> & ->). split.
  { cbn. by destruct (revoked_at row). }
  assert (Hd : dead (run (<[i := revoke_row (instant (_now now)) row]> s) cs) i).
  { assert (Hd0 : dead (<[i := revoke_row (instant (_now now)) row]> s) i).
    { intros row'. rewrite lookup_insert_eq. intros [= <-]. cbn. by destruct (revoked_at row). }
    revert Hd0. generalize (<[i := revoke_row (instant (_now now)) row]> s) as s0. clear Ha. revert Hav.
    induction cs as [|c cs IH]; intros Hav s0 Hd0; [done|]. apply Forall_cons in Hav as [Hc Hav].
    apply (IH Hav). by apply after_dead. }
  intros <-. apply token_authenticate_ok in Ha as (row0 & ws & cnt & _ & Hr0 & _ & Hrev & _).
  apply Hd in Hr0 as [? Hr0]. congruence.
Qed.

(** ** The bound on active tokens *)

Definition call_time (t : Z) (c : call) : Z :=
  match c with
  | Create now _ _ _ _ _ _ _ _ | Authenticate now _ | Revoke now _ _ => instant (_now now)
  | Purge _ _ => t
  end.

(** The clock readings of the calls never go back. *)
Fixpoint monotone (t : Z) (cs : list call) : Prop :=
  match cs with
  | [] => True
  | c :: cs' => t <= call_time t c ∧ monotone (call_time t c) cs'
  end.

Fixpoint final_time (t : Z) (cs : list call) : Z :=
  match cs with
  | [] => t
  | c :: cs' => final_time (call_time t c) cs'
  end.

Definition active_bounded (s : token_store) (t : Z) : Prop :=
  ∀ o p t', t <= t' → (active_count s o p t' <= AUTOMATION_TOKEN_MAX_ACTIVE_PER_PROJECT)%nat.

Lemma active_count_mono s s' o p t t' :
  (∀ i row', s' !! i = Some row' → active_row o p t' row' = true →
             ∃ row, s !! i = Some row ∧ active_row o p t row = true) →
  (active_count s' o p t' <= active_count s o p t)%nat.
Proof.
  intros H. unfold active_count. rewrite <- !size_dom. apply subseteq_size.
  intros i [row' [Hi Ha]%map_lookup_filter_Some]%elem_of_dom. cbn in Ha.
  destruct (H i row' Hi Ha) as (row & Hr & Har). apply elem_of_dom. exists row.
  by apply map_lookup_filter_Some.
Qed.

Lemma active_row_later o p t t' row : t <= t' → active_row o p t' row = true → active_row o p t row = true.
Proof.
  unfold active_row. rewrite !andb_true_iff, !Z.ltb_lt. intros ? [? ?]. split; [done|lia].
Qed.

Lemma active_insert s i row o p t :
  s !! i = None →
  active_count (<[i := row]> s) o p t
  = ((if active_row o p t row then 1 else 0) + active_count s o p t)%nat.
Proof.
  intros Hi. unfold active_count. destruct (active_row o p t row) eqn:Hrow.
  - rewrite map_filter_insert_True by done. rewrite map_size_insert_None; [done|].
    apply map_lookup_filter_None. by left.
  - rewrite map_filter_insert_False by (cbn; congruence). by rewrite delete_id.
Qed.

(** Only a creation adds an active row. *)
Lemma after_active s c o p t :
  (∀ raw i sec n o p sc by' life, c ≠ Create raw i sec n o p sc by' life) →
  (active_count (after s c) o p t <= active_count s o p t)%nat.
Proof.
  intros Hnc. apply active_count_mono. intros i row' Hrow Hact.
  apply token_after_row in Hrow as [Hrow|[(row0 & now & Hrow & ->)|[(raw & q & pr & s1 & -> & Ha & Hi & Hrow)|
      (raw & sec & n & o' & p' & sc & by' & life & r & pt & s1 & -> & _)]]].
  - eauto.
  - exfalso. unfold active_row in Hact. cbn in Hact. rewrite bool_decide_false in Hact
      by (by destruct (revoked_at row0)). by rewrite andb_false_r in Hact.
  - apply token_authenticate_ok in Ha as (row0 & ws & cnt & _ & Hr0 & _ & _ & _ & _ & -> & _).
    rewrite Hi, lookup_insert_eq in Hrow. rewrite Hi in Hr0. simplify_eq. eauto.
  - by destruct (Hnc raw i sec n o' p' sc by' life).
Qed.

Lemma after_active_bounded s t c :
  active_bounded s t → t <= call_time t c → active_bounded (after s c) (call_time t c).
Proof.
  intros Hb Ht o p t' Ht'. destruct c as [raw k sec n o' p' sc by' life|raw q|raw o' k|o' cutoff];
    try (etrans; [apply after_active; congruence|apply Hb; cbn in *; lia]).
  cbn in *. destruct (create _ _ _ _ _ _ _ _ _ _) as [[[r pt] s1]|] eqn:E; [|apply Hb; lia].
  apply token_create_ok in E as (Hk & _ & _ & -> & _ & Hlt). rewrite active_insert by done.
  destruct (active_row o p t' _) eqn:Hrow; [|apply Hb; lia].
  assert (Ho : o' = o ∧ p' = p) by (unfold active_row in Hrow; cbn in Hrow; by to_prop).
  destruct Ho as [-> ->]. assert (Hle : (active_count s o p t' <= active_count s o p (instant (_now raw)))%nat).
  { apply active_count_mono. intros i row Hi Ha. exists row. split; [done|]. exact (active_row_later o p _ _ row Ht' Ha). }
  lia.
Qed.

Lemma run_active_bounded cs : ∀ s t,
  active_bounded s t → monotone t cs → active_bounded (run s cs) (final_time t cs).
Proof.
  induction cs as [|c cs IH]; intros s t Hb Hm; [done|]. destruct Hm as [Hle Hm].
  apply IH; [|done]. by apply after_active_bounded.
Qed.

(** At most two active tokens. As long as the clock does not go back, a
    project never has more than [AUTOMATION_TOKEN_MAX_ACTIVE_PER_PROJECT]
    tokens that are neither revoked nor expired, at any time from the last
    call on. *)
Theorem active_token_bound t0 cs organization project t :
  monotone t0 cs → final_time t0 cs <= t →
  (active_count (run ∅ cs) organization project t <= AUTOMATION_TOKEN_MAX_ACTIVE_PER_PROJECT)%nat.
Proof.
  intros Hm Ht. apply (run_active_bounded cs ∅ t0); [|done|done]. intros o p t' _. cbn.
  unfold active_count. rewrite map_filter_empty, map_size_empty. lia.
Qed.

(** ** Issue and use *)

Lemma sorted_set_elem l x : x ∈ sorted_set l ↔ x ∈ l.
Proof.
  unfold sorted_set, sorted_strs. by rewrite merge_sort_Permutation, elem_of_remove_dups.
Qed.

(** Scope lists survive the comma-separated column. *)
Lemma split_scopes_join l :
  l ≠ [] → any_of (λ x, negb (mem x AUTOMATION_SCOPES)) l = false → split_scopes (join "," l) = l.
Proof.
  intros Hne Hs. rewrite any_of_false in Hs.
  assert (Hin : ∀ x, x ∈ l → x ∈ AUTOMATION_SCOPES).
  { intros x Hx. apply Hs in Hx. apply negb_false_iff in Hx. by apply mem_true. }
  unfold split_scopes. rewrite split_join; [|done|].
  - clear Hne Hs. induction l as [|x l IH]; [done|]. rewrite filter_cons_True.
    + f_equal. apply IH. intros y Hy. apply Hin. by right.
    + pose proof (Hin x ltac:(left)) as Hx. unfold AUTOMATION_SCOPES in Hx. set_solver.
  - apply Forall_forall. intros x Hx%Hin. unfold AUTOMATION_SCOPES in Hx.
    rewrite !elem_of_cons, elem_of_nil in Hx. by destruct Hx as [->|[->|[->|[]]]].
Qed.

(** An issued token works until it expires. The bearer [create] returns
    authenticates at every later time before its expiry, first use included,
    as the organization and project it was issued for and with exactly the
    requested scopes, once each; the record returned is the one [get]
    returns. *)
Theorem create_then_authenticate s now i secret n organization project requested by' life r p s' now' :
  is_hex32 i = true →
  create s now i secret n organization project requested by' life = Ok (r, p, s') →
  instant (_now now') < instant (_now now) + seconds life →
  get s' organization i = Ok r
  ∧ ∃ pr s'', authenticate s' now' p = Ok (Some pr, s'')
    ∧ principal_token_id pr = i ∧ principal_organization_id pr = organization
    ∧ principal_project_id pr = project ∧ principal_scopes pr = record_scopes r
    ∧ NoDup (principal_scopes pr) ∧ (∀ x, x ∈ principal_scopes pr ↔ x ∈ requested)
    ∧ principal_expires_at pr = record_expires_at r.
Proof.
  intros Hi Hc Ht. pose proof Hc as (_ & Hp & Hsec & -> & -> & _)%token_create_ok.
  unfold create in Hc. inv_ok Hc. rename select (_ || _ = false) into Hs. to_prop.
  split; [unfold get; rewrite lookup_insert_eq; cbn; by rewrite String.eqb_refl|].
  unfold authenticate. rewrite parse_format by done. rewrite lookup_insert_eq.
  cbn [token_hash revoked_at expires_at]. rewrite String.eqb_refl. cbn [negb orb].
  rewrite bool_decide_false by (by intros [? ?]). cbn [orb].
  destruct (_ + _ <=? _) eqn:He; [apply Z.leb_le in He; lia|].
  cbn [rate_window_started_at rate_window_requests].
  assert (Hsc : split_scopes (join "," (sorted_set requested)) = sorted_set requested)
    by (by apply split_scopes_join).
  destruct (seconds AUTOMATION_TOKEN_RATE_WINDOW_SECONDS <=? _); cbn -[split_scopes];
    eexists _, _; (split; [reflexivity|]); cbn -[split_scopes]; rewrite Hsc;
    repeat (split; [done|]); (split; [|split; [by apply sorted_set_elem|done]]);
    unfold sorted_set, sorted_strs; rewrite merge_sort_Permutation; apply NoDup_remove_dups.
Qed.

(** The administration view is exact and isolated. [list] returns the
    records of one organization and no other, each once, newest first; a
    record is listed exactly when [get] returns it to that organization, and
    [revoke] under another organization raises and changes nothing. *)
Theorem list_is_organization_view s organization :
  (∀ r, r ∈ list_tokens s organization ↔ get s organization (token_id r) = Ok r)
  ∧ Sorted (λ a b, instant (record_created_at b) <= instant (record_created_at a)) (list_tokens s organization)
  ∧ (∀ now i, get s organization i = Err "not_found" → revoke s now organization i = Err "not_found").
Proof.
  split; [|split].
  - intros r. unfold list_tokens, get. rewrite list_elem_of_fmap. split.
    + intros ([i row] & -> & Hin). rewrite merge_sort_Permutation, elem_of_map_to_list in Hin.
      apply map_lookup_filter_Some in Hin as [Hi Ho]. cbn in *. by rewrite Hi, Ho.
    + intros H. destruct (s !! token_id r) as [row|] eqn:Hi; [|done].
      destruct (String.eqb _ _) eqn:Ho; [|done]. injection H as H. exists (token_id r, row).
      split; [done|]. rewrite merge_sort_Permutation, elem_of_map_to_list.
      by apply map_lookup_filter_Some.
  - unfold list_tokens. apply (Sorted_fmap _ newest_first);
      [intros [] []; unfold newest_first, instant; cbn; lia|].
    apply Sorted_merge_sort. intros [i a] [j b]. unfold newest_first, str_le. cbn.
    destruct (Z.lt_total (created_at a) (created_at b)) as [?|[?|?]]; [by right; left| |by left; left].
    destruct (str_le_total i j); auto.
  - intros now i H. unfold get, revoke in *. destruct (s !! i) as [row|]; [|done].
    by destruct (String.eqb _ _).
Qed.

(** ** Concrete runs: a token issued, used, revoked *)
Module Demo.
Definition at_sec (n : Z) : datetime := DT (seconds n) (Some 0).
Definition org : string := "local-admin".
Definition project : string := "0123456789abcdef0123456789abcdef".
Definition tid : string := "00000000000000000000000000000001".
Definition sec : string := "AAAAAAAAAAAAAAAAAAAAAAAAAAAAAAAAAAAAAAAAAAA".
Definition bearer : string := format_bearer AUTOMATION_TOKEN_PREFIX tid sec.
Definition make : call :=
  Create (at_sec 1000) tid sec " ci token " org project ["report:read"; "project:read"; "report:read"] "alice" 3600.
Definition s1 : token_store := Eval vm_compute in after ∅ make.
Definition use (n : Z) : call := Authenticate (at_sec n) bearer.
Definition issued_record : AutomationTokenRecord := Eval vm_compute in
  match get s1 org tid with Ok r => r | Err _ => TokenRecord "" "" "" "" [] "" (at_sec 0) (at_sec 0) None None end.
Definition tid2 : string := "00000000000000000000000000000002".
Definition bearer2 : string := format_bearer AUTOMATION_TOKEN_PREFIX tid2 sec.
Definition both : token_store := Eval vm_compute in
  after s1 (Create (at_sec 1010) tid2 sec "second" org project ["project:scan"] "bob" 3600).
Definition s2 : token_store := Eval vm_compute in after both (Revoke (at_sec 1500) org tid).
Definition revoked_record : AutomationTokenRecord := Eval vm_compute in
  match get s2 org tid with Ok r => r | Err _ => issued_record end.
Definition principal : AutomationPrincipal :=
  Principal tid org project ["project:read"; "report:read"] (at_sec 4600).
Definition principal2 : AutomationPrincipal :=
  Principal tid2 org project ["project:scan"] (at_sec 4610).
Definition s2_used : token_store := Eval vm_compute in after (run s2 [use 1600]) (Authenticate (at_sec 1700) bearer2).
Definition s1_used : token_store := Eval vm_compute in after s1 (use 1200).

Lemma token_make_history : history [bearer] s1.
Proof.
  assert (H : history (handed_out ∅ make ++ []) (after ∅ make)) by (apply history_call, history_init).
  vm_compute in H |- *. exact H.
Qed.
End Demo.

Lemma only_issued_tokens_authenticate_witness :
  (Demo.bearer ∈ [Demo.bearer] ∨ ∃ q, q ∈ [Demo.bearer] ∧ ∃ b, sha256_collision (b ++ Demo.bearer) (b ++ q))
  ∧ ∃ row, Demo.s1 !! Demo.tid = Some row ∧ revoked_at row = None.
Proof.
  destruct (only_issued_tokens_authenticate [Demo.bearer] Demo.s1 (Demo.at_sec 1200) Demo.bearer
    Demo.principal Demo.s1_used Demo.token_make_history) as [H (row & Hr & Hn & _)];
    [vm_compute; reflexivity|].
  split; [exact H|]. exists row. split; [exact Hr|exact Hn].
Defined.

Lemma token_rate_bound_witness :
  successes Demo.tid Demo.s1 [Demo.use 1200; Demo.use 1300] = 2
  ∧ successes Demo.tid Demo.s1 [Demo.use 1200; Demo.use 1300] <= 1200.
Proof.
  split; [vm_compute; reflexivity|].
  exact (proj1 (token_rate_bound [Demo.bearer] Demo.s1 Demo.tid (seconds 1000)
    [Demo.use 1200; Demo.use 1300] Demo.token_make_history
    ltac:(repeat constructor) ltac:(repeat constructor; vm_compute; congruence))).
Defined.

Lemma revoke_final_witness :
  authenticate (run Demo.s2 [Demo.use 1600]) (Demo.at_sec 1700) Demo.bearer
  = Ok (None, run Demo.s2 [Demo.use 1600])
  ∧ record_revoked_at Demo.revoked_record ≠ None ∧ principal_token_id Demo.principal2 ≠ Demo.tid.
Proof.
  split; [vm_compute; reflexivity|].
  apply (revoke_final Demo.both (Demo.at_sec 1500) Demo.org Demo.tid Demo.revoked_record Demo.s2
    [Demo.use 1600] (Demo.at_sec 1700) Demo.bearer2 Demo.principal2 Demo.s2_used).
  - vm_compute. reflexivity.
  - repeat constructor.
  - vm_compute. reflexivity.
Defined.

Lemma active_token_bound_witness :
  (active_count (run ∅ [Demo.make; Demo.use 1200]) Demo.org Demo.project (seconds 1300) <= 2)%nat.
Proof.
  apply (active_token_bound 0 [Demo.make; Demo.use 1200]); vm_compute; repeat split; congruence.
Defined.

Lemma create_then_authenticate_witness :
  get Demo.s1 Demo.org Demo.tid = Ok Demo.issued_record
  ∧ ∃ pr s'', authenticate Demo.s1 (Demo.at_sec 4599) Demo.bearer = Ok (Some pr, s'').
Proof.
  destruct (create_then_authenticate ∅ (Demo.at_sec 1000) Demo.tid Demo.sec " ci token " Demo.org Demo.project
    ["report:read"; "project:read"; "report:read"] "alice" 3600 Demo.issued_record Demo.bearer Demo.s1
    (Demo.at_sec 4599)) as [H (pr & s'' & Ha & _)].
  - vm_compute. reflexivity.
  - vm_compute. reflexivity.
  - vm_compute. reflexivity.
  - split; [exact H|]. exists pr, s''. exact Ha.
Defined.
