(* ===== verification/ImportGrants.v ===== *)
(** * ImportGrants: single-use authority for one Git snapshot

    Models [backend/app/repository_import_grants.py].  As in AutomationTokens,
    the SQLite table is a map from key to row, each method one transaction,
    a timestamp column its microsecond instant. *)

From S2P Require Import Prelude PyStr Sha256 BearerToken.
Local Open Scope Z_scope.

(** ** Data *)

(** backend/app/repository_import_grants.py 13-17 [constants] *)
Definition REPOSITORY_IMPORT_GRANT_PREFIX : string := "inspectra_ri_".
Definition REPOSITORY_IMPORT_GRANT_MIN_LIFETIME_SECONDS : Z := 300.
Definition REPOSITORY_IMPORT_GRANT_MAX_LIFETIME_SECONDS : Z := 1800.
Definition REPOSITORY_IMPORT_GRANT_MAX_ACTIVE_PER_ORGANIZATION : nat := 3.

(** backend/app/repository_import_grants.py [RepositoryImportPrincipal] *)
Record RepositoryImportPrincipal : Type := Principal {
  principal_grant_id : string;
  principal_organization_id : string;
  principal_created_by : string;
  principal_expires_at : datetime
}.

(** backend/app/repository_import_grants.py [RepositoryImportGrantRecord] *)
Record RepositoryImportGrantRecord : Type := GrantRecord {
  grant_id : string;
  record_organization_id : string;
  record_created_by : string;
  record_created_at : datetime;
  record_expires_at : datetime;
  record_consumed_at : option datetime
}.

(** The columns of a row, but for its key. *)
(** backend/app/repository_import_grants.py [RepositoryImportGrantStore._initialize_schema] *)
Record grant_row : Type := GrantRow {
  token_hash : string;
  organization_id : string;
  created_by : string;
  created_at : Z;
  expires_at : Z;
  consumed_at : option Z
}.

Abbreviation grant_store := (gmap string grant_row).

(** ** Helpers *)

(** backend/app/repository_import_grants.py [_datetime] *)
Definition _datetime (timestamp : Z) : datetime := DT timestamp (Some 0).

(** backend/app/repository_import_grants.py [_grant_hash] *)
Definition _grant_hash (plaintext : string) : string :=
  bearer_hash "inspectra-repository-import-grant-v1" plaintext.

(** backend/app/repository_import_grants.py [RepositoryImportGrantStore._now] *)
Definition _now (value : datetime) : datetime := if aware value then value else replace_utc value.

(** backend/app/repository_import_grants.py [_record] *)
Definition _record (i : string) (row : grant_row) : RepositoryImportGrantRecord :=
  GrantRecord i (organization_id row) (created_by row) (_datetime (created_at row))
    (_datetime (expires_at row)) (_datetime <$> consumed_at row).

(** ** Operations *)

(** backend/app/repository_import_grants.py [RepositoryImportGrantStore.get] *)
Definition get (s : grant_store) (organization i : string) : outcome RepositoryImportGrantRecord :=
  match s !! i with
  | Some row => if String.eqb (organization_id row) organization then Ok (_record i row)
                else Err "not_found"
  | None => Err "not_found"
  end.

(** The [WHERE] clauses of the clean-up and of the count in [create]. *)
Definition spent_row (organization : string) (now : Z) (row : grant_row) : bool :=
  String.eqb (organization_id row) organization
  && ((expires_at row <=? now) || bool_decide (is_Some (consumed_at row))).
Definition live_row (organization : string) (now : Z) (row : grant_row) : bool :=
  String.eqb (organization_id row) organization
  && bool_decide (consumed_at row = None) && (now <? expires_at row).

(** backend/app/repository_import_grants.py 80-84 [SELECT COUNT] *)
Definition live_count (s : grant_store) (organization : string) (now : Z) : nat :=
  size (filter (λ kv, live_row organization now kv.2 = true) s).

(** backend/app/repository_import_grants.py 75-79 [DELETE FROM] *)
Definition drop_spent (s : grant_store) (organization : string) (now : Z) : grant_store :=
  filter (λ kv, spent_row organization now kv.2 = false) s.

(** backend/app/repository_import_grants.py [RepositoryImportGrantStore.create] *)
Definition create (s : grant_store) (raw_now : datetime) (new_id secret organization by' : string)
    (lifetime_seconds : Z) : outcome (RepositoryImportGrantRecord * string * grant_store) :=
  raise "invalid_identity" when (negb (truthy organization) || (128 <? len organization)%nat
                                 || negb (truthy by') || (128 <? len by')%nat);;
  raise "invalid_lifetime" when (negb ((REPOSITORY_IMPORT_GRANT_MIN_LIFETIME_SECONDS <=? lifetime_seconds)
                                       && (lifetime_seconds <=? REPOSITORY_IMPORT_GRANT_MAX_LIFETIME_SECONDS)));;
  let now := instant (_now raw_now) in
  let s1 := drop_spent s organization now in
  raise "active_limit" when (REPOSITORY_IMPORT_GRANT_MAX_ACTIVE_PER_ORGANIZATION
                             <=? live_count s1 organization now)%nat;;
  raise "token_generation_failed" when (negb (is_secret secret));;
  let plaintext := format_bearer REPOSITORY_IMPORT_GRANT_PREFIX new_id secret in
  raise "store_unavailable" when (bool_decide (is_Some (s1 !! new_id)));;
  let s2 := <[new_id := GrantRow (_grant_hash plaintext) organization by' now
                          (now + seconds lifetime_seconds) None]> s1 in
  r ← get s2 organization new_id;
  Ok (r, plaintext, s2).

(** backend/app/repository_import_grants.py [RepositoryImportGrantStore.authenticate] *)
Definition authenticate (s : grant_store) (raw_now : datetime) (plaintext : string)
    : option RepositoryImportPrincipal :=
  match parse_bearer REPOSITORY_IMPORT_GRANT_PREFIX plaintext with
  | None => None
  | Some i =>
      let now := instant (_now raw_now) in
      match s !! i with
      | None => None
      | Some row =>
          if bool_decide (is_Some (consumed_at row)) || (expires_at row <=? now)
             || negb (String.eqb (token_hash row) (_grant_hash plaintext))
          then None
          else Some (Principal i (organization_id row) (created_by row) (_datetime (expires_at row)))
      end
  end.

(** [SET consumed_at = ?] *)
Definition consume_row (now : Z) (row : grant_row) : grant_row :=
  GrantRow (token_hash row) (organization_id row) (created_by row) (created_at row) (expires_at row) (Some now).

(** backend/app/repository_import_grants.py [RepositoryImportGrantStore.consume] *)
Definition consume (s : grant_store) (raw_now : datetime) (p : RepositoryImportPrincipal)
    : outcome (RepositoryImportGrantRecord * grant_store) :=
  let now := instant (_now raw_now) in
  match s !! principal_grant_id p with
  | None => Err "invalid_or_consumed"
  | Some row =>
      raise "invalid_or_consumed"
        when (negb (String.eqb (organization_id row) (principal_organization_id p)
                    && String.eqb (created_by row) (principal_created_by p)
                    && bool_decide (consumed_at row = None) && (now <? expires_at row)));;
      let s' := <[principal_grant_id p := consume_row now row]> s in
      r ← get s' (principal_organization_id p) (principal_grant_id p);
      Ok (r, s')
  end.

(** ** Calls and histories *)

Inductive call : Type :=
| Create (now : datetime) (new_id secret organization by' : string) (lifetime : Z)
| Authenticate (now : datetime) (plaintext : string)
| Consume (now : datetime) (p : RepositoryImportPrincipal).

Definition after (s : grant_store) (c : call) : grant_store :=
  match c with
  | Create now i sec o by' life =>
      match create s now i sec o by' life with Ok (_, _, s') => s' | Err _ => s end
  | Authenticate _ _ => s
  | Consume now p => match consume s now p with Ok (_, s') => s' | Err _ => s end
  end.

Definition run (s : grant_store) (cs : list call) : grant_store := foldl after s cs.

Definition handed_out (s : grant_store) (c : call) : list string :=
  match c with
  | Create now i sec o by' life =>
      match create s now i sec o by' life with Ok (_, p, _) => [p] | Err _ => [] end
  | _ => []
  end.

Inductive history : list string → grant_store → Prop :=
| history_init : history [] ∅
| history_call issued s c : history issued s → history (handed_out s c ++ issued) (after s c).

(** The call spends the grant [i]. *)
Definition consumes (i : string) (s : grant_store) (c : call) : bool :=
  match c with
  | Consume now p => is_ok (consume s now p) && String.eqb (principal_grant_id p) i
  | _ => false
  end.

Fixpoint times_consumed (i : string) (s : grant_store) (cs : list call) : nat :=
  match cs with
  | [] => 0
  | c :: cs' => ((if consumes i s c then 1 else 0) + times_consumed i (after s c) cs')%nat
  end.

(** Identifiers are fresh random values: creations do not reuse [i]. *)
Definition avoids (i : string) (c : call) : Prop :=
  match c with Create _ new_id _ _ _ _ => new_id ≠ i | _ => True end.

(** ** What each operation does *)

Lemma grant_create_ok s raw i sec o by' life r pt s' :
  create s raw i sec o by' life = Ok (r, pt, s') →
  let now := instant (_now raw) in
  let row := GrantRow (_grant_hash pt) o by' now (now + seconds life) None in
  let s1 := drop_spent s o now in
  s1 !! i = None ∧ pt = format_bearer REPOSITORY_IMPORT_GRANT_PREFIX i sec ∧ is_secret sec = true
  ∧ s' = <[i := row]> s1 ∧ r = _record i row
  ∧ (live_count s1 o now < REPOSITORY_IMPORT_GRANT_MAX_ACTIVE_PER_ORGANIZATION)%nat
  ∧ 0 < life.
Proof.
  intros H. unfold create in H. inv_ok H. to_prop. unfold get in *. rewrite lookup_insert_eq in *.
  cbn [organization_id] in *. rewrite String.eqb_refl in *. simplify_eq.
  unfold REPOSITORY_IMPORT_GRANT_MIN_LIFETIME_SECONDS in *.
  repeat split; try done; [by apply eq_None_not_Some | lia].
Qed.

Lemma consume_ok s raw p r s' :
  consume s raw p = Ok (r, s') →
  let now := instant (_now raw) in
  ∃ row, s !! principal_grant_id p = Some row ∧ consumed_at row = None ∧ now < expires_at row
    ∧ organization_id row = principal_organization_id p ∧ created_by row = principal_created_by p
    ∧ s' = <[principal_grant_id p := consume_row now row]> s
    ∧ r = _record (principal_grant_id p) (consume_row now row).
Proof.
  unfold consume. destruct (s !! _) as [row|] eqn:Hi; [|done]. intros H. inv_ok H. to_prop.
  exists row. unfold get in *. rewrite lookup_insert_eq in *.
  cbn [organization_id consume_row] in *. case_match; simplify_eq. done.
Qed.

Lemma grant_authenticate_ok s raw p pr :
  authenticate s raw p = Some pr →
  ∃ row, parse_bearer REPOSITORY_IMPORT_GRANT_PREFIX p = Some (principal_grant_id pr)
    ∧ s !! principal_grant_id pr = Some row ∧ token_hash row = _grant_hash p
    ∧ consumed_at row = None ∧ instant (_now raw) < expires_at row
    ∧ pr = Principal (principal_grant_id pr) (organization_id row) (created_by row)
             (_datetime (expires_at row)).
Proof.
  unfold authenticate. destruct (parse_bearer _ p) as [i|] eqn:Hp; [|done].
  destruct (s !! i) as [row|] eqn:Hi; [|done]. destruct (_ || _) eqn:E; [done|]. intros [= <-].
  to_prop. exists row. repeat split; try done. by apply eq_None_not_Some.
Qed.

(** The row a call leaves under a key was there before, was just spent, or
    was just created. *)
Lemma grant_after_row s c i row' :
  after s c !! i = Some row' →
  s !! i = Some row'
  ∨ (∃ raw p r s1 row, c = Consume raw p ∧ consume s raw p = Ok (r, s1) ∧ principal_grant_id p = i
       ∧ s !! i = Some row ∧ row' = consume_row (instant (_now raw)) row)
  ∨ (∃ raw sec o by' life r pt s1, c = Create raw i sec o by' life
       ∧ create s raw i sec o by' life = Ok (r, pt, s1)
       ∧ row' = GrantRow (_grant_hash pt) o by' (instant (_now raw)) (instant (_now raw) + seconds life) None).
Proof.
  destruct c as [raw k sec o by' life|raw p|raw p]; cbn; [|by left|].
  - destruct (create _ _ _ _ _ _ _) as [[[r pt] s1]|] eqn:E; [|by left].
    intros Hi. pose proof E as (_ & _ & _ & -> & _)%grant_create_ok. destruct (decide (k = i)) as [->|Hne].
    + rewrite lookup_insert_eq in Hi. simplify_eq. right. right. eauto 20.
    + rewrite lookup_insert_ne in Hi by done. apply map_lookup_filter_Some in Hi as [? _]. by left.
  - destruct (consume _ _ _) as [[r s1]|] eqn:E; [|by left]. intros Hi.
    pose proof E as (row & Hr & _ & _ & _ & _ & -> & _)%consume_ok.
    destruct (decide (principal_grant_id p = i)) as [<-|Hne].
    + rewrite lookup_insert_eq in Hi. simplify_eq. right. left. eauto 20.
    + rewrite lookup_insert_ne in Hi by done. by left.
Qed.

(** ** The store implements the bearer interface *)

Definition authenticate_keep (s : grant_store) (raw_now : datetime) (plaintext : string)
    : outcome (option RepositoryImportPrincipal * grant_store) :=
  Ok (authenticate s raw_now plaintext, s).

Lemma authenticate_grant_hash s now p pr s' :
  authenticate_keep s now p = Ok (Some pr, s') →
  parse_bearer REPOSITORY_IMPORT_GRANT_PREFIX p = Some (principal_grant_id pr)
  ∧ token_hash <$> s !! principal_grant_id pr
    = Some (bearer_hash "inspectra-repository-import-grant-v1" p).
Proof.
  unfold authenticate_keep. intros H.
  assert (Ha : authenticate s now p = Some pr) by congruence.
  apply grant_authenticate_ok in Ha as (row & Hp & Hi & Hh & _).
  split; [done|]. rewrite Hi. cbn. by rewrite Hh.
Qed.

#[export] Instance grant_bearer_store : BearerStore grant_store RepositoryImportPrincipal := {
  bearer_prefix := REPOSITORY_IMPORT_GRANT_PREFIX;
  bearer_domain := "inspectra-repository-import-grant-v1";
  hash_of s i := token_hash <$> s !! i;
  authenticate_bearer := authenticate_keep;
  principal_id := principal_grant_id;
  authenticate_hash := authenticate_grant_hash
}.

Lemma grant_history_covered issued s : history issued s → covered issued s.
Proof.
  induction 1 as [|issued s c Hh IH]; [by intros ??|].
  intros i h (row & Hrow & ->)%fmap_Some.
  apply grant_after_row in Hrow as [Hrow|[(raw & p & r & s1 & row0 & -> & _ & _ & Hi & ->)|
    (raw & sec & o & by' & life & r & pt & s1 & -> & Hc & ->)]].
  - destruct (IH i (token_hash row)) as (p & Hp & E); [cbn; by rewrite Hrow|]. exists p. set_solver.
  - destruct (IH i (token_hash row0)) as (q & Hq & E); [cbn; by rewrite Hi|]. exists q. set_solver.
  - exists pt. cbn. rewrite Hc. set_solver.
Qed.

(** ** Single use *)

(** The row is gone or spent. *)
Definition spent (s : grant_store) (i : string) : Prop :=
  ∀ row, s !! i = Some row → is_Some (consumed_at row).

Lemma after_spent s c i : spent s i → avoids i c → spent (after s c) i.
Proof.
  intros Hd Hav row' Hrow.
  apply grant_after_row in Hrow as [Hrow|[(raw & p & r & s1 & row0 & _ & _ & _ & _ & ->)|
    (raw & sec & o & by' & life & r & pt & s1 & -> & _)]]; [by apply Hd|by eexists|done].
Qed.

Lemma consumes_spent s c i : consumes i s c = true → spent (after s c) i.
Proof.
  destruct c as [| |raw p]; try done. cbn. destruct (consume s raw p) as [[r s1]|] eqn:E; [|done].
  cbn. intros <-%String.eqb_eq row. apply consume_ok in E as (row0 & _ & _ & _ & _ & _ & -> & _).
  rewrite lookup_insert_eq. intros [= <-]. by eexists.
Qed.

Lemma spent_not_consumed s c i : spent s i → consumes i s c = false.
Proof.
  intros Hs. destruct c as [| |raw p]; try done. cbn.
  destruct (consume s raw p) as [[r s1]|] eqn:E; [|done]. cbn.
  destruct (String.eqb_spec (principal_grant_id p) i) as [<-|]; [|done].
  apply consume_ok in E as (row & Hr%Hs & Hn & _). by rewrite Hn in Hr; destruct Hr.
Qed.

Lemma spent_never_consumed i cs : ∀ s,
  spent s i → Forall (avoids i) cs → times_consumed i s cs = 0%nat ∧ spent (run s cs) i.
Proof.
  induction cs as [|c cs IH]; intros s Hs Hav; [done|]. apply Forall_cons in Hav as [Hc Hav].
  cbn. rewrite spent_not_consumed by done. apply IH; [by apply after_spent|done].
Qed.

(** A grant is spent at most once. Over any sequence of calls, in any
    order and with any clock, at most one [consume] of a grant succeeds; and
    once one has, its bearer never authenticates again. *)
Theorem grant_single_use s i cs :
  Forall (avoids i) cs →
  (times_consumed i s cs <= 1)%nat
  ∧ (times_consumed i s cs = 1%nat →
     ∀ now p pr, authenticate (run s cs) now p = Some pr → principal_grant_id pr ≠ i).
Proof.
  revert s. induction cs as [|c cs IH]; intros s Hav; [cbn; lia|].
  apply Forall_cons in Hav as [Hc Hav]. cbn [times_consumed run foldl].
  destruct (consumes i s c) eqn:E.
  - destruct (spent_never_consumed i cs _ (consumes_spent _ _ _ E) Hav) as [-> Hs].
    split; [lia|]. intros _ now p pr (row & _ & Hr & _ & Hn & _)%grant_authenticate_ok <-.
    apply Hs in Hr. rewrite Hn in Hr. by destruct Hr.
  - by apply IH.
Qed.

(** Who can spend a grant. In a table reached from the empty one, the
    principal of any bearer that authenticates comes from a bearer [create]
    handed out (up to a SHA-256 collision); [consume] accepts it at any time
    the grant is unexpired, records the moment, and the same principal is
    refused from then on. *)
Theorem authenticated_grant_is_consumable issued s now p pr now' :
  history issued s → authenticate s now p = Some pr →
  instant (_now now') < instant (principal_expires_at pr) →
  (p ∈ issued ∨ ∃ q, q ∈ issued ∧ ∃ b, sha256_collision (b ++ p) (b ++ q))
  ∧ ∃ r s', consume s now' pr = Ok (r, s')
    ∧ grant_id r = principal_grant_id pr ∧ record_organization_id r = principal_organization_id pr
    ∧ record_consumed_at r = Some (_datetime (instant (_now now')))
    ∧ ∀ now'', consume s' now'' pr = Err "invalid_or_consumed" ∧ authenticate s' now'' p = None.
Proof.
  intros Hh Ha Ht. split.
  - assert (Hk : authenticate_bearer s now p = Ok (Some pr, s))
      by (cbn; unfold authenticate_keep; by rewrite Ha).
    destruct (covered_authenticate _ _ _ _ _ _ (grant_history_covered _ _ Hh) Hk) as [|(q & Hq & Hcol)]; [by left|].
    right. exists q. split; [done|].
    exists ("inspectra-repository-import-grant-v1" ++ String "000"%char "")%string. exact Hcol.
  - apply grant_authenticate_ok in Ha as (row & Hp & Hr & _ & Hn & _ & Hpr).
    rewrite Hpr in Ht. cbn in Ht. unfold instant in Ht at 2. cbn in Ht. rewrite Z.sub_0_r in Ht.
    apply Z.ltb_lt in Ht.
    unfold consume. rewrite Hr, Hpr. cbn [principal_grant_id principal_organization_id principal_created_by].
    rewrite !String.eqb_refl, Ht, bool_decide_true by done. cbn [andb negb].
    unfold get. rewrite lookup_insert_eq. cbn [organization_id consume_row]. rewrite String.eqb_refl.
    eexists _, _. split; [reflexivity|]. repeat (split; [done|]). intros now''.
    rewrite lookup_insert_eq. cbn [organization_id consume_row created_by consumed_at].
    rewrite !String.eqb_refl. split; [by rewrite bool_decide_false|].
    unfold authenticate. rewrite Hp. rewrite lookup_insert_eq. cbn [consumed_at consume_row].
    by rewrite bool_decide_true by (by eexists).
Qed.

(** ** The bound on live grants *)

Definition call_time (c : call) : Z :=
  match c with
  | Create now _ _ _ _ _ | Authenticate now _ | Consume now _ => instant (_now now)
  end.

(** The clock readings of the calls never go back. *)
Fixpoint monotone (t : Z) (cs : list call) : Prop :=
  match cs with
  | [] => True
  | c :: cs' => t <= call_time c ∧ monotone (call_time c) cs'
  end.

Definition live_bounded (s : grant_store) (t : Z) : Prop :=
  ∀ o t', t <= t' → (live_count s o t' <= REPOSITORY_IMPORT_GRANT_MAX_ACTIVE_PER_ORGANIZATION)%nat.

Lemma live_count_mono s s' o t t' :
  (∀ i row', s' !! i = Some row' → live_row o t' row' = true →
             ∃ row, s !! i = Some row ∧ live_row o t row = true) →
  (live_count s' o t' <= live_count s o t)%nat.
Proof.
  intros H. unfold live_count. rewrite <- !size_dom. apply subseteq_size.
  intros i [row' [Hi Ha]%map_lookup_filter_Some]%elem_of_dom. cbn in Ha.
  destruct (H i row' Hi Ha) as (row & Hr & Har). apply elem_of_dom. exists row.
  by apply map_lookup_filter_Some.
Qed.

Lemma live_row_later o t t' row : t <= t' → live_row o t' row = true → live_row o t row = true.
Proof. unfold live_row. rewrite !andb_true_iff, !Z.ltb_lt. intros ? [? ?]. split; [done|lia]. Qed.

Lemma drop_spent_mono s o' t o t0 t' :
  t0 <= t' → (live_count (drop_spent s o' t) o t' <= live_count s o t0)%nat.
Proof.
  intros Hle. apply live_count_mono. intros i row [Hi _]%map_lookup_filter_Some Ha.
  exists row. split; [done|]. exact (live_row_later o _ _ row Hle Ha).
Qed.

Lemma live_insert s i row o t :
  s !! i = None →
  live_count (<[i := row]> s) o t = ((if live_row o t row then 1 else 0) + live_count s o t)%nat.
Proof.
  intros Hi. unfold live_count. destruct (live_row o t row) eqn:Hrow.
  - rewrite map_filter_insert_True by done. rewrite map_size_insert_None; [done|].
    apply map_lookup_filter_None. by left.
  - rewrite map_filter_insert_False by (cbn; congruence). by rewrite delete_id.
Qed.

Lemma after_live_bounded s t c :
  live_bounded s t → t <= call_time c → live_bounded (after s c) (call_time c).
Proof.
  intros Hb Ht o t' Ht'. destruct c as [raw k sec o' by' life|raw q|raw p]; cbn in *; [| apply Hb; lia |].
  - destruct (create _ _ _ _ _ _ _) as [[[r pt] s1]|] eqn:E; [|apply Hb; lia].
    apply grant_create_ok in E as (Hk & _ & _ & -> & _ & Hlt & _). rewrite live_insert by done.
    set (now := instant (_now raw)) in *. pose proof (drop_spent_mono s o' now o t' t' ltac:(lia)) as Hd.
    specialize (Hb o t' ltac:(lia)). destruct (live_row o t' _) eqn:Hrow; [|lia].
    assert (Ho : o' = o) by (unfold live_row in Hrow; cbn in Hrow; by to_prop). subst o'.
    assert (Hle : (live_count (drop_spent s o now) o t' <= live_count (drop_spent s o now) o now)%nat).
    { apply live_count_mono. intros i row Hi Ha. exists row. split; [done|].
      exact (live_row_later o _ _ row Ht' Ha). }
    lia.
  - destruct (consume _ _ _) as [[r s1]|] eqn:E; [|apply Hb; lia].
    apply consume_ok in E as (row & Hr & _ & _ & _ & _ & -> & _).
    etrans; [|apply (Hb o t'); lia]. apply live_count_mono. intros i row' Hi Ha.
    destruct (decide (principal_grant_id p = i)) as [<-|Hne].
    + rewrite lookup_insert_eq in Hi. simplify_eq. unfold live_row in Ha. cbn in Ha.
      by rewrite andb_false_r in Ha.
    + rewrite lookup_insert_ne in Hi by done. eauto.
Qed.

Fixpoint final_time (t : Z) (cs : list call) : Z :=
  match cs with
  | [] => t
  | c :: cs' => final_time (call_time c) cs'
  end.

Lemma run_live_bounded cs : ∀ s t,
  live_bounded s t → monotone t cs → live_bounded (run s cs) (final_time t cs).
Proof.
  induction cs as [|c cs IH]; intros s t Hb Hm; [done|]. destruct Hm as [Hle Hm].
  apply (IH (after s c) (call_time c)); [|done]. by apply (after_live_bounded _ t).
Qed.

(** At most three live grants. As long as the clock does not go back, an
    organization never has more than
    [REPOSITORY_IMPORT_GRANT_MAX_ACTIVE_PER_ORGANIZATION] grants that are
    neither consumed nor expired, at any time from the last call on. *)
Theorem live_grant_bound t0 cs organization t :
  monotone t0 cs → final_time t0 cs <= t →
  (live_count (run ∅ cs) organization t <= REPOSITORY_IMPORT_GRANT_MAX_ACTIVE_PER_ORGANIZATION)%nat.
Proof.
  intros Hm Ht. apply (run_live_bounded cs ∅ t0); [|done|done]. intros o t' _. cbn.
  unfold live_count. rewrite map_filter_empty, map_size_empty. lia.
Qed.

(** ** Concrete runs *)
Module Demo.
Definition at_sec (n : Z) : datetime := DT (seconds n) (Some 0).
Definition org : string := "local-admin".
Definition gid : string := "00000000000000000000000000000001".
Definition sec : string := "AAAAAAAAAAAAAAAAAAAAAAAAAAAAAAAAAAAAAAAAAAA".
Definition bearer : string := format_bearer REPOSITORY_IMPORT_GRANT_PREFIX gid sec.
Definition make : call := Create (at_sec 1000) gid sec org "alice" 600.
Definition s1 : grant_store := Eval vm_compute in after ∅ make.
Definition pr : RepositoryImportPrincipal := Principal gid org "alice" (at_sec 1600).
Definition spend : call := Consume (at_sec 1100) pr.

Lemma grant_make_history : history [bearer] s1.
Proof.
  assert (H : history (handed_out ∅ make ++ []) (after ∅ make)) by (apply history_call, history_init).
  vm_compute in H |- *. exact H.
Qed.
End Demo.

Lemma grant_single_use_witness :
  times_consumed Demo.gid Demo.s1 [Demo.spend; Demo.spend] = 1%nat
  ∧ (times_consumed Demo.gid Demo.s1 [Demo.spend; Demo.spend] <= 1)%nat.
Proof.
  split; [vm_compute; reflexivity|].
  exact (proj1 (grant_single_use Demo.s1 Demo.gid [Demo.spend; Demo.spend] ltac:(repeat constructor))).
Defined.

Lemma authenticated_grant_is_consumable_witness :
  ∃ r s', consume Demo.s1 (Demo.at_sec 1599) Demo.pr = Ok (r, s')
    ∧ consume s' (Demo.at_sec 1599) Demo.pr = Err "invalid_or_consumed".
Proof.
  destruct (authenticated_grant_is_consumable [Demo.bearer] Demo.s1 (Demo.at_sec 1001) Demo.bearer Demo.pr
    (Demo.at_sec 1599) Demo.grant_make_history) as (_ & r & s' & H & _ & _ & _ & H').
  - vm_compute. reflexivity.
  - vm_compute. reflexivity.
  - exists r, s'. split; [exact H|]. exact (proj1 (H' (Demo.at_sec 1599))).
Defined.

Lemma live_grant_bound_witness :
  (live_count (run ∅ [Demo.make; Demo.spend]) Demo.org (seconds 1200) <= 3)%nat.
Proof.
  apply (live_grant_bound 0 [Demo.make; Demo.spend]); vm_compute; repeat split; congruence.
Defined.
