(* ===== verification/Auth.v ===== *)
(** * Auth: sessions, login throttling and password hashes

    Models [backend/app/auth.py].  The two in-memory stores are insertion
    ordered dictionaries; each call receives the value its clock returned
    (one reading per [_now()] call the code makes) and the tokens its random
    source returned.  PBKDF2-HMAC-SHA256 is the standard library's function,
    written out on the SHA-256 of the development. *)

From S2P Require Import Prelude PyStr Sha256.
Local Open Scope Z_scope.

(** backend/app/auth.py [LoginAttemptStore._now] *)
Definition _now (current : datetime) : datetime :=
  if aware current then as_utc current else replace_utc current.

(** [hmac.compare_digest] of two [str]: only ASCII text is accepted. *)
Definition compare_digest (a b : string) : outcome bool :=
  raise "TypeError" when (negb (all_chars (between 0 127) a && all_chars (between 0 127) b));;
  Ok (String.eqb a b).

(** ** Sessions *)
Module Session.

(** backend/app/auth.py [AdminSession] *)
Record AdminSession : Type := Session {
  session_id : string;
  csrf_token : string;
  operator_id : string;
  created_at : datetime;
  expires_at : datetime;
  auth_mode : string;
  organization_id : option string;
  role : option string
}.

(** The dataclass equality. *)
Definition session_eqb (a b : AdminSession) : bool :=
  String.eqb (session_id a) (session_id b) && String.eqb (csrf_token a) (csrf_token b)
  && String.eqb (operator_id a) (operator_id b)
  && datetime_eqb (created_at a) (created_at b) && datetime_eqb (expires_at a) (expires_at b)
  && String.eqb (auth_mode a) (auth_mode b)
  && bool_decide (organization_id a = organization_id b) && bool_decide (role a = role b).

Abbreviation session_store := (dict AdminSession).

(** backend/app/auth.py [AdminSessionStore.__init__] *)
Definition ttl (ttl_seconds : Z) : Z := Z.max 1 ttl_seconds.

(** backend/app/auth.py [AdminSessionStore._unique_session_id] *)
Definition _unique_session_id (d : session_store) (candidates : list string) (fallback : string) : string :=
  default fallback (first_match (λ i, negb (bool_decide (is_Some (dict_get i d)))) (take 5 candidates)).

(** backend/app/auth.py [AdminSessionStore.create_admin_session] *)
Definition create_admin_session (ttl_seconds : Z) (d : session_store) (raw_now : datetime)
    (candidates : list string) (fallback csrf operator mode : string)
    (organization role' : option string) : AdminSession * session_store :=
  let now := _now raw_now in
  let s := Session (_unique_session_id d candidates fallback) csrf operator now
             (plus_seconds now (ttl ttl_seconds)) mode organization role' in
  (s, dict_set (session_id s) s d).

(** backend/app/auth.py [AdminSessionStore.is_session_valid] *)
Definition is_session_valid (d : session_store) (raw_now : datetime) (s : option AdminSession) : bool :=
  match s with
  | None => false
  | Some s =>
      match dict_get (session_id s) d with
      | Some stored => session_eqb stored s && (instant (_now raw_now) <? instant (expires_at s))
      | None => false
      end
  end.

(** backend/app/auth.py [AdminSessionStore.get_session] *)
Definition get_session (d : session_store) (raw_now : datetime) (i : option string)
    : option AdminSession * session_store :=
  match i with
  | None => (None, d)
  | Some i =>
      if negb (truthy i) then (None, d) else
      match dict_get i d with
      | None => (None, d)
      | Some s => if negb (is_session_valid d raw_now (Some s)) then (None, dict_pop i d) else (Some s, d)
      end
  end.

(** backend/app/auth.py [AdminSessionStore.invalidate_session] *)
Definition invalidate_session (d : session_store) (i : option string) : bool * session_store :=
  match i with
  | None => (false, d)
  | Some i => if negb (truthy i) then (false, d)
              else (bool_decide (is_Some (dict_get i d)), dict_pop i d)
  end.

Definition pop_all (ids : list string) (d : session_store) : session_store :=
  foldl (λ d i, dict_pop i d) d ids.

(** The keys whose session fails the test; [clock j] is the reading for the
    [j]-th session (a stored session equals itself, so every test reads the
    clock once). *)
Definition expired_ids (d : session_store) (clock : nat → datetime) : list string :=
  concat (imap (λ j kv, if negb (is_session_valid d (clock j) (Some kv.2)) then [kv.1] else []) d).

(** backend/app/auth.py [AdminSessionStore.purge_expired_sessions] *)
Definition purge_expired_sessions (d : session_store) (clock : nat → datetime) : nat * session_store :=
  let ids := expired_ids d clock in (length ids, pop_all ids d).

(** backend/app/auth.py [AdminSessionStore.invalidate_operator_sessions] *)
Definition invalidate_operator_sessions (d : session_store) (operator : string) : nat * session_store :=
  let ids := (filter (λ kv, operator_id kv.2 = operator) d).*1 in (length ids, pop_all ids d).

(** backend/app/auth.py [verify_admin_csrf_token] *)
Definition verify_admin_csrf_token (token : option string) (s : option AdminSession) : outcome bool :=
  match s, token with
  | Some s, Some t => if truthy t then compare_digest t (csrf_token s) else Ok false
  | _, _ => Ok false
  end.

(** backend/app/auth.py [SessionCookieSettings] *)
Record SessionCookieSettings : Type := CookieSettings {
  cookie_name : string;
  httponly : bool;
  samesite : string;
  secure : bool;
  max_age_seconds : Z;
  path : string
}.

(** backend/app/auth.py [build_session_cookie_settings] *)
Definition build_session_cookie_settings (ttl_seconds : Z) (secure' : bool) : SessionCookieSettings :=
  CookieSettings "inspectra_session" true "strict" secure' (Z.max 1 ttl_seconds) "/".
End Session.

(** ** Login attempts *)
Module Login.

(** backend/app/auth.py [LoginAttemptRecord] *)
Record LoginAttemptRecord : Type := Attempt {
  client_key : string;
  failure_count : Z;
  first_failed_at : datetime;
  last_failed_at : datetime;
  locked_until : option datetime
}.

Abbreviation attempt_store := (dict LoginAttemptRecord).

(** The settings of a store, each clamped to at least one. *)
Record settings : Type := Settings {
  window_seconds : Z;
  max_failures : Z;
  lockout_seconds : Z;
  max_keys : nat
}.

(** backend/app/auth.py [LoginAttemptStore.__init__] *)
Definition clamp (window failures lockout : Z) (keys : Z) : settings :=
  Settings (Z.max 1 window) (Z.max 1 failures) (Z.max 1 lockout) (Z.to_nat (Z.max 1 keys)).

(** backend/app/auth.py [LoginAttemptStore._client_key] *)
Definition _client_key (k : option string) : string :=
  match k with
  | None => "unknown"
  | Some k => let normalized := strip k in if truthy normalized then normalized else "unknown"
  end.

Section Store.
Context (c : settings).

(** backend/app/auth.py [LoginAttemptStore._is_expired] *)
Definition _is_expired (r : LoginAttemptRecord) (now : datetime) : bool :=
  match locked_until r with
  | Some u => instant u <=? instant now
  | None => instant (plus_seconds (last_failed_at r) (window_seconds c)) <=? instant now
  end.

(** [min(records, key=lambda key: records[key].last_failed_at)]: the first
    key with the least reading. *)
Fixpoint oldest (k : string) (r : LoginAttemptRecord) (d : attempt_store) : string :=
  match d with
  | [] => k
  | (k', r') :: d' =>
      if instant (last_failed_at r') <? instant (last_failed_at r) then oldest k' r' d' else oldest k r d'
  end.

(** The [while] loop; each turn pops one key, so the fuel is the number of
    keys at the start. *)
Fixpoint evict (fuel : nat) (d : attempt_store) : attempt_store :=
  match fuel, d with
  | S f, (k, r) :: d' => if (max_keys c <? length d)%nat then evict f (dict_pop (oldest k r d') d) else d
  | _, _ => d
  end.

(** backend/app/auth.py [LoginAttemptStore._evict_oldest_keys] *)
Definition _evict_oldest_keys (d : attempt_store) : attempt_store := evict (length d) d.

(** backend/app/auth.py 166-192 [LoginAttemptStore.record_failure] *)
Definition next_record (key : string) (now : datetime) (existing : option LoginAttemptRecord)
    : LoginAttemptRecord :=
  let fresh :=
    Attempt key 1 now now
      (if max_failures c <=? 1 then Some (plus_seconds now (lockout_seconds c)) else None) in
  match existing with
  | None => fresh
  | Some r =>
      if _is_expired r now then fresh
      else if from_option (λ u, instant now <? instant u) false (locked_until r) then r
      else let count := failure_count r + 1 in
           Attempt key count (first_failed_at r) now
             (if max_failures c <=? count then Some (plus_seconds now (lockout_seconds c)) else None)
  end.

(** backend/app/auth.py [LoginAttemptStore.record_failure] *)
Definition record_failure (d : attempt_store) (raw_now : datetime) (k : option string)
    : LoginAttemptRecord * attempt_store :=
  let key := _client_key k in
  let r := next_record key (_now raw_now) (dict_get key d) in
  (r, _evict_oldest_keys (dict_set key r d)).

(** backend/app/auth.py [LoginAttemptStore.is_locked] *)
Definition is_locked (d : attempt_store) (raw_now : datetime) (k : option string) : bool * attempt_store :=
  let key := _client_key k in
  match dict_get key d with
  | None => (false, d)
  | Some r =>
      let now := _now raw_now in
      match locked_until r with
      | None => (false, if _is_expired r now then dict_pop key d else d)
      | Some u => if instant u <=? instant now then (false, dict_pop key d) else (true, d)
      end
  end.

(** backend/app/auth.py [LoginAttemptStore.seconds_until_unlock] *)
Definition seconds_until_unlock (d : attempt_store) (raw_now : datetime) (k : option string)
    : Z * attempt_store :=
  let key := _client_key k in
  match dict_get key d with
  | None => (0, d)
  | Some r =>
      match locked_until r with
      | None => (0, d)
      | Some u =>
          let now := _now raw_now in
          if instant u <=? instant now then (0, dict_pop key d)
          else (Z.max 0 (- ((- (instant u - instant now)) / 1000000)), d)
      end
  end.

(** backend/app/auth.py [LoginAttemptStore.reset_success] *)
Definition reset_success (d : attempt_store) (k : option string) : bool * attempt_store :=
  let key := _client_key k in (bool_decide (is_Some (dict_get key d)), dict_pop key d).

(** backend/app/auth.py [LoginAttemptStore.purge_expired] *)
Definition purge_expired (d : attempt_store) (raw_now : datetime) : nat * attempt_store :=
  let keys := (filter (λ kv, _is_expired kv.2 (_now raw_now) = true) d).*1 in
  (length keys, foldl (λ d k, dict_pop k d) d keys).

(** backend/app/auth.py [LoginAttemptStore.failure_count] *)
Definition failure_count_of (d : attempt_store) (raw_now : datetime) (k : option string) : Z * attempt_store :=
  let key := _client_key k in
  match dict_get key d with
  | None => (0, d)
  | Some r => if _is_expired r (_now raw_now) then (0, dict_pop key d) else (failure_count r, d)
  end.

(** backend/app/auth.py [LoginAttemptStore.record_count] *)
Definition record_count (d : attempt_store) : nat := length d.

(** The answers of [POST /auth/login] under throttling. *)
Inductive login_reply : Type :=
| RateLimited (retry_after : option Z)
| InvalidCredentials
| Accepted.

(** The clock readings of one login request. *)
Record readings : Type := Readings { at_purge : datetime; at_check : datetime; at_retry : datetime; at_record : datetime }.

(** The throttling of the login handler around the credential check, whose
    result is an argument. *)
(** backend/app/main.py 4297-4334 [auth_login] *)
Definition login (d : attempt_store) (t : readings) (key : option string) (credentials_valid : bool)
    : login_reply * attempt_store :=
  let d1 := (purge_expired d (at_purge t)).2 in
  let '(locked, d2) := is_locked d1 (at_check t) key in
  if locked then
    let '(retry_after, d3) := seconds_until_unlock d2 (at_retry t) key in
    (RateLimited (if 0 <? retry_after then Some retry_after else None), d3)
  else if credentials_valid then (Accepted, (reset_success d2 key).2)
  else (InvalidCredentials, (record_failure d2 (at_record t) key).2).
End Store.
End Login.

(** ** Password hashes *)
Module Password.

(** backend/app/auth.py 10-21 [constants] *)
Definition ADMIN_PASSWORD_HASH_SCHEME : string := "pbkdf2_sha256".
Definition MIN_ADMIN_PASSWORD_HASH_ITERATIONS : N := 600000.
Definition MIN_TEAM_PASSWORD_LENGTH : nat := 12.
Definition MAX_TEAM_PASSWORD_LENGTH : nat := 256.

(** [hmac.digest(key, msg, "sha256")] and [hashlib.pbkdf2_hmac] with one
    32-byte block of output, on byte strings and their hexadecimal digests. *)
Definition hex_value (c : ascii) : N := if is_digit c then code c - 48 else code c - 87.
Fixpoint unhex (l : list ascii) : list ascii :=
  match l with
  | a :: b :: l' => Ascii.ascii_of_N (16 * hex_value a + hex_value b) :: unhex l'
  | _ => []
  end.
Definition sha256_bytes (s : string) : string := text (unhex (chars (sha256_hex s))).

Definition xor_with (n : N) (l : list ascii) : list ascii :=
  (λ c, Ascii.ascii_of_N (N.lxor n (code c))) <$> l.
Definition block_key (key : string) : list ascii :=
  let k := chars (if (64 <? len key)%nat then sha256_bytes key else key) in
  k ++ repeat "000"%char (64 - length k).
Definition hmac_sha256 (key msg : string) : string :=
  sha256_bytes (text (xor_with 92 (block_key key)) ++ sha256_bytes (text (xor_with 54 (block_key key)) ++ msg)).

Definition xor_bytes (s t : string) : string :=
  text (zip_with (λ a b, Ascii.ascii_of_N (N.lxor (code a) (code b))) (chars s) (chars t)).

(** One turn of PBKDF2: the last U and the running exclusive or. *)
Definition pbkdf2_turn (password : string) (ut : string * string) : string * string :=
  let u := hmac_sha256 password ut.1 in (u, xor_bytes ut.2 u).
Definition pbkdf2_hmac (password salt : string) (iterations : N) : string :=
  let u1 := hmac_sha256 password (salt ++ text ["000"; "000"; "000"; "001"]%char) in
  (N.iter (iterations - 1) (pbkdf2_turn password) (u1, u1)).2.

(** [bytes.hex()] *)
Definition hex_of (s : string) : string := text (concat (map (λ c, hex_digits 2 (code c)) (chars s))).

(** backend/app/auth.py 19-21 [_ADMIN_PASSWORD_HASH_PATTERN] *)
Definition hash_pattern (value : string) : option (string * string * string) :=
  match split_on "$" value with
  | [scheme; iterations; salt; digest] =>
      if String.eqb scheme "pbkdf2_sha256"
         && all_chars is_digit iterations && from_option (between 49 57) false (first_char iterations)
         && all_chars (λ c, is_ascii_alnum c || one_of "_.-" c) salt
         && (16 <=? len salt)%nat && (len salt <=? 128)%nat
         && all_chars (λ c, is_digit c || between 65 70 c || between 97 102 c) digest
         && (len digest =? 64)%nat
      then Some (iterations, salt, digest) else None
  | _ => None
  end.

(** backend/app/auth.py [_parse_admin_password_hash] *)
Definition _parse_admin_password_hash (password_hash : option string) : option (N * string * string) :=
  match password_hash with
  | None => None
  | Some h =>
      let value := strip h in
      if negb (truthy value) then None else
      match hash_pattern value with
      | None => None
      | Some (iterations, salt, digest) =>
          match py_int iterations with
          | Err _ => None
          | Ok n => if (n <? MIN_ADMIN_PASSWORD_HASH_ITERATIONS)%N then None
                    else Some (n, salt, lower digest)
          end
      end
  end.

(** backend/app/auth.py [is_supported_admin_password_hash] *)
Definition is_supported_admin_password_hash (h : option string) : bool :=
  bool_decide (is_Some (_parse_admin_password_hash h)).

(** The largest iteration count [pbkdf2_hmac] takes (a C [int]); above it
    the call raises and the [except] of the verifier answers [False]. *)
Definition INT_MAX : N := 2 ^ 31 - 1.

(** backend/app/auth.py [verify_admin_password] *)
Definition verify_admin_password (password : option string) (password_hash : option string) : bool :=
  match password with
  | None => false
  | Some p =>
      truthy p &&
      match _parse_admin_password_hash password_hash with
      | None => false
      | Some (iterations, salt, expected) =>
          (iterations <=? INT_MAX)%N
          && String.eqb (hex_of (pbkdf2_hmac (utf8 p) (utf8 salt) iterations)) expected
      end
  end.

(** backend/app/auth.py [hash_password] *)
Definition hash_password (password : string) (salt : string) (iterations : N) : outcome string :=
  raise "ValueError" when (negb ((MIN_TEAM_PASSWORD_LENGTH <=? len password)%nat
                                 && (len password <=? MAX_TEAM_PASSWORD_LENGTH)%nat));;
  raise "ValueError" when (iterations <? MIN_ADMIN_PASSWORD_HASH_ITERATIONS)%N;;
  raise "OverflowError" when (INT_MAX <? iterations)%N;;
  Ok (join "$" [ADMIN_PASSWORD_HASH_SCHEME; str_of_N iterations; salt;
                hex_of (pbkdf2_hmac (utf8 password) (utf8 salt) iterations)]).

(** RFC 6070-style check of the construction, and of the digest. *)
Example pbkdf2_two_iterations :
  hex_of (pbkdf2_hmac "password" "salt" 2)
  = "ae4d0c95af6b46d32d0adff928f06dd02a303f8ef3c251dfd6e2d85a95474c43".
Proof. vm_compute. reflexivity. Qed.
End Password.

Import Session Login Password.

(** ** Sessions: lemmas and properties *)

Lemma session_eqb_refl s : session_eqb s s = true.
Proof.
  unfold session_eqb. by rewrite !String.eqb_refl, !datetime_eqb_refl, !bool_decide_true.
Qed.

(** The operations of the store, with the values read from the clock and the
    random source. *)
Inductive session_op : Type :=
| CreateSession (now : datetime) (candidates : list string) (fallback csrf operator mode : string)
                (organization role' : option string)
| GetSession (now : datetime) (i : option string)
| InvalidateSession (i : option string)
| PurgeSessions (clock : nat → datetime)
| InvalidateOperator (operator : string).

Definition after_session (ttl_seconds : Z) (d : session_store) (o : session_op) : session_store :=
  match o with
  | CreateSession now cs f csrf op mode org r =>
      (create_admin_session ttl_seconds d now cs f csrf op mode org r).2
  | GetSession now i => (get_session d now i).2
  | InvalidateSession i => (invalidate_session d i).2
  | PurgeSessions clock => (purge_expired_sessions d clock).2
  | InvalidateOperator op => (invalidate_operator_sessions d op).2
  end.

Definition created_by_op (ttl_seconds : Z) (d : session_store) (o : session_op) : list AdminSession :=
  match o with
  | CreateSession now cs f csrf op mode org r =>
      [(create_admin_session ttl_seconds d now cs f csrf op mode org r).1]
  | _ => []
  end.

(** The stores a sequence of operations can lead to, with every session they
    created. *)
Inductive session_history (ttl_seconds : Z) : list AdminSession → session_store → Prop :=
| sh_init : session_history ttl_seconds [] []
| sh_op made d o : session_history ttl_seconds made d →
    session_history ttl_seconds (created_by_op ttl_seconds d o ++ made) (after_session ttl_seconds d o).

Lemma pop_all_get ids : ∀ (d : session_store) i,
  dict_get i (pop_all ids d) = if mem i ids then None else dict_get i d.
Proof.
  induction ids as [|j ids IH]; intros d i; [done|].
  change (dict_get i (pop_all ids (dict_pop j d))
          = if String.eqb i j || mem i ids then None else dict_get i d).
  rewrite IH, dict_get_pop.
  destruct (String.eqb_spec i j) as [->|Hne]; cbn.
  - rewrite String.eqb_refl. by destruct (mem j ids).
  - destruct (String.eqb_spec j i); [congruence|]. unfold mem. done.
Qed.

(** An operation keeps a session, drops it, or creates it. *)
Lemma after_session_get ttl_seconds d o i s :
  dict_get i (after_session ttl_seconds d o) = Some s →
  dict_get i d = Some s ∨ (created_by_op ttl_seconds d o = [s] ∧ session_id s = i).
Proof.
  destruct o as [now cs f csrf op mode org r|now j|j|clock|op]; cbn.
  - rewrite dict_get_set. destruct (String.eqb_spec (_unique_session_id d cs f) i); [|by left].
    intros [= <-]. by right.
  - destruct j as [j|]; [|by left]. cbn. destruct (negb (truthy j)); [by left|].
    destruct (dict_get j d) as [s'|] eqn:Hj; [|by left].
    destruct (negb _); cbn; [|by left]. rewrite dict_get_pop. case_match; [done|by left].
  - destruct j as [j|]; [|by left]. cbn. destruct (negb (truthy j)); [by left|]. cbn.
    rewrite dict_get_pop. case_match; [done|by left].
  - rewrite pop_all_get. case_match; [done|by left].
  - rewrite pop_all_get. case_match; [done|by left].
Qed.

Lemma session_history_get ttl_seconds made d i s :
  session_history ttl_seconds made d → dict_get i d = Some s →
  s ∈ made ∧ session_id s = i
  ∧ instant (expires_at s) = instant (created_at s) + seconds (ttl ttl_seconds).
Proof.
  intros Hh. revert i s. induction Hh as [|made d o Hh IH]; intros i s Hg; [done|].
  apply after_session_get in Hg as [Hg|[Hc Hi]].
  - destruct (IH _ _ Hg) as (? & ? & ?). set_solver.
  - rewrite Hc. split; [set_solver|]. split; [done|].
    destruct o; cbn in Hc; try done. injection Hc as <-. cbn. apply instant_plus_seconds.
Qed.

Lemma pop_all_ok ids : ∀ d : session_store, dict_ok d → dict_ok (pop_all ids d).
Proof. induction ids as [|i ids IH]; intros d Hd; [done|]. by apply IH, dict_pop_ok. Qed.

Lemma session_history_ok ttl_seconds made d : session_history ttl_seconds made d → dict_ok d.
Proof.
  induction 1 as [|made d o _ IH]; [constructor|].
  destruct o as [now cs f csrf op mode org r|now [j|]|[j|]|clock|op]; cbn;
    try done; try (by apply dict_set_ok); try (by apply pop_all_ok);
    destruct (negb (truthy j)); try done; cbn; try (by apply dict_pop_ok).
  destruct (dict_get j d); [|done]. destruct (negb _); [by apply dict_pop_ok|done].
Qed.

(** Session lookup is exact. In a store reached by any sequence of
    operations, [get_session] returns a session exactly when it is stored
    under that non-empty identifier and has not reached its expiry; what it
    returns was created by an earlier [create_admin_session] with that
    identifier and the configured lifetime, and a session found expired is
    dropped for good. *)
Theorem session_lookup_exact ttl_seconds made d now i :
  session_history ttl_seconds made d →
  (∀ s, (get_session d now (Some i)).1 = Some s ↔
        i ≠ "" ∧ dict_get i d = Some s ∧ instant (_now now) < instant (expires_at s))
  ∧ (∀ s, dict_get i d = Some s →
        s ∈ made ∧ session_id s = i
        ∧ instant (expires_at s) = instant (created_at s) + seconds (Z.max 1 ttl_seconds))
  ∧ ((get_session d now (Some i)).1 = None → i ≠ "" → dict_get i (get_session d now (Some i)).2 = None).
Proof.
  intros Hh. split; [|split].
  - intros s. unfold get_session, truthy. rewrite negb_involutive.
    destruct (String.eqb_spec i "") as [->|Hi]; [cbn; naive_solver|].
    destruct (dict_get i d) as [s'|] eqn:Hg; [|cbn; naive_solver].
    destruct (session_history_get _ _ _ _ _ Hh Hg) as (_ & Hid & _).
    unfold is_session_valid. rewrite Hid, Hg, session_eqb_refl. cbn.
    destruct (_ <? _) eqn:E; cbn; to_prop; naive_solver lia.
  - intros s Hg. exact (session_history_get _ _ _ _ _ Hh Hg).
  - unfold get_session, truthy. rewrite negb_involutive. intros Hn Hi.
    destruct (String.eqb_spec i "") as [|_]; [done|].
    destruct (dict_get i d) as [s'|] eqn:Hg; [|done].
    destruct (negb (is_session_valid d now (Some s'))); [|done]. cbn.
    by rewrite dict_get_pop, String.eqb_refl.
Qed.

(** The operation does not sign the operator in again. *)
Definition no_login_of (operator : string) (o : session_op) : Prop :=
  match o with CreateSession _ _ _ _ op _ _ _ => op ≠ operator | _ => True end.

Definition signed_out (operator : string) (d : session_store) : Prop :=
  ∀ i s, dict_get i d = Some s → operator_id s ≠ operator.

Lemma after_signed_out ttl_seconds d o operator :
  signed_out operator d → no_login_of operator o → signed_out operator (after_session ttl_seconds d o).
Proof.
  intros Hs Hn i s Hg. apply after_session_get in Hg as [Hg|[Hc _]]; [by eapply Hs|].
  destruct o; cbn in Hc; try done. by injection Hc as <-.
Qed.

(** Signing an operator out is complete. After
    [invalidate_operator_sessions] no operation returns a session of that
    operator until it signs in again; sessions of the other operators are
    untouched. *)
Theorem operator_sign_out ttl_seconds made d operator os now i s :
  session_history ttl_seconds made d → Forall (no_login_of operator) os →
  (get_session (foldl (after_session ttl_seconds) (invalidate_operator_sessions d operator).2 os) now i).1 = Some s →
  operator_id s ≠ operator
  ∧ ∀ j s', dict_get j d = Some s' → operator_id s' ≠ operator →
            dict_get j (invalidate_operator_sessions d operator).2 = Some s'.
Proof.
  intros Hh Hos Hget. pose proof (session_history_ok _ _ _ Hh) as Hd. split.
  - assert (H0 : signed_out operator (invalidate_operator_sessions d operator).2).
    { intros j s' Hj. cbn in Hj. rewrite pop_all_get in Hj. destruct (mem j _) eqn:Hm; [done|].
      intros Hop. apply not_true_iff_false in Hm. apply Hm, mem_true, list_elem_of_fmap.
      exists (j, s'). split; [done|]. apply list_elem_of_filter. split; [done|].
      by apply dict_get_elem. }
    revert Hget H0. generalize (invalidate_operator_sessions d operator).2 as e.
    induction Hos as [|o os Ho Hos IH]; intros e Hget H0.
    + cbn in Hget. destruct i as [i|]; [|done]. cbn in Hget. destruct (negb (truthy i)); [done|].
      destruct (dict_get i e) as [s'|] eqn:Hi; [|done]. destruct (negb _); [done|].
      injection Hget as <-. by eapply H0.
    + apply (IH (after_session ttl_seconds e o)); [done|]. by apply after_signed_out.
  - intros j s' Hj Hop. cbn. rewrite pop_all_get. destruct (mem j _) eqn:Hm; [|done].
    apply mem_true, list_elem_of_fmap in Hm as ([j' s''] & -> & Hin).
    apply list_elem_of_filter in Hin as [Ho Hin]. cbn in *.
    apply dict_get_elem in Hin; [|done]. congruence.
Qed.

(** ** Login throttling: lemmas and properties *)

Section Throttle.
Context (c : settings) (Hm : 1 <= max_failures c).

(** A record that is not locked has failures left. *)
Definition attempt_ok (r : LoginAttemptRecord) : Prop :=
  locked_until r = None → failure_count r < max_failures c.
Definition attempts_ok (d : attempt_store) : Prop := ∀ k r, dict_get k d = Some r → attempt_ok r.

(** [_is_expired] on the instants. *)
Lemma is_expired_spec r now :
  _is_expired c r now = true ↔
  match locked_until r with
  | Some u => instant u <= instant now
  | None => instant (last_failed_at r) + seconds (window_seconds c) <= instant now
  end.
Proof.
  unfold _is_expired. case_match; rewrite Z.leb_le; [done|]. by rewrite instant_plus_seconds.
Qed.

Lemma next_record_ok key now o :
  (∀ r, o = Some r → attempt_ok r) → attempt_ok (next_record c key now o).
Proof.
  intros Ho. assert (Hfresh : attempt_ok (next_record c key now None)).
  { unfold attempt_ok, next_record. cbn. case_match; [done|]. to_prop. lia. }
  destruct o as [r|]; [|done]. unfold next_record in *.
  destruct (_is_expired c r now); [done|]. destruct (from_option _ _ _); [by apply Ho|].
  clear Hfresh. unfold attempt_ok. cbn. case_match; [done|]. to_prop. lia.
Qed.

(** Within [max_keys] distinct keys nothing is evicted. *)
Lemma evict_small d : (length d <= max_keys c)%nat → _evict_oldest_keys c d = d.
Proof.
  unfold _evict_oldest_keys. intros H. destruct d as [|[k r] d]; [done|]. cbn [length evict].
  destruct (max_keys c <? _)%nat eqn:E; [|done]. apply Nat.ltb_lt in E. cbn in *. lia.
Qed.

Lemma purge_get d now k :
  dict_ok d →
  dict_get k (purge_expired c d now).2 = match dict_get k d with
                                         | Some r => if _is_expired c r (_now now) then None else Some r
                                         | None => None
                                         end.
Proof.
  intros Hd. unfold purge_expired. cbn.
  set (keys := (filter (λ kv, _is_expired c kv.2 (_now now) = true) d).*1).
  assert (H : ∀ ks (e : attempt_store), dict_get k (foldl (λ d k, dict_pop k d) e ks)
                = if mem k ks then None else dict_get k e).
  { induction ks as [|j ks IH]; intros e; [done|]. cbn [foldl mem existsb]. rewrite IH, dict_get_pop.
    fold (mem k ks). destruct (String.eqb_spec k j) as [->|Hne]; cbn.
    - rewrite String.eqb_refl. by destruct (mem j ks).
    - destruct (String.eqb_spec j k); [congruence|]. done. }
  rewrite H. destruct (dict_get k d) as [r|] eqn:Hk; [|by destruct (mem k keys)].
  apply dict_get_elem in Hk; [|done]. destruct (_is_expired c r (_now now)) eqn:He.
  - replace (mem k keys) with true; [done|]. symmetry. apply mem_true, list_elem_of_fmap.
    exists (k, r). split; [done|]. by apply list_elem_of_filter.
  - destruct (mem k keys) eqn:E; [|done].
    apply mem_true, list_elem_of_fmap in E as ([k' r'] & -> & Hin).
    apply list_elem_of_filter in Hin as [He' Hin]. cbn in *.
    assert (r' = r); [|congruence]. apply dict_get_elem in Hin, Hk; [|done|done]. congruence.
Qed.

Lemma purge_ok d now : dict_ok d → dict_ok (purge_expired c d now).2.
Proof.
  unfold purge_expired. cbn. generalize ((filter (λ kv, _is_expired c kv.2 (_now now) = true) d).*1) as ks.
  intros ks. revert d. induction ks as [|k ks IH]; intros d Hd; [done|]. by apply IH, dict_pop_ok.
Qed.

Lemma is_locked_get d now k j :
  dict_get j (is_locked c d now k).2 =
    if String.eqb (_client_key k) j
    then match dict_get j d with
         | Some r => if _is_expired c r (_now now) then None else Some r
         | None => None
         end
    else dict_get j d.
Proof.
  unfold is_locked. destruct (dict_get (_client_key k) d) as [r|] eqn:Hk; cbn.
  - destruct (String.eqb_spec (_client_key k) j) as [<-|Hne].
    + rewrite Hk. unfold _is_expired. destruct (locked_until r); case_match; cbn;
        rewrite ?dict_get_pop, ?String.eqb_refl; done.
    + unfold _is_expired. destruct (locked_until r); case_match; cbn; rewrite ?dict_get_pop; try done;
        by destruct (String.eqb_spec (_client_key k) j).
  - by destruct (String.eqb_spec (_client_key k) j) as [<-|]; [rewrite Hk|].
Qed.

(** A locked answer means a lock that has not run out. *)
Lemma is_locked_true d now k d' :
  is_locked c d now k = (true, d') → d' = d ∧
  ∃ r u, dict_get (_client_key k) d = Some r ∧ locked_until r = Some u ∧ instant (_now now) < instant u.
Proof.
  unfold is_locked. destruct (dict_get (_client_key k) d) as [r|]; [|done].
  destruct (locked_until r) as [u|] eqn:Hu; [|done]. destruct (_ <=? _) eqn:E; [done|].
  intros [= <-]. apply Z.leb_gt in E. eauto 10.
Qed.

Lemma is_locked_false d now k d' :
  is_locked c d now k = (false, d') →
  match dict_get (_client_key k) d' with
  | Some r => locked_until r = None
  | None => True
  end.
Proof.
  unfold is_locked. destruct (dict_get (_client_key k) d) as [r|] eqn:Hr.
  - destruct (locked_until r) as [u|] eqn:Hu.
    + destruct (_ <=? _); intros [= <-]. by rewrite dict_get_pop, String.eqb_refl.
    + intros [= <-]. destruct (_is_expired _ _ _); [by rewrite dict_get_pop, String.eqb_refl|]. by rewrite Hr.
  - intros [= <-]. by rewrite Hr.
Qed.

(** The guesses the record of a key still allows before [b], when every
    reading from now on is at least [a]. *)
Definition guesses (a b : Z) (o : option LoginAttemptRecord) : Z :=
  match o with
  | None => max_failures c
  | Some r =>
      match locked_until r with
      | Some u => if b <=? instant u then 0 else max_failures c
      | None => if a <=? instant (last_failed_at r) then max_failures c - failure_count r
                else max_failures c
      end
  end.

Lemma guesses_expired a b r now :
  attempt_ok r → instant now < b → b <= a + seconds (window_seconds c) →
  _is_expired c r now = true → guesses a b (Some r) = max_failures c.
Proof.
  intros Hr Hb Hab He%is_expired_spec. unfold guesses. destruct (locked_until r) as [u|].
  - destruct (b <=? instant u) eqn:E; [|done]. apply Z.leb_le in E. lia.
  - destruct (a <=? _) eqn:E; [|done]. apply Z.leb_le in E. lia.
Qed.

Lemma guesses_le a b o : (∀ r, o = Some r → 0 <= failure_count r) → guesses a b o <= max_failures c.
Proof.
  intros H. unfold guesses. destruct o as [r|]; [|done]. specialize (H r eq_refl).
  destruct (locked_until r); case_match; lia.
Qed.

(** Recording a failure that was not refused costs at least one guess. *)
Lemma guesses_next a b key now o :
  a <= instant now < b → b <= a + seconds (window_seconds c) → b <= a + seconds (lockout_seconds c) →
  (∀ r, o = Some r → attempt_ok r ∧ 0 <= failure_count r ∧ locked_until r = None) →
  guesses a b (Some (next_record c key now o)) + 1 <= guesses a b o.
Proof.
  intros [Ha Hb] Hw Hl Ho.
  assert (Hfresh : guesses a b (Some (next_record c key now None)) + 1 <= max_failures c).
  { unfold guesses, next_record. cbn [locked_until last_failed_at failure_count].
    destruct (max_failures c <=? 1) eqn:E; to_prop.
    - rewrite instant_plus_seconds. destruct (b <=? _) eqn:E2; [lia|]. apply Z.leb_gt in E2. lia.
    - destruct (a <=? _) eqn:E2; [lia|]. apply Z.leb_gt in E2. lia. }
  destruct o as [r|]; [|done]. destruct (Ho r eq_refl) as (Hr & Hn & Hu).
  assert (Hnext : next_record c key now (Some r) =
                  if _is_expired c r now then next_record c key now None
                  else Attempt key (failure_count r + 1) (first_failed_at r) now
                         (if max_failures c <=? failure_count r + 1
                          then Some (plus_seconds now (lockout_seconds c)) else None))
    by (unfold next_record; by rewrite Hu).
  rewrite Hnext. destruct (_is_expired c r now) eqn:He.
  - by rewrite (guesses_expired a b r now).
  - specialize (Hr Hu). unfold guesses. rewrite Hu. cbn [locked_until last_failed_at failure_count].
    destruct (max_failures c <=? _) eqn:E; to_prop.
    + rewrite instant_plus_seconds. destruct (b <=? _) eqn:E2; [|apply Z.leb_gt in E2; lia].
      case_match; lia.
    + destruct (a <=? instant now) eqn:E2; [|apply Z.leb_gt in E2; lia]. case_match; lia.
Qed.

(** ** Runs of login requests *)

Record request : Type := Request { at_ : readings; request_key : option string; credentials_valid : bool }.

Definition after_login (d : attempt_store) (q : request) : attempt_store :=
  (login c d (at_ q) (request_key q) (credentials_valid q)).2.

(** The request was let through to the credential check, and failed it. *)
Definition guessed (k : string) (d : attempt_store) (q : request) : bool :=
  String.eqb (_client_key (request_key q)) k
  && match (login c d (at_ q) (request_key q) (credentials_valid q)).1 with
     | InvalidCredentials => true
     | _ => false
     end.

Fixpoint count_guesses (k : string) (d : attempt_store) (qs : list request) : Z :=
  match qs with
  | [] => 0
  | q :: qs' => (if guessed k d q then 1 else 0) + count_guesses k (after_login d q) qs'
  end.

(** All the keys seen so far fit in the store, so none is evicted. *)
Definition store_inv (keys : list string) (d : attempt_store) : Prop :=
  dict_ok d
  ∧ (∀ k r, dict_get k d = Some r → attempt_ok r ∧ 0 <= failure_count r ∧ k ∈ keys).

Definition smaller (d' d : attempt_store) : Prop :=
  dict_ok d' ∧ ∀ k r, dict_get k d' = Some r → dict_get k d = Some r.

Lemma smaller_inv keys d d' : smaller d' d → store_inv keys d → store_inv keys d'.
Proof. intros [Hd Hs] [_ Hi]. split; [done|]. intros k r Hk%Hs. by apply Hi. Qed.

Lemma pop_smaller d k : dict_ok d → smaller (dict_pop k d) d.
Proof.
  intros Hd. split; [by apply dict_pop_ok|]. intros j r. rewrite dict_get_pop. by case_match.
Qed.

Lemma purge_smaller d now : dict_ok d → smaller (purge_expired c d now).2 d.
Proof.
  intros Hd. split; [by apply purge_ok|]. intros k r. rewrite purge_get by done.
  destruct (dict_get k d); [|done]. by case_match.
Qed.

Lemma is_locked_smaller d now k : dict_ok d → smaller (is_locked c d now k).2 d.
Proof.
  intros Hd. unfold is_locked. destruct (dict_get _ d) as [r|]; [|done].
  destruct (locked_until r); case_match; cbn; try done; by apply pop_smaller.
Qed.

Lemma retry_smaller d now k : dict_ok d → smaller (seconds_until_unlock d now k).2 d.
Proof.
  intros Hd. unfold seconds_until_unlock. destruct (dict_get _ d) as [r|]; [|done].
  destruct (locked_until r); [|done]. case_match; cbn; [by apply pop_smaller|done].
Qed.

Lemma dict_set_small keys (d : attempt_store) k r :
  store_inv keys d → NoDup keys → (length keys <= max_keys c)%nat → k ∈ keys →
  (length (dict_set k r d) <= max_keys c)%nat.
Proof.
  intros [Hd Hi] Hk Hlen Hin. rewrite <- (length_fmap fst). etrans; [|exact Hlen].
  apply submseteq_length, NoDup_submseteq; [by apply dict_set_ok|].
  intros j Hj. apply dict_keys_get in Hj as [r' Hj]. rewrite dict_get_set in Hj.
  destruct (String.eqb_spec k j) as [<-|]; [done|]. by apply Hi in Hj as (_ & _ & ?).
Qed.

Lemma next_record_count key now o :
  (∀ r, o = Some r → 0 <= failure_count r) → 0 <= failure_count (next_record c key now o).
Proof.
  intros Ho. unfold next_record. destruct o as [r|]; [|done]. specialize (Ho r eq_refl).
  destruct (_is_expired c r now); [done|]. destruct (from_option _ _ _); [done|]. cbn. lia.
Qed.

Lemma record_failure_inv keys d now k :
  store_inv keys d → NoDup keys → (length keys <= max_keys c)%nat → _client_key k ∈ keys →
  (record_failure c d now k).2
    = dict_set (_client_key k) (next_record c (_client_key k) (_now now) (dict_get (_client_key k) d)) d
  ∧ store_inv keys (record_failure c d now k).2.
Proof.
  intros Hi Hk Hlen Hin. unfold record_failure. cbn [snd]. rewrite evict_small by by eapply dict_set_small.
  split; [done|]. pose proof Hi as [Hd Hr]. split; [by apply dict_set_ok|].
  intros j r. rewrite dict_get_set. destruct (String.eqb_spec (_client_key k) j) as [<-|]; [|apply Hr].
  intros [= <-]. split; [|split; [|done]].
  - apply next_record_ok. intros r Hg. by destruct (Hr _ _ Hg) as (? & ? & ?).
  - apply next_record_count. intros r Hg. by destruct (Hr _ _ Hg) as (? & ? & ?).
Qed.

Lemma login_inv keys d q :
  store_inv keys d → NoDup keys → (length keys <= max_keys c)%nat → _client_key (request_key q) ∈ keys →
  store_inv keys (after_login d q).
Proof.
  intros Hi Hk Hlen Hin. unfold after_login, login.
  assert (H1 : store_inv keys (purge_expired c d (at_purge (at_ q))).2)
    by (eapply smaller_inv; [apply purge_smaller, Hi|done]).
  assert (H2 : store_inv keys (is_locked c (purge_expired c d (at_purge (at_ q))).2
                                 (at_check (at_ q)) (request_key q)).2)
    by (eapply smaller_inv; [apply is_locked_smaller, H1|done]).
  destruct (is_locked _ _ _ _) as [[] d2]; cbn [snd] in H2.
  - assert (H3 : store_inv keys (seconds_until_unlock d2 (at_retry (at_ q)) (request_key q)).2)
      by (eapply smaller_inv; [apply retry_smaller, H2|done]).
    by destruct (seconds_until_unlock _ _ _).
  - destruct (credentials_valid q); cbn.
    + eapply smaller_inv; [apply pop_smaller, H2|done].
    + by apply record_failure_inv.
Qed.

(** The readings of a request fall in an interval. *)
Definition within (a b : Z) (q : request) : Prop :=
  a <= instant (_now (at_record (at_ q))) < b
  ∧ instant (_now (at_purge (at_ q))) < b ∧ instant (_now (at_check (at_ q))) < b
  ∧ instant (_now (at_retry (at_ q))) < b.

(** Dropping expired records changes no allowance. *)
Lemma guesses_purge a b d now k :
  dict_ok d → attempts_ok d → instant (_now now) < b → b <= a + seconds (window_seconds c) →
  guesses a b (dict_get k (purge_expired c d now).2) = guesses a b (dict_get k d).
Proof.
  intros Hd Hr Hb Hw. rewrite purge_get by done. destruct (dict_get k d) as [r|] eqn:Hk; [|done].
  destruct (_is_expired c r (_now now)) eqn:He; [|done]. symmetry. eapply guesses_expired; eauto.
Qed.

Lemma guesses_is_locked a b d now k j :
  attempts_ok d → instant (_now now) < b → b <= a + seconds (window_seconds c) →
  guesses a b (dict_get j (is_locked c d now k).2) = guesses a b (dict_get j d).
Proof.
  intros Hr Hb Hw. rewrite is_locked_get. destruct (String.eqb _ _); [|done].
  destruct (dict_get j d) as [r|] eqn:Hk; [|done].
  destruct (_is_expired c r (_now now)) eqn:He; [|done]. symmetry. eapply guesses_expired; eauto.
Qed.

Lemma guesses_retry a b d now k j :
  attempts_ok d → instant (_now now) < b → b <= a + seconds (window_seconds c) →
  guesses a b (dict_get j (seconds_until_unlock d now k).2) = guesses a b (dict_get j d).
Proof.
  intros Hr Hb Hw. unfold seconds_until_unlock. destruct (dict_get (_client_key k) d) as [r|] eqn:Hk; [|done].
  destruct (locked_until r) as [u|] eqn:Hu; [|done]. destruct (_ <=? _) eqn:E; [|done]. cbn.
  rewrite dict_get_pop. destruct (String.eqb_spec (_client_key k) j) as [<-|]; [|done]. rewrite Hk.
  symmetry. apply (guesses_expired a b r (_now now)); eauto. unfold _is_expired. by rewrite Hu.
Qed.

Lemma inv_attempts_ok keys d : store_inv keys d → attempts_ok d.
Proof. intros [_ Hi] k r Hk. by destruct (Hi _ _ Hk). Qed.

Lemma login_guess keys a b k d q :
  store_inv keys d → NoDup keys → (length keys <= max_keys c)%nat → _client_key (request_key q) ∈ keys →
  within a b q → b <= a + seconds (window_seconds c) → b <= a + seconds (lockout_seconds c) →
  (_client_key (request_key q) = k → credentials_valid q = false) →
  guesses a b (dict_get k (after_login d q)) + (if guessed k d q then 1 else 0) <= guesses a b (dict_get k d).
Proof.
  intros Hi Hk Hlen Hin (Hrec & Hp & Hc & Hret) Hw Hl Hval. unfold after_login, guessed, login.
  set (d1 := (purge_expired c d (at_purge (at_ q))).2).
  assert (H1 : store_inv keys d1) by (eapply smaller_inv; [apply purge_smaller, Hi|done]).
  assert (E1 : guesses a b (dict_get k d1) = guesses a b (dict_get k d))
    by (apply guesses_purge; try done; [apply Hi|by eapply inv_attempts_ok]).
  assert (H2 : store_inv keys (is_locked c d1 (at_check (at_ q)) (request_key q)).2)
    by (eapply smaller_inv; [apply is_locked_smaller, H1|done]).
  pose proof (guesses_is_locked a b d1 (at_check (at_ q)) (request_key q) k
                (inv_attempts_ok _ _ H1) Hc Hw) as E2.
  destruct (is_locked c d1 _ _) as [[] d2] eqn:El; cbn [snd] in H2, E2.
  - pose proof (guesses_retry a b d2 (at_retry (at_ q)) (request_key q) k
                  (inv_attempts_ok _ _ H2) Hret Hw) as E3.
    destruct (seconds_until_unlock _ _ _) as [w d3]. cbn in *. rewrite andb_false_r. lia.
  - apply is_locked_false in El. destruct (String.eqb_spec (_client_key (request_key q)) k) as [Heq|Hne].
    + rewrite Hval by done. cbn [fst snd andb].
      destruct (record_failure_inv keys d2 (at_record (at_ q)) (request_key q)) as [-> _]; try done.
      rewrite Heq in *. rewrite dict_get_set, String.eqb_refl, <- E1, <- E2. apply guesses_next; try done.
      intros r Hr. rewrite Hr in El. destruct H2 as [_ H2]. by apply H2 in Hr as (? & ? & _).
    + destruct (credentials_valid q); cbn [fst snd andb].
      * cbn. rewrite dict_get_pop. destruct (String.eqb_spec (_client_key (request_key q)) k); [done|]. lia.
      * destruct (record_failure_inv keys d2 (at_record (at_ q)) (request_key q)) as [-> _]; try done.
        rewrite dict_get_set. destruct (String.eqb_spec (_client_key (request_key q)) k); [done|]. lia.
Qed.

Lemma guesses_nonneg a b keys d k : store_inv keys d → 0 <= guesses a b (dict_get k d).
Proof.
  intros [_ Hi]. unfold guesses. destruct (dict_get k d) as [r|] eqn:Hk; [|lia].
  apply Hi in Hk as (Hr & _). unfold attempt_ok in Hr. destruct (locked_until r); [case_match; lia|].
  specialize (Hr eq_refl). case_match; lia.
Qed.

(** C5: The brute-force bound. Take a store that login requests built from
    the empty one, for at most [max_keys] clients (so that none is evicted).
    In any interval no longer than the failure window and the lockout, at
    most [max_failures] requests of a client that does not log in are let
    through to the credential check, whatever the other clients do; the rest
    are answered [RateLimited]. *)
Theorem login_guess_bound keys before qs a b k :
  NoDup keys → (length keys <= max_keys c)%nat →
  Forall (λ q, _client_key (request_key q) ∈ keys) (before ++ qs) →
  Forall (within a b) qs →
  b <= a + seconds (Z.min (window_seconds c) (lockout_seconds c)) →
  Forall (λ q, _client_key (request_key q) = k → credentials_valid q = false) qs →
  count_guesses k (foldl after_login [] before) qs <= max_failures c.
Proof.
  intros Hk Hlen [Hin1 Hin2]%Forall_app Hw Hab Hval.
  assert (H0 : store_inv keys (foldl after_login [] before)).
  { assert (Hi : store_inv keys []) by (split; [constructor|done]). revert Hi.
    generalize ([] : attempt_store) as d. induction Hin1 as [|q before Hq _ IH]; intros d Hi; [done|].
    by apply IH, login_inv. }
  revert H0. generalize (foldl after_login [] before) as d. intros d Hi.
  assert (Hle : count_guesses k d qs <= guesses a b (dict_get k d)).
  { revert d Hi. induction qs as [|q qs IH]; intros d Hi; [by eapply guesses_nonneg|].
    apply Forall_cons in Hin2 as [Hq Hin2], Hw as [Hw1 Hw], Hval as [Hv Hval]. cbn [count_guesses].
    pose proof (login_guess keys a b k d q Hi Hk Hlen Hq Hw1) as H.
    specialize (IH Hin2 Hw Hval (after_login d q) (login_inv keys d q Hi Hk Hlen Hq)).
    unfold seconds in *. assert (guesses a b (dict_get k (after_login d q))
      + (if guessed k d q then 1 else 0) <= guesses a b (dict_get k d)); [apply H; try done; lia|]. lia. }
  etrans; [exact Hle|]. apply guesses_le. intros r Hr. apply Hi in Hr. lia.
Qed.
End Throttle.

(** ** Eviction *)

Lemma oldest_spec (k : string) (r : LoginAttemptRecord) d :
  ∃ r0, (oldest k r d, r0) ∈ (k, r) :: d
    ∧ ∀ kv, kv ∈ (k, r) :: d → instant (last_failed_at r0) <= instant (last_failed_at kv.2).
Proof.
  revert k r. induction d as [|[k' r'] d IH]; intros k r; cbn.
  - exists r. split; [by left|]. by intros kv ->%list_elem_of_singleton.
  - destruct (_ <? _) eqn:E; to_prop.
    + destruct (IH k' r') as (r0 & Hin & Hmin). exists r0. split; [by right|].
      intros kv [->|Hkv]%elem_of_cons; [|by apply Hmin]. specialize (Hmin (k', r') ltac:(left)).
      cbn in *. lia.
    + destruct (IH k r) as (r0 & Hin & Hmin). exists r0. split.
      { rewrite !elem_of_cons in *. tauto. }
      intros kv [->|[->|Hkv]%elem_of_cons]%elem_of_cons; [apply Hmin; left| |apply Hmin; by right].
      specialize (Hmin (k, r) ltac:(left)). cbn in *. lia.
Qed.

Lemma dict_pop_length {V} k (d : dict V) :
  dict_ok d → is_Some (dict_get k d) → length d = S (length (dict_pop k d)).
Proof.
  unfold dict_ok, dict_pop. induction d as [|[k0 v0] d IH]; cbn -[filter]; [intros _ [? ?]; done|].
  intros [Hn Hd]%NoDup_cons Hk. rewrite filter_cons. cbn -[filter].
  destruct (decide (k0 ≠ k)) as [Hne|Heq%dec_stable].
  - destruct (String.eqb_spec k0 k); [done|]. cbn. by rewrite IH at 1.
  - subst k0. f_equal. rewrite filter_all; [done|].
    intros [k1 v1] Hin Heq. apply Hn, list_elem_of_fmap. by exists (k1, v1).
Qed.

Lemma evict_spec (c : settings) fuel : ∀ d, (length d <= fuel)%nat → dict_ok d →
  length (evict c fuel d) = Nat.min (length d) (max_keys c)
  ∧ (∀ kv, kv ∈ evict c fuel d → kv ∈ d)
  ∧ (∀ kv kv', kv ∈ d → kv ∉ evict c fuel d → kv' ∈ evict c fuel d →
               instant (last_failed_at kv.2) <= instant (last_failed_at kv'.2)).
Proof.
  induction fuel as [|f IH]; intros d Hf Hd.
  { destruct d; [|cbn in Hf; lia]. by repeat split. }
  destruct d as [|[k r] d']; [by repeat split|]. cbn [evict].
  destruct (max_keys c <? _)%nat eqn:E; to_prop; [|split; [lia|]; by split; [|intros ???]].
  destruct (oldest_spec k r d') as (r0 & Hin & Hmin). set (o := oldest k r d') in *.
  set (d := (k, r) :: d') in *.
  assert (Ho : dict_get o d = Some r0) by (by apply dict_get_elem).
  pose proof (dict_pop_length o d Hd (ex_intro _ _ Ho)) as Hlen.
  destruct (IH (dict_pop o d)) as (H1 & H2 & H3); [lia|by apply dict_pop_ok|].
  split; [rewrite H1; lia|]. split.
  - intros kv Hkv%H2. by apply list_elem_of_filter in Hkv as [_ Hkv].
  - intros kv kv' Hkv Hnot Hkv'. destruct (decide (kv.1 = o)) as [Heq|Hne].
    + destruct kv as [k1 r1]. cbn in Heq. subst k1. apply dict_get_elem in Hkv; [|done].
      assert (r1 = r0) as -> by congruence. apply Hmin. apply H2 in Hkv'.
      by apply list_elem_of_filter in Hkv' as [_ Hkv'].
    + apply H3; [|done|done]. by apply list_elem_of_filter.
Qed.

(** Eviction is bounded and fair. After [record_failure] the store holds
    at most [max_keys] clients; only the excess is dropped, and every client
    dropped failed no later than every client kept. *)
Theorem record_failure_evicts_oldest c d now k :
  dict_ok d →
  let d' := (record_failure c d now k).2 in
  let full := dict_set (_client_key k) (record_failure c d now k).1 d in
  record_count d' = Nat.min (record_count full) (max_keys c)
  ∧ (∀ kv, kv ∈ d' → kv ∈ full)
  ∧ (∀ kv kv', kv ∈ full → kv ∉ d' → kv' ∈ d' →
               instant (last_failed_at kv.2) <= instant (last_failed_at kv'.2)).
Proof.
  intros Hd d' full. apply (evict_spec c (length full) full); [lia|]. by apply dict_set_ok.
Qed.

(** ** Password hashes: lemmas and properties *)

Lemma unhex_length l : length (unhex l) = Nat.div2 (length l).
Proof.
  enough (H : ∀ n l, (length l <= n)%nat → length (unhex l) = Nat.div2 (length l)) by (by eapply H).
  clear l. induction n as [|n IH]; intros [|a [|b l]] Hn; cbn in *; try lia. rewrite IH; lia.
Qed.

Lemma sha256_bytes_len s : len (sha256_bytes s) = 32%nat.
Proof.
  unfold sha256_bytes, len. rewrite chars_text, unhex_length.
  destruct (sha256_hex_chars s) as [_ H]. unfold len in H. by rewrite H.
Qed.

Lemma pbkdf2_len password salt iterations : len (pbkdf2_hmac password salt iterations) = 32%nat.
Proof.
  unfold pbkdf2_hmac. set (u1 := hmac_sha256 _ _).
  assert (H : len (N.iter (iterations - 1) (pbkdf2_turn password) (u1, u1)).2 = 32%nat); [|done].
  apply (N.iter_invariant (iterations - 1) _ (pbkdf2_turn password) (λ ut, len ut.2 = 32%nat));
    [|apply sha256_bytes_len].
  intros [u t] Ht. cbn in *. unfold xor_bytes, len in *. rewrite chars_text, length_zip_with.
  pose proof (sha256_bytes_len (text (xor_with 92 (block_key password))
    ++ sha256_bytes (text (xor_with 54 (block_key password)) ++ u))) as Hu.
  unfold len in Hu. fold (hmac_sha256 password u) in Hu. lia.
Qed.

Lemma hex_of_chars s : all_chars is_hex_lower (hex_of s) = true ∧ len (hex_of s) = (2 * len s)%nat.
Proof.
  unfold hex_of, len. rewrite all_chars_Forall, !chars_text.
  induction (chars s) as [|a l IH]; cbn -[hex_digits]; [split; [constructor|done]|].
  destruct IH as [IH1 IH2]. rewrite Forall_app, length_app, hex_digits_length, IH2.
  split; [split; [apply hex_digits_hex|done]|lia].
Qed.

Lemma no_dollar p s :
  forallb (λ a, negb (p a) || negb (is_char "$" a)) all_ascii = true →
  all_chars p s = true → all_chars (λ a, negb (is_char "$" a)) s = true.
Proof.
  intros Hp. apply all_chars_impl. intros a Ha. pose proof (every_char _ Hp a) as H.
  cbn in H. by rewrite Ha in H.
Qed.

Definition is_salt (s : string) : bool :=
  all_chars (λ a, is_ascii_alnum a || one_of "_.-" a) s && (16 <=? len s)%nat && (len s <=? 128)%nat.

(** The stored text parses back to what was hashed. *)
Lemma parse_hash iterations salt digest :
  (MIN_ADMIN_PASSWORD_HASH_ITERATIONS <= iterations <= INT_MAX)%N → is_salt salt = true →
  all_chars is_hex_lower digest = true → len digest = 64%nat →
  _parse_admin_password_hash
    (Some (join "$" [ADMIN_PASSWORD_HASH_SCHEME; str_of_N iterations; salt; digest]))
  = Some (iterations, salt, digest).
Proof.
  intros [Hmin Hmax] Hsalt Hd Hl. unfold is_salt in Hsalt. to_prop. rename select (all_chars _ salt = true) into Hs.
  assert (Hne : iterations ≠ 0%N) by (unfold MIN_ADMIN_PASSWORD_HASH_ITERATIONS in Hmin; lia).
  set (h := join "$" _). assert (Hstrip : strip h = h).
  { apply strip_id; [done|]. unfold h, last_char, join.
    change (String.concat "$" [ADMIN_PASSWORD_HASH_SCHEME; str_of_N iterations; salt; digest])
      with (ADMIN_PASSWORD_HASH_SCHEME ++ "$" ++ str_of_N iterations ++ "$" ++ salt ++ "$" ++ digest)%string.
    rewrite !chars_app, !last_app. rewrite all_chars_Forall in Hd. unfold len in Hl.
    destruct (last (chars digest)) as [a|] eqn:E; [|by apply last_None in E; rewrite E in Hl].
    apply last_Some_elem_of in E. rewrite Forall_forall in Hd. apply Hd in E. cbn.
    assert (Hall : ∀ a, negb (is_hex_lower a) || negb (is_space a) = true)
      by (apply every_char; vm_compute; reflexivity).
    specialize (Hall a). rewrite E in Hall. by apply negb_true_iff in Hall. }
  unfold _parse_admin_password_hash. rewrite Hstrip.
  replace (negb (truthy h)) with false by done. unfold hash_pattern.
  unfold h. rewrite split_join; [|done|].
  - rewrite String.eqb_refl, str_of_N_digits, str_of_N_first by done.
    rewrite Hs, (all_chars_impl is_hex_lower _ digest) by
      (done || (intros a; unfold is_hex_lower; destruct (is_digit a), (between 65 70 a); done)).
    rewrite Hl. destruct (Nat.leb_spec 16 (len salt)), (Nat.leb_spec (len salt) 128); try lia. cbn [andb Nat.eqb].
    cbn -[py_int lower MIN_ADMIN_PASSWORD_HASH_ITERATIONS N.ltb]. rewrite py_int_str_of_N.
    + destruct (N.ltb_spec iterations MIN_ADMIN_PASSWORD_HASH_ITERATIONS); [lia|]. by rewrite lower_id.
    + eapply N.le_lt_trans; [exact Hmax|]. vm_compute. reflexivity.
  - repeat constructor; try done.
    + eapply no_dollar; [|apply str_of_N_digits]. vm_compute. reflexivity.
    + eapply no_dollar; [|exact Hs]. vm_compute. reflexivity.
    + eapply no_dollar; [|exact Hd]. vm_compute. reflexivity.
Qed.

Lemma hex_of_inj s t : hex_of s = hex_of t → s = t.
Proof.
  assert (Hu : ∀ s, unhex (chars (hex_of s)) = chars s).
  { intros u. unfold hex_of. rewrite chars_text. induction (chars u) as [|a l IH]; [done|].
    assert (Hall : ∀ a, bool_decide (unhex (hex_digits 2 (code a)) = [a]) = true)
      by (apply every_char; vm_compute; reflexivity).
    specialize (Hall a). apply bool_decide_eq_true in Hall.
    change (unhex (hex_digits 2 (code a) ++ concat (map (λ c, hex_digits 2 (code c)) l)) = a :: l).
    destruct (hex_digits 2 (code a)) as [|x [|y []]] eqn:E; cbn in E |- *; try done.
    cbn in Hall. injection Hall as ->. f_equal. exact IH. }
  intros H. apply chars_inj. by rewrite <- (Hu s), <- (Hu t), H.
Qed.

(** A hash that [hash_password] made parses to what it was made of. *)
Lemma made_hash_parses password salt iterations h :
  is_salt salt = true → hash_password password salt iterations = Ok h →
  let digest := hex_of (pbkdf2_hmac (utf8 password) (utf8 salt) iterations) in
  _parse_admin_password_hash (Some h) = Some (iterations, salt, digest)
  ∧ (iterations <=? INT_MAX)%N = true ∧ truthy password = true.
Proof.
  intros Hsalt H. unfold hash_password in H. inv_ok H. to_prop. cbn zeta. set (digest := hex_of _) in *.
  split; [|split].
  - destruct (hex_of_chars (pbkdf2_hmac (utf8 password) (utf8 salt) iterations)) as [Hc Hl].
    rewrite pbkdf2_len in Hl. apply parse_hash; try done. split; by apply N.ltb_ge.
  - apply N.leb_le. by apply N.ltb_ge.
  - destruct password; [cbv in H; lia|done].
Qed.

Lemma made_hash_verifies password salt iterations h :
  is_salt salt = true → hash_password password salt iterations = Ok h →
  verify_admin_password (Some password) (Some h) = true.
Proof.
  intros Hsalt H. destruct (made_hash_parses _ _ _ _ Hsalt H) as (Hp & Hmax & Hpw).
  unfold verify_admin_password. by rewrite Hp, Hmax, Hpw, String.eqb_refl.
Qed.

(** C35: Password round trip. What [hash_password] stores is a supported hash,
    and [verify_admin_password] accepts against it exactly the non-empty
    passwords with the same PBKDF2 digest under its salt and iterations, the
    hashed password among them. *)
Theorem password_roundtrip password salt iterations h :
  is_salt salt = true → hash_password password salt iterations = Ok h →
  is_supported_admin_password_hash (Some h) = true
  ∧ verify_admin_password (Some password) (Some h) = true
  ∧ ∀ q, verify_admin_password (Some q) (Some h) = true ↔
         q ≠ "" ∧ pbkdf2_hmac (utf8 q) (utf8 salt) iterations
                  = pbkdf2_hmac (utf8 password) (utf8 salt) iterations.
Proof.
  intros Hsalt H. destruct (made_hash_parses _ _ _ _ Hsalt H) as (Hp & Hmax & _).
  unfold is_supported_admin_password_hash. rewrite Hp. split; [done|]. split; [by eapply made_hash_verifies|].
  intros q. unfold verify_admin_password. rewrite Hp, Hmax. cbn [andb].
  rewrite andb_true_iff, String.eqb_eq. unfold truthy. rewrite negb_true_iff, String.eqb_neq.
  split; intros [? Hq]; (split; [done|]); [by apply hex_of_inj|]. by rewrite Hq.
Qed.

(** ** Concrete runs *)
Module Demo.
Definition at_sec (n : Z) : datetime := DT (seconds n) (Some 0).
Definition sign_in (n : Z) (i operator : string) : session_op :=
  CreateSession (at_sec n) [i] "fallback" "csrf" operator "self_hosted_single_admin" None None.
Definition d1 : session_store := Eval vm_compute in after_session 3600 [] (sign_in 10 "sid-a" "alice").
Definition d2 : session_store := Eval vm_compute in after_session 3600 d1 (sign_in 20 "sid-b" "bob").
Definition alice : AdminSession := Eval vm_compute in
  (create_admin_session 3600 [] (at_sec 10) ["sid-a"] "fallback" "csrf" "alice"
     "self_hosted_single_admin" None None).1.
Definition bob : AdminSession := Eval vm_compute in
  (create_admin_session 3600 d1 (at_sec 20) ["sid-b"] "fallback" "csrf" "bob"
     "self_hosted_single_admin" None None).1.

Lemma session_demo : session_history 3600 [bob; alice] d2.
Proof.
  assert (H : session_history 3600
    (created_by_op 3600 (after_session 3600 [] (sign_in 10 "sid-a" "alice")) (sign_in 20 "sid-b" "bob")
     ++ created_by_op 3600 [] (sign_in 10 "sid-a" "alice") ++ [])
    (after_session 3600 (after_session 3600 [] (sign_in 10 "sid-a" "alice")) (sign_in 20 "sid-b" "bob")))
    by (repeat apply sh_op; apply sh_init).
  vm_compute in H |- *. exact H.
Qed.

Definition limits : settings := clamp 900 3 600 100.
Definition guess (n : Z) (key : string) : request :=
  Request (Readings (at_sec n) (at_sec n) (at_sec n) (at_sec n)) (Some key) false.
Definition guesses_of_a : list request :=
  [guess 1 "a"; guess 2 "b"; guess 3 "a"; guess 4 " a "; guess 5 "a"; guess 6 "a"].
End Demo.

Lemma session_lookup_exact_witness :
  (get_session Demo.d2 (Demo.at_sec 3000) (Some "sid-a")).1 = Some Demo.alice
  ∧ (get_session Demo.d2 (Demo.at_sec 3610) (Some "sid-a")).1 ≠ Some Demo.alice.
Proof.
  destruct (session_lookup_exact 3600 _ Demo.d2 (Demo.at_sec 3000) "sid-a" Demo.session_demo) as [H _].
  destruct (session_lookup_exact 3600 _ Demo.d2 (Demo.at_sec 3610) "sid-a" Demo.session_demo) as [H' _].
  split; [apply H|intros (_ & _ & Hlt)%H'; vm_compute in Hlt; discriminate].
  split; [discriminate|]. split; vm_compute; reflexivity.
Defined.

Lemma operator_sign_out_witness :
  operator_id Demo.bob ≠ "alice"
  ∧ dict_get "sid-b" (invalidate_operator_sessions Demo.d2 "alice").2 = Some Demo.bob.
Proof.
  destruct (operator_sign_out 3600 _ Demo.d2 "alice" [GetSession (Demo.at_sec 50) (Some "sid-b")]
    (Demo.at_sec 60) (Some "sid-b") Demo.bob Demo.session_demo) as [H1 H2].
  - repeat constructor.
  - vm_compute. reflexivity.
  - split; [exact H1|]. apply H2; [vm_compute; reflexivity|exact H1].
Defined.

Lemma login_guess_bound_witness :
  count_guesses Demo.limits "a" [] Demo.guesses_of_a = 3
  ∧ count_guesses Demo.limits "a" [] Demo.guesses_of_a <= max_failures Demo.limits.
Proof.
  split; [vm_compute; reflexivity|].
  apply (login_guess_bound Demo.limits ltac:(vm_compute; congruence) ["a"; "b"] [] Demo.guesses_of_a
    0 (seconds 600) "a").
  - repeat constructor; set_solver.
  - vm_compute. lia.
  - repeat constructor; vm_compute; set_solver.
  - repeat constructor; vm_compute; congruence.
  - vm_compute. congruence.
  - repeat constructor.
Defined.

Lemma record_failure_evicts_oldest_witness :
  record_count (record_failure Demo.limits [] (Demo.at_sec 1) None).2 = 1%nat.
Proof.
  exact (proj1 (record_failure_evicts_oldest Demo.limits [] (Demo.at_sec 1) None (NoDup_nil_2))).
Defined.

Lemma password_roundtrip_witness :
  ∃ h, hash_password "correct horse battery" "0123456789abcdef0123456789abcdef" 600000 = Ok h
       ∧ verify_admin_password (Some "correct horse battery") (Some h) = true.
Proof.
  eexists. assert (E : hash_password "correct horse battery" "0123456789abcdef0123456789abcdef" 600000 = Ok _)
    by reflexivity.
  split; [exact E|].
  exact (proj1 (proj2 (password_roundtrip "correct horse battery" "0123456789abcdef0123456789abcdef" 600000 _
    ltac:(vm_compute; reflexivity) E))).
Defined.

(** The CSRF check of a stored session (whose token is URL-safe text) answers
    for ASCII headers; a header with any other character raises. *)
Lemma csrf_token_check token s :
  all_chars is_urlsafe (csrf_token s) = true →
  verify_admin_csrf_token (Some token) (Some s)
  = if negb (truthy token) then Ok false
    else if all_chars (between 0 127) token then Ok (String.eqb token (csrf_token s))
    else Err "TypeError".
Proof.
  intros Hs. unfold verify_admin_csrf_token, compare_digest.
  rewrite (all_chars_impl is_urlsafe (between 0 127) (csrf_token s)); [|apply every_char'; vm_compute; reflexivity|done].
  rewrite andb_true_r. destruct (truthy token), (all_chars (between 0 127) token); done.
Qed.
