(* ===== verification/AuthState.v ===== *)
(** * AuthState: the durable tables of sessions and login attempts

    Models [SQLiteAuthStateStore] of [backend/app/auth_state_sqlite.py].  The
    two tables are maps from primary key to row ([SqlTable]), each method one
    transaction on its table; a session identifier, a CSRF token and a client
    key reach the tables only as SHA-256 digests.  [now] is the timestamp the
    caller passes.  A REAL column is the exact microsecond instant: distinct
    microseconds have distinct doubles in the same order, and adding or
    subtracting whole seconds is exact between 2004 and 2038, where a double
    of the timestamp has a spacing of 2^-22 seconds.  SQLite being unavailable
    is not modelled. *)

From S2P Require Import Prelude PyStr Sha256 SqlTable.
Local Open Scope Z_scope.

(** ** Data *)

(** backend/app/auth_state_sqlite.py [SQLiteAuthSession] *)
Record SQLiteAuthSession : Type := AuthSession {
  as_operator_id : string;
  as_auth_mode : string;
  as_created_at : datetime;
  as_last_seen_at : datetime;
  as_expires_at : datetime;
  as_organization_id : option string;
  as_role : option string;
  as_revoked_at : option datetime;
  as_revocation_reason : option string
}.

(** backend/app/auth_state_sqlite.py [SQLiteLoginAttempt] *)
Record SQLiteLoginAttempt : Type := LoginAttempt {
  la_failure_count : Z;
  la_first_failed_at : datetime;
  la_last_failed_at : datetime;
  la_locked_until : option datetime;
  la_updated_at : option datetime
}.

(** The columns of [auth_sessions], but for the key [session_id_hash]. *)
(** backend/app/auth_state_sqlite.py 410-422 [auth_sessions] *)
Record session_row : Type := SessionRow {
  csrf_token_hash : string;
  operator_id : string;
  auth_mode : string;
  created_at : Z;
  last_seen_at : Z;
  expires_at : Z;
  revoked_at : option Z;
  revocation_reason : option string;
  client_key_hash : option string;
  user_agent_hash : option string;
  organization_id : option string;
  role : option string
}.

(** The columns of [auth_login_attempts], but for the key
    [client_key_hash]. *)
(** backend/app/auth_state_sqlite.py 429-436 [auth_login_attempts] *)
Record attempt_row : Type := AttemptRow {
  failure_count : Z;
  first_failed_at : Z;
  last_failed_at : Z;
  locked_until : option Z;
  updated_at : Z
}.

Abbreviation session_table := (gmap string session_row).
Abbreviation attempt_table := (gmap string attempt_row).

#[export] Instance session_row_eq_dec : EqDecision session_row.
Proof. solve_decision. Defined.
#[export] Instance attempt_row_eq_dec : EqDecision attempt_row.
Proof. solve_decision. Defined.

(** ** Digests and conversions *)

(** backend/app/auth_state_sqlite.py [_HASH_PREFIX] *)
Definition _HASH_PREFIX : string := "inspectra-auth-state-v1".

(** backend/app/auth_state_sqlite.py [_hash_value] *)
Definition _hash_value (purpose : string) (value : option string) : string :=
  sha256_hex (utf8 (_HASH_PREFIX ++ ":" ++ purpose ++ text ["000"%char] ++ default "" value)).

#[global] Arguments _hash_value : simpl never.

(** backend/app/auth_state_sqlite.py [hash_session_id] *)
Definition hash_session_id (session_id : string) : string := _hash_value "session" (Some session_id).

(** backend/app/auth_state_sqlite.py [hash_csrf_token] *)
Definition hash_csrf_token (csrf_token : string) : string := _hash_value "csrf" (Some csrf_token).

(** [key.strip() or "unknown"], and ["unknown"] for what is not a text. *)
Definition normalized_key (client_key : option string) : string :=
  match client_key with
  | None => "unknown"
  | Some k => if truthy (strip k) then strip k else "unknown"
  end.

(** backend/app/auth_state_sqlite.py [hash_client_key] *)
Definition hash_client_key (client_key : option string) : string :=
  _hash_value "client_key" (Some (normalized_key client_key)).

(** backend/app/auth_state_sqlite.py [_timestamp] *)
Definition _timestamp (value : datetime) : Z :=
  instant (if aware value then value else replace_utc value).

(** backend/app/auth_state_sqlite.py [_datetime_from_timestamp] *)
Definition _datetime_from_timestamp (value : Z) : datetime := DT value (Some 0).

(** backend/app/auth_state_sqlite.py [_session_from_row] *)
Definition _session_from_row (row : session_row) : SQLiteAuthSession :=
  AuthSession (operator_id row) (auth_mode row) (_datetime_from_timestamp (created_at row))
    (_datetime_from_timestamp (last_seen_at row)) (_datetime_from_timestamp (expires_at row))
    (organization_id row) (role row) (_datetime_from_timestamp <$> revoked_at row) (revocation_reason row).

(** backend/app/auth_state_sqlite.py [_login_attempt_from_row] *)
Definition _login_attempt_from_row (row : attempt_row) : SQLiteLoginAttempt :=
  LoginAttempt (failure_count row) (_datetime_from_timestamp (first_failed_at row))
    (_datetime_from_timestamp (last_failed_at row)) (_datetime_from_timestamp <$> locked_until row)
    (Some (_datetime_from_timestamp (updated_at row))).

(** backend/app/auth_state_sqlite.py [_login_attempt_expired] *)
Definition _login_attempt_expired (row : attempt_row) (now_ts window_seconds : Z) : bool :=
  match locked_until row with
  | Some u => u <=? now_ts
  | None => last_failed_at row + seconds window_seconds <=? now_ts
  end.

(** backend/app/auth_state_sqlite.py [_safe_reason] *)
Definition _safe_reason (reason : option string) : option string :=
  match reason with
  | None => None
  | Some r => let normalized := strip r in
              if negb (truthy normalized) then None else Some (text (take 120 (chars normalized)))
  end.

(** backend/app/auth_state_sqlite.py [SQLiteAuthStateStore._require_non_blank] *)
Definition _require_non_blank (value : string) : outcome unit :=
  raise "ValueError" when (negb (truthy value));; Ok tt.

(** ** Sessions *)

(** backend/app/auth_state_sqlite.py [SQLiteAuthStateStore.create_session] *)
Definition create_session (t : session_table) (session_id csrf_token operator mode : string)
    (organization role' : option string) (expires now : datetime) (client_key user_agent : option string)
    : outcome (SQLiteAuthSession * session_table) :=
  _ ← _require_non_blank session_id;
  _ ← _require_non_blank csrf_token;
  _ ← _require_non_blank operator;
  _ ← _require_non_blank mode;
  let now_ts := _timestamp now in
  let expires_ts := _timestamp expires in
  let row := SessionRow (hash_csrf_token csrf_token) operator mode now_ts now_ts expires_ts None None
               ((λ k, hash_client_key (Some k)) <$> client_key)
               ((λ a, _hash_value "user_agent" (Some a)) <$> user_agent) organization role' in
  Ok (AuthSession operator mode (_datetime_from_timestamp now_ts) (_datetime_from_timestamp now_ts)
        (_datetime_from_timestamp expires_ts) organization role' None None,
      <[hash_session_id session_id := row]> t).

(** [revoked_at IS NULL AND expires_at > now] *)
Definition live (now_ts : Z) (row : session_row) : bool :=
  bool_decide (revoked_at row = None) && negb (expires_at row <=? now_ts).

(** The row a session identifier opens. *)
Definition live_row (t : session_table) (session_id : option string) (now_ts : Z) : option session_row :=
  i ← session_id;
  if negb (truthy i) then None else
  row ← t !! hash_session_id i;
  if live now_ts row then Some row else None.

(** backend/app/auth_state_sqlite.py [SQLiteAuthStateStore.get_session] *)
Definition get_session (t : session_table) (session_id : option string) (now_ts : Z)
    : option SQLiteAuthSession :=
  _session_from_row <$> live_row t session_id now_ts.

(** backend/app/auth_state_sqlite.py [SQLiteAuthStateStore.verify_session_csrf_token] *)
Definition verify_session_csrf_token (t : session_table) (session_id csrf_token : option string) (now_ts : Z)
    : bool :=
  match csrf_token, live_row t session_id now_ts with
  | Some token, Some row => truthy token && String.eqb (csrf_token_hash row) (hash_csrf_token token)
  | _, _ => false
  end.

(** The row with the columns an [UPDATE] sets. *)
Definition seen (now_ts : Z) (csrf : option string) (row : session_row) : session_row :=
  SessionRow (default (csrf_token_hash row) csrf) (operator_id row) (auth_mode row) (created_at row) now_ts
    (expires_at row) (revoked_at row) (revocation_reason row) (client_key_hash row) (user_agent_hash row)
    (organization_id row) (role row).
Definition revoked (now_ts : Z) (reason : option string) (row : session_row) : session_row :=
  SessionRow (csrf_token_hash row) (operator_id row) (auth_mode row) (created_at row) (last_seen_at row)
    (expires_at row) (Some now_ts) reason (client_key_hash row) (user_agent_hash row)
    (organization_id row) (role row).

(** [UPDATE ... WHERE session_id_hash = ? AND cond] and whether it changed
    a row. *)
Definition update_session (t : session_table) (session_id : option string)
    (cond : session_row → bool) (f : session_row → session_row) : bool * session_table :=
  match session_id with
  | None => (false, t)
  | Some i =>
      if negb (truthy i) then (false, t) else
      let p := λ k row, String.eqb k (hash_session_id i) && cond row in
      (bool_decide (0 < row_count p t)%nat, update_where p f t)
  end.

(** backend/app/auth_state_sqlite.py [SQLiteAuthStateStore.update_session_csrf_token] *)
Definition update_session_csrf_token (t : session_table) (session_id : option string) (csrf_token : string)
    (now_ts : Z) : outcome (bool * session_table) :=
  match session_id with
  | None => Ok (false, t)
  | Some i =>
      if negb (truthy i) then Ok (false, t) else
      _ ← _require_non_blank csrf_token;
      Ok (update_session t session_id (live now_ts) (seen now_ts (Some (hash_csrf_token csrf_token))))
  end.

(** backend/app/auth_state_sqlite.py [SQLiteAuthStateStore.revoke_session] *)
Definition revoke_session (t : session_table) (session_id reason : option string) (now_ts : Z)
    : bool * session_table :=
  update_session t session_id (λ row, bool_decide (revoked_at row = None)) (revoked now_ts (_safe_reason reason)).

(** backend/app/auth_state_sqlite.py [SQLiteAuthStateStore.revoke_operator_sessions] *)
Definition revoke_operator_sessions (t : session_table) (operator : string) (reason : option string) (now_ts : Z)
    : outcome (nat * session_table) :=
  _ ← _require_non_blank operator;
  let p := λ _ row, String.eqb (operator_id row) operator && bool_decide (revoked_at row = None) in
  Ok (row_count p t, update_where p (revoked now_ts (_safe_reason reason)) t).

(** backend/app/auth_state_sqlite.py [SQLiteAuthStateStore.revoke_operator_organization_sessions] *)
Definition revoke_operator_organization_sessions (t : session_table) (operator organization : string)
    (reason : option string) (now_ts : Z) : outcome (nat * session_table) :=
  _ ← _require_non_blank operator;
  _ ← _require_non_blank organization;
  let p := λ _ row, String.eqb (operator_id row) operator
                    && bool_decide (organization_id row = Some organization)
                    && bool_decide (revoked_at row = None) in
  Ok (row_count p t, update_where p (revoked now_ts (_safe_reason reason)) t).

(** backend/app/auth_state_sqlite.py [SQLiteAuthStateStore.touch_session] *)
Definition touch_session (t : session_table) (session_id : option string) (now_ts : Z) : bool * session_table :=
  update_session t session_id (live now_ts) (seen now_ts None).

(** backend/app/auth_state_sqlite.py [SQLiteAuthStateStore.cleanup_sessions] *)
Definition cleanup_sessions (t : session_table) (now_ts revoked_retention_seconds : Z) : nat * session_table :=
  let retention_seconds := Z.max 0 revoked_retention_seconds in
  let p := λ _ row, (expires_at row <=? now_ts)
                    || from_option (λ r, r <=? now_ts - seconds retention_seconds) false (revoked_at row) in
  (row_count p t, delete_where p t).

(** ** Login attempts *)

(** backend/app/auth_state_sqlite.py [SQLiteAuthStateStore.record_login_failure] *)
Definition record_login_failure (t : attempt_table) (client_key : option string)
    (now_ts window_seconds max_failures lockout_seconds : Z) : SQLiteLoginAttempt * attempt_table :=
  let key_hash := hash_client_key client_key in
  let window := Z.max 1 window_seconds in
  let threshold := Z.max 1 max_failures in
  let lockout := Z.max 1 lockout_seconds in
  let write failures first :=
    let row := AttemptRow failures first now_ts
                 (if threshold <=? failures then Some (now_ts + seconds lockout) else None) now_ts in
    (_login_attempt_from_row row, <[key_hash := row]> t) in
  match t !! key_hash with
  | None => write 1 now_ts
  | Some existing =>
      if _login_attempt_expired existing now_ts window then write 1 now_ts
      else if from_option (λ u, now_ts <? u) false (locked_until existing)
           then (_login_attempt_from_row existing, t)
      else write (failure_count existing + 1) (first_failed_at existing)
  end.

(** backend/app/auth_state_sqlite.py [SQLiteAuthStateStore.get_login_attempt] *)
Definition get_login_attempt (t : attempt_table) (client_key : option string) : option SQLiteLoginAttempt :=
  _login_attempt_from_row <$> t !! hash_client_key client_key.

(** backend/app/auth_state_sqlite.py [SQLiteAuthStateStore.reset_login_attempt] *)
Definition reset_login_attempt (t : attempt_table) (client_key : option string) : bool * attempt_table :=
  (bool_decide (is_Some (t !! hash_client_key client_key)), delete (hash_client_key client_key) t).

(** backend/app/auth_state_sqlite.py [SQLiteAuthStateStore.count_login_attempts] *)
Definition count_login_attempts (t : attempt_table) : nat := size t.

(** backend/app/auth_state_sqlite.py [SQLiteAuthStateStore.cleanup_login_attempts] *)
Definition cleanup_login_attempts (t : attempt_table) (now_ts window_seconds : Z) : nat * attempt_table :=
  let window := Z.max 1 window_seconds in
  let p := λ (_ : string) row, _login_attempt_expired row now_ts window in
  (row_count p t, delete_where p t).

(** [ORDER BY updated_at ASC]; [rank] is the order SQLite gives to rows with
    the same value. *)
Definition least_recent (rank : string → Z) (a b : string * attempt_row) : Prop :=
  updated_at a.2 < updated_at b.2 ∨ (updated_at a.2 = updated_at b.2 ∧ rank a.1 <= rank b.1).
#[export] Instance least_recent_dec rank a b : Decision (least_recent rank a b).
Proof. unfold least_recent. apply _. Defined.

(** The rows without a lock that still holds. *)
Definition unlocked (now_ts : Z) (_ : string) (row : attempt_row) : bool :=
  from_option (λ u, u <=? now_ts) true (locked_until row).

(** backend/app/auth_state_sqlite.py 351-369 [SELECT client_key_hash] *)
Definition prunable (rank : string → Z) (t : attempt_table) (now_ts : Z) (excess : nat) : list string :=
  take excess (merge_sort (least_recent rank) (map_to_list (select_where (unlocked now_ts) t))).*1.

(** backend/app/auth_state_sqlite.py [SQLiteAuthStateStore.prune_login_attempts] *)
Definition prune_login_attempts (rank : string → Z) (t : attempt_table) (max_rows now_ts : Z)
    : nat * attempt_table :=
  let limit := Z.to_nat (Z.max 1 max_rows) in
  let total := count_login_attempts t in
  if (total <=? limit)%nat then (0%nat, t) else
  let rows := prunable rank t now_ts (total - limit) in
  (length rows, foldl (λ t k, delete k t) t rows).

(** ** The database *)

(** backend/app/auth_state_sqlite.py [AUTH_STATE_SCHEMA_VERSION] *)
Definition AUTH_STATE_SCHEMA_VERSION : N := 2.

(** The tables of the file; [schema_version] is the value of the metadata row
    of that key, [None] when there is none. *)
Record auth_db : Type := AuthDb {
  auth_sessions : session_table;
  auth_login_attempts : attempt_table;
  schema_version : option string
}.

(** Tables that exist are kept; the file of an older schema, whose session
    rows lack the last two columns, gets them empty, so that its rows are the
    rows of the model with [None] there. *)
(** backend/app/auth_state_sqlite.py [SQLiteAuthStateStore._initialize_schema] *)
Definition _initialize_schema (file : option auth_db) : auth_db :=
  let db := default (AuthDb ∅ ∅ None) file in
  AuthDb (auth_sessions db) (auth_login_attempts db) (Some (str_of_N AUTH_STATE_SCHEMA_VERSION)).

(** backend/app/auth_state_sqlite.py [SQLiteAuthStateStore.get_schema_version] *)
Definition get_schema_version (db : auth_db) : option N :=
  match schema_version db with
  | None => None
  | Some value => match py_int value with Ok n => Some n | Err _ => None end
  end.

(** ** Lemmas *)

(** The reading of a clock, whichever zone it gives. *)
Definition utc (current : datetime) : datetime := if aware current then as_utc current else replace_utc current.
Definition reading (d : datetime) : Z := instant (utc d).

Lemma timestamp_utc d : _timestamp (utc d) = reading d.
Proof. unfold reading, _timestamp, utc. by destruct (aware d). Qed.

Lemma from_timestamp_utc d : _datetime_from_timestamp (reading d) = utc d.
Proof.
  unfold reading, utc. destruct (aware d); unfold _datetime_from_timestamp; [by rewrite instant_as_utc|].
  unfold instant, replace_utc. cbn. by rewrite Z.sub_0_r.
Qed.

Lemma from_timestamp_plus_utc d n :
  _datetime_from_timestamp (reading d + seconds n) = plus_seconds (utc d) n.
Proof.
  unfold _datetime_from_timestamp, plus_seconds, reading, utc, instant.
  destruct (aware d); cbn; by rewrite Z.sub_0_r.
Qed.

Lemma instant_from_timestamp n : instant (_datetime_from_timestamp n) = n.
Proof. unfold instant, _datetime_from_timestamp. cbn. by rewrite Z.sub_0_r. Qed.

Lemma update_session_lookup t i cond f k :
  (update_session t (Some i) cond f).2 !! k =
  (λ row, if truthy i && String.eqb k (hash_session_id i) && cond row then f row else row) <$> t !! k.
Proof.
  unfold update_session. destruct (truthy i); cbn [negb]; [apply update_where_lookup|].
  cbn. by destruct (t !! k).
Qed.

Lemma update_session_None t cond f : update_session t None cond f = (false, t).
Proof. done. Qed.

Lemma delete_all_lookup {V} (ks : list string) : ∀ (t : gmap string V) k,
  foldl (λ t k, delete k t) t ks !! k = if bool_decide (k ∈ ks) then None else t !! k.
Proof.
  induction ks as [|j ks IH]; intros t k; [done|]. cbn [foldl]. rewrite IH.
  destruct (decide (j = k)) as [->|Hne].
  - rewrite lookup_delete_eq. rewrite (bool_decide_true (k ∈ k :: ks)) by left. by case_bool_decide.
  - rewrite lookup_delete_ne by done. do 2 case_bool_decide; set_solver.
Qed.

