(* ===== verification/AuthSessions.v ===== *)
(** * AuthSessions: operator sessions over the durable table

    Models [SQLiteAdminSessionStore] of [backend/app/auth_state_sqlite.py]:
    the table of [AuthState] and, per process, a cache of the CSRF tokens in
    the clear, which the table does not have.  The store is proved to answer
    as the in-memory store of [Auth] does, which is its specification, on
    every run of the calls the routes make; what only the durable store
    promises, that sessions outlive the process, is a theorem of its own. *)

From S2P Require Import Prelude PyStr Sha256 SqlTable Auth AuthState.
Local Open Scope Z_scope.

Abbreviation AdminSession := Session.AdminSession.

(** ** State *)

(** backend/app/auth_state_sqlite.py [SQLiteAdminSessionStore.__init__] *)
Record session_state : Type := SessionState {
  table : session_table;
  _csrf_token_cache : dict string
}.

(** A process that opens the file starts with an empty cache. *)
Definition restart (st : session_state) : session_state :=
  SessionState (auth_sessions (_initialize_schema (Some (AuthDb (table st) ∅ None)))) [].

Definition with_table (t : session_table) (st : session_state) : session_state :=
  SessionState t (_csrf_token_cache st).
Definition cached (i token : string) (st : session_state) : session_state :=
  SessionState (table st) (dict_set i token (_csrf_token_cache st)).
Definition uncached (i : string) (st : session_state) : session_state :=
  SessionState (table st) (dict_pop i (_csrf_token_cache st)).

(** ** Operations *)

(** backend/app/auth_state_sqlite.py [SQLiteAdminSessionStore._now] *)
Definition _now (current : datetime) : datetime :=
  if aware current then as_utc current else replace_utc current.

(** The tokens the factory gives, each with the reading of its test. *)
(** backend/app/auth_state_sqlite.py [SQLiteAdminSessionStore._unique_session_id] *)
Definition _unique_session_id (t : session_table) (tries : list (string * datetime)) (fallback : string)
    : string :=
  default fallback
    (fst <$> first_match (λ try, bool_decide (get_session t (Some try.1) (_timestamp (_now try.2)) = None))
               (take 5 tries)).

(** backend/app/auth_state_sqlite.py [SQLiteAdminSessionStore.create_admin_session] *)
Definition create_admin_session (ttl_seconds : Z) (st : session_state) (raw_now : datetime)
    (tries : list (string * datetime)) (fallback csrf operator mode : string)
    (organization role' : option string) : outcome (AdminSession * session_state) :=
  let now := _now raw_now in
  let i := _unique_session_id (table st) tries fallback in
  '(persisted, t) ← create_session (table st) i csrf operator mode organization role'
                      (plus_seconds now (Z.max 1 ttl_seconds)) now None None;
  Ok (Session.Session i csrf (as_operator_id persisted) (as_created_at persisted) (as_expires_at persisted)
        (as_auth_mode persisted) (as_organization_id persisted) (as_role persisted),
      cached i csrf (with_table t st)).

(** backend/app/auth_state_sqlite.py [SQLiteAdminSessionStore.get_session] *)
Definition get_session (st : session_state) (raw_now : datetime) (i : option string)
    : option AdminSession * session_state :=
  match i with
  | None => (None, st)
  | Some i =>
      if negb (truthy i) then (None, st) else
      match get_session (table st) (Some i) (_timestamp (_now raw_now)) with
      | None => (None, uncached i st)
      | Some p =>
          (Some (Session.Session i (default "" (dict_get i (_csrf_token_cache st))) (as_operator_id p)
                   (as_created_at p) (as_expires_at p) (as_auth_mode p) (as_organization_id p) (as_role p)), st)
      end
  end.

(** backend/app/auth_state_sqlite.py [SQLiteAdminSessionStore.is_session_valid] *)
Definition is_session_valid (st : session_state) (raw_now : datetime) (s : option AdminSession) : bool :=
  match s with
  | None => false
  | Some s =>
      match AuthState.get_session (table st) (Some (Session.session_id s)) (_timestamp (_now raw_now)) with
      | None => false
      | Some p =>
          String.eqb (as_operator_id p) (Session.operator_id s)
          && String.eqb (as_auth_mode p) (Session.auth_mode s)
          && datetime_eqb (as_expires_at p) (Session.expires_at s)
          && bool_decide (as_organization_id p = Session.organization_id s)
          && bool_decide (as_role p = Session.role s)
      end
  end.

(** backend/app/auth_state_sqlite.py [SQLiteAdminSessionStore.invalidate_session] *)
Definition invalidate_session (st : session_state) (raw_now : datetime) (i : option string)
    : bool * session_state :=
  match i with
  | None => (false, st)
  | Some i =>
      if negb (truthy i) then (false, st) else
      let '(changed, t) := revoke_session (table st) (Some i) (Some "logout") (_timestamp (_now raw_now)) in
      (changed, uncached i (with_table t st))
  end.

(** backend/app/auth_state_sqlite.py [SQLiteAdminSessionStore.purge_expired_sessions] *)
Definition purge_expired_sessions (st : session_state) (raw_now : datetime) : nat * session_state :=
  let '(n, t) := cleanup_sessions (table st) (_timestamp (_now raw_now)) 0 in (n, with_table t st).

(** backend/app/auth_state_sqlite.py [SQLiteAdminSessionStore.invalidate_operator_sessions] *)
Definition invalidate_operator_sessions (st : session_state) (raw_now : datetime) (operator : string)
    : outcome (nat * session_state) :=
  '(n, t) ← revoke_operator_sessions (table st) operator (Some "membership_revoked") (_timestamp (_now raw_now));
  Ok (n, with_table t st).

(** backend/app/auth_state_sqlite.py [SQLiteAdminSessionStore.invalidate_operator_organization_sessions] *)
Definition invalidate_operator_organization_sessions (st : session_state) (raw_now : datetime)
    (operator organization : string) : outcome (nat * session_state) :=
  '(n, t) ← revoke_operator_organization_sessions (table st) operator organization
              (Some "membership_revoked") (_timestamp (_now raw_now));
  Ok (n, with_table t st).

(** backend/app/auth_state_sqlite.py [SQLiteAdminSessionStore.csrf_token_for_session] *)
Definition csrf_token_for_session (st : session_state) (raw_now : datetime) (fresh : string)
    (s : option AdminSession) : outcome (option string * session_state) :=
  match s with
  | None => Ok (None, st)
  | Some s =>
      let i := Session.session_id s in
      let cached_token := dict_get i (_csrf_token_cache st) in
      if truthy_opt cached_token then Ok (cached_token, st) else
      '(changed, t) ← update_session_csrf_token (table st) (Some i) fresh (_timestamp (_now raw_now));
      Ok (if (changed : bool) then (Some fresh, cached i fresh (with_table t st)) else (None, with_table t st))
  end.

(** [if cached_token and hmac.compare_digest(cached_token, csrf_token)]. *)
Definition matches_cache (st : session_state) (i token : string) : outcome bool :=
  match dict_get i (_csrf_token_cache st) with
  | Some c => if truthy c then compare_digest c token else Ok false
  | None => Ok false
  end.

(** backend/app/auth_state_sqlite.py [SQLiteAdminSessionStore.verify_csrf_token] *)
Definition verify_csrf_token (st : session_state) (raw_now : datetime) (i token : option string)
    : outcome (bool * session_state) :=
  match i, token with
  | Some i, Some token =>
      if negb (truthy i) || negb (truthy token) then Ok (false, st) else
      hit ← matches_cache st i token;
      if (hit : bool) then Ok (true, st) else
      if negb (verify_session_csrf_token (table st) (Some i) (Some token) (_timestamp (_now raw_now)))
      then Ok (false, st)
      else Ok (true, cached i token st)
  | _, _ => Ok (false, st)
  end.

(** ** Both stores, called by the routes *)

(** The calls the routes make, with the readings of the clock and the values
    of the random source.  A request opens its session and then checks the
    CSRF header it sends. *)
Inductive call : Type :=
| SignIn (now : datetime) (id : string) (tries : list (string * datetime)) (csrf operator mode : string)
         (organization role' : option string)
| Request (opened checked : datetime) (i header : option string)
| SignOut (now : datetime) (i : option string)
| Purge (clock : nat → datetime) (now : datetime)
| SignOutOperator (now : datetime) (operator : string).

(** What the caller sees.  The counts the routes only log are left out. *)
Inductive answer : Type :=
| Signed (s : AdminSession)
| Opened (s : option (AdminSession * outcome bool))
| Done.

(** The in-memory store of [Auth], with the routes' fallbacks for what it
    lacks. *)
Definition memory_call (ttl_seconds : Z) (d : Session.session_store) (c : call)
    : answer * Session.session_store :=
  match c with
  | SignIn now id tries csrf operator mode org r =>
      let '(s, d') := Session.create_admin_session ttl_seconds d now (id :: tries.*1) id csrf operator mode org r in
      (Signed s, d')
  | Request opened _ i header =>
      let '(s, d') := Session.get_session d opened i in
      (Opened ((λ s, (s, Session.verify_admin_csrf_token header (Some s))) <$> s), d')
  | SignOut _ i => (Done, (Session.invalidate_session d i).2)
  | Purge clock _ => (Done, (Session.purge_expired_sessions d clock).2)
  | SignOutOperator _ operator => (Done, (Session.invalidate_operator_sessions d operator).2)
  end.

Definition durable_call (ttl_seconds : Z) (st : session_state) (c : call) : outcome (answer * session_state) :=
  match c with
  | SignIn now id tries csrf operator mode org r =>
      '(s, st') ← create_admin_session ttl_seconds st now ((id, now) :: tries) id csrf operator mode org r;
      Ok (Signed s, st')
  | Request opened checked i header =>
      let '(s, st1) := get_session st opened i in
      match s with
      | None => Ok (Opened None, st1)
      | Some s =>
          match verify_csrf_token st1 checked (Some (Session.session_id s)) header with
          | Ok (b, st2) => Ok (Opened (Some (s, Ok b)), st2)
          | Err e => Ok (Opened (Some (s, Err e)), st1)
          end
      end
  | SignOut now i => Ok (Done, (invalidate_session st now i).2)
  | Purge _ now => Ok (Done, (purge_expired_sessions st now).2)
  | SignOutOperator now operator => '(_, st') ← invalidate_operator_sessions st now operator; Ok (Done, st')
  end.

Fixpoint memory_run (ttl_seconds : Z) (d : Session.session_store) (cs : list call) : list answer :=
  match cs with
  | [] => []
  | c :: cs' => let '(a, d') := memory_call ttl_seconds d c in a :: memory_run ttl_seconds d' cs'
  end.

Fixpoint durable_run (ttl_seconds : Z) (st : session_state) (cs : list call) : outcome (list answer) :=
  match cs with
  | [] => Ok []
  | c :: cs' =>
      '(a, st') ← durable_call ttl_seconds st c;
      rest ← durable_run ttl_seconds st' cs';
      Ok (a :: rest)
  end.

(** ** The durable store implements the in-memory one *)

Lemma timestamp_now d : _timestamp (_now d) = reading d.
Proof. apply timestamp_utc. Qed.

Lemma timestamp_plus d n : _timestamp (plus_seconds (_now d) n) = reading d + seconds n.
Proof. unfold _timestamp, plus_seconds, _now, reading, utc, instant. destruct (aware d); cbn; lia. Qed.

(** The session a row gives under its identifier and CSRF token. *)
Definition row_session (i csrf : string) (row : session_row) : AdminSession :=
  Session.Session i csrf (operator_id row) (_datetime_from_timestamp (created_at row))
    (_datetime_from_timestamp (expires_at row)) (auth_mode row) (organization_id row) (role row).

(** What a store answers for an identifier at a time. *)
Definition memory_view (t : Z) (d : Session.session_store) (i : string) : option AdminSession :=
  s ← dict_get i d; if t <? instant (Session.expires_at s) then Some s else None.
Definition durable_view (t : Z) (st : session_state) (i : string) : option AdminSession :=
  row ← table st !! hash_session_id i;
  if live t row then Some (row_session i (default "" (dict_get i (_csrf_token_cache st))) row) else None.

Lemma live_later t t' row : t <= t' → live t' row = live t row && negb (expires_at row <=? t').
Proof.
  intros Ht. unfold live. destruct (bool_decide _); cbn; [|done].
  destruct (Z.leb_spec (expires_at row) t), (Z.leb_spec (expires_at row) t'); try done; lia.
Qed.

Lemma get_session_spec st now i :
  get_session st now i =
  match i with
  | Some i => if truthy i then
      match durable_view (reading now) st i with
      | Some s => (Some s, st)
      | None => (None, uncached i st)
      end else (None, st)
  | None => (None, st)
  end.
Proof.
  unfold get_session, durable_view, AuthState.get_session, live_row. destruct i as [i|]; [|done].
  cbn. destruct (truthy i); cbn; [|done]. rewrite timestamp_now.
  destruct (table st !! hash_session_id i) as [row|]; cbn; [|done]. by destruct (live _ row).
Qed.

Section Refine.
Context (ttl_seconds : Z) (ids tokens : list string).
Context (Hids : ∀ a b, a ∈ ids → b ∈ ids → hash_session_id a = hash_session_id b → a = b).
Context (Htokens : ∀ a b, a ∈ tokens → b ∈ tokens → hash_csrf_token a = hash_csrf_token b → a = b).

(** The identifiers and tokens of a call are among those without a
    collision; what the factories and the configuration give is not blank. *)
Definition call_ok (c : call) : Prop :=
  match c with
  | SignIn _ id _ csrf operator mode _ _ =>
      id ∈ ids ∧ truthy id = true ∧ csrf ∈ tokens ∧ truthy csrf = true
      ∧ truthy operator = true ∧ truthy mode = true
  | Request _ _ i header => (∀ x, i = Some x → x ∈ ids) ∧ (∀ x, header = Some x → x ∈ tokens)
  | SignOut _ i => ∀ x, i = Some x → x ∈ ids
  | Purge _ _ => True
  | SignOutOperator _ operator => truthy operator = true
  end.

(** Every reading of the call lies between the two times, in order. *)
Definition readings_in (t : Z) (c : call) (t' : Z) : Prop :=
  match c with
  | SignIn now _ _ _ _ _ _ _ | SignOut now _ | SignOutOperator now _ => t <= reading now <= t'
  | Request opened checked _ _ => t <= reading opened ∧ reading opened <= reading checked <= t'
  | Purge clock now => t <= reading now <= t' ∧ ∀ j, t <= reading (clock j) <= t'
  end.

Definition created (c : call) : list string :=
  match c with SignIn _ id _ _ _ _ _ _ => [id] | _ => [] end.

(** A run of calls: the clock does not go back and the factory never repeats
    an identifier. *)
Inductive run_ok : Z → list string → list call → Prop :=
| run_nil t used : run_ok t used []
| run_cons t t' used c cs :
    call_ok c → readings_in t c t' → (∀ i, i ∈ created c → i ∉ used) →
    run_ok t' (created c ++ used) cs → run_ok t used (c :: cs).

Record related (t : Z) (used : list string) (d : Session.session_store) (st : session_state) : Prop := Related {
  rel_dict : dict_ok d;
  rel_stored : ∀ i s, dict_get i d = Some s → Session.session_id s = i ∧ i ∈ used;
  rel_rows : ∀ i row, i ∈ ids → table st !! hash_session_id i = Some row → i ∈ used;
  rel_view : ∀ i, i ∈ ids → memory_view t d i = durable_view t st i;
  rel_csrf : ∀ i row, i ∈ ids → table st !! hash_session_id i = Some row → live t row = true →
    ∃ csrf, dict_get i (_csrf_token_cache st) = Some csrf ∧ truthy csrf = true ∧ csrf ∈ tokens
            ∧ csrf_token_hash row = hash_csrf_token csrf
}.

Lemma memory_view_later t t' d i : t <= t' →
  memory_view t' d i = s ← memory_view t d i; if t' <? instant (Session.expires_at s) then Some s else None.
Proof.
  intros Ht. unfold memory_view. destruct (dict_get i d) as [s|]; cbn; [|done].
  destruct (Z.ltb_spec t (instant (Session.expires_at s))); cbn; [done|].
  by destruct (Z.ltb_spec t' (instant (Session.expires_at s))); [lia|].
Qed.

Lemma durable_view_later t t' st i : t <= t' →
  durable_view t' st i = s ← durable_view t st i; if t' <? instant (Session.expires_at s) then Some s else None.
Proof.
  intros Ht. unfold durable_view. destruct (table st !! hash_session_id i) as [row|]; cbn; [|done].
  rewrite (live_later t t') by done. destruct (live t row); cbn; [|done].
  unfold instant at 1. cbn. rewrite Z.sub_0_r.
  destruct (Z.leb_spec (expires_at row) t'), (Z.ltb_spec t' (expires_at row)); try done; lia.
Qed.

Lemma related_later t t' used d st : t <= t' → related t used d st → related t' used d st.
Proof.
  intros Ht [Hd Hs Hr Hv Hc]. split; try done.
  - intros i Hi. by rewrite (memory_view_later t t'), (durable_view_later t t'), Hv.
  - intros i row Hi Hrow Hl. apply (Hc i row Hi Hrow). rewrite (live_later t t') in Hl by done. by to_prop.
Qed.

Lemma related_empty t : related t [] [] (SessionState ∅ []).
Proof. split; try done; [constructor|..]; intros i ? ? H; by rewrite lookup_empty in H. Qed.

(** *** One call *)

Lemma view_dict_set t (d : Session.session_store) i s j :
  memory_view t (dict_set i s d) j =
  if String.eqb i j then (if t <? instant (Session.expires_at s) then Some s else None) else memory_view t d j.
Proof. unfold memory_view. rewrite dict_get_set. by destruct (String.eqb i j). Qed.

Lemma view_popped t (d : Session.session_store) i j :
  memory_view t (dict_pop i d) j = if String.eqb i j then None else memory_view t d j.
Proof. unfold memory_view. rewrite dict_get_pop. by destruct (String.eqb i j). Qed.

Lemma sign_in_related t used d st now id tries csrf operator mode org r :
  related t used d st → t = reading now → id ∉ used → call_ok (SignIn now id tries csrf operator mode org r) →
  ∃ s d' st', memory_call ttl_seconds d (SignIn now id tries csrf operator mode org r) = (Signed s, d')
    ∧ durable_call ttl_seconds st (SignIn now id tries csrf operator mode org r) = Ok (Signed s, st')
    ∧ related t (id :: used) d' st'.
Proof.
  intros [Hd Hs Hr Hv Hc] -> Hid (Hi & Hti & Htok & Htcsrf & Hop & Hmode).
  assert (Hrow : table st !! hash_session_id id = None).
  { destruct (table st !! hash_session_id id) eqn:E; [|done]. by apply Hr in E. }
  assert (Hget : dict_get id d = None).
  { destruct (dict_get id d) eqn:E; [|done]. by apply Hs in E as [_ E]. }
  set (row := SessionRow (hash_csrf_token csrf) operator mode (reading now) (reading now)
                (reading now + seconds (Z.max 1 ttl_seconds)) None None None None org r).
  exists (row_session id csrf row), (dict_set id (row_session id csrf row) d),
    (cached id csrf (with_table (<[hash_session_id id := row]> (table st)) st)).
  assert (Hmem : Session.Session id csrf operator (Auth._now now)
            (plus_seconds (Auth._now now) (Session.ttl ttl_seconds)) mode org r = row_session id csrf row).
  { unfold row_session, row. cbn. by rewrite from_timestamp_utc, from_timestamp_plus_utc. }
  split; [|split].
  - cbn [memory_call]. unfold Session.create_admin_session, Session._unique_session_id. cbn [take first_match].
    rewrite Hget. cbn [is_Some]. rewrite bool_decide_false by (by intros [? ?]). cbn [negb default].
    by rewrite <- Hmem.
  - cbn [durable_call]. unfold create_admin_session, _unique_session_id. cbn [take first_match fst snd].
    unfold AuthState.get_session, live_row. cbn. rewrite Hti. cbn. rewrite Hrow. cbn.
    unfold create_session, _require_non_blank. rewrite Hti, Htcsrf, Hop, Hmode. cbn.
    rewrite !timestamp_now, timestamp_plus. done.
  - split.
    + by apply dict_set_ok.
    + intros i s. rewrite dict_get_set. destruct (String.eqb_spec id i) as [<-|].
      * intros [= <-]. split; [done|left].
      * intros [? ?]%Hs. split; [done|by right].
    + intros i row' Hii. cbn. destruct (decide (hash_session_id id = hash_session_id i)) as [E|E].
      * apply Hids in E as ->; try done. left.
      * rewrite lookup_insert_ne by done. right. by eapply Hr.
    + intros i Hii. rewrite view_dict_set. unfold durable_view. cbn.
      destruct (String.eqb_spec id i) as [<-|Hne].
      * rewrite lookup_insert_eq. cbn. rewrite dict_get_set, String.eqb_refl. unfold live. cbn.
        unfold instant. cbn. rewrite Z.sub_0_r.
        destruct (Z.leb_spec (reading now + seconds (Z.max 1 ttl_seconds)) (reading now)),
          (Z.ltb_spec (reading now) (reading now + seconds (Z.max 1 ttl_seconds))); try done; lia.
      * rewrite lookup_insert_ne by (intros E; apply Hne; by apply Hids).
        rewrite dict_get_set. destruct (String.eqb_spec id i); [done|]. by rewrite Hv.
    + intros i row' Hii. cbn. rewrite dict_get_set. destruct (String.eqb_spec id i) as [<-|Hne].
      * rewrite lookup_insert_eq. intros [= <-] _. exists csrf. by repeat split.
      * rewrite lookup_insert_ne by (intros E; apply Hne; by apply Hids). by apply Hc.
Qed.

(** Dropping an identifier from the dictionary and the cache, when the table
    opens nothing for it. *)
Lemma drop_related t used d st i (keep : bool) :
  related t used d st → i ∈ ids → durable_view t st i = None →
  related t used (if keep then d else dict_pop i d) (uncached i st).
Proof.
  intros [Hd Hs Hr Hv Hc] Hi Hnone. split.
  - destruct keep; [done|by apply dict_pop_ok].
  - intros j s. destruct keep; [apply Hs|]. rewrite dict_get_pop. case_match; [done|apply Hs].
  - apply Hr.
  - intros j Hj. assert (Hm : memory_view t (if keep then d else dict_pop i d) j = memory_view t d j).
    { destruct keep; [done|]. rewrite view_popped. destruct (String.eqb_spec i j) as [<-|]; [|done].
      by rewrite Hv. }
    rewrite Hm, Hv by done. unfold durable_view. cbn. rewrite dict_get_pop.
    destruct (String.eqb_spec i j) as [<-|]; [|done].
    unfold durable_view in Hnone. destruct (table st !! _) as [row|]; [|done]. cbn in *.
    by destruct (live t row).
  - intros j row Hj Hrow Hl. cbn in Hrow |- *. rewrite dict_get_pop. destruct (String.eqb_spec i j) as [<-|].
    + unfold durable_view in Hnone. rewrite Hrow in Hnone. cbn in Hnone. by rewrite Hl in Hnone.
    + by apply (Hc j row).
Qed.

Lemma compare_digest_comm a b : compare_digest a b = compare_digest b a.
Proof. unfold compare_digest. by rewrite andb_comm, String.eqb_sym. Qed.

(** The CSRF check of a session that opens. *)
Lemma verify_related t used d st checked i s header :
  related t used d st → i ∈ ids → truthy i = true → durable_view t st i = Some s →
  (∀ x, header = Some x → x ∈ tokens) →
  verify_csrf_token st checked (Some i) header
  = b ← Session.verify_admin_csrf_token header (Some s); Ok (b, st).
Proof.
  intros [Hd Hs Hr Hv Hc] Hi Hti Hview Hh. unfold durable_view in Hview.
  destruct (table st !! hash_session_id i) as [row|] eqn:Hrow; [|done]. cbn in Hview.
  destruct (live t row) eqn:Hl; [|done]. apply (inj Some) in Hview as <-.
  destruct (Hc i row Hi Hrow Hl) as (csrf & Hcache & Htcsrf & Hin & Hhash).
  unfold verify_csrf_token, Session.verify_admin_csrf_token. destruct header as [token|]; [|done].
  rewrite Hti. cbn [negb orb]. destruct (truthy token) eqn:Htt; [|done]. cbn [negb].
  unfold matches_cache. rewrite Hcache, Htcsrf. cbn [default Session.csrf_token row_session].
  change (id csrf) with csrf. rewrite compare_digest_comm. unfold compare_digest.
  destruct (negb (all_chars _ _ && _)); [done|]. cbn [mbind outcome_bind].
  destruct (String.eqb_spec token csrf) as [->|Hne]; [done|].
  assert (Hno : verify_session_csrf_token (table st) (Some i) (Some token) (_timestamp (_now checked)) = false).
  { unfold verify_session_csrf_token, live_row. cbn. rewrite Hti. cbn. rewrite Hrow. cbn.
    destruct (live (_timestamp _) row); [|done]. cbn iota beta. rewrite Htt, Hhash. cbn [andb]. apply String.eqb_neq. intros E. apply Hne.
    symmetry. by apply Htokens; [|apply Hh|]. }
  by rewrite Hno.
Qed.

Lemma get_session_memory t used d st now i :
  related t used d st → t = reading now → i ∈ ids →
  Session.get_session d now (Some i)
  = if truthy i then
      match durable_view t st i with
      | Some s => (Some s, d)
      | None => (None, match dict_get i d with Some _ => dict_pop i d | None => d end)
      end
    else (None, d).
Proof.
  intros [Hd Hs Hr Hv Hc] -> Hi. unfold Session.get_session. destruct (truthy i); [|done]. cbn [negb].
  rewrite <- Hv by done. unfold memory_view. destruct (dict_get i d) as [s|] eqn:Hg; [|done]. cbn [mbind option_bind].
  unfold Session.is_session_valid. destruct (Hs _ _ Hg) as [-> _]. rewrite Hg, session_eqb_refl. cbn [andb].
  change (instant (Auth._now now)) with (reading now).
  by destruct (reading now <? instant (Session.expires_at s)).
Qed.

Lemma view_truthy_only i : truthy i = false → i = "".
Proof. unfold truthy. intros H%negb_false_iff. by apply String.eqb_eq. Qed.

(** A table whose rows open no session they did not open before, and the
    dictionary that forgets the same identifiers. *)
Lemma revoke_related t used d st d' st' :
  related t used d st → dict_ok d' →
  (∀ i s, dict_get i d' = Some s → dict_get i d = Some s) →
  _csrf_token_cache st' = _csrf_token_cache st →
  (∀ k row', table st' !! k = Some row' → ∃ row, table st !! k = Some row ∧ (live t row' = true → row' = row)) →
  (∀ i, i ∈ ids → memory_view t d' i = durable_view t st' i) →
  related t used d' st'.
Proof.
  intros [Hd Hs Hr Hv Hc] Hd' Hsub Hcache Hrows Hview. split; try done.
  - intros i s Hi%Hsub. by apply Hs.
  - intros i row' Hi (row & Hrow & _)%Hrows. by eapply Hr.
  - intros i row' Hi Hrow Hl. rewrite Hcache. apply Hrows in Hrow as (row & Hrow & Heq).
    rewrite Heq in * by done. by apply (Hc i row).
Qed.

Lemma live_revoked t now_ts reason row : live t (revoked now_ts reason row) = false.
Proof. done. Qed.

(** The rows an [UPDATE] revokes are those of the sessions the dictionary
    drops. *)
Lemma update_related t used d st d' (p : string → session_row → bool) now_ts reason :
  related t used d st → dict_ok d' →
  (∀ i s, dict_get i d' = Some s → dict_get i d = Some s) →
  (∀ i row, i ∈ ids → table st !! hash_session_id i = Some row → live t row = true →
     memory_view t d' i = if p (hash_session_id i) row then None else memory_view t d i) →
  related t used d' (with_table (update_where p (revoked now_ts reason) (table st)) st).
Proof.
  intros Hrel Hd' Hsub Hview. eapply revoke_related; try done.
  - intros k row'. cbn. rewrite update_where_lookup. destruct (table st !! k) as [row|]; [|done].
    intros [= <-]. exists row. split; [done|]. by destruct (p k row).
  - intros i Hi. pose proof (rel_view _ _ _ _ Hrel i Hi) as Hv. unfold durable_view in *. cbn.
    rewrite update_where_lookup. destruct (table st !! hash_session_id i) as [row|] eqn:Hrow; cbn in *.
    + destruct (live t row) eqn:Hl.
      * rewrite (Hview i row) by done. destruct (p _ row); [by rewrite live_revoked|]. by rewrite Hl, Hv.
      * assert (Hn : live t (if p (hash_session_id i) row then revoked now_ts reason row else row) = false)
          by (by destruct (p _ row)).
        rewrite Hn. unfold memory_view in *. destruct (dict_get i d') as [s|] eqn:E; [|done].
        apply Hsub in E. by rewrite E in Hv.
    + unfold memory_view in *. destruct (dict_get i d') as [s|] eqn:E; [|done].
      apply Hsub in E. by rewrite E in Hv.
Qed.

Lemma session_of_view t used d st i row s :
  related t used d st → i ∈ ids → table st !! hash_session_id i = Some row → live t row = true →
  dict_get i d = Some s → s = row_session i (Session.csrf_token s) row.
Proof.
  intros Hrel Hi Hrow Hl Hg. pose proof (rel_view _ _ _ _ Hrel i Hi) as Hv.
  unfold memory_view, durable_view in Hv. rewrite Hg, Hrow in Hv. cbn in Hv. rewrite Hl in Hv.
  destruct (_ <? _); [|done]. by injection Hv as ->.
Qed.

Lemma sign_out_operator_related t used d st operator :
  related t used d st → truthy operator = true →
  ∀ now, ∃ n st', invalidate_operator_sessions st now operator = Ok (n, st')
    ∧ related t used (Session.invalidate_operator_sessions d operator).2 st'.
Proof.
  intros Hrel Hop now. unfold invalidate_operator_sessions, revoke_operator_sessions, _require_non_blank.
  rewrite Hop. cbn. eexists _, _. split; [done|]. pose proof (rel_dict _ _ _ _ Hrel) as Hd.
  assert (Hget : ∀ i, dict_get i (Session.invalidate_operator_sessions d operator).2
                 = s ← dict_get i d; if bool_decide (Session.operator_id s = operator) then None else Some s).
  { intros i. unfold Session.invalidate_operator_sessions. cbn [snd]. rewrite pop_all_get.
    set (ks := (filter _ d).*1). destruct (dict_get i d) as [s|] eqn:Hg; cbn [mbind option_bind].
    - case_bool_decide as Ho.
      + replace (mem i ks) with true; [done|]. symmetry. apply mem_true, list_elem_of_fmap.
        exists (i, s). split; [done|]. apply list_elem_of_filter. split; [done|by apply dict_get_elem].
      + destruct (mem i ks) eqn:Hm; [|done].
        apply mem_true, list_elem_of_fmap in Hm as ([i' s'] & -> & [Ho' Hin]%list_elem_of_filter).
        cbn in *. apply dict_get_elem in Hin; [|done]. congruence.
    - by destruct (mem i ks). }
  apply (update_related _ _ d); [done|by apply pop_all_ok|..].
  - intros i s. rewrite Hget. destruct (dict_get i d); [|done]. cbn. by case_bool_decide.
  - intros i row Hi Hrow Hl. unfold memory_view. rewrite Hget.
    destruct (dict_get i d) as [s|] eqn:Hg; cbn; [|by case_match].
    pose proof (session_of_view _ _ _ _ _ _ _ Hrel Hi Hrow Hl Hg) as Hs.
    assert (Ho : operator_id row = Session.operator_id s) by (by rewrite Hs).
    assert (Hn : bool_decide (revoked_at row = None) = true) by (unfold live in Hl; by apply andb_true_iff in Hl as [? _]).
    rewrite Ho, Hn, andb_true_r.
    destruct (String.eqb_spec (Session.operator_id s) operator) as [E|E];
      [by rewrite (bool_decide_true _ E)|by rewrite (bool_decide_false _ E)].
Qed.

Lemma sign_out_related t used d st now i :
  related t used d st → (∀ x, i = Some x → x ∈ ids) →
  related t used (Session.invalidate_session d i).2 (invalidate_session st now i).2.
Proof.
  intros Hrel Hi. destruct i as [i|]; [|done]. specialize (Hi i eq_refl).
  unfold invalidate_session, Session.invalidate_session.
  destruct (truthy i) eqn:Ht; cbn [negb snd]; [|done].
  unfold revoke_session, update_session. rewrite Ht. cbn [negb snd fst].
  set (p := λ (k : string) (row : session_row), String.eqb k (hash_session_id i) && bool_decide (revoked_at row = None)).
  assert (H : related t used (dict_pop i d)
                (with_table (update_where p (revoked (_timestamp (_now now)) (_safe_reason (Some "logout"))) (table st)) st)).
  { apply (update_related _ _ d); [done|by apply dict_pop_ok, (rel_dict _ _ _ _ Hrel)|..].
    - intros j s. rewrite dict_get_pop. by case_match.
    - intros j row Hj Hrow Hl. rewrite view_popped. unfold p.
      assert (Hn : bool_decide (revoked_at row = None) = true) by (unfold live in Hl; by apply andb_true_iff in Hl as [? _]).
      rewrite Hn, andb_true_r. destruct (String.eqb_spec i j) as [->|Hne]; [by rewrite String.eqb_refl|].
      destruct (String.eqb_spec (hash_session_id j) (hash_session_id i)) as [E|]; [|done].
      by apply Hids in E as ->. }
  apply (drop_related _ _ _ _ i true) in H; [exact H|done|].
  rewrite <- (rel_view _ _ _ _ H) by done. by rewrite view_popped, String.eqb_refl.
Qed.

Lemma expired_ids_elem (d : Session.session_store) (clock : nat → datetime) i :
  dict_ok d → (∀ i s, dict_get i d = Some s → Session.session_id s = i) →
  i ∈ Session.expired_ids d clock →
  ∃ j s, dict_get i d = Some s ∧ instant (Session.expires_at s) <= reading (clock j).
Proof.
  intros Hd Hid. unfold Session.expired_ids. rewrite concat_elem.
  intros (l & (j & kv & -> & Hkv)%elem_of_lookup_imap & Hl).
  destruct kv as [k s]. apply list_elem_of_lookup_2, dict_get_elem in Hkv as Hg; [|done].
  cbn in *. destruct (negb _) eqn:E; [|by apply elem_of_nil in Hl].
  apply list_elem_of_singleton in Hl as ->. exists j, s. split; [done|].
  to_prop. unfold Session.is_session_valid in E. rewrite (Hid _ _ Hg), Hg, session_eqb_refl in E.
  cbn in E. by apply Z.ltb_ge in E.
Qed.

Lemma purge_related t used d st clock now :
  related t used d st → (∀ j, reading (clock j) <= t) → reading now <= t →
  related t used (Session.purge_expired_sessions d clock).2 (purge_expired_sessions st now).2.
Proof.
  intros Hrel Hclock Hnow. pose proof (rel_dict _ _ _ _ Hrel) as Hd.
  unfold purge_expired_sessions, cleanup_sessions, Session.purge_expired_sessions. cbn [snd].
  set (ks := Session.expired_ids d clock).
  assert (Hks : ∀ i, i ∈ ks → memory_view t d i = None).
  { intros i (j & s & Hg & Hle)%expired_ids_elem; [|done|intros ? ? Hs; by apply (rel_stored _ _ _ _ Hrel) in Hs as [? _]].
    unfold memory_view. rewrite Hg. cbn. specialize (Hclock j). destruct (Z.ltb_spec t (instant (Session.expires_at s))); [lia|done]. }
  eapply revoke_related; [done|by apply pop_all_ok| |done|..].
  - intros i s. rewrite pop_all_get. by case_match.
  - intros k row'. cbn. intros [Hrow _]%delete_where_Some. eauto.
  - intros i Hi. rewrite timestamp_now. trans (memory_view t d i).
    + unfold memory_view at 1. rewrite pop_all_get. destruct (mem i ks) eqn:E; [|done].
      symmetry. by apply Hks, mem_true.
    + rewrite (rel_view _ _ _ _ Hrel i Hi). unfold durable_view. cbn [table with_table _csrf_token_cache].
      rewrite delete_where_lookup. destruct (table st !! hash_session_id i) as [row|]; cbn; [|done].
      destruct ((expires_at row <=? reading now) || _) eqn:E; [|done]. cbn. unfold live.
      apply orb_true_iff in E as [E|E].
      * to_prop. destruct (Z.leb_spec (expires_at row) t); [by rewrite andb_false_r|lia].
      * by destruct (revoked_at row).
Qed.

(** Opening and checking a request. *)
Lemma request_related t used d st opened checked i header :
  related t used d st → t = reading opened → call_ok (Request opened checked i header) →
  ∃ a d' st', memory_call ttl_seconds d (Request opened checked i header) = (a, d')
    ∧ durable_call ttl_seconds st (Request opened checked i header) = Ok (a, st') ∧ related t used d' st'.
Proof.
  intros Hrel Ht [Hi Hh]. unfold memory_call, durable_call. destruct i as [i|]; [|by eexists _, _, _].
  specialize (Hi i eq_refl). rewrite (get_session_memory t used d st) by done.
  rewrite get_session_spec, <- Ht. destruct (truthy i) eqn:Hti; [|by eexists _, _, _].
  destruct (durable_view t st i) as [s|] eqn:Hv.
  - assert (Hs : Session.session_id s = i).
    { unfold durable_view in Hv. destruct (table st !! _); [|done]. cbn in Hv. destruct (live _ _); [|done].
      by injection Hv as <-. }
    rewrite Hs, (verify_related t used d st checked i s header) by done.
    exists (Opened (Some (s, Session.verify_admin_csrf_token header (Some s)))), d, st.
    split; [done|]. split; [|done]. by destruct (Session.verify_admin_csrf_token header (Some s)).
  - eexists _, _, _. split; [done|]. split; [done|]. cbn [fmap option_fmap option_map].
    destruct (dict_get i d); [by apply (drop_related _ _ _ _ i false)|by apply (drop_related _ _ _ _ i true)].
Qed.

Lemma call_related t t' used d st c :
  related t used d st → call_ok c → readings_in t c t' → (∀ i, i ∈ created c → i ∉ used) →
  ∃ a d' st', memory_call ttl_seconds d c = (a, d') ∧ durable_call ttl_seconds st c = Ok (a, st')
              ∧ related t' (created c ++ used) d' st'.
Proof.
  intros Hrel Hok Hin Hfresh.
  destruct c as [now i tries csrf operator mode org r|opened checked i header|now i|clock now|now operator]; cbn in Hin.
  - destruct (sign_in_related (reading now) used d st now i tries csrf operator mode org r) as (s & d' & st' & H1 & H2 & H3);
      [apply (related_later t); [lia|done]|done|apply Hfresh; left|done|].
    exists (Signed s), d', st'. split; [done|]. split; [done|]. eapply related_later; [|exact H3]; lia.
  - destruct (request_related (reading opened) used d st opened checked i header) as (a & d' & st' & H1 & H2 & H3);
      [apply (related_later t); [lia|done]|done|done|].
    exists a, d', st'. split; [done|]. split; [done|]. eapply related_later; [|exact H3]. lia.
  - eexists _, _, _. split; [done|]. split; [done|]. apply (related_later t); [lia|]. by apply sign_out_related.
  - eexists _, _, _. split; [done|]. split; [done|]. apply purge_related; [|apply Hin..].
    apply (related_later t); [lia|done].
  - destruct (sign_out_operator_related t used d st operator Hrel Hok now) as (n & st' & H1 & H2).
    eexists _, _, st'. split; [done|]. split; [cbn; by rewrite H1|]. apply (related_later t); [lia|done].
Qed.

Lemma run_related t used d st cs :
  related t used d st → run_ok t used cs → durable_run ttl_seconds st cs = Ok (memory_run ttl_seconds d cs).
Proof.
  intros Hrel Hrun. revert d st Hrel. induction Hrun as [|t t' used c cs Hok Hin Hfresh Hrun IH]; intros d st Hrel; [done|].
  destruct (call_related t t' used d st c) as (a & d' & st' & Hm & Hdur & Hrel'); try done.
  cbn. rewrite Hm, Hdur. cbn. by rewrite (IH d' st' Hrel').
Qed.

(** C19: The durable session store refines the in-memory one. On every run of
    sign-ins, requests (which open their session and check their CSRF
    header), sign-outs, sign-outs of an operator and purges, from empty
    stores, with a clock that does not go back and identifiers the factory
    does not repeat, the store over SQLite never raises and gives the caller
    what the in-memory store gives: the same sessions, open for the same
    requests, and the same verdict on every header. SHA-256 is assumed free
    of collisions on the identifiers and tokens of the run. *)
Theorem durable_sessions_refine t cs :
  run_ok t [] cs → durable_run ttl_seconds (SessionState ∅ []) cs = Ok (memory_run ttl_seconds [] cs).
Proof. intros Hrun. eapply run_related; [apply (related_empty t)|done]. Qed.
End Refine.

(** ** Sessions outlive the process *)

Lemma create_row ttl_seconds st now tries fallback csrf operator mode org r s st' :
  create_admin_session ttl_seconds st now tries fallback csrf operator mode org r = Ok (s, st') →
  ∃ row, table st' = <[hash_session_id (Session.session_id s) := row]> (table st)
    ∧ s = row_session (Session.session_id s) csrf row ∧ truthy (Session.session_id s) = true
    ∧ csrf_token_hash row = hash_csrf_token csrf ∧ revoked_at row = None
    ∧ operator_id row = operator ∧ organization_id row = org ∧ role row = r
    ∧ expires_at row = reading now + seconds (Z.max 1 ttl_seconds)
    ∧ _csrf_token_cache st' = dict_set (Session.session_id s) csrf (_csrf_token_cache st).
Proof.
  unfold create_admin_session, create_session, _require_non_blank. set (i := _unique_session_id _ _ _).
  destruct (truthy i) eqn:Hi; [|done]. destruct (truthy csrf); [|done].
  destruct (truthy operator); [|done]. destruct (truthy mode); [|done]. cbn. intros [= <- <-]. cbn.
  eexists. split; [done|]. split; [done|]. repeat (split; [done|]). split; [|done].
  apply timestamp_plus.
Qed.

(** The check without a cached token, against the digest in the table. *)
Lemma verify_uncached st now i token row :
  dict_get i (_csrf_token_cache st) = None → truthy i = true →
  table st !! hash_session_id i = Some row → live (reading now) row = true →
  verify_csrf_token st now (Some i) (Some token)
  = Ok (if truthy token && String.eqb (csrf_token_hash row) (hash_csrf_token token)
        then (true, cached i token st) else (false, st)).
Proof.
  intros Hc Hi Hrow Hl. unfold verify_csrf_token, matches_cache. rewrite Hi, Hc. cbn [negb orb].
  destruct (truthy token) eqn:Ht; cbn [negb andb]; [|done]. cbn [mbind outcome_bind].
  unfold verify_session_csrf_token, live_row. cbn [mbind option_bind]. rewrite Hi. cbn [negb].
  rewrite Hrow. cbn [mbind option_bind]. rewrite timestamp_now, Hl, Ht. cbn [andb].
  by destruct (String.eqb (csrf_token_hash row) (hash_csrf_token token)).
Qed.

(** Sessions survive a restart. A process that reopens the file before
    the session expires still opens it, with everything but the CSRF token,
    which the table does not hold; the digest decides, so the client's token
    keeps working and any other (without a SHA-256 collision) does not. Asking
    for a token then replaces it, durably: from the next process on, only the
    new one is accepted. *)
Theorem session_survives_restart ttl_seconds st now tries fallback csrf operator mode org r s st1 later :
  create_admin_session ttl_seconds st now tries fallback csrf operator mode org r = Ok (s, st1) →
  reading later < reading now + seconds (Z.max 1 ttl_seconds) →
  let i := Session.session_id s in
  let reopened := Session.Session i "" operator (Session.created_at s) (Session.expires_at s)
                    (Session.auth_mode s) org r in
  get_session (restart st1) later (Some i) = (Some reopened, restart st1)
  ∧ (∀ token, ∃ st2, verify_csrf_token (restart st1) later (Some i) (Some token)
        = Ok (truthy token && String.eqb (hash_csrf_token csrf) (hash_csrf_token token), st2))
  ∧ (∀ fresh, truthy fresh = true → ∃ st2,
        csrf_token_for_session (restart st1) later fresh (Some reopened) = Ok (Some fresh, st2)
        ∧ ∀ token, ∃ st3, verify_csrf_token (restart st2) later (Some i) (Some token)
            = Ok (truthy token && String.eqb (hash_csrf_token fresh) (hash_csrf_token token), st3)).
Proof.
  intros Hcreate Hlater i reopened.
  destruct (create_row _ _ _ _ _ _ _ _ _ _ _ _ Hcreate)
    as (row & Ht & Hs & Hi & Hcsrf & Hrev & Hop & Horg & Hrole & Hexp & _). fold i in Ht, Hi, Hs.
  assert (Hrow : table (restart st1) !! hash_session_id i = Some row) by (cbn; by rewrite Ht, lookup_insert_eq).
  assert (Hl : live (reading later) row = true).
  { unfold live. rewrite Hrev, bool_decide_true by done. apply negb_true_iff, Z.leb_gt. lia. }
  assert (Hre : reopened = row_session i "" row).
  { unfold reopened. rewrite Hs. cbn. by rewrite <- Hop, <- Horg, <- Hrole. }
  split; [|split].
  - rewrite get_session_spec, Hi. unfold durable_view. rewrite Hrow. cbn. by rewrite Hl, Hre.
  - intros token. rewrite (verify_uncached _ _ _ _ row), Hcsrf by done.
    destruct (truthy token && _); eauto.
  - intros fresh Hf. unfold csrf_token_for_session, update_session_csrf_token. cbn [_csrf_token_cache restart dict_get truthy_opt from_option].
    cbn [Session.session_id reopened]. rewrite Hi. unfold _require_non_blank. rewrite Hf. cbn [negb mbind outcome_bind].
    set (f := seen _ _). destruct (update_session (table (restart st1)) (Some i) _ f) as [changed t] eqn:Hu.
    assert (Hchanged : changed = true).
    { unfold update_session in Hu. rewrite Hi in Hu. cbn [negb] in Hu. injection Hu as <- _.
      apply bool_decide_eq_true, row_count_pos. exists (hash_session_id i), row. split; [done|].
      rewrite String.eqb_refl, timestamp_now. by rewrite Hl. }
    rewrite Hchanged. eexists. split; [done|]. intros token.
    assert (Hrow' : table (restart (cached i fresh (with_table t (restart st1)))) !! hash_session_id i = Some (f row)).
    { cbn. pose proof (update_session_lookup (table (restart st1)) i (live (_timestamp (_now later))) f (hash_session_id i)) as H.
      rewrite Hu in H. cbn [snd] in H. rewrite H, Hrow. cbn [fmap option_fmap option_map]. by rewrite Hi, String.eqb_refl, timestamp_now, Hl. }
    rewrite (verify_uncached _ _ _ _ (f row)) by (done || exact Hl).
    change (csrf_token_hash (f row)) with (hash_csrf_token fresh). destruct (truthy token && _); eauto.
Qed.

(** ** Concrete runs *)
Module Sample_run.
Definition at_sec (n : Z) : datetime := DT (seconds n) (Some 0).
Definition calls : list call :=
  [SignIn (at_sec 10) "sid-a" [] "csrf-a" "alice" "self_hosted_single_admin" None None;
   Request (at_sec 20) (at_sec 20) (Some "sid-a") (Some "csrf-a");
   Purge (λ _, at_sec 30) (at_sec 30);
   SignOutOperator (at_sec 40) "alice";
   Request (at_sec 50) (at_sec 50) (Some "sid-a") (Some "csrf-a");
   SignOut (at_sec 60) (Some "sid-a")].
End Sample_run.
Import Sample_run.

Lemma durable_sessions_refine_witness :
  durable_run 3600 (SessionState ∅ []) calls = Ok (memory_run 3600 [] calls)
  ∧ (memory_run 3600 [] calls) !! 1%nat
    = Some (Opened (Some (Session.Session "sid-a" "csrf-a" "alice" (at_sec 10) (at_sec 3610)
                            "self_hosted_single_admin" None None, Ok true)))
  ∧ (memory_run 3600 [] calls) !! 4%nat = Some (Opened None).
Proof.
  split; [|split; reflexivity].
  apply (durable_sessions_refine 3600 ["sid-a"] ["csrf-a"]) with (t := 0);
    [by intros a b ->%list_elem_of_singleton ->%list_elem_of_singleton
    |by intros a b ->%list_elem_of_singleton ->%list_elem_of_singleton|].
  apply run_cons with (t' := seconds 10); [repeat split; left|split; vm_compute; discriminate|by intros i _ ?%elem_of_nil|].
  apply run_cons with (t' := seconds 20);
    [split; intros x [= <-]; left|repeat split; vm_compute; discriminate|by intros i ?%elem_of_nil|].
  apply run_cons with (t' := seconds 30); [exact I|repeat split; vm_compute; discriminate|by intros i ?%elem_of_nil|].
  apply run_cons with (t' := seconds 40); [reflexivity|split; vm_compute; discriminate|by intros i ?%elem_of_nil|].
  apply run_cons with (t' := seconds 50);
    [split; intros x [= <-]; left|repeat split; vm_compute; discriminate|by intros i ?%elem_of_nil|].
  apply run_cons with (t' := seconds 60);
    [intros x [= <-]; left|split; vm_compute; discriminate|by intros i ?%elem_of_nil|constructor].
Defined.

Lemma session_survives_restart_witness :
  ∃ s st1, create_admin_session 3600 (SessionState ∅ []) (at_sec 10) [("sid-a", at_sec 10)] "sid-b" "csrf-a" "alice"
             "self_hosted_single_admin" None None = Ok (s, st1)
    ∧ (get_session (restart st1) (at_sec 20) (Some "sid-a")).1
      = Some (Session.Session "sid-a" "" "alice" (at_sec 10) (at_sec 3610) "self_hosted_single_admin" None None).
Proof.
  assert (E : create_admin_session 3600 (SessionState ∅ []) (at_sec 10) [("sid-a", at_sec 10)] "sid-b" "csrf-a" "alice"
             "self_hosted_single_admin" None None = Ok (_, _)) by reflexivity.
  eexists _, _. split; [exact E|].
  destruct (session_survives_restart _ _ _ _ _ _ _ _ _ _ _ _ (at_sec 20) E) as [H _]; [vm_compute; reflexivity|].
  exact (f_equal fst H).
Defined.
