(* ===== verification/AuthAttempts.v ===== *)
(** * AuthAttempts: login throttling over the durable table

    Models [SQLiteLoginAttemptStore] of [backend/app/auth_state_sqlite.py]
    and the sign-in route over it.  Below the limit of clients the route
    answers as it does over the in-memory store of [Auth]; above it the two
    differ, and the durable store is the stricter one: it never drops a
    lock. *)

From S2P Require Import Prelude PyStr Sha256 SqlTable Auth AuthState.
Local Open Scope Z_scope.

Abbreviation LoginAttemptRecord := Login.LoginAttemptRecord.
Abbreviation settings := Login.settings.

(** backend/app/auth_state_sqlite.py [SQLiteLoginAttemptStore._client_key] *)
Definition _client_key (client_key : option string) : string :=
  match client_key with
  | None => "unknown"
  | Some k => let normalized := strip k in if truthy normalized then normalized else "unknown"
  end.

(** backend/app/auth_state_sqlite.py [_login_attempt_record_from_sqlite] *)
Definition _login_attempt_record_from_sqlite (client_key : string) (r : SQLiteLoginAttempt)
    : LoginAttemptRecord :=
  Login.Attempt client_key (la_failure_count r) (la_first_failed_at r) (la_last_failed_at r) (la_locked_until r).

(** backend/app/auth_state_sqlite.py [SQLiteLoginAttemptStore._now] *)
Definition _now (current : datetime) : datetime :=
  if aware current then as_utc current else replace_utc current.

(** backend/app/auth_state_sqlite.py [SQLiteLoginAttemptStore.__init__] *)
Definition clamp (window failures lockout keys : Z) : settings :=
  Login.Settings (Z.max 1 window) (Z.max 1 failures) (Z.max 1 lockout) (Z.to_nat (Z.max 1 keys)).

(** A request, and the reading of the inner purge. *)
Abbreviation durable_request := (request * datetime)%type.

Section Store.
Context (c : settings) (rank : string → Z).

(** backend/app/auth_state_sqlite.py [SQLiteLoginAttemptStore._is_expired] *)
Definition _is_expired (r : SQLiteLoginAttempt) (now : datetime) : bool :=
  match la_locked_until r with
  | Some u => instant u <=? instant now
  | None => instant (plus_seconds (la_last_failed_at r) (Login.window_seconds c)) <=? instant now
  end.

(** backend/app/auth_state_sqlite.py [SQLiteLoginAttemptStore.purge_expired] *)
Definition purge_expired (t : attempt_table) (raw_now : datetime) : nat * attempt_table :=
  cleanup_login_attempts t (_timestamp (_now raw_now)) (Login.window_seconds c).

(** backend/app/auth_state_sqlite.py [SQLiteLoginAttemptStore.record_failure] *)
Definition record_failure (t : attempt_table) (raw_now : datetime) (client_key : option string)
    : LoginAttemptRecord * attempt_table :=
  let key := _client_key client_key in
  let now := _timestamp (_now raw_now) in
  let '(r, t1) := record_login_failure t (Some key) now (Login.window_seconds c) (Login.max_failures c)
                    (Login.lockout_seconds c) in
  (_login_attempt_record_from_sqlite key r,
   (prune_login_attempts rank t1 (Z.of_nat (Login.max_keys c)) now).2).

(** [at_purge] is the reading of the purge an expired record sets off. *)
(** backend/app/auth_state_sqlite.py [SQLiteLoginAttemptStore.is_locked] *)
Definition is_locked (t : attempt_table) (raw_now at_purge : datetime) (client_key : option string)
    : bool * attempt_table :=
  match get_login_attempt t (Some (_client_key client_key)) with
  | None => (false, t)
  | Some r =>
      let now := _now raw_now in
      if _is_expired r now then (false, (purge_expired t at_purge).2)
      else (from_option (λ u, instant now <? instant u) false (la_locked_until r), t)
  end.

(** backend/app/auth_state_sqlite.py [SQLiteLoginAttemptStore.seconds_until_unlock] *)
Definition seconds_until_unlock (t : attempt_table) (raw_now at_purge : datetime) (client_key : option string)
    : Z * attempt_table :=
  match get_login_attempt t (Some (_client_key client_key)) with
  | None => (0, t)
  | Some r =>
      match la_locked_until r with
      | None => (0, t)
      | Some u =>
          let now := _now raw_now in
          if instant u <=? instant now then (0, (purge_expired t at_purge).2)
          else (Z.max 0 (- ((- (instant u - instant now)) / 1000000)), t)
      end
  end.

(** backend/app/auth_state_sqlite.py [SQLiteLoginAttemptStore.reset_success] *)
Definition reset_success (t : attempt_table) (client_key : option string) : bool * attempt_table :=
  reset_login_attempt t (Some (_client_key client_key)).

(** backend/app/auth_state_sqlite.py [SQLiteLoginAttemptStore.failure_count] *)
Definition failure_count_of (t : attempt_table) (raw_now at_purge : datetime) (client_key : option string)
    : Z * attempt_table :=
  match get_login_attempt t (Some (_client_key client_key)) with
  | None => (0, t)
  | Some r => if _is_expired r (_now raw_now) then (0, (purge_expired t at_purge).2)
              else (la_failure_count r, t)
  end.

(** backend/app/auth_state_sqlite.py [SQLiteLoginAttemptStore.record_count] *)
Definition record_count (t : attempt_table) : nat := count_login_attempts t.

(** The sign-in route over this store; [Login.login] is the same lines over
    the in-memory one.  [at_inner] is the reading of the purge that an expired
    record sets off: at most one of the two calls that may do so does. *)
(** backend/app/main.py 4297-4334 [auth_login] *)
Definition durable_login (t : attempt_table) (q : Login.readings) (at_inner : datetime) (key : option string)
    (credentials_valid : bool) : Login.login_reply * attempt_table :=
  let t1 := (purge_expired t (Login.at_purge q)).2 in
  let '(locked, t2) := is_locked t1 (Login.at_check q) at_inner key in
  if locked then
    let '(retry_after, t3) := seconds_until_unlock t2 (Login.at_retry q) at_inner key in
    (Login.RateLimited (if 0 <? retry_after then Some retry_after else None), t3)
  else if credentials_valid then (Login.Accepted, (reset_success t2 key).2)
  else (Login.InvalidCredentials, (record_failure t2 (Login.at_record q) key).2).

Definition after_durable (t : attempt_table) (q : durable_request) : attempt_table :=
  (durable_login t (at_ q.1) q.2 (request_key q.1) (credentials_valid q.1)).2.

Definition durable_reply (t : attempt_table) (q : durable_request) : Login.login_reply :=
  (durable_login t (at_ q.1) q.2 (request_key q.1) (credentials_valid q.1)).1.

Fixpoint durable_replies (t : attempt_table) (qs : list durable_request) : list Login.login_reply :=
  match qs with
  | [] => []
  | q :: qs' => durable_reply t q :: durable_replies (after_durable t q) qs'
  end.
End Store.

Fixpoint memory_replies (c : settings) (d : Login.attempt_store) (qs : list request) : list Login.login_reply :=
  match qs with
  | [] => []
  | q :: qs' => (Login.login c d (at_ q) (request_key q) (credentials_valid q)).1
                :: memory_replies c (after_login c d q) qs'
  end.

(** ** Lemmas *)

Lemma timestamp_at d : _timestamp (_now d) = reading d.
Proof. apply timestamp_utc. Qed.

Lemma instant_at d : instant (_now d) = reading d.
Proof. done. Qed.

Lemma normalized_client_key k : normalized_key (Some (_client_key k)) = _client_key k.
Proof.
  unfold normalized_key, _client_key. destruct k as [k|]; [|done].
  destruct (truthy (strip k)) eqn:E; [|done]. by rewrite strip_strip, E.
Qed.

(** The digest of a normalized key is the one its row is stored under. *)
Definition key_hash (k : string) : string := _hash_value "client_key" (Some k).

#[local] Arguments key_hash : simpl never.

Lemma hash_client_key_of k : hash_client_key (Some (_client_key k)) = key_hash (_client_key k).
Proof. unfold hash_client_key. by rewrite normalized_client_key. Qed.

Section Props.
Context (c : settings) (rank : string → Z).
Context (Hw : 1 <= Login.window_seconds c) (Hf : 1 <= Login.max_failures c)
        (Hl : 1 <= Login.lockout_seconds c) (Hk : (1 <= Login.max_keys c)%nat).

Lemma is_expired_row row now :
  _is_expired c (_login_attempt_from_row row) now
  = _login_attempt_expired row (instant now) (Login.window_seconds c).
Proof.
  unfold _is_expired, _login_attempt_expired, _login_attempt_from_row. cbn.
  destruct (locked_until row); cbn; [by rewrite instant_from_timestamp|].
  by rewrite instant_plus_seconds, instant_from_timestamp.
Qed.

Lemma purge_lookup t now h :
  (purge_expired c t now).2 !! h
  = row ← t !! h; if _login_attempt_expired row (reading now) (Login.window_seconds c) then None else Some row.
Proof.
  unfold purge_expired, cleanup_login_attempts. cbn [snd]. rewrite delete_where_lookup, timestamp_at.
  by rewrite Z.max_r by lia.
Qed.

(** *** Pruning *)

Lemma prunable_elem t now n h :
  h ∈ prunable rank t now n → ∃ row, t !! h = Some row ∧ unlocked now h row = true.
Proof.
  intros Hh. assert (Hin : h ∈ (merge_sort (least_recent rank) (map_to_list (select_where (unlocked now) t))).*1).
  { by eapply sublist_subseteq; [apply sublist_take|]. }
  apply list_elem_of_fmap in Hin as ([k row] & -> & Hin). rewrite merge_sort_Permutation in Hin.
  apply elem_of_map_to_list, select_where_lookup in Hin as [? ?]. by exists row.
Qed.

Lemma prune_lookup t max now h :
  (prune_login_attempts rank t max now).2 !! h = t !! h
  ∨ ((prune_login_attempts rank t max now).2 !! h = None ∧ ∃ row, t !! h = Some row ∧ unlocked now h row = true).
Proof.
  unfold prune_login_attempts. destruct (_ <=? _)%nat; [by left|]. cbn [snd].
  rewrite delete_all_lookup. case_bool_decide as Hin; [|by left]. right. split; [done|]. by eapply prunable_elem.
Qed.

Lemma prune_small t max now :
  (size t <= Z.to_nat (Z.max 1 max))%nat → (prune_login_attempts rank t max now).2 = t.
Proof. intros Hs. unfold prune_login_attempts, count_login_attempts. by rewrite (proj2 (Nat.leb_le _ _)). Qed.

(** *** Locks last *)

Definition locked_row (t : attempt_table) (h : string) (u : Z) : Prop :=
  ∃ row, t !! h = Some row ∧ locked_until row = Some u.

(** Every reading of the request comes before [u]. *)
Definition before (u : Z) (q : durable_request) : Prop :=
  reading (Login.at_purge (at_ q.1)) < u ∧ reading (Login.at_check (at_ q.1)) < u
  ∧ reading (Login.at_retry (at_ q.1)) < u ∧ reading (Login.at_record (at_ q.1)) < u ∧ reading q.2 < u.

Lemma purge_locked t now h u :
  locked_row t h u → reading now < u → locked_row (purge_expired c t now).2 h u.
Proof.
  intros (row & Hrow & Hu) Hn. exists row. split; [|done]. rewrite purge_lookup, Hrow. cbn.
  unfold _login_attempt_expired. rewrite Hu. by destruct (Z.leb_spec u (reading now)); [lia|].
Qed.

Lemma is_locked_keeps t now inner k h u :
  locked_row t h u → reading inner < u → locked_row (is_locked c t now inner k).2 h u.
Proof.
  intros Hr Hn. unfold is_locked. destruct (get_login_attempt _ _); [|done].
  destruct (_is_expired _ _ _); [by apply purge_locked|done].
Qed.

Lemma retry_keeps t now inner k h u :
  locked_row t h u → reading inner < u → locked_row (seconds_until_unlock c t now inner k).2 h u.
Proof.
  intros Hr Hn. unfold seconds_until_unlock. destruct (get_login_attempt _ _) as [r|]; [|done].
  destruct (la_locked_until r); [|done]. destruct (_ <=? _); [by apply purge_locked|done].
Qed.

Lemma prune_keeps t max now h u :
  locked_row t h u → now < u → locked_row (prune_login_attempts rank t max now).2 h u.
Proof.
  intros (row & Hrow & Hu) Hn. exists row. split; [|done].
  destruct (prune_lookup t max now h) as [->|(_ & row' & Hrow' & Hun)]; [done|].
  assert (row' = row) as -> by congruence. unfold unlocked in Hun. rewrite Hu in Hun. cbn in Hun. to_prop. lia.
Qed.

Lemma write_keeps t k now h u w f l :
  locked_row t h u → key_hash (_client_key k) ≠ h →
  locked_row (record_login_failure t (Some (_client_key k)) now w f l).2 h u.
Proof.
  intros (row & Hrow & Hu) Hne. exists row. split; [|done].
  unfold record_login_failure. rewrite hash_client_key_of.
  destruct (t !! key_hash (_client_key k)); [|cbn; by rewrite lookup_insert_ne].
  destruct (_login_attempt_expired _ _ _); [cbn; by rewrite lookup_insert_ne|].
  destruct (from_option _ _ _); [done|cbn; by rewrite lookup_insert_ne].
Qed.

(** A failure that reports a lock leaves it in the table. *)
Lemma record_locks t now k u :
  Login.locked_until (record_failure c rank t now k).1 = Some u →
  reading now < instant u ∧ locked_row (record_failure c rank t now k).2 (key_hash (_client_key k)) (instant u).
Proof.
  unfold record_failure. rewrite timestamp_at.
  set (w := record_login_failure t (Some (_client_key k)) (reading now) (Login.window_seconds c)
              (Login.max_failures c) (Login.lockout_seconds c)).
  assert (H : ∀ u', la_locked_until w.1 = Some u' →
            reading now < instant u' ∧ locked_row w.2 (key_hash (_client_key k)) (instant u')).
  { intros u'. unfold w, record_login_failure. rewrite hash_client_key_of.
    set (h := key_hash (_client_key k)).
    assert (Hfresh : ∀ n first, let row := AttemptRow n first (reading now)
               (if Z.max 1 (Login.max_failures c) <=? n then Some (reading now + seconds (Z.max 1 (Login.lockout_seconds c))) else None)
               (reading now) in
             la_locked_until (_login_attempt_from_row row) = Some u' →
             reading now < instant u' ∧ locked_row (<[h := row]> t) h (instant u')).
    { intros n first row. unfold row. cbn. destruct (_ <=? n); [|done]. cbn. intros [= <-].
      rewrite instant_from_timestamp. split; [unfold seconds; lia|]. eexists. by rewrite lookup_insert_eq. }
    destruct (t !! h) as [row|] eqn:Hrow; [|apply Hfresh].
    destruct (_login_attempt_expired _ _ _); [apply Hfresh|].
    destruct (from_option _ _ _) eqn:E; [|apply Hfresh]. cbn.
    destruct (locked_until row) as [v|] eqn:Hv; [|done]. cbn in *. intros [= <-].
    rewrite instant_from_timestamp. split; [by apply Z.ltb_lt|]. by exists row. }
  destruct w as [r t1]. cbn in *. intros Hu. destruct (H u Hu) as [Hlt Hrow]. split; [done|]. by apply prune_keeps.
Qed.

(** One request: the locked client is refused, and whatever it is the lock
    stays. *)
Lemma durable_login_locked t q k u :
  locked_row t (key_hash k) u → before u q →
  (_client_key (request_key q.1) ≠ k → key_hash (_client_key (request_key q.1)) ≠ key_hash k) →
  locked_row (after_durable c rank t q) (key_hash k) u
  ∧ (_client_key (request_key q.1) = k →
     durable_reply c rank t q
     = Login.RateLimited (Some (- ((- (u - reading (Login.at_retry (at_ q.1)))) / 1000000)))).
Proof.
  intros Hr (Hp & Hc & Hret & Hrec & Hin) Hcoll. unfold after_durable, durable_reply, durable_login.
  pose proof (purge_locked _ _ _ _ Hr Hp) as H1. set (t1 := (purge_expired c t _).2) in *.
  pose proof (is_locked_keeps t1 (Login.at_check (at_ q.1)) q.2 (request_key q.1) _ _ H1 Hin) as H2.
  destruct (decide (_client_key (request_key q.1) = k)) as [Heq|Hne].
  - destruct H1 as (row & Hrow & Hu).
    assert (Hg : get_login_attempt t1 (Some (_client_key (request_key q.1))) = Some (_login_attempt_from_row row))
      by (unfold get_login_attempt; rewrite hash_client_key_of, Heq, Hrow; done).
    assert (E : is_locked c t1 (Login.at_check (at_ q.1)) q.2 (request_key q.1) = (true, t1)).
    { unfold is_locked. rewrite Hg, is_expired_row. unfold _login_attempt_expired. rewrite Hu, instant_at.
      destruct (Z.leb_spec u (reading (Login.at_check (at_ q.1)))); [lia|].
      unfold _login_attempt_from_row. cbn [la_locked_until]. rewrite Hu. cbn.
      rewrite instant_from_timestamp. by destruct (Z.ltb_spec (reading (Login.at_check (at_ q.1))) u); [|lia]. }
    rewrite E. assert (Es : seconds_until_unlock c t1 (Login.at_retry (at_ q.1)) q.2 (request_key q.1)
      = (Z.max 0 (- ((- (u - reading (Login.at_retry (at_ q.1)))) / 1000000)), t1)).
    { unfold seconds_until_unlock. rewrite Hg. unfold _login_attempt_from_row. cbn [la_locked_until]. rewrite Hu. cbn [fmap option_fmap option_map].
      rewrite !instant_from_timestamp, !instant_at. destruct (Z.leb_spec u (reading (Login.at_retry (at_ q.1)))); [lia|done]. }
    rewrite Es. assert (Hpos : 0 < - ((- (u - reading (Login.at_retry (at_ q.1)))) / 1000000)).
    { assert ((- (u - reading (Login.at_retry (at_ q.1)))) / 1000000 < 0) by (apply Z.div_lt_upper_bound; lia). lia. }
    rewrite Z.max_r by lia. rewrite (proj2 (Z.ltb_lt _ _) Hpos). cbn. split; [by exists row|done].
  - split; [|done]. specialize (Hcoll Hne). destruct (is_locked c t1 _ _ _) as [[] t2]; cbn [snd] in H2.
    + pose proof (retry_keeps t2 (Login.at_retry (at_ q.1)) q.2 (request_key q.1) _ _ H2 Hin) as H3.
      by destruct (seconds_until_unlock _ _ _ _ _).
    + destruct (credentials_valid q.1); cbn [snd].
      * unfold reset_success, reset_login_attempt. rewrite hash_client_key_of. destruct H2 as (row & Hrow & Hu).
        exists row. split; [|done]. cbn. by rewrite lookup_delete_ne.
      * unfold record_failure. pose proof (write_keeps t2 (request_key q.1) (_timestamp (_now (Login.at_record (at_ q.1))))
          _ u (Login.window_seconds c) (Login.max_failures c) (Login.lockout_seconds c) H2 Hcoll) as H3.
        destruct (record_login_failure _ _ _ _ _ _) as [r t3]. cbn in *. apply prune_keeps; [done|]. by rewrite timestamp_at.
Qed.

(** The lock holds through any requests before its end. *)
Lemma locked_through k u qs : ∀ t,
  locked_row t (key_hash k) u → Forall (before u) qs →
  Forall (λ q, _client_key (request_key q.1) ≠ k → key_hash (_client_key (request_key q.1)) ≠ key_hash k) qs →
  locked_row (foldl (after_durable c rank) t qs) (key_hash k) u.
Proof.
  induction qs as [|q qs IH]; intros t Hr Hb Hcoll; [done|]. cbn.
  apply Forall_cons in Hb as [Hq Hb]. apply Forall_cons in Hcoll as [Hc Hcoll]. apply IH; [|done..].
  by destruct (durable_login_locked t q k u Hr Hq Hc).
Qed.

(** Past its end the purge drops it. *)
Lemma purge_unlocks t now h u : locked_row t h u → u <= reading now → (purge_expired c t now).2 !! h = None.
Proof.
  intros (row & Hrow & Hu) Hn. unfold purge_expired, cleanup_login_attempts. cbn [snd]. rewrite timestamp_at.
  apply eq_None_not_Some. intros [row' [Hrow' Hp]%delete_where_Some].
  assert (row' = row) as -> by congruence. unfold _login_attempt_expired in Hp. rewrite Hu in Hp. to_prop. lia.
Qed.

(** C20: A lock outlasts any flood. Once a failure locks a client until [u],
    every request of that client before [u] is refused with the seconds left,
    rounded up, whatever requests the other clients make, however many they
    are: pruning the table never drops a lock that holds. (No client's key may
    collide with it under SHA-256.) *)
Theorem lock_outlasts_flood t0 now k0 u qs i q :
  let t := (record_failure c rank t0 now k0).2 in
  Login.locked_until (record_failure c rank t0 now k0).1 = Some u →
  Forall (before (instant u)) qs →
  Forall (λ q, _client_key (request_key q.1) ≠ _client_key k0 →
               key_hash (_client_key (request_key q.1)) ≠ key_hash (_client_key k0)) qs →
  qs !! i = Some q → _client_key (request_key q.1) = _client_key k0 →
  durable_replies c rank t qs !! i
  = Some (Login.RateLimited (Some (- ((- (instant u - reading (Login.at_retry (at_ q.1)))) / 1000000)))).
Proof.
  intros t Hu Hb Hcoll Hi Hkey. apply record_locks in Hu as [_ Hrow]. fold t in Hrow.
  clearbody t. revert t i Hrow Hi. induction Hb as [|q' qs Hq _ IH]; intros t i Hrow Hi; [done|].
  apply Forall_cons in Hcoll as [Hc Hcoll].
  destruct (durable_login_locked t q' (_client_key k0) (instant u) Hrow Hq Hc) as [Hrow' Hreply].
  destruct i as [|i]; cbn.
  - injection Hi as ->. by rewrite Hreply.
  - by apply IH.
Qed.

(** *** Bounded tables *)

#[local] Instance least_recent_total : Total (least_recent rank).
Proof. intros a b. unfold least_recent. lia. Qed.
#[local] Instance least_recent_trans : Transitive (least_recent rank).
Proof. intros a b d. unfold least_recent. lia. Qed.

Lemma delete_all_size {V} (ks : list string) : ∀ (t : gmap string V),
  NoDup ks → (∀ k, k ∈ ks → is_Some (t !! k)) →
  size t = (length ks + size (foldl (λ t k, delete k t) t ks))%nat.
Proof.
  induction ks as [|k ks IH]; intros t Hn Hin; [done|]. apply NoDup_cons in Hn as [Hnk Hn]. cbn.
  rewrite <- (IH (delete k t)); [|done|].
  - pose proof (map_size_delete_Some k t (Hin k ltac:(left))) as H.
    assert (0 < size t)%nat; [|lia]. apply Nat.neq_0_lt_0. rewrite map_size_ne_0_lookup. exists k. apply Hin. left.
  - intros j Hj. rewrite lookup_delete_ne by (by intros ->). apply Hin. by right.
Qed.

(** The rows pruned are the least recent ones without a lock. *)
Lemma prunable_spec t now n :
  let l := select_where (unlocked now) t in
  NoDup (prunable rank t now n)
  ∧ length (prunable rank t now n) = Nat.min n (size l)
  ∧ ∀ h h' row row', h ∈ prunable rank t now n → h' ∉ prunable rank t now n →
      l !! h = Some row → l !! h' = Some row' → updated_at row <= updated_at row'.
Proof.
  intros l. unfold prunable. fold l. set (s := merge_sort (least_recent rank) (map_to_list l)).
  assert (Hp : s ≡ₚ map_to_list l) by apply merge_sort_Permutation.
  assert (Hnd : NoDup s.*1) by (rewrite Hp; apply NoDup_fst_map_to_list).
  split; [eapply sublist_NoDup; [exact Hnd|apply sublist_take]|]. split.
  - by rewrite length_take, length_fmap, Hp, length_map_to_list.
  - intros h h' row row' Hin Hout Hrow Hrow'.
    assert (Hs : StronglySorted (least_recent rank) s) by (apply StronglySorted_merge_sort; apply _).
    rewrite <- (take_drop n s) in Hs. rewrite <- fmap_take in Hin, Hout.
    apply list_elem_of_fmap in Hin as ([h0 row0] & -> & Hin).
    assert (Hrow0 : l !! h0 = Some row0).
    { apply elem_of_map_to_list. rewrite <- Hp. by eapply sublist_subseteq; [apply sublist_take|]. }
    cbn in *. assert (row0 = row) as -> by congruence.
    assert (Hin' : (h', row') ∈ drop n s).
    { apply elem_of_map_to_list in Hrow'. rewrite <- Hp, <- (take_drop n s), elem_of_app in Hrow'.
      destruct Hrow' as [H|H]; [|done]. destruct Hout. apply list_elem_of_fmap. by exists (h', row'). }
    pose proof (StronglySorted_app_1_elem_of _ _ _ _ _ Hs Hin Hin') as [H|H]; cbn in H; lia.
Qed.

(** C38: A lock ends. Once a failure locks a client until [u], and whatever
    requests arrive before [u], the client's own among them, the client's
    first request from [u] on reaches the password check: refused requests do
    not prolong the lock, and no other client can. *)
Theorem lock_ends t0 now k0 u qs q :
  Login.locked_until (record_failure c rank t0 now k0).1 = Some u →
  Forall (before (instant u)) qs →
  Forall (λ q, _client_key (request_key q.1) ≠ _client_key k0 →
               key_hash (_client_key (request_key q.1)) ≠ key_hash (_client_key k0)) qs →
  _client_key (request_key q.1) = _client_key k0 → instant u <= reading (Login.at_purge (at_ q.1)) →
  durable_reply c rank (foldl (after_durable c rank) (record_failure c rank t0 now k0).2 qs) q
  = if credentials_valid q.1 then Login.Accepted else Login.InvalidCredentials.
Proof.
  intros Hu Hb Hcoll Hkey Hlate. apply record_locks in Hu as [_ Hrow].
  pose proof (locked_through _ _ _ _ Hrow Hb Hcoll) as Hend. set (t := foldl _ _ qs) in *. clearbody t.
  unfold durable_reply, durable_login. pose proof (purge_unlocks _ _ _ _ Hend Hlate) as Hnone.
  set (t1 := (purge_expired c t _).2) in *.
  assert (E : is_locked c t1 (Login.at_check (at_ q.1)) q.2 (request_key q.1) = (false, t1)).
  { unfold is_locked, get_login_attempt. by rewrite hash_client_key_of, Hkey, Hnone. }
  rewrite E. by destruct (credentials_valid q.1).
Qed.

(** The table stays bounded, and pruning is fair. After a failure is
    recorded the table has at most [max_keys] rows, or only rows under a lock
    that holds; only rows without such a lock are dropped, each of them
    updated no later than every unlocked row that is kept. *)
Theorem record_failure_bounded t now k :
  let w := (record_login_failure t (Some (_client_key k)) (reading now) (Login.window_seconds c)
              (Login.max_failures c) (Login.lockout_seconds c)).2 in
  let t' := (record_failure c rank t now k).2 in
  ((record_count t' <= Login.max_keys c)%nat ∨ ∀ h row, t' !! h = Some row → unlocked (reading now) h row = false)
  ∧ (∀ h row, w !! h = Some row → t' !! h = None → unlocked (reading now) h row = true)
  ∧ (∀ h h' row row', w !! h = Some row → t' !! h = None → t' !! h' = Some row' →
       unlocked (reading now) h' row' = true → updated_at row <= updated_at row').
Proof.
  intros w t'. assert (Ht' : t' = (prune_login_attempts rank w (Z.of_nat (Login.max_keys c)) (reading now)).2).
  { unfold t', record_failure, w. rewrite timestamp_at. by destruct (record_login_failure _ _ _ _ _ _). }
  clearbody t'. subst t'. unfold prune_login_attempts, record_count, count_login_attempts.
  rewrite Z.max_r, Nat2Z.id by lia. destruct (Nat.leb_spec (size w) (Login.max_keys c)) as [Hs|Hs]; cbn [snd].
  { split; [by left|]. split; [congruence|]. intros h h' row row' H1 H2. congruence. }
  destruct (prunable_spec w (reading now) (size w - Login.max_keys c)) as (Hn & Hlen & Hfair).
  set (ks := prunable rank w (reading now) (size w - Login.max_keys c)) in *.
  assert (Hin : ∀ h, h ∈ ks → ∃ row, w !! h = Some row ∧ unlocked (reading now) h row = true)
    by (intros h; apply prunable_elem).
  assert (Hdel : ∀ h, foldl (λ t k, delete k t) w ks !! h = if bool_decide (h ∈ ks) then None else w !! h)
    by (intros h; apply delete_all_lookup).
  split; [|split].
  - pose proof (delete_all_size ks w Hn) as Hsize.
    assert (Hall : ∀ k, k ∈ ks → is_Some (w !! k)) by (intros h (row & -> & _)%Hin; eauto).
    specialize (Hsize Hall). set (l := select_where (unlocked (reading now)) w) in *.
    destruct (le_lt_dec (size w - Login.max_keys c) (size l)) as [Hle|Hlt]; [left; lia|right].
    intros h row. rewrite Hdel. case_bool_decide as Hh; [done|]. intros Hrow.
    apply not_true_is_false. intros Hun. apply Hh. unfold ks, prunable. fold l.
    rewrite take_ge by (rewrite length_fmap, merge_sort_Permutation, length_map_to_list; lia).
    rewrite merge_sort_Permutation. apply list_elem_of_fmap. exists (h, row). split; [done|].
    by apply elem_of_map_to_list, select_where_lookup.
  - intros h row Hrow. rewrite Hdel. case_bool_decide as Hh; [|congruence].
    apply Hin in Hh as (row' & Hrow' & Hun). intros _. by assert (row' = row) as -> by congruence.
  - intros h h' row row' Hrow. rewrite !Hdel. case_bool_decide as Hh; [|congruence].
    case_bool_decide as Hh'; [done|]. intros _ Hrow' Hun'. apply Hin in Hh as Hh2.
    destruct Hh2 as (row2 & Hrow2 & Hun2). assert (row2 = row) as -> by congruence.
    apply (Hfair h h'); [done..| |]; by apply select_where_lookup.
Qed.

(** *** Below the limit: the in-memory store *)

Section Equivalence.
Context (keys : list string) (Hnodup : NoDup keys) (Hlen : (length keys <= Login.max_keys c)%nat).
Context (Hcoll : ∀ a b, a ∈ keys → b ∈ keys → key_hash a = key_hash b → a = b).

Definition record_of (k : string) (row : attempt_row) : LoginAttemptRecord :=
  _login_attempt_record_from_sqlite k (_login_attempt_from_row row).

Definition unexpired_at (t : Z) (r : LoginAttemptRecord) : bool :=
  negb (Login._is_expired c r (_datetime_from_timestamp t)).

Definition memory_view (t : Z) (d : Login.attempt_store) (k : string) : option LoginAttemptRecord :=
  r ← dict_get k d; if unexpired_at t r then Some r else None.
Definition durable_view (t : Z) (T : attempt_table) (k : string) : option LoginAttemptRecord :=
  row ← T !! key_hash k; if unexpired_at t (record_of k row) then Some (record_of k row) else None.

Record related (t : Z) (d : Login.attempt_store) (T : attempt_table) : Prop := Related {
  rel_memory : store_inv c keys d;
  rel_hashes : ∀ h row, T !! h = Some row → h ∈ key_hash <$> keys;
  rel_view : ∀ k, k ∈ keys → memory_view t d k = durable_view t T k
}.

Lemma expired_at r now : Login._is_expired c r now = negb (unexpired_at (instant now) r).
Proof.
  unfold unexpired_at, Login._is_expired. rewrite negb_involutive.
  destruct (Login.locked_until r); by rewrite instant_from_timestamp.
Qed.

Lemma expired_record k row now :
  _login_attempt_expired row now (Login.window_seconds c) = negb (unexpired_at now (record_of k row)).
Proof.
  unfold unexpired_at. rewrite negb_involutive. unfold Login._is_expired, _login_attempt_expired, record_of. cbn.
  destruct (locked_until row); cbn; rewrite ?instant_plus_seconds, ?instant_from_timestamp; done.
Qed.

Lemma unexpired_later t t' r : t <= t' → unexpired_at t' r = true → unexpired_at t r = true.
Proof.
  unfold unexpired_at, Login._is_expired. intros Ht. destruct (Login.locked_until r);
    rewrite !instant_from_timestamp, !negb_true_iff, !Z.leb_gt; lia.
Qed.

Lemma refilter_later t t' (o : option LoginAttemptRecord) : t <= t' →
  (r ← o; if unexpired_at t' r then Some r else None)
  = r ← (r ← o; if unexpired_at t r then Some r else None); if unexpired_at t' r then Some r else None.
Proof.
  intros Ht. destruct o as [r|]; cbn; [|done]. destruct (unexpired_at t r) eqn:E; cbn; [done|].
  destruct (unexpired_at t' r) eqn:E'; [|done]. by rewrite (unexpired_later t t') in E.
Qed.

Lemma durable_view_alt t T k :
  durable_view t T k = r ← (record_of k <$> T !! key_hash k); if unexpired_at t r then Some r else None.
Proof. unfold durable_view. by destruct (T !! key_hash k). Qed.

Lemma attempts_related_later t t' d T : t <= t' → related t d T → related t' d T.
Proof.
  intros Ht [Hm Hh Hv]. split; try done. intros k Hk0. specialize (Hv k Hk0).
  rewrite durable_view_alt in *. unfold memory_view in *. rewrite (refilter_later t t' (dict_get k d)), (refilter_later t t' (record_of k <$> _)) by done.
  by rewrite Hv.
Qed.

Lemma attempts_related_empty : related 0 [] ∅.
Proof. split; [split; [constructor|done]|intros ? ? H; by rewrite lookup_empty in H|done]. Qed.

(** Both stores may forget what has expired. *)
Lemma related_forget t d T d' T' :
  related t d T → smaller d' d →
  (∀ k r, dict_get k d = Some r → unexpired_at t r = true → dict_get k d' = Some r) →
  (∀ h row, T' !! h = Some row → T !! h = Some row) →
  (∀ k row, T !! key_hash k = Some row → unexpired_at t (record_of k row) = true → T' !! key_hash k = Some row) →
  related t d' T'.
Proof.
  intros [Hm Hh Hv] Hs Hd HT HT'. split.
  - by eapply smaller_inv.
  - eauto.
  - intros k Hk0. transitivity (memory_view t d k); [|rewrite Hv by done].
    + unfold memory_view. destruct (dict_get k d) as [r|] eqn:E; cbn.
      * destruct (unexpired_at t r) eqn:Eu; [rewrite (Hd _ _ E Eu); cbn; by rewrite Eu|].
        destruct (dict_get k d') as [r'|] eqn:E'; [|done]. cbn.
        destruct Hs as [_ Hs]. apply Hs in E'. assert (r' = r) as -> by congruence. by rewrite Eu.
      * destruct (dict_get k d') as [r'|] eqn:E'; [|done]. destruct Hs as [_ Hs]. apply Hs in E'. congruence.
    + unfold durable_view. destruct (T !! key_hash k) as [row|] eqn:E; cbn.
      * destruct (unexpired_at t (record_of k row)) eqn:Eu; [rewrite (HT' _ _ E Eu); cbn; by rewrite Eu|].
        destruct (T' !! key_hash k) as [row'|] eqn:E'; [|done]. cbn.
        apply HT in E'. assert (row' = row) as -> by congruence. by rewrite Eu.
      * destruct (T' !! key_hash k) as [row'|] eqn:E'; [|done]. apply HT in E'. congruence.
Qed.

Lemma purge_durable_keeps t T now :
  reading now <= t →
  (∀ h row, (purge_expired c T now).2 !! h = Some row → T !! h = Some row)
  ∧ (∀ k row, T !! key_hash k = Some row → unexpired_at t (record_of k row) = true →
       (purge_expired c T now).2 !! key_hash k = Some row).
Proof.
  intros Ht. split.
  - intros h row. rewrite purge_lookup. destruct (T !! h); cbn; [|done]. by case_match.
  - intros k row Hrow Hu. rewrite purge_lookup, Hrow. cbn. rewrite (expired_record k).
    by rewrite (unexpired_later _ t) by done.
Qed.

Lemma purge_memory_keeps t d now k r :
  reading now <= t → dict_ok d → dict_get k d = Some r → unexpired_at t r = true →
  dict_get k (Login.purge_expired c d now).2 = Some r.
Proof.
  intros Ht Hd Hg Hu. rewrite purge_get, Hg by done. rewrite expired_at.
  by rewrite (unexpired_later (instant (Auth._now now)) t) by done.
Qed.

Lemma attempts_purge_related t d T now :
  related t d T → t = reading now →
  related t (Login.purge_expired c d now).2 (purge_expired c T now).2.
Proof.
  intros Hrel ->. pose proof (rel_memory _ _ _ Hrel) as [Hd _].
  destruct (purge_durable_keeps (reading now) T now) as [H1 H2]; [done|].
  eapply related_forget; [done|by apply purge_smaller| |done|done].
  intros k r. by apply purge_memory_keeps.
Qed.

Lemma memory_view_get t d k : memory_view t d k = r ← dict_get k d; if unexpired_at t r then Some r else None.
Proof. done. Qed.

Lemma locked_unexpired t r u :
  Login.locked_until r = Some u → unexpired_at t r = (t <? instant u).
Proof.
  intros Hu. unfold unexpired_at, Login._is_expired. rewrite Hu, instant_from_timestamp.
  destruct (Z.leb_spec (instant u) t), (Z.ltb_spec t (instant u)); done || lia.
Qed.

(** The answer of [is_locked], from what has not expired. *)
Definition locked_view (o : option LoginAttemptRecord) : bool :=
  match o with Some r => bool_decide (is_Some (Login.locked_until r)) | None => false end.

Lemma is_locked_memory d now k :
  (Login.is_locked c d now k).1 = locked_view (memory_view (reading now) d (_client_key k)).
Proof.
  unfold Login.is_locked, memory_view. change (Login._client_key k) with (_client_key k).
  destruct (dict_get (_client_key k) d) as [r|]; cbn [mbind option_bind]; [|done].
  destruct (Login.locked_until r) as [u|] eqn:Hu; cbn [fst].
  - rewrite (locked_unexpired _ _ u Hu). change (instant (Auth._now now)) with (reading now).
    destruct (Z.leb_spec (instant u) (reading now)), (Z.ltb_spec (reading now) (instant u)); try lia; cbn; [done|].
    by rewrite Hu, bool_decide_true.
  - destruct (unexpired_at _ r); cbn; [by rewrite Hu|done].
Qed.

Lemma is_locked_durable T now inner k :
  (is_locked c T now inner k).1 = locked_view (durable_view (reading now) T (_client_key k)).
Proof.
  unfold is_locked, durable_view, get_login_attempt. rewrite hash_client_key_of.
  destruct (T !! key_hash (_client_key k)) as [row|]; cbn [fmap option_fmap option_map mbind option_bind]; [|done].
  rewrite is_expired_row, (expired_record (_client_key k)), instant_at.
  destruct (unexpired_at (reading now) (record_of (_client_key k) row)) eqn:E; cbn [negb fst]; [|done].
  unfold locked_view. destruct (Login.locked_until (record_of (_client_key k) row)) as [u|] eqn:Hu.
  - rewrite (locked_unexpired _ _ u Hu) in E. cbn in Hu. rewrite bool_decide_true by done.
    unfold _login_attempt_from_row. cbn. by rewrite Hu.
  - cbn in Hu. unfold _login_attempt_from_row. cbn. by rewrite Hu.
Qed.

(** The state after the test: what had expired may be gone. *)
Lemma is_locked_related t d T now inner k :
  related (reading now) d T → reading now <= t → reading inner <= t →
  related t (Login.is_locked c d now k).2 (is_locked c T now inner k).2.
Proof.
  intros Hrel Ht Hi. pose proof (rel_memory _ _ _ Hrel) as [Hd _].
  eapply related_forget; [by eapply attempts_related_later; [|exact Hrel]|by apply is_locked_smaller|..].
  - intros j r Hg Hu. rewrite is_locked_get, Hg. case_match; [|done]. rewrite expired_at.
    by rewrite (unexpired_later (instant (Auth._now now)) t) by done.
  - unfold is_locked. destruct (get_login_attempt _ _); [|done]. destruct (_is_expired _ _ _); [|done].
    by destruct (purge_durable_keeps t T inner).
  - unfold is_locked. destruct (get_login_attempt _ _); [|done]. destruct (_is_expired _ _ _); [|done].
    by destruct (purge_durable_keeps t T inner).
Qed.

Definition wait_view (t : Z) (o : option LoginAttemptRecord) : Z :=
  match o with
  | Some r => match Login.locked_until r with
              | Some u => Z.max 0 (- ((- (instant u - t)) / 1000000))
              | None => 0
              end
  | None => 0
  end.

Lemma retry_memory d now k :
  (Login.seconds_until_unlock d now k).1 = wait_view (reading now) (memory_view (reading now) d (_client_key k)).
Proof.
  unfold Login.seconds_until_unlock, memory_view. change (Login._client_key k) with (_client_key k).
  destruct (dict_get (_client_key k) d) as [r|]; cbn [mbind option_bind]; [|done].
  destruct (Login.locked_until r) as [u|] eqn:Hu.
  - rewrite (locked_unexpired _ _ u Hu). change (instant (Auth._now now)) with (reading now).
    destruct (Z.leb_spec (instant u) (reading now)), (Z.ltb_spec (reading now) (instant u)); try lia; cbn [fst wait_view]; [done|].
    by rewrite Hu.
  - destruct (unexpired_at _ r); cbn [fst wait_view]; [by rewrite Hu|done].
Qed.

Lemma retry_durable T now inner k :
  (seconds_until_unlock c T now inner k).1 = wait_view (reading now) (durable_view (reading now) T (_client_key k)).
Proof.
  unfold seconds_until_unlock, durable_view, get_login_attempt. rewrite hash_client_key_of.
  destruct (T !! key_hash (_client_key k)) as [row|]; cbn [fmap option_fmap option_map mbind option_bind]; [|done].
  set (rec := record_of (_client_key k) row).
  change (la_locked_until (_login_attempt_from_row row)) with (Login.locked_until rec).
  destruct (Login.locked_until rec) as [u|] eqn:Hu.
  - rewrite (locked_unexpired _ _ u Hu), instant_at.
    destruct (Z.leb_spec (instant u) (reading now)), (Z.ltb_spec (reading now) (instant u)); try lia; cbn [fst wait_view]; [done|].
    by rewrite Hu.
  - destruct (unexpired_at _ rec); cbn [fst wait_view]; [by rewrite Hu|done].
Qed.

Lemma retry_related t d T now inner k :
  related (reading now) d T → reading now <= t → reading inner <= t →
  related t (Login.seconds_until_unlock d now k).2 (seconds_until_unlock c T now inner k).2.
Proof.
  intros Hrel Ht Hi. pose proof (rel_memory _ _ _ Hrel) as [Hd _].
  eapply related_forget; [by eapply attempts_related_later; [|exact Hrel]|by apply retry_smaller|..].
  - intros j r Hg Hu. unfold Login.seconds_until_unlock. destruct (dict_get (Login._client_key k) d) as [r0|] eqn:Hg0; [|done].
    destruct (Login.locked_until r0) as [u|] eqn:Hu0; [|done]. destruct (instant u <=? _) eqn:E; [|done]. cbn [snd].
    rewrite dict_get_pop. destruct (String.eqb_spec (Login._client_key k) j) as [<-|]; [|done].
    assert (r0 = r) as -> by congruence. rewrite (locked_unexpired _ _ _ Hu0) in Hu. to_prop.
    change (instant (Auth._now now)) with (reading now) in E. lia.
  - unfold seconds_until_unlock. destruct (get_login_attempt _ _) as [r|]; [|done]. destruct (la_locked_until r); [|done].
    destruct (_ <=? _); [|done]. by destruct (purge_durable_keeps t T inner).
  - unfold seconds_until_unlock. destruct (get_login_attempt _ _) as [r|]; [|done]. destruct (la_locked_until r); [|done].
    destruct (_ <=? _); [|done]. by destruct (purge_durable_keeps t T inner).
Qed.

(** Replacing one client's record in both stores. *)
Lemma related_update t d T d' T' k :
  related t d T → store_inv c keys d' → k ∈ keys →
  (∀ j, j ≠ k → dict_get j d' = dict_get j d) →
  (∀ h, h ≠ key_hash k → T' !! h = T !! h) →
  memory_view t d' k = durable_view t T' k →
  related t d' T'.
Proof.
  intros [Hm Hh Hv] Hm' Hk0 Hd HT Hview. split; [done|..].
  - intros h row Hrow. destruct (decide (h = key_hash k)) as [->|Hne]; [by apply list_elem_of_fmap_2|].
    rewrite HT in Hrow by done. eauto.
  - intros j Hj. destruct (decide (j = k)) as [->|Hne]; [done|].
    unfold memory_view, durable_view. rewrite Hd, HT; [by apply Hv|by intros E; apply Hne, Hcoll|done].
Qed.

Lemma reset_related t d T k :
  related t d T → _client_key k ∈ keys →
  related t (Login.reset_success d k).2 (reset_success T k).2.
Proof.
  intros Hrel Hk0. pose proof (rel_memory _ _ _ Hrel) as Hm.
  unfold reset_success, reset_login_attempt, Login.reset_success. rewrite hash_client_key_of. cbn [snd].
  change (Login._client_key k) with (_client_key k).
  eapply related_update; [done|eapply smaller_inv; [by apply pop_smaller, Hm|done]|done|..].
  - intros j Hj. rewrite dict_get_pop. by destruct (String.eqb_spec (_client_key k) j); [congruence|].
  - intros h Hh. by rewrite lookup_delete_ne by congruence.
  - unfold memory_view, durable_view. by rewrite dict_get_pop, String.eqb_refl, lookup_delete_eq.
Qed.

Lemma next_record_view k now o :
  Login.next_record c k now o
  = Login.next_record c k now (r ← o; if unexpired_at (instant now) r then Some r else None).
Proof.
  destruct o as [r|]; [|done]. cbn [mbind option_bind]. destruct (unexpired_at (instant now) r) eqn:E; [done|].
  unfold Login.next_record at 1. by rewrite expired_at, E.
Qed.

(** What a failure writes is the record the in-memory store keeps. *)
Lemma record_login_failure_spec T k now :
  ∃ row, (record_login_failure T (Some (_client_key k)) (reading now) (Login.window_seconds c)
            (Login.max_failures c) (Login.lockout_seconds c)).2 = <[key_hash (_client_key k) := row]> T
    ∧ record_of (_client_key k) row
      = Login.next_record c (_client_key k) (utc now) (durable_view (reading now) T (_client_key k)).
Proof.
  unfold record_login_failure. rewrite hash_client_key_of, !Z.max_r by lia. set (key := _client_key k).
  assert (Hwrite : ∀ n first, record_of key (AttemptRow n first (reading now)
      (if Login.max_failures c <=? n then Some (reading now + seconds (Login.lockout_seconds c)) else None) (reading now))
    = Login.Attempt key n (_datetime_from_timestamp first) (utc now)
        (if Login.max_failures c <=? n then Some (plus_seconds (utc now) (Login.lockout_seconds c)) else None)).
  { intros n first. unfold record_of, _login_attempt_record_from_sqlite, _login_attempt_from_row.
    cbn [la_failure_count la_first_failed_at la_last_failed_at la_locked_until
         failure_count first_failed_at last_failed_at locked_until]. rewrite from_timestamp_utc. f_equal.
    destruct (_ <=? n); [|done]. cbn [fmap option_fmap option_map]. by rewrite from_timestamp_plus_utc. }
  unfold durable_view. fold key. destruct (T !! key_hash key) as [row|] eqn:Hrow; cbn [mbind option_bind].
  - rewrite (expired_record key). destruct (unexpired_at (reading now) (record_of key row)) eqn:E; cbn [negb snd].
    + unfold Login.next_record. rewrite expired_at. change (instant (utc now)) with (reading now). rewrite E. cbn [negb].
      assert (Hlock : from_option (λ u, reading now <? u) false (locked_until row)
                      = from_option (λ u, reading now <? instant u) false (Login.locked_until (record_of key row))).
      { cbn. destruct (locked_until row); cbn; [by rewrite instant_from_timestamp|done]. }
      rewrite Hlock. destruct (from_option _ false (Login.locked_until _)); cbn [snd].
      * exists row. by rewrite insert_id.
      * eexists. split; [done|]. by rewrite Hwrite.
    + eexists. split; [done|]. by rewrite Hwrite, from_timestamp_utc.
  - eexists. split; [done|]. by rewrite Hwrite, from_timestamp_utc.
Qed.

(** Every row is a client's, so the table fits. *)
Lemma related_size (T : attempt_table) :
  (∀ h row, T !! h = Some row → h ∈ key_hash <$> keys) → (size T <= Login.max_keys c)%nat.
Proof.
  intros Hh. rewrite <- length_map_to_list, <- (length_fmap fst). etrans; [|exact Hlen].
  rewrite <- (length_fmap key_hash keys). apply submseteq_length, NoDup_submseteq; [apply NoDup_fst_map_to_list|].
  intros h ([h' row] & -> & Hin%elem_of_map_to_list)%list_elem_of_fmap. by eapply Hh.
Qed.

Lemma record_related t d T now k :
  related (reading now) d T → reading now <= t → _client_key k ∈ keys →
  related t (Login.record_failure c d now k).2 (record_failure c rank T now k).2.
Proof.
  intros Hrel Ht Hin. eapply attempts_related_later; [exact Ht|].
  pose proof Hrel as [Hm Hh Hv].
  destruct (record_failure_inv c keys d now k Hm Hnodup Hlen Hin) as [Hmem Hm'].
  destruct (record_login_failure_spec T k now) as (row & HT & Hrow).
  assert (Hdur : (record_failure c rank T now k).2 = <[key_hash (_client_key k) := row]> T).
  { unfold record_failure. rewrite timestamp_at. destruct (record_login_failure _ _ _ _ _ _) as [r T1]. cbn in HT |- *.
    subst T1. apply prune_small. rewrite Z.max_r, Nat2Z.id by lia. apply related_size.
    intros h row' Hrow'. destruct (decide (h = key_hash (_client_key k))) as [->|Hne]; [by apply list_elem_of_fmap_2|].
    rewrite lookup_insert_ne in Hrow' by done. eauto. }
  rewrite Hdur. eapply related_update; [done|done|done|..].
  - intros j Hj. rewrite Hmem, dict_get_set. by destruct (String.eqb_spec (Login._client_key k) j) as [E|]; [destruct Hj|].
  - intros h Hne. by rewrite lookup_insert_ne.
  - unfold memory_view, durable_view. rewrite Hmem, dict_get_set, String.eqb_refl, lookup_insert_eq.
    cbn [mbind option_bind]. rewrite Hrow, <- Hv by done. unfold memory_view.
    by rewrite (next_record_view _ (Auth._now now)).
Qed.

(** *** Requests *)

(** The readings of a request come in the order the route takes them, between
    [t] and [t']. *)
Definition readings_in (t : Z) (q : durable_request) (t' : Z) : Prop :=
  let r := at_ q.1 in
  t <= reading (Login.at_purge r) <= reading (Login.at_check r)
  ∧ reading (Login.at_check r) <= reading (Login.at_retry r) <= t'
  ∧ reading (Login.at_check r) <= reading q.2 <= reading (Login.at_record r)
  ∧ reading (Login.at_record r) <= t'.

Inductive run_ok : Z → list durable_request → Prop :=
| run_nil t : run_ok t []
| run_cons t t' q qs :
    _client_key (request_key q.1) ∈ keys → readings_in t q t' → run_ok t' qs → run_ok t (q :: qs).

Lemma request_step t t' d T q :
  related t d T → _client_key (request_key q.1) ∈ keys → readings_in t q t' →
  (Login.login c d (at_ q.1) (request_key q.1) (credentials_valid q.1)).1 = durable_reply c rank T q
  ∧ related t' (after_login c d q.1) (after_durable c rank T q).
Proof.
  intros Hrel Hin ([Hp1 Hp2] & [Hr1 Hr2] & [Hi1 Hi2] & Hrec).
  unfold durable_reply, after_login, after_durable, Login.login, durable_login.
  set (r := at_ q.1) in *. set (k := request_key q.1) in *.
  assert (H1 : related (reading (Login.at_check r)) (Login.purge_expired c d (Login.at_purge r)).2
                 (purge_expired c T (Login.at_purge r)).2).
  { eapply attempts_related_later; [exact Hp2|]. apply attempts_purge_related; [|done]. by eapply attempts_related_later; [|exact Hrel]. }
  set (d1 := (Login.purge_expired c d _).2) in *. set (T1 := (purge_expired c T _).2) in *.
  pose proof (is_locked_memory d1 (Login.at_check r) k) as Ed.
  pose proof (is_locked_durable T1 (Login.at_check r) q.2 k) as ET.
  rewrite (rel_view _ _ _ H1) in Ed by done. rewrite <- ET in Ed.
  destruct (is_locked c T1 (Login.at_check r) q.2 k) as [b T2] eqn:E2.
  destruct (Login.is_locked c d1 (Login.at_check r) k) as [b' d2] eqn:E1. cbn [fst] in Ed. subst b'.
  destruct b.
  - assert (Hst : related (reading (Login.at_check r)) d2 T2).
    { apply is_locked_true in E1 as [-> _]. unfold is_locked in E2. destruct (get_login_attempt _ _); [|done].
      destruct (_is_expired _ _ _); [done|]. by injection E2 as _ <-. }
    assert (H2 : related (reading (Login.at_retry r)) d2 T2) by (by eapply attempts_related_later; [|exact Hst]).
    pose proof (retry_memory d2 (Login.at_retry r) k) as Rd.
    pose proof (retry_durable T2 (Login.at_retry r) q.2 k) as RT.
    rewrite (rel_view _ _ _ H2) in Rd by done. rewrite <- RT in Rd.
    pose proof (retry_related t' d2 T2 (Login.at_retry r) q.2 k H2) as H3.
    destruct (seconds_until_unlock _ _ _ _ _) as [n T3], (Login.seconds_until_unlock _ _ _) as [n' d3].
    cbn [fst snd] in *. subst n'. split; [done|]. apply H3; lia.
  - assert (H2 : related (reading q.2) d2 T2).
    { pose proof (is_locked_related (reading q.2) d1 T1 (Login.at_check r) q.2 k H1) as H. rewrite E1, E2 in H.
      apply H; lia. }
    destruct (credentials_valid q.1); cbn [fst snd]; (split; [done|]).
    + apply reset_related; [|done]. eapply attempts_related_later; [|exact H2]. lia.
    + apply record_related; [|lia|done]. eapply attempts_related_later; [|exact H2]. lia.
Qed.

(** Below its limit the durable throttle is the in-memory one. On every
    run of sign-in requests, with a clock that does not go back, from at most
    [max_keys] clients (whose keys do not collide under SHA-256), the route
    gives over the durable table exactly the replies it gives over the
    in-memory store: who is let through to the password, who is refused, and
    the seconds each refusal states. *)
Theorem durable_login_equivalent t qs :
  0 <= t → run_ok t qs → durable_replies c rank ∅ qs = memory_replies c [] (fst <$> qs).
Proof.
  intros Ht Hrun. assert (Hrel : related t [] ∅) by (by eapply attempts_related_later; [|apply attempts_related_empty]).
  revert Hrel. generalize ([] : Login.attempt_store) as d. generalize (∅ : attempt_table) as T.
  induction Hrun as [t|t t' q qs Hin Hr Hrun IH]; intros T d Hrel; [done|].
  destruct (request_step t t' d T q Hrel Hin Hr) as [Hreply Hrel']. cbn. rewrite Hreply. f_equal.
  apply IH; [|done]. destruct Hr as (? & ? & ? & ?). lia.
Qed.
End Equivalence.
End Props.

(** ** Concrete runs *)
Module Sample_clients.
Definition at_sec (n : Z) : datetime := DT (seconds n) (Some 0).
Definition one_key : settings := clamp 900 1 600 1.
Definition three_keys : settings := clamp 900 3 600 3.
Definition attempt (n : Z) (key : string) (valid : bool) : durable_request :=
  (Auth.Request (Login.Readings (at_sec n) (at_sec n) (at_sec n) (at_sec n)) (Some key) valid, at_sec n).
Definition no_rank : string → Z := λ _, 0.
End Sample_clients.
Import Sample_clients.

(** A table for one client, flooded by another: the lock stays. *)
Lemma lock_outlasts_flood_witness :
  durable_replies one_key no_rank (record_failure one_key no_rank ∅ (at_sec 1) (Some "a")).2
    [attempt 2 "b" false; attempt 3 " a " true] !! 1%nat
  = Some (Login.RateLimited (Some 598)).
Proof.
  assert (Hw : 1 <= Login.window_seconds one_key) by (vm_compute; discriminate).
  assert (Hf : 1 <= Login.max_failures one_key) by (vm_compute; discriminate).
  assert (Hl : 1 <= Login.lockout_seconds one_key) by (vm_compute; discriminate).
  assert (Hk : (1 <= Login.max_keys one_key)%nat) by (vm_compute; apply le_n).
  rewrite (lock_outlasts_flood one_key no_rank Hw Hk ∅ (at_sec 1) (Some "a") (at_sec 601)
    [attempt 2 "b" false; attempt 3 " a " true] 1 (attempt 3 " a " true)).
  - reflexivity.
  - reflexivity.
  - repeat constructor.
  - constructor; [|constructor; [|constructor]].
    + intros _. apply String.eqb_neq. vm_compute. reflexivity.
    + intros H. destruct H. reflexivity.
  - reflexivity.
  - reflexivity.
Defined.

Lemma lock_ends_witness :
  durable_reply one_key no_rank
    (foldl (after_durable one_key no_rank) (record_failure one_key no_rank ∅ (at_sec 1) (Some "a")).2
       [attempt 2 "b" false; attempt 600 " a " false]) (attempt 601 "a" true)
  = Login.Accepted.
Proof.
  assert (Hw : 1 <= Login.window_seconds one_key) by (vm_compute; discriminate).
  assert (Hf : 1 <= Login.max_failures one_key) by (vm_compute; discriminate).
  assert (Hl : 1 <= Login.lockout_seconds one_key) by (vm_compute; discriminate).
  assert (Hk : (1 <= Login.max_keys one_key)%nat) by (vm_compute; apply le_n).
  apply (lock_ends one_key no_rank Hw Hk ∅ (at_sec 1) (Some "a") (at_sec 601)
    [attempt 2 "b" false; attempt 600 " a " false] (attempt 601 "a" true)).
  - reflexivity.
  - repeat constructor.
  - constructor; [|constructor; [|constructor]].
    + intros _. apply String.eqb_neq. vm_compute. reflexivity.
    + intros H. destruct H. reflexivity.
  - reflexivity.
  - vm_compute. discriminate.
Defined.

Lemma record_failure_bounded_witness :
  let t := (record_failure one_key no_rank ∅ (at_sec 1) (Some "a")).2 in
  (record_count t <= 1)%nat ∨ ∀ h row, t !! h = Some row → unlocked (reading (at_sec 1)) h row = false.
Proof.
  assert (Hw : 1 <= Login.window_seconds one_key) by (vm_compute; discriminate).
  assert (Hf : 1 <= Login.max_failures one_key) by (vm_compute; discriminate).
  assert (Hl : 1 <= Login.lockout_seconds one_key) by (vm_compute; discriminate).
  assert (Hk : (1 <= Login.max_keys one_key)%nat) by (vm_compute; apply le_n).
  exact (proj1 (record_failure_bounded one_key no_rank Hk ∅ (at_sec 1) (Some "a"))).
Defined.

Lemma durable_login_equivalent_witness :
  durable_replies three_keys no_rank ∅
    [attempt 1 "a" false; attempt 2 " a" false; attempt 3 "a" false; attempt 4 "a" true]
  = [Login.InvalidCredentials; Login.InvalidCredentials; Login.InvalidCredentials; Login.RateLimited (Some 599)].
Proof.
  assert (Hw : 1 <= Login.window_seconds three_keys) by (vm_compute; discriminate).
  assert (Hf : 1 <= Login.max_failures three_keys) by (vm_compute; discriminate).
  assert (Hl : 1 <= Login.lockout_seconds three_keys) by (vm_compute; discriminate).
  assert (Hk : (1 <= Login.max_keys three_keys)%nat) by (vm_compute; lia).
  rewrite (durable_login_equivalent three_keys no_rank Hw Hf Hl Hk ["a"]) with (t := 0).
  - vm_compute. reflexivity.
  - apply NoDup_singleton.
  - vm_compute. lia.
  - by intros a b ->%list_elem_of_singleton ->%list_elem_of_singleton.
  - lia.
  - apply run_cons with (t' := seconds 1); [left|vm_compute; intuition discriminate|].
    apply run_cons with (t' := seconds 2); [left|vm_compute; intuition discriminate|].
    apply run_cons with (t' := seconds 3); [left|vm_compute; intuition discriminate|].
    apply run_cons with (t' := seconds 4); [left|vm_compute; intuition discriminate|constructor].
Defined.
