(* ===== verification/SessionBackend.v ===== *)
(** * SessionBackend: the session store behind the routes

    The routes of [backend/app/main.py] call whichever session store the
    settings choose: the in-memory one of [Auth] or the one over SQLite of
    [AuthSessions].  [SessionStore] is what they ask of it and
    [SessionLaws] what they rely on; both stores have an instance, and so has
    the union the application keeps.  The theorems of [RequestGate] and
    [TeamAccess] are proved against the laws. *)

From S2P Require Import Prelude PyStr Sha256 SqlTable Auth AuthState AuthSessions.
Local Open Scope Z_scope.

(** What a sign-in supplies besides the clock: the tokens the factory gives
    (each with the reading of its test, for the store that reads one), the
    last one, and the CSRF token. *)
Record tokens : Type := Tokens {
  candidates : list (string * datetime);
  last_token : string;
  fresh_csrf : string
}.

(** Who a session acts for. *)
Record identity : Type := Identity {
  operator : string;
  mode : string;
  organization : option string;
  session_role : option string
}.

Definition identity_of (s : AdminSession) : identity :=
  Identity (Session.operator_id s) (Session.auth_mode s) (Session.organization_id s) (Session.role s).

(** ** Interface *)

Class SessionStore (S : Type) : Type := {
  store_create : Z → S → datetime → tokens → identity → outcome (AdminSession * S);
  store_get : S → datetime → option string → option AdminSession * S;
  store_invalidate : S → datetime → option string → S;
  store_verify_csrf : S → datetime → AdminSession → option string → outcome (bool * S);
  store_csrf_token : S → datetime → string → AdminSession → outcome (option string * S);
  store_sign_out : S → datetime → string → string → outcome S
}.

(** [held st i who until]: the store holds under [i] a session of [who] that
    nothing has ended yet; [slot st i] is the key it is under. *)
Class SessionLaws (S : Type) `{SessionStore S} : Type := {
  slot : S → string → string;
  held : S → string → identity → Z → Prop;
  held_slot st i j who u : slot st i = slot st j → held st i who u → held st j who u;
  open_held st now i s st' : store_get st now i = (Some s, st') →
    st' = st ∧ ∃ i', i = Some i' ∧ truthy i' = true ∧ held st i' (identity_of s) (instant (Session.expires_at s))
                     ∧ reading now < instant (Session.expires_at s);
  get_held st now i j who u : held (store_get st now i).2 j who u → held st j who u;
  invalidate_held st now i j who u : held (store_invalidate st now i) j who u →
    held st j who u ∧ (∀ i', i = Some i' → truthy i' = true → slot st j ≠ slot st i');
  verify_held st now s header b st' j who u :
    store_verify_csrf st now s header = Ok (b, st') → held st' j who u → held st j who u;
  token_held st now fresh s t st' j who u :
    store_csrf_token st now fresh s = Ok (t, st') → held st' j who u → held st j who u;
  create_held ttl st now w who s st' j who' u : store_create ttl st now w who = Ok (s, st') →
    identity_of s = who ∧ instant (Session.expires_at s) = reading now + seconds (Z.max 1 ttl)
    ∧ (held st' j who' u → held st j who' u ∨ (slot st j = slot st (Session.session_id s) ∧ who' = who));
  sign_out_held st now user org st' j who u : store_sign_out st now user org = Ok st' → held st' j who u →
    held st j who u ∧ (operator who = user → organization who ≠ Some org);
  created_open ttl st now w who s st' later checked fresh : store_create ttl st now w who = Ok (s, st') →
    truthy (Session.session_id s) = true → all_chars (between 0 127) (fresh_csrf w) = true →
    truthy (fresh_csrf w) = true → reading later < instant (Session.expires_at s) →
    ∃ s', store_get st' later (Some (Session.session_id s)) = (Some s', st') ∧ identity_of s' = who
      ∧ Session.session_id s' = Session.session_id s
      ∧ store_csrf_token st' checked fresh s' = Ok (Some (fresh_csrf w), st')
      ∧ store_verify_csrf st' checked s' (Some (fresh_csrf w)) = Ok (true, st')
}.
#[global] Hint Mode SessionLaws ! - : typeclass_instances.

(** ** The in-memory store *)

(** It keeps the CSRF token in the session ([getattr] finds none of the
    methods the durable store adds), and signs an operator out everywhere. *)
#[export] Instance memory_store : SessionStore Session.session_store := {
  store_create ttl d now w who :=
    Ok (Session.create_admin_session ttl d now (candidates w).*1 (last_token w) (fresh_csrf w)
          (operator who) (mode who) (organization who) (session_role who));
  store_get := Session.get_session;
  store_invalidate d _ i := (Session.invalidate_session d i).2;
  store_verify_csrf d _ s header := b ← Session.verify_admin_csrf_token header (Some s); Ok (b, d);
  store_csrf_token d _ _ s := Ok (Some (Session.csrf_token s), d);
  store_sign_out d _ user _ := Ok (Session.invalidate_operator_sessions d user).2
}.

Lemma dict_get_in {V} i (v : V) (d : dict V) : dict_get i d = Some v → (i, v) ∈ d.
Proof.
  induction d as [|[k w] d IH]; [done|]. cbn [dict_get].
  destruct (String.eqb k i) eqn:E; [apply String.eqb_eq in E as ->|]; intros H.
  - injection H as ->. left.
  - right. by apply IH.
Qed.

Definition memory_held (d : Session.session_store) (i : string) (who : identity) (u : Z) : Prop :=
  ∃ s, dict_get i d = Some s ∧ identity_of s = who ∧ instant (Session.expires_at s) = u.

Lemma memory_held_pop d i j who u : memory_held (dict_pop i d) j who u → memory_held d j who u ∧ j ≠ i.
Proof.
  intros (s & Hg & Hs). rewrite dict_get_pop in Hg. destruct (String.eqb_spec i j) as [->|]; [done|].
  split; [by exists s|congruence].
Qed.

#[export] Program Instance memory_laws : SessionLaws Session.session_store := {
  slot _ i := i;
  held := memory_held
}.
Next Obligation. by intros d i j who u ->. Qed.
Next Obligation.
  intros d now [i|] s d'; [|done]. cbn. destruct (truthy i) eqn:Hi; [|done]. cbn [negb].
  destruct (dict_get i d) as [s'|] eqn:Hg; [|done]. cbn. destruct (dict_get (Session.session_id s') d); [|done].
  destruct (_ && _) eqn:Hv; [|done]. cbn. intros [= <- <-]. to_prop. split; [done|]. exists i.
  repeat split; try done. by exists s'.
Qed.
Next Obligation.
  intros d now [i|] j who u; [|done]. cbn. destruct (negb (truthy i)); [done|].
  destruct (dict_get i d); [|done]. destruct (negb _); [|done]. cbn. by intros []%memory_held_pop.
Qed.
Next Obligation.
  intros d now [i|] j who u; [|done]. cbn. destruct (truthy i) eqn:Hi; cbn.
  - intros [Hh Hne]%memory_held_pop. split; [done|]. by intros i' [= <-] _.
  - intros Hh. split; [done|]. intros i' [= <-]. congruence.
Qed.
Next Obligation.
  intros d now s header b d' j who u Hv. cbn [store_verify_csrf memory_store] in Hv.
  by apply bind_ok in Hv as (b' & _ & [= <- <-]).
Qed.
Next Obligation. by intros d now fresh s t d' j who u [= <- <-]. Qed.
Next Obligation.
  intros ttl d now w [op md org r] s d' j who' u [= <- <-]. cbn. split; [done|].
  split; [apply instant_plus_seconds|]. intros (s & Hg & Hs & Hu). rewrite dict_get_set in Hg.
  destruct (String.eqb_spec (Session._unique_session_id d (candidates w).*1 (last_token w)) j) as [->|].
  - right. split; [done|]. by injection Hg as <-.
  - left. by exists s.
Qed.
Next Obligation.
  intros d now user org d' j who u [= <-] (s & Hg & Hs & Hu). cbn in Hg. rewrite pop_all_get in Hg.
  destruct (mem j _) eqn:Hm; [done|]. split; [by exists s|]. intros Hop _. apply not_true_iff_false in Hm.
  apply Hm, mem_true, list_elem_of_fmap. exists (j, s). split; [done|]. apply list_elem_of_filter. subst. split; [done|].
  by apply dict_get_in.
Qed.
Next Obligation.
  intros ttl d now w [op md org r] s d' later checked fresh [= <- <-]. cbn. set (i := Session._unique_session_id _ _ _).
  intros Hi Ha Hc Hl. rewrite Hi, dict_get_set, String.eqb_refl. cbn. rewrite dict_get_set, String.eqb_refl, session_eqb_refl.
  rewrite (proj2 (Z.ltb_lt _ _)) by exact Hl. cbn. eexists. split; [done|]. repeat (split; [done|]).
  rewrite Hc. unfold compare_digest. cbn [Session.csrf_token]. by rewrite Ha, String.eqb_refl.
Qed.

(** ** The durable store *)

#[export] Instance durable_store : SessionStore session_state := {
  store_create ttl st now w who :=
    create_admin_session ttl st now (candidates w) (last_token w) (fresh_csrf w)
      (operator who) (mode who) (organization who) (session_role who);
  store_get := get_session;
  store_invalidate st now i := (invalidate_session st now i).2;
  store_verify_csrf st now s header := verify_csrf_token st now (Some (Session.session_id s)) header;
  store_csrf_token st now fresh s := csrf_token_for_session st now fresh (Some s);
  store_sign_out st now user org := '(_, st') ← invalidate_operator_organization_sessions st now user org; Ok st'
}.

Definition row_identity (row : session_row) : identity :=
  Identity (operator_id row) (auth_mode row) (AuthState.organization_id row) (role row).

Definition durable_held (st : session_state) (i : string) (who : identity) (u : Z) : Prop :=
  ∃ row, table st !! hash_session_id i = Some row ∧ revoked_at row = None ∧ row_identity row = who ∧ expires_at row = u.

(** A row an [UPDATE] leaves unrevoked was so, and the update kept who it is
    for. *)
Lemma updated_held (T T' : session_table) (c : string → session_row → bool) f cache cache' j who u :
  (∀ k, T' !! k = (λ row, if c k row then f row else row) <$> T !! k) →
  (∀ row, row_identity (f row) = row_identity row ∧ expires_at (f row) = expires_at row) →
  (∀ row, revoked_at (f row) = None → revoked_at row = None) →
  durable_held (SessionState T' cache') j who u → durable_held (SessionState T cache) j who u.
Proof.
  intros HT Hsame Hrev (row & Hrow & Hr & Hi & Hu). cbn in Hrow. rewrite HT in Hrow.
  destruct (T !! hash_session_id j) as [row0|] eqn:H0; [|done]. cbn in Hrow. injection Hrow as <-.
  exists row0. split; [done|]. destruct (c _ _); [|done]. destruct (Hsame row0) as [E1 E2].
  rewrite <-E1, <-E2. repeat split; try done. by apply Hrev.
Qed.

Lemma durable_cache T cache cache' j who u :
  durable_held (SessionState T cache) j who u → durable_held (SessionState T cache') j who u.
Proof. done. Qed.

Lemma create_mode ttl st now tries fallback csrf op md org r s st' :
  create_admin_session ttl st now tries fallback csrf op md org r = Ok (s, st') → Session.auth_mode s = md.
Proof.
  unfold create_admin_session, create_session, _require_non_blank. set (i := _unique_session_id _ _ _).
  destruct (truthy i); [|done]. destruct (truthy csrf); [|done]. destruct (truthy op); [|done].
  destruct (truthy md); [|done]. by intros [= <- <-].
Qed.

#[export] Program Instance durable_laws : SessionLaws session_state := {
  slot _ := hash_session_id;
  held := durable_held
}.
Next Obligation. intros st i j who u E (row & Hrow & H). exists row. by rewrite <-E. Qed.
Next Obligation.
  intros st now i s st' Hg. cbn in Hg. rewrite get_session_spec in Hg.
  destruct i as [i|]; [|done]. destruct (truthy i) eqn:Hi; [|done].
  unfold durable_view in Hg. destruct (table st !! hash_session_id i) as [row|] eqn:Hrow; [|done]. cbn in Hg.
  destruct (live _ row) eqn:Hl; [|done]. injection Hg as <- <-. unfold live in Hl. to_prop. split; [done|].
  exists i. cbn [row_session Session.expires_at]. rewrite instant_from_timestamp. repeat split; try done.
  by exists row.
Qed.
Next Obligation.
  intros st now i j who u. cbn. rewrite get_session_spec. destruct i as [i|]; [|done]. destruct (truthy i); [|done].
  by destruct (durable_view _ _ _).
Qed.
Next Obligation.
  intros [T cache] now [i|] j who u; [|done]. cbn [store_invalidate durable_store]. unfold invalidate_session.
  destruct (truthy i) eqn:Hi; cbn [negb]; [|intros Hh; split; [done|intros i' [= <-]; congruence]].
  unfold revoke_session. pose proof (update_session_lookup T i (λ row, bool_decide (revoked_at row = None))
    (revoked (_timestamp (_now now)) (_safe_reason (Some "logout")))) as HT.
  cbn [table]. destruct (update_session _ _ _ _) as [b T'] eqn:E. cbn [snd] in *. intros Hh. split.
  - revert Hh. apply (updated_held _ _ (λ k row, truthy i && String.eqb k (hash_session_id i) && bool_decide (revoked_at row = None))
      _ _ _ _ _ _ HT); done.
  - intros i' [= <-] _ Hslot. destruct Hh as (row & Hrow & Hr & _). cbn in Hrow, Hslot. rewrite HT, Hi, Hslot, String.eqb_refl in Hrow.
    destruct (T !! hash_session_id i) as [row0|]; [|done]. cbn in Hrow. injection Hrow as <-.
    destruct (bool_decide (revoked_at row0 = None)) eqn:Hb; [done|]. by apply bool_decide_eq_false in Hb.
Qed.
Next Obligation.
  intros st now s header b st' j who u. cbn. unfold verify_csrf_token. destruct header as [h|]; [|by intros [= <- <-]].
  destruct (_ || _); [by intros [= <- <-]|]. intros (hit & _ & H)%bind_ok.
  destruct hit; [by injection H as <- <-|]. destruct (negb _); by injection H as <- <-.
Qed.
Next Obligation.
  intros [T cache] now fresh s t st' j who u Hs. cbn [store_csrf_token durable_store] in Hs.
  unfold csrf_token_for_session in Hs. cbn [_csrf_token_cache table] in Hs.
  destruct (truthy_opt (dict_get (Session.session_id s) cache)); [by injection Hs as <- <-|].
  apply bind_ok in Hs as ([b T'] & Hs & Hst). unfold update_session_csrf_token in Hs.
  destruct (truthy (Session.session_id s)) eqn:Hi; cbn [negb] in Hs;
    [|injection Hs as <- <-; by injection Hst as <- <-].
  unfold _require_non_blank in Hs. inv_ok Hs.
  pose proof (update_session_lookup T (Session.session_id s) (live (_timestamp (_now now)))
     (seen (_timestamp (_now now)) (Some (hash_csrf_token fresh)))) as HT.
  rename select (update_session _ _ _ _ = _) into E. rewrite E in HT. cbn [snd] in HT.
  assert (Hst' : table st' = T') by (by destruct b; injection Hst as <- <-).
  destruct st' as [T1 c1]. cbn in Hst'. subst T1.
  by apply (updated_held _ _ (λ k row, truthy (Session.session_id s) && String.eqb k (hash_session_id (Session.session_id s))
      && live (_timestamp (_now now)) row) _ _ _ _ _ _ HT).
Qed.
Next Obligation.
  intros ttl st now w [op md org r] s st' j who' u Hc. cbn in Hc. pose proof Hc as Hc'.
  apply create_row in Hc' as (row & Ht & Hs & _ & _ & Hr & Hop & Horg & Hrole & Hexp & _).
  assert (Hmode : auth_mode row = md).
  { apply create_mode in Hc. rewrite Hs in Hc. done. }
  split; [rewrite Hs; unfold identity_of; cbn; congruence|].
  split; [rewrite Hs; cbn; by rewrite instant_from_timestamp|].
  intros (row' & Hrow & Hr' & Hi & Hu). rewrite Ht in Hrow.
  destruct (decide (hash_session_id j = hash_session_id (Session.session_id s))) as [E|E].
  - right. split; [done|]. rewrite E, lookup_insert_eq in Hrow. injection Hrow as <-. rewrite <-Hi. unfold row_identity. congruence.
  - left. exists row'. by rewrite lookup_insert_ne in Hrow.
Qed.
Next Obligation.
  intros [T cache] now user org st' j who u Hs Hh. cbn [store_sign_out durable_store] in Hs.
  apply bind_ok in Hs as ([n st1] & Hs & [= <-]). unfold invalidate_operator_organization_sessions in Hs.
  apply bind_ok in Hs as ([n' T'] & Hs & [= <- <-]). unfold revoke_operator_organization_sessions, _require_non_blank in Hs.
  inv_ok Hs. cbn [table with_table _csrf_token_cache] in *. split.
  - revert Hh. apply (updated_held _ _ _ _ _ _ _ _ _ (λ k, update_where_lookup _ _ _ k)); done.
  - destruct Hh as (row & Hrow & Hr & <- & _). cbn in Hrow. rewrite update_where_lookup in Hrow.
    destruct (T !! hash_session_id j) as [row0|]; [|done]. cbn in Hrow. injection Hrow as <-. intros Hop Horg.
    destruct (String.eqb (operator_id row0) user && bool_decide (AuthState.organization_id row0 = Some org)
              && bool_decide (revoked_at row0 = None)) eqn:E; [done|]. cbn in Hop, Horg.
    by rewrite Hop, Horg, Hr, String.eqb_refl, !bool_decide_true in E.
Qed.
Next Obligation.
  intros ttl st now w who s st' later checked fresh Hc Hi Ha Ht Hl. cbn [store_create durable_store] in Hc.
  pose proof (create_row _ _ _ _ _ _ _ _ _ _ _ _ Hc) as (row & HT & Hs & _ & Hcsrf & Hr & Hop & Horg & Hrole & Hexp & Hcache).
  pose proof (create_mode _ _ _ _ _ _ _ _ _ _ _ _ Hc) as Hmode.
  assert (Hlive : live (reading later) row = true).
  { unfold live. rewrite Hr, bool_decide_true by done. apply negb_true_iff, Z.leb_gt.
    rewrite Hs in Hl. cbn in Hl. by rewrite instant_from_timestamp in Hl. }
  assert (Hget : dict_get (Session.session_id s) (_csrf_token_cache st') = Some (fresh_csrf w))
    by (by rewrite Hcache, dict_get_set, String.eqb_refl).
  exists s. cbn [store_get store_csrf_token store_verify_csrf durable_store]. split; [|split; [|split; [done|split]]].
  - rewrite get_session_spec, Hi. unfold durable_view. rewrite HT, lookup_insert_eq. cbn [mbind option_bind].
    rewrite Hlive, Hget. cbn [default]. by rewrite Hs at 2.
  - unfold identity_of. rewrite Hmode. rewrite Hs. cbn. destruct who. cbn in *. congruence.
  - unfold csrf_token_for_session. rewrite Hget. cbn [truthy_opt from_option]. by rewrite Ht.
  - unfold verify_csrf_token, matches_cache. rewrite Hi, Ht, Hget. cbn [negb orb]. rewrite Ht.
    unfold compare_digest. by rewrite Ha, String.eqb_refl.
Qed.

(** ** The store of the application *)

(** The result of [create_admin_session_store]. *)
Inductive session_backend : Type :=
| InMemory (d : Session.session_store)
| Durable (st : session_state).

(** backend/app/main.py [create_admin_session_store] *)
Definition create_admin_session_store (auth_mode auth_state_store : string) (file : option auth_db) : session_backend :=
  if mem auth_mode ["self_hosted_single_admin"; "private_team_lightweight_users"]
     && String.eqb auth_state_store "sqlite"
  then Durable (SessionState (auth_sessions (_initialize_schema file)) [])
  else InMemory [].

Definition in_memory {A} (m : outcome (A * Session.session_store)) : outcome (A * session_backend) :=
  '(a, d) ← m; Ok (a, InMemory d).
Definition durably {A} (m : outcome (A * session_state)) : outcome (A * session_backend) :=
  '(a, st) ← m; Ok (a, Durable st).

#[export] Instance backend_store : SessionStore session_backend := {
  store_create ttl b now w who := match b with
    | InMemory d => in_memory (store_create ttl d now w who)
    | Durable st => durably (store_create ttl st now w who) end;
  store_get b now i := match b with
    | InMemory d => let '(s, d') := store_get d now i in (s, InMemory d')
    | Durable st => let '(s, st') := store_get st now i in (s, Durable st') end;
  store_invalidate b now i := match b with
    | InMemory d => InMemory (store_invalidate d now i)
    | Durable st => Durable (store_invalidate st now i) end;
  store_verify_csrf b now s header := match b with
    | InMemory d => in_memory (store_verify_csrf d now s header)
    | Durable st => durably (store_verify_csrf st now s header) end;
  store_csrf_token b now fresh s := match b with
    | InMemory d => in_memory (store_csrf_token d now fresh s)
    | Durable st => durably (store_csrf_token st now fresh s) end;
  store_sign_out b now user org := match b with
    | InMemory d => d' ← store_sign_out d now user org; Ok (InMemory d')
    | Durable st => st' ← store_sign_out st now user org; Ok (Durable st') end
}.

Lemma in_memory_ok {A} (m : outcome (A * Session.session_store)) a b :
  in_memory m = Ok (a, b) → ∃ d, m = Ok (a, d) ∧ b = InMemory d.
Proof. destruct m as [[a' d]|]; [|done]. intros [= <- <-]. by exists d. Qed.

Lemma durably_ok {A} (m : outcome (A * session_state)) a b :
  durably m = Ok (a, b) → ∃ st, m = Ok (a, st) ∧ b = Durable st.
Proof. destruct m as [[a' st]|]; [|done]. intros [= <- <-]. by exists st. Qed.

Definition backend_slot (b : session_backend) : string → string :=
  match b with InMemory d => slot d | Durable st => slot st end.
Definition backend_held (b : session_backend) : string → identity → Z → Prop :=
  match b with InMemory d => held d | Durable st => held st end.

#[export] Program Instance backend_laws : SessionLaws session_backend := {
  slot := backend_slot;
  held := backend_held
}.
Next Obligation. intros [d|st] i j who u; apply held_slot. Qed.
Next Obligation.
  intros [d|st] now i s b' Hg; cbn [store_get backend_store] in Hg;
    destruct (store_get _ now i) as [s' st'] eqn:E; injection Hg as -> <-; apply open_held in E as [-> E]; by split.
Qed.
Next Obligation.
  intros [d|st] now i j who u; cbn [store_get backend_store].
  - pose proof (get_held d now i j who u) as L. by destruct (store_get d now i).
  - pose proof (get_held st now i j who u) as L. by destruct (store_get st now i).
Qed.
Next Obligation. intros [d|st] now i j who u; cbn [store_invalidate backend_store]; apply invalidate_held. Qed.
Next Obligation.
  intros [d|st] now s header v b' j who u H; cbn [store_verify_csrf backend_store] in H;
    [apply in_memory_ok in H as (d' & H & ->)|apply durably_ok in H as (st' & H & ->)]; by eapply verify_held.
Qed.
Next Obligation.
  intros [d|st] now fresh s t b' j who u H; cbn [store_csrf_token backend_store] in H;
    [apply in_memory_ok in H as (d' & H & ->)|apply durably_ok in H as (st' & H & ->)]; by eapply token_held.
Qed.
Next Obligation.
  intros ttl [d|st] now w who s b' j who' u H; cbn [store_create backend_store] in H;
    [apply in_memory_ok in H as (d' & H & ->)|apply durably_ok in H as (st' & H & ->)]; by eapply create_held.
Qed.
Next Obligation.
  intros [d|st] now user org b' j who u H; cbn [store_sign_out backend_store] in H;
    apply bind_ok in H as (st' & H & [= <-]); by eapply sign_out_held.
Qed.
Next Obligation.
  intros ttl [d|st] now w who s b' later checked fresh H Hi Ha Ht Hl; cbn [store_create backend_store] in H;
    [apply in_memory_ok in H as (st' & H & ->)|apply durably_ok in H as (st' & H & ->)];
    destruct (created_open _ _ _ _ _ _ _ later checked fresh H Hi Ha Ht Hl) as (s' & Hg & Hid & Hsid & Htok & Hver);
    exists s'; cbn [store_get store_csrf_token store_verify_csrf backend_store];
    rewrite Hg, Htok, Hver; done.
Qed.
