(* ===== verification/TeamIdentity.v ===== *)
(** * TeamIdentity: organizations, members and their authority

    Models [backend/app/team_identity.py].  The six SQL tables are the fields
    of [team_db]; a method that changes them is one transaction, returns the
    result together with the new tables, and leaves them as they were when the
    transaction raises.  Each [INSERT] states the uniqueness and foreign-key
    constraints it meets, whose violation is [identity_store_unavailable].
    Where SQL leaves the order of rows with equal keys open the order is the
    argument [rank].  Timestamps are as in [AuthState]. *)

From S2P Require Import Prelude PyStr Sha256 BearerToken SqlTable Auth AuthState.
Local Open Scope Z_scope.

(** ** Roles *)

(** backend/app/team_identity.py 16-49 [constants] *)
Definition TEAM_ROLES : list string := ["administrator"; "maintainer"; "reader"].
Definition TEAM_CAPABILITIES : list string := ["workspace_read"; "project_mutate"; "workspace_admin"].
Definition TEAM_ROLE_CAPABILITIES : dict (list string) :=
  [("reader", ["workspace_read"]); ("maintainer", ["workspace_read"; "project_mutate"]);
   ("administrator", TEAM_CAPABILITIES)].
Definition PUBLIC_IDENTITY_ECOSYSTEMS : list string :=
  ["npm"; "pypi"; "go"; "cargo"; "composer"; "maven"; "nuget"].
Definition TEAM_BOOTSTRAP_ORGANIZATION_ID : string := "local-admin".
Definition TEAM_BOOTSTRAP_ADMIN_ID : string := "team-admin".
Definition TEAM_BOOTSTRAP_ADMIN_USERNAME : string := "admin".
Definition TEAM_INVITATION_TOKEN_MAX_LENGTH : nat := 128.
Definition TEAM_DEPROVISIONED_PASSWORD_MARKER : string := "account-deprovisioned".
Definition PUBLIC_IDENTITY_ATTESTATION_MAX_TTL_DAYS : Z := 90.
Definition PUBLIC_IDENTITY_ATTESTATION_MAX_PER_ORGANIZATION : nat := 200.

(** backend/app/team_identity.py [team_role_allows] *)
Definition team_role_allows (role capability : string) : bool :=
  match dict_get role TEAM_ROLE_CAPABILITIES with
  | None => false
  | Some capabilities => mem capability TEAM_CAPABILITIES && mem capability capabilities
  end.

(** backend/app/team_identity.py [_team_role] *)
Definition _team_role (value : string) : outcome string :=
  raise "invalid_role" when (negb (mem value TEAM_ROLES));; Ok value.

(** ** Results *)

(** backend/app/team_identity.py [TeamPrincipal] *)
Record TeamPrincipal : Type := Principal {
  principal_user_id : string;
  principal_username : string;
  principal_organization_id : string;
  principal_organization_name : string;
  principal_role : string
}.

(** backend/app/team_identity.py [TeamMember] *)
Record TeamMember : Type := Member {
  member_user_id : string;
  member_username : string;
  member_role : string;
  joined_at : datetime
}.

(** backend/app/team_identity.py [FederatedIdentityBinding] *)
Record FederatedIdentityBinding : Type := Binding {
  binding_id : string;
  binding_organization_id : string;
  binding_user_id : string;
  binding_username : string;
  binding_role : string;
  binding_created_at : datetime;
  binding_revoked_at : option datetime
}.

(** backend/app/team_identity.py [TeamOrganization] *)
Record TeamOrganization : Type := Organization {
  organization_id : string;
  organization_name : string;
  organization_role : string;
  organization_created_at : datetime
}.

(** backend/app/team_identity.py [TeamInvitation] *)
Record TeamInvitation : Type := Invitation {
  invitation_id : string;
  invitation_token : string;
  invitation_username : string;
  invitation_role : string;
  invitation_expires_at : datetime
}.

(** backend/app/team_identity.py [PublicIdentityAttestation] *)
Record PublicIdentityAttestation : Type := Attestation {
  attestation_id : string;
  attestation_organization_id : string;
  attestation_ecosystem : string;
  attestation_package_name : string;
  attestation_status : string;
  attestation_revision : Z;
  attestation_requested_ttl_days : Z;
  attestation_proposed_by : string;
  attestation_proposed_at : datetime;
  attestation_approved_by : option string;
  attestation_approved_at : option datetime;
  attestation_expires_at : option datetime;
  attestation_revoked_by : option string;
  attestation_revoked_at : option datetime
}.

(** ** Tables *)

(** backend/app/team_identity.py 1113-1117 [team_organizations] *)
Record organization_row : Type := OrganizationRow { o_name : string; o_created_at : Z }.

(** backend/app/team_identity.py 1118-1124 [team_users] *)
Record user_row : Type := UserRow {
  u_username : string;
  u_password_hash : string;
  u_active : Z;
  u_created_at : Z
}.

(** The key is [(organization_id, user_id)]. *)
(** backend/app/team_identity.py 1125-1134 [team_memberships] *)
Record membership_row : Type := MembershipRow {
  m_role : string;
  m_created_at : Z;
  m_revoked_at : option Z
}.

(** backend/app/team_identity.py 1137-1148 [team_federated_identities] *)
Record federated_row : Type := FederatedRow {
  f_subject_digest : string;
  f_organization_id : string;
  f_user_id : string;
  f_created_by : string;
  f_created_at : Z;
  f_revoked_at : option Z
}.

(** backend/app/team_identity.py 1151-1164 [team_invitations] *)
Record invitation_row : Type := InvitationRow {
  i_token_hash : string;
  i_organization_id : string;
  i_username : string;
  i_role : string;
  i_created_by : string;
  i_created_at : Z;
  i_expires_at : Z;
  i_accepted_at : option Z;
  i_revoked_at : option Z
}.

(** The key is [(organization_id, ecosystem, package_name)]. *)
(** backend/app/team_identity.py 1167-1187 [team_public_identity_attestations] *)
Record attestation_row : Type := AttestationRow {
  a_id : string;
  a_state : string;
  a_revision : Z;
  a_requested_ttl_days : Z;
  a_proposed_by : string;
  a_proposed_at : Z;
  a_approved_by : option string;
  a_approved_at : option Z;
  a_expires_at : option Z;
  a_revoked_by : option string;
  a_revoked_at : option Z
}.

Record team_db : Type := TeamDb {
  organizations : gmap string organization_row;
  users : gmap string user_row;
  memberships : gmap (string * string) membership_row;
  federated : gmap string federated_row;
  invitations : gmap string invitation_row;
  attestations : gmap (string * string * string) attestation_row
}.

Definition set_users (t : gmap string user_row) (db : team_db) : team_db :=
  TeamDb (organizations db) t (memberships db) (federated db) (invitations db) (attestations db).
Definition set_memberships (t : gmap (string * string) membership_row) (db : team_db) : team_db :=
  TeamDb (organizations db) (users db) t (federated db) (invitations db) (attestations db).
Definition set_federated (t : gmap string federated_row) (db : team_db) : team_db :=
  TeamDb (organizations db) (users db) (memberships db) t (invitations db) (attestations db).
Definition set_invitations (t : gmap string invitation_row) (db : team_db) : team_db :=
  TeamDb (organizations db) (users db) (memberships db) (federated db) t (attestations db).
Definition set_attestations (t : gmap (string * string * string) attestation_row) (db : team_db) : team_db :=
  TeamDb (organizations db) (users db) (memberships db) (federated db) (invitations db) t.

(** [BEGIN IMMEDIATE ... commit], and [rollback] when the body raises. *)
Definition transaction {A} (db : team_db) (body : outcome (A * team_db)) : outcome A * team_db :=
  match body with Ok (a, db') => (Ok a, db') | Err e => (Err e, db) end.

(** [REFERENCES team_organizations(id)] and [REFERENCES team_users(id)]. *)
Definition organization_exists (db : team_db) (i : string) : bool := bool_decide (is_Some (organizations db !! i)).
Definition user_exists (db : team_db) (i : string) : bool := bool_decide (is_Some (users db !! i)).

(** ** Texts *)

(** backend/app/team_identity.py [TeamIdentityStore._now] *)
Definition _now (current : datetime) : datetime :=
  if aware current then as_utc current else replace_utc current.

Definition is_lower_alnum (a : ascii) : bool := is_lower_az a || is_digit a.

(** [[a-z0-9][<cs>]*] with [a-z0-9] among the second class. *)
Definition head_tail (cs : string) (s : string) : bool :=
  match chars s with
  | [] => false
  | a :: l => is_lower_alnum a && forallb (λ b, is_lower_alnum b || one_of cs b) l
  end.

(** backend/app/team_identity.py [normalize_username] *)
Definition normalize_username (value : string) : option string :=
  let normalized := lower (strip value) in
  if head_tail "._-" normalized && (3 <=? len normalized)%nat && (len normalized <=? 64)%nat
  then Some normalized else None.

(** backend/app/team_identity.py [normalize_organization_name] *)
Definition normalize_organization_name (value : string) : outcome string :=
  let normalized := join " " (split_space (strip value)) in
  raise "invalid_organization_name" when (negb ((3 <=? len normalized)%nat && (len normalized <=? 80)%nat));;
  raise "invalid_organization_name"
    when (any_char (λ a, (code a <? 32)%N || one_of "/\" a) normalized);;
  Ok normalized.

(** [re.sub("[-_.]+", "-", s)] *)
Fixpoint dash_runs (in_run : bool) (l : list ascii) : list ascii :=
  match l with
  | [] => []
  | a :: l' => if one_of "-_." a then (if in_run then [] else ["-"%char]) ++ dash_runs true l'
               else a :: dash_runs false l'
  end.

(** backend/app/public_advisory_egress.py [_normalize_component_name] *)
Definition _normalize_component_name (ecosystem value : string) : option string :=
  let candidate := strip value in
  let keep (b : bool) (s : string) := if b then Some s else None in
  if String.eqb ecosystem "npm" then
    let s := lower candidate in
    match chars s with
    | "@"%char :: rest =>
        match split_on "/" (text rest) with
        | [scope; name] => keep (head_tail "._-" scope && head_tail "._-" name) s
        | _ => None
        end
    | _ => keep (head_tail "._-" s) s
    end
  else if String.eqb ecosystem "pypi" then
    let s := lower candidate in
    if head_tail "._-" s then Some (text (dash_runs false (chars s))) else None
  else if String.eqb ecosystem "go" then
    if negb (String.eqb candidate (lower candidate)) || (300 <? len candidate)%nat then None else
    match split_on "/" candidate with
    | host :: (_ :: _) as path =>
        keep (head_tail "._~-" host && forallb (head_tail "._~+-") path && any_char (is_char ".") host) candidate
    | _ => None
    end
  else if String.eqb ecosystem "cargo" then
    keep ((len candidate <=? 128)%nat && head_tail "_-" candidate) candidate
  else if String.eqb ecosystem "composer" then
    keep ((len candidate <=? 200)%nat && String.eqb candidate (lower candidate)
          && match split_on "/" candidate with
             | [vendor; name] => head_tail "_.-" vendor && head_tail "_.-" name
             | _ => false
             end) candidate
  else if String.eqb ecosystem "maven" then
    keep ((len candidate <=? 321)%nat && String.eqb candidate (lower candidate)
          && match split_on ":" candidate with
             | [group; artifact] => head_tail "_.-" group && head_tail "_.-" artifact
             | _ => false
             end) candidate
  else if String.eqb ecosystem "nuget" then
    let s := lower candidate in keep ((len s <=? 200)%nat && head_tail "_.-" s) s
  else None.

(** backend/app/public_advisory_egress.py [normalize_public_component_name] *)
Definition normalize_public_component_name (ecosystem value : string) : option string :=
  _normalize_component_name ecosystem value.

(** backend/app/team_identity.py [normalize_public_identity] *)
Definition normalize_public_identity (ecosystem package_name : string) : outcome (string * string) :=
  raise "invalid_public_identity" when (negb (mem ecosystem PUBLIC_IDENTITY_ECOSYSTEMS));;
  normalized_name ← or_raise (normalize_public_component_name ecosystem package_name) "invalid_public_identity";
  Ok (ecosystem, normalized_name).

(** backend/app/team_identity.py [normalize_public_identity_ttl] *)
Definition normalize_public_identity_ttl (value : Z) : outcome Z :=
  raise "invalid_attestation_ttl"
    when (negb ((1 <=? value) && (value <=? PUBLIC_IDENTITY_ATTESTATION_MAX_TTL_DAYS)));;
  Ok value.

(** backend/app/team_identity.py [_subject_digest] *)
Definition _subject_digest (value : string) : outcome string :=
  raise "invalid_federated_subject" when (negb (all_chars is_hex_lower value && (len value =? 64)%nat));; Ok value.

(** backend/app/team_identity.py [_opaque_identifier] *)
Definition _opaque_identifier (value : string) : outcome string :=
  raise "attestation_not_found" when (negb (is_hex32 value));; Ok value.

(** backend/app/team_identity.py [_binding_identifier] *)
Definition _binding_identifier (value : string) : outcome string :=
  raise "federated_identity_not_found" when (negb (is_hex32 value));; Ok value.

(** backend/app/team_identity.py [_organization_identifier] *)
Definition _organization_identifier (value : string) : outcome string :=
  if String.eqb value TEAM_BOOTSTRAP_ORGANIZATION_ID then Ok TEAM_BOOTSTRAP_ORGANIZATION_ID else
  raise "organization_not_found" when (negb (is_hex32 value));; Ok value.

(** backend/app/team_identity.py [_aware_utc] *)
Definition _aware_utc (value : datetime) : outcome datetime :=
  raise "invalid_retention_cutoff" when (negb (aware value));; Ok (as_utc value).

(** backend/app/team_identity.py [hash_invitation_token] *)
Definition hash_invitation_token (token : string) : string :=
  sha256_hex (utf8 ("inspectra-team-invitation-v1" ++ text ["000"%char] ++ token)).
#[global] Arguments hash_invitation_token : simpl never.

(** ** Reading members *)

(** [m.revoked_at IS NULL] *)
Definition unrevoked (m : membership_row) : bool := bool_decide (m_revoked_at m = None).
Definition active_user (u : user_row) : bool := u_active u =? 1.

Definition active_membership (db : team_db) (organization user : string) : option membership_row :=
  m ← memberships db !! (organization, user); if unrevoked m then Some m else None.

(** backend/app/team_identity.py [_principal_from_row] *)
Definition _principal_from_row (user username organization organization_name role : string)
    : outcome TeamPrincipal :=
  r ← _team_role role; Ok (Principal user username organization organization_name r).

(** The three tables joined for a user and an organization. *)
Definition member_row (db : team_db) (user organization : string)
    : option (user_row * organization_row * membership_row) :=
  u ← users db !! user;
  o ← organizations db !! organization;
  m ← active_membership db organization user;
  if active_user u then Some (u, o, m) else None.

(** backend/app/team_identity.py [TeamIdentityStore.get_principal] *)
Definition get_principal (db : team_db) (user organization : string) : outcome (option TeamPrincipal) :=
  match member_row db user organization with
  | None => Ok None
  | Some (u, o, m) =>
      Some <$> _principal_from_row user (u_username u) organization (o_name o) (m_role m)
  end.

(** The organizations a user is a member of, and the order
    [CASE WHEN o.id = 'local-admin' THEN 0 ELSE 1 END, o.created_at]. *)
Definition joined : Type := string * (organization_row * membership_row).
Definition user_memberships (db : team_db) (user : string) : list joined :=
  omap (λ kv : (string * string) * membership_row,
          o ← organizations db !! kv.1.1; Some (kv.1.1, (o, kv.2)))
    (map_to_list (select_where (λ k m, String.eqb k.2 user && unrevoked m) (memberships db))).
Definition workspace_rank (i : string) : Z := if String.eqb i TEAM_BOOTSTRAP_ORGANIZATION_ID then 0 else 1.
Definition workspace_order (rank : string → Z) (a b : joined) : Prop :=
  workspace_rank a.1 < workspace_rank b.1
  ∨ (workspace_rank a.1 = workspace_rank b.1
     ∧ (o_created_at a.2.1 < o_created_at b.2.1
        ∨ (o_created_at a.2.1 = o_created_at b.2.1 ∧ rank a.1 <= rank b.1))).
#[export] Instance workspace_order_dec rank a b : Decision (workspace_order rank a b).
Proof. unfold workspace_order. apply _. Defined.
Definition sorted_memberships (rank : string → Z) (db : team_db) (user : string) : list joined :=
  merge_sort (workspace_order rank) (user_memberships db user).

Definition user_named (username : string) (_ : string) (u : user_row) : bool := String.eqb (u_username u) username.

(** backend/app/team_identity.py [TeamIdentityStore.authenticate] *)
Definition authenticate (rank : string → Z) (db : team_db) (username password : string)
    : outcome (option TeamPrincipal) :=
  match normalize_username username with
  | None => Ok None
  | Some normalized =>
      match find_row (user_named normalized) (users db) with
      | None => Ok None
      | Some (i, u) =>
          match (if active_user u then sorted_memberships rank db i else []) with
          | [] => Ok None
          | (o, (orow, m)) :: _ =>
              if negb (Password.verify_admin_password (Some password) (Some (u_password_hash u))) then Ok None
              else Some <$> _principal_from_row i (u_username u) o (o_name orow) (m_role m)
          end
      end
  end.

(** backend/app/team_identity.py [TeamIdentityStore.list_organizations] *)
Definition list_organizations (rank : string → Z) (db : team_db) (user : string)
    : outcome (list TeamOrganization) :=
  if from_option active_user false (users db !! user) then
    traverse (λ j : joined, r ← _team_role (m_role j.2.2);
                            Ok (Organization j.1 (o_name j.2.1) r (_datetime_from_timestamp (o_created_at j.2.1))))
      (sorted_memberships rank db user)
  else Ok [].

(** [CASE m.role WHEN 'administrator' THEN 0 ... END, u.username]; user names
    are unique. *)
Definition role_rank (r : string) : Z :=
  if String.eqb r "administrator" then 0 else if String.eqb r "maintainer" then 1 else 2.
Definition listed : Type := string * (user_row * membership_row).
Definition member_order (a b : listed) : Prop :=
  role_rank (m_role a.2.2) < role_rank (m_role b.2.2)
  ∨ (role_rank (m_role a.2.2) = role_rank (m_role b.2.2) ∧ str_le (u_username a.2.1) (u_username b.2.1)).
#[export] Instance member_order_dec a b : Decision (member_order a b).
Proof. unfold member_order. apply _. Defined.

(** backend/app/team_identity.py [TeamIdentityStore.list_members] *)
Definition list_members (db : team_db) (organization : string) : outcome (list TeamMember) :=
  let rows := omap (λ kv : (string * string) * membership_row,
                      u ← users db !! kv.1.2; if active_user u then Some (kv.1.2, (u, kv.2)) else None)
                (map_to_list (select_where (λ k m, String.eqb k.1 organization && unrevoked m) (memberships db))) in
  traverse (λ j : listed, r ← _team_role (m_role j.2.2);
                          Ok (Member j.1 (u_username j.2.1) r (_datetime_from_timestamp (m_created_at j.2.2))))
    (merge_sort member_order rows).

(** ** Changing organizations and members *)

Section Operations.
Context (invitation_ttl_seconds : Z).

(** backend/app/team_identity.py [TeamIdentityStore.create_organization] *)
Definition create_organization (db : team_db) (raw_now : datetime) (new_id : string)
    (principal : TeamPrincipal) (name : string) : outcome TeamOrganization * team_db :=
  transaction db (
    raise "administrator_required" when (negb (String.eqb (principal_role principal) "administrator"));;
    normalized_name ← normalize_organization_name name;
    let now := _now raw_now in
    orgs ← insert_row new_id (OrganizationRow normalized_name (instant now)) (organizations db)
             "identity_store_unavailable";
    raise "identity_store_unavailable" when (negb (user_exists db (principal_user_id principal)));;
    ms ← insert_row (new_id, principal_user_id principal) (MembershipRow "administrator" (instant now) None)
           (memberships db) "identity_store_unavailable";
    Ok (Organization new_id normalized_name "administrator" now,
        TeamDb orgs (users db) ms (federated db) (invitations db) (attestations db))).

(** Active administrators of an organization, as the guards count them. *)
Definition administrator_rows (db : team_db) (organization : string) : nat :=
  row_count (λ k m, String.eqb k.1 organization && String.eqb (m_role m) "administrator" && unrevoked m)
    (memberships db).

Definition with_role (r : string) (m : membership_row) : membership_row :=
  MembershipRow r (m_created_at m) (m_revoked_at m).
Definition with_revocation (t : Z) (m : membership_row) : membership_row :=
  MembershipRow (m_role m) (m_created_at m) (Some t).

(** backend/app/team_identity.py [TeamIdentityStore.change_member_role] *)
Definition change_member_role (db : team_db) (principal : TeamPrincipal) (user role : string)
    : outcome TeamMember * team_db :=
  let organization := principal_organization_id principal in
  let r := transaction db (
    raise "administrator_required" when (negb (String.eqb (principal_role principal) "administrator"));;
    normalized_role ← _team_role role;
    raise "last_administrator" when (String.eqb user TEAM_BOOTSTRAP_ADMIN_ID
                                     && negb (String.eqb normalized_role "administrator"));;
    current ← or_raise (active_membership db organization user) "member_not_found";
    raise "last_administrator" when (String.eqb (m_role current) "administrator"
                                     && negb (String.eqb normalized_role "administrator")
                                     && (administrator_rows db organization <=? 1)%nat);;
    Ok (tt, set_memberships
              (update_where (λ k m, bool_decide (k = (organization, user)) && unrevoked m)
                 (with_role normalized_role) (memberships db)) db)) in
  (_ ← r.1;
   members ← list_members r.2 organization;
   or_raise (first_match (λ m, String.eqb (member_user_id m) user) members) "member_not_found", r.2).

(** [operation] is the caller's write, run while the transaction holds the
    store. *)
(** backend/app/team_identity.py [TeamIdentityStore.run_with_active_members] *)
Definition run_with_active_members {T} (db : team_db) (organization : string) (user_ids : list string)
    (operation : unit → outcome T) : outcome T :=
  raise "member_not_active"
    when (negb (forallb (λ i, from_option active_user false (users db !! i)
                              && bool_decide (is_Some (active_membership db organization i))) user_ids));;
  operation tt.

(** The account of a user without a membership left. *)
Definition deprovisioned (i : string) (u : user_row) : user_row :=
  UserRow ("deprovisioned." ++ i) TEAM_DEPROVISIONED_PASSWORD_MARKER 0 (u_created_at u).

(** [UPDATE team_users SET username = ..., active = 0 WHERE id = ?] under the
    uniqueness of user names. *)
Definition deprovision (i : string) (t : gmap string user_row) : outcome (gmap string user_row) :=
  raise "identity_store_unavailable"
    when (bool_decide (is_Some (t !! i))
          && (0 <? row_count (λ k u, negb (String.eqb k i) && String.eqb (u_username u) ("deprovisioned." ++ i)) t)%nat);;
  Ok (alter (deprovisioned i) i t).

(** [on_membership_revoked] is the caller's reconciliation, whose raise rolls
    the revocation back. *)
(** backend/app/team_identity.py [TeamIdentityStore.revoke_member] *)
Definition revoke_member {T} (db : team_db) (raw_now : datetime) (principal : TeamPrincipal) (user : string)
    (on_membership_revoked : option (unit → outcome T)) : outcome (option T) * team_db :=
  let organization := principal_organization_id principal in
  transaction db (
    raise "administrator_required" when (negb (String.eqb (principal_role principal) "administrator"));;
    raise "last_administrator" when (String.eqb user TEAM_BOOTSTRAP_ADMIN_ID);;
    let now := instant (_now raw_now) in
    membership ← or_raise (active_membership db organization user) "member_not_found";
    raise "last_administrator" when (String.eqb (m_role membership) "administrator"
                                     && (administrator_rows db organization <=? 1)%nat);;
    let p := λ k m, bool_decide (k = (organization, user)) && unrevoked m in
    raise "member_not_found" when (negb (row_count p (memberships db) =? 1)%nat);;
    let ms := update_where p (with_revocation now) (memberships db) in
    result ← match on_membership_revoked with None => Ok None | Some f => Some <$> f tt end;
    let remaining := row_count (λ k m, String.eqb k.2 user && unrevoked m) ms in
    us ← (if (remaining =? 0)%nat then deprovision user (users db) else Ok (users db));
    Ok (result, set_users us (set_memberships ms db))).

(** ** Invitations *)

(** backend/app/team_identity.py [TeamIdentityStore.create_invitation] *)
Definition create_invitation (db : team_db) (raw_now : datetime) (new_id token : string)
    (principal : TeamPrincipal) (username role : string) : outcome TeamInvitation * team_db :=
  let organization := principal_organization_id principal in
  transaction db (
    raise "administrator_required" when (negb (String.eqb (principal_role principal) "administrator"));;
    normalized_username ← or_raise (normalize_username username) "invalid_username";
    normalized_role ← _team_role role;
    let now := _now raw_now in
    let expires_at := plus_seconds now invitation_ttl_seconds in
    raise "invitation_unavailable" when (negb (truthy token) || (TEAM_INVITATION_TOKEN_MAX_LENGTH <? len token)%nat);;
    raise "member_exists"
      when (match find_row (user_named normalized_username) (users db) with
            | Some (i, u) => active_user u && bool_decide (is_Some (active_membership db organization i))
            | None => false
            end);;
    let pending := λ _ i, String.eqb (i_organization_id i) organization
                          && String.eqb (i_username i) normalized_username
                          && bool_decide (i_accepted_at i = None) && bool_decide (i_revoked_at i = None) in
    let superseded := update_where pending
      (λ i, InvitationRow (i_token_hash i) (i_organization_id i) (i_username i) (i_role i) (i_created_by i)
              (i_created_at i) (i_expires_at i) (i_accepted_at i) (Some (instant now))) (invitations db) in
    raise "identity_store_unavailable"
      when ((0 <? row_count (λ _ i, String.eqb (i_token_hash i) (hash_invitation_token token)) superseded)%nat
            || negb (organization_exists db organization) || negb (user_exists db (principal_user_id principal)));;
    invs ← insert_row new_id
           (InvitationRow (hash_invitation_token token) organization normalized_username normalized_role
              (principal_user_id principal) (instant now) (instant expires_at) None None)
           superseded "identity_store_unavailable";
    Ok (Invitation new_id token normalized_username normalized_role expires_at, set_invitations invs db)).

(** The conditions under which an invitation may be accepted. *)
Definition acceptable (now : Z) (i : invitation_row) : bool :=
  bool_decide (i_accepted_at i = None) && bool_decide (i_revoked_at i = None) && negb (i_expires_at i <=? now).

Definition accepted (now : Z) (i : invitation_row) : invitation_row :=
  InvitationRow (i_token_hash i) (i_organization_id i) (i_username i) (i_role i) (i_created_by i)
    (i_created_at i) (i_expires_at i) (Some now) (i_revoked_at i).

(** The transaction: the user who joins, and the organization. *)
(** backend/app/team_identity.py 805-876 [TeamIdentityStore.accept_invitation] *)
Definition accept_tx (db : team_db) (now : Z) (token password password_hash new_user : string)
    : outcome ((string * string) * team_db) :=
  match find_row (λ _ i, String.eqb (i_token_hash i) (hash_invitation_token token)) (invitations db) with
  | None => Err "invalid_invitation"
  | Some (i, invitation) =>
      let organization := i_organization_id invitation in
      raise "invalid_invitation"
        when (negb (organization_exists db organization) || negb (acceptable now invitation));;
      '(user, us) ←
        match find_row (user_named (i_username invitation)) (users db) with
        | Some (existing, u) =>
            raise "invalid_invitation"
              when (negb (active_user u)
                    || negb (Password.verify_admin_password (Some password) (Some (u_password_hash u))));;
            Ok (existing, users db)
        | None =>
            us ← insert_row new_user (UserRow (i_username invitation) password_hash 1 now) (users db)
                   "identity_store_unavailable";
            Ok (new_user, us)
        end;
      ms ← insert_row (organization, user) (MembershipRow (i_role invitation) now None) (memberships db)
             "identity_store_unavailable";
      Ok ((user, organization),
          TeamDb (organizations db) us ms (federated db) (alter (accepted now) i (invitations db)) (attestations db))
  end.

(** backend/app/team_identity.py [TeamIdentityStore.accept_invitation] *)
Definition accept_invitation (db : team_db) (raw_now : datetime) (salt new_user token password : string)
    : outcome TeamPrincipal * team_db :=
  if negb (truthy token) || (TEAM_INVITATION_TOKEN_MAX_LENGTH <? len token)%nat
  then (Err "invalid_invitation", db) else
  match Password.hash_password password salt Password.MIN_ADMIN_PASSWORD_HASH_ITERATIONS with
  | Err e => (Err e, db)
  | Ok password_hash =>
      let r := transaction db (accept_tx db (instant (_now raw_now)) token password password_hash new_user) in
      ('(user, organization) ← r.1;
       principal ← get_principal r.2 user organization;
       or_raise principal "identity_store_unavailable", r.2)
  end.

(** [COALESCE(accepted_at, revoked_at, expires_at)] *)
Definition terminal_at (i : invitation_row) : Z :=
  match i_accepted_at i, i_revoked_at i with
  | Some t, _ => t
  | None, Some t => t
  | None, None => i_expires_at i
  end.

(** backend/app/team_identity.py [TeamIdentityStore.purge_terminal_invitations] *)
Definition purge_terminal_invitations (db : team_db) (cutoff : datetime) (organization : option string)
    : outcome nat * team_db :=
  transaction db (
    cutoff' ← _aware_utc cutoff;
    scope ← match organization with None => Ok None | Some o => Some <$> _organization_identifier o end;
    let p := λ (_ : string) i, (terminal_at i <=? instant cutoff')
                               && match scope with None => true | Some o => String.eqb (i_organization_id i) o end in
    Ok (row_count p (invitations db), set_invitations (delete_where p (invitations db)) db)).
End Operations.

(** ** Federated identities *)

Definition by_digest (digest : string) (_ : string) (f : federated_row) : bool := String.eqb (f_subject_digest f) digest.

(** [DO UPDATE SET revoked_at = NULL] *)
Definition reinstated (f : federated_row) : federated_row :=
  FederatedRow (f_subject_digest f) (f_organization_id f) (f_user_id f) (f_created_by f) (f_created_at f) None.

(** backend/app/team_identity.py [TeamIdentityStore.provision_federated_identity] *)
Definition provision_federated_identity (db : team_db) (raw_now : datetime) (new_id : string)
    (principal : TeamPrincipal) (user subject_digest : string) : outcome FederatedIdentityBinding * team_db :=
  let organization := principal_organization_id principal in
  transaction db (
    raise "administrator_required" when (negb (String.eqb (principal_role principal) "administrator"));;
    digest ← _subject_digest subject_digest;
    let now := _now raw_now in
    '(u, m) ← or_raise (u ← users db !! user; m ← active_membership db organization user;
                        if active_user u then Some (u, m) else None) "member_not_found";
    role ← _team_role (m_role m);
    raise "federated_administrator_forbidden" when (String.eqb role "administrator");;
    match find_row (by_digest digest) (federated db) with
    | Some (i, existing) =>
        raise "federated_identity_conflict"
          when (negb (String.eqb (f_organization_id existing) organization)
                || negb (String.eqb (f_user_id existing) user));;
        Ok (Binding i organization user (u_username u) role now None,
            set_federated (update_where (by_digest digest) reinstated (federated db)) db)
    | None =>
        raise "identity_store_unavailable"
          when (negb (organization_exists db organization) || negb (user_exists db (principal_user_id principal)));;
        fs ← insert_row new_id (FederatedRow digest organization user (principal_user_id principal) (instant now) None)
               (federated db) "identity_store_unavailable";
        Ok (Binding new_id organization user (u_username u) role now None, set_federated fs db)
    end).

(** backend/app/team_identity.py [TeamIdentityStore.resolve_federated_principal] *)
Definition resolve_federated_principal (db : team_db) (organization subject_digest asserted_role : string)
    : outcome (option TeamPrincipal) :=
  digest ← _subject_digest subject_digest;
  match find_row (by_digest digest) (federated db) with
  | None => Ok None
  | Some (_, f) =>
      if negb (String.eqb (f_organization_id f) organization) || bool_decide (is_Some (f_revoked_at f)) then Ok None else
      match member_row db (f_user_id f) organization with
      | None => Ok None
      | Some (u, o, m) =>
          if negb (String.eqb (m_role m) asserted_role) || String.eqb (m_role m) "administrator" then Ok None
          else Some <$> _principal_from_row (f_user_id f) (u_username u) organization (o_name o) (m_role m)
      end
  end.

(** The join of a binding with its user and membership, revoked or not. *)
Definition binding_row (db : team_db) (f : federated_row) : option (user_row * membership_row) :=
  u ← users db !! f_user_id f; m ← memberships db !! (f_organization_id f, f_user_id f); Some (u, m).

(** [ORDER BY f.created_at DESC, f.id ASC] *)
Definition newest_binding (a b : string * federated_row) : Prop :=
  f_created_at b.2 < f_created_at a.2 ∨ (f_created_at b.2 = f_created_at a.2 ∧ str_le a.1 b.1).
#[export] Instance newest_binding_dec a b : Decision (newest_binding a b).
Proof. unfold newest_binding. apply _. Defined.

(** backend/app/team_identity.py [TeamIdentityStore.list_federated_identities] *)
Definition list_federated_identities (db : team_db) (organization : string)
    : outcome (list FederatedIdentityBinding) :=
  let rows := merge_sort newest_binding
    (map_to_list (select_where (λ _ f, String.eqb (f_organization_id f) organization
                                       && bool_decide (f_revoked_at f = None)
                                       && bool_decide (is_Some (binding_row db f))) (federated db))) in
  traverse (λ kf : string * federated_row,
              '(u, m) ← or_raise (binding_row db kf.2) "";
              role ← _team_role (m_role m);
              Ok (Binding kf.1 organization (f_user_id kf.2) (u_username u) role
                    (_datetime_from_timestamp (f_created_at kf.2)) None)) rows.

(** The [SELECT] and the [UPDATE] are two statements on their own
    connections; here nothing comes between them. *)
(** backend/app/team_identity.py [TeamIdentityStore.revoke_federated_identity] *)
Definition revoke_federated_identity (db : team_db) (raw_now : datetime) (principal : TeamPrincipal)
    (binding : string) : outcome FederatedIdentityBinding * team_db :=
  let organization := principal_organization_id principal in
  let found :=
    raise "administrator_required" when (negb (String.eqb (principal_role principal) "administrator"));;
    i ← _binding_identifier binding;
    f ← or_raise (f ← federated db !! i;
                  if String.eqb (f_organization_id f) organization && bool_decide (f_revoked_at f = None)
                  then Some f else None) "federated_identity_not_found";
    '(u, m) ← or_raise (binding_row db f) "federated_identity_not_found";
    Ok (i, f, u, m) in
  match found with
  | Err e => (Err e, db)
  | Ok (i, f, u, m) =>
      let now := _now raw_now in
      let revoke (g : federated_row) :=
        FederatedRow (f_subject_digest g) (f_organization_id g) (f_user_id g) (f_created_by g) (f_created_at g)
          (Some (instant now)) in
      (role ← _team_role (m_role m);
       Ok (Binding i organization (f_user_id f) (u_username u) role
             (_datetime_from_timestamp (f_created_at f)) (Some now)),
       set_federated (alter revoke i (federated db)) db)
  end.

(** ** Opening the store *)

(** backend/app/team_identity.py [TeamIdentityStore._ensure_bootstrap_identity] *)
Definition _ensure_bootstrap_identity (db : team_db) (raw_now : datetime) (organization_name password_hash : string)
    : outcome unit * team_db :=
  let now := instant (_now raw_now) in
  let admin := TEAM_BOOTSTRAP_ADMIN_ID in
  let workspace := TEAM_BOOTSTRAP_ORGANIZATION_ID in
  transaction db (
    let orgs := <[workspace := OrganizationRow organization_name
                    (from_option o_created_at now (organizations db !! workspace))]> (organizations db) in
    raise "identity_store_unavailable"
      when (0 <? row_count (λ k u, negb (String.eqb k admin) && String.eqb (u_username u) TEAM_BOOTSTRAP_ADMIN_USERNAME)
                   (users db))%nat;;
    let us := <[admin := UserRow TEAM_BOOTSTRAP_ADMIN_USERNAME password_hash 1
                  (from_option u_created_at now (users db !! admin))]> (users db) in
    let ms := <[(workspace, admin) := MembershipRow "administrator"
                  (from_option m_created_at now (memberships db !! (workspace, admin))) None]> (memberships db) in
    Ok (tt, TeamDb orgs us ms (federated db) (invitations db) (attestations db))).

(** The file is created with empty tables; existing ones are kept. *)
(** backend/app/team_identity.py [TeamIdentityStore.__init__] *)
Definition open_store (file : option team_db) (raw_now : datetime) (raw_name password_hash : string)
    : outcome unit * option team_db :=
  match normalize_organization_name raw_name with
  | Err e => (Err e, file)
  | Ok name =>
      let r := _ensure_bootstrap_identity (default (TeamDb ∅ ∅ ∅ ∅ ∅ ∅) file) raw_now name password_hash in
      (r.1, Some r.2)
  end.

(** ** Lemmas *)

(** A transaction leaves the tables alone, or commits what its body gives. *)
Lemma transaction_db {A} db (body : outcome (A * team_db)) :
  (transaction db body).2 = db ∨ ∃ a db', body = Ok (a, db') ∧ (transaction db body).2 = db'.
Proof. destruct body as [[a db']|e]; [right|by left]. by exists a, db'. Qed.

Lemma transaction_ok {A} db (body : outcome (A * team_db)) a :
  (transaction db body).1 = Ok a → body = Ok (a, (transaction db body).2).
Proof. destruct body as [[a' db']|e]; [|done]. by intros [= ->]. Qed.

Lemma transaction_err {A} db (body : outcome (A * team_db)) e :
  (transaction db body).1 = Err e → (transaction db body).2 = db.
Proof. by destruct body as [[a db']|]. Qed.
