(* ===== verification/TeamAttestations.v ===== *)
(** * TeamAttestations: which public packages an organization vouches for

    Models the public identity attestations of [backend/app/team_identity.py]:
    a maintainer proposes a package, an administrator approves it for a
    bounded time, either revokes it.  A row goes through
    [pending -> approved -> revoked], is [expired] once its time has passed,
    and starts over with a new proposal. *)

From S2P Require Import Prelude PyStr Sha256 BearerToken SqlTable Auth AuthState TeamIdentity.
Local Open Scope Z_scope.

(** ** Status *)

(** backend/app/team_identity.py [_public_identity_status] *)
Definition _public_identity_status (row : attestation_row) (now : Z) : outcome string :=
  if String.eqb (a_state row) "approved" && from_option (λ e, e <=? now) false (a_expires_at row)
  then Ok "expired"
  else raise "identity_store_unavailable" when (negb (mem (a_state row) ["pending"; "approved"; "revoked"]));;
       Ok (a_state row).

(** backend/app/team_identity.py [_public_identity_attestation_from_row] *)
Definition _public_identity_attestation_from_row (key : string * string * string) (row : attestation_row) (now : Z)
    : outcome PublicIdentityAttestation :=
  let '(organization, ecosystem, package) := key in
  raise "identity_store_unavailable" when (negb (mem ecosystem PUBLIC_IDENTITY_ECOSYSTEMS));;
  status ← _public_identity_status row now;
  Ok (Attestation (a_id row) organization ecosystem package status (a_revision row) (a_requested_ttl_days row)
        (a_proposed_by row) (_datetime_from_timestamp (a_proposed_at row))
        (a_approved_by row) (_datetime_from_timestamp <$> a_approved_at row)
        (_datetime_from_timestamp <$> a_expires_at row)
        (a_revoked_by row) (_datetime_from_timestamp <$> a_revoked_at row)).

(** ** Transitions *)

Definition of_organization (organization : string) (k : string * string * string) (_ : attestation_row) : bool :=
  String.eqb k.1.1 organization.

(** [WHERE id = ? AND organization_id = ?] *)
Definition with_id (i organization : string) (k : string * string * string) (row : attestation_row) : bool :=
  String.eqb (a_id row) i && String.eqb k.1.1 organization.

(** The read of the row just written, after the commit. *)
Definition read_back (now : Z) (r : outcome (string * string * string) * team_db)
    : outcome PublicIdentityAttestation * team_db :=
  let '(o, db) := r in
  (k ← o;
   row ← or_raise (attestations db !! k) "AssertionError";
   _public_identity_attestation_from_row k row now, db).

(** backend/app/team_identity.py [TeamIdentityStore.propose_public_identity] *)
Definition propose_public_identity (db : team_db) (raw_now : datetime) (new_id : string)
    (principal : TeamPrincipal) (ecosystem package_name : string) (requested_ttl_days : Z)
    : outcome PublicIdentityAttestation * team_db :=
  let organization := principal_organization_id principal in
  let now := instant (_now raw_now) in
  read_back now (transaction db (
    raise "maintainer_required" when (negb (mem (principal_role principal) ["administrator"; "maintainer"]));;
    '(eco, name) ← normalize_public_identity ecosystem package_name;
    ttl_days ← normalize_public_identity_ttl requested_ttl_days;
    let key := (organization, eco, name) in
    let existing := attestations db !! key in
    _ ← match existing with
        | None => Ok tt
        | Some row => status ← _public_identity_status row now;
                      raise "attestation_exists" when (mem status ["pending"; "approved"]);; Ok tt
        end;
    raise "attestation_limit_reached"
      when (bool_decide (existing = None)
            && (PUBLIC_IDENTITY_ATTESTATION_MAX_PER_ORGANIZATION
                <=? row_count (of_organization organization) (attestations db))%nat);;
    raise "identity_store_unavailable"
      when (negb (user_exists db (principal_user_id principal))
            || (bool_decide (existing = None) && negb (organization_exists db organization))
            || (0 <? row_count (λ k row, negb (bool_decide (k = key)) && String.eqb (a_id row) new_id)
                       (attestations db))%nat);;
    let revision := from_option (λ row, a_revision row + 1) 1 existing in
    Ok (key, set_attestations
               (<[key := AttestationRow new_id "pending" revision ttl_days (principal_user_id principal) now
                           None None None None None]> (attestations db)) db))).

(** backend/app/team_identity.py [TeamIdentityStore.approve_public_identity] *)
Definition approve_public_identity (db : team_db) (raw_now : datetime) (principal : TeamPrincipal)
    (attestation : string) : outcome PublicIdentityAttestation * team_db :=
  let organization := principal_organization_id principal in
  let now := _now raw_now in
  read_back (instant now) (transaction db (
    raise "administrator_required" when (negb (String.eqb (principal_role principal) "administrator"));;
    i ← _opaque_identifier attestation;
    '(k, row) ← or_raise (find_row (with_id i organization) (attestations db)) "attestation_not_found";
    status ← _public_identity_status row (instant now);
    raise "attestation_not_pending" when (negb (String.eqb status "pending"));;
    raise "identity_store_unavailable" when (negb (user_exists db (principal_user_id principal)));;
    let expires_at := plus_seconds now (a_requested_ttl_days row * 24 * 3600) in
    let approve r := AttestationRow (a_id r) "approved" (a_revision r + 1) (a_requested_ttl_days r) (a_proposed_by r)
                       (a_proposed_at r) (Some (principal_user_id principal)) (Some (instant now))
                       (Some (instant expires_at)) None None in
    let p := λ k r, with_id i organization k r && String.eqb (a_state r) "pending" in
    raise "attestation_not_pending" when (negb (row_count p (attestations db) =? 1)%nat);;
    Ok (k, set_attestations (update_where p approve (attestations db)) db))).

(** [state IN ('pending', 'approved') AND (state != 'approved' OR expires_at > ?)] *)
Definition revocable (now : Z) (row : attestation_row) : bool :=
  mem (a_state row) ["pending"; "approved"]
  && (negb (String.eqb (a_state row) "approved") || from_option (λ e, now <? e) false (a_expires_at row)).

(** backend/app/team_identity.py [TeamIdentityStore.revoke_public_identity] *)
Definition revoke_public_identity (db : team_db) (raw_now : datetime) (principal : TeamPrincipal)
    (attestation : string) : outcome PublicIdentityAttestation * team_db :=
  let organization := principal_organization_id principal in
  let now := instant (_now raw_now) in
  read_back now (transaction db (
    raise "administrator_required" when (negb (String.eqb (principal_role principal) "administrator"));;
    i ← _opaque_identifier attestation;
    let p := λ k row, with_id i organization k row && revocable now row in
    '(k, row) ← or_raise (find_row p (attestations db)) "attestation_not_active";
    raise "identity_store_unavailable" when (negb (user_exists db (principal_user_id principal)));;
    let revoke r := AttestationRow (a_id r) "revoked" (a_revision r + 1) (a_requested_ttl_days r) (a_proposed_by r)
                      (a_proposed_at r) (a_approved_by r) (a_approved_at r) (a_expires_at r)
                      (Some (principal_user_id principal)) (Some now) in
    raise "attestation_not_active" when (negb (row_count p (attestations db) =? 1)%nat);;
    Ok (k, set_attestations (update_where p revoke (attestations db)) db))).

(** ** Reading *)

(** [ORDER BY proposed_at DESC, id ASC] *)
Definition newest_proposal (a b : (string * string * string) * attestation_row) : Prop :=
  a_proposed_at b.2 < a_proposed_at a.2 ∨ (a_proposed_at b.2 = a_proposed_at a.2 ∧ str_le (a_id a.2) (a_id b.2)).
#[export] Instance newest_proposal_dec a b : Decision (newest_proposal a b).
Proof. unfold newest_proposal. apply _. Defined.

(** backend/app/team_identity.py [TeamIdentityStore.list_public_identities] *)
Definition list_public_identities (db : team_db) (raw_now : datetime) (organization : string)
    : outcome (list PublicIdentityAttestation) :=
  traverse (λ kr : (string * string * string) * attestation_row,
              _public_identity_attestation_from_row kr.1 kr.2 (instant (_now raw_now)))
    (merge_sort newest_proposal (map_to_list (select_where (of_organization organization) (attestations db)))).

(** [state = 'approved' AND expires_at > ?] *)
Definition approved_now (now : Z) (row : attestation_row) : bool :=
  String.eqb (a_state row) "approved" && from_option (λ e, now <? e) false (a_expires_at row).

(** [ORDER BY ecosystem ASC, package_name ASC] *)
Definition package_order (a b : string * string) : Prop :=
  str_ltb a.1 b.1 = true ∨ (a.1 = b.1 ∧ str_le a.2 b.2).
#[export] Instance package_order_dec a b : Decision (package_order a b).
Proof. unfold package_order. apply _. Defined.

(** backend/app/team_identity.py [TeamIdentityStore.approved_public_identity_keys] *)
Definition approved_public_identity_keys (db : team_db) (raw_now : datetime) (organization : string) : list string :=
  let now := instant (_now raw_now) in
  (λ p : string * string, p.1 ++ ":" ++ p.2)%string <$>
    merge_sort package_order
      ((λ kr : (string * string * string) * attestation_row, (kr.1.1.2, kr.1.2)) <$>
         map_to_list (select_where (λ k row, of_organization organization k row && approved_now now row)
                        (attestations db))).

(** backend/app/team_identity.py [TeamIdentityStore.is_public_identity_approved] *)
Definition is_public_identity_approved (db : team_db) (raw_now : datetime)
    (organization ecosystem package_name : string) : bool :=
  match normalize_public_identity ecosystem package_name with
  | Err _ => false
  | Ok (eco, name) =>
      match attestations db !! (organization, eco, name) with
      | None => false
      | Some row => approved_now (instant (_now raw_now)) row
      end
  end.

(** ** What every table satisfies *)

(** A row of one of the organization's packages, in one of three states. *)
Definition attestation_ok (k : string * string * string) (row : attestation_row) : Prop :=
  (∃ raw, normalize_public_identity k.1.2 raw = Ok (k.1.2, k.2))
  ∧ 1 <= a_revision row ∧ 1 <= a_requested_ttl_days row <= PUBLIC_IDENTITY_ATTESTATION_MAX_TTL_DAYS
  ∧ match a_state row with
    | "pending" => a_approved_by row = None ∧ a_expires_at row = None ∧ a_revoked_by row = None
    | "approved" => is_Some (a_approved_by row) ∧ a_revoked_by row = None
                    ∧ ∃ t, a_approved_at row = Some t
                           ∧ a_expires_at row = Some (t + days (a_requested_ttl_days row))
    | "revoked" => is_Some (a_revoked_by row) ∧ is_Some (a_revoked_at row)
    | _ => False
    end.

Record attestations_ok (t : gmap (string * string * string) attestation_row) : Prop := AttestationsOk {
  ok_row : ∀ k row, t !! k = Some row → attestation_ok k row;
  ok_ids : ∀ k k' row row', t !! k = Some row → t !! k' = Some row' → a_id row = a_id row' → k = k';
  ok_limit : ∀ o, (row_count (of_organization o) t <= PUBLIC_IDENTITY_ATTESTATION_MAX_PER_ORGANIZATION)%nat
}.

(** The operations that write the table, by any principal at any time. *)
Inductive attestation_op : Type :=
| Propose (now : datetime) (new_id : string) (p : TeamPrincipal) (ecosystem package : string) (ttl : Z)
| Approve (now : datetime) (p : TeamPrincipal) (i : string)
| Revoke (now : datetime) (p : TeamPrincipal) (i : string).

Definition after_attestation (db : team_db) (op : attestation_op) : team_db :=
  match op with
  | Propose now i p e n ttl => (propose_public_identity db now i p e n ttl).2
  | Approve now p i => (approve_public_identity db now p i).2
  | Revoke now p i => (revoke_public_identity db now p i).2
  end.

(** ** Transitions *)

(** The three transitions of a package's row, by principal [p] at [now]. *)
Inductive attestation_step (p : TeamPrincipal) (now : Z) : option attestation_row → attestation_row → Prop :=
| step_propose old i ttl :
    mem (principal_role p) ["administrator"; "maintainer"] = true →
    1 <= ttl <= PUBLIC_IDENTITY_ATTESTATION_MAX_TTL_DAYS →
    (∀ row, old = Some row → _public_identity_status row now = Ok "expired" ∨ a_state row = "revoked") →
    attestation_step p now old
      (AttestationRow i "pending" (from_option (λ row, a_revision row + 1) 1 old) ttl (principal_user_id p) now
         None None None None None)
| step_approve row :
    principal_role p = "administrator" → a_state row = "pending" →
    attestation_step p now (Some row)
      (AttestationRow (a_id row) "approved" (a_revision row + 1) (a_requested_ttl_days row) (a_proposed_by row)
         (a_proposed_at row) (Some (principal_user_id p)) (Some now)
         (Some (now + days (a_requested_ttl_days row))) None None)
| step_revoke row :
    principal_role p = "administrator" → a_state row = "pending" ∨ approved_now now row = true →
    attestation_step p now (Some row)
      (AttestationRow (a_id row) "revoked" (a_revision row + 1) (a_requested_ttl_days row) (a_proposed_by row)
         (a_proposed_at row) (a_approved_by row) (a_approved_at row) (a_expires_at row)
         (Some (principal_user_id p)) (Some now)).

Definition op_principal (op : attestation_op) : TeamPrincipal :=
  match op with Propose _ _ p _ _ _ | Approve _ p _ | Revoke _ p _ => p end.
Definition op_time (op : attestation_op) : Z :=
  match op with Propose now _ _ _ _ _ | Approve now _ _ | Revoke now _ _ => instant (_now now) end.

Lemma read_back_db now r : (read_back now r).2 = r.2.
Proof. by destruct r. Qed.

Lemma status_expired_or row now s :
  _public_identity_status row now = Ok s → mem s ["pending"; "approved"] = false →
  _public_identity_status row now = Ok "expired" ∨ a_state row = "revoked".
Proof.
  unfold _public_identity_status. destruct (String.eqb (a_state row) "approved" && _); [by left|].
  destruct (negb (mem (a_state row) _)) eqn:E; [done|]. intros [= <-]. right. apply negb_false_iff in E.
  unfold mem in *. cbn in *. destruct (String.eqb_spec (a_state row) "pending"); [done|].
  destruct (String.eqb_spec (a_state row) "approved"); [done|].
  destruct (String.eqb_spec (a_state row) "revoked"); done.
Qed.

Lemma status_pending row now : _public_identity_status row now = Ok "pending" → a_state row = "pending".
Proof.
  unfold _public_identity_status. destruct (_ && _); [done|]. destruct (negb _); [done|]. by intros [= ->].
Qed.

Lemma with_id_unique t i o k row p :
  attestations_ok t → t !! k = Some row → with_id i o k row = true →
  ∀ k' row', t !! k' = Some row' → with_id i o k' row' && p row' = true → k' = k.
Proof.
  intros Hok Hk Hid k' row' Hk' Hid'. unfold with_id in *. to_prop.
  apply (ok_ids _ Hok k' k row' row); congruence.
Qed.

(** An [UPDATE] of the row with an identifier rewrites one row of the
    organization. *)
Lemma update_id_step db p now x cond f k row :
  attestations_ok (attestations db) → attestations db !! k = Some row →
  with_id x (principal_organization_id p) k row = true → cond row = true → a_id (f row) = a_id row →
  attestation_step p now (Some row) (f row) →
  ∃ k' row', k'.1.1 = principal_organization_id p
    ∧ set_attestations (update_where (λ k r, with_id x (principal_organization_id p) k r && cond r) f (attestations db)) db
      = set_attestations (<[k' := row']> (attestations db)) db
    ∧ attestation_step p now (attestations db !! k') row'
    ∧ (∃ raw, normalize_public_identity k'.1.2 raw = Ok (k'.1.2, k'.2))
    ∧ (∀ j r, j ≠ k' → attestations db !! j = Some r → a_id r ≠ a_id row')
    ∧ (attestations db !! k' = None →
       (row_count (of_organization k'.1.1) (attestations db) < PUBLIC_IDENTITY_ATTESTATION_MAX_PER_ORGANIZATION)%nat).
Proof.
  intros Hok Hk Hid Hc Hf Hstep. exists k, (f row). split; [by unfold with_id in Hid; to_prop|].
  split; [|split; [by rewrite Hk|split; [apply (ok_row _ Hok k row Hk)|split; [|congruence]]]].
  - f_equal. apply update_where_one; [done|by rewrite Hid|]. by eapply with_id_unique.
  - intros j r Hne Hj. rewrite Hf. intros E. apply Hne. by apply (ok_ids _ Hok j k r row).
Qed.

(** What one operation does to the table. *)
Lemma attestation_op_step db op :
  attestations_ok (attestations db) →
  after_attestation db op = db
  ∨ ∃ k row, k.1.1 = principal_organization_id (op_principal op)
      ∧ after_attestation db op = set_attestations (<[k := row]> (attestations db)) db
      ∧ attestation_step (op_principal op) (op_time op) (attestations db !! k) row
      ∧ (∃ raw, normalize_public_identity k.1.2 raw = Ok (k.1.2, k.2))
      ∧ (∀ k' row', k' ≠ k → attestations db !! k' = Some row' → a_id row' ≠ a_id row)
      ∧ (attestations db !! k = None →
         (row_count (of_organization k.1.1) (attestations db) < PUBLIC_IDENTITY_ATTESTATION_MAX_PER_ORGANIZATION)%nat).
Proof.
  intros Hok. destruct op as [now i p e n ttl|now p i|now p i]; cbn [after_attestation op_principal op_time];
    unfold propose_public_identity, approve_public_identity, revoke_public_identity; rewrite read_back_db;
    match goal with |- (transaction db ?b).2 = db ∨ _ =>
      destruct (transaction_db db b) as [E|(k & db' & Hb & E)]; [by left|right; rewrite E; clear E] end.
  - inv_ok Hb. destruct x as [eco name]. inv_ok Hb. rename select (normalize_public_identity_ttl _ = _) into Httl.
    unfold normalize_public_identity_ttl in Httl. inv_ok Httl. to_prop.
    set (o := principal_organization_id p) in *. set (t := attestations db) in *.
    rename select (match t !! _ with _ => _ end = Ok _) into Hold.
    rename select (normalize_public_identity e n = Ok _) into Hnorm.
    assert (eco = e) as ->.
    { clear -Hnorm. unfold normalize_public_identity in Hnorm. inv_ok Hnorm. done. }
    rename select (row_count _ _ <= _)%nat into Hids. rename select (bool_decide _ && (_ <=? _)%nat = false) into Hlim.
    eexists (o, e, name), _. split; [done|]. split; [done|]. split; [|split; [by exists n|split]].
    + apply step_propose; [done|done|]. intros row Hrow. fold t in Hrow. rewrite Hrow in Hold. cbn in Hold.
      inv_ok Hold. by eapply status_expired_or.
    + intros k' row' Hne Hk' Hid. cbn in Hid.
      assert (Hz : row_count (λ k row, negb (bool_decide (k = (o, e, name))) && (a_id row =? i)%string) t = 0%nat) by lia.
      rewrite row_count_zero in Hz. specialize (Hz k' row' Hk'). cbn in Hz.
      rewrite bool_decide_false, Hid, String.eqb_refl in Hz by done. done.
    + intros Hnone. cbn. fold t in Hnone. rewrite bool_decide_true in Hlim by done. cbn [andb] in Hlim. by to_prop.
  - inv_ok Hb. destruct x0 as [k0 row]. inv_ok Hb. to_prop.
    rename select (or_raise _ _ = Ok _) into Hf. apply or_raise_ok, find_row_Some in Hf as [Hk Hid].
    rename select (_public_identity_status _ _ = Ok _) into Hst. subst. apply status_pending in Hst.
    eapply (update_id_step db p _ x); [done|done|done| |done|].
    + by rewrite Hst.
    + replace (instant (plus_seconds (_now now) (a_requested_ttl_days row * 24 * 3600)))
        with (instant (_now now) + days (a_requested_ttl_days row))
        by (rewrite instant_plus_seconds; unfold days, hours, seconds; lia).
      by apply step_approve.
  - inv_ok Hb. destruct x0 as [k0 row]. inv_ok Hb. to_prop.
    rename select (or_raise _ _ = Ok _) into Hf. apply or_raise_ok, find_row_Some in Hf as [Hk Hid].
    apply andb_true_iff in Hid as [Hid Hrev].
    eapply (update_id_step db p _ x); [done|done|done|done|done|].
    apply step_revoke; [done|]. unfold revocable in Hrev. apply andb_true_iff in Hrev as [Hs Hr].
    unfold mem in Hs. cbn in Hs. rewrite orb_false_r in Hs. apply orb_true_iff in Hs as [Hs|Hs]; to_prop; [by left|right].
    unfold approved_now. rewrite Hs in *. cbn in Hr |- *. done.
Qed.

Lemma step_row_ok p now k old row :
  attestation_step p now old row → (∃ raw, normalize_public_identity k.1.2 raw = Ok (k.1.2, k.2)) →
  (∀ r, old = Some r → attestation_ok k r) → attestation_ok k row.
Proof.
  intros Hstep Hname Hold. destruct Hstep as [old i ttl Hrole Httl Hst|r Hrole Hst|r Hrole Hst].
  - split; [done|]. cbn. split; [|split; [exact Httl|done]].
    destruct old as [r|]; cbn; [|done]. destruct (Hold r eq_refl) as (_ & Hrev & _). lia.
  - destruct (Hold r eq_refl) as (_ & Hrev & Httl & _). split; [done|]. cbn. split; [lia|]. split; [done|].
    split; [by eexists|]. split; [done|]. by eexists.
  - destruct (Hold r eq_refl) as (_ & Hrev & Httl & _). split; [done|]. cbn. split; [lia|]. split; [done|].
    split; by eexists.
Qed.

Lemma after_attestation_ok db op : attestations_ok (attestations db) → attestations_ok (attestations (after_attestation db op)).
Proof.
  intros Hok. destruct (attestation_op_step db op Hok) as [->|(k & row & Ho & -> & Hstep & Hname & Hids & Hlim)]; [done|].
  cbn. split.
  - intros j r. destruct (decide (j = k)) as [->|Hne]; [|rewrite lookup_insert_ne by done; apply Hok].
    rewrite lookup_insert_eq. intros [= <-]. eapply step_row_ok; [done|done|]. intros r. apply Hok.
  - intros j j' r r'. destruct (decide (j = k)) as [->|Hne], (decide (j' = k)) as [->|Hne']; try done.
    + rewrite lookup_insert_eq, lookup_insert_ne by done. intros [= <-] Hj' E. by destruct (Hids j' r').
    + rewrite lookup_insert_eq, lookup_insert_ne by done. intros Hj [= <-] E. by destruct (Hids j r).
    + rewrite !lookup_insert_ne by done. apply Hok.
  - intros o. destruct (attestations db !! k) as [r|] eqn:Hk.
    + rewrite (row_count_replace _ _ _ r) by done. apply Hok.
    + rewrite row_count_fresh by done. pose proof (ok_limit _ Hok o) as Hl. specialize (Hlim eq_refl).
      unfold of_organization at 1. destruct (String.eqb_spec k.1.1 o) as [E|]; [rewrite E in Hlim; lia|lia].
Qed.

Lemma attestations_reachable db ops :
  attestations db = ∅ → attestations_ok (attestations (foldl after_attestation db ops)).
Proof.
  intros H0. assert (Hok : attestations_ok (attestations db)).
  { rewrite H0. split; [done|done|]. intros o. unfold row_count, select_where. rewrite map_filter_empty, map_size_empty. apply Nat.le_0_l. }
  clear H0. revert db Hok. induction ops as [|op ops IH]; intros db Hok; [done|]. by apply IH, after_attestation_ok.
Qed.

(** The attestation table is well formed. From an empty table, whatever
    proposals, approvals and revocations any principals make at any times:
    every row names a package in its canonical form, in one of the three
    states with exactly the columns that state has; an approved row expires
    between 1 and 90 days after its approval, as its proposal asked; no two
    rows share an identifier; no organization has more than 200. *)
Theorem attestations_well_formed db ops :
  attestations db = ∅ → attestations_ok (attestations (foldl after_attestation db ops)).
Proof. apply attestations_reachable. Qed.

(** The life of an attestation. In a table reached from the empty one an
    operation changes nothing or exactly one row, of the organization of its
    principal, by one of three steps: a maintainer or administrator proposes
    a package that has no row, or whose row is expired or revoked; an
    administrator approves a pending row, for the time proposed; an
    administrator revokes a row that is pending or approved and not yet
    expired. Every step counts one revision more. *)
Theorem attestation_lifecycle db ops op :
  attestations db = ∅ →
  let s := foldl after_attestation db ops in
  let s' := after_attestation s op in
  s' = s
  ∨ ∃ k row, k.1.1 = principal_organization_id (op_principal op)
      ∧ attestations s' = <[k := row]> (attestations s)
      ∧ attestation_step (op_principal op) (op_time op) (attestations s !! k) row
      ∧ a_revision row = from_option (λ r, a_revision r + 1) 1 (attestations s !! k).
Proof.
  intros H0 s s'. destruct (attestation_op_step s op) as [E|(k & row & Ho & E & Hstep & _)].
  - by apply attestations_reachable.
  - by left.
  - right. exists k, row. unfold s'. rewrite E. repeat (split; [done|]). by destruct Hstep.
Qed.

(** Approval is bounded. In a table reached from the empty one, a package
    counts as approved only under its canonical name, by a row some user
    approved, and only within the days its proposal asked for, at most 90,
    of that approval; a revocation ends it at once. *)
Theorem approval_expires db ops now organization ecosystem package :
  attestations db = ∅ →
  is_public_identity_approved (foldl after_attestation db ops) now organization ecosystem package = true →
  ∃ name row user approved,
    normalize_public_identity ecosystem package = Ok (ecosystem, name)
    ∧ attestations (foldl after_attestation db ops) !! (organization, ecosystem, name) = Some row
    ∧ a_state row = "approved" ∧ a_approved_by row = Some user ∧ a_approved_at row = Some approved
    ∧ instant (_now now) < approved + days (a_requested_ttl_days row) <= approved + days 90.
Proof.
  intros H0 Happ. pose proof (attestations_reachable db ops H0) as Hok.
  set (s := foldl after_attestation db ops) in *. unfold is_public_identity_approved in Happ.
  destruct (normalize_public_identity ecosystem package) as [[eco name]|] eqn:Hn; [|done].
  assert (eco = ecosystem) as -> by (clear -Hn; unfold normalize_public_identity in Hn; by inv_ok Hn).
  destruct (attestations s !! (organization, ecosystem, name)) as [row|] eqn:Hrow; [|done].
  unfold approved_now in Happ. apply andb_true_iff in Happ as [Hst He]. to_prop.
  destruct (ok_row _ Hok _ _ Hrow) as (_ & _ & Httl & Hs). rewrite Hst in Hs.
  destruct Hs as ([user Hu] & _ & t & Ht & Hexp). rewrite Hexp in He. cbn in He. to_prop.
  exists name, row, user, t. do 5 (split; [done|]).
  unfold PUBLIC_IDENTITY_ATTESTATION_MAX_TTL_DAYS, days, hours, seconds in *. lia.
Qed.

(** ** Concrete runs *)
Module Sample_attestations.
Definition at_day (n : Z) : datetime := DT (days n) (Some 0).
Definition maintainer : TeamPrincipal := Principal "u1" "mia" "org" "Org" "maintainer".
Definition admin : TeamPrincipal := Principal "u2" "ada" "org" "Org" "administrator".
Definition att_id : string := "0123456789abcdef0123456789abcdef".
Definition db0 : team_db :=
  TeamDb {["org" := OrganizationRow "Org" 0]}
    {["u1" := UserRow "mia" "" 1 0; "u2" := UserRow "ada" "" 1 0]} ∅ ∅ ∅ ∅.
Definition steps : list attestation_op :=
  [Propose (at_day 1) att_id maintainer "pypi" "My_Package" 30; Approve (at_day 2) maintainer att_id;
   Approve (at_day 3) admin att_id].
End Sample_attestations.
Import Sample_attestations.

Lemma attestations_well_formed_witness :
  attestations_ok (attestations (foldl after_attestation db0 steps))
  ∧ (a_state <$> attestations (foldl after_attestation db0 steps) !! ("org", "pypi", "my-package")) = Some "approved".
Proof. split; [apply attestations_well_formed; reflexivity|vm_compute; reflexivity]. Defined.

Lemma attestation_lifecycle_witness :
  let s := foldl after_attestation db0 (take 2 steps) in
  let s' := after_attestation s (Approve (at_day 3) admin att_id) in
  s' = s ∨ ∃ k row, k.1.1 = "org" ∧ attestations s' = <[k := row]> (attestations s)
             ∧ attestation_step admin (days 3) (attestations s !! k) row
             ∧ a_revision row = from_option (λ r, a_revision r + 1) 1 (attestations s !! k).
Proof. exact (attestation_lifecycle db0 (take 2 steps) (Approve (at_day 3) admin att_id) eq_refl). Defined.

Lemma approval_expires_witness :
  ∃ name row user approved,
    normalize_public_identity "pypi" "my.package" = Ok ("pypi", name)
    ∧ attestations (foldl after_attestation db0 steps) !! ("org", "pypi", name) = Some row
    ∧ a_state row = "approved" ∧ a_approved_by row = Some user ∧ a_approved_at row = Some approved
    ∧ instant (_now (at_day 32)) < approved + days (a_requested_ttl_days row) <= approved + days 90.
Proof. apply (approval_expires db0 steps); vm_compute; reflexivity. Defined.
