(* ===== verification/TeamMembers.v ===== *)
(** * TeamMembers: who may act in an organization

    The operations of [TeamIdentity] and [TeamAttestations] as one transition
    system, and what it preserves: every organization keeps an administrator
    who can sign in, a revoked membership is never restored, what happens in
    one organization changes nobody's authority in another, and an invitation
    makes one member with the role it states. *)

From S2P Require Import Prelude PyStr Sha256 BearerToken SqlTable Auth AuthState TeamIdentity TeamAttestations.
Local Open Scope Z_scope.

(** ** Operations *)

(** What a principal may ask for. *)
Inductive principal_op : Type :=
| CreateOrganization (now : datetime) (new_id name : string)
| ChangeRole (user role : string)
| RevokeMember (now : datetime) (user : string) (reconcile : option (unit → outcome unit))
| Invite (now : datetime) (new_id token username role : string)
| Provision (now : datetime) (new_id user digest : string)
| RevokeBinding (now : datetime) (binding : string)
| ProposePackage (now : datetime) (new_id ecosystem package : string) (ttl : Z)
| ApprovePackage (now : datetime) (i : string)
| RevokePackage (now : datetime) (i : string).

Inductive team_op : Type :=
| ByPrincipal (p : TeamPrincipal) (a : principal_op)
| AcceptInvitation (now : datetime) (salt new_user token password : string)
| PurgeInvitations (cutoff : datetime) (organization : option string)
| Reopen (now : datetime) (name password_hash : string).

Definition after_principal (ttl : Z) (db : team_db) (p : TeamPrincipal) (a : principal_op) : team_db :=
  match a with
  | CreateOrganization now i name => (create_organization db now i p name).2
  | ChangeRole user role => (change_member_role db p user role).2
  | RevokeMember now user reconcile => (revoke_member db now p user reconcile).2
  | Invite now i token username role => (create_invitation ttl db now i token p username role).2
  | Provision now i user digest => (provision_federated_identity db now i p user digest).2
  | RevokeBinding now i => (revoke_federated_identity db now p i).2
  | ProposePackage now i e n days => (propose_public_identity db now i p e n days).2
  | ApprovePackage now i => (approve_public_identity db now p i).2
  | RevokePackage now i => (revoke_public_identity db now p i).2
  end.

Definition after_team (ttl : Z) (db : team_db) (op : team_op) : team_db :=
  match op with
  | ByPrincipal p a => after_principal ttl db p a
  | AcceptInvitation now salt i token password => (accept_invitation db now salt i token password).2
  | PurgeInvitations cutoff o => (purge_terminal_invitations db cutoff o).2
  | Reopen now name hash => default db (open_store (Some db) now name hash).2
  end.

(** The principal is the one its user has in the organization now, as every
    route reads it in the request it serves. *)
Definition op_current (db : team_db) (op : team_op) : Prop :=
  match op with
  | ByPrincipal p _ => get_principal db (principal_user_id p) (principal_organization_id p) = Ok (Some p)
  | _ => True
  end.

Inductive team_reachable (ttl : Z) : team_db → Prop :=
| reach_open now name hash db :
    open_store None now name hash = (Ok tt, Some db) → team_reachable ttl db
| reach_step db op :
    team_reachable ttl db → op_current db op → team_reachable ttl (after_team ttl db op).

(** ** What an operation does to the members *)

Definition bootstrap_key : string * string := (TEAM_BOOTSTRAP_ORGANIZATION_ID, TEAM_BOOTSTRAP_ADMIN_ID).

(** The change of the organizations, users and memberships, in the
    organization [o], by the user [who] (if any is signed in). *)
Inductive member_step (db : team_db) (who : option string) (o : string) (db' : team_db) : Prop :=
| step_other :
    organizations db' = organizations db → users db' = users db → memberships db' = memberships db →
    member_step db who o db'
| step_organization name t user :
    who = Some user →
    organizations db !! o = None → is_Some (users db !! user) → memberships db !! (o, user) = None →
    organizations db' = <[o := OrganizationRow name t]> (organizations db) → users db' = users db →
    memberships db' = <[(o, user) := MembershipRow "administrator" t None]> (memberships db) →
    member_step db who o db'
| step_role user m r :
    active_membership db o user = Some m → mem r TEAM_ROLES = true →
    (user = TEAM_BOOTSTRAP_ADMIN_ID → r = "administrator") →
    (m_role m = "administrator" → r = "administrator" ∨ (1 < administrator_rows db o)%nat) →
    organizations db' = organizations db → users db' = users db →
    memberships db' = <[(o, user) := with_role r m]> (memberships db) →
    member_step db who o db'
| step_revoke_member user m t :
    active_membership db o user = Some m → user ≠ TEAM_BOOTSTRAP_ADMIN_ID →
    (m_role m = "administrator" → (1 < administrator_rows db o)%nat) →
    organizations db' = organizations db →
    memberships db' = <[(o, user) := with_revocation t m]> (memberships db) →
    (users db' = users db
     ∨ (users db' = alter (deprovisioned user) user (users db)
        ∧ (∀ o' m', memberships db' !! (o', user) = Some m' → unrevoked m' = false)
        ∧ (is_Some (users db !! user) →
           ∀ i u, i ≠ user → users db !! i = Some u → u_username u ≠ ("deprovisioned." ++ user)%string))) →
    member_step db who o db'
| step_join inv i user t :
    invitations db !! i = Some inv → i_organization_id inv = o → is_Some (organizations db !! o) →
    memberships db !! (o, user) = None →
    organizations db' = organizations db →
    memberships db' = <[(o, user) := MembershipRow (i_role inv) t None]> (memberships db) →
    ((users db' = users db ∧ ∃ u, users db !! user = Some u ∧ active_user u = true ∧ u_username u = i_username inv)
     ∨ (users db !! user = None ∧ (∀ j u, users db !! j = Some u → u_username u ≠ i_username inv)
        ∧ ∃ hash, users db' = <[user := UserRow (i_username inv) hash 1 t]> (users db))) →
    member_step db who o db'
| step_reopen name hash t :
    o = TEAM_BOOTSTRAP_ORGANIZATION_ID →
    (∀ i u, i ≠ TEAM_BOOTSTRAP_ADMIN_ID → users db !! i = Some u → u_username u ≠ TEAM_BOOTSTRAP_ADMIN_USERNAME) →
    organizations db' = <[o := OrganizationRow name (from_option o_created_at t (organizations db !! o))]> (organizations db) →
    users db' = <[TEAM_BOOTSTRAP_ADMIN_ID := UserRow TEAM_BOOTSTRAP_ADMIN_USERNAME hash 1
                    (from_option u_created_at t (users db !! TEAM_BOOTSTRAP_ADMIN_ID))]> (users db) →
    memberships db' = <[bootstrap_key := MembershipRow "administrator"
                          (from_option m_created_at t (memberships db !! bootstrap_key)) None]> (memberships db) →
    member_step db who o db'.

(** The organization an operation is about. *)
Definition op_scope (db : team_db) (op : team_op) : string :=
  match op with
  | ByPrincipal _ (CreateOrganization _ i _) => i
  | ByPrincipal p _ => principal_organization_id p
  | AcceptInvitation _ _ _ token _ =>
      from_option (λ r, i_organization_id r.2) ""
        (find_row (λ _ i, String.eqb (i_token_hash i) (hash_invitation_token token)) (invitations db))
  | PurgeInvitations _ _ => ""
  | Reopen _ _ _ => TEAM_BOOTSTRAP_ORGANIZATION_ID
  end.

Definition op_actor (op : team_op) : option string :=
  match op with ByPrincipal p _ => Some (principal_user_id p) | _ => None end.

Lemma active_membership_Some db o u m :
  active_membership db o u = Some m ↔ memberships db !! (o, u) = Some m ∧ unrevoked m = true.
Proof.
  unfold active_membership. destruct (memberships db !! (o, u)) as [m'|]; cbn; [|by split; [|intros [? _]]].
  destruct (unrevoked m') eqn:E; split; try done.
  - by intros [= <-].
  - by intros [[= <-] _].
  - intros [[= <-] Hu]. congruence.
Qed.

Lemma same_members_step db who o db' :
  organizations db' = organizations db ∧ users db' = users db ∧ memberships db' = memberships db → member_step db who o db'.
Proof. intros (? & ? & ?). by apply step_other. Qed.

(** The update of one unrevoked membership. *)
Lemma update_membership db o u m f :
  active_membership db o u = Some m →
  update_where (λ k m, bool_decide (k = (o, u)) && unrevoked m) f (memberships db)
  = <[(o, u) := f m]> (memberships db).
Proof.
  intros [Hm Hu]%active_membership_Some. apply update_where_one; [done|by rewrite bool_decide_true|].
  intros k' r' _ Hp. apply andb_true_iff in Hp as [Hp _]. by apply bool_decide_eq_true in Hp.
Qed.

(** Look at a transaction: rolled back, which [base] closes, or committed,
    with the path of its body in the context. *)
Ltac transacts db Hb base :=
  match goal with |- context [transaction db ?b] =>
    destruct (transaction_db db b) as [->|(? & ? & Hb & ->)]; [base|inv_ok Hb; to_prop] end.
Ltac committed db Hb := transacts db Hb ltac:(by apply same_members_step).

(** Follow the branches of a body to their ends. *)
Ltac branches Hb :=
  repeat (match type of Hb with context [match ?x with _ => _ end] => destruct x end; inv_ok Hb); done.

Lemma create_organization_step db now i p name :
  member_step db (Some (principal_user_id p)) i (create_organization db now i p name).2.
Proof.
  unfold create_organization. committed db Hb.
  rename select (insert_row i _ _ _ = _) into Ho. rename select (insert_row (i, _) _ _ _ = _) into Hm.
  apply insert_row_ok in Ho as [Ho ->], Hm as [Hm ->].
  rename select (user_exists _ _ = true) into Hu. unfold user_exists in Hu. to_prop.
  by eapply step_organization.
Qed.

Lemma team_role_ok r r' : _team_role r = Ok r' → r' = r ∧ mem r TEAM_ROLES = true.
Proof. unfold _team_role. destruct (mem r TEAM_ROLES); cbn; [by intros [= ->]|done]. Qed.

Lemma change_role_step db p user role :
  member_step db (Some (principal_user_id p)) (principal_organization_id p) (change_member_role db p user role).2.
Proof.
  unfold change_member_role. cbn [snd]. committed db Hb.
  rename select (_team_role _ = _) into Hr. apply team_role_ok in Hr as [-> Hr].
  rename select (or_raise _ _ = _) into Hm. apply or_raise_ok in Hm.
  rename select (_ && _ && _ = false) into Hlast. rename select (String.eqb user _ && _ = false) into Hboot.
  eapply (step_role db _ _ _ user); [done|exact Hr|..].
  - intros ->. rewrite String.eqb_refl in Hboot. cbn in Hboot. by to_prop.
  - intros Hadmin. rewrite Hadmin in Hlast.
    destruct (String.eqb_spec role "administrator"); [by left|right]. cbn in Hlast. by to_prop.
  - done.
  - done.
  - cbn. by apply update_membership.
Qed.

Lemma revoke_member_step {T} db now p user (f : option (unit → outcome T)) :
  member_step db (Some (principal_user_id p)) (principal_organization_id p) (revoke_member db now p user f).2.
Proof.
  unfold revoke_member. committed db Hb.
  rename select (or_raise _ _ = _) into Hm. apply or_raise_ok in Hm.
  rename select (_ && (_ <=? 1)%nat = false) into Hlast. match goal with H : (if _ then deprovision _ _ else _) = _ |- _ => rename H into Hus end.
  rewrite (update_membership _ _ _ _ _ Hm) in *.
  set (ms := insert _ _ (memberships db)) in *.
  eapply (step_revoke_member db _ _ _ user); [done|done|..|done|done|].
  - intros Hadmin. rewrite Hadmin in Hlast. cbn in Hlast. by to_prop.
  - cbn. destruct (row_count _ ms =? 0)%nat eqn:Hz; [|left; by injection Hus as ->]. right. to_prop.
    unfold deprovision in Hus. inv_ok Hus. rewrite row_count_zero in Hz. split; [done|]. split.
    + intros o' m' Hm'. specialize (Hz (o', user) m' Hm'). cbn in Hz. by rewrite String.eqb_refl in Hz.
    + intros Hu0 i u Hne Hi E. rename select (bool_decide _ && _ = false) into Hfree.
      rewrite bool_decide_true in Hfree by done. cbn [andb] in Hfree. to_prop.
      assert (Hz' : row_count (λ k u, negb (k =? user)%string && (u_username u =? "deprovisioned." ++ user)%string)
                (users db) = 0%nat) by lia.
      rewrite row_count_zero in Hz'. specialize (Hz' i u Hi). cbn in Hz'.
      by rewrite E, String.eqb_refl, (proj2 (String.eqb_neq i user)) in Hz'.
Qed.

Lemma accept_tx_ok db now token password hash new_user user o db' :
  accept_tx db now token password hash new_user = Ok ((user, o), db') →
  ∃ i inv us, find_row (λ _ i, String.eqb (i_token_hash i) (hash_invitation_token token)) (invitations db) = Some (i, inv)
    ∧ i_organization_id inv = o ∧ is_Some (organizations db !! o) ∧ acceptable now inv = true
    ∧ memberships db !! (o, user) = None
    ∧ db' = TeamDb (organizations db) us (<[(o, user) := MembershipRow (i_role inv) now None]> (memberships db))
              (federated db) (alter (accepted now) i (invitations db)) (attestations db)
    ∧ ((us = users db ∧ ∃ u, users db !! user = Some u ∧ active_user u = true ∧ u_username u = i_username inv
          ∧ Password.verify_admin_password (Some password) (Some (u_password_hash u)) = true)
       ∨ (user = new_user ∧ users db !! user = None ∧ (∀ j u, users db !! j = Some u → u_username u ≠ i_username inv)
          ∧ us = <[user := UserRow (i_username inv) hash 1 now]> (users db))).
Proof.
  unfold accept_tx. destruct (find_row _ (invitations db)) as [[i inv]|] eqn:Hf; [|done]. intros H. inv_ok H. to_prop.
  destruct x as [user' us]. inv_ok H. to_prop.
  rename select (organization_exists _ _ = true) into Ho. unfold organization_exists in Ho. to_prop.
  rename select (insert_row _ _ (memberships db) _ = _) into Hm. apply insert_row_ok in Hm as [Hm ->].
  exists i, inv, us. do 6 (split; [done|]). rename select (match find_row _ _ with _ => _ end = Ok _) into Hu.
  destruct (find_row (user_named (i_username inv)) (users db)) as [[e u]|] eqn:Hfu.
  - left. inv_ok Hu. to_prop. apply find_row_Some in Hfu as [Hu0 Hn]. unfold user_named in Hn. to_prop.
    split; [done|]. exists u. done.
  - right. inv_ok Hu. rename select (insert_row _ _ (users db) _ = _) into Hi. apply insert_row_ok in Hi as [Hi ->].
    split; [done|]. split; [done|]. split; [|done]. intros j u Hj E. rewrite find_row_None in Hfu.
    specialize (Hfu j u Hj). unfold user_named in Hfu. to_prop. done.
Qed.

Lemma accept_step ttl db now salt new_user token password :
  let op := AcceptInvitation now salt new_user token password in
  member_step db (op_actor op) (op_scope db op) (after_team ttl db op).
Proof.
  cbn [after_team op_scope op_actor]. unfold accept_invitation. destruct (_ || _); [by apply same_members_step|].
  destruct (Password.hash_password _ _ _) as [hash|]; [|by apply same_members_step]. cbn [snd].
  match goal with |- member_step _ _ _ (transaction db ?b).2 =>
    destruct (transaction_db db b) as [->|([user o] & db' & Hb & ->)]; [by apply same_members_step|] end.
  apply accept_tx_ok in Hb as (i & inv & us & Hf & Ho & Horg & Hacc & Hm & -> & Hus). rewrite Hf. cbn.
  apply find_row_Some in Hf as [Hi _].
  eapply (step_join db _ _ _ inv i user); [done|done|by rewrite Ho|by rewrite Ho|done|by rewrite Ho|].
  destruct Hus as [[-> (u & ? & ? & ? & _)]|(_ & ? & ? & ->)]; [left|right]; eauto.
Qed.

Lemma reopen_step ttl db now name hash :
  member_step db None TEAM_BOOTSTRAP_ORGANIZATION_ID (after_team ttl db (Reopen now name hash)).
Proof.
  cbn [after_team]. unfold open_store. destruct (normalize_organization_name name) as [n|]; [|by apply same_members_step].
  cbn [default from_option snd]. unfold id, _ensure_bootstrap_identity. committed db Hb. eapply step_reopen; [done| |done|done|done].
  intros i u Hne Hi E. match goal with H : (row_count ?p _ <= 0)%nat |- _ =>
    assert (Hz : row_count p (users db) = 0%nat) by lia end.
  rewrite row_count_zero in Hz. specialize (Hz i u Hi). cbn in Hz.
  by rewrite E, (proj2 (String.eqb_neq i _)) in Hz.
Qed.

Lemma read_back_members db now r :
  organizations r.2 = organizations db ∧ users r.2 = users db ∧ memberships r.2 = memberships db →
  organizations (read_back now r).2 = organizations db ∧ users (read_back now r).2 = users db
  ∧ memberships (read_back now r).2 = memberships db.
Proof. by rewrite read_back_db. Qed.

(** The other operations write other tables. *)
Lemma other_step ttl db p a :
  match a with CreateOrganization _ _ _ | ChangeRole _ _ | RevokeMember _ _ _ => False | _ => True end →
  organizations (after_principal ttl db p a) = organizations db ∧ users (after_principal ttl db p a) = users db
  ∧ memberships (after_principal ttl db p a) = memberships db.
Proof.
  destruct a; try done; intros _; cbn [after_principal];
    unfold create_invitation, provision_federated_identity, propose_public_identity, approve_public_identity,
      revoke_public_identity; try apply read_back_members;
    try (transacts db Hb ltac:(done); branches Hb).
  unfold revoke_federated_identity. case_match; [|done]. by repeat match goal with x : _ * _ |- _ => destruct x end.
Qed.

Lemma team_step ttl db op : member_step db (op_actor op) (op_scope db op) (after_team ttl db op).
Proof.
  destruct op as [p a|now salt i token password|cutoff o|now name hash].
  - destruct a; try (by apply same_members_step, other_step).
    + apply create_organization_step.
    + apply change_role_step.
    + apply revoke_member_step.
  - apply accept_step.
  - apply same_members_step. cbn [after_team]. unfold purge_terminal_invitations.
    transacts db Hb ltac:(done). done.
  - apply reopen_step.
Qed.

(** ** What every store satisfies *)

Definition is_admin (m : membership_row) : bool := String.eqb (m_role m) "administrator" && unrevoked m.

Record team_ok (db : team_db) : Prop := TeamOk {
  ok_names : ∀ i j u v, users db !! i = Some u → users db !! j = Some v → u_username u = u_username v → i = j;
  ok_refs : ∀ o u m, memberships db !! (o, u) = Some m →
    is_Some (organizations db !! o) ∧ is_Some (users db !! u) ∧ mem (m_role m) TEAM_ROLES = true;
  ok_active : ∀ o u m r, memberships db !! (o, u) = Some m → unrevoked m = true → users db !! u = Some r →
    active_user r = true;
  ok_admins : ∀ o, is_Some (organizations db !! o) →
    ∃ u m, memberships db !! (o, u) = Some m ∧ is_admin m = true;
  ok_bootstrap : ∃ u m, users db !! TEAM_BOOTSTRAP_ADMIN_ID = Some u ∧ active_user u = true
    ∧ u_username u = TEAM_BOOTSTRAP_ADMIN_USERNAME ∧ memberships db !! bootstrap_key = Some m ∧ is_admin m = true;
  ok_invited : ∀ i inv, invitations db !! i = Some inv → mem (i_role inv) TEAM_ROLES = true;
  ok_tokens : ∀ i j a b, invitations db !! i = Some a → invitations db !! j = Some b →
    i_token_hash a = i_token_hash b → i = j
}.

(** Two administrators: when the count passes one there is another. *)
Lemma another_admin db o u :
  (1 < administrator_rows db o)%nat →
  ∃ u' m', u' ≠ u ∧ memberships db !! (o, u') = Some m' ∧ is_admin m' = true.
Proof.
  unfold administrator_rows. set (p := λ (k : string * string) (m : membership_row), _). intros Hn.
  destruct (memberships db !! (o, u)) as [m|] eqn:Hm.
  - assert (Hd : (0 < row_count p (delete (o, u) (memberships db)))%nat).
    { rewrite <- (insert_delete_id _ _ _ Hm), row_count_fresh in Hn by apply lookup_delete_eq.
      destruct (p (o, u) m); lia. }
    apply row_count_pos in Hd as ([o' u'] & m' & Hm' & Hp). apply lookup_delete_Some in Hm' as [Hne Hm'].
    unfold p in Hp. cbn in Hp. to_prop. exists u', m'. subst o'. split; [congruence|]. split; [done|].
    unfold is_admin. apply andb_true_iff. split; [by apply String.eqb_eq|done].
  - assert (Hd : (0 < row_count p (memberships db))%nat) by lia.
    apply row_count_pos in Hd as ([o' u'] & m' & Hm' & Hp). unfold p in Hp. cbn in Hp. to_prop. subst o'.
    exists u', m'. split; [congruence|]. split; [done|].
    unfold is_admin. apply andb_true_iff. split; [by apply String.eqb_eq|done].
Qed.

(** Replacing a membership keeps an administrator, if it stays one or another
    is left. *)
Lemma admins_replace db o u m m' :
  team_ok db → memberships db !! (o, u) = Some m →
  (is_admin m = true → is_admin m' = true ∨ (1 < administrator_rows db o)%nat) →
  ∀ o', is_Some (organizations db !! o') → ∃ v n, <[(o, u) := m']> (memberships db) !! (o', v) = Some n ∧ is_admin n = true.
Proof.
  intros Hok Hm Hkeep o' Ho'. destruct (ok_admins _ Hok o' Ho') as (v & n & Hn & Hadmin).
  destruct (decide ((o, u) = (o', v))) as [[= <- <-]|Hne]; [|exists v, n; by rewrite lookup_insert_ne].
  assert (n = m) as -> by congruence. destruct (Hkeep Hadmin) as [H'|Hcount].
  - exists u, m'. by rewrite lookup_insert_eq.
  - destruct (another_admin db o u Hcount) as (w & m2 & Hw & Hm2 & Ha). exists w, m2.
    by rewrite lookup_insert_ne by congruence.
Qed.

Lemma with_role_admin r m : unrevoked m = true → r = "administrator" → is_admin (with_role r m) = true.
Proof. intros Hu ->. unfold is_admin, unrevoked in *. cbn. done. Qed.

Lemma deprovisioned_name i u : u_username (deprovisioned i u) = ("deprovisioned." ++ i)%string.
Proof. done. Qed.

(** *** Each step keeps it *)

Lemma member_step_names db who o db' : team_ok db → member_step db who o db' →
  ∀ i j u v, users db' !! i = Some u → users db' !! j = Some v → u_username u = u_username v → i = j.
Proof.
  intros Hok Hstep. assert (Hsame : users db' = users db →
    ∀ i j u v, users db' !! i = Some u → users db' !! j = Some v → u_username u = u_username v → i = j)
    by (intros ->; apply Hok).
  assert (Hput : ∀ k u0, users db' = <[k := u0]> (users db) →
    (∀ i u, i ≠ k → users db !! i = Some u → u_username u ≠ u_username u0) →
    ∀ i j u v, users db' !! i = Some u → users db' !! j = Some v → u_username u = u_username v → i = j).
  { intros k u0 -> Hfree i j u v. destruct (decide (i = k)) as [->|Hi], (decide (j = k)) as [->|Hj]; try done.
    - rewrite lookup_insert_eq, lookup_insert_ne by done. intros [= <-] Hv E. by destruct (Hfree j v Hj Hv).
    - rewrite lookup_insert_eq, lookup_insert_ne by done. intros Hu [= <-] E. by destruct (Hfree i u Hi Hu).
    - rewrite !lookup_insert_ne by done. apply Hok. }
  destruct Hstep as [_ Hu _|? ? ? _ _ _ _ _ Hu _|? ? ? _ _ _ _ _ Hu _|user ? ? _ _ _ _ _ Hu|inv i user t _ _ _ _ _ _ Hu
                    |? hash ? _ Hfree _ Hu _]; try (by apply Hsame).
  - destruct Hu as [Hu|(Hu & _ & Hfree)]; [by apply Hsame|].
    destruct (users db !! user) as [u0|] eqn:Hu0.
    + apply (Hput user (deprovisioned user u0)).
      * rewrite Hu. apply map_eq. intros k. destruct (decide (k = user)) as [->|];
          [by rewrite lookup_alter_eq, lookup_insert_eq, Hu0|by rewrite lookup_alter_ne, lookup_insert_ne].
      * intros i u Hi. apply Hfree; [by eexists|done].
    + apply Hsame. rewrite Hu. apply map_eq. intros k. destruct (decide (k = user)) as [->|];
        [by rewrite lookup_alter_eq, Hu0|by rewrite lookup_alter_ne].
  - destruct Hu as [[Hu _]|(Hnone & Hfree & hash & Hu)]; [by apply Hsame|].
    apply (Hput _ _ Hu). intros j u _. apply Hfree.
  - apply (Hput _ _ Hu). done.
Qed.

Lemma member_step_refs db who o db' :
  team_ok db → (∀ i inv, invitations db !! i = Some inv → mem (i_role inv) TEAM_ROLES = true) →
  member_step db who o db' →
  ∀ o' u m, memberships db' !! (o', u) = Some m →
    is_Some (organizations db' !! o') ∧ is_Some (users db' !! u) ∧ mem (m_role m) TEAM_ROLES = true.
Proof.
  intros Hok Hinv Hstep.
  assert (Hput : ∀ o0 u0 m0, memberships db' = <[(o0, u0) := m0]> (memberships db) →
    (∀ i, is_Some (organizations db !! i) → is_Some (organizations db' !! i)) →
    (∀ i, is_Some (users db !! i) → is_Some (users db' !! i)) →
    is_Some (organizations db' !! o0) → is_Some (users db' !! u0) → mem (m_role m0) TEAM_ROLES = true →
    ∀ o' u m, memberships db' !! (o', u) = Some m →
      is_Some (organizations db' !! o') ∧ is_Some (users db' !! u) ∧ mem (m_role m) TEAM_ROLES = true).
  { intros o0 u0 m0 -> Ho Hu Ho0 Hu0 Hr o' u m.
    destruct (decide ((o', u) = (o0, u0))) as [[= -> ->]|Hne]; [rewrite lookup_insert_eq; by intros [= <-]|].
    rewrite lookup_insert_ne by done. intros Hm. destruct (ok_refs _ Hok _ _ _ Hm) as (? & ? & ?). eauto. }
  assert (Hins : ∀ {V} (t : gmap string V) k v i, is_Some (t !! i) → is_Some (<[k := v]> t !! i)).
  { intros V t k v i Hi. rewrite lookup_insert_is_Some'. by right. }
  destruct Hstep as [Ho Hu Hm|n t w _ Hn Hwho _ Ho Hu Hm|user m r Ha Hr _ _ Ho Hu Hm|user m t Ha _ _ Ho Hm Hu
                    |inv i user t Hi <- Horg Hnone Ho Hm Hu|n hash t -> Hfree Ho Hu Hm].
  - intros o' u m. rewrite Ho, Hu, Hm. apply Hok.
  - apply (Hput _ _ _ Hm); rewrite ?Ho, ?Hu; try done; [|rewrite lookup_insert_eq; by eexists]. intros i. apply Hins.
  - apply active_membership_Some in Ha as [Ha _]. destruct (ok_refs _ Hok _ _ _ Ha) as (? & ? & ?).
    by apply (Hput _ _ _ Hm); rewrite ?Ho, ?Hu.
  - apply active_membership_Some in Ha as [Ha _]. destruct (ok_refs _ Hok _ _ _ Ha) as (? & ? & ?).
    assert (Hkeep : ∀ i, is_Some (users db !! i) → is_Some (users db' !! i)).
    { destruct Hu as [->|(-> & _)]; [done|]. intros j. rewrite lookup_alter_is_Some. done. }
    apply (Hput _ _ _ Hm); rewrite ?Ho; eauto.
  - assert (Hkeep : ∀ i, is_Some (users db !! i) → is_Some (users db' !! i)).
    { destruct Hu as [[-> _]|(_ & _ & hash & ->)]; [done|]. intros j. apply Hins. }
    apply (Hput _ _ _ Hm); rewrite ?Ho; eauto.
    destruct Hu as [[-> (u & -> & _)]|(_ & _ & hash & ->)]; [by eexists|rewrite lookup_insert_eq; by eexists].
  - apply (Hput _ _ _ Hm); rewrite ?Ho, ?Hu; try done; try (intros i; apply Hins); rewrite lookup_insert_eq; by eexists.
Qed.

Lemma member_step_active db who o db' :
  team_ok db → (∀ w u, who = Some w → users db !! w = Some u → active_user u = true) →
  member_step db who o db' →
  ∀ o' u m r, memberships db' !! (o', u) = Some m → unrevoked m = true → users db' !! u = Some r → active_user r = true.
Proof.
  intros Hok Hwho Hstep o' u m r.
  destruct Hstep as [_ Hu Hm|n t w Hw Hn _ Hfresh _ Hu Hm|user m0 r0 Ha _ _ _ _ Hu Hm|user m0 t Ha _ _ _ Hm Hu
                    |inv i user t _ _ _ Hnone _ Hm Hu|n hash t -> _ _ Hu Hm]; rewrite Hm.
  - rewrite Hu. apply Hok.
  - rewrite Hu. destruct (decide ((o', u) = (o, w))) as [[= -> ->]|Hne].
    + intros _ _. by apply Hwho.
    + rewrite lookup_insert_ne by done. apply Hok.
  - rewrite Hu. apply active_membership_Some in Ha as [Ha Hun].
    destruct (decide ((o', u) = (o, user))) as [[= -> ->]|Hne]; [|rewrite lookup_insert_ne by done; apply Hok].
    intros _ _. by apply (ok_active _ Hok o user m0).
  - intros Hm' Hun. assert (Hold : (o', u) ≠ (o, user) ∧ memberships db !! (o', u) = Some m).
    { destruct (decide ((o', u) = (o, user))) as [E|Hne]; [|by rewrite lookup_insert_ne in Hm'].
      rewrite E, lookup_insert_eq in Hm'. injection Hm' as <-. done. }
    destruct Hu as [->|(-> & Hgone & _)]; [apply (ok_active _ Hok o' u m); [apply Hold|done]|].
    destruct (decide (u = user)) as [->|Hne].
    + rewrite Hm in Hgone. rewrite (Hgone o' m Hm') in Hun. done.
    + rewrite lookup_alter_ne by done. by apply (ok_active _ Hok o' u m); [apply Hold|].
  - destruct (decide ((o', u) = (o, user))) as [[= -> ->]|Hne].
    + intros _ _. destruct Hu as [[-> (v & Hv & Hact & _)]|(_ & _ & hash & ->)].
      * intros Hr. congruence.
      * rewrite lookup_insert_eq. by intros [= <-].
    + rewrite lookup_insert_ne by done. intros Hm' Hun. destruct (ok_refs _ Hok _ _ _ Hm') as (_ & [v Hv] & _).
      destruct Hu as [[-> _]|(Hno & _ & hash & ->)]; [by apply (ok_active _ Hok o' u m)|].
      rewrite lookup_insert_ne by congruence. by apply (ok_active _ Hok o' u m).
  - rewrite Hu. destruct (decide (u = TEAM_BOOTSTRAP_ADMIN_ID)) as [->|Hne]; [rewrite lookup_insert_eq; by intros _ _ [= <-]|].
    rewrite !lookup_insert_ne by (unfold bootstrap_key; congruence). apply Hok.
Qed.

Lemma member_step_admins db who o db' :
  team_ok db → member_step db who o db' →
  ∀ o', is_Some (organizations db' !! o') → ∃ u m, memberships db' !! (o', u) = Some m ∧ is_admin m = true.
Proof.
  intros Hok Hstep o'.
  destruct Hstep as [Ho _ Hm|n t w _ Hn _ Hfresh Ho _ Hm|user m0 r Ha _ _ Hlast Ho _ Hm|user m0 t Ha _ Hlast Ho Hm _
                    |inv i user t _ _ _ Hnone Ho Hm _|n hash t -> _ Ho _ Hm]; rewrite Ho, Hm.
  - apply Hok.
  - destruct (decide (o' = o)) as [->|Hne].
    + intros _. exists w, (MembershipRow "administrator" t None). by rewrite lookup_insert_eq.
    + rewrite lookup_insert_ne by done. intros (u & m & Hu & Hadm)%(ok_admins _ Hok). exists u, m.
      by rewrite lookup_insert_ne by congruence.
  - apply active_membership_Some in Ha as [Ha Hun]. apply (admins_replace db o user m0); [done|done|].
    intros Hadm. apply andb_true_iff in Hadm as [Hadm _]. to_prop.
    destruct (Hlast Hadm) as [->|Hc]; [left; by apply with_role_admin|by right].
  - apply active_membership_Some in Ha as [Ha Hun]. apply (admins_replace db o user m0); [done|done|].
    intros Hadm. apply andb_true_iff in Hadm as [Hadm _]. to_prop. right. by apply Hlast.
  - intros (u & m & Hu & Hadm)%(ok_admins _ Hok). exists u, m. by rewrite lookup_insert_ne by congruence.
  - destruct (decide (o' = TEAM_BOOTSTRAP_ORGANIZATION_ID)) as [->|Hne].
    + intros _. eexists TEAM_BOOTSTRAP_ADMIN_ID, _. split; [apply lookup_insert_eq|done].
    + rewrite lookup_insert_ne by done. intros (u & m & Hu & Hadm)%(ok_admins _ Hok). exists u, m.
      by rewrite lookup_insert_ne by (unfold bootstrap_key; congruence).
Qed.

Lemma member_step_bootstrap db who o db' : team_ok db → member_step db who o db' →
  ∃ u m, users db' !! TEAM_BOOTSTRAP_ADMIN_ID = Some u ∧ active_user u = true
    ∧ u_username u = TEAM_BOOTSTRAP_ADMIN_USERNAME ∧ memberships db' !! bootstrap_key = Some m ∧ is_admin m = true.
Proof.
  intros Hok Hstep. destruct (ok_bootstrap _ Hok) as (u & m & Hu0 & Hact & Hname & Hm0 & Hadm).
  destruct Hstep as [_ Hu Hm|n t w Hw Hn _ Hfresh _ Hu Hm|user m0 r Ha _ Hboot _ _ Hu Hm|user m0 t Ha Hne _ _ Hm Hu
                    |inv i user t _ _ _ Hnone _ Hm Hu|n hash t _ _ _ Hu Hm].
  - exists u, m. by rewrite Hu, Hm.
  - exists u, m. rewrite Hu, Hm. by rewrite lookup_insert_ne by congruence.
  - destruct (decide ((o, user) = bootstrap_key)) as [E|Hne].
    + exists u, (with_role r m0). rewrite Hu, Hm, E, lookup_insert_eq. do 4 (split; [done|]).
      apply active_membership_Some in Ha as [Ha Hun]. apply with_role_admin; [done|]. apply Hboot.
      by injection E.
    + exists u, m. rewrite Hu, Hm. by rewrite lookup_insert_ne by done.
  - exists u, m. assert (Hu' : users db' !! TEAM_BOOTSTRAP_ADMIN_ID = Some u)
      by (destruct Hu as [->|(-> & _)]; [done|by rewrite lookup_alter_ne by done]).
    rewrite Hu', Hm. by rewrite lookup_insert_ne by (unfold bootstrap_key; congruence).
  - exists u, m. assert (Hu' : users db' !! TEAM_BOOTSTRAP_ADMIN_ID = Some u).
    { destruct Hu as [[-> _]|(Hno & _ & hash & ->)]; [done|]. by rewrite lookup_insert_ne by congruence. }
    rewrite Hu', Hm. by rewrite lookup_insert_ne by congruence.
  - eexists _, _. rewrite Hu, Hm, !lookup_insert_eq. by do 4 (split; [done|]).
Qed.

(** *** Invitations *)

(** A row of the invitations after an operation: an old one, with at most its
    two outcome columns set, or the new one of [create_invitation]. *)
Definition same_terms (a b : invitation_row) : Prop :=
  i_token_hash a = i_token_hash b ∧ i_organization_id a = i_organization_id b
  ∧ i_username a = i_username b ∧ i_role a = i_role b
  ∧ (is_Some (i_accepted_at b) → is_Some (i_accepted_at a)).

Definition issued (op : team_op) (i : string) (inv : invitation_row) : Prop :=
  match op with
  | ByPrincipal p (Invite _ j token _ _) =>
      i = j ∧ i_token_hash inv = hash_invitation_token token ∧ i_organization_id inv = principal_organization_id p
      ∧ principal_role p = "administrator" ∧ mem (i_role inv) TEAM_ROLES = true
  | _ => False
  end.

Lemma same_terms_refl a : same_terms a a.
Proof. by repeat split. Qed.

Lemma after_invitations ttl db op i inv :
  invitations (after_team ttl db op) !! i = Some inv →
  (∃ inv0, invitations db !! i = Some inv0 ∧ same_terms inv inv0) ∨ (invitations db !! i = None ∧ issued op i inv
     ∧ ∀ j x, invitations db !! j = Some x → i_token_hash x ≠ i_token_hash inv).
Proof.
  assert (Hsame : ∀ db', invitations db' = invitations db → invitations db' !! i = Some inv →
    (∃ inv0, invitations db !! i = Some inv0 ∧ same_terms inv inv0) ∨ (invitations db !! i = None ∧ issued op i inv
     ∧ ∀ j x, invitations db !! j = Some x → i_token_hash x ≠ i_token_hash inv)).
  { intros db' -> Hi. left. exists inv. split; [done|apply same_terms_refl]. }
  destruct op as [p a|now salt new_user token password|cutoff o|now name hash]; cbn [after_team].
  - destruct a as [now j name|user role|now user f|now j token username role|now j user digest|now j|now j e n days|now j|now j];
      cbn [after_principal].
    4: { unfold create_invitation. transacts db Hb ltac:(by apply Hsame).
         rename select (insert_row _ _ _ _ = _) into Hi. apply insert_row_ok in Hi as [Hj ->].
         rename select (_team_role _ = _) into Hr. apply team_role_ok in Hr as [-> Hr]. cbn.
         rewrite update_where_lookup in Hj. apply fmap_None in Hj.
         destruct (decide (i = j)) as [->|Hne].
         - rewrite lookup_insert_eq. intros [= <-]. right. split; [done|]. split; [done|]. intros k x Hk E.
           match goal with H : (row_count ?q ?t <= 0)%nat |- _ => assert (Hz : row_count q t = 0%nat) by lia end.
           rewrite row_count_zero in Hz. specialize (Hz k). rewrite update_where_lookup, Hk in Hz.
           specialize (Hz _ eq_refl). cbn in Hz, E.
           match type of Hz with (i_token_hash (if ?b then _ else _) =? _)%string = _ => destruct b end;
             cbn in Hz; by rewrite E, String.eqb_refl in Hz.
         - rewrite lookup_insert_ne, update_where_lookup by done. intros (inv0 & Hi0 & ->)%fmap_Some. left.
           exists inv0. split; [done|]. match goal with |- same_terms (if ?b then _ else _) _ => destruct b end; [by repeat split|apply same_terms_refl]. }
    all: apply Hsame.
    + unfold create_organization. transacts db Hb ltac:(done). done.
    + unfold change_member_role. cbn [snd]. transacts db Hb ltac:(done). done.
    + unfold revoke_member. transacts db Hb ltac:(done). done.
    + unfold provision_federated_identity. transacts db Hb ltac:(done).
      branches Hb.
    + unfold revoke_federated_identity. case_match; [|done]. by repeat match goal with x : _ * _ |- _ => destruct x end.
    + unfold propose_public_identity. rewrite read_back_db. transacts db Hb ltac:(done).
      branches Hb.
    + unfold approve_public_identity. rewrite read_back_db. transacts db Hb ltac:(done).
      branches Hb.
    + unfold revoke_public_identity. rewrite read_back_db. transacts db Hb ltac:(done).
      branches Hb.
  - unfold accept_invitation. destruct (_ || _); [by apply Hsame|].
    destruct (Password.hash_password _ _ _) as [hash|]; [|by apply Hsame]. cbn [snd].
    match goal with |- context [transaction db ?b] =>
      destruct (transaction_db db b) as [->|([user o] & db' & Hb & ->)]; [by apply Hsame|] end.
    apply accept_tx_ok in Hb as (j & inv' & us & _ & _ & _ & _ & _ & -> & _). cbn.
    destruct (decide (i = j)) as [->|Hne]; [|rewrite lookup_alter_ne by done; by apply Hsame].
    rewrite lookup_alter_eq. intros (inv0 & Hi0 & ->)%fmap_Some. left. exists inv0. split; [done|]. by repeat split.
  - unfold purge_terminal_invitations. transacts db Hb ltac:(by apply Hsame).
    cbn. intros [Hi _]%delete_where_Some. left. exists inv. split; [done|apply same_terms_refl].
  - unfold open_store. destruct (normalize_organization_name name); [|by apply Hsame]. cbn.
    unfold _ensure_bootstrap_identity. match goal with |- context [transaction ?d ?b] =>
      destruct (transaction_db d b) as [->|(? & ? & Hb & ->)]; [by apply Hsame|inv_ok Hb; by apply Hsame] end.
Qed.

(** ** Reachable stores *)

Lemma principal_active db user o p u :
  get_principal db user o = Ok (Some p) → users db !! user = Some u → active_user u = true.
Proof.
  unfold get_principal, member_row. intros Hp Hu. rewrite Hu in Hp. cbn in Hp.
  destruct (organizations db !! o); [|done]. cbn in Hp. destruct (active_membership db o user); [|done]. cbn in Hp.
  by destruct (active_user u).
Qed.

Lemma team_step_ok ttl db op : team_ok db → op_current db op → team_ok (after_team ttl db op).
Proof.
  intros Hok Hcur. pose proof (team_step ttl db op) as Hstep. split.
  - by eapply member_step_names.
  - eapply member_step_refs; [done|apply Hok|done].
  - eapply member_step_active; [done| |done]. destruct op as [p a| | |]; try done.
    intros w u [= <-]. by eapply principal_active.
  - by eapply member_step_admins.
  - by eapply member_step_bootstrap.
  - intros i inv [(inv0 & Hi & Hsame)|(_ & Hiss & _)]%after_invitations.
    + destruct Hsame as (_ & _ & _ & -> & _). by eapply ok_invited.
    + destruct op as [p []| | |]; try done. by destruct Hiss as (_ & _ & _ & _ & ?).
  - intros i j a b [(a0 & Hi & (Ha & _))|(_ & Ha & Hfa)]%after_invitations
      [(b0 & Hj & (Hb & _))|(_ & Hb & Hfb)]%after_invitations E.
    + apply (ok_tokens _ Hok i j a0 b0); congruence.
    + destruct (Hfb i a0 Hi). congruence.
    + destruct (Hfa j b0 Hj). congruence.
    + destruct op as [p []| | |]; try done. destruct Ha as [-> _], Hb as [-> _]. done.
Qed.

Lemma opened_ok now name hash db : open_store None now name hash = (Ok tt, Some db) → team_ok db.
Proof.
  unfold open_store. destruct (normalize_organization_name name) as [n|]; [|done]. cbn [default from_option].
  unfold _ensure_bootstrap_identity. intros E.
  match type of E with ((transaction ?d ?b).1, Some (transaction ?d ?b).2) = _ =>
    destruct b as [[a db0]|] eqn:Hb; [|done] end.
  cbn in E. injection E as -> ->. inv_ok Hb. cbn [id organizations users memberships federated invitations attestations]. rewrite !lookup_empty. cbn [from_option].
  split; cbn.
  - intros i j u v [<- _]%lookup_singleton_Some [<- _]%lookup_singleton_Some. done.
  - intros o u m [[= <- <-] <-]%lookup_singleton_Some. rewrite !lookup_insert_eq. repeat split; by eexists.
  - intros o u m r _ _ [_ <-]%lookup_singleton_Some. done.
  - intros o [r [<- _]%lookup_singleton_Some]. eexists _, _. split; [apply lookup_insert_eq|done].
  - eexists _, _. split; [apply lookup_insert_eq|]. do 2 (split; [done|]). split; [apply lookup_insert_eq|done].
  - done.
  - done.
Qed.

Lemma team_reachable_ok ttl db : team_reachable ttl db → team_ok db.
Proof. induction 1 as [now name hash db H|db op _ IH Hcur]; [by eapply opened_ok|by apply team_step_ok]. Qed.

(** ** Authority *)

Lemma get_principal_member db user o u r m :
  users db !! user = Some u → active_user u = true → organizations db !! o = Some r →
  active_membership db o user = Some m → mem (m_role m) TEAM_ROLES = true →
  get_principal db user o = Ok (Some (Principal user (u_username u) o (o_name r) (m_role m))).
Proof.
  intros Hu Hact Ho Hm Hr. unfold get_principal, member_row. rewrite Hu, Ho, Hm. cbn. rewrite Hact.
  unfold _principal_from_row, _team_role. by rewrite Hr.
Qed.

Lemma get_principal_none db user o : active_membership db o user = None → get_principal db user o = Ok None.
Proof.
  intros Hm. unfold get_principal, member_row. destruct (users db !! user); [|done]. cbn.
  destruct (organizations db !! o); [|done]. cbn. by rewrite Hm.
Qed.

Lemma get_principal_inv db user o p :
  get_principal db user o = Ok (Some p) →
  ∃ u r m, users db !! user = Some u ∧ active_user u = true ∧ organizations db !! o = Some r
    ∧ active_membership db o user = Some m ∧ mem (m_role m) TEAM_ROLES = true
    ∧ p = Principal user (u_username u) o (o_name r) (m_role m).
Proof.
  unfold get_principal, member_row. destruct (users db !! user) as [u|]; [|done]. cbn.
  destruct (organizations db !! o) as [r|]; [|done]. cbn.
  destruct (active_membership db o user) as [m|]; [|done]. cbn. destruct (active_user u) eqn:Hact; [|done].
  unfold _principal_from_row, _team_role. destruct (mem (m_role m) TEAM_ROLES) eqn:Hr; [|done]. cbn.
  intros [= <-]. exists u, r, m. done.
Qed.

(** C14: Somebody can always administer. In every store the operations can
    lead to, each asked for by a current principal, every organization has a
    user who can sign in and whom [get_principal] gives as its administrator,
    and the bootstrap administrator is one in the bootstrap workspace. *)
Theorem administrators_remain ttl db o :
  team_reachable ttl db → is_Some (organizations db !! o) →
  (∃ user p, get_principal db user o = Ok (Some p) ∧ principal_role p = "administrator")
  ∧ (is_Some (organizations db !! TEAM_BOOTSTRAP_ORGANIZATION_ID) →
     ∃ p, get_principal db TEAM_BOOTSTRAP_ADMIN_ID TEAM_BOOTSTRAP_ORGANIZATION_ID = Ok (Some p)
          ∧ principal_role p = "administrator").
Proof.
  intros Hok%team_reachable_ok [r Hr].
  assert (Hadmin : ∀ o r user m, organizations db !! o = Some r → memberships db !! (o, user) = Some m →
    is_admin m = true → ∃ p, get_principal db user o = Ok (Some p) ∧ principal_role p = "administrator").
  { intros o1 r1 user m Hr1 Hm Ha. apply andb_true_iff in Ha as [Hrole Hun]. to_prop.
    destruct (ok_refs _ Hok _ _ _ Hm) as (_ & [u Hu] & Hroles).
    eexists. split.
    - apply get_principal_member with (r := r1) (m := m); try done; [by eapply ok_active|by apply active_membership_Some].
    - exact Hrole. }
  split.
  - destruct (ok_admins _ Hok o (ex_intro _ r Hr)) as (user & m & Hm & Ha). exists user. by eapply Hadmin.
  - intros [r' Hr']. destruct (ok_bootstrap _ Hok) as (u & m & _ & _ & _ & Hm & Ha). by eapply Hadmin.
Qed.

(** *** Revocation *)

Lemma revoked_row_stays db who o db' k m :
  member_step db who o db' → k ≠ bootstrap_key → memberships db !! k = Some m → unrevoked m = false →
  memberships db' !! k = Some m.
Proof.
  intros Hstep Hk Hm Hun.
  destruct Hstep as [_ _ E|n t w _ _ _ Hfresh _ _ E|user m0 r Ha _ _ _ _ _ E|user m0 t Ha _ _ _ E _
                    |inv i user t _ _ _ Hnone _ E _|n hash t _ _ _ _ E]; rewrite E; try done;
    try (apply active_membership_Some in Ha as [Ha Hun']); rewrite lookup_insert_ne; try done; intros <-; congruence.
Qed.

Lemma revoked_rows_stay ttl ops : ∀ db k m,
  k ≠ bootstrap_key → memberships db !! k = Some m → unrevoked m = false →
  memberships (foldl (after_team ttl) db ops) !! k = Some m.
Proof.
  induction ops as [|op ops IH]; intros db k m Hk Hm Hun; [done|]. cbn. apply IH; [done| |done].
  eapply revoked_row_stays; [apply team_step|done..].
Qed.

(** What a successful revocation leaves. *)
Lemma revoked_member_row {T} db now p user (f : option (unit → outcome T)) r :
  (revoke_member db now p user f).1 = Ok r →
  user ≠ TEAM_BOOTSTRAP_ADMIN_ID ∧ principal_role p = "administrator"
  ∧ ∃ m, memberships (revoke_member db now p user f).2 !! (principal_organization_id p, user) = Some m
         ∧ unrevoked m = false.
Proof.
  unfold revoke_member. intros Hb%transaction_ok. set (db' := (transaction db _).2) in *. clearbody db'.
  inv_ok Hb. to_prop. rename select (or_raise _ _ = _) into Hm. apply or_raise_ok in Hm.
  split; [done|]. split; [done|]. eexists. cbn. rewrite (update_membership _ _ _ _ _ Hm), lookup_insert_eq. done.
Qed.

(** Revocation is final. Once [revoke_member] has succeeded, and whatever
    operations follow (new invitations and their acceptance, federated
    identities, reopening the store among them), the user is never again a
    principal of that organization. *)
Theorem revocation_is_final {T} ttl db now p user (f : option (unit → outcome T)) r ops :
  (revoke_member db now p user f).1 = Ok r →
  get_principal (foldl (after_team ttl) (revoke_member db now p user f).2 ops) user (principal_organization_id p)
  = Ok None.
Proof.
  intros (Hne & _ & m & Hm & Hun)%revoked_member_row. apply get_principal_none.
  unfold active_membership. rewrite (revoked_rows_stay ttl ops _ _ m); [|unfold bootstrap_key; congruence|done..].
  cbn. by rewrite Hun.
Qed.

(** *** Isolation *)

Lemma get_principal_ext db db' user o :
  organizations db' !! o = organizations db !! o →
  memberships db' !! (o, user) = memberships db !! (o, user) →
  (∀ m, active_membership db o user = Some m →
     (λ u, (u_username u, active_user u)) <$> users db' !! user
     = (λ u, (u_username u, active_user u)) <$> users db !! user) →
  get_principal db' user o = get_principal db user o.
Proof.
  intros Ho Hm Hu. assert (Hact : active_membership db' o user = active_membership db o user)
    by (unfold active_membership; by rewrite Hm).
  destruct (active_membership db o user) as [m|] eqn:E.
  - specialize (Hu m eq_refl). unfold get_principal, member_row. rewrite Ho, Hact, E.
    destruct (users db' !! user) as [u'|], (users db !! user) as [u|]; try done. cbn in Hu. injection Hu as Hn Ha.
    cbn. destruct (organizations db !! o); [|done]. cbn. rewrite Ha. by destruct (active_user u); cbn; rewrite ?Hn.
  - by rewrite !get_principal_none.
Qed.

(** C39: Organizations are isolated. In a reachable store an operation of one
    organization (of its principals, or accepting one of its invitations)
    changes nobody's authority in any other: who is a member, under which name
    and with which role, is the same before and after. *)
Theorem organizations_isolated ttl db op user o :
  team_reachable ttl db → o ≠ op_scope db op →
  get_principal (after_team ttl db op) user o = get_principal db user o.
Proof.
  intros Hok%team_reachable_ok Ho. pose proof (team_step ttl db op) as Hstep.
  set (db' := after_team ttl db op) in *. set (scope := op_scope db op) in *. clearbody db' scope.
  destruct Hstep as [Eo Eu Em|n t w _ Hn _ _ Eo Eu Em|v m r Ha _ _ _ Eo Eu Em|v m t Ha _ _ Eo Em Eu
                    |inv i v t _ _ _ Hnone Eo Em Eu|n hash t -> _ Eo Eu Em];
    apply get_principal_ext; rewrite ?Eo, ?Em; try done;
    try (rewrite lookup_insert_ne by (unfold bootstrap_key; congruence); done); try (by intros ? _; rewrite Eu).
  - intros m' [Hm' Hun]%active_membership_Some. destruct Eu as [->|(-> & Hgone & _)]; [done|].
    destruct (decide (user = v)) as [->|Hne]; [|by rewrite lookup_alter_ne by done].
    rewrite Em in Hgone. specialize (Hgone o m'). rewrite lookup_insert_ne in Hgone by congruence.
    rewrite (Hgone Hm') in Hun. done.
  - intros m' [Hm' _]%active_membership_Some. destruct Eu as [[-> _]|(Hno & _ & hash & ->)]; [done|].
    destruct (ok_refs _ Hok _ _ _ Hm') as (_ & [u Hu] & _). by rewrite lookup_insert_ne by congruence.
  - intros m' _. rewrite Eu. destruct (ok_bootstrap _ Hok) as (u & m & Hu & Hact & Hname & _).
    destruct (decide (user = TEAM_BOOTSTRAP_ADMIN_ID)) as [->|Hne]; [|by rewrite lookup_insert_ne by done].
    rewrite lookup_insert_eq, Hu. cbn. by rewrite Hname, Hact.
Qed.

(** *** Invitations are used once *)

Definition used (db : team_db) (h : string) : Prop :=
  ∀ i inv, invitations db !! i = Some inv → i_token_hash inv = h → is_Some (i_accepted_at inv).

(** The operation does not issue the token again. *)
Definition not_issuing (h : string) (op : team_op) : Prop :=
  match op with ByPrincipal _ (Invite _ _ token _ _) => hash_invitation_token token ≠ h | _ => True end.

Lemma used_stays ttl h ops : ∀ db, used db h → Forall (not_issuing h) ops → used (foldl (after_team ttl) db ops) h.
Proof.
  induction ops as [|op ops IH]; intros db Hu Hops; [done|]. apply Forall_cons in Hops as [Hop Hops]. cbn.
  apply IH; [|done]. intros i inv [(inv0 & Hi & Heq & _ & _ & _ & Hacc)|(_ & Hiss & _)]%after_invitations Hh.
  - apply Hacc. apply (Hu i); [done|congruence].
  - destruct op as [p []| | |]; try done. destruct Hiss as (_ & Ht & _). congruence.
Qed.

Lemma accept_ok db now salt new_user token password p :
  (accept_invitation db now salt new_user token password).1 = Ok p →
  ∃ hash user o db', accept_tx db (instant (_now now)) token password hash new_user = Ok ((user, o), db')
    ∧ (accept_invitation db now salt new_user token password).2 = db' ∧ get_principal db' user o = Ok (Some p).
Proof.
  unfold accept_invitation. destruct (_ || _); [done|]. destruct (Password.hash_password _ _ _) as [hash|]; [|done].
  cbn [fst snd]. destruct (accept_tx _ _ _ _ _ _) as [[[user o] db']|] eqn:E; [|done]. cbn [transaction fst snd mbind outcome_bind].
  intros H. exists hash, user, o, db'. split; [exact E|]. split; [done|].
  destruct (get_principal db' user o) as [[q|]|]; [|done|done]. cbn in H. by injection H as ->.
Qed.

(** An invitation makes one member, as it says. When [accept_invitation]
    succeeds in a reachable store there is an invitation for that token, open
    and not expired, and the user becomes a member of its organization, under
    its name and with its role and no other, having never been one before.
    From then on the token is spent: until an administrator is given the same
    token again no acceptance of it succeeds. *)
Theorem invitation_used_once ttl db now salt new_user token password p :
  team_reachable ttl db →
  (accept_invitation db now salt new_user token password).1 = Ok p →
  let db' := (accept_invitation db now salt new_user token password).2 in
  (∃ i inv, invitations db !! i = Some inv ∧ i_token_hash inv = hash_invitation_token token
     ∧ acceptable (instant (_now now)) inv = true
     ∧ principal_organization_id p = i_organization_id inv ∧ principal_username p = i_username inv
     ∧ principal_role p = i_role inv
     ∧ memberships db !! (principal_organization_id p, principal_user_id p) = None)
  ∧ get_principal db' (principal_user_id p) (principal_organization_id p) = Ok (Some p)
  ∧ ∀ ops later salt' new_user' password', Forall (not_issuing (hash_invitation_token token)) ops →
      is_ok (accept_invitation (foldl (after_team ttl) db' ops) later salt' new_user' token password').1 = false.
Proof.
  intros Hok%team_reachable_ok (hash & user & o & db' & Htx & E & Hp)%accept_ok d. unfold d. rewrite E. clear d E.
  destruct (accept_tx_ok _ _ _ _ _ _ _ _ _ Htx) as (i & inv & us & Hf & Ho & Horg & Hacc & Hm & Hdb & Hus).
  apply find_row_Some in Hf as [Hi Hh]. to_prop.
  destruct (get_principal_inv _ _ _ _ Hp) as (u & r & m & Hu & Hact & Hr & Hmem & Hrole & Hpeq).
  rewrite Hdb in Hu, Hmem. cbn in Hu. apply active_membership_Some in Hmem as [Hmem _]. cbn in Hmem.
  rewrite lookup_insert_eq in Hmem. injection Hmem as <-.
  assert (Hname : u_username u = i_username inv).
  { destruct Hus as [(-> & v & Hv & _ & Hn & _)|(_ & _ & _ & ->)]; [congruence|].
    rewrite lookup_insert_eq in Hu. by injection Hu as <-. }
  split; [|split].
  - exists i, inv. rewrite Hpeq. cbn. do 3 (split; [done|]). done.
  - by rewrite Hpeq in Hp |- *.
  - intros ops later salt' new_user' password' Hops.
    assert (Hused : used (foldl (after_team ttl) db' ops) (hash_invitation_token token)).
    { apply used_stays; [|done]. rewrite Hdb. intros j x Hj Hx. cbn in Hj.
      destruct (decide (j = i)) as [->|Hne].
      - rewrite lookup_alter_eq, Hi in Hj. injection Hj as <-. by eexists.
      - rewrite lookup_alter_ne in Hj by done. destruct Hne. apply (ok_tokens _ Hok j i x inv); congruence. }
    destruct (accept_invitation _ _ _ _ _ _).1 as [q|] eqn:E; [|done]. exfalso.
    apply accept_ok in E as (hash' & user' & o' & d & Htx' & _).
    apply accept_tx_ok in Htx' as (j & x & us' & Hf & _ & _ & Hacc' & _). apply find_row_Some in Hf as [Hj Hx]. to_prop.
    destruct (Hused j x Hj Hx) as [t Ht]. unfold acceptable in Hacc'. by rewrite Ht in Hacc'.
Qed.

(** *** Signing in *)

Lemma sorted_memberships_elem rank db user j :
  j ∈ sorted_memberships rank db user →
  organizations db !! j.1 = Some j.2.1 ∧ active_membership db j.1 user = Some j.2.2.
Proof.
  unfold sorted_memberships. rewrite merge_sort_Permutation. unfold user_memberships.
  intros ([[o u] m] & Hin & Hj)%list_elem_of_omap. cbn in Hj.
  apply elem_of_map_to_list, select_where_lookup in Hin as [Hm Hp]. cbn in Hp. to_prop. subst u.
  destruct (organizations db !! o) as [r|] eqn:Ho; [|done]. injection Hj as <-. split; [done|].
  by apply active_membership_Some.
Qed.

(** A password opens the account of a current member. *)
Lemma authenticate_current rank db username password p :
  authenticate rank db username password = Ok (Some p) →
  get_principal db (principal_user_id p) (principal_organization_id p) = Ok (Some p)
  ∧ ∃ u, users db !! principal_user_id p = Some u ∧ normalize_username username = Some (u_username u)
         ∧ Password.verify_admin_password (Some password) (Some (u_password_hash u)) = true.
Proof.
  unfold authenticate. destruct (normalize_username username) as [n|]; [|done].
  destruct (find_row _ (users db)) as [[i u]|] eqn:Hf; [|done]. apply find_row_Some in Hf as [Hu Hn].
  unfold user_named in Hn. to_prop. destruct (active_user u) eqn:Hact; [|done].
  destruct (sorted_memberships rank db i) as [|[o' [r m]] l] eqn:Hl; [done|].
  destruct (Password.verify_admin_password _ _) eqn:Hv; [|done]. cbn [negb].
  destruct (sorted_memberships_elem rank db i (o', (r, m))) as [Ho Hm]; [rewrite Hl; left|]. cbn in Ho, Hm.
  unfold _principal_from_row, _team_role. destruct (mem (m_role m) TEAM_ROLES) eqn:Hr; [|done].
  intros [= <-]. cbn. split; [by apply get_principal_member|]. exists u. subst n. done.
Qed.

(** Whoever signs in is a current member. By password: the principal is
    the one [get_principal] gives for an active user of that name whose stored
    hash the password verifies against. By a federated identity: it is the
    current principal of a user bound to that subject in that organization,
    with exactly the role the provider asserted, and never an
    administrator. *)
Theorem sign_in_is_current rank db username password o digest role p :
  (authenticate rank db username password = Ok (Some p) →
   get_principal db (principal_user_id p) (principal_organization_id p) = Ok (Some p)
   ∧ ∃ u, users db !! principal_user_id p = Some u ∧ normalize_username username = Some (u_username u)
          ∧ Password.verify_admin_password (Some password) (Some (u_password_hash u)) = true)
  ∧ (resolve_federated_principal db o digest role = Ok (Some p) →
     get_principal db (principal_user_id p) o = Ok (Some p) ∧ principal_role p = role ∧ role ≠ "administrator"
     ∧ ∃ i f, federated db !! i = Some f ∧ f_subject_digest f = digest ∧ f_organization_id f = o
              ∧ f_user_id f = principal_user_id p ∧ f_revoked_at f = None).
Proof.
  split; [apply authenticate_current|].
  unfold resolve_federated_principal. unfold _subject_digest. destruct (negb _); [done|]. cbn [mbind outcome_bind].
  destruct (find_row _ (federated db)) as [[i f]|] eqn:Hf; [|done]. apply find_row_Some in Hf as [Hf Hd].
  unfold by_digest in Hd. destruct (_ || _) eqn:Hg; [done|]. to_prop.
  destruct (member_row db (f_user_id f) o) as [[[u r] m]|] eqn:Hm; [|done].
  destruct (negb _ || _) eqn:Hrole; [done|]. intros Hp. to_prop.
  assert (Hq : get_principal db (f_user_id f) o = Ok (Some p)) by (unfold get_principal; by rewrite Hm).
  destruct (get_principal_inv _ _ _ _ Hq) as (u' & r' & m' & Hu' & _ & Hr' & Hm' & _ & Hpeq).
  unfold member_row in Hm. rewrite Hu', Hr', Hm' in Hm. cbn in Hm. destruct (active_user u'); [|done].
  injection Hm as -> -> ->. rewrite Hpeq in Hq |- *. cbn in Hq |- *. split; [done|]. split; [done|].
  split; [congruence|]. exists i, f. do 4 (split; [done|]).
  rename select (¬ is_Some (f_revoked_at f)) into Hrev. by apply eq_None_not_Some.
Qed.

(** ** Concrete runs *)
Module Sample_team.
Definition day (n : Z) : datetime := DT (days n) (Some 0).
Definition opened : team_db := default (TeamDb ∅ ∅ ∅ ∅ ∅ ∅) (open_store None (day 0) " Team  Org" "x").2.
Definition admin : TeamPrincipal := Principal "team-admin" "admin" "local-admin" "Team Org" "administrator".
Definition with_org : team_db := after_team 86400 opened (ByPrincipal admin (CreateOrganization (day 1) "org2" "Other")).
Definition invited : team_db := after_team 86400 opened (ByPrincipal admin (Invite (day 1) "inv1" "tok" "Mia" "reader")).
(** A store with a member, as an acceptance leaves it. *)
Definition mia_user : user_row := UserRow "mia" "x" 1 0.
Definition with_member : team_db :=
  TeamDb (organizations opened) (<["u1" := mia_user]> (users opened))
    (<[("local-admin", "u1") := MembershipRow "reader" 0 None]> (memberships opened)) ∅ ∅ ∅.
End Sample_team.
Import Sample_team.

Lemma opened_reachable : team_reachable 86400 opened.
Proof. apply (reach_open 86400 (day 0) " Team  Org" "x"). reflexivity. Qed.

Lemma administrators_remain_witness :
  ∃ user p, get_principal with_org user "org2" = Ok (Some p) ∧ principal_role p = "administrator".
Proof.
  refine (proj1 (administrators_remain 86400 with_org "org2" _ _)).
  - apply reach_step; [exact opened_reachable|vm_compute; reflexivity].
  - exists (OrganizationRow "Other" (days 1)). vm_compute. reflexivity.
Defined.

Lemma revocation_is_final_witness :
  get_principal with_member "u1" "local-admin" = Ok (Some (Principal "u1" "mia" "local-admin" "Team Org" "reader"))
  ∧ get_principal
      (foldl (after_team 86400) (revoke_member (T := unit) with_member (day 2) admin "u1" None).2
         [ByPrincipal admin (Invite (day 3) "inv2" "tok" "mia" "maintainer");
          AcceptInvitation (day 4) "salt" "u2" "tok" "a long enough password"]) "u1" "local-admin"
    = Ok None.
Proof.
  split; [vm_compute; reflexivity|].
  apply (revocation_is_final 86400 with_member (day 2) admin "u1" (T := unit) None None). vm_compute. reflexivity.
Defined.

Lemma organizations_isolated_witness :
  get_principal (after_team 86400 opened (ByPrincipal admin (CreateOrganization (day 1) "org2" "Other")))
    "team-admin" "local-admin" = get_principal opened "team-admin" "local-admin".
Proof.
  apply organizations_isolated; [exact opened_reachable|vm_compute; discriminate].
Defined.

Lemma invitation_used_once_witness :
  ∃ p, (accept_invitation invited (day 1) "0123456789abcdef0123456789abcdef" "u1" "tok" "a long enough password").1 = Ok p
    ∧ principal_role p = "reader"
    ∧ is_ok (accept_invitation
               (accept_invitation invited (day 1) "0123456789abcdef0123456789abcdef" "u1" "tok" "a long enough password").2
               (day 1) "0123456789abcdef0123456789abcdef" "u2" "tok" "a long enough password").1 = false.
Proof.
  assert (E : (accept_invitation invited (day 1) "0123456789abcdef0123456789abcdef" "u1" "tok" "a long enough password").1
              = Ok (Principal "u1" "mia" "local-admin" "Team Org" "reader")) by reflexivity.
  eexists. split; [exact E|]. split; [reflexivity|].
  assert (Hr : team_reachable 86400 invited)
    by (apply reach_step; [exact opened_reachable|vm_compute; reflexivity]).
  destruct (invitation_used_once 86400 invited (day 1) _ "u1" "tok" _ _ Hr E) as (_ & _ & H).
  exact (H [] (day 1) _ "u2" _ (Forall_nil_2 _)).
Defined.

Lemma sign_in_is_current_witness :
  let digest := "0123456789abcdef0123456789abcdef0123456789abcdef0123456789abcdef" in
  let db := set_federated {["b1" := FederatedRow digest "local-admin" "u1" "team-admin" 0 None]} with_member in
  let p := Principal "u1" "mia" "local-admin" "Team Org" "reader" in
  resolve_federated_principal db "local-admin" digest "reader" = Ok (Some p)
  ∧ get_principal db "u1" "local-admin" = Ok (Some p).
Proof.
  intros digest db p. assert (E : resolve_federated_principal db "local-admin" digest "reader" = Ok (Some p))
    by (vm_compute; reflexivity).
  split; [exact E|].
  exact (proj1 (proj2 (sign_in_is_current (λ _, 0) db "mia" "x" "local-admin" digest "reader" p) E)).
Defined.

(** ** Findings *)

(** A revoked member cannot come back: where the user keeps another
    organization, and so its name, no acceptance of a new invitation to the
    first one succeeds, whatever the invitation and the password, since its
    membership row is still there. *)
Lemma no_return db now salt new_user token password p m :
  memberships db !! (principal_organization_id p, principal_user_id p) = Some m →
  (accept_invitation db now salt new_user token password).1 ≠ Ok p.
Proof.
  intros Hm (hash & user & o & db' & Htx & _ & Hp)%accept_ok.
  apply accept_tx_ok in Htx as (_ & _ & _ & _ & _ & _ & _ & Hno & _).
  destruct (get_principal_inv _ _ _ _ Hp) as (v & r & n & _ & _ & _ & _ & _ & Hpeq). rewrite Hpeq in Hm.
  cbn in Hm. congruence.
Qed.

(** A user invited under the name another one's deprovisioning takes blocks
    it: the revocation of that member's last membership fails and is rolled
    back. *)
Lemma name_blocks_revocation db now p user u i v m :
  principal_role p = "administrator" → users db !! user = Some u →
  active_membership db (principal_organization_id p) user = Some m →
  (∀ o n, memberships db !! (o, user) = Some n → unrevoked n = true → o = principal_organization_id p) →
  users db !! i = Some v → i ≠ user → u_username v = ("deprovisioned." ++ user)%string →
  is_ok (revoke_member (T := unit) db now p user None).1 = false
  ∧ (revoke_member (T := unit) db now p user None).2 = db.
Proof.
  intros Hr Hu Hm Hlast Hi Hne Hv. destruct (revoke_member (T := unit) db now p user None).1 as [r|e] eqn:E.
  - exfalso. unfold revoke_member in E. apply transaction_ok in E. set (d := (transaction _ _).2) in E. clearbody d.
    inv_ok E. match goal with H : (if (row_count ?q ?t =? 0)%nat then _ else _) = _ |- _ =>
      rewrite (update_membership _ _ _ _ _ Hm) in H end.
    match goal with H : (if (row_count ?q ?t =? 0)%nat then _ else _) = _ |- _ =>
      assert (Hz : row_count q t = 0%nat); [|rewrite Hz in H; cbn in H; rename H into Hd] end.
    + apply row_count_zero. intros [o w] n Hn. cbn. destruct (String.eqb_spec w user) as [->|]; [|done].
      destruct (decide (o = principal_organization_id p)) as [->|Ho].
      * rewrite lookup_insert_eq in Hn. by injection Hn as <-.
      * rewrite lookup_insert_ne in Hn by congruence. apply not_true_is_false. intros Hun. by apply Ho, (Hlast o n).
    + unfold deprovision in Hd. inv_ok Hd. rename select (_ && _ = false) into Hfree.
      rewrite Hu, bool_decide_true in Hfree by by eexists. cbn [andb] in Hfree. apply Nat.ltb_ge in Hfree.
      assert (Hp : (0 < row_count (λ k u, negb (k =? user)%string && (u_username u =? "deprovisioned." ++ user)%string)
                (users db))%nat); [|lia].
      apply row_count_pos. exists i, v. split; [done|]. rewrite Hv, String.eqb_refl. by rewrite (proj2 (String.eqb_neq i user)).
  - split; [done|]. unfold revoke_member in *. by eapply transaction_err.
Qed.

(** The binding [provision_federated_identity] returns for a subject that was
    bound before is dated now; the stored one keeps its date. *)
Lemma reinstated_date f : f_created_at (reinstated f) = f_created_at f.
Proof. done. Qed.
