(* ===== verification/RequestGate.v ===== *)
(** * RequestGate: who a request acts for

    Models the middleware of [backend/app/main.py] that stands before every
    route: [deny_anonymous_sensitive_routes], with the session of a request,
    the CSRF check, the route policy of automation tokens and the requests a
    reader may send.  It is where the stores of sessions ([SessionBackend]),
    members ([TeamIdentity]), automation tokens and import grants meet; the
    theorem says on what evidence in them a request reaches a route.

    The header, the cookie, the method and the path are texts the framework
    parsed; a method is ASCII, as HTTP has it.  The identifier, the log line
    and the metrics of the request are not modelled. *)

From S2P Require Import Prelude PyStr Sha256 BearerToken AutomationTokens ImportGrants Auth AuthState AuthSessions SessionBackend TeamIdentity.
Local Open Scope Z_scope.

Abbreviation TEAM := "private_team_lightweight_users".

(** ** Data *)

Record request : Type := Req {
  method : string;
  path : string;
  authorization : string;
  session_cookie : option string;
  csrf_header : option string
}.

(** What [app.state] holds that the middleware reads: [None] for a store the
    settings did not create. *)
Record app : Type := App {
  auth_mode : string;
  admin_sessions : session_backend;
  team_identity : option team_db;
  automation_tokens : option AutomationTokens.token_store;
  repository_import_grants : option ImportGrants.grant_store
}.

Definition with_sessions (b : session_backend) (a : app) : app :=
  App (auth_mode a) b (team_identity a) (automation_tokens a) (repository_import_grants a).
Definition with_team (db : team_db) (a : app) : app :=
  App (auth_mode a) (admin_sessions a) (Some db) (automation_tokens a) (repository_import_grants a).
Definition with_tokens (t : AutomationTokens.token_store) (a : app) : app :=
  App (auth_mode a) (admin_sessions a) (team_identity a) (Some t) (repository_import_grants a).

(** The readings of the clock one request causes. *)
Record clocks : Type := Clocks { at_bearer : datetime; at_open : datetime; at_drop : datetime; at_csrf : datetime }.

(** Whom the request acts for, in [request.state]. *)
Inductive caller : Type :=
| Anyone
| Importer (p : RepositoryImportPrincipal)
| Automation (p : AutomationPrincipal)
| Operator (s : AdminSession).

(** [call_next(request)], or a response of the middleware. *)
Inductive verdict : Type :=
| Served (who : caller)
| Refused (status_code : Z) (detail : string).

(** ** Texts *)

Definition upper_char (c : ascii) : ascii := if is_lower_az c then Ascii.ascii_of_N (code c - 32) else c.
(** [str.upper] of an ASCII text. *)
Definition upper (s : string) : string := text (map upper_char (chars s)).

(** [re.fullmatch(prefix + "[a-f0-9]{32}" + suffix, path)] *)
Definition hex_path (prefix suffix path : string) : bool :=
  startswith prefix path
  && (let rest := str_drop (len prefix) path in
      is_hex32 (str_take 32 rest) && String.eqb (str_drop 32 rest) suffix).

(** ** Constants *)

(** backend/app/main.py 929-955 [constants] *)
Definition PUBLIC_ANONYMOUS_PATHS : list string :=
  ["/client-capabilities"; "/health"; "/ready"; "/auth/status"; "/auth/login"; "/auth/oidc/start";
   "/auth/oidc/callback"; "/auth/invitations/accept"].
Definition CSRF_REQUIRED_METHODS : list string := ["POST"; "PUT"; "PATCH"; "DELETE"].
Definition TEAM_READER_READ_POST_PATHS : list string :=
  ["/projects/search"; "/projects/portfolio/search"; "/projects/trends"; "/projects/trends/refresh";
   "/projects/trends/report"; "/remediation/search"; "/remediation/report"; "/remediation/plans";
   "/active/operations/weekly-review-receipts/verify"].
Definition AUTH_REQUIRED_DETAIL : string := "Authentication required.".
Definition CSRF_REQUIRED_DETAIL : string := "CSRF validation failed.".
Definition RATE_LIMITED_DETAIL : string := "Too many attempts. Try again later.".
Definition AUTOMATION_TOKEN_INVALID_DETAIL : string := "Automation credential is invalid or expired.".

(** backend/app/config.py [is_auth_required] *)
Definition is_auth_required (a : app) : bool := negb (String.eqb (auth_mode a) "trusted_local_no_auth").

(** ** Sessions *)

(** The principal whose role the session states. *)
Definition member_now (db : team_db) (s : AdminSession) (organization : string) : option TeamPrincipal :=
  match get_principal db (Session.operator_id s) organization with
  | Ok (Some p) => if bool_decide (Some (principal_role p) = Session.role s) then Some p else None
  | _ => None
  end.

(** [existing] is the session already in [request.state]. *)
(** backend/app/main.py [current_session_for_request] *)
Definition current_session_for_request (a : app) (t : clocks) (r : request) (existing : option AdminSession)
    : option AdminSession * app :=
  match existing with
  | Some s => (Some s, a)
  | None =>
      let '(session, b) := store_get (admin_sessions a) (at_open t) (session_cookie r) in
      let a1 := with_sessions b a in
      match session with
      | None => (None, a1)
      | Some s =>
          if negb (String.eqb (auth_mode a) TEAM) then (Some s, a1) else
          match team_identity a, Session.organization_id s with
          | Some db, Some o =>
              if negb (truthy o) then (None, a1) else
              match member_now db s o with
              | Some _ => (Some s, a1)
              | None => (None, with_sessions (store_invalidate b (at_drop t) (session_cookie r)) a1)
              end
          | _, _ => (None, a1)
          end
      end
  end.

(** backend/app/main.py [is_csrf_required_for_request] *)
Definition is_csrf_required_for_request (r : request) : bool := mem (upper (method r)) CSRF_REQUIRED_METHODS.

(** backend/app/main.py [verify_csrf_token_for_request] *)
Definition verify_csrf_token_for_request (a : app) (t : clocks) (r : request) (s : AdminSession)
    : outcome (bool * app) :=
  '(b, sessions) ← store_verify_csrf (admin_sessions a) (at_csrf t) s (csrf_header r);
  Ok (b, with_sessions sessions a).

(** ** Automation tokens *)

(** [bool(scopes.intersection(wanted))] *)
Definition any_scope (p : AutomationPrincipal) (wanted : list string) : bool :=
  any_of (λ s, mem s (AutomationTokens.principal_scopes p)) wanted.
#[global] Arguments any_scope : simpl never.

(** The writes of a project a scanning token may ask for. *)
(** backend/app/main.py 2046-2060 [automation_principal_authorizes_request] *)
Definition scan_path (project_prefix path : string) : bool :=
  mem path (map (String.append project_prefix) ["/snapshots"; "/ci/snapshots"; "/sbom-revisions"; "/analyses"])
  || hex_path (project_prefix ++ "/analyses/") "/cancel" path
  || any_of (λ g, hex_path (project_prefix ++ "/analyses/") ("/dependency-graphs/" ++ g) path)
       ["go"; "cargo"; "composer"; "gradle"]
  || any_of (λ g, hex_path (project_prefix ++ "/analyses/") ("/vulnerability-intelligence/" ++ g) path)
       ["osv"; "github"; "nvd"; "cisa-kev"].

(** backend/app/main.py [automation_principal_authorizes_request] *)
Definition automation_principal_authorizes_request (p : AutomationPrincipal) (raw_method path : string) : bool :=
  let method := upper raw_method in
  let project_prefix := ("/projects/" ++ AutomationTokens.principal_project_id p)%string in
  if String.eqb method "POST" && String.eqb path "/files/archive" then any_scope p ["project:scan"]
  else if String.eqb path project_prefix || startswith (project_prefix ++ "/") path then
    if mem method ["GET"; "POST"] && contains "/report/" path then any_scope p ["report:read"]
    else if String.eqb method "GET" then any_scope p ["project:read"; "project:scan"; "report:read"]
    else if String.eqb method "POST" && scan_path project_prefix path then any_scope p ["project:scan"]
    else false
  else if String.eqb method "GET" && hex_path "/jobs/" "" path then any_scope p ["project:read"; "project:scan"]
  else if String.eqb method "GET"
          && any_of (λ suffix, hex_path "/jobs/" suffix path)
               ["/export/markdown"; "/export/html"; "/export/xml"; "/export/pdf"; "/sbom/cyclonedx-json"; "/sbom/spdx-json"]
  then any_scope p ["report:read"]
  else false.

(** ** The middleware *)

(** The requests that change something and that a reader may send. *)
(** backend/app/main.py 1836-1851 [deny_anonymous_sensitive_routes] *)
Definition reader_may_send (r : request) : bool :=
  let m := upper (method r) in
  String.eqb (path r) "/auth/logout"
  || mem (path r) TEAM_READER_READ_POST_PATHS
  || (String.eqb m "POST" && String.eqb (path r) "/remediation/views")
  || (String.eqb m "PUT" && String.eqb (path r) "/remediation/views/default")
  || (String.eqb m "PUT" && hex_path "/projects/actions/" "/read" (path r))
  || (String.eqb m "DELETE" && hex_path "/remediation/views/" "" (path r)).

(** The branch of a request with an [Authorization] header. *)
(** backend/app/main.py 1753-1816 [deny_anonymous_sensitive_routes] *)
Definition bearer_gate (a : app) (t : clocks) (r : request) : verdict * app :=
  let invalid := Refused 401 AUTOMATION_TOKEN_INVALID_DETAIL in
  if negb (startswith "Bearer " (authorization r)) || negb (count_char " " (authorization r) =? 1)%nat then (invalid, a) else
  let plaintext := str_drop 7 (authorization r) in
  if startswith REPOSITORY_IMPORT_GRANT_PREFIX plaintext then
    match repository_import_grants a with
    | None => (invalid, a)
    | Some grants =>
        match ImportGrants.authenticate grants (at_bearer t) plaintext with
        | None => (invalid, a)
        | Some p =>
            if negb (String.eqb (upper (method r)) "POST") || negb (String.eqb (path r) "/projects/import/git-snapshot")
            then (Refused 403 "Repository import grant permits one initial Git snapshot only.", a)
            else (Served (Importer p), a)
        end
    end
  else
    match automation_tokens a with
    | None => (invalid, a)
    | Some tokens =>
        match AutomationTokens.authenticate tokens (at_bearer t) plaintext with
        | Err c => (if String.eqb c "rate_limited" then Refused 429 RATE_LIMITED_DETAIL
                    else Refused 503 "Automation authentication is unavailable.", a)
        | Ok (None, tokens') => (invalid, with_tokens tokens' a)
        | Ok (Some p, tokens') =>
            (if negb (automation_principal_authorizes_request p (method r) (path r))
             then Refused 403 "Automation credential scope does not permit this action."
             else Served (Automation p), with_tokens tokens' a)
        end
    end.

(** [team_role_allows(session.role, ...)]; a session without a role allows
    nothing. *)
Definition session_allows (s : AdminSession) (capability : string) : bool :=
  from_option (λ role, team_role_allows role capability) false (Session.role s).

(** The branch of a request without one. *)
(** backend/app/main.py 1818-1862 [deny_anonymous_sensitive_routes] *)
Definition session_gate (a : app) (t : clocks) (r : request) : outcome verdict * app :=
  let '(session, a1) := current_session_for_request a t r None in
  match session with
  | None => (Ok (Refused 401 AUTH_REQUIRED_DETAIL), a1)
  | Some s =>
      let checked := if is_csrf_required_for_request r then verify_csrf_token_for_request a1 t r s else Ok (true, a1) in
      match checked with
      | Err e => (Err e, a1)
      | Ok (false, a2) => (Ok (Refused 403 CSRF_REQUIRED_DETAIL), a2)
      | Ok (true, a2) =>
          if String.eqb (auth_mode a) TEAM && mem (upper (method r)) CSRF_REQUIRED_METHODS
             && negb (session_allows s "project_mutate") && negb (reader_may_send r)
          then (Ok (Refused 403 "This role cannot modify workspace data."), a2)
          else (Ok (Served (Operator s)), a2)
      end
  end.

(** backend/app/main.py [deny_anonymous_sensitive_routes] *)
Definition deny_anonymous_sensitive_routes (a : app) (t : clocks) (r : request) : outcome verdict * app :=
  if String.eqb (method r) "OPTIONS" || mem (path r) PUBLIC_ANONYMOUS_PATHS then (Ok (Served Anyone), a)
  else if negb (is_auth_required a) then (Ok (Served Anyone), a)
  else if truthy (authorization r) then let '(v, a') := bearer_gate a t r in (Ok v, a')
  else session_gate a t r.

(** ** Lemmas *)

Lemma current_session_spec a t r s a' :
  current_session_for_request a t r None = (Some s, a') →
  a' = with_sessions (admin_sessions a) a
  ∧ (∃ i, session_cookie r = Some i ∧ truthy i = true
       ∧ held (admin_sessions a) i (identity_of s) (instant (Session.expires_at s)))
  ∧ reading (at_open t) < instant (Session.expires_at s)
  ∧ (auth_mode a = TEAM → ∃ db o p, team_identity a = Some db ∧ Session.organization_id s = Some o
       ∧ get_principal db (Session.operator_id s) o = Ok (Some p) ∧ Session.role s = Some (principal_role p)).
Proof.
  unfold current_session_for_request. destruct (store_get _ _ _) as [[s'|] b] eqn:Hg; [|done].
  apply open_held in Hg as (-> & i & Hi & Hti & Hheld & Hlt).
  destruct (String.eqb_spec (auth_mode a) TEAM) as [Hm|Hm]; cbn [negb].
  - destruct (team_identity a) as [db|] eqn:Hdb; [|done].
    destruct (Session.organization_id s') as [o|] eqn:Ho; [|done]. destruct (negb (truthy o)); [done|].
    unfold member_now. destruct (get_principal db _ o) as [[p|]|] eqn:Hp; try done.
    case_bool_decide as Hr; [|done]. intros [= <- <-]. split; [done|]. split; [by exists i|]. split; [done|].
    intros _. by exists db, o, p.
  - intros [= <- <-]. split; [done|]. split; [by exists i|]. split; [done|]. intros Ht. congruence.
Qed.

Lemma session_gate_spec a t r s a' :
  session_gate a t r = (Ok (Served (Operator s)), a') →
  current_session_for_request a t r None = (Some s, with_sessions (admin_sessions a) a)
  ∧ (is_csrf_required_for_request r = true →
     ∃ b, store_verify_csrf (admin_sessions a) (at_csrf t) s (csrf_header r) = Ok (true, b))
  ∧ (auth_mode a = TEAM → is_csrf_required_for_request r = true →
     session_allows s "project_mutate" = true ∨ reader_may_send r = true).
Proof.
  unfold session_gate. destruct (current_session_for_request a t r None) as [[s'|] a1] eqn:Hc; [|done].
  pose proof (current_session_spec _ _ _ _ _ Hc) as (-> & _).
  unfold is_csrf_required_for_request, verify_csrf_token_for_request. cbn [admin_sessions with_sessions].
  destruct (mem (upper (method r)) CSRF_REQUIRED_METHODS) eqn:Hmut; cbn iota.
  - destruct (store_verify_csrf _ _ _ _) as [[[] b]|] eqn:Hv; cbn [mbind outcome_bind]; try done.
    rewrite andb_true_r. destruct (String.eqb_spec (auth_mode a) TEAM) as [Hm|Hm]; cbn [andb].
    + destruct (session_allows s' "project_mutate") eqn:Hal, (reader_may_send r) eqn:Hre; cbn [negb andb]; try done;
        intros [= <- <-]; (split; [done|]); (split; [by exists b|]); auto.
    + intros [= <- <-]. split; [done|]. split; [by exists b|]. intros; congruence.
  - rewrite andb_false_r. cbn [andb]. by intros [= <- <-].
Qed.

Lemma any_scope_elem p wanted : any_scope p wanted = true → ∃ s, s ∈ wanted ∧ s ∈ AutomationTokens.principal_scopes p.
Proof. intros (s & Hs & Hp)%any_of_true. exists s. by apply mem_true in Hp. Qed.

(** What the route policy lets a token do. *)
Lemma authorized_route p m path :
  automation_principal_authorizes_request p m path = true →
  let own := ("/projects/" ++ AutomationTokens.principal_project_id p)%string in
  (upper m = "GET" ∨ upper m = "POST")
  ∧ (path = own ∨ startswith (own ++ "/") path = true ∨ (upper m = "POST" ∧ path = "/files/archive")
     ∨ (upper m = "GET" ∧ startswith "/jobs/" path = true))
  ∧ (upper m = "POST" → contains "/report/" path = false → "project:scan" ∈ AutomationTokens.principal_scopes p)
  ∧ (contains "/report/" path = true → startswith "/jobs/" path = false →
     "report:read" ∈ AutomationTokens.principal_scopes p).
Proof.
  intros H own. unfold automation_principal_authorizes_request in H. fold own in H.
  destruct (String.eqb (upper m) "POST" && String.eqb path "/files/archive") eqn:Harch.
  { to_prop. apply any_scope_elem in H as (s & Hs%list_elem_of_singleton & Hp). subst s path.
    split; [by right|]. split; [by right; right; left|]. by split. }
  destruct (String.eqb path own || startswith (own ++ "/") path) eqn:Hown.
  - assert (Hpath : path = own ∨ startswith (own ++ "/") path = true) by (apply orb_true_iff in Hown as [?%String.eqb_eq|?]; auto).
    assert (Hm : upper m = "GET" ∨ upper m = "POST").
    { destruct (mem (upper m) ["GET"; "POST"]) eqn:E1; [apply mem_true in E1; set_solver|]. exfalso.
      apply not_true_iff_false in E1. rewrite mem_true in E1. destruct (String.eqb_spec (upper m) "GET"), (String.eqb_spec (upper m) "POST");
      [set_solver..|]. by rewrite andb_false_l in H. }
    split; [done|]. split; [tauto|].
    destruct (contains "/report/" path) eqn:Hrep.
    + split; [done|]. intros _ _. replace (mem (upper m) ["GET"; "POST"]) with true in H
        by (symmetry; apply mem_true; set_solver). apply any_scope_elem in H as (s & Hs%list_elem_of_singleton & Hp). by subst s.
    + split; [|done]. intros Hpost _. rewrite andb_false_r, Hpost in H. cbn in H.
      destruct (scan_path _ _); [|done]. apply any_scope_elem in H as (s & Hs%list_elem_of_singleton & Hp). by subst s.
  - destruct (String.eqb_spec (upper m) "GET") as [Hg|Hg]; [|done]. cbn [andb] in H.
    assert (Hj : startswith "/jobs/" path = true).
    { destruct (hex_path "/jobs/" "" path) eqn:Hh; [by apply andb_true_iff in Hh as [Hh _]|].
      destruct (any_of _ _) eqn:Ha; [|done]. apply any_of_true in Ha as (x & _ & Hx). by apply andb_true_iff in Hx as [Hx _]. }
    split; [by left|]. split; [tauto|]. split; [by rewrite Hg|]. congruence.
Qed.

(** The evidence, in the stores as they are, on which a request is served. *)
Definition evidence (a : app) (t : clocks) (r : request) (who : caller) : Prop :=
  match who with
  | Anyone => False
  | Importer p =>
      upper (method r) = "POST" ∧ path r = "/projects/import/git-snapshot"
      ∧ ∃ grants bearer row, repository_import_grants a = Some grants
          ∧ authorization r = ("Bearer " ++ bearer)%string
          ∧ grants !! principal_grant_id p = Some row
          ∧ ImportGrants.token_hash row = _grant_hash bearer ∧ consumed_at row = None
          ∧ instant (ImportGrants._now (at_bearer t)) < ImportGrants.expires_at row
          ∧ ImportGrants.principal_organization_id p = ImportGrants.organization_id row
  | Automation p =>
      let own := ("/projects/" ++ AutomationTokens.principal_project_id p)%string in
      (∃ tokens bearer row, automation_tokens a = Some tokens
          ∧ authorization r = ("Bearer " ++ bearer)%string
          ∧ tokens !! principal_token_id p = Some row
          ∧ AutomationTokens.token_hash row = _token_hash bearer ∧ AutomationTokens.revoked_at row = None
          ∧ instant (AutomationTokens._now (at_bearer t)) < AutomationTokens.expires_at row
          ∧ AutomationTokens.principal_organization_id p = AutomationTokens.organization_id row
          ∧ AutomationTokens.principal_project_id p = AutomationTokens.project_id row
          ∧ AutomationTokens.principal_scopes p = split_scopes (AutomationTokens.scopes row))
      ∧ (upper (method r) = "GET" ∨ upper (method r) = "POST")
      ∧ (path r = own ∨ startswith (own ++ "/") (path r) = true
         ∨ (upper (method r) = "POST" ∧ path r = "/files/archive")
         ∨ (upper (method r) = "GET" ∧ startswith "/jobs/" (path r) = true))
      ∧ (upper (method r) = "POST" → contains "/report/" (path r) = false →
         "project:scan" ∈ AutomationTokens.principal_scopes p)
  | Operator s =>
      authorization r = ""
      ∧ (∃ i, session_cookie r = Some i ∧ truthy i = true
           ∧ held (admin_sessions a) i (identity_of s) (instant (Session.expires_at s)))
      ∧ reading (at_open t) < instant (Session.expires_at s)
      ∧ (is_csrf_required_for_request r = true →
         ∃ b, store_verify_csrf (admin_sessions a) (at_csrf t) s (csrf_header r) = Ok (true, b))
      ∧ (auth_mode a = TEAM →
         ∃ db o p, team_identity a = Some db ∧ Session.organization_id s = Some o
           ∧ get_principal db (Session.operator_id s) o = Ok (Some p) ∧ Session.role s = Some (principal_role p)
           ∧ (is_csrf_required_for_request r = true →
              principal_role p = "administrator" ∨ principal_role p = "maintainer" ∨ reader_may_send r = true))
  end.

Lemma may_mutate role : team_role_allows role "project_mutate" = true → role = "administrator" ∨ role = "maintainer".
Proof.
  unfold team_role_allows. cbn [dict_get TEAM_ROLE_CAPABILITIES].
  destruct (String.eqb_spec "reader" role) as [<-|]; [done|]. destruct (String.eqb_spec "maintainer" role) as [<-|]; [by right|].
  destruct (String.eqb_spec "administrator" role) as [<-|]; [by left|done].
Qed.

Lemma bearer_text s : startswith "Bearer " s = true → s = ("Bearer " ++ str_drop 7 s)%string.
Proof. apply (startswith_inv "Bearer "). Qed.

Lemma bearer_evidence a t r who a' :
  bearer_gate a t r = (Served who, a') → evidence a t r who.
Proof.
  unfold bearer_gate. destruct (startswith "Bearer " (authorization r)) eqn:Hb; [|done].
  apply bearer_text in Hb. destruct (negb (count_char _ _ =? 1)%nat); [done|]. cbn [negb orb].
  destruct (startswith REPOSITORY_IMPORT_GRANT_PREFIX _).
  - destruct (repository_import_grants a) as [grants|] eqn:Hg; [|done].
    destruct (ImportGrants.authenticate grants _ _) as [p|] eqn:Hp; [|done].
    destruct (String.eqb_spec (upper (method r)) "POST") as [Hm|]; [|done].
    destruct (String.eqb_spec (path r) "/projects/import/git-snapshot") as [Hpath|]; [|done]. intros [= <- _].
    apply grant_authenticate_ok in Hp as (row & _ & Hrow & Hh & Hc & He & Hpr).
    split; [done|]. split; [done|]. exists grants, (str_drop 7 (authorization r)), row. repeat split; try done. by rewrite Hpr.
  - destruct (automation_tokens a) as [tokens|] eqn:Ht; [|done].
    destruct (AutomationTokens.authenticate tokens _ _) as [[[p|] tokens']|] eqn:Hp; [|done|by destruct (String.eqb _ _)].
    destruct (automation_principal_authorizes_request p _ _) eqn:Hauth; [|done]. intros [= <- _].
    apply authorized_route in Hauth as (Hm & Hpath & Hscan & _).
    apply token_authenticate_ok in Hp as (row & ws & n & _ & Hrow & Hh & Hr & He & Hpr & _).
    split; [|by split].
    exists tokens, (str_drop 7 (authorization r)), row. repeat split; try done; by rewrite Hpr.
Qed.

(** What the session branch asks for is enough. *)
Lemma session_gate_serves a t r s b :
  store_get (admin_sessions a) (at_open t) (session_cookie r) = (Some s, admin_sessions a) →
  (auth_mode a = TEAM → ∃ db o p, team_identity a = Some db ∧ Session.organization_id s = Some o ∧ truthy o = true
     ∧ get_principal db (Session.operator_id s) o = Ok (Some p) ∧ Session.role s = Some (principal_role p)) →
  store_verify_csrf (admin_sessions a) (at_csrf t) s (csrf_header r) = Ok (true, b) →
  (auth_mode a = TEAM → is_csrf_required_for_request r = true →
     session_allows s "project_mutate" = true ∨ reader_may_send r = true) →
  (session_gate a t r).1 = Ok (Served (Operator s)).
Proof.
  intros Hg Hteam Hv Hrole.
  assert (Hc : current_session_for_request a t r None = (Some s, with_sessions (admin_sessions a) a)).
  { unfold current_session_for_request. rewrite Hg. destruct (String.eqb_spec (auth_mode a) TEAM) as [Hm|]; cbn [negb]; [|done].
    destruct (Hteam Hm) as (db & o & p & -> & -> & -> & Hp & Hr). cbn [negb]. unfold member_now. rewrite Hp.
    by rewrite bool_decide_true. }
  unfold session_gate. rewrite Hc. unfold is_csrf_required_for_request, verify_csrf_token_for_request in *.
  cbn [admin_sessions with_sessions]. rewrite Hv. cbn [mbind outcome_bind].
  destruct (mem (upper (method r)) CSRF_REQUIRED_METHODS); [|by rewrite andb_false_r].
  rewrite andb_true_r. destruct (String.eqb_spec (auth_mode a) TEAM) as [Hm|]; [|done]. cbn [andb].
  destruct (Hrole Hm eq_refl) as [-> | ->]; [done|]. by rewrite andb_false_r.
Qed.

(** An operator is served by the session branch. *)
Lemma gate_operator a t r s a' :
  deny_anonymous_sensitive_routes a t r = (Ok (Served (Operator s)), a') →
  session_gate a t r = (Ok (Served (Operator s)), a').
Proof.
  unfold deny_anonymous_sensitive_routes. destruct (_ || _); [done|]. destruct (negb _); [done|].
  destruct (truthy _); [|done]. destruct (bearer_gate a t r) as [v a1] eqn:Hb. intros [= -> ->].
  exfalso. unfold bearer_gate in Hb. destruct (_ || _); [done|]. destruct (startswith _ _).
  - destruct (repository_import_grants a); [|done]. destruct (ImportGrants.authenticate _ _ _); [|done]. by destruct (_ || _).
  - destruct (automation_tokens a); [|done]. destruct (AutomationTokens.authenticate _ _ _) as [[[p|] ts]|]; [|done|].
    + by destruct (negb _).
    + by destruct (String.eqb _ _).
Qed.

(** C12: No request is served without evidence. When authentication is
    required and the route is not one of the anonymous ones, a request reaches
    its handler only: for an importer, with a grant of the table that is
    unexpired and unused, and for the one import route; for a token, with an
    unrevoked, unexpired row of its digest, by GET or POST, within the row's
    own project (or an archive upload, or reading a job), writing only with
    the scan scope; for an operator, with a cookie of a session the store
    holds and that has not expired, its CSRF token when the method writes,
    and, in team mode, as a user who is a member of the session's
    organization now, with the session's role, which may write unless the
    route is one a reader may use. *)
Theorem gate_evidence a t r who a' :
  deny_anonymous_sensitive_routes a t r = (Ok (Served who), a') →
  is_auth_required a = true → method r ≠ "OPTIONS" → path r ∉ PUBLIC_ANONYMOUS_PATHS →
  evidence a t r who.
Proof.
  unfold deny_anonymous_sensitive_routes. intros H Hreq Hm Hp.
  rewrite (proj2 (String.eqb_neq _ _) Hm) in H. destruct (mem (path r) _) eqn:Hmem; [by apply mem_true in Hmem|].
  rewrite Hreq in H. cbn [orb negb] in H. destruct (truthy (authorization r)) eqn:Hauth.
  - destruct (bearer_gate a t r) as [v a1] eqn:Hb. injection H as -> ->. by eapply bearer_evidence.
  - assert (Hs : ∃ s, who = Operator s).
    { unfold session_gate in H. destruct (current_session_for_request a t r None) as [[s|] a1]; [|done].
      destruct (if is_csrf_required_for_request r then _ else _) as [[[] a2]|]; [|done..].
      destruct (_ && negb (reader_may_send r)); [done|]. injection H as <- _. by exists s. }
    destruct Hs as [s ->]. destruct (session_gate_spec _ _ _ _ _ H) as (Hc & Hcsrf & Hrole).
    destruct (current_session_spec _ _ _ _ _ Hc) as (_ & Hheld & Hlt & Hteam).
    unfold truthy in Hauth. apply negb_false_iff, String.eqb_eq in Hauth.
    repeat (split; [done|]). intros Ht. destruct (Hteam Ht) as (db & o & p & Hdb & Ho & Hgp & Hr).
    exists db, o, p. repeat (split; [done|]). intros Hmut. destruct (Hrole Ht Hmut) as [Hal|]; [|tauto].
    unfold session_allows in Hal. rewrite Hr in Hal. apply may_mutate in Hal. tauto.
Qed.

(** ** Concrete runs *)
Module Sample_gate.
Definition at_sec (n : Z) : datetime := DT (seconds n) (Some 0).
Definition mia : string := "0123456789abcdef0123456789abcdef".
Definition opened : team_db := default (TeamDb ∅ ∅ ∅ ∅ ∅ ∅) (open_store None (at_sec 0) "Team Org" "x").2.
(** The store with a member, as an acceptance leaves it. *)
Definition with_member : team_db :=
  TeamDb (organizations opened) (<[mia := UserRow "mia" "x" 1 0]> (users opened))
    (<[("local-admin", mia) := MembershipRow "reader" 0 None]> (memberships opened)) ∅ ∅ ∅.
Definition session (id csrf user role : string) : AdminSession :=
  Session.Session id csrf user (at_sec 0) (at_sec 3600) TEAM (Some "local-admin") (Some role).
Definition sessions : Session.session_store :=
  [("sid-admin", session "sid-admin" "csrf-admin" "team-admin" "administrator");
   ("sid-mia", session "sid-mia" "csrf-mia" mia "reader")].
Definition team_app : app := App TEAM (InMemory sessions) (Some with_member) None None.
Definition at_time (n : Z) : clocks := Clocks (at_sec n) (at_sec n) (at_sec n) (at_sec n).
Definition by_mia (method path : string) : request := Req method path "" (Some "sid-mia") (Some "csrf-mia").
End Sample_gate.
Import Sample_gate.

(** A reader searches, and may do no more than that. *)
Example reader_is_refused :
  (deny_anonymous_sensitive_routes team_app (at_time 10) (by_mia "DELETE" "/projects/p")).1
  = Ok (Refused 403 "This role cannot modify workspace data.").
Proof. vm_compute. reflexivity. Qed.

(** The route policy names four of the five dependency graphs a pipeline
    can attach. *)
Example nuget_graph_refused :
  automation_principal_authorizes_request (AutomationTokens.Principal "t" "o" "p" ["project:scan"] (at_sec 0)) "POST"
    "/projects/p/analyses/0123456789abcdef0123456789abcdef/dependency-graphs/gradle" = true
  ∧ automation_principal_authorizes_request (AutomationTokens.Principal "t" "o" "p" ["project:scan"] (at_sec 0)) "POST"
      "/projects/p/analyses/0123456789abcdef0123456789abcdef/dependency-graphs/nuget" = false.
Proof. vm_compute. done. Qed.

Lemma gate_evidence_witness :
  evidence team_app (at_time 10) (by_mia "POST" "/projects/search")
    (Operator (session "sid-mia" "csrf-mia" mia "reader")).
Proof.
  apply (gate_evidence team_app (at_time 10) (by_mia "POST" "/projects/search") _ team_app).
  - vm_compute. reflexivity.
  - reflexivity.
  - vm_compute. discriminate.
  - intros H%mem_true. vm_compute in H. discriminate.
Defined.
