(* ===== verification/TeamAccess.v ===== *)
(** * TeamAccess: signing in, and the routes that decide who has access

    Models the routes of [backend/app/main.py] that open and close sessions
    and that change the members of an organization, behind the middleware of
    [RequestGate].  [step] is one HTTP exchange: the gate, the route, and the
    stores both leave.  The theorems are about sequences of exchanges: what a
    sign-in gives, and what revoking a member, changing a role or signing out
    takes away at once, whatever requests follow.

    A path parameter is a text without a slash.  Request bodies have passed
    their schema.  The product audit a route writes after it has succeeded is
    not modelled. *)

From S2P Require Import Prelude PyStr Sha256 BearerToken SqlTable AutomationTokens ImportGrants Auth AuthState AuthSessions AuthAttempts SessionBackend TeamIdentity TeamAttestations TeamMembers RequestGate.
Local Open Scope Z_scope.

(** ** Answers *)

(** What a route returns, [HTTPException], or an exception nobody handles
    (status 500). *)
Inductive http (A : Type) : Type :=
| Answer (a : A)
| HttpError (status_code : Z) (detail : string)
| Crashed (exception : string).
Arguments Answer {A} a.
Arguments HttpError {A} status_code detail.
Arguments Crashed {A} exception.

#[export] Instance http_bind : MBind http := λ A B f m,
  match m with Answer a => f a | HttpError s d => HttpError s d | Crashed e => Crashed e end.

Notation "'refuse' s d 'when' b ';;' k" := (if b then HttpError s d else k)
  (at level 100, s at level 9, d at level 9, b at level 99, k at level 200, right associativity).

(** The result of a store, its errors answered by [f]. *)
Definition answer {A} (o : outcome A) (f : string → http A) : http A :=
  match o with Ok a => Answer a | Err e => f e end.

(** What the answers carry. *)
Inductive payload : Type :=
| SignedIn (s : AdminSession)
| SignedOut
| MemberChanged (m : TeamMember)
| MemberRevoked
| Created (o : TeamOrganization)
| Invited (i : TeamInvitation)
| Joined (p : TeamPrincipal)
| Bound (b : FederatedIdentityBinding)
| Attested (a : PublicIdentityAttestation)
| Passed (who : caller).

(** ** State and settings *)

Inductive attempt_backend : Type :=
| AttemptsInMemory (d : Login.attempt_store)
| AttemptsDurable (t : attempt_table).

Record server : Type := Server { state : app; login_attempts : attempt_backend }.

Record config : Type := Config {
  session_ttl_seconds : Z;
  throttle : Login.settings;
  invitation_ttl_seconds : Z;
  admin_password_hash : option string;
  oidc_organization : option string
}.

(** backend/app/config.py [DEFAULT_LOCAL_OPERATOR] *)
Definition DEFAULT_LOCAL_OPERATOR : string := "local-admin".

(** ** Requirements *)

Definition unavailable {A} : http A := HttpError 503 "Identity service unavailable.".
Definition unauthenticated {A} : http A := HttpError 401 AUTH_REQUIRED_DETAIL.

(** backend/app/main.py [current_team_principal] *)
Definition current_team_principal (a : app) (session : option AdminSession) : http TeamPrincipal :=
  refuse 404 "Workspace not found." when (negb (String.eqb (auth_mode a) TEAM));;
  match session, team_identity a with
  | Some s, Some db =>
      match Session.organization_id s with
      | Some o =>
          if negb (truthy o) then unauthenticated else
          match get_principal db (Session.operator_id s) o with
          | Err _ => unavailable
          | Ok (Some p) => if bool_decide (Some (principal_role p) = Session.role s) then Answer p else unauthenticated
          | Ok None => unauthenticated
          end
      | None => unauthenticated
      end
  | _, _ => unauthenticated
  end.

(** backend/app/main.py [require_team_administrator] *)
Definition require_team_administrator (a : app) (session : option AdminSession) : http TeamPrincipal :=
  p ← current_team_principal a session;
  refuse 403 "Administrator role required." when (negb (team_role_allows (principal_role p) "workspace_admin"));;
  Answer p.

(** backend/app/main.py [require_team_maintainer] *)
Definition require_team_maintainer (a : app) (session : option AdminSession) : http TeamPrincipal :=
  p ← current_team_principal a session;
  refuse 403 "Maintainer role required." when (negb (team_role_allows (principal_role p) "project_mutate"));;
  Answer p.

(** backend/app/main.py [require_team_scope_identifier] *)
Definition require_team_scope_identifier (value bootstrap_value detail : string) : http string :=
  if String.eqb value bootstrap_value || is_hex32 value then Answer value else HttpError 404 detail.

(** The store, which [current_team_principal] has found. *)
Definition with_store {A} (a : app) (f : team_db → http A * app) : http A * app :=
  match team_identity a with Some db => f db | None => (Crashed "AttributeError", a) end.

(** Codes that are not of [TeamIdentityError]. *)
Definition uncaught (e : string) : bool := mem e ["AssertionError"; "TypeError"; "ValueError"].

(** ** Signing in and out *)

Section Routes.
Context (cfg : config) (attempt_rank workspace_order_rank : string → Z).

(** Whom the credentials open a session for. *)
(** backend/app/main.py 4312-4331 [auth_login] *)
Definition credentials (a : app) (username password : option string) : option identity :=
  let username := strip (default "" username) in
  let password := default "" password in
  if String.eqb (auth_mode a) "self_hosted_single_admin" then
    if (negb (truthy username) || String.eqb username "admin")
       && Password.verify_admin_password (Some password) (admin_password_hash cfg)
    then Some (Identity DEFAULT_LOCAL_OPERATOR (auth_mode a) None None) else None
  else if String.eqb (auth_mode a) TEAM then
    db ← team_identity a;
    match authenticate workspace_order_rank db username password with
    | Ok (Some p) => Some (Identity (principal_user_id p) (auth_mode a) (Some (principal_organization_id p))
                             (Some (principal_role p)))
    | _ => None
    end
  else None.

(** The throttle around a credential check. *)
Definition throttled (b : attempt_backend) (q : Login.readings) (at_inner : datetime) (key : option string)
    (valid : bool) : Login.login_reply * attempt_backend :=
  match b with
  | AttemptsInMemory d =>
      let '(reply, d') := Login.login (throttle cfg) d q key valid in (reply, AttemptsInMemory d')
  | AttemptsDurable t =>
      let '(reply, t') := durable_login (throttle cfg) attempt_rank t q at_inner key valid in (reply, AttemptsDurable t')
  end.

(** [create_admin_session], on the store of the application. *)
Definition open_session (a : app) (now : datetime) (w : tokens) (who : identity) : http AdminSession * app :=
  match store_create (session_ttl_seconds cfg) (admin_sessions a) now w who with
  | Ok (s, b) => (Answer s, with_sessions b a)
  | Err e => (Crashed e, a)
  end.

(** backend/app/main.py [auth_login] *)
Definition auth_login (sv : server) (q : Login.readings) (at_inner now : datetime) (key : option string)
    (username password : option string) (w : tokens) : http payload * server :=
  let a := state sv in
  if negb (mem (auth_mode a) ["self_hosted_single_admin"; TEAM]) then (HttpError 401 "Invalid credentials.", sv) else
  let who := credentials a username password in
  let '(reply, attempts) := throttled (login_attempts sv) q at_inner key (bool_decide (is_Some who)) in
  match reply, who with
  | Login.RateLimited _, _ => (HttpError 429 RATE_LIMITED_DETAIL, Server a attempts)
  | Login.Accepted, Some who =>
      let '(s, a') := open_session a now w who in (s ← s; Answer (SignedIn s), Server a' attempts)
  | _, _ => (HttpError 401 "Invalid credentials.", Server a attempts)
  end.

(** backend/app/main.py [auth_logout] *)
Definition auth_logout (a : app) (t : clocks) (r : request) (existing : option AdminSession) (now : datetime)
    : http payload * app :=
  let '(_, a1) := current_session_for_request a t r existing in
  (Answer SignedOut, with_sessions (store_invalidate (admin_sessions a1) now (session_cookie r)) a1).

(** backend/app/main.py [select_team_organization] *)
Definition select_team_organization (a : app) (session : option AdminSession) (cookie : option string)
    (at_end now : datetime) (w : tokens) (organization : string) : http payload * app :=
  match p ← current_team_principal a session;
        o ← require_team_scope_identifier organization "local-admin" "Workspace not found.";
        db ← answer (or_raise (team_identity a) "AttributeError") Crashed;
        selected ← answer (get_principal db (principal_user_id p) o) (λ _, unavailable);
        answer (or_raise selected "") (λ _, HttpError 404 "Workspace not found.") with
  | Answer selected =>
      let a1 := with_sessions (store_invalidate (admin_sessions a) at_end cookie) a in
      let '(s, a2) := open_session a1 now w
        (Identity (principal_user_id selected) TEAM (Some (principal_organization_id selected))
           (Some (principal_role selected))) in
      (s ← s; Answer (SignedIn s), a2)
  | HttpError c d => (HttpError c d, a)
  | Crashed e => (Crashed e, a)
  end.

(** ** Organizations and members *)

(** A method of the identity store for a principal the route requires: its
    tables are written whether it raises or not. *)
Definition on_store {A} (a : app) (p : http TeamPrincipal) (f : team_db → TeamPrincipal → outcome A * team_db)
    (code : string → http payload) (done : A → payload) : http payload * app :=
  match p with
  | HttpError c d => (HttpError c d, a)
  | Crashed e => (Crashed e, a)
  | Answer p =>
      match team_identity a with
      | None => (Crashed "AttributeError", a)
      | Some db => let '(r, db') := f db p in
                   ((match r with Ok x => Answer (done x) | Err e => if uncaught e then Crashed e else code e end),
                    with_team db' a)
      end
  end.

(** backend/app/main.py [create_team_organization] *)
Definition create_team_organization (a : app) (session : option AdminSession) (now : datetime) (new_id name : string)
    : http payload * app :=
  on_store a (require_team_administrator a session)
    (λ db p, create_organization db now new_id p name)
    (λ e, if String.eqb e "invalid_organization_name" then HttpError 400 "Workspace name is invalid." else unavailable)
    Created.

(** backend/app/main.py [create_team_invitation] *)
Definition create_team_invitation (a : app) (session : option AdminSession) (now : datetime)
    (new_id token username role : string) : http payload * app :=
  on_store a (require_team_administrator a session)
    (λ db p, create_invitation (invitation_ttl_seconds cfg) db now new_id token p username role)
    (λ e, if String.eqb e "member_exists" then HttpError 409 "A member already uses that username."
          else if mem e ["invalid_username"; "invalid_role"] then HttpError 400 "Invitation details are invalid."
          else unavailable)
    Invited.

(** [invalidate_operator_organization_sessions], or what the in-memory store
    has instead. *)
Definition sign_out_member (a : app) (now : datetime) (user organization : string) : http app :=
  answer (b ← store_sign_out (admin_sessions a) now user organization; Ok (with_sessions b a)) Crashed.

Definition not_found {A} : http A := HttpError 404 "Member not found.".

(** backend/app/main.py [change_team_member_role] *)
Definition change_team_member_role (a : app) (session : option AdminSession) (now : datetime) (user role : string)
    : http payload * app :=
  match p ← require_team_administrator a session;
        user ← require_team_scope_identifier user "team-admin" "Member not found."; Answer (p, user) with
  | HttpError c d => (HttpError c d, a)
  | Crashed e => (Crashed e, a)
  | Answer (p, user) =>
      let '(r, a1) := on_store a (Answer p) (λ db p, change_member_role db p user role)
        (λ e, if String.eqb e "last_administrator"
              then HttpError 409 "The bootstrap administrator role cannot be removed."
              else if String.eqb e "member_not_found" then not_found else unavailable)
        MemberChanged in
      match r with
      | Answer m =>
          if String.eqb user (principal_user_id p) then (Answer m, a1) else
          match sign_out_member a1 now user (principal_organization_id p) with
          | Answer a2 => (Answer m, a2)
          | HttpError c d => (HttpError c d, a1)
          | Crashed e => (Crashed e, a1)
          end
      | _ => (r, a1)
      end
  end.

(** The checks before anything changes. *)
(** backend/app/main.py 5345-5354 [revoke_team_member] *)
Definition member_to_revoke (a : app) (session : option AdminSession) (user : string) : http (TeamPrincipal * string) :=
  p ← require_team_administrator a session;
  user ← require_team_scope_identifier user "team-admin" "Member not found.";
  refuse 409 "The bootstrap administrator cannot revoke itself." when (String.eqb user "team-admin");;
  db ← answer (or_raise (team_identity a) "AttributeError") Crashed;
  target ← answer (get_principal db user (principal_organization_id p)) (λ _, unavailable);
  match target with None => not_found | Some _ => Answer (p, user) end.

(** The sessions end first; [reconcile] is the caller's update of projects,
    assets and saved views, inside the transaction. *)
(** backend/app/main.py [revoke_team_member] *)
Definition revoke_team_member (a : app) (session : option AdminSession) (at_end now : datetime) (user : string)
    (reconcile : unit → outcome unit) : http payload * app :=
  match member_to_revoke a session user with
  | HttpError c d => (HttpError c d, a)
  | Crashed e => (Crashed e, a)
  | Answer (p, user) =>
      match sign_out_member a at_end user (principal_organization_id p) with
      | HttpError c d => (HttpError c d, a)
      | Crashed e => (Crashed e, a)
      | Answer a1 =>
          on_store a1 (Answer p) (λ db p, revoke_member db now p user (Some reconcile))
            (λ e, if String.eqb e "last_administrator"
                  then HttpError 409 "The bootstrap administrator cannot revoke itself."
                  else if String.eqb e "member_not_found" then not_found
                  else if mem e ["ActiveAssetStoreError"; "RemediationSavedViewError"]
                  then HttpError 503 "Member revocation could not be reconciled safely."
                  else unavailable)
            (λ _, MemberRevoked)
      end
  end.

(** ** Federated identities *)

Definition federation_unavailable {A} : http A := HttpError 503 "Federated identity is unavailable.".

(** The administrator of the organization the provider signs in to. *)
Definition require_federation (a : app) (session : option AdminSession) : http TeamPrincipal :=
  p ← require_team_administrator a session;
  refuse 404 "Federated identity is unavailable."
    when (negb (bool_decide (oidc_organization cfg = Some (principal_organization_id p))));;
  Answer p.

(** [digest] is [config.subject_digest(payload.subject)], keyed by a secret of
    the provider's configuration. *)
(** backend/app/main.py [provision_federated_identity] *)
Definition provision_identity (a : app) (session : option AdminSession) (now : datetime) (new_id user : string)
    (digest : outcome string) : http payload * app :=
  let allowed := p ← require_federation a session;
                 _ ← answer digest (λ _, HttpError 400 "Federated identity is invalid."); Answer p in
  on_store a allowed
    (λ db p, provision_federated_identity db now new_id p user (match digest with Ok d => d | Err _ => "" end))
    (λ e, if String.eqb e "member_not_found" then not_found
          else if mem e ["federated_administrator_forbidden"; "federated_identity_conflict"]
          then HttpError 409 "Federated identity cannot be provisioned."
          else federation_unavailable)
    Bound.

(** backend/app/main.py [revoke_federated_identity] *)
Definition revoke_identity (a : app) (session : option AdminSession) (at_end now : datetime) (binding : string)
    : http payload * app :=
  let '(r, a1) := on_store a (require_federation a session)
    (λ db p, revoke_federated_identity db now p binding)
    (λ e, if mem e ["invalid_identifier"; "federated_identity_not_found"]
          then HttpError 404 "Federated identity not found." else federation_unavailable)
    Bound in
  match r with
  | Answer (Bound b) =>
      match sign_out_member a1 at_end (binding_user_id b) (binding_organization_id b) with
      | Answer a2 => (r, a2)
      | HttpError c d => (HttpError c d, a1)
      | Crashed e => (Crashed e, a1)
      end
  | _ => (r, a1)
  end.

(** ** Approved packages *)

(** backend/app/main.py [_public_identity_attestation_http_error] *)
Definition _public_identity_attestation_http_error (e : string) : http payload :=
  if mem e ["invalid_public_identity"; "invalid_attestation_ttl"] then HttpError 400 "Public package identity is invalid."
  else if mem e ["attestation_exists"; "attestation_not_pending"; "attestation_not_active"]
  then HttpError 409 "Public identity approval state changed. Refresh and retry."
  else if String.eqb e "attestation_limit_reached"
  then HttpError 409 "Public identity approval limit reached for this workspace."
  else if String.eqb e "attestation_not_found" then HttpError 404 "Public identity approval not found."
  else if String.eqb e "administrator_required" then HttpError 403 "Administrator role required."
  else if String.eqb e "maintainer_required" then HttpError 403 "Maintainer role required."
  else HttpError 503 "Public identity approvals are unavailable.".

(** backend/app/main.py [propose_public_identity_attestation] *)
Definition propose_attestation (a : app) (session : option AdminSession) (now : datetime)
    (new_id ecosystem package : string) (ttl_days : Z) : http payload * app :=
  on_store a (require_team_maintainer a session)
    (λ db p, propose_public_identity db now new_id p ecosystem package ttl_days)
    _public_identity_attestation_http_error Attested.

(** backend/app/main.py [approve_public_identity_attestation] *)
Definition approve_attestation (a : app) (session : option AdminSession) (now : datetime) (i : string)
    : http payload * app :=
  on_store a (require_team_administrator a session) (λ db p, approve_public_identity db now p i)
    _public_identity_attestation_http_error Attested.

(** backend/app/main.py [revoke_public_identity_attestation] *)
Definition revoke_attestation (a : app) (session : option AdminSession) (now : datetime) (i : string)
    : http payload * app :=
  on_store a (require_team_administrator a session) (λ db p, revoke_public_identity db now p i)
    _public_identity_attestation_http_error Attested.

(** ** Joining *)

(** backend/app/main.py [accept_team_invitation] *)
Definition accept_team_invitation (sv : server) (q : Login.readings) (at_inner now : datetime) (key : option string)
    (salt new_user token password : string) : http payload * server :=
  let a := state sv in
  match (if String.eqb (auth_mode a) TEAM then team_identity a else None) with
  | None => (HttpError 404 "Invitation not found.", sv)
  | Some db =>
      let '(r, db') := accept_invitation db now salt new_user token password in
      let '(reply, attempts) := throttled (login_attempts sv) q at_inner key (is_ok r) in
      match reply, r with
      | Login.RateLimited _, _ => (HttpError 429 RATE_LIMITED_DETAIL, Server a attempts)
      | Login.Accepted, Ok p => (Answer (Joined p), Server (with_team db' a) attempts)
      | _, _ => (HttpError 400 "Invitation is invalid or expired.", Server (with_team db' a) attempts)
      end
  end.
End Routes.

(** ** Exchanges *)

(** The headers a client sends. *)
Record sent : Type := Sent { sent_authorization : string; sent_cookie : option string; sent_csrf : option string }.

(** The routes behind the gate, with the values each reads from its clock and
    random source; [OtherRoute] stands for those that leave the stores of
    this file alone. *)
Inductive route : Type :=
| Logout (now : datetime)
| SelectOrganization (at_end now : datetime) (w : tokens) (organization : string)
| NewOrganization (now : datetime) (new_id name : string)
| NewInvitation (now : datetime) (new_id token username role : string)
| SetRole (now : datetime) (user role : string)
| RemoveMember (at_end now : datetime) (user : string) (reconcile : unit → outcome unit)
| BindIdentity (now : datetime) (new_id user : string) (digest : outcome string)
| UnbindIdentity (at_end now : datetime) (binding : string)
| ProposeName (now : datetime) (new_id ecosystem package : string) (ttl_days : Z)
| ApproveName (now : datetime) (i : string)
| WithdrawName (now : datetime) (i : string)
| OtherRoute (method path : string).

(** The decorators of the routes. *)
Definition route_line (c : route) : string * string :=
  match c with
  | Logout _ => ("POST", "/auth/logout")
  | SelectOrganization _ _ _ o => ("POST", "/organizations/" ++ o ++ "/select")
  | NewOrganization _ _ _ => ("POST", "/organizations")
  | NewInvitation _ _ _ _ _ => ("POST", "/organization/invitations")
  | SetRole _ user _ => ("POST", "/organization/members/" ++ user ++ "/role")
  | RemoveMember _ _ user _ => ("DELETE", "/organization/members/" ++ user)
  | BindIdentity _ _ _ _ => ("POST", "/organization/federated-identities")
  | UnbindIdentity _ _ i => ("DELETE", "/organization/federated-identities/" ++ i)
  | ProposeName _ _ _ _ _ => ("POST", "/organization/public-identities")
  | ApproveName _ i => ("POST", "/organization/public-identities/" ++ i ++ "/approve")
  | WithdrawName _ i => ("DELETE", "/organization/public-identities/" ++ i)
  | OtherRoute m p => (m, p)
  end%string.

Definition route_request (c : route) (h : sent) : request :=
  Req (route_line c).1 (route_line c).2 (sent_authorization h) (sent_cookie h) (sent_csrf h).

Inductive event : Type :=
| Login (q : Login.readings) (at_inner now : datetime) (key username password : option string) (w : tokens)
| Accept (q : Login.readings) (at_inner now : datetime) (key : option string) (salt new_user token password : string)
| Exchange (t : clocks) (h : sent) (c : route)
| Restart (now : datetime) (name password_hash : string).

Definition session_of (who : caller) : option AdminSession := match who with Operator s => Some s | _ => None end.

Section Server.
Context (cfg : config) (attempt_rank workspace_order_rank : string → Z).

Definition run_route (a : app) (t : clocks) (r : request) (who : caller) (c : route) : http payload * app :=
  let s := session_of who in
  match c with
  | Logout now => auth_logout a t r s now
  | SelectOrganization at_end now w o => select_team_organization cfg a s (session_cookie r) at_end now w o
  | NewOrganization now i name => create_team_organization a s now i name
  | NewInvitation now i token username role => create_team_invitation cfg a s now i token username role
  | SetRole now user role => change_team_member_role a s now user role
  | RemoveMember at_end now user f => revoke_team_member a s at_end now user f
  | BindIdentity now i user d => provision_identity cfg a s now i user d
  | UnbindIdentity at_end now i => revoke_identity cfg a s at_end now i
  | ProposeName now i e n d => propose_attestation a s now i e n d
  | ApproveName now i => approve_attestation a s now i
  | WithdrawName now i => revoke_attestation a s now i
  | OtherRoute _ _ => (Answer (Passed who), a)
  end.

(** A request through the middleware to its route. *)
Definition serve (a : app) (t : clocks) (r : request) (c : route) : http payload * app :=
  let '(v, a1) := deny_anonymous_sensitive_routes a t r in
  match v with
  | Err e => (Crashed e, a1)
  | Ok (Refused s d) => (HttpError s d, a1)
  | Ok (Served who) => run_route a1 t r who c
  end.

(** The stores a new process opens. *)
Definition restarted (sv : server) (now : datetime) (name password_hash : string) : server :=
  let a := state sv in
  Server (App (auth_mode a)
            (match admin_sessions a with InMemory _ => InMemory [] | Durable st => Durable (restart st) end)
            ((λ db, default db (open_store (Some db) now name password_hash).2) <$> team_identity a)
            (automation_tokens a) (repository_import_grants a))
    (match login_attempts sv with AttemptsInMemory _ => AttemptsInMemory [] | AttemptsDurable t => AttemptsDurable t end).

Definition step (sv : server) (e : event) : http payload * server :=
  match e with
  | Login q at_inner now key username password w =>
      auth_login cfg attempt_rank workspace_order_rank sv q at_inner now key username password w
  | Accept q at_inner now key salt i token password =>
      accept_team_invitation cfg attempt_rank sv q at_inner now key salt i token password
  | Exchange t h c =>
      let '(x, a) := serve (state sv) t (route_request c h) c in (x, Server a (login_attempts sv))
  | Restart now name hash => (Answer (Passed Anyone), restarted sv now name hash)
  end.

Definition after_event (sv : server) (e : event) : server := (step sv e).2.

(** ** What an exchange does to the stores *)

(** The members change only by the operations of [TeamMembers]. *)
Definition team_moves (a a' : app) : Prop :=
  auth_mode a' = auth_mode a
  ∧ match team_identity a with
    | None => team_identity a' = None
    | Some db => ∃ ops, team_identity a' = Some (foldl (after_team (invitation_ttl_seconds cfg)) db ops)
    end.

#[global] Instance team_moves_refl : Reflexive team_moves.
Proof. intros a. split; [done|]. destruct (team_identity a) as [db|]; [by exists []|done]. Qed.
#[global] Instance team_moves_trans : Transitive team_moves.
Proof.
  intros a b c [Hm1 H1] [Hm2 H2]. split; [congruence|]. destruct (team_identity a) as [db|].
  - destruct H1 as [ops1 H1]. rewrite H1 in H2. destruct H2 as [ops2 H2]. exists (ops1 ++ ops2). by rewrite foldl_app.
  - by rewrite H1 in H2.
Qed.

Lemma with_sessions_moves b a : team_moves a (with_sessions b a).
Proof. split; [done|]. cbn. destruct (team_identity a) as [db|]; [by exists []|done]. Qed.

Lemma with_tokens_moves b a : team_moves a (with_tokens b a).
Proof. split; [done|]. cbn. destruct (team_identity a) as [db|]; [by exists []|done]. Qed.

Lemma with_team_moves db a op :
  team_identity a = Some db → team_moves a (with_team (after_team (invitation_ttl_seconds cfg) db op) a).
Proof. intros H. split; [done|]. rewrite H. by exists [op]. Qed.

Lemma current_session_moves a t r s : team_moves a (current_session_for_request a t r s).2.
Proof.
  unfold current_session_for_request. destruct s; [done|]. destruct (store_get _ _ _) as [[s|] b];
    [|apply with_sessions_moves]. destruct (negb _); [apply with_sessions_moves|].
  destruct (team_identity a), (Session.organization_id s); try apply with_sessions_moves.
  destruct (negb _); [apply with_sessions_moves|]. destruct (member_now _ _ _); exact (with_sessions_moves _ a).
Qed.

Lemma gate_moves a t r : team_moves a (deny_anonymous_sensitive_routes a t r).2.
Proof.
  unfold deny_anonymous_sensitive_routes. destruct (_ || _); [done|]. destruct (negb _); [done|].
  destruct (truthy _).
  - destruct (bearer_gate a t r) as [v a'] eqn:E. cbn. unfold bearer_gate in E.
    destruct (_ || _); [by injection E as <- <-|]. destruct (startswith _ _).
    + destruct (repository_import_grants a); [|by injection E as <- <-]. destruct (ImportGrants.authenticate _ _ _);
        [|by injection E as <- <-]. by destruct (_ || _); injection E as <- <-.
    + destruct (automation_tokens a); [|by injection E as <- <-].
      destruct (AutomationTokens.authenticate _ _ _) as [[[p|] ts]|]; [injection E as <- <-; apply with_tokens_moves..|].
      by injection E as <- <-.
  - unfold session_gate. pose proof (current_session_moves a t r None) as Hc.
    destruct (current_session_for_request a t r None) as [[s|] a1]; [|done]. cbn in Hc.
    destruct (is_csrf_required_for_request r).
    + unfold verify_csrf_token_for_request. destruct (store_verify_csrf _ _ _ _) as [[[] b]|]; cbn; [|..|done];
        [destruct (_ && _)|]; (etransitivity; [exact Hc|apply with_sessions_moves]).
    + by destruct (_ && _).
Qed.

(** A route that asks the identity store for one operation. *)
Lemma on_store_moves {A} a p (f : team_db → TeamPrincipal → outcome A * team_db) code done :
  (∀ db q, ∃ op, (f db q).2 = after_team (invitation_ttl_seconds cfg) db op) → team_moves a (on_store a p f code done).2.
Proof.
  intros Hf. unfold on_store. destruct p as [q| |]; try done. destruct (team_identity a) as [db|] eqn:Hdb; [|done].
  destruct (Hf db q) as [op Hop]. destruct (f db q) as [r db']. cbn in Hop |- *. rewrite Hop. by apply with_team_moves.
Qed.

Lemma sign_out_moves a now user o a' : sign_out_member a now user o = Answer a' → team_moves a a'.
Proof.
  unfold sign_out_member. destruct (store_sign_out _ _ _ _) as [b|]; [|done]. intros [= <-]. apply with_sessions_moves.
Qed.

Lemma open_session_moves a now w who : team_moves a (open_session cfg a now w who).2.
Proof. unfold open_session. destruct (store_create _ _ _ _ _) as [[s b]|]; [apply with_sessions_moves|done]. Qed.

Lemma change_role_moves a s now user role : team_moves a (change_team_member_role a s now user role).2.
Proof.
  unfold change_team_member_role. destruct (mbind _ _) as [[p u]| |]; try done.
  match goal with |- context [on_store a ?p ?f ?g ?d] => pose proof (on_store_moves a p f g d) as Hm; destruct (on_store a p f g d) as [[x| |] a1] end;
    (assert (Hm' : team_moves a a1) by (apply Hm; intros db q; by exists (ByPrincipal q (ChangeRole u role)))); try done.
  destruct (String.eqb u _); [done|]. destruct (sign_out_member a1 _ _ _) as [a2| |] eqn:Hs; try done.
  etransitivity; [done|by eapply sign_out_moves].
Qed.

Lemma revoke_moves a s at_end now user f : team_moves a (revoke_team_member a s at_end now user f).2.
Proof.
  unfold revoke_team_member. destruct (member_to_revoke _ _ _) as [[p u]| |]; try done.
  destruct (sign_out_member a _ _ _) as [a1| |] eqn:Hs; try done. apply sign_out_moves in Hs.
  etransitivity; [exact Hs|]. apply on_store_moves. intros db q. by exists (ByPrincipal q (RevokeMember now u (Some f))).
Qed.

Lemma unbind_moves a s at_end now i : team_moves a (revoke_identity cfg a s at_end now i).2.
Proof.
  unfold revoke_identity. match goal with |- context [on_store a ?p ?f ?g ?d] =>
    pose proof (on_store_moves a p f g d) as Hm; destruct (on_store a p f g d) as [x a1] end.
  assert (Hm' : team_moves a a1) by (apply Hm; intros db q; by exists (ByPrincipal q (RevokeBinding now i))).
  destruct x as [[]| |]; try done. destruct (sign_out_member a1 _ _ _) as [a2| |] eqn:Hs; try done.
  etransitivity; [done|by eapply sign_out_moves].
Qed.

Lemma select_moves a s cookie at_end now w o : team_moves a (select_team_organization cfg a s cookie at_end now w o).2.
Proof.
  unfold select_team_organization. destruct (mbind _ _) as [p| |]; try done.
  match goal with |- context [open_session cfg ?a1 now w ?who] =>
    pose proof (open_session_moves a1 now w who) as Hm; destruct (open_session cfg a1 now w who) as [x a2] end.
  etransitivity; [|exact Hm]. apply with_sessions_moves.
Qed.

Lemma logout_moves a t r s now : team_moves a (auth_logout a t r s now).2.
Proof.
  unfold auth_logout. pose proof (current_session_moves a t r s) as Hm.
  destruct (current_session_for_request a t r s) as [x a1]. etransitivity; [exact Hm|apply with_sessions_moves].
Qed.

Lemma route_moves a t r who c : team_moves a (run_route a t r who c).2.
Proof.
  destruct c; cbn [run_route]; try done;
    try apply logout_moves; try apply select_moves; try apply change_role_moves; try apply revoke_moves; try apply unbind_moves;
    apply on_store_moves; intros db q.
  - by exists (ByPrincipal q (CreateOrganization now new_id name)).
  - by exists (ByPrincipal q (Invite now new_id token username role)).
  - by eexists (ByPrincipal q (Provision now new_id user _)).
  - by exists (ByPrincipal q (ProposePackage now new_id ecosystem package ttl_days)).
  - by exists (ByPrincipal q (ApprovePackage now i)).
  - by exists (ByPrincipal q (RevokePackage now i)).
Qed.

Lemma step_moves sv e : team_moves (state sv) (state (after_event sv e)).
Proof.
  unfold after_event. destruct e as [q inner now key username password w|q inner now key salt i token password|t h c|now name hash];
    cbn [step].
  - unfold auth_login. destruct (negb _); [done|]. destruct (throttled _ _ _ _ _ _ _) as [[| |] att]; try done.
    destruct (credentials _ _ _ _ _); [|done]. pose proof (open_session_moves (state sv) now w i) as Hm.
    by destruct (open_session _ _ _ _ _).
  - unfold accept_team_invitation. destruct (String.eqb _ TEAM); [|done].
    destruct (team_identity (state sv)) as [db|] eqn:Hdb; [|done].
    pose proof (with_team_moves db (state sv) (AcceptInvitation now salt i token password) Hdb) as Hm. cbn [after_team] in Hm.
    destruct (accept_invitation db now salt i token password) as [x db'].
    destruct (throttled _ _ _ _ _ _ _) as [[| |] att]; [done|exact Hm|destruct x; exact Hm].
  - unfold serve. pose proof (gate_moves (state sv) t (route_request c h)) as Hg.
    destruct (deny_anonymous_sensitive_routes _ _ _) as [[[who|st d]|e] a1]; try done.
    pose proof (route_moves a1 t (route_request c h) who c) as Hr.
    destruct (run_route _ _ _ _ _) as [x a2]. by etransitivity.
  - split; [done|]. cbn. destruct (team_identity (state sv)) as [db|]; [|done]. by exists [Reopen now name hash].
Qed.

Lemma steps_move es : ∀ sv, team_moves (state sv) (state (foldl after_event sv es)).
Proof. induction es as [|e es IH]; intros sv; [done|]. cbn. etransitivity; [apply step_moves|apply IH]. Qed.

(** ** Revoking a member *)

Lemma current_principal_ok a s p :
  current_team_principal a s = Answer p →
  auth_mode a = TEAM ∧ ∃ s0 db o, s = Some s0 ∧ team_identity a = Some db ∧ Session.organization_id s0 = Some o
    ∧ get_principal db (Session.operator_id s0) o = Ok (Some p) ∧ Some (principal_role p) = Session.role s0.
Proof.
  unfold current_team_principal. destruct (String.eqb_spec (auth_mode a) TEAM) as [Hm|]; [|done]. cbn [negb].
  destruct s as [s0|]; [|done]. destruct (team_identity a) as [db|]; [|done].
  destruct (Session.organization_id s0) as [o|] eqn:Ho; [|done]. destruct (negb (truthy o)); [done|].
  destruct (get_principal db _ o) as [[q|]|] eqn:Hp; try done. case_bool_decide as Hr; [|done]. intros [= ->].
  split; [done|]. by exists s0, db, o.
Qed.

Lemma http_bind_ok {A B} (m : http A) (f : A → http B) b : m ≫= f = Answer b → ∃ a, m = Answer a ∧ f a = Answer b.
Proof. destruct m as [a| |]; [|done..]. by exists a. Qed.

Lemma administrator_ok a s p :
  require_team_administrator a s = Answer p → current_team_principal a s = Answer p ∧ principal_role p = "administrator".
Proof.
  unfold require_team_administrator. intros (q & Hq & H)%http_bind_ok.
  destruct (team_role_allows (principal_role q) "workspace_admin") eqn:E; [|done]. injection H as ->. split; [done|].
  unfold team_role_allows in E. cbn [dict_get TEAM_ROLE_CAPABILITIES] in E.
  destruct (String.eqb_spec "reader" (principal_role p)); [done|].
  destruct (String.eqb_spec "maintainer" (principal_role p)); [done|].
  by destruct (String.eqb_spec "administrator" (principal_role p)).
Qed.

Lemma scope_identifier_ok v b d v' : require_team_scope_identifier v b d = Answer v' → v' = v.
Proof. unfold require_team_scope_identifier. by destruct (_ || _); [intros [= ->]|]. Qed.

Lemma revoked_member_gone a s at_end now user f a' :
  revoke_team_member a s at_end now user f = (Answer MemberRevoked, a') →
  ∃ s0 o db p, s = Some s0 ∧ Session.organization_id s0 = Some o ∧ team_identity a = Some db
    ∧ principal_organization_id p = o
    ∧ is_ok (revoke_member db now p user (Some f)).1 = true
    ∧ team_identity a' = Some (revoke_member db now p user (Some f)).2.
Proof.
  unfold revoke_team_member. destruct (member_to_revoke a s user) as [[p u]| |] eqn:Hm; try done.
  unfold member_to_revoke in Hm. apply http_bind_ok in Hm as (p' & Hp & Hm). apply http_bind_ok in Hm as (u' & Hu & Hm).
  apply scope_identifier_ok in Hu as ->. apply administrator_ok in Hp as [Hp _].
  apply current_principal_ok in Hp as (_ & s0 & db & o & -> & Hdb & Ho & Hgp & _).
  assert (p' = p ∧ user = u) as [-> ->].
  { destruct (String.eqb user "team-admin"); [done|]. apply http_bind_ok in Hm as (db' & _ & Hm).
    apply http_bind_ok in Hm as ([x|] & _ & Hm); [|done]. by injection Hm as -> ->. }
  destruct (sign_out_member a _ _ _) as [a1| |] eqn:Hs; try done. unfold sign_out_member in Hs.
  destruct (store_sign_out _ _ _ _) as [b|]; [|done]. injection Hs as <-. unfold on_store. cbn [team_identity with_sessions].
  rewrite Hdb. destruct (revoke_member db now p u (Some f)) as [r db'] eqn:Hr. intros [= Hans <-].
  exists s0, o, db, p. repeat (split; [done|]). split.
  { apply get_principal_inv in Hgp as (us & r0 & m & _ & _ & _ & _ & _ & ->). done. }
  rewrite Hr. split; [|done]. destruct r as [|e]; [done|]. destruct (uncaught e); [done|]. by repeat case_match.
Qed.

(** C13: A revoked member is locked out at once. When the route has answered
    that the member is revoked, no request is ever again served as that user
    in that organization, whatever exchanges follow: requests with the
    cookies it holds, new sign-ins, new invitations and their acceptance,
    restarts of the process. *)
Theorem revoked_member_locked_out a s0 o at_end now user f a' att es t r s a'' :
  revoke_team_member a (Some s0) at_end now user f = (Answer MemberRevoked, a') →
  Session.organization_id s0 = Some o →
  deny_anonymous_sensitive_routes (state (foldl after_event (Server a' att) es)) t r = (Ok (Served (Operator s)), a'') →
  ¬ (Session.operator_id s = user ∧ Session.organization_id s = Some o).
Proof.
  intros Hr Ho0 Hg [Hop Horg].
  pose proof (f_equal fst Hr) as Hans. cbn in Hans.
  assert (Hmode : auth_mode a' = TEAM).
  { pose proof (revoke_moves a (Some s0) at_end now user f) as [Hm _]. rewrite Hr in Hm. cbn in Hm. rewrite Hm.
    unfold revoke_team_member in Hans. destruct (member_to_revoke a (Some s0) user) as [[q u]| |] eqn:Hmr; try done.
    unfold member_to_revoke in Hmr. apply http_bind_ok in Hmr as (q' & Hq & _).
    apply administrator_ok in Hq as [Hq _]. by apply current_principal_ok in Hq as [? _]. }
  apply revoked_member_gone in Hr as (s1 & o1 & db & p & [= <-] & Ho & Hdb & Hpo & Hok & Hdb').
  assert (o1 = o) as -> by congruence.
  destruct (steps_move es (Server a' att)) as [Hm Hteam]. cbn [state] in Hm, Hteam. rewrite Hdb' in Hteam.
  destruct Hteam as [ops Hteam]. destruct (state _) as [md b tm tk gr] eqn:Hst. cbn in Hm, Hteam. subst tm.
  apply gate_operator, session_gate_spec in Hg as (Hc & _). apply current_session_spec in Hc as (_ & _ & _ & Hev).
  destruct Hev as (db1 & o1 & p1 & [= <-] & Ho1 & Hgp & _); [cbn; congruence|].
  destruct (revoke_member db now p user (Some f)) as [[x|] db'] eqn:Hrm; [|done]. cbn [fst snd] in *.
  destruct (revoked_member_row db now p user (Some f) x) as (Hne & _ & m & Hm' & Hun); [by rewrite Hrm|].
  rewrite Hrm in Hm'. cbn in Hm'. rewrite Hpo in Hm'.
  assert (o1 = o) as -> by congruence. rewrite Hop in Hgp.
  rewrite get_principal_none in Hgp; [done|]. unfold active_membership.
  rewrite (revoked_rows_stay _ ops _ _ m); [|unfold bootstrap_key; congruence|done..]. cbn. by rewrite Hun.
Qed.

(** ** Signing in *)

Lemma credentials_member a username password who :
  credentials cfg workspace_order_rank a username password = Some who → auth_mode a = TEAM →
  ∃ db p, team_identity a = Some db ∧ organization who = Some (principal_organization_id p)
    ∧ session_role who = Some (principal_role p)
    ∧ get_principal db (operator who) (principal_organization_id p) = Ok (Some p).
Proof.
  unfold credentials. intros H Hm. rewrite Hm in H.
  change (String.eqb TEAM "self_hosted_single_admin") with false in H. rewrite String.eqb_refl in H.
  destruct (team_identity a) as [db|]; [|done]. cbn [mbind option_bind] in H.
  destruct (authenticate _ _ _ _) as [[p|]|] eqn:Hp; try done. injection H as <-.
  apply authenticate_current in Hp as [Hp _]. by exists db, p.
Qed.

Lemma login_ok sv q at_inner now key username password w s sv' :
  auth_login cfg attempt_rank workspace_order_rank sv q at_inner now key username password w = (Answer (SignedIn s), sv') →
  ∃ who b, credentials cfg workspace_order_rank (state sv) username password = Some who
    ∧ store_create (session_ttl_seconds cfg) (admin_sessions (state sv)) now w who = Ok (s, b)
    ∧ state sv' = with_sessions b (state sv) ∧ is_auth_required (state sv) = true.
Proof.
  unfold auth_login. destruct (mem (auth_mode (state sv)) _) eqn:Hm; [|done]. cbn [negb].
  destruct (throttled _ _ _ _ _ _ _) as [[| |] att]; try done.
  destruct (credentials _ _ _ _ _) as [who|] eqn:Hc; [|done]. unfold open_session.
  destruct (store_create _ _ _ _ _) as [[s' b]|] eqn:Hs; [|done]. intros [= <- <-]. exists who, b.
  repeat (split; [done|]). unfold is_auth_required. apply mem_true in Hm.
  destruct (String.eqb_spec (auth_mode (state sv)) "trusted_local_no_auth") as [E|]; [|done]. rewrite E in Hm. set_solver.
Qed.

(** A sign-in is honoured. When the route has answered with a session,
    the client's next request, with the cookie of the session and the CSRF
    token [auth/status] gives for it, at any time before the session expires,
    is served as the user the credentials belong to (in team mode: in an
    organization it is a member of now and with its role there), unless the
    user's role forbids the request. *)
Theorem sign_in_is_honoured sv q at_inner now key username password w s sv' t r fresh :
  auth_login cfg attempt_rank workspace_order_rank sv q at_inner now key username password w = (Answer (SignedIn s), sv') →
  truthy (Session.session_id s) = true → truthy (fresh_csrf w) = true →
  all_chars (between 0 127) (fresh_csrf w) = true →
  (∀ o, Session.organization_id s = Some o → truthy o = true) →
  reading (at_open t) < instant (Session.expires_at s) →
  session_cookie r = Some (Session.session_id s) → csrf_header r = Some (fresh_csrf w) → authorization r = "" →
  method r ≠ "OPTIONS" → path r ∉ PUBLIC_ANONYMOUS_PATHS →
  (auth_mode (state sv) = TEAM → is_csrf_required_for_request r = true →
     session_allows s "project_mutate" = true ∨ reader_may_send r = true) →
  ∃ s', (deny_anonymous_sensitive_routes (state sv') t r).1 = Ok (Served (Operator s'))
    ∧ credentials cfg workspace_order_rank (state sv) username password = Some (identity_of s')
    ∧ Session.session_id s' = Session.session_id s
    ∧ store_csrf_token (admin_sessions (state sv')) (at_csrf t) fresh s' = Ok (Some (fresh_csrf w), admin_sessions (state sv')).
Proof.
  intros Hl Hi Hc Ha Ho Hlt Hcookie Hcsrf Hauth Hm Hp Hrole.
  apply login_ok in Hl as (who & b & Hwho & Hs & Hst & Hreq).
  destruct (create_held _ _ _ _ _ _ _ "" who 0 Hs) as (Hid & _ & _).
  destruct (created_open _ _ _ _ _ _ _ (at_open t) (at_csrf t) fresh Hs Hi Ha Hc Hlt) as (s' & Hg & Hid' & Hsid & Htok & Hver).
  rewrite Hst. cbn [admin_sessions with_sessions]. exists s'. split; [|by rewrite Hid'].
  unfold deny_anonymous_sensitive_routes. rewrite (proj2 (String.eqb_neq _ _) Hm).
  destruct (mem (path r) _) eqn:Hmem; [by apply mem_true in Hmem|]. cbn [orb].
  change (is_auth_required (with_sessions b (state sv))) with (is_auth_required (state sv)). rewrite Hreq, Hauth. cbn [negb truthy].
  change (truthy "") with false. cbn iota. apply session_gate_serves with (b := b); cbn [admin_sessions with_sessions auth_mode team_identity].
  - by rewrite Hcookie.
  - intros Ht. destruct (credentials_member _ _ _ _ Hwho Ht) as (db & p & Hdb & Horg & Hr & Hgp).
    exists db, (principal_organization_id p), p. rewrite <-Hid' in Horg, Hr, Hgp. cbn in Horg, Hr, Hgp.
    repeat (split; [done|]). split; [|done]. apply Ho. rewrite <-Horg. rewrite <-Hid in Hid'. unfold identity_of in Hid'. congruence.
  - by rewrite Hcsrf.
  - intros Ht Hmut. destruct (Hrole Ht Hmut) as [Hal|]; [left|by right]. unfold session_allows in *.
    rewrite <-Hid in Hid'. unfold identity_of in Hid'. by replace (Session.role s') with (Session.role s) by congruence.
Qed.

(** ** Signing out *)

Abbreviation holds a j who u := (held (admin_sessions a) j who u).

(** The answer opens a session whose identifier has the digest of [j]. *)
Definition opens (x : http payload) (j : string) : Prop :=
  ∃ s, x = Answer (SignedIn s) ∧ hash_session_id j = hash_session_id (Session.session_id s).

Lemma slot_hash (b : session_backend) i j : slot b i = slot b j → hash_session_id i = hash_session_id j.
Proof. destruct b; cbn; congruence. Qed.

Lemma current_session_held a t r s j who u :
  holds (current_session_for_request a t r s).2 j who u → holds a j who u.
Proof.
  unfold current_session_for_request. destruct s; [done|].
  pose proof (get_held (admin_sessions a) (at_open t) (session_cookie r) j who u) as Hg.
  destruct (store_get _ _ _) as [[s|] b]; [|done]. cbn in Hg.
  destruct (negb _); [done|]. destruct (team_identity a), (Session.organization_id s); try done.
  destruct (negb _); [done|]. destruct (member_now _ _ _); [done|]. intros [H _]%invalidate_held. by apply Hg.
Qed.

Lemma gate_held a t r j who u : holds (deny_anonymous_sensitive_routes a t r).2 j who u → holds a j who u.
Proof.
  unfold deny_anonymous_sensitive_routes. destruct (_ || _); [done|]. destruct (negb _); [done|]. destruct (truthy _).
  - destruct (bearer_gate a t r) as [v a'] eqn:E. cbn. unfold bearer_gate in E.
    assert (Ha : admin_sessions a' = admin_sessions a); [|by rewrite Ha].
    destruct (_ || _); [by injection E as <- <-|]. destruct (startswith _ _).
    + destruct (repository_import_grants a); [|by injection E as <- <-]. destruct (ImportGrants.authenticate _ _ _);
        [|by injection E as <- <-]. by destruct (_ || _); injection E as <- <-.
    + destruct (automation_tokens a); [|by injection E as <- <-].
      by destruct (AutomationTokens.authenticate _ _ _) as [[[p|] ts]|]; injection E as <- <-.
  - unfold session_gate. pose proof (current_session_held a t r None j who u) as Hc.
    destruct (current_session_for_request a t r None) as [[s|] a1]; [|done]. cbn [snd] in Hc.
    destruct (is_csrf_required_for_request r); [|destruct (_ && _); exact Hc].
    unfold verify_csrf_token_for_request. destruct (store_verify_csrf _ _ _ _) as [[v b]|] eqn:Hv; cbn [mbind outcome_bind]; [|done].
    intros H. apply Hc. eapply verify_held; [exact Hv|]. destruct v; [destruct (_ && _)|]; exact H.
Qed.

Lemma on_store_sessions {A} a p (f : team_db → TeamPrincipal → outcome A * team_db) code done :
  admin_sessions (on_store a p f code done).2 = admin_sessions a.
Proof.
  unfold on_store. destruct p as [q| |]; try done. destruct (team_identity a); [|done]. by destruct (f _ _).
Qed.

Lemma sign_out_member_held a now user o a' j who u :
  sign_out_member a now user o = Answer a' → holds a' j who u →
  holds a j who u ∧ (operator who = user → organization who ≠ Some o).
Proof.
  unfold sign_out_member. destruct (store_sign_out _ _ _ _) as [b|] eqn:Hs; [|done]. intros [= <-]. by eapply sign_out_held.
Qed.

Lemma open_session_held a now w who j who' u :
  let r := open_session cfg a now w who in
  holds r.2 j who' u → holds a j who' u ∨ ∃ s, r.1 = Answer s ∧ hash_session_id j = hash_session_id (Session.session_id s).
Proof.
  cbn zeta. unfold open_session. destruct (store_create _ _ _ _ _) as [[s b]|] eqn:Hs; cbn; [|by left].
  destruct (create_held _ _ _ _ _ _ _ j who' u Hs) as (_ & _ & H). intros [?|[Hslot _]]%H; [by left|right].
  exists s. split; [done|]. by apply slot_hash in Hslot.
Qed.

Lemma route_held a t r who c j who' u :
  let x := run_route a t r who c in holds x.2 j who' u → holds a j who' u ∨ opens x.1 j.
Proof.
  cbn zeta. destruct c; cbn [run_route];
    try (match goal with |- context [on_store ?a ?p ?f ?g ?d] =>
           pose proof (on_store_sessions a p f g d) as E; unfold create_team_organization, create_team_invitation,
             provision_identity, propose_attestation, approve_attestation, revoke_attestation; rewrite E; by left end).
  - unfold auth_logout. pose proof (current_session_held a t r (session_of who) j who' u) as Hc.
    destruct (current_session_for_request _ _ _ _) as [x a1]. cbn [snd admin_sessions with_sessions]. intros [H _]%invalidate_held. left. by apply Hc.
  - unfold select_team_organization. destruct (mbind _ _) as [p| |]; try by left.
    match goal with |- context [open_session cfg ?a1 now w ?y] => pose proof (open_session_held a1 now w y j who' u) as Ho;
      destruct (open_session cfg a1 now w y) as [s a2] end.
    cbn [fst snd] in *. intros [H|(s' & -> & Hh)]%Ho; [left|right; by exists s']. by apply invalidate_held in H as [H _].
  - unfold create_team_organization. rewrite on_store_sessions. by left.
  - unfold create_team_invitation. rewrite on_store_sessions. by left.
  - unfold change_team_member_role. destruct (mbind _ _) as [[p v]| |]; try by left.
    match goal with |- context [on_store a ?p ?f ?g ?d] => pose proof (on_store_sessions a p f g d) as E;
      destruct (on_store a p f g d) as [x a1] end. cbn in E.
    destruct x as [m| |]; cbn; try (rewrite E; by left).
    destruct (String.eqb v _); cbn; [rewrite E; by left|].
    destruct (sign_out_member a1 _ _ _) as [a2| |] eqn:Hs; cbn [snd fst]; try (rewrite E; by left).
    intros H. left. rewrite <-E. by destruct (sign_out_member_held _ _ _ _ _ _ _ _ Hs H).
  - unfold revoke_team_member. destruct (member_to_revoke _ _ _) as [[p v]| |]; try by left.
    destruct (sign_out_member a _ _ _) as [a1| |] eqn:Hs; cbn [snd fst]; try by left. rewrite on_store_sessions.
    intros H. left. by destruct (sign_out_member_held _ _ _ _ _ _ _ _ Hs H).
  - unfold provision_identity. rewrite on_store_sessions. by left.
  - unfold revoke_identity. match goal with |- context [on_store a ?p ?f ?g ?d] => pose proof (on_store_sessions a p f g d) as E;
      destruct (on_store a p f g d) as [x a1] end. cbn in E.
    destruct x as [[]| |]; cbn; try (rewrite E; by left).
    destruct (sign_out_member a1 _ _ _) as [a2| |] eqn:Hs; cbn [snd fst]; try (rewrite E; by left).
    intros H. left. rewrite <-E. by destruct (sign_out_member_held _ _ _ _ _ _ _ _ Hs H).
  - unfold propose_attestation. rewrite on_store_sessions. by left.
  - unfold approve_attestation. rewrite on_store_sessions. by left.
  - unfold revoke_attestation. rewrite on_store_sessions. by left.
  - by left.
Qed.

Lemma step_held sv e j who u :
  holds (state (after_event sv e)) j who u → holds (state sv) j who u ∨ opens (step sv e).1 j.
Proof.
  unfold after_event. destruct e as [q inner now key username password w|q inner now key salt i token password|t h c|now name hash];
    cbn [step].
  - unfold auth_login. destruct (negb _); [by left|]. destruct (throttled _ _ _ _ _ _ _) as [[| |] att]; try by left.
    destruct (credentials _ _ _ _ _) as [y|]; [|by left]. pose proof (open_session_held (state sv) now w y j who u) as Ho.
    destruct (open_session _ _ _ _ _) as [s a']. cbn [fst snd state] in *. intros [H|(s' & -> & Hh)]%Ho; [by left|right]. by exists s'.
  - unfold accept_team_invitation. destruct (match _ with Some _ => _ | None => _ end) as [x sv'] eqn:E. intros H. left. revert H.
    assert (Hs : admin_sessions (state sv') = admin_sessions (state sv)); [|cbn; by rewrite Hs].
    destruct (if String.eqb _ TEAM then _ else None) as [db|]; [|by injection E as <- <-].
    destruct (accept_invitation db now salt i token password) as [y db'].
    destruct (throttled _ _ _ _ _ _ _) as [[| |] att]; [by injection E as <- <-..|by destruct y; injection E as <- <-].
  - unfold serve. pose proof (gate_held (state sv) t (route_request c h) j who u) as Hg.
    destruct (deny_anonymous_sensitive_routes _ _ _) as [[[who'|st d]|e] a1]; cbn [snd] in Hg; try (intros H; left; by apply Hg).
    pose proof (route_held a1 t (route_request c h) who' c j who u) as Hr. cbn zeta in Hr.
    destruct (run_route _ _ _ _ _) as [x a2]. cbn [fst snd state] in *. intros [H|H]%Hr; [left; by apply Hg|by right].
  - cbn. destruct (admin_sessions (state sv)) as [d|st]; cbn; [by intros (? & ? & _)|by left].
Qed.

Fixpoint answers (sv : server) (es : list event) : list (http payload) :=
  match es with [] => [] | e :: es' => (step sv e).1 :: answers (after_event sv e) es' end.

Lemma stays_closed es i : ∀ sv,
  (∀ who u, ¬ holds (state sv) i who u) → Forall (λ x, ¬ opens x i) (answers sv es) →
  ∀ who u, ¬ holds (state (foldl after_event sv es)) i who u.
Proof.
  induction es as [|e es IH]; intros sv Hc Hes; [done|]. cbn in Hes |- *. apply Forall_cons in Hes as [He Hes].
  apply IH; [|done]. intros who u [H|H]%step_held; [by eapply Hc|done].
Qed.

(** Signing out ends the session for good. After [auth/logout] with a
    cookie no request with that cookie is served as anybody, whatever
    exchanges and restarts follow, as long as no later sign-in is given the
    same identifier (or one with its digest). *)
Theorem signed_out_cookie_refused a t0 r0 existing now att i es t r s a' :
  let out := (auth_logout a t0 r0 existing now).2 in
  session_cookie r0 = Some i →
  Forall (λ x, ¬ opens x i) (answers (Server out att) es) →
  session_cookie r = Some i →
  deny_anonymous_sensitive_routes (state (foldl after_event (Server out att) es)) t r ≠ (Ok (Served (Operator s)), a').
Proof.
  intros out Hi Hes Hr Hg. apply gate_operator, session_gate_spec in Hg as (Hc & _).
  apply current_session_spec in Hc as (_ & (i' & Hi' & Hti & Hheld) & _ & _).
  assert (i' = i) as -> by congruence. revert Hheld. apply stays_closed; [|done]. cbn [state].
  unfold out, auth_logout. destruct (current_session_for_request a t0 r0 existing) as [x a1]. cbn [snd admin_sessions with_sessions].
  intros who u [_ H]%invalidate_held. by eapply H.
Qed.

(** ** Changing a role *)

Lemma changed_role db p user role m :
  (change_member_role db p user role).1 = Ok m →
  ∃ row, active_membership (change_member_role db p user role).2 (principal_organization_id p) user = Some row
         ∧ m_role row = role.
Proof.
  unfold change_member_role. cbn [fst snd]. intros H. apply bind_ok in H as ([] & Hb & _).
  apply transaction_ok in Hb. set (db' := (transaction db _).2) in *. clearbody db'. inv_ok Hb.
  rename select (_team_role _ = _) into Hr. apply team_role_ok in Hr as [-> Hr].
  rename select (or_raise _ _ = _) into Hm. apply or_raise_ok in Hm. pose proof Hm as Hm'.
  apply active_membership_Some in Hm' as [_ Hun].
  match type of Hm with _ = Some ?row => exists (with_role role row) end. split; [|done].
  unfold active_membership. cbn [memberships set_memberships]. rewrite (update_membership _ _ _ _ _ Hm), lookup_insert_eq.
  cbn [mbind option_bind]. unfold unrevoked in *. cbn. by rewrite Hun.
Qed.

(** A role change takes effect at once. When the route has answered, no
    request is served as that member of the organization with another role
    than the new one, and none at all before the member signs in again,
    unless it is the administrator who changed it. *)
Theorem role_change_is_immediate a s0 o now user role m a' t r s a'' :
  change_team_member_role a (Some s0) now user role = (Answer (MemberChanged m), a') →
  Session.organization_id s0 = Some o →
  deny_anonymous_sensitive_routes a' t r = (Ok (Served (Operator s)), a'') →
  Session.operator_id s = user → Session.organization_id s = Some o →
  Session.role s = Some role ∧ user = Session.operator_id s0.
Proof.
  unfold change_team_member_role. intros Hc Ho0 Hg Hop Horg.
  destruct (mbind _ (require_team_administrator a (Some s0))) as [[p v]| |] eqn:Hp; try done.
  apply http_bind_ok in Hp as (p' & Hp & Hv). apply http_bind_ok in Hv as (v' & Hv & [= -> ->]).
  apply scope_identifier_ok in Hv as ->. apply administrator_ok in Hp as [Hp _].
  apply current_principal_ok in Hp as (Hm & s1 & db & o1 & [= <-] & Hdb & Ho & Hgp & _).
  assert (o1 = o) as -> by congruence.
  apply get_principal_inv in Hgp as (u0 & r0 & m0 & _ & _ & _ & _ & _ & Hpeq).
  apply gate_operator, session_gate_spec in Hg as (Hs & _).
  apply current_session_spec in Hs as (_ & (i & _ & _ & Hheld) & _ & Hteam).
  unfold on_store in Hc. rewrite Hdb in Hc. pose proof (changed_role db p user role) as Hrole.
  destruct (change_member_role db p user role) as [[m'|e] db'];
    [|destruct (uncaught e); [done|]; by repeat case_match].
  destruct (Hrole m' eq_refl) as (row & Hrow & Hnew). rewrite Hpeq in Hrow. cbn in Hrow.
  assert (Hafter : auth_mode a' = auth_mode a ∧ team_identity a' = Some db'
                   ∧ (user = Session.operator_id s0 ∨ ∃ a1, sign_out_member a1 now user o = Answer a')).
  { rewrite Hpeq in Hc. cbn in Hc. destruct (String.eqb_spec user (Session.operator_id s0)) as [->|].
    - injection Hc as _ <-. split; [done|]. split; [done|]. by left.
    - destruct (sign_out_member (with_team db' a) now user o) as [a2| |] eqn:Hs2; [|done..]. injection Hc as _ <-.
      pose proof Hs2 as Hs3. unfold sign_out_member in Hs3. destruct (store_sign_out _ _ _ _); [|done]. injection Hs3 as <-.
      split; [done|]. split; [done|]. right. by exists (with_team db' a). }
  destruct Hafter as (Hm' & Hdb' & Hwho). split.
  - destruct Hteam as (db1 & o1 & p1 & Hdb1 & Ho1 & Hgp & ->); [congruence|].
    assert (db1 = db') as -> by congruence. assert (o1 = o) as -> by congruence. rewrite Hop in Hgp.
    apply get_principal_inv in Hgp as (u1 & r1 & m1 & _ & _ & _ & Hm1 & _ & ->). cbn. congruence.
  - destruct Hwho as [|[a1 Hs2]]; [done|]. exfalso.
    destruct (sign_out_member_held _ _ _ _ _ _ _ _ Hs2 Hheld) as [_ Hno]. by apply Hno.
Qed.
End Server.

(** ** Concrete runs *)
Module Sample_access.
Import Sample_gate.
Definition cfg (hash : option string) : config := Config 3600 (clamp 900 3 600 10) 86400 hash None.
Definition admin_session : AdminSession := session "sid-admin" "csrf-admin" "team-admin" "administrator".
Definition by_admin (method path : string) : request := Req method path "" (Some "sid-admin") (Some "csrf-admin").
Definition revocation : http payload * app :=
  revoke_team_member team_app (Some admin_session) (at_sec 20) (at_sec 20) mia (λ _, Ok tt).
(** The member tries the cookie it holds; the administrator reads on. *)
Definition mia_tries : event :=
  Exchange (at_time 30) (Sent "" (Some "sid-mia") (Some "csrf-mia")) (OtherRoute "GET" "/projects").
Definition later : server :=
  foldl (after_event (cfg None) (λ _, 0) (λ _, 0)) (Server revocation.2 (AttemptsInMemory [])) [mia_tries].
Definition role_changed : http payload * app :=
  change_team_member_role team_app (Some admin_session) (at_sec 20) "team-admin" "administrator".
Definition logged_out : http payload * app :=
  auth_logout team_app (at_time 20) (by_admin "POST" "/auth/logout") (Some admin_session) (at_sec 20).
Definition single : server := Server (App "self_hosted_single_admin" (InMemory []) None None None) (AttemptsInMemory []).
Definition login_readings : Login.readings := Login.Readings (at_sec 5) (at_sec 5) (at_sec 5) (at_sec 5).
Definition w : tokens := Tokens [("sid-1", at_sec 5)] "sid-2" "csrf-1".
End Sample_access.
Import Sample_gate Sample_access.

Lemma revoked_member_locked_out_witness :
  (serve (cfg None) team_app (at_time 10) (by_mia "GET" "/projects") (OtherRoute "GET" "/projects")).1
  = Answer (Passed (Operator (session "sid-mia" "csrf-mia" mia "reader")))
  ∧ (serve (cfg None) (state later) (at_time 40) (by_admin "GET" "/projects") (OtherRoute "GET" "/projects")).1
    = Answer (Passed (Operator admin_session))
  ∧ ¬ (Session.operator_id admin_session = mia ∧ Session.organization_id admin_session = Some "local-admin").
Proof.
  split; [vm_compute; reflexivity|]. split; [vm_compute; reflexivity|].
  apply (revoked_member_locked_out (cfg None) (λ _, 0) (λ _, 0) team_app admin_session "local-admin" (at_sec 20) (at_sec 20)
    mia (λ _, Ok tt) revocation.2 (AttemptsInMemory []) [mia_tries] (at_time 40) (by_admin "GET" "/projects") admin_session
    (state later)); vm_compute; reflexivity.
Defined.

Lemma role_change_is_immediate_witness :
  Session.role admin_session = Some "administrator" ∧ "team-admin" = Session.operator_id admin_session.
Proof.
  eapply (role_change_is_immediate team_app admin_session "local-admin" (at_sec 20) "team-admin" "administrator"
    (Member "team-admin" "admin" "administrator" (at_sec 0)) role_changed.2 (at_time 40) (by_admin "GET" "/projects")
    admin_session); vm_compute; reflexivity.
Defined.

Lemma signed_out_cookie_refused_witness :
  (deny_anonymous_sensitive_routes team_app (at_time 10) (by_admin "GET" "/projects")).1
  = Ok (Served (Operator admin_session))
  ∧ deny_anonymous_sensitive_routes
      (state (foldl (after_event (cfg None) (λ _, 0) (λ _, 0)) (Server logged_out.2 (AttemptsInMemory [])) [mia_tries]))
      (at_time 40) (by_admin "GET" "/projects") ≠ (Ok (Served (Operator admin_session)), team_app).
Proof.
  split; [vm_compute; reflexivity|].
  apply (signed_out_cookie_refused (cfg None) (λ _, 0) (λ _, 0) team_app (at_time 20) (by_admin "POST" "/auth/logout")
    (Some admin_session) (at_sec 20) (AttemptsInMemory []) "sid-admin" [mia_tries] (at_time 40) (by_admin "GET" "/projects")).
  - reflexivity.
  - constructor; [|constructor]. intros (s & Hs & _). vm_compute in Hs. discriminate.
  - reflexivity.
Defined.

Lemma sign_in_is_honoured_witness :
  ∃ h s', Password.hash_password "correct horse battery" "0123456789abcdef0123456789abcdef" 600000 = Ok h
    ∧ (deny_anonymous_sensitive_routes
         (state (auth_login (cfg (Some h)) (λ _, 0) (λ _, 0) single login_readings (at_sec 5) (at_sec 5) (Some "10.0.0.1")
                   None (Some "correct horse battery") w).2)
         (at_time 60) (Req "POST" "/projects" "" (Some "sid-1") (Some "csrf-1"))).1 = Ok (Served (Operator s'))
    ∧ Session.operator_id s' = "local-admin".
Proof.
  assert (Hh : ∃ h, Password.hash_password "correct horse battery" "0123456789abcdef0123456789abcdef" 600000 = Ok h
                    ∧ Password.verify_admin_password (Some "correct horse battery") (Some h) = true).
  { eexists. assert (E : Password.hash_password "correct horse battery" "0123456789abcdef0123456789abcdef" 600000 = Ok _)
      by reflexivity.
    split; [exact E|]. eapply made_hash_verifies; [|exact E]. vm_compute. reflexivity. }
  destruct Hh as (h & Hh & Hv).
  set (s := Session.Session "sid-1" "csrf-1" "local-admin" (at_sec 5) (at_sec 3605) "self_hosted_single_admin" None None).
  assert (Hwho : credentials (cfg (Some h)) (λ _, 0) (state single) None (Some "correct horse battery")
                 = Some (Identity "local-admin" "self_hosted_single_admin" None None)).
  { unfold credentials. cbn [state single auth_mode]. change (admin_password_hash (cfg (Some h))) with (Some h).
    cbn [default from_option id]. rewrite Hv. reflexivity. }
  assert (Hl : auth_login (cfg (Some h)) (λ _, 0) (λ _, 0) single login_readings (at_sec 5) (at_sec 5) (Some "10.0.0.1")
                 None (Some "correct horse battery") w
               = (Answer (SignedIn s), Server (with_sessions (InMemory [("sid-1", s)]) (state single)) (AttemptsInMemory []))).
  { unfold auth_login. rewrite Hwho. clear. vm_compute. reflexivity. }
  exists h. rewrite Hl. cbn [snd].
  destruct (sign_in_is_honoured (cfg (Some h)) (λ _, 0) (λ _, 0) single login_readings (at_sec 5) (at_sec 5) (Some "10.0.0.1")
    None (Some "correct horse battery") w s _ (at_time 60) (Req "POST" "/projects" "" (Some "sid-1") (Some "csrf-1")) "" Hl)
    as (s' & Hg & Hid & _).
  1-3: vm_compute; reflexivity.
  { by intros o. }
  1-4: vm_compute; reflexivity.
  { vm_compute. discriminate. }
  { intros H%mem_true. vm_compute in H. discriminate. }
  { intros Hm. vm_compute in Hm. discriminate. }
  exists s'. split; [exact Hh|]. split; [exact Hg|]. rewrite Hwho in Hid. by injection Hid as <-.
Defined.
