(* ===== verification/IntegrationEvents.v ===== *)
(** * IntegrationEvents: the outbox of signed events

    Models [backend/app/integration_events.py]: the SQL table of events,
    every operation of [IntegrationEventStore], what one delivery attempt
    decides, and the dispatcher that claims and delivers.  Each method is one
    transaction on the table.  An event is pending, claimed for a time
    ([delivering], under a lease), delivered or dead; the theorems bound its
    attempts, keep two claims of it apart, show that every due event gets its
    turn and that a replay is exactly what was previewed.

    The JSON text of a payload is pydantic's: [payload_json] and
    [parse_payload] are arguments.  Timestamps go through a double
    ([Micros]).  SQLite being unavailable is not modelled. *)

From S2P Require Import Prelude PyStr Grouping Sha256 Micros SqlTable BearerToken Auth.
Local Open Scope Z_scope.

(** ** Data *)

(** backend/app/integration_events.py 22-36 [constants] *)
Definition INTEGRATION_EVENT_CONTRACT_VERSION : string := "2026-09-11.1".
Definition INTEGRATION_EVENT_MAX_BODY_BYTES : Z := 8192.
Definition INTEGRATION_EVENT_MAX_RESPONSE_BYTES : Z := 8192.
Definition INTEGRATION_EVENT_MAX_ATTEMPTS : Z := 5.
Definition INTEGRATION_EVENT_LEASE_SECONDS : Z := 30.
Definition INTEGRATION_EVENT_MAX_RECORDS : Z := 10000.
Definition INTEGRATION_EVENT_DELIVERED_RETENTION_DAYS : Z := 30.
Definition INTEGRATION_EVENT_DEAD_RETENTION_DAYS : Z := 90.
Definition INTEGRATION_EVENT_REPLAY_MAX_EVENTS : nat := 100.
Definition INTEGRATION_EVENT_REPLAY_TTL_SECONDS : Z := 300.

(** backend/app/integration_events.py [IntegrationEventPayload] *)
Record IntegrationEventPayload : Type := Payload {
  event_id : string;
  occurred_at : datetime;
  project_id : string;
  analysis_id : string;
  status : string;
  finding_count : option Z
}.

(** backend/app/integration_events.py [IntegrationEventRecord] *)
Record IntegrationEventRecord : Type := EventRecord {
  payload : IntegrationEventPayload;
  record_organization_id : string;
  record_state : string;
  record_attempts : Z;
  record_next_attempt_at : datetime;
  record_lease_until : option datetime;
  record_last_result : option string;
  record_created_at : datetime;
  record_delivered_at : option datetime
}.

(** backend/app/integration_events.py [IntegrationEventReplayPreflight] *)
Record IntegrationEventReplayPreflight : Type := Preflight {
  observed_at : datetime;
  preflight_expires_at : datetime;
  total_dead : Z;
  selected_events : Z;
  truncated : bool;
  snapshot_digest : string
}.

(** backend/app/integration_events.py [IntegrationEventReplayResult] *)
Record IntegrationEventReplayResult : Type := ReplayResult { replayed_events : Z; remaining_dead : Z }.

(** The columns of a row, but for its key [event_id]. *)
(** backend/app/integration_events.py [IntegrationEventStore._initialize] *)
Record event_row : Type := EventRow {
  organization_id : string;
  payload_text : string;
  state : string;
  attempts : Z;
  next_attempt_at : Z;
  lease_until : option Z;
  last_result : option string;
  created_at : Z;
  delivered_at : option Z
}.

Abbreviation outbox := (gmap string event_row).

(** ** Helpers *)

(** backend/app/integration_events.py [IntegrationEventStore._aware] *)
Definition _aware (value : datetime) : outcome datetime :=
  raise "invalid_time" when (negb (aware value));; Ok (as_utc value).

(** backend/app/integration_events.py [IntegrationEventStore._micros] *)
Definition _micros (value : datetime) : Z := truncated_micros (instant value).

(** backend/app/integration_events.py [IntegrationEventStore._datetime] *)
Definition _datetime (value : Z) : datetime := DT value (Some 0).

(** A column that may be [NULL]; zero is false too.  The division by a million
    and the rounding back to microseconds are exact before the year 2242. *)
Definition _datetime_opt (value : option Z) : option datetime :=
  v ← value; if v =? 0 then None else Some (_datetime v).

Definition is_hex64 (s : string) : bool := all_chars is_hex_lower s && (len s =? 64)%nat.
(** [^(?:local-admin|[a-f0-9]{32})$] *)
Definition is_organization (s : string) : bool := String.eqb s "local-admin" || is_hex32 s.

(** The validators of [IntegrationEventPayload]. *)
Definition payload_valid (p : IntegrationEventPayload) : bool :=
  is_hex64 (event_id p) && is_hex32 (project_id p) && is_hex32 (analysis_id p)
  && mem (status p) ["completed"; "failed"; "cancelled"]
  && from_option (λ n, (0 <=? n) && (n <=? 100000)) true (finding_count p).

Section Store.
Context (payload_json : IntegrationEventPayload → string) (parse_payload : string → option IntegrationEventPayload).

(** backend/app/integration_events.py [IntegrationEventStore._payload_json] *)
Definition _payload_json (p : IntegrationEventPayload) : outcome string :=
  raise "payload_too_large" when (INTEGRATION_EVENT_MAX_BODY_BYTES <? Z.of_nat (len (utf8 (payload_json p))));;
  Ok (payload_json p).

(** ** Reading *)

(** The validators of [IntegrationEventRecord] on a row. *)
Definition row_valid (row : event_row) : bool :=
  is_organization (organization_id row) && mem (state row) ["pending"; "delivering"; "delivered"; "dead"]
  && (0 <=? attempts row) && (attempts row <=? INTEGRATION_EVENT_MAX_ATTEMPTS)
  && from_option (λ r, mem r ["accepted"; "retryable_failure"; "permanent_failure"]) true (last_result row).

(** backend/app/integration_events.py [IntegrationEventStore.get] *)
Definition get (t : outbox) (i : string) : outcome IntegrationEventRecord :=
  raise "invalid_event_id" when (negb (is_hex64 i));;
  row ← or_raise (t !! i) "event_not_found";
  p ← or_raise (parse_payload (payload_text row)) "outbox_record_invalid";
  raise "outbox_record_invalid" when (negb (row_valid row));;
  Ok (EventRecord p (organization_id row) (state row) (attempts row) (_datetime (next_attempt_at row))
        (_datetime_opt (lease_until row)) (last_result row) (_datetime (created_at row))
        (_datetime_opt (delivered_at row))).

Definition in_state (organization st : string) (_ : string) (row : event_row) : bool :=
  String.eqb (organization_id row) organization && String.eqb (state row) st.

(** backend/app/integration_events.py [IntegrationEventStore.summary] *)
Definition summary (t : outbox) (organization : string) : dict Z :=
  (λ st, (st, Z.of_nat (row_count (in_state organization st) t))) <$> ["pending"; "delivering"; "delivered"; "dead"].

(** ** Adding and purging *)

(** backend/app/integration_events.py 424-431 [IntegrationEventStore._purge_terminal_unlocked] *)
Definition purgeable (now : datetime) (_ : string) (row : event_row) : bool :=
  let cutoff (n : Z) := truncated_micros (instant now - days n) in
  (String.eqb (state row) "delivered"
   && from_option (λ d, d <? cutoff INTEGRATION_EVENT_DELIVERED_RETENTION_DAYS) false (delivered_at row))
  || (String.eqb (state row) "dead" && (created_at row <? cutoff INTEGRATION_EVENT_DEAD_RETENTION_DAYS)).

(** backend/app/integration_events.py [IntegrationEventStore._purge_terminal_unlocked] *)
Definition _purge_terminal_unlocked (t : outbox) (now : datetime) : nat * outbox :=
  (row_count (purgeable now) t, delete_where (purgeable now) t).

(** backend/app/integration_events.py [IntegrationEventStore.purge_terminal] *)
Definition purge_terminal (t : outbox) (raw_now : datetime) : outcome (nat * outbox) :=
  now ← _aware raw_now; Ok (_purge_terminal_unlocked t now).

(** The digest that names an analysis. *)
(** backend/app/integration_events.py 172-174 [IntegrationEventStore.enqueue_terminal_analysis] *)
Definition event_key (organization analysis : string) : string :=
  sha256_hex (INTEGRATION_EVENT_CONTRACT_VERSION ++ text ["000"%char] ++ organization ++ text ["000"%char] ++ analysis).

(** What the arguments make, before the table is read. *)
(** backend/app/integration_events.py 170-194 [IntegrationEventStore.enqueue_terminal_analysis] *)
Definition new_event (raw_now : datetime) (organization project analysis status : string) (occurred : datetime)
    (findings : option Z) : outcome (IntegrationEventPayload * datetime) :=
  raise "invalid_identifier" when (negb (is_hex32 project && is_hex32 analysis));;
  raise "UnicodeEncodeError" when (negb (all_chars (between 0 127) organization));;
  let p := Payload (event_key organization analysis) occurred project analysis status findings in
  raise "invalid_terminal_event" when (negb (payload_valid p));;
  now ← _aware raw_now;
  raise "ValidationError" when (negb (is_organization organization));;
  Ok (p, now).

(** The table is left as it was when the body raises, and read again after
    the commit. *)
(** backend/app/integration_events.py [IntegrationEventStore.enqueue_terminal_analysis] *)
Definition enqueue_terminal_analysis (t : outbox) (raw_now : datetime) (organization project analysis status : string)
    (occurred : datetime) (findings : option Z) : outcome IntegrationEventRecord * outbox :=
  match new_event raw_now organization project analysis status occurred findings with
  | Err e => (Err e, t)
  | Ok (p, now) =>
      let t1 := (_purge_terminal_unlocked t now).2 in
      match t1 !! event_id p with
      | Some _ => (get t1 (event_id p), t1)
      | None =>
          if INTEGRATION_EVENT_MAX_RECORDS <=? Z.of_nat (size t1) then (Err "outbox_capacity_reached", t) else
          match _payload_json p with
          | Err e => (Err e, t)
          | Ok json =>
              let t2 := <[event_id p := EventRow organization json "pending" 0 (_micros now) None None (_micros now) None]> t1 in
              (get t2 (event_id p), t2)
          end
      end
  end.

(** ** Claiming and recording *)

Definition expired_claim (now : Z) (_ : string) (row : event_row) : bool :=
  String.eqb (state row) "delivering" && from_option (λ l, l <=? now) false (lease_until row).

Definition released (row : event_row) : event_row :=
  EventRow (organization_id row) (payload_text row) "pending" (attempts row) (next_attempt_at row) None
    (last_result row) (created_at row) (delivered_at row).
Definition claimed (lease : Z) (row : event_row) : event_row :=
  EventRow (organization_id row) (payload_text row) "delivering" (attempts row) (next_attempt_at row) (Some lease)
    (last_result row) (created_at row) (delivered_at row).

Definition due (now : Z) (_ : string) (row : event_row) : bool :=
  String.eqb (state row) "pending" && (next_attempt_at row <=? now).

(** [ORDER BY next_attempt_at, event_id] *)
Definition due_order (a b : string * event_row) : Prop :=
  next_attempt_at a.2 < next_attempt_at b.2 ∨ (next_attempt_at a.2 = next_attempt_at b.2 ∧ str_le a.1 b.1).
#[local] Instance due_order_dec a b : Decision (due_order a b).
Proof. unfold due_order. apply _. Defined.

(** The transaction of [claim_due]: the key claimed, and the table. *)
(** backend/app/integration_events.py 240-268 [IntegrationEventStore.claim_due] *)
Definition claim_tx (t : outbox) (now lease : Z) : option string * outbox :=
  let t1 := update_where (expired_claim now) released t in
  match merge_sort due_order (map_to_list (select_where (due now) t1)) with
  | [] => (None, t1)
  | (i, _) :: _ =>
      (Some i, update_where (λ k row, String.eqb k i && String.eqb (state row) "pending") (claimed lease) t1)
  end.

(** backend/app/integration_events.py [IntegrationEventStore.claim_due] *)
Definition claim_due (t : outbox) (raw_now : datetime) : outcome (option IntegrationEventRecord) * outbox :=
  match _aware raw_now with
  | Err e => (Err e, t)
  | Ok now =>
      let '(i, t') := claim_tx t (_micros now) (_micros (plus_seconds now INTEGRATION_EVENT_LEASE_SECONDS)) in
      (match i with None => Ok None | Some i => Some <$> get t' i end, t')
  end.

(** State, result, next attempt and delivery time of a recorded attempt. *)
(** backend/app/integration_events.py 280-287 [IntegrationEventStore.record_result] *)
Definition after_attempt (now : datetime) (n : Z) (accepted retryable : bool)
    : string * string * datetime * option datetime :=
  if accepted then ("delivered", "accepted", now, Some now)
  else if retryable && (n <? INTEGRATION_EVENT_MAX_ATTEMPTS)
  then ("pending", "retryable_failure", plus_seconds now (Z.min 300 (2 ^ n)), None)
  else ("dead", "permanent_failure", now, None).

(** backend/app/integration_events.py 279-301 [IntegrationEventStore.record_result] *)
Definition recorded (now : datetime) (accepted retryable : bool) (row : event_row) : event_row :=
  let n := attempts row + 1 in
  let '(st, result, next_at, delivered) := after_attempt now n accepted retryable in
  EventRow (organization_id row) (payload_text row) st n (_micros next_at) None (Some result) (created_at row)
    (_micros <$> delivered).

(** The table's CHECK bounds the attempts. *)
(** backend/app/integration_events.py [IntegrationEventStore.record_result] *)
Definition record_result (t : outbox) (raw_now : datetime) (i : string) (accepted retryable : bool)
    : outcome IntegrationEventRecord * outbox :=
  match _aware raw_now, t !! i with
  | Err e, _ => (Err e, t)
  | Ok _, None => (Err "delivery_claim_lost", t)
  | Ok now, Some row =>
      if negb (String.eqb (state row) "delivering") then (Err "delivery_claim_lost", t) else
      if INTEGRATION_EVENT_MAX_ATTEMPTS <? attempts row + 1 then (Err "IntegrityError", t) else
      let t' := <[i := recorded now accepted retryable row]> t in
      (get t' i, t')
  end.

(** ** Replaying dead events *)

(** [ORDER BY created_at, event_id] *)
Definition created_order (a b : string * event_row) : Prop :=
  created_at a.2 < created_at b.2 ∨ (created_at a.2 = created_at b.2 ∧ str_le a.1 b.1).
#[local] Instance created_order_dec a b : Decision (created_order a b).
Proof. unfold created_order. apply _. Defined.

Definition dead_events (t : outbox) (organization : string) : list (string * event_row) :=
  merge_sort created_order (map_to_list (select_where (in_state organization "dead") t)).

(** The rows the second [SELECT] gives. *)
Definition selected (t : outbox) (organization : string) : list (string * string) :=
  take INTEGRATION_EVENT_REPLAY_MAX_EVENTS ((λ kr : string * event_row, (kr.1, payload_text kr.2)) <$> dead_events t organization).

(** backend/app/integration_events.py [IntegrationEventStore._dead_selection_unlocked] *)
Definition _dead_selection_unlocked (t : outbox) (organization : string)
    : outcome (list (string * string) * Z) :=
  raise "invalid_organization" when (negb (is_organization organization));;
  Ok (selected t organization, Z.of_nat (row_count (in_state organization "dead") t)).

(** What the digest of a preview is taken of. *)
Definition replay_material (organization : string) (rows : list (string * string)) : string :=
  ("inspectra-integration-replay-v1" ++ text ["000"%char] ++ organization
   ++ join "" ((λ r : string * string, text ["000"%char] ++ r.1 ++ text ["000"%char] ++ Password.sha256_bytes (utf8 r.2))%string <$> rows))%string.

(** backend/app/integration_events.py [IntegrationEventStore._replay_digest] *)
Definition _replay_digest (organization : string) (rows : list (string * string)) : string :=
  sha256_hex (replay_material organization rows).

(** backend/app/integration_events.py [IntegrationEventStore.replay_preflight] *)
Definition replay_preflight (t : outbox) (raw_now : datetime) (organization : string)
    : outcome IntegrationEventReplayPreflight :=
  now ← _aware raw_now;
  '(rows, total) ← _dead_selection_unlocked t organization;
  Ok (Preflight now (plus_seconds now INTEGRATION_EVENT_REPLAY_TTL_SECONDS) total (Z.of_nat (length rows))
        (Z.of_nat (length rows) <? total) (_replay_digest organization rows)).

Definition replayed (now : Z) (row : event_row) : event_row :=
  EventRow (organization_id row) (payload_text row) "pending" 0 now None None (created_at row) None.

(** backend/app/integration_events.py [IntegrationEventStore.replay_dead] *)
Definition replay_dead (t : outbox) (raw_now : datetime) (organization : string) (raw_observed : datetime)
    (digest : string) : outcome (IntegrationEventReplayResult * outbox) :=
  now ← _aware raw_now;
  observed ← _aware raw_observed;
  raise "replay_preflight_expired"
    when ((instant now <? instant observed)
          || (seconds INTEGRATION_EVENT_REPLAY_TTL_SECONDS <? instant now - instant observed));;
  '(rows, total) ← _dead_selection_unlocked t organization;
  raise "no_dead_events" when (bool_decide (rows = []));;
  same ← compare_digest (_replay_digest organization rows) digest;
  raise "replay_snapshot_changed" when (negb same);;
  let event_ids := rows.*1 in
  let p := λ k row, in_state organization "dead" k row && mem k event_ids in
  raise "replay_snapshot_changed" when (negb (row_count p t =? length event_ids)%nat);;
  Ok (ReplayResult (Z.of_nat (length event_ids)) (total - Z.of_nat (length event_ids)),
      update_where p (replayed (_micros now)) t).

(** ** Delivering *)

(** What happens on the wire: the addresses the resolver gives, and the
    answer. *)
Inductive wire : Type :=
| Answered (status_code : Z) (chunks : list Z)
| NetworkFailure
| ProtocolFailure.

(** The answer is read until its size is exceeded. *)
(** backend/app/integration_events.py 530-549 [IntegrationEventTransport.deliver] *)
Definition verdict_of (w : wire) : bool * bool :=
  match w with
  | Answered code chunks =>
      if INTEGRATION_EVENT_MAX_RESPONSE_BYTES <? foldr Z.add 0 chunks then (false, false)
      else if (200 <=? code) && (code <? 300) then (true, false)
      else (false, (code =? 429) || ((500 <=? code) && (code <? 600)))
  | NetworkFailure => (false, true)
  | ProtocolFailure => (false, false)
  end.

(** [addresses] is [None] when resolving fails; [public] is
    [ipaddress.ip_address(value).is_global]. *)
(** backend/app/integration_events.py [IntegrationEventTransport.deliver] *)
Definition deliver (public : string → bool) (p : IntegrationEventPayload) (addresses : option (list string)) (w : wire)
    : outcome (bool * bool) :=
  match addresses with
  | None => Ok (false, true)
  | Some l =>
      raise "destination_resolution_denied" when (bool_decide (l = []) || any_of (λ a, negb (public a)) l);;
      _ ← _payload_json p;
      Ok (verdict_of w)
  end.

(** The signature over the time and the body. *)
(** backend/app/integration_events.py 516-521 [IntegrationEventTransport.deliver] *)
Definition signature (key : string) (timestamp : Z) (body : string) : string :=
  Password.hex_of (Password.hmac_sha256 key (str_of_Z timestamp ++ "." ++ body)).

(** backend/app/integration_events.py 569-575 [IntegrationEventDispatcher.drain_once] *)
Definition attempt_result (r : outcome (bool * bool)) : bool * bool :=
  match r with Ok v => v | Err _ => (false, false) end.

(** The claims of one drain, with the readings of the clock. *)
(** backend/app/integration_events.py 559-564 [IntegrationEventDispatcher.drain_once] *)
Fixpoint claim_some (t : outbox) (readings : list datetime) : outcome (list IntegrationEventRecord) * outbox :=
  match readings with
  | [] => (Ok [], t)
  | now :: readings' =>
      match claim_due t now with
      | (Err e, t') => (Err e, t')
      | (Ok None, t') => (Ok [], t')
      | (Ok (Some r), t') => let '(rs, t'') := claim_some t' readings' in ((rs ← rs; Ok (r :: rs)), t'')
      end
  end.

(** ** Calls *)

Inductive call : Type :=
| Enqueue (now : datetime) (organization project analysis status : string) (occurred : datetime) (findings : option Z)
| PurgeTerminal (now : datetime)
| Claim (now : datetime)
| Result (now : datetime) (i : string) (accepted retryable : bool)
| Replay (now : datetime) (organization : string) (observed : datetime) (digest : string).

Definition after (t : outbox) (c : call) : outbox :=
  match c with
  | Enqueue now o p a st occ n => (enqueue_terminal_analysis t now o p a st occ n).2
  | PurgeTerminal now => match purge_terminal t now with Ok (_, t') => t' | Err _ => t end
  | Claim now => (claim_due t now).2
  | Result now i a r => (record_result t now i a r).2
  | Replay now o observed d => match replay_dead t now o observed d with Ok (_, t') => t' | Err _ => t end
  end.

(** The event a call claims. *)
Definition claims (t : outbox) (c : call) : option string :=
  match c with
  | Claim now => match _aware now with
                 | Ok now => (claim_tx t (_micros now) (_micros (plus_seconds now INTEGRATION_EVENT_LEASE_SECONDS))).1
                 | Err _ => None end
  | _ => None
  end.

(** Does the call record an attempt of the event? *)
Definition records (i : string) (t : outbox) (c : call) : bool :=
  match c with
  | Result now j _ _ =>
      String.eqb j i && is_ok (_aware now)
      && match t !! i with
         | Some row => String.eqb (state row) "delivering" && negb (INTEGRATION_EVENT_MAX_ATTEMPTS <? attempts row + 1)
         | None => false end
  | _ => false
  end.

(** ** What a call does to a row *)

(** Does the call add the event, or start its attempts again? *)
Definition adds (i : string) (c : call) : bool :=
  match c with Enqueue _ o _ a _ _ _ => String.eqb (event_key o a) i | _ => false end.
Definition replays_dead (c : call) : bool := match c with Replay _ _ _ _ => true | _ => false end.

(** The life of an event, row by row. *)
Inductive row_step (i : string) (new again : bool) (row : option event_row) : option event_row → Prop :=
| row_purged r : row = Some r → mem (state r) ["delivered"; "dead"] = true → row_step i new again row None
| row_added o p now : new = true → row = None → is_organization o = true → payload_valid p = true → event_id p = i →
    row_step i new again row (Some (EventRow o (payload_json p) "pending" 0 now None None now None))
| row_released r : row = Some r → state r = "delivering" → row_step i new again row (Some (released r))
| row_claimed r lease : row = Some r → state r = "pending" → row_step i new again row (Some (claimed lease r))
| row_recorded r now a b : row = Some r → state r = "delivering" → attempts r + 1 <= INTEGRATION_EVENT_MAX_ATTEMPTS →
    row_step i new again row (Some (recorded now a b r))
| row_replayed r now : again = true → row = Some r → state r = "dead" →
    row_step i new again row (Some (replayed now r)).

Abbreviation row_steps i new again := (rtc (row_step i new again)).

Lemma purgeable_state now i r : purgeable now i r = true → mem (state r) ["delivered"; "dead"] = true.
Proof.
  unfold purgeable. intros [Hp|Hp]%orb_true_iff; apply andb_true_iff in Hp as [Hp _];
    apply String.eqb_eq in Hp; by rewrite Hp.
Qed.

Lemma purge_row t now i new again : row_steps i new again (t !! i) ((_purge_terminal_unlocked t now).2 !! i).
Proof.
  unfold _purge_terminal_unlocked. cbn [snd]. rewrite delete_where_lookup.
  destruct (t !! i) as [r|] eqn:Hr; [|done]. cbn.
  destruct (purgeable now i r) eqn:Hp; [|done]. apply rtc_once, (row_purged _ _ _ _ r); [done|].
  by apply purgeable_state in Hp.
Qed.

(** An [UPDATE] that takes each row it matches one step. *)
Lemma update_row (p : string → event_row → bool) f t i new again :
  (∀ r, t !! i = Some r → p i r = true → row_step i new again (Some r) (Some (f r))) →
  row_steps i new again (t !! i) (update_where p f t !! i).
Proof.
  intros Hf. rewrite update_where_lookup. destruct (t !! i) as [r|] eqn:Hr; [|done]. cbn.
  destruct (p i r) eqn:Hp; [|done]. apply rtc_once. by apply Hf.
Qed.

Lemma insert_row_step (t : outbox) j row i new again :
  (j = i → row_steps i new again (t !! i) (Some row)) → row_steps i new again (t !! i) (<[j := row]> t !! i).
Proof.
  intros Hj. destruct (decide (j = i)) as [->|Hne]; [rewrite lookup_insert_eq; by apply Hj|].
  by rewrite lookup_insert_ne by done.
Qed.

Lemma aware_ok value d : _aware value = Ok d ↔ aware value = true ∧ d = as_utc value.
Proof. unfold _aware. destruct (aware value); cbn; [split; [by intros [= <-]|by intros [_ ->]]|by split; [|intros []]]. Qed.

Lemma payload_json_ok p json : _payload_json p = Ok json → json = payload_json p.
Proof. unfold _payload_json. intros H. by inv_ok H. Qed.

Lemma new_event_ok now o p a st occ n ev now' :
  new_event now o p a st occ n = Ok (ev, now') →
  ev = Payload (event_key o a) occ p a st n ∧ now' = as_utc now ∧ is_organization o = true ∧ payload_valid ev = true.
Proof.
  unfold new_event. intros H. inv_ok H.
  match goal with Hn : _aware _ = Ok _ |- _ => apply aware_ok in Hn as [_ ->] end. by to_prop.
Qed.

Definition replays (t : outbox) (organization : string) (k : string) (row : event_row) : bool :=
  in_state organization "dead" k row && mem k (selected t organization).*1.

Lemma replay_ok t now o ob d res t' :
  replay_dead t now o ob d = Ok (res, t') →
  aware now = true ∧ aware ob = true
  ∧ (instant ob <= instant now <= instant ob + seconds INTEGRATION_EVENT_REPLAY_TTL_SECONDS)%Z
  ∧ is_organization o = true ∧ selected t o ≠ [] ∧ _replay_digest o (selected t o) = d
  ∧ res = ReplayResult (Z.of_nat (length (selected t o)))
            (Z.of_nat (row_count (in_state o "dead") t) - Z.of_nat (length (selected t o)))
  ∧ t' = update_where (replays t o) (replayed (_micros now)) t.
Proof.
  unfold replay_dead. intros H. inv_ok H.
  repeat match goal with Hn : _aware _ = Ok _ |- _ => apply aware_ok in Hn as [? ->] end.
  match goal with Hn : _dead_selection_unlocked _ _ = Ok _ |- _ => unfold _dead_selection_unlocked in Hn; inv_ok Hn end.
  cbn beta iota in H. inv_ok H.
  match goal with Hn : compare_digest _ _ = Ok _ |- _ => unfold compare_digest in Hn; inv_ok Hn end.
  to_prop. rewrite !instant_as_utc in *. rewrite length_fmap. unfold _micros. rewrite instant_as_utc.
  repeat split; try done; lia.
Qed.

Lemma claim_row (t : outbox) now lease i new again : row_steps i new again (t !! i) ((claim_tx t now lease).2 !! i).
Proof.
  unfold claim_tx. set (t1 := update_where _ _ _).
  assert (H1 : row_steps i new again (t !! i) (t1 !! i)).
  { apply update_row. intros r _ Hp. apply andb_true_iff in Hp as [Hp%String.eqb_eq _]. by apply (row_released _ _ _ _ r). }
  destruct (merge_sort _ _) as [|[j r] l]; [done|]. cbn [snd].
  transitivity (t1 !! i); [done|]. apply update_row. intros r' _ Hp. apply andb_true_iff in Hp as [_ Hp%String.eqb_eq].
  by apply (row_claimed _ _ _ _ r').
Qed.

Lemma after_row (t : outbox) c i : row_steps i (adds i c) (replays_dead c) (t !! i) (after t c !! i).
Proof.
  destruct c as [now o p a st occ n|now|now|now j a b|now o ob d]; cbn [after].
  - unfold enqueue_terminal_analysis. destruct (new_event _ _ _ _ _ _ _) as [[ev now']|] eqn:Hn; [|done].
    apply new_event_ok in Hn as (-> & -> & Ho & Hv). set (t1 := (_purge_terminal_unlocked _ _).2).
    pose proof (purge_row t (as_utc now) i (adds i (Enqueue now o p a st occ n)) false) as H1. fold t1 in H1.
    destruct (t1 !! event_id _) as [r|] eqn:He; [done|]. case_match; [done|].
    destruct (_payload_json _) as [json|] eqn:Hj; [|done]. apply payload_json_ok in Hj as ->. cbn [snd]. transitivity (t1 !! i); [done|].
    apply insert_row_step. intros Hi. rewrite <- Hi, He. apply rtc_once. apply row_added; try done.
    apply String.eqb_refl.
  - unfold purge_terminal. destruct (_aware now) as [now'|]; [|done]. apply purge_row.
  - unfold claim_due. destruct (_aware now) as [now'|]; [|done].
    pose proof (claim_row t (_micros now') (_micros (plus_seconds now' INTEGRATION_EVENT_LEASE_SECONDS)) i false false) as H1.
    by destruct (claim_tx _ _ _).
  - unfold record_result. destruct (_aware now) as [now'|]; [|done]. destruct (t !! j) as [r|] eqn:Hj; [|done].
    destruct (String.eqb_spec (state r) "delivering") as [Hs|]; [|done]. cbn [negb].
    case_match eqn:Ha; [done|]. cbn [snd]. apply Z.ltb_ge in Ha. apply insert_row_step. intros ->. rewrite Hj.
    apply rtc_once. by apply (row_recorded _ _ _ _ r).
  - destruct (replay_dead _ _ _ _ _) as [[res t']|] eqn:Hr; [|done]. apply replay_ok in Hr as (_ & _ & _ & _ & _ & _ & _ & ->).
    apply update_row. intros r _ Hp. apply andb_true_iff in Hp as [Hp _]. apply andb_true_iff in Hp as [_ Hp%String.eqb_eq].
    by apply (row_replayed _ _ _ _ r).
Qed.

(** ** Well-formed tables *)

(** What each state says of the other columns. *)
Definition shape_ok (row : event_row) : Prop :=
  match lease_until row, delivered_at row with
  | None, None =>
      (state row = "pending" ∧ 0 <= attempts row < INTEGRATION_EVENT_MAX_ATTEMPTS
       ∧ last_result row = (if attempts row =? 0 then None else Some "retryable_failure"))
      ∨ (state row = "dead" ∧ 1 <= attempts row <= INTEGRATION_EVENT_MAX_ATTEMPTS
         ∧ last_result row = Some "permanent_failure")
  | Some _, None =>
      state row = "delivering" ∧ 0 <= attempts row < INTEGRATION_EVENT_MAX_ATTEMPTS
      ∧ last_result row = (if attempts row =? 0 then None else Some "retryable_failure")
  | None, Some _ =>
      state row = "delivered" ∧ 1 <= attempts row <= INTEGRATION_EVENT_MAX_ATTEMPTS
      ∧ last_result row = Some "accepted"
  | Some _, Some _ => False
  end.

Definition row_ok (i : string) (row : event_row) : Prop :=
  is_organization (organization_id row) = true ∧ shape_ok row
  ∧ ∃ p, payload_text row = payload_json p ∧ event_id p = i ∧ payload_valid p = true.

Definition outbox_ok (t : outbox) : Prop :=
  Z.of_nat (size t) <= INTEGRATION_EVENT_MAX_RECORDS ∧ ∀ i row, t !! i = Some row → row_ok i row.

Lemma recorded_shape now a b row :
  shape_ok row → state row = "delivering" → shape_ok (recorded now a b row).
Proof.
  destruct row as [o pt st n nx l res cr dl]. unfold shape_ok, recorded, after_attempt, INTEGRATION_EVENT_MAX_ATTEMPTS. cbn.
  intros Hsh ->. destruct l, dl; cbn in Hsh; try done; [|by naive_solver..].
  destruct Hsh as (_ & Hn & _). destruct a; cbn; [repeat split; lia|].
  destruct (Z.ltb_spec (n + 1) 5); destruct b; cbn; [left|right..]; repeat split; try lia.
  by destruct (Z.eqb_spec (n + 1) 0); [lia|].
Qed.

Lemma row_step_ok i new again row row' :
  row_step i new again row row' → (∀ r, row = Some r → row_ok i r) → ∀ r, row' = Some r → row_ok i r.
Proof.
  intros Hs Hok r ->. inversion Hs; simplify_eq.
  1: { split; [done|]. split; [|by eauto]. left. by unfold INTEGRATION_EVENT_MAX_ATTEMPTS. }
  all: destruct (Hok _ eq_refl) as (Ho & Hsh & Hp); clear Hok Hs;
    (split; [by unfold recorded; repeat case_match|split; [|by unfold recorded; repeat case_match]]).
  3: by apply recorded_shape.
  all: unfold shape_ok in *; destruct r0 as [o pt st n nx l res cr dl]; cbn in *; subst st.
  all: repeat case_match; naive_solver lia.
Qed.

Lemma after_size t c :
  Z.of_nat (size t) <= INTEGRATION_EVENT_MAX_RECORDS → Z.of_nat (size (after t c)) <= INTEGRATION_EVENT_MAX_RECORDS.
Proof.
  intros Hsz. destruct c as [now o p a st occ n|now|now|now j a b|now o ob d]; cbn [after].
  - unfold enqueue_terminal_analysis. destruct (new_event _ _ _ _ _ _ _) as [[ev now']|]; [|done].
    pose proof (delete_where_size (purgeable now') t) as Hp. cbn [_purge_terminal_unlocked snd].
    destruct (_ !! event_id ev) as [r|] eqn:He; cbn [snd]; [lia|]. case_match eqn:Hc; [done|].
    destruct (_payload_json ev); [|done]. cbn [snd]. rewrite map_size_insert_None by done.
    apply Z.leb_gt in Hc. cbn [_purge_terminal_unlocked snd] in Hc. lia.
  - unfold purge_terminal. destruct (_aware now) as [now'|]; [|done]. cbn.
    pose proof (delete_where_size (purgeable now') t). lia.
  - unfold claim_due. destruct (_aware now) as [now'|]; [|done]. unfold claim_tx.
    pose proof (update_where_size (expired_claim (_micros now')) released t). destruct (merge_sort _ _) as [|[i r] l]; cbn; [lia|].
    eapply Z.le_trans; [apply inj_le, update_where_size|lia].
  - unfold record_result. destruct (_aware now) as [now'|]; [|done]. destruct (t !! j) as [r|] eqn:Hj; [|done].
    destruct (negb _); [done|]. case_match; [done|]. cbn [snd]. by rewrite map_size_insert_Some by eauto.
  - destruct (replay_dead _ _ _ _ _) as [[res t']|] eqn:Hr; [|done].
    apply replay_ok in Hr as (_ & _ & _ & _ & _ & _ & _ & ->). eapply Z.le_trans; [apply inj_le, update_where_size|done].
Qed.

Lemma after_ok t c : outbox_ok t → outbox_ok (after t c).
Proof.
  intros [Hsz Hok]. split; [by apply after_size|]. intros i row. generalize (after_row t c i).
  generalize (after t c !! i). intros o Hst. assert (∀ r, t !! i = Some r → row_ok i r) as Hi by eauto. clear Hsz Hok.
  revert Hi row. induction Hst as [|x y z Hxy Hyz IH]; intros Hi; [done|]. apply IH. by apply (row_step_ok _ _ _ _ _ Hxy).
Qed.

(** A history of calls. *)
Definition run (t : outbox) (cs : list call) : outbox := foldl after t cs.

Lemma run_ok t cs : outbox_ok t → outbox_ok (run t cs).
Proof. revert t. induction cs as [|c cs IH]; intros t Ht; [done|]. by apply IH, after_ok. Qed.

Lemma empty_ok : outbox_ok ∅.
Proof. split; [by rewrite map_size_empty|]. intros i row Hr. by rewrite lookup_empty in Hr. Qed.

Lemma run_empty_ok cs : outbox_ok (run ∅ cs).
Proof. apply run_ok, empty_ok. Qed.

Lemma get_row t i row :
  (∀ p, parse_payload (payload_json p) = Some p) → row_ok i row → t !! i = Some row →
  ∃ r, get t i = Ok r ∧ event_id (payload r) = i ∧ record_state r = state row.
Proof.
  intros Hparse (Ho & Hsh & p & Hp & Hi & Hv) Hr.
  assert (Hid : is_hex64 i = true) by (unfold payload_valid in Hv; rewrite !andb_true_iff in Hv; rewrite <- Hi; tauto).
  assert (Hrv : row_valid row = true).
  { unfold row_valid. rewrite Ho. destruct row as [o pt st n nx l res cr dl]. unfold shape_ok, INTEGRATION_EVENT_MAX_ATTEMPTS in *.
    cbn in *. destruct l, dl; [done|..]; destruct_or?; destruct_and!; subst; cbn;
      rewrite !andb_true_iff, !Z.leb_le; repeat case_match; naive_solver lia. }
  eexists. unfold get. rewrite Hid, Hr. cbn -[row_valid]. rewrite Hp, Hparse. cbn -[row_valid]. rewrite Hrv. cbn. by split.
Qed.

(** ** Attempts *)

(** How many attempts of the event the calls record. *)
Fixpoint recorded_attempts (i : string) (t : outbox) (cs : list call) : Z :=
  match cs with
  | [] => 0
  | c :: cs' => (if records i t c then 1 else 0) + recorded_attempts i (after t c) cs'
  end.

(** The attempts used up: all of them, once the event is settled or gone. *)
Definition used (row : option event_row) : Z :=
  match row with
  | Some r => if mem (state r) ["delivered"; "dead"] then INTEGRATION_EVENT_MAX_ATTEMPTS else attempts r
  | None => INTEGRATION_EVENT_MAX_ATTEMPTS
  end.

Lemma used_recorded now a b r :
  attempts r + 1 <= INTEGRATION_EVENT_MAX_ATTEMPTS →
  attempts r + 1 <= used (Some (recorded now a b r)) <= INTEGRATION_EVENT_MAX_ATTEMPTS.
Proof.
  intros Hr. unfold recorded, after_attempt, used. destruct a; [cbn; lia|]. destruct (b && _); cbn; lia.
Qed.

Lemma used_step i row row' :
  row_step i false false row row' → used row <= used row' ∧ (used row <= INTEGRATION_EVENT_MAX_ATTEMPTS → used row' <= INTEGRATION_EVENT_MAX_ATTEMPTS).
Proof.
  intros Hs. inversion Hs as [r ? Hd|?????? Hn|r ? Hd|r ? ? Hd|r now a b ? Hd Ha|r now Hn]; simplify_eq.
  - unfold used. rewrite Hd. lia.
  - unfold used, released. cbn. by rewrite Hd.
  - unfold used, claimed. cbn. by rewrite Hd.
  - pose proof (used_recorded now a b r Ha). assert (used (Some r) = attempts r) as -> by (unfold used; by rewrite Hd). lia.
Qed.

Lemma used_steps i row row' :
  row_steps i false false row row' → used row <= used row' ∧ (used row <= INTEGRATION_EVENT_MAX_ATTEMPTS → used row' <= INTEGRATION_EVENT_MAX_ATTEMPTS).
Proof. induction 1 as [x|x y z Hxy _ IH]; [done|]. apply used_step in Hxy. lia. Qed.

Lemma used_after t c i :
  adds i c = false → replays_dead c = false →
  (if records i t c then 1 else 0) + used (t !! i) <= used (after t c !! i)
  ∧ (used (t !! i) <= INTEGRATION_EVENT_MAX_ATTEMPTS → used (after t c !! i) <= INTEGRATION_EVENT_MAX_ATTEMPTS).
Proof.
  intros Ha Hr. destruct (records i t c) eqn:Hc.
  2:{ apply (used_steps i). rewrite <- Ha at 1. rewrite <- Hr. apply after_row. }
  destruct c; try done. cbn in Hc |- *. rewrite !andb_true_iff in Hc. destruct Hc as [[->%String.eqb_eq Hn] Hc].
  destruct (t !! i) as [row|] eqn:Hrow; [|done]. apply andb_true_iff in Hc as [Hd Hm].
  unfold record_result. destruct (_aware now) as [now'|]; [|done]. rewrite Hrow, Hd. cbn [negb].
  apply negb_true_iff in Hm. rewrite Hm. cbn [snd]. rewrite lookup_insert_eq. apply Z.ltb_ge in Hm.
  pose proof (used_recorded now' accepted retryable row Hm). apply String.eqb_eq in Hd.
  assert (used (Some row) = attempts row) as -> by (unfold used; by rewrite Hd). lia.
Qed.

Lemma used_run t cs i :
  Forall (λ c, adds i c = false ∧ replays_dead c = false) cs → used (t !! i) <= INTEGRATION_EVENT_MAX_ATTEMPTS →
  recorded_attempts i t cs + used (t !! i) <= INTEGRATION_EVENT_MAX_ATTEMPTS.
Proof.
  intros Hcs. revert t. induction Hcs as [|c cs [Ha Hr] _ IH]; intros t Ht; cbn [recorded_attempts]; [lia|].
  destruct (used_after t c i Ha Hr) as [H1 H2]. specialize (IH (after t c) (H2 Ht)). lia.
Qed.

Lemma used_bounds t i : outbox_ok t → 0 <= used (t !! i) <= INTEGRATION_EVENT_MAX_ATTEMPTS.
Proof.
  intros [_ Hok]. destruct (t !! i) as [row|] eqn:Hr; [|by cbn]. destruct (Hok _ _ Hr) as (_ & Hsh & _).
  unfold used, shape_ok, INTEGRATION_EVENT_MAX_ATTEMPTS in *. repeat case_match; naive_solver lia.
Qed.

(** ** Claims *)

Definition lease_end (now : datetime) : Z := truncated_micros (instant now + seconds INTEGRATION_EVENT_LEASE_SECONDS).

Lemma claim_call t now :
  claims t (Claim now) = (if aware now then (claim_tx t (_micros now) (lease_end now)).1 else None)
  ∧ after t (Claim now) = (if aware now then (claim_tx t (_micros now) (lease_end now)).2 else t).
Proof.
  cbn [claims after]. unfold claim_due, _aware. destruct (aware now); cbn; [|done].
  assert (_micros (plus_seconds (as_utc now) INTEGRATION_EVENT_LEASE_SECONDS) = lease_end now) as ->
    by (unfold _micros, lease_end; by rewrite instant_plus_seconds, instant_as_utc).
  assert (_micros (as_utc now) = _micros now) as -> by (unfold _micros; by rewrite instant_as_utc).
  by destruct (claim_tx _ _ _).
Qed.

(** What is claimed was the first of the rows due. *)
Lemma claim_tx_some t now lease i :
  (claim_tx t now lease).1 = Some i →
  ∃ row l, let t1 := update_where (expired_claim now) released t in
    merge_sort due_order (map_to_list (select_where (due now) t1)) = (i, row) :: l
    ∧ t1 !! i = Some row ∧ state row = "pending" ∧ next_attempt_at row <= now
    ∧ (claim_tx t now lease).2 = <[i := claimed lease row]> t1.
Proof.
  unfold claim_tx. set (t1 := update_where _ _ _). destruct (merge_sort _ _) as [|[j row] l] eqn:Hl; [done|].
  cbn [fst snd]. intros [= ->]. exists row, l.
  assert (Hin : (i, row) ∈ map_to_list (select_where (due now) t1))
    by (rewrite <- (merge_sort_Permutation due_order), Hl; left).
  apply elem_of_map_to_list, select_where_lookup in Hin as [Hi Hd]. unfold due in Hd.
  apply andb_true_iff in Hd as [Hs Hn]. repeat split; try done; [by apply String.eqb_eq|by apply Z.leb_le|].
  apply update_where_one; [done|by rewrite String.eqb_refl, Hs|].
  intros k r _ Hk. apply andb_true_iff in Hk as [Hk _]. by apply String.eqb_eq.
Qed.

(** A row that is claimed until [lease] stays as it is while no call is made
    at or after the lease's end, and no attempt of it is recorded. *)
Lemma held_row t c i row lease :
  t !! i = Some row → state row = "delivering" → lease_until row = Some lease →
  (∀ now, c = Claim now → _micros now < lease) → records i t c = false →
  after t c !! i = Some row ∧ claims t c ≠ Some i.
Proof.
  intros Hr Hd Hl Hnow Hrec.
  assert (Hpurge : ∀ now, delete_where (purgeable now) t !! i = Some row).
  { intros now. apply delete_where_Some. split; [done|]. unfold purgeable. by rewrite Hd. }
  destruct c as [now o p a st occ n|now|now|now j x y|now o ob d].
  - split; [|done]. cbn [after]. unfold enqueue_terminal_analysis. destruct (new_event _ _ _ _ _ _ _) as [[ev now']|]; [|done].
    cbn [_purge_terminal_unlocked snd]. destruct (_ !! event_id ev) as [r|] eqn:He; [apply Hpurge|]. case_match; [done|].
    destruct (_payload_json ev); [|done]. cbn [snd]. rewrite lookup_insert_ne; [apply Hpurge|]. intros <-. by rewrite Hpurge in He.
  - split; [|done]. cbn [after]. unfold purge_terminal. destruct (_aware now); [apply Hpurge|done].
  - specialize (Hnow now eq_refl). destruct (claim_call t now) as [Hc Ha]. rewrite Hc, Ha. clear Hc Ha.
    destruct (aware now); [|done].
    assert (H1 : update_where (expired_claim (_micros now)) released t !! i = Some row).
    { rewrite update_where_lookup, Hr. cbn. unfold expired_claim. rewrite Hd, Hl. cbn.
      by destruct (Z.leb_spec lease (_micros now)); [lia|]. }
    destruct ((claim_tx t (_micros now) (lease_end now)).1) as [j|] eqn:Hj.
    + apply claim_tx_some in Hj as (r & l & _ & Hjr & Hp & _ & ->).
      assert (j ≠ i) by (intros ->; rewrite Hjr in H1; congruence). by rewrite lookup_insert_ne by done; split; [|congruence].
    + split; [|done]. unfold claim_tx in Hj |- *. by destruct (merge_sort _ _) as [|[]].
  - split; [|done]. cbn [after records] in *. unfold record_result. destruct (_aware now) as [now'|]; [|done].
    destruct (String.eqb_spec j i) as [->|Hne].
    + rewrite Hr in Hrec |- *. rewrite Hd in Hrec |- *. cbn in Hrec |- *. apply negb_false_iff in Hrec. by rewrite Hrec.
    + destruct (t !! j) as [r|]; [|done]. destruct (negb _); [done|]. destruct (_ <? attempts r + 1); [done|]. cbn [snd]. by rewrite lookup_insert_ne by done.
  - split; [|done]. cbn [after]. destruct (replay_dead _ _ _ _ _) as [[res t']|] eqn:Hrep; [|done].
    apply replay_ok in Hrep as (_ & _ & _ & _ & _ & _ & _ & ->). rewrite update_where_lookup, Hr. cbn.
    unfold replays, in_state. rewrite Hd. by rewrite andb_false_r.
Qed.

(** No attempt of the event is recorded in a history. *)
Lemma held_run t cs i row lease :
  t !! i = Some row → state row = "delivering" → lease_until row = Some lease →
  (∀ now, Claim now ∈ cs → _micros now < lease) → recorded_attempts i t cs = 0 → run t cs !! i = Some row.
Proof.
  intros Hr Hd Hl. revert t Hr. induction cs as [|c cs IH]; intros t Hr Hnow Hrec; [done|].
  cbn [recorded_attempts] in Hrec.
  assert (Hpos : ∀ t cs, 0 <= recorded_attempts i t cs).
  { clear. intros t cs. revert t. induction cs as [|c cs IH]; intros t; cbn; [lia|]. specialize (IH (after t c)). case_match; lia. }
  specialize (Hpos (after t c) cs). destruct (records i t c) eqn:Hc; [lia|].
  apply IH; [|set_solver|done]. apply (held_row t c i row lease); try done. intros now ->. apply Hnow. left.
Qed.

(** ** Draining *)

#[local] Instance due_order_total : Total due_order.
Proof. intros a b. unfold due_order. destruct (str_le_total a.1 b.1); lia || (destruct (Z.lt_total (next_attempt_at a.2) (next_attempt_at b.2)); tauto || intuition lia). Qed.
#[local] Instance due_order_trans : Transitive due_order.
Proof.
  intros a b c. unfold due_order. intros [H1|[H1 H1']] [H2|[H2 H2']]; [left; lia|left; lia|left; lia|right].
  split; [lia|by trans b.1].
Qed.

(** The events that are due at a reading of the clock, first to last: those
    whose lease is over are pending again. *)
Definition due_rows (t : outbox) (now : Z) : list (string * event_row) :=
  merge_sort due_order (map_to_list (select_where (due now) (update_where (expired_claim now) released t))).

Lemma due_rows_elem t now i row :
  (i, row) ∈ due_rows t now ↔ update_where (expired_claim now) released t !! i = Some row ∧ due now i row = true.
Proof. unfold due_rows. by rewrite merge_sort_Permutation, elem_of_map_to_list, select_where_lookup. Qed.

Lemma due_rows_unique now t l :
  StronglySorted due_order l →
  l ≡ₚ map_to_list (select_where (due now) (update_where (expired_claim now) released t)) → l = due_rows t now.
Proof.
  intros Hs Hp. apply (StronglySorted_unique_strong due_order); [|done|apply (StronglySorted_merge_sort _)|].
  - intros [i r] [j r'] Hi Hj H1 H2. rewrite due_rows_elem, <- select_where_lookup in Hj.
    rewrite Hp, elem_of_map_to_list in Hi. unfold due_order in H1, H2. cbn in H1, H2.
    assert (i = j) as -> by (apply str_le_antisym; intuition lia). congruence.
  - rewrite Hp. symmetry. apply merge_sort_Permutation.
Qed.

Lemma released_once t now k r :
  update_where (expired_claim now) released t !! k = Some r → expired_claim now k r = false.
Proof.
  rewrite update_where_lookup. destruct (t !! k) as [r0|]; [|done]. cbn. intros [= <-].
  destruct (expired_claim now k r0) eqn:He; [done|by rewrite He].
Qed.

(** One claim takes the first of them. *)
Lemma claim_tx_due t now lease :
  now < lease →
  (claim_tx t now lease).1 = head (due_rows t now).*1 ∧ due_rows (claim_tx t now lease).2 now = tail (due_rows t now).
Proof.
  intros Hlease. set (t1 := update_where (expired_claim now) released t).
  assert (Ht1 : update_where (expired_claim now) released t1 = t1)
    by (apply update_where_none; intros k r; apply released_once).
  destruct (due_rows t now) as [|[i row] l] eqn:Hdue.
  - unfold claim_tx. unfold due_rows in Hdue. rewrite Hdue. split; [done|]. cbn [snd tail]. fold t1.
    symmetry. apply due_rows_unique; [constructor|]. rewrite Ht1. unfold t1. rewrite <- Hdue. apply merge_sort_Permutation.
  - assert (Hc : (claim_tx t now lease).1 = Some i).
    { unfold claim_tx. unfold due_rows in Hdue. by rewrite Hdue. }
    split; [done|]. destruct (claim_tx_some _ _ _ _ Hc) as (row' & l' & Hl & Hi & _ & _ & ->).
    fold t1 in Hl, Hi |- *. unfold due_rows in Hdue. fold t1 in Hdue. rewrite Hdue in Hl. injection Hl as <- <-.
    assert (Ht2 : update_where (expired_claim now) released (<[i:=claimed lease row]> t1) = <[i:=claimed lease row]> t1).
    { apply update_where_none. intros k r. destruct (decide (k = i)) as [->|Hne].
      - rewrite lookup_insert_eq. intros [= <-]. unfold expired_claim, claimed. cbn.
        by destruct (Z.leb_spec lease now); [lia|].
      - rewrite lookup_insert_ne by done. apply released_once. }
    assert (Hsel : select_where (due now) (<[i:=claimed lease row]> t1) = delete i (select_where (due now) t1)).
    { unfold select_where. rewrite map_filter_insert_False by done. apply map_filter_delete. }
    symmetry. apply due_rows_unique; [|rewrite Ht2, Hsel].
    + pose proof (StronglySorted_merge_sort due_order (map_to_list (select_where (due now) t1))) as Hs.
      rewrite Hdue in Hs. by apply StronglySorted_inv in Hs as [Hs _].
    + apply (Permutation_cons_inv (a := (i, row))).
      assert (Hin : (i, row) ∈ map_to_list (select_where (due now) t1))
        by (rewrite <- (merge_sort_Permutation due_order), Hdue; left).
      apply elem_of_map_to_list in Hin. rewrite (map_to_list_delete _ _ _ Hin).
      transitivity (merge_sort due_order (map_to_list (select_where (due now) t1))); [by rewrite Hdue|apply merge_sort_Permutation].
Qed.

(** The events the calls claim, in order. *)
Fixpoint claimed_events (t : outbox) (cs : list call) : list string :=
  match cs with
  | [] => []
  | c :: cs' => option_list (claims t c) ++ claimed_events (after t c) cs'
  end.

(** When the clock's readings lose nothing ([Micros]). *)
Definition ordinary_time (now : datetime) : Prop :=
  aware now = true ∧ 2 ^ 50 < instant now < 2147483648000000 - seconds INTEGRATION_EVENT_LEASE_SECONDS.

Lemma ordinary_micros now : ordinary_time now → _micros now = instant now.
Proof. intros [_ Hn]. apply truncated_micros_exact. unfold seconds, INTEGRATION_EVENT_LEASE_SECONDS in Hn. lia. Qed.

Lemma ordinary_lease now : ordinary_time now → lease_end now = instant now + seconds INTEGRATION_EVENT_LEASE_SECONDS.
Proof. intros [_ Hn]. apply truncated_micros_exact. unfold seconds, INTEGRATION_EVENT_LEASE_SECONDS in *. lia. Qed.

Lemma claimed_due t now n :
  ordinary_time now → claimed_events t (replicate n (Claim now)) = take n (due_rows t (instant now)).*1.
Proof.
  intros Hn. revert t. induction n as [|n IH]; intros t; [done|]. cbn [replicate claimed_events].
  destruct (claim_call t now) as [-> ->]. rewrite (proj1 Hn), ordinary_micros, ordinary_lease by done.
  rewrite IH. destruct (claim_tx_due t (instant now) (instant now + seconds INTEGRATION_EVENT_LEASE_SECONDS)) as [-> ->].
  { unfold seconds, INTEGRATION_EVENT_LEASE_SECONDS. lia. }
  destruct (due_rows t (instant now)) as [|[i r] l]; [by destruct n|done].
Qed.

(** ** Previews and replays *)

Lemma chars_join_empty l : chars (join "" l) = concat (map chars l).
Proof.
  induction l as [|s l IH]; [done|]. destruct l as [|t l]; [cbn; by rewrite app_nil_r|].
  rewrite join_cons, !chars_app, IH. done.
Qed.

(** Pieces of one length are told apart. *)
Lemma concat_fixed_inj {A} n (l k : list (list A)) :
  (0 < n)%nat → Forall (λ x, length x = n) l → Forall (λ x, length x = n) k → concat l = concat k → l = k.
Proof.
  intros Hn Hl. revert k. induction Hl as [|x l Hx _ IH]; intros k Hk He.
  - destruct Hk as [|y k Hy Hk]; [done|]. cbn in He. destruct y; [cbn in Hy; lia|done].
  - destruct Hk as [|y k Hy Hk]; [destruct x; [cbn in Hx; lia|done]|]. cbn in He.
    apply app_inj_1 in He as [-> He]; [|congruence]. f_equal. by apply IH.
Qed.

(** What of a row the digest covers. *)
Definition fingerprint (r : string * string) : string * string := (r.1, Password.sha256_bytes (utf8 r.2)).

Lemma replay_material_inj o rows rows' :
  Forall (λ r, len r.1 = 64%nat) rows → Forall (λ r, len r.1 = 64%nat) rows' →
  replay_material o rows = replay_material o rows' → fingerprint <$> rows = fingerprint <$> rows'.
Proof.
  intros Hl Hl' He. unfold replay_material in He. apply (f_equal chars) in He. rewrite !chars_app in He.
  do 3 apply app_inv_head in He. rewrite !chars_join_empty in He.
  apply (concat_fixed_inj 98) in He; [|lia|..].
  2,3: rewrite Forall_map, Forall_fmap; eapply Forall_impl; [eassumption|]; intros [i pt] Hi; unfold compose; cbn [fst snd] in Hi |- *;
    rewrite !chars_app, !length_app; pose proof (Auth.sha256_bytes_len (utf8 pt)) as Hb; unfold len in Hi, Hb; rewrite Hi, Hb; done.
  revert rows' Hl' He. induction Hl as [|[i pt] rows Hi _ IH]; intros [|[j pt'] rows'] Hl' He; try done.
  apply Forall_cons in Hl' as [Hj Hl']. cbn in Hi, Hj, He |- *. injection He as He Hrest.
  rewrite !chars_app in He. apply app_inv_head in He. apply app_inj_1 in He as [He1 He2]; [|unfold chars; congruence].
  apply app_inv_head in He2. f_equal; [|by apply IH].
  unfold fingerprint. cbn. apply chars_inj in He1, He2. by rewrite He1, He2.
Qed.

Lemma selected_elem t o i pt :
  (i, pt) ∈ selected t o → ∃ row, t !! i = Some row ∧ in_state o "dead" i row = true ∧ payload_text row = pt.
Proof.
  intros (n & Hn & _)%elem_of_take. apply list_elem_of_lookup_2 in Hn.
  apply list_elem_of_fmap in Hn as ([j row] & [= -> ->] & Hin). exists row. unfold dead_events in Hin.
  rewrite merge_sort_Permutation, elem_of_map_to_list, select_where_lookup in Hin. by destruct Hin.
Qed.

Lemma selected_ids t o : outbox_ok t → Forall (λ r, len r.1 = 64%nat) (selected t o).
Proof.
  intros [_ Hok]. apply Forall_forall. intros [i pt] (row & Hr & _)%selected_elem.
  destruct (Hok _ _ Hr) as (_ & _ & p & _ & <- & Hv). unfold payload_valid, is_hex64 in Hv. to_prop. done.
Qed.

Lemma selected_NoDup t o : NoDup (selected t o).*1.
Proof.
  unfold selected. rewrite fmap_take. eapply sublist_NoDup; [|apply sublist_take].
  rewrite <- list_fmap_compose. unfold dead_events. change ((fst ∘ _) <$> ?l) with (l.*1).
  rewrite merge_sort_Permutation. apply NoDup_fst_map_to_list.
Qed.

(** The check on the row count never fails. *)
Lemma replays_count t o : row_count (replays t o) t = length (selected t o).
Proof.
  assert (Hs : dom (select_where (replays t o) t) = list_to_set (C := gset string) (selected t o).*1).
  { apply set_eq. intros i. rewrite elem_of_list_to_set, elem_of_dom. unfold is_Some. setoid_rewrite select_where_lookup. split.
    - intros (row & _ & Hp). apply andb_true_iff in Hp as [_ Hp]. by apply mem_true.
    - intros Hin. pose proof Hin as ([j pt] & -> & Hj)%list_elem_of_fmap. apply selected_elem in Hj as (row & Hr & Hd & _).
      exists row. split; [done|]. unfold replays. cbn in *. rewrite Hd. by apply mem_true. }
  unfold row_count. rewrite <- (size_dom (D := gset string)), Hs, size_list_to_set by apply selected_NoDup.
  by rewrite length_fmap.
Qed.

Lemma preflight_ok t now o p :
  replay_preflight t now o = Ok p →
  aware now = true ∧ is_organization o = true
  ∧ p = Preflight (as_utc now) (plus_seconds (as_utc now) INTEGRATION_EVENT_REPLAY_TTL_SECONDS)
          (Z.of_nat (row_count (in_state o "dead") t)) (Z.of_nat (length (selected t o)))
          (Z.of_nat (length (selected t o)) <? Z.of_nat (row_count (in_state o "dead") t)) (_replay_digest o (selected t o)).
Proof.
  unfold replay_preflight. intros H. inv_ok H.
  match goal with Hn : _aware _ = Ok _ |- _ => apply aware_ok in Hn as [? ->] end.
  match goal with Hn : _dead_selection_unlocked _ _ = Ok _ |- _ => unfold _dead_selection_unlocked in Hn; inv_ok Hn end.
  by to_prop.
Qed.

Lemma replay_update t o now i :
  update_where (replays t o) (replayed now) t !! i
  = (λ row, if decide (i ∈ (selected t o).*1) then replayed now row else row) <$> t !! i.
Proof.
  rewrite update_where_lookup. destruct (t !! i) as [row|] eqn:Hr; [|done]. cbn [fmap option_fmap option_map]. f_equal.
  unfold replays. destruct (decide _) as [Hin|Hn].
  - rewrite (proj2 (mem_true _ _) Hin). apply list_elem_of_fmap in Hin as ([j pt] & -> & Hj).
    apply selected_elem in Hj as (row' & Hr' & Hd & _). cbn [fst] in *. assert (row' = row) as <- by congruence. by rewrite Hd.
  - destruct (mem i _) eqn:Hm; [by apply mem_true in Hm|]. by rewrite andb_false_r.
Qed.

(** ** What the outbox promises *)


(** Unless it is enqueued again or dead events are replayed, at most five
    attempts of an event are ever recorded, fewer by those already used; and
    an event that was delivered, is dead or is gone has none left. *)
Theorem attempts_bounded t cs i :
  outbox_ok t → Forall (λ c, adds i c = false ∧ replays_dead c = false) cs →
  recorded_attempts i t cs <= INTEGRATION_EVENT_MAX_ATTEMPTS - used (t !! i)
  ∧ 0 <= used (t !! i) <= INTEGRATION_EVENT_MAX_ATTEMPTS.
Proof.
  intros Ht Hcs. pose proof (used_bounds t i Ht) as Hu. pose proof (used_run t cs i Hcs (proj2 Hu)). lia.
Qed.

(** C15: two workers never hold one event.  Once an event is claimed, no call
    claims it again in the thirty seconds of the lease unless a result of it
    was recorded, whatever else is enqueued, purged, claimed, recorded or
    replayed meanwhile. *)
Theorem claims_exclusive t cs i now later :
  ordinary_time now → claims t (Claim now) = Some i →
  (∀ now', Claim now' ∈ Claim later :: cs →
     ordinary_time now' ∧ instant now' < instant now + seconds INTEGRATION_EVENT_LEASE_SECONDS) →
  recorded_attempts i (after t (Claim now)) cs = 0 →
  claims (run (after t (Claim now)) cs) (Claim later) ≠ Some i.
Proof.
  intros Hnow Hc Hcs Hrec. destruct (claim_call t now) as [Hc' Ha]. rewrite Hc' in Hc. rewrite (proj1 Hnow) in Hc, Ha.
  destruct (claim_tx_some _ _ _ _ Hc) as (row & l & _ & Hi & Hp & _ & Htx). rewrite Htx in Ha.
  assert (Hlease : ∀ now', Claim now' ∈ Claim later :: cs → _micros now' < lease_end now).
  { intros now' [Ho Hlt]%Hcs. by rewrite ordinary_micros, ordinary_lease by done. }
  assert (Hrow : after t (Claim now) !! i = Some (claimed (lease_end now) row)) by (rewrite Ha; apply lookup_insert_eq).
  assert (Hrun : run (after t (Claim now)) cs !! i = Some (claimed (lease_end now) row)).
  { apply (held_run _ _ _ _ (lease_end now)); try done. intros now' Hin. apply Hlease. by right. }
  apply (held_row _ _ _ _ (lease_end now) Hrun); try done. intros now' [= ->]. apply Hlease. left.
Qed.

(** No event waits forever.  Claiming again and again at one reading of
    the clock takes the events that are due in the order of their time and
    identifier, each once; so an event that is due, be it pending or left by
    a worker whose lease is over, is claimed within as many claims as the
    table has rows. *)
Theorem due_events_claimed t now :
  ordinary_time now →
  (∀ n, claimed_events t (replicate n (Claim now)) = take n (due_rows t (instant now)).*1)
  ∧ ∀ i row, t !! i = Some row →
      (state row = "pending" ∨ (state row = "delivering" ∧ ∃ l, lease_until row = Some l ∧ l <= instant now)) →
      next_attempt_at row <= instant now → i ∈ claimed_events t (replicate (size t) (Claim now)).
Proof.
  intros Hn. split; [intros n; by apply claimed_due|]. intros i row Hr Hs Hdue.
  rewrite claimed_due by done. rewrite take_ge.
  - set (now' := instant now). set (r := if expired_claim now' i row then released row else row).
    apply list_elem_of_fmap. exists (i, r). split; [done|]. apply due_rows_elem. rewrite update_where_lookup, Hr. split; [done|].
    unfold r, due, expired_claim. destruct Hs as [Hs|(Hs & l & Hl & Hle)]; rewrite Hs.
    + cbn. rewrite Hs. cbn. by apply Z.leb_le.
    + rewrite Hl. cbn. rewrite (proj2 (Z.leb_le l now') Hle). cbn. by apply Z.leb_le.
  - rewrite length_fmap. unfold due_rows. rewrite merge_sort_Permutation, length_map_to_list.
    unfold select_where. etransitivity; [apply map_size_filter|apply update_where_size].
Qed.

(** What is replayed is what was previewed.  A replay that is accepted
    with the time and the digest of a preview comes within five minutes of
    it, and finds the same dead events with the same texts selected, whatever
    was done in between, or it shows a SHA-256 collision; it makes those events
    pending with no attempts used and leaves every other row alone. *)
Theorem replay_as_previewed t cs now now' o p res t' :
  outbox_ok t → replay_preflight t now o = Ok p →
  replay_dead (run t cs) now' o (observed_at p) (snapshot_digest p) = Ok (res, t') →
  (fingerprint <$> selected (run t cs) o = fingerprint <$> selected t o
   ∨ sha256_collision (replay_material o (selected (run t cs) o)) (replay_material o (selected t o)))
  ∧ instant now <= instant now' <= instant now + seconds INTEGRATION_EVENT_REPLAY_TTL_SECONDS
  ∧ (∀ i, t' !! i = (λ row, if decide (i ∈ (selected (run t cs) o).*1) then replayed (_micros now') row else row)
                      <$> run t cs !! i).
Proof.
  intros Ht Hp Hr. apply preflight_ok in Hp as (_ & _ & ->). cbn [observed_at snapshot_digest] in Hr.
  apply replay_ok in Hr as (_ & _ & Htime & _ & _ & Hd & _ & ->). rewrite instant_as_utc in Htime.
  split; [|split; [done|intros i; apply replay_update]].
  destruct (decide (replay_material o (selected (run t cs) o) = replay_material o (selected t o))) as [He|Hne]; [left|right; by split; [exact Hne|exact Hd]].
  apply replay_material_inj in He; [exact He|by apply selected_ids, run_ok|by apply selected_ids].
Qed.

(** A replay of a table nothing has happened to is accepted for five minutes,
    and replays every event the preview counted. *)
Theorem fresh_preview_replays t now now' o p :
  replay_preflight t now o = Ok p → 0 < selected_events p → aware now' = true →
  instant now <= instant now' <= instant now + seconds INTEGRATION_EVENT_REPLAY_TTL_SECONDS →
  ∃ t', replay_dead t now' o (observed_at p) (snapshot_digest p)
        = Ok (ReplayResult (selected_events p) (total_dead p - selected_events p), t').
Proof.
  intros (Hn & Ho & ->)%preflight_ok Hs Hn' Ht. cbn [selected_events total_dead observed_at snapshot_digest] in *.
  assert (Ha : ∀ d, aware d = true → _aware d = Ok (as_utc d)) by (intros d Hd; by apply aware_ok).
  eexists. unfold replay_dead, _dead_selection_unlocked. rewrite (Ha now' Hn'), (Ha (as_utc now)) by done.
  cbn [mbind outcome_bind]. rewrite !instant_as_utc, Ho.
  rewrite (proj2 (Z.ltb_ge (instant now') (instant now))) by lia.
  rewrite (proj2 (Z.ltb_ge (seconds _) (instant now' - instant now))) by lia. cbn [orb negb mbind outcome_bind].
  rewrite bool_decide_false by (intros He; rewrite He in Hs; cbn in Hs; lia).
  assert (Hc : ∀ s, all_chars (between 0 127) (sha256_hex s) = true).
  { intros u. apply all_chars_Forall. eapply Forall_impl; [apply sha256_hex_chars|]. intros c Hc.
    apply (every_char' is_hex_lower (between 0 127)); [by vm_compute|done]. }
  unfold compare_digest at 1. unfold _replay_digest. rewrite !Hc. cbn [andb negb mbind outcome_bind].
  rewrite String.eqb_refl. cbn [negb]. 
  change (λ k row, in_state o "dead" k row && mem k (selected t o).*1) with (replays t o).
  rewrite replays_count, length_fmap, Nat.eqb_refl. reflexivity.
Qed.

(** An accepted event is never sent again.  Once it is delivered, and
    unless the same analysis is enqueued again, its row stays as it is or is
    purged, and no call claims it, replays included. *)
Theorem accepted_is_final t cs i row c :
  t !! i = Some row → state row = "delivered" → Forall (λ c, adds i c = false) cs →
  (run t cs !! i = Some row ∨ run t cs !! i = None) ∧ claims (run t cs) c ≠ Some i.
Proof.
  intros Hr Hs Hcs.
  assert (Hstep : ∀ again o o', row_steps i false again o o' → o = Some row ∨ o = None → o' = Some row ∨ o' = None).
  { intros again o o' Hst. induction Hst as [|x y z Hxy _ IH]; [done|]. intros Hx. apply IH.
    inversion Hxy; destruct Hx; simplify_eq; (by right) || congruence. }
  assert (Hrun : run t cs !! i = Some row ∨ run t cs !! i = None).
  { clear c. assert (Ht : t !! i = Some row ∨ t !! i = None) by by left. clear Hr. revert t Ht.
    induction Hcs as [|c cs Hc _ IH]; intros t Ht; [done|]. apply IH. generalize (after_row t c i). rewrite Hc.
    intros Hst. by apply (Hstep _ _ _ Hst). }
  split; [done|]. destruct c as [| |now| |]; try done. destruct (claim_call (run t cs) now) as [-> _].
  destruct (aware now); [|done]. intros (r & l & _ & Hi & Hp & _)%claim_tx_some. rewrite update_where_lookup in Hi.
  destruct Hrun as [Hrow|Hrow]; rewrite Hrow in Hi; [|done]. cbn in Hi. unfold expired_claim in Hi. rewrite Hs in Hi.
  cbn in Hi. congruence.
Qed.
End Store.

(** ** Witnesses *)

Module Sample_outbox.
#[local] Instance datetime_eq_dec : EqDecision datetime.
Proof. solve_decision. Defined.
#[local] Instance payload_eq_dec : EqDecision IntegrationEventPayload.
Proof. solve_decision. Defined.
#[local] Instance payload_countable : Countable IntegrationEventPayload.
Proof.
  apply (inj_countable'
    (λ p, (event_id p, (wall (occurred_at p), utcoffset (occurred_at p)), project_id p, analysis_id p, status p, finding_count p))
    (λ x, match x with (i, (w, u), pr, a, st, n) => Payload i (DT w u) pr a st n end)).
  by intros [i [w u] pr a st n].
Defined.

(** A text for every payload. *)
Definition json (p : IntegrationEventPayload) : string := str_of_N (Npos (encode p)).
Definition parse (s : string) : option IntegrationEventPayload :=
  match digits_value s with Npos n => decode n | N0 => None end.

Lemma parse_json p : parse (json p) = Some p.
Proof. unfold parse, json. rewrite str_of_N_value. apply decode_encode. Qed.

Definition id64 : string := "0123456789abcdef0123456789abcdef0123456789abcdef0123456789abcdef".
Definition id32 : string := "0123456789abcdef0123456789abcdef".
Definition time (s : Z) : datetime := DT (seconds (1790000000 + s)) (Some 0).
Definition sample_payload : IntegrationEventPayload := Payload id64 (time 0) id32 id32 "completed" (Some 3).

(** Short texts, for what is evaluated. *)
Definition short (p : IntegrationEventPayload) : string := event_id p.
Definition unread (_ : string) : option IntegrationEventPayload := None.

Definition pending : outbox := {[id64 := EventRow "local-admin" id64 "pending" 0 (instant (time 0)) None None (instant (time 0)) None]}.
Definition delivered : event_row :=
  EventRow "local-admin" id64 "delivered" 1 (instant (time 0)) None (Some "accepted") (instant (time 0)) (Some (instant (time 0))).
Definition dead : outbox :=
  {[id64 := EventRow "local-admin" id64 "dead" 1 (instant (time 0)) None (Some "permanent_failure") (instant (time 0)) None]}.

Definition preview : IntegrationEventReplayPreflight :=
  Preflight (time 60) (time 360) 1 1 false (_replay_digest "local-admin" (selected dead "local-admin")).

Lemma preview_ok : replay_preflight dead (time 60) "local-admin" = Ok preview.
Proof. reflexivity. Qed.

Lemma table_ok row : row_ok short id64 row → outbox_ok short {[id64 := row]}.
Proof.
  intros Hr. split; [by rewrite map_size_singleton|]. by intros i r [<- <-]%lookup_singleton_Some.
Qed.

Lemma pending_ok : outbox_ok short pending.
Proof. apply table_ok. split; [done|]. split; [by left|]. by exists sample_payload. Qed.
Lemma dead_ok : outbox_ok short dead.
Proof. apply table_ok. split; [done|]. split; [by right|]. by exists sample_payload. Qed.
End Sample_outbox.
Import Sample_outbox.


Lemma attempts_bounded_witness :
  recorded_attempts short unread id64 pending [Claim (time 1); Result (time 2) id64 false true] <= 5 - used (pending !! id64)
  ∧ 0 <= used (pending !! id64) <= 5.
Proof. apply (attempts_bounded short unread); [apply pending_ok|by repeat constructor]. Defined.

Lemma claims_exclusive_witness :
  claims (run short unread (after short unread pending (Claim (time 1))) [Claim (time 20)]) (Claim (time 30)) ≠ Some id64.
Proof.
  apply (claims_exclusive short unread); [done|vm_compute; reflexivity| |vm_compute; reflexivity].
  intros now' Hin. rewrite !elem_of_cons in Hin. destruct Hin as [[= ->]|[[= ->]|Hin]]; [done|done|by apply not_elem_of_nil in Hin].
Defined.

Lemma due_events_claimed_witness : id64 ∈ claimed_events short unread pending (replicate 1 (Claim (time 1))).
Proof. eapply (due_events_claimed short unread pending (time 1)); [done|reflexivity|by left|done]. Defined.

Lemma replay_as_previewed_witness :
  ∃ res t', replay_dead dead (time 90) "local-admin" (observed_at preview) (snapshot_digest preview) = Ok (res, t')
  ∧ (fingerprint <$> selected dead "local-admin" = fingerprint <$> selected dead "local-admin"
     ∨ sha256_collision (replay_material "local-admin" (selected dead "local-admin"))
         (replay_material "local-admin" (selected dead "local-admin")))
  ∧ instant (time 60) <= instant (time 90) <= instant (time 60) + seconds INTEGRATION_EVENT_REPLAY_TTL_SECONDS
  ∧ (∀ i, t' !! i = (λ row, if decide (i ∈ (selected dead "local-admin").*1) then replayed (_micros (time 90)) row else row)
                      <$> dead !! i).
Proof.
  destruct (fresh_preview_replays dead (time 60) (time 90) "local-admin" preview preview_ok) as [t' Ht];
    [done|done|done|]. eexists _, t'. split; [exact Ht|].
  apply (replay_as_previewed short unread dead [] (time 60) (time 90) "local-admin" preview _ t' dead_ok preview_ok Ht).
Defined.

Lemma accepted_is_final_witness :
  let t := run short unread {[id64 := delivered]} [Replay (time 90) "local-admin" (time 60) id64] in
  (t !! id64 = Some delivered ∨ t !! id64 = None) ∧ claims t (Claim (time 100)) ≠ Some id64.
Proof. apply (accepted_is_final short unread); [reflexivity|reflexivity|by repeat constructor]. Defined.

(** A worker that dies before it records a result uses up no attempt: the
    event is handed out a sixth time, and as often as its lease ends. *)
Example unrecorded_attempts_do_not_count :
  claimed_events short unread pending ((λ n, Claim (time (31 * n))) <$> [1; 2; 3; 4; 5; 6; 7]) = replicate 7 id64.
Proof. vm_compute. reflexivity. Qed.

(** A worker whose lease is over settles the claim of the next one. *)
Example late_result_settles_another_claim :
  (run short unread pending [Claim (time 1); Claim (time 40); Result (time 41) id64 false false]) !! id64
  = Some (EventRow "local-admin" id64 "dead" 1 (instant (time 41)) None (Some "permanent_failure") (instant (time 0)) None).
Proof. vm_compute. reflexivity. Qed.
