(* ===== verification/RecurrenceWindow.v ===== *)
(** * RecurrenceWindow: when a recurring assessment may run

    Models the functions at the end of [backend/app/active_recurrence.py]
    that compute times: the jitter of a schedule, the window of a local day in
    a time zone with its daylight saving changes, the next time inside a
    window, the delay after a failure.

    A datetime in UTC is its instant, microseconds since the epoch; a naive
    one its wall clock, a date its number of days.  The zones are data of the
    platform: [ZoneInfo] is an argument, as the three questions the code asks
    of a zone.  Years after 9999 are not modelled. *)

From S2P Require Import Prelude PyStr Sha256 BearerToken Auth.
Local Open Scope Z_scope.

(** ** Constants *)

(** backend/app/active_recurrence.py 21-40 [constants] *)
Definition ACTIVE_RECURRENCE_IDEMPOTENCY_DOMAIN_VERSION : string := "2026-09-08.1".
Definition ACTIVE_RECURRENCE_MAX_JITTER_SECONDS : Z := 900.
Definition ACTIVE_RECURRENCE_MAX_FAILURES : Z := 8.
Definition ACTIVE_RECURRENCE_MAX_BACKOFF_SECONDS : Z := 21600.
Definition ACTIVE_RECURRENCE_WEEKDAYS : list string :=
  ["monday"; "tuesday"; "wednesday"; "thursday"; "friday"; "saturday"; "sunday"].

(** ** Zones *)

(** A [ZoneInfo]: the offset and the fold of an instant, and the offset of a
    wall clock read with a fold. *)
Record zone : Type := Zone {
  offset_at : Z → Z;
  fold_at : Z → bool;
  offset_of : Z → bool → Z
}.

Definition local (z : zone) (instant : Z) : Z := instant + offset_at z instant.

Definition DAY : Z := days 1.
Definition date_of (wall : Z) : Z := wall / DAY.
(** [date.weekday()]: the epoch was a Thursday. *)
Definition weekday (day : Z) : Z := (day + 3) mod 7.
Definition combine (day hour : Z) : Z := day * DAY + hours hour.

(** ** Jitter *)

(** [int.from_bytes(..., "big")] *)
Definition from_bytes (s : string) : Z := Z.of_N (foldl (λ n c, 256 * n + code c)%N 0%N (chars s)).

(** backend/app/active_recurrence.py [recurrence_jitter_seconds] *)
Definition recurrence_jitter_seconds (schedule_id : string) : outcome Z :=
  raise "not_found" when (negb (is_hex32 schedule_id));;
  let digest := Password.sha256_bytes
    (ACTIVE_RECURRENCE_IDEMPOTENCY_DOMAIN_VERSION ++ text ["000"%char] ++ "jitter" ++ text ["000"%char] ++ schedule_id) in
  Ok (1 + from_bytes (str_take 4 digest) mod ACTIVE_RECURRENCE_MAX_JITTER_SECONDS).

(** backend/app/active_recurrence.py [recurrence_retry_jitter_seconds] *)
Definition recurrence_retry_jitter_seconds (schedule_id : string) (failure_count : Z) : outcome Z :=
  raise "invalid_retry"
    when (negb (is_hex32 schedule_id) || negb ((1 <=? failure_count) && (failure_count <=? ACTIVE_RECURRENCE_MAX_FAILURES)));;
  let digest := Password.sha256_bytes
    (ACTIVE_RECURRENCE_IDEMPOTENCY_DOMAIN_VERSION ++ text ["000"%char] ++ "retry" ++ text ["000"%char] ++ schedule_id
     ++ text ["000"%char] ++ str_of_Z failure_count) in
  Ok (from_bytes (str_take 2 digest) mod 61).

(** ** Windows *)

(** The instants that read as the wall clock; a set of at most two. *)
(** backend/app/active_recurrence.py [_valid_local_instants] *)
Definition _valid_local_instants (value : Z) (z : zone) : list Z :=
  let candidates := (λ fold : bool, (value - offset_of z value fold, fold)) <$> [false; true] in
  merge_sort Z.le (remove_dups (omap (λ '(candidate, fold),
    if (local z candidate =? value) && Bool.eqb (fold_at z candidate) fold then Some candidate else None) candidates)).

(** [min] and [max] of a list that is not empty. *)
Definition minimum (a : Z) (l : list Z) : Z := foldr Z.min a l.
Definition maximum (a : Z) (l : list Z) : Z := foldr Z.max a l.

(** backend/app/active_recurrence.py [_window_bounds] *)
Definition _window_bounds (local_day : Z) (z : zone) (window_weekdays : list string) (start_hour duration_hours : Z)
    : option (Z * Z) :=
  if negb (mem (default "" (ACTIVE_RECURRENCE_WEEKDAYS !! Z.to_nat (weekday local_day))) window_weekdays) then None else
  let start_naive := combine local_day start_hour in
  let end_naive := start_naive + hours duration_hours in
  match _valid_local_instants start_naive z, _valid_local_instants end_naive z with
  | s :: starts, e :: ends => Some (minimum s starts, maximum e ends)
  | _, _ => None
  end.

(** What the loop does with one day. *)
(** backend/app/active_recurrence.py 697-705 [_next_window_time] *)
Definition day_time (value jitter : Z) (bounds : option (Z * Z)) : option Z :=
  match bounds with
  | None => None
  | Some (start, end_) =>
      if (start <=? value) && (value <? end_) then Some value else
      if (value <? start) && (start + seconds jitter <? end_) then Some (start + seconds jitter) else None
  end.

Fixpoint first_of {A B} (f : A → option B) (l : list A) : option B :=
  match l with
  | [] => None
  | x :: l' => match f x with Some y => Some y | None => first_of f l' end
  end.

Section Zones.
Context (ZoneInfo : string → option zone).

(** backend/app/active_recurrence.py [_load_timezone] *)
Definition _load_timezone (value : string) : outcome zone := or_raise (ZoneInfo value) "invalid_timezone".

(** Every caller has checked the identifier, so asking for the jitter before
    the loop raises nothing the loop would not. *)
(** backend/app/active_recurrence.py [_next_window_time] *)
Definition _next_window_time (value : Z) (schedule_id timezone_name : string) (window_weekdays : list string)
    (window_start_hour window_duration_hours : Z) : outcome Z :=
  z ← _load_timezone timezone_name;
  jitter ← recurrence_jitter_seconds schedule_id;
  let first_day := date_of (local z value) in
  or_raise (first_of (λ offset, day_time value jitter
      (_window_bounds (first_day + offset) z window_weekdays window_start_hour window_duration_hours)) (seqZ 0 371))
    "window_unavailable".

(** backend/app/active_recurrence.py [_next_run] *)
Definition _next_run (observed : Z) (interval_days : Z) (schedule_id timezone_name : string) (window_weekdays : list string)
    (window_start_hour window_duration_hours : Z) : outcome Z :=
  jitter ← recurrence_jitter_seconds schedule_id;
  _next_window_time (observed + days interval_days + seconds jitter) schedule_id timezone_name window_weekdays
    window_start_hour window_duration_hours.

(** backend/app/active_recurrence.py [recurrence_is_within_window] *)
Definition is_within_window (timezone_name : string) (window_weekdays : list string)
    (window_start_hour window_duration_hours value : Z) : outcome bool :=
  z ← _load_timezone timezone_name;
  Ok (match _window_bounds (date_of (local z value)) z window_weekdays window_start_hour window_duration_hours with
      | Some (start, end_) => (start <=? value) && (value <? end_)
      | None => false end).
End Zones.

(** ** Windows, characterised *)

Lemma first_of_Some {A B} (f : A → option B) l y :
  first_of f l = Some y ↔ ∃ l1 x l2, l = l1 ++ x :: l2 ∧ f x = Some y ∧ ∀ x', x' ∈ l1 → f x' = None.
Proof.
  induction l as [|x l IH]; cbn; [split; [done|intros ([|] & ? & ? & [=] & _)]|].
  destruct (f x) as [y'|] eqn:Hx.
  - split.
    + intros [= ->]. exists [], x, l. split; [done|]. split; [done|]. intros x' Hin. by apply not_elem_of_nil in Hin.
    + intros ([|x' l1] & x'' & l2 & [= -> ->] & Hy & Hn); [congruence|]. rewrite Hn in Hx by left. done.
  - rewrite IH. split.
    + intros (l1 & x' & l2 & -> & Hy & Hn). exists (x :: l1), x', l2. split; [done|]. split; [done|].
      intros x'' [->|Hin]%elem_of_cons; [done|by apply Hn].
    + intros ([|x' l1] & x'' & l2 & [= -> ->] & Hy & Hn); [congruence|]. exists l1, x'', l2. split; [done|].
      split; [done|]. intros y' Hin. apply Hn. by right.
Qed.

Lemma first_of_None {A B} (f : A → option B) l : first_of f l = None ↔ ∀ x, x ∈ l → f x = None.
Proof.
  induction l as [|x l IH]; cbn; [split; [intros _ y Hin; by apply not_elem_of_nil in Hin|done]|].
  destruct (f x) eqn:Hx.
  - split; [done|]. intros Ha. rewrite Ha in Hx by left. done.
  - rewrite IH. split; [intros Ha y [->|Hin]%elem_of_cons; auto|]. intros Ha y Hin. apply Ha. by right.
Qed.

Lemma valid_instants v z c :
  c ∈ _valid_local_instants v z ↔ ∃ fold, c = v - offset_of z v fold ∧ local z c = v ∧ fold_at z c = fold.
Proof.
  unfold _valid_local_instants. rewrite merge_sort_Permutation, elem_of_remove_dups, list_elem_of_omap. split.
  - intros ([a fold] & Hin & Ha). apply list_elem_of_fmap in Hin as (f & [= -> ->] & _).
    destruct (Z.eqb_spec (local z (v - offset_of z v f)) v) as [Hl|]; [|done]. cbn in Ha.
    destruct (Bool.eqb_spec (fold_at z (v - offset_of z v f)) f) as [Hf|]; [|done]. injection Ha as <-. by exists f.
  - intros (fold & -> & Hl & Hf). exists (v - offset_of z v fold, fold). split.
    + apply list_elem_of_fmap. exists fold. split; [done|]. destruct fold; [right|]; left.
    + by rewrite Hl, Z.eqb_refl, Hf, Bool.eqb_reflx.
Qed.

Lemma minimum_elem a l : minimum a l ∈ a :: l ∧ ∀ b, b ∈ a :: l → minimum a l <= b.
Proof.
  unfold minimum. induction l as [|c l [Hin Hle]]; cbn.
  - split; [left|]. intros b [->|Hb]%elem_of_cons; [lia|by apply not_elem_of_nil in Hb].
  - split.
    + destruct (Z.min_spec c (foldr Z.min a l)) as [[_ ->]|[_ ->]]; [right; left|].
      apply elem_of_cons in Hin as [->|Hin]; [left|right; by right].
    + intros b Hb. rewrite !elem_of_cons in Hb. destruct Hb as [->|[->|Hb]]; [|lia|];
        (etransitivity; [apply Z.le_min_r|]; apply Hle); [left|by right].
Qed.

Lemma maximum_elem a l : maximum a l ∈ a :: l ∧ ∀ b, b ∈ a :: l → b <= maximum a l.
Proof.
  unfold maximum. induction l as [|c l [Hin Hle]]; cbn.
  - split; [left|]. intros b [->|Hb]%elem_of_cons; [lia|by apply not_elem_of_nil in Hb].
  - split.
    + destruct (Z.max_spec c (foldr Z.max a l)) as [[_ ->]|[_ ->]]; [|right; left].
      apply elem_of_cons in Hin as [->|Hin]; [left|right; by right].
    + intros b Hb. rewrite !elem_of_cons in Hb. destruct Hb as [->|[->|Hb]]; [|lia|];
        (etransitivity; [|apply Z.le_max_r]; apply Hle); [left|by right].
Qed.

Definition day_allowed (day : Z) (window_weekdays : list string) : Prop :=
  default "" (ACTIVE_RECURRENCE_WEEKDAYS !! Z.to_nat (weekday day)) ∈ window_weekdays.

(** The window of a day goes from the first instant that reads as its start to
    the last that reads as its end. *)
Lemma window_bounds_Some day z ws h n s e :
  _window_bounds day z ws h n = Some (s, e) ↔
  day_allowed day ws
  ∧ (s ∈ _valid_local_instants (combine day h) z ∧ ∀ c, c ∈ _valid_local_instants (combine day h) z → s <= c)
  ∧ (e ∈ _valid_local_instants (combine day h + hours n) z
     ∧ ∀ c, c ∈ _valid_local_instants (combine day h + hours n) z → c <= e).
Proof.
  unfold _window_bounds, day_allowed.
  destruct (mem _ ws) eqn:Hm; cbn [negb].
  2:{ split; [done|]. intros [Hin _]. apply mem_true in Hin. congruence. }
  apply mem_true in Hm.
  destruct (_valid_local_instants (combine day h) z) as [|s0 ss].
  { split; [done|]. intros (_ & [Hs _] & _). by apply not_elem_of_nil in Hs. }
  destruct (_valid_local_instants (combine day h + hours n) z) as [|e0 es].
  { split; [done|]. intros (_ & _ & [He _]). by apply not_elem_of_nil in He. }
  pose proof (minimum_elem s0 ss) as [Hmin Hmin']. pose proof (maximum_elem e0 es) as [Hmax Hmax']. split.
  - intros [= <- <-]. done.
  - intros (_ & [Hs Hs'] & [He He']). apply Hmin' in Hs as H1. apply Hs' in Hmin as H2.
    apply Hmax' in He as H3. apply He' in Hmax as H4. do 2 f_equal; lia.
Qed.

Lemma jitter_bounds i j : recurrence_jitter_seconds i = Ok j → 1 <= j <= ACTIVE_RECURRENCE_MAX_JITTER_SECONDS.
Proof.
  unfold recurrence_jitter_seconds. intros H. inv_ok H.
  pose proof (Z.mod_pos_bound (from_bytes (str_take 4 (Password.sha256_bytes
    (ACTIVE_RECURRENCE_IDEMPOTENCY_DOMAIN_VERSION ++ text ["000"%char] ++ "jitter" ++ text ["000"%char] ++ i))))
    ACTIVE_RECURRENCE_MAX_JITTER_SECONDS ltac:(done)). unfold ACTIVE_RECURRENCE_MAX_JITTER_SECONDS in *. lia.
Qed.

Lemma retry_jitter_bounds i n j : recurrence_retry_jitter_seconds i n = Ok j → 0 <= j <= 60.
Proof.
  unfold recurrence_retry_jitter_seconds. intros H. inv_ok H.
  match goal with |- context [?a mod 61] => pose proof (Z.mod_pos_bound a 61 ltac:(done)) end. lia.
Qed.

Lemma jitter_ok i : is_hex32 i = true → ∃ j, recurrence_jitter_seconds i = Ok j.
Proof. intros Hi. unfold recurrence_jitter_seconds. rewrite Hi. by eexists. Qed.

(** No time of the day is of use. *)
Definition no_time (value jitter : Z) (bounds : option (Z * Z)) : Prop :=
  match bounds with
  | None => True
  | Some (s, e) => (s <= value → e <= value) ∧ (value < s → e <= s + seconds jitter)
  end.

Lemma day_time_None value jitter b : day_time value jitter b = None ↔ no_time value jitter b.
Proof.
  destruct b as [[s e]|]; [|done]. cbn. destruct (Z.leb_spec s value); cbn.
  - destruct (Z.ltb_spec value e); cbn; [split; [done|lia]|].
    destruct (Z.ltb_spec value s); cbn; [lia|]. split; [lia|done].
  - destruct (Z.ltb_spec value s); [|lia]. cbn. destruct (Z.ltb_spec (s + seconds jitter) e); split; try done; lia.
Qed.

Lemma day_time_Some value jitter b t :
  0 < jitter → day_time value jitter b = Some t →
  ∃ s e, b = Some (s, e) ∧ s <= t < e ∧ ((s <= value ∧ t = value) ∨ (value < s ∧ t = s + seconds jitter)).
Proof.
  intros Hj. destruct b as [[s e]|]; [|done]. cbn. intros H. exists s, e. split; [done|].
  destruct (Z.leb_spec s value), (Z.ltb_spec value e); cbn in H; try (injection H as <-; lia).
  all: destruct (Z.ltb_spec value s), (Z.ltb_spec (s + seconds jitter) e); cbn in H; try done; injection H as <-; unfold seconds in *; lia.
Qed.

Lemma first_of_seqZ {B} (f : Z → option B) n y :
  first_of f (seqZ 0 n) = Some y ↔ ∃ k, 0 <= k < n ∧ f k = Some y ∧ ∀ k', 0 <= k' < k → f k' = None.
Proof.
  rewrite first_of_Some. split.
  - intros (l1 & k & l2 & Hl & Hy & Hn). exists k.
    assert (Hk : seqZ 0 n !! length l1 = Some k) by (rewrite Hl; apply list_lookup_middle; done).
    apply lookup_seqZ in Hk as [Hk Hlt]. split; [lia|]. split; [done|]. intros k' Hk'. apply Hn.
    assert (H' : seqZ 0 n !! Z.to_nat k' = Some k') by (apply lookup_seqZ; lia).
    rewrite Hl, lookup_app_l in H' by lia. by apply list_lookup_In, list_elem_of_In in H' || by eapply list_elem_of_lookup_2.
  - intros (k & Hk & Hy & Hn). assert (H' : seqZ 0 n !! Z.to_nat k = Some k) by (apply lookup_seqZ; lia).
    exists (take (Z.to_nat k) (seqZ 0 n)), k, (drop (S (Z.to_nat k)) (seqZ 0 n)).
    split; [symmetry; by apply take_drop_middle|]. split; [done|]. intros x (m & Hm & Hlt)%elem_of_take.
    apply Hn. apply lookup_seqZ in Hm. lia.
Qed.

(** Zones whose offset never changes, [UTC] for one. *)
Definition fixed_zone (z : zone) (off : Z) : Prop :=
  (∀ t, offset_at z t = off ∧ fold_at z t = false) ∧ ∀ w f, offset_of z w f = off.

Lemma fixed_valid z off v c : fixed_zone z off → c ∈ _valid_local_instants v z ↔ c = v - off.
Proof.
  intros [Ha Ho]. rewrite valid_instants. split.
  - by intros (fold & -> & _); rewrite Ho.
  - intros ->. exists false. rewrite Ho. unfold local. destruct (Ha (v - off)) as [-> ->]. split; [done|]. split; [lia|done].
Qed.

Lemma fixed_bounds z off day ws h n :
  fixed_zone z off → day_allowed day ws →
  _window_bounds day z ws h n = Some (combine day h - off, combine day h + hours n - off).
Proof.
  intros Hz Hd. apply window_bounds_Some. split; [done|].
  split; (split; [by apply (fixed_valid z off)|intros c Hc; apply (fixed_valid z off) in Hc; [lia|done]]).
Qed.

(** The local calendar never turns back over midnight. *)
Definition calendar_forward (z : zone) : Prop := ∀ a b, a <= b → date_of (local z a) <= date_of (local z b).

Lemma date_of_combine day h x : 0 <= hours h + x < DAY → date_of (combine day h + x) = day.
Proof. intros Hh. unfold date_of, combine. symmetry. apply (Z.div_unique _ _ _ (hours h + x)); [by left|lia]. Qed.

(** A week has every day. *)
Lemma next_allowed day ws :
  (∃ w, w ∈ ws ∧ w ∈ ACTIVE_RECURRENCE_WEEKDAYS) → ∃ k, 1 <= k <= 7 ∧ day_allowed (day + k) ws.
Proof.
  intros (w & Hw & Hin). apply list_elem_of_lookup_1 in Hin as (m & Hm).
  assert (Hm' : (m < 7)%nat) by (apply lookup_lt_Some in Hm; exact Hm).
  exists (1 + (Z.of_nat m - day - 4) mod 7). pose proof (Z.mod_pos_bound (Z.of_nat m - day - 4) 7 ltac:(lia)) as Hb.
  split; [lia|]. unfold day_allowed. assert (weekday (day + (1 + (Z.of_nat m - day - 4) mod 7)) = Z.of_nat m) as ->.
  { unfold weekday. pose proof (Z.div_mod (Z.of_nat m - day - 4) 7 ltac:(lia)) as Hdm.
    symmetry. apply (Z.mod_unique _ _ (- ((Z.of_nat m - day - 4) / 7))); lia. }
  by rewrite Nat2Z.id, Hm.
Qed.

Section Times.
Context (ZoneInfo : string → option zone).

Lemma next_window_iff value i tz ws h n t z j :
  ZoneInfo tz = Some z → recurrence_jitter_seconds i = Ok j →
  (_next_window_time ZoneInfo value i tz ws h n = Ok t ↔
   ∃ k, 0 <= k < 371 ∧ day_time value j (_window_bounds (date_of (local z value) + k) z ws h n) = Some t
        ∧ ∀ k', 0 <= k' < k → no_time value j (_window_bounds (date_of (local z value) + k') z ws h n)).
Proof.
  intros Hz Hj. unfold _next_window_time, _load_timezone. rewrite Hz. cbn [or_raise mbind outcome_bind]. rewrite Hj.
  cbn [mbind outcome_bind]. rewrite or_raise_ok, first_of_seqZ. setoid_rewrite day_time_None. done.
Qed.

Lemma next_window_parts value i tz ws h n t :
  _next_window_time ZoneInfo value i tz ws h n = Ok t →
  ∃ z j, ZoneInfo tz = Some z ∧ recurrence_jitter_seconds i = Ok j.
Proof.
  unfold _next_window_time, _load_timezone. intros H. apply bind_ok in H as (z & Hz%or_raise_ok & H).
  apply bind_ok in H as (j & Hj & _). by exists z, j.
Qed.

(** C18: the time computed is the first one of use.  For every zone, with its
    skipped and repeated hours, an answer lies in the window of one of the 371
    local days from the candidate's: it is the candidate itself when it falls
    in that window, else the window's start and the schedule's jitter, and
    every earlier day has no window, or one that is over, or one too short for
    the jitter; and there is no answer only when that is so of all the days. *)
Theorem next_window_time_first value i tz ws h n z j :
  ZoneInfo tz = Some z → recurrence_jitter_seconds i = Ok j →
  let day k := _window_bounds (date_of (local z value) + k) z ws h n in
  (∀ t, _next_window_time ZoneInfo value i tz ws h n = Ok t ↔
     ∃ k s e, 0 <= k < 371 ∧ day k = Some (s, e) ∧ s <= t < e
       ∧ ((s <= value ∧ t = value) ∨ (value < s ∧ t = s + seconds j))
       ∧ ∀ k', 0 <= k' < k → no_time value j (day k'))
  ∧ (_next_window_time ZoneInfo value i tz ws h n = Err "window_unavailable" ↔
     ∀ k, 0 <= k < 371 → no_time value j (day k)).
Proof.
  intros Hz Hj day. pose proof (jitter_bounds _ _ Hj) as Hb. split.
  - intros t. rewrite (next_window_iff _ _ _ _ _ _ _ _ _ Hz Hj). split.
    + intros (k & Hk & (s & e & Hd & Ht & Hc)%day_time_Some & Hn); [|lia]. by exists k, s, e.
    + intros (k & s & e & Hk & Hd & Ht & Hc & Hn). exists k. split; [done|]. split; [|done].
      unfold day in Hd. rewrite Hd. cbn. destruct Hc as [[Hs ->]|[Hs ->]].
      * by rewrite (proj2 (Z.leb_le _ _) Hs), (proj2 (Z.ltb_lt _ _) (proj2 Ht)).
      * rewrite (proj2 (Z.leb_gt _ _) Hs), (proj2 (Z.ltb_lt _ _) Hs), (proj2 (Z.ltb_lt _ _) (proj2 Ht)). done.
  - unfold _next_window_time, _load_timezone. rewrite Hz. cbn [or_raise mbind outcome_bind]. rewrite Hj.
    cbn [mbind outcome_bind]. destruct (first_of _ _) as [t|] eqn:Hf; cbn.
    + split; [done|]. intros Ha. apply first_of_seqZ in Hf as (k & Hk & Ht & _).
      specialize (Ha k Hk). apply day_time_None in Ha. unfold day in Ha. congruence.
    + split; [|done]. intros _ k Hk. apply day_time_None. rewrite first_of_None in Hf. apply Hf. apply elem_of_seqZ. lia.
Qed.

(** A time computed for a schedule lies in its window, where the dispatcher
    looks, in every zone whose calendar does not turn back over midnight and
    whose offset does not change during the jitter. *)
Lemma next_window_within value i tz ws h n t z j :
  ZoneInfo tz = Some z → recurrence_jitter_seconds i = Ok j → calendar_forward z → 0 <= h <= 23 →
  _next_window_time ZoneInfo value i tz ws h n = Ok t →
  t = value ∨ offset_at z (t - seconds j) = offset_at z t →
  is_within_window ZoneInfo tz ws h n t = Ok true.
Proof.
  intros Hz Hj Hf Hh Hn Ho. pose proof (jitter_bounds _ _ Hj) as Hb.
  apply (next_window_iff _ _ _ _ _ _ _ _ _ Hz Hj) in Hn as (k & Hk & (s & e & Hd & Ht & Hc)%day_time_Some & _); [|lia].
  set (day := date_of (local z value) + k) in *.
  assert (Hs : local z s = combine day h).
  { apply window_bounds_Some in Hd as (_ & [Hs _] & _). by apply valid_instants in Hs as (f & _ & Hs & _). }
  assert (Hdate : date_of (local z t) = day).
  { destruct Hc as [[Hsv ->]|[Hsv ->]].
    - specialize (Hf _ _ Hsv). rewrite Hs, <- (Z.add_0_r (combine day h)), date_of_combine in Hf
        by (unfold DAY, days, hours, seconds; lia). lia.
    - destruct Ho as [Ho|Ho]; [unfold seconds in *; lia|].
      replace (s + seconds j - seconds j) with s in Ho by lia. unfold local in Hs |- *. rewrite <- Ho.
      replace (s + seconds j + offset_at z s) with (combine day h + seconds j) by lia.
      apply date_of_combine. unfold DAY, days, hours, seconds, ACTIVE_RECURRENCE_MAX_JITTER_SECONDS in *. lia. }
  unfold is_within_window, _load_timezone. rewrite Hz. cbn [or_raise mbind outcome_bind]. rewrite Hdate, Hd.
  by rewrite (proj2 (Z.leb_le _ _) (proj1 Ht)), (proj2 (Z.ltb_lt _ _) (proj2 Ht)).
Qed.

(** In a zone with one offset there is always a time, in the window, and less
    than eight days ahead. *)
Lemma fixed_zone_next value i tz ws h n z off :
  ZoneInfo tz = Some z → fixed_zone z off → is_hex32 i = true → (∃ w, w ∈ ws ∧ w ∈ ACTIVE_RECURRENCE_WEEKDAYS) →
  0 <= h → 1 <= n → h + n <= 24 →
  ∃ t, _next_window_time ZoneInfo value i tz ws h n = Ok t ∧ value <= t < value + days 8
       ∧ is_within_window ZoneInfo tz ws h n t = Ok true.
Proof.
  intros Hz Hfix Hi Hws Hh Hn Hhn. destruct (jitter_ok _ Hi) as [j Hj]. pose proof (jitter_bounds _ _ Hj) as Hb.
  set (day := date_of (local z value)). destruct (next_allowed day ws Hws) as (k & Hk & Hallow).
  assert (Hlocal : ∀ t, local z t = t + off) by (intros t; unfold local; by rewrite (proj1 (proj1 Hfix t))).
  assert (Hday : day * DAY <= value + off < day * DAY + DAY).
  { unfold day, date_of. rewrite Hlocal. pose proof (Z.div_mod (value + off) DAY ltac:(done)).
    pose proof (Z.mod_pos_bound (value + off) DAY ltac:(done)). lia. }
  assert (Hsome : is_Some (first_of (λ offset, day_time value j (_window_bounds (day + offset) z ws h n)) (seqZ 0 371))).
  { destruct (first_of _ _) eqn:Hf; [done|]. rewrite first_of_None in Hf. specialize (Hf k).
    rewrite day_time_None, (fixed_bounds _ _ _ _ _ _ Hfix Hallow) in Hf. cbn in Hf.
    assert (Hin : k ∈ seqZ 0 371) by (apply elem_of_seqZ; lia). specialize (Hf Hin) as [_ Hf].
    unfold combine, DAY, days, hours, seconds, ACTIVE_RECURRENCE_MAX_JITTER_SECONDS in *. lia. }
  destruct Hsome as [t Ht].
  assert (Hok : _next_window_time ZoneInfo value i tz ws h n = Ok t).
  { unfold _next_window_time, _load_timezone. rewrite Hz. cbn [or_raise mbind outcome_bind]. rewrite Hj.
    cbn [mbind outcome_bind]. fold day. by rewrite Ht. }
  exists t. split; [done|]. split.
  - apply first_of_seqZ in Ht as (k' & Hk' & Ht & Hfirst).
    assert (k' <= k).
    { destruct (Z.le_gt_cases k' k) as [|Hgt]; [done|]. specialize (Hfirst k ltac:(lia)).
      rewrite day_time_None, (fixed_bounds _ _ _ _ _ _ Hfix Hallow) in Hfirst. cbn in Hfirst. destruct Hfirst as [_ Hf].
      unfold combine, DAY, days, hours, seconds, ACTIVE_RECURRENCE_MAX_JITTER_SECONDS in *. lia. }
    apply day_time_Some in Ht as (s & e & Hd & Ht & Hc); [|lia].
    apply window_bounds_Some in Hd as (_ & [Hs _] & _). apply (fixed_valid _ off) in Hs; [|done].
    destruct Hc as [[_ ->]|[Hv ->]]; [unfold days, hours, seconds; lia|].
    unfold combine, DAY, days, hours, seconds, ACTIVE_RECURRENCE_MAX_JITTER_SECONDS in *. lia.
  - apply (next_window_within _ _ _ _ _ _ _ z j) in Hok; try done; [|lia|].
    + intros a b Hab. rewrite !Hlocal. apply Z.div_le_mono; [done|lia].
    + right. by rewrite (proj1 (proj1 Hfix _)), (proj1 (proj1 Hfix _)).
Qed.
End Times.

(** ** An instance: a zone whose clocks go forward *)

Module Sample_zone.
Definition schedule : string := "0123456789abcdef0123456789abcdef".
(** An hour is skipped, on day 19813 at one o'clock of universal time. *)
Definition change : Z := days 19813 + hours 1.
Definition Madrid : zone := {|
  offset_at := λ t, if t <? change then hours 1 else hours 2;
  fold_at := λ _, false;
  offset_of := λ w fold, if w <? change + hours 1 then hours 1 else if change + hours 2 <=? w then hours 2
                         else if fold : bool then hours 2 else hours 1
|}.
Definition zones (name : string) : option zone := if String.eqb name "Europe/Madrid" then Some Madrid else None.
End Sample_zone.
Import Sample_zone.

(** The skipped hour opens no window: the next day's is used. *)
Lemma next_window_time_first_witness :
  zones "Europe/Madrid" = Some Madrid
  ∧ ∃ j, recurrence_jitter_seconds schedule = Ok j
     ∧ _next_window_time zones (days 19813) schedule "Europe/Madrid" ["monday"; "sunday"] 2 2 = Ok (days 19814 + seconds j).
Proof.
  split; [reflexivity|]. destruct (jitter_ok schedule eq_refl) as [j Hj]. exists j. split; [exact Hj|].
  pose proof (jitter_bounds _ _ Hj) as Hb.
  refine (proj2 (proj1 (next_window_time_first zones (days 19813) schedule "Europe/Madrid" ["monday"; "sunday"] 2 2 Madrid j eq_refl Hj)
    (days 19814 + seconds j)) _). clear Hj.
  exists 1, (days 19814), (days 19814 + hours 2). split; [lia|]. split; [vm_compute; reflexivity|].
  unfold ACTIVE_RECURRENCE_MAX_JITTER_SECONDS in Hb. split; [unfold days, hours, seconds; lia|]. split.
  - right. split; [vm_compute; reflexivity|reflexivity].
  - intros k Hk. assert (k = 0) as -> by lia. vm_compute. exact I.
Defined.
