(* ===== verification/StampedIndex.v ===== *)
(** * StampedIndex: an index rebuilt from the files it projects

    The SQLite projections of [backend/app]: an index file is written for a
    state of the directories, and is rebuilt whenever the metadata of the
    directories or of the index file are not the ones it was written under.
    What the rows are, and how they are computed from the files, are
    arguments; [active_recurrence_index.py] and
    [active_verification_index.py] are two of them.

    The metadata the code compares, device, inode, size and times, are a stamp
    that is new after every change: what the code relies on. *)

From S2P Require Import Prelude PyStr BearerToken Identifiers.
Local Open Scope Z_scope.

(** Keys are countable by their structure, not by a finiteness to be found. *)
#[export] Remove Hints finite.finite_countable : typeclass_instances.

(** ** Files and index *)

(** The index file: its rows, and the stamp of the directories it was written
    for. *)
Record index_db (T : Type) : Type := Db { rows : T; source_token : Z }.
Arguments Db {T} _ _.
Arguments rows {T} _.
Arguments source_token {T} _.

(** What the files, the directories and the index file are; [clock] is the
    last stamp given. *)
Record stamped (K C T : Type) `{Countable K} : Type := Disk {
  files : gmap K C;
  source_stamp : Z;
  index_file : option (index_db T * Z);
  clock : Z
}.
Arguments Disk {K C T _ _} _ _ _ _.
Arguments files {K C T _ _} _.
Arguments source_stamp {K C T _ _} _.
Arguments index_file {K C T _ _} _.
Arguments clock {K C T _ _} _.

(** [_file_state] and [_source_state], which are set together. *)
Abbreviation memory := (option (Z * Z)).

(** Renaming a file into its directory, and unlinking one. *)
Definition write_file {K C T} `{Countable K} (k : K) (c : C) (d : stamped K C T) : stamped K C T :=
  Disk (<[k := c]> (files d)) (clock d + 1) (index_file d) (clock d + 1).
Definition unlink_file {K C T} `{Countable K} (k : K) (d : stamped K C T) : stamped K C T :=
  Disk (delete k (files d)) (clock d + 1) (index_file d) (clock d + 1).

(** ** Reading every file *)

Section Files.
Context {R C : Type} (invalid : string) (loader : C → string → string → outcome R).

Definition key_order (a b : (string * string) * C) : Prop :=
  str_ltb a.1.1 b.1.1 = true ∨ (a.1.1 = b.1.1 ∧ str_le a.1.2 b.1.2).
#[global] Instance key_order_dec a b : Decision (key_order a b).
Proof. unfold key_order. apply _. Defined.

Definition invalid_as {A} (o : outcome A) : outcome A := match o with Ok a => Ok a | Err _ => Err invalid end.

(** The records of one directory entry: other names than an identifier's are
    left out. *)
Definition load_file (kc : (string * string) * C) : outcome (list R) :=
  let '((organization, stem), c) := kc in
  raise invalid when (negb (is_owner organization));;
  if is_hex32 stem then r ← invalid_as (loader c organization stem); Ok [r] else Ok [].

(** The directories in order, the files of each in order. *)
(** backend/app/active_recurrence_index.py 248-262 [ActiveRecurrenceIndex._rebuild] *)
Definition load_all (fs : gmap (string * string) C) : outcome (list R) :=
  parts ← traverse load_file (merge_sort key_order (map_to_list fs));
  Ok (concat parts).
End Files.

Section Index.
Context {K C T : Type} `{Countable K} (invalid : string) (rebuilt : gmap K C → outcome T).

Abbreviation site := (memory * stamped K C T)%type.

(** The new index file replaces the old one when it is complete. *)
(** backend/app/active_recurrence_index.py [ActiveRecurrenceIndex._rebuild] *)
Definition rebuild (s : site) : outcome unit * site :=
  let '(m, d) := s in
  match rebuilt (files d) with
  | Err e => (Err e, s)
  | Ok t => (Ok tt, (Some (clock d + 1, source_stamp d),
                     Disk (files d) (source_stamp d) (Some (Db t (source_stamp d), clock d + 1)) (clock d + 1)))
  end.

(** backend/app/active_recurrence_index.py [ActiveRecurrenceIndex._adopt_existing] *)
Definition adopt_existing (db : index_db T) (stamp : Z) (d : stamped K C T) : outcome site :=
  raise invalid when (negb (source_token db =? source_stamp d));;
  Ok (Some (stamp, source_stamp d), d).

(** backend/app/active_recurrence_index.py [ActiveRecurrenceIndex._ensure_current] *)
Definition ensure_current (s : site) : outcome unit * site :=
  let '(m, d) := s in
  match m, index_file d with
  | None, Some (db, stamp) => match adopt_existing db stamp d with Ok s' => (Ok tt, s') | Err _ => rebuild s end
  | None, None | Some _, None => rebuild s
  | Some (file_state, source_state), Some (_, stamp) =>
      if negb (stamp =? file_state) || negb (source_stamp d =? source_state) then rebuild s else (Ok tt, s)
  end.

(** The rows after a change, or [None] when the index cannot be opened. *)
Definition sync_with (change : T → outcome T) (s : site) : outcome unit * site :=
  let '(m, d) := s in
  match m, index_file d with
  | None, _ => (Ok tt, s)
  | Some _, None => rebuild s
  | Some _, Some (db, _) =>
      match change (rows db) with
      | Err _ => rebuild s
      | Ok t => (Ok tt, (Some (clock d + 1, source_stamp d),
                         Disk (files d) (source_stamp d) (Some (Db t (source_stamp d), clock d + 1)) (clock d + 1)))
      end
  end.

(** The rows of the index, once it is current. *)
Definition current_rows (s : site) : outcome T * site :=
  match ensure_current s with
  | (Err e, s') => (Err e, s')
  | (Ok _, s') => (match index_file s'.2 with Some (db, _) => Ok (rows db) | None => Err invalid end, s')
  end.

(** ** What the stamps promise *)

(** No stamp is of the future; an index file written for the present
    directories has the rows of the present files; what a process remembers
    is of the present. *)
Definition index_ok (s : site) : Prop :=
  source_stamp s.2 <= clock s.2
  ∧ (∀ db stamp, index_file s.2 = Some (db, stamp) →
       source_token db <= clock s.2 ∧ (source_token db = source_stamp s.2 → rebuilt (files s.2) = Ok (rows db)))
  ∧ (∀ file_state source_state, s.1 = Some (file_state, source_state) →
       source_state = source_stamp s.2
       ∧ ∃ db, index_file s.2 = Some (db, file_state) ∧ source_token db = source_state).

(** Nothing changed but the index: its file, and what is remembered of it. *)
Definition same_files (s s' : site) : Prop := files s'.2 = files s.2 ∧ source_stamp s'.2 = source_stamp s.2.

Lemma rebuild_ok s : index_ok s → index_ok (rebuild s).2 ∧ same_files s (rebuild s).2.
Proof.
  destruct s as [m d]. intros Hok. unfold rebuild. destruct (rebuilt (files d)) as [t|] eqn:Ht; [|done].
  destruct Hok as (Hs & _ & _). cbn in *. split; [|done]. split; [cbn; lia|]. split; cbn.
  - intros db stamp [= <- <-]. cbn. split; [lia|done].
  - intros fs ss [= <- <-]. split; [done|]. by eexists.
Qed.

Lemma ensure_current_ok s : index_ok s → index_ok (ensure_current s).2 ∧ same_files s (ensure_current s).2.
Proof.
  intros Hok. pose proof (rebuild_ok s Hok) as Hreb. destruct s as [m d]. unfold ensure_current.
  destruct m as [[fs ss]|], (index_file d) as [[db stamp]|] eqn:Hi; try done.
  - by case_match.
  - unfold adopt_existing. destruct (Z.eqb_spec (source_token db) (source_stamp d)) as [He|]; cbn [negb]; [|done].
    split; [|done]. destruct Hok as (Hs & Hf & _). split; [done|]. split; [done|]. cbn.
    intros fs ss [= <- <-]. split; [done|]. by exists db.
Qed.

(** The rows a query reads are those of the files, whatever the index was. *)
Lemma current_rows_spec s : index_ok s → (current_rows s).1 = rebuilt (files s.2).
Proof.
  intros Hok.
  assert (Hreb : match rebuild s with
    | (Err e, s') => Err e
    | (Ok _, s') => match index_file s'.2 with Some (db, _) => Ok (rows db) | None => Err invalid end
    end = rebuilt (files s.2)).
  { destruct s as [m d]. unfold rebuild. cbn. by destruct (rebuilt (files d)). }
  destruct s as [m d]. destruct Hok as (_ & Hf & Hm). cbn in Hf, Hm. cbn [snd] in Hreb.
  unfold current_rows, ensure_current. cbn [snd].
  destruct m as [[fs ss]|], (index_file d) as [[db stamp]|] eqn:Hi;
    try (rewrite <- Hreb; by destruct (rebuild _) as [[]]).
  - destruct (Hm fs ss eq_refl) as [-> (db' & [= <- <-] & Htok)]. rewrite !Z.eqb_refl. cbn. rewrite Hi.
    symmetry. by apply (Hf db stamp).
  - unfold adopt_existing. destruct (Z.eqb_spec (source_token db) (source_stamp d)) as [He|]; cbn [negb].
    + cbn. rewrite Hi. symmetry. by apply (Hf db stamp).
    + rewrite <- Hreb. by destruct (rebuild _) as [[]].
Qed.

(** A change of the files that the rows follow. *)
Lemma sync_with_ok change (m : memory) (d d' : stamped K C T) :
  index_ok (m, d) → index_file d' = index_file d → source_stamp d' <= clock d' → clock d <= clock d' →
  (clock d < source_stamp d' ∨ d' = d) →
  (∀ t, rebuilt (files d) = Ok t → ∃ t', change t = Ok t' ∧ rebuilt (files d') = Ok t') →
  (sync_with change (m, d')).1 = Ok tt ∧ index_ok (sync_with change (m, d')).2
  ∧ same_files (m, d') (sync_with change (m, d')).2.
Proof.
  intros (Hs & Hf & Hm) Hi Hs' Hc Hnew Hch. cbn in Hf, Hm, Hs. unfold sync_with. destruct m as [[fs ss]|].
  - destruct (Hm fs ss eq_refl) as [-> (db & Hdb & Htok)]. rewrite Hi, Hdb.
    destruct (Hf _ _ Hdb) as [_ Hrows]. destruct (Hch _ (Hrows Htok)) as (t' & Ht' & Hr'). rewrite Ht'.
    split; [done|]. split; [|done]. split; [cbn; lia|]. split; cbn.
    + intros db' st [= <- <-]. cbn. split; [lia|done].
    + intros fs' ss' [= <- <-]. split; [done|]. by eexists.
  - split; [done|]. split; [|done]. destruct Hnew as [Hnew|Heq]; [|by rewrite Heq].
    split; [done|]. split; [|done]. cbn. rewrite Hi. intros db st Hdb. destruct (Hf _ _ Hdb). split; lia.
Qed.

(** The index never changes the files. *)
Lemma sync_files change s : files (sync_with change s).2.2 = files s.2.
Proof.
  destruct s as [m d]. unfold sync_with, rebuild. destruct m as [[fs ss]|]; [|done].
  destruct (index_file d) as [[db st]|]; [destruct (change (rows db)) as [t|e]; [done|]|];
    by destruct (rebuilt (files d)).
Qed.

Lemma current_files s : index_ok s → files (current_rows s).2.2 = files s.2.
Proof.
  intros Hok. unfold current_rows. destruct (ensure_current_ok s Hok) as [_ [Hf _]].
  by destruct (ensure_current s) as [[[]|] s'].
Qed.
End Index.
