(* ===== verification/RecurrenceIndex.v ===== *)
(** * RecurrenceIndex: the index of the recurrence files

    Models [backend/app/active_recurrence_index.py]: an SQLite projection of
    the JSON files of the recurrence policies, rebuilt whenever the metadata
    of the directories or of the index file are not the ones it was written
    under.  The index knows its records through the class [Indexed] and reads
    a file through [loader], as the code does.

    The metadata the code compares, device, inode, size and times, are a stamp
    that is new after every change: what the code relies on.  Failing system
    calls, a corrupt index file and stray files are not modelled. *)

From S2P Require Import Prelude PyStr Grouping BearerToken Identifiers SqlTable StampedIndex.
Local Open Scope Z_scope.

(** backend/app/active_recurrence_index.py 18-23 [constants] *)
Definition ACTIVE_RECURRENCE_INDEX_QUERY_BATCH_SIZE : nat := 100.
Definition ACTIVE_RECURRENCE_INDEX_MAX_ASSETS : nat := 500.
Definition index_invalid : string := "active_recurrence_index_invalid".

(** ** Rows and records *)

(** The columns of a row, but for its key [schedule_id]. *)
(** backend/app/active_recurrence_index.py 284-292 [ActiveRecurrenceIndex._rebuild] *)
Record index_row : Type := IndexRow {
  organization_id : string;
  asset_id : string;
  status : string;
  next_run_at_micros : Z;
  next_retry_at_micros : option Z;
  record_digest : string
}.
#[export] Instance index_row_eq_dec : EqDecision index_row.
Proof. solve_decision. Defined.

(** What the index reads of a record; [_micros] of its datetimes. *)
Class Indexed (R : Type) : Type := {
  r_id : R → string;
  r_organization_id : R → string;
  r_asset_id : R → string;
  r_status : R → string;
  r_next_run : R → Z;
  r_next_retry : R → option Z;
  r_digest : R → string
}.

Abbreviation disk C := (stamped (string * string) C (gmap string index_row)).

Section Index.
Context {R C : Type} `{Indexed R} (loader : C → string → string → outcome R).

Abbreviation site := (memory * disk C)%type.

Definition row_of (r : R) : index_row :=
  IndexRow (r_organization_id r) (r_asset_id r) (r_status r) (r_next_run r) (r_next_retry r) (r_digest r).

(** backend/app/active_recurrence_index.py [ActiveRecurrenceIndex._replace_record] *)
Definition _replace_record (t : gmap string index_row) (r : R) : outcome (gmap string index_row) :=
  raise index_invalid
    when (negb (is_hex32 (r_id r) && is_hex32 (r_asset_id r) && is_owner (r_organization_id r)
                && mem (r_status r) ["active"; "paused"; "suspended"]));;
  Ok (<[r_id r := row_of r]> t).

(** ** Rebuilding *)

Abbreviation load_all := (StampedIndex.load_all index_invalid loader).

Fixpoint replace_records (t : gmap string index_row) (rs : list R) : outcome (gmap string index_row) :=
  match rs with
  | [] => Ok t
  | r :: rs' => t' ← _replace_record t r; replace_records t' rs'
  end.

Definition rebuilt_rows (fs : gmap (string * string) C) : outcome (gmap string index_row) :=
  records ← load_all fs; replace_records ∅ records.

Abbreviation sync_with := (StampedIndex.sync_with rebuilt_rows).
Abbreviation current_rows := (StampedIndex.current_rows index_invalid rebuilt_rows).

(** ** Following the files *)

(** backend/app/active_recurrence_index.py [ActiveRecurrenceIndex.sync_after_write] *)
Definition sync_after_write (r : R) (s : site) : outcome unit * site := sync_with (λ t, _replace_record t r) s.

(** backend/app/active_recurrence_index.py [ActiveRecurrenceIndex._sync_delete] *)
Definition _sync_delete (p : string → index_row → bool) (s : site) : outcome unit * site :=
  sync_with (λ t, Ok (delete_where p t)) s.

(** backend/app/active_recurrence_index.py [ActiveRecurrenceIndex.sync_after_delete] *)
Definition sync_after_delete (organization schedule : string) (s : site) : outcome unit * site :=
  _sync_delete (λ i row, String.eqb (organization_id row) organization && String.eqb i schedule) s.

(** backend/app/active_recurrence_index.py [ActiveRecurrenceIndex.sync_after_asset_delete] *)
Definition sync_after_asset_delete (organization asset : string) (s : site) : outcome unit * site :=
  _sync_delete (λ _ row, String.eqb (organization_id row) organization && String.eqb (asset_id row) asset) s.

(** ** Queries *)

(** The file of the row, if it still says what the row says. *)
(** backend/app/active_recurrence_index.py [ActiveRecurrenceIndex._load_validated] *)
Definition _load_validated (fs : gmap (string * string) C) (kr : string * index_row) : outcome R :=
  c ← or_raise (fs !! (organization_id kr.2, kr.1)) index_invalid;
  r ← invalid_as index_invalid (loader c (organization_id kr.2) kr.1);
  raise index_invalid when (negb (String.eqb (r_id r) kr.1 && bool_decide (row_of r = kr.2)));;
  Ok r.

(** [ORDER BY schedule_id] *)
Definition id_order (a b : string * index_row) : Prop := str_le a.1 b.1.
#[global] Instance id_order_dec a b : Decision (id_order a b).
Proof. unfold id_order. apply _. Defined.

Definition of_asset (organization asset : string) (_ : string) (row : index_row) : bool :=
  String.eqb (organization_id row) organization && String.eqb (asset_id row) asset.

(** backend/app/active_recurrence_index.py [ActiveRecurrenceIndex.records_for_asset] *)
Definition records_for_asset (organization asset : string) (s : site) : outcome (list R) * site :=
  if negb (is_owner organization && is_hex32 asset) then (Err index_invalid, s) else
  let '(t, s') := current_rows s in
  ((t ← t; traverse (_load_validated (files s'.2))
             (merge_sort id_order (map_to_list (select_where (of_asset organization asset) t)))), s').

(** [ORDER BY asset_id, schedule_id] *)
Definition asset_order (a b : string * index_row) : Prop :=
  str_ltb (asset_id a.2) (asset_id b.2) = true ∨ (asset_id a.2 = asset_id b.2 ∧ str_le a.1 b.1).
#[global] Instance asset_order_dec a b : Decision (asset_order a b).
Proof. unfold asset_order. apply _. Defined.

(** backend/app/active_recurrence_index.py [ActiveRecurrenceIndex.records_for_assets] *)
Definition records_for_assets (organization : string) (asset_ids : gset string) (s : site) : outcome (list R) * site :=
  if negb (is_owner organization) || (ACTIVE_RECURRENCE_INDEX_MAX_ASSETS <? size asset_ids)%nat
     || any_of (λ a, negb (is_hex32 a)) (elements asset_ids) then (Err index_invalid, s) else
  if bool_decide (asset_ids = ∅) then (Ok [], s) else
  let '(t, s') := current_rows s in
  ((t ← t; traverse (_load_validated (files s'.2))
             (merge_sort asset_order (map_to_list (select_where
                (λ _ row, String.eqb (organization_id row) organization && bool_decide (asset_id row ∈ asset_ids)) t)))), s').

(** backend/app/active_recurrence_index.py [ActiveRecurrenceIndex.count_for_asset] *)
Definition count_for_asset (organization asset : string) (s : site) : outcome Z * site :=
  if negb (is_owner organization && is_hex32 asset) then (Err index_invalid, s) else
  let '(t, s') := current_rows s in ((t ← t; Ok (Z.of_nat (row_count (of_asset organization asset) t))), s').

(** ** What is due *)

(** [ORDER BY next_run_at_micros, schedule_id] *)
Definition run_order (a b : string * index_row) : Prop :=
  next_run_at_micros a.2 < next_run_at_micros b.2 ∨ (next_run_at_micros a.2 = next_run_at_micros b.2 ∧ str_le a.1 b.1).
#[global] Instance run_order_dec a b : Decision (run_order a b).
Proof. unfold run_order. apply _. Defined.

Definition due (now : Z) (_ : string) (row : index_row) : bool :=
  String.eqb (status row) "active" && (next_run_at_micros row <=? now)
  && from_option (λ t, t <=? now) true (next_retry_at_micros row).

Definition beyond (cursor : option (Z * string)) (i : string) (row : index_row) : bool :=
  match cursor with
  | None => true
  | Some (at_, last) => (at_ <? next_run_at_micros row) || ((next_run_at_micros row =? at_) && str_ltb last i)
  end.

(** backend/app/active_recurrence_index.py 59-86 [ActiveRecurrenceIndex.due_records] *)
Definition due_page (t : gmap string index_row) (now : Z) (cursor : option (Z * string)) : list (string * index_row) :=
  take ACTIVE_RECURRENCE_INDEX_QUERY_BATCH_SIZE
    (merge_sort run_order (map_to_list (select_where (λ i row, due now i row && beyond cursor i row) t))).

(** The records of a page that are eligible, until there are enough. *)
(** backend/app/active_recurrence_index.py 93-98 [ActiveRecurrenceIndex.due_records] *)
Fixpoint scan (fs : gmap (string * string) C) (is_eligible : R → outcome bool) (limit : nat)
    (page : list (string * index_row)) (records : list R) : outcome (list R) :=
  match page with
  | [] => Ok records
  | row :: page' =>
      r ← _load_validated fs row;
      eligible ← is_eligible r;
      let records' := if eligible : bool then records ++ [r] else records in
      if eligible && (length records' =? limit)%nat then Ok records' else scan fs is_eligible limit page' records'
  end.

(** backend/app/active_recurrence_index.py 59-102 [ActiveRecurrenceIndex.due_records] *)
Fixpoint due_loop (fuel : nat) (t : gmap string index_row) (fs : gmap (string * string) C) (now : Z)
    (is_eligible : R → outcome bool) (limit : nat) (cursor : option (Z * string)) (records : list R) : outcome (list R) :=
  match fuel with
  | O => Err "out_of_fuel"
  | S fuel' =>
      if (limit <=? length records)%nat then Ok records else
      let page := due_page t now cursor in
      match last page with
      | None => Ok records
      | Some (i, row) =>
          records' ← scan fs is_eligible limit page records;
          if (length page <? ACTIVE_RECURRENCE_INDEX_QUERY_BATCH_SIZE)%nat then Ok records' else
          due_loop fuel' t fs now is_eligible limit (Some (next_run_at_micros row, i)) records'
      end
  end.

(** backend/app/active_recurrence_index.py [ActiveRecurrenceIndex.due_records] *)
Definition due_records (now : datetime) (limit : nat) (is_eligible : R → outcome bool) (s : site)
    : outcome (list R) * site :=
  if negb (aware now) || negb ((1 <=? limit)%nat && (limit <=? 16)%nat) then (Err index_invalid, s) else
  let '(t, s') := current_rows s in
  ((t ← t; due_loop (S (size t)) t (files s'.2) (instant now) is_eligible limit None []), s').
End Index.

(** ** The files as a set of records *)

Lemma traverse_error {A B} (f : A → outcome B) l e : traverse f l = Err e → ∃ x, x ∈ l ∧ f x = Err e.
Proof.
  induction l as [|x l IH]; [done|]. cbn [traverse]. destruct (f x) as [y|e'] eqn:Hx; cbn.
  - destruct (traverse f l); [done|]. intros [= ->]. destruct (IH eq_refl) as (x' & Hin & He). exists x'. by split; [right|].
  - intros [= ->]. exists x. by split; [left|].
Qed.

Section Facts.
Context {R C : Type} `{Indexed R} (loader : C → string → string → outcome R).

(** What [loader] promises: a record under the names of its file, with valid
    fields. *)
Class LoaderLaws : Prop := {
  loader_names c o i r : loader c o i = Ok r → r_organization_id r = o ∧ r_id r = i;
  loader_valid c o i r : loader c o i = Ok r →
    is_hex32 (r_asset_id r) = true ∧ mem (r_status r) ["active"; "paused"; "suspended"] = true
}.
Context `{!LoaderLaws}.

Abbreviation store := (gmap (string * string) C).
Abbreviation load_all := (StampedIndex.load_all index_invalid loader).
Abbreviation load_file := (StampedIndex.load_file index_invalid loader).
Abbreviation site := (memory * disk C)%type.
Abbreviation rebuilt := (rebuilt_rows loader).
Abbreviation current_rows := (StampedIndex.current_rows index_invalid rebuilt).
Abbreviation index_ok := (StampedIndex.index_ok rebuilt).
Implicit Types (fs : store) (t : gmap string index_row) (r : R).

(** A schedule identifier names one file. *)
Definition ids_unique fs : Prop := ∀ o o' i, is_Some (fs !! (o, i)) → is_Some (fs !! (o', i)) → o = o'.

Definition record_in fs r : Prop :=
  is_hex32 (r_id r) = true
  ∧ ∃ c, fs !! (r_organization_id r, r_id r) = Some c ∧ loader c (r_organization_id r) (r_id r) = Ok r.

(** Every file is in a directory with an owner's name, and readable. *)
Definition readable fs : Prop :=
  ∀ o i c, fs !! (o, i) = Some c → is_owner o = true ∧ (is_hex32 i = true → is_ok (loader c o i) = true).

Definition as_row r : string * index_row := (r_id r, row_of r).

Lemma invalid_as_ok {A} (o : outcome A) a : invalid_as index_invalid o = Ok a ↔ o = Ok a.
Proof. by destruct o. Qed.

Lemma load_file_ok o i c l :
  load_file ((o, i), c) = Ok l →
  is_owner o = true ∧ if is_hex32 i then ∃ r, loader c o i = Ok r ∧ l = [r] else l = [].
Proof.
  unfold StampedIndex.load_file. intros Hp.
  destruct (is_owner o); cbn in Hp; [|done]. split; [done|]. destruct (is_hex32 i); [|by injection Hp as <-].
  destruct (loader c o i) as [r|]; [|done]. injection Hp as <-. by exists r.
Qed.

Lemma load_all_elem fs rs r : load_all fs = Ok rs → r ∈ rs ↔ record_in fs r.
Proof.
  unfold StampedIndex.load_all. intros Hl. apply bind_ok in Hl as (parts & Ht & [= <-]). apply traverse_ok in Ht.
  rewrite concat_elem. split.
  - intros (l & Hl & Hr). apply list_elem_of_lookup_1 in Hl as (n & Hl).
    destruct (Forall2_lookup_r _ _ _ _ _ Ht Hl) as ([[o i] c] & Hk & Hp). apply list_elem_of_lookup_2 in Hk.
    rewrite merge_sort_Permutation, elem_of_map_to_list in Hk. apply load_file_ok in Hp as [_ Hp].
    destruct (is_hex32 i) eqn:Hi; [|subst; by apply not_elem_of_nil in Hr].
    destruct Hp as (r' & Hload & ->). apply list_elem_of_singleton in Hr as ->.
    destruct (loader_names _ _ _ _ Hload) as [Ho Hid]. unfold record_in. rewrite Ho, Hid. eauto.
  - intros (Hi & c & Hc & Hload). assert (Hin : ((r_organization_id r, r_id r), c) ∈ merge_sort key_order (map_to_list fs)).
    { by rewrite merge_sort_Permutation, elem_of_map_to_list. }
    apply list_elem_of_lookup_1 in Hin as (n & Hn). destruct (Forall2_lookup_l _ _ _ _ _ Ht Hn) as (l & Hl & Hp).
    apply load_file_ok in Hp as [_ Hp]. rewrite Hi in Hp. destruct Hp as (r' & Hload' & ->).
    assert (r' = r) as -> by congruence. exists [r]. split; [by eapply list_elem_of_lookup_2|left].
Qed.

Lemma load_all_readable fs : is_ok (load_all fs) = true ↔ readable fs.
Proof.
  unfold StampedIndex.load_all. split.
  - destruct (traverse _ _) as [parts|] eqn:Ht; [|done]. intros _ o i c Hc. apply traverse_ok in Ht.
    assert (Hin : ((o, i), c) ∈ merge_sort key_order (map_to_list fs)) by (by rewrite merge_sort_Permutation, elem_of_map_to_list).
    apply list_elem_of_lookup_1 in Hin as (n & Hn). destruct (Forall2_lookup_l _ _ _ _ _ Ht Hn) as (l & _ & Hp).
    apply load_file_ok in Hp as [Ho Hp]. split; [done|]. intros Hi. rewrite Hi in Hp. destruct Hp as (r & -> & _). done.
  - intros Hr. assert (Ht : is_ok (traverse (load_file) (merge_sort key_order (map_to_list fs))) = true).
    { apply traverse_total. intros [[o i] c] Hin. rewrite merge_sort_Permutation, elem_of_map_to_list in Hin.
      destruct (Hr _ _ _ Hin) as [Ho Hl]. unfold StampedIndex.load_file. rewrite Ho. cbn. destruct (is_hex32 i); [|done].
      specialize (Hl eq_refl). by destruct (loader c o i). }
    by destruct (traverse _ _).
Qed.

Lemma load_all_error fs e : load_all fs = Err e → e = index_invalid.
Proof.
  unfold StampedIndex.load_all. intros Hl. destruct (traverse _ _) as [parts|e'] eqn:Ht; [done|]. injection Hl as <-.
  apply traverse_error in Ht as ([[o i] c] & _ & Hp). unfold StampedIndex.load_file in Hp.
  destruct (is_owner o); [|by injection Hp as <-]. cbn in Hp. destruct (is_hex32 i); [|done].
  destruct (loader c o i); [done|]. by injection Hp as <-.
Qed.

Lemma load_ids l parts :
  Forall2 (λ x y, load_file x = Ok y) l parts →
  r_id <$> concat parts = filter (λ i, is_hex32 i = true) ((λ kc : (string * string) * C, kc.1.2) <$> l).
Proof.
  induction 1 as [|[[o i] c] p l parts Hp _ IH]; [done|]. cbn [concat fmap list_fmap]. rewrite fmap_app, IH, filter_cons. cbn.
  apply load_file_ok in Hp as [_ Hp]. destruct (is_hex32 i); [|by subst].
  destruct Hp as (r & Hload & ->). destruct (loader_names _ _ _ _ Hload) as [_ <-]. by destruct (decide _).
Qed.

Lemma load_all_ids fs rs : ids_unique fs → load_all fs = Ok rs → NoDup (r_id <$> rs).
Proof.
  intros Hu Hl. unfold StampedIndex.load_all in Hl. apply bind_ok in Hl as (parts & Ht & [= <-]). apply traverse_ok, load_ids in Ht.
  rewrite Ht. apply NoDup_filter. rewrite merge_sort_Permutation. apply NoDup_fmap_2_strong; [|apply NoDup_map_to_list].
  intros [[o i] c] [[o' i'] c'] Hin Hin'. rewrite elem_of_map_to_list in Hin, Hin'. cbn. intros <-.
  assert (o = o') as <- by (apply (Hu _ _ i); eauto). congruence.
Qed.

Lemma record_valid fs rs r t :
  load_all fs = Ok rs → r ∈ rs → _replace_record t r = Ok (<[r_id r := row_of r]> t).
Proof.
  intros Hl Hr. assert (Hread : readable fs) by (apply load_all_readable; by rewrite Hl).
  apply (load_all_elem _ _ _ Hl) in Hr as (Hi & c & Hc & Hload). destruct (loader_valid _ _ _ _ Hload) as [Ha Hs].
  destruct (Hread _ _ _ Hc) as [Ho _]. unfold _replace_record. by rewrite Hi, Ha, Ho, Hs.
Qed.

Lemma replace_all t rs :
  (∀ r t, r ∈ rs → _replace_record t r = Ok (<[r_id r := row_of r]> t)) → NoDup (r_id <$> rs) →
  replace_records t rs = Ok (list_to_map (as_row <$> rs) ∪ t).
Proof.
  revert t. induction rs as [|r rs IH]; intros t Hv Hn; cbn [replace_records fmap list_fmap list_to_map].
  - cbn. by rewrite (left_id_L ∅ (∪)).
  - rewrite Hv by left. apply NoDup_cons in Hn as [Hni Hn]. cbn [mbind outcome_bind].
    rewrite IH; [|intros r' t' Hin; apply Hv; by right|done]. f_equal. cbn. rewrite <- insert_union_l.
    symmetry. apply insert_union_r. apply not_elem_of_list_to_map_1. rewrite <- list_fmap_compose. done.
Qed.

(** The rows of a rebuilt index are those of the records. *)
Lemma rebuilt_rows_ok fs t :
  ids_unique fs →
  rebuilt_rows loader fs = Ok t ↔ ∃ rs, load_all fs = Ok rs ∧ t = list_to_map (as_row <$> rs).
Proof.
  intros Hu. unfold rebuilt_rows. destruct (load_all fs) as [rs|e] eqn:Hl; cbn.
  - rewrite replace_all by (eauto using record_valid, load_all_ids). rewrite (right_id_L ∅ (∪)).
    split; [intros [= <-]; by exists rs|]. by intros (rs' & [= <-] & ->).
  - split; [done|]. by intros (rs' & [=] & _).
Qed.

Lemma rebuilt_rows_list fs rs t :
  ids_unique fs → load_all fs = Ok rs → rebuilt_rows loader fs = Ok t → map_to_list t ≡ₚ as_row <$> rs.
Proof.
  intros Hu Hl Ht. apply rebuilt_rows_ok in Ht as (rs' & Hl' & ->); [|done]. assert (rs' = rs) as -> by congruence.
  apply map_to_list_to_map. rewrite <- list_fmap_compose. by apply (load_all_ids fs).
Qed.

Lemma rebuilt_rows_lookup fs rs t i row :
  ids_unique fs → load_all fs = Ok rs → rebuilt_rows loader fs = Ok t →
  t !! i = Some row ↔ ∃ r, r ∈ rs ∧ as_row r = (i, row).
Proof.
  intros Hu Hl Ht. rewrite <- elem_of_map_to_list, (rebuilt_rows_list fs rs t Hu Hl Ht), list_elem_of_fmap. naive_solver.
Qed.

Lemma load_validated_row fs rs r :
  load_all fs = Ok rs → r ∈ rs → _load_validated loader fs (as_row r) = Ok r.
Proof.
  intros Hl Hr. apply (load_all_elem _ _ _ Hl) in Hr as (Hi & c & Hc & Hload).
  unfold _load_validated, as_row. cbn. rewrite Hc. cbn. rewrite Hload. cbn. rewrite String.eqb_refl, bool_decide_true by done. done.
Qed.

Lemma traverse_validated fs rs l :
  load_all fs = Ok rs → (∀ r, r ∈ l → r ∈ rs) → traverse (_load_validated loader fs) (as_row <$> l) = Ok l.
Proof.
  intros Hl. induction l as [|r l IH]; intros Hin; [done|]. cbn [fmap list_fmap traverse].
  rewrite (load_validated_row fs rs) by (try done; apply Hin; left). cbn [mbind outcome_bind].
  rewrite IH; [done|]. intros r' Hr'. apply Hin. by right.
Qed.

(** ** The index follows the files *)

(** One file written. *)
Lemma record_in_write fs o i c r r' :
  ids_unique (<[(o, i) := c]> fs) → is_hex32 i = true → loader c o i = Ok r →
  record_in (<[(o, i) := c]> fs) r' ↔ r' = r ∨ (record_in fs r' ∧ r_id r' ≠ i).
Proof.
  intros Hu Hi Hload. destruct (loader_names _ _ _ _ Hload) as [Ho Hid]. unfold record_in. split.
  - intros (Hi' & c' & Hc' & Hload'). destruct (decide (r_id r' = i)) as [He|Hne].
    + left. rewrite He in Hc', Hload'.
      assert (r_organization_id r' = o) as Ho' by (apply (Hu _ _ i); [eauto|rewrite lookup_insert_eq; eauto]).
      rewrite Ho' in Hc', Hload'. rewrite lookup_insert_eq in Hc'. congruence.
    + right. split; [|done]. split; [done|]. rewrite lookup_insert_ne in Hc' by congruence. eauto.
  - intros [->|[(Hi' & c' & Hc' & Hload') Hne]].
    + rewrite Ho, Hid. split; [done|]. exists c. by rewrite lookup_insert_eq.
    + split; [done|]. exists c'. rewrite lookup_insert_ne by congruence. done.
Qed.

Lemma readable_write fs o i c r :
  readable fs → is_owner o = true → loader c o i = Ok r → readable (<[(o, i) := c]> fs).
Proof.
  intros Hr Ho Hload o' i' c' [([= <- <-] & <-)|[_ Hc']]%lookup_insert_Some; [by rewrite Hload|by apply Hr].
Qed.

Lemma record_in_unlink fs k r : record_in (delete k fs) r ↔ record_in fs r ∧ (r_organization_id r, r_id r) ≠ k.
Proof.
  unfold record_in. setoid_rewrite lookup_delete_Some. split.
  - intros (Hi & c & [Hne Hc] & Hload). split; [by eauto|congruence].
  - intros [(Hi & c & Hc & Hload) Hne]. split; [done|]. exists c. split; [split; [congruence|done]|done].
Qed.

Lemma readable_unlink fs k : readable fs → readable (delete k fs).
Proof. intros Hr o i c [_ Hc]%lookup_delete_Some. by apply Hr. Qed.

Lemma ids_unique_unlink fs k : ids_unique fs → ids_unique (delete k fs).
Proof.
  intros Hu o o' i [c [_ Hc]%lookup_delete_Some] [c' [_ Hc']%lookup_delete_Some]. apply (Hu _ _ i); eauto.
Qed.

Lemma readable_load fs : readable fs → ∃ rs, load_all fs = Ok rs.
Proof. intros Hr%load_all_readable. destruct (load_all fs) as [rs|]; [by exists rs|done]. Qed.

(** When a set of rows is that of the files. *)
Lemma rebuilt_rows_intro fs t :
  ids_unique fs → readable fs → (∀ i row, t !! i = Some row ↔ ∃ r, record_in fs r ∧ as_row r = (i, row)) →
  rebuilt_rows loader fs = Ok t.
Proof.
  intros Hu [rs Hl]%readable_load Ht. apply rebuilt_rows_ok; [done|]. exists rs. split; [done|].
  apply map_eq. intros i. apply option_eq. intros row. rewrite Ht.
  rewrite (rebuilt_rows_lookup fs rs _ i row Hu Hl (proj2 (rebuilt_rows_ok fs _ Hu) (ex_intro _ rs (conj Hl eq_refl)))).
  by setoid_rewrite (load_all_elem _ _ _ Hl).
Qed.

Lemma rebuilt_rows_elim fs t :
  ids_unique fs → rebuilt_rows loader fs = Ok t →
  readable fs ∧ ∀ i row, t !! i = Some row ↔ ∃ r, record_in fs r ∧ as_row r = (i, row).
Proof.
  intros Hu Ht. pose proof Ht as Ht'. apply rebuilt_rows_ok in Ht' as (rs & Hl & _); [|done].
  split; [apply load_all_readable; by rewrite Hl|]. intros i row.
  rewrite (rebuilt_rows_lookup fs rs t i row) by done. by setoid_rewrite (load_all_elem _ _ _ Hl).
Qed.

Lemma rebuilt_write fs o i c r t :
  ids_unique fs → ids_unique (<[(o, i) := c]> fs) → is_hex32 i = true → is_owner o = true → loader c o i = Ok r →
  rebuilt_rows loader fs = Ok t →
  ∃ t', _replace_record t r = Ok t' ∧ rebuilt_rows loader (<[(o, i) := c]> fs) = Ok t'.
Proof.
  intros Hu Hu' Hi Ho Hload [Hr Ht]%rebuilt_rows_elim; [|done]. destruct (loader_names _ _ _ _ Hload) as [Hro Hri].
  destruct (loader_valid _ _ _ _ Hload) as [Ha Hs]. exists (<[i := row_of r]> t). split.
  - unfold _replace_record. by rewrite Hri, Hi, Ha, Hro, Ho, Hs.
  - apply rebuilt_rows_intro; [done|by eapply readable_write|]. intros j row.
    setoid_rewrite (record_in_write fs o i c r _ Hu' Hi Hload). rewrite lookup_insert_Some, Ht. split.
    + intros [[<- <-]|[Hne (r' & Hr' & [= <- <-])]]; [exists r; split; [by left|by unfold as_row; rewrite Hri]|].
      exists r'. split; [right; by split|done].
    + intros (r' & [->|[Hr' Hne]] & [= <- <-]); [by left|right; eauto].
Qed.

Lemma rebuilt_unlink fs fs' p t :
  ids_unique fs → ids_unique fs' → readable fs' →
  (∀ r, record_in fs' r ↔ record_in fs r ∧ p (r_id r) (row_of r) = false) →
  rebuilt_rows loader fs = Ok t → rebuilt_rows loader fs' = Ok (delete_where p t).
Proof.
  intros Hu Hu' Hr' Hp [_ Ht]%rebuilt_rows_elim; [|done]. apply rebuilt_rows_intro; [done..|].
  intros i row. rewrite delete_where_Some, Ht. setoid_rewrite Hp. split.
  - intros [(r & Hr & [= <- <-]) Hd]. by exists r.
  - intros (r & [Hr Hd] & [= <- <-]). split; [by exists r|done].
Qed.

(** ** What a query answers *)

(** An order of rows, as one of records. *)
Definition by_row (ord : string * index_row → string * index_row → Prop) (a b : R) : Prop := ord (as_row a) (as_row b).
#[local] Instance by_row_dec ord `{∀ x y, Decision (ord x y)} a b : Decision (by_row ord a b).
Proof. unfold by_row. apply _. Defined.

(** The records the files hold that satisfy a condition on their rows, in
    order. *)
Definition chosen (p : string → index_row → bool) ord `{∀ x y, Decision (ord x y)} (rs : list R) : list R :=
  merge_sort (by_row ord) (filter (λ r, p (r_id r) (row_of r) = true) rs).

(** The orders of the queries put two rows of one identifier together only. *)
Class RowOrder (ord : string * index_row → string * index_row → Prop) : Prop := {
  row_order_total :: Total ord;
  row_order_trans :: Transitive ord;
  row_order_antisym a b : ord a b → ord b a → a.1 = b.1
}.

Lemma select_chosen p ord `{!RowOrder ord} `{∀ x y, Decision (ord x y)} fs rs t :
  ids_unique fs → load_all fs = Ok rs → rebuilt_rows loader fs = Ok t →
  merge_sort ord (map_to_list (select_where p t)) = as_row <$> chosen p ord rs.
Proof.
  intros Hu Hl Ht. pose proof (load_all_ids _ _ Hu Hl) as Hn.
  assert (Hp : map_to_list (select_where p t) ≡ₚ as_row <$> filter (λ r, p (r_id r) (row_of r) = true) rs).
  { apply NoDup_Permutation; [apply NoDup_map_to_list|..].
    - apply (NoDup_fmap_1 fst). rewrite <- list_fmap_compose. change (fst ∘ as_row) with (r_id (R := R)).
      eapply sublist_NoDup; [exact Hn|]. apply fmap_sublist, sublist_filter.
    - intros [i row]. rewrite elem_of_map_to_list, select_where_lookup, (rebuilt_rows_lookup fs rs t) by done.
      rewrite list_elem_of_fmap. setoid_rewrite list_elem_of_filter. split.
      + intros [(r & Hr & [= <- <-]) Hpr]. by exists r.
      + intros (r & [= -> ->] & Hpr & Hr). split; [by exists r|done]. }
  apply (StronglySorted_unique_strong ord).
  - intros x y Hx Hy Hxy Hyx. rewrite merge_sort_Permutation, Hp in Hx.
    unfold chosen in Hy. rewrite merge_sort_Permutation in Hy.
    apply list_elem_of_fmap in Hx as (a & -> & [_ Ha]%list_elem_of_filter), Hy as (b & -> & [_ Hb]%list_elem_of_filter).
    pose proof (row_order_antisym _ _ Hxy Hyx) as Hid. cbn in Hid.
    apply list_elem_of_lookup in Ha as [m Ha], Hb as [n Hb].
    assert (m = n) as <-; [|congruence].
    apply (NoDup_lookup _ _ _ (r_id a) Hn); rewrite list_lookup_fmap; [by rewrite Ha|by rewrite Hb, Hid].
  - apply (StronglySorted_merge_sort _).
  - apply (StronglySorted_fmap _ (by_row ord)); [done|]. unfold chosen.
    assert (Total (by_row ord)) by (intros a b; apply (row_order_total (ord := ord))).
    assert (Transitive (by_row ord)) by (intros a b c; apply (row_order_trans (ord := ord))).
    apply (StronglySorted_merge_sort _).
  - rewrite merge_sort_Permutation, Hp. unfold chosen. by rewrite merge_sort_Permutation.
Qed.

#[local] Instance id_order_row : RowOrder id_order.
Proof.
  split; [intros a b; apply str_le_total|intros a b c H1 H2; unfold id_order in *; by trans b.1|].
  intros a b. apply str_le_antisym.
Qed.

Lemma str_lt_le a b : str_ltb a b = true ↔ str_le a b ∧ a ≠ b.
Proof.
  unfold str_le. split.
  - intros Hab. split; [by apply str_ltb_asym|]. intros ->. pose proof (str_ltb_asym _ _ Hab). congruence.
  - intros [Hle Hne]. destruct (str_ltb a b) eqn:E; [done|]. by destruct Hne; apply str_le_antisym.
Qed.

#[local] Instance asset_order_row : RowOrder asset_order.
Proof.
  split.
  - intros [i a] [j b]. unfold asset_order. cbn. rewrite !str_lt_le.
    destruct (decide (asset_id a = asset_id b)) as [He|Hne].
    + destruct (str_le_total i j); [left|right]; right; split; done.
    + destruct (str_le_total (asset_id a) (asset_id b)); [left|right]; left; split; congruence || done.
  - intros [i a] [j b] [k c]. unfold asset_order. cbn. intros [H1|[H1 H1']] [H2|[H2 H2']].
    + left. by eapply str_ltb_trans.
    + left. by rewrite <- H2.
    + left. by rewrite H1.
    + right. split; [congruence|by trans j].
  - intros [i a] [j b]. unfold asset_order. cbn. intros [H1|[H1 H1']] [H2|[H2 H2']].
    + apply str_ltb_asym in H1. congruence.
    + rewrite H2 in H1. pose proof (str_ltb_asym _ _ H1). congruence.
    + rewrite H1 in H2. pose proof (str_ltb_asym _ _ H2). congruence.
    + by apply str_le_antisym.
Qed.

#[local] Instance run_order_row : RowOrder run_order.
Proof.
  split.
  - intros [i a] [j b]. unfold run_order. cbn. destruct (str_le_total i j);
      destruct (Z.lt_total (next_run_at_micros a) (next_run_at_micros b)); intuition lia.
  - intros [i a] [j b] [k c]. unfold run_order. cbn. intros [H1|[H1 H1']] [H2|[H2 H2']]; [left; lia..|right].
    split; [lia|by trans j].
  - intros [i a] [j b]. unfold run_order. cbn. intros [H1|[H1 H1']] [H2|[H2 H2']]; try lia. by apply str_le_antisym.
Qed.

(** The answer, from the records of the files. *)
Definition answer {A : Type} (fs : store) (f : list R → outcome A) : outcome A :=
  rs ← load_all fs; f rs.

Lemma query_spec {A : Type} s (f : gmap string index_row → outcome A) (g : list R → outcome A) :
  index_ok s → ids_unique (files s.2) →
  (∀ rs t, load_all (files s.2) = Ok rs → rebuilt_rows loader (files s.2) = Ok t → f t = g rs) →
  (t ← (current_rows s).1; f t) = answer (files s.2) g.
Proof.
  intros Hok Hu Hfg. rewrite current_rows_spec by done. unfold answer.
  destruct (load_all (files s.2)) as [rs|e] eqn:Hl.
  - destruct (rebuilt_rows loader (files s.2)) as [t|e] eqn:Ht; cbn; [by apply Hfg|].
    assert (Hex : ∃ rs', load_all (files s.2) = Ok rs' ∧ list_to_map (as_row <$> rs) = list_to_map (M := gmap string index_row) (as_row <$> rs'))
      by (by exists rs). apply rebuilt_rows_ok in Hex; [congruence|done].
  - unfold rebuilt_rows. by rewrite Hl.
Qed.

(** ** Pages *)

(** The eligible ones of a list, until there are enough. *)
Fixpoint first_eligible (is_eligible : R → outcome bool) (limit : nat) (l records : list R) : outcome (list R) :=
  match l with
  | [] => Ok records
  | r :: l' =>
      eligible ← is_eligible r;
      let records' := if eligible : bool then records ++ [r] else records in
      if eligible && (length records' =? limit)%nat then Ok records' else first_eligible is_eligible limit l' records'
  end.

Lemma scan_records fs rs is_eligible limit l records :
  load_all fs = Ok rs → (∀ r, r ∈ l → r ∈ rs) →
  scan loader fs is_eligible limit (as_row <$> l) records = first_eligible is_eligible limit l records.
Proof.
  intros Hl. revert records. induction l as [|r l IH]; intros records Hin; [done|]. cbn [fmap list_fmap scan first_eligible].
  rewrite (load_validated_row fs rs) by (try done; apply Hin; left). cbn [mbind outcome_bind].
  destruct (is_eligible r) as [e|]; [|done]. cbn [mbind outcome_bind]. case_match; [done|]. apply IH.
  intros r' Hr'. apply Hin. by right.
Qed.

(** When eligibility never fails: the first [limit] of the eligible ones. *)
Lemma first_eligible_take (p : R → bool) limit l records :
  (length records < limit)%nat →
  first_eligible (λ r, Ok (p r)) limit l records = Ok (records ++ take (limit - length records) (filter (λ r, p r = true) l)).
Proof.
  revert records. induction l as [|r l IH]; intros records Hlen; cbn [first_eligible mbind outcome_bind].
  - rewrite filter_nil, take_nil. by rewrite app_nil_r.
  - rewrite filter_cons. destruct (p r) eqn:Hp; cbn [andb].
    + rewrite decide_True by done. rewrite length_app. cbn [length]. destruct (Nat.eqb_spec (length records + 1) limit) as [He|Hne].
      * replace (limit - length records)%nat with 1%nat by lia. cbn. by rewrite take_0.
      * rewrite IH by (rewrite length_app; cbn; lia). rewrite length_app. cbn [length].
        replace (limit - length records)%nat with (S (limit - (length records + 1))) by lia. cbn [take].
        by rewrite <- app_assoc.
    + rewrite decide_False by done. by apply IH.
Qed.

Lemma first_eligible_in is_eligible limit l records result r :
  first_eligible is_eligible limit l records = Ok result → r ∈ result → r ∈ records ∨ (r ∈ l ∧ is_eligible r = Ok true).
Proof.
  revert records. induction l as [|r1 l IH]; intros records; cbn [first_eligible]; [intros [= ->]; by left|].
  destruct (is_eligible r1) as [[]|] eqn:He; cbn [mbind outcome_bind andb]; [| |done].
  - intros H1 H2. assert (Hr : r ∈ records ++ [r1] ∨ (r ∈ l ∧ is_eligible r = Ok true)).
    { case_match; [injection H1 as <-; by left|]. by apply (IH (records ++ [r1])). }
    destruct Hr as [[Hr|Hr]%elem_of_app|[Hr ?]]; [by left| |right; by split; [right|]].
    apply list_elem_of_singleton in Hr as ->. right. by split; [left|].
  - intros H1 H2. destruct (IH records H1 H2) as [|[? ?]]; [by left|right; by split; [right|]].
Qed.

Section Paging.
Context (fs : store) (is_eligible : R → outcome bool) (limit : nat).
Abbreviation scan_page := (scan loader fs is_eligible limit).

Lemma scan_length page records records' :
  (length records < limit)%nat → scan_page page records = Ok records' → (length records' <= limit)%nat.
Proof.
  revert records. induction page as [|row page IH]; intros records Hl; cbn [scan]; [intros [= <-]; lia|].
  destruct (_load_validated loader fs row) as [r|]; [|done]. cbn. destruct (is_eligible r) as [[]|]; [..|done]; cbn.
  - rewrite length_app. cbn. destruct (Nat.eqb_spec (length records + 1) limit) as [He|Hne].
    + intros [= <-]. rewrite length_app. cbn. lia.
    + apply IH. rewrite length_app. cbn. lia.
  - by apply IH.
Qed.

Lemma scan_app page page' records :
  (length records < limit)%nat →
  scan_page (page ++ page') records
  = (records' ← scan_page page records; if (limit <=? length records')%nat then Ok records' else scan_page page' records').
Proof.
  revert records. induction page as [|row page IH]; intros records Hl; cbn [scan app].
  - cbn. by rewrite (proj2 (Nat.leb_gt _ _) Hl).
  - destruct (_load_validated loader fs row) as [r|]; [|done]. cbn. destruct (is_eligible r) as [[]|]; [..|done]; cbn.
    + rewrite length_app. cbn. destruct (Nat.eqb_spec (length records + 1) limit) as [He|Hne].
      * cbn. rewrite length_app. cbn. by rewrite (proj2 (Nat.leb_le _ _)) by lia.
      * apply IH. rewrite length_app. cbn. lia.
    + by apply IH.
Qed.

Context (t : gmap string index_row) (now : Z).

Definition due_list (cursor : option (Z * string)) : list (string * index_row) :=
  merge_sort run_order (map_to_list (select_where (λ i row, due now i row && beyond cursor i row) t)).

Lemma due_list_elem cursor i row :
  (i, row) ∈ due_list cursor ↔ t !! i = Some row ∧ due now i row = true ∧ beyond cursor i row = true.
Proof.
  unfold due_list. rewrite merge_sort_Permutation, elem_of_map_to_list, select_where_lookup, andb_true_iff. tauto.
Qed.

Lemma due_list_sorted cursor : StronglySorted run_order (due_list cursor).
Proof. apply (StronglySorted_merge_sort _). Qed.

Lemma due_list_NoDup cursor : NoDup (due_list cursor).*1.
Proof. unfold due_list. rewrite merge_sort_Permutation. apply NoDup_fst_map_to_list. Qed.

Lemma beyond_run i row j row' :
  t !! i = Some row → t !! j = Some row' →
  beyond (Some (next_run_at_micros row, i)) j row' = true ↔ run_order (i, row) (j, row') ∧ i ≠ j.
Proof.
  intros Hi Hj. unfold beyond, run_order. cbn. rewrite orb_true_iff, andb_true_iff, Z.ltb_lt, Z.eqb_eq, str_lt_le. split.
  - intros [Hlt|[He [Hle Hne]]]; [split; [by left|]|by split; [right|]].
    intros <-. assert (row' = row) as -> by congruence. lia.
  - intros [[Hlt|[He Hle]] Hne]; [by left|by right].
Qed.

Lemma beyond_trans cursor i row j row' :
  beyond cursor i row = true → run_order (i, row) (j, row') → beyond cursor j row' = true.
Proof.
  destruct cursor as [[at_ k]|]; [|done]. unfold beyond, run_order. cbn.
  rewrite !orb_true_iff, !andb_true_iff, !Z.ltb_lt, !Z.eqb_eq, !str_lt_le.
  intros [H1|[H1 [H1' Hne]]] [H2|[H2 H2']]; [left; lia|left; lia|left; lia|right].
  split; [lia|]. split; [by trans i|]. intros ->. by destruct Hne; apply str_le_antisym.
Qed.

(** The cursor of a page's last row gives what is left. *)
Lemma due_list_rest cursor page rest i row :
  due_list cursor = page ++ rest → last page = Some (i, row) → due_list (Some (next_run_at_micros row, i)) = rest.
Proof.
  intros Hd Hlast. apply last_Some in Hlast as (init & ->).
  assert (Hs : StronglySorted run_order ((init ++ [(i, row)]) ++ rest)) by (rewrite <- Hd; apply due_list_sorted).
  assert (Hn : NoDup ((init ++ [(i, row)]) ++ rest).*1) by (rewrite <- Hd; apply due_list_NoDup).
  assert (Hin : ∀ x, x ∈ due_list cursor ↔ x ∈ init ∨ x = (i, row) ∨ x ∈ rest).
  { intros x. rewrite Hd, !elem_of_app, list_elem_of_singleton. tauto. }
  assert (Hlast : (i, row) ∈ due_list cursor) by (apply Hin; auto). apply due_list_elem in Hlast as (Hi & _ & Hb).
  assert (Hdisj : ∀ x, x ∈ rest → x.1 ≠ i).
  { intros x Hx He. rewrite fmap_app in Hn. apply NoDup_app in Hn as (_ & Hn & _). apply (Hn i).
    - rewrite fmap_app. apply elem_of_app. right. left.
    - rewrite <- He. by apply list_elem_of_fmap_2. }
  apply (StronglySorted_unique_strong run_order).
  - intros [k r] [j r'] H1 H2 Hxy Hyx. apply due_list_elem in H1 as (Hk & _).
    assert (Hj : (j, r') ∈ due_list cursor) by (apply Hin; auto). apply due_list_elem in Hj as (Hj & _).
    pose proof (row_order_antisym _ _ Hxy Hyx) as He. cbn in He. subst j. congruence.
  - apply due_list_sorted.
  - by apply StronglySorted_app_1_r in Hs.
  - apply NoDup_Permutation.
    + apply (NoDup_fmap_1 fst), due_list_NoDup.
    + rewrite fmap_app in Hn. apply NoDup_app in Hn as (_ & _ & Hn). by apply NoDup_fmap_1 in Hn.
    + intros [j r]. rewrite due_list_elem. split.
      * intros (Hj & Hdue & Hbey). apply (beyond_run i row j r Hi Hj) in Hbey as [Hord Hne].
        assert (Hx : (j, r) ∈ due_list cursor) by (apply due_list_elem; eauto using beyond_trans).
        apply Hin in Hx as [Hx|[[= -> ->]|Hx]]; [|done|done]. exfalso. apply Hne.
        rewrite <- app_assoc in Hs. assert (Hord' : run_order (j, r) (i, row)) by (apply (StronglySorted_app_1_elem_of _ _ _ _ _ Hs Hx); left).
        by apply (row_order_antisym _ _ Hord Hord').
      * intros Hx. assert (Hx' : (j, r) ∈ due_list cursor) by (apply Hin; auto). apply due_list_elem in Hx' as (Hj & Hdue & _).
        split; [done|]. split; [done|]. apply (beyond_run i row j r Hi Hj). split.
        -- apply (StronglySorted_app_1_elem_of _ _ _ _ _ Hs); [apply elem_of_app; right; left|done].
        -- apply Hdisj in Hx. cbn in Hx. congruence.
Qed.

(** The loop over pages is one scan of the list. *)
Lemma due_loop_scan fuel cursor records :
  (length (due_list cursor) < fuel)%nat → (length records < limit)%nat →
  due_loop loader fuel t fs now is_eligible limit cursor records = scan_page (due_list cursor) records.
Proof.
  revert cursor records. induction fuel as [|fuel IH]; intros cursor records Hfuel Hlen; [lia|].
  cbn [due_loop]. rewrite (proj2 (Nat.leb_gt _ _) Hlen). change (due_page t now cursor) with (take ACTIVE_RECURRENCE_INDEX_QUERY_BATCH_SIZE (due_list cursor)).
  set (page := take _ (due_list cursor)). set (rest := drop ACTIVE_RECURRENCE_INDEX_QUERY_BATCH_SIZE (due_list cursor)).
  assert (Hd : due_list cursor = page ++ rest) by (symmetry; apply take_drop).
  destruct (last page) as [[i row]|] eqn:Hlast.
  2:{ apply last_None in Hlast. assert (due_list cursor = []) as ->; [|done]. apply length_zero_iff_nil.
      unfold page in Hlast. apply (f_equal length) in Hlast. rewrite length_take, length_nil in Hlast.
      unfold ACTIVE_RECURRENCE_INDEX_QUERY_BATCH_SIZE in Hlast. lia. }
  rewrite Hd, scan_app by done. destruct (scan_page page records) as [records'|] eqn:Hscan; [|done]. cbn [mbind outcome_bind].
  pose proof (scan_length _ _ _ Hlen Hscan) as Hlen'.
  assert (Hrest : (length page < ACTIVE_RECURRENCE_INDEX_QUERY_BATCH_SIZE)%nat → rest = []).
  { intros Hp. unfold rest. apply drop_ge. unfold page in Hp. rewrite length_take in Hp. lia. }
  destruct (Nat.ltb_spec (length page) ACTIVE_RECURRENCE_INDEX_QUERY_BATCH_SIZE) as [Hp|Hp].
  - rewrite (Hrest Hp). by case_match.
  - pose proof (due_list_rest cursor page rest i row Hd Hlast) as Hnext. destruct (Nat.leb_spec limit (length records')) as [Hfull|Hmore].
    + destruct fuel as [|fuel]; cbn [due_loop]; [|by rewrite (proj2 (Nat.leb_le _ _) Hfull)].
      apply (f_equal length) in Hd. rewrite length_app in Hd. unfold ACTIVE_RECURRENCE_INDEX_QUERY_BATCH_SIZE in Hp. lia.
    + rewrite IH; [by rewrite Hnext| |done]. rewrite Hnext. apply (f_equal length) in Hd. rewrite length_app in Hd.
      clear -Hd Hp Hfuel. unfold ACTIVE_RECURRENCE_INDEX_QUERY_BATCH_SIZE in Hp. lia.
Qed.
End Paging.

(** ** The queries, from the files *)

Lemma chosen_in p ord `{∀ x y, Decision (ord x y)} rs r : r ∈ chosen p ord rs ↔ r ∈ rs ∧ p (r_id r) (row_of r) = true.
Proof. unfold chosen. rewrite merge_sort_Permutation, list_elem_of_filter. tauto. Qed.

Lemma records_for_asset_spec organization asset s :
  index_ok s → ids_unique (files s.2) → is_owner organization = true → is_hex32 asset = true →
  (records_for_asset loader organization asset s).1
  = answer (files s.2) (λ rs, Ok (chosen (of_asset organization asset) id_order rs)).
Proof.
  intros Hok Hu Ho Ha. unfold records_for_asset. rewrite Ho, Ha. cbn [andb negb].
  pose proof (current_files index_invalid rebuilt s Hok) as Hf.
  transitivity (t ← (current_rows s).1; traverse (_load_validated loader (files s.2))
    (merge_sort id_order (map_to_list (select_where (of_asset organization asset) t)))).
  { destruct (current_rows s) as [t s']. cbn in Hf |- *. by rewrite Hf. }
  apply query_spec; [done|done|]. intros rs t Hl Ht. rewrite (select_chosen _ id_order _ rs t) by done.
  apply (traverse_validated _ rs); [done|]. intros r Hr. by apply chosen_in in Hr as [Hr _].
Qed.

Lemma records_for_assets_spec organization (assets : gset string) s :
  index_ok s → ids_unique (files s.2) → is_owner organization = true → (size assets <= ACTIVE_RECURRENCE_INDEX_MAX_ASSETS)%nat →
  (∀ a, a ∈ assets → is_hex32 a = true) → assets ≠ ∅ →
  (records_for_assets loader organization assets s).1
  = answer (files s.2) (λ rs, Ok (chosen (λ _ row, String.eqb (organization_id row) organization && bool_decide (asset_id row ∈ assets))
                                     asset_order rs)).
Proof.
  intros Hok Hu Ho Hs Ha Hne. unfold records_for_assets. rewrite Ho, (proj2 (Nat.ltb_ge _ _) Hs), bool_decide_false by done.
  assert (any_of (λ a, negb (is_hex32 a)) (elements assets) = false) as ->.
  { apply any_of_false. intros a Hin%elem_of_elements. by rewrite (Ha a). }
  cbn [orb negb]. pose proof (current_files index_invalid rebuilt s Hok) as Hf. set (p := λ (_ : string) row, _ && _).
  transitivity (t ← (current_rows s).1; traverse (_load_validated loader (files s.2))
    (merge_sort asset_order (map_to_list (select_where p t)))).
  { destruct (current_rows s) as [t s']. cbn in Hf |- *. by rewrite Hf. }
  apply query_spec; [done|done|]. intros rs t Hl Ht. rewrite (select_chosen _ asset_order _ rs t) by done.
  apply (traverse_validated _ rs); [done|]. intros r Hr. by apply chosen_in in Hr as [Hr _].
Qed.

Lemma count_for_asset_spec organization asset s :
  index_ok s → ids_unique (files s.2) → is_owner organization = true → is_hex32 asset = true →
  (count_for_asset loader organization asset s).1
  = answer (files s.2) (λ rs, Ok (Z.of_nat (length (chosen (of_asset organization asset) id_order rs)))).
Proof.
  intros Hok Hu Ho Ha. unfold count_for_asset. rewrite Ho, Ha. cbn [andb negb].
  transitivity (t ← (current_rows s).1; Ok (Z.of_nat (row_count (of_asset organization asset) t))).
  { by destruct (current_rows s) as [t s']. }
  apply query_spec; [done|done|]. intros rs t Hl Ht. do 2 f_equal.
  pose proof (select_chosen (of_asset organization asset) id_order _ rs t Hu Hl Ht) as Hc.
  apply (f_equal length) in Hc. rewrite merge_sort_Permutation, length_fmap, length_map_to_list in Hc. exact Hc.
Qed.

(** What is due: the eligible records among the first of those whose time has
    come. *)
Lemma due_records_spec now limit is_eligible s :
  index_ok s → ids_unique (files s.2) → aware now = true → (1 <= limit <= 16)%nat →
  (due_records loader now limit is_eligible s).1
  = answer (files s.2) (λ rs, first_eligible is_eligible limit (chosen (due (instant now)) run_order rs) []).
Proof.
  intros Hok Hu Hnow Hlim. unfold due_records. rewrite Hnow, (proj2 (Nat.leb_le 1 limit)), (proj2 (Nat.leb_le limit 16)) by lia.
  cbn [andb negb orb]. pose proof (current_files index_invalid rebuilt s Hok) as Hf.
  transitivity (t ← (current_rows s).1;
    due_loop loader (S (size t)) t (files s.2) (instant now) is_eligible limit None []).
  { destruct (current_rows s) as [t s']. cbn [fst snd] in Hf |- *. by rewrite Hf. }
  apply query_spec; [done|done|]. intros rs t Hl Ht.
  rewrite due_loop_scan.
  - unfold due_list. rewrite (select_chosen _ run_order _ rs t) by done.
    assert (chosen (λ i row, due (instant now) i row && beyond None i row) run_order rs = chosen (due (instant now)) run_order rs) as ->.
    { unfold chosen. f_equal. apply list_filter_iff. intros r. cbn. by rewrite andb_true_r. }
    apply (scan_records _ rs); [done|]. intros r Hr. by apply chosen_in in Hr as [Hr _].
  - unfold due_list. rewrite merge_sort_Permutation, length_map_to_list. unfold select_where.
    pose proof (map_size_filter (λ kv : string * index_row, due (instant now) kv.1 kv.2 && beyond None kv.1 kv.2 = true) t). lia.
  - cbn. lia.
Qed.
End Facts.
