(* ===== verification/Recurrence.v ===== *)
(** * Recurrence: the recurring policies and their store

    Models [backend/app/active_recurrence.py], but for the times, which are in
    [RecurrenceWindow]: the record of a policy and its validators, every
    operation of [ActiveRecurrenceStore] over the files and the index
    ([RecurrenceIndex]).  Each operation runs under the storage lock and is
    one transition; a file holds a record, or what does not parse as one.

    The fields of a record are in three groups: what never changes, what the
    authorization was, and how far the schedule is.  The JSON text that a
    digest is taken of is pydantic's, the argument [record_json]; the pending
    deletion of an asset is a question to another store, [deleting]. *)

From S2P Require Import Prelude PyStr Grouping Sha256 BearerToken Identifiers SqlTable Auth RecurrenceWindow StampedIndex RecurrenceIndex.
Local Open Scope Z_scope.

(** ** Data *)

(** backend/app/active_recurrence.py 25-26 [constants] *)
Definition ACTIVE_RECURRENCE_MAX_PER_ORGANIZATION : nat := 500.
Definition ACTIVE_RECURRENCE_MAX_DUE_PER_TICK : nat := 16.
Definition ActiveCapability : list string :=
  ["active_nmap_basic"; "active_dns_inventory"; "active_dns_osint"; "active_http_basic_header_review"; "active_tls_basic"].

Record policy : Type := Policy {
  id : string;
  organization_id : string;
  asset_id : string;
  capability : string;
  port : option Z;
  interval_days : Z;
  timezone_name : string;
  window_weekdays : list string;
  window_start_hour : Z;
  window_duration_hours : Z;
  created_at : datetime;
  actor_id : string;
  actor_role : string
}.

Record authorization : Type := Authorization {
  authorization_revision_id : string;
  authorization_revision_digest_sha256 : string;
  authorization_revision_sequence : Z;
  authorization_expires_at : option datetime;
  verification_id : string
}.

Record progress : Type := Progress {
  status : string;
  reason_code : string;
  next_run_at : datetime;
  last_scheduled_at : option datetime;
  last_job_id : option string;
  failure_count : Z;
  next_retry_at : option datetime;
  last_attempt_at : option datetime;
  last_outcome : string
}.

(** backend/app/active_recurrence.py 94-133 [ActiveRecurrenceRecord] *)
Record ActiveRecurrenceRecord : Type := Recurrence {
  the_policy : policy;
  the_authorization : authorization;
  the_progress : progress;
  updated_at : datetime
}.

(** backend/app/active_recurrence.py 48-59 [ActiveRecurrenceCreateRequest] *)
Record ActiveRecurrenceCreateRequest : Type := CreateRequest {
  req_capability : string;
  req_port : option Z;
  req_interval_days : Z;
  req_timezone_name : string;
  req_window_weekdays : list string;
  req_window_start_hour : Z;
  req_window_duration_hours : Z;
  idempotency_key : string
}.

(** ** Validators *)

Section Store.
Context (ZoneInfo : string → option zone) (record_json : ActiveRecurrenceRecord → string).

(** The fields' patterns and [timestamps_are_aware], group by group. *)
(** backend/app/active_recurrence.py 99-134 [ActiveRecurrenceRecord] *)
Definition policy_valid (p : policy) : bool :=
  is_hex32 (id p) && is_owner (organization_id p) && is_hex32 (asset_id p) && mem (capability p) ActiveCapability
  && from_option (in_range 1 65535) true (port p) && existsb (Z.eqb (interval_days p)) [7; 14; 30]
  && all_of (λ w, mem w ACTIVE_RECURRENCE_WEEKDAYS) (window_weekdays p)
  && in_range 1 7 (Z.of_nat (length (window_weekdays p)))
  && in_range 0 23 (window_start_hour p) && in_range 1 24 (window_duration_hours p)
  && is_actor (actor_id p) && mem (actor_role p) ["administrator"; "maintainer"]
  && (if String.eqb (capability p) "active_tls_basic" then bool_decide (is_Some (port p)) else bool_decide (port p = None))
  && unique (window_weekdays p) && (window_start_hour p + window_duration_hours p <=? 24)
  && is_ok (_load_timezone ZoneInfo (timezone_name p)).

Definition authorization_valid (a : authorization) : bool :=
  is_hex32 (authorization_revision_id a) && is_hex64 (authorization_revision_digest_sha256 a)
  && in_range 1 64 (authorization_revision_sequence a) && is_hex32 (verification_id a).

Definition progress_valid (g : progress) : bool :=
  mem (status g) ["active"; "paused"; "suspended"]
  && mem (reason_code g) ["scheduled"; "operator_paused"; "authorization_unavailable"; "authorization_revision_changed";
                          "verification_unavailable"; "capability_disabled"]
  && from_option is_hex32 true (last_job_id g) && in_range 0 ACTIVE_RECURRENCE_MAX_FAILURES (failure_count g)
  && mem (last_outcome g) ["never"; "scheduled"; "runner_unavailable"; "capacity_saturated"; "dispatch_conflict"].

(** backend/app/active_recurrence.py [ActiveRecurrenceRecord.timestamps_are_aware] *)
Definition record_valid (r : ActiveRecurrenceRecord) : bool :=
  let p := the_policy r in let a := the_authorization r in let g := the_progress r in
  policy_valid p && authorization_valid a && progress_valid g
  && all_of aware (next_run_at g :: created_at p :: updated_at r :: option_list (authorization_expires_at a)
                   ++ option_list (last_scheduled_at g) ++ option_list (next_retry_at g) ++ option_list (last_attempt_at g)).

(** The pattern of a zone's name: parts of letters, digits and [_+.-]. *)
Definition is_zone_name (s : string) : bool :=
  in_range 1 64 (Z.of_nat (len s))
  && all_of (λ part, truthy part && all_chars (λ c, is_ascii_alnum c || one_of "_+.-" c) part) (split_on "/" s).

(** The request with its weekdays in the order of the week. *)
(** backend/app/active_recurrence.py [ActiveRecurrenceCreateRequest.validate_window] *)
Definition validate_window (q : ActiveRecurrenceCreateRequest) : outcome ActiveRecurrenceCreateRequest :=
  raise "ValidationError"
    when (negb (mem (req_capability q) ActiveCapability && from_option (in_range 1 65535) true (req_port q)
                && existsb (Z.eqb (req_interval_days q)) [7; 14; 30] && is_zone_name (req_timezone_name q)
                && all_of (λ w, mem w ACTIVE_RECURRENCE_WEEKDAYS) (req_window_weekdays q)
                && in_range 1 7 (Z.of_nat (length (req_window_weekdays q)))
                && in_range 0 23 (req_window_start_hour q) && in_range 1 12 (req_window_duration_hours q)
                && is_hex32 (idempotency_key q) && unique (req_window_weekdays q)
                && (req_window_start_hour q + req_window_duration_hours q <=? 24)
                && is_ok (_load_timezone ZoneInfo (req_timezone_name q))));;
  Ok (CreateRequest (req_capability q) (req_port q) (req_interval_days q) (req_timezone_name q)
        (filter (λ w, w ∈ req_window_weekdays q) ACTIVE_RECURRENCE_WEEKDAYS)
        (req_window_start_hour q) (req_window_duration_hours q) (idempotency_key q)).

(** backend/app/active_recurrence.py [_utc] *)
Definition _utc (value : datetime) : outcome datetime := raise "timezone_required" when (negb (aware value));; Ok (as_utc value).

Definition utc_at (t : Z) : datetime := DT t (Some 0).

(** backend/app/active_recurrence.py [ActiveRecurrenceStore._validate_organization] *)
Definition _validate_organization (value : string) : outcome unit := raise "invalid_identity" when (negb (is_owner value));; Ok tt.

(** backend/app/active_recurrence.py [ActiveRecurrenceStore._validate_id] *)
Definition _validate_id (value : string) : outcome unit := raise "not_found" when (negb (is_hex32 value));; Ok tt.

(** backend/app/active_recurrence.py [ActiveRecurrenceStore._validate_scope] *)
Definition _validate_scope (organization asset : string) (actor : option string) : outcome unit :=
  _ ← _validate_organization organization;
  _ ← _validate_id asset;
  raise "invalid_identity" when (negb (from_option is_actor true actor));;
  Ok tt.

(** ** Files *)

(** What a file holds: a record, or what is not one. *)
Abbreviation content := (option ActiveRecurrenceRecord).
Abbreviation world := (memory * disk content)%type.

(** A policy of the first contract has no expiry: it is never left active. *)
(** backend/app/active_recurrence.py 574-584 [ActiveRecurrenceStore._read] *)
Definition migrated (r : ActiveRecurrenceRecord) : ActiveRecurrenceRecord :=
  let g := the_progress r in
  if bool_decide (authorization_expires_at (the_authorization r) = None) && String.eqb (status g) "active" then
    Recurrence (the_policy r) (the_authorization r)
      (Progress "suspended" "authorization_unavailable" (next_run_at g) (last_scheduled_at g) (last_job_id g) (failure_count g)
         None (last_attempt_at g) (last_outcome g)) (updated_at r)
  else r.

(** backend/app/active_recurrence.py 568-584 [ActiveRecurrenceStore._read] *)
Definition read_content (c : content) (organization schedule : string) : outcome ActiveRecurrenceRecord :=
  match c with
  | None => Err "store_invalid"
  | Some r =>
      raise "store_invalid" when (negb (record_valid r));;
      raise "store_invalid"
        when (negb (String.eqb (id (the_policy r)) schedule && String.eqb (organization_id (the_policy r)) organization));;
      Ok (migrated r)
  end.

(** backend/app/active_recurrence.py [ActiveRecurrenceStore._read] *)
Definition _read (d : disk content) (organization schedule : string) : outcome ActiveRecurrenceRecord :=
  c ← or_raise (files d !! (organization, schedule)) "not_found";
  read_content c organization schedule.

(** What the index reads of a record. *)
(** backend/app/active_recurrence_index.py [active_recurrence_record_digest] *)
Definition active_recurrence_record_digest (r : ActiveRecurrenceRecord) : string := sha256_hex (utf8 (record_json r)).

#[export] Instance recurrence_indexed : Indexed ActiveRecurrenceRecord := {|
  r_id := λ r, id (the_policy r);
  r_organization_id := λ r, organization_id (the_policy r);
  r_asset_id := λ r, asset_id (the_policy r);
  r_status := λ r, status (the_progress r);
  r_next_run := λ r, instant (next_run_at (the_progress r));
  r_next_retry := λ r, instant <$> next_retry_at (the_progress r);
  r_digest := active_recurrence_record_digest
|}.

(** The file, then the index. *)
Definition save (r : ActiveRecurrenceRecord) (w : world) : outcome unit * world :=
  sync_after_write read_content r
    (w.1, write_file (organization_id (the_policy r), id (the_policy r)) (Some r) w.2).

(** The records of an organization's directory, in no order that matters. *)
(** backend/app/active_recurrence.py [ActiveRecurrenceStore._load_organization_unlocked] *)
Definition _load_organization_unlocked (d : disk content) (organization : string) : outcome (list ActiveRecurrenceRecord) :=
  traverse (λ kc : (string * string) * content,
      raise "store_invalid" when (negb (is_hex32 kc.1.2));; read_content kc.2 organization kc.1.2)
    (filter (λ kc, kc.1.1 = organization) (map_to_list (files d))).

(** ** Creating *)

(** The identifier of a schedule. *)
(** backend/app/active_recurrence.py 215-217 [ActiveRecurrenceStore.create] *)
Definition schedule_id (organization actor key : string) : string :=
  str_take 32 (sha256_hex (ACTIVE_RECURRENCE_IDEMPOTENCY_DOMAIN_VERSION ++ text ["000"%char] ++ organization
                           ++ text ["000"%char] ++ actor ++ text ["000"%char] ++ key)).

Definition next_run (now : datetime) (i : string) (p : policy) : outcome datetime :=
  t ← _next_run ZoneInfo (instant now) (interval_days p) i (timezone_name p) (window_weekdays p)
        (window_start_hour p) (window_duration_hours p);
  Ok (utc_at t).

(** The record of a request. *)
(** backend/app/active_recurrence.py 214-249 [ActiveRecurrenceStore.create] *)
Definition new_record (q : ActiveRecurrenceCreateRequest) (organization asset actor role : string) (a : authorization)
    (raw_now : datetime) : outcome ActiveRecurrenceRecord :=
  _ ← _validate_scope organization asset (Some actor);
  let i := schedule_id organization actor (idempotency_key q) in
  now ← _utc raw_now;
  let p := Policy i organization asset (req_capability q) (req_port q) (req_interval_days q) (req_timezone_name q)
             (req_window_weekdays q) (req_window_start_hour q) (req_window_duration_hours q) now actor role in
  next_at ← next_run now i p;
  expires ← or_raise (authorization_expires_at a) "AttributeError";
  expires_utc ← _utc expires;
  raise "authorization_window_unavailable" when (instant expires_utc <=? instant next_at);;
  let r := Recurrence p a (Progress "active" "scheduled" next_at None None 0 None None "never") now in
  raise "ValidationError" when (negb (record_valid r));;
  Ok r.

#[export] Instance datetime_eq_dec : EqDecision datetime.
Proof. solve_decision. Defined.

(** Aware datetimes are equal when their instants are. *)
Definition same_time (a b : option datetime) : bool := bool_decide (instant <$> a = instant <$> b).

(** backend/app/active_recurrence.py [ActiveRecurrenceStore._same_creation] *)
Definition _same_creation (l r : ActiveRecurrenceRecord) : bool :=
  let p := the_policy l in let q := the_policy r in let a := the_authorization l in let b := the_authorization r in
  String.eqb (organization_id p) (organization_id q) && String.eqb (asset_id p) (asset_id q)
  && String.eqb (capability p) (capability q) && bool_decide (port p = port q) && (interval_days p =? interval_days q)
  && String.eqb (timezone_name p) (timezone_name q) && bool_decide (window_weekdays p = window_weekdays q)
  && (window_start_hour p =? window_start_hour q) && (window_duration_hours p =? window_duration_hours q)
  && String.eqb (authorization_revision_id a) (authorization_revision_id b)
  && String.eqb (authorization_revision_digest_sha256 a) (authorization_revision_digest_sha256 b)
  && (authorization_revision_sequence a =? authorization_revision_sequence b)
  && same_time (authorization_expires_at a) (authorization_expires_at b)
  && String.eqb (verification_id a) (verification_id b) && String.eqb (actor_id p) (actor_id q)
  && String.eqb (actor_role p) (actor_role q).

Definition same_slot (asset cap : string) (pt : option Z) (r : ActiveRecurrenceRecord) : bool :=
  String.eqb (asset_id (the_policy r)) asset && String.eqb (capability (the_policy r)) cap && bool_decide (port (the_policy r) = pt).

(** backend/app/active_recurrence.py [ActiveRecurrenceStore.create] *)
Definition create (w : world) (deleting : string → bool) (q : ActiveRecurrenceCreateRequest)
    (organization asset actor role : string) (a : authorization) (raw_now : datetime)
    : outcome (ActiveRecurrenceRecord * bool) * world :=
  match new_record q organization asset actor role a raw_now with
  | Err e => (Err e, w)
  | Ok r =>
      let i := id (the_policy r) in
      if bool_decide (is_Some (files w.2 !! (organization, i))) then
        ((existing ← _read w.2 organization i;
          if _same_creation existing r then Ok (existing, true) else Err "idempotency_conflict"), w)
      else
        match _load_organization_unlocked w.2 organization with
        | Err e => (Err e, w)
        | Ok records =>
            if (ACTIVE_RECURRENCE_MAX_PER_ORGANIZATION <=? length records)%nat then (Err "capacity_reached", w) else
            if any_of (same_slot asset (req_capability q) (req_port q)) records then (Err "schedule_conflict", w) else
            if deleting asset then (Err "asset_unavailable", w) else
            let '(o, w') := save r w in ((_ ← o; Ok (r, false)), w')
        end
  end.

(** ** Listing *)

(** Errors of the index, but for those of the scope, are the store's. *)
Definition store_error {A} (o : outcome A) : outcome A := match o with Ok a => Ok a | Err _ => Err "store_invalid" end.

(** [sorted(..., key=lambda item: (item.created_at, item.id))] *)
Definition created_order (a b : ActiveRecurrenceRecord) : Prop :=
  instant (created_at (the_policy a)) < instant (created_at (the_policy b))
  ∨ (instant (created_at (the_policy a)) = instant (created_at (the_policy b)) ∧ str_le (id (the_policy a)) (id (the_policy b))).
#[global] Instance created_order_dec a b : Decision (created_order a b).
Proof. unfold created_order. apply _. Defined.

(** backend/app/active_recurrence.py [ActiveRecurrenceStore.list_for_asset] *)
Definition list_for_asset (organization asset : string) (w : world) : outcome (list ActiveRecurrenceRecord) * world :=
  match _validate_scope organization asset None with
  | Err e => (Err e, w)
  | Ok _ => let '(o, w') := records_for_asset read_content organization asset w in
            ((rs ← store_error o; Ok (merge_sort created_order rs)), w')
  end.

(** backend/app/active_recurrence.py [ActiveRecurrenceStore.count_for_asset_unlocked] *)
Definition count_for_asset_unlocked (organization asset : string) (w : world) : outcome Z * world :=
  match _validate_scope organization asset None with
  | Err e => (Err e, w)
  | Ok _ => let '(o, w') := count_for_asset read_content organization asset w in (store_error o, w')
  end.

(** backend/app/active_recurrence.py [ActiveRecurrenceStore.list_for_assets] *)
Definition list_for_assets (organization : string) (assets : gset string) (w : world)
    : outcome (list ActiveRecurrenceRecord) * world :=
  match _validate_organization organization with
  | Err e => (Err e, w)
  | Ok _ => let '(o, w') := records_for_assets read_content organization assets w in (store_error o, w')
  end.

(** [recurrence_is_within_window] of the record. *)
(** backend/app/active_recurrence.py [recurrence_is_within_window] *)
Definition recurrence_is_within_window (now : datetime) (r : ActiveRecurrenceRecord) : outcome bool :=
  let p := the_policy r in
  is_within_window ZoneInfo (timezone_name p) (window_weekdays p) (window_start_hour p) (window_duration_hours p) (instant now).

(** backend/app/active_recurrence.py [ActiveRecurrenceStore.list_due] *)
Definition list_due (raw_now : datetime) (limit : nat) (w : world) : outcome (list ActiveRecurrenceRecord) * world :=
  match _utc raw_now with
  | Err e => (Err e, w)
  | Ok now =>
      if negb ((1 <=? limit)%nat && (limit <=? ACTIVE_RECURRENCE_MAX_DUE_PER_TICK)%nat) then (Err "invalid_limit", w) else
      let '(o, w') := due_records read_content now limit (recurrence_is_within_window now) w in (store_error o, w')
  end.

(** backend/app/active_recurrence.py [ActiveRecurrenceStore.get] *)
Definition get (w : world) (schedule organization asset : string) : outcome ActiveRecurrenceRecord :=
  _ ← _validate_scope organization asset None;
  _ ← _validate_id schedule;
  r ← _read w.2 organization schedule;
  raise "not_found" when (negb (String.eqb (asset_id (the_policy r)) asset));;
  Ok r.

(** ** Changing *)

(** What is done to the fields that change. *)
Definition with_progress (r : ActiveRecurrenceRecord) (a : authorization) (g : progress) (now : datetime) : ActiveRecurrenceRecord :=
  Recurrence (the_policy r) a g now.

Definition set_status (g : progress) (st reason : string) : progress :=
  Progress st reason (next_run_at g) (last_scheduled_at g) (last_job_id g) (failure_count g) (next_retry_at g)
    (last_attempt_at g) (last_outcome g).

(** The record a change writes, or why there is none. *)
(** backend/app/active_recurrence.py 533-544 [ActiveRecurrenceStore._mutate] *)
Definition mutation (d : disk content) (schedule organization asset : string) (expected_updated_at : datetime)
    (update : ActiveRecurrenceRecord → authorization * progress) (raw_now : datetime) : outcome ActiveRecurrenceRecord :=
  _ ← _validate_scope organization asset None;
  _ ← _validate_id schedule;
  current ← _read d organization schedule;
  raise "not_found" when (negb (String.eqb (asset_id (the_policy current)) asset));;
  expected ← _utc expected_updated_at;
  raise "state_changed" when (negb (instant (updated_at current) =? instant expected));;
  now ← _utc raw_now;
  let changed := with_progress current (update current).1 (update current).2 now in
  raise "ValidationError" when (negb (record_valid changed));;
  Ok changed.

(** backend/app/active_recurrence.py [ActiveRecurrenceStore._mutate] *)
Definition _mutate (w : world) (schedule organization asset : string) (expected_updated_at : datetime)
    (update : ActiveRecurrenceRecord → authorization * progress) (raw_now : datetime)
    : outcome ActiveRecurrenceRecord * world :=
  match mutation w.2 schedule organization asset expected_updated_at update raw_now with
  | Err e => (Err e, w)
  | Ok changed => let '(o, w') := save changed w in ((_ ← o; Ok changed), w')
  end.

(** backend/app/active_recurrence.py [ActiveRecurrenceStore.pause] *)
Definition pause (w : world) (schedule organization asset : string) (expected_updated_at now : datetime)
    : outcome ActiveRecurrenceRecord * world :=
  _mutate w schedule organization asset expected_updated_at
    (λ r, (the_authorization r, set_status (the_progress r) "paused" "operator_paused")) now.

(** backend/app/active_recurrence.py [ActiveRecurrenceStore.resume] *)
Definition resume (w : world) (schedule organization asset : string) (expected_updated_at : datetime) (a : authorization)
    (now at_write : datetime) : outcome ActiveRecurrenceRecord * world :=
  match
    (now ← _utc now;
     current ← get w schedule organization asset;
     next_at ← next_run now (id (the_policy current)) (the_policy current);
     expires ← or_raise (authorization_expires_at a) "AttributeError";
     expires_utc ← _utc expires;
     raise "authorization_window_unavailable" when (instant expires_utc <=? instant next_at);;
     Ok next_at)
  with
  | Err e => (Err e, w)
  | Ok next_at =>
      _mutate w schedule organization asset expected_updated_at
        (λ r, (a, Progress "active" "scheduled" next_at (last_scheduled_at (the_progress r)) (last_job_id (the_progress r)) 0 None
                    (last_attempt_at (the_progress r)) "never")) at_write
  end.

(** backend/app/active_recurrence.py [ActiveRecurrenceStore.suspend] *)
Definition suspend (w : world) (r : ActiveRecurrenceRecord) (reason : string) (now : datetime)
    : outcome ActiveRecurrenceRecord * world :=
  if negb (mem reason ["authorization_unavailable"; "authorization_revision_changed"; "verification_unavailable"; "capability_disabled"])
  then (Err "invalid_reason", w) else
  _mutate w (id (the_policy r)) (organization_id (the_policy r)) (asset_id (the_policy r)) (updated_at r)
    (λ c, (the_authorization c, set_status (the_progress c) "suspended" reason)) now.

(** The loop of [suspend_for_asset]; each record suspended reads the clock. *)
Fixpoint suspend_all (w : world) (rs : list ActiveRecurrenceRecord) (asset reason : string) (readings : nat → datetime) (changed : nat)
    : outcome nat * world :=
  match rs with
  | [] => (Ok changed, w)
  | r :: rs' =>
      if negb (String.eqb (asset_id (the_policy r)) asset) || negb (String.eqb (status (the_progress r)) "active")
      then suspend_all w rs' asset reason readings changed else
      match _utc (readings changed) with
      | Err e => (Err e, w)
      | Ok now =>
          match save (with_progress r (the_authorization r) (set_status (the_progress r) "suspended" reason) now) w with
          | (Err e, w') => (Err e, w')
          | (Ok _, w') => suspend_all w' rs' asset reason readings (S changed)
          end
      end
  end.

(** backend/app/active_recurrence.py [ActiveRecurrenceStore.suspend_for_asset] *)
Definition suspend_for_asset (w : world) (organization asset reason : string) (readings : nat → datetime) : outcome nat * world :=
  match _validate_scope organization asset None with
  | Err e => (Err e, w)
  | Ok _ =>
      if negb (mem reason ["authorization_unavailable"; "authorization_revision_changed"; "verification_unavailable"])
      then (Err "invalid_reason", w) else
      match records_for_asset read_content organization asset w with
      | (Err _, w') => (Err "store_invalid", w')
      | (Ok rs, w') => suspend_all w' rs asset reason readings 0
      end
  end.

(** The next run is at or after the end of the authorization. *)
Definition ended (a : authorization) (t : datetime) : bool :=
  from_option (λ e, instant e <=? instant t) false (authorization_expires_at a).

(** backend/app/active_recurrence.py [ActiveRecurrenceStore.record_dispatch] *)
Definition record_dispatch (w : world) (r : ActiveRecurrenceRecord) (job_id : string) (raw_observed at_write : datetime)
    : outcome ActiveRecurrenceRecord * world :=
  match (observed ← _utc raw_observed; next_at ← next_run observed (id (the_policy r)) (the_policy r); Ok (observed, next_at)) with
  | Err e => (Err e, w)
  | Ok (observed, next_at) =>
      let over := ended (the_authorization r) next_at in
      _mutate w (id (the_policy r)) (organization_id (the_policy r)) (asset_id (the_policy r)) (updated_at r)
        (λ c, (the_authorization c,
               Progress (if over then "suspended" else "active") (if over then "authorization_unavailable" else "scheduled")
                 next_at (Some (next_run_at (the_progress r))) (Some job_id) 0 None (Some observed) "scheduled")) at_write
  end.

(** Failures so far, and when to try again. *)
(** backend/app/active_recurrence.py 472-480 [ActiveRecurrenceStore.record_failure] *)
Definition next_retry (r : ActiveRecurrenceRecord) (observed : datetime) : outcome (Z * datetime) :=
  let p := the_policy r in
  let n := Z.min (failure_count (the_progress r) + 1) ACTIVE_RECURRENCE_MAX_FAILURES in
  let delay := Z.min (300 * 2 ^ (n - 1)) ACTIVE_RECURRENCE_MAX_BACKOFF_SECONDS in
  jitter ← recurrence_retry_jitter_seconds (id p) n;
  t ← _next_window_time ZoneInfo (instant observed + seconds (delay + jitter)) (id p) (timezone_name p) (window_weekdays p)
        (window_start_hour p) (window_duration_hours p);
  Ok (n, utc_at t).

(** backend/app/active_recurrence.py [ActiveRecurrenceStore.record_failure] *)
Definition record_failure (w : world) (r : ActiveRecurrenceRecord) (reason : string) (raw_observed at_write : datetime)
    : outcome ActiveRecurrenceRecord * world :=
  match (observed ← _utc raw_observed; nt ← next_retry r observed; Ok (observed, nt)) with
  | Err e => (Err e, w)
  | Ok (observed, (n, retry_at)) =>
      let over := ended (the_authorization r) retry_at in
      _mutate w (id (the_policy r)) (organization_id (the_policy r)) (asset_id (the_policy r)) (updated_at r)
        (λ c, (the_authorization c,
               Progress (if over then "suspended" else "active") (if over then "authorization_unavailable" else "scheduled")
                 (next_run_at (the_progress c)) (last_scheduled_at (the_progress c)) (last_job_id (the_progress c)) n
                 (if over then None else Some retry_at) (Some observed) reason)) at_write
  end.

(** ** Deleting *)

(** backend/app/active_recurrence.py [ActiveRecurrenceStore.delete] *)
Definition delete_schedule (w : world) (schedule organization asset : string) : outcome unit * world :=
  match get w schedule organization asset with
  | Err e => (Err e, w)
  | Ok _ => sync_after_delete read_content organization schedule (w.1, unlink_file (organization, schedule) w.2)
  end.

(** backend/app/active_recurrence.py [ActiveRecurrenceStore.delete_for_asset] *)
Definition delete_for_asset (w : world) (organization asset : string) : outcome nat * world :=
  match _validate_scope organization asset None with
  | Err e => (Err e, w)
  | Ok _ =>
      match records_for_asset read_content organization asset w with
      | (Err _, w') => (Err "store_invalid", w')
      | (Ok rs, w') =>
          let d := foldl (λ d r, unlink_file (organization, id (the_policy r)) d) w'.2 rs in
          let '(o, w'') := sync_after_asset_delete read_content organization asset (w'.1, d) in
          ((_ ← o; Ok (length rs)), w'')
      end
  end.

(** backend/app/active_recurrence.py [recurrence_occurrence_key] *)
Definition recurrence_occurrence_key (isoformat : datetime → string) (r : ActiveRecurrenceRecord) : string :=
  sha256_hex (ACTIVE_RECURRENCE_IDEMPOTENCY_DOMAIN_VERSION ++ text ["000"%char] ++ organization_id (the_policy r)
              ++ text ["000"%char] ++ id (the_policy r) ++ text ["000"%char] ++ isoformat (as_utc (next_run_at (the_progress r)))).

(** ** The index under the store *)

Lemma read_content_ok c o i r :
  read_content c o i = Ok r ↔
  ∃ r0, c = Some r0 ∧ record_valid r0 = true ∧ id (the_policy r0) = i ∧ organization_id (the_policy r0) = o ∧ r = migrated r0.
Proof.
  unfold read_content. destruct c as [r0|]; [|split; [done|by intros (? & ? & _)]].
  destruct (record_valid r0) eqn:Hv; cbn [negb]; [|split; [done|intros (r1 & [= <-] & Hv' & _); congruence]].
  destruct (String.eqb_spec (id (the_policy r0)) i) as [Hi|Hi], (String.eqb_spec (organization_id (the_policy r0)) o) as [Ho|Ho]; cbn.
  2,3,4: split; [done|]; intros (r1 & [= <-] & _ & ? & ? & _); congruence.
  split; [intros [= <-]; by exists r0|]. by intros (r1 & [= <-] & _ & _ & _ & ->).
Qed.

Lemma migrated_policy r : the_policy (migrated r) = the_policy r.
Proof. unfold migrated. by case_match. Qed.

Lemma migrated_twice r : migrated (migrated r) = migrated r.
Proof. unfold migrated at 2 3. case_match eqn:H; unfold migrated; [cbn; by rewrite andb_false_r|by rewrite H]. Qed.

Lemma active_migrated r : authorization_expires_at (the_authorization r) ≠ None ∨ status (the_progress r) ≠ "active" → migrated r = r.
Proof.
  intros Hr. unfold migrated. destruct (bool_decide_reflect (authorization_expires_at (the_authorization r) = None)); cbn; [|done].
  destruct (String.eqb_spec (status (the_progress r)) "active"); [|done]. by destruct Hr.
Qed.

Lemma migrated_active r :
  status (the_progress (migrated r)) = "active" → ∃ e, authorization_expires_at (the_authorization (migrated r)) = Some e.
Proof.
  unfold migrated. case_match eqn:Hm; [done|]. intros Hs. rewrite Hs in Hm. cbn in Hm. rewrite andb_true_r in Hm.
  apply bool_decide_eq_false in Hm. destruct (authorization_expires_at _) as [e|]; [by exists e|done].
Qed.

Lemma record_valid_fields r :
  record_valid r = true →
  is_hex32 (id (the_policy r)) = true ∧ is_owner (organization_id (the_policy r)) = true
  ∧ is_hex32 (asset_id (the_policy r)) = true ∧ mem (status (the_progress r)) ["active"; "paused"; "suspended"] = true
  ∧ 0 <= failure_count (the_progress r) <= ACTIVE_RECURRENCE_MAX_FAILURES.
Proof.
  unfold record_valid. cbn zeta. rewrite !andb_true_iff. intros [[[Hp _] Hg] _].
  unfold policy_valid in Hp. unfold progress_valid, in_range in Hg. to_prop. done.
Qed.

#[export] Instance recurrence_loader_laws : LoaderLaws read_content.
Proof.
  split; intros c o i r (r0 & -> & Hv & Hi & Ho & ->)%read_content_ok; cbn; rewrite migrated_policy; [done|].
  apply record_valid_fields in Hv as (_ & _ & Ha & Hs & _). split; [done|]. unfold migrated. by case_match.
Qed.

(** The index is right about the files, and identifiers name one file. *)
Definition world_ok (w : world) : Prop := index_ok (rebuilt_rows read_content) w ∧ ids_unique (files w.2).

Lemma write_index_ok w k c r :
  index_ok (rebuilt_rows read_content) w → ids_unique (files w.2) → ids_unique (<[k := c]> (files w.2)) →
  is_hex32 k.2 = true → is_owner k.1 = true → read_content c k.1 k.2 = Ok r →
  let result := sync_after_write read_content r (w.1, write_file k c w.2) in
  result.1 = Ok tt ∧ index_ok (rebuilt_rows read_content) result.2 ∧ files result.2.2 = <[k := c]> (files w.2).
Proof.
  intros Hok Hu Hu' Hi Ho Hload. destruct w as [m d], k as [o i]. cbn in *.
  destruct (sync_with_ok (rebuilt_rows read_content) (λ t, _replace_record t r) m d (write_file (o, i) c d)) as (H1 & H2 & H3 & _); try done.
  all: cbn; first [lia|left; lia|intros t Ht; by apply (rebuilt_write read_content _ _ _ _ r t)].
Qed.

Lemma save_ok w r :
  world_ok w → (∀ o, o ≠ organization_id (the_policy r) → files w.2 !! (o, id (the_policy r)) = None) →
  record_valid r = true → migrated r = r →
  (save r w).1 = Ok tt ∧ world_ok (save r w).2
  ∧ files (save r w).2.2 = <[(organization_id (the_policy r), id (the_policy r)) := Some r]> (files w.2).
Proof.
  intros [Hok Hu] Hnew Hv Hm. pose proof (record_valid_fields r Hv) as (Hi & Ho & _).
  set (k := (organization_id (the_policy r), id (the_policy r))).
  assert (Hu' : ids_unique (<[k := Some r]> (files w.2))).
  { assert (Hone : ∀ o i c, <[k := Some r]> (files w.2) !! (o, i) = Some c →
      i = id (the_policy r) → o = organization_id (the_policy r)).
    { intros o i c [[Hk _]|[_ Hc]]%lookup_insert_Some ->; [by injection Hk as <-|].
      destruct (decide (o = organization_id (the_policy r))) as [|Hne]; [done|]. rewrite Hnew in Hc; done. }
    intros o o' i [c Hc] [c' Hc']. destruct (decide (i = id (the_policy r))) as [Hid|Hid].
    - by rewrite (Hone _ _ _ Hc Hid), (Hone _ _ _ Hc' Hid).
    - rewrite lookup_insert_ne in Hc, Hc' by (unfold k; congruence). apply (Hu _ _ i); eauto. }
  destruct (write_index_ok w k (Some r) r) as (H1 & H2 & H3); try done.
  { apply read_content_ok. by exists r. }
  change (save r w) with (sync_after_write read_content r (w.1, write_file k (Some r) w.2)).
  split; [exact H1|]. split; [|exact H3]. split; [exact H2|]. by rewrite H3.
Qed.

Lemma read_ok w organization schedule r :
  _read w organization schedule = Ok r →
  ∃ r0, files w !! (organization, schedule) = Some (Some r0) ∧ record_valid r0 = true ∧ id (the_policy r0) = schedule
    ∧ organization_id (the_policy r0) = organization ∧ r = migrated r0.
Proof.
  unfold _read. intros H. apply bind_ok in H as (c & Hc%or_raise_ok & Hr). apply read_content_ok in Hr as (r0 & -> & Hr0). by exists r0.
Qed.

(** What a change finds, and what it writes. *)
Lemma mutation_ok d schedule organization asset expected update now r :
  mutation d schedule organization asset expected update now = Ok r →
  ∃ current, _read d organization schedule = Ok current ∧ asset_id (the_policy current) = asset
    ∧ aware expected = true ∧ instant (updated_at current) = instant expected ∧ aware now = true
    ∧ r = with_progress current (update current).1 (update current).2 (as_utc now) ∧ record_valid r = true.
Proof.
  unfold mutation, _utc. intros Hc.
  apply bind_ok in Hc as (_ & _ & Hc). apply bind_ok in Hc as (_ & _ & Hc). apply bind_ok in Hc as (current & Hread & Hc).
  destruct (String.eqb_spec (asset_id (the_policy current)) asset) as [Ha|]; [|done]. cbn [negb] in Hc.
  destruct (aware expected) eqn:He; [|done]. cbn [negb mbind outcome_bind] in Hc. rewrite instant_as_utc in Hc.
  destruct (Z.eqb_spec (instant (updated_at current)) (instant expected)) as [Hu|]; [|done]. cbn [negb] in Hc.
  destruct (aware now) eqn:Hn; [|done]. cbn [negb mbind outcome_bind] in Hc. cbv zeta in Hc.
  destruct (record_valid _) eqn:Hv; [|done]. injection Hc as <-. exists current. done.
Qed.

(** The other names of an identifier are free. *)
Lemma read_names_free w o i current :
  world_ok w → _read w.2 o i = Ok current →
  ∀ o', o' ≠ organization_id (the_policy current) → files w.2 !! (o', id (the_policy current)) = None.
Proof.
  intros [_ Hu] (r0 & Hf & _ & Hi & Ho & ->)%read_ok o' Hne. rewrite migrated_policy in *. rewrite Hi, Ho in *.
  destruct (files w.2 !! (o', i)) eqn:Hex; [|done]. destruct Hne. apply (Hu _ _ i); eauto.
Qed.

(** A change of one record keeps the index right. *)
Lemma mutate_world_ok w schedule organization asset expected update now :
  world_ok w →
  (∀ current, _read w.2 organization schedule = Ok current → instant (updated_at current) = instant expected →
     authorization_expires_at (update current).1 ≠ None ∨ status (update current).2 ≠ "active") →
  let result := _mutate w schedule organization asset expected update now in
  world_ok result.2 ∧ is_ok result.1 = is_ok (mutation w.2 schedule organization asset expected update now).
Proof.
  intros Hok Hact result. unfold result, _mutate. destruct (mutation _ _ _ _ _ _ _) as [r|e] eqn:Hm; [|done].
  apply mutation_ok in Hm as (current & Hread & _ & _ & Hu & _ & -> & Hv).
  destruct (save_ok w (with_progress current (update current).1 (update current).2 (as_utc now))) as (Hs & Hw & _); try done.
  { exact (read_names_free w organization schedule current Hok Hread). }
  { apply active_migrated. by apply (Hact current). }
  destruct (save _ w) as [o w']. cbn in *. by subst o.
Qed.

(** ** Calls, restarts and what is done while the process is down *)

Inductive event : Type :=
| Create (deleting : string → bool) (q : ActiveRecurrenceCreateRequest) (organization asset actor role : string)
    (a : authorization) (now : datetime)
| Pause (schedule organization asset : string) (expected now : datetime)
| Resume (schedule organization asset : string) (expected : datetime) (a : authorization) (now at_write : datetime)
| Suspend (r : ActiveRecurrenceRecord) (reason : string) (now : datetime)
| SuspendForAsset (organization asset reason : string) (readings : nat → datetime)
| RecordDispatch (r : ActiveRecurrenceRecord) (job : string) (observed at_write : datetime)
| RecordFailure (r : ActiveRecurrenceRecord) (reason : string) (observed at_write : datetime)
| Delete (schedule organization asset : string)
| DeleteForAsset (organization asset : string)
| ListForAsset (organization asset : string)
| ListForAssets (organization : string) (assets : gset string)
| CountForAsset (organization asset : string)
| ListDue (now : datetime) (limit : nat)
(** The process stops, at any point of a call; the files may be others when it
    starts again. *)
| Restart (fs : option (gmap (string * string) content)).

Definition restarted (w : world) (fs : option (gmap (string * string) content)) : world :=
  match fs with
  | None => (None, w.2)
  | Some fs => (None, Disk fs (clock w.2 + 1) (index_file w.2) (clock w.2 + 1))
  end.

Definition after (w : world) (e : event) : world :=
  match e with
  | Create deleting q o s actor role a now => (create w deleting q o s actor role a now).2
  | Pause i o s expected now => (pause w i o s expected now).2
  | Resume i o s expected a now at_write => (resume w i o s expected a now at_write).2
  | Suspend r reason now => (suspend w r reason now).2
  | SuspendForAsset o s reason readings => (suspend_for_asset w o s reason readings).2
  | RecordDispatch r job observed at_write => (record_dispatch w r job observed at_write).2
  | RecordFailure r reason observed at_write => (record_failure w r reason observed at_write).2
  | Delete i o s => (delete_schedule w i o s).2
  | DeleteForAsset o s => (delete_for_asset w o s).2
  | ListForAsset o s => (list_for_asset o s w).2
  | ListForAssets o ss => (list_for_assets o ss w).2
  | CountForAsset o s => (count_for_asset_unlocked o s w).2
  | ListDue now limit => (list_due now limit w).2
  | Restart fs => restarted w fs
  end.

Definition run (w : world) (es : list event) : world := foldl after w es.

(** A record handed back is the one its time names: no two versions of a
    record were written in one microsecond. *)
Definition current_version (w : world) (r : ActiveRecurrenceRecord) : Prop :=
  ∀ c, _read w.2 (organization_id (the_policy r)) (id (the_policy r)) = Ok c → instant (updated_at c) = instant (updated_at r) →
       c = r ∧ status (the_progress c) = "active".

(** Identifiers are digests of the organization too: no two organizations
    share one. *)
Definition legal (w : world) (e : event) : Prop :=
  match e with
  | Create _ q o _ actor _ _ _ => ∀ o', o' ≠ o → files w.2 !! (o', schedule_id o actor (idempotency_key q)) = None
  | RecordDispatch r _ _ _ | RecordFailure r _ _ _ => current_version w r
  | Restart (Some fs) => ids_unique fs
  | _ => True
  end.

Fixpoint legal_run (w : world) (es : list event) : Prop :=
  match es with
  | [] => True
  | e :: es' => legal w e ∧ legal_run (after w e) es'
  end.

Lemma legal_run_app w es es' : legal_run w (es ++ es') ↔ legal_run w es ∧ legal_run (run w es) es'.
Proof.
  revert w. induction es as [|e es IH]; intros w; cbn [app legal_run]; [by split; [|intros []]|].
  rewrite IH. unfold run. cbn [foldl]. tauto.
Qed.

Lemma ensure_world_ok w : world_ok w → world_ok (ensure_current index_invalid (rebuilt_rows read_content) w).2.
Proof.
  intros [Hok Hu]. destruct (ensure_current_ok index_invalid (rebuilt_rows read_content) w Hok) as [Hok' [Hf _]]. split; [done|]. by rewrite Hf.
Qed.

Lemma current_world w : (current_rows index_invalid (rebuilt_rows read_content) w).2 = (ensure_current index_invalid (rebuilt_rows read_content) w).2.
Proof. unfold current_rows. by destruct (ensure_current index_invalid (rebuilt_rows read_content) w) as [[]]. Qed.

Lemma records_for_asset_world o s w :
  world_ok w → world_ok (records_for_asset read_content o s w).2 ∧ files (records_for_asset read_content o s w).2.2 = files w.2.
Proof.
  intros Hok. unfold records_for_asset. destruct (negb _); [done|]. pose proof (ensure_world_ok w Hok) as Hw.
  pose proof (current_files index_invalid (rebuilt_rows read_content) w (proj1 Hok)) as Hf. rewrite current_world in Hf.
  pose proof (current_world w) as Hc. destruct (current_rows index_invalid (rebuilt_rows read_content) w) as [t w']. cbn in *. by rewrite Hc.
Qed.

Lemma new_record_ok q o s actor role a now r :
  new_record q o s actor role a now = Ok r →
  ∃ next_at e, next_run (as_utc now) (id (the_policy r)) (the_policy r) = Ok next_at ∧ authorization_expires_at a = Some e
  ∧ instant next_at < instant e ∧ aware now = true ∧ record_valid r = true
  ∧ r = Recurrence (Policy (schedule_id o actor (idempotency_key q)) o s (req_capability q) (req_port q) (req_interval_days q)
             (req_timezone_name q) (req_window_weekdays q) (req_window_start_hour q) (req_window_duration_hours q)
             (as_utc now) actor role) a (Progress "active" "scheduled" next_at None None 0 None None "never") (as_utc now).
Proof.
  unfold new_record, _utc. intros H. apply bind_ok in H as (_ & _ & H). destruct (aware now) eqn:Hn; [|done].
  cbn [negb mbind outcome_bind] in H. cbv zeta in H. apply bind_ok in H as (next_at & Hnext & H).
  apply bind_ok in H as (e & He%or_raise_ok & H). destruct (aware e); [|done]. cbn [negb mbind outcome_bind] in H.
  rewrite instant_as_utc in H. destruct (Z.leb_spec (instant e) (instant next_at)) as [|Hlt]; [done|].
  destruct (record_valid _) eqn:Hv; [|done]. injection H as <-. exists next_at, e. done.
Qed.

Lemma create_world_ok w deleting q o s actor role a now :
  world_ok w → legal w (Create deleting q o s actor role a now) → world_ok (create w deleting q o s actor role a now).2.
Proof.
  intros Hok Hl. unfold create. destruct (new_record _ _ _ _ _ _ _) as [r|] eqn:Hr; [|done].
  apply new_record_ok in Hr as (next_at & e & _ & He & _ & _ & Hv & Hr).
  destruct (bool_decide _); [done|]. destruct (_load_organization_unlocked _ _) as [rs|]; [|done].
  destruct (_ <=? length rs)%nat; [done|]. destruct (any_of _ rs); [done|]. destruct (deleting s); [done|].
  destruct (save_ok w r) as (_ & Hw & _); try done.
  - rewrite Hr. exact Hl.
  - apply active_migrated. left. rewrite Hr. cbn. by rewrite He.
  - by destruct (save r w).
Qed.

Lemma with_status_valid r st reason now :
  record_valid r = true → aware now = true → mem st ["active"; "paused"; "suspended"] = true →
  mem reason ["operator_paused"; "authorization_unavailable"; "authorization_revision_changed"; "verification_unavailable";
              "capability_disabled"] = true →
  record_valid (with_progress r (the_authorization r) (set_status (the_progress r) st reason) now) = true.
Proof.
  intros Hv Hn Hst Hre. unfold record_valid in *. cbn zeta in *. rewrite !andb_true_iff in *.
  destruct Hv as [[[Hp Ha] Hg] Ht]. split; [split; [by split|]|].
  - unfold progress_valid in *. cbn [the_progress with_progress status reason_code last_job_id failure_count last_outcome set_status].
    rewrite Hst. assert (mem reason ["scheduled"; "operator_paused"; "authorization_unavailable"; "authorization_revision_changed";
      "verification_unavailable"; "capability_disabled"] = true) as -> by (apply mem_true; right; by apply mem_true).
    rewrite !andb_true_iff in Hg. destruct Hg as [[[[_ _] Hj] Hf] Hl]. by rewrite Hj, Hf, Hl.
  - cbn in Ht |- *. rewrite !andb_true_iff in *. destruct Ht as (H1 & H2 & _ & H3). done.
Qed.

Lemma migrated_valid r : record_valid r = true → record_valid (migrated r) = true.
Proof.
  intros Hv. unfold migrated. case_match eqn:Hm; [|done]. apply andb_true_iff in Hm as [He _]. apply bool_decide_eq_true in He.
  unfold record_valid in *. cbn zeta in *. rewrite !andb_true_iff in *.
  destruct Hv as [[[Hp Ha] Hg] Ht]. split; [split; [by split|]|].
  - unfold progress_valid in *. rewrite !andb_true_iff in Hg. destruct Hg as [[[[_ _] Hj] Hf] Hl].
    cbn [status reason_code last_job_id failure_count last_outcome the_progress]. by rewrite Hj, Hf, Hl.
  - cbn [the_progress the_policy the_authorization updated_at next_run_at last_scheduled_at next_retry_at last_attempt_at].
    rewrite all_of_true in *. intros x Hx. apply Ht. rewrite !elem_of_cons, !elem_of_app in *. cbn [option_list] in Hx.
    rewrite elem_of_nil in Hx. tauto.
Qed.

(** The records of an asset are in its organization's files. *)
Lemma records_for_asset_in w o s rs w' :
  world_ok w → records_for_asset read_content o s w = (Ok rs, w') →
  world_ok w' ∧ files w'.2 = files w.2
  ∧ ∀ r, r ∈ rs ↔ record_in read_content (files w.2) r ∧ organization_id (the_policy r) = o ∧ asset_id (the_policy r) = s.
Proof.
  intros Hok Hrs. pose proof (records_for_asset_world o s w Hok) as [Hw Hf]. rewrite Hrs in Hw, Hf. split; [done|]. split; [done|].
  assert (Hv : is_owner o = true ∧ is_hex32 s = true).
  { unfold records_for_asset in Hrs. destruct (is_owner o), (is_hex32 s); done. }
  pose proof (records_for_asset_spec read_content o s w (proj1 Hok) (proj2 Hok) (proj1 Hv) (proj2 Hv)) as Hspec.
  rewrite Hrs in Hspec. cbn [fst] in Hspec. unfold answer in Hspec. symmetry in Hspec.
  apply bind_ok in Hspec as (all & Hl & [= <-]). intros r. rewrite chosen_in.
  rewrite (load_all_elem read_content _ _ _ Hl). unfold of_asset, row_of. cbn.
  rewrite andb_true_iff, !String.eqb_eq. tauto.
Qed.

Lemma record_in_file fs r :
  record_in read_content fs r →
  ∃ r0, fs !! (organization_id (the_policy r), id (the_policy r)) = Some (Some r0) ∧ record_valid r0 = true ∧ r = migrated r0.
Proof. intros (_ & c & Hc & (r0 & -> & Hv & _ & _ & ->)%read_content_ok). by exists r0. Qed.

(** What a file says, but for its status. *)
Definition plan (c : content) : option (policy * datetime) := (λ r, (the_policy r, next_run_at (the_progress r))) <$> c.

Lemma migrated_next r : next_run_at (the_progress (migrated r)) = next_run_at (the_progress r).
Proof. unfold migrated. by case_match. Qed.

Definition file_of (r : ActiveRecurrenceRecord) : string * string := (organization_id (the_policy r), id (the_policy r)).

Lemma suspend_all_ok w rs s reason readings n :
  world_ok w →
  mem reason ["authorization_unavailable"; "authorization_revision_changed"; "verification_unavailable"] = true →
  (∀ r, r ∈ rs → record_valid r = true ∧ ∃ c, files w.2 !! file_of r = Some c ∧ plan c = plan (Some r)) →
  world_ok (suspend_all w rs s reason readings n).2
  ∧ ∀ k c, files (suspend_all w rs s reason readings n).2.2 !! k = Some c → ∃ c0, files w.2 !! k = Some c0 ∧ plan c0 = plan c.
Proof.
  intros Hok Hre. assert (Hid : ∀ w : world, ∀ k c, files w.2 !! k = Some c → ∃ c0, files w.2 !! k = Some c0 ∧ plan c0 = plan c)
    by eauto.
  revert w n Hok. induction rs as [|r rs IH]; intros w n Hok Hrs; [split; [done|apply Hid]|]. cbn [suspend_all].
  destruct (negb _ || negb _); [apply IH; [done|]; intros r' Hr'; apply Hrs; by right|].
  unfold _utc. destruct (aware (readings n)) eqn:Hn; [|split; [done|apply Hid]]. cbn [negb].
  destruct (Hrs r) as [Hv (c & Hc & Hkc)]; [left|]. set (r' := with_progress _ _ _ _).
  destruct (save_ok w r') as (Hs & Hw & Hf).
  - done.
  - intros o Ho. cbn in Ho |- *. destruct (files w.2 !! (o, id (the_policy r))) eqn:Hex; [|done].
    destruct Ho. apply (proj2 Hok _ _ (id (the_policy r))); [eauto|]. by exists c.
  - apply with_status_valid; [done|done|done|]. apply mem_true. right. apply mem_true in Hre. set_solver.
  - by apply active_migrated; right.
  - assert (Hk' : plan c = plan (Some r')) by exact Hkc.
    destruct (save r' w) as [o w']. cbn in Hs, Hw, Hf. subst o.
    assert (Hstep : ∀ k c, files w'.2 !! k = Some c → ∃ c0, files w.2 !! k = Some c0 ∧ plan c0 = plan c).
    { intros k c1. rewrite Hf. intros [[<- <-]|[_ Hc1]]%lookup_insert_Some; [by exists c|apply (Hid w _ _ Hc1)]. }
    destruct (IH w' (S n) Hw) as [Hw'' Hf''].
    + intros r1 Hr1. destruct (Hrs r1) as [Hv1 (c1 & Hc1 & Hkc1)]; [by right|]. split; [done|]. rewrite Hf.
      destruct (decide (file_of r = file_of r1)) as [He|Hne]; [|exists c1; split; [by rewrite lookup_insert_ne by done|done]].
      exists (Some r'). unfold file_of in He. split; [by rewrite He; apply lookup_insert_eq|].
      assert (c1 = c) as -> by (unfold file_of in *; congruence). by rewrite <- Hk'.
    + split; [done|]. intros k c2 (c3 & (c4 & Hc4 & Hk4)%Hstep & Hk3)%Hf''. exists c4. split; [done|congruence].
Qed.

Lemma suspend_for_asset_ok w o s reason readings :
  world_ok w → world_ok (suspend_for_asset w o s reason readings).2
  ∧ ∀ k c, files (suspend_for_asset w o s reason readings).2.2 !! k = Some c → ∃ c0, files w.2 !! k = Some c0 ∧ plan c0 = plan c.
Proof.
  intros Hok. assert (Hid : ∀ k c, files w.2 !! k = Some c → ∃ c0, files w.2 !! k = Some c0 ∧ plan c0 = plan c)
    by eauto.
  unfold suspend_for_asset. destruct (_validate_scope o s None); [|done].
  destruct (mem reason _) eqn:Hre; cbn [negb]; [|done].
  destruct (records_for_asset read_content o s w) as [[rs|] w'] eqn:Hrs; cbn [snd].
  - apply records_for_asset_in in Hrs as (Hw & Hf & Hin); [|done]. rewrite <- Hf. apply suspend_all_ok; [done|done|].
    intros r (Hr & _ & _)%Hin. apply record_in_file in Hr as (r0 & Hr0 & Hv & ->). split; [by apply migrated_valid|].
    rewrite Hf. unfold file_of. rewrite Hr0. exists (Some r0). split; [done|]. cbn.
    by rewrite migrated_policy, migrated_next.
  - pose proof (records_for_asset_world o s w Hok) as [Hw Hf]. rewrite Hrs in Hw, Hf. cbn in Hf. by rewrite Hf.
Qed.

(** Unlinking the files of some records. *)
Lemma unlink_all (d : disk content) o rs :
  let d' := foldl (λ d r, unlink_file (o, id (the_policy r)) d) d rs in
  index_file d' = index_file d ∧ clock d <= clock d'
  ∧ (source_stamp d <= clock d → source_stamp d' <= clock d') ∧ (clock d < source_stamp d' ∨ d' = d)
  ∧ ∀ k, files d' !! k = if decide (k ∈ (λ r, (o, id (the_policy r))) <$> rs) then None else files d !! k.
Proof.
  revert d. induction rs as [|r rs IH]; intros d; cbn [foldl].
  - split; [done|]. split; [lia|]. split; [done|]. split; [by right|]. intros k. by rewrite decide_False by apply not_elem_of_nil.
  - specialize (IH (unlink_file (o, id (the_policy r)) d)) as (H1 & H2 & H3 & H4 & H5). cbn in H2, H3, H4.
    cbn zeta. split; [done|]. split; [lia|]. split; [intros _; apply H3; cbn; lia|]. split.
    + left. destruct H4 as [H4| ->]; [lia|cbn; lia].
    + intros k. rewrite H5. cbn [unlink_file files fmap list_fmap]. destruct (decide (k = (o, id (the_policy r)))) as [->|Hne].
      * rewrite lookup_delete_eq. rewrite (decide_True (P := _ ∈ _ :: _)) by left. by case_match.
      * rewrite lookup_delete_ne by done. destruct (decide (k ∈ _ <$> rs)) as [Hin|Hin].
        -- by rewrite decide_True by by right.
        -- rewrite decide_False; [done|]. by intros [|]%elem_of_cons.
Qed.

Lemma delete_for_asset_ok w o s : world_ok w → world_ok (delete_for_asset w o s).2.
Proof.
  intros Hok. unfold delete_for_asset. destruct (_validate_scope o s None); [|done].
  destruct (records_for_asset read_content o s w) as [[rs|] w'] eqn:Hrs; cbn [snd].
  2:{ pose proof (records_for_asset_world o s w Hok) as [Hw _]. by rewrite Hrs in Hw. }
  apply records_for_asset_in in Hrs as ([Hw Hu] & Hf & Hin); [|done]. destruct (unlink_all w'.2 o rs) as (H1 & H2 & H3 & H4 & H5).
  set (d := foldl _ w'.2 rs) in *.
  assert (Hsub : ∀ k c, files d !! k = Some c → files w'.2 !! k = Some c) by (intros k c; rewrite H5; by case_match).
  assert (Hud : ids_unique (files d)).
  { intros o1 o2 i [c Hc%Hsub] [c' Hc'%Hsub]. apply (Hu _ _ i); eauto. }
  set (p := λ (_ : string) row, String.eqb (RecurrenceIndex.organization_id row) o && String.eqb (RecurrenceIndex.asset_id row) s).
  destruct (sync_with_ok (rebuilt_rows read_content) (λ t, Ok (delete_where p t)) w'.1 w'.2 d) as (Ha & Hb & Hc & _); try done.
  - by apply H3, Hw.
  - intros t Ht. eexists. split; [done|]. apply (rebuilt_unlink read_content (files w'.2)); try done.
    + apply (rebuilt_rows_elim read_content _ _ Hu) in Ht as [Hread _]. intros o1 i c Hcc%Hsub. by apply Hread.
    + intros r. rewrite <- Hf in Hin. split.
      * intros (Hi & c & Hc & Hload). pose proof (Hsub _ _ Hc) as Hc0. split; [by split; [|exists c]|].
        apply not_true_is_false. intros [Ho%String.eqb_eq Hs%String.eqb_eq]%andb_true_iff. cbn in Ho, Hs.
        rewrite H5 in Hc. rewrite decide_True in Hc; [done|]. apply list_elem_of_fmap. exists r. split; [cbn; by rewrite Ho|].
        apply Hin. split; [|done]. split; [done|]. by exists c.
      * intros [(Hi & c & Hc & Hload) Hp]. split; [done|]. exists c. split; [|done]. rewrite H5.
        rewrite decide_False; [done|]. intros (r' & Hk & Hr')%list_elem_of_fmap. apply Hin in Hr' as ((_ & c' & Hc' & Hload') & Ho' & Hs').
        injection Hk as Hko Hki. cbn in Hc', Hload'. rewrite Ho', <- Hki in Hc'. cbn in Hc. rewrite Hko in Hc.
        assert (c' = c) as -> by congruence. cbn in Hload. rewrite Hko in Hload. rewrite Ho', <- Hki in Hload'.
        assert (r' = r) as -> by congruence. unfold p in Hp. cbn in Hp. by rewrite Ho', Hs', !String.eqb_refl in Hp.
  - unfold sync_after_asset_delete, _sync_delete. fold p. destruct (sync_with (rebuilt_rows read_content) _ (w'.1, d)) as [o' w''].
    cbn in *. split; [done|]. by rewrite Hc.
Qed.

(** ** Every call keeps the index right *)

Lemma pause_ok w i o s expected now : world_ok w → world_ok (pause w i o s expected now).2.
Proof. intros Hok. apply mutate_world_ok; [done|]. intros c _ _. by right. Qed.

Lemma resume_ok w i o s expected a now at_write : world_ok w → world_ok (resume w i o s expected a now at_write).2.
Proof.
  intros Hok. unfold resume. destruct (mbind _ _) as [next_at|] eqn:Hn; [|done].
  apply bind_ok in Hn as (now' & _ & Hn). apply bind_ok in Hn as (c & _ & Hn). apply bind_ok in Hn as (t & _ & Hn).
  apply bind_ok in Hn as (e & He%or_raise_ok & _). apply mutate_world_ok; [done|]. intros c' _ _. left. cbn. by rewrite He.
Qed.

Lemma suspend_ok w r reason now : world_ok w → world_ok (suspend w r reason now).2.
Proof.
  intros Hok. unfold suspend. destruct (negb _); [done|]. apply mutate_world_ok; [done|]. intros c _ _. by right.
Qed.

Lemma current_expires w r c :
  current_version w r → _read w.2 (organization_id (the_policy r)) (id (the_policy r)) = Ok c →
  instant (updated_at c) = instant (updated_at r) → authorization_expires_at (the_authorization c) ≠ None.
Proof.
  intros Hc Hr Hu. destruct (Hc _ Hr Hu) as [_ Ha]. apply read_ok in Hr as (r0 & _ & _ & _ & _ & ->).
  by destruct (migrated_active _ Ha) as [e ->].
Qed.

Lemma record_dispatch_ok w r job observed at_write :
  world_ok w → current_version w r → world_ok (record_dispatch w r job observed at_write).2.
Proof.
  intros Hok Hcur. unfold record_dispatch. destruct (mbind _ _) as [[o t]|]; [|done].
  apply mutate_world_ok; [done|]. intros c Hr Hu. left. by apply (current_expires w r).
Qed.

Lemma record_failure_ok w r reason observed at_write :
  world_ok w → current_version w r → world_ok (record_failure w r reason observed at_write).2.
Proof.
  intros Hok Hcur. unfold record_failure. destruct (mbind _ _) as [[o [n t]]|]; [|done].
  apply mutate_world_ok; [done|]. intros c Hr Hu. left. by apply (current_expires w r).
Qed.

Lemma delete_schedule_ok w i o s : world_ok w → world_ok (delete_schedule w i o s).2.
Proof.
  intros [Hok Hu]. unfold delete_schedule. destruct (get _ _ _ _); [|done].
  destruct (sync_with_ok (rebuilt_rows read_content) (λ t, Ok (delete_where
     (λ j row, String.eqb (RecurrenceIndex.organization_id row) o && String.eqb j i) t)) w.1 w.2 (unlink_file (o, i) w.2))
    as (_ & Hb & Hf & _).
  - by destruct w.
  - done.
  - cbn. lia.
  - cbn. lia.
  - left. cbn. lia.
  - intros t Ht. eexists. split; [done|]. cbn [unlink_file files].
    apply (rebuilt_unlink read_content (files w.2)); try done; [by apply ids_unique_unlink|apply readable_unlink|].
    + by apply (rebuilt_rows_elim read_content _ _ Hu) in Ht as [Hread _].
    + intros r. rewrite record_in_unlink. cbn. rewrite andb_false_iff, !String.eqb_neq.
      destruct (decide (organization_id (the_policy r) = o)), (decide (id (the_policy r) = i)); naive_solver.
  - unfold sync_after_delete, _sync_delete. split; [exact Hb|]. rewrite Hf. by apply ids_unique_unlink.
Qed.

Lemma restarted_ok w fs : world_ok w → legal w (Restart fs) → world_ok (restarted w fs).
Proof.
  intros [(Hs & Hf & _) Hu] Hl. destruct fs as [fs|]; split; try done.
  split; [cbn; lia|]. split; [|done]. cbn. intros db stamp Hdb. destruct (Hf db stamp Hdb). split; lia.
Qed.

Lemma list_due_world now limit w : world_ok w → world_ok (list_due now limit w).2.
Proof.
  intros Hok. pose proof (ensure_world_ok w Hok) as Hw. unfold list_due. destruct (_utc now); [|done].
  destruct (negb _); [done|]. unfold due_records. destruct (negb _ || negb _); [done|].
  pose proof (current_world w) as Hc. destruct (current_rows index_invalid (rebuilt_rows read_content) w) as [t w']. cbn in *. by rewrite Hc.
Qed.

Lemma list_for_asset_world o s w : world_ok w → world_ok (list_for_asset o s w).2.
Proof.
  intros Hok. unfold list_for_asset. destruct (_validate_scope _ _ _); [|done].
  pose proof (records_for_asset_world o s w Hok) as [Hw _]. by destruct (records_for_asset _ _ _ _).
Qed.

Lemma list_for_assets_world o ss w : world_ok w → world_ok (list_for_assets o ss w).2.
Proof.
  intros Hok. pose proof (ensure_world_ok w Hok) as Hw. unfold list_for_assets. destruct (_validate_organization _); [|done].
  unfold records_for_assets. destruct (_ || _); [done|]. case_bool_decide; [done|].
  pose proof (current_world w) as Hc. destruct (current_rows index_invalid (rebuilt_rows read_content) w) as [t w']. cbn in *. by rewrite Hc.
Qed.

Lemma count_for_asset_world o s w : world_ok w → world_ok (count_for_asset_unlocked o s w).2.
Proof.
  intros Hok. pose proof (ensure_world_ok w Hok) as Hw. unfold count_for_asset_unlocked.
  destruct (_validate_scope _ _ _); [|done]. unfold count_for_asset. destruct (negb _); [done|].
  pose proof (current_world w) as Hc. destruct (current_rows index_invalid (rebuilt_rows read_content) w) as [t w']. cbn in *. by rewrite Hc.
Qed.

Lemma after_world_ok w e : world_ok w → legal w e → world_ok (after w e).
Proof.
  intros Hok Hl. destruct e; cbn [after].
  - by apply create_world_ok.
  - by apply pause_ok.
  - by apply resume_ok.
  - by apply suspend_ok.
  - by apply suspend_for_asset_ok.
  - by apply record_dispatch_ok.
  - by apply record_failure_ok.
  - by apply delete_schedule_ok.
  - by apply delete_for_asset_ok.
  - by apply list_for_asset_world.
  - by apply list_for_assets_world.
  - by apply count_for_asset_world.
  - by apply list_due_world.
  - by apply restarted_ok.
Qed.

Lemma run_world_ok w es : world_ok w → legal_run w es → world_ok (run w es).
Proof.
  revert w. induction es as [|e es IH]; intros w Hok; [done|]. intros [Hl Hls]. apply IH; [|done]. by apply after_world_ok.
Qed.

(** ** Queries answer what the files hold *)

Lemma created_total : Total created_order.
Proof.
  intros a b. unfold created_order. destruct (str_le_total (id (the_policy a)) (id (the_policy b)));
    destruct (Z.lt_total (instant (created_at (the_policy a))) (instant (created_at (the_policy b)))); intuition lia.
Qed.

Lemma created_trans : Transitive created_order.
Proof.
  intros a b c. unfold created_order. intros [H1|[H1 H1']] [H2|[H2 H2']]; [left; lia..|right]. split; [lia|by trans (id (the_policy b))].
Qed.

(** The order a list comes in does not matter: no two records share their
    identifier. *)
Lemma created_order_any l l' :
  NoDup ((λ r, id (the_policy r)) <$> l) → l ≡ₚ l' → merge_sort created_order l = merge_sort created_order l'.
Proof.
  intros Hn Hp. assert (Total created_order) by apply created_total. assert (Transitive created_order) by apply created_trans.
  apply (StronglySorted_unique_strong created_order).
  - intros a b Ha Hb Hab Hba. rewrite merge_sort_Permutation in Ha, Hb. rewrite <- Hp in Hb.
    assert (Hid : id (the_policy a) = id (the_policy b)).
    { unfold created_order in *. destruct Hab as [|[? Hab]], Hba as [|[? Hba]]; try lia. by apply str_le_antisym. }
    apply list_elem_of_lookup in Ha as [m Ha], Hb as [n Hb]. assert (m = n) as <-; [|congruence].
    apply (NoDup_lookup _ _ _ (id (the_policy a)) Hn); rewrite list_lookup_fmap; [by rewrite Ha|by rewrite Hb, Hid].
  - apply (StronglySorted_merge_sort _).
  - apply (StronglySorted_merge_sort _).
  - by rewrite !merge_sort_Permutation.
Qed.

(** The records of an asset, of all the files. *)
Definition scanned_asset fs (organization asset : string) : outcome (list ActiveRecurrenceRecord) :=
  rs ← store_error (load_all index_invalid read_content fs);
  Ok (filter (λ r, of_asset organization asset (id (the_policy r)) (row_of r) = true) rs).

Lemma list_for_asset_files w o s :
  world_ok w → is_owner o = true → is_hex32 s = true →
  (list_for_asset o s w).1 = (rs ← scanned_asset (files w.2) o s; Ok (merge_sort created_order rs)).
Proof.
  intros [Hok Hu] Ho Hs. unfold list_for_asset, _validate_scope, _validate_organization, _validate_id. rewrite Ho, Hs. cbn.
  pose proof (records_for_asset_spec read_content o s w Hok Hu Ho Hs) as Hspec.
  destruct (records_for_asset read_content o s w) as [rs w']. cbn in Hspec |- *. subst rs. unfold answer, scanned_asset.
  destruct (load_all index_invalid read_content (files w.2)) as [rs|] eqn:Hl; [|done]. cbn. f_equal. apply created_order_any.
  - pose proof (load_all_ids read_content _ _ Hu Hl) as Hn. unfold chosen. rewrite merge_sort_Permutation.
    eapply sublist_NoDup; [exact Hn|]. apply fmap_sublist, sublist_filter.
  - unfold chosen. by rewrite merge_sort_Permutation.
Qed.

Lemma count_for_asset_files w o s :
  world_ok w → is_owner o = true → is_hex32 s = true →
  (count_for_asset_unlocked o s w).1 = (rs ← scanned_asset (files w.2) o s; Ok (Z.of_nat (length rs))).
Proof.
  intros [Hok Hu] Ho Hs. unfold count_for_asset_unlocked, _validate_scope, _validate_organization, _validate_id. rewrite Ho, Hs. cbn.
  pose proof (count_for_asset_spec read_content o s w Hok Hu Ho Hs) as Hspec.
  destruct (count_for_asset read_content o s w) as [n w']. cbn in Hspec |- *. subst n. unfold answer, scanned_asset.
  destruct (load_all index_invalid read_content (files w.2)) as [rs|]; [|done]. cbn. unfold chosen. by rewrite merge_sort_Permutation.
Qed.

(** The records of some assets, and the first that can run, in the order of
    the queries. *)
Definition scanned_assets fs (organization : string) (assets : gset string) : outcome (list ActiveRecurrenceRecord) :=
  rs ← store_error (load_all index_invalid read_content fs);
  Ok (chosen (λ _ row, String.eqb (RecurrenceIndex.organization_id row) organization
                       && bool_decide (RecurrenceIndex.asset_id row ∈ assets)) asset_order rs).

Definition scanned_due fs (now : datetime) (limit : nat) : outcome (list ActiveRecurrenceRecord) :=
  rs ← store_error (load_all index_invalid read_content fs);
  store_error (first_eligible (recurrence_is_within_window (as_utc now)) limit (chosen (due (instant now)) run_order rs) []).

Lemma list_for_assets_files w o assets :
  world_ok w → is_owner o = true → (size assets <= ACTIVE_RECURRENCE_INDEX_MAX_ASSETS)%nat →
  (∀ a, a ∈ assets → is_hex32 a = true) → assets ≠ ∅ →
  (list_for_assets o assets w).1 = scanned_assets (files w.2) o assets.
Proof.
  intros [Hok Hu] Ho Hs Ha Hne. unfold list_for_assets, _validate_organization. rewrite Ho. cbn [negb].
  pose proof (records_for_assets_spec read_content o assets w Hok Hu Ho Hs Ha Hne) as Hspec.
  destruct (records_for_assets read_content o assets w) as [rs w']. cbn [fst] in Hspec |- *. subst rs. unfold answer, scanned_assets.
  by destruct (load_all index_invalid read_content (files w.2)) as [rs|].
Qed.

Lemma list_due_files w now limit :
  world_ok w → aware now = true → (1 <= limit <= ACTIVE_RECURRENCE_MAX_DUE_PER_TICK)%nat →
  (list_due now limit w).1 = scanned_due (files w.2) now limit.
Proof.
  intros [Hok Hu] Hn Hlim. unfold list_due, _utc. rewrite Hn. cbn [negb].
  rewrite (proj2 (Nat.leb_le 1 limit)), (proj2 (Nat.leb_le limit _)) by (unfold ACTIVE_RECURRENCE_MAX_DUE_PER_TICK in *; lia). cbn [andb negb].
  pose proof (due_records_spec read_content (as_utc now) limit (recurrence_is_within_window (as_utc now)) w Hok Hu) as Hspec.
  destruct (due_records _ _ _ _ w) as [rs w']. cbn [fst] in Hspec |- *.
  rewrite Hspec by (done || unfold ACTIVE_RECURRENCE_MAX_DUE_PER_TICK in *; lia). unfold answer, scanned_due. rewrite instant_as_utc.
  by destruct (load_all index_invalid read_content (files w.2)) as [l|].
Qed.

(** ** What a call does to the plans *)

(** The policy of a file, and when it runs next. *)
Definition plan_at (w : world) (k : string * string) : option (policy * datetime) := c ← files w.2 !! k; plan c.

(** The time a call computes the next run from. *)
Definition clock_of (e : event) : option datetime :=
  match e with
  | Create _ _ _ _ _ _ _ now | Resume _ _ _ _ _ now _ => Some now
  | RecordDispatch _ _ observed _ => Some observed
  | _ => None
  end.

Definition rescheduled (w : world) (e : event) (k : string * string) (p : policy) (t : datetime) : Prop :=
  ∃ now t0, clock_of e = Some now ∧ plan_at w k = Some (p, t0) ∧ next_run (as_utc now) (id p) p = Ok t.

Lemma mutate_plan w o i s expected update now k x :
  world_ok w →
  (∀ current, _read w.2 o i = Ok current → instant (updated_at current) = instant expected →
     authorization_expires_at (update current).1 ≠ None ∨ status (update current).2 ≠ "active") →
  plan_at (_mutate w i o s expected update now).2 k = Some x →
  plan_at w k = Some x
  ∨ ∃ c, _read w.2 o i = Ok c ∧ k = (o, i) ∧ id (the_policy c) = i ∧ organization_id (the_policy c) = o
         ∧ instant (updated_at c) = instant expected
         ∧ plan_at w k = Some (the_policy c, next_run_at (the_progress c)) ∧ x = (the_policy c, next_run_at (update c).2).
Proof.
  intros Hok Hact. unfold _mutate. destruct (mutation _ _ _ _ _ _ _) as [r|] eqn:Hm; [|by left].
  apply mutation_ok in Hm as (c & Hread & _ & _ & Hu & _ & -> & Hv).
  pose proof (read_names_free w _ _ _ Hok Hread) as Hfree. pose proof Hread as (r0 & Hr0 & _ & Hi & Ho & Hc)%read_ok.
  destruct (save_ok w (with_progress c (update c).1 (update c).2 (as_utc now))) as (_ & _ & Hf); [done|done|done| |].
  { apply active_migrated. by apply (Hact c). }
  destruct (save _ w) as [o' w']. unfold plan_at. cbn [fst snd] in Hf |- *. rewrite Hf. cbn [with_progress the_policy].
  assert (Hpol : the_policy c = the_policy r0) by (by rewrite Hc, migrated_policy). rewrite Hpol, Hi, Ho.
  destruct (decide (k = (o, i))) as [->|Hne]; [|rewrite lookup_insert_ne by done; by left].
  rewrite lookup_insert_eq. intros [= <-]. right. exists c. rewrite Hr0, Hpol. repeat (split; [done|]).
  split; [|done]. cbn. by rewrite Hc, migrated_next.
Qed.

Lemma mutate_keeps_plan w o i s expected update now k p t :
  world_ok w →
  (∀ current, _read w.2 o i = Ok current → instant (updated_at current) = instant expected →
     (authorization_expires_at (update current).1 ≠ None ∨ status (update current).2 ≠ "active")
     ∧ next_run_at (update current).2 = next_run_at (the_progress current)) →
  plan_at (_mutate w i o s expected update now).2 k = Some (p, t) → plan_at w k = Some (p, t).
Proof.
  intros Hok Hact Hk. apply mutate_plan in Hk as [Hk|(c & Hr & -> & _ & _ & Hu & Hk & [= -> ->])]; [done| |done|].
  - destruct (Hact c Hr Hu) as [_ ->]. done.
  - intros c Hr Hu. by apply Hact.
Qed.

Lemma sub_plan (w w' : world) k x :
  (∀ c, files w'.2 !! k = Some c → ∃ c0, files w.2 !! k = Some c0 ∧ plan c0 = plan c) → plan_at w' k = Some x → plan_at w k = Some x.
Proof.
  unfold plan_at. intros Hs. destruct (files w'.2 !! k) as [c|] eqn:Hc; [|done]. cbn. intros Hx.
  destruct (Hs c eq_refl) as (c0 & -> & Hp). cbn. by rewrite Hp.
Qed.

Lemma same_plan (w w' : world) k x : files w'.2 = files w.2 → plan_at w' k = Some x → plan_at w k = Some x.
Proof. intros Hf. unfold plan_at. by rewrite Hf. Qed.

Lemma ensure_files w : world_ok w → files (current_rows index_invalid (rebuilt_rows read_content) w).2.2 = files w.2.
Proof. intros [Hok _]. by apply current_files. Qed.

Lemma delete_schedule_plan w i o s k x : plan_at (delete_schedule w i o s).2 k = Some x → plan_at w k = Some x.
Proof.
  unfold delete_schedule. destruct (get _ _ _ _); [|done]. apply sub_plan. intros c.
  unfold sync_after_delete, _sync_delete. rewrite sync_files. cbn. intros [_ Hc]%lookup_delete_Some. by exists c.
Qed.

Lemma delete_for_asset_plan w o s k x : world_ok w → plan_at (delete_for_asset w o s).2 k = Some x → plan_at w k = Some x.
Proof.
  intros Hok. unfold delete_for_asset. destruct (_validate_scope o s None); [|done].
  pose proof (records_for_asset_world o s w Hok) as [_ Hf].
  destruct (records_for_asset read_content o s w) as [[rs|] w'] eqn:Hrs; [|by apply same_plan].
  cbn [snd] in Hf. destruct (unlink_all w'.2 o rs) as (_ & _ & _ & _ & H5). set (d := foldl _ w'.2 rs) in *.
  pose proof (sync_files (rebuilt_rows read_content) (λ t, Ok (delete_where (of_asset o s) t)) (w'.1, d)) as Hs.
  unfold sync_after_asset_delete, _sync_delete. fold (of_asset o s). destruct (sync_with _ _ _) as [o' w'']. cbn in Hs |- *.
  apply sub_plan. intros c. rewrite Hs, H5. case_match; [done|]. rewrite Hf. by exists c.
Qed.

(** A new schedule: there was no file of its name, the organization had room
    and no schedule for the same probe of the same asset. *)
Definition created (w : world) (e : event) (k : string * string) (x : policy * datetime) : Prop :=
  ∃ deleting q o s actor role a now r rs,
    e = Create deleting q o s actor role a now ∧ new_record q o s actor role a now = Ok r ∧ deleting s = false
    ∧ k = file_of r ∧ x = (the_policy r, next_run_at (the_progress r)) ∧ files w.2 !! k = None
    ∧ _load_organization_unlocked w.2 o = Ok rs ∧ (length rs < ACTIVE_RECURRENCE_MAX_PER_ORGANIZATION)%nat
    ∧ any_of (same_slot s (req_capability q) (req_port q)) rs = false.

Lemma create_plan w deleting q o s actor role a now k x :
  world_ok w → legal w (Create deleting q o s actor role a now) →
  plan_at (create w deleting q o s actor role a now).2 k = Some x →
  plan_at w k = Some x ∨ created w (Create deleting q o s actor role a now) k x.
Proof.
  intros Hok Hl. unfold create. destruct (new_record _ _ _ _ _ _ _) as [r|] eqn:Hr; [|by left].
  pose proof (new_record_ok _ _ _ _ _ _ _ _ Hr) as (next_at & e & _ & He & _ & _ & Hv & Hrec).
  destruct (bool_decide_reflect (is_Some (files w.2 !! (o, id (the_policy r))))) as [|Hnone]; [by left|].
  destruct (_load_organization_unlocked _ _) as [rs|] eqn:Hl'; [|by left].
  destruct (Nat.leb_spec ACTIVE_RECURRENCE_MAX_PER_ORGANIZATION (length rs)) as [|Hroom]; [by left|].
  destruct (any_of _ rs) eqn:Hslot; [by left|]. destruct (deleting s) eqn:Hdel; [by left|].
  destruct (save_ok w r) as (_ & _ & Hf); try done.
  - rewrite Hrec. exact Hl.
  - apply active_migrated. left. rewrite Hrec. cbn. by rewrite He.
  - assert (Ho : organization_id (the_policy r) = o) by (by rewrite Hrec).
    destruct (save r w) as [o' w']. cbn [fst snd] in Hf |- *. unfold plan_at. rewrite Hf.
    destruct (decide (k = file_of r)) as [->|Hne]; [|rewrite lookup_insert_ne by done; by left].
    rewrite lookup_insert_eq. intros [= <-]. right. exists deleting, q, o, s, actor, role, a, now, r, rs.
    repeat (split; [done|]). split; [|done]. unfold file_of. rewrite Ho. by apply eq_None_not_Some.
Qed.

Lemma after_plan w e k p t :
  world_ok w → legal w e → (∀ fs, e ≠ Restart (Some fs)) → plan_at (after w e) k = Some (p, t) →
  plan_at w k = Some (p, t) ∨ rescheduled w e k p t ∨ created w e k (p, t).
Proof.
  intros Hok Hl Hres Hk. destruct e; cbn [after] in Hk.
  - apply create_plan in Hk as [|]; auto.
  - left. apply mutate_keeps_plan in Hk; [done|done|]. intros c _ _. split; [by right|done].
  - unfold resume in Hk. destruct (mbind _ _) as [next_at|] eqn:Hn; [|by left].
    apply bind_ok in Hn as (now' & Hnow & Hn). apply bind_ok in Hn as (c & Hget & Hn). apply bind_ok in Hn as (t' & Ht & Hn).
    apply bind_ok in Hn as (e & He%or_raise_ok & Hn). apply bind_ok in Hn as (e' & _ & Hn). inv_ok Hn.
    apply mutate_plan in Hk as [Hk|(c' & Hr & -> & Hi & _ & _ & Hp & [= -> ->])];
      [by left| |done|intros c' _ _; left; cbn; by rewrite He].
    right. left. exists now, (next_run_at (the_progress c')). split; [done|]. split; [done|].
    unfold get in Hget. apply bind_ok in Hget as (_ & _ & Hget). apply bind_ok in Hget as (_ & _ & Hget).
    apply bind_ok in Hget as (c1 & Hr1 & Hget). inv_ok Hget. assert (c = c') as -> by congruence.
    unfold _utc in Hnow. inv_ok Hnow. done.
  - left. unfold suspend in Hk. destruct (negb _); [done|]. apply mutate_keeps_plan in Hk; [done|done|].
    intros c _ _. split; [by right|done].
  - left. eapply sub_plan; [|exact Hk]. intros c. by apply suspend_for_asset_ok.
  - unfold record_dispatch in Hk. destruct (mbind _ _) as [[obs t']|] eqn:Hn; [|by left].
    apply bind_ok in Hn as (obs' & Hobs & Hn). apply bind_ok in Hn as (t1 & Ht & [= -> ->]).
    apply mutate_plan in Hk as [Hk|(c' & Hr & -> & Hi & _ & Hu & Hp & [= -> ->])];
      [by left| |done|intros c' Hr Hu; left; by apply (current_expires w r)].
    destruct (Hl _ Hr Hu) as [-> _]. right. left. exists observed, (next_run_at (the_progress r)). do 2 (split; [done|]).
    unfold _utc in Hobs. inv_ok Hobs. done.
  - left. unfold record_failure in Hk. destruct (mbind _ _) as [[obs [n t']]|] eqn:Hn; [|done].
    apply mutate_keeps_plan in Hk; [done|done|]. intros c Hr Hu. split; [left; by apply (current_expires w r)|done].
  - left. by apply delete_schedule_plan in Hk.
  - left. by apply delete_for_asset_plan in Hk.
  - left. unfold list_for_asset in Hk. destruct (_validate_scope _ _ _); [|done].
    pose proof (records_for_asset_world organization asset w Hok) as [_ Hf].
    destruct (records_for_asset _ _ _ _) as [rs w']. by apply (same_plan w w').
  - left. unfold list_for_assets in Hk. destruct (_validate_organization _); [|done]. unfold records_for_assets in Hk.
    destruct (_ || _); [done|]. case_bool_decide; [done|]. pose proof (ensure_files w Hok) as Hf.
    destruct (current_rows _ _ w) as [rs w']. by apply (same_plan w w').
  - left. unfold count_for_asset_unlocked in Hk. destruct (_validate_scope _ _ _); [|done]. unfold count_for_asset in Hk.
    destruct (negb _); [done|]. pose proof (ensure_files w Hok) as Hf.
    destruct (current_rows _ _ w) as [rs w']. by apply (same_plan w w').
  - left. unfold list_due in Hk. destruct (_utc now); [|done]. destruct (negb _); [done|]. unfold due_records in Hk.
    destruct (negb _ || negb _); [done|]. pose proof (ensure_files w Hok) as Hf.
    destruct (current_rows _ _ w) as [rs w']. by apply (same_plan w w').
  - left. destruct fs as [fs|]; [by destruct (Hres fs)|done].
Qed.

(** ** Dispatches of one schedule *)

Lemma next_window_later value i tz ws h n t : _next_window_time ZoneInfo value i tz ws h n = Ok t → value <= t.
Proof.
  intros Ht. destruct (next_window_parts _ _ _ _ _ _ _ _ Ht) as (z & j & Hz & Hj). pose proof (jitter_bounds _ _ Hj) as Hb.
  destruct (proj1 (next_window_iff _ _ _ _ _ _ _ _ _ _ Hz Hj) Ht) as (k & _ & Hd & _).
  apply day_time_Some in Hd as (s & e & _ & _ & Hc); unfold seconds in *; lia.
Qed.

(** The next run is at least the interval away. *)
Lemma next_run_later now i p t : next_run now i p = Ok t → instant now + days (interval_days p) <= instant t.
Proof.
  unfold next_run. intros Hn. apply bind_ok in Hn as (t' & Hn & [= <-]). unfold _next_run in Hn.
  apply bind_ok in Hn as (j & Hj & Hn). apply next_window_later in Hn. pose proof (jitter_bounds _ _ Hj) as Hb.
  assert (instant (utc_at t') = t') as -> by (unfold utc_at, instant; cbn; lia). unfold seconds in *. lia.
Qed.

Lemma record_dispatch_plan w r job observed at_write r' :
  world_ok w → current_version w r → (record_dispatch w r job observed at_write).1 = Ok r' →
  ∃ t, plan_at (record_dispatch w r job observed at_write).2 (file_of r) = Some (the_policy r, t)
       ∧ instant observed + days (interval_days (the_policy r)) <= instant t.
Proof.
  intros Hok Hcur. unfold record_dispatch. destruct (mbind _ _) as [[obs t]|] eqn:Hn; [|done].
  apply bind_ok in Hn as (obs' & Hobs & Hn). apply bind_ok in Hn as (t1 & Ht & [= -> ->]).
  unfold _mutate. destruct (mutation _ _ _ _ _ _ _) as [r1|] eqn:Hm; [|done]. intros _.
  apply mutation_ok in Hm as (c & Hread & _ & _ & Hu & _ & Hr1 & Hv).
  pose proof (current_expires _ _ _ Hcur Hread Hu) as He. destruct (Hcur _ Hread Hu) as [-> _].
  pose proof (read_names_free w _ _ _ Hok Hread) as Hfree.
  destruct (save_ok w r1) as (_ & _ & Hf); [done|by rewrite Hr1|done| |].
  { apply active_migrated. left. rewrite Hr1. exact He. }
  destruct (save r1 w) as [o' w']. cbn [fst snd] in Hf |- *. exists t. split.
  - unfold plan_at, file_of. rewrite Hf, Hr1. cbn [with_progress the_policy]. rewrite lookup_insert_eq. done.
  - apply next_run_later in Ht. unfold _utc in Hobs. inv_ok Hobs. by rewrite instant_as_utc in Ht.
Qed.

Lemma record_dispatch_mutate w r job observed at_write obs t :
  _utc observed = Ok obs → next_run obs (id (the_policy r)) (the_policy r) = Ok t → ended (the_authorization r) t = false →
  record_dispatch w r job observed at_write
  = _mutate w (id (the_policy r)) (organization_id (the_policy r)) (asset_id (the_policy r)) (updated_at r)
      (λ c, (the_authorization c,
             Progress "active" "scheduled" t (Some (next_run_at (the_progress r))) (Some job) 0 None (Some obs) "scheduled")) at_write.
Proof. intros Ho Hn He. unfold record_dispatch. rewrite Ho. cbn [mbind outcome_bind]. rewrite Hn. cbn [mbind outcome_bind]. by rewrite He. Qed.

(** Without an index in memory, a change writes its file only. *)
Lemma mutate_file d schedule organization asset expected update now r :
  mutation d schedule organization asset expected update now = Ok r →
  _mutate (None, d) schedule organization asset expected update now = (Ok r, (None, write_file (file_of r) (Some r) d)).
Proof. intros Hm. unfold _mutate. cbn [snd]. by rewrite Hm. Qed.

(** What the dispatcher is given has a file, whose time has come. *)
Lemma list_due_in w now limit rs r :
  world_ok w → (list_due now limit w).1 = Ok rs → r ∈ rs →
  plan_at w (file_of r) = Some (the_policy r, next_run_at (the_progress r)) ∧ instant (next_run_at (the_progress r)) <= instant now.
Proof.
  intros Hok Hrs Hr.
  assert (Hv : aware now = true ∧ (1 <= limit <= ACTIVE_RECURRENCE_MAX_DUE_PER_TICK)%nat).
  { unfold list_due, _utc in Hrs. destruct (aware now); [|done]. cbn [negb] in Hrs. split; [done|].
    destruct (Nat.leb_spec 1 limit), (Nat.leb_spec limit ACTIVE_RECURRENCE_MAX_DUE_PER_TICK); cbn [andb negb] in Hrs; done. }
  rewrite list_due_files in Hrs by apply Hok || apply Hv. unfold scanned_due in Hrs.
  destruct (load_all index_invalid read_content (files w.2)) as [l|] eqn:Hl; [|done]. cbn [store_error mbind outcome_bind] in Hrs.
  destruct (first_eligible _ _ _ _) as [rs'|] eqn:Hfe; [|done]. injection Hrs as ->.
  destruct (first_eligible_in _ _ _ _ _ _ Hfe Hr) as [Hn|[Hin _]]; [by apply not_elem_of_nil in Hn|].
  apply chosen_in in Hin as [Hin Hdue]. apply (load_all_elem read_content _ _ _ Hl), record_in_file in Hin as (r0 & Hr0 & _ & Hm).
  split.
  - unfold plan_at, file_of. rewrite Hr0, Hm. cbn. by rewrite migrated_policy, migrated_next.
  - unfold due, row_of in Hdue. cbn in Hdue. to_prop. done.
Qed.

(** The clock does not go back before [from], nobody edits the files, and a
    schedule made anew after it was deleted keeps its interval. *)
Definition onward (k : string * string) (n : Z) (from : datetime) (e : event) : Prop :=
  (∀ now, clock_of e = Some now → instant from <= instant now)
  ∧ match e with
    | Create _ q o _ actor _ _ _ => (o, schedule_id o actor (idempotency_key q)) = k → n <= req_interval_days q
    | Restart (Some _) => False
    | _ => True
    end.

Definition waits (w : world) (k : string * string) (n T : Z) : Prop :=
  ∀ p t, plan_at w k = Some (p, t) → n <= interval_days p ∧ T <= instant t.

Lemma after_waits w e k n from :
  world_ok w → legal w e → onward k n from e → waits w k n (instant from + days n) → waits (after w e) k n (instant from + days n).
Proof.
  intros Hok Hl [Hclock Hev] Hw p t Hp.
  assert (Hlate : ∀ now, clock_of e = Some now → n <= interval_days p → next_run (as_utc now) (id p) p = Ok t →
    instant from + days n <= instant t).
  { intros now Hc Hle Ht%next_run_later. rewrite instant_as_utc in Ht. apply Hclock in Hc. unfold days, hours, seconds in *. lia. }
  apply after_plan in Hp as [Hp|[(now & t0 & Hc & Hp & Ht)|Hc]]; [by apply Hw| | |done|done|].
  - destruct (Hw _ _ Hp) as [Hn _]. split; [done|by apply (Hlate now)].
  - destruct Hc as (del & q & o & s & actor & role & a & now & r & rs & -> & Hr & _ & Hk & [= -> ->] & _).
    apply new_record_ok in Hr as (next_at & ex & Ht & _ & _ & _ & _ & Hr). rewrite Hr in Hk, Ht, Hlate |- *. cbn in Hk, Ht, Hlate |- *.
    assert (Hn : n <= req_interval_days q) by (by apply Hev). split; [done|by apply (Hlate now)].
  - intros fs ->. done.
Qed.

Lemma run_waits w es k n from :
  world_ok w → legal_run w es → Forall (onward k n from) es → waits w k n (instant from + days n) →
  waits (run w es) k n (instant from + days n).
Proof.
  revert w. induction es as [|e es IH]; intros w Hok; [done|]. intros [Hl Hls] [He Hes]%Forall_cons Hw.
  apply IH; [by apply after_world_ok|done|done|by apply after_waits].
Qed.

(** ** How many schedules there are *)

Abbreviation nothing := ((None, Disk ∅ 0 None 0) : world).

Definition not_outside (e : event) : Prop := ∀ fs, e ≠ Restart (Some fs).

(** The files of an organization that hold a policy. *)
Definition schedules (w : world) (o : string) : gset (string * string) :=
  filter (λ k, k.1 = o ∧ is_Some (plan_at w k)) (dom (files w.2)).

Definition slot_of (p : policy) : string * string * string * option Z := (organization_id p, asset_id p, capability p, port p).

Definition orderly (w : world) : Prop :=
  (∀ k p t, plan_at w k = Some (p, t) → k = (organization_id p, id p))
  ∧ (∀ o, (size (schedules w o) <= ACTIVE_RECURRENCE_MAX_PER_ORGANIZATION)%nat)
  ∧ ∀ k k' p p' t t', plan_at w k = Some (p, t) → plan_at w k' = Some (p', t') → slot_of p = slot_of p' → k = k'.

Lemma schedules_elem w o k : k ∈ schedules w o ↔ k.1 = o ∧ is_Some (plan_at w k).
Proof.
  unfold schedules. rewrite elem_of_filter, elem_of_dom. split; [tauto|]. intros [Ho Hp]. split; [done|].
  destruct Hp as [x Hx]. unfold plan_at in Hx. destruct (files w.2 !! k); [by eexists|done].
Qed.

Lemma organization_records w o rs :
  _load_organization_unlocked w.2 o = Ok rs →
  (size (schedules w o) <= length rs)%nat
  ∧ ∀ k p t, k.1 = o → plan_at w k = Some (p, t) → ∃ r, r ∈ rs ∧ the_policy r = p.
Proof.
  unfold _load_organization_unlocked. intros Ht%traverse_ok. set (l := filter _ (map_to_list (files w.2))) in *. split.
  - apply Forall2_length in Ht as <-. rewrite <- (length_fmap fst l).
    assert (Hn : NoDup l.*1).
    { eapply sublist_NoDup; [exact (NoDup_fst_map_to_list (files w.2))|]. apply fmap_sublist, sublist_filter. }
    rewrite <- (size_list_to_set (C := gset _) _ Hn). apply subseteq_size. intros k [Ho Hp]%schedules_elem.
    apply elem_of_list_to_set. destruct Hp as [x Hx]. unfold plan_at in Hx. destruct (files w.2 !! k) as [c|] eqn:Hc; [|done].
    apply list_elem_of_fmap. exists (k, c). split; [done|]. by apply list_elem_of_filter; rewrite elem_of_map_to_list.
  - intros k p t Ho Hp. unfold plan_at in Hp. destruct (files w.2 !! k) as [c|] eqn:Hc; [|done]. cbn in Hp.
    assert (Hin : (k, c) ∈ l) by (by apply list_elem_of_filter; rewrite elem_of_map_to_list).
    apply list_elem_of_lookup_1 in Hin as (n & Hn). destruct (Forall2_lookup_l _ _ _ _ _ Ht Hn) as (r & Hr & Hload).
    cbn in Hload. destruct (is_hex32 k.2); [|done]. cbn [negb] in Hload. apply read_content_ok in Hload as (r0 & -> & _ & _ & _ & ->).
    injection Hp as <- _. exists (migrated r0). split; [by eapply list_elem_of_lookup_2|apply migrated_policy].
Qed.

Lemma after_orderly w e : world_ok w → legal w e → not_outside e → orderly w → orderly (after w e).
Proof.
  intros Hok Hl Hout (Hname & Hsize & Hslot).
  assert (Hback : ∀ k p t, plan_at (after w e) k = Some (p, t) → (∃ t0, plan_at w k = Some (p, t0)) ∨ created w e k (p, t)).
  { intros k p t [Hp|[(now & t0 & _ & Hp & _)|Hc]]%after_plan; eauto. }
  split; [|split].
  - intros k p t [[t0 Hp]|Hc]%Hback; [by apply (Hname k p t0)|].
    destruct Hc as (? & ? & ? & ? & ? & ? & ? & ? & r & ? & _ & _ & _ & -> & [= -> _] & _). done.
  - intros o. destruct (decide (schedules (after w e) o ⊆ schedules w o)) as [Hsub|Hnot].
    { etransitivity; [by apply subseteq_size|done]. }
    assert (∃ k x, created w e k x ∧ k.1 = o ∧ schedules (after w e) o ⊆ {[k]} ∪ schedules w o) as (k & x & Hc & Ho & Hsub).
    { destruct (set_choose_or_empty (schedules (after w e) o ∖ schedules w o)) as [[k Hk]|He].
      2:{ destruct Hnot. intros x Hx. destruct (decide (x ∈ schedules w o)); set_solver. }
      apply elem_of_difference in Hk as [[Ho [[p t] Hk]]%schedules_elem Hnk].
      destruct (Hback _ _ _ Hk) as [[t0 Hp]|Hc]; [destruct Hnk; apply schedules_elem; eauto|].
      exists k, (p, t). split; [done|]. split; [done|]. intros k' [Ho' [[p' t'] Hk']]%schedules_elem.
      destruct (Hback _ _ _ Hk') as [[t0 Hp]|Hc']; [apply elem_of_union_r, schedules_elem; eauto|].
      destruct Hc as (? & ? & ? & ? & ? & ? & ? & ? & r & ? & -> & Hr & _ & -> & _).
      destruct Hc' as (? & ? & ? & ? & ? & ? & ? & ? & r' & ? & [= <- <- <- <- <- <- <- <-] & Hr' & _ & -> & _).
      assert (r' = r) as -> by congruence. set_solver. }
    destruct Hc as (? & ? & o' & ? & ? & ? & ? & ? & r & rs & -> & Hr & _ & -> & _ & _ & Hrs & Hroom & _).
    assert (o' = o) as ->.
    { apply new_record_ok in Hr as (? & ? & _ & _ & _ & _ & _ & ->). exact Ho. }
    apply organization_records in Hrs as [Hle _]. etransitivity; [by apply subseteq_size|]. rewrite size_union_alt, size_singleton.
    pose proof (subseteq_size (schedules w o ∖ {[file_of r]}) (schedules w o) ltac:(set_solver)). lia.
  - assert (Hnew : ∀ k k' p p' t t', created w e k (p, t) → plan_at w k' = Some (p', t') → slot_of p ≠ slot_of p').
    { intros k k' p p' t t' (? & q & o & s & ? & ? & ? & ? & r & rs & -> & Hr & _ & -> & [= -> _] & _ & Hrs & _ & Hany) Hk' Hs.
      apply new_record_ok in Hr as (? & ? & _ & _ & _ & _ & _ & ->). cbn in Hs. injection Hs as Ho Hs Hcap Hport.
      apply organization_records in Hrs as [_ Hrs]. destruct (Hrs k' p' t') as (r' & Hin & Hr').
      { by rewrite (Hname _ _ _ Hk'). }
      { done. }
      apply any_of_false with (x := r') in Hany; [|done]. unfold same_slot in Hany. rewrite Hr', <- Hs, <- Hcap, <- Hport in Hany.
      rewrite !String.eqb_refl, bool_decide_true in Hany; done. }
    intros k k' p p' t t' [[t0 Hp]|Hc]%Hback [[t0' Hp']|Hc']%Hback Hs.
    + by apply (Hslot k k' p p' t0 t0').
    + destruct (Hnew _ _ _ _ _ _ Hc' Hp). done.
    + by destruct (Hnew _ _ _ _ _ _ Hc Hp').
    + destruct Hc as (? & ? & ? & ? & ? & ? & ? & ? & r & ? & -> & Hr & _ & -> & _).
      destruct Hc' as (? & ? & ? & ? & ? & ? & ? & ? & r' & ? & [= <- <- <- <- <- <- <- <-] & Hr' & _ & -> & _). congruence.
Qed.

Lemma nothing_ok : world_ok nothing.
Proof. split; [|by intros ? ? ? [? ?]]. split; [done|]. split; done. Qed.

Lemma run_orderly w es : world_ok w → legal_run w es → Forall not_outside es → orderly w → orderly (run w es).
Proof.
  revert w. induction es as [|e es IH]; intros w Hok; [done|]. intros [Hl Hls] [He Hes]%Forall_cons Hw.
  apply IH; [by apply after_world_ok|done|done|by apply after_orderly].
Qed.

Lemma nothing_orderly : orderly nothing.
Proof. split; [done|]. split; [|done]. intros o. apply Nat.le_0_l. Qed.

(** ** The properties *)


(** C17: two probes of one schedule are an interval apart.  Once a dispatch is
    recorded, the dispatcher is not given that schedule again before the
    interval of its policy has passed, whatever is done to it meanwhile:
    paused, resumed, suspended, failed, dispatched again, deleted and created
    anew with no shorter interval, the process restarted; provided the clock
    does not go back and nobody edits the files. *)
Theorem dispatches_apart es r job observed at_write r' es' now limit rs r2 :
  let n := interval_days (the_policy r) in let before := run nothing es in
  legal_run nothing (es ++ RecordDispatch r job observed at_write :: es') →
  (record_dispatch before r job observed at_write).1 = Ok r' →
  Forall (onward (file_of r) n observed) es' →
  (list_due now limit (run nothing (es ++ RecordDispatch r job observed at_write :: es'))).1 = Ok rs →
  r2 ∈ rs → file_of r2 = file_of r →
  instant observed + days n <= instant now.
Proof.
  intros n before Hl Hd Hes Hdue Hr2 Hk. apply legal_run_app in Hl as (Hl & Hl1 & Hl').
  assert (Hok : world_ok before) by (apply run_world_ok; [apply nothing_ok|done]).
  unfold run in Hdue. rewrite foldl_app in Hdue. fold (run nothing es) in Hdue. fold before in Hdue. cbn [foldl] in Hdue.
  set (w := after before _) in *. fold (run w es') in Hdue. assert (Hw : world_ok w) by (apply after_world_ok; done).
  apply list_due_in with (r := r2) in Hdue as [Hp Hle]; [|by apply run_world_ok|done]. rewrite Hk in Hp.
  assert (Hwait : waits (run w es') (file_of r) n (instant observed + days n)).
  { apply run_waits; [done..|]. destruct (record_dispatch_plan _ _ _ _ _ _ Hok Hl1 Hd) as (t & Ht & Hlater).
    intros p t' Hpt. unfold w in Hpt. cbn [after] in Hpt. rewrite Ht in Hpt. injection Hpt as <- <-. done. }
  destruct (Hwait _ _ Hp). lia.
Qed.

(** An organization keeps at most 500 schedules, one for each probe of an
    asset.  After any calls and restarts, the files of an organization that
    hold a policy are no more than the bound, each is named after its policy,
    and no two of them are for one capability and port of one asset. *)
Theorem schedules_bounded es :
  legal_run nothing es → Forall not_outside es →
  let w := run nothing es in
  (∀ o, (size (schedules w o) <= 500)%nat)
  ∧ (∀ k p t, plan_at w k = Some (p, t) → k = (organization_id p, id p))
  ∧ (∀ k k' p p' t t', plan_at w k = Some (p, t) → plan_at w k' = Some (p', t') →
       organization_id p = organization_id p' → asset_id p = asset_id p' → capability p = capability p' → port p = port p' →
       k = k').
Proof.
  intros Hl Hout w. destruct (run_orderly nothing es nothing_ok Hl Hout nothing_orderly) as (Hn & Hs & Hu).
  split; [done|]. split; [done|]. intros k k' p p' t t' Hp Hp' Ho Ha Hc Hpt. apply (Hu k k' p p' t t' Hp Hp').
  unfold slot_of. congruence.
Qed.
End Store.

(** ** Instances *)

Module Sample_recurrence.
Definition key : string := "0123456789abcdef0123456789abcdef".
Definition asset : string := "aaaaaaaaaaaaaaaaaaaaaaaaaaaaaaaa".
Definition zones (name : string) : option zone :=
  if String.eqb name "UTC" then Some (Zone (λ _, 0) (λ _, false) (λ _ _, 0)) else None.
Definition json (r : ActiveRecurrenceRecord) : string := id (the_policy r).
Definition at_day (n : Z) : datetime := DT (days n) (Some 0).
Definition request : ActiveRecurrenceCreateRequest :=
  CreateRequest "active_tls_basic" (Some 443) 7 "UTC" ["monday"; "thursday"] 8 4 key.
Definition authorized : authorization :=
  Authorization key (str_take 64 (key ++ key)) 1 (Some (at_day 20200)) key.
Definition making : event := Create (λ _, false) request "local-admin" asset "local-admin" "administrator" authorized (at_day 20000).

(** A schedule on disk when the process starts. *)
Definition schedule : string := "f0e882bc185e4e10d6c80551821fd848".
Definition recurring : ActiveRecurrenceRecord :=
  Recurrence (Policy schedule "local-admin" asset "active_tls_basic" (Some 443) 7 "UTC" ["monday"; "thursday"] 8 4 (at_day 20000)
                "local-admin" "administrator")
    authorized (Progress "active" "scheduled" (at_day 20010) None None 0 None None "never") (at_day 20000).
Definition starting : event := Restart (Some {[ ("local-admin", schedule) := Some recurring ]}).
Definition dispatching : event := RecordDispatch recurring key (at_day 20010) (at_day 20010).
End Sample_recurrence.
Import Sample_recurrence.


Lemma schedules_bounded_witness :
  let es := [making; ListDue (at_day 20001) 16; Restart None] in
  legal_run zones json (None, Disk ∅ 0 None 0) es ∧ Forall not_outside es
  ∧ ∀ o, (size (schedules (run zones json (None, Disk ∅ 0 None 0) es) o) <= 500)%nat.
Proof.
  intros es. assert (Hl : legal_run zones json (None, Disk ∅ 0 None 0) es) by (split; [intros o' _; apply lookup_empty|repeat split]).
  assert (Ho : Forall not_outside es) by (repeat constructor; by intros fs).
  split; [exact Hl|]. split; [exact Ho|]. exact (proj1 (schedules_bounded zones json es Hl Ho)).
Defined.

(** The next run, without computing a digest. *)
Lemma sample_next :
  ∃ t, next_run zones (at_day 20010) schedule (the_policy recurring) = Ok (utc_at t) ∧ days 20017 <= t < days 20026
       ∧ is_within_window zones "UTC" ["monday"; "thursday"] 8 4 t = Ok true.
Proof.
  set (z := Zone (λ _, 0) (λ _, false) (λ _ _, 0)). assert (Hz : fixed_zone z 0) by (split; [by intros|done]).
  assert (Hw : ∃ w, w ∈ ["monday"; "thursday"] ∧ w ∈ ACTIVE_RECURRENCE_WEEKDAYS) by (exists "monday"; split; left).
  destruct (jitter_ok schedule eq_refl) as [j Hj]. pose proof (jitter_bounds _ _ Hj) as Hb.
  destruct (fixed_zone_next zones (days 20017 + seconds j) schedule "UTC" ["monday"; "thursday"] 8 4 z 0
    eq_refl Hz eq_refl Hw ltac:(discriminate) ltac:(discriminate) ltac:(discriminate)) as (t & Ht & Hbt & Hin).
  exists t. split; [|split; [|exact Hin]].
  - unfold next_run, _next_run. cbn [the_policy recurring interval_days timezone_name window_weekdays window_start_hour window_duration_hours].
    rewrite Hj. cbn [mbind outcome_bind]. change (instant (at_day 20010) + days 7) with (days 20017). rewrite Ht. reflexivity.
  - clear Hj Ht Hin. unfold days, hours, seconds, ACTIVE_RECURRENCE_MAX_JITTER_SECONDS in *. lia.
Qed.

(** What the dispatch writes. *)
Definition dispatched (t : Z) : ActiveRecurrenceRecord :=
  with_progress recurring authorized
    (Progress "active" "scheduled" (utc_at t) (Some (at_day 20010)) (Some key) 0 None (Some (at_day 20010)) "scheduled") (at_day 20010).

Lemma sample_dispatch t (w : memory * disk (option ActiveRecurrenceRecord)) :
  next_run zones (at_day 20010) schedule (the_policy recurring) = Ok (utc_at t) → t < days 20026 →
  w.1 = None → files w.2 !! file_of recurring = Some (Some recurring) →
  record_dispatch zones json w recurring key (at_day 20010) (at_day 20010)
  = (Ok (dispatched t), (None, write_file (file_of recurring) (Some (dispatched t)) w.2)).
Proof.
  intros Hnext Ht Hm Hf. destruct w as [m d]. cbn in Hm, Hf. subst m.
  rewrite (record_dispatch_mutate zones json (None, d) recurring key (at_day 20010) (at_day 20010) (at_day 20010) (utc_at t) eq_refl Hnext).
  - change (file_of recurring) with (file_of (dispatched t)). apply (mutate_file zones json). unfold mutation, _read. unfold file_of in Hf.
    cbn [snd]. rewrite Hf. reflexivity.
  - unfold ended. cbn [the_authorization recurring authorized authorization_expires_at from_option].
    apply Z.leb_gt. unfold utc_at, at_day, instant, days, hours, seconds in *. cbn. lia.
Qed.

(** The dispatcher is given it again at its next run. *)
Lemma sample_due t (w : memory * disk (option ActiveRecurrenceRecord)) :
  world_ok zones json w → files w.2 = {[ file_of recurring := Some (dispatched t) ]} →
  is_within_window zones "UTC" ["monday"; "thursday"] 8 4 t = Ok true →
  (list_due zones json (utc_at t) 1 w).1 = Ok [dispatched t].
Proof.
  intros Hok Hf Hin. rewrite (list_due_files zones json w (utc_at t) 1 Hok eq_refl) by (unfold ACTIVE_RECURRENCE_MAX_DUE_PER_TICK; lia).
  unfold scanned_due. rewrite Hf.
  assert (load_all index_invalid (read_content zones) {[ file_of recurring := Some (dispatched t) ]} = Ok [dispatched t]) as ->.
  { unfold load_all. rewrite map_to_list_singleton. reflexivity. }
  cbn [store_error mbind outcome_bind].
  assert (chosen (H := recurrence_indexed json) (due (instant (utc_at t))) run_order [dispatched t] = [dispatched t]) as ->.
  { unfold chosen. rewrite filter_cons, decide_True; [reflexivity|]. unfold due, row_of. cbn.
    rewrite (proj2 (Z.leb_le _ _)); [reflexivity|lia]. }
  cbn [first_eligible]. unfold recurrence_is_within_window. cbn [dispatched with_progress recurring the_policy timezone_name window_weekdays
    window_start_hour window_duration_hours]. change (instant (as_utc (utc_at t))) with (t - 0 - 0). rewrite !Z.sub_0_r, Hin. reflexivity.
Qed.

Lemma dispatches_apart_witness :
  let before := run zones json (None, Disk ∅ 0 None 0) [starting] in
  ∃ r' now rs r2,
    (record_dispatch zones json before recurring key (at_day 20010) (at_day 20010)).1 = Ok r'
    ∧ (list_due zones json now 1 (run zones json (None, Disk ∅ 0 None 0) [starting; dispatching])).1 = Ok rs
    ∧ r2 ∈ rs ∧ file_of r2 = file_of recurring
    ∧ instant (at_day 20010) + days 7 <= instant now.
Proof.
  destruct sample_next as (t & Hnext & [_ Ht] & Hin).
  set (before := run zones json (None, Disk ∅ 0 None 0) [starting]).
  assert (Hl : legal_run zones json (None, Disk ∅ 0 None 0) ([starting] ++ [dispatching])).
  { split; [|split; [|exact I]].
    - intros o o' i [c Hc] [c' Hc']. apply lookup_singleton_Some in Hc as [[= <- <-] _], Hc' as [[= <-] _]. reflexivity.
    - intros c Hc _. injection Hc as <-. split; reflexivity. }
  pose proof (sample_dispatch t before Hnext Ht eq_refl eq_refl) as Hd.
  assert (Hok : world_ok zones json (run zones json (None, Disk ∅ 0 None 0) [starting; dispatching]))
    by (apply run_world_ok; [apply nothing_ok|exact Hl]).
  assert (Hdue : (list_due zones json (utc_at t) 1 (run zones json (None, Disk ∅ 0 None 0) [starting; dispatching])).1 = Ok [dispatched t]).
  { apply sample_due; [exact Hok| |exact Hin].
    change (run zones json (None, Disk ∅ 0 None 0) [starting; dispatching])
      with (record_dispatch zones json before recurring key (at_day 20010) (at_day 20010)).2.
    rewrite Hd. cbn [snd write_file files]. unfold before. cbn [run foldl after starting restarted files fst snd]. apply insert_singleton_eq. }
  exists (dispatched t), (utc_at t), [dispatched t], (dispatched t). split; [by rewrite Hd|]. split; [exact Hdue|].
  split; [left|]. split; [reflexivity|].
  apply (dispatches_apart zones json [starting] recurring key (at_day 20010) (at_day 20010) (dispatched t) [] (utc_at t) 1 [dispatched t] (dispatched t) Hl).
  - fold before. by rewrite Hd.
  - constructor.
  - exact Hdue.
  - left.
  - reflexivity.
Defined.
