(* ===== verification/VersionMatching.v ===== *)
(** * VersionMatching: offline version-range decisions

    Models [backend/app/version_matching.py]: the version grammars of seven
    ecosystems, their orders, and the comparator loops.  The regular
    expressions are the anchored ones of the source, written as recursive
    descent on the characters.  [packaging.version] and
    [packaging.specifiers], which decide PyPI ranges, are third-party code and
    a parameter ([packaging_ops]). *)

From S2P Require Import Prelude PyStr.
Local Open Scope Z_scope.

(** ** Decisions *)

(** backend/app/version_matching.py 18-18 [VersionMatchStatus] *)
Inductive VersionMatchStatus : Set := matched | not_matched | unknown.

(** backend/app/version_matching.py [VersionRangeMatch] *)
Record VersionRangeMatch : Type := RangeMatch { status : VersionMatchStatus; reason : string }.

#[export] Instance match_status_eq_dec : EqDecision VersionMatchStatus.
Proof. solve_decision. Defined.
#[export] Instance range_match_eq_dec : EqDecision VersionRangeMatch.
Proof. solve_decision. Defined.

Inductive operator : Set := LE | GE | LT | GT | EQ.

#[export] Instance operator_eq_dec : EqDecision operator.
Proof. solve_decision. Defined.

(** [{"=": c == 0, ">": c > 0, ...}[op]] *)
Definition holds (op : operator) (comparison : Z) : bool :=
  match op with
  | EQ => comparison =? 0
  | GT => 0 <? comparison
  | GE => 0 <=? comparison
  | LT => comparison <? 0
  | LE => comparison <=? 0
  end.

(** ** Grammar pieces *)

(** [0|[1-9]\d*] *)
Definition numeric_identifier (s : string) : bool :=
  all_chars is_digit s && (String.eqb s "0" || from_option (between 49 57) false (first_char s)).

(** [\d+] *)
Definition digits (s : string) : bool := truthy s && all_chars is_digit s.

Definition is_ident_char (c : ascii) : bool := is_ascii_alnum c || is_char "-" c.

(** [[0-9A-Za-z-]+(?:\.[0-9A-Za-z-]+)*] *)
Definition dotted_idents (s : string) : bool :=
  forallb (λ p, truthy p && all_chars is_ident_char p) (split_on "." s).

(** The ways [^(<=|>=|<|>|=)?] can split a comparator, in the order the
    pattern tries them. *)
Definition operator_splits (s : string) : list (option operator * string) :=
  let split op p := if startswith p s then [(Some op, str_drop (len p) s)] else [] in
  split LE "<=" ++ split GE ">=" ++ split LT "<" ++ split GT ">" ++ split EQ "=" ++ [(None, s)].

(** [re.fullmatch(r"(<=|>=|<|>|=)?(body)", s)], with [group(1) or "="]. *)
Definition match_comparator (body : string → bool) (s : string) : option (operator * string) :=
  (λ '(o, r), (default EQ o, r)) <$> first_match (λ '(_, r), body r) (operator_splits s).

(** [text.strip().replace(",", " ").split()] *)
Definition comparators_of (affected_range : string) : list string :=
  split_space (replace_char "," " " (strip affected_range)).

(** The comparator loop the matchers share: [decide] evaluates one
    comparator, to an early answer or to its truth. *)
Fixpoint comparator_loop (decide : string → outcome (VersionRangeMatch + bool))
    (fail ok : VersionRangeMatch) (comparators : list string) : outcome VersionRangeMatch :=
  match comparators with
  | [] => Ok ok
  | c :: cs =>
      r ← decide c;
      match r with
      | inl answer => Ok answer
      | inr false => Ok fail
      | inr true => comparator_loop decide fail ok cs
      end
  end.

(** [-1 if a < b else 1] of two numbers known to differ, and 0. *)
Definition compare_N (a b : N) : Z := if (a =? b)%N then 0 else if (a <? b)%N then -1 else 1.
Definition compare_str (a b : string) : Z := if String.eqb a b then 0 else if str_ltb a b then -1 else 1.

(** Lexicographic comparison of tuples of equal length. *)
Fixpoint compare_list {A} (cmp : A → A → Z) (l k : list A) : Z :=
  match l, k with
  | a :: l', b :: k' => let c := cmp a b in if c =? 0 then compare_list cmp l' k' else c
  | [], [] => 0
  | [], _ => -1
  | _, [] => 1
  end.

(** ** npm *)

(** backend/app/version_matching.py 29-31 [_NPM_RELEASE_VERSION] *)
Definition _NPM_RELEASE_VERSION (s : string) : option (string * string * string) :=
  let '(core, build) := partition "+" s in
  match split_on "." core with
  | [a; b; c] =>
      if numeric_identifier a && numeric_identifier b && numeric_identifier c
         && from_option dotted_idents true build
      then Some (a, b, c) else None
  | _ => None
  end.

(** backend/app/version_matching.py [_parse_npm_release_version] *)
Definition _parse_npm_release_version (value : string) : outcome (option (N * N * N) * string) :=
  let normalized := strip value in
  if contains "-" (partition "+" normalized).1 then Ok (None, "npm_prerelease_not_supported") else
  match _NPM_RELEASE_VERSION normalized with
  | None => Ok (None, "npm_version_not_supported")
  | Some (a, b, c) =>
      x ← py_int a; y ← py_int b; z ← py_int c;
      Ok (Some (x, y, z), "npm_release_version")
  end.

Definition triple_list (t : N * N * N) : list N := let '(a, b, c) := t in [a; b; c].

(** Comparison of two triples. *)
Definition compare_triple (l r : N * N * N) : Z := compare_list compare_N (triple_list l) (triple_list r).

(** backend/app/version_matching.py [_compare_npm_versions] *)
Definition _compare_npm_versions (l r : N * N * N) (op : operator) : bool := holds op (compare_triple l r).

(** backend/app/version_matching.py 101-110 [_match_npm_version] *)
Definition npm_decide (version : N * N * N) (comparator : string) : outcome (VersionRangeMatch + bool) :=
  match match_comparator (λ s, bool_decide (is_Some (_NPM_RELEASE_VERSION s))) comparator with
  | None => Ok (inl (RangeMatch unknown "npm_range_syntax_not_supported"))
  | Some (op, bound) =>
      '(candidate, candidate_reason) ← _parse_npm_release_version bound;
      match candidate with
      | None => Ok (inl (RangeMatch unknown candidate_reason))
      | Some candidate => Ok (inr (_compare_npm_versions version candidate op))
      end
  end.

Definition npm_markers : list string := ["||"; "^"; "~"; "*"; "x"; "X"; " - "].

(** backend/app/version_matching.py [_match_npm_version] *)
Definition _match_npm_version (exact_version affected_range : string) : outcome VersionRangeMatch :=
  '(version, version_reason) ← _parse_npm_release_version exact_version;
  match version with
  | None => Ok (RangeMatch unknown version_reason)
  | Some version =>
      let normalized_range := strip affected_range in
      if negb (truthy normalized_range) then Ok (RangeMatch unknown "npm_empty_range")
      else if any_of (λ m, contains m normalized_range) npm_markers
      then Ok (RangeMatch unknown "npm_range_syntax_not_supported")
      else
        let comparators := split_space (replace_char "," " " normalized_range) in
        match comparators with
        | [] => Ok (RangeMatch unknown "npm_empty_range")
        | _ => comparator_loop (npm_decide version)
                 (RangeMatch not_matched "npm_comparator_not_satisfied")
                 (RangeMatch matched "npm_all_comparators_satisfied") comparators
        end
  end.

(** ** Prerelease identifiers: [(0, int)] or [(1, str)] *)
Inductive identifier : Type := Num (n : N) | Label (s : string).

#[export] Instance identifier_eq_dec : EqDecision identifier.
Proof. solve_decision. Defined.

Definition compare_identifier (a b : identifier) : Z :=
  match a, b with
  | Num m, Num n => compare_N m n
  | Label s, Label t => compare_str s t
  | Num _, Label _ => -1
  | Label _, Num _ => 1
  end.

(** A release sorts after its prereleases. *)
Definition compare_prerelease (l r : option (list identifier)) : Z :=
  match l, r with
  | None, None => 0
  | None, Some _ => 1
  | Some _, None => -1
  | Some l, Some r => compare_list compare_identifier l r
  end.

(** [part.isdigit()] *)
Definition isdigit (s : string) : bool := truthy s && all_chars is_digit_char s.

(** ** Go, Cargo and Composer *)

Record go_version : Type := GoVersion { go_core : N * N * N; go_pre : option (list identifier) }.

#[export] Instance go_version_eq_dec : EqDecision go_version.
Proof. solve_decision. Defined.

Definition is_pre_char (c : ascii) : bool := is_ascii_alnum c || one_of ".-" c.
Definition pre_text (s : string) : bool := truthy s && all_chars is_pre_char s.

(** backend/app/version_matching.py 34-37 [_GO_VERSION] *)
Definition _GO_VERSION (s : string) : option (string * string * string * option string) :=
  let body := if startswith "v" s then str_drop 1 s else s in
  let '(head, build) := partition "+" body in
  let '(core, pre) := partition "-" head in
  match split_on "." core with
  | [a; b; c] =>
      if numeric_identifier a && numeric_identifier b && numeric_identifier c
         && from_option pre_text true pre && from_option pre_text true build
      then Some (a, b, c, pre) else None
  | _ => None
  end.

(** backend/app/version_matching.py 372-375 [_parse_go_version identifiers] *)
Definition go_identifier (part : string) : outcome identifier :=
  if isdigit part then n ← py_int part; Ok (Num n) else Ok (Label part).

(** backend/app/version_matching.py [_parse_go_version] *)
Definition _parse_go_version (value : string) : outcome (option go_version) :=
  match _GO_VERSION (strip value) with
  | None => Ok None
  | Some (a, b, c, prerelease) =>
      let parts := default [] (split_on "." <$> prerelease) in
      if any_of (λ p, negb (truthy p)) parts then Ok None else
      ids ← traverse go_identifier parts;
      x ← py_int a; y ← py_int b; z ← py_int c;
      Ok (Some (GoVersion (x, y, z) ((λ _, ids) <$> prerelease)))
  end.

(** backend/app/version_matching.py [_compare_go_versions] *)
Definition _compare_go_versions (l r : go_version) : Z :=
  let c := compare_triple (go_core l) (go_core r) in
  if c =? 0 then compare_prerelease (go_pre l) (go_pre r) else c.

(** backend/app/version_matching.py 341-356 [_match_semver_version] *)
Definition semver_decide (reason_prefix : string) (allow_v_prefix : bool) (version : go_version)
    (comparator : string) : outcome (VersionRangeMatch + bool) :=
  let unsupported := RangeMatch unknown (reason_prefix ++ "_range_syntax_not_supported") in
  match match_comparator (λ s, bool_decide (is_Some (_GO_VERSION s))) comparator with
  | None => Ok (inl unsupported)
  | Some (op, text) =>
      bound ← _parse_go_version text;
      match bound with
      | None => Ok (inl unsupported)
      | Some bound =>
          if negb allow_v_prefix && startswith "v" text then Ok (inl unsupported)
          else Ok (inr (holds op (_compare_go_versions version bound)))
      end
  end.

(** backend/app/version_matching.py [_match_semver_version] *)
Definition _match_semver_version (exact_version affected_range reason_prefix : string)
    (allow_v_prefix : bool) : outcome VersionRangeMatch :=
  parsed ← _parse_go_version exact_version;
  let version := if negb allow_v_prefix && startswith "v" (strip exact_version) then None else parsed in
  match version with
  | None => Ok (RangeMatch unknown (reason_prefix ++ "_version_not_supported"))
  | Some version =>
      match comparators_of affected_range with
      | [] => Ok (RangeMatch unknown (reason_prefix ++ "_empty_range"))
      | comparators =>
          comparator_loop (semver_decide reason_prefix allow_v_prefix version)
            (RangeMatch not_matched (reason_prefix ++ "_comparator_not_satisfied"))
            (RangeMatch matched (reason_prefix ++ "_all_comparators_satisfied")) comparators
      end
  end.

(** backend/app/version_matching.py [_match_go_version] *)
Definition _match_go_version (exact_version affected_range : string) : outcome VersionRangeMatch :=
  _match_semver_version exact_version affected_range "go" true.

(** ** NuGet *)

(** backend/app/version_matching.py 38-45 [constants] *)
Definition _NUGET_MAX_VERSION_LENGTH : nat := 64.
Definition _NUGET_MAX_INTEGER : N := 2147483647.

(** The four padded numbers and the prerelease labels. *)
Record nuget_version : Type := NugetVersion {
  nuget_numbers : list N;
  nuget_pre : option (list identifier)
}.

#[export] Instance nuget_version_eq_dec : EqDecision nuget_version.
Proof. solve_decision. Defined.

(** backend/app/version_matching.py 39-42 [_NUGET_VERSION] *)
Definition _NUGET_VERSION (s : string) : option (list string * option string) :=
  let '(head, build) := partition "+" s in
  let '(core, pre) := partition "-" head in
  let parts := split_on "." core in
  if (length parts <=? 4)%nat && forallb digits parts
     && from_option dotted_idents true pre && from_option dotted_idents true build
  then Some (parts, pre) else None.

(** [(numbers + (0, 0, 0, 0))[:4]] *)
Definition pad4 (l : list N) : list N := take 4 (l ++ [0; 0; 0; 0])%N.

(** backend/app/version_matching.py 239-242 [_parse_nuget_version labels] *)
Definition nuget_identifier (part : string) : outcome identifier :=
  if isdigit part then n ← py_int part; Ok (Num n) else Ok (Label (lower part)).

(** [not part or (part.isdigit() and int(part) > _NUGET_MAX_INTEGER)] *)
Definition nuget_bad_part (part : string) : outcome bool :=
  if negb (truthy part) then Ok true
  else if isdigit part then n ← py_int part; Ok (_NUGET_MAX_INTEGER <? n)%N
  else Ok false.

(** [any(...)] over a test that may raise. *)
Fixpoint any_outcome (f : string → outcome bool) (l : list string) : outcome bool :=
  match l with
  | [] => Ok false
  | x :: l' => b ← f x; if (b : bool) then Ok true else any_outcome f l'
  end.

(** backend/app/version_matching.py 229-242 [_parse_nuget_version] *)
Definition parse_nuget_text (normalized : string) : outcome (option nuget_version) :=
  match _NUGET_VERSION normalized with
  | None => Ok None
  | Some (parts, prerelease) =>
      numbers ← traverse py_int parts;
      if any_of (λ n, _NUGET_MAX_INTEGER <? n)%N numbers then Ok None else
      let padded := pad4 numbers in
      match prerelease with
      | None => Ok (Some (NugetVersion padded None))
      | Some text =>
          let labels := split_on "." text in
          bad ← any_outcome nuget_bad_part labels;
          if (bad : bool) then Ok None else
          ids ← traverse nuget_identifier labels;
          Ok (Some (NugetVersion padded (Some ids)))
      end
  end.

(** backend/app/version_matching.py [_parse_nuget_version] *)
Definition _parse_nuget_version (value : string) : outcome (option nuget_version) :=
  let normalized := strip value in
  if negb (truthy normalized) || (_NUGET_MAX_VERSION_LENGTH <? len normalized)%nat then Ok None
  else parse_nuget_text normalized.

(** backend/app/version_matching.py [_compare_nuget_versions] *)
Definition _compare_nuget_versions (l r : nuget_version) : Z :=
  let c := compare_list compare_N (nuget_numbers l) (nuget_numbers r) in
  if c =? 0 then compare_prerelease (nuget_pre l) (nuget_pre r) else c.

(** [str(item[1])] *)
Definition label_text (i : identifier) : string :=
  match i with Num n => str_of_N n | Label s => s end.

(** backend/app/version_matching.py 148-155 [canonicalize_nuget_version] *)
Definition print_nuget (v : nuget_version) : string :=
  let core := join "." (str_of_N <$> take 3 (nuget_numbers v)) in
  let core := match nth_error (nuget_numbers v) 3 with
              | Some n => if (n =? 0)%N then core else (core ++ "." ++ str_of_N n)%string
              | None => core
              end in
  match nuget_pre v with
  | None => core
  | Some ids => (core ++ "-" ++ join "." (label_text <$> ids))%string
  end.

(** backend/app/version_matching.py [canonicalize_nuget_version] *)
Definition canonicalize_nuget_version (value : string) : outcome (option string) :=
  parsed ← _parse_nuget_version value;
  Ok (option_map print_nuget parsed).

(** backend/app/version_matching.py 121-131 [_match_nuget_version] *)
Definition nuget_decide (version : nuget_version) (comparator : string) : outcome (VersionRangeMatch + bool) :=
  let unsupported := RangeMatch unknown "nuget_range_syntax_not_supported" in
  match match_comparator truthy comparator with
  | None => Ok (inl unsupported)
  | Some (op, text) =>
      bound ← _parse_nuget_version text;
      match bound with
      | None => Ok (inl unsupported)
      | Some bound => Ok (inr (holds op (_compare_nuget_versions version bound)))
      end
  end.

(** backend/app/version_matching.py [_match_nuget_version] *)
Definition _match_nuget_version (exact_version affected_range : string) : outcome VersionRangeMatch :=
  version ← _parse_nuget_version exact_version;
  match version with
  | None => Ok (RangeMatch unknown "nuget_version_not_supported")
  | Some version =>
      match comparators_of affected_range with
      | [] => Ok (RangeMatch unknown "nuget_empty_range")
      | comparators =>
          comparator_loop (nuget_decide version)
            (RangeMatch not_matched "nuget_comparator_not_satisfied")
            (RangeMatch matched "nuget_all_comparators_satisfied") comparators
      end
  end.

(** ** Maven *)

Record maven_version : Type := MavenVersion {
  maven_numbers : list N;
  maven_qualifier : N;
  maven_qualifier_number : N
}.

#[export] Instance maven_version_eq_dec : EqDecision maven_version.
Proof. solve_decision. Defined.

Definition maven_qualifiers : list string :=
  ["alpha"; "a"; "beta"; "b"; "milestone"; "m"; "rc"; "cr"; "snapshot"; "ga"; "final"; "release"; "sp"].

(** The text after a qualifier: nothing, or [[.-]?] and a numeric identifier. *)
Definition qualifier_number (rest : string) : option (option string) :=
  if negb (truthy rest) then Some None
  else if numeric_identifier rest then Some (Some rest)
  else match rest with
       | String c r => if one_of ".-" c && numeric_identifier r then Some (Some r) else None
       | EmptyString => None
       end.

(** The alternatives of the qualifier, in order, each against the whole
    remaining text; the match ignores case and the result is lower case. *)
Fixpoint match_qualifier (alternatives : list string) (rest : string) : option (string * option string) :=
  match alternatives with
  | [] => None
  | q :: qs =>
      match (if startswith q (lower rest) then qualifier_number (text (drop (len q) (chars rest))) else None) with
      | Some n => Some (q, n)
      | None => match_qualifier qs rest
      end
  end.

(** backend/app/version_matching.py 46-51 [_MAVEN_SAFE_VERSION] *)
Definition _MAVEN_SAFE_VERSION (s : string)
    : option (list string * option (ascii * string * option string)) :=
  let head := take_while (λ c, negb (is_ascii_letter c)) (chars s) in
  let rest := drop_while (λ c, negb (is_ascii_letter c)) (chars s) in
  let core_ok core := forallb numeric_identifier (split_on "." core) in
  match rest, last head with
  | [], _ => if core_ok s then Some (split_on "." s, None) else None
  | _, Some sep =>
      let core := text (take (length head - 1) head) in
      if one_of ".-" sep && core_ok core then
        match match_qualifier maven_qualifiers (text rest) with
        | Some (q, n) => Some (split_on "." core, Some (sep, q, n))
        | None => None
        end
      else None
  | _, None => None
  end.

(** [while len(numbers) > 1 and numbers[-1] == 0: numbers.pop()] *)
Fixpoint drop_zeros (reversed : list N) : list N :=
  match reversed with
  | 0%N :: l' => match l' with [] => reversed | _ => drop_zeros l' end
  | _ => reversed
  end.
Definition trim_zeros (numbers : list N) : list N := reverse (drop_zeros (reverse numbers)).

(** backend/app/version_matching.py 52-55 [_MAVEN_QUALIFIER_ALIASES] *)
Definition _MAVEN_QUALIFIER_ALIASES (q : string) : string :=
  if String.eqb q "a" then "alpha" else if String.eqb q "b" then "beta"
  else if String.eqb q "m" then "milestone" else if String.eqb q "cr" then "rc"
  else if mem q ["ga"; "final"; "release"] then "" else q.

(** backend/app/version_matching.py 56-56 [_MAVEN_QUALIFIER_ORDER] *)
Definition _MAVEN_QUALIFIER_ORDER (q : string) : option N :=
  dict_get q [("alpha", 0); ("beta", 1); ("milestone", 2); ("rc", 3); ("snapshot", 4); ("", 5); ("sp", 6)]%N.

(** backend/app/version_matching.py [_parse_maven_version] *)
Definition _parse_maven_version (value : string) : outcome (option maven_version) :=
  let normalized := strip value in
  if negb (truthy normalized) || (160 <? len normalized)%nat then Ok None else
  match _MAVEN_SAFE_VERSION normalized with
  | None => Ok None
  | Some (core, suffix) =>
      numbers ← traverse py_int core;
      let numbers := trim_zeros numbers in
      let qualifier := from_option (λ '(_, q, _), q) "" suffix in
      let separator := (λ '(s, _, _), s) <$> suffix in
      let number_text := (suffix ≫= λ '(_, _, n), n) in
      if bool_decide (separator = Some "."%char) && negb (mem qualifier ["ga"; "final"; "release"])
      then Ok None
      else if mem qualifier ["a"; "b"; "m"] && bool_decide (number_text = None) then Ok None
      else
        let qualifier := _MAVEN_QUALIFIER_ALIASES qualifier in
        if mem qualifier [""; "snapshot"] && bool_decide (is_Some number_text) then Ok None else
        number ← match number_text with None => Ok 0%N | Some t => py_int t end;
        order ← or_raise (_MAVEN_QUALIFIER_ORDER qualifier) "KeyError";
        Ok (Some (MavenVersion numbers order number))
  end.

(** backend/app/version_matching.py [is_supported_maven_version] *)
Definition is_supported_maven_version (value : string) : outcome bool :=
  parsed ← _parse_maven_version value;
  Ok (bool_decide (is_Some parsed)).

(** [left[0] + (0,) * (width - len(left[0]))] *)
Definition pad_to (width : nat) (l : list N) : list N := l ++ replicate (width - length l) 0%N.

(** backend/app/version_matching.py [_compare_maven_versions] *)
Definition _compare_maven_versions (l r : maven_version) : Z :=
  let width := Nat.max (length (maven_numbers l)) (length (maven_numbers r)) in
  let c := compare_list compare_N (pad_to width (maven_numbers l)) (pad_to width (maven_numbers r)) in
  if c =? 0
  then compare_list compare_N [maven_qualifier l; maven_qualifier_number l]
                              [maven_qualifier r; maven_qualifier_number r]
  else c.

(** backend/app/version_matching.py 171-181 [_match_maven_version] *)
Definition maven_decide (version : maven_version) (comparator : string) : outcome (VersionRangeMatch + bool) :=
  let unsupported := RangeMatch unknown "maven_range_syntax_not_supported" in
  match match_comparator truthy comparator with
  | None => Ok (inl unsupported)
  | Some (op, text) =>
      bound ← _parse_maven_version text;
      match bound with
      | None => Ok (inl unsupported)
      | Some bound => Ok (inr (holds op (_compare_maven_versions version bound)))
      end
  end.

(** backend/app/version_matching.py [_match_maven_version] *)
Definition _match_maven_version (exact_version affected_range : string) : outcome VersionRangeMatch :=
  version ← _parse_maven_version exact_version;
  match version with
  | None => Ok (RangeMatch unknown "maven_version_not_supported")
  | Some version =>
      match comparators_of affected_range with
      | [] => Ok (RangeMatch unknown "maven_empty_range")
      | comparators =>
          comparator_loop (maven_decide version)
            (RangeMatch not_matched "maven_comparator_not_satisfied")
            (RangeMatch matched "maven_all_comparators_satisfied") comparators
      end
  end.

(** ** PyPI, and the dispatch *)

(** What the code uses of [packaging]: parsing, the prerelease flag, the
    operator and version of each specifier, and containment. *)
Record packaging_ops : Type := PackagingOps {
  pkg_version : Type;
  pkg_specifiers : Type;
  parse_version : string → option pkg_version;          (* [None]: InvalidVersion *)
  is_prerelease : pkg_version → bool;
  parse_specifier_set : string → option pkg_specifiers; (* [None]: InvalidSpecifier *)
  specifiers : pkg_specifiers → list (string * string);
  contained : pkg_version → pkg_specifiers → bool
}.

(** backend/app/version_matching.py 33-33 [_PYPI_SUPPORTED_OPERATORS] *)
Definition _PYPI_SUPPORTED_OPERATORS : list string := ["=="; "!="; "<"; "<="; ">"; ">="; "~="].

Section Dispatch.
Context (pkg : packaging_ops).

(** The first answer of the specifier loop, if it leaves early. *)
Fixpoint check_specifiers (l : list (string * string)) : option VersionRangeMatch :=
  match l with
  | [] => None
  | (op, version) :: l' =>
      if negb (mem op _PYPI_SUPPORTED_OPERATORS) || contains "*" version
      then Some (RangeMatch unknown "pypi_range_syntax_not_supported")
      else match parse_version pkg version with
           | None => Some (RangeMatch unknown "pypi_range_syntax_not_supported")
           | Some bound => if is_prerelease pkg bound
                           then Some (RangeMatch unknown "pypi_prerelease_not_supported")
                           else check_specifiers l'
           end
  end.

(** backend/app/version_matching.py [_match_pypi_version] *)
Definition _match_pypi_version (exact_version affected_range : string) : VersionRangeMatch :=
  match parse_version pkg (strip exact_version) with
  | None => RangeMatch unknown "pypi_version_not_supported"
  | Some version =>
      if is_prerelease pkg version then RangeMatch unknown "pypi_prerelease_not_supported" else
      let normalized_range := strip affected_range in
      if negb (truthy normalized_range) then RangeMatch unknown "pypi_empty_range" else
      match parse_specifier_set pkg normalized_range with
      | None => RangeMatch unknown "pypi_range_syntax_not_supported"
      | Some specifier_set =>
          match specifiers pkg specifier_set with
          | [] => RangeMatch unknown "pypi_empty_range"
          | l => match check_specifiers l with
                 | Some answer => answer
                 | None => if contained pkg version specifier_set
                           then RangeMatch matched "pypi_specifier_satisfied"
                           else RangeMatch not_matched "pypi_specifier_not_satisfied"
                 end
          end
      end
  end.

(** backend/app/version_matching.py [match_exact_version_against_range] *)
Definition match_exact_version_against_range (ecosystem exact_version affected_range : string)
    : outcome VersionRangeMatch :=
  if String.eqb ecosystem "npm" then _match_npm_version exact_version affected_range
  else if String.eqb ecosystem "pypi" then Ok (_match_pypi_version exact_version affected_range)
  else if String.eqb ecosystem "go" then _match_go_version exact_version affected_range
  else if String.eqb ecosystem "cargo" then _match_semver_version exact_version affected_range "cargo" false
  else if String.eqb ecosystem "composer" then _match_semver_version exact_version affected_range "composer" false
  else if String.eqb ecosystem "maven" then _match_maven_version exact_version affected_range
  else if String.eqb ecosystem "nuget" then _match_nuget_version exact_version affected_range
  else Ok (RangeMatch unknown "unsupported_ecosystem").
End Dispatch.

(** ** Concrete values *)
Example npm_in_range :
  _match_npm_version "1.4.2" ">=1.2.0, <2.0.0" = Ok (RangeMatch matched "npm_all_comparators_satisfied").
Proof. reflexivity. Qed.
Example go_prerelease_order :
  _match_go_version "v1.0.0-rc.10" ">v1.0.0-rc.9 <1.0.0" = Ok (RangeMatch matched "go_all_comparators_satisfied").
Proof. reflexivity. Qed.
Example nuget_canonical : canonicalize_nuget_version " 01.2-Beta.007+meta" = Ok (Some "1.2.0-beta.7").
Proof. reflexivity. Qed.
Example maven_order :
  _match_maven_version "1.0" ">1.0-rc1 <=1.0.0.FINAL" = Ok (RangeMatch matched "maven_all_comparators_satisfied").
Proof. reflexivity. Qed.
Example maven_sp : _match_maven_version "1.0-SP2" ">1" = Ok (RangeMatch matched "maven_all_comparators_satisfied").
Proof. reflexivity. Qed.

(** ** The orders

    A comparison that returns -1, 0 or 1 and is a total order. *)
Class TotalCompare {A} (cmp : A → A → Z) : Prop := {
  cmp_range a b : cmp a b = -1 ∨ cmp a b = 0 ∨ cmp a b = 1;
  cmp_eq a b : cmp a b = 0 ↔ a = b;
  cmp_opp a b : cmp b a = - cmp a b;
  cmp_trans a b c : cmp a b = -1 → cmp b c = -1 → cmp a c = -1
}.

#[export] Instance compare_N_total : TotalCompare compare_N.
Proof.
  split; unfold compare_N; intros.
  - destruct (N.eqb_spec a b), (N.ltb_spec a b); lia.
  - destruct (N.eqb_spec a b), (N.ltb_spec a b); lia.
  - destruct (N.eqb_spec a b), (N.eqb_spec b a), (N.ltb_spec a b), (N.ltb_spec b a); lia.
  - destruct (N.eqb_spec a b), (N.ltb_spec a b), (N.eqb_spec b c), (N.ltb_spec b c); try lia.
    destruct (N.eqb_spec a c), (N.ltb_spec a c); lia.
Qed.

Lemma compare_str_lt s t : compare_str s t = -1 ↔ str_ltb s t = true.
Proof.
  unfold compare_str. destruct (String.eqb_spec s t) as [->|].
  - split; [done|]. intros H. pose proof (str_ltb_asym _ _ H). congruence.
  - by destruct (str_ltb s t).
Qed.

#[export] Instance compare_str_total : TotalCompare compare_str.
Proof.
  split.
  - intros a b. unfold compare_str. repeat case_match; auto.
  - intros a b. unfold compare_str. destruct (String.eqb_spec a b); [done|]. by case_match.
  - intros a b. unfold compare_str. destruct (String.eqb_spec a b) as [->|Hne]; [by rewrite String.eqb_refl|].
    destruct (String.eqb_spec b a); [congruence|].
    destruct (str_ltb a b) eqn:E; [by rewrite (str_ltb_asym _ _ E)|].
    destruct (str_ltb b a) eqn:E'; [done|]. destruct Hne. by apply str_le_antisym.
  - intros a b c. rewrite !compare_str_lt. apply str_ltb_trans.
Qed.

Section Lists.
Context {A} (cmp : A → A → Z) `{!TotalCompare cmp}.

Lemma compare_list_range l k : compare_list cmp l k = -1 ∨ compare_list cmp l k = 0 ∨ compare_list cmp l k = 1.
Proof.
  revert k. induction l as [|a l IH]; intros [|b k]; cbn; auto.
  destruct (cmp a b =? 0); [apply IH|apply cmp_range].
Qed.

Lemma compare_list_eq l k : compare_list cmp l k = 0 ↔ l = k.
Proof.
  revert k. induction l as [|a l IH]; intros [|b k]; cbn; try done.
  destruct (Z.eqb_spec (cmp a b) 0) as [->%cmp_eq|Hne].
  - rewrite IH. naive_solver.
  - split; [done|]. intros [= -> _]. destruct Hne. by apply cmp_eq.
Qed.

Lemma compare_list_opp l k : compare_list cmp k l = - compare_list cmp l k.
Proof.
  revert k. induction l as [|a l IH]; intros [|b k]; cbn; try done. rewrite (cmp_opp a b).
  destruct (Z.eqb_spec (cmp a b) 0) as [->|]; cbn; [apply IH|].
  destruct (Z.eqb_spec (- cmp a b) 0); [lia|done].
Qed.

Lemma compare_list_trans l k m :
  compare_list cmp l k = -1 → compare_list cmp k m = -1 → compare_list cmp l m = -1.
Proof.
  revert k m. induction l as [|a l IH]; intros [|b k] [|c m]; cbn; try done.
  destruct (Z.eqb_spec (cmp a b) 0) as [->%cmp_eq|Hab].
  - destruct (cmp b c =? 0); [by apply IH|done].
  - intros H1. destruct (Z.eqb_spec (cmp b c) 0) as [<-%cmp_eq|Hbc].
    + intros _. destruct (Z.eqb_spec (cmp a b) 0); [lia|done].
    + intros H2. pose proof (cmp_trans _ _ _ H1 H2) as H3. by rewrite H3.
Qed.

#[export] Instance compare_list_total : TotalCompare (compare_list cmp).
Proof.
  split; [apply compare_list_range|apply compare_list_eq|apply compare_list_opp|apply compare_list_trans].
Qed.
End Lists.

(** An order pulled back along an injection, and the lexicographic product. *)
Lemma compare_inj_total {A B} (f : A → B) (cmp : B → B → Z) :
  TotalCompare cmp → (∀ a b, f a = f b → a = b) → TotalCompare (λ a b, cmp (f a) (f b)).
Proof.
  intros Hc Hf. split.
  - intros a b. apply cmp_range.
  - intros a b. rewrite cmp_eq. split; [apply Hf|by intros ->].
  - intros a b. apply cmp_opp.
  - intros a b c. apply cmp_trans.
Qed.

Lemma compare_lex_total {A B} (cmp : A → A → Z) (cmp' : B → B → Z) :
  TotalCompare cmp → TotalCompare cmp' →
  TotalCompare (λ p q : A * B, let c := cmp p.1 q.1 in if c =? 0 then cmp' p.2 q.2 else c).
Proof.
  intros Hc Hc'. split; cbv zeta.
  - intros [a x] [b y]; cbn. destruct (cmp a b =? 0); apply cmp_range.
  - intros [a x] [b y]; cbn. destruct (Z.eqb_spec (cmp a b) 0) as [->%cmp_eq|Hne].
    + rewrite cmp_eq. naive_solver.
    + split; [done|]. intros [= -> _]. destruct Hne. by apply cmp_eq.
  - intros [a x] [b y]; cbn. rewrite (cmp_opp a b). destruct (Z.eqb_spec (cmp a b) 0) as [->|]; cbn; [apply cmp_opp|].
    destruct (Z.eqb_spec (- cmp a b) 0); [lia|done].
  - intros [a x] [b y] [c z]; cbn. destruct (Z.eqb_spec (cmp a b) 0) as [->%cmp_eq|Hab].
    + destruct (cmp b c =? 0); [apply cmp_trans|done].
    + intros H1. destruct (Z.eqb_spec (cmp b c) 0) as [<-%cmp_eq|Hbc].
      * intros _. destruct (Z.eqb_spec (cmp a b) 0); [lia|done].
      * intros H2. pose proof (cmp_trans _ _ _ H1 H2) as H3. by rewrite H3.
Qed.

#[export] Instance compare_triple_total : TotalCompare compare_triple.
Proof.
  apply (compare_inj_total triple_list (compare_list compare_N)); [apply _|].
  intros [[a b] c] [[a' b'] c']. by intros [= -> -> ->].
Qed.

#[export] Instance compare_identifier_total : TotalCompare compare_identifier.
Proof.
  split.
  - intros [m|s] [n|t]; cbn; auto; apply cmp_range.
  - intros [m|s] [n|t]; cbn; rewrite ?cmp_eq; naive_solver.
  - intros [m|s] [n|t]; cbn; auto; apply cmp_opp.
  - intros [m|s] [n|t] [o|u]; cbn; auto; try done; apply cmp_trans.
Qed.

#[export] Instance compare_prerelease_total : TotalCompare compare_prerelease.
Proof.
  split.
  - intros [l|] [k|]; cbn; auto. apply cmp_range.
  - intros [l|] [k|]; cbn; rewrite ?cmp_eq; naive_solver.
  - intros [l|] [k|]; cbn; auto. apply cmp_opp.
  - intros [l|] [k|] [m|]; cbn; auto; try done; apply cmp_trans.
Qed.

#[export] Instance compare_go_total : TotalCompare _compare_go_versions.
Proof.
  apply (compare_inj_total (λ v, (go_core v, go_pre v)) _ (compare_lex_total _ _ compare_triple_total compare_prerelease_total)).
  intros [] []. by intros [= -> ->].
Qed.

#[export] Instance compare_nuget_total : TotalCompare _compare_nuget_versions.
Proof.
  apply (compare_inj_total (λ v, (nuget_numbers v, nuget_pre v)) _
    (compare_lex_total (compare_list compare_N) compare_prerelease _ _)).
  intros [] []. by intros [= -> ->].
Qed.

(** ** The Maven order

    Padding with zeros to any common width gives the same answer, so the
    comparisons are those of one lexicographic order on trimmed numbers. *)

Lemma compare_list_app_same {A} (cmp : A → A → Z) `{!TotalCompare cmp} l k m :
  length l = length k → compare_list cmp (l ++ m) (k ++ m) = compare_list cmp l k.
Proof.
  revert k. induction l as [|a l IH]; intros [|b k] Hl; cbn in *; try done; [by apply compare_list_eq|].
  destruct (cmp a b =? 0); [apply IH; lia|done].
Qed.

Lemma pad_to_length w l : (length l <= w)%nat → length (pad_to w l) = w.
Proof. intros. unfold pad_to. rewrite length_app, length_replicate. lia. Qed.

Lemma pad_to_more w w' l : (length l <= w <= w')%nat → pad_to w' l = pad_to w l ++ replicate (w' - w) 0%N.
Proof.
  intros. unfold pad_to. rewrite <- app_assoc, <- replicate_add. do 2 f_equal. lia.
Qed.

Definition maven_key (w : nat) (v : maven_version) : list N * list N :=
  (pad_to w (maven_numbers v), [maven_qualifier v; maven_qualifier_number v]).

Definition compare_key (p q : list N * list N) : Z :=
  let c := compare_list compare_N p.1 q.1 in if c =? 0 then compare_list compare_N p.2 q.2 else c.

#[export] Instance compare_key_total : TotalCompare compare_key.
Proof. apply compare_lex_total; apply _. Qed.

Lemma maven_compare_key w l r :
  (length (maven_numbers l) <= w)%nat → (length (maven_numbers r) <= w)%nat →
  _compare_maven_versions l r = compare_key (maven_key w l) (maven_key w r).
Proof.
  intros Hl Hr. unfold _compare_maven_versions, compare_key, maven_key. cbn [fst snd].
  set (w0 := Nat.max _ _).
  rewrite (pad_to_more w0 w (maven_numbers l)), (pad_to_more w0 w (maven_numbers r)) by lia.
  rewrite (compare_list_app_same compare_N); [done|]. by rewrite !pad_to_length by lia.
Qed.

(** What the parser leaves: no trailing zero but a lone one. *)
Definition trimmed (l : list N) : Prop := (1 <= length l)%nat ∧ (last l = Some 0%N → length l = 1%nat).

Lemma drop_zeros_spec l : l ≠ [] →
  drop_zeros l ≠ [] ∧ (head (drop_zeros l) = Some 0%N → length (drop_zeros l) = 1%nat).
Proof.
  induction l as [|x l IH]; [done|]. intros _. cbn. destruct x as [|p]; [|done].
  destruct l as [|y l]; [done|]. by apply IH.
Qed.

Lemma trim_zeros_trimmed l : l ≠ [] → trimmed (trim_zeros l).
Proof.
  intros Hl. unfold trimmed, trim_zeros. rewrite last_reverse, length_reverse.
  destruct (drop_zeros_spec (reverse l)) as [Hn Hh].
  { intros E. apply (f_equal reverse) in E. rewrite reverse_involutive in E. done. }
  split; [|done]. destruct (drop_zeros (reverse l)); [done|cbn; lia].
Qed.

Lemma trimmed_pad_inj w l k :
  trimmed l → trimmed k → (length l <= w)%nat → (length k <= w)%nat → pad_to w l = pad_to w k → l = k.
Proof.
  assert (Hlt : ∀ l k, trimmed l → trimmed k → (length l < length k)%nat → (length k <= w)%nat →
            pad_to w l = pad_to w k → False).
  { clear. intros l k [Hl _] [Hk Hz] Hlt Hw E. assert (Hlast : last k = Some 0%N); [|apply Hz in Hlast; lia].
    rewrite last_lookup. assert (Hi : pad_to w k !! pred (length k) = Some 0%N).
    { rewrite <- E. unfold pad_to. rewrite lookup_app_r by lia. apply lookup_replicate_2. lia. }
    unfold pad_to in Hi. by rewrite lookup_app_l in Hi by lia. }
  intros Hl Hk Hwl Hwk E. destruct (Nat.lt_trichotomy (length l) (length k)) as [H|[H|H]].
  - by destruct (Hlt l k).
  - unfold pad_to in E. by apply app_inj_1 in E as [? _].
  - by destruct (Hlt k l).
Qed.

Lemma traverse_nonempty {A B} (f : A → outcome B) l k : traverse f l = Ok k → l ≠ [] → k ≠ [].
Proof. intros H%traverse_length Hl. destruct l, k; done. Qed.

Lemma split_chars_nonempty d l : split_chars d l ≠ [].
Proof. destruct l as [|c l]; cbn; [done|]. destruct (is_char d c); [done|]. by destruct (split_chars d l). Qed.

Lemma split_on_nonempty d s : split_on d s ≠ [].
Proof. unfold split_on. pose proof (split_chars_nonempty d (chars s)). by destruct (split_chars d (chars s)). Qed.

Lemma maven_core_nonempty s core suffix : _MAVEN_SAFE_VERSION s = Some (core, suffix) → core ≠ [].
Proof.
  unfold _MAVEN_SAFE_VERSION. intros H. repeat case_match; simplify_eq; apply split_on_nonempty.
Qed.

Lemma maven_parsed_trimmed text v : _parse_maven_version text = Ok (Some v) → trimmed (maven_numbers v).
Proof.
  unfold _parse_maven_version. destruct (_ || _); [done|].
  destruct (_MAVEN_SAFE_VERSION (strip text)) as [[core suffix]|] eqn:E; [|done].
  intros (numbers & Hn & H)%bind_ok. cbv zeta in H.
  destruct (_ && _) in H; [done|]. destruct (_ && _) in H; [done|]. destruct (_ && _) in H; [done|].
  apply bind_ok in H as (number & _ & H). apply bind_ok in H as (order & _ & [= <-]). cbn.
  apply trim_zeros_trimmed. eapply traverse_nonempty; [exact Hn|]. by eapply maven_core_nonempty.
Qed.

(** The version comparisons are total orders. The npm, Go/Cargo/Composer
    and NuGet comparisons answer -1, 0 or 1, answer 0 exactly on equal parsed
    versions, are antisymmetric and transitive; so is the Maven comparison,
    whose 0 means equality for versions the parser accepts (trailing zeros
    are insignificant). *)
Theorem version_orders_total :
  TotalCompare compare_triple ∧ TotalCompare _compare_go_versions ∧ TotalCompare _compare_nuget_versions
  ∧ (∀ a b, _compare_maven_versions a b ∈ [-1; 0; 1] ∧ _compare_maven_versions b a = - _compare_maven_versions a b)
  ∧ (∀ a b c, _compare_maven_versions a b = -1 → _compare_maven_versions b c = -1 →
              _compare_maven_versions a c = -1)
  ∧ (∀ s t a b, _parse_maven_version s = Ok (Some a) → _parse_maven_version t = Ok (Some b) →
                _compare_maven_versions a b = 0 ↔ a = b).
Proof.
  repeat (split; [apply _|]). split; [|split].
  - intros a b. set (w := Nat.max (length (maven_numbers a)) (length (maven_numbers b))).
    rewrite (maven_compare_key w a b), (maven_compare_key w b a) by lia.
    split; [|apply cmp_opp].
    destruct (cmp_range (maven_key w a) (maven_key w b)) as [->|[->| ->]]; set_solver.
  - intros a b c. set (w := Nat.max (length (maven_numbers a)) (Nat.max (length (maven_numbers b)) (length (maven_numbers c)))).
    rewrite !(maven_compare_key w) by lia. apply cmp_trans.
  - intros s t a b Ha%maven_parsed_trimmed Hb%maven_parsed_trimmed.
    set (w := Nat.max (length (maven_numbers a)) (length (maven_numbers b))).
    rewrite (maven_compare_key w) by lia. rewrite cmp_eq. split; [|by intros ->]. unfold maven_key.
    destruct a as [la qa na], b as [lb qb nb]. unfold maven_key. cbn in *. intros [= E -> ->]. f_equal.
    apply (trimmed_pad_inj w); auto; lia.
Qed.

(** ** The comparator loops *)

Definition unknown_answers (decide : string → outcome (VersionRangeMatch + bool)) : Prop :=
  ∀ c a, decide c = Ok (inl a) → status a = unknown.

Lemma comparator_loop_exact decide fail ok cs m :
  unknown_answers decide → status fail = not_matched → status ok = matched →
  comparator_loop decide fail ok cs = Ok m →
  (status m = matched ↔ ∀ c, c ∈ cs → decide c = Ok (inr true))
  ∧ (status m = not_matched ↔
      ∃ pre c post, cs = pre ++ c :: post ∧ (∀ x, x ∈ pre → decide x = Ok (inr true)) ∧ decide c = Ok (inr false)).
Proof.
  intros Hu Hf Ho. induction cs as [|c cs IH]; intros H; cbn in H.
  - injection H as <-. rewrite Ho. split; [split; [set_solver|done]|].
    split; [done|]. by intros ([|] & ? & ? & [=] & _).
  - apply bind_ok in H as (r & Hr & H). destruct r as [a|[]].
    + injection H as <-. rewrite (Hu _ _ Hr). split; (split; [done|]).
      * intros Hall. specialize (Hall c ltac:(left)). congruence.
      * intros ([|p pre] & d & post & [= -> E] & Hpre & Hd); [congruence|].
        specialize (Hpre p ltac:(left)). congruence.
    + destruct (IH H) as [IH1 IH2]. split.
      * rewrite IH1. split; [|intros Hall x Hx; apply Hall; by right].
        intros Hall x [->|Hx]%elem_of_cons; [done|by apply Hall].
      * rewrite IH2. split.
        -- intros (pre & d & post & -> & Hpre & Hd). exists (c :: pre), d, post. split; [done|].
           split; [|done]. intros x [->|Hx]%elem_of_cons; [done|by apply Hpre].
        -- intros ([|p pre] & d & post & [= -> ->] & Hpre & Hd); [congruence|].
           exists pre, d, post. split; [done|]. split; [|done]. intros x Hx. apply Hpre. by right.
    + injection H as <-. rewrite Hf. split; [split; [done|]|split; [|done]].
      * intros Hall. specialize (Hall c ltac:(left)). congruence.
      * intros _. exists [], c, cs. split; [done|]. split; [set_solver|done].
Qed.

Lemma npm_version_reason_unknown v : unknown_answers (npm_decide v).
Proof.
  intros c a. unfold npm_decide. destruct (match_comparator _ c) as [[op b]|]; [|by intros [= <-]].
  intros H. apply bind_ok in H as ([[x|] r] & _ & H); cbn in H; [done|by injection H as <-].
Qed.

Lemma semver_unknown p allow v : unknown_answers (semver_decide p allow v).
Proof.
  intros c a. unfold semver_decide. destruct (match_comparator _ c) as [[op b]|]; [|by intros [= <-]].
  intros H. apply bind_ok in H as ([x|] & _ & H); [|by injection H as <-].
  destruct (_ && _); [by injection H as <-|done].
Qed.

Lemma nuget_unknown v : unknown_answers (nuget_decide v).
Proof.
  intros c a. unfold nuget_decide. destruct (match_comparator _ c) as [[op b]|]; [|by intros [= <-]].
  intros H. apply bind_ok in H as ([x|] & _ & H); [done|by injection H as <-].
Qed.

Lemma maven_unknown v : unknown_answers (maven_decide v).
Proof.
  intros c a. unfold maven_decide. destruct (match_comparator _ c) as [[op b]|]; [|by intros [= <-]].
  intros H. apply bind_ok in H as ([x|] & _ & H); [done|by injection H as <-].
Qed.

(** How an ecosystem evaluates one comparator against a version, when it
    supports the version. *)
Definition evaluator (ecosystem exact_version : string)
    : outcome (option (string → outcome (VersionRangeMatch + bool))) :=
  if String.eqb ecosystem "npm" then
    p ← _parse_npm_release_version exact_version; Ok (option_map npm_decide p.1)
  else if String.eqb ecosystem "maven" then
    p ← _parse_maven_version exact_version; Ok (option_map maven_decide p)
  else if String.eqb ecosystem "nuget" then
    p ← _parse_nuget_version exact_version; Ok (option_map nuget_decide p)
  else
    p ← _parse_go_version exact_version;
    let allow := String.eqb ecosystem "go" in
    Ok (if negb allow && startswith "v" (strip exact_version) then None
        else option_map (semver_decide ecosystem allow) p).

(** npm refuses whole ranges for the syntax they contain. *)
Definition refused_syntax (ecosystem affected_range : string) : bool :=
  String.eqb ecosystem "npm" && any_of (λ m, contains m (strip affected_range)) npm_markers.

(** The shape every matcher but PyPI's has. *)
Definition range_decision (ecosystem exact_version affected_range : string) (m : VersionRangeMatch) : Prop :=
  ∃ d, evaluator ecosystem exact_version = Ok d ∧
  match d with
  | None => status m = unknown
  | Some decide =>
      if refused_syntax ecosystem affected_range || bool_decide (comparators_of affected_range = [])
      then status m = unknown
      else ∃ fail ok, unknown_answers decide ∧ status fail = not_matched ∧ status ok = matched
             ∧ comparator_loop decide fail ok (comparators_of affected_range) = Ok m
  end.

Lemma npm_range_decision v r m : _match_npm_version v r = Ok m → range_decision "npm" v r m.
Proof.
  unfold _match_npm_version, range_decision, evaluator, refused_syntax. cbn [String.eqb Ascii.eqb Bool.eqb andb].
  intros H. apply bind_ok in H as ([[ver|] why] & Hv & H); cbv beta iota in H.
  2: { exists None. rewrite Hv. cbn. split; [done|]. by injection H as <-. }
  exists (Some (npm_decide ver)). rewrite Hv. cbn [option_map fst mbind outcome_bind]. split; [done|].
  unfold comparators_of. cbv zeta in H. destruct (negb (truthy (strip r))) eqn:He.
  { injection H as <-. apply negb_true_iff, negb_false_iff, String.eqb_eq in He. rewrite He. cbn. done. }
  destruct (any_of _ _); [by injection H as <-|]. cbn [orb].
  destruct (split_space _) as [|c cs]; [by injection H as <-|]. rewrite bool_decide_false by done.
  eexists _, _. repeat split; [apply npm_version_reason_unknown| | |exact H]; done.
Qed.

Lemma semver_range_decision e allow v r m :
  e ∈ ["go"; "cargo"; "composer"] → allow = String.eqb e "go" →
  _match_semver_version v r e allow = Ok m → range_decision e v r m.
Proof.
  intros He -> H. unfold _match_semver_version in H. apply bind_ok in H as (p & Hp & H).
  unfold range_decision, evaluator, refused_syntax.
  assert (Hne : String.eqb e "npm" = false ∧ String.eqb e "maven" = false ∧ String.eqb e "nuget" = false)
    by (rewrite !elem_of_cons, elem_of_nil in He; by destruct He as [->|[->|[->|[]]]]).
  destruct Hne as (-> & -> & ->). rewrite Hp. cbn [mbind outcome_bind andb orb]. eexists; split; [done|].
  destruct (_ && _); [by injection H as <-|]. destruct p as [ver|]; cbn [option_map]; [|by injection H as <-].
  destruct (comparators_of r) as [|c cs]; [by injection H as <-|]. rewrite bool_decide_false by done.
  eexists _, _. repeat split; [apply semver_unknown| | |exact H]; done.
Qed.

Lemma maven_range_decision v r m : _match_maven_version v r = Ok m → range_decision "maven" v r m.
Proof.
  unfold _match_maven_version, range_decision, evaluator, refused_syntax. cbn [String.eqb Ascii.eqb Bool.eqb andb orb].
  intros H. apply bind_ok in H as (p & -> & H). cbn [mbind outcome_bind]. eexists; split; [done|].
  destruct p as [ver|]; cbn [option_map]; [|by injection H as <-].
  destruct (comparators_of r) as [|c cs]; [by injection H as <-|]. rewrite bool_decide_false by done.
  eexists _, _. repeat split; [apply maven_unknown| | |exact H]; done.
Qed.

Lemma nuget_range_decision v r m : _match_nuget_version v r = Ok m → range_decision "nuget" v r m.
Proof.
  unfold _match_nuget_version, range_decision, evaluator, refused_syntax. cbn [String.eqb Ascii.eqb Bool.eqb andb orb].
  intros H. apply bind_ok in H as (p & -> & H). cbn [mbind outcome_bind]. eexists; split; [done|].
  destruct p as [ver|]; cbn [option_map]; [|by injection H as <-].
  destruct (comparators_of r) as [|c cs]; [by injection H as <-|]. rewrite bool_decide_false by done.
  eexists _, _. repeat split; [apply nuget_unknown| | |exact H]; done.
Qed.

Definition own_ecosystems : list string := ["npm"; "go"; "cargo"; "composer"; "maven"; "nuget"].

Lemma match_range_decision pkg e v r m :
  e ∈ own_ecosystems → match_exact_version_against_range pkg e v r = Ok m → range_decision e v r m.
Proof.
  unfold own_ecosystems. rewrite !elem_of_cons, elem_of_nil. intros He H.
  destruct He as [->|[->|[->|[->|[->|[->|[]]]]]]]; cbn [match_exact_version_against_range String.eqb Ascii.eqb Bool.eqb] in H.
  - by apply npm_range_decision.
  - apply (semver_range_decision _ true); [unfold own_ecosystems; set_solver|done|exact H].
  - apply (semver_range_decision _ false); [set_solver|done|exact H].
  - apply (semver_range_decision _ false); [set_solver|done|exact H].
  - by apply maven_range_decision.
  - by apply nuget_range_decision.
Qed.


(** ** The matchers never raise on bounded input *)

(** A string short enough for [int]. *)
Abbreviation short s := (len s ≤ Z.to_nat 4300)%nat.

Lemma comparator_loop_total decide fail ok cs :
  (∀ c, c ∈ cs → is_ok (decide c) = true) → is_ok (comparator_loop decide fail ok cs) = true.
Proof.
  induction cs as [|c cs IH]; intros H; [done|]. cbn [comparator_loop].
  apply bind_total; [apply H; left|]. intros [a|[]] _; [done| |done]. apply IH. intros x Hx. apply H. by right.
Qed.

Lemma operator_splits_len o r s : (o, r) ∈ operator_splits s → (len r ≤ len s)%nat.
Proof.
  unfold operator_splits. rewrite !elem_of_app.
  assert (Hs : ∀ op p, (o, r) ∈ (if startswith p s then [(Some op, str_drop (len p) s)] else []) →
            (len r ≤ len s)%nat).
  { intros op p. destruct (startswith p s); [|by intros ?%elem_of_nil].
    intros [= -> ->]%list_elem_of_singleton. rewrite str_drop_len. lia. }
  intros [H|[H|[H|[H|[H|H]]]]]; try by apply Hs in H.
  apply list_elem_of_singleton in H. by injection H as -> ->.
Qed.

Lemma match_comparator_len body s op r : match_comparator body s = Some (op, r) → (len r ≤ len s)%nat.
Proof.
  unfold match_comparator. intros ([o r'] & H & [= _ ->])%fmap_Some.
  apply first_match_Some in H as [H _]. by eapply operator_splits_len.
Qed.

Lemma comparators_len r c : c ∈ comparators_of r → (len c ≤ len r)%nat.
Proof.
  intros H%split_space_len. rewrite replace_char_len in H. pose proof (strip_len r). lia.
Qed.

Lemma split3_len d s a b c :
  split_on d s = [a; b; c] → (len a ≤ len s ∧ len b ≤ len s ∧ len c ≤ len s)%nat.
Proof. intros H. repeat split; apply (split_on_len d); rewrite H; set_solver. Qed.

Lemma three_ints_total {B} a b c (f : N → N → N → outcome B) :
  short a → short b → short c → (∀ x y z, is_ok (f x y z) = true) →
  is_ok (x ← py_int a; y ← py_int b; z ← py_int c; f x y z) = true.
Proof.
  intros Ha Hb Hc Hf. apply bind_total; [by apply py_int_ok|intros x _].
  apply bind_total; [by apply py_int_ok|intros y _]. apply bind_total; [by apply py_int_ok|intros z _]. apply Hf.
Qed.

Lemma npm_parse_total v : short v → is_ok (_parse_npm_release_version v) = true.
Proof.
  intros Hs. unfold _parse_npm_release_version. destruct (contains _ _); [done|].
  destruct (_NPM_RELEASE_VERSION (strip v)) as [[[a b] c]|] eqn:E; [|done].
  unfold _NPM_RELEASE_VERSION in E. pose proof (strip_len v) as Hl.
  destruct (partition "+" (strip v)) as [core build] eqn:Ep. apply partition_len in Ep as [Hc _].
  destruct (split_on "." core) as [|a' [|b' [|c' []]]] eqn:Es; try done.
  destruct (_ && _) in E; [|done]. injection E as <- <- <-.
  apply split3_len in Es as (? & ? & ?). apply three_ints_total; try done; lia.
Qed.

Lemma go_identifier_total p : short p → is_ok (go_identifier p) = true.
Proof. intros. unfold go_identifier. destruct (isdigit p); [|done]. apply bind_total; [by apply py_int_ok|done]. Qed.

Lemma go_parse_total v : short v → is_ok (_parse_go_version v) = true.
Proof.
  intros Hs. unfold _parse_go_version. destruct (_GO_VERSION (strip v)) as [[[[a b] c] pre]|] eqn:E; [|done].
  unfold _GO_VERSION in E. pose proof (strip_len v) as Hl.
  set (body := if startswith "v" (strip v) then str_drop 1 (strip v) else strip v) in *.
  assert (Hbody : (len body ≤ len (strip v))%nat).
  { unfold body. destruct (startswith "v" (strip v)); [rewrite str_drop_len|]; lia. }
  destruct (partition "+" body) as [head build] eqn:E1. apply partition_len in E1 as [Hh _].
  destruct (partition "-" head) as [core pre'] eqn:E2. apply partition_len in E2 as [Hc Hp].
  destruct (split_on "." core) as [|a' [|b' [|c' []]]] eqn:Es; try done.
  destruct (_ && _) in E; [|done]. injection E as <- <- <- <-. apply split3_len in Es as (? & ? & ?).
  destruct (any_of _ _); [done|]. apply bind_total.
  - apply traverse_total. intros p Hin. apply go_identifier_total. destruct pre' as [t|]; cbn in Hin; [|set_solver].
    apply split_on_len in Hin. specialize (Hp t eq_refl). lia.
  - intros ids _. apply three_ints_total; try done; lia.
Qed.

Lemma nuget_bad_total ps : (∀ p, p ∈ ps → short p) → is_ok (any_outcome nuget_bad_part ps) = true.
Proof.
  induction ps as [|p ps IH]; intros H; [done|]. cbn [any_outcome]. apply bind_total.
  - unfold nuget_bad_part. destruct (negb _); [done|]. destruct (isdigit p); [|done].
    apply bind_total; [apply py_int_ok, H; left|done].
  - intros [] _; [done|]. apply IH. intros q Hq. apply H. by right.
Qed.

Lemma nuget_text_total s : short s → is_ok (parse_nuget_text s) = true.
Proof.
  intros Hs. unfold parse_nuget_text. destruct (_NUGET_VERSION s) as [[parts pre]|] eqn:E; [|done].
  unfold _NUGET_VERSION in E.
  destruct (partition "+" s) as [head build] eqn:E1. apply partition_len in E1 as [Hh _].
  destruct (partition "-" head) as [core pre'] eqn:E2. apply partition_len in E2 as [Hc Hp].
  destruct (_ && _) in E; [|done]. injection E as <- <-. apply bind_total.
  - apply traverse_total. intros p Hin%split_on_len. apply py_int_ok. lia.
  - intros numbers _. destruct (any_of _ _); [done|]. destruct pre' as [t|]; [|done]. specialize (Hp t eq_refl).
    assert (Hparts : ∀ p, p ∈ split_on "." t → short p) by (intros p Hin%split_on_len; lia).
    apply bind_total; [by apply nuget_bad_total|]. intros [] _; [done|]. apply bind_total; [|done].
    apply traverse_total. intros p Hin. unfold nuget_identifier. destruct (isdigit p); [|done].
    apply bind_total; [by apply py_int_ok, Hparts|done].
Qed.

Lemma nuget_parse_total v : is_ok (_parse_nuget_version v) = true.
Proof.
  unfold _parse_nuget_version. destruct (negb (truthy (strip v))); [done|]. cbn [orb].
  destruct (_ <? _)%nat eqn:E; [done|]. apply nuget_text_total.
  unfold _NUGET_MAX_VERSION_LENGTH in E. to_prop. lia.
Qed.

Lemma maven_text_len s core suffix :
  _MAVEN_SAFE_VERSION s = Some (core, suffix) →
  (∀ p, p ∈ core → (len p ≤ len s)%nat)
  ∧ (∀ sep q n, suffix = Some (sep, q, n) → q ∈ maven_qualifiers ∧ ∀ t, n = Some t → (len t ≤ len s)%nat).
Proof.
  unfold _MAVEN_SAFE_VERSION. set (letter := λ c, negb (is_ascii_letter c)).
  pose proof (take_while_length letter (chars s)) as Ht. pose proof (drop_while_length letter (chars s)) as Hd.
  destruct (drop_while letter (chars s)) as [|x rest] eqn:Er.
  - destruct (forallb _ _); [|done]. intros [= <- <-]. split; [|done]. intros p. apply split_on_len.
  - destruct (last _) as [sep|]; [|done]. destruct (_ && _); [|done].
    destruct (match_qualifier maven_qualifiers (text (x :: rest))) as [[q n]|] eqn:Eq; [|done]. intros [= <- <-].
    split.
    + intros p Hp%split_on_len. unfold len in *. rewrite chars_text, length_take in Hp. lia.
    + intros sep' q' n' [= <- <- <-].
      assert (H : ∀ qs, match_qualifier qs (text (x :: rest)) = Some (q, n) →
                q ∈ qs ∧ ∀ t, n = Some t → (len t ≤ length (x :: rest))%nat).
      { induction qs as [|q0 qs IH]; cbn [match_qualifier]; [done|].
        destruct (if startswith q0 _ then _ else None) as [n0|] eqn:E0.
        - intros [= <- <-]. split; [by left|]. intros t ->. destruct (startswith q0 _); [|done].
          unfold qualifier_number in E0. set (d := drop (len q0) _) in E0.
          assert (Hdl : (length d ≤ length (x :: rest))%nat)
            by (unfold d; rewrite length_drop, chars_text; lia).
          destruct (negb _); [done|]. destruct (numeric_identifier _).
          + injection E0 as <-. unfold len. by rewrite chars_text.
          + destruct (text d) as [|c r] eqn:Etd; [done|]. destruct (_ && _); [|done]. injection E0 as <-.
            apply (f_equal chars) in Etd. rewrite chars_text in Etd. rewrite Etd in Hdl.
            change (S (len r) ≤ length (x :: rest))%nat in Hdl. lia.
        - intros H. destruct (IH H). split; [by right|done]. }
      destruct (H _ Eq) as [H1 H2]. split; [done|]. intros t Hn. specialize (H2 t Hn). unfold len at 2. lia.
Qed.

Lemma maven_parse_total v : is_ok (_parse_maven_version v) = true.
Proof.
  unfold _parse_maven_version. destruct (negb (truthy (strip v))); [done|]. cbn [orb].
  destruct (160 <? len (strip v))%nat eqn:El; [done|]. apply Nat.ltb_ge in El.
  destruct (_MAVEN_SAFE_VERSION (strip v)) as [[core suffix]|] eqn:E; [|done].
  apply maven_text_len in E as [Hcore Hsuf]. apply bind_total.
  { apply traverse_total. intros p Hp%Hcore. apply py_int_ok. lia. }
  intros numbers _. cbv zeta. destruct (_ && _); [done|]. destruct (_ && _); [done|].
  destruct (_ && _); [done|]. apply bind_total.
  - destruct suffix as [[[sep q] [t|]]|]; cbn; try done.
    destruct (Hsuf sep q (Some t) eq_refl) as [_ Ht]. specialize (Ht t eq_refl). apply py_int_ok. lia.
  - intros number _. apply bind_total; [|done].
    assert (Hq : from_option (λ '(_, q, _), q) "" suffix ∈ "" :: maven_qualifiers).
    { destruct suffix as [[[sep q] n]|]; cbn; [|left]. right. by destruct (Hsuf sep q n eq_refl). }
    revert Hq. generalize (from_option (λ '(_, q, _), q) "" suffix) as q. intros q Hq.
    assert (Hall : Forall (λ q, is_ok (or_raise (_MAVEN_QUALIFIER_ORDER (_MAVEN_QUALIFIER_ALIASES q)) "KeyError") = true)
              ("" :: maven_qualifiers)) by (repeat constructor).
    rewrite Forall_forall in Hall. by apply Hall.
Qed.


(** ** NuGet identity *)

Definition label_char (c : ascii) : bool := is_digit c || is_lower_az c || is_char "-" c.

(** The versions the parser returns. *)
Definition identifier_ok (i : identifier) : Prop :=
  match i with
  | Num n => (n <= _NUGET_MAX_INTEGER)%N
  | Label s => truthy s = true ∧ all_chars label_char s = true ∧ isdigit s = false
  end.
Definition nuget_ok (v : nuget_version) : Prop :=
  length (nuget_numbers v) = 4%nat ∧ Forall (λ n, (n <= _NUGET_MAX_INTEGER)%N) (nuget_numbers v)
  ∧ from_option (λ ids, ids ≠ [] ∧ Forall identifier_ok ids) True (nuget_pre v).

(** A text of digits reads back. *)
Lemma small_py_int n : (n <= _NUGET_MAX_INTEGER)%N → py_int (str_of_N n) = Ok n.
Proof.
  intros H. apply py_int_str_of_N. eapply N.le_lt_trans; [exact H|]. vm_compute. reflexivity.
Qed.

Lemma str_of_N_truthy n : truthy (str_of_N n) = true.
Proof.
  destruct (decide (n = 0%N)) as [->|Hn]; [done|]. pose proof (str_of_N_first n Hn) as H.
  by destruct (str_of_N n).
Qed.

Lemma str_of_N_chars p n : forallb (λ c, negb (is_digit c) || p c) all_ascii = true → all_chars p (str_of_N n) = true.
Proof. intros H. eapply all_chars_impl; [by apply every_char'|apply str_of_N_digits]. Qed.

Lemma isdigit_str_of_N n : isdigit (str_of_N n) = true.
Proof. unfold isdigit. rewrite str_of_N_truthy. apply str_of_N_chars. vm_compute. reflexivity. Qed.

Lemma traverse_map {A B C} (f : B → outcome C) (g : A → B) (h : A → C) l :
  (∀ x, x ∈ l → f (g x) = Ok (h x)) → traverse f (g <$> l) = Ok (h <$> l).
Proof.
  induction l as [|x l IH]; intros H; [done|]. cbn. rewrite H by left. cbn.
  rewrite IH; [done|]. intros y Hy. apply H. by right.
Qed.

Lemma label_text_chars i : identifier_ok i → truthy (label_text i) = true ∧ all_chars label_char (label_text i) = true.
Proof.
  destruct i as [n|s]; cbn; [|by intros (? & ? & _)]. intros _. split; [apply str_of_N_truthy|].
  apply str_of_N_chars. vm_compute. reflexivity.
Qed.

Lemma lower_label s : all_chars label_char s = true → lower s = s.
Proof.
  intros H%all_chars_Forall. unfold lower. rewrite <- (text_chars s) at 2. f_equal.
  induction H as [|c l Hc _ IH]; cbn; [done|]. rewrite IH. f_equal.
  pose proof (every_char (λ c, negb (label_char c) || Ascii.eqb (lower_char c) c) ltac:(vm_compute; reflexivity) c) as Hall.
  cbv beta in Hall. rewrite Hc in Hall. by apply Ascii.eqb_eq.
Qed.

Lemma nuget_identifier_print i : identifier_ok i → nuget_identifier (label_text i) = Ok i.
Proof.
  unfold nuget_identifier. destruct i as [n|s]; cbn [label_text identifier_ok].
  - intros Hn. by rewrite isdigit_str_of_N, small_py_int.
  - intros (_ & Hc & ->). by rewrite lower_label.
Qed.

Lemma nuget_good_part i : identifier_ok i → nuget_bad_part (label_text i) = Ok false.
Proof.
  intros Hi. unfold nuget_bad_part. destruct (label_text_chars i Hi) as [-> _]. cbn [negb].
  destruct i as [n|s]; cbn [label_text identifier_ok] in *.
  - rewrite isdigit_str_of_N, small_py_int by done. cbn. f_equal. by apply N.ltb_ge.
  - by destruct Hi as (_ & _ & ->).
Qed.

Lemma any_outcome_false f l : (∀ x, x ∈ l → f x = Ok false) → any_outcome f l = Ok false.
Proof.
  induction l as [|x l IH]; intros H; [done|]. cbn. rewrite H by left. cbn. apply IH. intros y Hy. apply H. by right.
Qed.

(** The printed core: three numbers, and the fourth when it is not zero. *)
Definition print_numbers (l : list N) : list N :=
  match l with
  | [a; b; c; d] => if (d =? 0)%N then [a; b; c] else [a; b; c; d]
  | _ => l
  end.

Definition nuget_core (l : list N) : string := join "." (str_of_N <$> print_numbers l).

Lemma print_nuget_core v :
  length (nuget_numbers v) = 4%nat →
  print_nuget v = match nuget_pre v with
                  | None => nuget_core (nuget_numbers v)
                  | Some ids => (nuget_core (nuget_numbers v) ++ String "-" (join "." (label_text <$> ids)))%string
                  end.
Proof.
  intros H. destruct v as [l pre]. cbn in *. destruct l as [|a [|b [|c [|d []]]]]; try done.
  unfold print_nuget, nuget_core, print_numbers. cbn [nth_error nuget_numbers nuget_pre take].
  destruct (d =? 0)%N; [by destruct pre|].
  replace (join "." (str_of_N <$> [a; b; c]) ++ "." ++ str_of_N d)%string
    with (join "." (str_of_N <$> [a; b; c; d])); [by destruct pre|].
  cbn. apply chars_inj. repeat rewrite ?chars_app, <- ?app_assoc; cbn; repeat rewrite ?chars_app, <- ?app_assoc; done.
Qed.

Lemma core_chars p l :
  p "."%char = true → forallb (λ c, negb (is_digit c) || p c) all_ascii = true →
  all_chars p (nuget_core l) = true.
Proof.
  intros Hdot Hd. apply all_chars_join; [unfold all_chars; cbn; by rewrite Hdot|].
  intros s (n & -> & _)%list_elem_of_fmap. by apply str_of_N_chars.
Qed.

Lemma split_core l : l ≠ [] → split_on "." (join "." (str_of_N <$> l)) = str_of_N <$> l.
Proof.
  intros Hl. apply split_join; [by destruct l|]. apply Forall_forall. intros s (n & -> & _)%list_elem_of_fmap.
  apply str_of_N_chars. vm_compute. reflexivity.
Qed.

Lemma split_labels ids :
  ids ≠ [] → Forall identifier_ok ids → split_on "." (join "." (label_text <$> ids)) = label_text <$> ids.
Proof.
  intros Hn Hids. apply split_join; [by destruct ids|]. apply Forall_forall.
  intros s (i & -> & Hi)%list_elem_of_fmap. rewrite Forall_forall in Hids.
  destruct (label_text_chars i (Hids i Hi)) as [_ Hc]. eapply all_chars_impl; [|exact Hc].
  apply every_char'. vm_compute. reflexivity.
Qed.

Lemma labels_dotted ids :
  ids ≠ [] → Forall identifier_ok ids → dotted_idents (join "." (label_text <$> ids)) = true.
Proof.
  intros Hn Hids. unfold dotted_idents. rewrite split_labels by done. apply forallb_forall.
  intros s (i & <- & Hi)%in_map_iff. rewrite Forall_forall in Hids.
  destruct (label_text_chars i) as [-> Hc]; [by apply Hids, list_elem_of_In|].
  eapply all_chars_impl; [|exact Hc]. apply every_char'. vm_compute. reflexivity.
Qed.

Lemma print_numbers_ok l :
  length l = 4%nat → Forall (λ n, (n <= _NUGET_MAX_INTEGER)%N) l →
  print_numbers l ≠ [] ∧ (length (print_numbers l) ≤ 4)%nat ∧ pad4 (print_numbers l) = l
  ∧ Forall (λ n, (n <= _NUGET_MAX_INTEGER)%N) (print_numbers l).
Proof.
  intros Hl Hf. destruct l as [|a [|b [|c [|d []]]]]; try done. cbn.
  destruct (N.eqb_spec d 0) as [->|]; cbn; (split; [done|]; split; [lia|]; split; [done|]); [|done].
  repeat (apply Forall_cons in Hf as [? Hf]). by repeat constructor.
Qed.

(** The canonical text parses to the version it was printed from. *)
Lemma parse_print_nuget v : nuget_ok v → parse_nuget_text (print_nuget v) = Ok (Some v).
Proof.
  intros (Hl & Hn & Hp). rewrite print_nuget_core by done. destruct v as [l pre]. cbn [nuget_numbers nuget_pre] in *.
  destruct (print_numbers_ok l Hl Hn) as (Hne & Hle & Hpad & Hmax).
  assert (Hcore : all_chars (λ c, negb (is_char "-" c)) (nuget_core l) = true
                ∧ all_chars (λ c, negb (is_char "+" c)) (nuget_core l) = true)
    by (split; apply core_chars; vm_compute; reflexivity).
  assert (Hdig : forallb digits (str_of_N <$> print_numbers l) = true).
  { apply forallb_forall. intros s (n & <- & _)%in_map_iff. unfold digits.
    by rewrite str_of_N_truthy, str_of_N_digits. }
  assert (Hnum : traverse py_int (str_of_N <$> print_numbers l) = Ok (print_numbers l)).
  { rewrite <- (list_fmap_id (print_numbers l)) at 2. apply traverse_map. intros n Hin.
    rewrite Forall_forall in Hmax. by apply small_py_int, Hmax. }
  assert (Hany : any_of (λ n, _NUGET_MAX_INTEGER <? n)%N (print_numbers l) = false).
  { apply any_of_false. intros n Hin. rewrite Forall_forall in Hmax. by apply N.ltb_ge, Hmax. }
  assert (Hlen : (length (str_of_N <$> print_numbers l) <=? 4)%nat = true) by (rewrite length_fmap; by apply Nat.leb_le).
  unfold parse_nuget_text, _NUGET_VERSION. destruct pre as [ids|].
  - destruct Hp as [Hin Hids]. rewrite partition_none.
    2: { rewrite all_chars_app. rewrite (proj2 Hcore). cbn [andb].
         change (String "-" (join "." (label_text <$> ids))) with ("-" ++ join "." (label_text <$> ids))%string.
         rewrite all_chars_app. cbn [all_chars chars String.list_ascii_of_string forallb]. cbn.
         apply all_chars_join; [done|]. intros s (i & -> & Hi)%list_elem_of_fmap. rewrite Forall_forall in Hids.
         destruct (label_text_chars i (Hids i Hi)) as [_ Hc]. eapply all_chars_impl; [|exact Hc].
         apply every_char'. vm_compute. reflexivity. }
    rewrite partition_some by apply Hcore. unfold nuget_core. rewrite split_core by done.
    cbn [from_option]. rewrite Hlen, Hdig, labels_dotted by done. cbn [andb].
    rewrite Hnum. cbn [mbind outcome_bind]. rewrite Hany, Hpad, split_labels by done.
    rewrite any_outcome_false.
    2: { intros s (i & -> & Hi)%list_elem_of_fmap. rewrite Forall_forall in Hids. by apply nuget_good_part, Hids. }
    cbn [mbind outcome_bind]. rewrite (traverse_map _ _ id); [by rewrite list_fmap_id|].
    intros i Hi. rewrite Forall_forall in Hids. by apply nuget_identifier_print, Hids.
  - rewrite partition_none by apply Hcore. rewrite partition_none by apply Hcore.
    unfold nuget_core. rewrite split_core by done. cbn [from_option]. rewrite Hlen, Hdig. cbn [andb].
    rewrite Hnum. cbn [mbind outcome_bind]. by rewrite Hany, Hpad.
Qed.

Lemma all_chars_folded p q s :
  forallb (λ c, negb (p c) || q (lower_char c)) all_ascii = true →
  all_chars p s = true → all_chars q (lower s) = true.
Proof.
  intros H Hs%all_chars_Forall. apply all_chars_Forall. unfold lower. rewrite chars_text.
  apply Forall_forall. intros c (d & <- & Hd)%list_elem_of_In%in_map_iff. rewrite Forall_forall in Hs.
  apply (every_char' p (λ c, q (lower_char c)) H). by apply Hs, list_elem_of_In.
Qed.

Lemma lower_truthy s : truthy s = true → truthy (lower s) = true.
Proof. by destruct s. Qed.

Lemma isdigit_lower s : all_chars is_ident_char s = true → isdigit s = false → isdigit (lower s) = false.
Proof.
  unfold isdigit. intros Hs H. apply andb_false_iff in H as [H|H].
  - by destruct s.
  - destruct (truthy (lower s)); [|done]. cbn. destruct (all_chars is_digit_char (lower s)) eqn:E; [|done].
    exfalso. apply not_true_iff_false in H. apply H. rewrite all_chars_Forall in *.
    unfold lower in E. rewrite chars_text in E. rewrite !Forall_forall in *. intros c Hc.
    assert (Hl : is_digit_char (lower_char c) = true)
      by (apply E, list_elem_of_In, in_map, list_elem_of_In, Hc).
    pose proof (every_char (λ c, negb (is_ident_char c) || negb (is_digit_char (lower_char c)) || is_digit_char c)
      ltac:(vm_compute; reflexivity) c) as Hall.
    cbv beta in Hall. by rewrite (Hs c Hc), Hl in Hall.
Qed.

Lemma any_outcome_inv f l : any_outcome f l = Ok false → ∀ x, x ∈ l → f x = Ok false.
Proof.
  induction l as [|y l IH]; intros H x Hx; [by apply elem_of_nil in Hx|]. cbn in H.
  apply bind_ok in H as ([] & Hy & H); [done|]. apply elem_of_cons in Hx as [->|Hx]; [done|by apply IH].
Qed.

Lemma nuget_identifier_ok part i :
  truthy part = true → all_chars is_ident_char part = true →
  nuget_bad_part part = Ok false → nuget_identifier part = Ok i → identifier_ok i.
Proof.
  intros Ht Hc. unfold nuget_bad_part, nuget_identifier. rewrite Ht. cbn [negb].
  destruct (isdigit part) eqn:Ed.
  - intros (n & -> & Hn)%bind_ok. cbn. intros [= <-]. cbn. injection Hn as Hn. by apply N.ltb_ge.
  - intros _ [= <-]. cbn. split; [by apply lower_truthy|]. split; [|by apply isdigit_lower].
    eapply all_chars_folded; [|exact Hc]. vm_compute. reflexivity.
Qed.

Lemma pad4_ok numbers :
  numbers ≠ [] → (length numbers ≤ 4)%nat → Forall (λ n, (n <= _NUGET_MAX_INTEGER)%N) numbers →
  length (pad4 numbers) = 4%nat ∧ Forall (λ n, (n <= _NUGET_MAX_INTEGER)%N) (pad4 numbers).
Proof.
  intros _ Hl Hf. unfold pad4. split; [rewrite length_take, length_app; cbn [length]; lia|].
  apply Forall_take, Forall_app. split; [done|]. repeat constructor; vm_compute; congruence.
Qed.

Lemma parse_nuget_ok s v : parse_nuget_text s = Ok (Some v) → nuget_ok v.
Proof.
  unfold parse_nuget_text. destruct (_NUGET_VERSION s) as [[parts pre]|] eqn:E; [|done].
  unfold _NUGET_VERSION in E. destruct (partition "+" s) as [head build], (partition "-" head) as [core pre'].
  destruct (_ && _) eqn:Eb in E; [|done]. injection E as <- <-. to_prop. rename select (from_option _ _ pre' = true) into Hpre.
  intros (numbers & Hn & Hpv)%bind_ok. destruct (any_of _ numbers) eqn:Ha; [done|].
  rewrite any_of_false in Ha.
  assert (Hp : length (pad4 numbers) = 4%nat ∧ Forall (λ n, (n <= _NUGET_MAX_INTEGER)%N) (pad4 numbers)).
  { apply pad4_ok.
    - eapply traverse_nonempty; [exact Hn|apply split_on_nonempty].
    - apply traverse_length in Hn. lia.
    - apply Forall_forall. intros n Hin%Ha. by apply N.ltb_ge. }
  destruct pre' as [t|]; [|injection Hpv as <-; split; [apply Hp|]; by split; [apply Hp|]].
  apply bind_ok in Hpv as ([] & Hbad & Hpv); [done|]. apply bind_ok in Hpv as (ids & Hids & [= <-]). split; [apply Hp|]. split; [apply Hp|]. cbn in *. split.
  - eapply traverse_nonempty; [exact Hids|apply split_on_nonempty].
  - apply traverse_ok in Hids. unfold dotted_idents in Hpre. rewrite forallb_forall in Hpre.
    apply Forall_forall. intros i Hi. destruct (list_elem_of_lookup_1 _ _ Hi) as [k Hk].
    destruct (Forall2_lookup_r _ _ _ _ _ Hids Hk) as (part & Hpart & Hpi).
    apply list_elem_of_lookup_2 in Hpart. pose proof (Hpre part) as Hpc. rewrite <- list_elem_of_In in Hpc.
    specialize (Hpc Hpart). apply andb_true_iff in Hpc as [Ht Hc].
    apply (nuget_identifier_ok part); try done. by apply (any_outcome_inv _ _ Hbad).
Qed.

Lemma print_no_space v : nuget_ok v → all_chars (λ c, negb (is_space c)) (print_nuget v) = true.
Proof.
  intros (Hl & Hn & Hp). rewrite print_nuget_core by done.
  assert (Hc : all_chars (λ c, negb (is_space c)) (nuget_core (nuget_numbers v)) = true)
    by (apply core_chars; vm_compute; reflexivity).
  destruct (nuget_pre v) as [ids|]; [|done].
  change (String "-" (join "." (label_text <$> ids))) with ("-" ++ join "." (label_text <$> ids))%string.
  rewrite !all_chars_app, Hc. cbn [all_chars chars String.list_ascii_of_string forallb andb]. cbn.
  destruct Hp as [_ Hids]. apply all_chars_join; [done|]. intros s (i & -> & Hi)%list_elem_of_fmap.
  rewrite Forall_forall in Hids. destruct (label_text_chars i (Hids i Hi)) as [_ Hc'].
  eapply all_chars_impl; [|exact Hc']. apply every_char'. vm_compute. reflexivity.
Qed.

Lemma canonicalize_inv a s :
  canonicalize_nuget_version a = Ok (Some s) →
  ∃ v, _parse_nuget_version a = Ok (Some v) ∧ nuget_ok v ∧ s = print_nuget v.
Proof.
  unfold canonicalize_nuget_version. intros ([v|] & Hp & [= <-])%bind_ok. exists v. split; [done|].
  split; [|done]. unfold _parse_nuget_version in Hp. destruct (_ || _); [done|]. by eapply parse_nuget_ok.
Qed.

Lemma nuget_core_truthy l : length l = 4%nat → truthy (nuget_core l) = true.
Proof.
  destruct l as [|a [|b [|c [|d []]]]]; try done. intros _. unfold nuget_core, print_numbers.
  pose proof (str_of_N_truthy a) as H. destruct (d =? 0)%N; cbn; by destruct (str_of_N a).
Qed.

(** NuGet canonical text is the package identity. Two supported versions
    have the same canonical text exactly when the order calls them equal;
    the canonical text parses back to the version it came from, and is its
    own canonical text when it is within the parser's 64-character limit. *)
Theorem nuget_identity a b s t :
  canonicalize_nuget_version a = Ok (Some s) → canonicalize_nuget_version b = Ok (Some t) →
  ∃ va vb, _parse_nuget_version a = Ok (Some va) ∧ _parse_nuget_version b = Ok (Some vb)
    ∧ (s = t ↔ _compare_nuget_versions va vb = 0)
    ∧ parse_nuget_text s = Ok (Some va)
    ∧ ((len s ≤ _NUGET_MAX_VERSION_LENGTH)%nat → canonicalize_nuget_version s = Ok (Some s)).
Proof.
  intros (va & Ha & Hoa & ->)%canonicalize_inv (vb & Hb & Hob & ->)%canonicalize_inv.
  exists va, vb. pose proof (parse_print_nuget va Hoa) as Hpa. split; [done|]. split; [done|].
  split; [|split; [done|]].
  - rewrite cmp_eq. split; [|by intros ->]. intros E. rewrite E, (parse_print_nuget vb Hob) in Hpa. congruence.
  - intros Hlen. unfold canonicalize_nuget_version, _parse_nuget_version.
    rewrite strip_no_space by (by apply print_no_space).
    assert (Ht : truthy (print_nuget va) = true).
    { destruct Hoa as (Hl & _). rewrite print_nuget_core by done.
      pose proof (nuget_core_truthy _ Hl) as H. destruct (nuget_pre va), (nuget_core (nuget_numbers va)); done. }
    rewrite Ht. apply Nat.ltb_ge in Hlen. rewrite Hlen. cbn [negb orb]. by rewrite Hpa.
Qed.

(** ** Concrete applications *)
Module Demo.
(** A [packaging] that knows no version. *)
Definition no_packaging : packaging_ops :=
  PackagingOps () () (λ _, None) (λ _, false) (λ _, None) (λ _, []) (λ _ _, false).
Definition decide : string → outcome (VersionRangeMatch + bool) :=
  semver_decide "composer" false (GoVersion (2, 5, 0)%N None).
End Demo.



Lemma nuget_identity_witness :
  ∃ va vb, _parse_nuget_version "1.0-BETA+x" = Ok (Some va) ∧ _parse_nuget_version "01.0.0.0-beta" = Ok (Some vb)
    ∧ _compare_nuget_versions va vb = 0.
Proof.
  destruct (nuget_identity "1.0-BETA+x" "01.0.0.0-beta" "1.0.0-beta" "1.0.0-beta")
    as (va & vb & Ha & Hb & H & _); [vm_compute; reflexivity..|].
  exists va, vb. split; [exact Ha|]. split; [exact Hb|]. by apply H.
Defined.

(** The comparator loop answers at the first comparator that fails, before it
    has seen the rest of the range: an alternative after [||] is never
    reached in the ecosystems whose ranges may have one. npm refuses the
    operator instead. *)
Lemma alternative_range_not_matched :
  _match_semver_version "2.5.0" "<1.0.0 || >=2.0.0" "composer" false
  = Ok (RangeMatch not_matched "composer_comparator_not_satisfied")
  ∧ _match_npm_version "2.5.0" "<1.0.0 || >=2.0.0"
    = Ok (RangeMatch unknown "npm_range_syntax_not_supported").
Proof. split; vm_compute; reflexivity. Qed.

(** A canonical text longer than the limit is no longer accepted. *)
Lemma long_canonical_rejected :
  let a := "1-aaaaaaaaaaaaaaaaaaaaaaaaaaaaaaaaaaaaaaaaaaaaaaaaaaaaaaaaaaaaaa" in
  ∃ s, canonicalize_nuget_version a = Ok (Some s) ∧ canonicalize_nuget_version s = Ok None.
Proof. eexists. split; vm_compute; reflexivity. Qed.
