(* ===== verification/Correlation.v ===== *)
(** * Correlation: vulnerability decisions for one component

    Models [backend/app/vulnerability_correlation.py] over the matchers of
    VersionMatching: one advisory range, one advisory, and the aggregate over
    a component's advisories.  Of [PublicAdvisory] the fields the decisions
    read are kept, with its identifier; the rest is carried along unread. *)

From S2P Require Import Prelude PyStr VersionMatching.
Local Open Scope Z_scope.

(** backend/app/public_advisory_egress.py [PublicComponentIdentity] *)
Record PublicComponentIdentity : Type := Component {
  ecosystem : string;
  component_name : string;
  version : string;
  operator_attested_public_sbom : bool
}.

Inductive range_type_t : Set := SEMVER | ECOSYSTEM | GIT | UNKNOWN.

(** backend/app/public_advisories.py [PublicAdvisoryRange] *)
Record PublicAdvisoryRange : Type := AdvisoryRange {
  range_type : range_type_t;
  introduced : option string;
  fixed : option string;
  last_affected : option string;
  expression : option string
}.

(** backend/app/public_advisories.py [PublicAdvisory] *)
Record PublicAdvisory : Type := Advisory {
  provider_advisory_id : string;
  component : PublicComponentIdentity;
  affected_ranges : list PublicAdvisoryRange;
  withdrawn_at : option string;
  affected_ranges_complete : bool
}.

(** backend/app/vulnerability_correlation.py 19-19 [AdvisoryCorrelationStatus] *)
Inductive AdvisoryCorrelationStatus : Set := affected | not_affected | unknown.

#[export] Instance correlation_status_eq_dec : EqDecision AdvisoryCorrelationStatus.
Proof. solve_decision. Defined.

(** backend/app/vulnerability_correlation.py [AdvisoryCorrelationDecision] *)
Record AdvisoryCorrelationDecision : Type := AdvisoryDecision {
  advisory : PublicAdvisory;
  status : AdvisoryCorrelationStatus;
  reason : string
}.

(** backend/app/vulnerability_correlation.py [ComponentCorrelationDecision] *)
Record ComponentCorrelationDecision : Type := ComponentDecision {
  decided_component : PublicComponentIdentity;
  component_status : AdvisoryCorrelationStatus;
  component_reason : string;
  affected_advisories : list PublicAdvisory;
  unknown_advisories : list PublicAdvisory
}.

(** backend/app/vulnerability_correlation.py [_RangeCorrelationDecision] *)
Record _RangeCorrelationDecision : Type := RangeDecision {
  range_status : AdvisoryCorrelationStatus;
  range_reason : string
}.

(** backend/app/vulnerability_correlation.py [osv_range_expression] *)
Definition osv_range_expression (r : PublicAdvisoryRange) : option string :=
  let lower_bound := if bool_decide (introduced r = None) || bool_decide (introduced r = Some "0")
                     then None else introduced r in
  let upper_operator := if truthy_opt (fixed r) then Some "<"
                        else if truthy_opt (last_affected r) then Some "<=" else None in
  let upper_bound := if truthy_opt (fixed r) then fixed r else last_affected r in
  let lower := match lower_bound with
               | Some b => if truthy b then [(">=" ++ b)%string] else []
               | None => []
               end in
  let upper := match upper_operator, upper_bound with
               | Some op, Some b => if truthy b then [(op ++ b)%string] else []
               | _, _ => []
               end in
  match lower ++ upper with
  | [] => if bool_decide (introduced r = Some "0") then Some "" else None
  | comparators => Some (join " " comparators)
  end.

(** backend/app/vulnerability_correlation.py [_same_component] *)
Definition _same_component (l r : PublicComponentIdentity) : bool :=
  String.eqb (ecosystem l) (ecosystem r) && String.eqb (component_name l) (component_name r)
  && String.eqb (version l) (version r).

Section Decisions.
Context (pkg : packaging_ops).

(** backend/app/vulnerability_correlation.py [_correlate_range] *)
Definition _correlate_range (c : PublicComponentIdentity) (r : PublicAdvisoryRange)
    : outcome _RangeCorrelationDecision :=
  match range_type r with
  | GIT => Ok (RangeDecision unknown "git_range_not_supported")
  | UNKNOWN => Ok (RangeDecision unknown "range_type_not_supported")
  | SEMVER | ECOSYSTEM =>
      match osv_range_expression r with
      | None => Ok (RangeDecision unknown "affected_range_missing")
      | Some e =>
          if String.eqb e "" then Ok (RangeDecision affected "all_versions_affected") else
          m ← match_exact_version_against_range pkg (ecosystem c) (version c) e;
          Ok match VersionMatching.status m with
             | VersionMatching.matched => RangeDecision affected "affected_exact_version"
             | VersionMatching.not_matched => RangeDecision not_affected "version_outside_affected_range"
             | VersionMatching.unknown => RangeDecision unknown ("range_" ++ VersionMatching.reason m)
             end
      end
  end.

(** The loop over the ranges, with its two local variables. *)
Fixpoint correlate_ranges (c : PublicComponentIdentity) (a : PublicAdvisory)
    (saw_not_affected : bool) (unknown_reason : option string) (rs : list PublicAdvisoryRange)
    : outcome AdvisoryCorrelationDecision :=
  match rs with
  | [] =>
      Ok match unknown_reason with
         | Some why => AdvisoryDecision a unknown why
         | None => if saw_not_affected
                   then AdvisoryDecision a not_affected "version_outside_affected_range"
                   else AdvisoryDecision a unknown "affected_range_missing"
         end
  | r :: rs' =>
      d ← _correlate_range c r;
      match range_status d with
      | affected => Ok (AdvisoryDecision a affected (range_reason d))
      | not_affected => correlate_ranges c a true unknown_reason rs'
      | unknown => correlate_ranges c a saw_not_affected
                     (match unknown_reason with None => Some (range_reason d) | w => w end) rs'
      end
  end.

(** backend/app/vulnerability_correlation.py [correlate_advisory] *)
Definition correlate_advisory (c : PublicComponentIdentity) (a : PublicAdvisory)
    : outcome AdvisoryCorrelationDecision :=
  if negb (_same_component c (component a)) then Ok (AdvisoryDecision a unknown "component_identity_mismatch")
  else if bool_decide (is_Some (withdrawn_at a)) then Ok (AdvisoryDecision a unknown "advisory_withdrawn")
  else if negb (affected_ranges_complete a) then Ok (AdvisoryDecision a unknown "affected_ranges_incomplete")
  else match affected_ranges a with
       | [] => Ok (AdvisoryDecision a unknown "affected_range_missing")
       | rs => correlate_ranges c a false None rs
       end.

Definition has_status (st : AdvisoryCorrelationStatus) (d : AdvisoryCorrelationDecision) : bool :=
  bool_decide (status d = st).

(** backend/app/vulnerability_correlation.py [correlate_component_advisories] *)
Definition correlate_component_advisories (c : PublicComponentIdentity) (advisories : list PublicAdvisory)
    : outcome ComponentCorrelationDecision :=
  decisions ← traverse (correlate_advisory c) advisories;
  let affected_list := advisory <$> filter (λ d, has_status affected d = true) decisions in
  let unknown_list := advisory <$> filter (λ d, has_status unknown d = true) decisions in
  match affected_list with
  | _ :: _ => Ok (ComponentDecision c affected "affected_exact_version" affected_list [])
  | [] =>
      match unknown_list with
      | _ :: _ =>
          first_unknown ← or_raise (first_match (has_status unknown) decisions) "StopIteration";
          Ok (ComponentDecision c unknown (reason first_unknown) [] unknown_list)
      | [] => Ok (ComponentDecision c not_affected "no_matching_advisory" [] [])
      end
  end.

(** ** Lemmas *)

(** The retained ranges of an advisory are usable for this component. *)
Definition usable (c : PublicComponentIdentity) (a : PublicAdvisory) : bool :=
  _same_component c (component a) && bool_decide (withdrawn_at a = None) && affected_ranges_complete a
  && negb (bool_decide (affected_ranges a = [])).

Lemma correlate_ranges_status c a saw why rs d :
  correlate_ranges c a saw why rs = Ok d →
  advisory d = a
  ∧ (status d = affected ↔ ∃ pre r post x, rs = pre ++ r :: post
       ∧ (∀ q, q ∈ pre → ∃ y, _correlate_range c q = Ok y ∧ range_status y ≠ affected)
       ∧ _correlate_range c r = Ok x ∧ range_status x = affected)
  ∧ (status d = not_affected ↔ why = None ∧ (saw = true ∨ rs ≠ [])
       ∧ ∀ r, r ∈ rs → ∃ x, _correlate_range c r = Ok x ∧ range_status x = not_affected).
Proof.
  revert saw why. induction rs as [|r rs IH]; intros saw why H; cbn in H.
  - injection H as <-. split; [by destruct why; [|destruct saw]|]. split.
    + split; [by destruct why; [|destruct saw]|]. by intros ([|] & ? & ? & ? & [=] & _).
    + destruct why as [w|]; [split; [done|by intros [[=] _]]|].
      destruct saw; [|by split; [|intros (_ & [|] & _)]]. cbn. split; [|done]. intros _.
      split; [done|]. split; [by left|]. by intros r ?%elem_of_nil.
  - apply bind_ok in H as (x & Hx & H). destruct (range_status x) eqn:Es.
    + injection H as <-. cbn. split; [done|]. split.
      * split; [|done]. intros _. exists [], r, rs, x. repeat split; try done. by intros q ?%elem_of_nil.
      * split; [done|]. intros (_ & _ & Hall). destruct (Hall r ltac:(left)) as (y & Hy & Hs). congruence.
    + destruct (IH _ _ H) as (Ha & H1 & H2). split; [done|]. rewrite H1, H2. split.
      * split.
        -- intros (pre & q & post & y & -> & Hpre & Hq & Hy). exists (r :: pre), q, post, y.
           repeat split; try done. intros p [->|Hp]%elem_of_cons; [|by apply Hpre].
           exists x. split; [done|]. by rewrite Es.
        -- intros ([|p pre] & q & post & y & [= <- ->] & Hpre & Hq & Hy); [congruence|].
           exists pre, q, post, y. repeat split; try done. intros p' Hp'. apply Hpre. by right.
      * split.
        -- intros (-> & _ & Hall). split; [done|]. split; [by right|].
           intros q [->|Hq]%elem_of_cons; [by exists x|by apply Hall].
        -- intros (-> & _ & Hall). split; [done|]. split; [by left|]. intros q Hq. apply Hall. by right.
    + destruct (IH _ _ H) as (Ha & H1 & H2). split; [done|]. rewrite H1, H2. split.
      * split.
        -- intros (pre & q & post & y & -> & Hpre & Hq & Hy). exists (r :: pre), q, post, y.
           repeat split; try done. intros p [->|Hp]%elem_of_cons; [|by apply Hpre].
           exists x. split; [done|]. by rewrite Es.
        -- intros ([|p pre] & q & post & y & [= <- ->] & Hpre & Hq & Hy); [congruence|].
           exists pre, q, post, y. repeat split; try done. intros p' Hp'. apply Hpre. by right.
      * split; [by intros (E & _); destruct why|]. intros (_ & _ & Hall).
        destruct (Hall r ltac:(left)) as (y & Hy & Hs). congruence.
Qed.

Lemma usable_correlate c a :
  correlate_advisory c a
  = if usable c a then correlate_ranges c a false None (affected_ranges a)
    else match correlate_advisory c a with
         | Ok d => Ok (AdvisoryDecision a unknown (reason d))
         | e => e
         end.
Proof.
  unfold correlate_advisory, usable. destruct (_same_component _ _); [|done]. cbn [negb andb].
  destruct (withdrawn_at a) as [w|]; [done|]. rewrite bool_decide_false by (by intros [? ?]).
  rewrite bool_decide_true by done. destruct (affected_ranges_complete a); [|done]. cbn [negb andb].
  destruct (affected_ranges a) as [|r rs]; [done|]. by rewrite bool_decide_false.
Qed.

(** A clean answer is always verified. An advisory is decided
    [not_affected] exactly when it names this component, is neither withdrawn
    nor incomplete, has ranges, and every one of them was evaluated to a
    verified non-match; it is decided [affected] exactly when it is usable and
    some range, the first to do so, contains the version; every other case is
    [unknown]. *)
Theorem advisory_decision_exact c a d :
  correlate_advisory c a = Ok d →
  advisory d = a
  ∧ (status d = not_affected ↔ usable c a = true
       ∧ ∀ r, r ∈ affected_ranges a → ∃ x, _correlate_range c r = Ok x ∧ range_status x = not_affected)
  ∧ (status d = affected ↔ usable c a = true ∧ ∃ pre r post x, affected_ranges a = pre ++ r :: post
       ∧ (∀ q, q ∈ pre → ∃ y, _correlate_range c q = Ok y ∧ range_status y ≠ affected)
       ∧ _correlate_range c r = Ok x ∧ range_status x = affected).
Proof.
  rewrite usable_correlate. destruct (usable c a) eqn:Hu.
  - intros H. destruct (correlate_ranges_status _ _ _ _ _ _ H) as (Ha & H1 & H2). split; [done|].
    rewrite H1, H2. split; [|naive_solver]. split; [naive_solver|]. intros [_ Hall].
    split; [done|]. split; [|done]. right. unfold usable in Hu. to_prop. done.
  - destruct (correlate_advisory c a) as [x|]; [|done]. intros [= <-]. cbn.
    split; [done|]. split; (split; [done|by intros [[=] _]]).
Qed.

(** C6: A component is never cleaner than its advisories. The aggregate is
    [affected] exactly when some advisory is, and then lists exactly those;
    [not_affected] exactly when every advisory was verified [not_affected];
    otherwise [unknown], with exactly the undecided advisories and the reason
    of the first of them. *)
Theorem component_decision_exact c advisories r :
  correlate_component_advisories c advisories = Ok r →
  ∃ decisions, traverse (correlate_advisory c) advisories = Ok decisions
    ∧ (component_status r = affected ↔ ∃ d, d ∈ decisions ∧ status d = affected)
    ∧ (component_status r = not_affected ↔ ∀ d, d ∈ decisions → status d = not_affected)
    ∧ affected_advisories r = advisory <$> filter (λ d, has_status affected d = true) decisions
    ∧ (component_status r = unknown →
         unknown_advisories r = advisory <$> filter (λ d, has_status unknown d = true) decisions
         ∧ ∃ d, first_match (has_status unknown) decisions = Some d ∧ component_reason r = reason d).
Proof.
  intros (ds & Hds & H)%bind_ok. exists ds. split; [done|]. cbv zeta in H.
  assert (Hin : ∀ st a, a ∈ advisory <$> filter (λ d, has_status st d = true) ds →
                ∃ d, d ∈ ds ∧ status d = st).
  { intros st a (d & -> & Hd)%list_elem_of_fmap. apply list_elem_of_filter in Hd as [Hs Hd].
    exists d. split; [done|]. by apply bool_decide_eq_true in Hs. }
  assert (Hno : ∀ st, advisory <$> filter (λ d, has_status st d = true) ds = [] → ∀ d, d ∈ ds → status d ≠ st).
  { intros st E d Hd Hs. apply fmap_nil_inv in E.
    assert (Hf : d ∈ filter (λ d, has_status st d = true) ds)
      by (apply list_elem_of_filter; split; [by apply bool_decide_eq_true|done]).
    rewrite E in Hf. by apply elem_of_nil in Hf. }
  destruct (advisory <$> filter (λ d, has_status affected d = true) ds) as [|x xs] eqn:Ea.
  - specialize (Hno affected Ea) as Hna.
    destruct (advisory <$> filter (λ d, has_status unknown d = true) ds) as [|y ys] eqn:Eu.
    + injection H as <-. cbn. specialize (Hno unknown Eu) as Hnu.
      split; [split; [done|intros (d & Hd & Hs); by destruct (Hna d)]|]. split; [|done].
      split; [|done]. intros _ d Hd. specialize (Hna d Hd). specialize (Hnu d Hd). by destruct (status d).
    + apply bind_ok in H as (f & Hf%or_raise_ok & [= <-]). cbn.
      split; [split; [done|intros (d & Hd & Hs); by destruct (Hna d)]|].
      split; [split; [done|]|split; [done|intros _; split; [done|by exists f]]].
      intros Hall. destruct (Hin unknown y) as (d & Hd & Hs); [rewrite Eu; left|].
      rewrite (Hall d Hd) in Hs. done.
  - injection H as <-. cbn. destruct (Hin affected x) as (d & Hd & Hs); [rewrite Ea; left|].
    split; [split; [by exists d|done]|]. split; [|done]. split; [done|]. intros Hall.
    rewrite (Hall d Hd) in Hs. done.
Qed.
End Decisions.

(** ** What an OSV interval means *)

(** A version text without separators of its own. *)
Definition token (s : string) : bool :=
  truthy s && all_chars (λ c, negb (is_space c) && negb (is_char "," c)) s.

Lemma token_no_space s : token s = true → all_chars (λ c, negb (is_space c)) s = true.
Proof.
  unfold token. rewrite andb_true_iff. intros [_ H]. eapply all_chars_impl; [|exact H]. cbn. intros c Hc.
  by apply andb_true_iff in Hc as [? _].
Qed.

Lemma token_no_comma s : token s = true → all_chars (λ c, negb (is_char "," c)) s = true.
Proof.
  unfold token. rewrite andb_true_iff. intros [_ H]. eapply all_chars_impl; [|exact H]. cbn. intros c Hc.
  by apply andb_true_iff in Hc as [_ ?].
Qed.

Lemma token_strip s : token s = true → strip s = s.
Proof. intros H. by apply strip_no_space, token_no_space. Qed.

Lemma replace_none a b s : all_chars (λ c, negb (is_char a c)) s = true → replace_char a b s = s.
Proof.
  intros H%all_chars_Forall. unfold replace_char. rewrite <- (text_chars s) at 2. f_equal.
  induction H as [|c l Hc _ IH]; cbn; [done|]. apply negb_true_iff in Hc. by rewrite Hc, IH.
Qed.

Lemma split_space_words s t :
  truthy s = true → truthy t = true →
  all_chars (λ c, negb (is_space c)) s = true → all_chars (λ c, negb (is_space c)) t = true →
  split_space (s ++ " " ++ t) = [s; t].
Proof.
  intros Hs Ht Hs' Ht'. unfold split_space. rewrite !chars_app.
  assert (Hw : ∀ u, all_chars (λ c, negb (is_space c)) u = true → Forall (λ c, is_space c = false) (chars u)).
  { intros u H%all_chars_Forall. eapply Forall_impl; [exact H|]. cbn. by intros c ->%negb_true_iff. }
  rewrite split_space_aux_word by auto. rewrite app_nil_r. cbn -[reverse text].
  destruct (reverse (chars s)) as [|x xs] eqn:E.
  { apply (f_equal reverse) in E. rewrite reverse_involutive in E. apply (f_equal text) in E.
    rewrite text_chars in E. by subst s. }
  rewrite <- E, reverse_involutive. rewrite <- (app_nil_r (chars t)), split_space_aux_word, app_nil_r by auto.
  cbn -[reverse text]. destruct (reverse (chars t)) as [|y ys] eqn:E'.
  { apply (f_equal reverse) in E'. rewrite reverse_involutive in E'. apply (f_equal text) in E'.
    rewrite text_chars in E'. by subst t. }
  rewrite <- E', reverse_involutive. change ([text (chars s); text (chars t)] = [s; t]). by rewrite !text_chars.
Qed.

(** A two-sided OSV interval is read as its two comparators. *)
Lemma interval_comparators a b op :
  token a = true → token b = true → op ∈ ["<"; "<="] →
  comparators_of (">=" ++ a ++ " " ++ op ++ b) = [(">=" ++ a)%string; (op ++ b)%string].
Proof.
  intros Ha Hb Hop. pose proof (token_no_space a Ha) as Ha'. pose proof (token_no_space b Hb) as Hb'.
  assert (Hop' : all_chars (λ c, negb (is_space c)) op = true ∧ all_chars (λ c, negb (is_char "," c)) op = true
                 ∧ truthy (op ++ b) = true)
    by (rewrite !elem_of_cons, elem_of_nil in Hop; by destruct Hop as [->|[->|[]]]).
  destruct Hop' as (Ho1 & Ho2 & Ho3).
  assert (Hc : all_chars (λ c, negb (is_char "," c)) (">=" ++ a ++ " " ++ op ++ b) = true).
  { rewrite !all_chars_app, Ho2. by rewrite (token_no_comma a Ha), (token_no_comma b Hb). }
  unfold comparators_of. rewrite (strip_id (">=" ++ a ++ " " ++ op ++ b)); [|done|].
  2: { unfold last_char. rewrite !chars_app, !last_app. unfold token in Hb. apply andb_true_iff in Hb as [Hb _].
       rewrite all_chars_Forall in Hb'. destruct (last (chars b)) as [c|] eqn:E.
       - cbn. apply last_Some_elem_of in E. rewrite Forall_forall in Hb'. by apply negb_true_iff, Hb'.
       - apply last_None in E. apply (f_equal text) in E. rewrite text_chars in E. by subst b. }
  rewrite replace_none by done.
  replace (">=" ++ a ++ " " ++ op ++ b)%string with ((">=" ++ a) ++ " " ++ (op ++ b))%string
    by (apply chars_inj; rewrite !chars_app; by rewrite <- !app_assoc).
  apply split_space_words; [done|done| |]; rewrite all_chars_app; [done|by rewrite Ho1].
Qed.

Lemma partition_skip d c s :
  is_char d c = false → partition d (String c s) = (String c (partition d s).1, (partition d s).2).
Proof.
  intros Hc. unfold partition. change (chars (String c s)) with (c :: chars s). cbn [partition_chars].
  rewrite Hc. by destruct (partition_chars d (chars s)).
Qed.

Lemma split_on_skip d c s :
  is_char d c = false → ∃ w ws, split_on d (String c s) = String c w :: ws.
Proof.
  intros Hc. unfold split_on. change (chars (String c s)) with (c :: chars s). cbn [split_chars].
  rewrite Hc. destruct (split_chars d (chars s)) as [|w ws]; [by exists "", []|].
  by exists (text w), (map text ws).
Qed.

Lemma go_text_not_equals s : is_Some (_GO_VERSION (String "=" s)) → False.
Proof.
  unfold _GO_VERSION. change (startswith "v" (String "=" s)) with false. cbv iota.
  rewrite partition_skip by done. cbv iota zeta. rewrite partition_skip by done. cbv iota zeta.
  destruct (split_on_skip "." "=" (partition "-" (partition "+" s).1).1) as (w & ws & ->); [done|].
  destruct ws as [|b [|c []]]; cbn; by intros [? ?].
Qed.

Lemma match_go_comparator op txt t :
  (op, txt) ∈ [(GE, ">="); (LT, "<"); (LE, "<=")] → is_Some (_GO_VERSION t) →
  match_comparator (λ s, bool_decide (is_Some (_GO_VERSION s))) (txt ++ t) = Some (op, t).
Proof.
  intros Hop Ht. unfold match_comparator, operator_splits.
  rewrite !elem_of_cons, elem_of_nil in Hop. destruct Hop as [[= -> ->]|[[= -> ->]|[[= -> ->]|[]]]].
  - change (startswith "<=" (">=" ++ t)) with false. rewrite (startswith_text ">=" t).
    cbn [app first_match]. rewrite (str_drop_text ">=" t), bool_decide_true by done. done.
  - destruct (startswith "<=" ("<" ++ t)) eqn:E.
    { exfalso. destruct t as [|c t]; [by vm_compute in E|].
      change (startswith "<=" ("<" ++ String c t)) with (startswith "=" (String c t)) in E.
      apply startswith_inv in E. rewrite E in Ht. by eapply go_text_not_equals. }
    change (startswith ">=" ("<" ++ t)) with false. rewrite (startswith_text "<" t).
    cbn [app first_match]. rewrite (str_drop_text "<" t), bool_decide_true by done. done.
  - rewrite (startswith_text "<=" t). cbn [app first_match].
    rewrite (str_drop_text "<=" t), bool_decide_true by done. done.
Qed.

Lemma parsed_go_text s p : token s = true → _parse_go_version s = Ok (Some p) → is_Some (_GO_VERSION s).
Proof.
  intros Hs. unfold _parse_go_version. rewrite token_strip by done. by destruct (_GO_VERSION s).
Qed.

Lemma semver_decide_token prefix v op txt t p :
  (op, txt) ∈ [(GE, ">="); (LT, "<"); (LE, "<=")] → token t = true → _parse_go_version t = Ok (Some p) →
  semver_decide prefix true v (txt ++ t) = Ok (inr (holds op (_compare_go_versions v p))).
Proof.
  intros Hop Ht Hp. unfold semver_decide. rewrite (match_go_comparator op) by (done || by eapply parsed_go_text).
  by rewrite Hp.
Qed.

(** An OSV interval is half open. For a Go component, a [SEMVER] or
    [ECOSYSTEM] range with a lower and an upper bound that parse is decided
    [affected] exactly when the version lies in it: at or above [introduced],
    and strictly below [fixed], or not above [last_affected] when the range
    has no fix; otherwise [not_affected]. *)
Theorem osv_interval_semantics pkg c rt low high (use_fixed : bool) pv plow phigh :
  ecosystem c = "go" → rt ∈ [SEMVER; ECOSYSTEM] → token low = true → token high = true →
  _parse_go_version (version c) = Ok (Some pv) →
  _parse_go_version low = Ok (Some plow) → _parse_go_version high = Ok (Some phigh) →
  let r := AdvisoryRange rt (Some low) (if use_fixed then Some high else None)
             (if use_fixed then None else Some high) None in
  let inside := (0 <=? _compare_go_versions pv plow)
                && (if use_fixed then _compare_go_versions pv phigh <? 0
                    else _compare_go_versions pv phigh <=? 0) in
  ∃ d, _correlate_range pkg c r = Ok d ∧ range_status d = if inside then affected else not_affected.
Proof.
  intros He Hrt Hl Hh Hpv Hpl Hph r inside.
  set (op := if use_fixed then "<" else "<=").
  assert (Hexp : osv_range_expression r = Some (">=" ++ low ++ " " ++ op ++ high)%string).
  { unfold osv_range_expression, r. cbn [introduced fixed last_affected].
    assert (Hz : low ≠ "0").
    { intros ->. pose proof (parsed_go_text "0" plow Hl Hpl) as [? H]. by vm_compute in H. }
    rewrite (bool_decide_false (Some low = Some "0")) by congruence.
    rewrite (bool_decide_false (Some low = None)) by done. cbn [orb].
    assert (Hlt : truthy low = true ∧ truthy high = true) by (unfold token in *; by to_prop).
    destruct Hlt as [-> Hht]. unfold op.
    destruct use_fixed; cbn [truthy_opt from_option]; rewrite ?Hht; cbn [app join String.concat];
      f_equal; apply chars_inj; rewrite !chars_app; by rewrite <- !app_assoc. }
  assert (Hcs : comparators_of (">=" ++ low ++ " " ++ op ++ high) = [(">=" ++ low)%string; (op ++ high)%string])
    by (apply interval_comparators; try done; unfold op; destruct use_fixed; set_solver).
  assert (Hd1 : semver_decide "go" true pv (">=" ++ low) = Ok (inr (holds GE (_compare_go_versions pv plow))))
    by (apply semver_decide_token; [left|done|done]).
  assert (Hd2 : semver_decide "go" true pv (op ++ high)
                = Ok (inr (if use_fixed then _compare_go_versions pv phigh <? 0
                           else _compare_go_versions pv phigh <=? 0))).
  { unfold op. destruct use_fixed.
    - apply (semver_decide_token "go" pv LT "<"); [set_solver|done|done].
    - apply (semver_decide_token "go" pv LE "<="); [set_solver|done|done]. }
  assert (Hrun : match_exact_version_against_range pkg (ecosystem c) (version c) (">=" ++ low ++ " " ++ op ++ high)
                 = Ok (if inside then RangeMatch matched "go_all_comparators_satisfied"
                       else RangeMatch not_matched "go_comparator_not_satisfied")).
  { rewrite He. unfold match_exact_version_against_range. cbn [String.eqb Ascii.eqb Bool.eqb].
    unfold _match_go_version, _match_semver_version. rewrite Hpv. cbn [mbind outcome_bind negb andb].
    rewrite Hcs. cbn [comparator_loop]. rewrite Hd1. cbn [mbind outcome_bind holds]. unfold inside.
    destruct (0 <=? _compare_go_versions pv plow); [|done]. rewrite Hd2. cbn [mbind outcome_bind andb].
    destruct use_fixed; [destruct (_compare_go_versions pv phigh <? 0)|
      destruct (_compare_go_versions pv phigh <=? 0)]; reflexivity. }
  unfold _correlate_range. rewrite Hexp, Hrun. change (String.eqb (">=" ++ low ++ " " ++ op ++ high) "") with false.
  rewrite !elem_of_cons, elem_of_nil in Hrt.
  destruct Hrt as [->|[->|[]]]; cbn; destruct inside; eexists; (split; [reflexivity|done]).
Qed.

(** ** Concrete applications *)
Module Demo.
Definition pkg : packaging_ops :=
  PackagingOps () () (λ _, None) (λ _, false) (λ _, None) (λ _, []) (λ _ _, false).
Definition lib : PublicComponentIdentity := Component "go" "example.org/lib" "v1.4.0" false.
Definition old : PublicAdvisoryRange := AdvisoryRange SEMVER (Some "0") (Some "1.2.0") None None.
Definition current : PublicAdvisoryRange := AdvisoryRange SEMVER (Some "1.3.0") (Some "1.4.1") None None.
Definition clean : PublicAdvisory := Advisory "GHSA-1" lib [old] None true.
Definition hit : PublicAdvisory := Advisory "GHSA-2" lib [old; current] None true.
Definition clean_decision : AdvisoryCorrelationDecision :=
  AdvisoryDecision clean not_affected "version_outside_affected_range".
End Demo.

Lemma advisory_decision_exact_witness :
  usable Demo.lib Demo.clean = true
  ∧ ∀ r, r ∈ [Demo.old] → ∃ x, _correlate_range Demo.pkg Demo.lib r = Ok x ∧ range_status x = not_affected.
Proof.
  destruct (advisory_decision_exact Demo.pkg Demo.lib Demo.clean Demo.clean_decision) as (_ & [H _] & _);
    [vm_compute; reflexivity|].
  exact (H eq_refl).
Defined.

Lemma component_decision_exact_witness :
  ∃ r, correlate_component_advisories Demo.pkg Demo.lib [Demo.clean; Demo.hit] = Ok r
    ∧ component_status r = affected ∧ affected_advisories r = [Demo.hit].
Proof.
  eexists. assert (E : correlate_component_advisories Demo.pkg Demo.lib [Demo.clean; Demo.hit] = Ok _)
    by (vm_compute; reflexivity).
  split; [exact E|].
  destruct (component_decision_exact Demo.pkg Demo.lib [Demo.clean; Demo.hit] _ E) as (ds & Hds & Ha & _ & _ & _).
  split; [reflexivity|]. assert (Hhit : ∃ d, d ∈ ds ∧ status d = affected) by (apply Ha; reflexivity).
  destruct Hhit. reflexivity.
Defined.

Lemma osv_interval_semantics_witness :
  ∃ d, _correlate_range Demo.pkg Demo.lib Demo.current = Ok d ∧ range_status d = affected.
Proof.
  exact (osv_interval_semantics Demo.pkg Demo.lib SEMVER "1.3.0" "1.4.1" true
    (GoVersion (1, 4, 0)%N None) (GoVersion (1, 3, 0)%N None) (GoVersion (1, 4, 1)%N None)
    eq_refl ltac:(left) eq_refl eq_refl eq_refl eq_refl eq_refl).
Defined.
