(* ===== verification/IpAddress.v ===== *)
(** * IpAddress: the [ipaddress] module of the standard library

    What the Active policies use of Python 3.12's [ipaddress]: [ip_address]
    on text, network membership, the loopback test and the compressed text.
    An address is held as its octets or its eight 16-bit groups, most
    significant first; an IPv6 address keeps its scope id. *)

From S2P Require Import Prelude PyStr Sha256.

Inductive ip : Type :=
| V4 (octets : list N)
| V6 (groups : list N) (scope : option string).

#[export] Instance ip_eq_dec : EqDecision ip.
Proof. solve_decision. Defined.

(** ** Parsing *)

(** [IPv4Address._parse_octet] *)
Definition parse_octet (s : string) : option N :=
  if truthy s && all_chars is_digit s && (len s <=? 3)%nat
     && (String.eqb s "0" || negb (startswith "0" s))
  then let n := digits_value s in if (n <=? 255)%N then Some n else None
  else None.

(** [IPv4Address._ip_int_from_string] *)
Definition parse_v4 (s : string) : option (list N) :=
  match split_on "." s with
  | [a; b; c; d] => mapM parse_octet [a; b; c; d]
  | _ => None
  end.

Definition is_hex (c : ascii) : bool := is_digit c || between 65 70 c || between 97 102 c.
Definition hex_digit_value (c : ascii) : N :=
  if is_digit c then code c - 48 else if between 65 70 c then code c - 55 else code c - 87.

(** [IPv6Address._parse_hextet] *)
Definition parse_hextet (s : string) : option N :=
  if truthy s && all_chars is_hex s && (len s <=? 4)%nat
  then Some (foldl (λ acc c, 16 * acc + hex_digit_value c)%N 0%N (chars s)) else None.

(** [f"{n:x}"] of a 16-bit group. *)
Definition hex16 (n : N) : string :=
  if (n =? 0)%N then "0" else text (drop_while (is_char "0") (hex_digits 4 n)).

(** The positions of the empty parts between the end points. *)
Definition skips (parts : list string) : list nat :=
  List.filter (λ i, negb (truthy (nth i parts ""))) (seq 1 (length parts - 2)).

(** The last part, when it is dotted, becomes two groups. *)
Definition expand_v4_suffix (parts : list string) : option (list string) :=
  match last parts with
  | Some p =>
      if contains "." p then
        match parse_v4 p with
        | Some [a; b; c; d] =>
            Some (take (length parts - 1) parts ++ [hex16 (256 * a + b); hex16 (256 * c + d)])
        | _ => None
        end
      else Some parts
  | None => Some parts
  end.

(** The groups of the parts, around the one ["::"] if there is one. *)
Definition parse_parts (parts : list string) : option (list N) :=
  if (9 <? length parts)%nat then None else
  match skips parts with
  | [] =>
      if (length parts =? 8)%nat then mapM parse_hextet parts else None
  | [skip] =>
      let hi := if truthy (nth 0 parts "") then skip else skip - 1 in
      let lo := if truthy (nth (length parts - 1) parts "") then length parts - skip - 1
                else length parts - skip - 2 in
      if negb (truthy (nth 0 parts "")) && negb (hi =? 0)%nat then None
      else if negb (truthy (nth (length parts - 1) parts "")) && negb (lo =? 0)%nat then None
      else if (8 <=? hi + lo)%nat then None
      else
        high ← mapM parse_hextet (take hi parts);
        low ← mapM parse_hextet (drop (length parts - lo) parts);
        Some (high ++ replicate (8 - (hi + lo)) 0%N ++ low)
  | _ => None
  end.

(** [IPv6Address._ip_int_from_string] *)
Definition parse_groups (s : string) : option (list N) :=
  let parts := split_on ":" s in
  if (length parts <? 3)%nat then None else expand_v4_suffix parts ≫= parse_parts.

(** [IPv6Address._split_scope_id]: the address and its scope. *)
Definition split_scope (s : string) : option (string * option string) :=
  match partition "%" s with
  | (addr, None) => Some (addr, None)
  | (addr, Some sc) => if negb (truthy sc) || contains "%" sc then None else Some (addr, Some sc)
  end.

(** [IPv6Address(s)] *)
Definition parse_v6 (s : string) : option ip :=
  if contains "/" s then None else
  match split_scope s with
  | Some (addr, scope) => (λ groups, V6 groups scope) <$> parse_groups addr
  | None => None
  end.

(** [ipaddress.ip_address(s)]; [None] is [ValueError]. *)
Definition ip_address (s : string) : option ip :=
  match parse_v4 s with
  | Some octets => Some (V4 octets)
  | None => parse_v6 s
  end.

(** ** Text *)

(** [IPv6Address._compress_hextets]: the start and length of the longest run
    of zero groups, the first of them. *)
Record run_state : Type := RunState { best_start : nat; best_len : nat; cur_start : nat; cur_len : nat }.
Definition run_step (st : run_state) (ig : nat * N) : run_state :=
  let '(i, g) := ig in
  if (g =? 0)%N then
    let start := if (cur_len st =? 0)%nat then i else cur_start st in
    let l := S (cur_len st) in
    if (best_len st <? l)%nat then RunState start l start l
    else RunState (best_start st) (best_len st) start l
  else RunState (best_start st) (best_len st) 0 0.
Definition longest_run (groups : list N) : nat * nat :=
  let st := foldl run_step (RunState 0 0 0 0) (zip (seq 0 (length groups)) groups) in
  (best_start st, best_len st).

Definition compress_at (start l : nat) (hextets : list string) : list string :=
  (if (start =? 0)%nat then [""] else []) ++ take start hextets ++ [""] ++ drop (start + l) hextets
  ++ (if (start + l =? length hextets)%nat then [""] else []).

Definition compress_hextets (groups : list N) : list string :=
  let '(start, l) := longest_run groups in
  if (1 <? l)%nat then compress_at start l (hex16 <$> groups) else hex16 <$> groups.

(** [address.compressed], also [str(address)]. *)
Definition compressed (a : ip) : string :=
  match a with
  | V4 octets => join "." (str_of_N <$> octets)
  | V6 groups scope =>
      join ":" (compress_hextets groups) ++ match scope with None => "" | Some s => "%" ++ s end
  end.

(** ** Networks *)

Definition ip_version (a : ip) : N := match a with V4 _ => 4 | V6 _ _ => 6 end.
Definition ip_bits (a : ip) : N := match a with V4 _ => 32 | V6 _ _ => 128 end.

(** [int(address)] *)
Definition ip_int (a : ip) : N :=
  match a with
  | V4 octets => foldl (λ acc o, 256 * acc + o)%N 0%N octets
  | V6 groups _ => foldl (λ acc g, 65536 * acc + g)%N 0%N groups
  end.

Record network : Type := Network { base : ip; prefix_length : N }.

(** [ip_network(s)] of an ["address/length"] literal. *)
Definition ip_network (s : string) : option network :=
  match partition "/" s with
  | (addr, Some p) => (λ a, Network a (digits_value p)) <$> ip_address addr
  | _ => None
  end.

(** [address in network] *)
Definition in_network (a : ip) (n : network) : bool :=
  (ip_version a =? ip_version (base n))%N
  && (N.land (ip_int a) (N.shiftl (N.ones (prefix_length n)) (ip_bits a - prefix_length n))
      =? ip_int (base n))%N.

(** [address.is_loopback] *)
Definition is_loopback (a : ip) : bool :=
  match a with
  | V4 _ => in_network a (Network (V4 [127; 0; 0; 0]%N) 8)
  | V6 _ _ => (ip_int a =? 1)%N
  end.

Example parse_full : ip_address "fd00:0:0:1::2%eth0" = Some (V6 [64768; 0; 0; 1; 0; 0; 0; 2]%N (Some "eth0")).
Proof. reflexivity. Qed.
Example compress_first : compressed (V6 [64768; 0; 0; 1; 0; 0; 0; 2]%N (Some "eth0")) = "fd00:0:0:1::2%eth0".
Proof. reflexivity. Qed.
Example parse_mapped : ip_address "::ffff:10.1.2.3" = Some (V6 [0; 0; 0; 0; 0; 65535; 2561; 515]%N None).
Proof. reflexivity. Qed.
Example parse_bad : map ip_address ["1.2.3"; "01.2.3.4"; "1:2"; ":1:2:3:4:5:6:7"; "1::2::3"; "fe80::1%"; "::%a%b"; "1:2:3:4:5:6:7:8:9"; "12345::"]
  = [None; None; None; None; None; None; None; None; None].
Proof. reflexivity. Qed.
Example parse_ends : map ip_address ["::"; "1::"; "::1"; "1:2:3:4:5:6:7::"; "::2:3:4:5:6:7:8"]
  = [Some (V6 [0;0;0;0;0;0;0;0]%N None); Some (V6 [1;0;0;0;0;0;0;0]%N None); Some (V6 [0;0;0;0;0;0;0;1]%N None);
     Some (V6 [1;2;3;4;5;6;7;0]%N None); Some (V6 [0;2;3;4;5;6;7;8]%N None)].
Proof. reflexivity. Qed.

(** ** The text of an address parses back *)

Definition group_ok (g : N) : Prop := (g < 65536)%N.
Definition groups_ok (gs : list N) : Prop := length gs = 8%nat ∧ Forall group_ok gs.

(** A test of all the [k]-bit numbers, by evaluation. *)
Fixpoint all_bits (k : nat) (p : N → bool) (n : N) : bool :=
  match k with
  | O => p n
  | S k' => all_bits k' p (2 * n) && all_bits k' p (2 * n + 1)
  end.

Lemma all_bits_spec k p n : all_bits k p n = true → ∀ m, (m < 2 ^ N.of_nat k)%N → p (2 ^ N.of_nat k * n + m)%N = true.
Proof.
  revert n. induction k as [|k IH]; intros n H m Hm; cbn [all_bits] in H.
  - replace (2 ^ N.of_nat 0 * n + m)%N with n; [done|]. change (2 ^ N.of_nat 0)%N with 1%N in *. lia.
  - apply andb_true_iff in H as [H0 H1]. rewrite Nat2N.inj_succ, N.pow_succ_r' in *.
    destruct (N.lt_ge_cases m (2 ^ N.of_nat k)) as [Hlt|Hge].
    + replace (2 * 2 ^ N.of_nat k * n + m)%N with (2 ^ N.of_nat k * (2 * n) + m)%N by lia. by apply IH.
    + replace (2 * 2 ^ N.of_nat k * n + m)%N
        with (2 ^ N.of_nat k * (2 * n + 1) + (m - 2 ^ N.of_nat k))%N by lia. apply IH; [done|lia].
Qed.

Lemma every_bits k p : all_bits k p 0 = true → ∀ m, (m < 2 ^ N.of_nat k)%N → p m = true.
Proof. intros H m Hm. pose proof (all_bits_spec k p 0 H m Hm) as E. by rewrite N.mul_0_r in E. Qed.

Definition hex16_good (g : N) : bool :=
  bool_decide (parse_hextet (hex16 g) = Some g) && truthy (hex16 g) && all_chars is_hex_lower (hex16 g)
  && (len (hex16 g) <=? 4)%nat.

Lemma hex16_ok g : group_ok g → hex16_good g = true.
Proof. apply (every_bits 16). vm_compute. reflexivity. Qed.

Definition octet_good (o : N) : bool := bool_decide (parse_octet (str_of_N o) = Some o).

Lemma octet_ok o : (o <= 255)%N → parse_octet (str_of_N o) = Some o.
Proof.
  intros Ho. assert (H : octet_good o = true) by (apply (every_bits 8); [vm_compute; reflexivity|cbn; lia]).
  by apply bool_decide_eq_true in H.
Qed.

(** The run the compression picks holds zeros only. *)
Definition zeros (gs : list N) (start l : nat) : Prop :=
  start + l ≤ length gs ∧ ∀ i, start ≤ i < start + l → gs !! i = Some 0%N.

Lemma run_invariant gs done st :
  zeros done (best_start st) (best_len st) →
  (0 < cur_len st → zeros done (cur_start st) (cur_len st) ∧ cur_start st + cur_len st = length done) →
  let st' := foldl run_step st (zip (seq (length done) (length gs)) gs) in
  zeros (done ++ gs) (best_start st') (best_len st').
Proof.
  revert done st. induction gs as [|g gs IH]; intros done st Hb Hc; cbn; [by rewrite app_nil_r|].
  assert (Hweak : ∀ s l, zeros done s l → zeros (done ++ [g]) s l).
  { intros s l [H1 H2]. split; [rewrite length_app; lia|]. intros i Hi. rewrite lookup_app_l by lia. by apply H2. }
  replace (done ++ g :: gs) with ((done ++ [g]) ++ gs) by by rewrite <- app_assoc.
  replace (S (length done)) with (length (done ++ [g])) by (rewrite length_app; cbn; lia).
  apply IH; unfold run_step; destruct (N.eqb_spec g 0) as [->|_]; cbn; try (by apply Hweak); [| |lia].
  - assert (Hrun : zeros (done ++ [0%N]) (if (cur_len st =? 0)%nat then length done else cur_start st) (S (cur_len st))).
    { destruct (Nat.eqb_spec (cur_len st) 0) as [->|Hne].
      - split; [rewrite length_app; cbn; lia|]. intros i Hi. assert (i = length done) as -> by lia.
        by rewrite lookup_app_r, Nat.sub_diag by lia.
      - destruct Hc as [[H1 H2] H3]; [lia|]. split; [rewrite length_app; cbn; lia|].
        intros i Hi. destruct (decide (i = length done)) as [->|];
          [by rewrite lookup_app_r, Nat.sub_diag by lia|]. rewrite lookup_app_l by lia. apply H2. lia. }
    destruct (best_len st <=? cur_len st)%nat; [done|by apply Hweak].
  - assert (Hrun : zeros (done ++ [0%N]) (if (cur_len st =? 0)%nat then length done else cur_start st) (S (cur_len st))
              ∧ (if (cur_len st =? 0)%nat then length done else cur_start st) + S (cur_len st) = length (done ++ [0%N])).
    { destruct (Nat.eqb_spec (cur_len st) 0) as [->|Hne].
      - split; [|rewrite length_app; cbn; lia]. split; [rewrite length_app; cbn; lia|].
        intros i Hi. assert (i = length done) as -> by lia. by rewrite lookup_app_r, Nat.sub_diag by lia.
      - destruct Hc as [[H1 H2] H3]; [lia|]. split; [|rewrite length_app; cbn; lia].
        split; [rewrite length_app; cbn; lia|].
        intros i Hi. destruct (decide (i = length done)) as [->|];
          [by rewrite lookup_app_r, Nat.sub_diag by lia|]. rewrite lookup_app_l by lia. apply H2. lia. }
    intros _. by destruct (best_len st <=? cur_len st)%nat.
Qed.

Lemma longest_run_zeros gs : zeros gs (longest_run gs).1 (longest_run gs).2.
Proof.
  apply (run_invariant gs [] (RunState 0 0 0 0)); cbn; [split; cbn; [lia|intros i Hi; lia]|lia].
Qed.

Lemma parse_compress_at start l gs hs :
  length gs = 8 → Forall2 (λ h g, truthy h = true ∧ parse_hextet h = Some g) hs gs →
  2 ≤ l → zeros gs start l → parse_parts (compress_at start l hs) = Some gs.
Proof.
  intros Hlen Hf Hl [Hend Hz]. rewrite Hlen in Hend.
  destruct gs as [|g0 [|g1 [|g2 [|g3 [|g4 [|g5 [|g6 [|g7 []]]]]]]]]; try done.
  repeat match goal with
  | H : Forall2 _ _ (_ :: _) |- _ =>
      apply Forall2_cons_inv_r in H as ([|? ?] & ? & [? ?] & H & ->); [done|]
  | H : Forall2 _ _ [] |- _ => apply Forall2_nil_inv_r in H as ->
  end.
  destruct start as [|[|[|[|[|[|[|start]]]]]]]; [..|lia];
    destruct l as [|[|[|[|[|[|[|[|[|l]]]]]]]]]; try lia;
    repeat match goal with
    | H : ∀ i, _ → ?l !! i = Some 0%N |- _ =>
        pose proof (H 0) as Hz0; pose proof (H 1) as Hz1; pose proof (H 2) as Hz2; pose proof (H 3) as Hz3;
        pose proof (H 4) as Hz4; pose proof (H 5) as Hz5; pose proof (H 6) as Hz6; pose proof (H 7) as Hz7; clear H
    end;
    repeat match goal with
    | H : ?a ≤ ?b < ?c → _ |- _ =>
        first [specialize (H ltac:(lia)); injection H as -> | clear H]
    end;
    unfold parse_parts, compress_at; cbn -[parse_hextet];
    repeat match goal with
    | H : parse_hextet ?h = Some _ |- context [parse_hextet ?h] => rewrite H; cbn -[parse_hextet]
    end; reflexivity.
Qed.

Lemma hex16_facts gs : Forall group_ok gs →
  Forall2 (λ h g, truthy h = true ∧ parse_hextet h = Some g) (hex16 <$> gs) gs
  ∧ (∀ h, h ∈ hex16 <$> gs → all_chars is_hex_lower h = true).
Proof.
  intros H. split.
  - induction H as [|g gs Hg _ IH]; cbn; constructor; [|done].
    pose proof (hex16_ok g Hg) as E. unfold hex16_good in E. to_prop. done.
  - intros h (g & -> & Hg)%list_elem_of_fmap. rewrite Forall_forall in H.
    pose proof (hex16_ok g (H g Hg)) as E. unfold hex16_good in E. by to_prop.
Qed.

Lemma compress_parts gs :
  (∀ p, p ∈ compress_hextets gs → p = "" ∨ p ∈ hex16 <$> gs) ∧ (length gs = 8 → 3 ≤ length (compress_hextets gs)).
Proof.
  unfold compress_hextets. pose proof (longest_run_zeros gs) as [Hz _].
  destruct (longest_run gs) as [start l] eqn:E. cbn in Hz.
  destruct (1 <? l)%nat eqn:El; [|split; [by right|intros H; rewrite length_fmap; lia]]. apply Nat.ltb_lt in El.
  unfold compress_at. split.
  - intros p. rewrite !elem_of_app. intros [Hp|[Hp|[Hp|[Hp|Hp]]]].
    + destruct (start =? 0)%nat; [left; by apply list_elem_of_singleton|by apply elem_of_nil in Hp].
    + right. rewrite <- (take_drop start (hex16 <$> gs)), elem_of_app. by left.
    + left. by apply list_elem_of_singleton.
    + right. rewrite <- (take_drop (start + l) (hex16 <$> gs)), elem_of_app. by right.
    + destruct (_ =? _)%nat; [left; by apply list_elem_of_singleton|by apply elem_of_nil in Hp].
  - intros Hl. rewrite !length_app, length_take, length_drop, length_fmap, Hl. cbn [length].
    destruct (Nat.eqb_spec start 0), (Nat.eqb_spec (start + l) 8); cbn [length]; lia.
Qed.

Lemma parse_compressed_parts gs : groups_ok gs → parse_parts (compress_hextets gs) = Some gs.
Proof.
  intros [Hlen Hok]. destruct (hex16_facts gs Hok) as [Hf _]. unfold compress_hextets.
  pose proof (longest_run_zeros gs) as Hz. destruct (longest_run gs) as [start l]. cbn in Hz.
  destruct (1 <? l)%nat eqn:El; [apply Nat.ltb_lt in El; by apply parse_compress_at|].
  destruct gs as [|g0 [|g1 [|g2 [|g3 [|g4 [|g5 [|g6 [|g7 []]]]]]]]]; try done. clear Hz El. cbn [fmap list_fmap] in *.
  repeat match goal with
  | H : Forall2 _ (_ :: _) _ |- _ => apply Forall2_cons in H as [[? ?] H]
  end.
  repeat match goal with
  | H : truthy ?h = true |- _ => destruct h; [done|]; clear H
  end.
  unfold parse_parts. cbn -[parse_hextet].
  repeat match goal with
  | H : parse_hextet ?h = Some _ |- context [parse_hextet ?h] => rewrite H; cbn -[parse_hextet]
  end. reflexivity.
Qed.

(** The characters of an address without scope. *)
Definition v6_char (c : ascii) : bool := is_hex_lower c || is_char ":" c.

Lemma compressed_v6_chars gs :
  Forall group_ok gs → all_chars v6_char (join ":" (compress_hextets gs)) = true.
Proof.
  intros H. destruct (hex16_facts gs H) as [_ Hc]. apply all_chars_join; [done|].
  intros s [->|Hs]%(proj1 (compress_parts gs)); [done|]. eapply all_chars_impl; [|by apply Hc].
  intros c. unfold v6_char. by intros ->.
Qed.

Lemma contains_char d s : contains (String d "") s = any_char (is_char d) s.
Proof.
  unfold any_char, chars. induction s as [|c s IH]; [done|]. cbn. rewrite <- IH. f_equal.
  unfold is_char. destruct (Ascii.ascii_dec d c) as [->|Hne]; [by rewrite Ascii.eqb_refl; destruct s|].
  symmetry. apply Ascii.eqb_neq. congruence.
Qed.

Lemma contains_char_false d s : all_chars (λ c, negb (is_char d c)) s = true → contains (String d "") s = false.
Proof.
  rewrite contains_char. unfold all_chars, any_char. induction (chars s) as [|c l IH]; [done|]. cbn.
  rewrite andb_true_iff, negb_true_iff. by intros [-> H]%id; rewrite IH.
Qed.

Lemma parse_compressed_groups gs : groups_ok gs → parse_groups (join ":" (compress_hextets gs)) = Some gs.
Proof.
  intros Hg. pose proof Hg as [Hlen Hok]. destruct (hex16_facts gs Hok) as [_ Hc].
  destruct (compress_parts gs) as [Hp H3]. specialize (H3 Hlen).
  assert (Hchars : ∀ p, p ∈ compress_hextets gs → all_chars is_hex_lower p = true)
    by (intros p [->|Hs]%Hp; [done|by apply Hc]).
  unfold parse_groups. rewrite split_join.
  - destruct (Nat.ltb_spec (length (compress_hextets gs)) 3); [lia|].
    replace (expand_v4_suffix (compress_hextets gs)) with (Some (compress_hextets gs));
      [cbn; by apply parse_compressed_parts|].
    unfold expand_v4_suffix. destruct (last (compress_hextets gs)) as [p|] eqn:El; [|done].
    apply last_Some_elem_of in El. rewrite contains_char_false; [done|].
    eapply all_chars_impl; [|by apply Hchars]. apply every_char'. vm_compute. reflexivity.
  - intros E. rewrite E in H3. cbn in H3. lia.
  - apply Forall_forall. intros p Hin. eapply all_chars_impl; [|by apply Hchars].
    apply every_char'. vm_compute. reflexivity.
Qed.

Lemma parse_v4_no_colon s : all_chars v6_char s = true → contains ":" s = true → parse_v4 s = None.
Proof.
  intros Hc Hs. unfold parse_v4. assert (Hsplit : split_on "." s = [s]).
  { unfold split_on. rewrite split_chars_no_sep; [cbn; by rewrite text_chars|].
    apply all_chars_Forall in Hc. eapply Forall_impl; [exact Hc|]. intros c H.
    apply negb_true_iff. revert c H. apply every_char'. vm_compute. reflexivity. }
  by rewrite Hsplit.
Qed.

Lemma join_colon_contains l : 2 ≤ length l → contains ":" (join ":" l) = true.
Proof.
  destruct l as [|a [|b l]]; cbn [length]; try lia. intros _. rewrite contains_char. unfold any_char.
  change (join ":" (a :: b :: l)) with (a ++ ":" ++ join ":" (b :: l))%string.
  rewrite !chars_app, !existsb_app. cbn. by rewrite orb_true_r.
Qed.

(** An unscoped IPv6 text reads back as its address. *)
Lemma ip_address_compressed_v6 gs : groups_ok gs → ip_address (compressed (V6 gs None)) = Some (V6 gs None).
Proof.
  intros Hg. pose proof Hg as [Hlen Hok]. unfold compressed.
  replace (join ":" (compress_hextets gs) ++ "")%string with (join ":" (compress_hextets gs))
    by (apply chars_inj; by rewrite chars_app, app_nil_r).
  pose proof (compressed_v6_chars gs Hok) as Hc. unfold ip_address.
  rewrite parse_v4_no_colon; [|done|apply join_colon_contains; pose proof (proj2 (compress_parts gs) Hlen); lia].
  unfold parse_v6. rewrite contains_char_false.
  2: { eapply all_chars_impl; [|exact Hc]. apply every_char'. vm_compute. reflexivity. }
  unfold split_scope. rewrite partition_none.
  2: { eapply all_chars_impl; [|exact Hc]. apply every_char'. vm_compute. reflexivity. }
  by rewrite parse_compressed_groups.
Qed.

Definition octets_ok (os : list N) : Prop := length os = 4%nat ∧ Forall (λ o, (o <= 255)%N) os.

Lemma ip_address_compressed_v4 os : octets_ok os → ip_address (compressed (V4 os)) = Some (V4 os).
Proof.
  intros [Hl Ho]. unfold ip_address, compressed, parse_v4. destruct os as [|a [|b [|c [|d []]]]]; try done.
  rewrite split_join; [|done|].
  - repeat (apply Forall_cons in Ho as [? Ho]). cbn -[parse_octet]. by rewrite !octet_ok.
  - apply Forall_forall. intros s (n & -> & _)%list_elem_of_fmap. eapply all_chars_impl; [|apply str_of_N_digits].
    apply every_char'. vm_compute. reflexivity.
Qed.

(** ** What the parser returns *)

Lemma parse_octet_ok s o : parse_octet s = Some o → (o <= 255)%N.
Proof.
  unfold parse_octet. destruct (_ && _); [|done]. cbv zeta. destruct (N.leb_spec (digits_value s) 255); [|done].
  by intros [= <-].
Qed.

Lemma mapM_Forall {A B} (f : A → option B) (P : B → Prop) l k :
  (∀ x y, f x = Some y → P y) → mapM f l = Some k → Forall P k ∧ length k = length l.
Proof.
  intros Hf H. apply mapM_Some_1 in H. split; [|symmetry; by eapply Forall2_length].
  induction H; constructor; eauto.
Qed.

Lemma parse_v4_ok s os : parse_v4 s = Some os → octets_ok os.
Proof.
  unfold parse_v4. destruct (split_on "." s) as [|a [|b [|c [|d []]]]]; try done. intros H.
  destruct (mapM_Forall _ (λ o, (o <= 255)%N) _ _ parse_octet_ok H) as [Hf Hl]. by split.
Qed.

Lemma hex_digit_value_lt c : is_hex c = true → (hex_digit_value c < 16)%N.
Proof.
  intros H. apply N.ltb_lt. revert c H. apply (every_char' is_hex (λ c, hex_digit_value c <? 16)%N).
  vm_compute. reflexivity.
Qed.

Lemma parse_hextet_ok s g : parse_hextet s = Some g → group_ok g.
Proof.
  unfold parse_hextet, len. destruct (truthy s); [|done]. destruct (all_chars is_hex s) eqn:Hc; [|done].
  cbn [andb]. destruct (_ <=? 4)%nat eqn:Hl; [|done]. apply Nat.leb_le in Hl. intros [= <-].
  apply all_chars_Forall in Hc. unfold group_ok.
  assert (H : ∀ l acc k, Forall (λ c, is_hex c = true) l → (acc < 16 ^ N.of_nat k)%N →
            (foldl (λ acc c, 16 * acc + hex_digit_value c) acc l < 16 ^ N.of_nat (k + length l))%N).
  { induction l as [|c l IH]; intros acc k Hf Ha; cbn [foldl length]; [by rewrite Nat.add_0_r|].
    apply Forall_cons in Hf as [Hc' Hf]. rewrite Nat.add_succ_r, <- Nat.add_succ_l. apply IH; [done|].
    rewrite Nat2N.inj_succ, N.pow_succ_r'. pose proof (hex_digit_value_lt c Hc'). lia. }
  specialize (H (chars s) 0%N 0%nat Hc). cbn [Nat.add] in H. specialize (H ltac:(done)).
  eapply N.lt_le_trans; [exact H|]. change 65536%N with (16 ^ 4)%N. apply N.pow_le_mono_r; lia.
Qed.

Lemma parse_parts_ok parts gs : parse_parts parts = Some gs → groups_ok gs.
Proof.
  unfold parse_parts. destruct (_ <? _)%nat; [done|]. destruct (skips parts) as [|skip [|]] eqn:Hskips; [| |done].
  - destruct (Nat.eqb_spec (length parts) 8) as [Hl|]; [|done]. intros H.
    destruct (mapM_Forall _ group_ok _ _ parse_hextet_ok H). split; [lia|done].
  - cbv zeta. set (hi := if truthy (nth 0 parts "") then _ else _). set (lo := if truthy _ then _ else _).
    destruct (_ && _); [done|]. destruct (_ && _); [done|].
    destruct (8 <=? hi + lo)%nat eqn:E; [done|]. apply Nat.leb_gt in E.
    intros (high & Hh & (low & Hlow & [= <-])%bind_Some)%bind_Some.
    destruct (mapM_Forall _ group_ok _ _ parse_hextet_ok Hh) as [F1 L1].
    destruct (mapM_Forall _ group_ok _ _ parse_hextet_ok Hlow) as [F2 L2].
    rewrite length_take in L1. rewrite length_drop in L2. split.
    + rewrite !length_app, length_replicate. enough (hi ≤ length parts ∧ lo ≤ length parts) by lia.
      assert (Hs : In skip (skips parts)) by (rewrite Hskips; by left).
      unfold skips in Hs. apply filter_In in Hs as [Hs _]. apply in_seq in Hs.
      unfold hi, lo. repeat case_match; lia.
    + rewrite !Forall_app. repeat split; [done| |done]. apply Forall_replicate. unfold group_ok. lia.
Qed.

Lemma parse_groups_ok s gs : parse_groups s = Some gs → groups_ok gs.
Proof.
  unfold parse_groups. destruct (_ <? _)%nat; [done|]. intros (parts & _ & H)%bind_Some.
  by eapply parse_parts_ok.
Qed.

(** Every address [ip_address] returns has four octets or eight groups in
    range. *)
Lemma ip_address_ok s a :
  ip_address s = Some a → match a with V4 os => octets_ok os | V6 gs _ => groups_ok gs end.
Proof.
  unfold ip_address. destruct (parse_v4 s) as [os|] eqn:E; [intros [= <-]; by eapply parse_v4_ok|].
  unfold parse_v6. destruct (contains "/" s); [done|]. destruct (split_scope s) as [[addr sc]|]; [|done].
  intros (gs & Hg & ->)%fmap_Some. by eapply parse_groups_ok.
Qed.

(** ** Networks are intervals *)

Definition network_ok (n : network) : bool :=
  (prefix_length n <=? ip_bits (base n))%N
  && (ip_int (base n) mod 2 ^ (ip_bits (base n) - prefix_length n) =? 0)%N.

Definition in_interval (a : ip) (n : network) : bool :=
  (ip_version a =? ip_version (base n))%N && (ip_int (base n) <=? ip_int a)%N
  && (ip_int a <? ip_int (base n) + 2 ^ (ip_bits a - prefix_length n))%N.

Lemma land_prefix x p k :
  (x < 2 ^ (p + k))%N → N.land x (N.shiftl (N.ones p) k) = (x / 2 ^ k * 2 ^ k)%N.
Proof.
  intros Hx. rewrite <- N.shiftr_div_pow2, <- N.shiftl_mul_pow2, <- N.ldiff_ones_r.
  apply N.bits_inj. intros i. rewrite N.land_spec, N.ldiff_spec.
  destruct (N.lt_ge_cases i k) as [Hi|Hi].
  - rewrite N.shiftl_spec_low, N.ones_spec_low by done. cbn. by rewrite !andb_false_r.
  - rewrite N.shiftl_spec_high', (N.ones_spec_high k) by done.
    destruct (N.lt_ge_cases (i - k) p) as [Hp|Hp]; [by rewrite N.ones_spec_low|].
    rewrite N.ones_spec_high by done. destruct (N.testbit x i) eqn:E; [|done]. exfalso.
    destruct (N.eq_dec x 0%N) as [->|Hne]; [by rewrite N.bits_0 in E|].
    assert (N.log2 x < p + k)%N by (apply N.log2_lt_pow2; lia).
    rewrite N.bits_above_log2 in E; [done|lia].
Qed.

Lemma version_bits a b : ip_version a = ip_version b → ip_bits a = ip_bits b.
Proof. by destruct a, b. Qed.

Lemma in_network_interval a n :
  network_ok n = true → (ip_int a < 2 ^ ip_bits a)%N → in_network a n = in_interval a n.
Proof.
  unfold network_ok, in_network, in_interval. rewrite andb_true_iff, N.leb_le, N.eqb_eq. intros [Hp Hmod] Ha.
  destruct (N.eqb_spec (ip_version a) (ip_version (base n))) as [Hv|]; [|done]. cbn [andb].
  rewrite (version_bits _ _ Hv) in *. set (k := (ip_bits (base n) - prefix_length n)%N) in *.
  rewrite land_prefix by (by replace (prefix_length n + k)%N with (ip_bits (base n)) by lia).
  set (x := ip_int a) in *. set (b := ip_int (base n)) in *.
  assert (Hm : (2 ^ k ≠ 0)%N) by (by apply N.pow_nonzero).
  set (m := (2 ^ k)%N) in *. pose proof (N.div_mod b m Hm) as Hb. rewrite Hmod, N.add_0_r in Hb.
  pose proof (N.div_mod x m Hm) as Hx. pose proof (N.mod_lt x m Hm) as Hr.
  assert (Hq : (b ≤ x < b + m)%N → (x / m = b / m)%N).
  { intros [H1 H2]. symmetry. apply (N.div_unique x m (b / m) (x - b))%N; lia. }
  apply eq_bool_prop_intro. rewrite !Is_true_true, andb_true_iff, N.eqb_eq, N.leb_le, N.ltb_lt.
  rewrite (N.mul_comm (x / m)). split.
  - intros E. rewrite E in Hx. generalize dependent (x mod m)%N. intros r -> Hr. lia.
  - intros H. by rewrite (Hq H).
Qed.

Lemma ip_int_v4 os : octets_ok os → (ip_int (V4 os) < 2 ^ 32)%N.
Proof.
  intros [Hl Ho]. destruct os as [|a [|b [|c [|d []]]]]; try done.
  repeat (apply Forall_cons in Ho as [? Ho]). cbn -[N.mul N.add N.pow]. lia.
Qed.

Lemma ip_int_v6 gs sc : groups_ok gs → (ip_int (V6 gs sc) < 2 ^ 128)%N.
Proof.
  intros [Hl Ho]. destruct gs as [|a [|b [|c [|d [|e [|f [|g [|h []]]]]]]]]; try done.
  repeat (apply Forall_cons in Ho as [? Ho]). unfold group_ok in *. cbn -[N.mul N.add N.pow]. lia.
Qed.

Definition ip_ok (a : ip) : Prop := match a with V4 os => octets_ok os | V6 gs _ => groups_ok gs end.

Lemma any_in_network a ns :
  forallb network_ok ns = true → ip_ok a → any_of (in_network a) ns = any_of (in_interval a) ns.
Proof.
  intros Hn Ha. unfold any_of. induction ns as [|n ns IH]; [done|]. cbn in Hn |- *. to_prop.
  rewrite IH by done. f_equal. apply in_network_interval; [done|].
  destruct a; [by apply ip_int_v4|by apply ip_int_v6].
Qed.

(** The tables as numeric bounds, which evaluate. *)
Definition bounds (n : network) : N * N * N :=
  (ip_version (base n), ip_int (base n), (ip_int (base n) + 2 ^ (ip_bits (base n) - prefix_length n))%N).
Definition within (v x : N) (b : N * N * N) : bool :=
  let '(w, lo, hi) := b in ((v =? w) && (lo <=? x) && (x <? hi))%N.

Lemma any_within a ns :
  any_of (in_interval a) ns = any_of (within (ip_version a) (ip_int a)) (bounds <$> ns).
Proof.
  unfold any_of. induction ns as [|n ns IH]; [done|]. cbn [existsb fmap list_fmap]. rewrite <- IH. f_equal.
  unfold in_interval, within, bounds. destruct (N.eqb_spec (ip_version a) (ip_version (base n))) as [Hv|]; [|done].
  by rewrite (version_bits _ _ Hv).
Qed.

(** ** The shape of an unscoped text *)

Definition unscoped (a : ip) : bool := match a with V4 _ => true | V6 _ scope => bool_decide (scope = None) end.

(** Digits, [a-f], dots and colons. *)
Definition ip_char (c : ascii) : bool := v6_char c || is_char "." c.

Lemma compressed_v6_text gs : compressed (V6 gs None) = join ":" (compress_hextets gs).
Proof. apply chars_inj. unfold compressed. by rewrite chars_app, app_nil_r. Qed.

Lemma compressed_chars a : ip_ok a → unscoped a = true → all_chars ip_char (compressed a) = true.
Proof.
  intros Ha Hu. destruct a as [os|gs sc].
  - apply all_chars_join; [done|]. intros s (n & -> & _)%list_elem_of_fmap.
    eapply all_chars_impl; [|apply str_of_N_digits]. apply every_char'. vm_compute. reflexivity.
  - apply bool_decide_eq_true in Hu as ->. rewrite compressed_v6_text.
    eapply all_chars_impl; [|apply compressed_v6_chars, Ha]. intros c. unfold ip_char. by intros ->.
Qed.

Lemma compressed_len a : ip_ok a → unscoped a = true → len (compressed a) ≤ 60.
Proof.
  intros Ha Hu. destruct a as [os|gs sc].
  - destruct Ha as [Hl Ho]. unfold compressed. etrans; [apply (join_len _ 8)|rewrite length_fmap, Hl; cbn; lia].
    intros s (n & -> & Hn)%list_elem_of_fmap. rewrite Forall_forall in Ho. specialize (Ho n Hn).
    apply str_of_N_len; [cbn; lia|lia].
  - apply bool_decide_eq_true in Hu as ->. destruct Ha as [Hl Ho]. rewrite compressed_v6_text.
    assert (H10 : length (compress_hextets gs) ≤ 11).
    { unfold compress_hextets. destruct (longest_run gs) as [start l].
      destruct (1 <? l)%nat; [|rewrite length_fmap; lia]. unfold compress_at.
      rewrite !length_app, length_take, length_drop, length_fmap, Hl.
      destruct (start =? 0)%nat, (_ =? _)%nat; cbn [length]; lia. }
    etrans; [apply (join_len _ 4)|change (len ":") with 1; lia].
    intros s [->|Hs]%(proj1 (compress_parts gs)); [cbn; lia|]. apply list_elem_of_fmap in Hs as (g & -> & Hg).
    rewrite Forall_forall in Ho. pose proof (hex16_ok g (Ho g Hg)) as E. unfold hex16_good in E. by to_prop.
Qed.

Lemma compressed_colons a :
  ip_ok a → unscoped a = true → count_char ":" (compressed a) = 0 ∨ 2 ≤ count_char ":" (compressed a).
Proof.
  intros Ha Hu. destruct a as [os|gs sc].
  - left. apply count_char_none. apply all_chars_join; [done|]. intros s (n & -> & _)%list_elem_of_fmap.
    eapply all_chars_impl; [|apply str_of_N_digits]. apply every_char'. vm_compute. reflexivity.
  - right. apply bool_decide_eq_true in Hu as ->. rewrite compressed_v6_text.
    pose proof (count_char_join ":" (compress_hextets gs)). destruct Ha as [Hl _].
    pose proof (proj2 (compress_parts gs) Hl). lia.
Qed.

Lemma ip_address_compressed a : ip_ok a → unscoped a = true → ip_address (compressed a) = Some a.
Proof.
  destruct a as [os|gs sc]; [intros Ha _; by apply ip_address_compressed_v4|].
  intros Ha Hu. apply bool_decide_eq_true in Hu as ->. by apply ip_address_compressed_v6.
Qed.
