(* ===== verification/PyValue.v ===== *)
(** * PyValue: the values a JSON document decodes to

    The handlers of the Active workflow take [object] and [Mapping[str, Any]]
    arguments: what [json.loads] returns.  A dictionary keeps its insertion
    order and has string keys; a [float] is held as its [repr].  Two limits
    of the interpreter are not modelled: the nesting depth it recurses to and
    the 4300 digits [json] reads and writes of one integer. *)

From S2P Require Import Prelude PyStr Sha256.

Inductive value : Type :=
| VNone
| VBool (b : bool)
| VInt (z : Z)
| VFloat (repr : string)
| VStr (s : string)
| VList (l : list value)
| VDict (d : list (string * value)).

#[export] Instance VInt_inj : Inj (=) (=) VInt.
Proof. by intros ?? [=]. Qed.
#[export] Instance VStr_inj : Inj (=) (=) VStr.
Proof. by intros ?? [=]. Qed.

(** Induction that reaches the elements of lists and dictionaries. *)
Section induction.
Context (P : value → Prop) (HNone : P VNone) (HBool : ∀ b, P (VBool b)) (HInt : ∀ z, P (VInt z))
    (HFloat : ∀ r, P (VFloat r)) (HStr : ∀ s, P (VStr s)) (HList : ∀ l, Forall P l → P (VList l))
    (HDict : ∀ d, Forall (λ kv, P kv.2) d → P (VDict d)).
Fixpoint value_ind' (v : value) : P v :=
    match v with
    | VNone => HNone
    | VBool b => HBool b
    | VInt z => HInt z
    | VFloat r => HFloat r
    | VStr s => HStr s
    | VList l => HList l ((fix go l := match l return Forall P l with
        | [] => Forall_nil_2 _
        | x :: l' => Forall_cons_2 _ _ _ (value_ind' x) (go l')
        end) l)
    | VDict d => HDict d ((fix go d := match d return Forall (λ kv, P kv.2) d with
        | [] => Forall_nil_2 _
        | kv :: d' => Forall_cons_2 _ _ _ (value_ind' kv.2) (go d')
        end) d)
    end.
End induction.

(** ** Type tests *)

(** [isinstance(v, int)], booleans included, and [v is True]. *)
Definition as_int (v : value) : option Z :=
  match v with VInt z => Some z | VBool b => Some (if b then 1 else 0)%Z | _ => None end.
Definition is_bool (v : value) : bool := match v with VBool _ => true | _ => false end.
Definition is_true (v : value) : bool := match v with VBool b => b | _ => false end.
Definition is_false (v : value) : bool := match v with VBool b => negb b | _ => false end.
Definition is_none (v : value) : bool := match v with VNone => true | _ => false end.
Definition is_list (v : value) : bool := match v with VList _ => true | _ => false end.
Definition as_str (v : value) : option string := match v with VStr s => Some s | _ => None end.

(** [isinstance(v, str) and v in words] *)
Definition str_in (words : list string) (v : value) : bool :=
  match v with VStr s => mem s words | _ => false end.

(** [bool(v)] *)
Definition py_bool (v : value) : bool :=
  match v with
  | VNone => false
  | VBool b => b
  | VInt z => negb (z =? 0)%Z
  | VFloat r => negb (mem r ["0.0"; "-0.0"])
  | VStr s => truthy s
  | VList l => negb (length l =? 0)%nat
  | VDict d => negb (length d =? 0)%nat
  end.

(** [str(v).lower() == word] for a word of letters: the text of anything but
    a string never is one of the words asked for. *)
Definition lower_str_is (word : string) (v : value) : bool :=
  match v with VStr s => String.eqb (lower s) word | _ => false end.

(** [d.get(k)] *)
Definition get (k : string) (d : dict value) : value := default VNone (dict_get k d).

(** [d.update(e)], also [{**d, **e}] and [d | e]. *)
Definition dict_update (d e : dict value) : dict value :=
  foldl (λ d kv, dict_set kv.1 kv.2 d) d e.

(** ** Equality

    [==] across the numeric types: a boolean is 0 or 1, and a float equals
    an integer when it is integral.  The text test is exact for integers
    below [10^16], where [repr] does not use an exponent; the code compares
    with small constants only. *)
Definition float_is_int (r : string) (z : Z) : bool :=
  String.eqb r (str_of_Z z ++ ".0") || (String.eqb r "-0.0" && (z =? 0)%Z).
Definition float_eq (r s : string) : bool :=
  (String.eqb r s && negb (String.eqb r "nan")) || (mem r ["0.0"; "-0.0"] && mem s ["0.0"; "-0.0"]).

Fixpoint py_eq (v w : value) {struct v} : bool :=
  match v, w with
  | VNone, VNone => true
  | VStr s, VStr t => String.eqb s t
  | VBool _, (VBool _ | VInt _) | VInt _, (VBool _ | VInt _) => bool_decide (as_int v = as_int w)
  | VFloat r, VFloat s => float_eq r s
  | VFloat r, (VBool _ | VInt _) => from_option (float_is_int r) false (as_int w)
  | (VBool _ | VInt _), VFloat r => from_option (float_is_int r) false (as_int v)
  | VList l, VList k =>
      (fix go l k := match l, k with
       | [], [] => true
       | x :: l', y :: k' => py_eq x y && go l' k'
       | _, _ => false
       end) l k
  | VDict d, VDict e =>
      (length d =? length e)%nat &&
      (fix go d := match d with
       | [] => true
       | (k, x) :: d' => match dict_get k e with Some y => py_eq x y | None => false end && go d'
       end) d
  | _, _ => false
  end.

Example py_eq_numbers : py_eq (VBool true) (VInt 1) && py_eq (VFloat "1.0") (VBool true) && negb (py_eq (VInt 1) (VStr "1")) = true.
Proof. reflexivity. Qed.

(** ** JSON text

    [json.dumps(v, separators=(",", ":"))], with [ensure_ascii]. *)
Definition quote : ascii := Ascii.ascii_of_nat 34.
Definition json_char (c : ascii) : string :=
  if is_char quote c then text ["\"%char; quote] else
  if is_char "\" c then "\\" else
  if (code c =? 10)%N then "\n" else
  if (code c =? 13)%N then "\r" else
  if (code c =? 9)%N then "\t" else
  if (code c =? 12)%N then "\f" else
  if (code c =? 8)%N then "\b" else
  if between 32 126 c then String c "" else "\u" ++ text (hex_digits 4 (code c)).
Definition json_string (s : string) : string :=
  String quote (join "" (json_char <$> chars s) ++ String quote "").
Definition json_float (r : string) : string :=
  if String.eqb r "nan" then "NaN" else
  if String.eqb r "inf" then "Infinity" else if String.eqb r "-inf" then "-Infinity" else r.

Fixpoint json_dumps (v : value) : string :=
  match v with
  | VNone => "null"
  | VBool b => if b then "true" else "false"
  | VInt z => str_of_Z z
  | VFloat r => json_float r
  | VStr s => json_string s
  | VList l => "[" ++ join "," ((fix go l := match l with [] => [] | x :: l' => json_dumps x :: go l' end) l) ++ "]"
  | VDict d => "{" ++ join "," ((fix go d := match d with
      | [] => [] | (k, x) :: d' => (json_string k ++ ":" ++ json_dumps x)%string :: go d' end) d) ++ "}"
  end.

(** ** Lemmas *)

(** A value without floats and without repeated keys equals itself. *)
Fixpoint plain (v : value) : bool :=
  match v with
  | VFloat _ => false
  | VList l => forallb plain l
  | VDict d => bool_decide (NoDup d.*1) && forallb (λ kv, plain (snd kv)) d
  | _ => true
  end.

Lemma py_eq_refl v : plain v = true → py_eq v v = true.
Proof.
  induction v as [|b|z|r|s|l IH|d IH] using value_ind'; cbn [plain]; try done; intros Hp.
  - by destruct b.
  - cbn. by apply bool_decide_eq_true.
  - cbn. by apply String.eqb_eq.
  - cbn. induction IH as [|x l Hx _ IH]; [done|]. cbn in Hp. to_prop. by rewrite Hx, IH.
  - to_prop. match goal with H : NoDup _ |- _ => rename H into Hn end.
    match goal with H : forallb _ _ = true |- _ => rename H into Hf end.
    cbn [py_eq]. rewrite Nat.eqb_refl. cbn [andb].
    assert (Hs : ∀ e, (∀ k x, (k, x) ∈ e → dict_get k d = Some x) → Forall (λ kv, plain kv.2 = true → py_eq kv.2 kv.2 = true) e →
      forallb (λ kv, plain (snd kv)) e = true →
      (fix go (d0 : list (string * value)) : bool := match d0 with
       | [] => true
       | (k, x) :: d' => match dict_get k d with Some y => py_eq x y | None => false end && go d'
       end) e = true).
    { intros e He Hi Hp. induction Hi as [|[k x] e Hx _ IHe]; [done|]. cbn in Hp. to_prop.
      cbn [snd] in Hx. rewrite (He k x ltac:(left)), Hx by done. cbn [andb]. apply IHe; [|done]. intros k' x' Hin. apply He. by right. }
    apply Hs; [|done|done]. intros k x Hin. by apply dict_get_elem.
Qed.

Lemma get_dict_set k k' v d : get k (dict_set k' v d) = if String.eqb k' k then v else get k d.
Proof. unfold get. rewrite dict_get_set. by destruct (String.eqb k' k). Qed.

Lemma get_elem k d : get k d = VNone ∨ (k, get k d) ∈ d.
Proof.
  unfold get. induction d as [|[k' v] d IH]; cbn; [by left|].
  destruct (String.eqb_spec k' k) as [->|]; [right; left|]. destruct IH as [IH|IH]; [by left|right; by right].
Qed.

(** ** Values over a closed vocabulary

    Every text is one of [words] and every key one of [keys], at any depth;
    there is no float. *)
Section closed_text.
Context (words keys : list string).

Fixpoint closed_text (v : value) : bool :=
  match v with
  | VStr s => mem s words
  | VList l => forallb closed_text l
  | VDict d => forallb (λ kv, mem (fst kv) keys && closed_text (snd kv)) d
  | VFloat _ => false
  | _ => true
  end.

Lemma closed_text_dict d :
  closed_text (VDict d) = true ↔ ∀ k v, (k, v) ∈ d → mem k keys = true ∧ closed_text v = true.
Proof.
  cbn [closed_text]. rewrite forallb_forall. setoid_rewrite <- list_elem_of_In. split.
  - intros H k v Hin. by specialize (H _ Hin) as [? ?]%andb_true_iff.
  - intros H [k v] Hin. by apply andb_true_iff, H.
Qed.

Lemma closed_text_get k d : closed_text (VDict d) = true → closed_text (get k d) = true.
Proof.
  rewrite closed_text_dict. intros H. destruct (get_elem k d) as [->|Hin]; [done|]. by apply (H k).
Qed.

Lemma closed_text_set k v d :
  closed_text (VDict d) = true → mem k keys = true → closed_text v = true →
  closed_text (VDict (dict_set k v d)) = true.
Proof.
  cbn [closed_text]. intros Hd Hk Hv. induction d as [|[k' v'] d IH]; cbn [dict_set forallb fst snd] in *; [by rewrite Hk, Hv|].
  apply andb_true_iff in Hd as [H1 H2]. destruct (String.eqb k' k); cbn [forallb fst snd].
  - apply andb_true_iff in H1 as [H1 _]. by rewrite H1, Hv, H2.
  - by rewrite H1, IH.
Qed.

Lemma closed_text_update d e :
  closed_text (VDict d) = true → closed_text (VDict e) = true → closed_text (VDict (dict_update d e)) = true.
Proof.
  unfold dict_update. revert d. induction e as [|[k v] e IH]; intros d Hd He; [done|].
  cbn [closed_text forallb fst snd] in He. apply andb_true_iff in He as [[Hk Hv]%andb_true_iff He].
  cbn [foldl fst snd]. apply IH; [by apply closed_text_set|done].
Qed.

Lemma closed_text_filter p v :
  closed_text v = true → ∀ l, v = VList l → forallb closed_text (List.filter p l) = true.
Proof.
  intros Hv l ->. cbn [closed_text] in Hv. rewrite forallb_forall in *. intros x [Hx _]%filter_In. by apply Hv.
Qed.
End closed_text.
