(* ===== verification/AssetTarget.v ===== *)
(** * AssetTarget: the exact target of an active asset

    Models [canonicalize_active_asset] of [backend/app/active_assets.py], with
    what it uses of [urllib.parse] as Python 3.12 has it, and the target a
    capability is run against.  A canonical value is one target, and is its
    own canonical value. *)

From S2P Require Import Prelude PyStr IpAddress.

(** ** Texts *)

(** [str.casefold()]: a sharp s is two letters; the micro sign folds to a
    letter beyond the model's texts and is kept, neither can be in a host. *)
Definition casefold_char (c : ascii) : list ascii :=
  if (code c =? 223)%N then ["s"%char; "s"%char] else [lower_char c].
Definition casefold (s : string) : string := text (mjoin (casefold_char <$> chars s)).

Definition is_label_char (c : ascii) : bool := is_digit c || is_lower_az c || is_char "-" c.
Definition is_label_end (c : ascii) : bool := is_digit c || is_lower_az c.

(** backend/app/active_assets.py [_HOST_LABEL] *)
Definition _HOST_LABEL (s : string) : bool :=
  all_chars is_label_char s && (1 <=? len s) && (len s <=? 63)
  && from_option is_label_end false (first_char s) && from_option is_label_end false (last_char s).

(** backend/app/active_assets.py [_canonical_host] *)
Definition _canonical_host (value : string) : outcome string :=
  let host := casefold (rstrip_chars "." value) in
  raise "ValueError" when (negb (truthy host) || (253 <? len host) || any_of (λ label, negb (_HOST_LABEL label)) (split_on "." host));;
  Ok host.

(** backend/app/active_assets.py [_looks_like_ip] *)
Definition _looks_like_ip (value : string) : bool := bool_decide (is_Some (ip_address value)).

(** ** [urllib.parse.urlsplit] *)

Record split_result : Type := SplitResult {
  scheme : string;
  netloc : string;
  path : string;
  query : string;
  fragment : string
}.

(** [url.lstrip] of the C0 controls and the space, then the removal of tabs
    and line ends. *)
Definition clean_url (url : string) : string :=
  text (List.filter (λ c, negb (one_of (text ["009"%char; "010"%char; "013"%char]) c))
          (drop_while (λ c, (code c <=? 32)%N) (chars url))).

Definition is_scheme_char (c : ascii) : bool := is_ascii_alnum c || one_of "+-." c.

(** The scheme, if there is one, and the rest. *)
Definition split_scheme (url : string) : string * string :=
  match partition ":" url with
  | (before, Some after) =>
      if from_option is_ascii_letter false (first_char before) && all_chars is_scheme_char before then (lower before, after) else ("", url)
  | _ => ("", url)
  end.

(** [_splitnetloc]: up to the first of [/?#]. *)
Definition split_netloc (url : string) : string * string :=
  let l := chars url in
  let p := λ c, negb (one_of "/?#" c) in
  (text (take_while p l), text (drop_while p l)).

(** [_check_bracketed_netloc] *)
Definition bracketed_host_ok (hostname : string) : bool :=
  if startswith "v" hostname then
    match partition "." hostname with
    | (head, Some tail) => (2 <=? len head) && all_chars is_hex (str_drop 1 head) && truthy tail
                           && all_chars (λ c, negb (is_char "010" c)) tail
    | _ => false
    end
  else match ip_address hostname with Some (V6 _ _) => true | _ => false end.

(** [netloc.rpartition("@")] *)
Definition userinfo_hostinfo (netloc : string) : option string * string :=
  match rpartition "@" netloc with Some (userinfo, hostinfo) => (Some userinfo, hostinfo) | None => (None, netloc) end.

Definition check_bracketed_netloc (netloc : string) : bool :=
  let hostinfo := (userinfo_hostinfo netloc).2 in
  match partition "[" hostinfo with
  | (before, Some bracketed) =>
      let '(hostname, rest) := partition "]" bracketed in
      let port := default "" rest in
      negb (truthy before) && (negb (truthy port) || startswith ":" port) && bracketed_host_ok hostname
  | (_, None) => bracketed_host_ok (partition ":" hostinfo).1
  end.

(** [urlsplit(url)]; [None] is [ValueError]. *)
Definition urlsplit (raw : string) : option split_result :=
  let '(scheme, url) := split_scheme (clean_url raw) in
  let '(netloc, url) := if startswith "//" url then split_netloc (str_drop 2 url) else ("", url) in
  let opens := contains "[" netloc in let closes := contains "]" netloc in
  if xorb opens closes || (opens && closes && negb (check_bracketed_netloc netloc)) then None else
  let '(url, fragment) := partition "#" url in
  let '(url, query) := partition "?" url in
  Some (SplitResult scheme netloc url (default "" query) (default "" fragment)).

(** [username] and [password], empty for [None]. *)
Definition username_password (r : split_result) : string * string :=
  match (userinfo_hostinfo (netloc r)).1 with
  | Some userinfo => let '(u, p) := partition ":" userinfo in (u, default "" p)
  | None => ("", "")
  end.

(** [_hostinfo]: the host, and the port if there is one. *)
Definition hostinfo (r : split_result) : string * option string :=
  let info := (userinfo_hostinfo (netloc r)).2 in
  let '(hostname, port) :=
    match partition "[" info with
    | (_, Some bracketed) => let '(h, rest) := partition "]" bracketed in (h, (partition ":" (default "" rest)).2)
    | (_, None) => partition ":" info
    end in
  (hostname, match port with Some p => if truthy p then Some p else None | None => None end).

(** [hostname], empty for [None]: a zone keeps its case. *)
Definition hostname (r : split_result) : string :=
  match partition "%" (hostinfo r).1 with
  | (host, Some zone) => (lower host ++ "%" ++ zone)%string
  | (host, None) => lower host
  end.

(** [port]; [Err] is [ValueError]. *)
Definition port (r : split_result) : outcome (option N) :=
  match (hostinfo r).2 with
  | None => Ok None
  | Some p =>
      raise "ValueError" when (negb (all_chars is_digit p));;
      n ← py_int p;
      raise "ValueError" when (65535 <? n)%N;;
      Ok (Some n)
  end.

(** ** Canonical targets *)

Definition http_origin (raw : string) : outcome string :=
  parsed ← or_raise (urlsplit raw) "ValueError";
  p ← port parsed;
  raise "ValueError"
    when (negb (mem (scheme parsed) ["http"; "https"]) || negb (truthy (hostname parsed))
          || truthy (username_password parsed).1 || truthy (username_password parsed).2);;
  raise "ValueError" when (truthy (query parsed) || truthy (fragment parsed) || negb (mem (path parsed) [""; "/"]));;
  host ← _canonical_host (hostname parsed);
  let default_port := if String.eqb (scheme parsed) "https" then 443%N else 80%N in
  Ok (scheme parsed ++ "://" ++ host
      ++ match p with
         | Some n => if (n =? 0)%N || (n =? default_port)%N then "" else ":" ++ str_of_N n
         | None => ""
         end)%string.

(** backend/app/active_assets.py [canonicalize_active_asset] *)
Definition canonicalize_active_asset (asset_type value : string) : outcome string :=
  let raw := strip value in
  raise "ValueError"
    when (negb (truthy raw) || contains "*" raw || (contains "/" raw && negb (String.eqb asset_type "http_origin")));;
  if String.eqb asset_type "ip" then a ← or_raise (ip_address raw) "ValueError"; Ok (compressed a) else
  if String.eqb asset_type "http_origin" then http_origin raw else
  host ← _canonical_host raw;
  raise "ValueError" when (String.eqb asset_type "domain" && _looks_like_ip host);;
  Ok host.

(** backend/app/active_assets.py [asset_target_for_capability] *)
Definition asset_target_for_capability (asset_type canonical_value : string) (allowed_protocols : list string) (capability : string)
    (selected : option Z) : string :=
  if String.eqb capability "active_http_basic_header_review" then
    if String.eqb asset_type "http_origin" then canonical_value else
    let scheme := if mem "https" allowed_protocols then "https" else "http" in
    let default_port := if String.eqb scheme "https" then 443%Z else 80%Z in
    let selected_port := match selected with Some p => if (p =? 0)%Z then default_port else p | None => default_port end in
    let suffix := if (selected_port =? default_port)%Z then "" else (":" ++ str_of_Z selected_port)%string in
    let host := if contains ":" canonical_value then ("[" ++ canonical_value ++ "]")%string else canonical_value in
    (scheme ++ "://" ++ host ++ suffix)%string
  else if String.eqb asset_type "http_origin" then
    match urlsplit canonical_value with
    | Some parsed => if truthy (hostname parsed) then hostname parsed else canonical_value
    | None => canonical_value
    end
  else canonical_value.

Example origin_1 : canonicalize_active_asset "http_origin" " HTTPS://Example.COM.:0443/ " = Ok "https://example.com".
Proof. vm_compute. reflexivity. Qed.
Example origin_2 : canonicalize_active_asset "http_origin" "http://[v1.abc]:8080" = Ok "http://v1.abc:8080".
Proof. vm_compute. reflexivity. Qed.
Example origin_3 : canonicalize_active_asset "http_origin" "http://u@h/" = Err "ValueError".
Proof. vm_compute. reflexivity. Qed.
Example ip_1 : canonicalize_active_asset "ip" "FE80::0:1%a b" = Ok "fe80::1%a b".
Proof. vm_compute. reflexivity. Qed.

(** ** A canonical value is its own *)

(** What [_canonical_host] returns. *)
Definition host_ok (h : string) : Prop :=
  truthy h = true ∧ len h <= 253 ∧ ∀ label, label ∈ split_on "." h → _HOST_LABEL label = true.

Definition is_host_char (c : ascii) : bool := is_label_char c || is_char "." c.

Lemma canonical_host_ok value h : _canonical_host value = Ok h → host_ok h.
Proof.
  unfold _canonical_host. set (host := casefold _). intros H. destruct (truthy host) eqn:Ht; [|done].
  destruct (Nat.ltb_spec 253 (len host)) as [|Hl]; [done|]. destruct (any_of _ _) eqn:Ha; [done|]. cbn in H. injection H as <-.
  split; [done|]. split; [done|]. intros label Hin. apply any_of_false with (x := label) in Ha; [|done]. by destruct (_HOST_LABEL label).
Qed.

Lemma host_chars h : host_ok h → all_chars is_host_char h = true.
Proof.
  intros (_ & _ & Hl). apply split_on_all_chars. intros w Hw. apply Hl in Hw. unfold _HOST_LABEL in Hw.
  rewrite !andb_true_iff in Hw. tauto.
Qed.

Lemma casefold_id h : all_chars is_host_char h = true → casefold h = h.
Proof.
  intros Hh. unfold casefold. rewrite <- (text_chars h) at 2. f_equal. apply all_chars_Forall in Hh.
  induction Hh as [|c l Hc _ IH]; [done|]. cbn [fmap list_fmap mjoin]. 
  assert (casefold_char c = [c]) as ->.
  { apply (bool_decide_eq_true (casefold_char c = [c])). revert c Hc. apply every_char'. vm_compute. reflexivity. }
  cbn. f_equal. exact IH.
Qed.

Lemma split_trailing d l : ∃ x xs, split_chars d (l ++ [d]) = x :: xs ∧ [] ∈ xs.
Proof.
  induction l as [|c l (x & xs & Hs & Hin)]; cbn [app split_chars].
  - unfold is_char. rewrite Ascii.eqb_refl. exists [], [[]]. split; [done|left].
  - rewrite Hs. destruct (is_char d c); [exists [], (x :: xs)|exists (c :: x), xs]; split; try done. by right.
Qed.

Lemma rdrop_while_id p l : from_option p false (last l) = false → rdrop_while p l = l.
Proof.
  intros Hl. unfold rdrop_while. rewrite drop_while_head; [apply reverse_involutive|]. by rewrite head_reverse.
Qed.

Lemma host_no_trailing h : host_ok h → last_char h ≠ Some "."%char.
Proof.
  intros (_ & _ & Hl) Hlast. apply last_Some in Hlast as (l & Hlast).
  destruct (split_trailing "." l) as (x & xs & Hs & Hin). rewrite <- Hlast in Hs.
  assert (Hlab : _HOST_LABEL "" = true); [|done]. apply Hl. unfold split_on. rewrite Hs. right. change ("" ∈ text <$> xs). by apply (list_elem_of_fmap_2 text _ []).
Qed.

Lemma canonical_host_id h : host_ok h → _canonical_host h = Ok h.
Proof.
  intros Hh. pose proof (host_chars h Hh) as Hc. pose proof (host_no_trailing h Hh) as Hlast.
  unfold _canonical_host. assert (rstrip_chars "." h = h) as ->.
  { unfold rstrip_chars. rewrite rdrop_while_id; [apply text_chars|]. unfold last_char in Hlast.
    destruct (last (chars h)) as [c|]; [|done]. cbn. unfold one_of, is_char. cbn. rewrite orb_false_r.
    apply Ascii.eqb_neq. congruence. }
  rewrite casefold_id by done. destruct Hh as (Ht & Hlen & Hl). rewrite Ht, (proj2 (Nat.ltb_ge _ _) Hlen).
  assert (any_of (λ label, negb (_HOST_LABEL label)) (split_on "." h) = false) as ->; [|done].
  apply any_of_false. intros label Hin. by rewrite (Hl label).
Qed.

(** No host character is a space or a separator. *)
Lemma host_chars_none (p : ascii → bool) h :
  forallb (λ c, negb (is_host_char c) || negb (p c)) all_ascii = true → all_chars is_host_char h = true →
  all_chars (λ c, negb (p c)) h = true.
Proof. intros Hp. apply all_chars_impl. by apply every_char'. Qed.

(** ** Addresses with a zone *)

Lemma partition_inv d s a b : partition d s = (a, Some b) → s = (a ++ String d b)%string.
Proof.
  unfold partition. destruct (partition_chars d (chars s)) as [x y] eqn:Hp. intros [= <- Hy]. apply chars_inj.
  rewrite chars_app, chars_text. change (chars (String d b)) with (d :: chars b).
  assert (H : ∀ l x y, partition_chars d l = (x, Some y) → l = x ++ d :: y).
  { clear. induction l as [|c l IH]; intros x y; cbn [partition_chars]; [done|]. destruct (is_char d c) eqn:Hc.
    - intros [= <- <-]. unfold is_char in Hc. by apply Ascii.eqb_eq in Hc as ->.
    - destruct (partition_chars d l) as [x' [y'|]] eqn:Hp; [|done]. intros [= <- <-]. by rewrite (IH x' y'). }
  destruct y as [y|]; [|done]. injection Hy as <-. rewrite chars_text. by apply H.
Qed.

Lemma contains_char_app d s t : contains (String d "") (s ++ t)%string = contains (String d "") s || contains (String d "") t.
Proof. rewrite !contains_char. unfold any_char. by rewrite chars_app, existsb_app. Qed.

Lemma parse_v4_colon s : contains ":" s = true → parse_v4 s = None.
Proof.
  intros Hs. destruct (parse_v4 s) as [os|] eqn:Hp; [|done]. exfalso.
  assert (Hc : all_chars (λ c, is_digit c || is_char "." c) s = true).
  { apply split_on_all_chars. intros w Hw. unfold parse_v4 in Hp.
    destruct (split_on "." s) as [|w1 [|w2 [|w3 [|w4 []]]]]; try done. apply mapM_Some in Hp.
    apply list_elem_of_lookup_1 in Hw as (n & Hn). destruct (Forall2_lookup_l _ _ _ _ _ Hp Hn) as (o & _ & Ho).
    unfold parse_octet in Ho. destruct (all_chars is_digit w); [done|]. by rewrite andb_false_r in Ho. }
  rewrite contains_char_false in Hs; [done|]. eapply all_chars_impl; [|exact Hc]. apply every_char'. vm_compute. reflexivity.
Qed.

Lemma groups_text gs : groups_ok gs →
  all_chars v6_char (join ":" (compress_hextets gs)) = true ∧ contains ":" (join ":" (compress_hextets gs)) = true.
Proof.
  intros [Hlen Hok]. split; [by apply compressed_v6_chars|]. apply join_colon_contains.
  pose proof (proj2 (compress_parts gs) Hlen). lia.
Qed.

Lemma ip_address_scoped gs sc :
  groups_ok gs → truthy sc = true → contains "%" sc = false → contains "/" sc = false →
  ip_address (compressed (V6 gs (Some sc))) = Some (V6 gs (Some sc)).
Proof.
  intros Hg Hsc Hp Hs. destruct (groups_text gs Hg) as [Hc Hcolon]. unfold ip_address. cbn [compressed].
  rewrite parse_v4_colon by (rewrite contains_char_app, Hcolon; done). unfold parse_v6.
  rewrite !contains_char_app, Hs. rewrite contains_char_false by (eapply all_chars_impl; [|exact Hc]; apply every_char'; vm_compute; reflexivity).
  cbn [orb contains]. unfold split_scope. change ("%" ++ sc)%string with (String "%" sc).
  rewrite partition_some by (eapply all_chars_impl; [|exact Hc]; apply every_char'; vm_compute; reflexivity).
  rewrite Hsc, Hp. cbn [negb orb]. by rewrite parse_compressed_groups.
Qed.

Lemma scope_of raw gs sc :
  ip_address raw = Some (V6 gs (Some sc)) → truthy sc = true ∧ contains "%" sc = false ∧ ∃ addr, raw = (addr ++ "%" ++ sc)%string.
Proof.
  unfold ip_address. destruct (parse_v4 raw); [done|]. unfold parse_v6. destruct (contains "/" raw); [done|].
  unfold split_scope. destruct (partition "%" raw) as [addr [sc'|]] eqn:Hp.
  - destruct (truthy sc') eqn:Ht; [|done]. destruct (contains "%" sc') eqn:Hc; [done|]. cbn [negb orb].
    intros (gs' & _ & [= <- <-])%fmap_Some. split; [done|]. split; [done|]. exists addr. by apply partition_inv.
  - by intros (gs' & _ & [=])%fmap_Some.
Qed.

Lemma last_char_app s t : t ≠ "" → last_char (s ++ t)%string = last_char t.
Proof.
  intros Ht. unfold last_char. rewrite chars_app, last_app. destruct (last (chars t)) eqn:Hl; [done|].
  apply last_None in Hl. destruct Ht. by apply chars_inj.
Qed.

(** The compressed text of an address is read as that address. *)
Lemma canonical_ip raw a :
  ip_address raw = Some a → contains "*" raw = false → contains "/" raw = false →
  from_option is_space false (last_char raw) = false →
  let c := compressed a in strip c = c ∧ truthy c = true ∧ contains "*" c = false ∧ contains "/" c = false ∧ ip_address c = Some a.
Proof.
  intros Ha Hstar Hslash Hlast c. pose proof (ip_address_ok _ _ Ha) as Hok. destruct (unscoped a) eqn:Hu.
  - pose proof (compressed_chars a Hok Hu) as Hc. fold c in Hc. pose proof (ip_address_compressed a Hok Hu) as Hback. fold c in Hback.
    split; [apply strip_no_space; eapply all_chars_impl; [|exact Hc]; apply every_char'; vm_compute; reflexivity|].
    split; [destruct c; [done|done]|].
    do 2 (split; [apply contains_char_false; eapply all_chars_impl; [|exact Hc]; apply every_char'; vm_compute; reflexivity|]). done.
  - destruct a as [os|gs [sc|]]; [done| |done]. destruct (scope_of _ _ _ Ha) as (Ht & Hp & addr & Hraw).
    destruct (groups_text gs Hok) as [Hc Hcolon]. rewrite Hraw, !contains_char_app, !orb_false_iff in Hstar, Hslash.
    assert (Hne : sc ≠ "") by (by intros ->).
    assert (Hl : last_char c = last_char sc).
    { unfold c. cbn [compressed]. by rewrite !last_char_app. }
    assert (Hl' : last_char raw = last_char sc) by (by rewrite Hraw, !last_char_app).
    assert (Hd : ∀ d, is_char d "%" = false → forallb (λ c, negb (v6_char c) || negb (is_char d c)) all_ascii = true →
      contains (String d "") c = contains (String d "") sc).
    { intros d Hd Hv. unfold c. cbn [compressed]. rewrite !contains_char_app.
      rewrite contains_char_false by (eapply all_chars_impl; [|exact Hc]; by apply every_char').
      rewrite (contains_char d "%"). cbn. by rewrite Hd. }
    split; [|split; [|split; [|split]]].
    + apply strip_id.
      * unfold c. cbn [compressed]. destruct (join ":" (compress_hextets gs)) as [|d s]; [done|]. cbn.
        unfold all_chars in Hc. cbn in Hc. apply andb_true_iff in Hc as [Hd' _]. rename Hd' into Hv.
        apply negb_true_iff. clear -Hv. revert d Hv. apply every_char'. vm_compute. reflexivity.
      * by rewrite Hl, <- Hl'.
    + unfold c. cbn [compressed]. destruct (join ":" (compress_hextets gs)); done.
    + rewrite Hd by (done || vm_compute; reflexivity). tauto.
    + rewrite Hd by (done || vm_compute; reflexivity). tauto.
    + apply ip_address_scoped; try done. tauto.
Qed.

(** ** Origins *)

Definition is_origin_char (c : ascii) : bool := is_host_char c || is_char ":" c.

Lemma take_while_all p l : Forall (λ c, p c = true) l → take_while p l = l ∧ drop_while p l = [].
Proof. induction 1 as [|c l Hc _ [IH1 IH2]]; [done|]. cbn. by rewrite Hc, IH1, IH2. Qed.

Lemma clean_url_id s : all_chars (λ c, negb (code c <=? 32)%N) s = true → clean_url s = s.
Proof.
  intros Hs. unfold clean_url. rewrite drop_while_head.
  - rewrite <- (text_chars s) at 2. f_equal. apply all_chars_Forall in Hs. induction Hs as [|c l Hc _ IH]; [done|]. cbn [List.filter].
    assert (negb (one_of (text ["009"%char; "010"%char; "013"%char]) c) = true) as ->; [|by rewrite IH].
    revert c Hc. apply every_char'. vm_compute. reflexivity.
  - unfold all_chars in Hs. destruct (chars s) as [|c l]; [done|]. cbn in Hs |- *. by destruct (code c <=? 32)%N.
Qed.

Lemma origin_chars_none (p : ascii → bool) s :
  forallb (λ c, negb (is_origin_char c) || negb (p c)) all_ascii = true → all_chars is_origin_char s = true →
  all_chars (λ c, negb (p c)) s = true.
Proof. intros Hp. apply all_chars_impl. by apply every_char'. Qed.

Lemma urlsplit_origin sch rest :
  sch ∈ ["http"; "https"] → all_chars is_origin_char rest = true →
  urlsplit (sch ++ "://" ++ rest) = Some (SplitResult sch rest "" "" "").
Proof.
  intros Hsch Hr. unfold urlsplit. rewrite clean_url_id.
  2:{ rewrite !all_chars_app. rewrite (origin_chars_none (λ c, code c <=? 32)%N rest) by (done || vm_compute; reflexivity).
      rewrite !elem_of_cons, elem_of_nil in Hsch. by destruct Hsch as [->|[->|[]]]. }
  assert (split_scheme (sch ++ "://" ++ rest) = (sch, "//" ++ rest)%string) as ->.
  { unfold split_scheme, partition. rewrite !chars_app. rewrite !elem_of_cons, elem_of_nil in Hsch. destruct Hsch as [->|[->|[]]];
      cbn [chars String.list_ascii_of_string app partition_chars is_char Ascii.eqb Bool.eqb]; cbn; by rewrite text_chars. }
  rewrite startswith_text. change 2 with (len "//"). rewrite str_drop_text.
  assert (split_netloc rest = (rest, "")) as ->.
  { unfold split_netloc. destruct (take_while_all (λ c, negb (one_of "/?#" c)) (chars rest)) as [-> ->]; [|by rewrite text_chars].
    apply all_chars_Forall. apply origin_chars_none; [vm_compute; reflexivity|done]. }
  rewrite !contains_char_false by (apply origin_chars_none; [vm_compute; reflexivity|done]). reflexivity.
Qed.

(** The suffix of an origin. *)
Definition port_suffix (sch : string) (n : N) : string :=
  if (n =? 0)%N || (n =? (if String.eqb sch "https" then 443 else 80))%N then "" else (":" ++ str_of_N n)%string.

Lemma host_not_empty h : host_ok h → h ≠ "".
Proof. by intros (Ht & _) ->. Qed.

Lemma lower_host h : all_chars is_host_char h = true → lower h = h.
Proof. apply lower_fixed. intros c. revert c. apply every_char. vm_compute. reflexivity. Qed.

Lemma suffix_chars sch n : all_chars is_origin_char (port_suffix sch n) = true.
Proof.
  unfold port_suffix. case_match; [done|]. rewrite all_chars_app. cbn [all_chars].
  rewrite (all_chars_impl is_digit is_origin_char (str_of_N n)); [done| |apply str_of_N_digits].
  apply every_char'. vm_compute. reflexivity.
Qed.

Lemma origin_id sch h n :
  sch ∈ ["http"; "https"] → host_ok h → (n <= 65535)%N →
  http_origin (sch ++ "://" ++ h ++ port_suffix sch n) = Ok (sch ++ "://" ++ h ++ port_suffix sch n)%string.
Proof.
  intros Hsch Hh Hn. pose proof (host_chars h Hh) as Hc. set (sfx := port_suffix sch n).
  assert (Hoc : all_chars is_origin_char h = true).
  { eapply all_chars_impl; [|exact Hc]. intros c. unfold is_origin_char. by intros ->. }
  assert (Hr : all_chars is_origin_char (h ++ sfx) = true) by (rewrite all_chars_app, Hoc; apply suffix_chars).
  unfold http_origin. rewrite urlsplit_origin by done. cbn [or_raise mbind outcome_bind].
  set (parsed := SplitResult _ _ _ _ _).
  assert (Huser : userinfo_hostinfo (h ++ sfx) = (None, h ++ sfx)%string).
  { unfold userinfo_hostinfo. rewrite rpartition_none; [done|]. apply origin_chars_none; [vm_compute; reflexivity|done]. }
  assert (Hcolon : all_chars (λ c, negb (is_char ":" c)) h = true) by (apply (host_chars_none (is_char ":")); [vm_compute; reflexivity|done]).
  assert (Hinfo : hostinfo parsed = (h, if bool_decide (sfx = "") then None else Some (str_of_N n))).
  { unfold hostinfo. cbn [netloc parsed]. rewrite Huser. cbn [snd].
    rewrite (partition_none "[") by (apply origin_chars_none; [vm_compute; reflexivity|done]).
    unfold sfx, port_suffix. destruct ((n =? 0)%N || _).
    - assert (h ++ "" = h)%string as -> by (apply chars_inj; by rewrite chars_app, app_nil_r). by rewrite partition_none.
    - change (":" ++ str_of_N n)%string with (String ":" (str_of_N n)). rewrite partition_some by done.
      assert (truthy (str_of_N n) = true) as ->; [|done].
      assert (len (str_of_N n) ≠ 0) as Hl; [|destruct (str_of_N n); [by destruct Hl|done]].
      pose proof (str_of_N_value n) as Hv. intros Hl. destruct (str_of_N n) eqn:E; [|done]. cbn in Hv. by subst n. }
  assert (Hport : port parsed = Ok (if bool_decide (sfx = "") then None else Some n)).
  { unfold port. rewrite Hinfo. cbn [snd]. case_bool_decide; [done|]. rewrite str_of_N_digits. cbn [negb].
    rewrite py_int_str_of_N; [|eapply N.le_lt_trans; [exact Hn|vm_compute; reflexivity]]. cbn [mbind outcome_bind].
    by rewrite (proj2 (N.ltb_ge _ _) Hn). }
  rewrite Hport. cbn [mbind outcome_bind].
  assert (Hhost : hostname parsed = h).
  { unfold hostname. rewrite Hinfo. cbn [fst]. rewrite partition_none by (apply (host_chars_none (is_char "%")); [vm_compute; reflexivity|done]).
    by apply lower_host. }
  rewrite Hhost. unfold username_password. cbn [netloc parsed scheme query fragment path]. rewrite Huser. cbn [fst snd].
  assert (mem sch ["http"; "https"] = true) as -> by (by apply mem_true). destruct Hh as (Ht & Hh). rewrite Ht. cbn [negb orb truthy String.eqb mem existsb].
  rewrite canonical_host_id by done. cbn [mbind outcome_bind]. do 4 f_equal. unfold sfx, port_suffix.
  destruct ((n =? 0)%N || _) eqn:Hd; [done|]. rewrite bool_decide_false by done. by rewrite Hd.
Qed.

(** ** The canonical value of a target *)

Lemma origin_of raw c :
  http_origin raw = Ok c →
  ∃ sch h n, sch ∈ ["http"; "https"] ∧ host_ok h ∧ (n <= 65535)%N ∧ c = (sch ++ "://" ++ h ++ port_suffix sch n)%string.
Proof.
  unfold http_origin. intros H. apply bind_ok in H as (parsed & _ & H). apply bind_ok in H as (p & Hp & H).
  destruct (mem (scheme parsed) ["http"; "https"]) eqn:Hsch; [|done]. cbn [negb orb] in H.
  destruct (_ || _ || _); [done|]. destruct (_ || _ || _); [done|]. apply bind_ok in H as (h & Hh & [= <-]).
  exists (scheme parsed), h, (default 0%N p). split; [by apply mem_true|]. split; [by apply canonical_host_ok in Hh|]. split.
  - unfold port in Hp. destruct (hostinfo parsed).2 as [d|]; [|injection Hp as <-; cbn; lia].
    destruct (all_chars is_digit d); [|done]. cbn [negb] in Hp. apply bind_ok in Hp as (n & _ & Hp).
    destruct (N.ltb_spec 65535 n); [done|]. by injection Hp as <-.
  - by destruct p.
Qed.

Lemma host_texts h : host_ok h → strip h = h ∧ truthy h = true ∧ contains "*" h = false ∧ contains "/" h = false.
Proof.
  intros Hh. pose proof (host_chars h Hh) as Hc. split; [|split; [apply Hh|]].
  - apply strip_no_space. by apply (host_chars_none is_space); [vm_compute; reflexivity|].
  - split; apply contains_char_false; by apply host_chars_none; [vm_compute; reflexivity|].
Qed.

Definition asset_types : list string := ["domain"; "host"; "ip"; "http_origin"].

(** C26: a target has one name.  The canonical value of an asset's target is
    its own canonical value, for every kind of target and every text that is
    accepted, so an asset that is read back, exported or registered again
    names the target it named; and it is free of wildcards and spaces around
    it, a host's has only the letters of a host, an address's reads as the
    address that was written. *)
Theorem canonical_target_stable asset_type value c :
  asset_type ∈ asset_types → canonicalize_active_asset asset_type value = Ok c →
  canonicalize_active_asset asset_type c = Ok c ∧ strip c = c ∧ contains "*" c = false
  ∧ (asset_type ∈ ["domain"; "host"] → all_chars is_host_char c = true)
  ∧ (asset_type = "ip" → ip_address c = ip_address (strip value)).
Proof.
  unfold canonicalize_active_asset. intros Ht H. destruct (truthy (strip value)) eqn:Htr; [|done].
  destruct (contains "*" (strip value)) eqn:Hstar; [done|]. cbn [negb orb] in H.
  assert (Hhost : ∀ h, host_ok h → asset_type ∈ ["domain"; "host"] → (String.eqb asset_type "domain" && _looks_like_ip h = false) →
    (let raw := strip h in
     raise "ValueError" when (negb (truthy raw) || contains "*" raw || (contains "/" raw && negb (String.eqb asset_type "http_origin")));;
     if String.eqb asset_type "ip" then a ← or_raise (ip_address raw) "ValueError"; Ok (compressed a) else
     if String.eqb asset_type "http_origin" then http_origin raw else
     host ← _canonical_host raw;
     raise "ValueError" when (String.eqb asset_type "domain" && _looks_like_ip host);; Ok host) = Ok h
    ∧ strip h = h ∧ contains "*" h = false ∧ (asset_type ∈ ["domain"; "host"] → all_chars is_host_char h = true)
    ∧ (asset_type = "ip" → ip_address h = ip_address (strip value))).
  { intros h Hh Hty Hip. destruct (host_texts h Hh) as (Hs & Htt & Hst & Hsl). cbv zeta. rewrite Hs, Htt, Hst, Hsl. cbn [negb orb andb].
    rewrite canonical_host_id by done. rewrite !elem_of_cons, elem_of_nil in Hty. split.
    - destruct Hty as [->|[->|[]]]; cbn; [|done]. cbn in Hip. by rewrite Hip.
    - split; [done|]. split; [done|]. split; [intros _; by apply host_chars|]. by destruct Hty as [->|[->|[]]]. }
  unfold asset_types in Ht. rewrite !elem_of_cons, elem_of_nil in Ht. destruct Ht as [->|[->|[->|[->|[]]]]].
  - cbn in H. destruct (contains "/" (strip value)); [done|]. cbn in H. apply bind_ok in H as (h & Hh & H).
    destruct (_looks_like_ip h) eqn:Hl; [done|]. injection H as <-. apply Hhost; [by apply canonical_host_ok in Hh|left|done].
  - cbn in H. destruct (contains "/" (strip value)); [done|]. cbn in H. apply bind_ok in H as (h & Hh & [= <-]).
    apply Hhost; [by apply canonical_host_ok in Hh|right; left|done].
  - cbn [String.eqb Ascii.eqb Bool.eqb negb andb] in H. rewrite andb_true_r in H. destruct (contains "/" (strip value)) eqn:Hslash; [done|].
    apply bind_ok in H as (a & Ha%or_raise_ok & [= <-]).
    destruct (canonical_ip (strip value) a Ha Hstar Hslash) as (Hs & Htt & Hst & Hsl & Hback).
    { unfold last_char, strip, rdrop_while. rewrite chars_text. rewrite <- head_reverse, reverse_involutive. apply drop_while_first. }
    cbv zeta. rewrite Hs, Htt, Hst, Hsl. cbn [negb orb andb String.eqb Ascii.eqb Bool.eqb]. rewrite Hback. split; [done|]. split; [done|].
    split; [done|]. split; [set_solver|]. intros _. by rewrite Ha.
  - cbn [String.eqb Ascii.eqb Bool.eqb negb andb] in H. rewrite andb_false_r in H.
    apply origin_of in H as (sch & h & n & Hsch & Hh & Hn & ->). set (c := (sch ++ _)%string).
    assert (Hall : all_chars (λ c, is_origin_char c || is_char "/" c) c = true).
    { unfold c. rewrite !all_chars_app. pose proof (suffix_chars sch n) as Hsf. pose proof (host_chars h Hh) as Hc.
      rewrite (all_chars_impl is_host_char _ h), (all_chars_impl is_origin_char _ (port_suffix sch n)); [| |done| |done].
      - rewrite !elem_of_cons, elem_of_nil in Hsch. by destruct Hsch as [->|[->|[]]].
      - intros d. by intros ->.
      - intros d. unfold is_origin_char. by intros ->. }
    assert (strip c = c) as Hs.
    { apply strip_no_space. eapply all_chars_impl; [|exact Hall]. apply every_char'. vm_compute. reflexivity. }
    assert (contains "*" c = false) as Hst.
    { apply contains_char_false. eapply all_chars_impl; [|exact Hall]. apply every_char'. vm_compute. reflexivity. }
    cbv zeta. rewrite Hs, Hst. cbn [negb orb andb String.eqb Ascii.eqb Bool.eqb]. rewrite andb_false_r. split; [|set_solver].
    assert (truthy c = true) as ->.
    { unfold c. rewrite !elem_of_cons, elem_of_nil in Hsch. by destruct Hsch as [->|[->|[]]]. }
    by apply origin_id.
Qed.

Lemma canonical_target_stable_witness :
  canonicalize_active_asset "http_origin" " HTTPS://Example.COM.:0443/ " = Ok "https://example.com"
  ∧ canonicalize_active_asset "http_origin" "https://example.com" = Ok "https://example.com".
Proof.
  split; [vm_compute; reflexivity|].
  refine (proj1 (canonical_target_stable "http_origin" " HTTPS://Example.COM.:0443/ " "https://example.com" _ _)).
  - right. right. right. left.
  - vm_compute. reflexivity.
Defined.
