(* ===== verification/IsoFormat.v ===== *)
(** * IsoFormat: the ISO text of a time

    [datetime.isoformat()] of a time in UTC, as the canonical payloads write
    it: the civil date of a day number in the proleptic Gregorian calendar,
    the time of the day, the microseconds unless they are none. *)

From S2P Require Import Prelude PyStr.
Local Open Scope Z_scope.

(** Year, month and day of a number of days since the epoch: whole cycles of
    400 years, counted from the first of March. *)
Definition civil_from_days (day : Z) : Z * Z * Z :=
  let z := day + 719468 in
  let era := z / 146097 in
  let day_of_era := z mod 146097 in
  let year_of_era := (day_of_era - day_of_era / 1460 + day_of_era / 36524 - day_of_era / 146096) / 365 in
  let day_of_year := day_of_era - (365 * year_of_era + year_of_era / 4 - year_of_era / 100) in
  let m := (5 * day_of_year + 2) / 153 in
  let month := if m <? 10 then m + 3 else m - 9 in
  (year_of_era + era * 400 + (if month <=? 2 then 1 else 0), month, day_of_year - (153 * m + 2) / 5 + 1).

(** [f"{n:0wd}"] *)
Definition padded (w : nat) (n : Z) : string :=
  let s := str_of_Z n in text (replicate (w - len s) "0"%char) ++ s.

(** [isoformat()] of the instant [t], in UTC. *)
Definition isoformat (t : Z) : string :=
  let '(y, m, d) := civil_from_days (t / 86400000000) in
  let us := t mod 86400000000 in
  let s := us / 1000000 in
  padded 4 y ++ "-" ++ padded 2 m ++ "-" ++ padded 2 d ++ "T"
  ++ padded 2 (s / 3600) ++ ":" ++ padded 2 (s / 60 mod 60) ++ ":" ++ padded 2 (s mod 60)
  ++ (if us mod 1000000 =? 0 then "" else "." ++ padded 6 (us mod 1000000)) ++ "+00:00".

Example iso_1 : isoformat 0 = "1970-01-01T00:00:00+00:00".
Proof. vm_compute. reflexivity. Qed.
Example iso_2 : isoformat (seconds 1709210096 + 42) = "2024-02-29T12:34:56.000042+00:00".
Proof. vm_compute. reflexivity. Qed.
Example iso_3 : isoformat (seconds 4107542399) = "2100-02-28T23:59:59+00:00".
Proof. vm_compute. reflexivity. Qed.
