(* ===== verification/ActiveAssets.v ===== *)
(** * ActiveAssets: the store of active assets

    Models [ActiveAssetStore] of [backend/app/active_assets.py]: the files of
    the assets of each organization, the SQLite index that is rebuilt from
    them, the receipts of batches, and every operation under the storage lock.
    A file holds a record, or what does not parse as one.

    The metadata of a directory or of the index file is a stamp that is new
    after every change, what the code relies on.  The markers of pending
    deletions belong to another part and are read only.  Failing system calls
    and stray files are not modelled; the JSON text of a record, of which the
    index keeps a digest, is the argument [record_json].  The store reads the
    clock each time it is needed: the operations take the readings. *)

From S2P Require Import Prelude PyStr Sha256 BearerToken Identifiers SqlTable AssetTarget AssetRecord.
Local Open Scope Z_scope.

(** ** Disk, index and memory *)

Abbreviation content := (option ActiveAssetRecord).

(** backend/app/active_assets.py 597-617 [ActiveAssetStore._index_upsert_records_connection] *)
Record asset_row : Type := AssetRow {
  row_asset_type : string;
  row_canonical_value : string;
  row_updated_at_micros : Z;
  row_expires_at_micros : Z;
  row_revoked : bool;
  row_record_digest : string;
  row_capabilities : list string
}.

(** backend/app/active_assets.py [ActiveAssetBatchReceipt] *)
Record ActiveAssetBatchReceipt : Type := BatchReceipt {
  receipt_digest : string;
  receipt_record_ids : list string;
  committed_at : datetime
}.

(** backend/app/active_assets.py [_ActiveAssetBatchJournal] *)
Record _ActiveAssetBatchJournal : Type := BatchJournal {
  journal_actor_id : string;
  journal_digest : string;
  journal_record_ids : list string;
  committed : bool;
  journal_created_at : datetime
}.

(** The files by organization and identifier, the stamp of each organization's
    directory, the index file with its stamp, the pending deletions with
    their organizations; the last stamp given. *)
Record disk : Type := Disk {
  files : gmap (string * string) content;
  directories : gmap string Z;
  index_file : option (gmap (string * string) asset_row * Z);
  deletions : gmap string string;
  receipts : gmap (string * string) ActiveAssetBatchReceipt;
  journals : gmap (string * string) _ActiveAssetBatchJournal;
  clock : Z
}.

(** [_index_file_state] and [_organization_directory_states]. *)
Abbreviation memory := (option (Z * gmap string Z)).
Abbreviation site := (memory * disk)%type.

Definition with_files (d : disk) (fs : gmap (string * string) content) (org : string) : disk :=
  Disk fs (<[org := clock d + 1]> (directories d)) (index_file d) (deletions d) (receipts d) (journals d) (clock d + 1).
Definition write_file (k : string * string) (c : content) (d : disk) : disk := with_files d (<[k := c]> (files d)) k.1.
Definition unlink_file (k : string * string) (d : disk) : disk := with_files d (delete k (files d)) k.1.
Definition set_index (d : disk) (rows : gmap (string * string) asset_row) : disk :=
  Disk (files d) (directories d) (Some (rows, clock d + 1)) (deletions d) (receipts d) (journals d) (clock d + 1).
Definition set_receipts (d : disk) (r : gmap (string * string) ActiveAssetBatchReceipt) : disk :=
  Disk (files d) (directories d) (index_file d) (deletions d) r (journals d) (clock d).
Definition set_journals (d : disk) (j : gmap (string * string) _ActiveAssetBatchJournal) : disk :=
  Disk (files d) (directories d) (index_file d) (deletions d) (receipts d) j (clock d).

Section Store.
Context (record_json : ActiveAssetRecord → string).

Definition file_of (r : ActiveAssetRecord) : string * string := (organization_id (the_target r), id (the_target r)).

(** ** Reading *)

(** backend/app/active_assets.py [ActiveAssetStore._validate_organization_identity] *)
Definition _validate_organization_identity (value : string) : outcome unit := raise "invalid_identity" when (negb (is_owner value));; Ok tt.

(** backend/app/active_assets.py [ActiveAssetStore._validate_actor_identity] *)
Definition _validate_actor_identity (value : string) : outcome unit := raise "invalid_identity" when (negb (is_actor value));; Ok tt.

(** backend/app/active_assets.py [ActiveAssetStore._validate_asset_id] *)
Definition _validate_asset_id (value : string) : outcome unit := raise "asset_not_found" when (negb (is_hex32 value));; Ok tt.

(** backend/app/active_assets.py [ActiveAssetStore._path] *)
Definition _path (organization asset : string) : outcome (string * string) :=
  _ ← _validate_organization_identity organization;
  _ ← _validate_asset_id asset;
  Ok (organization, asset).

Definition active_asset_deletion_is_pending (d : disk) (asset : string) : bool := bool_decide (is_Some (deletions d !! asset)).

(** backend/app/active_assets.py 1682-1690 [ActiveAssetStore._read] *)
Definition read_content (c : content) (organization asset : string) : outcome ActiveAssetRecord :=
  match c with
  | None => Err "asset_store_invalid"
  | Some r =>
      raise "asset_store_invalid" when (negb (record_valid r));;
      raise "asset_store_invalid"
        when (negb (String.eqb (id (the_target r)) asset && String.eqb (organization_id (the_target r)) organization));;
      Ok (read_normalized r)
  end.

(** backend/app/active_assets.py [ActiveAssetStore._read] *)
Definition _read (d : disk) (organization asset : string) (include_deleting : bool) : outcome ActiveAssetRecord :=
  raise "asset_not_found" when (negb include_deleting && active_asset_deletion_is_pending d asset);;
  c ← or_raise (files d !! (organization, asset)) "asset_not_found";
  read_content c organization asset.

Definition set_status (r : ActiveAssetRecord) (st : string) : ActiveAssetRecord :=
  let l := the_life r in
  Asset (the_target r) (the_scope r)
    (Life (responsible_user_ids l) (revoked_at l) st (updated_at l) (baseline_execution_id l) (triage l) (history l) (authorization_revisions l)).

(** A time that is not aware cannot be compared with the clock's. *)
(** backend/app/active_assets.py [ActiveAssetStore._materialize_status] *)
Definition _materialize_status (r : ActiveAssetRecord) (raw_now : datetime) : outcome ActiveAssetRecord :=
  if bool_decide (is_Some (revoked_at (the_life r))) then Ok (set_status r "revoked") else
  now ← _aware_utc raw_now;
  raise "TypeError" when (negb (aware (expires_at (the_scope r))));;
  Ok (set_status r (if instant (expires_at (the_scope r)) <=? instant now then "expired" else "active")).

(** The record an operation works on. *)
Definition current (d : disk) (organization asset : string) (raw_now : datetime) : outcome ActiveAssetRecord :=
  _ ← _path organization asset;
  r ← _read d organization asset false;
  _materialize_status r raw_now.

(** backend/app/active_assets.py [ActiveAssetStore._load_all_unlocked] *)
Definition _load_all_unlocked (d : disk) (organization : string) (include_deleting : bool) : outcome (list ActiveAssetRecord) :=
  traverse (λ kc : (string * string) * content, read_content kc.2 organization kc.1.2)
    (filter (λ kc, kc.1.1 = organization ∧ is_hex32 kc.1.2 = true
                   ∧ (include_deleting = true ∨ active_asset_deletion_is_pending d kc.1.2 = false)) (map_to_list (files d))).

(** ** The index *)

(** backend/app/active_assets.py [active_asset_record_digest] *)
Definition active_asset_record_digest (r : ActiveAssetRecord) : string := sha256_hex (utf8 (record_json r)).

(** The row of a record; [_datetime_micros] of its times. *)
(** backend/app/active_assets.py [ActiveAssetStore._index_upsert_records_connection] *)
Definition row_of (r : ActiveAssetRecord) : asset_row :=
  AssetRow (asset_type (the_target r)) (casefold (canonical_value (the_target r))) (instant (updated_at (the_life r)))
    (instant (expires_at (the_scope r))) (bool_decide (is_Some (revoked_at (the_life r)))) (active_asset_record_digest r)
    (capabilities (the_scope r)).

Definition upsert (rows : gmap (string * string) asset_row) (rs : list ActiveAssetRecord) : gmap (string * string) asset_row :=
  foldl (λ t r, <[file_of r := row_of r]> t) rows rs.

(** The directories in order, the files of each. *)
(** backend/app/active_assets.py 465-479 [ActiveAssetStore._rebuild_index_unlocked] *)
Definition all_records (d : disk) : outcome (list ActiveAssetRecord) :=
  parts ← traverse (λ organization, _ ← _validate_organization_identity organization; _load_all_unlocked d organization true)
            (sorted_strs (elements (dom (directories d))));
  Ok (concat parts).

(** backend/app/active_assets.py [ActiveAssetStore._rebuild_index_unlocked] *)
Definition _rebuild_index_unlocked (s : site) : outcome unit * site :=
  let '(m, d) := s in
  match all_records d with
  | Err e => (Err e, s)
  | Ok rs => (Ok tt, (Some (clock d + 1, directories d), set_index d (upsert ∅ rs)))
  end.

(** backend/app/active_assets.py [ActiveAssetStore._ensure_index_current_unlocked] *)
Definition _ensure_index_current_unlocked (organization : string) (s : site) : outcome unit * site :=
  let '(m, d) := s in
  match m, index_file d with
  | Some (file_state, states), Some (_, stamp) =>
      if negb (stamp =? file_state) || negb (bool_decide (directories d !! organization = states !! organization))
      then _rebuild_index_unlocked s else (Ok tt, s)
  | _, _ => _rebuild_index_unlocked s
  end.

(** The states of the directories that changed are taken anew. *)
Definition taken (states now : gmap string Z) (organizations : list string) : gmap string Z :=
  foldl (λ t o, match now !! o with Some n => <[o := n]> t | None => delete o t end) states organizations.

(** The rows after a change, or a new index when the old cannot be opened. *)
Definition sync (change : gmap (string * string) asset_row → gmap (string * string) asset_row) (organizations : list string)
    (s : site) : outcome unit * site :=
  let '(m, d) := s in
  match m, index_file d with
  | Some (_, states), Some (rows, _) =>
      (Ok tt, (Some (clock d + 1, taken states (directories d) organizations), set_index d (change rows)))
  | _, _ => _rebuild_index_unlocked s
  end.

(** backend/app/active_assets.py [ActiveAssetStore._index_upsert_records_unlocked] *)
Definition _index_upsert_records_unlocked (rs : list ActiveAssetRecord) (s : site) : outcome unit * site :=
  sync (λ t, upsert t rs) ((λ r, organization_id (the_target r)) <$> rs) s.

(** backend/app/active_assets.py [ActiveAssetStore._index_delete_records_unlocked] *)
Definition _index_delete_records_unlocked (organization : string) (assets : list string) (s : site) : outcome unit * site :=
  if bool_decide (assets = []) then (Ok tt, s) else
  sync (λ t, filter (λ kr, ¬ (kr.1.1 = organization ∧ kr.1.2 ∈ assets)) t) [organization] s.

(** backend/app/active_assets.py [ActiveAssetStore._write_record_unlocked] *)
Definition _write_record_unlocked (k : string * string) (r : ActiveAssetRecord) (s : site) : outcome unit * site :=
  _index_upsert_records_unlocked [r] (s.1, write_file k (Some r) s.2).

(** backend/app/active_assets.py [ActiveAssetStore._index_identity_exists_unlocked] *)
Definition _index_identity_exists_unlocked (organization : string) (identities : list (string * string)) (s : site)
    : outcome bool * site :=
  if bool_decide (identities = []) then (Ok false, s) else
  match _ensure_index_current_unlocked organization s with
  | (Err e, s') => (Err e, s')
  | (Ok _, s') =>
      (match index_file s'.2 with
       | None => Err "asset_index_invalid"
       | Some (rows, _) =>
           Ok (any_of (λ identity : string * string,
                 bool_decide (0 < size (select_where (λ k row, String.eqb k.1 organization && String.eqb (row_asset_type row) identity.1
                                          && String.eqb (row_canonical_value row) (casefold identity.2)) rows))%nat) identities)
       end, s')
  end.
(** ** Registering *)

(** An event; pydantic checks the actor and the reason. *)
Definition new_event (i k : string) (now : datetime) (actor : string) (reason : option string) : outcome ActiveAssetEvent :=
  let e := Event i k now actor reason in
  raise "ValidationError" when (negb (event_valid e));;
  Ok e.

(** backend/app/active_assets.py [ActiveAssetStore._build_registration_record] *)
Definition _build_registration_record (q : ActiveAssetCreateRequest) (organization actor asset : string) (now : datetime)
    (event revision : string) : outcome ActiveAssetRecord :=
  let t := Target asset organization actor (req_asset_type q) (req_value q) (req_notes q) now in
  e ← new_event event "registered" now actor None;
  rev ← build_active_authorization_revision t 1 "registration" now (req_scope q) revision false;
  let r := Asset t (req_scope q) (Life (req_responsible_user_ids q) None "active" now None [] [e] [rev]) in
  raise "ValidationError" when (negb (built_valid r));;
  Ok (Asset t (req_scope q) (with_responsible (the_life r) (sorted_set (req_responsible_user_ids q)))).

(** backend/app/active_assets.py [ActiveAssetStore._pending_deletion_asset_ids_unlocked] *)
Definition _pending_deletion_asset_ids_unlocked (d : disk) (organization : string) : outcome (gset string) :=
  let pending := dom (filter (λ kv : string * string, is_hex32 kv.1 = true ∧ kv.2 = organization) (deletions d)) in
  raise "asset_store_invalid" when (500 <? size pending)%nat;;
  Ok pending.

(** backend/app/active_assets.py [ActiveAssetStore._organization_has_pending_deletion_unlocked] *)
Definition _organization_has_pending_deletion_unlocked (d : disk) (organization : string) : outcome bool :=
  pending ← _pending_deletion_asset_ids_unlocked d organization;
  Ok (negb (bool_decide (pending = ∅))).

(** backend/app/active_assets.py [ActiveAssetStore.create] *)
Definition create (s : site) (q : ActiveAssetCreateRequest) (organization actor asset event revision : string) (raw_now : datetime)
    : outcome ActiveAssetRecord * site :=
  match
    (_ ← _validate_organization_identity organization;
     _ ← _validate_actor_identity actor;
     now ← _aware_utc raw_now;
     r ← _build_registration_record q organization actor asset now event revision;
     k ← _path organization asset;
     pending ← _organization_has_pending_deletion_unlocked s.2 organization;
     raise "asset_deletion_pending" when (pending : bool);;
     Ok r)
  with
  | Err e => (Err e, s)
  | Ok r =>
      match _index_identity_exists_unlocked organization [(req_asset_type q, req_value q)] s with
      | (Err e, s') => (Err e, s')
      | (Ok true, s') => (Err "asset_identity_conflict", s')
      | (Ok false, s') =>
          if bool_decide (is_Some (files s'.2 !! (organization, asset))) then (Err "asset_conflict", s') else
          let '(o, s'') := _write_record_unlocked (organization, asset) r s' in ((_ ← o; Ok r), s'')
      end
  end.

(** ** Listing *)

(** Newest first; [reverse=True] over [(updated_at, id)]. *)
Definition newest_first (a b : ActiveAssetRecord) : Prop :=
  instant (updated_at (the_life b)) < instant (updated_at (the_life a))
  ∨ (instant (updated_at (the_life b)) = instant (updated_at (the_life a)) ∧ str_le (id (the_target b)) (id (the_target a))).
#[global] Instance newest_first_dec a b : Decision (newest_first a b).
Proof. unfold newest_first. apply _. Defined.

(** Each record's status is by the clock as it is read then. *)
(** backend/app/active_assets.py [ActiveAssetStore.list] *)
Definition list_assets (d : disk) (organization : string) (status_filter query : option string) (readings : nat → datetime)
    : outcome (list ActiveAssetRecord) :=
  _ ← _validate_organization_identity organization;
  let normalized_query := casefold (strip (default "" query)) in
  raise "invalid_query" when (120 <? len normalized_query)%nat;;
  rs ← _load_all_unlocked d organization false;
  materialized ← traverse (λ nr : nat * ActiveAssetRecord, _materialize_status nr.2 (readings nr.1)) (zip (seq 0 (length rs)) rs);
  Ok (merge_sort newest_first
        (filter (λ r, from_option (String.eqb (status (the_life r))) true status_filter = true
                      ∧ (normalized_query = "" ∨ contains normalized_query (casefold (canonical_value (the_target r))) = true)) materialized)).

(** backend/app/active_assets.py [ActiveAssetStore.existing_registration_identities] *)
Definition existing_registration_identities (organization : string) (s : site) : outcome (gset (string * string)) * site :=
  match
    (_ ← _validate_organization_identity organization;
     pending ← _organization_has_pending_deletion_unlocked s.2 organization;
     raise "asset_deletion_pending" when (pending : bool);;
     Ok tt)
  with
  | Err e => (Err e, s)
  | Ok _ =>
      match _ensure_index_current_unlocked organization s with
      | (Err e, s') => (Err e, s')
      | (Ok _, s') =>
          (match index_file s'.2 with
           | None => Err "asset_index_invalid"
           | Some (rows, _) =>
               Ok (list_to_set ((λ kr : (string * string) * asset_row, (row_asset_type kr.2, row_canonical_value kr.2))
                                <$> map_to_list (select_where (λ k _, String.eqb k.1 organization) rows)))
           end, s')
      end
  end.

(** ** Executions *)

(** What changes an asset adds one event, and is written at its time. *)
Definition appended (r : ActiveAssetRecord) (e : ActiveAssetEvent) (now : datetime) : ActiveAssetRecord :=
  let l := the_life r in
  Asset (the_target r) (the_scope r)
    (Life (responsible_user_ids l) (revoked_at l) (status l) now (baseline_execution_id l) (triage l) (history l ++ [e])
       (authorization_revisions l)).

(** backend/app/active_assets.py [ActiveAssetStore.get] *)
Definition get (d : disk) (asset organization : string) (raw_now : datetime) : outcome ActiveAssetRecord :=
  _ ← _validate_organization_identity organization;
  _ ← _validate_asset_id asset;
  raise "asset_not_found" when (active_asset_deletion_is_pending d asset);;
  r ← _read d organization asset false;
  _materialize_status r raw_now.

(** The checks of an execution; [asset_expired] or [asset_revoked] when the
    asset is not active. *)
(** backend/app/active_assets.py 1357-1363 [ActiveAssetStore.assert_executable] *)
Definition check_executable (r : ActiveAssetRecord) (capability : string) : outcome ActiveAuthorizationRevision :=
  raise (("asset_" ++ status (the_life r))%string) when (negb (String.eqb (status (the_life r)) "active"));;
  raise "capability_not_authorized" when (negb (mem capability (capabilities (the_scope r))));;
  or_raise (current_active_authorization_revision r) "authorization_revision_required".

(** backend/app/active_assets.py [ActiveAssetStore.assert_executable] *)
Definition assert_executable (d : disk) (asset organization capability : string) (expected : option string) (raw_now : datetime)
    : outcome ActiveAssetRecord :=
  r ← get d asset organization raw_now;
  revision ← check_executable r capability;
  raise "authorization_revision_changed"
    when (from_option (λ e, negb (String.eqb (revision_id revision) e)) false expected);;
  Ok r.

Definition capacity_left (l : life) : bool := Z.of_nat (length (history l)) <? ACTIVE_ASSET_MAX_HISTORY.

(** An operation on one asset: what it makes of the record as it reads, and
    whether it writes it. *)
Definition modify (s : site) (organization asset : string) (raw_now : datetime)
    (update : ActiveAssetRecord → outcome (ActiveAssetRecord * bool)) : outcome (ActiveAssetRecord * bool) * site :=
  match (r ← current s.2 organization asset raw_now; update r) with
  | Err e => (Err e, s)
  | Ok (r, false) => (Ok (r, false), s)
  | Ok (r, true) => let '(o, s') := _write_record_unlocked (organization, asset) r s in ((_ ← o; Ok (r, true)), s')
  end.

(** backend/app/active_assets.py [ActiveAssetStore.admit_execution] *)
Definition admit_execution (s : site) (asset organization actor capability event : string) (at_read at_write : datetime)
    : outcome (ActiveAssetRecord * bool) * site :=
  modify s organization asset at_read (λ r,
    _ ← check_executable r capability;
    raise "history_capacity_reached" when (negb (capacity_left (the_life r)));;
    now ← _aware_utc at_write;
    e ← new_event event "execution_requested" now actor None;
    Ok (appended r e now, true)).

(** ** Renewing and revoking *)

(** backend/app/active_assets.py [_renewal_matches] *)
Definition _renewal_matches (r : ActiveAssetRecord) (revision : ActiveAuthorizationRevision) (q : ActiveAssetRenewRequest) : bool :=
  let s := new_scope q in
  String.eqb (authorization_reference (the_scope r)) (authorization_reference s)
  && bool_decide (responsible_user_ids (the_life r) = new_responsible_user_ids q)
  && (instant (rev_authorized_at revision) =? instant (authorized_at s)) && (instant (rev_expires_at revision) =? instant (expires_at s))
  && String.eqb (rev_method revision) (authorization_method s)
  && bool_decide (rev_capabilities revision = sorted_strs (capabilities s))
  && bool_decide (rev_ports revision = sorted_ints (allowed_ports s))
  && bool_decide (rev_protocols revision = sorted_strs (allowed_protocols s)).

(** What a renewal makes of an asset: the same record when the renewal was
    made already. *)
(** backend/app/active_assets.py 1401-1480 [ActiveAssetStore.renew] *)
Definition renewal (r : ActiveAssetRecord) (q : ActiveAssetRenewRequest) (organization asset actor event : string) (raw_now : datetime)
    : outcome (ActiveAssetRecord * bool) :=
  let l := the_life r in
  let revision := _renewal_revision_id organization asset (idempotency_key q) in
  raise "asset_revoked" when (bool_decide (is_Some (revoked_at l)) || String.eqb (status l) "revoked");;
  let present := current_active_authorization_revision r in
  match first_match (λ x, String.eqb (revision_id x) revision) (authorization_revisions l) with
  | Some existing =>
      if from_option (λ c, String.eqb (revision_id c) (revision_id existing)) false present && _renewal_matches r existing q
      then Ok (r, false) else Err "renewal_idempotency_conflict"
  | None =>
      raise "authorization_revision_changed" when (negb (bool_decide (expected_revision_id q = revision_id <$> present)));;
      raise "authorization_revision_capacity_reached"
        when (ACTIVE_AUTHORIZATION_MAX_REVISIONS <=? Z.of_nat (length (authorization_revisions l)));;
      raise "history_capacity_reached" when (negb (capacity_left l));;
      now ← _aware_utc raw_now;
      let s := new_scope q in
      raise "invalid_renewal"
        when (negb (is_ok (_validate_authorization_window (authorized_at s) (expires_at s) now)
                    && is_ok (_validate_active_scope (asset_type (the_target r)) (capabilities s) (allowed_ports s) (allowed_protocols s))));;
      let old := the_scope r in
      let expanded := _scope_expanded (capabilities old) (allowed_ports old) (allowed_protocols old)
                        (capabilities s) (allowed_ports s) (allowed_protocols s) in
      raise "scope_expansion_confirmation_required" when (expanded && negb (scope_expansion_confirmed q));;
      rev ← build_active_authorization_revision (the_target r) (from_option (λ c, sequence c + 1) 1 present) "renewal" now s
              revision expanded;
      e ← new_event event "renewed" now actor (Some (if expanded then "scope_expanded" else "authorization_renewed"));
      let updated := Asset (the_target r) s
        (Life (new_responsible_user_ids q) None "active" now (baseline_execution_id l) (triage l) (history l ++ [e])
           (authorization_revisions l ++ [rev])) in
      raise "ValidationError" when (negb (record_valid updated));;
      Ok (read_normalized updated, true)
  end.

(** The flag is that a record was written; the code's [replayed] is its
    negation. *)
(** backend/app/active_assets.py [ActiveAssetStore.renew] *)
Definition renew (s : site) (asset : string) (q : ActiveAssetRenewRequest) (organization actor event : string)
    (at_read at_write : datetime) : outcome (ActiveAssetRecord * bool) * site :=
  match (_ ← _validate_organization_identity organization; _validate_actor_identity actor) with
  | Err e => (Err e, s)
  | Ok _ => modify s organization asset at_read (λ r, renewal r q organization asset actor event at_write)
  end.

(** backend/app/active_assets.py [ActiveAssetStore.revoke] *)
Definition revoke (s : site) (asset organization actor reason event : string) (at_read at_write : datetime)
    : outcome (ActiveAssetRecord * bool) * site :=
  if negb (is_reason_code reason) then (Err "invalid_reason", s) else
  modify s organization asset at_read (λ r,
    if bool_decide (is_Some (revoked_at (the_life r))) then Ok (r, false) else
    now ← _aware_utc at_write;
    e ← new_event event "revoked" now actor (Some reason);
    let l := the_life r in
    Ok (Asset (the_target r) (the_scope r)
          (Life (responsible_user_ids l) (Some now) "revoked" now (baseline_execution_id l) (triage l) (history l ++ [e])
             (authorization_revisions l)), true)).

(** ** Responsibility *)

(** [affected], [becoming_unassigned] and the rest. *)
(** backend/app/active_assets.py [ActiveMemberResponsibilityImpact] *)
Record ActiveMemberResponsibilityImpact : Type := Impact { affected_count : nat; unassigned_count : nat; others_count : nat }.

Definition affected (d : disk) (organization user : string) : outcome (list ActiveAssetRecord) :=
  rs ← _load_all_unlocked d organization false;
  Ok (filter (λ r, mem user (responsible_user_ids (the_life r)) = true) rs).

Definition impact (rs : list ActiveAssetRecord) : ActiveMemberResponsibilityImpact :=
  let n := count_of (λ r, (length (responsible_user_ids (the_life r)) =? 1)%nat) rs in
  Impact (length rs) n (length rs - n).

(** backend/app/active_assets.py [ActiveAssetStore.responsibility_impact] *)
Definition responsibility_impact (d : disk) (user organization : string) : outcome ActiveMemberResponsibilityImpact :=
  _ ← _validate_organization_identity organization;
  _ ← _validate_actor_identity user;
  rs ← affected d organization user;
  Ok (impact rs).

(** The record of an asset the member was responsible for. *)
Definition unassigned (user : string) (now : datetime) (r : ActiveAssetRecord) (e : ActiveAssetEvent) : ActiveAssetRecord :=
  let r' := appended r e now in
  Asset (the_target r') (the_scope r')
    (with_responsible (the_life r') (filter (λ u, u ≠ user) (responsible_user_ids (the_life r)))).

(** Each event has its own identifier, [events]. *)
(** backend/app/active_assets.py [ActiveAssetStore.unassign_member] *)
Definition unassign_member (s : site) (user organization actor : string) (events : nat → string) (raw_now : datetime)
    : outcome ActiveMemberResponsibilityImpact * site :=
  match
    (_ ← _validate_organization_identity organization;
     _ ← _validate_actor_identity user;
     _ ← _validate_actor_identity actor;
     rs ← affected s.2 organization user;
     raise "history_capacity_reached" when (any_of (λ r, negb (capacity_left (the_life r))) rs);;
     now ← _aware_utc raw_now;
     updates ← traverse (λ nr : nat * ActiveAssetRecord,
                 e ← new_event (events nr.1) "responsibles_updated" now actor (Some "membership_revoked");
                 _ ← _path organization (id (the_target nr.2));
                 Ok (unassigned user now nr.2 e)) (zip (seq 0 (length rs)) rs);
     Ok (rs, updates))
  with
  | Err e => (Err e, s)
  | Ok (rs, updates) =>
      let d := foldl (λ d r, write_file (organization, id (the_target r)) (Some r) d) s.2 updates in
      let '(o, s') := _index_upsert_records_unlocked updates (s.1, d) in
      ((_ ← o; Ok (impact rs)), s')
  end.

(** backend/app/active_assets.py [ActiveAssetStore.set_responsibles] *)
Definition set_responsibles (s : site) (asset : string) (responsible : list string) (expected_updated_at : datetime)
    (organization actor event : string) (at_read at_write : datetime) : outcome (ActiveAssetRecord * bool) * site :=
  match (_ ← _validate_organization_identity organization; _validate_actor_identity actor) with
  | Err e => (Err e, s)
  | Ok _ =>
      modify s organization asset at_read (λ r,
        updated ← _aware_utc (updated_at (the_life r));
        raise "asset_changed" when (negb (instant updated =? instant expected_updated_at));;
        if bool_decide (responsible_user_ids (the_life r) = responsible) then Ok (r, false) else
        raise "history_capacity_reached" when (negb (capacity_left (the_life r)));;
        now ← _aware_utc at_write;
        e ← new_event event "responsibles_updated" now actor
              (Some (if bool_decide (responsible = []) then "responsibles_unassigned" else "responsibles_assigned"));
        let r' := appended r e now in
        Ok (Asset (the_target r') (the_scope r') (with_responsible (the_life r') responsible), true))
  end.

(** ** Events, baselines and triage *)

(** backend/app/active_assets.py [ActiveAssetStore.append_event] *)
Definition append_event (s : site) (asset organization actor k : string) (reason : option string) (event : string)
    (at_read at_write : datetime) : outcome (ActiveAssetRecord * bool) * site :=
  modify s organization asset at_read (λ r,
    raise "history_capacity_reached" when (negb (capacity_left (the_life r)));;
    now ← _aware_utc at_write;
    e ← new_event event k now actor reason;
    Ok (appended r e now, true)).

(** backend/app/active_assets.py [ActiveAssetStore.set_baseline] *)
Definition set_baseline (s : site) (asset organization actor execution event : string) (at_read at_write : datetime)
    : outcome (ActiveAssetRecord * bool) * site :=
  modify s organization asset at_read (λ r,
    now ← _aware_utc at_write;
    e ← new_event event "baseline_selected" now actor None;
    let l := the_life r in
    Ok (Asset (the_target r) (the_scope r)
          (Life (responsible_user_ids l) (revoked_at l) (status l) now (Some execution) (triage l) (history l ++ [e])
             (authorization_revisions l)), true)).

(** backend/app/active_assets.py [ActiveAssetStore.set_triage] *)
Definition set_triage (s : site) (asset organization actor key st comment event : string) (at_read at_write : datetime)
    : outcome (ActiveAssetRecord * bool) * site :=
  modify s organization asset at_read (λ r,
    now ← _aware_utc at_write;
    let entry := TriageEntry key st comment actor now in
    raise "ValidationError" when (negb (triage_entry_valid entry));;
    let l := the_life r in
    let entries := filter (λ x, observation_key x ≠ key) (triage l) ++ [entry] in
    raise "triage_capacity_reached" when (200 <? length entries)%nat;;
    e ← new_event event "triage_updated" now actor None;
    Ok (Asset (the_target r) (the_scope r)
          (Life (responsible_user_ids l) (revoked_at l) (status l) now (baseline_execution_id l) entries (history l ++ [e])
             (authorization_revisions l)), true)).

(** ** Deleting *)

(** backend/app/active_assets.py [ActiveAssetStore._get_for_deletion_unlocked] *)
Definition _get_for_deletion_unlocked (d : disk) (asset organization : string) (raw_now : datetime) : outcome ActiveAssetRecord :=
  _ ← _path organization asset;
  r ← _read d organization asset true;
  _materialize_status r raw_now.

(** backend/app/active_assets.py [ActiveAssetStore.delete_for_deletion] *)
Definition delete_for_deletion (s : site) (asset organization : string) : outcome unit * site :=
  match (_ ← _path organization asset; _read s.2 organization asset true) with
  | Err e => (Err e, s)
  | Ok _ => _index_delete_records_unlocked organization [asset] (s.1, unlink_file (organization, asset) s.2)
  end.

(** The receipts of an organization that name an asset. *)
Definition receipts_of (d : disk) (organization asset : string) : gmap (string * string) ActiveAssetBatchReceipt :=
  select_where (λ k r, String.eqb k.1 organization && mem asset (receipt_record_ids r)) (receipts d).

(** backend/app/active_assets.py [ActiveAssetStore.count_batch_receipts_for_asset_unlocked] *)
Definition count_batch_receipts_for_asset_unlocked (d : disk) (asset organization : string) : nat := size (receipts_of d organization asset).

(** backend/app/active_assets.py [ActiveAssetStore.delete_batch_receipts_for_asset] *)
Definition delete_batch_receipts_for_asset (s : site) (asset organization : string) : outcome nat * site :=
  match (_ ← _validate_asset_id asset; _validate_organization_identity organization) with
  | Err e => (Err e, s)
  | Ok _ =>
      (Ok (size (receipts_of s.2 organization asset)),
       (s.1, set_receipts s.2 (receipts s.2 ∖ receipts_of s.2 organization asset)))
  end.
End Store.
