(* ===== verification/AssetBatch.v ===== *)
(** * AssetBatch: registering assets in one batch

    Models [create_many] and the recovery at start of [ActiveAssetStore],
    [backend/app/active_assets.py], as programs over the disk that may stop
    after any effect: the journal, each record, the index, the journal's
    second state, the receipt, the journal's removal.  Whatever the point the
    process stops at, once recovery has run the whole batch is registered, with
    its receipt, or none of it is. *)

From S2P Require Import Prelude PyStr Sha256 BearerToken Identifiers SqlTable CrashProg AssetTarget AssetRecord ActiveAssets.
Local Open Scope Z_scope.

(** backend/app/active_assets.py 32-33 [constants] *)
Definition ACTIVE_ASSET_BATCH_CONTRACT_VERSION : string := "2026-09-08.1".
Definition ACTIVE_ASSET_BATCH_MAX_ITEMS : nat := 50.

Section Batch.
Context (record_json : ActiveAssetRecord → string).

(** A step of the index, or of the files. *)
Definition call {A} (f : site → outcome A * site) : prog site A := λ s, let '(o, s') := f s in ([s'], o).
Definition on_disk (f : disk → disk) : prog site unit := change (λ s : site, (s.1, f s.2)).

(** ** Registering *)

(** backend/app/active_assets.py 783-785 [ActiveAssetStore.create_many] *)
Definition batch_identifier (organization actor key : string) : string :=
  str_take 32 (sha256_hex (ACTIVE_ASSET_BATCH_CONTRACT_VERSION ++ text ["000"%char] ++ organization ++ text ["000"%char] ++ actor
                           ++ text ["000"%char] ++ key)).

(** backend/app/active_assets.py 787-790 [ActiveAssetStore.create_many] *)
Definition record_identifier (batch : string) (index : nat) : string :=
  str_take 32 (sha256_hex (batch ++ text ["000"%char] ++ str_of_nat index)).

(** Times are equal when their instants are. *)
Definition same_scope (a b : scope) : bool :=
  bool_decide (capabilities a = capabilities b) && bool_decide (allowed_ports a = allowed_ports b)
  && bool_decide (allowed_protocols a = allowed_protocols b) && String.eqb (authorization_method a) (authorization_method b)
  && String.eqb (authorization_reference a) (authorization_reference b)
  && (instant (authorized_at a) =? instant (authorized_at b)) && (instant (expires_at a) =? instant (expires_at b)).

(** backend/app/active_assets.py [_record_matches_registration] *)
Definition _record_matches_registration (r : ActiveAssetRecord) (q : ActiveAssetCreateRequest) : bool :=
  String.eqb (asset_type (the_target r)) (req_asset_type q) && String.eqb (canonical_value (the_target r)) (req_value q)
  && bool_decide (responsible_user_ids (the_life r) = req_responsible_user_ids q) && same_scope (the_scope r) (req_scope q)
  && bool_decide (notes (the_target r) = req_notes q).

(** The checks and values before the lock is taken: the batch, its records. *)
(** backend/app/active_assets.py 771-799 [ActiveAssetStore.create_many] *)
Definition prepare (requests : list ActiveAssetCreateRequest) (organization actor digest key : string)
    (events revisions : nat → string) (raw_now : datetime) : outcome (string * datetime * list ActiveAssetRecord) :=
  _ ← _validate_organization_identity organization;
  _ ← _validate_actor_identity actor;
  raise "batch_item_limit" when (negb ((1 <=? length requests)%nat && (length requests <=? ACTIVE_ASSET_BATCH_MAX_ITEMS)%nat));;
  raise "batch_digest_invalid" when (negb (is_hex64 digest));;
  raise "batch_idempotency_invalid" when (negb (is_hex32 key));;
  raise "batch_duplicate_identity" when (negb (unique ((λ q, (req_asset_type q, req_value q)) <$> requests)));;
  let batch := batch_identifier organization actor key in
  now ← _aware_utc raw_now;
  records ← traverse (λ nq : nat * ActiveAssetCreateRequest,
              _build_registration_record nq.2 organization actor (record_identifier batch nq.1) now (events nq.1) (revisions nq.1))
              (zip (seq 0 (length requests)) requests);
  Ok (batch, now, records).

Definition ids_of (records : list ActiveAssetRecord) : list string := (λ r, id (the_target r)) <$> records.

Definition put_receipt (k : string * string) (r : ActiveAssetBatchReceipt) (d : disk) : disk := set_receipts d (<[k := r]> (receipts d)).
Definition drop_receipt (k : string * string) (d : disk) : disk := set_receipts d (delete k (receipts d)).
Definition put_journal (k : string * string) (j : _ActiveAssetBatchJournal) (d : disk) : disk := set_journals d (<[k := j]> (journals d)).
Definition drop_journal (k : string * string) (d : disk) : disk := set_journals d (delete k (journals d)).

(** What an earlier call of the same batch registered. *)
(** backend/app/active_assets.py 821-828 [ActiveAssetStore.create_many] *)
Definition replayed (d : disk) (retained : ActiveAssetBatchReceipt) (requests : list ActiveAssetCreateRequest)
    (organization digest : string) (ids : list string) : outcome (list ActiveAssetRecord) :=
  raise "batch_idempotency_conflict"
    when (negb (String.eqb (receipt_digest retained) digest && bool_decide (receipt_record_ids retained = ids)));;
  rs ← traverse (λ i, _ ← _path organization i; _read d organization i false) ids;
  raise "asset_store_invalid" when (negb (forallb (λ rq : ActiveAssetRecord * ActiveAssetCreateRequest,
                                           _record_matches_registration rq.1 rq.2) (zip rs requests)));;
  Ok rs.

(** The effects, once nothing stands in their way. *)
(** backend/app/active_assets.py 840-848 [ActiveAssetStore.create_many] *)
Definition write_batch (batch organization actor digest : string) (now : datetime) (records : list ActiveAssetRecord) : prog site unit :=
  let k := (organization, batch) in
  let journal := BatchJournal actor digest (ids_of records) false now in
  on_disk (put_journal k journal);;
  _ ← each (λ r, on_disk (write_file (organization, id (the_target r)) (Some r))) records;
  call (_index_upsert_records_unlocked record_json records);;
  on_disk (put_journal k (BatchJournal actor digest (ids_of records) true now));;
  on_disk (put_receipt k (BatchReceipt digest (ids_of records) now));;
  on_disk (drop_journal k).

(** The flag is that the batch was registered by an earlier call. *)
(** backend/app/active_assets.py [ActiveAssetStore.create_many] *)
Definition create_many (requests : list ActiveAssetCreateRequest) (organization actor digest key : string)
    (events revisions : nat → string) (raw_now : datetime) : prog site (list ActiveAssetRecord * bool * string) :=
  p ← lift (prepare requests organization actor digest key events revisions raw_now);
  let '(batch, now, records) := p in
  let k := (organization, batch) in
  let ids := ids_of records in
  d ← reads snd;
  match receipts d !! k with
  | Some retained => rs ← lift (replayed d retained requests organization digest ids); mret (rs, true, batch)
  | None =>
      pending ← lift (_organization_has_pending_deletion_unlocked d organization);
      raises "asset_deletion_pending" when (pending : bool);;
      exists_ ← call (_index_identity_exists_unlocked record_json organization ((λ q, (req_asset_type q, req_value q)) <$> requests));
      raises "batch_asset_conflict" when (exists_ : bool);;
      d ← reads snd;
      raises "asset_store_invalid"
        when bool_decide (is_Some (journals d !! k)) || any_of (λ i, bool_decide (is_Some (files d !! (organization, i)))) ids;;
      write_batch batch organization actor digest now records;;
      mret (records, false, batch)
  end.

(** ** Recovery *)

(** [path.unlink(missing_ok=True)] *)
Definition unlink_missing_ok (k : string * string) (d : disk) : disk :=
  if bool_decide (is_Some (files d !! k)) then unlink_file k d else d.

(** One journal. *)
(** backend/app/active_assets.py 1762-1778 [ActiveAssetStore._recover_batch_transactions_unlocked] *)
Definition recover_journal (kj : (string * string) * _ActiveAssetBatchJournal) : prog site unit :=
  let '((organization, batch), j) := kj in
  d ← reads snd;
  (if committed j && all_of (λ i, bool_decide (is_Some (files d !! (organization, i)))) (journal_record_ids j) then
     if bool_decide (is_Some (receipts d !! (organization, batch))) then mret tt else
     on_disk (put_receipt (organization, batch) (BatchReceipt (journal_digest j) (journal_record_ids j) (journal_created_at j)))
   else
     _ ← each (λ i, on_disk (unlink_missing_ok (organization, i))) (journal_record_ids j);
     on_disk (drop_receipt (organization, batch)));;
  on_disk (drop_journal (organization, batch)).

(** The journals in the order the directories list them, [order]. *)
(** backend/app/active_assets.py [ActiveAssetStore._recover_batch_transactions_unlocked] *)
Definition _recover_batch_transactions_unlocked (order : list ((string * string) * _ActiveAssetBatchJournal)) : prog site unit :=
  _ ← each recover_journal order; mret tt.

(** ** The phases of a batch *)

Lemma rebuild_keeps (s : site) : let s' := (_rebuild_index_unlocked record_json s).2 in
  files s'.2 = files s.2 ∧ receipts s'.2 = receipts s.2 ∧ journals s'.2 = journals s.2 ∧ deletions s'.2 = deletions s.2.
Proof. destruct s as [m d]. unfold _rebuild_index_unlocked. by destruct (all_records d). Qed.

Lemma sync_keeps change organizations (s : site) : let s' := (sync record_json change organizations s).2 in
  files s'.2 = files s.2 ∧ receipts s'.2 = receipts s.2 ∧ journals s'.2 = journals s.2 ∧ deletions s'.2 = deletions s.2.
Proof.
  pose proof (rebuild_keeps s) as Hr. destruct s as [m d]. unfold sync.
  destruct m as [[fs st]|]; [|done]. by destruct (index_file d) as [[rows stamp]|].
Qed.

Lemma ensure_keeps organization (s : site) : let s' := (_ensure_index_current_unlocked record_json organization s).2 in
  files s'.2 = files s.2 ∧ receipts s'.2 = receipts s.2 ∧ journals s'.2 = journals s.2 ∧ deletions s'.2 = deletions s.2.
Proof.
  pose proof (rebuild_keeps s) as Hr. destruct s as [m d]. unfold _ensure_index_current_unlocked.
  destruct m as [[fs st]|], (index_file d) as [[rows stamp]|]; try done. by destruct (_ || _).
Qed.

Lemma identity_keeps organization identities (s : site) : let s' := (_index_identity_exists_unlocked record_json organization identities s).2 in
  files s'.2 = files s.2 ∧ receipts s'.2 = receipts s.2 ∧ journals s'.2 = journals s.2 ∧ deletions s'.2 = deletions s.2.
Proof.
  pose proof (ensure_keeps organization s) as He. unfold _index_identity_exists_unlocked. case_bool_decide; [done|].
  by destruct (_ensure_index_current_unlocked record_json organization s) as [[]].
Qed.

Section Phases.
Context (organization batch actor digest : string) (now : datetime) (records : list ActiveAssetRecord).
Context (F : gmap (string * string) content) (R : gmap (string * string) ActiveAssetBatchReceipt).

Abbreviation k := (organization, batch).
Abbreviation key r := (organization, id (the_target r)).
Definition journal_of (done : bool) : _ActiveAssetBatchJournal := BatchJournal actor digest (ids_of records) done now.
Definition receipt_of : ActiveAssetBatchReceipt := BatchReceipt digest (ids_of records) now.
Definition registered : gmap (string * string) content := foldl (λ fs r, <[key r := Some r]> fs) F records.

(** What the disk holds of the batch: nothing, a part of its files under a
    pending journal, all of them under a committed one, or all of them and the
    receipt. *)
Inductive phase (s : site) : Prop :=
| untouched : files s.2 = F → receipts s.2 = R → journals s.2 = ∅ → phase s
| writing : (∀ x, files s.2 !! x = F !! x ∨ x ∈ (λ r, key r) <$> records) → receipts s.2 = R →
    journals s.2 = {[k := journal_of false]} → phase s
| committing : files s.2 = registered → receipts s.2 = R ∨ receipts s.2 = <[k := receipt_of]> R →
    journals s.2 = {[k := journal_of true]} → phase s
| complete : files s.2 = registered → receipts s.2 = <[k := receipt_of]> R → journals s.2 = ∅ → phase s.

Definition settled (s : site) : Prop :=
  journals s.2 = ∅
  ∧ ((files s.2 = F ∧ receipts s.2 = R) ∨ (files s.2 = registered ∧ receipts s.2 = <[k := receipt_of]> R)).

Definition done_with (s : site) : Prop := files s.2 = registered ∧ receipts s.2 = <[k := receipt_of]> R ∧ journals s.2 = ∅.

Context (free : ∀ r, r ∈ records → F !! key r = None) (no_receipt : R !! k = None).

Lemma written_lookup (rs : list ActiveAssetRecord) (fs : gmap (string * string) content) (x : string * string) :
  foldl (λ fs r, <[key r := Some r]> fs) fs rs !! x = fs !! x ∨ x ∈ (λ r, key r) <$> rs.
Proof.
  revert fs. induction rs as [|r rs IH]; intros fs; cbn [foldl]; [by left|]. destruct (IH (<[key r := Some r]> fs)) as [->|Hin].
  - destruct (decide (x = key r)) as [->|Hne]; [right; left|left; by rewrite lookup_insert_ne].
  - right. by right.
Qed.

Lemma registered_has r : r ∈ records → is_Some (registered !! key r).
Proof.
  intros Hr. unfold registered. assert (H : ∀ (rs : list ActiveAssetRecord) (fs : gmap (string * string) content) (x : string * string), is_Some (fs !! x) ∨ x ∈ (λ r, key r) <$> rs →
    is_Some (foldl (λ fs r, <[key r := Some r]> fs) fs rs !! x)).
  { clear. induction rs as [|r rs IH]; intros fs x; cbn [foldl fmap list_fmap]; [by intros [|Hx%not_elem_of_nil]|].
    intros Hx. apply IH. rewrite lookup_insert_is_Some'. destruct Hx as [Hx|[->|Hx]%elem_of_cons]; auto. }
  apply H. right. apply list_elem_of_fmap. by exists r.
Qed.

(** Writing goes through the phases. *)
Lemma write_batch_phases (s : site) :
  files s.2 = F → receipts s.2 = R → journals s.2 = ∅ →
  ensures phase (write_batch batch organization actor digest now records) s
    (λ r s', phase s' ∧ (is_ok r = true → done_with s')).
Proof.
  intros Hf Hr Hj. unfold write_batch. apply ensures_change_seq; [by apply untouched|..].
  { apply writing; cbn; [intros x; left; by rewrite Hf|done|by rewrite Hj]. }
  set (s1 := (s.1, put_journal _ _ s.2)).
  apply (ensures_seq _ _ _ _ _ (λ _ s2, files s2.2 = registered ∧ receipts s2.2 = R ∧ journals s2.2 = {[k := journal_of false]})).
  { eapply ensures_weaken; [|done|].
    - apply (ensures_each_ok phase _ (λ done_ s2, files s2.2 = foldl (λ fs r, <[key r := Some r]> fs) F done_
                                                ∧ receipts s2.2 = R ∧ journals s2.2 = {[k := journal_of false]})).
      + cbn. by rewrite Hf, Hr, Hj.
      + apply writing; cbn; [intros x; left; by rewrite Hf|done|by rewrite Hj].
      + intros pre r post s2 Hl (Hf2 & Hr2 & Hj2) Hp. unfold on_disk.
        assert (Hf3 : files (write_file (key r) (Some r) s2.2) = foldl (λ fs r, <[key r := Some r]> fs) F (pre ++ [r])).
        { rewrite foldl_app. cbn. by rewrite Hf2. }
        apply ensures_change; [done| |].
        * apply writing; [|done|done]. intros x. cbn [snd]. rewrite Hf3. destruct (written_lookup (pre ++ [r]) F x) as [|Hx]; [by left|].
          right. rewrite Hl. rewrite fmap_app, elem_of_app in Hx |- *. cbn [fmap list_fmap]. rewrite elem_of_cons.
          destruct Hx as [Hx|[->|Hx%not_elem_of_nil]%elem_of_cons]; [by left|by right; left|done].
        * exists tt. split; [done|]. cbn [snd]. rewrite Hf3. done.
    - intros r s2 (ys & -> & H2) _. by exists ys. }
  intros ys s2 (Hf2 & Hr2 & Hj2) Hp2. apply ensures_bind. unfold call.
  pose proof (sync_keeps (λ t, upsert record_json t records) ((λ r, organization_id (the_target r)) <$> records) s2) as (Hf3 & Hr3 & Hj3 & _).
  unfold ensures. unfold _index_upsert_records_unlocked. destruct (sync _ _ _ s2) as [o s3] eqn:Hsync. cbn [fst snd] in Hf3, Hr3, Hj3 |- *.
  assert (Hp3 : phase s3).
  { apply writing; [|by rewrite Hr3|by rewrite Hj3]. intros x. rewrite Hf3, Hf2. apply written_lookup. }
  split; [by intros s' [->|[->|Hn%not_elem_of_nil]%elem_of_cons]%elem_of_cons|].
  change (final s2 [s3]) with s3. destruct o as [[]|e]; [|by split]. fold (journal_of true). fold receipt_of.
  change (ensures phase (on_disk (put_journal k (journal_of true));; on_disk (put_receipt k receipt_of);; on_disk (drop_journal k)) s3
    (λ r s', phase s' ∧ (is_ok r = true → done_with s'))).
  apply ensures_change_seq; [done|..].
  { apply committing; cbn; [by rewrite Hf3|by left; rewrite Hr3|]. rewrite Hj3, Hj2. apply insert_singleton_eq. }
  apply ensures_change_seq.
  { apply committing; cbn; [by rewrite Hf3|by left; rewrite Hr3|]. rewrite Hj3, Hj2. apply insert_singleton_eq. }
  { apply committing; cbn; [by rewrite Hf3|right; by rewrite Hr3, Hr2|]. rewrite Hj3, Hj2. apply insert_singleton_eq. }
  assert (Hend : files s3.2 = registered ∧ <[k := receipt_of]> (receipts s3.2) = <[k := receipt_of]> R
                 ∧ delete k (<[k := journal_of true]> (journals s3.2)) = ∅).
  { rewrite Hf3, Hr3, Hj3, Hr2, Hj2. split; [done|]. split; [done|]. by rewrite insert_singleton_eq, delete_singleton_eq. }
  destruct Hend as (E1 & E2 & E3).
  apply ensures_change.
  - apply committing; cbn; [done|by right|]. rewrite Hj3, Hj2. apply insert_singleton_eq.
  - by apply complete.
  - by split; [apply complete|].
Qed.

(** Recovery goes through them back or on, and ends with the batch settled. *)
Lemma undo_phases (s : site) :
  phase s → journals s.2 = {[k := journal_of false]} →
  ensures phase (recover_journal (k, journal_of false)) s (λ r s', r = Ok tt ∧ settled s').
Proof.
  intros Hp Hj. assert (Hw : (∀ x, files s.2 !! x = F !! x ∨ x ∈ (λ r, key r) <$> records) ∧ receipts s.2 = R).
  { destruct Hp as [_ _ Hn|H1 H2 _|_ _ Hn|_ _ Hn]; [|done|..]; rewrite Hj in Hn.
    - by apply (f_equal (lookup k)) in Hn; rewrite lookup_singleton_eq, lookup_empty in Hn.
    - apply (f_equal (lookup k)) in Hn. by rewrite !lookup_singleton_eq in Hn.
    - by apply (f_equal (lookup k)) in Hn; rewrite lookup_singleton_eq, lookup_empty in Hn. }
  destruct Hw as [Hf Hr]. unfold recover_journal. apply ensures_reads. cbn [committed journal_of andb].
  set (K := (λ r, key r) <$> records) in *.
  assert (Hids : ∀ i, i ∈ ids_of records → (organization, i) ∈ K).
  { intros i (r & -> & Hin)%list_elem_of_fmap. apply list_elem_of_fmap. by exists r. }
  apply (ensures_seq _ _ _ _ _ (λ _ s2, files s2.2 = F ∧ receipts s2.2 = R ∧ journals s2.2 = {[k := journal_of false]})).
  - apply (ensures_seq _ _ _ _ _ (λ _ s2, files s2.2 = F ∧ receipts s2.2 = R ∧ journals s2.2 = {[k := journal_of false]})).
    + eapply ensures_weaken; [|done|].
      * apply (ensures_each_ok phase _ (λ done_ s2, (∀ x, files s2.2 !! x = F !! x ∨ (x ∈ K ∧ ∀ i, i ∈ done_ → x ≠ (organization, i)))
                                                    ∧ receipts s2.2 = R ∧ journals s2.2 = {[k := journal_of false]})).
        -- split; [|done]. intros x. destruct (Hf x) as [|Hx]; [by left|right]. split; [done|]. by intros i Hn%not_elem_of_nil.
        -- done.
        -- intros pre i post s2 Hl (Hf2 & Hr2 & Hj2) Hp2. unfold on_disk.
           assert (HiK : (organization, i) ∈ K).
           { apply Hids. change (i ∈ journal_record_ids (journal_of false)). rewrite Hl. apply elem_of_app. right. left. }
           assert (Hf3 : ∀ x, files (unlink_missing_ok (organization, i) s2.2) !! x = F !! x
                              ∨ (x ∈ K ∧ ∀ i', i' ∈ pre ++ [i] → x ≠ (organization, i'))).
           { intros x. destruct (decide (x = (organization, i))) as [->|Hne].
             - left. apply list_elem_of_fmap in HiK as (r & Hkey & Hin). rewrite Hkey, free by done. rewrite <- Hkey.
               unfold unlink_missing_ok. case_bool_decide as Hex; [apply lookup_delete_eq|]. by apply eq_None_not_Some.
             - assert (files (unlink_missing_ok (organization, i) s2.2) !! x = files s2.2 !! x) as ->.
               { unfold unlink_missing_ok. case_bool_decide; [|done]. cbn. by rewrite lookup_delete_ne. }
               destruct (Hf2 x) as [|[Hx Hpre]]; [by left|right]. split; [done|].
               intros i' [Hi'|Hi'%list_elem_of_singleton]%elem_of_app; [by apply Hpre|by subst]. }
           assert (Hr3 : receipts (unlink_missing_ok (organization, i) s2.2) = R) by (unfold unlink_missing_ok; by case_bool_decide).
           assert (Hj3 : journals (unlink_missing_ok (organization, i) s2.2) = {[k := journal_of false]})
             by (unfold unlink_missing_ok; by case_bool_decide).
           apply ensures_change; [done| |].
           ++ apply writing; cbn [snd]; [|done|done]. intros x. destruct (Hf3 x) as [|[]]; auto.
           ++ exists tt. done.
      * intros r s2 (ys & -> & Hf2 & Hr2 & Hj2) _. exists ys. split; [done|]. split; [|done]. apply map_eq. intros x.
        destruct (Hf2 x) as [|[Hx Hall]]; [done|]. exfalso. apply list_elem_of_fmap in Hx as (r & -> & Hin).
        apply (Hall (id (the_target r))); [|done]. by apply (list_elem_of_fmap_2 (λ r, id (the_target r))).
    + intros ys s2 (Hf2 & Hr2 & Hj2) Hp2. apply ensures_change; [done| |].
      * apply writing; cbn; [intros x; left; by rewrite Hf2|by rewrite Hr2, delete_id|done].
      * exists tt. split; [done|]. cbn. by rewrite Hr2, delete_id.
  - intros [] s2 (Hf2 & Hr2 & Hj2) Hp2. apply ensures_change; [done| |].
    + apply untouched; cbn; [done|done|]. by rewrite Hj2, delete_singleton_eq.
    + split; [done|]. split; [cbn; by rewrite Hj2, delete_singleton_eq|]. by left.
Qed.

Lemma redo_phases (s : site) :
  phase s → journals s.2 = {[k := journal_of true]} →
  ensures phase (recover_journal (k, journal_of true)) s (λ r s', r = Ok tt ∧ settled s').
Proof.
  intros Hp Hj. assert (Hc : files s.2 = registered ∧ (receipts s.2 = R ∨ receipts s.2 = <[k := receipt_of]> R)).
  { destruct Hp as [_ _ Hn|_ _ Hn|H1 H2 _|_ _ Hn]; [..|done|]; rewrite Hj in Hn; apply (f_equal (lookup k)) in Hn.
    - by rewrite lookup_singleton_eq, lookup_empty in Hn.
    - by rewrite !lookup_singleton_eq in Hn.
    - by rewrite lookup_singleton_eq, lookup_empty in Hn. }
  destruct Hc as [Hf Hr]. unfold recover_journal. apply ensures_reads. cbn [committed journal_record_ids journal_of andb].
  assert (all_of (λ i, bool_decide (is_Some (files s.2 !! (organization, i)))) (ids_of records) = true) as ->.
  { apply all_of_true. intros i (r & -> & Hin)%list_elem_of_fmap. apply bool_decide_eq_true. rewrite Hf. by apply registered_has. }
  apply (ensures_seq _ _ _ _ _ (λ _ s2, files s2.2 = registered ∧ receipts s2.2 = <[k := receipt_of]> R ∧ journals s2.2 = {[k := journal_of true]})).
  - case_bool_decide as Hex.
    + apply ensures_ret; [done|]. exists tt. split; [done|]. split; [done|]. split; [|done].
      destruct Hr as [Hr|]; [|done]. rewrite Hr, no_receipt in Hex. by destruct Hex.
    + assert (Hr' : receipts s.2 = R) by (destruct Hr as [|Hr]; [done|]; destruct Hex; rewrite Hr, lookup_insert_eq; by eexists).
      apply ensures_change; [done| |].
      * apply committing; cbn; [done|right; by rewrite Hr'|done].
      * exists tt. split; [done|]. cbn. by rewrite Hr'.
  - intros [] s2 (Hf2 & Hr2 & Hj2) Hp2. apply ensures_change; [done| |].
    + apply complete; cbn; [done|done|]. by rewrite Hj2, delete_singleton_eq.
    + split; [done|]. split; [cbn; by rewrite Hj2, delete_singleton_eq|]. by right.
Qed.

Lemma recovery_phases (s : site) order :
  phase s → order ≡ₚ map_to_list (journals s.2) →
  ensures phase (_recover_batch_transactions_unlocked order) s (λ r s', r = Ok tt ∧ settled s').
Proof.
  intros Hp Ho. unfold _recover_batch_transactions_unlocked.
  assert (Hone : ∀ j, ensures phase (recover_journal (k, j)) s (λ r s', r = Ok tt ∧ settled s') → order = [(k, j)] →
    ensures phase (_ ← each recover_journal order; mret tt) s (λ r s', r = Ok tt ∧ settled s')).
  { intros j Hj ->. apply (ensures_seq _ _ _ _ _ (λ _ s2, settled s2)).
    - cbn [each]. apply (ensures_seq _ _ _ _ _ (λ _ s2, settled s2)).
      + eapply ensures_weaken; [exact Hj|done|]. intros r s2 [-> H2] _. by exists tt.
      + intros [] s2 H2 Hp2. apply (ensures_seq _ _ _ _ _ (λ _ s2, settled s2)); [apply ensures_ret; [done|by exists []]|].
        intros ys s3 H3 Hp3. apply ensures_ret; [done|]. by exists (tt :: ys).
    - intros ys s2 H2 Hp2. by apply ensures_ret. }
  destruct Hp as [Hf Hr Hj|Hf Hr Hj|Hf Hr Hj|Hf Hr Hj]; rewrite Hj in Ho.
  - rewrite map_to_list_empty in Ho. apply Permutation_nil_r in Ho as ->. apply ensures_ret; [by apply untouched|].
    split; [done|]. split; [done|by left].
  - rewrite map_to_list_singleton in Ho. apply Permutation_singleton_r in Ho. apply (Hone (journal_of false)); [|done].
    apply undo_phases; [by apply writing|done].
  - rewrite map_to_list_singleton in Ho. apply Permutation_singleton_r in Ho. apply (Hone (journal_of true)); [|done].
    apply redo_phases; [by apply committing|done].
  - rewrite map_to_list_empty in Ho. apply Permutation_nil_r in Ho as ->. apply ensures_ret; [by apply complete|].
    split; [done|]. split; [done|by right].
Qed.
End Phases.

(** ** A whole call *)

(** The index and the files, without what other operations keep. *)
Definition core (s : site) : site := (s.1, Disk (files s.2) (directories s.2) (index_file s.2) ∅ ∅ ∅ (clock s.2)).

(** The records written to their files, and the index brought up to date. *)
Definition write_all (rs : list ActiveAssetRecord) (d : disk) : disk := foldl (λ d r, write_file (file_of r) (Some r) d) d rs.
Definition written (rs : list ActiveAssetRecord) (s : site) : outcome unit * site :=
  _index_upsert_records_unlocked record_json rs (s.1, write_all rs s.2).

Definition opened (s : site) : Prop := is_Some s.1 ∧ is_Some (index_file s.2).

Lemma ensure_opened organization (s s' : site) : _ensure_index_current_unlocked record_json organization s = (Ok tt, s') → opened s'.
Proof.
  destruct s as [m d]. unfold _ensure_index_current_unlocked.
  assert (Hr : _rebuild_index_unlocked record_json (m, d) = (Ok tt, s') → opened s').
  { unfold _rebuild_index_unlocked. destruct (all_records d); [|done]. intros [= <-]. split; by eexists. }
  destruct m as [[fs st]|], (index_file d) as [[rows stamp]|] eqn:Hi; try exact Hr.
  destruct (_ || _); [exact Hr|]. intros [= <-]. split; [by eexists|by exists (rows, stamp)].
Qed.

Lemma sync_opened change organizations (s : site) : opened s → ∃ s', sync record_json change organizations s = (Ok tt, s') ∧ opened s'.
Proof.
  destruct s as [m d]. intros [[[fs st] Hm] [[rows stamp] Hi]]. cbn [fst snd] in Hm, Hi. subst m. unfold sync. rewrite Hi.
  eexists. split; [done|]. split; by eexists.
Qed.

Lemma sync_core change organizations (s t : site) : core s = core t →
  core (sync record_json change organizations s).2 = core (sync record_json change organizations t).2 ∨ ¬ opened s.
Proof.
  destruct s as [m d], t as [m' d']. intros [= <- Hf Hd Hi Hc]. unfold sync. destruct m as [[fs st]|]; [|right; by intros [[]]].
  rewrite <- Hi. destruct (index_file d) as [[rows stamp]|] eqn:E; [left|right; intros [_ [x Hx]]; cbn in Hx; by rewrite E in Hx].
  unfold core, set_index. cbn [fst snd files directories index_file deletions clock]. by rewrite Hf, Hd, Hc.
Qed.

(** The effects come to the records written, the index brought up to date, and
    the receipt. *)
Lemma write_batch_final batch organization actor digest now (records : list ActiveAssetRecord) (s : site) :
  opened s → Forall (λ r, organization_id (the_target r) = organization) records →
  ensures (λ _, True) (write_batch batch organization actor digest now records) s
    (λ r s', r = Ok tt ∧ core s' = core (written records s).2 ∧ (written records s).1 = Ok tt
             ∧ journals s'.2 = delete (organization, batch) (journals s.2)).
Proof.
  intros Ho Horg. unfold write_batch. apply ensures_change_seq; [done..|].
  set (k := (organization, batch)). set (j := BatchJournal actor digest (ids_of records) false now).
  assert (Hall : ∀ rs (d : disk), write_all rs (put_journal k j d) = put_journal k j (write_all rs d)).
  { clear. induction rs as [|r rs IH]; intros d; [done|]. unfold write_all in *. cbn [foldl]. by rewrite <- IH. }
  apply (ensures_seq _ _ _ _ _ (λ _ s2, s2 = (s.1, put_journal k j (write_all records s.2)))).
  { eapply ensures_weaken; [|done|].
    - apply (ensures_each_ok (λ _, True) _ (λ done_ s2, s2 = (s.1, put_journal k j (write_all done_ s.2)))); [done|done|].
      intros pre r post s2 Hl -> _. apply ensures_change; [done..|]. exists tt. split; [done|].
      assert (organization = organization_id (the_target r)) as ->.
      { symmetry. rewrite Forall_forall in Horg. apply Horg. rewrite Hl. apply elem_of_app. right. left. }
      rewrite <- !Hall. unfold write_all. by rewrite foldl_app.
    - intros r s2 (ys & -> & ->) _. by exists ys. }
  intros _ s2 -> _. set (s2 := (s.1, put_journal k j (write_all records s.2))).
  assert (Ho2 : opened s2).
  { destruct Ho as [Hm [x Hx]]. split; [done|]. exists x. cbn. rewrite <- Hx. clear. generalize (s.2). induction records as [|r rs IH]; intros d; [done|].
    unfold write_all in *. cbn [foldl]. by rewrite IH. }
  destruct (sync_opened (λ t, upsert record_json t records) ((λ r, organization_id (the_target r)) <$> records) s2 Ho2) as (s3 & Hsync & Ho3).
  assert (Ho2' : opened (s.1, write_all records s.2)) by exact Ho2.
  destruct (sync_opened (λ t, upsert record_json t records) ((λ r, organization_id (the_target r)) <$> records) _ Ho2') as (s3' & Hsync' & _).
  assert (Hcore : core s3 = core s3').
  { destruct (sync_core (λ t, upsert record_json t records) ((λ r, organization_id (the_target r)) <$> records) s2 (s.1, write_all records s.2))
      as [H|H]; [done| |done]. by rewrite Hsync, Hsync' in H. }
  pose proof (sync_keeps (λ t, upsert record_json t records) ((λ r, organization_id (the_target r)) <$> records) s2) as (_ & _ & Hj & _).
  assert (Hw : written records s = (Ok tt, s3')) by exact Hsync'.
  rewrite Hsync in Hj. cbn [snd] in Hj. apply ensures_bind. unfold ensures at 1, call, _index_upsert_records_unlocked. rewrite Hsync. cbn [fst snd].
  split; [done|]. change (final s2 [s3]) with s3. apply ensures_change_seq; [done..|]. apply ensures_change_seq; [done..|].
  apply ensures_change; [done..|]. split; [done|]. rewrite Hw. split; [exact Hcore|]. split; [done|].
  cbn. rewrite Hj. cbn. rewrite insert_insert_eq, delete_insert_eq. clear.
  assert (∀ rs d, journals (write_all rs d) = journals d) as ->; [|done].
  induction rs as [|r rs IH]; intros d; [done|]. unfold write_all in *. cbn [foldl]. by rewrite IH.
Qed.

(** What a call does as a whole: at most a look at the index, or a batch of new
    records of the organization. *)
Inductive batch_outcome (organization : string) (requests : list ActiveAssetCreateRequest) (s s' : site) : Prop :=
| batch_refused : s' = s → batch_outcome organization requests s s'
| batch_looked : s' = (_index_identity_exists_unlocked record_json organization ((λ q, (req_asset_type q, req_value q)) <$> requests) s).2 →
    batch_outcome organization requests s s'
| batch_written s1 actor asset_of now events revisions (records : list ActiveAssetRecord) :
    requests ≠ [] → unique ((λ q, (req_asset_type q, req_value q)) <$> requests) = true →
    _index_identity_exists_unlocked record_json organization ((λ q, (req_asset_type q, req_value q)) <$> requests) s = (Ok false, s1) →
    traverse (λ nq : nat * ActiveAssetCreateRequest,
      _build_registration_record nq.2 organization actor (asset_of nq.1) now (events nq.1) (revisions nq.1))
      (zip (seq 0 (length requests)) requests) = Ok records →
    (∀ r, r ∈ records → files s1.2 !! (organization, id (the_target r)) = None) →
    core s' = core (written records s1).2 → journals s'.2 = journals s.2 → batch_outcome organization requests s s'.

Lemma built_identity q organization actor asset now event revision r :
  _build_registration_record q organization actor asset now event revision = Ok r →
  organization_id (the_target r) = organization ∧ id (the_target r) = asset ∧ asset_type (the_target r) = req_asset_type q
  ∧ canonical_value (the_target r) = req_value q ∧ is_hex32 asset = true ∧ is_owner organization = true.
Proof.
  unfold _build_registration_record. intros (e & _ & H)%bind_ok. apply bind_ok in H as (rev & _ & H).
  destruct (built_valid _) eqn:Hv; [|done]. cbn [negb] in H. injection H as <-.
  unfold built_valid, target_named in Hv. cbn [the_target id organization_id] in Hv. rewrite !andb_true_iff in Hv. by destruct Hv as [[[[[[[? ?] ?] ?] ?] ?] ?] ?].
Qed.

Lemma create_many_outcome requests organization actor digest key events revisions raw_now (s : site) :
  batch_outcome organization requests s
    (final s (create_many requests organization actor digest key events revisions raw_now s).1).
Proof.
  set (C := λ _ : site, True). set (Q := λ (_ : outcome (list ActiveAssetRecord * bool * string)) s', batch_outcome organization requests s s').
  enough (ensures C (create_many requests organization actor digest key events revisions raw_now) s Q) as [_ H] by exact H.
  assert (Hs : batch_outcome organization requests s s) by by apply batch_refused.
  unfold create_many. destruct (prepare _ _ _ _ _ _ _ _) as [[[batch now] records]|] eqn:Hprep; [|by apply ensures_bind, ensures_lift].
  apply ensures_lift_ok, ensures_reads. destruct (receipts s.2 !! (organization, batch)) as [retained|].
  { destruct (replayed _ _ _ _ _ _) as [rs|]; [by apply ensures_lift_ok, ensures_ret|by apply ensures_bind, ensures_lift]. }
  destruct (_organization_has_pending_deletion_unlocked s.2 organization) as [[]|]; [by split|apply ensures_lift_ok|by apply ensures_bind, ensures_lift].
  set (identities := (λ q, (req_asset_type q, req_value q)) <$> requests).
  pose proof (identity_keeps organization identities s) as (Hf1 & Hr1 & Hj1 & _). apply ensures_bind. unfold ensures at 1, call.
  destruct (_index_identity_exists_unlocked record_json organization identities s) as [o s1] eqn:Hid. cbn [fst snd] in Hf1, Hr1, Hj1 |- *.
  split; [done|]. change (final s [s1]) with s1.
  assert (Hs1 : batch_outcome organization requests s s1) by (apply batch_looked; fold identities; by rewrite Hid).
  destruct o as [[]|]; [by split| |done]. apply ensures_reads.
  destruct (bool_decide _ || any_of _ _) eqn:Hany; [by split|]. apply orb_false_iff in Hany as [Hj Hany].
  apply bool_decide_eq_false, eq_None_not_Some in Hj.
  assert (Hfree : ∀ r, r ∈ records → files s1.2 !! (organization, id (the_target r)) = None).
  { intros r Hr. apply any_of_false with (x := id (the_target r)) in Hany; [|by apply (list_elem_of_fmap_2 (λ r, id (the_target r)))].
    apply bool_decide_eq_false in Hany. by apply eq_None_not_Some. }
  unfold prepare in Hprep. apply bind_ok in Hprep as (_ & _ & H). apply bind_ok in H as (_ & _ & H).
  destruct (_ && _) eqn:Hlen in H; [cbn [negb] in H|done]. destruct (is_hex64 digest); [cbn [negb] in H|done]. destruct (is_hex32 key); [cbn [negb] in H|done].
  destruct (unique _) eqn:Huniq in H; [cbn [negb] in H|done]. apply bind_ok in H as (now' & _ & H). apply bind_ok in H as (records' & Hrs & H).
  injection H as <- <- <-. apply andb_true_iff in Hlen as [Hlen _].
  assert (Hne : requests ≠ []) by (destruct requests; [done|done]).
  assert (Horg : Forall (λ r, organization_id (the_target r) = organization) records').
  { apply Forall_forall. intros r Hr. apply traverse_ok in Hrs. apply list_elem_of_lookup_1 in Hr as [i Hi].
    destruct (Forall2_lookup_r _ _ _ _ _ Hrs Hi) as ([n q] & _ & Hb). by apply built_identity in Hb as []. }
  apply (ensures_seq _ _ _ _ _ (λ _ s', core s' = core (written records' s1).2
           ∧ journals s'.2 = delete (organization, batch_identifier organization actor key) (journals s1.2))).
  - eapply ensures_weaken; [apply (write_batch_final _ organization actor digest now' records' s1); [|done]|done|].
    + unfold _index_identity_exists_unlocked in Hid. case_bool_decide as Hn; [by destruct requests|].
      destruct (_ensure_index_current_unlocked _ _ s) as [[[]|] s1'] eqn:He; [|done]. injection Hid as _ <-. by apply ensure_opened in He.
    + intros r s' (-> & Hc & Hw & Hj') _. exists tt. split; [done|]. exact (conj Hc Hj').
  - intros _ s' [Hc Hj'] _. apply ensures_ret; [done|]. apply (batch_written organization requests s s' s1 actor _ now' events revisions records' Hne Huniq Hid Hrs Hfree Hc).
    rewrite Hj', Hj1, delete_id; [done|]. by rewrite <- Hj1.
Qed.

(** ** A batch is registered whole or not at all *)

(** Recoveries that stop, each after any of its effects, before one that does
    not; the process forgets what it remembered of the index. *)
Inductive stopped : site → site → Prop :=
| stopped_not (s : site) : stopped s s
| stopped_once (s s1 s2 : site) order :
    order ≡ₚ map_to_list (journals s.2) → s1 ∈ s :: (_recover_batch_transactions_unlocked order s).1 →
    stopped (None, s1.2) s2 → stopped s s2.

Section Calls.
Context (requests : list ActiveAssetCreateRequest) (organization actor digest key : string).
Context (events revisions : nat → string) (raw_now : datetime).

Abbreviation call_batch := (create_many requests organization actor digest key events revisions raw_now).

(** The disk during a call: as it was, or in a phase of the batch. *)
Definition underway (s s' : site) : Prop :=
  (files s'.2 = files s.2 ∧ receipts s'.2 = receipts s.2 ∧ journals s'.2 = ∅)
  ∨ ∃ batch now records, prepare requests organization actor digest key events revisions raw_now = Ok (batch, now, records)
      ∧ (∀ r, r ∈ records → files s.2 !! (organization, id (the_target r)) = None) ∧ receipts s.2 !! (organization, batch) = None
      ∧ phase organization batch actor digest now records (files s.2) (receipts s.2) s'.

Definition registered_whole (s s' : site) (batch : string) (records : list ActiveAssetRecord) : Prop :=
  files s'.2 = registered organization records (files s.2) ∧ journals s'.2 = ∅
  ∧ ∃ now, receipts s'.2 = <[(organization, batch) := receipt_of digest now records]> (receipts s.2).

Lemma create_many_underway (s : site) :
  journals s.2 = ∅ →
  ensures (underway s) call_batch s (λ r s', ∀ records batch, r = Ok (records, false, batch) → registered_whole s s' batch records).
Proof.
  intros Hj. assert (Hs : underway s s) by by left. unfold create_many. destruct (prepare _ _ _ _ _ _ _ _) as [[[batch now] records]|] eqn:Hprep.
  2:{ split; [|done]. cbn. by intros s' ->%list_elem_of_singleton. }
  apply ensures_lift_ok. apply ensures_reads. destruct (receipts s.2 !! (organization, batch)) as [retained|] eqn:Hrec.
  { destruct (replayed _ _ _ _ _ _) as [rs|]; [apply ensures_lift_ok, ensures_ret; [done|by intros]|].
    split; [|done]. cbn. by intros s' ->%list_elem_of_singleton. }
  destruct (_organization_has_pending_deletion_unlocked s.2 organization) as [pending|]; [apply ensures_lift_ok|].
  2:{ split; [|done]. cbn. by intros s' ->%list_elem_of_singleton. }
  destruct pending; [split; [|done]; cbn; by intros s' ->%list_elem_of_singleton|].
  set (identities := (λ q, (req_asset_type q, req_value q)) <$> requests).
  pose proof (identity_keeps organization identities s) as (Hf1 & Hr1 & Hj1 & _). apply ensures_bind. unfold call, ensures.
  destruct (_index_identity_exists_unlocked _ _ _ s) as [o s1]. cbn [fst snd] in Hf1, Hr1, Hj1 |- *. change (final s [s1]) with s1.
  assert (Hs1 : underway s s1) by (left; rewrite Hf1, Hr1, Hj1; done).
  split; [by intros s' [->|[->|Hn%not_elem_of_nil]%elem_of_cons]%elem_of_cons|]. destruct o as [exists_|]; [|done].
  fold (ensures (underway s)
    (raises "batch_asset_conflict" when exists_;; d ← reads snd;
     raises "asset_store_invalid"
       when bool_decide (is_Some (journals d !! (organization, batch)))
            || any_of (λ i, bool_decide (is_Some (files d !! (organization, i)))) (ids_of records);;
     write_batch batch organization actor digest now records;; mret (records, false, batch)) s1
    (λ r s', ∀ rs b, r = Ok (rs, false, b) → registered_whole s s' b rs)).
  destruct exists_; [split; [|done]; cbn; by intros s' ->%list_elem_of_singleton|]. apply ensures_reads.
  destruct (any_of _ (ids_of records)) eqn:Hany; [rewrite orb_true_r; split; [|done]; cbn; by intros s' ->%list_elem_of_singleton|].
  rewrite orb_false_r. case_bool_decide; [split; [|done]; cbn; by intros s' ->%list_elem_of_singleton|].
  assert (Hfree : ∀ r, r ∈ records → files s.2 !! (organization, id (the_target r)) = None).
  { intros r Hr. apply any_of_false with (x := id (the_target r)) in Hany; [|by apply (list_elem_of_fmap_2 (λ r, id (the_target r)))].
    apply bool_decide_eq_false in Hany. rewrite Hf1 in Hany. by apply eq_None_not_Some. }
  apply ensures_bind. eapply ensures_weaken.
  - apply (write_batch_phases organization batch actor digest now records (files s.2) (receipts s.2)); [done..|by rewrite Hj1].
  - intros s' Hp. right. exists batch, now, records. done.
  - intros [[]|e] s' [Hp Hdone] _; [|done]. apply ensures_ret.
    + right. exists batch, now, records. done.
    + intros rs b [= <- <-]. destruct (Hdone eq_refl) as (Hf' & Hr' & Hj'). split; [exact Hf'|]. split; [exact Hj'|]. by exists now.
Qed.

(** What a batch may come to: nothing registered, or all of it. *)
Definition all_or_nothing (s s' : site) : Prop :=
  journals s'.2 = ∅
  ∧ ((files s'.2 = files s.2 ∧ receipts s'.2 = receipts s.2)
     ∨ ∃ batch now records, prepare requests organization actor digest key events revisions raw_now = Ok (batch, now, records)
                            ∧ registered_whole s s' batch records).

Lemma recovery_underway (s s1 : site) order :
  underway s s1 → order ≡ₚ map_to_list (journals s1.2) →
  ensures (underway s) (_recover_batch_transactions_unlocked order) s1 (λ r s', r = Ok tt ∧ all_or_nothing s s').
Proof.
  intros [(Hf & Hr & Hj)|(batch & now & records & Hprep & Hfree & Hrec & Hp)] Ho.
  - rewrite Hj, map_to_list_empty in Ho. apply Permutation_nil_r in Ho as ->. apply ensures_ret; [by left|].
    split; [done|]. split; [done|]. by left.
  - eapply ensures_weaken; [by apply (recovery_phases organization batch actor digest now records (files s.2) (receipts s.2))|..].
    + intros s' Hs'. right. by exists batch, now, records.
    + intros r s' [-> [Hj Hend]] _. split; [done|]. split; [done|].
      destruct Hend as [|[Hf' Hr']]; [by left|right]. exists batch, now, records. split; [done|]. split; [done|]. split; [done|]. by exists now.
Qed.

Lemma stopped_underway (s s1 s2 : site) : stopped s1 s2 → underway s s1 → underway s s2.
Proof.
  induction 1 as [s1|s1 s1' s2 order Ho Hin _ IH]; intros Hu; [done|]. apply IH.
  destruct (recovery_underway s s1 order Hu Ho) as [Hall _]. destruct (Hall s1' Hin) as [H|H]; [by left|right].
  destruct H as (batch & now & records & ? & ? & ? & Hp). exists batch, now, records. repeat (split; [done|]). by destruct Hp; constructor.
Qed.

(** C23: registering a batch of assets is all or nothing whatever happens to
    the process.  From a disk without a journal, stopped after any effect of
    the call, restarted, its recoveries stopped any number of times after any
    of their effects, once a recovery runs to its end it succeeds, no journal
    is left, and either the files and receipts are those before the call or
    every record of the batch is on the disk with the batch's receipt; and a
    call that returned the new records had registered them all. *)
Theorem asset_batch_all_or_nothing (s s1 s2 : site) order :
  journals s.2 = ∅ → s1 ∈ s :: (call_batch s).1 → stopped (None, s1.2) s2 → order ≡ₚ map_to_list (journals s2.2) →
  let '(trace, r) := _recover_batch_transactions_unlocked order s2 in
  r = Ok tt ∧ all_or_nothing s (final s2 trace)
  ∧ ∀ records batch, (call_batch s).2 = Ok (records, false, batch) → registered_whole s (final s (call_batch s).1) batch records.
Proof.
  intros Hj Hin Hst Ho. destruct (create_many_underway s Hj) as [Hall Hdone].
  assert (Hu : underway s (None, s1.2)).
  { destruct (Hall s1 Hin) as [H|(batch & now & records & ? & ? & ? & Hp)]; [by left|right]. exists batch, now, records.
    repeat (split; [done|]). by destruct Hp; constructor. }
  destruct (recovery_underway s s2 order (stopped_underway _ _ _ Hst Hu) Ho) as [_ Hrec].
  destruct (_recover_batch_transactions_unlocked order s2) as [trace r]. destruct Hrec as [Hr Hend]. by split.
Qed.
End Calls.
End Batch.

Module Sample_batch.
Definition at_ (s : Z) : datetime := DT (1700000000 * 1000000 + s * 1000000) (Some 0).
Definition hex (c : ascii) : string := text (replicate 32 c).
Definition wanted : scope := Scope ["active_dns_inventory"] [] ["dns"] "manual_attestation" "TICKET-1" (at_ 0) (at_ 1000).
Definition request : ActiveAssetCreateRequest := CreateRequest "domain" "example.com" [] wanted [].
Definition request_of (value : string) : ActiveAssetCreateRequest := CreateRequest "domain" value [] wanted [].
Definition requests : list ActiveAssetCreateRequest := [request_of "example.com"; request_of "example.org"].
Definition no_json (_ : ActiveAssetRecord) : string := "".
Definition empty_site : site := (None, Disk ∅ ∅ None ∅ ∅ ∅ 0).
Definition batch_call (s : site) :=
  create_many no_json requests "local-admin" "local-admin" (text (replicate 64 "d"%char)) (hex "e") (λ _, hex "b") (λ _, hex "c") (at_ 1) s.
End Sample_batch.
Import Sample_batch.

(** The process stops with the second record written and the journal pending. *)
Lemma asset_batch_all_or_nothing_witness :
  ∃ s1, (batch_call empty_site).1 !! 3%nat = Some s1
  ∧ let '(trace, r) := _recover_batch_transactions_unlocked (map_to_list (journals s1.2)) (None, s1.2) in
    r = Ok tt ∧ journals (final (None, s1.2) trace).2 = ∅.
Proof.
  assert (Hs : match (batch_call empty_site).1 !! 3%nat with Some _ => true | None => false end = true) by (vm_compute; reflexivity).
  destruct ((batch_call empty_site).1 !! 3%nat) as [s1|] eqn:E; [clear Hs|discriminate Hs]. exists s1. split; [reflexivity|].
  pose proof (asset_batch_all_or_nothing no_json requests "local-admin" "local-admin" (text (replicate 64 "d"%char)) (hex "e") (λ _, hex "b") (λ _, hex "c")
    (at_ 1) empty_site s1 (None, s1.2) (map_to_list (journals s1.2))) as H.
  destruct (_recover_batch_transactions_unlocked (map_to_list (journals s1.2)) (None, s1.2)) as [trace r].
  destruct H as (H1 & [H2 _] & _).
  - reflexivity.
  - apply elem_of_cons. right. exact (list_elem_of_lookup_2 _ _ _ E).
  - apply stopped_not.
  - reflexivity.
  - split; [exact H1|exact H2].
Defined.
