(* ===== verification/AssetRuns.v ===== *)
(** * AssetRuns: the history of the active assets

    Runs of the operations of [ActiveAssetStore], [backend/app/active_assets.py],
    in any order: what becomes of a registered asset, of its authorizations and
    of its identity, and what an admitted execution rests on. *)

From S2P Require Import Prelude PyStr Sha256 BearerToken Identifiers SqlTable CrashProg AssetTarget AssetRecord ActiveAssets AssetBatch.
Local Open Scope Z_scope.

(** ** What becomes of a record *)

Definition named_as (t : target) : string * string * string * string * string * datetime :=
  (id t, organization_id t, owner_id t, asset_type t, canonical_value t, created_at t).

(** An asset keeps its name and its past; its scope changes with a new
    revision only; once revoked it stays so, at the same time, and gets no
    other. *)
Record evolves (r r' : ActiveAssetRecord) : Prop := {
  evolves_name : named_as (the_target r') = named_as (the_target r);
  evolves_history : history (the_life r) `prefix_of` history (the_life r');
  evolves_revisions : authorization_revisions (the_life r) `prefix_of` authorization_revisions (the_life r');
  evolves_scope : authorization_revisions (the_life r') = authorization_revisions (the_life r) → the_scope r' = the_scope r;
  evolves_revoked : ∀ t, revoked_at (the_life r) = Some t →
    revoked_at (the_life r') = Some t ∧ authorization_revisions (the_life r') = authorization_revisions (the_life r)
}.

#[global] Instance evolves_preorder : PreOrder evolves.
Proof.
  split.
  - intros r. by split.
  - intros r1 r2 r3 [N1 H1 R1 S1 V1] [N2 H2 R2 S2 V2]. split.
    + by rewrite N2.
    + by etrans.
    + by etrans.
    + intros E. assert (E2 : authorization_revisions (the_life r2) = authorization_revisions (the_life r1)).
      { apply (anti_symm prefix); [|done]. by rewrite <- E. }
      rewrite S2 by by rewrite E, E2. by apply S1.
    + intros t Ht. destruct (V1 t Ht) as [Ht' E1]. destruct (V2 t Ht') as [? E2]. split; [done|]. by rewrite E2.
Qed.

Lemma evolves_file r r' : evolves r r' → file_of r' = file_of r.
Proof. intros [[= E1 E2 _ _ _ _] _ _ _ _]. unfold file_of. by rewrite E1, E2. Qed.

Lemma read_evolves r : evolves r (read_normalized r).
Proof. by split. Qed.

Lemma materialize_evolves r now r' : _materialize_status r now = Ok r' → evolves r r'.
Proof.
  unfold _materialize_status. case_bool_decide as Hr; [by intros [= <-]|].
  intros (n & _ & H)%bind_ok. destruct (negb (aware _)); [done|]. injection H as <-. by split.
Qed.

(** What reading an asset takes from the disk. *)
Lemma read_asset_ok c organization asset r :
  read_content c organization asset = Ok r →
  ∃ r0, c = Some r0 ∧ record_valid r0 = true ∧ file_of r0 = (organization, asset) ∧ r = read_normalized r0.
Proof.
  unfold read_content. destruct c as [r0|]; [|done]. destruct (record_valid r0) eqn:Hv; [cbn [negb]|done].
  destruct (_ && _) eqn:Hn; [cbn [negb]|done]. intros [= <-]. exists r0. repeat split; [done|].
  apply andb_true_iff in Hn as [H1%String.eqb_eq H2%String.eqb_eq]. unfold file_of. by rewrite H1, H2.
Qed.

Lemma current_ok d organization asset now r :
  current d organization asset now = Ok r →
  ∃ r0, files d !! (organization, asset) = Some (Some r0) ∧ record_valid r0 = true ∧ file_of r0 = (organization, asset)
        ∧ active_asset_deletion_is_pending d asset = false ∧ _materialize_status (read_normalized r0) now = Ok r.
Proof.
  unfold current. intros (k & _ & H)%bind_ok. apply bind_ok in H as (r1 & Hr & Hm). unfold _read in Hr. cbn [negb andb] in Hr.
  destruct (active_asset_deletion_is_pending d asset) eqn:Hp; [done|]. apply bind_ok in Hr as (c & Hc & Hr).
  apply or_raise_ok in Hc. apply read_asset_ok in Hr as (r0 & -> & Hv & Hf & ->). by exists r0.
Qed.

(** ** What each operation makes of a record *)

Ltac evolved := split; cbn; [done|first [done | by apply prefix_app_r]|first [done | by apply prefix_app_r]|try done|try done].

Section Runs.
Context (record_json : ActiveAssetRecord → string).

Abbreviation written := (written record_json).

Lemma renewal_evolves r q organization asset actor event now r' :
  renewal r q organization asset actor event now = Ok (r', true) → evolves r r'.
Proof.
  unfold renewal. destruct (bool_decide _ || _) eqn:Hrev; [done|]. apply orb_false_iff in Hrev as [Hrev%bool_decide_eq_false _].
  destruct (first_match _ _); [by destruct (_ && _)|]. intros H. inv_ok H. evolved.
  - intros E. exfalso. apply (f_equal length) in E. rewrite length_app in E. cbn in E. lia.
  - intros t Ht. destruct Hrev. by exists t.
Qed.

Definition update_evolves (update : ActiveAssetRecord → outcome (ActiveAssetRecord * bool)) : Prop :=
  ∀ r r', update r = Ok (r', true) → evolves r r'.

(** What a write keeps. *)
Lemma write_all_keeps rs (d : disk) :
  receipts (write_all rs d) = receipts d ∧ journals (write_all rs d) = journals d ∧ index_file (write_all rs d) = index_file d
  ∧ deletions (write_all rs d) = deletions d.
Proof. revert d. induction rs as [|r rs IH]; intros d; [done|]. unfold write_all in *. cbn [foldl]. by destruct (IH (write_file (file_of r) (Some r) d)) as (-> & -> & -> & ->). Qed.

Lemma written_journals rs (s : site) : journals (written rs s).2.2 = journals s.2.
Proof.
  unfold AssetBatch.written, _index_upsert_records_unlocked. destruct (sync_keeps record_json (λ t, upsert record_json t rs)
    ((λ r, organization_id (the_target r)) <$> rs) (s.1, write_all rs s.2)) as (_ & _ & -> & _). apply write_all_keeps.
Qed.

(** Records written over those they come from. *)
Definition updates (s : site) (rs : list ActiveAssetRecord) : Prop :=
  ∀ r', r' ∈ rs → ∃ r, files s.2 !! file_of r' = Some (Some r) ∧ evolves r r'.

Lemma modify_updates (s : site) organization asset now update :
  update_evolves update →
  (modify record_json s organization asset now update).2 = s
  ∨ ∃ r', updates s [r'] ∧ (modify record_json s organization asset now update).2 = (written [r'] s).2.
Proof.
  intros Hup. unfold modify. destruct (current s.2 organization asset now) as [r|] eqn:Hc; cbn [mbind outcome_bind]; [|by left].
  destruct (update r) as [[r' []]|] eqn:Hu; [|by left|by left]. right. exists r'.
  apply current_ok in Hc as (r0 & Hf & _ & Hn & _ & Hm%materialize_evolves).
  assert (He : evolves r0 r') by (etrans; [apply read_evolves|]; etrans; [exact Hm|]; by apply Hup).
  assert (Hn' : file_of r' = (organization, asset)) by by rewrite (evolves_file r0).
  split.
  - intros x ->%list_elem_of_singleton. exists r0. by rewrite Hn'.
  - unfold _write_record_unlocked, AssetBatch.written, write_all. cbn [foldl]. rewrite Hn'. by destruct (_index_upsert_records_unlocked _ _ _).
Qed.

Lemma unassign_updates (s : site) user organization actor events now :
  (unassign_member record_json s user organization actor events now).2 = s
  ∨ ∃ rs, updates s rs ∧ (unassign_member record_json s user organization actor events now).2 = (written rs s).2.
Proof.
  unfold unassign_member. match goal with |- context [match ?o with Ok _ => _ | Err _ => _ end] => destruct o as [[rs us]|] eqn:H end; [|by left].
  right. apply bind_ok in H as (_ & _ & H). apply bind_ok in H as (_ & _ & H). apply bind_ok in H as (_ & _ & H).
  apply bind_ok in H as (rs' & Haff & H). destruct (any_of _ _) in H; [done|]. apply bind_ok in H as (t & _ & H). apply bind_ok in H as (us' & Hus & H).
  injection H as -> ->. unfold affected in Haff. apply bind_ok in Haff as (all & Hall & Haff). injection Haff as <-.
  assert (Hsrc : ∀ r', r' ∈ us → ∃ r, files s.2 !! file_of r' = Some (Some r) ∧ evolves r r' ∧ organization_id (the_target r') = organization).
  { intros r' Hin. apply traverse_ok in Hus. apply list_elem_of_lookup_1 in Hin as [i Hi].
    destruct (Forall2_lookup_r _ _ _ _ _ Hus Hi) as ([n r] & Hz & Hb). cbn [fst snd] in Hb.
    apply bind_ok in Hb as (e & _ & Hb). apply bind_ok in Hb as (k & _ & Hb). injection Hb as <-.
    apply list_elem_of_lookup_2, elem_of_zip_r in Hz. apply list_elem_of_filter in Hz as [_ Hz].
    unfold _load_all_unlocked in Hall. apply traverse_ok in Hall. apply list_elem_of_lookup_1 in Hz as [i' Hi'].
    destruct (Forall2_lookup_r _ _ _ _ _ Hall Hi') as ([[o a] c] & Hl & Hread).
    apply list_elem_of_lookup_2, list_elem_of_filter in Hl as [(Ho & _) Hl]. apply elem_of_map_to_list in Hl. cbn [fst snd] in Ho, Hread. subst o.
    apply read_asset_ok in Hread as (r0 & -> & _ & Hn & ->).
    assert (He : evolves r0 (unassigned user t (read_normalized r0) e)) by evolved.
    exists r0. rewrite (evolves_file r0) by done. rewrite Hn. split; [done|]. split; [done|]. unfold file_of in Hn. cbn. by injection Hn. }
  exists us. split; [intros r' Hr'; destruct (Hsrc r' Hr') as (r & ? & ? & _); by exists r|].
  unfold AssetBatch.written. assert (∀ d, foldl (λ d r, write_file (organization, id (the_target r)) (Some r) d) d us = write_all us d) as ->.
  { assert (Horg : ∀ r', r' ∈ us → organization_id (the_target r') = organization) by (intros r' Hr'; by destruct (Hsrc r' Hr') as (_ & _ & _ & ?)).
    clear -Horg. induction us as [|r us IH]; intros d; [done|]. unfold write_all in *. cbn [foldl]. unfold file_of at 2.
    rewrite (Horg r) by left. apply IH. intros r' Hr'. apply Horg. by right. }
  by destruct (_index_upsert_records_unlocked _ _ _).
Qed.

(** ** Operations *)

Inductive asset_op : Type :=
| Create (q : ActiveAssetCreateRequest) (organization actor asset event revision : string) (now : datetime)
| CreateMany (requests : list ActiveAssetCreateRequest) (organization actor digest key : string) (events revisions : nat → string) (now : datetime)
| Identities (organization : string)
| Admit (asset organization actor capability event : string) (at_read at_write : datetime)
| Renew (asset : string) (q : ActiveAssetRenewRequest) (organization actor event : string) (at_read at_write : datetime)
| Revoke (asset organization actor reason event : string) (at_read at_write : datetime)
| Unassign (user organization actor : string) (events : nat → string) (now : datetime)
| SetResponsibles (asset : string) (responsible : list string) (expected : datetime) (organization actor event : string) (at_read at_write : datetime)
| AppendEvent (asset organization actor k : string) (reason : option string) (event : string) (at_read at_write : datetime)
| SetBaseline (asset organization actor execution event : string) (at_read at_write : datetime)
| SetTriage (asset organization actor key st comment event : string) (at_read at_write : datetime)
| DeleteAsset (asset organization : string)
| DeleteReceipts (asset organization : string)
| RestartStore
| MarkDeletions (marks : gmap string string).

(** The site after an operation; a process that starts again recovers what a
    batch left, and the deletions that are pending are marked by another
    part. *)
Definition perform (s : site) (o : asset_op) : site :=
  match o with
  | Create q organization actor asset event revision now => (create record_json s q organization actor asset event revision now).2
  | CreateMany requests organization actor digest key events revisions now =>
      final s (create_many record_json requests organization actor digest key events revisions now s).1
  | Identities organization => (existing_registration_identities record_json organization s).2
  | Admit asset organization actor capability event r w => (admit_execution record_json s asset organization actor capability event r w).2
  | Renew asset q organization actor event r w => (renew record_json s asset q organization actor event r w).2
  | Revoke asset organization actor reason event r w => (revoke record_json s asset organization actor reason event r w).2
  | Unassign user organization actor events now => (unassign_member record_json s user organization actor events now).2
  | SetResponsibles asset l expected organization actor event r w =>
      (set_responsibles record_json s asset l expected organization actor event r w).2
  | AppendEvent asset organization actor k reason event r w => (append_event record_json s asset organization actor k reason event r w).2
  | SetBaseline asset organization actor x event r w => (set_baseline record_json s asset organization actor x event r w).2
  | SetTriage asset organization actor key st c event r w => (set_triage record_json s asset organization actor key st c event r w).2
  | DeleteAsset asset organization => (delete_for_deletion record_json s asset organization).2
  | DeleteReceipts asset organization => (delete_batch_receipts_for_asset s asset organization).2
  | RestartStore => let s0 : site := (None, s.2) in final s0 (_recover_batch_transactions_unlocked (map_to_list (journals s.2)) s0).1
  | MarkDeletions marks => (s.1, Disk (files s.2) (directories s.2) (index_file s.2) marks (receipts s.2) (journals s.2) (clock s.2))
  end.

Definition perform_all (s : site) (os : list asset_op) : site := foldl perform s os.

(** The name a request and an organization give. *)
Definition registers (organization : string) (qs : list (string * string)) (rs : list ActiveAssetRecord) : Prop :=
  Forall2 (λ q r, organization_id (the_target r) = organization ∧ is_hex32 (id (the_target r)) = true
                  ∧ (asset_type (the_target r), canonical_value (the_target r)) = q) qs rs.

(** What an operation does to the files and the index. *)
Inductive effect (o : asset_op) (s s' : site) : Prop :=
| effect_none : core s' = core s → effect o s s'
| effect_look organization : core s' = core (_ensure_index_current_unlocked record_json organization s).2 → effect o s s'
| effect_update rs : updates s rs → core s' = core (written rs s).2 → effect o s s'
| effect_register organization qs s1 rs :
    qs ≠ [] → NoDup qs → _index_identity_exists_unlocked record_json organization qs s = (Ok false, s1) → registers organization qs rs →
    (∀ r, r ∈ rs → files s1.2 !! file_of r = None) → core s' = core (written rs s1).2 → effect o s s'
| effect_delete organization asset :
    o = DeleteAsset asset organization →
    core s' = core (_index_delete_records_unlocked record_json organization [asset] (s.1, unlink_file (organization, asset) s.2)).2 → effect o s s'
| effect_restart : core s' = core (None, s.2) → effect o s s'.

Lemma modify_effect o (s : site) organization asset now update :
  update_evolves update → let s' := (modify record_json s organization asset now update).2 in effect o s s' ∧ journals s'.2 = journals s.2.
Proof.
  intros Hup s'. destruct (modify_updates s organization asset now update Hup) as [E|(r' & Hu & E)]; fold s' in E; rewrite E.
  - split; [by apply effect_none|done].
  - split; [by apply (effect_update _ _ _ [r'])|]. apply written_journals.
Qed.

Lemma looks_effect o organization qs (s : site) :
  let s' := (_index_identity_exists_unlocked record_json organization qs s).2 in effect o s s' ∧ journals s'.2 = journals s.2.
Proof.
  split; [|apply identity_keeps]. unfold _index_identity_exists_unlocked. case_bool_decide; [by apply effect_none|].
  destruct (_ensure_index_current_unlocked record_json organization s) as [[[]|] s1] eqn:E; apply (effect_look _ _ _ organization); by rewrite E.
Qed.

Lemma unique_pairs {A} `{EqDecision A} (l : list A) : unique l = true → NoDup l.
Proof. unfold unique. intros H%Nat.eqb_eq. by apply remove_dups_full. Qed.

Lemma create_effect o (s : site) q organization actor asset event revision now :
  let s' := (create record_json s q organization actor asset event revision now).2 in effect o s s' ∧ journals s'.2 = journals s.2.
Proof.
  cbv zeta. unfold create. match goal with |- context [match ?o with Ok _ => _ | Err _ => _ end] => destruct o as [r|] eqn:H end.
  2:{ split; [by apply effect_none|done]. }
  apply bind_ok in H as (_ & _ & H). apply bind_ok in H as (_ & _ & H). apply bind_ok in H as (t & _ & H). apply bind_ok in H as (r' & Hb & H).
  apply bind_ok in H as (k & _ & H). apply bind_ok in H as (p & _ & H). destruct p; [done|]. injection H as ->.
  pose proof (looks_effect o organization [(req_asset_type q, req_value q)] s) as Hl. cbv zeta in Hl.
  destruct (_index_identity_exists_unlocked record_json organization _ s) as [[[]|] s1] eqn:Hid; [exact Hl| |exact Hl].
  case_bool_decide as Hex; [exact Hl|]. apply eq_None_not_Some in Hex.
  apply built_identity in Hb as (Ho & Hi & Ht & Hv & Hx & _).
  assert (Hf : file_of r = (organization, asset)) by (unfold file_of; by rewrite Ho, Hi).
  pose proof (written_journals [r] s1) as Hj. unfold _write_record_unlocked.
  assert (E : written [r] s1 = _index_upsert_records_unlocked record_json [r] (s1.1, write_file (organization, asset) (Some r) s1.2)).
  { unfold AssetBatch.written, write_all. cbn [foldl]. by rewrite Hf. }
  rewrite <- E. destruct (written [r] s1) as [oc s2] eqn:E2. cbn [snd] in Hj |- *. split.
  - apply (effect_register _ _ _ organization [(req_asset_type q, req_value q)] s1 [r]); [done|apply NoDup_singleton|done|..].
    + constructor; [|constructor]. rewrite Ho, Hi, Ht, Hv. done.
    + intros x ->%list_elem_of_singleton. by rewrite Hf.
    + by rewrite E2.
  - rewrite Hj. apply Hl.
Qed.

Lemma create_many_effect o (s : site) requests organization actor digest key events revisions now :
  let s' := final s (create_many record_json requests organization actor digest key events revisions now s).1 in
  effect o s s' ∧ journals s'.2 = journals s.2.
Proof.
  cbv zeta. destruct (create_many_outcome record_json requests organization actor digest key events revisions now s)
    as [->| ->|s1 ac asset_of t ev rv rs Hne Hu Hid Hrs Hfree Hc Hj].
  - split; [by apply effect_none|done].
  - apply looks_effect.
  - split; [|exact Hj]. apply traverse_ok in Hrs.
    assert (Hb : Forall2 (λ q r, organization_id (the_target r) = organization ∧ is_hex32 (id (the_target r)) = true
                                 ∧ (asset_type (the_target r), canonical_value (the_target r)) = (req_asset_type q, req_value q)) requests rs).
    { rewrite <- (snd_zip (seq 0 (length requests)) requests) at 1 by by rewrite length_seq.
      apply Forall2_fmap_l. eapply Forall2_impl; [exact Hrs|]. intros [n q] r H%built_identity. cbn in H |- *.
      destruct H as (Ho & Hi & Ht & Hv & Hx & _). by rewrite Ho, Hi, Ht, Hv. }
    refine (effect_register _ _ _ organization _ s1 rs _ _ Hid _ _ Hc).
    + by destruct requests.
    + by apply unique_pairs.
    + by apply Forall2_fmap_l.
    + intros r Hr. unfold file_of. apply list_elem_of_lookup_1 in Hr as Hr'. destruct Hr' as [i Hi].
      destruct (Forall2_lookup_r _ _ _ _ _ Hb Hi) as (q & _ & -> & _). by apply Hfree.
Qed.

Lemma perform_effect (s : site) o : journals s.2 = ∅ → effect o s (perform s o) ∧ journals (perform s o).2 = journals s.2.
Proof.
  intros Hj. destruct o; cbn [perform].
  - apply create_effect.
  - apply create_many_effect.
  - unfold existing_registration_identities. destruct (_validate_organization_identity organization ≫= _); [|by split; [apply effect_none|]].
    pose proof (ensure_keeps record_json organization s) as (_ & _ & Hk & _).
    destruct (_ensure_index_current_unlocked record_json organization s) as [[]] eqn:E; cbn [snd] in Hk |- *;
      (split; [apply (effect_look _ _ _ organization); by rewrite E|exact Hk]).
  - apply modify_effect. intros r r' H. inv_ok H. evolved.
  - unfold renew. destruct (_validate_organization_identity organization ≫= _); [|by split; [apply effect_none|]].
    apply modify_effect. intros r r'. apply renewal_evolves.
  - unfold revoke. destruct (negb _); [by split; [apply effect_none|]|]. apply modify_effect. intros r r' H.
    case_bool_decide as Hn; [done|]. inv_ok H. evolved. intros t Ht. destruct Hn. by exists t.
  - destruct (unassign_updates s user organization actor events now) as [->|(rs & Hu & E)].
    + split; [by apply effect_none|done].
    + rewrite E. split; [by apply (effect_update _ _ _ rs)|apply written_journals].
  - unfold set_responsibles. destruct (_validate_organization_identity organization ≫= _); [|by split; [apply effect_none|]].
    apply modify_effect. intros r r' H. apply bind_ok in H as (u & _ & H). destruct (negb _) in H; [done|].
    case_bool_decide; [done|]. inv_ok H. evolved.
  - apply modify_effect. intros r r' H. inv_ok H. evolved.
  - apply modify_effect. intros r r' H. inv_ok H. evolved.
  - apply modify_effect. intros r r' H. inv_ok H. evolved.
  - unfold delete_for_deletion. destruct (_path organization asset ≫= _); [|by split; [apply effect_none|]].
    split; [by apply (effect_delete _ _ _ organization asset)|].
    unfold _index_delete_records_unlocked. rewrite bool_decide_eq_false_2 by done.
    by destruct (sync_keeps record_json (λ t, filter (λ kr, ¬ (kr.1.1 = organization ∧ kr.1.2 ∈ [asset])) t) [organization]
      (s.1, unlink_file (organization, asset) s.2)) as (_ & _ & -> & _).
  - unfold delete_batch_receipts_for_asset. destruct (_validate_asset_id asset ≫= _); by split; [apply effect_none|].
  - rewrite Hj. cbn. split; [by apply effect_restart|exact Hj].
  - split; [by apply effect_none|done].
Qed.

(** ** The authorizations of an asset *)

Lemma write_all_lookup rs (d : disk) k c :
  files (write_all rs d) !! k = Some c → (∃ r, r ∈ rs ∧ file_of r = k ∧ c = Some r) ∨ ((∀ r, r ∈ rs → file_of r ≠ k) ∧ files d !! k = Some c).
Proof.
  revert d. induction rs as [|r rs IH]; intros d; [right; by split; [intros r Hn%not_elem_of_nil|]|].
  change (write_all (r :: rs) d) with (write_all rs (write_file (file_of r) (Some r) d)). intros [(x & Hx & Hk & ->)|[Hn H]]%IH.
  - left. exists x. split; [by right|done].
  - cbn in H. destruct (decide (file_of r = k)) as [E|Hne].
    + rewrite E, lookup_insert_eq in H. injection H as <-. left. exists r. split; [left|done].
    + rewrite lookup_insert_ne in H by done. right. split; [|done]. by intros x [->|Hx]%elem_of_cons; [|apply Hn].
Qed.

Lemma write_all_is_Some rs (d : disk) k : is_Some (files d !! k) ∨ (∃ r, r ∈ rs ∧ file_of r = k) → is_Some (files (write_all rs d) !! k).
Proof.
  revert d. induction rs as [|r rs IH]; intros d; [by intros [|(r & Hn%not_elem_of_nil & _)]|].
  change (write_all (r :: rs) d) with (write_all rs (write_file (file_of r) (Some r) d)). intros H. apply IH.
  destruct (decide (file_of r = k)) as [E|Hne]; [left; cbn; rewrite E, lookup_insert_eq; by eexists|].
  destruct H as [H|(x & [->|Hx]%elem_of_cons & Hk)]; [left; by cbn; rewrite lookup_insert_ne|done|right; by exists x].
Qed.

Lemma written_files rs (s : site) : files (written rs s).2.2 = files (write_all rs s.2).
Proof.
  unfold AssetBatch.written, _index_upsert_records_unlocked. by destruct (sync_keeps record_json (λ t, upsert record_json t rs)
    ((λ r, organization_id (the_target r)) <$> rs) (s.1, write_all rs s.2)) as (-> & _).
Qed.

Lemma core_files (s s' : site) : core s' = core s → files s'.2 = files s.2.
Proof. by intros [=]. Qed.

(** An asset is there after an operation that does not delete it, evolved. *)
Lemma effect_evolves o (s s' : site) k r :
  effect o s s' → o ≠ DeleteAsset k.2 k.1 → files s.2 !! k = Some (Some r) → file_of r = k →
  ∃ r', files s'.2 !! k = Some (Some r') ∧ evolves r r'.
Proof.
  intros [Hc|organization Hc|rs Hu Hc|organization qs s1 rs _ _ Hid _ Hfree Hc|organization asset Ho Hc|Hc] Hdel Hr Hk;
    apply core_files in Hc; rewrite Hc.
  - by exists r.
  - destruct (ensure_keeps record_json organization s) as (-> & _). by exists r.
  - rewrite written_files. destruct (write_all_is_Some rs s.2 k) as [c Hc']; [left; by eexists|].
    rewrite Hc'. apply write_all_lookup in Hc' as [(r' & Hin & <- & ->)|[_ H]].
    + destruct (Hu r' Hin) as (r0 & Hf & He). rewrite Hf in Hr. injection Hr as ->. by exists r'.
    + rewrite H in Hr. injection Hr as ->. by exists r.
  - rewrite written_files. destruct (identity_keeps record_json organization qs s) as (Hf & _). rewrite Hid in Hf. cbn [snd] in Hf.
    destruct (write_all_is_Some rs s1.2 k) as [c Hc']; [left; rewrite Hf; by eexists|].
    rewrite Hc'. apply write_all_lookup in Hc' as [(r' & Hin & E & ->)|[_ H]].
    + specialize (Hfree r' Hin). by rewrite Hf, E, Hr in Hfree.
    + rewrite Hf, Hr in H. injection H as <-. by exists r.
  - unfold _index_delete_records_unlocked. rewrite bool_decide_eq_false_2 by done.
    destruct (sync_keeps record_json (λ t, filter (λ kr, ¬ (kr.1.1 = organization ∧ kr.1.2 ∈ [asset])) t) [organization]
      (s.1, unlink_file (organization, asset) s.2)) as (-> & _). cbn. exists r. rewrite lookup_delete_ne; [done|]. by intros <-.
  - by exists r.
Qed.

Lemma perform_all_journals (s : site) os : journals s.2 = ∅ → journals (perform_all s os).2 = ∅.
Proof.
  revert s. induction os as [|o os IH]; intros s Hj; [done|]. apply IH. destruct (perform_effect s o Hj) as [_ ->]. done.
Qed.

(** ** The index in step with the files *)

(** The row of an asset's file. *)
Definition indexed (rows : gmap (string * string) asset_row) (k : string * string) (r : ActiveAssetRecord) : Prop :=
  ∃ row, rows !! k = Some row ∧ row_asset_type row = asset_type (the_target r)
         ∧ row_canonical_value row = casefold (canonical_value (the_target r)).

Definition files_named (d : disk) : Prop :=
  ∀ k c, files d !! k = Some c → (∃ r, c = Some r ∧ file_of r = k ∧ is_hex32 k.2 = true) ∧ is_Some (directories d !! k.1).

(** What the process remembers of the directories and the index is true, and
    the index has every file's row. *)
Definition index_in_step (s : site) : Prop :=
  ∀ fs st, s.1 = Some (fs, st) → ∃ rows, index_file s.2 = Some (rows, fs) ∧ st = directories s.2
    ∧ ∀ k r, files s.2 !! k = Some (Some r) → indexed rows k r.

Definition in_step (s : site) : Prop := files_named s.2 ∧ index_in_step s.

Lemma in_step_core (s s' : site) : core s' = core s → in_step s → in_step s'.
Proof. destruct s as [m d], s' as [m' d']. intros [= -> Hf Hd Hi Hc]. unfold in_step, index_in_step, files_named. cbn [fst snd]. by rewrite Hf, Hd, Hi. Qed.

(** The last record written to a file is in the file, and in its row. *)
Lemma last_written (rs : list ActiveAssetRecord) (d : disk) (rows : gmap (string * string) asset_row) k :
  (∃ r, r ∈ rs ∧ file_of r = k) →
  ∃ r, r ∈ rs ∧ file_of r = k ∧ files (write_all rs d) !! k = Some (Some r) ∧ upsert record_json rows rs !! k = Some (row_of record_json r).
Proof.
  revert d rows. induction rs as [|r rs IH] using rev_ind; intros d rows (x & Hx & Hk); [by apply not_elem_of_nil in Hx|].
  unfold upsert, write_all. rewrite !foldl_app. cbn [foldl write_file with_files files]. destruct (decide (file_of r = k)) as [E|Hne].
  - exists r. rewrite E, !lookup_insert_eq. split; [apply elem_of_app; right; left|done].
  - apply elem_of_app in Hx as [Hx|Hx]; [|apply list_elem_of_singleton in Hx; by subst]. destruct (IH d rows) as (y & Hy & Ey & Hf & Hl); [by exists x|].
    exists y. rewrite !lookup_insert_ne by done. split; [apply elem_of_app; by left|done].
Qed.

Lemma upsert_other (rs : list ActiveAssetRecord) (rows : gmap (string * string) asset_row) k :
  (∀ r, r ∈ rs → file_of r ≠ k) → upsert record_json rows rs !! k = rows !! k.
Proof.
  revert rows. induction rs as [|r rs IH]; intros rows Hn; [done|]. unfold upsert in *. cbn [foldl].
  rewrite IH; [|intros x Hx; apply Hn; by right]. rewrite lookup_insert_ne; [done|]. apply Hn. left.
Qed.

Lemma all_records_has (d : disk) rs k r :
  files_named d → all_records d = Ok rs → files d !! k = Some (Some r) → read_normalized r ∈ rs.
Proof.
  intros Hn Hall Hk. unfold all_records in Hall. apply bind_ok in Hall as (parts & Hparts & H). injection H as <-.
  destruct (Hn k (Some r) Hk) as [(r' & [= <-] & Hf & Hx) [z Hz]]. apply traverse_ok in Hparts.
  assert (Hin : k.1 ∈ sorted_strs (elements (dom (directories d)))).
  { unfold sorted_strs. rewrite merge_sort_Permutation. apply elem_of_elements, elem_of_dom. by exists z. }
  apply list_elem_of_lookup_1 in Hin as [i Hi]. destruct (Forall2_lookup_l _ _ _ _ _ Hparts Hi) as (part & Hp & Hload).
  apply bind_ok in Hload as (_ & _ & Hload). unfold _load_all_unlocked in Hload. apply traverse_ok in Hload.
  apply concat_elem. exists part. split; [by apply list_elem_of_lookup_2 in Hp|].
  assert (Hin : (k, Some r) ∈ filter (λ kc : string * string * content, kc.1.1 = k.1 ∧ is_hex32 kc.1.2 = true
                 ∧ (true = true ∨ active_asset_deletion_is_pending d kc.1.2 = false)) (map_to_list (files d))).
  { apply list_elem_of_filter. split; [cbn; auto|]. by apply elem_of_map_to_list. }
  apply list_elem_of_lookup_1 in Hin as [j Hj]. destruct (Forall2_lookup_l _ _ _ _ _ Hload Hj) as (x & Hx' & Hread).
  cbn [fst snd] in Hread. apply read_asset_ok in Hread as (r0 & [= <-] & _ & _ & ->). by apply list_elem_of_lookup_2 in Hx'.
Qed.

Lemma all_records_from (d : disk) rs r :
  all_records d = Ok rs → r ∈ rs → ∃ r0, files d !! file_of r = Some (Some r0) ∧ r = read_normalized r0.
Proof.
  intros Hall Hr. unfold all_records in Hall. apply bind_ok in Hall as (parts & Hparts & H). injection H as <-.
  apply concat_elem in Hr as (part & Hp & Hr). apply traverse_ok in Hparts. apply list_elem_of_lookup_1 in Hp as [i Hi].
  destruct (Forall2_lookup_r _ _ _ _ _ Hparts Hi) as (o & _ & Hload). apply bind_ok in Hload as (_ & _ & Hload).
  unfold _load_all_unlocked in Hload. apply traverse_ok in Hload. apply list_elem_of_lookup_1 in Hr as [j Hj].
  destruct (Forall2_lookup_r _ _ _ _ _ Hload Hj) as ([[o' a] c] & Hl & Hread).
  apply list_elem_of_lookup_2, list_elem_of_filter in Hl as [(Ho & _) Hl]. apply elem_of_map_to_list in Hl. cbn [fst snd] in Ho, Hread. subst o'.
  apply read_asset_ok in Hread as (r0 & -> & _ & Hf & ->). exists r0. split; [|done].
  rewrite <- Hf in Hl. exact Hl.
Qed.

Lemma rebuild_in_step (s : site) :
  files_named s.2 → let '(o, s') := _rebuild_index_unlocked record_json s in s' = s ∨ in_step s'.
Proof.
  destruct s as [m d]. intros Hn. unfold _rebuild_index_unlocked. destruct (all_records d) as [rs|] eqn:Hall; [right|by left].
  split; [done|]. intros fs st [= <- <-]. exists (upsert record_json ∅ rs). split; [done|]. split; [done|].
  intros k r Hk. destruct (last_written rs d ∅ k) as (x & Hx & Hxk & _ & Hl).
  - exists (read_normalized r). split; [by apply (all_records_has d rs k)|]. by destruct (Hn k _ Hk) as [(r' & [= <-] & Hf & _) _].
  - destruct (all_records_from d rs x Hall Hx) as (r0 & Hf & ->). rewrite Hxk in Hf. cbn in Hk. rewrite Hf in Hk. injection Hk as ->.
    by exists (row_of record_json (read_normalized r)).
Qed.

Lemma ensure_in_step organization (s : site) : in_step s → in_step (_ensure_index_current_unlocked record_json organization s).2.
Proof.
  intros Hs. pose proof (rebuild_in_step s (proj1 Hs)) as Hr. destruct (_rebuild_index_unlocked record_json s) as [o s'] eqn:E.
  assert (in_step s') by (destruct Hr as [->|]; done). destruct s as [m d]. unfold _ensure_index_current_unlocked.
  destruct m as [[fs st]|], (index_file d) as [[rows stamp]|]; rewrite ?E; try done. by destruct (_ || _).
Qed.

Lemma taken_lookup (st now : gmap string Z) (os : list string) (o : string) :
  taken st now os !! o = if bool_decide (o ∈ os) then now !! o else st !! o.
Proof.
  unfold taken. revert st. induction os as [|x os IH]; intros st; cbn [foldl]; [by rewrite bool_decide_eq_false_2 by apply not_elem_of_nil|].
  rewrite IH. case_bool_decide as Hin.
  - rewrite bool_decide_eq_true_2 by by right. done.
  - destruct (decide (o = x)) as [->|Hne].
    + rewrite bool_decide_eq_true_2 by by left. destruct (now !! x) as [n|] eqn:E; [by rewrite lookup_insert_eq|by rewrite lookup_delete_eq].
    + rewrite bool_decide_eq_false_2 by (intros [|]%elem_of_cons; done).
      destruct (now !! x); [by rewrite lookup_insert_ne|by rewrite lookup_delete_ne].
Qed.

(** A change of the index after one of the files. *)
Lemma sync_in_step change organizations (s : site) :
  files_named s.2 →
  (∀ fs st, s.1 = Some (fs, st) → ∃ rows, index_file s.2 = Some (rows, fs)
     ∧ (∀ o, o ∉ organizations → st !! o = directories s.2 !! o) ∧ ∀ k r, files s.2 !! k = Some (Some r) → indexed (change rows) k r) →
  in_step (sync record_json change organizations s).2.
Proof.
  intros Hn Hs. pose proof (rebuild_in_step s Hn) as Hr. destruct s as [m d]. unfold sync. destruct m as [[fs st]|].
  - destruct (Hs fs st eq_refl) as (rows & Hi & Hst & Hrows). cbn [snd] in *. rewrite Hi. split; [exact Hn|].
    intros fs' st' [= <- <-]. exists (change rows). split; [done|]. split; [|exact Hrows].
    apply map_eq. intros o. rewrite taken_lookup. case_bool_decide; [done|]. by apply Hst.
  - destruct (_rebuild_index_unlocked record_json (None, d)) as [oc s']. destruct Hr as [->|]; [|done]. by split.
Qed.

Lemma write_all_named rs (d : disk) :
  files_named d → (∀ r, r ∈ rs → is_hex32 (id (the_target r)) = true) → files_named (write_all rs d).
Proof.
  revert d. induction rs as [|r rs IH]; intros d Hd Hx; [done|].
  change (write_all (r :: rs) d) with (write_all rs (write_file (file_of r) (Some r) d)). apply IH; [|intros x Hin; apply Hx; by right].
  intros k c. cbn. destruct (decide (file_of r = k)) as [<-|Hne].
  - rewrite lookup_insert_eq. intros [= <-]. split; [exists r; split; [done|]; split; [done|]; apply Hx; left|]. by rewrite lookup_insert_eq.
  - rewrite lookup_insert_ne by done. intros [Hc Hdir]%Hd. split; [done|]. destruct (decide (organization_id (the_target r) = k.1)) as [E|].
    + cbn. by rewrite E, lookup_insert_eq.
    + by rewrite lookup_insert_ne.
Qed.

Lemma write_all_directories rs (d : disk) o :
  o ∉ ((λ r, organization_id (the_target r)) <$> rs) → directories (write_all rs d) !! o = directories d !! o.
Proof.
  revert d. induction rs as [|r rs IH]; intros d Hn; [done|]. cbn [fmap list_fmap] in Hn. apply not_elem_of_cons in Hn as [H1 H2].
  change (write_all (r :: rs) d) with (write_all rs (write_file (file_of r) (Some r) d)). rewrite IH by done. cbn. by rewrite lookup_insert_ne.
Qed.

Lemma written_in_step rs (s : site) :
  in_step s → (∀ r, r ∈ rs → is_hex32 (id (the_target r)) = true) → in_step (written rs s).2.
Proof.
  intros [Hn Hi] Hx. apply sync_in_step; [by apply write_all_named|]. cbn [fst snd]. intros fs st Hm.
  destruct (Hi fs st Hm) as (rows & Hix & -> & Hrows). exists rows. destruct (write_all_keeps rs s.2) as (_ & _ & -> & _).
  split; [done|]. split; [intros o Ho; by rewrite write_all_directories|]. intros k r Hk.
  apply write_all_lookup in Hk as Hk'. destruct Hk' as [(x & Hin & E & Hc)|[Hne Hk']].
  - destruct (last_written rs s.2 rows k) as (y & Hy & Ey & Hf & Hl); [by exists x|]. rewrite Hf in Hk. injection Hk as ->.
    by exists (row_of record_json r).
  - destruct (Hrows k r Hk') as (row & Hl & Hr). exists row. by rewrite upsert_other.
Qed.

(** ** Identities *)

(** No two assets of an organization have the same name. *)
Definition distinct (s : site) : Prop :=
  ∀ o i j r r', files s.2 !! (o, i) = Some (Some r) → files s.2 !! (o, j) = Some (Some r') →
    asset_type (the_target r) = asset_type (the_target r') → canonical_value (the_target r) = canonical_value (the_target r') → i = j.

(** The index answers for the files. *)
Lemma identity_free (s s1 : site) organization qs r i :
  in_step s → _index_identity_exists_unlocked record_json organization qs s = (Ok false, s1) → qs ≠ [] →
  files s.2 !! (organization, i) = Some (Some r) → (asset_type (the_target r), canonical_value (the_target r)) ∉ qs.
Proof.
  intros Hs Hid Hne Hf Hin. unfold _index_identity_exists_unlocked in Hid. rewrite bool_decide_eq_false_2 in Hid by done.
  pose proof (ensure_in_step organization s Hs) as [_ Hstep]. pose proof (ensure_keeps record_json organization s) as (Hfs & _).
  destruct (_ensure_index_current_unlocked record_json organization s) as [[[]|] s1'] eqn:He; [|done]. injection Hid as Hid <-.
  pose proof (ensure_opened record_json _ _ _ He) as [[[fs st] Hm] _]. cbn [snd] in *.
  destruct (Hstep fs st Hm) as (rows & Hi & _ & Hrows). rewrite Hi in Hid. injection Hid as Hid.
  apply any_of_false with (x := (asset_type (the_target r), canonical_value (the_target r))) in Hid; [|done].
  apply bool_decide_eq_false in Hid. apply Hid. rewrite <- Hfs in Hf. destruct (Hrows _ _ Hf) as (row & Hl & Ht & Hv).
  apply Nat.neq_0_lt_0. intros Hz. apply map_size_empty_inv in Hz. apply (f_equal (lookup (organization, i))) in Hz.
  rewrite lookup_empty in Hz. unfold select_where in Hz. rewrite map_lookup_filter, Hl in Hz. cbn in Hz.
  rewrite Ht, Hv, !String.eqb_refl in Hz. done.
Qed.

Lemma update_distinct (s : site) rs : updates s rs → distinct s → ∀ s', core s' = core (written rs s).2 → distinct s'.
Proof.
  intros Hu Hd s' Hc. apply core_files in Hc. rewrite written_files in Hc. intros o i j r r'. rewrite Hc.
  assert (Hsrc : ∀ k x, files (write_all rs s.2) !! k = Some (Some x) → ∃ x0, files s.2 !! k = Some (Some x0)
            ∧ asset_type (the_target x0) = asset_type (the_target x) ∧ canonical_value (the_target x0) = canonical_value (the_target x)).
  { intros k x [(y & Hy & <- & [= <-])|[_ H]]%write_all_lookup; [|by exists x]. destruct (Hu x Hy) as (x0 & Hx0 & [[= _ _ _ E1 E2 _] _ _ _ _]).
    by exists x0. }
  intros (x & Hx & Et & Ev)%Hsrc (y & Hy & Et' & Ev')%Hsrc E1 E2. apply (Hd o i j x y Hx Hy); congruence.
Qed.

Lemma register_distinct (s s1 : site) organization qs rs :
  in_step s → distinct s → qs ≠ [] → NoDup qs → _index_identity_exists_unlocked record_json organization qs s = (Ok false, s1) →
  registers organization qs rs → ∀ s', core s' = core (written rs s1).2 → distinct s'.
Proof.
  intros Hs Hd Hne Hnd Hid Hreg s' Hc. apply core_files in Hc. rewrite written_files in Hc.
  pose proof (identity_keeps record_json organization qs s) as (Hf & _). rewrite Hid in Hf. cbn [snd] in Hf.
  assert (Hnew : ∀ r, r ∈ rs → organization_id (the_target r) = organization ∧ (asset_type (the_target r), canonical_value (the_target r)) ∈ qs).
  { intros r Hr. apply list_elem_of_lookup_1 in Hr as [n Hn]. destruct (Forall2_lookup_r _ _ _ _ _ Hreg Hn) as (q & Hq & Ho & _ & <-).
    split; [done|]. by apply list_elem_of_lookup_2 in Hq. }
  assert (Hnn : ∀ r r', r ∈ rs → r' ∈ rs → asset_type (the_target r) = asset_type (the_target r') →
            canonical_value (the_target r) = canonical_value (the_target r') → id (the_target r) = id (the_target r')).
  { intros r r' Hr Hr' E1 E2. apply list_elem_of_lookup_1 in Hr as [n Hn], Hr' as [n' Hn'].
    destruct (Forall2_lookup_r _ _ _ _ _ Hreg Hn) as (q & Hq & _ & _ & Eq). destruct (Forall2_lookup_r _ _ _ _ _ Hreg Hn') as (q' & Hq' & _ & _ & Eq').
    assert (n = n') as <- by (eapply NoDup_lookup; [exact Hnd|exact Hq|rewrite Hq', <- Eq, <- Eq'; congruence]). congruence. }
  intros o i j r r'. rewrite Hc. intros [(x & Hx & E & [= ->])|[_ H]]%write_all_lookup [(y & Hy & E' & [= ->])|[_ H']]%write_all_lookup E1 E2.
  - injection E as _ <-. injection E' as _ <-. by apply Hnn.
  - exfalso. destruct (Hnew x Hx) as [Ho Hin]. injection E as <- _. rewrite Ho, Hf in H'. rewrite E1, E2 in Hin. by apply (identity_free s s1 organization qs r' j).
  - exfalso. destruct (Hnew y Hy) as [Ho Hin]. injection E' as <- _. rewrite Ho, Hf in H. rewrite <- E1, <- E2 in Hin. by apply (identity_free s s1 organization qs r i).
  - rewrite Hf in H, H'. by apply (Hd o i j r r').
Qed.

Lemma effect_in_step o (s s' : site) : effect o s s' → in_step s → distinct s → in_step s' ∧ distinct s'.
Proof.
  intros He Hs Hd. assert (Hsame : ∀ t : site, core s' = core t → files t.2 = files s.2 → distinct s').
  { intros t Hc%core_files Hf o' i j r r'. rewrite Hc, Hf. apply Hd. }
  destruct He as [Hc|organization Hc|rs Hu Hc|organization qs s1 rs Hne Hnd Hid Hreg Hfree Hc|organization asset Ho Hc|Hc].
  - split; [by apply (in_step_core s)|by apply (Hsame s)].
  - split; [apply (in_step_core _ _ Hc); by apply ensure_in_step|apply (Hsame _ Hc), ensure_keeps].
  - split; [|by apply (update_distinct s rs)]. apply (in_step_core _ _ Hc). apply written_in_step; [done|].
    intros r (r0 & Hf & He)%Hu. destruct Hs as [Hn _]. destruct (Hn _ _ Hf) as [(x & [= <-] & Hfx & Hx) _]. exact Hx.
  - assert (Hs1 : in_step s1).
    { unfold _index_identity_exists_unlocked in Hid. rewrite bool_decide_eq_false_2 in Hid by done.
      pose proof (ensure_in_step organization s Hs) as Hstep. destruct (_ensure_index_current_unlocked record_json organization s) as [[[]|] s1']; [|done].
      by injection Hid as _ <-. }
    split; [|by apply (register_distinct s s1 organization qs rs)]. apply (in_step_core _ _ Hc). apply written_in_step; [done|].
    intros r [n Hn]%list_elem_of_lookup_1. by destruct (Forall2_lookup_r _ _ _ _ _ Hreg Hn) as (q & _ & _ & ? & _).
  - unfold _index_delete_records_unlocked in Hc. rewrite bool_decide_eq_false_2 in Hc by done. split.
    + apply (in_step_core _ _ Hc), sync_in_step.
      * intros k c. cbn. destruct (decide ((organization, asset) = k)) as [->|Hne]; [by rewrite lookup_delete_eq|]. rewrite lookup_delete_ne by done.
        intros [Hn Hdir]%(proj1 Hs). split; [done|]. destruct (decide (organization = k.1)) as [->|]; [by rewrite lookup_insert_eq|by rewrite lookup_insert_ne].
      * cbn [fst snd]. intros fs st Hm. destruct (proj2 Hs fs st Hm) as (rows & Hi & -> & Hrows). exists rows. split; [done|]. split.
        -- intros o' Ho'. cbn. rewrite lookup_insert_ne; [done|]. intros <-. apply Ho'. by apply list_elem_of_singleton.
        -- intros k r. cbn. destruct (decide ((organization, asset) = k)) as [->|Hne]; [by rewrite lookup_delete_eq|]. rewrite lookup_delete_ne by done.
           intros (row & Hl & Hr)%Hrows. exists row. split; [|done]. apply map_lookup_filter_Some_2; [done|]. cbn.
           intros [E1 E2%list_elem_of_singleton]. destruct k. cbn in E1, E2. by subst.
    + apply core_files in Hc. intros o' i j r r'. rewrite Hc. destruct (sync_keeps record_json (λ t, filter (λ kr, ¬ (kr.1.1 = organization ∧ kr.1.2 ∈ [asset])) t)
        [organization] (s.1, unlink_file (organization, asset) s.2)) as (-> & _). cbn. intros [_ H]%lookup_delete_Some [_ H']%lookup_delete_Some. by apply (Hd o' i j r r').
  - split; [|by apply (Hsame _ Hc)]. apply (in_step_core _ _ Hc). split; [apply Hs|done].
Qed.

(** ** Runs *)

Lemma perform_all_in_step (s : site) os :
  journals s.2 = ∅ → in_step s → distinct s → in_step (perform_all s os) ∧ distinct (perform_all s os).
Proof.
  revert s. induction os as [|o os IH]; intros s Hj Hs Hd; [done|]. destruct (perform_effect s o Hj) as [He Hj'].
  destruct (effect_in_step o s _ He Hs Hd) as [Hs' Hd']. apply IH; [by rewrite Hj'|done|done].
Qed.

Lemma perform_all_evolves (s : site) os k r :
  journals s.2 = ∅ → files s.2 !! k = Some (Some r) → file_of r = k → DeleteAsset k.2 k.1 ∉ os →
  ∃ r', files (perform_all s os).2 !! k = Some (Some r') ∧ evolves r r'.
Proof.
  revert s r. induction os as [|o os IH]; intros s r Hj Hf Hk Hdel; [by exists r|].
  apply not_elem_of_cons in Hdel as [Hne Hdel]. destruct (perform_effect s o Hj) as [He Hj'].
  destruct (effect_evolves o s _ k r He (not_eq_sym Hne) Hf Hk) as (r1 & Hf1 & He1).
  destruct (IH (perform s o) r1) as (r' & Hf' & He'); [by rewrite Hj'|done|by rewrite (evolves_file r)|done|].
  exists r'. split; [done|]. by etrans.
Qed.

(** A disk with no asset, whose deletions are whatever they are. *)
Definition empty_store (marks : gmap string string) : site := (None, Disk ∅ ∅ None marks ∅ ∅ 0).

Lemma empty_store_run (marks : gmap string string) (os : list asset_op) :
  in_step (perform_all (empty_store marks) os) ∧ distinct (perform_all (empty_store marks) os).
Proof.
  apply perform_all_in_step; [done|..].
  - split; [|done]. intros k c. cbn. by rewrite lookup_empty.
  - intros o i j r r'. cbn. by rewrite lookup_empty.
Qed.

(** C24: whatever the operations, registrations one by one and in batches,
    renewals, revocations, deletions, restarts, no two assets of an
    organization ever have the same type and canonical value, since the index
    the registrations consult has every file's row; and every file holds a
    record of the organization and the identifier that name it. *)
Theorem identities_stay_unique (marks : gmap string string) (os : list asset_op) :
  distinct (perform_all (empty_store marks) os) ∧ in_step (perform_all (empty_store marks) os).
Proof. apply and_comm, empty_store_run. Qed.

(** C22: an asset that was registered, as long as it is not deleted, keeps its
    name, owner and time whatever is done to it and to the others, its events
    and its authorization revisions are only ever added to, what it allows
    changes only with a new revision, and a revocation is final: it stays
    revoked since the same time and never gets another revision. *)
Theorem authorization_history_kept (marks : gmap string string) (os later : list asset_op) k r :
  let s := perform_all (empty_store marks) os in
  files s.2 !! k = Some (Some r) → DeleteAsset k.2 k.1 ∉ later →
  ∃ r', files (perform_all s later).2 !! k = Some (Some r') ∧ evolves r r'.
Proof.
  intros s Hf Hdel. destruct (empty_store_run marks os) as [Hs _].
  destruct (proj1 Hs k _ Hf) as [(x & [= <-] & Hk & _) _]. apply perform_all_evolves; [|done..]. by apply perform_all_journals.
Qed.
End Runs.

Import Sample_batch.

Module Sample_asset.
Definition registered : list asset_op := [Create request "local-admin" "local-admin" (hex "a") (hex "b") (hex "c") (at_ 1)].
Definition again : ActiveAssetRenewRequest := RenewRequest (hex "e") (Some (hex "c")) [] wanted false.
Definition later : list asset_op :=
  [Renew (hex "a") again "local-admin" "local-admin" (hex "d") (at_ 2) (at_ 3); RestartStore;
   Revoke (hex "a") "local-admin" "local-admin" "left_scope" (hex "e") (at_ 4) (at_ 5)].
Definition store : site := perform_all no_json (empty_store ∅) registered.
Definition asset_file : string * string := ("local-admin", hex "a").
Definition has_file (s : site) : bool := match files s.2 !! asset_file with Some (Some _) => true | _ => false end.

Lemma has_file_true s : has_file s = true → ∃ r, files s.2 !! asset_file = Some (Some r).
Proof. unfold has_file. destruct (files s.2 !! asset_file) as [[r|]|]; [by exists r|done|done]. Qed.
End Sample_asset.
Import Sample_asset.

Lemma authorization_history_kept_witness :
  ∃ r, files store.2 !! asset_file = Some (Some r)
  ∧ ∃ r', files (perform_all no_json store later).2 !! asset_file = Some (Some r') ∧ evolves r r'.
Proof.
  destruct (has_file_true store) as [r Hr]; [vm_compute; reflexivity|]. exists r. split; [exact Hr|]. unfold store in Hr |- *.
  pose proof (authorization_history_kept no_json ∅ registered later asset_file r) as H. cbv zeta in H. apply H; [exact Hr|].
  clear. unfold later. rewrite !elem_of_cons. intros [?|[?|[?|?%elem_of_nil]]]; discriminate || contradiction.
Defined.

(** In the sample the renewal and the revocation are made. *)
Example sample_renewed_and_revoked :
  option_map (option_map (λ r, (length (authorization_revisions (the_life r)), bool_decide (is_Some (revoked_at (the_life r))))))
    (files (perform_all no_json store later).2 !! asset_file) = Some (Some (2%nat, true)).
Proof. vm_compute. reflexivity. Qed.
