(* ===== verification/AssetAuthorization.v ===== *)
(** * AssetAuthorization: what is admitted and what is renewed

    What the store of [backend/app/active_assets.py] promises of one call: an
    execution it admits is authorized, a renewal it makes is guarded and is
    made once, and what becomes of the store when an asset cannot be read. *)

From S2P Require Import Prelude PyStr Grouping Sha256 BearerToken Identifiers SqlTable CrashProg AssetTarget AssetRecord ActiveAssets AssetBatch AssetRuns.
Local Open Scope Z_scope.

Section Authorization.
Context (record_json : ActiveAssetRecord → string).

(** A change that was made: the record it started from and the file. *)
Lemma modify_made (s s' : site) organization asset now update r' :
  update_evolves update → modify record_json s organization asset now update = (Ok (r', true), s') →
  ∃ r0 r, files s.2 !! (organization, asset) = Some (Some r0) ∧ record_valid r0 = true ∧ file_of r0 = (organization, asset)
    ∧ active_asset_deletion_is_pending s.2 asset = false ∧ _materialize_status (read_normalized r0) now = Ok r
    ∧ update r = Ok (r', true) ∧ evolves r0 r' ∧ files s'.2 = <[(organization, asset) := Some r']> (files s.2) ∧ deletions s'.2 = deletions s.2.
Proof.
  intros Hup. unfold modify. destruct (current s.2 organization asset now) as [r|] eqn:Hc; cbn [mbind outcome_bind]; [|done].
  destruct (update r) as [[r1 []]|] eqn:Hu; [|done|done]. unfold _write_record_unlocked, _index_upsert_records_unlocked.
  destruct (sync_keeps record_json (λ t, upsert record_json t [r1]) ((λ r, organization_id (the_target r)) <$> [r1])
    (s.1, write_file (organization, asset) (Some r1) s.2)) as (Hf & _ & _ & Hd).
  destruct (sync _ _ _ _) as [o s2]. cbn [fst snd] in Hf, Hd. destruct o; [cbn|done]. intros [= <- <-].
  apply current_ok in Hc as (r0 & Hr0 & Hv & Hn & Hp & Hm). exists r0, r. repeat (split; [done|]).
  split; [|split; [by rewrite Hf|by rewrite Hd]]. etrans; [apply read_evolves|]. etrans; [by eapply materialize_evolves|]. by apply Hup.
Qed.

(** The last revision of a record that is read. *)
Lemma last_revision r rev :
  record_valid r = true → last (authorization_revisions (the_life r)) = Some rev →
  active_authorization_revision_digest (the_target r) rev = Ok (digest_sha256 rev)
  ∧ sequence rev = Z.of_nat (length (authorization_revisions (the_life r))) ∧ matches_scope rev (the_scope r) = true.
Proof.
  unfold record_valid, validate_authorization_revision_chain. intros H Hl. rewrite Hl in H. rewrite !andb_true_iff in H.
  destruct H as [_ [Hc Hm]]. assert (Hchain : ∀ l n, chain_valid (the_target r) n l = true → last l = Some rev →
    active_authorization_revision_digest (the_target r) rev = Ok (digest_sha256 rev) ∧ sequence rev = n + Z.of_nat (length l) - 1).
  { clear. induction l as [|x l IH]; intros n Hc Hl; [done|]. cbn [chain_valid] in Hc. rewrite !andb_true_iff in Hc. destruct Hc as [[H1 H2] H3].
    destruct l as [|y l].
    - injection Hl as ->. apply bool_decide_eq_true in H2. apply Z.eqb_eq in H1. split; [done|]. cbn [length]. lia.
    - destruct (IH (n + 1) H3 Hl) as [? ->]. split; [done|]. cbn [length]. lia. }
  destruct (Hchain _ 1 Hc Hl) as [? ->]. split; [done|]. split; [lia|done].
Qed.

Lemma materialized r0 now r :
  _materialize_status r0 now = Ok r →
  r = set_status r0 (status (the_life r))
  ∧ (status (the_life r) = "active" → revoked_at (the_life r0) = None ∧ instant now < instant (expires_at (the_scope r0)))
  ∧ (status (the_life r) = "revoked" → is_Some (revoked_at (the_life r0))).
Proof.
  unfold _materialize_status. case_bool_decide as Hr; [by intros [= <-]|]. apply eq_None_not_Some in Hr.
  intros (n & Hn & H)%bind_ok. unfold _aware_utc in Hn. destruct (negb (aware now)); [done|]. injection Hn as <-. rewrite instant_as_utc in H.
  destruct (negb (aware _)); [done|]. injection H as <-. split; [done|]. cbn [set_status the_life status].
  destruct (_ <=? _) eqn:E; [by split|]. apply Z.leb_gt in E. by split.
Qed.

(** C21: an execution that is admitted is authorized: the asset is on the disk
    and is not being deleted, it is not revoked, and its last authorization
    revision, whose digest is right, allows the capability and has not
    expired when the store reads the clock; the request and the actor are the
    last event of the asset's history, which is on the disk. *)
Theorem admission_is_authorized (s s' : site) asset organization actor capability event at_read at_write admitted made :
  admit_execution record_json s asset organization actor capability event at_read at_write = (Ok (admitted, made), s') →
  ∃ r0 rev now,
    files s.2 !! (organization, asset) = Some (Some r0) ∧ deletions s.2 !! asset = None ∧ revoked_at (the_life r0) = None
    ∧ last (authorization_revisions (the_life r0)) = Some rev
    ∧ active_authorization_revision_digest (the_target r0) rev = Ok (digest_sha256 rev)
    ∧ capability ∈ rev_capabilities rev ∧ instant at_read < instant (rev_expires_at rev)
    ∧ history (the_life admitted) = history (the_life r0) ++ [Event event "execution_requested" now actor None]
    ∧ files s'.2 !! (organization, asset) = Some (Some admitted).
Proof.
  intros H. assert (made = true) as ->.
  { unfold admit_execution, modify in H. destruct (_ ≫= _) as [[r []]|] eqn:E in H; [|exfalso|done].
    - destruct (_write_record_unlocked _ _ _ _) as [[] ]; [by injection H|done].
    - apply bind_ok in E as (r' & _ & E). inv_ok E. }
  apply modify_made in H as (r0 & r & Hf & Hv & _ & Hp & Hm & Hu & _ & Hf' & _).
  2:{ intros r r' E. inv_ok E. by split; cbn; [|apply prefix_app_r| | |]. }
  destruct (materialized _ _ _ Hm) as (Er & Hact & _). apply bind_ok in Hu as (rev & Hchk & Hu). unfold check_executable in Hchk.
  destruct (negb (String.eqb _ _)) eqn:Hst in Hchk; [done|]. apply negb_false_iff, String.eqb_eq in Hst.
  destruct (negb (mem _ _)) eqn:Hcap in Hchk; [done|]. apply negb_false_iff in Hcap. apply or_raise_ok in Hchk.
  destruct (negb (capacity_left _)); [done|]. apply bind_ok in Hu as (now & _ & Hu). apply bind_ok in Hu as (e & He & Hu). injection Hu as <-.
  unfold new_event in He. destruct (negb (event_valid _)) in He; [done|]. injection He as <-.
  destruct (Hact Hst) as [Hrev Hexp]. rewrite Er in Hchk, Hcap. cbn in Hchk, Hcap, Hrev, Hexp.
  destruct (last_revision r0 rev Hv Hchk) as (Hdig & _ & Hms). exists r0, rev, now.
  split; [done|]. split; [by apply eq_None_not_Some; apply bool_decide_eq_false in Hp|]. split; [done|]. split; [done|]. split; [done|].
  unfold matches_scope in Hms. rewrite !andb_true_iff in Hms. destruct Hms as [[[[[[[[[_ _] _] _] _] Hx] _] Hc] _] _].
  apply bool_decide_eq_true in Hc. apply Z.eqb_eq in Hx. split; [|split; [lia|]].
  - rewrite Hc, sorted_strs_perm. by apply mem_true.
  - split; [|by rewrite Hf', lookup_insert_eq]. rewrite Er. done.
Qed.

(** A renewal that is made. *)
Lemma renewal_made (s s' : site) asset q organization actor event at_read at_write updated :
  renew record_json s asset q organization actor event at_read at_write = (Ok (updated, true), s') →
  _validate_organization_identity organization = Ok tt ∧ _validate_actor_identity actor = Ok tt
  ∧ ∃ r0 r, files s.2 !! (organization, asset) = Some (Some r0) ∧ record_valid r0 = true ∧ file_of r0 = (organization, asset)
    ∧ active_asset_deletion_is_pending s.2 asset = false ∧ _materialize_status (read_normalized r0) at_read = Ok r
    ∧ renewal r q organization asset actor event at_write = Ok (updated, true) ∧ evolves r0 updated
    ∧ files s'.2 = <[(organization, asset) := Some updated]> (files s.2) ∧ deletions s'.2 = deletions s.2.
Proof.
  unfold renew. destruct (_ ≫= _) as [u|] eqn:Hi; [|done]. apply bind_ok in Hi as ([] & Ho & Ha). destruct u. intros H.
  split; [done|]. split; [done|]. apply modify_made in H; [done|]. intros x y. apply renewal_evolves.
Qed.

(** What a renewal adds. *)
Lemma renewal_adds r q organization asset actor event now updated :
  renewal r q organization asset actor event now = Ok (updated, true) →
  let rid := _renewal_revision_id organization asset (idempotency_key q) in
  revoked_at (the_life r) = None ∧ expected_revision_id q = revision_id <$> last (authorization_revisions (the_life r))
  ∧ first_match (λ x, String.eqb (revision_id x) rid) (authorization_revisions (the_life r)) = None
  ∧ is_ok (_validate_authorization_window (authorized_at (new_scope q)) (expires_at (new_scope q)) (as_utc now)) = true
  ∧ (_scope_expanded (capabilities (the_scope r)) (allowed_ports (the_scope r)) (allowed_protocols (the_scope r))
       (capabilities (new_scope q)) (allowed_ports (new_scope q)) (allowed_protocols (new_scope q)) = true → scope_expansion_confirmed q = true)
  ∧ ∃ n expanded rev raw, build_active_authorization_revision (the_target r) n "renewal" (as_utc now) (new_scope q) rid expanded = Ok rev
    ∧ updated = read_normalized raw ∧ record_valid raw = true ∧ the_target raw = the_target r ∧ the_scope raw = new_scope q
    ∧ responsible_user_ids (the_life raw) = new_responsible_user_ids q ∧ revoked_at (the_life raw) = None
    ∧ authorization_revisions (the_life raw) = authorization_revisions (the_life r) ++ [rev].
Proof.
  unfold renewal. cbv zeta. destruct (bool_decide _ || _) eqn:Hr; [done|]. apply orb_false_iff in Hr as [Hr%bool_decide_eq_false _].
  apply eq_None_not_Some in Hr. unfold current_active_authorization_revision. destruct (first_match _ _) eqn:Hfm; [by destruct (_ && _)|].
  intros H. destruct (negb _) eqn:Hx in H; [done|]. apply negb_false_iff, bool_decide_eq_true in Hx.
  destruct (_ <=? _) in H; [done|]. destruct (negb (capacity_left _)) in H; [done|].
  apply bind_ok in H as (n & Hn & H). unfold _aware_utc in Hn. destruct (negb (aware now)); [done|]. injection Hn as <-.
  destruct (negb (_ && _)) eqn:Hw in H; [done|]. apply negb_false_iff, andb_true_iff in Hw as [Hw _].
  destruct (_ && negb (scope_expansion_confirmed q)) eqn:Hc in H; [done|].
  apply bind_ok in H as (rev & Hrev & H). apply bind_ok in H as (e & _ & H). destruct (negb (record_valid _)) eqn:Hv in H; [done|].
  apply negb_false_iff in Hv. injection H as <-. repeat (split; [done|]). split.
  - intros E. rewrite E in Hc. by destruct (scope_expansion_confirmed q).
  - eexists _, _, rev, _. repeat (split; [first [exact Hrev|reflexivity|exact Hv]|]). done.
Qed.

(** What a scope that was not expanded has. *)
Lemma not_expanded oc op opr nc np npr :
  _scope_expanded oc op opr nc np npr = false → nc ⊆ oc ∧ np ⊆ op ∧ npr ⊆ opr.
Proof.
  unfold _scope_expanded, adds. rewrite !orb_false_iff, !any_of_false. intros [[H1 H2] H3].
  split; [|split]; intros x Hx; [specialize (H1 x Hx)|specialize (H2 x Hx)|specialize (H3 x Hx)];
    match goal with H : bool_decide _ = false |- _ => apply bool_decide_eq_false, dec_stable in H; exact H end.
Qed.

(** C25: a renewal is guarded: it is made only over an asset that is on the
    disk and not revoked, by a request that names the revision it replaces,
    for a window that is open when it is made and lasts at most 366 days, and
    unless the request confirms an expansion what it allows was allowed
    before; it adds one revision, the next in number and with its own digest,
    and the record with it is on the disk. *)
Theorem renewal_is_guarded (s s' : site) asset q organization actor event at_read at_write updated :
  renew record_json s asset q organization actor event at_read at_write = (Ok (updated, true), s') →
  let scp := new_scope q in
  ∃ r0 rev,
    files s.2 !! (organization, asset) = Some (Some r0) ∧ revoked_at (the_life r0) = None
    ∧ expected_revision_id q = revision_id <$> last (authorization_revisions (the_life r0))
    ∧ (scope_expansion_confirmed q = false →
         capabilities scp ⊆ capabilities (the_scope r0) ∧ allowed_ports scp ⊆ allowed_ports (the_scope r0)
         ∧ allowed_protocols scp ⊆ allowed_protocols (the_scope r0))
    ∧ instant at_write < instant (expires_at scp) ∧ instant (authorized_at scp) <= instant at_write + seconds 300
    ∧ instant (expires_at scp) - instant (authorized_at scp) <= days 366
    ∧ authorization_revisions (the_life updated) = authorization_revisions (the_life r0) ++ [rev]
    ∧ sequence rev = Z.of_nat (length (authorization_revisions (the_life r0))) + 1
    ∧ active_authorization_revision_digest (the_target updated) rev = Ok (digest_sha256 rev)
    ∧ the_scope updated = scp ∧ files s'.2 !! (organization, asset) = Some (Some updated).
Proof.
  intros (_ & _ & r0 & r & Hf & Hv0 & _ & _ & Hm & Hren & _ & Hf' & _)%renewal_made scp.
  destruct (materialized _ _ _ Hm) as (Er & _). apply renewal_adds in Hren as (Hrev & Hx & _ & Hw & Hc & n & ex & rev & raw & Hb & Eu & Hv & Et & Es & _ & _ & Ea).
  assert (Hl : authorization_revisions (the_life r) = authorization_revisions (the_life r0)) by by rewrite Er.
  assert (Hs : the_scope r = the_scope r0) by by rewrite Er. rewrite Hl in Hx, Ea. rewrite Hs in Hc.
  exists r0, rev. split; [done|]. split; [by rewrite Er in Hrev|]. split; [done|]. split.
  { intros Hn. apply not_expanded. destruct (_scope_expanded _ _ _ _ _ _); [|done]. by rewrite Hc in Hn. }
  fold scp in Hw, Es. unfold _validate_authorization_window in Hw.
  unfold _aware_utc in Hw. destruct (negb (aware (authorized_at scp))); [done|]. destruct (negb (aware (expires_at scp))); [done|].
  destruct (negb (aware (as_utc at_write))); [done|]. cbn [mbind outcome_bind] in Hw. rewrite !instant_as_utc in Hw.
  destruct (_ <? instant (authorized_at scp)) eqn:W1 in Hw; [done|]. destruct (_ <=? instant at_write) eqn:W2 in Hw; [done|].
  destruct (_ <=? instant (authorized_at scp)) in Hw; [done|]. destruct (_ <? instant (expires_at scp) - _) eqn:W4 in Hw; [done|].
  split; [lia|]. split; [lia|]. split; [lia|]. subst updated. cbn [the_life read_normalized with_responsible authorization_revisions].
  split; [done|]. destruct (last_revision raw rev Hv) as (Hd & Hq & _); [by rewrite Ea, last_snoc|].
  split; [rewrite Hq, Ea, length_app; cbn; lia|]. split; [exact Hd|]. split; [exact Es|]. by rewrite Hf', lookup_insert_eq.
Qed.

(** A record that was just written is the one read. *)
Lemma current_written (s' : site) organization asset raw now :
  files s'.2 !! (organization, asset) = Some (Some (read_normalized raw)) →
  _path organization asset = Ok (organization, asset) → active_asset_deletion_is_pending s'.2 asset = false →
  record_valid raw = true → the_target (read_normalized raw) = the_target raw → file_of raw = (organization, asset) →
  current s'.2 organization asset now = _materialize_status (read_normalized raw) now.
Proof.
  intros Hf Hp Hd Hv Ht Hn. unfold current, _read. rewrite Hp. cbn [mbind outcome_bind negb andb]. rewrite Hd, Hf. cbn [or_raise mbind outcome_bind].
  unfold read_content. rewrite read_back by done. cbn [negb]. rewrite Ht. injection Hn as -> ->. rewrite !String.eqb_refl. cbn [andb negb].
  by rewrite read_normalized_idem.
Qed.

Lemma first_match_snoc {A} (p : A → bool) (l : list A) (x : A) : first_match p l = None → p x = true → first_match p (l ++ [x]) = Some x.
Proof. unfold first_match. induction l as [|y l IH]; cbn; [by intros _ ->|]. destruct (p y); [done|]. exact IH. Qed.

Lemma built_revision t n src now (s : scope) rid expanded rev :
  build_active_authorization_revision t n src now s rid expanded = Ok rev →
  revision_id rev = rid ∧ instant (rev_authorized_at rev) = instant (authorized_at s) ∧ instant (rev_expires_at rev) = instant (expires_at s)
  ∧ rev_method rev = authorization_method s ∧ rev_capabilities rev = sorted_strs (capabilities s)
  ∧ rev_ports rev = sorted_ints (allowed_ports s) ∧ rev_protocols rev = sorted_strs (allowed_protocols s)
  ∧ aware (authorized_at s) = true ∧ aware (expires_at s) = true.
Proof.
  unfold build_active_authorization_revision, _aware_utc. destruct (aware now); [|done].
  destruct (aware (authorized_at s)) eqn:Ha; [|done]. destruct (aware (expires_at s)) eqn:He; [|done]. cbn [negb mbind outcome_bind].
  destruct (negb (revision_valid _)); [done|]. intros (d & _ & [= <-])%bind_ok. cbn. by rewrite !instant_as_utc.
Qed.

Lemma validated_renewal now q0 q : validate_renew now q0 = Ok q → sorted_set (new_responsible_user_ids q) = new_responsible_user_ids q.
Proof.
  unfold validate_renew, validate_responsible_ids. destruct (negb (_ && _)); [done|]. intros (l & Hl & H)%bind_ok.
  destruct (_ || _) in Hl; [done|]. injection Hl as <-. apply bind_ok in H as (s & _ & H). apply bind_ok in H as ([] & _ & H).
  injection H as <-. apply sorted_set_idem.
Qed.

(** A renewal is made once: a request that was validated and made, when it
    is sent again and the asset was not touched in between, whatever the time
    and whether the asset expired meanwhile, changes nothing and answers with
    the record it made. *)
Theorem renewal_is_replayed (s s' : site) asset q0 q organization actor event event' validated_at at_read at_write read_again write_again updated :
  validate_renew validated_at q0 = Ok q →
  renew record_json s asset q organization actor event at_read at_write = (Ok (updated, true), s') → aware read_again = true →
  ∃ st, renew record_json s' asset q organization actor event' read_again write_again = (Ok (set_status updated st, false), s').
Proof.
  intros Hq H Haw. apply renewal_made in H as (Ho & Ha & r0 & r & Hf & Hv0 & Hn & Hp & Hm & Hren & Hev & Hf' & Hd').
  destruct (materialized _ _ _ Hm) as (Er & _).
  apply renewal_adds in Hren as (_ & _ & Hfm & _ & _ & n & ex & rev & raw & Hb & Eu & Hv & Et & Es & Eresp & Erev & Ea).
  set (rid := _renewal_revision_id organization asset (idempotency_key q)) in *.
  assert (Hnorm : the_target (read_normalized raw) = the_target raw).
  { assert (Htr : the_target r = the_target (read_normalized r0)) by by rewrite Er. rewrite Htr in Et.
    assert (E1 : the_target (read_normalized raw) = the_target (read_normalized (read_normalized r0))) by (unfold read_normalized; cbn; by rewrite Et).
    by rewrite E1, read_normalized_idem. }
  assert (Hfile : file_of raw = (organization, asset)) by by rewrite <- Hn, <- (evolves_file r0 updated Hev), Eu.
  assert (Hpath : _path organization asset = Ok (organization, asset)).
  { unfold _path. rewrite Ho. unfold _validate_asset_id. assert (is_hex32 asset = true) as ->; [|done].
    unfold record_valid, target_valid, target_named in Hv. rewrite !andb_true_iff in Hv. destruct Hv as [[[[[[[[Hx _] _] _] _] _] _] _] _].
    unfold file_of in Hfile. by injection Hfile as _ <-. }
  destruct (built_revision _ _ _ _ _ _ _ _ Hb) as (B1 & B2 & B3 & B4 & B5 & B6 & B7 & _ & Haw2).
  pose proof (validated_renewal _ _ _ Hq) as Hsorted.
  assert (Hcur : current s'.2 organization asset read_again = _materialize_status updated read_again).
  { rewrite Eu. apply current_written; [by rewrite Hf', lookup_insert_eq, Eu|done| |done..].
    unfold active_asset_deletion_is_pending in Hp |- *. by rewrite Hd'. }
  set (st := if instant (expires_at (new_scope q)) <=? instant read_again then "expired" else "active").
  assert (Hmat : _materialize_status updated read_again = Ok (set_status updated st)).
  { unfold _materialize_status. rewrite bool_decide_eq_false_2; [|rewrite Eu; cbn; rewrite Erev; by intros []].
    unfold _aware_utc. rewrite Haw. cbn [negb mbind outcome_bind]. assert (the_scope updated = new_scope q) as -> by by rewrite Eu.
    rewrite Haw2. cbn [negb]. by rewrite instant_as_utc. }
  exists st. unfold renew. rewrite Ho. cbn [mbind outcome_bind]. rewrite Ha. unfold modify. rewrite Hcur, Hmat. cbn [mbind outcome_bind].
  assert (Hrevs : authorization_revisions (the_life (set_status updated st)) = authorization_revisions (the_life r) ++ [rev]) by by rewrite Eu; cbn; rewrite Ea.
  assert (Hren2 : renewal (set_status updated st) q organization asset actor event' write_again = Ok (set_status updated st, false)); [|by rewrite Hren2].
  unfold renewal. cbv zeta. fold rid. rewrite Hrevs. unfold current_active_authorization_revision. rewrite Hrevs, last_snoc.
  assert (bool_decide (is_Some (revoked_at (the_life (set_status updated st)))) || String.eqb (status (the_life (set_status updated st))) "revoked" = false) as ->.
  { rewrite bool_decide_eq_false_2 by (rewrite Eu; cbn; rewrite Erev; by intros []). cbn. unfold st. by destruct (_ <=? _). }
  rewrite (first_match_snoc _ _ rev Hfm) by by rewrite B1, String.eqb_refl. cbn [from_option]. rewrite String.eqb_refl. cbn [andb].
  assert (_renewal_matches (set_status updated st) rev q = true) as ->; [|done].
  unfold _renewal_matches. rewrite B2, B3, B4, B5, B6, B7. assert (the_scope (set_status updated st) = new_scope q) as -> by by rewrite Eu.
  assert (responsible_user_ids (the_life (set_status updated st)) = new_responsible_user_ids q) as -> by by rewrite Eu; cbn; rewrite Eresp.
  by rewrite !String.eqb_refl, !Z.eqb_refl, !bool_decide_eq_true_2.
Qed.

(** ** An asset that cannot be read *)

Lemma unreadable_rebuild (d : disk) organization asset c e :
  files d !! (organization, asset) = Some c → is_hex32 asset = true → is_Some (directories d !! organization) →
  read_content c organization asset = Err e → ∃ e', _rebuild_index_unlocked record_json (None, d) = (Err e', (None, d)).
Proof.
  intros Hf Hx Hdir Hr. unfold _rebuild_index_unlocked. destruct (all_records d) as [rs|e'] eqn:Hall; [exfalso|by exists e'].
  unfold all_records in Hall. apply bind_ok in Hall as (parts & Hparts & _). apply traverse_ok in Hparts.
  assert (Hin : organization ∈ sorted_strs (elements (dom (directories d)))).
  { rewrite sorted_strs_perm. apply elem_of_elements, elem_of_dom. exact Hdir. }
  apply list_elem_of_lookup_1 in Hin as [n Hn]. destruct (Forall2_lookup_l _ _ _ _ _ Hparts Hn) as (part & _ & Hload).
  apply bind_ok in Hload as (_ & _ & Hload). unfold _load_all_unlocked in Hload. apply traverse_ok in Hload.
  assert (Hin : ((organization, asset), c) ∈ filter (λ kc : string * string * content, kc.1.1 = organization ∧ is_hex32 kc.1.2 = true
                 ∧ (true = true ∨ active_asset_deletion_is_pending d kc.1.2 = false)) (map_to_list (files d))).
  { apply list_elem_of_filter. split; [cbn; auto|]. by apply elem_of_map_to_list. }
  apply list_elem_of_lookup_1 in Hin as [j Hj]. destruct (Forall2_lookup_l _ _ _ _ _ Hload Hj) as (x & _ & Hread).
  cbn [fst snd] in Hread. by rewrite Hr in Hread.
Qed.

(** A store that starts with such an asset registers nothing, for anyone. *)
Lemma unreadable_blocks (d : disk) organization asset c e :
  files d !! (organization, asset) = Some c → is_hex32 asset = true → is_Some (directories d !! organization) →
  read_content c organization asset = Err e →
  ∀ q org actor asset' event revision now, ∃ e', create record_json (None, d) q org actor asset' event revision now = (Err e', (None, d)).
Proof.
  intros Hf Hx Hdir Hr q org actor asset' event revision now. destruct (unreadable_rebuild d organization asset c e Hf Hx Hdir Hr) as [e' He].
  unfold create. destruct (_ ≫= _) as [r|e'']; [|by exists e'']. exists e'.
  unfold _index_identity_exists_unlocked. rewrite bool_decide_eq_false_2 by done. unfold _ensure_index_current_unlocked. by rewrite He.
Qed.

(** A change that was made is in the organization's directory. *)
Lemma modify_directory (s s' : site) organization asset now update r' :
  modify record_json s organization asset now update = (Ok (r', true), s') → is_Some (directories s'.2 !! organization).
Proof.
  unfold modify. destruct (_ ≫= _) as [[r []]|]; [|done|done]. unfold _write_record_unlocked, _index_upsert_records_unlocked.
  set (s1 := (s.1, write_file (organization, asset) (Some r) s.2)).
  assert (Hd : ∀ change orgs, directories (sync record_json change orgs s1).2.2 = directories s1.2).
  { intros change orgs. unfold sync, s1. destruct s.1 as [[fs st]|]; [destruct (index_file _) as [[rows z]|]; [done|]|];
      unfold _rebuild_index_unlocked; by destruct (all_records _). }
  destruct (sync _ _ _ s1) as [o s2] eqn:E. pose proof (Hd (λ t, upsert record_json t [r]) ((λ r, organization_id (the_target r)) <$> [r])) as H.
  rewrite E in H. cbn [snd] in H. intros [= _ <-]. rewrite H. cbn. rewrite lookup_insert_eq. by eexists.
Qed.

(** What reads back of a note of white space only. *)
Lemma blank_note_unreadable r n organization asset :
  n ∈ notes (the_target r) → note_value n = "" → read_content (Some r) organization asset = Err "asset_store_invalid".
Proof.
  intros Hn Hv. unfold read_content. assert (record_valid r = false) as ->; [|done].
  apply not_true_is_false. unfold record_valid, target_valid. rewrite !andb_true_iff. intros [[[[[_ H] _] _] _] _].
  rewrite all_of_true in H. specialize (H n Hn). unfold read_note in H. rewrite Hv in H.
  change (1 <=? len "")%nat with false in H. by rewrite andb_false_r in H.
Qed.

(** Revoking an asset whose history has 500 events writes a record that
    cannot be read: the revocation answers as made, and from then on the asset
    is invalid for every call, and once the process has started again no asset
    of any organization can be registered. *)
Theorem full_history_loses_asset (s s' : site) asset organization actor reason event at_read at_write r0 revoked :
  files s.2 !! (organization, asset) = Some (Some r0) → length (history (the_life r0)) = 500%nat →
  revoke record_json s asset organization actor reason event at_read at_write = (Ok (revoked, true), s') →
  (∀ now, get s'.2 asset organization now = Err "asset_store_invalid")
  ∧ (∀ q org who asset' event' revision now, ∃ e,
       create record_json (None, s'.2) q org who asset' event' revision now = (Err e, (None, s'.2))).
Proof.
  intros Hf Hlen H. unfold revoke in H. destruct (negb (is_reason_code reason)); [done|].
  pose proof (modify_directory _ _ _ _ _ _ _ H) as Hdir. apply modify_made in H as (r0' & r & Hf0 & Hv & Hn & Hp & Hm & Hu & _ & Hf' & Hd').
  2:{ intros x y E. case_bool_decide as Hne; [done|]. inv_ok E. split; cbn; [done|by apply prefix_app_r|done|done|]. intros t Ht. destruct Hne. by exists t. }
  rewrite Hf in Hf0. injection Hf0 as <-. destruct (materialized _ _ _ Hm) as (Er & _). case_bool_decide; [done|]. inv_ok Hu.
  match type of Hf' with _ = <[_ := Some ?x]> _ => set (written := x) in * end.
  assert (Hlong : length (history (the_life written)) = 501%nat).
  { unfold written. cbn [the_life history]. rewrite Er. rewrite length_app. cbn [set_status read_normalized the_life with_responsible history length]. lia. }
  assert (Hbad : read_content (Some written) organization asset = Err "asset_store_invalid").
  { unfold read_content. assert (record_valid written = false) as ->; [|done]. apply not_true_is_false. unfold record_valid, history_fits.
    rewrite !andb_true_iff. intros [[_ Hh] _]. rewrite Hlong in Hh. done. }
  assert (Hx : is_owner organization = true ∧ is_hex32 asset = true).
  { unfold record_valid, target_valid, target_named in Hv. rewrite !andb_true_iff in Hv. destruct Hv as [[[[[[[[X1 X2] _] _] _] _] _] _] _].
    unfold file_of in Hn. by injection Hn as <- <-. }
  destruct Hx as [Ho Hx]. split.
  - intros now. unfold get, _validate_organization_identity, _validate_asset_id. rewrite Ho, Hx. cbn [negb mbind outcome_bind].
    unfold _read, active_asset_deletion_is_pending in Hp |- *. rewrite Hd', Hp. cbn [negb andb]. rewrite Hf', lookup_insert_eq. cbn [or_raise mbind outcome_bind].
    by rewrite Hbad.
  - apply (unreadable_blocks _ organization asset (Some written) "asset_store_invalid"); [|done..]. by rewrite Hf', lookup_insert_eq.
Qed.
End Authorization.

Import Sample_batch Sample_asset.

(** A call that succeeds, with what it answers. *)
Lemma made_true {A B} (c : outcome (A * bool) * B) :
  match c.1 with Ok (_, b) => b | Err _ => false end = true → ∃ a b, c = (Ok (a, true), b).
Proof. destruct c as [[[a b]|] s]; cbn; [intros ->; by exists a, s|done]. Qed.

Module Sample_calls.
Definition renewed := renew no_json store (hex "a") again "local-admin" "local-admin" (hex "d") (at_ 2) (at_ 3).
Definition admitted_call := admit_execution no_json store (hex "a") "local-admin" "local-admin" "active_dns_inventory" (hex "d") (at_ 2) (at_ 3).

(** An asset of an earlier version, without revisions, whose history is full. *)
Definition full : ActiveAssetRecord :=
  Asset (Target (hex "a") "local-admin" "local-admin" "domain" "example.com" [] (at_ 0)) wanted
    (Life [] None "active" (at_ 1) None [] (replicate 500 (Event (hex "b") "baseline_selected" (at_ 1) "local-admin" None)) []).
Definition full_store : site :=
  (Some (0, {["local-admin" := 0]}), Disk {[asset_file := Some full]} {["local-admin" := 0]} (Some (∅, 0)) ∅ ∅ ∅ 0).
Definition full_revoked := revoke no_json full_store (hex "a") "local-admin" "local-admin" "left_scope" (hex "e") (at_ 4) (at_ 5).
End Sample_calls.
Import Sample_calls.

Lemma admission_is_authorized_witness :
  ∃ admitted s' r0 rev, admitted_call = (Ok (admitted, true), s') ∧ files store.2 !! asset_file = Some (Some r0)
    ∧ last (authorization_revisions (the_life r0)) = Some rev ∧ "active_dns_inventory" ∈ rev_capabilities rev.
Proof.
  destruct (made_true admitted_call) as (admitted & s' & E); [vm_compute; reflexivity|].
  destruct (admission_is_authorized no_json _ _ _ _ _ _ _ _ _ _ _ E) as (r0 & rev & now & H1 & _ & _ & H2 & _ & H3 & _).
  exists admitted, s', r0, rev. split; [exact E|]. split; [exact H1|]. split; [exact H2|exact H3].
Defined.

Lemma renewal_is_guarded_witness :
  ∃ updated s', renewed = (Ok (updated, true), s') ∧ the_scope updated = wanted ∧ files s'.2 !! asset_file = Some (Some updated).
Proof.
  destruct (made_true renewed) as (updated & s' & E); [vm_compute; reflexivity|]. exists updated, s'. split; [exact E|].
  destruct (renewal_is_guarded no_json _ _ _ _ _ _ _ _ _ _ E) as (r0 & rev & _ & _ & _ & _ & _ & _ & _ & _ & _ & _ & H1 & H2).
  split; [exact H1|exact H2].
Defined.

Lemma renewal_is_replayed_witness :
  ∃ updated s' st, renewed = (Ok (updated, true), s')
    ∧ renew no_json s' (hex "a") again "local-admin" "local-admin" (hex "f") (at_ 2000) (at_ 2001) = (Ok (set_status updated st, false), s').
Proof.
  destruct (made_true renewed) as (updated & s' & E); [vm_compute; reflexivity|].
  destruct (renewal_is_replayed no_json store s' (hex "a") again again "local-admin" "local-admin" (hex "d") (hex "f") (at_ 1) (at_ 2) (at_ 3)
    (at_ 2000) (at_ 2001) updated) as [st H]; [vm_compute; reflexivity|exact E|reflexivity|].
  exists updated, s', st. split; [exact E|exact H].
Defined.

Lemma full_history_loses_asset_witness :
  ∃ revoked s', full_revoked = (Ok (revoked, true), s') ∧ ∀ now, get s'.2 (hex "a") "local-admin" now = Err "asset_store_invalid".
Proof.
  destruct (made_true full_revoked) as (revoked & s' & E); [vm_compute; reflexivity|]. exists revoked, s'. split; [exact E|].
  apply (full_history_loses_asset no_json full_store s' (hex "a") "local-admin" "local-admin" "left_scope" (hex "e") (at_ 4) (at_ 5) full revoked);
    [vm_compute; reflexivity|vm_compute; reflexivity|exact E].
Defined.

(** A note of spaces is valid in a request, is kept as an empty note, and the
    asset registered with it cannot be read. *)
Example blank_note_registered :
  let q := CreateRequest "domain" "example.com" [] wanted [Note "business_context" "   "] in
  match validate_create (at_ 1) q with
  | Ok q' =>
      let '(o, s) := create no_json (empty_store ∅) q' "local-admin" "local-admin" (hex "a") (hex "b") (hex "c") (at_ 1) in
      (is_ok o, match get s.2 (hex "a") "local-admin" (at_ 2) with Err e => e | Ok _ => "read" end)
  | Err e => (false, e)
  end = (true, "asset_store_invalid").
Proof. vm_compute. reflexivity. Qed.
