(* ===== verification/VerificationStore.v ===== *)
(** * VerificationStore: proving control of an asset

    Models [ActiveAssetVerificationStore] of
    [backend/app/active_asset_verification.py] with its index,
    [backend/app/active_verification_index.py]: the challenges whose token is
    shown once and whose digest alone is kept, what becomes of them, and the
    latest of each asset.  A file holds a record, or what does not parse as
    one; the store reads the clock each time it is needed and the operations
    take the readings.  The metadata of directories are stamps
    ([StampedIndex]); failing system calls and stray files are not modelled,
    and the JSON text of a record is the argument [record_json]. *)

From S2P Require Import Prelude PyStr Grouping Sha256 BearerToken Identifiers SqlTable StampedIndex AssetTarget AssetRecord.
Local Open Scope Z_scope.

(** backend/app/active_asset_verification.py 24-30 [constants] *)
Definition ACTIVE_ASSET_VERIFICATION_CHALLENGE_TTL_SECONDS : Z := 900.
Definition ACTIVE_ASSET_VERIFICATION_MAX_ATTEMPTS_PER_HOUR : nat := 5.
Definition ACTIVE_ASSET_VERIFICATION_WELL_KNOWN_PATH : string := "/.well-known/inspectra-verification".
Definition ACTIVE_VERIFICATION_INDEX_MAX_ASSETS : nat := 500.
Definition verification_index_invalid : string := "active_verification_index_invalid".

Definition VerificationMethod : list string := ["manual_attestation"; "dns_txt"; "http_well_known"; "managed_private"].
Definition VerificationStatus : list string := ["pending"; "verified"; "failed"; "expired"; "revoked"].

(** ** Records *)

(** What a challenge is, which never changes. *)
Record challenge : Type := Challenge {
  v_id : string;
  v_asset_id : string;
  v_organization_id : string;
  v_actor_id : string;
  v_method : string;
  challenge_sha256 : string;
  v_created_at : datetime;
  challenge_expires_at : datetime;
  requested_valid_days : Z
}.

(** What became of it. *)
Record answer_state : Type := AnswerState {
  v_status : string;
  attempts : Z;
  last_attempt_at : option datetime;
  verified_at : option datetime;
  verification_expires_at : option datetime;
  v_revoked_at : option datetime;
  v_reason_code : option string
}.

(** backend/app/active_asset_verification.py [ActiveAssetVerificationRecord] *)
Record ActiveAssetVerificationRecord : Type := Verification {
  the_challenge : challenge;
  the_state : answer_state
}.

(** backend/app/active_asset_verification.py 68-84 [ActiveAssetVerificationRecord] *)
Definition verification_valid (r : ActiveAssetVerificationRecord) : bool :=
  let c := the_challenge r in
  let s := the_state r in
  is_hex32 (v_id c) && is_hex32 (v_asset_id c) && is_owner (v_organization_id c) && is_actor (v_actor_id c)
  && mem (v_method c) VerificationMethod && mem (v_status s) VerificationStatus && is_hex64 (challenge_sha256 c)
  && in_range 1 90 (requested_valid_days c) && in_range 0 1 (attempts s) && from_option is_reason_code true (v_reason_code s).

(** backend/app/active_asset_verification.py [ActiveAssetVerificationObservation] *)
Record ActiveAssetVerificationObservation : Type := Observation { matched : bool; obs_reason_code : string }.

(** [^iv1_[A-Za-z0-9_-]{32}$] *)
Definition _TOKEN (s : string) : bool :=
  startswith "iv1_" s && all_chars (λ c, is_ascii_alnum c || one_of "_-" c) (str_drop 4 s) && (len s =? 36)%nat.

(** backend/app/active_asset_verification.py [_digest] *)
Definition _digest (token : string) : string := sha256_hex (utf8 token).

(** backend/app/active_asset_verification.py [_utc] *)
Definition _utc (value : datetime) : outcome datetime := raise "timezone_required" when (negb (aware value));; Ok (as_utc value).

(** A comparison with the clock's time: of a time that is not aware, none. *)
Definition at_or_before (t now : datetime) : outcome bool :=
  raise "TypeError" when (negb (aware t));; Ok (instant t <=? instant now).

Definition with_status (r : ActiveAssetVerificationRecord) (status reason : string) : ActiveAssetVerificationRecord :=
  let s := the_state r in
  Verification (the_challenge r)
    (AnswerState status (attempts s) (last_attempt_at s) (verified_at s) (verification_expires_at s) (v_revoked_at s) (Some reason)).

(** backend/app/active_asset_verification.py [ActiveAssetVerificationStore._materialize] *)
Definition _materialize (r : ActiveAssetVerificationRecord) (raw_now : datetime) : outcome ActiveAssetVerificationRecord :=
  now ← _utc raw_now;
  let s := the_state r in
  expired ← (if String.eqb (v_status s) "pending" then at_or_before (challenge_expires_at (the_challenge r)) now
             else if String.eqb (v_status s) "verified" then from_option (λ e, at_or_before e now) (Ok false) (verification_expires_at s)
             else Ok false);
  Ok (if expired : bool then with_status r "expired" "expired" else r).

(** ** Files and index *)

Abbreviation content := (option ActiveAssetVerificationRecord).

(** The columns of a row, but for its key [verification_id]. *)
(** backend/app/active_verification_index.py 283-291 [ActiveVerificationIndex._rebuild] *)
Record verification_row : Type := VerificationRow {
  row_organization_id : string;
  row_asset_id : string;
  row_status : string;
  row_created_at_micros : Z;
  row_challenge_expires_at_micros : Z;
  row_verification_expires_at_micros : option Z;
  row_digest : string
}.
#[export] Instance verification_row_eq_dec : EqDecision verification_row.
Proof. solve_decision. Defined.

Abbreviation table := (gmap string verification_row).
Abbreviation world := (memory * stamped (string * string) content table)%type.

(** [_read] of a file's content; the names in the record are not compared with
    the file's. *)
(** backend/app/active_asset_verification.py 335-338 [ActiveAssetVerificationStore._read] *)
Definition read_content (c : content) : outcome ActiveAssetVerificationRecord :=
  match c with
  | None => Err "verification_store_invalid"
  | Some r => raise "verification_store_invalid" when (negb (verification_valid r));; Ok r
  end.

(** backend/app/active_asset_verification.py [ActiveAssetVerificationStore._read] *)
Definition _read (d : stamped (string * string) content table) (k : string * string) : outcome ActiveAssetVerificationRecord :=
  c ← or_raise (files d !! k) "verification_not_found"; read_content c.

Section Store.
Context (record_json : ActiveAssetVerificationRecord → string).

(** backend/app/active_verification_index.py [active_verification_record_digest] *)
Definition active_verification_record_digest (r : ActiveAssetVerificationRecord) : string := sha256_hex (utf8 (record_json r)).

(** A time that is not aware is taken in the host's zone, here UTC. *)
Definition row_of (r : ActiveAssetVerificationRecord) : verification_row :=
  let c := the_challenge r in
  VerificationRow (v_organization_id c) (v_asset_id c) (v_status (the_state r)) (instant (v_created_at c)) (instant (challenge_expires_at c))
    (instant <$> verification_expires_at (the_state r)) (active_verification_record_digest r).

(** backend/app/active_verification_index.py [ActiveVerificationIndex._replace_record] *)
Definition _replace_record (t : table) (r : ActiveAssetVerificationRecord) : outcome table :=
  let c := the_challenge r in
  raise verification_index_invalid when (negb (is_hex32 (v_id c) && is_hex32 (v_asset_id c) && is_owner (v_organization_id c)));;
  Ok (<[v_id c := row_of r]> t).

Fixpoint replace_records (t : table) (rs : list ActiveAssetVerificationRecord) : outcome table :=
  match rs with
  | [] => Ok t
  | r :: rs' => t' ← _replace_record t r; replace_records t' rs'
  end.

(** backend/app/active_verification_index.py 243-263 [ActiveVerificationIndex._rebuild] *)
Definition rebuilt_rows (fs : gmap (string * string) content) : outcome table :=
  records ← load_all verification_index_invalid (λ c _ _, read_content c) fs; replace_records ∅ records.

(** backend/app/active_verification_index.py [ActiveVerificationIndex._rebuild] *)
Definition _rebuild : world → outcome unit * world := rebuild rebuilt_rows.

(** backend/app/active_verification_index.py [ActiveVerificationIndex._ensure_current] *)
Definition _ensure_current : world → outcome unit * world := ensure_current verification_index_invalid rebuilt_rows.

Abbreviation current := (current_rows verification_index_invalid rebuilt_rows).

(** backend/app/active_verification_index.py [ActiveVerificationIndex.sync_after_write] *)
Definition sync_after_write (r : ActiveAssetVerificationRecord) : world → outcome unit * world :=
  sync_with rebuilt_rows (λ t, _replace_record t r).

Definition of_asset (organization asset : string) (row : verification_row) : bool :=
  String.eqb (row_organization_id row) organization && String.eqb (row_asset_id row) asset.

(** backend/app/active_verification_index.py [ActiveVerificationIndex.sync_after_asset_delete] *)
Definition sync_after_asset_delete (organization asset : string) : world → outcome unit * world :=
  sync_with rebuilt_rows (λ t, Ok (delete_where (λ _ row, of_asset organization asset row) t)).

(** The file of a row, if it still says what the row says. *)
(** backend/app/active_verification_index.py 116-129 [ActiveVerificationIndex.records_for_asset] *)
Definition load_row (fs : gmap (string * string) content) (organization asset : string) (kr : string * verification_row)
    : outcome ActiveAssetVerificationRecord :=
  c ← or_raise (fs !! (organization, kr.1)) verification_index_invalid;
  r ← invalid_as verification_index_invalid (read_content c);
  raise verification_index_invalid
    when (negb (String.eqb (v_organization_id (the_challenge r)) organization && String.eqb (v_asset_id (the_challenge r)) asset
                && String.eqb (active_verification_record_digest r) (row_digest kr.2)));;
  Ok r.

(** [ORDER BY created_at_micros, verification_id] *)
Definition oldest_first (a b : string * verification_row) : Prop :=
  row_created_at_micros a.2 < row_created_at_micros b.2
  ∨ (row_created_at_micros a.2 = row_created_at_micros b.2 ∧ str_le a.1 b.1).
#[global] Instance oldest_first_dec a b : Decision (oldest_first a b).
Proof. unfold oldest_first. apply _. Defined.

Definition rows_of_asset (organization asset : string) (t : table) : list (string * verification_row) :=
  merge_sort oldest_first (map_to_list (select_where (λ _ row, of_asset organization asset row) t)).

(** backend/app/active_verification_index.py [ActiveVerificationIndex.records_for_asset] *)
Definition records_for_asset (organization asset : string) (w : world) : outcome (list ActiveAssetVerificationRecord) * world :=
  if negb (is_owner organization && is_hex32 asset) then (Err verification_index_invalid, w) else
  let '(t, w') := current w in
  ((t ← t; traverse (load_row (files w'.2) organization asset) (rows_of_asset organization asset t)), w').

(** The row of the latest challenge of an asset, [position = 1]. *)
Definition newest_row (organization asset : string) (t : table) : option (string * verification_row) :=
  last (rows_of_asset organization asset t).

(** Of each asset that has one, in order. *)
(** backend/app/active_verification_index.py [ActiveVerificationIndex.latest] *)
Definition index_latest (organization : string) (asset_ids : gset string) (w : world)
    : outcome (list ActiveAssetVerificationRecord) * world :=
  if negb (is_owner organization) || (ACTIVE_VERIFICATION_INDEX_MAX_ASSETS <? size asset_ids)%nat
     || any_of (λ a, negb (is_hex32 a)) (elements asset_ids) then (Err verification_index_invalid, w) else
  if bool_decide (asset_ids = ∅) then (Ok [], w) else
  let '(t, w') := current w in
  ((t ← t;
    traverse (λ ar : string * (string * verification_row), load_row (files w'.2) organization ar.1 ar.2)
      (omap (λ a, (λ row, (a, row)) <$> newest_row organization a t) (sorted_strs (elements asset_ids)))), w').

Definition needs_attention (now : Z) (row : verification_row) : bool :=
  mem (row_status row) ["failed"; "expired"]
  || (String.eqb (row_status row) "pending" && (row_challenge_expires_at_micros row <=? now))
  || (String.eqb (row_status row) "verified" && from_option (λ t, t <=? now) false (row_verification_expires_at_micros row)).

(** backend/app/active_verification_index.py [ActiveVerificationIndex.attention_asset_ids] *)
Definition index_attention (organization : string) (now : datetime) (w : world) : outcome (gset string) * world :=
  if negb (is_owner organization) then (Err verification_index_invalid, w) else
  let '(t, w') := current w in
  ((t ← t;
    let mine := select_where (λ _ row, String.eqb (row_organization_id row) organization) t in
    let latest := filter (λ kr : string * verification_row, newest_row organization (row_asset_id kr.2) t = Some kr
                                                              ∧ needs_attention (instant now) kr.2 = true) (map_to_list mine) in
    Ok (list_to_set (row_asset_id ∘ snd <$> take ACTIVE_VERIFICATION_INDEX_MAX_ASSETS (reverse (merge_sort oldest_first latest))))), w').

(** ** The store *)

(** backend/app/active_asset_verification.py [ActiveAssetVerificationStore._validate_id] *)
Definition _validate_id (value : string) : outcome unit := raise "verification_not_found" when (negb (is_hex32 value));; Ok tt.

(** backend/app/active_asset_verification.py [ActiveAssetVerificationStore._path] *)
Definition _path (organization verification : string) : outcome (string * string) :=
  raise "invalid_identity" when (negb (is_owner organization));;
  _ ← _validate_id verification;
  Ok (organization, verification).

(** backend/app/active_asset_verification.py [ActiveAssetVerificationStore._write] *)
Definition _write (r : ActiveAssetVerificationRecord) (w : world) : outcome unit * world :=
  match _path (v_organization_id (the_challenge r)) (v_id (the_challenge r)) with
  | Err e => (Err e, w)
  | Ok k => sync_after_write r (w.1, write_file k (Some r) w.2)
  end.

Definition store_invalid {A} (o : outcome A) : outcome A := match o with Ok a => Ok a | Err _ => Err "verification_store_invalid" end.

(** backend/app/active_asset_verification.py [ActiveAssetVerificationStore._load_asset_unlocked] *)
Definition _load_asset_unlocked (asset organization : string) (w : world) : outcome (list ActiveAssetVerificationRecord) * world :=
  match _validate_id asset with
  | Err e => (Err e, w)
  | Ok _ => let '(o, w') := records_for_asset organization asset w in (store_invalid o, w')
  end.

(** backend/app/active_asset_verification.py [ActiveAssetVerificationStore._validate_method] *)
Definition _validate_method (a : ActiveAssetRecord) (method : string) : outcome unit :=
  let ty := asset_type (the_target a) in
  raise "verification_method_incompatible" when (String.eqb method "dns_txt" && negb (mem ty ["domain"; "host"]));;
  raise "verification_method_incompatible" when (String.eqb method "http_well_known" && String.eqb ty "ip");;
  Ok tt.

(** [previous.model_copy(update=...)] of a challenge that is replaced. *)
Definition superseded (r : ActiveAssetVerificationRecord) (now : datetime) : ActiveAssetVerificationRecord :=
  let s := the_state r in
  Verification (the_challenge r)
    (AnswerState "revoked" (attempts s) (last_attempt_at s) (verified_at s) (verification_expires_at s) (Some now) (Some "superseded")).

(** Each pending challenge of the asset is revoked; the clock is read for each. *)
(** backend/app/active_asset_verification.py 173-175 [ActiveAssetVerificationStore.start] *)
Fixpoint supersede (rs : list ActiveAssetVerificationRecord) (now : datetime) (readings : nat → datetime) (w : world) : outcome unit * world :=
  match rs with
  | [] => (Ok tt, w)
  | r :: rs' =>
      match _materialize r (readings (length rs)) with
      | Err e => (Err e, w)
      | Ok m =>
          if String.eqb (v_status (the_state m)) "pending" then
            match _write (superseded r now) w with
            | (Err e, w') => (Err e, w')
            | (Ok _, w') => supersede rs' now readings w'
            end
          else supersede rs' now readings w
      end
  end.

(** The texts and the identifier are what the random source and the identifier
    factory give; a challenge is a valid record. *)
(** backend/app/active_asset_verification.py [ActiveAssetVerificationStore.start] *)
Definition start (w : world) (deleting : string → bool) (a : ActiveAssetRecord) (method : string) (valid_for_days : Z)
    (organization actor i random : string) (raw_now : datetime) (readings : nat → datetime)
    : outcome (ActiveAssetVerificationRecord * string) * world :=
  let asset := id (the_target a) in
  match
    (raise "verification_not_found" when (negb (String.eqb (organization_id (the_target a)) organization));;
     _ ← _validate_method a method;
     raise "invalid_identity" when (negb (is_actor actor));;
     now ← _utc raw_now;
     raise "asset_not_current" when (negb (String.eqb (status (the_life a)) "active"));;
     expired ← at_or_before (expires_at (the_scope a)) now;
     raise "asset_not_current" when (expired : bool);;
     raise "verification_not_found" when (deleting asset);;
     Ok now)
  with
  | Err e => (Err e, w)
  | Ok now =>
      match _load_asset_unlocked asset organization w with
      | (Err e, w') => (Err e, w')
      | (Ok records, w') =>
          match traverse (λ r, at_or_before (v_created_at (the_challenge r)) (DT (instant now - hours 1) (Some 0))) records with
          | Err e => (Err e, w')
          | Ok old =>
              if (ACTIVE_ASSET_VERIFICATION_MAX_ATTEMPTS_PER_HOUR <=? count_of negb old)%nat
              then (Err "verification_rate_limited", w') else
              match supersede records now readings w' with
              | (Err e, w'') => (Err e, w'')
              | (Ok _, w'') =>
                  let token := ("iv1_" ++ str_take 32 random)%string in
                  let r := Verification
                    (Challenge i asset organization actor method (_digest token) now
                       (DT (instant now + seconds ACTIVE_ASSET_VERIFICATION_CHALLENGE_TTL_SECONDS) (Some 0)) valid_for_days)
                    (AnswerState "pending" 0 None None None None None) in
                  if negb (verification_valid r) then (Err "ValidationError", w'') else
                  let '(o, w3) := _write r w'' in ((_ ← o; Ok (r, token)), w3)
              end
          end
      end
  end.

(** backend/app/active_asset_verification.py [ActiveAssetVerificationStore.latest_many] *)
Definition latest_many (asset_ids : gset string) (organization : string) (w : world) (readings : nat → datetime)
    : outcome (list (string * ActiveAssetVerificationRecord)) * world :=
  let '(o, w') := index_latest organization asset_ids w in
  ((rs ← store_invalid o;
    traverse (λ nr : nat * ActiveAssetVerificationRecord, m ← _materialize nr.2 (readings nr.1); Ok (v_asset_id (the_challenge nr.2), m))
      (zip (seq 0 (length rs)) rs)), w').

(** backend/app/active_asset_verification.py [ActiveAssetVerificationStore.latest] *)
Definition latest (asset organization : string) (w : world) (reading : datetime)
    : outcome (option ActiveAssetVerificationRecord) * world :=
  match _validate_id asset with
  | Err e => (Err e, w)
  | Ok _ => let '(o, w') := latest_many {[asset]} organization w (λ _, reading) in ((rs ← o; Ok (dict_get asset rs)), w')
  end.

(** backend/app/active_asset_verification.py [ActiveAssetVerificationStore.attention_asset_ids] *)
Definition attention_asset_ids (organization : string) (raw_now : datetime) (w : world) : outcome (gset string) * world :=
  match _utc raw_now with
  | Err e => (Err e, w)
  | Ok now => let '(o, w') := index_attention organization now w in (store_invalid o, w')
  end.

Definition is_of (r : ActiveAssetVerificationRecord) (asset organization : string) : bool :=
  String.eqb (v_asset_id (the_challenge r)) asset && String.eqb (v_organization_id (the_challenge r)) organization.

(** backend/app/active_asset_verification.py [ActiveAssetVerificationStore.get] *)
Definition get_verification (d : stamped (string * string) content table) (verification asset organization : string) (reading : datetime)
    : outcome ActiveAssetVerificationRecord :=
  _ ← _validate_id verification;
  k ← _path organization verification;
  r ← _read d k;
  raise "verification_not_found" when (negb (is_of r asset organization));;
  _materialize r reading.

(** backend/app/active_asset_verification.py [ActiveAssetVerificationStore.list_for_deletion_unlocked] *)
Definition list_for_deletion_unlocked (asset organization : string) (w : world) := _load_asset_unlocked asset organization w.

(** backend/app/active_asset_verification.py [ActiveAssetVerificationStore.delete_for_asset] *)
Definition delete_verifications (asset organization : string) (w : world) : outcome nat * world :=
  match _load_asset_unlocked asset organization w with
  | (Err e, w') => (Err e, w')
  | (Ok records, w') =>
      match traverse (λ r, _path organization (v_id (the_challenge r))) records with
      | Err e => (Err e, w')
      | Ok ks =>
          let d := foldl (λ d k, if bool_decide (is_Some (files d !! k)) then unlink_file k d else d) w'.2 ks in
          let '(o, w'') := sync_after_asset_delete organization asset (w'.1, d) in ((_ ← o; Ok (length records)), w'')
      end
  end.

(** backend/app/active_asset_verification.py 258-259 [ActiveAssetVerificationStore.validate_pending_challenge] *)
Definition challenge_met (r : ActiveAssetVerificationRecord) (token : string) : bool :=
  _TOKEN token && String.eqb (_digest token) (challenge_sha256 (the_challenge r)).

(** backend/app/active_asset_verification.py [ActiveAssetVerificationStore.validate_pending_challenge] *)
Definition validate_pending_challenge (d : stamped (string * string) content table) (verification asset organization token : string) (reading : datetime)
    : outcome ActiveAssetVerificationRecord :=
  r ← get_verification d verification asset organization reading;
  raise (("verification_" ++ v_status (the_state r))%string) when (negb (String.eqb (v_status (the_state r)) "pending"));;
  raise "challenge_mismatch" when (negb (challenge_met r token));;
  Ok r.

(** What a check makes of a challenge: verified until the asset's authorization
    ends, or the days that were asked for. *)
(** backend/app/active_asset_verification.py 279-291 [ActiveAssetVerificationStore.complete] *)
Definition completed (r : ActiveAssetVerificationRecord) (a : ActiveAssetRecord) (token : string) (now : datetime)
    (o : ActiveAssetVerificationObservation) : ActiveAssetVerificationRecord :=
  let s := the_state r in
  let o := if challenge_met r token then o else Observation false "challenge_mismatch" in
  if matched o then
    let until := instant now + days (requested_valid_days (the_challenge r)) in
    let expiry := if until <? instant (expires_at (the_scope a)) then DT until (Some 0) else expires_at (the_scope a) in
    Verification (the_challenge r) (AnswerState "verified" 1 (Some now) (Some now) (Some expiry) (v_revoked_at s) (Some "matched"))
  else
    Verification (the_challenge r)
      (AnswerState "failed" 1 (Some now) (verified_at s) (verification_expires_at s) (v_revoked_at s) (Some (obs_reason_code o))).

(** [min] compares the asset's end with the days asked for. *)
(** backend/app/active_asset_verification.py [ActiveAssetVerificationStore.complete] *)
Definition complete (w : world) (verification : string) (a : ActiveAssetRecord) (organization token : string)
    (o : ActiveAssetVerificationObservation) (raw_now reading : datetime) : outcome ActiveAssetVerificationRecord * world :=
  match
    (k ← _path organization verification;
     now ← _utc raw_now;
     r ← _read w.2 k;
     r ← _materialize r reading;
     raise "verification_not_found" when (negb (is_of r (id (the_target a)) organization));;
     raise (("verification_" ++ v_status (the_state r))%string) when (negb (String.eqb (v_status (the_state r)) "pending"));;
     raise "TypeError" when (challenge_met r token && matched o && negb (aware (expires_at (the_scope a))));;
     Ok (completed r a token now o))
  with
  | Err e => (Err e, w)
  | Ok r => let '(u, w') := _write r w in ((_ ← u; Ok r), w')
  end.

(** backend/app/active_asset_verification.py [ActiveAssetVerificationStore.revoke] *)
Definition revoke_verification (w : world) (verification asset organization : string) (raw_now reading : datetime)
    : outcome ActiveAssetVerificationRecord * world :=
  match
    (k ← _path organization verification;
     now ← _utc raw_now;
     r ← _read w.2 k;
     r ← _materialize r reading;
     raise "verification_not_found" when (negb (is_of r asset organization));;
     Ok (r, now))
  with
  | Err e => (Err e, w)
  | Ok (r, now) =>
      if String.eqb (v_status (the_state r)) "revoked" then (Ok r, w) else
      let s := the_state r in
      let r' := Verification (the_challenge r)
        (AnswerState "revoked" (attempts s) (last_attempt_at s) (verified_at s) (verification_expires_at s) (Some now)
           (Some "operator_revoked")) in
      let '(u, w') := _write r' w in ((_ ← u; Ok r'), w')
  end.
End Store.

(** ** Checking *)

(** The optional adapter of a deployment: what it answers, or [None] when it
    fails. *)
(** backend/app/active_asset_verification.py [ManagedActiveAssetVerificationTransport.managed_private] *)
Definition managed_private (checker : option (ActiveAssetRecord → string → option bool)) (a : ActiveAssetRecord) (token : string)
    : ActiveAssetVerificationObservation :=
  match checker with
  | None => Observation false "managed_verifier_unavailable"
  | Some f => match f a token with
              | None => Observation false "managed_verifier_unavailable"
              | Some true => Observation true "matched"
              | Some false => Observation false "token_not_observed"
              end
  end.

(** backend/app/active_asset_verification.py [verify_observation] *)
Definition verify_observation (checker : option (ActiveAssetRecord → string → option bool)) (a : ActiveAssetRecord)
    (method token : string) (manual_attestation_confirmed : bool) : outcome ActiveAssetVerificationObservation :=
  if String.eqb method "manual_attestation" then
    Ok (Observation manual_attestation_confirmed (if manual_attestation_confirmed then "matched" else "manual_attestation_missing"))
  else if mem method ["dns_txt"; "http_well_known"] then Err "remote_verification_requires_isolated_runner"
  else Ok (managed_private checker a token).

(** backend/app/active_asset_verification.py [_verification_origin] *)
Definition _verification_origin (a : ActiveAssetRecord) : string :=
  if String.eqb (asset_type (the_target a)) "http_origin" then canonical_value (the_target a) else
  ((if mem "https" (allowed_protocols (the_scope a)) then "https" else "http") ++ "://" ++ canonical_value (the_target a))%string.

(** backend/app/active_asset_verification.py [verification_placement] *)
Definition verification_placement (a : ActiveAssetRecord) (method : string) : string :=
  if String.eqb method "dns_txt" then ("_inspectra-verification." ++ canonical_value (the_target a) ++ " TXT")%string
  else if String.eqb method "http_well_known" then (_verification_origin a ++ ACTIVE_ASSET_VERIFICATION_WELL_KNOWN_PATH)%string
  else if String.eqb method "managed_private" then "managed private verifier"
  else "Inspectra manual attestation".
