(* ===== verification/VerificationRuns.v ===== *)
(** * VerificationRuns: what a verification proves

    Runs of the operations of [ActiveAssetVerificationStore],
    [backend/app/active_asset_verification.py]: a verification that is found
    verified was verified by somebody who presented the token of its
    challenge in time, and how many challenges an asset can have. *)

From S2P Require Import Prelude PyStr Grouping Sha256 BearerToken Identifiers SqlTable StampedIndex AssetTarget AssetRecord VerificationStore.
Local Open Scope Z_scope.

Abbreviation record := ActiveAssetVerificationRecord.
Abbreviation fileset := (gmap (string * string) content).

Definition named (r : record) : string * string := (v_organization_id (the_challenge r), v_id (the_challenge r)).

(** Every file holds a valid record of its name, and an identifier names one
    file. *)
Definition good (fs : fileset) : Prop :=
  (∀ k c, fs !! k = Some c → ∃ r, c = Some r ∧ verification_valid r = true ∧ named r = k)
  ∧ ∀ o o' i, is_Some (fs !! (o, i)) → is_Some (fs !! (o', i)) → o = o'.

Section Runs.
Context (record_json : record → string).

Abbreviation row_of := (row_of record_json).
Abbreviation rebuilt := (rebuilt_rows record_json).

(** ** The rows of the files *)

(** The table has the rows of the files. *)
Definition faithful (fs : fileset) (t : table) : Prop :=
  ∀ i row, t !! i = Some row ↔ ∃ o r, fs !! (o, i) = Some (Some r) ∧ row = row_of r.

Lemma faithful_unique fs t t' : faithful fs t → faithful fs t' → t = t'.
Proof. intros H H'. apply map_eq. intros i. apply option_eq. intros row. specialize (H i row). specialize (H' i row). tauto. Qed.

Lemma valid_ids r : verification_valid r = true →
  is_hex32 (v_id (the_challenge r)) = true ∧ is_hex32 (v_asset_id (the_challenge r)) = true
  ∧ is_owner (v_organization_id (the_challenge r)) = true.
Proof. unfold verification_valid. rewrite !andb_true_iff. by intros [[[[[[[[[? ?] ?] _] _] _] _] _] _] _]. Qed.

Lemma replace_valid t r : verification_valid r = true → _replace_record record_json t r = Ok (<[v_id (the_challenge r) := row_of r]> t).
Proof. intros (H1 & H2 & H3)%valid_ids. unfold _replace_record. by rewrite H1, H2, H3. Qed.

Lemma read_valid r : verification_valid r = true → read_content (Some r) = Ok r.
Proof. intros H. unfold read_content. by rewrite H. Qed.

(** All the files are read. *)
Lemma good_load fs : good fs →
  ∃ rs, load_all verification_index_invalid (λ c _ _, read_content c) fs = Ok rs
        ∧ (∀ r, r ∈ rs ↔ fs !! named r = Some (Some r)) ∧ (∀ r, r ∈ rs → verification_valid r = true).
Proof.
  intros [Hg Hu]. unfold load_all. set (l := merge_sort key_order (map_to_list fs)).
  assert (Hl : ∀ k c, (k, c) ∈ l ↔ fs !! k = Some c) by (intros k c; unfold l; by rewrite merge_sort_Permutation, elem_of_map_to_list).
  assert (Hfile : ∀ k c, (k, c) ∈ l → ∃ r, c = Some r ∧ verification_valid r = true ∧ named r = k
            ∧ load_file verification_index_invalid (λ c _ _, read_content c) (k, c) = Ok [r]).
  { intros k c Hin%Hl. destruct (Hg k c Hin) as (r & -> & Hv & Hn). exists r. repeat (split; [done|]).
    destruct (valid_ids r Hv) as (H1 & _ & H3). unfold load_file. destruct k as [o i]. injection Hn as <- <-. rewrite H3, H1. cbn [negb].
    by rewrite read_valid. }
  assert (Ht : is_ok (traverse (load_file verification_index_invalid (λ c _ _, read_content c)) l) = true).
  { apply traverse_total. intros [k c] Hin. by destruct (Hfile k c Hin) as (r & _ & _ & _ & ->). }
  destruct (traverse _ l) as [parts|] eqn:Hp; [|done]. apply traverse_ok in Hp. cbn. eexists. split; [done|].
  assert (Hin : ∀ r, r ∈ concat parts ↔ fs !! named r = Some (Some r)).
  { intros r. rewrite concat_elem. split.
    - intros (p & Hp' & Hr). apply list_elem_of_lookup_1 in Hp' as [n Hn]. destruct (Forall2_lookup_r _ _ _ _ _ Hp Hn) as ([k c] & Hk & Hload).
      apply list_elem_of_lookup_2 in Hk. destruct (Hfile k c Hk) as (r' & -> & _ & Hnm & Hload'). rewrite Hload' in Hload. injection Hload as <-.
      apply list_elem_of_singleton in Hr as ->. rewrite Hnm. by apply Hl.
    - intros Hr. apply Hl in Hr as Hr'. destruct (Hfile _ _ Hr') as (r' & [= <-] & _ & _ & Hload). apply list_elem_of_lookup_1 in Hr' as [n Hn].
      destruct (Forall2_lookup_l _ _ _ _ _ Hp Hn) as (p & Hp' & Hload'). rewrite Hload in Hload'. injection Hload' as <-.
      exists [r]. split; [by apply list_elem_of_lookup_2 in Hp'|left]. }
  split; [exact Hin|]. intros r Hr%Hin. by destruct (Hg _ _ Hr) as (r' & [= <-] & Hv & _).
Qed.

Lemma replace_faithful rs t0 :
  (∀ r, r ∈ rs → verification_valid r = true) →
  ∃ t, replace_records record_json t0 rs = Ok t
    ∧ ∀ i row, t !! i = Some row → (∃ r, r ∈ rs ∧ v_id (the_challenge r) = i ∧ row = row_of r) ∨ ((∀ r, r ∈ rs → v_id (the_challenge r) ≠ i) ∧ t0 !! i = Some row).
Proof.
  revert t0. induction rs as [|r rs IH]; intros t0 Hv; [exists t0; split; [done|]; intros i row H; right; split; [|done]; by intros r Hn%not_elem_of_nil|].
  cbn [replace_records]. rewrite replace_valid by (apply Hv; left). cbn [mbind outcome_bind].
  destruct (IH (<[v_id (the_challenge r) := row_of r]> t0)) as (t & Ht & Hspec); [intros x Hx; apply Hv; by right|].
  exists t. split; [done|]. intros i row Hi. destruct (Hspec i row Hi) as [(x & Hx & E & ->)|[Hn H]]; [left; exists x; split; [by right|done]|].
  destruct (decide (v_id (the_challenge r) = i)) as [E|Hne].
  - rewrite E, lookup_insert_eq in H. injection H as <-. left. exists r. split; [left|done].
  - rewrite lookup_insert_ne in H by done. right. split; [|done]. by intros x [->|Hx]%elem_of_cons; [|apply Hn].
Qed.

Lemma replace_has rs t0 r :
  (∀ r, r ∈ rs → verification_valid r = true) → r ∈ rs → ∃ t, replace_records record_json t0 rs = Ok t ∧ is_Some (t !! v_id (the_challenge r)).
Proof.
  revert t0. induction rs as [|x rs IH]; intros t0 Hv Hr; [by apply not_elem_of_nil in Hr|].
  cbn [replace_records]. rewrite replace_valid by (apply Hv; left). cbn [mbind outcome_bind].
  assert (Hkeep : ∀ rs t, (∀ r, r ∈ rs → verification_valid r = true) → is_Some (t !! v_id (the_challenge r)) →
    ∃ t', replace_records record_json t rs = Ok t' ∧ is_Some (t' !! v_id (the_challenge r))).
  { clear. induction rs as [|y rs IH]; intros t Hv Ht; [by exists t|]. cbn [replace_records].
    rewrite replace_valid by (apply Hv; left). cbn [mbind outcome_bind]. apply IH; [intros z Hz; apply Hv; by right|].
    rewrite lookup_insert_is_Some'. by right. }
  apply elem_of_cons in Hr as [->|Hr].
  - apply Hkeep; [intros z Hz; apply Hv; by right|]. rewrite lookup_insert_eq. by eexists.
  - apply IH; [intros z Hz; apply Hv; by right|done].
Qed.

Lemma good_rebuilt fs : good fs → ∃ t, rebuilt fs = Ok t ∧ faithful fs t.
Proof.
  intros Hg. destruct (good_load fs Hg) as (rs & Hl & Hin & Hv). unfold rebuilt_rows. rewrite Hl. cbn [mbind outcome_bind].
  destruct (replace_faithful rs ∅ Hv) as (t & Ht & Hspec). exists t. split; [done|]. destruct Hg as [Hn Hu]. intros i row. split.
  - intros [(r & Hr & <- & ->)|[_ H]]%Hspec; [|by rewrite lookup_empty in H]. exists (v_organization_id (the_challenge r)), r. by apply Hin in Hr.
  - intros (o & r & Hf & ->). destruct (Hn _ _ Hf) as (r' & [= <-] & _ & Hk). assert (Hr : r ∈ rs) by (apply Hin; by rewrite Hk).
    destruct (replace_has rs ∅ r Hv Hr) as (t' & Ht' & [row Hrow]). assert (t' = t) as -> by congruence.
    injection Hk as Ho Hi. rewrite Hi in Hrow. rewrite Hrow. f_equal.
    destruct (Hspec i row Hrow) as [(x & Hx & E & ->)|[_ H]]; [|by rewrite lookup_empty in H]. apply Hin in Hx.
    assert (v_organization_id (the_challenge x) = o) as E' by (apply (Hu _ _ i); [rewrite <- E; by eexists|by eexists]).
    unfold named in Hx. rewrite E, E', Hf in Hx. by injection Hx as ->.
Qed.

Lemma rebuilt_faithful fs t : good fs → rebuilt fs = Ok t ↔ faithful fs t.
Proof.
  intros Hg. destruct (good_rebuilt fs Hg) as (t' & Ht' & Hf). rewrite Ht'. split; [by intros [= <-]|].
  intros H. f_equal. by apply (faithful_unique fs).
Qed.

(** ** Writes and queries *)

Definition world_ok (w : world) : Prop := index_ok rebuilt w ∧ good (files w.2).

Lemma good_write fs r :
  good fs → verification_valid r = true → (∀ o, is_Some (fs !! (o, v_id (the_challenge r))) → o = v_organization_id (the_challenge r)) →
  good (<[named r := Some r]> fs).
Proof.
  intros [Hg Hu] Hv Hfree. split.
  - intros k c [[<- <-]|[_ H]]%lookup_insert_Some; [by exists r|by apply Hg].
  - intros o o' i. unfold named. rewrite !lookup_insert_is_Some'. intros [[= <- <-]|H] [[= <-]|H']; [done|..].
    + symmetry. by apply Hfree.
    + subst. by apply Hfree.
    + by apply (Hu _ _ i).
Qed.

Lemma faithful_write fs t r :
  good fs → (∀ o, is_Some (fs !! (o, v_id (the_challenge r))) → o = v_organization_id (the_challenge r)) →
  faithful fs t → faithful (<[named r := Some r]> fs) (<[v_id (the_challenge r) := row_of r]> t).
Proof.
  intros [Hg Hu] Hfree Hf i row. destruct (decide (v_id (the_challenge r) = i)) as [E|Hne].
  - rewrite E, lookup_insert_eq. split.
    + intros [= <-]. exists (v_organization_id (the_challenge r)), r. unfold named. by rewrite E, lookup_insert_eq.
    + intros (o & x & Hx & ->). unfold named in Hx. rewrite E in Hx. apply lookup_insert_Some in Hx as [[_ [= <-]]|[Hne Hx]]; [done|].
      exfalso. apply Hne. rewrite <- (Hfree o); [done|]. rewrite E. by eexists.
  - rewrite lookup_insert_ne by done. rewrite (Hf i row). split; intros (o & x & Hx & ->); exists o, x; (split; [|done]).
    + rewrite lookup_insert_ne; [done|]. unfold named. by intros [= _ E].
    + rewrite lookup_insert_ne in Hx; [done|]. unfold named. by intros [= _ E].
Qed.

Lemma write_ok (w : world) r :
  world_ok w → verification_valid r = true →
  (∀ o, is_Some (files w.2 !! (o, v_id (the_challenge r))) → o = v_organization_id (the_challenge r)) →
  ∃ w', _write record_json r w = (Ok tt, w') ∧ world_ok w' ∧ files w'.2 = <[named r := Some r]> (files w.2).
Proof.
  destruct w as [m d]. intros [Hi Hg] Hv Hfree. destruct (valid_ids r Hv) as (H1 & _ & H3).
  unfold _write, _path, _validate_id. rewrite H3, H1. cbn [negb mbind outcome_bind fst snd]. fold (named r).
  destruct (sync_with_ok rebuilt (λ t, _replace_record record_json t r) m d (write_file (named r) (Some r) d)) as (Ho & Hi' & Hf & _).
  - exact Hi.
  - done.
  - cbn. lia.
  - cbn. lia.
  - left. cbn. lia.
  - intros t Ht. rewrite replace_valid by done. eexists. split; [done|]. apply rebuilt_faithful; [by apply good_write|].
    apply faithful_write; [done..|]. by apply rebuilt_faithful.
  - unfold sync_after_write. destruct (sync_with _ _ _) as [o w'] eqn:E. cbn [fst snd] in Ho, Hi', Hf |- *. subst o. exists w'.
    split; [done|]. split; [|exact Hf]. split; [exact Hi'|]. rewrite Hf. by apply good_write.
Qed.

(** A query reads the rows of the files and changes none. *)
Lemma current_good (w : world) :
  world_ok w → ∃ t w', current_rows verification_index_invalid rebuilt w = (Ok t, w') ∧ faithful (files w.2) t ∧ files w'.2 = files w.2 ∧ world_ok w'.
Proof.
  intros [Hi Hg]. pose proof (current_rows_spec verification_index_invalid rebuilt w Hi) as H1.
  pose proof (current_files verification_index_invalid rebuilt w Hi) as H2.
  destruct (good_rebuilt (files w.2) Hg) as (t & Ht & Hf). rewrite Ht in H1.
  pose proof (ensure_current_ok verification_index_invalid rebuilt w Hi) as [H3 _].
  assert (H4 : (current_rows verification_index_invalid rebuilt w).2 = (ensure_current verification_index_invalid rebuilt w).2)
    by (unfold current_rows; by destruct (ensure_current _ _ w) as [[]]).
  destruct (current_rows _ _ w) as [o w']. cbn [fst snd] in H1, H2, H4. subst o w'. exists t. eexists. split; [done|].
  split; [done|]. split; [exact H2|]. split; [exact H3|]. by rewrite H2.
Qed.

Definition mine (fs : fileset) (organization asset : string) (r : record) : Prop :=
  fs !! named r = Some (Some r) ∧ v_organization_id (the_challenge r) = organization ∧ v_asset_id (the_challenge r) = asset.

Lemma row_of_asset organization asset r :
  of_asset organization asset (row_of r) = true ↔ v_organization_id (the_challenge r) = organization ∧ v_asset_id (the_challenge r) = asset.
Proof. unfold of_asset. cbn. by rewrite andb_true_iff, !String.eqb_eq. Qed.

Lemma asset_rows fs t organization asset i row :
  good fs → faithful fs t → (i, row) ∈ rows_of_asset organization asset t ↔ ∃ r, mine fs organization asset r ∧ v_id (the_challenge r) = i ∧ row = row_of r.
Proof.
  intros [Hg _] Hf. unfold rows_of_asset. rewrite merge_sort_Permutation, elem_of_map_to_list, select_where_lookup, (Hf i row). split.
  - intros [(o & r & Hr & ->) [Ho Ha]%row_of_asset]. destruct (Hg _ _ Hr) as (r' & [= <-] & _ & Hn). exists r. split; [|by injection Hn].
    split; [by rewrite Hn|done].
  - intros (r & (Hr & Ho & Ha) & Hi & ->). split; [|by apply row_of_asset]. exists organization, r. split; [|done]. rewrite <- Hr. unfold named. by rewrite Ho, Hi.
Qed.

Lemma load_mine fs organization asset r :
  good fs → mine fs organization asset r → load_row record_json fs organization asset (v_id (the_challenge r), row_of r) = Ok r.
Proof.
  intros [Hg _] (Hr & Ho & Ha). destruct (Hg _ _ Hr) as (r' & [= <-] & Hv & _). unfold load_row. cbn [fst snd].
  unfold named in Hr. rewrite Ho in Hr. rewrite Hr. cbn [or_raise mbind outcome_bind]. rewrite read_valid by done. cbn [invalid_as mbind outcome_bind].
  rewrite Ho, Ha, !String.eqb_refl. done.
Qed.

Lemma records_ok (w : world) organization asset :
  world_ok w →
  let '(o, w') := records_for_asset record_json organization asset w in
  files w'.2 = files w.2 ∧ world_ok w'
  ∧ ∀ rs, o = Ok rs → (∀ r, r ∈ rs ↔ mine (files w.2) organization asset r) ∧ NoDup rs.
Proof.
  intros Hw. unfold records_for_asset. destruct (negb _); [done|]. destruct (current_good w Hw) as (t & w' & -> & Hf & Hfs & Hw').
  cbn [mbind outcome_bind]. split; [done|]. split; [done|]. rewrite Hfs. intros rs Hrs. apply traverse_ok in Hrs. destruct Hw as [_ Hg].
  assert (Hrow : ∀ i row r, (i, row) ∈ rows_of_asset organization asset t → load_row record_json (files w.2) organization asset (i, row) = Ok r →
            mine (files w.2) organization asset r ∧ i = v_id (the_challenge r)).
  { intros i row r Hin Hload. apply (asset_rows (files w.2) t _ _ i row Hg Hf) in Hin as (x & Hx & <- & ->). rewrite load_mine in Hload by done. by injection Hload as <-. }
  split.
  - intros r. split.
    + intros Hr. apply list_elem_of_lookup_1 in Hr as [n Hn]. destruct (Forall2_lookup_r _ _ _ _ _ Hrs Hn) as ([i row] & Hk & Hload).
      apply list_elem_of_lookup_2 in Hk. by apply (Hrow i row r Hk).
    + intros Hm. assert (Hk : (v_id (the_challenge r), row_of r) ∈ rows_of_asset organization asset t) by (apply (asset_rows (files w.2)); [done..|]; by exists r).
      apply list_elem_of_lookup_1 in Hk as [n Hn]. destruct (Forall2_lookup_l _ _ _ _ _ Hrs Hn) as (x & Hx & Hload).
      rewrite load_mine in Hload by done. injection Hload as <-. by apply list_elem_of_lookup_2 in Hx.
  - assert (Hnd : NoDup (fst <$> rows_of_asset organization asset t)).
    { unfold rows_of_asset. rewrite merge_sort_Permutation. apply NoDup_fst_map_to_list. }
    apply (NoDup_fmap_1 (λ r, v_id (the_challenge r))). assert (E : (λ r, v_id (the_challenge r)) <$> rs = fst <$> rows_of_asset organization asset t); [|by rewrite E].
    apply list_eq. intros n. rewrite !list_lookup_fmap. destruct (rs !! n) as [r|] eqn:Hn.
    + destruct (Forall2_lookup_r _ _ _ _ _ Hrs Hn) as ([i row] & Hk & Hload). rewrite Hk. cbn. f_equal. symmetry.
      apply (Hrow i row r); [by apply list_elem_of_lookup_2 in Hk|done].
    + apply Forall2_length in Hrs. apply lookup_ge_None in Hn. rewrite (proj2 (lookup_ge_None _ _)); [done|]. by rewrite Hrs.
Qed.

(** ** Operations *)

Inductive verification_op : Type :=
| Start (deleting : string → bool) (a : ActiveAssetRecord) (method : string) (valid_for_days : Z) (organization actor i random : string)
    (now : datetime) (readings : nat → datetime)
| Complete (verification : string) (a : ActiveAssetRecord) (organization token : string) (o : ActiveAssetVerificationObservation)
    (now reading : datetime)
| RevokeVerification (verification asset organization : string) (now reading : datetime)
| Latest (asset_ids : gset string) (organization : string) (readings : nat → datetime)
| Attention (organization : string) (now : datetime)
| DeleteVerifications (asset organization : string)
| RestartVerifications.

Definition perform_verification (w : world) (o : verification_op) : world :=
  match o with
  | Start deleting a method n organization actor i random now readings =>
      (start record_json w deleting a method n organization actor i random now readings).2
  | Complete verification a organization token obs now reading => (complete record_json w verification a organization token obs now reading).2
  | RevokeVerification verification asset organization now reading => (revoke_verification record_json w verification asset organization now reading).2
  | Latest asset_ids organization readings => (latest_many record_json asset_ids organization w readings).2
  | Attention organization now => (attention_asset_ids record_json organization now w).2
  | DeleteVerifications asset organization => (delete_verifications record_json asset organization w).2
  | RestartVerifications => (None, w.2)
  end.

(** An identifier that is given was not given before; an observation's reason
    is one of the codes. *)
Definition legal (w : world) (o : verification_op) : Prop :=
  match o with
  | Start _ _ _ _ _ _ i _ _ _ => ∀ org, files w.2 !! (org, i) = None
  | Complete _ _ _ _ obs _ _ => is_reason_code (obs_reason_code obs) = true
  | _ => True
  end.

Definition token_of (random : string) : string := ("iv1_" ++ str_take 32 random)%string.

(** A challenge that is given out. *)
Definition issued (o : verification_op) (r : record) : Prop :=
  ∃ deleting a method n organization actor i random now readings,
    o = Start deleting a method n organization actor i random now readings
    ∧ challenge_sha256 (the_challenge r) = _digest (token_of random) ∧ requested_valid_days (the_challenge r) = n
    ∧ instant (challenge_expires_at (the_challenge r)) = instant now + seconds 900
    ∧ v_asset_id (the_challenge r) = id (the_target a) ∧ v_organization_id (the_challenge r) = organization
    ∧ organization_id (the_target a) = organization.

(** A challenge that is met. *)
Definition met (o : verification_op) (r : record) : Prop :=
  ∃ a token obs now reading until,
    o = Complete (v_id (the_challenge r)) a (v_organization_id (the_challenge r)) token obs now reading
    ∧ _digest token = challenge_sha256 (the_challenge r) ∧ matched obs = true ∧ id (the_target a) = v_asset_id (the_challenge r)
    ∧ instant reading < instant (challenge_expires_at (the_challenge r))
    ∧ verification_expires_at (the_state r) = Some until
    ∧ instant until <= instant now + days (requested_valid_days (the_challenge r)) ∧ instant until <= instant (expires_at (the_scope a)).

(** What an operation may write over a record. *)
Definition becomes (o : verification_op) (r r' : record) : Prop :=
  the_challenge r' = the_challenge r ∧ (v_status (the_state r') = "verified" → met o r').

Definition born (o : verification_op) (r : record) : Prop := issued o r ∧ v_status (the_state r) = "pending".

(** The files an operation leaves. *)
Definition follows (o : verification_op) (fs fs' : fileset) : Prop :=
  ∀ k r', fs' !! k = Some (Some r') → fs !! k = Some (Some r') ∨ born o r' ∨ ∃ r, fs !! k = Some (Some r) ∧ becomes o r r'.

Definition kept (fs fs' : fileset) : Prop :=
  ∀ k r', fs' !! k = Some (Some r') → ∃ r, fs !! k = Some (Some r) ∧ (r' = r ∨ ∃ now, r' = superseded r now).

Lemma materialized_challenge r now m : _materialize r now = Ok m → the_challenge m = the_challenge r.
Proof.
  unfold _materialize. intros (n & _ & H)%bind_ok. apply bind_ok in H as (e & _ & H). destruct e; by injection H as <-.
Qed.

Lemma materialized_pending r now m :
  _materialize r now = Ok m → v_status (the_state m) = "pending" → m = r ∧ instant now < instant (challenge_expires_at (the_challenge r)).
Proof.
  unfold _materialize. intros (n & Hn & H)%bind_ok. unfold _utc in Hn. destruct (negb (aware now)); [done|]. injection Hn as <-.
  apply bind_ok in H as (e & He & H). destruct e; injection H as <-; [done|]. intros Hp. split; [done|]. rewrite Hp in He. cbn in He.
  unfold at_or_before in He. destruct (negb (aware _)); [done|]. injection He as He. rewrite instant_as_utc in He. apply Z.leb_gt in He. exact He.
Qed.

Lemma materialized_valid r now m : _materialize r now = Ok m → verification_valid r = true → verification_valid m = true.
Proof.
  unfold _materialize. intros (n & _ & H)%bind_ok. apply bind_ok in H as (e & _ & H). destruct e; injection H as <-; [|done].
  unfold verification_valid. cbn. rewrite !andb_true_iff. tauto.
Qed.

(** A record that is read from a file and written back is the file's. *)
Lemma rewrite_ok (w : world) k r r' :
  world_ok w → files w.2 !! k = Some (Some r) → the_challenge r' = the_challenge r → verification_valid r' = true →
  ∃ w', _write record_json r' w = (Ok tt, w') ∧ world_ok w' ∧ files w'.2 = <[k := Some r']> (files w.2).
Proof.
  intros Hw Hr Hc Hv. destruct (proj1 (proj2 Hw) _ _ Hr) as (x & [= <-] & _ & Hn).
  destruct (write_ok w r' Hw Hv) as (w' & Ho & Hw' & Hf).
  - intros o Ho. rewrite Hc in Ho |- *. apply (proj2 (proj2 Hw) _ _ (v_id (the_challenge r))); [done|]. rewrite <- Hn in Hr. by eexists.
  - exists w'. split; [done|]. split; [done|]. rewrite Hf. unfold named. rewrite Hc. fold (named r). by rewrite Hn.
Qed.

Lemma superseded_valid r now : verification_valid r = true → verification_valid (superseded r now) = true.
Proof.
  unfold verification_valid. cbn. rewrite !andb_true_iff. tauto.
Qed.

(** The pending challenges are revoked, and no other file changes. *)
Lemma supersede_ok rs now readings (w : world) :
  world_ok w → NoDup rs → (∀ r, r ∈ rs → files w.2 !! named r = Some (Some r)) →
  let '(o, w') := supersede record_json rs now readings w in
  world_ok w' ∧ (∀ k, (∀ r, r ∈ rs → named r ≠ k) → files w'.2 !! k = files w.2 !! k)
  ∧ ∀ r, r ∈ rs → files w'.2 !! named r = Some (Some (superseded r now))
       ∨ (files w'.2 !! named r = Some (Some r)
          ∧ (o = Ok tt → ∃ n m, _materialize r (readings n) = Ok m ∧ v_status (the_state m) ≠ "pending")).
Proof.
  revert w. induction rs as [|r rs IH]; intros w Hw Hnd Hin; cbn [supersede].
  { split; [done|]. split; [done|]. intros x Hx. by apply not_elem_of_nil in Hx. }
  apply NoDup_cons in Hnd as [Hni Hnd]. assert (Hr : files w.2 !! named r = Some (Some r)) by (apply Hin; left).
  destruct (proj1 (proj2 Hw) _ _ Hr) as (x & [= <-] & Hv & _).
  assert (Hne : ∀ x, x ∈ rs → named x ≠ named r).
  { intros x Hx E. assert (Hx' : files w.2 !! named x = Some (Some x)) by (apply Hin; by right). rewrite E, Hr in Hx'. injection Hx' as ->. done. }
  destruct (_materialize r (readings _)) as [m|e] eqn:Hm.
  2:{ split; [done|]. split; [done|]. intros x Hx. right. split; [by apply Hin|done]. }
  destruct (String.eqb_spec (v_status (the_state m)) "pending") as [Hp|Hp].
  - destruct (rewrite_ok w (named r) r (superseded r now) Hw Hr eq_refl (superseded_valid r now Hv)) as (w1 & -> & Hw1 & Hf1).
    specialize (IH w1 Hw1 Hnd). destruct (supersede record_json rs now readings w1) as [o w'].
    destruct IH as (Hw' & Hk & Hend); [intros x Hx; rewrite Hf1, lookup_insert_ne; [apply Hin; by right|]; intros E; by apply (Hne x Hx)|].
    split; [done|]. split.
    + intros k Hkr. rewrite Hk by (intros x Hx; apply Hkr; by right). rewrite Hf1. apply lookup_insert_ne. apply Hkr. left.
    + intros x [->|Hx]%elem_of_cons; [|by apply Hend]. left. rewrite (Hk (named r)) by done. by rewrite Hf1, lookup_insert_eq.
  - specialize (IH w Hw Hnd). destruct (supersede record_json rs now readings w) as [o w'].
    destruct IH as (Hw' & Hk & Hend); [intros x Hx; apply Hin; by right|]. split; [done|]. split.
    + intros k Hkr. apply Hk. intros x Hx. apply Hkr. by right.
    + intros x [->|Hx]%elem_of_cons; [|by apply Hend]. right. rewrite (Hk (named r)) by done. split; [done|]. intros _. by eexists _, m.
Qed.

(** What is not pending any more at a reading of the clock. *)
Definition over (readings : nat → datetime) (r : record) : Prop :=
  v_status (the_state r) ≠ "pending" ∨ ∃ n, instant (challenge_expires_at (the_challenge r)) <= instant (readings n).

Lemma materialized_over r readings n m :
  _materialize r (readings n) = Ok m → v_status (the_state m) ≠ "pending" → over readings r.
Proof.
  unfold _materialize, over. intros (t & Ht & H)%bind_ok. unfold _utc in Ht. destruct (negb (aware _)); [done|]. injection Ht as <-.
  apply bind_ok in H as (e & He & H). intros Hm. destruct (String.eqb_spec (v_status (the_state r)) "pending") as [Hp|Hp]; [|by left].
  unfold at_or_before in He. destruct (negb (aware (challenge_expires_at _))); [done|]. injection He as He. right. exists n.
  rewrite instant_as_utc in He. destruct e; injection H as <-; [by apply Z.leb_le in He|done].
Qed.

(** A challenge that is given out is a new file; of the other files, the
    asset's pending ones change. *)
Definition given (w w' : world) (organization asset : string) (now : datetime) (readings : nat → datetime) (r : record) : Prop :=
  files w'.2 !! named r = Some (Some r) ∧ v_status (the_state r) = "pending" ∧ v_created_at (the_challenge r) = as_utc now
  ∧ ∃ records old, NoDup records ∧ (∀ x, x ∈ records ↔ mine (files w.2) organization asset x)
    ∧ traverse (λ r, at_or_before (v_created_at (the_challenge r)) (DT (instant (as_utc now) - hours 1) (Some 0))) records = Ok old
    ∧ (count_of negb old < ACTIVE_ASSET_VERIFICATION_MAX_ATTEMPTS_PER_HOUR)%nat
    ∧ ∀ x, mine (files w'.2) organization asset x →
        x = r ∨ ∃ x0, x0 ∈ records ∧ the_challenge x = the_challenge x0 ∧ over readings x.

Lemma follows_refl o fs : follows o fs fs.
Proof. intros k r' H. by left. Qed.

Lemma superseding_files (w w' : world) (rs : list record) now :
  (∀ k, (∀ r, r ∈ rs → named r ≠ k) → files w'.2 !! k = files w.2 !! k) →
  (∀ r, r ∈ rs → files w.2 !! named r = Some (Some r)) →
  (∀ r, r ∈ rs → files w'.2 !! named r = Some (Some (superseded r now)) ∨ files w'.2 !! named r = Some (Some r)) →
  ∀ k r', files w'.2 !! k = Some (Some r') → files w.2 !! k = Some (Some r') ∨ ∃ r, r ∈ rs ∧ named r = k ∧ r' = superseded r now.
Proof.
  intros Hout Hin Hrs k r' Hk. destruct (decide (Exists (λ r, named r = k) rs)) as [He|He].
  - apply Exists_exists in He as (r & Hr & <-). destruct (Hrs r Hr) as [H|H]; rewrite Hk in H; injection H as ->; [right; by exists r|left; by apply Hin].
  - left. rewrite <- Hout; [done|]. intros r Hr <-. apply He. apply Exists_exists. by exists r.
Qed.

Lemma start_ok (w : world) deleting a method n organization actor i random now readings :
  world_ok w → (∀ org, files w.2 !! (org, i) = None) →
  let '(o, w') := start record_json w deleting a method n organization actor i random now readings in
  world_ok w' ∧ follows (Start deleting a method n organization actor i random now readings) (files w.2) (files w'.2)
  ∧ ∀ r token, o = Ok (r, token) → given w w' organization (id (the_target a)) now readings r ∧ named r = (organization, i).
Proof.
  intros Hw Hfresh. unfold start. destruct (_ : outcome datetime) as [t|] eqn:Hguard; [|split; [done|]; split; [by apply follows_refl|done]].
  inv_ok Hguard. match goal with H : _utc now = Ok _ |- _ => unfold _utc in H; destruct (negb (aware now)); [discriminate H|]; injection H as <- end.
  to_prop. unfold _load_asset_unlocked. destruct (_validate_id _) as [[]|]; [|split; [done|]; split; [by apply follows_refl|done]].
  pose proof (records_ok w organization (id (the_target a)) Hw) as Hrec. destruct (records_for_asset _ _ _ _) as [o0 w0]. destruct Hrec as (Hfs & Hw0 & Hrec).
  destruct o0 as [records|]; cbn [store_invalid]; [|split; [done|]; rewrite Hfs; split; [by apply follows_refl|done]].
  destruct (Hrec records eq_refl) as [Hin Hnd]. destruct (traverse _ records) as [old|] eqn:Hold; [|split; [done|]; rewrite Hfs; split; [by apply follows_refl|done]].
  destruct (_ <=? _)%nat eqn:Hmax; [split; [done|]; rewrite Hfs; split; [by apply follows_refl|done]|]. apply Nat.leb_gt in Hmax.
  assert (Hmine : ∀ r, r ∈ records → files w0.2 !! named r = Some (Some r)) by (intros r [Hr _]%Hin; by rewrite Hfs).
  pose proof (supersede_ok records (as_utc now) readings w0 Hw0 Hnd Hmine) as Hsup.
  destruct (supersede _ _ _ _ w0) as [o1 w1]. destruct Hsup as (Hw1 & Hout & Hrs).
  assert (Hfiles : ∀ k r', files w1.2 !! k = Some (Some r') → files w.2 !! k = Some (Some r') ∨ ∃ r, r ∈ records ∧ named r = k ∧ r' = superseded r (as_utc now)).
  { rewrite <- Hfs. apply (superseding_files w0 w1 records (as_utc now) Hout Hmine). intros r Hr. destruct (Hrs r Hr) as [|[]]; auto. }
  assert (Hfol : follows (Start deleting a method n organization actor i random now readings) (files w.2) (files w1.2)).
  { intros k r' [Hq|(r & Hr & <- & ->)]%Hfiles; [by left|]. right; right. exists r. split; [rewrite <- Hfs; by apply Hmine|]. split; [done|]. by cbn. }
  destruct o1 as [[]|]; [|done]. set (r := Verification _ _). destruct (negb (verification_valid r)) eqn:Hv; [done|]. apply negb_false_iff in Hv.
  assert (Hfree : ∀ org, files w1.2 !! (org, i) = None).
  { intros org. rewrite Hout, Hfs; [done|]. intros y Hx E. apply Hmine in Hx. rewrite E, Hfs, Hfresh in Hx. done. }
  destruct (write_ok w1 r Hw1 Hv) as (w2 & -> & Hw2 & Hf2); [intros org Ho; cbn in Ho; rewrite Hfree in Ho; by destruct Ho|].
  split; [done|]. split.
  - intros k r' H2. rewrite Hf2 in H2. apply lookup_insert_Some in H2 as [[<- [= <-]]|[_ H2]]; [|by apply Hfol].
    right; left. split; [|done]. exists deleting, a, method, n, organization, actor, i, random, now, readings. repeat (split; [done|]). split; [|done].
    unfold r, instant at 1. cbn [wall utcoffset the_challenge challenge_expires_at default]. rewrite instant_as_utc. cbn. unfold ACTIVE_ASSET_VERIFICATION_CHALLENGE_TTL_SECONDS. lia.
  - cbn [mbind outcome_bind]. intros r0 token [= <- _]. split; [|done]. split; [by rewrite Hf2, lookup_insert_eq|]. split; [done|]. split; [done|].
    exists records, old. repeat (split; [done|]). intros y (Hx & Ho & Ha). rewrite Hf2 in Hx. apply lookup_insert_Some in Hx as [[_ [= <-]]|[_ Hx]]; [by left|].
    right. destruct (Hfiles _ _ Hx) as [Hx0|(x0 & Hx0 & _ & ->)]; [|exists x0; split; [done|]; split; [done|]; by left].
    assert (Hxr : y ∈ records) by (by apply Hin). exists y. split; [done|]. split; [done|].
    destruct (Hrs y Hxr) as [E|[_ E]]; [rewrite Hx in E; injection E as ->; by left|].
    destruct (E eq_refl) as (nn & m & Hm & Hs). by apply (materialized_over y readings nn m).
Qed.

(** One file is read, and its record is written over. *)
Lemma follows_write o fs k r r' : fs !! k = Some (Some r) → becomes o r r' → follows o fs (<[k := Some r']> fs).
Proof. intros Hr Hb k' x [[<- [= <-]]|[_ H]]%lookup_insert_Some; [right; right; by exists r|by left]. Qed.

Lemma read_good (w : world) k r : world_ok w → _read w.2 k = Ok r → files w.2 !! k = Some (Some r) ∧ verification_valid r = true ∧ named r = k.
Proof.
  intros [_ [Hg _]]. unfold _read. intros (c & Hc%or_raise_ok & H)%bind_ok. destruct (Hg _ _ Hc) as (x & -> & Hv & Hn).
  rewrite read_valid in H by done. by injection H as ->.
Qed.

Lemma path_ok organization i k : _path organization i = Ok k → k = (organization, i).
Proof. unfold _path. intros H. by inv_ok H. Qed.

Lemma complete_ok (w : world) verification a organization token obs now reading :
  world_ok w → is_reason_code (obs_reason_code obs) = true →
  let w' := (complete record_json w verification a organization token obs now reading).2 in
  world_ok w' ∧ follows (Complete verification a organization token obs now reading) (files w.2) (files w'.2).
Proof.
  intros Hw Hcode. unfold complete. destruct (_ : outcome record) as [r'|] eqn:Hguard; [|split; [done|by apply follows_refl]].
  inv_ok Hguard. to_prop. match goal with H : _path _ _ = Ok _ |- _ => apply path_ok in H; subst end.
  match goal with H : _utc now = Ok _ |- _ => unfold _utc in H; destruct (negb (aware now)); [discriminate H|]; injection H as <- end.
  match goal with H : _read _ _ = Ok ?x, M : _materialize ?x _ = Ok ?y |- _ => rename x into r, y into m, H into Hread, M into Hm end.
  match goal with H : v_status (the_state m) = "pending" |- _ => destruct (materialized_pending r reading m Hm H) as [-> Hbefore] end.
  destruct (read_good w _ r Hw Hread) as (Hr & Hv & Hn). set (r' := completed r a token (as_utc now) obs).
  assert (Hc : the_challenge r' = the_challenge r) by (unfold r', completed; by destruct (challenge_met r token), (matched obs)).
  assert (Hv' : verification_valid r' = true).
  { revert Hv. unfold r', completed, verification_valid. destruct (challenge_met r token), (matched obs) eqn:?; cbn; rewrite !andb_true_iff; rewrite ?Hcode;
      intros [[[[[H1 H2] H3] H4] H5] H6]; by destruct H1 as [[[[? ?] ?] ?] ?]. }
  destruct (rewrite_ok w _ r r' Hw Hr Hc Hv') as (w' & -> & Hw' & Hf). split; [exact Hw'|]. cbn [snd]. rewrite Hf.
  apply (follows_write _ _ _ r); [done|]. split; [done|]. intros Hs. unfold r', completed in Hs |- *. destruct (challenge_met r token) eqn:Hmet; [|done].
  destruct (matched obs) eqn:Hobs; [|done]. injection Hn as Ho Hi. unfold challenge_met, is_of in *. to_prop.
  exists a, token, obs, now, reading. eexists. unfold named in *. cbn [the_challenge the_state verification_expires_at]. split; [by rewrite Ho, Hi|].
  split; [done|]. split; [done|]. split; [congruence|]. split; [done|]. split; [done|]. rewrite instant_as_utc.
  clear -a now r. destruct (_ <? _) eqn:E; to_prop; [change (instant (DT ?t (Some 0))) with (t - 0)|]; split; lia.
Qed.

Lemma revoke_verification_ok (w : world) verification asset organization now reading :
  world_ok w →
  let w' := (revoke_verification record_json w verification asset organization now reading).2 in
  world_ok w' ∧ follows (RevokeVerification verification asset organization now reading) (files w.2) (files w'.2).
Proof.
  intros Hw. unfold revoke_verification. destruct (_ : outcome (record * datetime)) as [[m t]|] eqn:Hguard; [|split; [done|by apply follows_refl]].
  inv_ok Hguard. match goal with H : _read _ _ = Ok ?x, M : _materialize ?x _ = Ok m |- _ => rename x into r, H into Hread, M into Hm end.
  destruct (read_good w _ r Hw Hread) as (Hr & Hv & Hn). destruct (String.eqb _ "revoked"); [split; [done|by apply follows_refl]|].
  set (r' := Verification _ _). pose proof (materialized_challenge r reading m Hm) as Hc.
  assert (Hv' : verification_valid r' = true).
  { pose proof (materialized_valid r reading m Hm Hv) as Hvm. revert Hvm. unfold r', verification_valid. cbn. rewrite !andb_true_iff.
    intros [[[[[P1 P2] P3] P4] P5] P6]. by destruct P1 as [[[[? ?] ?] ?] ?]. }
  destruct (rewrite_ok w _ r r' Hw Hr Hc Hv') as (w' & -> & Hw' & Hf). split; [exact Hw'|]. cbn [snd]. rewrite Hf.
  apply (follows_write _ _ _ r); [done|]. by split.
Qed.
(** Files that are unlinked. *)
Lemma unlinked (ks : list (string * string)) (d : stamped (string * string) content table) :
  let d' := foldl (λ d k, if bool_decide (is_Some (files d !! k)) then unlink_file k d else d) d ks in
  (∀ k, files d' !! k = if decide (k ∈ ks) then None else files d !! k) ∧ index_file d' = index_file d ∧ clock d <= clock d'
  ∧ ((clock d < source_stamp d' ∧ source_stamp d' <= clock d') ∨ d' = d).
Proof.
  revert d. induction ks as [|k ks IH]; intros d; cbn [foldl].
  { split; [by intros k|]. split; [done|]. split; [lia|by right]. }
  case_bool_decide as Hk.
  - destruct (IH (unlink_file k d)) as (Hf & Hi & Hc & Hs). cbn in Hi, Hc, Hs. split; [|split; [done|split; [cbn in *; lia|]]].
    + intros k'. rewrite Hf. cbn [unlink_file files]. destruct (decide (k' ∈ ks)) as [H|H].
      * rewrite decide_True; [done|by right].
      * destruct (decide (k' = k)) as [->|Hne]; [rewrite decide_True by left; apply lookup_delete_eq|].
        rewrite decide_False, lookup_delete_ne by (rewrite ?elem_of_cons; naive_solver). done.
    + left. destruct Hs as [Hs|E]; [lia|]. rewrite E. cbn. lia.
  - destruct (IH d) as (Hf & Hrest). split; [|done]. intros k'. rewrite Hf. destruct (decide (k' ∈ ks)) as [H|H]; [rewrite decide_True; [done|by right]|].
    destruct (decide (k' = k)) as [->|Hne]; [rewrite decide_True by left; by apply eq_None_not_Some|].
    rewrite decide_False; [done|]. rewrite elem_of_cons. naive_solver.
Qed.

Lemma good_subset fs fs' : good fs → (∀ k c, fs' !! k = Some c → fs !! k = Some c) → good fs'.
Proof.
  intros [Hg Hu] Hsub. split; [intros k c H%Hsub; by apply Hg|]. intros o o' i [c H%Hsub] [c' H'%Hsub]. apply (Hu _ _ i); by eexists.
Qed.

Lemma delete_ok (w : world) asset organization :
  world_ok w →
  let w' := (delete_verifications record_json asset organization w).2 in
  world_ok w' ∧ ∀ k c, files w'.2 !! k = Some c → files w.2 !! k = Some c.
Proof.
  intros Hw. unfold delete_verifications, _load_asset_unlocked. destruct (_validate_id _) as [[]|]; [|done].
  pose proof (records_ok w organization asset Hw) as Hrec. destruct (records_for_asset _ _ _ _) as [o0 w0]. destruct Hrec as (Hfs & Hw0 & Hrec).
  destruct o0 as [records|]; cbn [store_invalid]; [|by rewrite <- Hfs]. destruct (Hrec records eq_refl) as [Hin _].
  destruct (traverse _ records) as [ks|] eqn:Hks; [|by rewrite <- Hfs]. apply traverse_ok in Hks. destruct w0 as [m0 d0]. cbn [fst snd] in *.
  destruct (unlinked ks d0) as (Hf & Hi & Hc & Hs). set (d := foldl _ d0 ks) in *.
  assert (Hkin : ∀ k, k ∈ ks ↔ ∃ r, mine (files d0) organization asset r ∧ named r = k).
  { intros k. rewrite Hfs. split.
    - intros Hk. apply list_elem_of_lookup_1 in Hk as [j Hj]. destruct (Forall2_lookup_r _ _ _ _ _ Hks Hj) as (r & Hr & Hp%path_ok).
      apply list_elem_of_lookup_2, Hin in Hr. exists r. split; [done|]. unfold named. by destruct Hr as (_ & -> & _).
    - intros (r & Hr & <-). apply Hin in Hr as Hrin. apply list_elem_of_lookup_1 in Hrin as [j Hj].
      destruct (Forall2_lookup_l _ _ _ _ _ Hks Hj) as (k & Hk & Hp%path_ok). apply list_elem_of_lookup_2 in Hk.
      unfold named. destruct Hr as (_ & -> & _). by rewrite <- Hp. }
  assert (Hsub : ∀ k c, files d !! k = Some c → files d0 !! k = Some c) by (intros k c; rewrite Hf; by destruct (decide (k ∈ ks))).
  destruct Hw0 as [Hi0 Hg0]. pose proof (good_subset _ _ Hg0 Hsub) as Hg.
  destruct (sync_with_ok rebuilt (λ t, Ok (delete_where (λ _ row, of_asset organization asset row) t)) m0 d0 d Hi0 Hi) as (_ & Hi' & Hf' & _).
  - destruct Hi0 as (? & _). cbn in *. destruct Hs as [[]| ->]; lia.
  - done.
  - destruct Hs as [[]|]; auto.
  - intros t Ht%rebuilt_faithful; [|done]. eexists. split; [done|]. apply rebuilt_faithful; [done|]. intros i row.
    rewrite delete_where_Some, (Ht i row). split.
    + intros [(o & r & Hr & ->) Hno]. exists o, r. split; [|done]. rewrite Hf, decide_False; [done|]. intros (x & (Hx & Ho & Ha) & E)%Hkin.
      rewrite E, Hr in Hx. injection Hx as ->. by rewrite (proj2 (row_of_asset organization asset x)) in Hno.
    + intros (o & r & Hr & ->). split; [exists o, r; split; [by apply Hsub|done]|]. apply not_true_iff_false. intros [Ho Ha]%row_of_asset.
      rewrite Hf in Hr. destruct (decide (_ ∈ ks)) as [|Hni]; [done|]. apply Hni. apply Hkin. exists r.
      destruct (proj1 Hg0 _ _ Hr) as (x & [= <-] & _ & Hn). split; [|done]. split; [by rewrite Hn|done].
  - unfold sync_after_asset_delete. destruct (sync_with _ _ (m0, d)) as [o w'] eqn:E. cbn [fst snd] in *. rewrite Hf', <- Hfs.
    split; [|done]. split; [done|]. by rewrite Hf'.
Qed.

Lemma index_latest_ok organization asset_ids (w : world) :
  world_ok w → let w' := (index_latest record_json organization asset_ids w).2 in world_ok w' ∧ files w'.2 = files w.2.
Proof.
  intros Hw. unfold index_latest. destruct (_ || _); [done|]. case_bool_decide; [done|]. by destruct (current_good w Hw) as (t & w' & -> & _ & Hf & Hw').
Qed.

Lemma index_attention_ok organization now (w : world) :
  world_ok w → let w' := (index_attention record_json organization now w).2 in world_ok w' ∧ files w'.2 = files w.2.
Proof. intros Hw. unfold index_attention. destruct (negb _); [done|]. by destruct (current_good w Hw) as (t & w' & -> & _ & Hf & Hw'). Qed.

(** What every operation does. *)
Lemma perform_ok (w : world) o :
  world_ok w → legal w o → world_ok (perform_verification w o) ∧ follows o (files w.2) (files (perform_verification w o).2).
Proof.
  intros Hw Hl. destruct o; cbn [perform_verification].
  - pose proof (start_ok w deleting a method valid_for_days organization actor i random now readings Hw Hl) as H.
    destruct (start _ _ _ _ _ _ _ _ _ _ _) as [o w']. by destruct H as (? & ? & _).
  - by apply complete_ok.
  - by apply revoke_verification_ok.
  - unfold latest_many. destruct (index_latest_ok organization asset_ids w Hw) as [H E].
    destruct (index_latest _ _ _ _) as [o w']. cbn [snd] in *. split; [done|]. rewrite E. by apply follows_refl.
  - unfold attention_asset_ids. destruct (_utc now) as [t|]; [|split; [done|by apply follows_refl]].
    destruct (index_attention_ok organization t w Hw) as [H E]. destruct (index_attention _ _ _ _) as [o w']. cbn [snd] in *.
    split; [done|]. rewrite E. by apply follows_refl.
  - destruct (delete_ok w asset organization Hw) as [H Hsub]. split; [done|]. intros k r' Hk. left. by apply Hsub.
  - split; [|by apply follows_refl]. destruct Hw as [(Hs & Hf & _) Hg]. split; [|done]. split; [done|]. split; [done|]. done.
Qed.

(** ** Runs *)

Definition nothing : world := (None, Disk ∅ 0 None 0).

Fixpoint legal_run (w : world) (os : list verification_op) : Prop :=
  match os with
  | [] => True
  | o :: os' => legal w o ∧ legal_run (perform_verification w o) os'
  end.

Definition run (w : world) (os : list verification_op) : world := foldl perform_verification w os.

Lemma verification_run_snoc w os o : legal_run w (os ++ [o]) ↔ legal_run w os ∧ legal (run w os) o.
Proof.
  revert w. induction os as [|x os IH]; intros w; cbn [app legal_run]; [unfold run; cbn; tauto|].
  rewrite IH. unfold run. cbn [foldl]. tauto.
Qed.

Lemma no_verification_ok : world_ok nothing.
Proof. split; [split; [done|]; by split|]. split; [done|]. intros o o' i [? H]. cbn in H. by rewrite lookup_empty in H. Qed.

(** Where the record of a file comes from. *)
Definition accounted (os : list verification_op) (r : record) : Prop :=
  ∃ before s after, os = before ++ s :: after ∧ issued s r
  ∧ (v_status (the_state r) = "verified" → ∃ between c rest, after = between ++ c :: rest ∧ met c r).

Lemma accounted_snoc os o r : accounted os r → accounted (os ++ [o]) r.
Proof.
  intros (b & s & a & -> & Hi & Hv). exists b, s, (a ++ [o]). rewrite <- app_assoc. split; [done|]. split; [done|].
  intros (l & c & l' & -> & Hm)%Hv. exists l, c, (l' ++ [o]). by rewrite <- app_assoc.
Qed.

Lemma run_accounted os :
  legal_run nothing os → world_ok (run nothing os) ∧ ∀ k r, files (run nothing os).2 !! k = Some (Some r) → accounted os r.
Proof.
  induction os as [|o os IH] using rev_ind; intros Hl; [split; [apply no_verification_ok|]; intros k r H; cbn in H; by rewrite lookup_empty in H|].
  apply verification_run_snoc in Hl as [Hl Hlo]. destruct (IH Hl) as [Hw Hacc]. destruct (perform_ok _ o Hw Hlo) as [Hw' Hfol].
  unfold run in *. rewrite foldl_app. cbn [foldl]. split; [done|]. intros k r' [H|[[Hi Hp]|(r & H & Hc & Hm)]]%Hfol.
  - by apply accounted_snoc, (Hacc k).
  - exists os, o, []. split; [done|]. split; [done|]. rewrite Hp. done.
  - destruct (Hacc _ _ H) as (b & s & a & -> & Hi & _). exists b, s, (a ++ [o]). rewrite <- app_assoc. split; [done|]. split.
    + unfold issued in *. by rewrite Hc.
    + intros Hv. exists a, o, []. split; [done|]. by apply Hm.
Qed.
(** ** How many challenges *)

Definition recent (since : Z) (r : record) : Prop := since < instant (v_created_at (the_challenge r)).
#[local] Instance recent_dec since r : Decision (recent since r).
Proof. unfold recent. apply _. Defined.

Lemma recent_count since records old :
  traverse (λ r, at_or_before (v_created_at (the_challenge r)) (DT since (Some 0))) records = Ok old →
  count_of negb old = length (filter (recent since) records).
Proof.
  revert old. induction records as [|r records IH]; intros old H; [by injection H as <-|]. cbn [traverse] in H.
  apply bind_ok in H as (b & Hb & H). apply bind_ok in H as (bs & Hbs & H). injection H as <-. cbn [count_of]. rewrite (IH bs Hbs), filter_cons.
  unfold at_or_before in Hb. destruct (negb (aware _)); [done|]. injection Hb as <-. change (instant (DT since (Some 0))) with (since - 0).
  unfold recent at 2. destruct (decide _) as [Hd|Hd]; destruct (_ <=? _) eqn:E; to_prop; cbn; lia.
Qed.

Lemma named_inj fs organization asset x y :
  good fs → mine fs organization asset x → mine fs organization asset y → named x = named y → x = y.
Proof. intros _ (Hx & _) (Hy & _) E. rewrite E, Hy in Hx. by injection Hx as ->. Qed.

Lemma recent_few (w w' : world) organization asset now readings r (l : list record) :
  world_ok w' → given w w' organization asset now readings r →
  NoDup l → (∀ x, x ∈ l → mine (files w'.2) organization asset x ∧ recent (instant now - hours 1) x) →
  (length l <= ACTIVE_ASSET_VERIFICATION_MAX_ATTEMPTS_PER_HOUR)%nat.
Proof.
  intros [_ Hg] (_ & _ & _ & records & old & Hnd & Hin & Hold & Hmax & Hrest) Hl Hx. rewrite instant_as_utc in Hold.
  rewrite (recent_count _ _ _ Hold) in Hmax.
  assert (Hsub : (named <$> l) ⊆+ named r :: (named <$> filter (recent (instant now - hours 1)) records)).
  { apply NoDup_submseteq.
    - apply NoDup_fmap_2_strong; [|done]. intros x y [Hmx _]%Hx [Hmy _]%Hx. by apply (named_inj (files w'.2) organization asset).
    - intros k (x & -> & Hxl)%list_elem_of_fmap. destruct (Hx x Hxl) as [Hm Hr]. destruct (Hrest x Hm) as [->|(x0 & Hx0 & Hc & _)]; [left|right].
      apply list_elem_of_fmap. exists x0. unfold named, recent in *. rewrite Hc in Hr |- *. split; [done|]. by apply list_elem_of_filter. }
  apply submseteq_length in Hsub. cbn [length] in Hsub. rewrite !length_fmap in Hsub. lia.
Qed.

(** ** The properties *)

(** C27: an asset counts as verified only by somebody who held the token of a
    challenge.  After any operations and restarts, starting with no file, the
    record of a file that says "verified" was issued by a [start] for that
    asset and organization, whose token is not kept but its digest; and a later
    [complete] presented a token with that digest and an observation that
    matched, before the fifteen minutes of the challenge were over, and fixed
    an end of the verification no later than the days that were asked for and
    than the asset's authorization. *)
Theorem verified_by_token os k r :
  legal_run nothing os → files (run nothing os).2 !! k = Some (Some r) → v_status (the_state r) = "verified" →
  ∃ before s between c after, os = before ++ s :: between ++ c :: after ∧ issued s r ∧ met c r.
Proof.
  intros Hl Hr Hv. destruct (run_accounted os Hl) as [_ Hacc]. destruct (Hacc k r Hr) as (b & s & a & -> & Hi & Hm).
  destruct (Hm Hv) as (l & c & l' & -> & Hc). by exists b, s, l, c, l'.
Qed.

(** C28: an asset has one challenge at a time, and five in an hour.  After any
    operations and restarts, when [start] gives out a challenge, it is pending
    in its file, every other challenge of the asset is answered, revoked or
    over, and at most five challenges of the asset were created less than an
    hour before, this one included. *)
Theorem challenges_limited os deleting a method n organization actor i random now readings r token :
  let s := Start deleting a method n organization actor i random now readings in
  let fs := files (run nothing (os ++ [s])).2 in
  legal_run nothing (os ++ [s]) →
  (start record_json (run nothing os) deleting a method n organization actor i random now readings).1 = Ok (r, token) →
  fs !! named r = Some (Some r) ∧ v_status (the_state r) = "pending"
  ∧ (∀ x, mine fs organization (id (the_target a)) x → x ≠ r → over readings x)
  ∧ ∀ l, NoDup l → (∀ x, x ∈ l → mine fs organization (id (the_target a)) x ∧ recent (instant now - hours 1) x) → (length l <= 5)%nat.
Proof.
  intros s fs [Hl Hs]%verification_run_snoc Hr. destruct (run_accounted os Hl) as [Hw _].
  pose proof (start_ok (run nothing os) deleting a method n organization actor i random now readings Hw Hs) as H.
  assert (Hfs : fs = files (start record_json (run nothing os) deleting a method n organization actor i random now readings).2.2).
  { unfold fs, run. by rewrite foldl_app. }
  clearbody fs.
  destruct (start _ _ _ _ _ _ _ _ _ _ _) as [o w']. cbn [fst snd] in Hr, Hfs. subst o fs. destruct H as (Hw' & _ & H).
  destruct (H r token eq_refl) as [Hgiven _]. pose proof Hgiven as (Hfile & Hp & _ & records & old & _ & _ & _ & _ & Hrest).
  split; [done|]. split; [done|]. split.
  - intros x Hx Hne. by destruct (Hrest x Hx) as [|(x0 & _ & _ & Ho)].
  - intros l Hnd Hx. by apply (recent_few (run nothing os) w' organization (id (the_target a)) now readings r).
Qed.
End Runs.

(** ** Instances *)

Module Sample_verification.
Definition hex (c : ascii) : string := text (replicate 32 c).
Definition at_ (s : Z) : datetime := DT (seconds s) (Some 0).
Definition no_json (r : record) : string := "{}".
Definition asset : ActiveAssetRecord :=
  Asset (Target (hex "a") "local-admin" "local-admin" "domain" "shop.test" [] (at_ 0))
    (Scope ["dns_basic"] [443] ["https"] "owner_attestation" "change-1" (at_ 0) (at_ 100000))
    (Life ["local-admin"] None "active" (at_ 0) None [] [] []).
Definition random : string := "abcdefghijklmnopqrstuvwxyz0123456789".
Definition clock_ (s : Z) : nat → datetime := λ _, at_ s.
Definition asked (i : string) (s : Z) : verification_op :=
  Start (λ _, false) asset "dns_txt" 30 "local-admin" "local-admin" i random (at_ s) (clock_ s).
Definition answered : verification_op :=
  Complete (hex "2") asset "local-admin" (token_of random) (Observation true "matched") (at_ 30) (at_ 31).
Definition story : list verification_op := [asked (hex "1") 10; asked (hex "2") 20; answered; RestartVerifications].
Definition found (k : string * string) (os : list verification_op) : option record :=
  c ← files (run no_json nothing os).2 !! k; c.
Definition challenge_2 : string * string := ("local-admin", hex "2").
Definition unused (i : string) (fs : fileset) : bool := negb (any_of (λ kc : (string * string) * content, String.eqb kc.1.2 i) (map_to_list fs)).

Lemma unused_fresh i fs : unused i fs = true → ∀ org, fs !! (org, i) = None.
Proof.
  unfold unused. rewrite negb_true_iff. intros H org. apply eq_None_not_Some. intros [c Hc]. apply elem_of_map_to_list in Hc.
  rewrite (proj2 (any_of_true _ _)) in H; [done|]. exists ((org, i), c). split; [done|]. apply String.eqb_refl.
Qed.

Lemma story_legal : legal_run no_json nothing story.
Proof.
  split; [|split; [|split; [|split; [|done]]]]; unfold legal, asked, answered.
  - apply unused_fresh. vm_compute. reflexivity.
  - apply unused_fresh. vm_compute. reflexivity.
  - vm_compute. reflexivity.
  - done.
Qed.
End Sample_verification.
Import Sample_verification.

Lemma verified_by_token_witness :
  ∃ r, found challenge_2 story = Some r ∧ verified_at (the_state r) = Some (at_ 30)
    ∧ ∃ before s between c after, story = before ++ s :: between ++ c :: after ∧ issued s r ∧ met c r.
Proof.
  assert (H : from_option (λ r, String.eqb (v_status (the_state r)) "verified" && bool_decide (verified_at (the_state r) = Some (at_ 30))) false
                (found challenge_2 story) = true) by (vm_compute; reflexivity).
  destruct (found challenge_2 story) as [r|] eqn:Hr; [|discriminate H]. cbn [from_option] in H. apply andb_true_iff in H as [Hv Ha].
  apply String.eqb_eq in Hv. apply bool_decide_eq_true in Ha. exists r. split; [reflexivity|]. split; [exact Ha|].
  assert (Hf : files (run no_json nothing story).2 !! challenge_2 = Some (Some r)).
  { unfold found in Hr. destruct (files _ !! challenge_2) as [c|]; [|discriminate Hr]. cbn in Hr. rewrite Hr. reflexivity. }
  exact (verified_by_token no_json story challenge_2 r story_legal Hf Hv).
Defined.

Lemma challenges_limited_witness :
  ∃ r, let fs := files (run no_json nothing (take 1 story ++ [asked (hex "2") 20])).2 in
    fs !! named r = Some (Some r) ∧ v_status (the_state r) = "pending"
    ∧ (∀ x, mine fs "local-admin" (hex "a") x → x ≠ r → over (clock_ 20) x)
    ∧ ∀ l, NoDup l → (∀ x, x ∈ l → mine fs "local-admin" (hex "a") x ∧ recent (instant (at_ 20) - hours 1) x) → (length l <= 5)%nat.
Proof.
  assert (Hl : legal_run no_json nothing (take 1 story ++ [asked (hex "2") 20])) by (destruct story_legal as (H1 & H2 & _); exact (conj H1 (conj H2 I))).
  assert (H : is_ok (start no_json (run no_json nothing (take 1 story)) (λ _, false) asset "dns_txt" 30 "local-admin" "local-admin" (hex "2") random
                       (at_ 20) (clock_ 20)).1 = true) by (vm_compute; reflexivity).
  destruct (start no_json _ _ _ _ _ _ _ _ _ _ _).1 as [[r token]|] eqn:Hr; [|discriminate H].
  exists r. exact (challenges_limited no_json (take 1 story) (λ _, false) asset "dns_txt" 30 "local-admin" "local-admin" (hex "2") random
                     (at_ 20) (clock_ 20) r token Hl Hr).
Defined.
