(* ===== verification/JobRecord.v ===== *)
(** * JobRecord: the records of the jobs

    Models [JobRecord] of [backend/app/models.py] with what [JobStore]
    ([backend/app/storage.py]) makes of a record before it writes it and after
    it reads it.  The fields are in three groups: what a job is, the evidence
    of its admission, and how far it is.  A file holds a payload with the
    digest of its result, or what does not parse as one.

    The redactions and normalizations a result goes through, the profile of
    the execution and the JSON text that digests are taken of are arguments;
    an [HTTPException] is [Err] of its status code. *)

From S2P Require Import Prelude PyStr Grouping Sha256 BearerToken Identifiers PyValue.
Local Open Scope Z_scope.

(** ** Data *)

(** backend/app/models.py [AuditType] *)
Definition AuditType : list string :=
  ["pdf_basic"; "image_basic"; "manifest_basic"; "archive_basic"; "project_archive_basic"; "web_basic"; "domain_basic";
   "subdomain_inventory_basic"; "django_config_basic"; "docker_config_basic"; "secrets_review_basic"; "node_package_config_basic";
   "ci_cd_config_basic"; "k8s_config_basic"; "terraform_config_basic"; "nginx_config_basic"; "compose_config_basic";
   "database_config_basic"; "sql_database_config_basic"; "redis_config_basic"; "active_network_dry_run";
   "active_http_header_probe"; "active_http_basic_header_review"; "active_nmap_basic"; "active_tls_basic";
   "active_dns_inventory"; "active_dns_osint"].
(** backend/app/models.py [JobStatus] *)
Definition JobStatus : list string := ["queued"; "running"; "cancelling"; "cancelled"; "completed"; "failed"].
(** backend/app/models.py [JobTerminationReason] *)
Definition JobTerminationReason : list string :=
  ["completed"; "cancelled_by_owner"; "authorization_revoked"; "application_restart"; "application_shutdown"; "recovery_rejected";
   "runner_timeout"; "runner_resource_limit"; "runner_unavailable"; "runner_contract_invalid"; "workspace_error"; "internal_error"].
Definition active_execution_phases : list string := ["admitted"; "waiting_for_runner"; "executing"; "normalizing"; "terminal"].

Definition inflight : list string := ["queued"; "running"; "cancelling"].
Definition terminal : list string := ["completed"; "failed"; "cancelled"].

Record job_origin : Type := JobOrigin {
  job_id : string;
  project_id : option string;
  source_sha256 : option string;
  sbom_revision_key_sha256 : option string;
  analysis_profile : option string;
  audit_type : string;
  file_id : option string;
  target_domain : option string;
  job_created_at : datetime;
  retry_of_job_id : option string
}.

(** What [_merge_existing_record] keeps of the first record. *)
Record job_evidence : Type := JobEvidence {
  active_asset_id : option string;
  active_authorization_contract : option string;
  active_authorization_revision_id : option string;
  active_authorization_revision_digest_sha256 : option string;
  active_authorization_revision_sequence : option Z;
  active_execution_port : option Z;
  active_execution_idempotency_key_sha256 : option string
}.

Record job_progress : Type := JobProgress {
  job_status : string;
  active_execution_phase : option string;
  job_updated_at : datetime;
  started_at : option datetime;
  finished_at : option datetime;
  cancellation_requested_at : option datetime;
  termination_reason : option string;
  recovery_count : Z;
  last_recovered_at : option datetime;
  source_file_deleted_at : option datetime;
  result_integrity_status : string;
  target_url : option string;
  result : option value;
  error : option string
}.

(** backend/app/models.py 146-180 [JobRecord] *)
Record JobRecord : Type := Job {
  job_owner_id : option string;
  job_organization_id : option string;
  execution_profile : option value;
  the_origin : job_origin;
  the_evidence : job_evidence;
  the_course : job_progress
}.

Definition status_of (r : JobRecord) : string := job_status (the_course r).
Definition asset_of (r : JobRecord) : option string := active_asset_id (the_evidence r).
Definition key_of (r : JobRecord) : option string := active_execution_idempotency_key_sha256 (the_evidence r).
Definition id_of (r : JobRecord) : string := job_id (the_origin r).

(** ** Validation *)

(** [^[A-Za-z0-9][A-Za-z0-9._-]{0,n}$] *)
Definition is_name_of (n : nat) (s : string) : bool :=
  match chars s with
  | c :: cs => is_ascii_alnum c && forallb (λ c, is_ascii_alnum c || one_of "._-" c) cs && (length cs <=? n)%nat
  | [] => false
  end.

Definition revision_complete (e : job_evidence) : bool :=
  let i := bool_decide (is_Some (active_authorization_revision_id e)) in
  let d := bool_decide (is_Some (active_authorization_revision_digest_sha256 e)) in
  let s := bool_decide (is_Some (active_authorization_revision_sequence e)) in
  Bool.eqb i d && Bool.eqb d s && (negb i || bool_decide (is_Some (active_asset_id e))).

(** The organization of the record, from its owner. *)
(** backend/app/models.py [_materialize_organization_boundary] *)
Definition _materialize_organization_boundary (r : JobRecord) : outcome JobRecord :=
  raise "ValueError"
    when (match job_owner_id r, job_organization_id r with Some o, Some g => negb (String.eqb o g) | _, _ => false end);;
  raise "ValueError" when (negb (revision_complete (the_evidence r)));;
  Ok (Job (job_owner_id r) (match job_organization_id r with Some g => Some g | None => job_owner_id r end) (execution_profile r)
        (the_origin r) (the_evidence r) (the_course r)).

Definition evidence_valid (e : job_evidence) : bool :=
  from_option is_hex32 true (active_asset_id e) && from_option (is_name_of 31) true (active_authorization_contract e)
  && from_option is_hex32 true (active_authorization_revision_id e)
  && from_option is_hex64 true (active_authorization_revision_digest_sha256 e)
  && from_option (in_range 1 64) true (active_authorization_revision_sequence e)
  && from_option (in_range 1 65535) true (active_execution_port e)
  && from_option is_hex64 true (active_execution_idempotency_key_sha256 e).

Definition course_valid (c : job_progress) : bool :=
  mem (job_status c) JobStatus && from_option (λ p, mem p active_execution_phases) true (active_execution_phase c)
  && from_option (λ t, mem t JobTerminationReason) true (termination_reason c) && (0 <=? recovery_count c)
  && mem (result_integrity_status c) ["valid"; "unknown"].

(** backend/app/models.py 146-184 [JobRecord] *)
Definition validated_job (r : JobRecord) : outcome JobRecord :=
  raise "ValidationError"
    when (negb (mem (audit_type (the_origin r)) AuditType && from_option is_hex64 true (sbom_revision_key_sha256 (the_origin r))
                && evidence_valid (the_evidence r) && course_valid (the_course r)));;
  match _materialize_organization_boundary r with Ok r' => Ok r' | Err _ => Err "ValidationError" end.

(** What a file holds: the payload with its envelope. *)
Abbreviation content := (option (JobRecord * option string)).

(** ** Owners *)

Section Files.
Context (trusted_local : bool).

(** backend/app/storage.py [resolve_record_owner_id] *)
Definition resolve_record_owner_id (owner : option string) : option string :=
  if truthy_opt owner then owner else if trusted_local then Some "local-admin" else None.

(** backend/app/storage.py [_with_effective_job_owner] *)
Definition _with_effective_job_owner (r : JobRecord) : JobRecord :=
  let owner := resolve_record_owner_id (job_owner_id r) in
  if bool_decide (owner = job_owner_id r) then r
  else Job owner owner (execution_profile r) (the_origin r) (the_evidence r) (the_course r).

(** ** Integrity of results *)

(** What the digest of a result is taken of. *)
Record integrity_input : Type := IntegrityInput {
  of_job : string;
  of_owner : option string;
  of_organization : option string;
  of_project : option string;
  of_audit : string;
  of_analysis : option string;
  of_execution : option value;
  of_result : option value
}.

Context (integrity_text : integrity_input → option string) (record_json : JobRecord → string).

(** The JSON text, or the error when there is none. *)
(** backend/app/storage.py [_result_integrity_material_from_mapping] *)
Definition _result_integrity_material (r : JobRecord) : outcome string :=
  or_raise (integrity_text (IntegrityInput (id_of r) (job_owner_id r) (job_organization_id r) (project_id (the_origin r))
                              (audit_type (the_origin r)) (analysis_profile (the_origin r)) (execution_profile r) (result (the_course r)))) "500".

(** backend/app/storage.py [_result_integrity_digest] *)
Definition _result_integrity_digest (r : JobRecord) : outcome string :=
  m ← _result_integrity_material r; Ok (sha256_hex (utf8 m)).

(** The digest in the envelope; the contract's version is a constant. *)
(** backend/app/storage.py [_result_integrity_envelope] *)
Definition _result_integrity_envelope (r : JobRecord) : outcome (option string) :=
  match result (the_course r) with
  | None => Ok None
  | Some _ => d ← _result_integrity_digest r; Ok (Some d)
  end.

(** backend/app/storage.py [_result_integrity_payload_matches] *)
Definition _result_integrity_payload_matches (payload : JobRecord) (envelope : string) : outcome bool :=
  if negb (is_hex64 envelope && bool_decide (is_Some (result (the_course payload)))) then Ok false else
  d ← _result_integrity_digest payload; Ok (String.eqb d envelope).

Definition with_integrity (r : JobRecord) (checked : bool) : JobRecord :=
  let c := the_course r in
  Job (job_owner_id r) (job_organization_id r) (execution_profile r) (the_origin r) (the_evidence r)
    (JobProgress (job_status c) (active_execution_phase c) (job_updated_at c) (started_at c) (finished_at c)
       (cancellation_requested_at c) (termination_reason c) (recovery_count c) (last_recovered_at c) (source_file_deleted_at c)
       (if checked then "valid" else "unknown") (target_url c) (result c) (error c)).

(** backend/app/storage.py [JobStore._load_job_file] *)
Definition _load_job_file (c : content) : outcome JobRecord :=
  match c with
  | None => Err "500"
  | Some (payload, envelope) =>
      matches ← from_option (_result_integrity_payload_matches payload) (Ok true) envelope;
      raise "409" when (negb matches);;
      match validated_job payload with
      | Err _ => Err "500"
      | Ok r => Ok (_with_effective_job_owner (with_integrity r (bool_decide (is_Some envelope))))
      end
  end.

(** backend/app/active_job_index.py [active_job_record_digest] *)
Definition active_job_record_digest (r : JobRecord) : string := sha256_hex (utf8 (record_json r)).
End Files.

(** backend/app/active_job_index.py [job_source_reference_digest] *)
Definition job_source_reference_digest (file : string) : string :=
  sha256_hex ("inspectra-job-source-reference-v1" ++ text ["000"%char] ++ utf8 file).

(** [result.get(key) in words]; a list or a dictionary there, which Python
    cannot look for in a set, is taken as none of the words. *)
Definition said (r : JobRecord) (key : string) (words : list string) : bool :=
  match result (the_course r) with Some (VDict d) => str_in words (get key d) | _ => false end.

(** backend/app/active_job_index.py [_record_is_degraded] *)
Definition _record_is_degraded (r : JobRecord) : bool :=
  String.eqb (status_of r) "completed"
  && (said r "status" ["partial"; "timed_out"; "request_failed"; "source_unavailable"]
      || said r "coverage_level" ["partial"; "partial_inventory"; "incomplete"]).
