(* ===== verification/JobIndex.v ===== *)
(** * JobIndex: the index of the jobs

    Models [ActiveJobIndex] of [backend/app/active_job_index.py]: the SQLite
    table projected from the job files ([StampedIndex]), kept in step by every
    save, and the queries that admission, recovery and retention ask of it.
    A query reads the rows, then loads the file of each row it answers with,
    which has to say what the row says.  The pages with their cursors and the
    snapshots of operations are not modelled. *)

From S2P Require Import Prelude PyStr Grouping Sha256 BearerToken Identifiers SqlTable PyValue StampedIndex JobRecord.
Local Open Scope Z_scope.

(** backend/app/active_job_index.py 25-30 [constants] *)
Definition JOB_RETENTION_BATCH_SIZE : nat := 100.
Definition JOB_RETENTION_MAX_BATCH_SIZE : nat := 500.
Definition job_index_invalid : string := "active_job_index_invalid".

(** backend/app/active_job_index.py [_GENERAL_OWNER] *)
Definition _GENERAL_OWNER : string → bool := is_name_of 127.

(** [^active_[a-z0-9_]{3,48}$] *)
Definition is_active_type (s : string) : bool :=
  startswith "active_" s && all_chars (λ c, is_digit c || is_lower_az c || one_of "_" c) (str_drop 7 s)
  && in_range 3 48 (Z.of_nat (len s) - 7).

(** The columns of a row, but for its key [job_id]. *)
(** backend/app/active_job_index.py 832-847 [ActiveJobIndex._rebuild] *)
Record job_row : Type := JobRow {
  row_owner : string;
  row_asset : option string;
  row_project : option string;
  row_audit : string;
  row_status : string;
  row_degraded : bool;
  row_key : option string;
  row_created : Z;
  row_updated : Z;
  row_source : option string;
  row_source_deleted : bool;
  row_digest : string
}.
#[export] Instance job_row_eq_dec : EqDecision job_row.
Proof. solve_decision. Defined.

Abbreviation job_table := (gmap string job_row).
Abbreviation site := (memory * stamped string content job_table)%type.

Section Index.
Context (load : content → outcome JobRecord) (digest : JobRecord → string).

(** A time that is not aware is taken in the host's zone, here UTC. *)
Definition row_of (owner : string) (r : JobRecord) : job_row :=
  let o := the_origin r in
  JobRow owner (asset_of r) (project_id o) (audit_type o) (status_of r) (_record_is_degraded r) (key_of r)
    (instant (job_created_at o)) (instant (job_updated_at (the_course r))) (job_source_reference_digest <$> file_id o)
    (bool_decide (is_Some (source_file_deleted_at (the_course r)))) (digest r).

(** The other rows with the same key, which the [UNIQUE] index refuses. *)
Definition key_taken (t : job_table) (i owner : string) (key : option string) : bool :=
  match key with
  | None => false
  | Some _ => any_of (λ kr : string * job_row, negb (String.eqb kr.1 i) && String.eqb (row_owner kr.2) owner
                                                && bool_decide (row_key kr.2 = key)) (map_to_list t)
  end.

(** backend/app/active_job_index.py [ActiveJobIndex._replace_record] *)
Definition _replace_record (t : job_table) (r : JobRecord) : outcome job_table :=
  owner ← or_raise (job_owner_id r) job_index_invalid;
  raise job_index_invalid when (negb (_GENERAL_OWNER owner));;
  raise "IntegrityError" when (key_taken t (id_of r) owner (key_of r));;
  Ok (<[id_of r := row_of owner r]> t).

Fixpoint replace_records (t : job_table) (rs : list JobRecord) : outcome job_table :=
  match rs with
  | [] => Ok t
  | r :: rs' => t' ← _replace_record t r; replace_records t' rs'
  end.

Definition name_order {A} (a b : string * A) : Prop := str_le a.1 b.1.
#[global] Instance name_order_dec {A} (a b : string * A) : Decision (name_order a b).
Proof. unfold name_order. apply _. Defined.

(** The files in order; other names than an identifier's are left out. *)
(** backend/app/active_job_index.py 803-814 [ActiveJobIndex._rebuild] *)
Definition load_jobs (fs : gmap string content) : outcome (list JobRecord) :=
  invalid_as job_index_invalid
    (traverse (λ kc : string * content, load kc.2) (filter (λ kc, is_hex32 kc.1 = true) (merge_sort name_order (map_to_list fs)))).

(** backend/app/active_job_index.py 871-872 [ActiveJobIndex._rebuild] *)
Definition rebuilt_rows (fs : gmap string content) : outcome job_table :=
  records ← load_jobs fs; invalid_as job_index_invalid (replace_records ∅ records).

(** backend/app/active_job_index.py [ActiveJobIndex._ensure_current] *)
Definition _ensure_current : site → outcome unit * site := ensure_current job_index_invalid rebuilt_rows.

(** backend/app/active_job_index.py [ActiveJobIndex._rebuild] *)
Definition _rebuild : site → outcome unit * site := rebuild rebuilt_rows.

Abbreviation current := (current_rows job_index_invalid rebuilt_rows).

(** backend/app/active_job_index.py [ActiveJobIndex.sync_after_save] *)
Definition sync_after_save (r : JobRecord) : site → outcome unit * site := sync_with rebuilt_rows (λ t, _replace_record t r).

(** backend/app/active_job_index.py [ActiveJobIndex.sync_after_delete] *)
Definition sync_after_delete (r : JobRecord) : site → outcome unit * site := sync_with rebuilt_rows (λ t, Ok (delete (id_of r) t)).

(** ** Queries *)

(** What a query does once its arguments are accepted. *)
Definition query {A} (f : gmap string content → job_table → outcome A) (s : site) : outcome A * site :=
  let '(t, s') := current s in ((t ← t; f (files s'.2) t), s').

(** The file of a row, when it still says what the row says. *)
Definition load_row (fs : gmap string content) (agrees : JobRecord → job_row → bool) (kr : string * job_row) : outcome JobRecord :=
  c ← or_raise (fs !! kr.1) job_index_invalid;
  r ← invalid_as job_index_invalid (load c);
  raise job_index_invalid when (negb (agrees r kr.2 && String.eqb (digest r) (row_digest kr.2)));;
  Ok r.

(** [ORDER BY created_at_micros, job_id] *)
Definition oldest_first (a b : string * job_row) : Prop :=
  row_created a.2 < row_created b.2 ∨ (row_created a.2 = row_created b.2 ∧ str_le a.1 b.1).
#[global] Instance oldest_first_dec a b : Decision (oldest_first a b).
Proof. unfold oldest_first. apply _. Defined.

(** [ORDER BY updated_at_micros, job_id] *)
Definition stalest_first (a b : string * job_row) : Prop :=
  row_updated a.2 < row_updated b.2 ∨ (row_updated a.2 = row_updated b.2 ∧ str_le a.1 b.1).
#[global] Instance stalest_first_dec a b : Decision (stalest_first a b).
Proof. unfold stalest_first. apply _. Defined.

Definition is_inflight (row : job_row) : bool := mem (row_status row) inflight.
Definition owned (owner : string) (row : job_row) : bool := String.eqb (row_owner row) owner.
Definition count_rows (p : job_row → bool) (t : job_table) : nat := row_count (λ _, p) t.
Definition sorted_rows (order : relation (string * job_row)) `{∀ a b, Decision (order a b)} (p : job_row → bool) (t : job_table)
    : list (string * job_row) := merge_sort order (map_to_list (select_where (λ _, p) t)).

(** backend/app/active_job_index.py [ActiveJobIndex.admission_counts] *)
Definition admission_counts (owner : string) (s : site) : outcome (nat * nat) * site :=
  if negb (_GENERAL_OWNER owner) then (Err job_index_invalid, s) else
  query (λ _ t, Ok (count_rows is_inflight t, count_rows (λ row, is_inflight row && owned owner row) t)) s.

(** backend/app/active_job_index.py [ActiveJobIndex.global_inflight_count] *)
Definition global_inflight_count (s : site) : outcome nat * site := query (λ _ t, Ok (count_rows is_inflight t)) s.

(** backend/app/active_job_index.py [ActiveJobIndex.has_inflight_project] *)
Definition has_inflight_project (owner project : string) (s : site) : outcome bool * site :=
  if negb (_GENERAL_OWNER owner && is_hex32 project) then (Err job_index_invalid, s) else
  query (λ _ t, Ok (0 <? Z.of_nat (count_rows (λ row, owned owner row && bool_decide (row_project row = Some project) && is_inflight row) t))) s.

(** Everything in flight, of any owner, in order. *)
(** backend/app/active_job_index.py [ActiveJobIndex.inflight_records] *)
Definition inflight_records (s : site) : outcome (list JobRecord) * site :=
  query (λ fs t, traverse (load_row fs (λ r row, String.eqb (status_of r) (row_status row) && mem (status_of r) inflight))
                   (sorted_rows oldest_first is_inflight t)) s.

(** backend/app/active_job_index.py [ActiveJobIndex.inflight_records_for_active_asset] *)
Definition inflight_records_for_active_asset (owner asset : string) (s : site) : outcome (list JobRecord) * site :=
  if negb (is_owner owner && is_hex32 asset) then (Err job_index_invalid, s) else
  query (λ fs t, traverse (load_row fs (λ r row, bool_decide (job_owner_id r = Some owner) && bool_decide (asset_of r = Some asset)
                                                 && String.eqb (status_of r) (row_status row) && mem (status_of r) inflight))
                   (sorted_rows oldest_first (λ row, owned owner row && bool_decide (row_asset row = Some asset) && is_inflight row) t)) s.

(** All the jobs of an asset; one of another owner is an error. *)
(** backend/app/active_job_index.py [ActiveJobIndex.records_for_active_asset] *)
Definition records_for_active_asset (owner asset : string) (s : site) : outcome (list JobRecord) * site :=
  if negb (is_owner owner && is_hex32 asset) then (Err job_index_invalid, s) else
  query (λ fs t, traverse (load_row fs (λ r row, owned owner row && bool_decide (job_owner_id r = Some owner)
                                                 && bool_decide (asset_of r = Some asset)))
                   (sorted_rows oldest_first (λ row, bool_decide (row_asset row = Some asset)) t)) s.

(** Jobs in flight of active assets: all, of the owner, of the owner's asset,
    of the kind. *)
(** backend/app/active_job_index.py [ActiveJobIndex.active_capacity_counts] *)
Definition active_capacity_counts (owner asset audit : string) (s : site) : outcome (nat * nat * nat * nat) * site :=
  if negb (_GENERAL_OWNER owner && is_hex32 asset && is_active_type audit) then (Err job_index_invalid, s) else
  let active row := bool_decide (is_Some (row_asset row)) && is_inflight row in
  query (λ _ t, Ok (count_rows active t, count_rows (λ row, active row && owned owner row) t,
                    count_rows (λ row, active row && (owned owner row && bool_decide (row_asset row = Some asset))) t,
                    count_rows (λ row, active row && String.eqb (row_audit row) audit) t)) s.

Definition has_key (owner key : string) (row : job_row) : bool := owned owner row && bool_decide (row_key row = Some key).

(** backend/app/active_job_index.py [ActiveJobIndex.idempotent_record] *)
Definition idempotent_record (owner key : string) (s : site) : outcome (option JobRecord) * site :=
  if negb (_GENERAL_OWNER owner && is_hex64 key) then (Err job_index_invalid, s) else
  query (λ fs t, match find_row (λ _, has_key owner key) t with
                 | None => Ok None
                 | Some kr => r ← load_row fs (λ r _, bool_decide (job_owner_id r = Some owner) && bool_decide (key_of r = Some key)) kr;
                              Ok (Some r)
                 end) s.

Definition expired (cutoff : Z) (owner : option string) (row : job_row) : bool :=
  mem (row_status row) terminal && (row_updated row <=? cutoff) && from_option (λ o, owned o row) true owner.

(** backend/app/active_job_index.py [ActiveJobIndex.expired_terminal_records] *)
Definition expired_terminal_records (cutoff : datetime) (owner : option string) (limit : nat) (s : site)
    : outcome (list JobRecord) * site :=
  if negb (aware cutoff && from_option _GENERAL_OWNER true owner && (1 <=? limit)%nat && (limit <=? JOB_RETENTION_MAX_BATCH_SIZE)%nat)
  then (Err job_index_invalid, s) else
  query (λ fs t, traverse (load_row fs (λ r row, bool_decide (job_owner_id r = Some (row_owner row))
                                                 && from_option (λ o, bool_decide (job_owner_id r = Some o)) true owner
                                                 && String.eqb (status_of r) (row_status row) && mem (status_of r) terminal
                                                 && (instant (job_updated_at (the_course r)) =? row_updated row)
                                                 && (instant (job_updated_at (the_course r)) <=? instant cutoff)))
                   (take limit (sorted_rows stalest_first (expired (instant cutoff) owner) t))) s.

(** ** What the rows are *)

(** The jobs of the files. *)
Definition job_of (c : content) : option JobRecord := match load c with Ok r => Some r | Err _ => None end.
Definition jobs (fs : gmap string content) : gmap string JobRecord := omap job_of fs.
Definition the_row (r : JobRecord) : job_row := row_of (default "" (job_owner_id r)) r.

(** Every file holds a job of its name that the index takes, and no two of an
    owner have one key. *)
Definition settled (fs : gmap string content) : Prop :=
  (∀ i c, fs !! i = Some c → is_hex32 i = true ∧ ∃ r owner, load c = Ok r ∧ id_of r = i ∧ job_owner_id r = Some owner ∧ _GENERAL_OWNER owner = true)
  ∧ ∀ i j r r', jobs fs !! i = Some r → jobs fs !! j = Some r' → job_owner_id r = job_owner_id r' → key_of r = key_of r' → is_Some (key_of r) → i = j.

Lemma job_at fs i r : jobs fs !! i = Some r ↔ ∃ c, fs !! i = Some c ∧ load c = Ok r.
Proof.
  unfold jobs. rewrite lookup_omap, bind_Some. unfold job_of. split; intros (c & Hc & H); exists c; (split; [done|]).
  - destruct (load c); congruence.
  - by rewrite H.
Qed.

Lemma settled_job fs i r :
  settled fs → jobs fs !! i = Some r → is_hex32 i = true ∧ id_of r = i ∧ ∃ owner, job_owner_id r = Some owner ∧ _GENERAL_OWNER owner = true.
Proof. intros [Hs _] (c & Hc & Hl)%job_at. destruct (Hs i c Hc) as (Hi & r' & o & Hl' & He & Ho & Hg). assert (r' = r) as -> by congruence. eauto. Qed.

Lemma load_settled fs :
  settled fs → ∃ rs, load_jobs fs = Ok rs ∧ ∀ r, r ∈ rs ↔ jobs fs !! id_of r = Some r.
Proof.
  intros Hs. unfold load_jobs. set (l := filter _ _).
  assert (Hl : ∀ i c, (i, c) ∈ l ↔ fs !! i = Some c).
  { intros i c. unfold l. rewrite list_elem_of_filter, merge_sort_Permutation, elem_of_map_to_list. split; [by intros []|].
    intros H. split; [|done]. by destruct (proj1 Hs i c H). }
  assert (Ht : is_ok (traverse (λ kc : string * content, load kc.2) l) = true).
  { apply traverse_total. intros [i c] H%Hl. cbn. by destruct (proj1 Hs i c H) as (_ & r & o & -> & _). }
  destruct (traverse _ l) as [rs|] eqn:Hrs; [|done]. apply traverse_ok in Hrs. exists rs. split; [done|]. intros r. split.
  - intros Hr. apply list_elem_of_lookup_1 in Hr as [n Hn]. destruct (Forall2_lookup_r _ _ _ _ _ Hrs Hn) as ([i c] & Hk & Hload).
    apply list_elem_of_lookup_2, Hl in Hk. destruct (proj1 Hs i c Hk) as (_ & r' & o & Hl' & He & _). cbn in Hload.
    assert (r' = r) as -> by congruence. rewrite He. apply job_at. by exists c.
  - intros (c & Hc & Hload)%job_at. apply Hl in Hc. apply list_elem_of_lookup_1 in Hc as [n Hn].
    destruct (Forall2_lookup_l _ _ _ _ _ Hrs Hn) as (x & Hx & Hlx). cbn in Hlx. assert (x = r) as -> by congruence. by apply list_elem_of_lookup_2 in Hx.
Qed.

(** Rows of jobs are never refused. *)
Definition among (js : gmap string JobRecord) (t : job_table) : Prop :=
  ∀ i row, t !! i = Some row → ∃ r, js !! i = Some r ∧ row = the_row r.

Lemma replace_among fs t r :
  settled fs → among (jobs fs) (delete (id_of r) t) → jobs fs !! id_of r = Some r → _replace_record t r = Ok (<[id_of r := the_row r]> t).
Proof.
  intros Hs Ha Hr. destruct (settled_job fs _ r Hs Hr) as (_ & _ & o & Ho & Hg). unfold _replace_record. rewrite Ho. cbn [or_raise mbind outcome_bind].
  rewrite Hg. cbn [negb]. replace (key_taken _ _ _ _) with false.
  - unfold the_row. by rewrite Ho.
  - symmetry. unfold key_taken. destruct (key_of r) as [k|] eqn:Hk; [|done]. apply not_true_iff_false. intros ([i row] & Hin & H)%any_of_true.
    apply elem_of_map_to_list in Hin. cbn in H. to_prop.
    destruct (Ha i row) as (r' & Hr' & ->); [by rewrite lookup_delete_ne by done|].
    destruct (settled_job fs i r' Hs Hr') as (_ & _ & o' & Ho' & _). unfold the_row in *. rewrite Ho' in *. cbn in *.
    match goal with H : i ≠ id_of r |- _ => apply H end. apply (proj2 Hs i (id_of r) r' r); [done..| congruence| congruence|]. by eexists _; rewrite H0.
Qed.

Lemma replace_all_among fs t rs :
  settled fs → among (jobs fs) t → (∀ r, r ∈ rs → jobs fs !! id_of r = Some r) →
  ∃ t', replace_records t rs = Ok t' ∧ among (jobs fs) t' ∧ (∀ i, is_Some (t !! i) → is_Some (t' !! i)) ∧ ∀ r, r ∈ rs → is_Some (t' !! id_of r).
Proof.
  intros Hs. revert t. induction rs as [|r rs IH]; intros t Ha Hin; cbn [replace_records].
  { exists t. split; [done|]. split; [done|]. split; [done|]. intros r Hr. by apply not_elem_of_nil in Hr. }
  assert (Hr : jobs fs !! id_of r = Some r) by (apply Hin; left).
  rewrite (replace_among fs); [|done| |done]. 2:{ intros i row [_ H]%lookup_delete_Some. by apply Ha. } cbn [mbind outcome_bind].
  destruct (IH (<[id_of r := the_row r]> t)) as (t' & -> & Ha' & Hk & Hall).
  - intros i row [[<- <-]|[_ H]]%lookup_insert_Some; [by exists r|by apply Ha].
  - intros x Hx. apply Hin. by right.
  - exists t'. split; [done|]. split; [done|]. split.
    + intros i Hi. apply Hk. rewrite lookup_insert_is_Some'. by right.
    + intros x [->|Hx]%elem_of_cons; [|by apply Hall]. apply Hk. rewrite lookup_insert_eq. by eexists.
Qed.

Lemma settled_rebuilt fs : settled fs → rebuilt_rows fs = Ok (the_row <$> jobs fs).
Proof.
  intros Hs. destruct (load_settled fs Hs) as (rs & Hl & Hin). unfold rebuilt_rows. rewrite Hl. cbn [mbind outcome_bind].
  destruct (replace_all_among fs ∅ rs Hs) as (t & -> & Ha & _ & Hall); [by intros i row; rewrite lookup_empty|by intros r Hr%Hin|].
  cbn. f_equal. apply map_eq. intros i. rewrite lookup_fmap. destruct (jobs fs !! i) as [r|] eqn:Hr; cbn.
  - destruct (settled_job fs i r Hs Hr) as (_ & He & _). assert (Hrs : r ∈ rs) by (apply Hin; by rewrite He).
    destruct (Hall r Hrs) as [row Hrow]. rewrite He in Hrow. rewrite Hrow. destruct (Ha i row Hrow) as (r' & Hr' & ->). congruence.
  - apply eq_None_not_Some. intros [row Hrow]. destruct (Ha i row Hrow) as (r & Hr' & _). congruence.
Qed.

(** ** What the calls do *)

Definition site_ok (s : site) : Prop := index_ok rebuilt_rows s ∧ settled (files s.2).

Lemma jobs_insert fs i c r : load c = Ok r → jobs (<[i := c]> fs) = <[i := r]> (jobs fs).
Proof. intros H. unfold jobs. apply omap_insert_Some. unfold job_of. by rewrite H. Qed.

Lemma jobs_delete fs i : jobs (delete i fs) = delete i (jobs fs).
Proof. apply omap_delete. Qed.

Lemma query_ok {A} (f : gmap string content → job_table → outcome A) (s : site) :
  site_ok s → ∃ s', query f s = (f (files s.2) (the_row <$> jobs (files s.2)), s') ∧ files s'.2 = files s.2 ∧ site_ok s'.
Proof.
  intros [Hi Hs]. unfold query. pose proof (current_rows_spec job_index_invalid rebuilt_rows s Hi) as H1.
  pose proof (current_files job_index_invalid rebuilt_rows s Hi) as H2. rewrite (settled_rebuilt _ Hs) in H1.
  pose proof (ensure_current_ok job_index_invalid rebuilt_rows s Hi) as [H3 _].
  assert (H4 : (current_rows job_index_invalid rebuilt_rows s).2 = (ensure_current job_index_invalid rebuilt_rows s).2)
    by (unfold current_rows; by destruct (ensure_current _ _ s) as [[]]).
  destruct (current_rows _ _ s) as [o s']. cbn [fst snd] in H1, H2, H4. subst o s'. eexists. cbn [mbind outcome_bind]. rewrite H2.
  split; [done|]. split; [done|]. split; [done|]. by rewrite H2.
Qed.

Lemma settled_write fs c r owner :
  settled fs → is_hex32 (id_of r) = true → load c = Ok r → job_owner_id r = Some owner → _GENERAL_OWNER owner = true →
  (∀ j r', jobs fs !! j = Some r' → job_owner_id r' = Some owner → key_of r' = key_of r → is_Some (key_of r) → j = id_of r) →
  settled (<[id_of r := c]> fs).
Proof.
  intros [Hf Hu] Hi Hl Ho Hg Hk. split.
  - intros i c' [[<- <-]|[_ H]]%lookup_insert_Some; [|by apply Hf]. split; [done|]. by exists r, owner.
  - rewrite (jobs_insert fs _ c r Hl). intros i j x y.
    intros [[<- <-]|[Hne Hx]]%lookup_insert_Some [[<- <-]|[Hne' Hy]]%lookup_insert_Some; [done|..].
    + intros Ho' Hke Hs. symmetry. apply (Hk j y Hy); congruence.
    + intros Ho' Hke Hs. apply (Hk i x Hx); [congruence|done|congruence].
    + by apply Hu.
Qed.

Lemma settled_delete fs i : settled fs → settled (delete i fs).
Proof.
  intros [Hf Hu]. split; [intros j c [_ H]%lookup_delete_Some; by apply Hf|]. rewrite jobs_delete.
  intros a b x y [_ Hx]%lookup_delete_Some [_ Hy]%lookup_delete_Some. by apply Hu.
Qed.

Lemma job_saved_ok (s : site) c r :
  site_ok s → load c = Ok r → settled (<[id_of r := c]> (files s.2)) →
  ∃ s', sync_after_save r (s.1, write_file (id_of r) c s.2) = (Ok tt, s') ∧ site_ok s' ∧ files s'.2 = <[id_of r := c]> (files s.2).
Proof.
  destruct s as [m d]. intros [Hi Hs] Hl Hs'. cbn [fst snd] in *.
  destruct (sync_with_ok rebuilt_rows (λ t, _replace_record t r) m d (write_file (id_of r) c d)) as (Ho & Hi' & Hf & _); [exact Hi|done|cbn; lia|cbn; lia|left; cbn; lia| |].
  - intros t Ht. rewrite (settled_rebuilt _ Hs) in Ht. injection Ht as <-. cbn [files write_file]. rewrite (settled_rebuilt _ Hs'), (jobs_insert _ _ c r Hl), fmap_insert.
    eexists. split; [|done]. apply (replace_among (<[id_of r := c]> (files d))); [done| |by rewrite (jobs_insert _ _ c r Hl), lookup_insert_eq].
    intros i row [Hne Hrow]%lookup_delete_Some. rewrite (jobs_insert _ _ c r Hl), lookup_insert_ne by done.
    rewrite lookup_fmap in Hrow. apply fmap_Some in Hrow as (x & Hx & ->). by exists x.
  - unfold sync_after_save. destruct (sync_with _ _ _) as [o s']. cbn [fst snd] in *. subst o. exists s'. split; [done|]. split; [|done].
    split; [done|]. by rewrite Hf.
Qed.

Lemma delete_job_ok (s : site) r :
  site_ok s →
  ∃ s', sync_after_delete r (s.1, unlink_file (id_of r) s.2) = (Ok tt, s') ∧ site_ok s' ∧ files s'.2 = delete (id_of r) (files s.2).
Proof.
  destruct s as [m d]. intros [Hi Hs]. cbn [fst snd] in *. pose proof (settled_delete _ (id_of r) Hs) as Hs'.
  destruct (sync_with_ok rebuilt_rows (λ t, Ok (delete (id_of r) t)) m d (unlink_file (id_of r) d)) as (Ho & Hi' & Hf & _); [exact Hi|done|cbn; lia|cbn; lia|left; cbn; lia| |].
  - intros t Ht. rewrite (settled_rebuilt _ Hs) in Ht. injection Ht as <-. cbn [files unlink_file]. rewrite (settled_rebuilt _ Hs'), jobs_delete, fmap_delete. by eexists.
  - unfold sync_after_delete. destruct (sync_with _ _ _) as [o s']. cbn [fst snd] in *. subst o. exists s'. split; [done|]. split; [|done].
    split; [done|]. by rewrite Hf.
Qed.

(** How many jobs there are of a kind. *)
Definition jobs_where (p : JobRecord → bool) (js : gmap string JobRecord) : gmap string JobRecord := filter (λ kr, p kr.2 = true) js.

Lemma count_rows_jobs p js : count_rows p (the_row <$> js) = size (jobs_where (λ r, p (the_row r)) js).
Proof.
  unfold count_rows, row_count, select_where, jobs_where. rewrite map_filter_fmap, map_size_fmap. f_equal.
Qed.

Lemma jobs_where_ext p q js : (∀ i r, js !! i = Some r → p r = q r) → jobs_where p js = jobs_where q js.
Proof. intros H. apply map_filter_ext. intros i r Hr. cbn. by rewrite (H i r Hr). Qed.

(** The rows a query selects, and the records it loads for them. *)
Definition rows_from (fs : gmap string content) (l : list (string * job_row)) : Prop :=
  NoDup (fst <$> l) ∧ ∀ i row, (i, row) ∈ l → ∃ r, jobs fs !! i = Some r ∧ row = the_row r.

Lemma sorted_rows_from fs (order : relation (string * job_row)) `{∀ a b, Decision (order a b)} p :
  rows_from fs (sorted_rows order p (the_row <$> jobs fs))
  ∧ ∀ i r, jobs fs !! i = Some r → (i, the_row r) ∈ sorted_rows order p (the_row <$> jobs fs) ↔ p (the_row r) = true.
Proof.
  unfold sorted_rows. split; [split|].
  - rewrite merge_sort_Permutation. apply NoDup_fst_map_to_list.
  - intros i row. rewrite merge_sort_Permutation, elem_of_map_to_list, select_where_lookup, lookup_fmap. intros [(r & Hr & ->)%fmap_Some _]. by exists r.
  - intros i r Hr. rewrite merge_sort_Permutation, elem_of_map_to_list, select_where_lookup, lookup_fmap, Hr. cbn. naive_solver.
Qed.

Lemma load_row_ok fs agrees i r :
  settled fs → jobs fs !! i = Some r →
  load_row fs agrees (i, the_row r) = if agrees r (the_row r) then Ok r else Err job_index_invalid.
Proof.
  intros Hs Hr. pose proof Hr as (c & Hc & Hl)%job_at. unfold load_row. cbn [fst snd]. rewrite Hc. cbn [or_raise mbind outcome_bind].
  rewrite Hl. cbn [invalid_as mbind outcome_bind]. assert (String.eqb (digest r) (row_digest (the_row r)) = true) as -> by apply String.eqb_refl.
  rewrite andb_true_r. by destruct (agrees _ _).
Qed.

Lemma loaded_rows fs agrees l rs :
  settled fs → rows_from fs l → traverse (load_row fs agrees) l = Ok rs →
  NoDup (id_of <$> rs) ∧ ∀ r, r ∈ rs ↔ jobs fs !! id_of r = Some r ∧ (id_of r, the_row r) ∈ l.
Proof.
  intros Hs [Hnd Hl] Hrs%traverse_ok.
  assert (Hrow : ∀ i row r, (i, row) ∈ l → load_row fs agrees (i, row) = Ok r → jobs fs !! i = Some r ∧ id_of r = i ∧ row = the_row r).
  { intros i row r Hin Hload. destruct (Hl i row Hin) as (x & Hx & ->). rewrite (load_row_ok fs agrees i x Hs Hx) in Hload.
    destruct (agrees _ _); [|done]. injection Hload as <-. destruct (settled_job fs i x Hs Hx) as (_ & He & _). done. }
  assert (E : id_of <$> rs = fst <$> l).
  { apply list_eq. intros n. rewrite !list_lookup_fmap. destruct (rs !! n) as [r|] eqn:Hn.
    - destruct (Forall2_lookup_r _ _ _ _ _ Hrs Hn) as ([i row] & Hk & Hload). rewrite Hk. cbn. f_equal.
      by apply (Hrow i row r); [apply list_elem_of_lookup_2 in Hk|].
    - apply Forall2_length in Hrs. apply lookup_ge_None in Hn. rewrite (proj2 (lookup_ge_None _ _)); [done|]. by rewrite Hrs. }
  split; [by rewrite E|]. intros r. split.
  - intros Hr. apply list_elem_of_lookup_1 in Hr as [n Hn]. destruct (Forall2_lookup_r _ _ _ _ _ Hrs Hn) as ([i row] & Hk & Hload).
    apply list_elem_of_lookup_2 in Hk. destruct (Hrow i row r Hk Hload) as (Hj & He & Hw). rewrite <- He, Hw in Hk. rewrite <- He in Hj. done.
  - intros [Hj Hin]. apply list_elem_of_lookup_1 in Hin as [n Hn]. destruct (Forall2_lookup_l _ _ _ _ _ Hrs Hn) as (x & Hx & Hload).
    destruct (Hrow _ _ x (list_elem_of_lookup_2 _ _ _ Hn) Hload) as (Hj' & _). assert (x = r) as -> by congruence. by apply list_elem_of_lookup_2 in Hx.
Qed.

(** Recovery and the queues see the jobs in flight, all of them. *)
Lemma inflight_ok (s : site) :
  site_ok s → ∃ rs s', inflight_records s = (Ok rs, s') ∧ files s'.2 = files s.2 ∧ site_ok s' ∧ NoDup (id_of <$> rs)
    ∧ ∀ r, r ∈ rs ↔ jobs (files s.2) !! id_of r = Some r ∧ mem (status_of r) inflight = true.
Proof.
  intros Hok. unfold inflight_records. set (f := λ (fs : gmap string content) (t : job_table), _). destruct (query_ok f s Hok) as (s' & -> & Hf & Hok').
  destruct (sorted_rows_from (files s.2) oldest_first is_inflight) as [Hfrom Hin]. unfold f. set (l := sorted_rows _ _ _) in *.
  assert (Ht : is_ok (traverse (load_row (files s.2) (λ r row, String.eqb (status_of r) (row_status row) && mem (status_of r) inflight)) l) = true).
  { apply traverse_total. intros [i row] Hl. destruct (proj2 Hfrom i row Hl) as (r & Hr & ->). rewrite (load_row_ok _ _ i r (proj2 Hok) Hr).
    cbn. rewrite String.eqb_refl. apply (Hin i r Hr) in Hl. unfold is_inflight in Hl. cbn in Hl. by rewrite Hl. }
  destruct (traverse _ l) as [rs|] eqn:Hrs; [|done]. exists rs, s'. split; [done|]. split; [done|]. split; [done|].
  destruct (loaded_rows _ _ l rs (proj2 Hok) Hfrom Hrs) as [Hnd Hiff]. split; [done|]. intros r. rewrite Hiff. split; intros [Hj H]; split; try done.
  - by apply (Hin _ r Hj) in H.
  - by apply (Hin _ r Hj).
Qed.

(** ** What admission asks *)

Definition flying (r : JobRecord) : bool := mem (status_of r) inflight.
Definition is_of (owner : string) (r : JobRecord) : bool := bool_decide (job_owner_id r = Some owner).
Definition flying_active (r : JobRecord) : bool := bool_decide (is_Some (asset_of r)) && flying r.

Lemma owned_row fs i r owner : settled fs → jobs fs !! i = Some r → owned owner (the_row r) = is_of owner r.
Proof.
  intros Hs Hr. destruct (settled_job fs i r Hs Hr) as (_ & _ & o & Ho & _). unfold owned, is_of, the_row. cbn. rewrite Ho. cbn.
  destruct (String.eqb_spec o owner) as [->|Hne]; [by rewrite bool_decide_eq_true_2|rewrite bool_decide_eq_false_2; [done|congruence]].
Qed.

Lemma count_ok fs (p : job_row → bool) (q : JobRecord → bool) :
  (∀ i r, jobs fs !! i = Some r → p (the_row r) = q r) → count_rows p (the_row <$> jobs fs) = size (jobs_where q (jobs fs)).
Proof. intros H. rewrite count_rows_jobs. f_equal. by apply jobs_where_ext. Qed.

Lemma admission_counts_ok owner (s : site) :
  site_ok s → ∃ s', files s'.2 = files s.2 ∧ site_ok s'
    ∧ admission_counts owner s
      = (if _GENERAL_OWNER owner
         then Ok (size (jobs_where flying (jobs (files s.2))), size (jobs_where (λ r, flying r && is_of owner r) (jobs (files s.2))))
         else Err job_index_invalid, s').
Proof.
  intros Hok. unfold admission_counts. destruct (_GENERAL_OWNER owner); cbn [negb]; [|by exists s]. set (f := λ (_ : gmap string content) (t : job_table), _).
  destruct (query_ok f s Hok) as (s' & -> & Hf & Hok'). exists s'. split; [done|]. split; [done|]. f_equal. unfold f. f_equal. f_equal; apply count_ok.
  - done.
  - intros i r Hr. by rewrite (owned_row _ i r owner (proj2 Hok) Hr).
Qed.

Lemma active_counts_ok owner asset audit (s : site) :
  site_ok s → ∃ s', files s'.2 = files s.2 ∧ site_ok s'
    ∧ active_capacity_counts owner asset audit s
      = (if _GENERAL_OWNER owner && is_hex32 asset && is_active_type audit
         then Ok (size (jobs_where flying_active (jobs (files s.2))),
                  size (jobs_where (λ r, flying_active r && is_of owner r) (jobs (files s.2))),
                  size (jobs_where (λ r, flying_active r && (is_of owner r && bool_decide (asset_of r = Some asset))) (jobs (files s.2))),
                  size (jobs_where (λ r, flying_active r && String.eqb (audit_type (the_origin r)) audit) (jobs (files s.2))))
         else Err job_index_invalid, s').
Proof.
  intros Hok. unfold active_capacity_counts. destruct (_ && _ && _); cbn [negb]; [|by exists s]. set (f := λ (_ : gmap string content) (t : job_table), _).
  destruct (query_ok f s Hok) as (s' & -> & Hf & Hok'). exists s'. split; [done|]. split; [done|]. f_equal. unfold f. f_equal. repeat f_equal; apply count_ok.
  - done.
  - intros i r Hr. by rewrite (owned_row _ i r owner (proj2 Hok) Hr).
  - intros i r Hr. by rewrite (owned_row _ i r owner (proj2 Hok) Hr).
  - done.
Qed.

(** The one job of an owner's key. *)
Lemma idempotent_ok owner key (s : site) :
  site_ok s → ∃ o s', idempotent_record owner key s = (o, s') ∧ files s'.2 = files s.2 ∧ site_ok s'
    ∧ (_GENERAL_OWNER owner && is_hex64 key = false → o = Err job_index_invalid)
    ∧ (_GENERAL_OWNER owner && is_hex64 key = true →
         (o = Ok None ∧ ∀ i r, jobs (files s.2) !! i = Some r → is_of owner r = true → key_of r ≠ Some key)
         ∨ ∃ r, o = Ok (Some r) ∧ jobs (files s.2) !! id_of r = Some r ∧ is_of owner r = true ∧ key_of r = Some key).
Proof.
  intros Hok. unfold idempotent_record. destruct (_ && is_hex64 key); cbn [negb]; [|by exists (Err job_index_invalid), s].
  set (f := λ (fs : gmap string content) (t : job_table), _). destruct (query_ok f s Hok) as (s' & -> & Hf & Hok'). eexists _, s'.
  split; [done|]. split; [done|]. split; [done|]. split; [done|]. intros _. unfold f. set (p := λ (_ : string) (row : job_row), has_key owner key row).
  change (λ _ : string, has_key owner key) with p. destruct (find_row p _) as [[i row]|] eqn:Hfind.
  - right. apply find_row_Some in Hfind as [Hrow Hp]. rewrite lookup_fmap in Hrow. apply fmap_Some in Hrow as (r & Hr & ->).
    unfold p, has_key in Hp. rewrite (owned_row _ i r owner (proj2 Hok) Hr) in Hp. apply andb_true_iff in Hp as [Ho Hk].
    change (row_key (the_row r)) with (key_of r) in Hk. pose proof Ho as Ho'. unfold is_of in Ho'.
    rewrite (load_row_ok _ _ i r (proj2 Hok) Hr), Ho', Hk. exists r. apply bool_decide_eq_true in Hk.
    destruct (settled_job _ i r (proj2 Hok) Hr) as (_ & -> & _). done.
  - left. split; [done|]. rewrite find_row_None in Hfind. intros i r Hr Ho Hk. assert (Hrow : (the_row <$> jobs (files s.2)) !! i = Some (the_row r)) by (by rewrite lookup_fmap, Hr).
    specialize (Hfind i (the_row r) Hrow). unfold p, has_key in Hfind. rewrite (owned_row _ i r owner (proj2 Hok) Hr), Ho in Hfind.
    change (row_key (the_row r)) with (key_of r) in Hfind. rewrite bool_decide_eq_true_2 in Hfind by done. done.
Qed.
End Index.
