(* ===== verification/JobStore.v ===== *)
(** * JobStore: the store of the jobs

    Models [JobStore] of [backend/app/storage.py]: admitting work within its
    limits and once per key, the claims of the workers, progress, cancellation
    and revocation, recovery after a restart, retention.  Every operation holds
    the storage lock, so it is one transition of the files and the index; a
    purge takes the lock for each file, and nothing else happens in between in
    the model.  The attachments of dependency graphs, the marks of deleted
    sources and the mutations told to the trend clock are not modelled.

    An [HTTPException] is [Err] of its status code. *)

From S2P Require Import Prelude PyStr Grouping Sha256 BearerToken Identifiers SqlTable PyValue StampedIndex JobRecord JobIndex.
Local Open Scope Z_scope.

(** A step on a state, then the next. *)
Definition after_step {A B S} (m : outcome A * S) (k : A → S → outcome B * S) : outcome B * S :=
  match m with (Ok a, s) => k a s | (Err e, s) => (Err e, s) end.
Notation "'step' ( x , s ) ':=' m ';' k" := (after_step m (λ x s, k)) (at level 10, x name, s name, m at level 99, k at level 200).
Notation "'refuse' c 'in' s 'when' b ';;' k" := (if b then (Err c, s) else k) (at level 10, c at level 9, s at level 9, b at level 99, k at level 200).

(** backend/app/config.py 243-248 [Settings] *)
Record job_settings : Type := JobSettings {
  trusted_local : bool;
  audit_max_inflight_jobs : nat;
  audit_max_inflight_jobs_per_owner : nat;
  active_max_inflight_jobs : nat;
  active_max_inflight_jobs_per_organization : nat;
  active_max_inflight_jobs_per_asset : nat;
  active_max_inflight_jobs_per_capability : nat
}.

Section Store.
Context (settings : job_settings) (build_execution_profile : string → option string → value)
  (redact_url_query : string → string) (stored_result : string → value → value) (redact_active_secret_text : string → string)
  (integrity_text : integrity_input → option string) (record_json : JobRecord → string).

Abbreviation load := (_load_job_file (trusted_local settings) integrity_text).
Abbreviation digest := (active_job_record_digest record_json).

(** An error of the index is the store's. *)
Definition or_503 {A} (m : outcome A * site) : outcome A * site :=
  match m with (Ok a, s) => (Ok a, s) | (Err _, s) => (Err "503", s) end.

(** backend/app/storage.py [_validate_identifier] *)
Definition _validate_identifier (i : string) : outcome unit := raise "400" when (negb (is_hex32 i));; Ok tt.

(** backend/app/storage.py [JobStore._get_unlocked] *)
Definition _get_unlocked (fs : gmap string content) (i : string) : outcome JobRecord :=
  _ ← _validate_identifier i;
  c ← or_raise (fs !! i) "404";
  load c.

Definition with_course (r : JobRecord) (c : job_progress) : JobRecord :=
  Job (job_owner_id r) (job_organization_id r) (execution_profile r) (the_origin r) (the_evidence r) c.

(** ** Saving *)

(** The texts and the result, redacted; [stored_result] is the redaction and
    normalization of a result, with the projections attached to it. *)
(** backend/app/storage.py [sanitize_job_record_for_storage] *)
Definition sanitize_job_record_for_storage (r : JobRecord) : JobRecord :=
  let c := the_course r in
  with_course r
    (JobProgress (job_status c) (active_execution_phase c) (job_updated_at c) (started_at c) (finished_at c) (cancellation_requested_at c)
       (termination_reason c) (recovery_count c) (last_recovered_at c) (source_file_deleted_at c) (result_integrity_status c)
       (if truthy_opt (target_url c) then redact_url_query <$> target_url c else target_url c)
       (stored_result (audit_type (the_origin r)) <$> result c)
       (if truthy_opt (error c) then redact_active_secret_text <$> error c else None)).

(** The evidence and the profile of the first record; its owner and its mark
    of a deleted source when the new one has none. *)
(** backend/app/storage.py [JobStore._merge_existing_record] *)
Definition _merge_existing_record (existing r : JobRecord) : JobRecord :=
  let c := the_course r in
  Job (match job_owner_id r with None => job_owner_id existing | Some o => Some o end) (job_organization_id r) (execution_profile existing)
    (the_origin r) (the_evidence existing)
    (JobProgress (job_status c) (active_execution_phase c) (job_updated_at c) (started_at c) (finished_at c) (cancellation_requested_at c)
       (termination_reason c) (recovery_count c) (last_recovered_at c)
       (match source_file_deleted_at c with None => source_file_deleted_at (the_course existing) | Some t => Some t end)
       (result_integrity_status c) (target_url c) (result c) (error c)).

Definition with_profile (r : JobRecord) : JobRecord :=
  Job (job_owner_id r) (job_organization_id r)
    (match execution_profile r with
     | None => Some (build_execution_profile (audit_type (the_origin r)) (analysis_profile (the_origin r)))
     | Some p => Some p
     end) (the_origin r) (the_evidence r) (the_course r).

(** The record that is written, with its envelope. *)
(** backend/app/storage.py 1988-2022 [JobStore._save_unlocked] *)
Definition persisted (fs : gmap string content) (r : JobRecord) : outcome (JobRecord * option string) :=
  _ ← _validate_identifier (id_of r);
  r ← match fs !! id_of r with
      | None => Ok (sanitize_job_record_for_storage (with_profile r))
      | Some c => existing ← load c; Ok (_merge_existing_record existing (sanitize_job_record_for_storage r))
      end;
  envelope ← _result_integrity_envelope integrity_text r;
  Ok (with_integrity r (bool_decide (is_Some envelope)), envelope).

(** backend/app/storage.py [JobStore._save_unlocked] *)
Definition _save_unlocked (r : JobRecord) (s : site) : outcome JobRecord * site :=
  step (written, s) := (persisted (files s.2) r, s);
  step (_, s) := sync_after_save load digest written.1 (s.1, write_file (id_of written.1) (Some written) s.2);
  (Ok written.1, s).

(** ** Admission *)

(** backend/app/storage.py [JobStore._assert_admission_available_unlocked] *)
Definition _assert_admission_available_unlocked (owner : option string) (s : site) : outcome unit * site :=
  match resolve_record_owner_id (trusted_local settings) owner with
  | None => (Err "503", s)
  | Some effective =>
      step (counts, s) := or_503 (admission_counts load digest effective s);
      refuse "429" in s when (audit_max_inflight_jobs settings <=? counts.1)%nat;;
      refuse "429" in s when (audit_max_inflight_jobs_per_owner settings <=? counts.2)%nat;;
      (Ok tt, s)
  end.

(** backend/app/storage.py [JobStore._assert_active_admission_available_unlocked] *)
Definition _assert_active_admission_available_unlocked (owner asset audit : string) (s : site) : outcome unit * site :=
  step (counts, s) := or_503 (active_capacity_counts load digest owner asset audit s);
  let '(everywhere, of_organization, of_asset, of_capability) := counts in
  refuse "429" in s
    when ((active_max_inflight_jobs settings <=? everywhere) || (active_max_inflight_jobs_per_organization settings <=? of_organization)
          || (active_max_inflight_jobs_per_asset settings <=? of_asset)
          || (active_max_inflight_jobs_per_capability settings <=? of_capability))%nat;;
  (Ok tt, s).

(** backend/app/storage.py [JobStore.active_admission_available] *)
Definition active_admission_available (owner : string) (s : site) : bool * site :=
  match active_capacity_counts load digest owner (text (replicate 32 "0"%char)) "active_capacity_probe" s with
  | (Err _, s) => (false, s)
  | (Ok (everywhere, of_organization, _, _), s) =>
      ((everywhere <? active_max_inflight_jobs settings)%nat
       && (of_organization <? active_max_inflight_jobs_per_organization settings)%nat, s)
  end.

(** What a caller asks for. *)
Record active_request : Type := ActiveRequest {
  ask_audit : string;
  ask_owner : string;
  ask_asset : string;
  ask_contract : string;
  ask_revision : string;
  ask_digest : string;
  ask_sequence : Z;
  ask_port : option Z;
  ask_key : string;
  ask_retry_of : option string
}.

Definition fresh_course (status : string) (phase : option string) (now : datetime) (target : option string) : job_progress :=
  JobProgress status phase now None None None None 0 None None "unknown" target None None.

(** backend/app/storage.py 993-1015 [JobStore.create_active_asset_execution_job] *)
Definition active_record (q : active_request) (i : string) (now : datetime) : outcome JobRecord :=
  validated_job
    (Job (Some (ask_owner q)) None (Some (build_execution_profile (ask_audit q) None))
       (JobOrigin i None None None None (ask_audit q) None None now (ask_retry_of q))
       (JobEvidence (Some (ask_asset q)) (Some (ask_contract q)) (Some (ask_revision q)) (Some (ask_digest q)) (Some (ask_sequence q))
          (ask_port q) (Some (ask_key q)))
       (fresh_course "queued" (Some "admitted") now
          (Some (if mem (ask_audit q) ["active_dns_inventory"; "active_dns_osint"] then "[REDACTED_DOMAIN]" else "[REDACTED_TARGET]")))).

(** backend/app/storage.py 1028-1035 [JobStore.create_active_asset_execution_job] *)
Definition same_request (existing : JobRecord) (q : active_request) : bool :=
  let e := the_evidence existing in
  bool_decide (active_asset_id e = Some (ask_asset q)) && String.eqb (audit_type (the_origin existing)) (ask_audit q)
  && bool_decide (active_authorization_revision_id e = Some (ask_revision q))
  && bool_decide (active_authorization_revision_digest_sha256 e = Some (ask_digest q))
  && bool_decide (active_execution_port e = ask_port q)
  && bool_decide (retry_of_job_id (the_origin existing) = ask_retry_of q).

(** backend/app/storage.py [JobStore.create_active_asset_execution_job] *)
Definition create_active_asset_execution_job (deleting : string → bool) (q : active_request) (i : string) (now : datetime) (s : site)
    : outcome (JobRecord * bool) * site :=
  refuse "422" in s when (negb (is_hex64 (ask_key q)));;
  step (r, s) := (active_record q i now, s);
  step (existing, s) := or_503 (idempotent_record load digest (ask_owner q) (ask_key q) s);
  match existing with
  | Some e => refuse "409" in s when (negb (same_request e q));; (Ok (e, true), s)
  | None =>
      step (_, s) := (_validate_identifier (ask_asset q), s);
      refuse "409" in s when (deleting (ask_asset q));;
      step (_, s) := _assert_admission_available_unlocked (Some (ask_owner q)) s;
      step (_, s) := _assert_active_admission_available_unlocked (ask_owner q) (ask_asset q) (ask_audit q) s;
      step (r, s) := _save_unlocked r s;
      (Ok (r, false), s)
  end.

Definition created (o : job_origin) (now : datetime) : job_origin :=
  JobOrigin (job_id o) (project_id o) (source_sha256 o) (sbom_revision_key_sha256 o) (analysis_profile o) (audit_type o) (file_id o)
    (target_domain o) now (retry_of_job_id o).

(** backend/app/storage.py [JobStore._create_job] *)
Definition _create_job (deleting : string → bool) (owner : option string) (o : job_origin) (target : option string) (now : datetime) (s : site)
    : outcome JobRecord * site :=
  step (r, s) := (validated_job (Job owner None None (created o now) (JobEvidence None None None None None None None) (fresh_course "queued" None now target)), s);
  step (_, s) := (from_option _validate_identifier (Ok tt) (project_id o), s);
  refuse "409" in s when (from_option deleting false (project_id o));;
  step (_, s) := _assert_admission_available_unlocked owner s;
  _save_unlocked r s.

(** ** Progress *)

(** backend/app/storage.py [JobStore.update] *)
Definition update (i status : string) (res : option value) (err reason phase : option string) (now : datetime) (s : site)
    : outcome JobRecord * site :=
  step (r, s) := (_get_unlocked (files s.2) i, s);
  if String.eqb (status_of r) "cancelled" && negb (String.eqb status "cancelled") then (Ok r, s) else
  let c := the_course r in
  let done := mem status terminal in
  let why := if String.eqb status "completed" then "completed"
             else if String.eqb status "cancelled" then "cancelled_by_owner" else "runner_unavailable" in
  _save_unlocked
    (with_course r
       (JobProgress status (match phase with Some p => Some p | None => active_execution_phase c end) now
          (if String.eqb status "running" then Some (default now (started_at c)) else started_at c)
          (if done then Some now else finished_at c) (cancellation_requested_at c)
          (if done then Some (default why reason) else termination_reason c)
          (recovery_count c) (last_recovered_at c) (source_file_deleted_at c) (result_integrity_status c) (target_url c) res err)) s.

(** backend/app/storage.py [JobStore.mark_cancelled] *)
Definition mark_cancelled (i : string) (now : datetime) : site → outcome JobRecord * site :=
  update i "cancelled" None (Some "Analysis cancelled by its owner. The execution workspace was removed.") (Some "cancelled_by_owner") None now.

(** The fields most changes set. *)
Definition moved (c : job_progress) (status : string) (phase : option string) (now : datetime) (started finished cancelled : option datetime)
    (reason err : option string) : job_progress :=
  JobProgress status phase now started finished cancelled reason (recovery_count c) (last_recovered_at c) (source_file_deleted_at c)
    (result_integrity_status c) (target_url c) None err.

(** backend/app/storage.py [JobStore.request_cancellation] *)
Definition request_cancellation (i owner : string) (now : datetime) (s : site) : outcome JobRecord * site :=
  step (r, s) := (_get_unlocked (files s.2) i, s);
  refuse "404" in s when (negb (bool_decide (job_owner_id r = Some owner)));;
  if mem (status_of r) ["cancelling"; "cancelled"] then (Ok r, s) else
  refuse "409" in s when (negb (mem (status_of r) ["queued"; "running"]));;
  let c := the_course r in
  _save_unlocked (with_course r (moved c "cancelling" (active_execution_phase c) now (started_at c) (finished_at c) (Some now)
                                   (termination_reason c) None)) s.

(** backend/app/storage.py [JobStore.request_active_authorization_revocation] *)
Definition request_active_authorization_revocation (i owner asset : string) (now : datetime) (s : site) : outcome JobRecord * site :=
  step (r, s) := (_get_unlocked (files s.2) i, s);
  refuse "404" in s when (negb (bool_decide (job_owner_id r = Some owner) && bool_decide (asset_of r = Some asset)));;
  if mem (status_of r) terminal then (Ok r, s) else
  let c := the_course r in
  if String.eqb (status_of r) "queued" then
    _save_unlocked
      (with_course r (moved c "cancelled" (Some "terminal") now (started_at c) (Some now) (cancellation_requested_at c) (Some "authorization_revoked")
         (Some "Active execution cancelled after authorization was revoked. Partial observations were discarded."))) s
  else
    _save_unlocked
      (with_course r (moved c "cancelling" (active_execution_phase c) now (started_at c) (finished_at c) (cancellation_requested_at c)
                        (Some "authorization_revoked") None)) s.

(** backend/app/storage.py [JobStore.claim_queued_active_execution] *)
Definition claim_queued_active_execution (i : string) (now : datetime) (s : site) : outcome (option JobRecord) * site :=
  step (r, s) := (_get_unlocked (files s.2) i, s);
  if negb (bool_decide (is_Some (asset_of r)) && String.eqb (status_of r) "queued") then (Ok None, s) else
  let c := the_course r in
  step (r, s) := _save_unlocked (with_course r (moved c "running" (Some "waiting_for_runner") now (Some (default now (started_at c))) (finished_at c)
                                                  (cancellation_requested_at c) (termination_reason c) None)) s;
  (Ok (Some r), s).

(** ** Recovery *)

(** backend/app/storage.py [JobStore._inflight_records_unlocked] *)
Definition _inflight_records_unlocked (s : site) : outcome (list JobRecord) * site := or_503 (inflight_records load digest s).

Definition is_queued_project (r : JobRecord) : bool :=
  String.eqb (status_of r) "queued" && String.eqb (audit_type (the_origin r)) "project_archive_basic"
  && bool_decide (is_Some (project_id (the_origin r))).
Definition is_queued_active (r : JobRecord) : bool := String.eqb (status_of r) "queued" && bool_decide (is_Some (asset_of r)).

(** backend/app/storage.py 1513-1523 [JobStore.recover_interrupted_jobs] *)
Definition interrupted (r : JobRecord) (reason err : string) (now : datetime) : JobRecord :=
  let c := the_course r in
  with_course r (moved c "failed" (if bool_decide (is_Some (asset_of r)) then Some "terminal" else active_execution_phase c) now (started_at c)
                   (Some now) (cancellation_requested_at c) (Some reason) (Some err)).

Fixpoint save_all (rs : list JobRecord) (s : site) : outcome (list JobRecord) * site :=
  match rs with
  | [] => (Ok [], s)
  | r :: rs' => step (r, s) := _save_unlocked r s; step (rest, s) := save_all rs' s; (Ok (r :: rest), s)
  end.

(** backend/app/storage.py [JobStore.recover_interrupted_jobs] *)
Definition recover_interrupted_jobs (preserve_queued_project_jobs preserve_queued_active_jobs : bool) (reason err : string) (now : datetime)
    (s : site) : outcome (list JobRecord) * site :=
  step (records, s) := _inflight_records_unlocked s;
  save_all ((λ r, interrupted r reason err now)
            <$> List.filter (λ r, negb ((preserve_queued_project_jobs && is_queued_project r)
                                        || (preserve_queued_active_jobs && is_queued_active r))) records) s.

(** backend/app/storage.py [JobStore.list_queued_project_jobs] *)
Definition list_queued_project_jobs (s : site) : outcome (list JobRecord) * site :=
  step (records, s) := _inflight_records_unlocked s; (Ok (List.filter is_queued_project records), s).

(** backend/app/storage.py [JobStore.list_queued_active_jobs] *)
Definition list_queued_active_jobs (s : site) : outcome (list JobRecord) * site :=
  step (records, s) := _inflight_records_unlocked s; (Ok (List.filter is_queued_active records), s).

(** backend/app/storage.py [JobStore.record_restart_requeue] *)
Definition record_restart_requeue (i : string) (now : datetime) (s : site) : outcome JobRecord * site :=
  step (r, s) := (_get_unlocked (files s.2) i, s);
  refuse "409" in s when (negb (is_queued_project r || is_queued_active r));;
  let c := the_course r in
  _save_unlocked
    (with_course r (JobProgress (job_status c) (active_execution_phase c) now (started_at c) (finished_at c) (cancellation_requested_at c)
                      (termination_reason c) (recovery_count c + 1) (Some now) (source_file_deleted_at c) (result_integrity_status c)
                      (target_url c) (result c) (error c))) s.

(** ** Removal *)

Definition unlink_job (r : JobRecord) (s : site) : outcome JobRecord * site :=
  step (_, s) := sync_after_delete load digest r (s.1, unlink_file (id_of r) s.2); (Ok r, s).

(** backend/app/storage.py [JobStore.delete] *)
Definition delete_job (i : string) (owner : option string) (s : site) : outcome JobRecord * site :=
  step (r, s) := (_get_unlocked (files s.2) i, s);
  refuse "404" in s when (from_option (λ o, negb (bool_decide (job_owner_id r = Some o))) false owner);;
  refuse "409" in s when (negb (mem (status_of r) terminal));;
  unlink_job r s.

(** One candidate of a batch; what changed since it was selected is left. *)
(** backend/app/storage.py 1844-1871 [JobStore.purge_expired_terminal] *)
Definition purge_candidate (cutoff : datetime) (owner : option string) (before_delete : JobRecord → outcome unit) (candidate : JobRecord) (s : site)
    : outcome (list JobRecord) * site :=
  step (_, s) := (before_delete candidate, s);
  step (_, s) := (_validate_identifier (id_of candidate), s);
  match files s.2 !! id_of candidate with
  | None => (Ok [], s)
  | Some c =>
      step (r, s) := (load c, s);
      if negb (String.eqb (digest r) (digest candidate)) || from_option (λ o, negb (bool_decide (job_owner_id r = Some o))) false owner
         || negb (mem (status_of r) terminal) || (instant cutoff <? instant (job_updated_at (the_course r))) then (Ok [], s) else
      step (r, s) := unlink_job r s; (Ok [r], s)
  end.

Fixpoint purge_batch (cutoff : datetime) (owner : option string) (before_delete : JobRecord → outcome unit) (candidates : list JobRecord) (s : site)
    : outcome (list JobRecord) * site :=
  match candidates with
  | [] => (Ok [], s)
  | c :: cs => step (removed, s) := purge_candidate cutoff owner before_delete c s;
               step (rest, s) := purge_batch cutoff owner before_delete cs s; (Ok (removed ++ rest), s)
  end.

(** Batch after batch, until there is none; [None] when the fuel is not
    enough. *)
(** backend/app/storage.py [JobStore.purge_expired_terminal] *)
Fixpoint purge_expired_terminal (fuel : nat) (cutoff : datetime) (owner : option string) (before_delete : JobRecord → outcome unit) (batch_size : nat)
    (s : site) : option (outcome (list JobRecord) * site) :=
  match fuel with
  | O => None
  | S fuel =>
      match or_503 (expired_terminal_records load digest cutoff owner batch_size s) with
      | (Err e, s) => Some (Err e, s)
      | (Ok [], s) => Some (Ok [], s)
      | (Ok candidates, s) =>
          match purge_batch cutoff owner before_delete candidates s with
          | (Err e, s) => Some (Err e, s)
          | (Ok removed, s) =>
              match purge_expired_terminal fuel cutoff owner before_delete batch_size s with
              | Some (Ok rest, s) => Some (Ok (removed ++ rest), s)
              | o => o
              end
          end
      end
  end.
End Store.
