(* ===== verification/JobRuns.v ===== *)
(** * JobRuns: the jobs over any calls

    Runs of the operations of [JobStore]: what an operation may do to a record,
    as a step relation, and what follows for any sequence of calls, restarts
    between them: evidence is kept, a key is one job, a job is claimed once, a
    cancelled job stays cancelled, and what admission counts. *)

From S2P Require Import Prelude PyStr Grouping Sha256 BearerToken Identifiers SqlTable PyValue StampedIndex JobRecord JobIndex JobStore.
Local Open Scope Z_scope.

Lemma sha256_is_hex64 s : is_hex64 (sha256_hex s) = true.
Proof.
  destruct (sha256_hex_chars s) as [Hc Hl]. unfold is_hex64, all_chars. rewrite Hl, andb_true_r. apply forallb_forall.
  intros c Hin. rewrite Forall_forall in Hc. apply Hc. by apply list_elem_of_In.
Qed.

(** The fields of a course that a save keeps. *)
Definition same_course (c c' : job_progress) : Prop :=
  job_status c' = job_status c ∧ active_execution_phase c' = active_execution_phase c ∧ job_updated_at c' = job_updated_at c
  ∧ started_at c' = started_at c ∧ finished_at c' = finished_at c ∧ cancellation_requested_at c' = cancellation_requested_at c
  ∧ termination_reason c' = termination_reason c ∧ recovery_count c' = recovery_count c
  ∧ (result c = None → result c' = None).

(** What a save keeps of a record. *)
Definition frame (r r' : JobRecord) : Prop :=
  job_owner_id r' = job_owner_id r ∧ the_origin r' = the_origin r ∧ the_evidence r' = the_evidence r.

Section Runs.
Context (settings : job_settings) (build_execution_profile : string → option string → value)
  (redact_url_query : string → string) (stored_result : string → value → value) (redact_active_secret_text : string → string)
  (integrity_text : integrity_input → option string) (record_json : JobRecord → string).

Abbreviation load := (_load_job_file (trusted_local settings) integrity_text).
Abbreviation digest := (active_job_record_digest record_json).
Abbreviation jobs := (jobs load).
Abbreviation settled := (settled load).
Abbreviation site_ok := (site_ok load digest).
Abbreviation save_job := (_save_unlocked settings build_execution_profile redact_url_query stored_result redact_active_secret_text integrity_text record_json).
Abbreviation sanitized := (sanitize_job_record_for_storage redact_url_query stored_result redact_active_secret_text).

(** ** Records that load *)

Lemma validated_idem r r' : validated_job r = Ok r' → validated_job r' = Ok r'.
Proof.
  unfold validated_job. destruct (negb _) eqn:Hv; [done|]. destruct (_materialize_organization_boundary r) as [x|] eqn:Hm; [|done]. intros [= <-].
  unfold _materialize_organization_boundary in Hm. destruct (match job_owner_id r with Some _ => _ | None => _ end) eqn:Ho; [done|].
  destruct (negb (revision_complete _)) eqn:Hr; [done|]. injection Hm as <-. cbn [the_origin the_evidence the_course]. rewrite Hv.
  unfold _materialize_organization_boundary. cbn [job_owner_id job_organization_id the_evidence execution_profile the_origin the_course]. rewrite Hr.
  destruct (job_owner_id r) as [o|], (job_organization_id r) as [g|]; cbn; rewrite ?Ho, ?String.eqb_refl; done.
Qed.

Lemma validated_frame r r' : validated_job r = Ok r' → frame r r' ∧ the_course r' = the_course r ∧ execution_profile r' = execution_profile r.
Proof.
  unfold validated_job. destruct (negb _); [done|]. unfold _materialize_organization_boundary.
  destruct (match job_owner_id r with Some _ => _ | None => _ end); [done|]. destruct (negb _); [done|]. by intros [= <-].
Qed.

(** What makes a record one that [_load_job_file] gives back. *)
Definition storable (r : JobRecord) : Prop :=
  validated_job r = Ok r ∧ ∃ owner, job_owner_id r = Some owner ∧ _GENERAL_OWNER owner = true.

Lemma general_truthy owner : _GENERAL_OWNER owner = true → truthy owner = true.
Proof. unfold _GENERAL_OWNER, is_name_of, truthy. by destruct owner. Qed.

Lemma loaded_valid c r : load c = Ok r → validated_job r = Ok r.
Proof.
  unfold _load_job_file. destruct c as [[payload envelope]|]; [|done]. intros (m & _ & H)%bind_ok. destruct (negb m); [done|].
  destruct (validated_job payload) as [x|] eqn:Hx; [|done]. injection H as <-. apply validated_idem in Hx.
  assert (Hw : ∀ b, validated_job (with_integrity x b) = Ok (with_integrity x b)).
  { intros b. revert Hx. destruct x as [xo xg xp xr xe xc]. unfold validated_job, with_integrity, course_valid. cbn [the_origin the_evidence the_course job_status active_execution_phase termination_reason recovery_count result_integrity_status].
    replace (mem (if b then "valid" else "unknown") ["valid"; "unknown"]) with true by (by destruct b).
    destruct (mem (result_integrity_status _) _); [|by rewrite !andb_false_r]. destruct (negb _); [done|].
    unfold _materialize_organization_boundary. cbn [job_owner_id job_organization_id the_evidence execution_profile the_origin the_course].
    destruct (match xo with Some _ => _ | None => _ end); [done|]. destruct (negb _); [done|]. intros [= E]. by rewrite E. }
  unfold _with_effective_job_owner. case_bool_decide; [apply Hw|]. specialize (Hw (bool_decide (is_Some envelope))). revert Hw.
  unfold validated_job. cbn [the_origin the_evidence the_course]. destruct (negb _); [done|]. unfold _materialize_organization_boundary.
  cbn [job_owner_id job_organization_id the_evidence execution_profile the_origin the_course].
  destruct (match job_owner_id _ with Some _ => _ | None => _ end); [done|]. destruct (negb _); [done|]. intros _.
  destruct (resolve_record_owner_id _ _); cbn; by rewrite ?String.eqb_refl.
Qed.

Lemma validated_like r r' :
  validated_job r = Ok r → frame r r' → job_organization_id r' = job_organization_id r → course_valid (the_course r') = true →
  validated_job r' = Ok r'.
Proof.
  destruct r as [xo xg xp xr xe xc], r' as [yo yg yp yr ye yc]. unfold frame. cbn. intros Hv (-> & -> & ->) -> Hc. revert Hv. unfold validated_job. cbn.
  rewrite Hc, andb_true_r. destruct (course_valid xc); rewrite ?andb_true_r, ?andb_false_r; [|done]. destruct (negb _); [done|].
  unfold _materialize_organization_boundary. cbn. destruct (match xo with Some _ => _ | None => _ end); [done|]. destruct (negb _); [done|].
  intros [= E]. by rewrite E.
Qed.

Lemma validated_course r : validated_job r = Ok r → course_valid (the_course r) = true.
Proof. unfold validated_job. destruct (course_valid _); [done|]. by rewrite !andb_false_r. Qed.

Lemma general_effective owner : _GENERAL_OWNER owner = true → resolve_record_owner_id (trusted_local settings) (Some owner) = Some owner.
Proof. intros H%general_truthy. unfold resolve_record_owner_id. cbn. by rewrite H. Qed.

(** What is written is read back. *)
Lemma load_written r env :
  storable r → _result_integrity_envelope integrity_text r = Ok env → with_integrity r (bool_decide (is_Some env)) = r → load (Some (r, env)) = Ok r.
Proof.
  intros [Hv (owner & Ho & Hg)] He Hi. unfold _load_job_file.
  assert (Hm : from_option (_result_integrity_payload_matches integrity_text r) (Ok true) env = Ok true).
  { unfold _result_integrity_envelope in He. destruct (result (the_course r)) as [v|] eqn:Hr; [|by injection He as <-].
    apply bind_ok in He as (d & Hd & He). injection He as <-. cbn [from_option]. unfold _result_integrity_payload_matches. rewrite Hr.
    assert (is_hex64 d = true) as ->.
    { unfold _result_integrity_digest in Hd. apply bind_ok in Hd as (m & _ & Hd). injection Hd as <-. apply sha256_is_hex64. }
    rewrite bool_decide_eq_true_2 by done. cbn [negb andb]. rewrite Hd. cbn [mbind outcome_bind]. by rewrite String.eqb_refl. }
  rewrite Hm. cbn [mbind outcome_bind negb]. rewrite Hv, Hi. unfold _with_effective_job_owner. rewrite Ho, general_effective by done.
  by rewrite bool_decide_eq_true_2.
Qed.

Lemma envelope_integrity r b : _result_integrity_envelope integrity_text (with_integrity r b) = _result_integrity_envelope integrity_text r.
Proof. done. Qed.

Lemma persisted_ok fs r written :
  settled fs → storable r → is_hex32 (id_of r) = true → (∀ x, jobs fs !! id_of r = Some x → frame x r) →
  persisted settings build_execution_profile redact_url_query stored_result redact_active_secret_text integrity_text fs r = Ok written →
  load (Some written) = Ok written.1 ∧ frame r written.1 ∧ same_course (the_course r) (the_course written.1).
Proof.
  intros Hs [Hv (owner & Ho & Hg)] Hi Hx Hp. unfold persisted, _validate_identifier in Hp. rewrite Hi in Hp. cbn [negb mbind outcome_bind] in Hp.
  apply bind_ok in Hp as (r1 & Hr1 & Hp). apply bind_ok in Hp as (env & Henv & Hp). injection Hp as <-. cbn [fst].
  assert (H1 : frame r r1 ∧ job_organization_id r1 = job_organization_id r ∧ same_course (the_course r) (the_course r1)
               ∧ course_valid (the_course (with_integrity r1 (bool_decide (is_Some env)))) = true).
  { apply validated_course in Hv. unfold course_valid in *. cbn [with_integrity the_course job_status active_execution_phase termination_reason recovery_count result_integrity_status].
    replace (mem (if bool_decide (is_Some env) then "valid" else "unknown") ["valid"; "unknown"]) with true by (by case_bool_decide).
    rewrite andb_true_r. apply andb_true_iff in Hv as [Hv _].
    destruct (fs !! id_of r) as [c|] eqn:Hc.
    - apply bind_ok in Hr1 as (x & Hload & Hr1). injection Hr1 as <-. destruct (Hx x) as (Hxo & Hxr & Hxe); [apply job_at; by exists c|].
      unfold frame, _merge_existing_record, sanitize_job_record_for_storage, same_course. cbn. rewrite Ho. cbn. repeat (split; [done|]).
      split; [|done]. repeat (split; [done|]). by intros ->.
    - injection Hr1 as <-. unfold frame, sanitize_job_record_for_storage, with_profile, same_course. cbn. repeat (split; [done|]).
      split; [|done]. repeat (split; [done|]). by intros ->. }
  destruct H1 as ((Hfo & Hfr & Hfe) & Hg' & Hsame & Hvalid). split; [|split; [done|exact Hsame]].
  apply load_written; [|by rewrite envelope_integrity|done]. split; [|exists owner; split; [cbn; congruence|done]].
  apply (validated_like r); [done|by split|done|done].
Qed.

(** A save writes one file, or nothing. *)
Lemma save_job_ok (s : site) r :
  site_ok s → storable r → is_hex32 (id_of r) = true → (∀ x, jobs (files s.2) !! id_of r = Some x → frame x r) →
  (∀ j x, jobs (files s.2) !! j = Some x → job_owner_id x = job_owner_id r → key_of x = key_of r → is_Some (key_of r) → j = id_of r) →
  match save_job r s with
  | (Err e, s') => s' = s
  | (Ok r', s') => site_ok s' ∧ frame r r' ∧ same_course (the_course r) (the_course r')
                   ∧ jobs (files s'.2) = <[id_of r := r']> (jobs (files s.2))
  end.
Proof.
  intros Hs Hr Hi Hx Hk. unfold _save_unlocked. destruct (persisted _ _ _ _ _ _ _ _) as [written|] eqn:Hp; [|done]. cbn [after_step].
  destruct (persisted_ok _ _ _ (proj2 Hs) Hr Hi Hx Hp) as (Hl & Hf & Hc). pose proof Hf as (Ho & Hor & He). destruct Hr as [Hv (owner & Howner & Hg)].
  assert (Hid : id_of written.1 = id_of r) by (unfold id_of; by rewrite Hor). assert (Hkey : key_of written.1 = key_of r) by (unfold key_of; by rewrite He).
  assert (Hset : settled (<[id_of written.1 := Some written]> (files s.2))).
  { apply (settled_write _ _ _ _ owner); [exact (proj2 Hs)|by rewrite Hid|done|congruence|done|]. rewrite Hid, Hkey. intros j x Hj Hjo. apply (Hk j x Hj). congruence. }
  destruct (job_saved_ok load digest s (Some written) written.1 Hs Hl Hset) as (s' & -> & Hs' & Hfs). cbn [after_step].
  split; [done|]. split; [done|]. split; [done|]. rewrite Hfs, <- Hid. by apply jobs_insert.
Qed.

(** ** Rewriting one record *)

Lemma get_job fs i r : settled fs → _get_unlocked settings integrity_text fs i = Ok r → jobs fs !! i = Some r ∧ is_hex32 i = true ∧ id_of r = i ∧ storable r.
Proof.
  intros Hs. unfold _get_unlocked, _validate_identifier. destruct (is_hex32 i) eqn:Hi; [|done]. cbn [negb mbind outcome_bind].
  intros (c & Hc%or_raise_ok & Hl)%bind_ok. assert (Hj : jobs fs !! i = Some r) by (apply job_at; by exists c).
  destruct (settled_job load fs i r Hs Hj) as (_ & Hid & owner & Ho & Hg). split; [done|]. split; [done|]. split; [done|].
  split; [by apply (loaded_valid c)|by exists owner].
Qed.

Lemma storable_at fs i r : settled fs → jobs fs !! i = Some r → storable r ∧ id_of r = i ∧ is_hex32 i = true.
Proof.
  intros Hs Hj. destruct (settled_job load fs i r Hs Hj) as (Hi & Hid & owner & Ho & Hg). apply job_at in Hj as (c & _ & Hl).
  split; [|done]. split; [by apply (loaded_valid c)|by exists owner].
Qed.

Lemma rewrite_job_ok (s : site) i x c :
  site_ok s → jobs (files s.2) !! i = Some x → course_valid c = true →
  match save_job (with_course x c) s with
  | (Err e, s') => s' = s
  | (Ok r', s') => site_ok s' ∧ frame x r' ∧ same_course c (the_course r') ∧ jobs (files s'.2) = <[i := r']> (jobs (files s.2))
  end.
Proof.
  intros Hs Hx Hc. destruct (storable_at _ _ _ (proj2 Hs) Hx) as ([Hv Ho] & Hid & Hi).
  assert (Hr : storable (with_course x c)) by (split; [by apply (validated_like x)|exact Ho]).
  pose proof (save_job_ok s (with_course x c) Hs Hr) as H. change (id_of (with_course x c)) with (id_of x) in H. rewrite Hid in H.
  assert (Hfr : ∀ y, jobs (files s.2) !! i = Some y → frame y (with_course x c)) by (intros y Hy; rewrite Hx in Hy; by injection Hy as <-).
  specialize (H Hi Hfr). apply H. intros j y Hj Hjo Hk Hs'. apply (proj2 (proj2 Hs) j i y x Hj Hx Hjo Hk). by rewrite Hk.
Qed.

(** ** Operations *)

Inductive job_op : Type :=
| Admit (deleting : string → bool) (q : active_request) (i : string) (now : datetime)
| CreateJob (deleting : string → bool) (owner : string) (o : job_origin) (target : option string) (now : datetime)
| Update (i status : string) (res : option value) (err reason phase : option string) (now : datetime)
| RequestCancellation (i owner : string) (now : datetime)
| RevokeWork (i owner asset : string) (now : datetime)
| Claim (i : string) (now : datetime)
| Recover (projects actives : bool) (reason err : string) (now : datetime)
| Requeue (i : string) (now : datetime)
| DeleteJob (i : string) (owner : option string)
| QueryJobs
| RestartJobs.

Definition admission := create_active_asset_execution_job settings build_execution_profile redact_url_query stored_result redact_active_secret_text integrity_text record_json.
Definition claim := claim_queued_active_execution settings build_execution_profile redact_url_query stored_result redact_active_secret_text integrity_text record_json.

Definition perform_job (s : site) (o : job_op) : site :=
  match o with
  | Admit deleting q i now => (admission deleting q i now s).2
  | CreateJob deleting owner o target now =>
      (_create_job settings build_execution_profile redact_url_query stored_result redact_active_secret_text integrity_text record_json
         deleting (Some owner) o target now s).2
  | Update i status res err reason phase now =>
      (update settings build_execution_profile redact_url_query stored_result redact_active_secret_text integrity_text record_json
         i status res err reason phase now s).2
  | RequestCancellation i owner now =>
      (request_cancellation settings build_execution_profile redact_url_query stored_result redact_active_secret_text integrity_text record_json
         i owner now s).2
  | RevokeWork i owner asset now =>
      (request_active_authorization_revocation settings build_execution_profile redact_url_query stored_result redact_active_secret_text
         integrity_text record_json i owner asset now s).2
  | Claim i now => (claim i now s).2
  | Recover projects actives reason err now =>
      (recover_interrupted_jobs settings build_execution_profile redact_url_query stored_result redact_active_secret_text integrity_text record_json
         projects actives reason err now s).2
  | Requeue i now =>
      (record_restart_requeue settings build_execution_profile redact_url_query stored_result redact_active_secret_text integrity_text record_json
         i now s).2
  | DeleteJob i owner => (delete_job settings integrity_text record_json i owner s).2
  | QueryJobs => (_inflight_records_unlocked settings integrity_text record_json s).2
  | RestartJobs => (None, s.2)
  end.

(** An identifier that is given was not given before, and an update sets one
    of the states its callers set. *)
Definition legal_job (s : site) (o : job_op) : Prop :=
  match o with
  | Admit _ _ i _ => is_hex32 i = true ∧ files s.2 !! i = None
  | CreateJob _ owner o _ _ => is_hex32 (job_id o) = true ∧ files s.2 !! job_id o = None ∧ owner ≠ ""
  | Update _ status _ _ reason phase _ =>
      mem status ["running"; "completed"; "failed"; "cancelled"] = true ∧ from_option (λ t, mem t JobTerminationReason) true reason = true
      ∧ from_option (λ p, mem p active_execution_phases) true phase = true
  | Recover _ _ reason _ _ => mem reason JobTerminationReason = true
  | _ => True
  end.

(** The job an operation may add. *)
Definition creates (o : job_op) (i : string) : Prop :=
  match o with Admit _ _ j _ => i = j | CreateJob _ _ o _ _ => i = job_id o | _ => False end.

(** What an operation may do to a job that is there. *)
Definition moves (o : job_op) (i : string) (c c' : job_progress) : Prop :=
  match o with
  | Update j status _ _ _ _ _ => i = j ∧ (job_status c = "cancelled" → status = "cancelled") ∧ job_status c' = status
  | RequestCancellation j _ _ => i = j ∧ (job_status c = "queued" ∨ job_status c = "running") ∧ job_status c' = "cancelling"
  | RevokeWork j _ _ _ => i = j ∧ (job_status c = "queued" ∧ job_status c' = "cancelled"
                                   ∨ (job_status c = "running" ∨ job_status c = "cancelling") ∧ job_status c' = "cancelling")
  | Claim j _ => i = j ∧ job_status c = "queued" ∧ job_status c' = "running"
  | Recover _ _ _ _ _ => job_status c ∈ inflight ∧ job_status c' = "failed"
  | Requeue j _ => i = j ∧ job_status c = "queued" ∧ job_status c' = "queued"
  | _ => False
  end.

Definition changes (o : job_op) (js js' : gmap string JobRecord) : Prop :=
  ∀ i r', js' !! i = Some r' →
    js !! i = Some r' ∨ (js !! i = None ∧ creates o i ∧ status_of r' = "queued")
    ∨ ∃ r, js !! i = Some r ∧ frame r r' ∧ moves o i (the_course r) (the_course r').

Lemma changes_refl o js : changes o js js.
Proof. intros i r' H. by left. Qed.

Lemma changes_rewrite o js i r r' : js !! i = Some r → frame r r' → moves o i (the_course r) (the_course r') → changes o js (<[i := r']> js).
Proof. intros Hr Hf Hm j x [[<- <-]|[_ H]]%lookup_insert_Some; [right; right; by exists r|by left]. Qed.

Definition jobs_at (s : site) : gmap string JobRecord := jobs (files s.2).

(** What a save of one record shows of the operation it ends. *)
Lemma rewrite_changes o (s : site) i x c :
  site_ok s → jobs_at s !! i = Some x → course_valid c = true → (∀ c', same_course c c' → moves o i (the_course x) c') →
  let s' := (save_job (with_course x c) s).2 in site_ok s' ∧ changes o (jobs_at s) (jobs_at s').
Proof.
  intros Hs Hx Hc Hm. pose proof (rewrite_job_ok s i x c Hs Hx Hc) as H. destruct (save_job _ s) as [[r'|e] s'].
  - destruct H as (Hs' & Hf & Hcc & Hj). cbn. split; [done|]. unfold jobs_at. rewrite Hj.
    apply (changes_rewrite o _ i x); [done|done|]. by apply Hm.
  - subst s'. cbn. split; [done|apply changes_refl].
Qed.

Lemma after_step_state {A B} (m : outcome A * site) (k : A → site → outcome B * site) : (∀ a s, (k a s).2 = s) → (after_step m k).2 = m.2.
Proof. intros H. destruct m as [[a|e] s]; [apply H|done]. Qed.

Lemma course_of x i (s : site) : site_ok s → jobs_at s !! i = Some x → course_valid (the_course x) = true.
Proof. intros Hs Hx. destruct (storable_at _ _ _ (proj2 Hs) Hx) as ([Hv _] & _). by apply validated_course. Qed.

(** A valid course, but for the fields a change sets. *)
Lemma moved_valid c status phase now started finished cancelled reason err :
  course_valid c = true → mem status JobStatus = true → from_option (λ p, mem p active_execution_phases) true phase = true →
  from_option (λ t, mem t JobTerminationReason) true reason = true →
  course_valid (moved c status phase now started finished cancelled reason err) = true.
Proof. unfold course_valid. rewrite !andb_true_iff. cbn. tauto. Qed.

Lemma valid_phase c : course_valid c = true → from_option (λ p, mem p active_execution_phases) true (active_execution_phase c) = true.
Proof. unfold course_valid. rewrite !andb_true_iff. tauto. Qed.
Lemma valid_reason c : course_valid c = true → from_option (λ t, mem t JobTerminationReason) true (termination_reason c) = true.
Proof. unfold course_valid. rewrite !andb_true_iff. tauto. Qed.
Lemma valid_status c : course_valid c = true → mem (job_status c) JobStatus = true.
Proof. unfold course_valid. rewrite !andb_true_iff. tauto. Qed.

(** The operations on one job read it first. *)
Lemma on_job o (s : site) i {B} (k : JobRecord → site → outcome B * site) :
  site_ok s →
  (∀ x, jobs_at s !! i = Some x → course_valid (the_course x) = true → let s' := (k x s).2 in site_ok s' ∧ changes o (jobs_at s) (jobs_at s')) →
  let s' := (after_step (_get_unlocked settings integrity_text (files s.2) i, s) k).2 in site_ok s' ∧ changes o (jobs_at s) (jobs_at s').
Proof.
  intros Hs Hk. destruct (_get_unlocked _ _ _ i) as [x|] eqn:Hg; [|split; [done|apply changes_refl]].
  destruct (get_job _ _ _ (proj2 Hs) Hg) as (Hx & _). cbn [after_step]. apply Hk; [done|by apply (course_of x i s)].
Qed.

Ltac unchanged := split; [done|apply changes_refl].

Lemma update_ok (s : site) i status res err reason phase now :
  site_ok s → legal_job s (Update i status res err reason phase now) →
  let s' := perform_job s (Update i status res err reason phase now) in
  site_ok s' ∧ changes (Update i status res err reason phase now) (jobs_at s) (jobs_at s').
Proof.
  intros Hs (Hst & Hre & Hph). cbn [perform_job]. unfold update. apply on_job; [done|]. intros x Hx Hc.
  destruct (_ && _) eqn:Hcan; [cbn; unchanged|]. apply (rewrite_changes _ s i x); [done|done| |].
  - unfold course_valid in *. cbn [job_status active_execution_phase termination_reason recovery_count result_integrity_status].
    rewrite !andb_true_iff in Hc |- *. destruct Hc as ((((Hc1 & Hc2) & Hc3) & Hc4) & Hc5). repeat split; try done.
    + apply mem_true. apply mem_true in Hst. revert Hst. unfold JobStatus. set_solver.
    + by destruct phase.
    + destruct (mem status terminal); [|done]. destruct reason; [done|]. by destruct (String.eqb status "completed"), (String.eqb status "cancelled").
  - intros c' (Hs' & _). split; [done|]. split; [|done]. intros Hcx. unfold status_of in Hcan. rewrite Hcx in Hcan. cbn in Hcan.
    apply negb_false_iff in Hcan. by apply String.eqb_eq in Hcan.
Qed.

Lemma cancellation_ok (s : site) i owner now :
  site_ok s → let s' := perform_job s (RequestCancellation i owner now) in site_ok s' ∧ changes (RequestCancellation i owner now) (jobs_at s) (jobs_at s').
Proof.
  intros Hs. cbn [perform_job]. unfold request_cancellation. apply on_job; [done|]. intros x Hx Hc.
  destruct (negb _); [cbn; unchanged|]. destruct (mem _ ["cancelling"; _]); [cbn; unchanged|]. destruct (negb (mem _ _)) eqn:Hq; [cbn; unchanged|].
  apply (rewrite_changes _ s i x); [done|done|apply moved_valid; [done..|by apply valid_phase|by apply valid_reason]|]. intros c' (Hs' & _).
  split; [done|]. split; [|done]. apply negb_false_iff, mem_true in Hq. rewrite !elem_of_cons in Hq. unfold status_of in Hq. set_solver.
Qed.

Lemma revocation_ok (s : site) i owner asset now :
  site_ok s → let s' := perform_job s (RevokeWork i owner asset now) in site_ok s' ∧ changes (RevokeWork i owner asset now) (jobs_at s) (jobs_at s').
Proof.
  intros Hs. cbn [perform_job]. unfold request_active_authorization_revocation. apply on_job; [done|]. intros x Hx Hc.
  destruct (negb _); [cbn; unchanged|]. destruct (mem _ terminal) eqn:Ht; [cbn; unchanged|]. destruct (String.eqb_spec (status_of x) "queued") as [Hq|Hq].
  - apply (rewrite_changes _ s i x); [done|done|by apply moved_valid|]. intros c' (Hs' & _). split; [done|]. by left.
  - apply (rewrite_changes _ s i x); [done|done|apply moved_valid; [done..|by apply valid_phase|done]|]. intros c' (Hs' & _). split; [done|].
    right. split; [|done]. apply valid_status in Hc. apply mem_true in Hc. apply not_true_iff_false in Ht. rewrite mem_true in Ht.
    unfold status_of in *. revert Hc Ht. unfold JobStatus, terminal. set_solver.
Qed.

Lemma claim_ok (s : site) i now :
  site_ok s → let s' := perform_job s (Claim i now) in site_ok s' ∧ changes (Claim i now) (jobs_at s) (jobs_at s').
Proof.
  intros Hs. cbn [perform_job]. unfold claim, claim_queued_active_execution. apply on_job; [done|]. intros x Hx Hc.
  destruct (negb _) eqn:Hq; [cbn; unchanged|]. rewrite after_step_state by done. apply negb_false_iff, andb_true_iff in Hq as [_ Hq%String.eqb_eq].
  apply (rewrite_changes _ s i x); [done|done|apply moved_valid; [done..|by apply valid_reason]|]. by intros c' (Hs' & _).
Qed.

Lemma requeue_ok (s : site) i now :
  site_ok s → let s' := perform_job s (Requeue i now) in site_ok s' ∧ changes (Requeue i now) (jobs_at s) (jobs_at s').
Proof.
  intros Hs. cbn [perform_job]. unfold record_restart_requeue. apply on_job; [done|]. intros x Hx Hc. destruct (negb _) eqn:Hq; [cbn; unchanged|].
  assert (Hqueued : status_of x = "queued").
  { apply negb_false_iff, orb_true_iff in Hq. unfold is_queued_project, is_queued_active in Hq. rewrite !andb_true_iff, !String.eqb_eq in Hq. tauto. }
  apply (rewrite_changes _ s i x); [done|done| |].
  - unfold course_valid in *. cbn [job_status active_execution_phase termination_reason recovery_count result_integrity_status].
    rewrite !andb_true_iff in Hc |- *. destruct Hc as ((((? & ?) & ?) & Hn) & ?). repeat split; try done. to_prop. apply Z.leb_le. lia.
  - intros c' (Hs' & _). split; [done|]. split; [done|]. rewrite Hs'. exact Hqueued.
Qed.

(** ** Recovery *)

Abbreviation save_every := (save_all settings build_execution_profile redact_url_query stored_result redact_active_secret_text integrity_text record_json).

Lemma save_all_ok o rs (g : JobRecord → job_progress) (s : site) :
  site_ok s → NoDup (id_of <$> rs) →
  (∀ x, x ∈ rs → jobs_at s !! id_of x = Some x ∧ course_valid (g x) = true ∧ ∀ c', same_course (g x) c' → moves o (id_of x) (the_course x) c') →
  let s' := (save_every ((λ x, with_course x (g x)) <$> rs) s).2 in
  site_ok s' ∧ changes o (jobs_at s) (jobs_at s') ∧ ∀ i, i ∉ id_of <$> rs → jobs_at s' !! i = jobs_at s !! i.
Proof.
  revert s. induction rs as [|x rs IH]; intros s Hs Hnd Hin; [split; [done|]; split; [apply changes_refl|done]|].
  cbn [fmap list_fmap save_all] in *. fold (fmap (M:=list) id_of) in *. apply NoDup_cons in Hnd as [Hni Hnd].
  destruct (Hin x) as (Hx & Hc & Hm); [left|]. pose proof (rewrite_job_ok s (id_of x) x (g x) Hs Hx Hc) as H.
  destruct (save_job (with_course x (g x)) s) as [[r'|e] s1]; cbn [after_step]; [|subst s1; cbn; split; [done|]; split; [apply changes_refl|done]].
  destruct H as (Hs1 & Hf & Hsame & Hj). fold (jobs_at s1) (jobs_at s) in Hj. rewrite after_step_state by done.
  destruct (IH s1 Hs1 Hnd) as (Hs' & Hch & Hout).
  { intros y Hy. rewrite Hj, lookup_insert_ne; [apply Hin; by right|]. intros E. apply Hni. rewrite E. by apply list_elem_of_fmap_2. }
  split; [done|]. split.
  - intros i r1 Hr1. destruct (decide (i = id_of x)) as [->|Hne].
    + rewrite Hout in Hr1 by done. rewrite Hj, lookup_insert_eq in Hr1. injection Hr1 as <-. right; right. exists x. split; [done|]. split; [done|]. by apply Hm.
    + assert (E : jobs_at s1 !! i = jobs_at s !! i) by (rewrite Hj; by apply lookup_insert_ne). specialize (Hch i r1 Hr1). by rewrite E in Hch.
  - intros i [Hne Hi]%not_elem_of_cons. rewrite Hout by done. rewrite Hj. by apply lookup_insert_ne.
Qed.

Lemma filter_NoDup_ids p rs : NoDup (id_of <$> rs) → NoDup (id_of <$> List.filter p rs).
Proof.
  induction rs as [|x rs IH]; [done|]. cbn [fmap list_fmap List.filter]. fold (fmap (M:=list) id_of). intros [Hx Hnd]%NoDup_cons.
  destruct (p x); [|by apply IH]. cbn [fmap list_fmap]. fold (fmap (M:=list) id_of). apply NoDup_cons. split; [|by apply IH].
  intros (y & E & Hy)%list_elem_of_fmap. apply Hx. rewrite E. apply list_elem_of_fmap_2. apply list_elem_of_In in Hy. apply filter_In in Hy as [Hy _].
  by apply list_elem_of_In.
Qed.

Lemma inflight_step (s : site) :
  site_ok s → ∃ rs s', _inflight_records_unlocked settings integrity_text record_json s = (Ok rs, s') ∧ jobs_at s' = jobs_at s ∧ site_ok s'
    ∧ NoDup (id_of <$> rs) ∧ ∀ r, r ∈ rs ↔ jobs_at s !! id_of r = Some r ∧ status_of r ∈ inflight.
Proof.
  intros Hs. destruct (inflight_ok load digest s Hs) as (rs & s' & Hq & Hf & Hs' & Hnd & Hin). exists rs, s'. unfold _inflight_records_unlocked. rewrite Hq.
  split; [done|]. split; [unfold jobs_at; by rewrite Hf|]. split; [done|]. split; [done|]. intros r. by rewrite Hin, mem_true.
Qed.

Lemma recover_ok (s : site) projects actives reason err now :
  site_ok s → mem reason JobTerminationReason = true →
  let s' := perform_job s (Recover projects actives reason err now) in
  site_ok s' ∧ changes (Recover projects actives reason err now) (jobs_at s) (jobs_at s').
Proof.
  intros Hs Hre. cbn [perform_job]. unfold recover_interrupted_jobs. destruct (inflight_step s Hs) as (rs & s1 & -> & Hj & Hs1 & Hnd & Hin).
  cbn [after_step]. rewrite <- Hj. set (p := λ r, negb _).
  destruct (save_all_ok (Recover projects actives reason err now) (List.filter p rs) (λ x, the_course (interrupted x reason err now)) s1 Hs1) as (Hs' & Hch & _);
    [by apply filter_NoDup_ids| |split; [exact Hs'|exact Hch]].
  intros x Hx. apply list_elem_of_In, filter_In in Hx as [Hx _]. apply list_elem_of_In, Hin in Hx as [Hx Hfl]. rewrite Hj. split; [done|].
  pose proof (course_of x _ s Hs Hx) as Hc. split.
  - unfold interrupted. cbn [with_course the_course]. apply moved_valid; [done|done| |done]. case_bool_decide; [done|by apply valid_phase].
  - intros c' (Hs' & _). split; [exact Hfl|exact Hs'].
Qed.

Lemma delete_one_ok (s : site) i owner :
  site_ok s → let s' := perform_job s (DeleteJob i owner) in site_ok s' ∧ changes (DeleteJob i owner) (jobs_at s) (jobs_at s').
Proof.
  intros Hs. cbn [perform_job]. unfold delete_job. destruct (_get_unlocked _ _ _ i) as [x|] eqn:Hg; [|unchanged].
  cbn [after_step]. destruct (from_option _ _ _); [unchanged|]. destruct (negb _); [unchanged|]. unfold unlink_job.
  destruct (delete_job_ok load digest s x Hs) as (s' & -> & Hs' & Hf). cbn. split; [done|]. unfold jobs_at. rewrite Hf, jobs_delete.
  intros j r' [_ H]%lookup_delete_Some. by left.
Qed.

(** ** Admission *)

Lemma or_503_state {A} (m : outcome A * site) : (or_503 m).2 = m.2.
Proof. by destruct m as [[]]. Qed.

Lemma admission_ok owner (s : site) :
  site_ok s → owner ≠ "" →
  let '(o, s') := _assert_admission_available_unlocked settings integrity_text record_json (Some owner) s in
  site_ok s' ∧ jobs_at s' = jobs_at s
  ∧ (o = Ok tt → _GENERAL_OWNER owner = true ∧ (size (jobs_where flying (jobs_at s)) < audit_max_inflight_jobs settings)%nat
                 ∧ (size (jobs_where (λ r, flying r && JobIndex.is_of owner r) (jobs_at s)) < audit_max_inflight_jobs_per_owner settings)%nat).
Proof.
  intros Hs Hne. unfold _assert_admission_available_unlocked, resolve_record_owner_id. cbn [truthy_opt from_option].
  assert (truthy owner = true) as -> by (by destruct owner).
  destruct (admission_counts_ok load digest owner s Hs) as (s' & Hf & Hs' & ->). assert (Hj : jobs_at s' = jobs_at s) by (unfold jobs_at; by rewrite Hf).
  destruct (_GENERAL_OWNER owner); cbn [or_503 after_step]; [|done]. cbn [fst snd]. fold (jobs_at s).
  destruct (_ <=? _)%nat eqn:E1; [done|]. destruct (audit_max_inflight_jobs_per_owner settings <=? _)%nat eqn:E2; [done|]. to_prop. done.
Qed.

Lemma active_admission_ok owner asset audit (s : site) :
  site_ok s →
  let '(o, s') := _assert_active_admission_available_unlocked settings integrity_text record_json owner asset audit s in
  site_ok s' ∧ jobs_at s' = jobs_at s
  ∧ (o = Ok tt → (size (jobs_where flying_active (jobs_at s)) < active_max_inflight_jobs settings)%nat
       ∧ (size (jobs_where (λ r, flying_active r && JobIndex.is_of owner r) (jobs_at s)) < active_max_inflight_jobs_per_organization settings)%nat
       ∧ (size (jobs_where (λ r, flying_active r && (JobIndex.is_of owner r && bool_decide (asset_of r = Some asset))) (jobs_at s))
            < active_max_inflight_jobs_per_asset settings)%nat
       ∧ (size (jobs_where (λ r, flying_active r && String.eqb (audit_type (the_origin r)) audit) (jobs_at s))
            < active_max_inflight_jobs_per_capability settings)%nat).
Proof.
  intros Hs. unfold _assert_active_admission_available_unlocked.
  destruct (active_counts_ok load digest owner asset audit s Hs) as (s' & Hf & Hs' & ->). assert (Hj : jobs_at s' = jobs_at s) by (unfold jobs_at; by rewrite Hf).
  destruct (_ && _ && _); cbn [or_503 after_step]; [|done]. fold (jobs_at s). destruct (_ || _ || _ || _) eqn:E; [done|]. to_prop. done.
Qed.

(** A job as it was asked for. *)
Definition admitted (q : active_request) (i : string) (now : datetime) (r : JobRecord) : Prop :=
  id_of r = i ∧ job_owner_id r = Some (ask_owner q) ∧ status_of r = "queued" ∧ audit_type (the_origin r) = ask_audit q
  ∧ job_created_at (the_origin r) = now ∧ retry_of_job_id (the_origin r) = ask_retry_of q
  ∧ the_evidence r = JobEvidence (Some (ask_asset q)) (Some (ask_contract q)) (Some (ask_revision q)) (Some (ask_digest q))
                       (Some (ask_sequence q)) (ask_port q) (Some (ask_key q)).

(** There is room, for the owner, its asset and the kind of work. *)
Definition room (q : active_request) (js : gmap string JobRecord) : Prop :=
  (size (jobs_where flying js) < audit_max_inflight_jobs settings)%nat
  ∧ (size (jobs_where (λ r, flying r && JobIndex.is_of (ask_owner q) r) js) < audit_max_inflight_jobs_per_owner settings)%nat
  ∧ (size (jobs_where flying_active js) < active_max_inflight_jobs settings)%nat
  ∧ (size (jobs_where (λ r, flying_active r && JobIndex.is_of (ask_owner q) r) js) < active_max_inflight_jobs_per_organization settings)%nat
  ∧ (size (jobs_where (λ r, flying_active r && (JobIndex.is_of (ask_owner q) r && bool_decide (asset_of r = Some (ask_asset q)))) js)
       < active_max_inflight_jobs_per_asset settings)%nat
  ∧ (size (jobs_where (λ r, flying_active r && String.eqb (audit_type (the_origin r)) (ask_audit q)) js)
       < active_max_inflight_jobs_per_capability settings)%nat.

Definition has_asked (q : active_request) (r : JobRecord) : Prop := JobIndex.is_of (ask_owner q) r = true ∧ key_of r = Some (ask_key q).

Lemma no_job_at (s : site) i : files s.2 !! i = None → jobs_at s !! i = None.
Proof. intros H. unfold jobs_at, JobIndex.jobs. by rewrite lookup_omap, H. Qed.

(** A name without a job has no file. *)
Lemma jobs_free (s s' : site) i : site_ok s' → jobs_at s' = jobs_at s → jobs_at s !! i = None → files s'.2 !! i = None.
Proof.
  intros Hs Hj Hi. destruct (files s'.2 !! i) as [c|] eqn:Hc; [|done]. exfalso. destruct (proj1 (proj2 Hs) i c Hc) as (_ & x & _ & Hl & _).
  assert (Hx : jobs_at s' !! i = Some x) by (apply job_at; by exists c). by rewrite Hj, Hi in Hx.
Qed.

(** A new file. *)
Lemma save_new_ok (s : site) r :
  site_ok s → storable r → is_hex32 (id_of r) = true → files s.2 !! id_of r = None →
  (∀ j x, jobs_at s !! j = Some x → job_owner_id x = job_owner_id r → key_of x = key_of r → ¬ is_Some (key_of r)) →
  match save_job r s with
  | (Err e, s') => s' = s
  | (Ok r', s') => site_ok s' ∧ frame r r' ∧ same_course (the_course r) (the_course r') ∧ jobs_at s' = <[id_of r := r']> (jobs_at s)
  end.
Proof.
  intros Hs Hr Hi Hf Hk. apply (save_job_ok s r Hs Hr Hi).
  - intros x Hx. fold (jobs_at s) in Hx. by rewrite no_job_at in Hx.
  - intros j x Hj Ho Hke Hs'. by destruct (Hk j x Hj Ho Hke).
Qed.

(** Nothing has the key yet. *)
Lemma unasked q r (js : gmap string JobRecord) :
  job_owner_id r = Some (ask_owner q) → active_execution_idempotency_key_sha256 (the_evidence r) = Some (ask_key q) →
  (∀ i x, js !! i = Some x → JobIndex.is_of (ask_owner q) x = true → key_of x ≠ Some (ask_key q)) →
  ∀ j x, js !! j = Some x → job_owner_id x = job_owner_id r → key_of x = key_of r → ¬ is_Some (key_of r).
Proof.
  intros Ho He Hnone j x Hj Hox Hk _. apply (Hnone j x Hj); [unfold JobIndex.is_of; apply bool_decide_eq_true; congruence|].
  rewrite Hk. exact He.
Qed.

Ltac refused := split; [done|left; by split; [eexists|]].

Lemma admit_ok (s : site) deleting q i now :
  site_ok s → is_hex32 i = true → files s.2 !! i = None →
  let '(o, s') := admission deleting q i now s in
  site_ok s'
  ∧ ((∃ e, o = Err e) ∧ jobs_at s' = jobs_at s
     ∨ (∃ r, o = Ok (r, true) ∧ jobs_at s' = jobs_at s ∧ jobs_at s !! id_of r = Some r ∧ has_asked q r ∧ same_request r q = true)
     ∨ ∃ r, o = Ok (r, false) ∧ jobs_at s' = <[i := r]> (jobs_at s) ∧ admitted q i now r ∧ room q (jobs_at s) ∧ deleting (ask_asset q) = false
            ∧ ∀ j x, jobs_at s !! j = Some x → ¬ has_asked q x).
Proof.
  intros Hs Hi Hfree. unfold admission, create_active_asset_execution_job. destruct (negb (is_hex64 _)) eqn:Hkey; [refused|].
  apply negb_false_iff in Hkey. destruct (active_record _ q i now) as [r|] eqn:Hr; cbn [after_step]; [|refused].
  destruct (idempotent_ok load digest (ask_owner q) (ask_key q) s Hs) as (o & s1 & -> & Hf1 & Hs1 & Hbad & Hgood).
  assert (Hj1 : jobs_at s1 = jobs_at s) by (unfold jobs_at; by rewrite Hf1). fold (jobs_at s) in Hgood. rewrite Hkey, andb_true_r in Hbad, Hgood.
  destruct (_GENERAL_OWNER (ask_owner q)) eqn:Hown; [|rewrite Hbad by done; cbn [or_503 after_step]; refused].
  destruct (Hgood eq_refl) as [[-> Hnone]|(e & -> & He & Ho & Hk)]; cbn [or_503 after_step].
  2:{ destruct (negb (same_request e q)) eqn:Hsame; [refused|]. apply negb_false_iff in Hsame.
      split; [done|]. right; left. by exists e. }
  destruct (_validate_identifier (ask_asset q)); cbn [after_step]; [|refused].
  destruct (deleting (ask_asset q)) eqn:Hdel; [refused|].
  assert (Hne : ask_owner q ≠ "") by (intros E; by rewrite E in Hown). pose proof (admission_ok (ask_owner q) s1 Hs1 Hne) as H2.
  destruct (_assert_admission_available_unlocked _ _ _ _ s1) as [[[]|] s2]; cbn [after_step]; destruct H2 as (Hs2 & Hj2 & H2); rewrite Hj1 in H2, Hj2;
    [|refused]. destruct (H2 eq_refl) as (_ & Hc1 & Hc2).
  pose proof (active_admission_ok (ask_owner q) (ask_asset q) (ask_audit q) s2 Hs2) as H3.
  destruct (_assert_active_admission_available_unlocked _ _ _ _ _ _ s2) as [[[]|] s3]; cbn [after_step]; destruct H3 as (Hs3 & Hj3 & H3);
    rewrite Hj2 in H3, Hj3; [|refused].
  pose proof Hr as Hr'. unfold active_record in Hr. apply validated_frame in Hr as ((Hro & Hror & Hre) & Hrc & _). cbn in Hro, Hror, Hre, Hrc.
  assert (Hid : id_of r = i) by (unfold id_of; by rewrite Hror).
  pose proof (save_new_ok s3 r Hs3) as H4. rewrite Hid in H4. assert (Hst : storable r).
  { split; [by apply validated_idem in Hr'|by exists (ask_owner q)]. }
  specialize (H4 Hst Hi). rewrite Hj3 in H4. assert (Hf3 : files s3.2 !! i = None) by (apply (jobs_free s s3); [done|done|by apply no_job_at]).
  specialize (H4 Hf3 (unasked q r _ Hro (f_equal active_execution_idempotency_key_sha256 Hre) Hnone)). destruct (save_job r s3) as [[r'|] s4]; cbn [after_step].
  - destruct H4 as (Hs4 & (Ho4 & Hor4 & He4) & (Hst4 & _) & Hj4).
    split; [done|]. right; right. exists r'. split; [done|]. split; [done|]. destruct (H3 eq_refl) as (? & ? & ? & ?).
    unfold admitted, id_of, status_of. rewrite Ho4, Hor4, He4, Hst4, Hro, Hror, Hre, Hrc. cbn. split; [done|]. split; [done|]. split; [done|].
    intros j x Hjx [Hox Hkx]. by apply (Hnone j x).
  - subst s4. refused.
Qed.
(** ** Every operation *)

Lemma create_job_ok (s : site) deleting owner o target now :
  site_ok s → legal_job s (CreateJob deleting owner o target now) →
  let s' := perform_job s (CreateJob deleting owner o target now) in
  site_ok s'
  ∧ (jobs_at s' = jobs_at s
     ∨ ∃ r, jobs_at s' = <[job_id o := r]> (jobs_at s) ∧ jobs_at s !! job_id o = None ∧ job_owner_id r = Some owner ∧ asset_of r = None
            ∧ status_of r = "queued" ∧ (size (jobs_where flying (jobs_at s)) < audit_max_inflight_jobs settings)%nat
            ∧ (size (jobs_where (λ r, flying r && JobIndex.is_of owner r) (jobs_at s)) < audit_max_inflight_jobs_per_owner settings)%nat).
Proof.
  intros Hs (Hi & Hfree & Hne). cbn [perform_job]. unfold _create_job. destruct (validated_job _) as [r|] eqn:Hr; cbn [after_step]; [|by split; [|left]].
  destruct (from_option _validate_identifier _ _); cbn [after_step]; [|by split; [|left]]. destruct (from_option deleting _ _); [by split; [|left]|].
  pose proof (admission_ok owner s Hs Hne) as H2.
  destruct (_assert_admission_available_unlocked _ _ _ _ s) as [[[]|] s1]; cbn [after_step]; destruct H2 as (Hs1 & Hj1 & H2); [|by split; [|left]].
  destruct (H2 eq_refl) as (_ & Hc1 & Hc2). pose proof Hr as Hr'. apply validated_frame in Hr as ((Hro & Hror & Hre) & Hrc & _). cbn in Hro, Hror, Hre, Hrc.
  assert (Hid : id_of r = job_id o) by (unfold id_of; by rewrite Hror).
  assert (Hf1 : files s1.2 !! job_id o = None) by (apply (jobs_free s s1); [done|done|by apply no_job_at]).
  pose proof (save_new_ok s1 r Hs1) as H3. rewrite Hid in H3.
  assert (Hk : ∀ j x, jobs_at s1 !! j = Some x → job_owner_id x = job_owner_id r → key_of x = key_of r → ¬ is_Some (key_of r)).
  { intros j x _ _ _. unfold key_of. rewrite Hre. by intros [? [=]]. }
  assert (Hst : storable r).
  { split; [by apply validated_idem in Hr'|]. exists owner. by destruct (H2 eq_refl). }
  specialize (H3 Hst Hi Hf1 Hk). destruct (save_job r s1) as [[r'|] s2].
  - destruct H3 as (Hs2 & (Ho & Hor & He) & (Hstat & _) & Hj2). cbn. split; [done|]. right. exists r'. rewrite Hj2, Hj1.
    split; [done|]. split; [by apply no_job_at|]. unfold asset_of, status_of. rewrite Ho, He, Hstat, Hro, Hre, Hrc. done.
  - subst s2. by split; [|left].
Qed.

Lemma perform_job_ok (s : site) o :
  site_ok s → legal_job s o → site_ok (perform_job s o) ∧ changes o (jobs_at s) (jobs_at (perform_job s o)).
Proof.
  intros Hs Hl. destruct o.
  - destruct Hl as [Hi Hfree]. cbn [perform_job]. pose proof (admit_ok s deleting q i now Hs Hi Hfree) as H.
    destruct (admission deleting q i now s) as [o s']. cbn. destruct H as (Hs' & [[_ ->]|[(r & _ & -> & _)|(r & _ & -> & (Hid & _ & Hq & _) & _)]]);
      split; try done; try apply changes_refl.
    intros j x [[<- <-]|[_ H]]%lookup_insert_Some; [|by left]. right; left. by split; [apply no_job_at|].
  - destruct (create_job_ok s deleting owner o target now Hs Hl) as (Hs' & [->|(r & -> & Hn & _ & _ & Hq & _)]); (split; [done|]); [apply changes_refl|].
    intros j x [[<- <-]|[_ H]]%lookup_insert_Some; [|by left]. right; left. done.
  - by apply update_ok.
  - by apply cancellation_ok.
  - by apply revocation_ok.
  - by apply claim_ok.
  - by apply recover_ok.
  - by apply requeue_ok.
  - by apply delete_one_ok.
  - cbn [perform_job]. destruct (inflight_step s Hs) as (rs & s' & -> & Hj & Hs' & _). cbn. split; [done|]. rewrite Hj. apply changes_refl.
  - cbn. split; [|apply changes_refl]. destruct Hs as [(H1 & H2 & _) Hset]. split; [|done]. split; [done|]. split; [done|]. done.
Qed.
End Runs.
