(* ===== verification/JobSafety.v ===== *)
(** * JobSafety: what the store of jobs promises

    Properties of the runs of [JobRuns]: evidence and ends are kept, a key is
    one job, a worker claims a job once, the work in flight is bounded; and
    what an update does to a revocation it did not see. *)

From S2P Require Import Prelude PyStr Grouping Sha256 BearerToken Identifiers SqlTable PyValue StampedIndex JobRecord JobIndex JobStore JobRuns.
Local Open Scope Z_scope.

Section Safety.
Context (settings : job_settings) (build_execution_profile : string → option string → value)
  (redact_url_query : string → string) (stored_result : string → value → value) (redact_active_secret_text : string → string)
  (integrity_text : integrity_input → option string) (record_json : JobRecord → string).

Abbreviation load := (_load_job_file (trusted_local settings) integrity_text).
Abbreviation site_ok := (JobIndex.site_ok load (active_job_record_digest record_json)).
Abbreviation jobs_at := (JobRuns.jobs_at settings integrity_text).
Abbreviation perform_job :=
  (JobRuns.perform_job settings build_execution_profile redact_url_query stored_result redact_active_secret_text integrity_text record_json).
Abbreviation admission :=
  (JobRuns.admission settings build_execution_profile redact_url_query stored_result redact_active_secret_text integrity_text record_json).
Abbreviation claim :=
  (JobRuns.claim settings build_execution_profile redact_url_query stored_result redact_active_secret_text integrity_text record_json).

Definition no_jobs : site := (None, Disk ∅ 0 None 0).

Fixpoint legal_jobs (s : site) (os : list job_op) : Prop :=
  match os with
  | [] => True
  | o :: os' => legal_job s o ∧ legal_jobs (perform_job s o) os'
  end.

Definition run_jobs (s : site) (os : list job_op) : site := foldl perform_job s os.

Lemma legal_jobs_app s os os' : legal_jobs s (os ++ os') ↔ legal_jobs s os ∧ legal_jobs (run_jobs s os) os'.
Proof.
  revert s. induction os as [|o os IH]; intros s; cbn [app legal_jobs]; [unfold run_jobs; cbn; tauto|].
  rewrite IH. unfold run_jobs. cbn [foldl]. tauto.
Qed.

Lemma no_jobs_ok : site_ok no_jobs.
Proof.
  split; [split; [done|]; by split|]. split; [intros i c H; cbn in H; by rewrite lookup_empty in H|].
  intros i j r r' H. unfold JobIndex.jobs in H. cbn [files snd no_jobs] in H. by rewrite omap_empty, lookup_empty in H.
Qed.

Lemma run_jobs_ok s os : site_ok s → legal_jobs s os → site_ok (run_jobs s os).
Proof.
  revert s. induction os as [|o os IH]; intros s Hs; [done|]. intros [Hl Hls]. apply IH; [|done]. by apply perform_job_ok.
Qed.

(** What holds of a job at [i], whatever is done but creating it. *)
Lemma run_keeps (P : JobRecord → Prop) i s os :
  (∀ o r r', (∃ s, legal_job s o) → P r → frame r r' → moves o i (the_course r) (the_course r') → P r') →
  site_ok s → legal_jobs s os → Forall (λ o, ¬ creates o i) os →
  (∀ r, jobs_at s !! i = Some r → P r) → ∀ r, jobs_at (run_jobs s os) !! i = Some r → P r.
Proof.
  revert s. induction os as [|o os IH]; intros s HP Hs; [done|]. intros [Hl Hls] [Hc Hcs]%Forall_cons Hi.
  destruct (perform_job_ok settings build_execution_profile redact_url_query stored_result redact_active_secret_text integrity_text record_json s o Hs Hl)
    as [Hs' Hch]. apply (IH (perform_job s o)); [|done..|].
  - exact HP.
  - intros r' Hr'. destruct (Hch i r' Hr') as [H|[(_ & H & _)|(r & Hr & Hf & Hm)]]; [by apply Hi|done|].
    apply (HP o r r'); [by exists s|by apply Hi|done|done].
Qed.

(** ** Ends and evidence *)

(** C31: a cancelled job stays cancelled, and what a job was admitted for is
    kept.  Whatever is called after a job is found at an identifier, updates of
    workers that did not see the cancellation, revocations, recoveries and
    restarts included, the record found there later has the owner, origin and
    evidence of admission it had, and if it was cancelled it still is. *)
Theorem cancelled_is_final os os' i r r' :
  legal_jobs no_jobs (os ++ os') → Forall (λ o, ¬ creates o i) os' →
  jobs_at (run_jobs no_jobs os) !! i = Some r → jobs_at (run_jobs no_jobs (os ++ os')) !! i = Some r' →
  job_owner_id r' = job_owner_id r ∧ the_origin r' = the_origin r ∧ the_evidence r' = the_evidence r
  ∧ (status_of r = "cancelled" → status_of r' = "cancelled").
Proof.
  intros [Hl Hl']%legal_jobs_app Hc Hr Hr'. unfold run_jobs in Hr'. rewrite foldl_app in Hr'.
  pose (P := λ x, frame r x ∧ (status_of r = "cancelled" → status_of x = "cancelled")).
  assert (H : P r'); [|destruct H as ((Ho & Hor & He) & H); done].
  apply (run_keeps P i (run_jobs no_jobs os) os'); [|by apply run_jobs_ok; [apply no_jobs_ok|]|done|done| |done].
  - intros o x y _ [(Ho & Hor & He) Hcan] (Ho' & Hor' & He') Hm. split; [split; [congruence|split; congruence]|]. intros E. specialize (Hcan E).
    unfold status_of in *. destruct o; cbn [moves] in Hm; try done.
    + destruct Hm as (_ & H & ->). by apply H.
    + rewrite Hcan in Hm. naive_solver.
    + rewrite Hcan in Hm. naive_solver.
    + rewrite Hcan in Hm. naive_solver.
    + destruct Hm as [Hin _]. rewrite Hcan in Hin. unfold inflight in Hin. set_solver.
    + rewrite Hcan in Hm. naive_solver.
  - intros x Hx. assert (x = r) as -> by congruence. split; [by split|done].
Qed.

(** ** Claims *)

Lemma claim_result i now (s s' : site) r :
  site_ok s → claim i now s = (Ok (Some r), s') → jobs_at s' !! i = Some r ∧ status_of r = "running".
Proof.
  intros Hs. unfold JobRuns.claim, claim_queued_active_execution. destruct (_get_unlocked _ _ _ i) as [x|] eqn:Hg; [|done].
  destruct (get_job settings integrity_text _ _ _ (proj2 Hs) Hg) as (Hx & _ & Hid & Hst). cbn [after_step]. destruct (negb _); [done|].
  set (c := moved _ _ _ _ _ _ _ _ _). assert (Hc : course_valid c = true).
  { destruct Hst as [Hv _]. apply validated_course in Hv. apply moved_valid; [done..|by apply valid_reason]. }
  pose proof (rewrite_job_ok settings build_execution_profile redact_url_query stored_result redact_active_secret_text integrity_text record_json s i x c Hs Hx Hc) as H.
  destruct (_save_unlocked _ _ _ _ _ _ _ _ s) as [[r'|] s1]; cbn [after_step]; [|done]. intros [= <- <-].
  destruct H as (_ & _ & (Hstatus & _) & Hj). unfold JobRuns.jobs_at. rewrite Hj, lookup_insert_eq. split; [done|]. unfold status_of. by rewrite Hstatus.
Qed.

Lemma claim_queued i now (s s' : site) r :
  site_ok s → claim i now s = (Ok (Some r), s') → ∃ x, jobs_at s !! i = Some x ∧ status_of x = "queued" ∧ is_Some (asset_of x).
Proof.
  intros Hs. unfold JobRuns.claim, claim_queued_active_execution. destruct (_get_unlocked _ _ _ i) as [x|] eqn:Hg; [|done].
  destruct (get_job settings integrity_text _ _ _ (proj2 Hs) Hg) as (Hx & _). cbn [after_step]. destruct (negb _) eqn:Hq; [done|]. intros _.
  apply negb_false_iff, andb_true_iff in Hq as [Ha Hq]. apply bool_decide_eq_true in Ha. apply String.eqb_eq in Hq. by exists x.
Qed.

(** C29: two workers never run one job.  When a claim of a job succeeds, no
    later claim of it does, whatever else is done to the job and however often
    the processes restart; so the runner is contacted for it once. *)
Theorem job_claimed_once os os' i now now' r s' :
  legal_jobs no_jobs (os ++ Claim i now :: os') → Forall (λ o, ¬ creates o i) os' →
  claim i now (run_jobs no_jobs os) = (Ok (Some r), s') →
  ∀ r', (claim i now' (run_jobs no_jobs (os ++ Claim i now :: os'))).1 ≠ Ok (Some r').
Proof.
  intros [Hl Hl']%legal_jobs_app Hc Hclaim r' Hagain. pose proof (run_jobs_ok _ _ no_jobs_ok Hl) as Hs.
  destruct (claim i now' (run_jobs no_jobs (os ++ Claim i now :: os'))) as [o s2] eqn:E. cbn in Hagain. subst o.
  unfold run_jobs in E. rewrite foldl_app in E. cbn [foldl] in E. change (foldl perform_job no_jobs os) with (run_jobs no_jobs os) in E.
  set (s := run_jobs no_jobs os) in *. cbn [legal_jobs] in Hl'. destruct Hl' as [Hl1 Hl2].
  destruct (perform_job_ok settings build_execution_profile redact_url_query stored_result redact_active_secret_text integrity_text record_json s _ Hs Hl1) as [Hs1 _].
  destruct (claim_result i now s s' r Hs Hclaim) as [Hr Hrun].
  assert (E' : perform_job s (Claim i now) = s') by (cbn [JobRuns.perform_job]; by rewrite Hclaim). fold (run_jobs (perform_job s (Claim i now)) os') in E.
  rewrite E' in E, Hl2, Hs1. apply claim_queued in E as (x & Hx & Hq & _); [|by apply run_jobs_ok].
  revert Hq. apply (run_keeps (λ x, status_of x ≠ "queued") i s' os'); [|done|done|done| |done].
  - intros o y z [s0 Hlo] Hy _ Hm. unfold status_of in *. destruct o; cbn [moves] in Hm; try done.
    + destruct Hm as (_ & _ & ->). destruct Hlo as (Hmem & _). by intros ->.
    + destruct Hm as (_ & _ & ->). done.
    + destruct Hm as (_ & [[_ ->]|[_ ->]]); done.
    + by destruct Hm as (_ & Hqueued & _).
    + by destruct Hm as (_ & ->).
    + by destruct Hm as (_ & Hqueued & _).
  - intros y Hy. assert (y = r) as -> by congruence. by rewrite Hrun.
Qed.

(** ** Keys *)

Lemma valid_key r k : validated_job r = Ok r → key_of r = Some k → is_hex64 k = true.
Proof.
  unfold validated_job. destruct (_ && _ && evidence_valid _ && _) eqn:H; [|done]. intros _ Hk. unfold key_of in Hk. to_prop.
  unfold evidence_valid in *. to_prop. by rewrite Hk in *.
Qed.

(** C32: a key is one job.  After any calls and restarts, no two jobs of an
    organization were admitted with one key; and when a request with the key of
    a job is made again, the answer is that job, whatever became of it, if the
    request is the same, and a conflict if it is not; nothing is added. *)
Theorem key_is_one_job os deleting q i now r :
  legal_jobs no_jobs os →
  let s := run_jobs no_jobs os in
  (∀ j j' x x', jobs_at s !! j = Some x → jobs_at s !! j' = Some x' → has_asked q x → has_asked q x' → j = j')
  ∧ (jobs_at s !! id_of r = Some r → has_asked q r → is_ok (active_record build_execution_profile q i now) = true →
     (admission deleting q i now s).1 = (if same_request r q then Ok (r, true) else Err "409") ∧ jobs_at (admission deleting q i now s).2 = jobs_at s).
Proof.
  intros Hl s. pose proof (run_jobs_ok _ _ no_jobs_ok Hl) as Hs. fold s in Hs.
  assert (Hu : ∀ j j' x x', jobs_at s !! j = Some x → jobs_at s !! j' = Some x' → has_asked q x → has_asked q x' → j = j').
  { intros j j' x x' Hx Hx' [Ho Hk] [Ho' Hk']. unfold JobIndex.is_of in *. apply bool_decide_eq_true in Ho, Ho'.
    apply (proj2 (proj2 Hs) j j' x x' Hx Hx'); [congruence|congruence|]. rewrite Hk. by eexists. }
  split; [exact Hu|]. intros Hr Hask Hok. pose proof Hask as [Hown Hkey]. unfold JobIndex.is_of in Hown. apply bool_decide_eq_true in Hown.
  destruct (storable_at settings integrity_text _ _ _ (proj2 Hs) Hr) as ([Hv (owner & Ho & Hg)] & _). assert (owner = ask_owner q) as -> by congruence.
  assert (Hhex : is_hex64 (ask_key q) = true) by exact (valid_key r (ask_key q) Hv Hkey).
  unfold JobRuns.admission, create_active_asset_execution_job. rewrite Hhex. cbn [negb].
  destruct (active_record _ q i now) as [new|]; [|done]. cbn [after_step].
  destruct (idempotent_ok load (active_job_record_digest record_json) (ask_owner q) (ask_key q) s Hs) as (o & s1 & -> & Hf & _ & _ & Hgood).
  assert (Hj : jobs_at s1 = jobs_at s) by (unfold JobRuns.jobs_at; by rewrite Hf).
  destruct Hgood as [[_ Hnone]|(e & -> & He & Hoe & Hke)]; [by rewrite Hg, Hhex| |].
  - exfalso. by apply (Hnone (id_of r) r Hr (proj1 Hask)).
  - cbn [or_503 after_step]. assert (E : id_of e = id_of r) by (by apply (Hu _ _ e r He Hr)). rewrite E in He.
    assert (e = r) as -> by (unfold JobRuns.jobs_at in Hr; congruence). by destruct (same_request r q).
Qed.

(** ** Work in flight *)

Definition count (p : JobRecord → bool) (s : site) : nat := size (jobs_where p (jobs_at s)).

Definition bounded (s : site) : Prop :=
  (count flying s <= audit_max_inflight_jobs settings)%nat
  ∧ (∀ o, count (λ r, flying r && JobIndex.is_of o r) s <= audit_max_inflight_jobs_per_owner settings)%nat
  ∧ (count flying_active s <= active_max_inflight_jobs settings)%nat
  ∧ (∀ o, count (λ r, flying_active r && JobIndex.is_of o r) s <= active_max_inflight_jobs_per_organization settings)%nat
  ∧ (∀ o a, count (λ r, flying_active r && (JobIndex.is_of o r && bool_decide (asset_of r = Some a))) s <= active_max_inflight_jobs_per_asset settings)%nat
  ∧ (∀ k, count (λ r, flying_active r && String.eqb (audit_type (the_origin r)) k) s <= active_max_inflight_jobs_per_capability settings)%nat.

(** An update does not start a job that has ended. *)
Definition steady (s : site) (o : job_op) : Prop :=
  match o with
  | Update i status _ _ _ _ _ => status = "running" → ∀ r, jobs_at s !! i = Some r → flying r = true
  | _ => True
  end.

Fixpoint steady_run (s : site) (os : list job_op) : Prop :=
  match os with
  | [] => True
  | o :: os' => steady s o ∧ steady_run (perform_job s o) os'
  end.

(** A kind of work that a change of a job does not enter. *)
Definition closed (p : JobRecord → bool) : Prop :=
  ∀ r r', frame r r' → (flying r' = true → flying r = true) → p r' = true → p r = true.

Lemma count_closed p s o :
  (∀ i, ¬ creates o i) → legal_job s o → steady s o → changes o (jobs_at s) (jobs_at (perform_job s o)) → closed p → (count p (perform_job s o) <= count p s)%nat.
Proof.
  intros Hc Hl Hst Hch Hp. unfold count. rewrite <- !size_dom. apply subseteq_size. intros i. rewrite !elem_of_dom. unfold jobs_where.
  intros [r' [Hr' Hpr]%map_lookup_filter_Some]. cbn in Hpr. destruct (Hch i r' Hr') as [H|[(_ & H & _)|(r & Hr & Hf & Hm)]].
  - exists r'. by apply map_lookup_filter_Some.
  - by destruct (Hc i).
  - exists r. apply map_lookup_filter_Some. split; [done|]. cbn. apply (Hp r r' Hf); [|done]. unfold flying, status_of. rewrite !mem_true. intros Hfl.
    destruct o; cbn [moves] in Hm; try done.
    + destruct Hm as (-> & _ & E). rewrite E in Hfl. destruct Hl as (Hmem & _). cbn [steady] in Hst. apply mem_true in Hmem. unfold inflight in Hfl.
      assert (Hrun : status = "running") by (clear -Hmem Hfl; set_solver). specialize (Hst Hrun r Hr). unfold flying, status_of in Hst. by apply mem_true in Hst.
    + destruct Hm as (_ & [-> | ->] & _); unfold inflight; set_solver.
    + destruct Hm as (_ & [[-> _]|[[-> | ->] _]]); unfold inflight; set_solver.
    + destruct Hm as (_ & -> & _). unfold inflight. set_solver.
    + by destruct Hm.
    + destruct Hm as (_ & -> & _). unfold inflight. set_solver.
Qed.

Lemma count_new p (s s' : site) i r :
  jobs_at s' = <[i := r]> (jobs_at s) → jobs_at s !! i = None → count p s' = ((if p r then 1 else 0) + count p s)%nat.
Proof.
  intros E Hi. unfold count, jobs_where. rewrite E. destruct (p r) eqn:Hp.
  - rewrite map_filter_insert_True by done. rewrite map_size_insert_None; [done|]. apply map_lookup_filter_None. by left.
  - rewrite map_filter_insert_not'; [done|cbn; by rewrite Hp|]. intros y Hy. congruence.
Qed.

Lemma bounded_closed s o :
  (∀ i, ¬ creates o i) → legal_job s o → steady s o → changes o (jobs_at s) (jobs_at (perform_job s o)) → bounded s → bounded (perform_job s o).
Proof.
  intros Hc Hl Hst Hch (H1 & H2 & H3 & H4 & H5 & H6). pose proof (λ p, count_closed p s o Hc Hl Hst Hch) as Hle.
  assert (Hcl : ∀ q : JobRecord → bool, (∀ r r', frame r r' → q r' = q r) → closed (λ r, flying r && q r)).
  { intros q Hq r r' Hf Hfl. rewrite !andb_true_iff, (Hq r r' Hf). intros [? ?]. split; [by apply Hfl|done]. }
  assert (Hca : ∀ q : JobRecord → bool, (∀ r r', frame r r' → q r' = q r) → closed (λ r, flying_active r && q r)).
  { intros q Hq r r' Hf Hfl. unfold flying_active, asset_of. rewrite !andb_true_iff, (Hq r r' Hf). destruct Hf as (_ & _ & ->).
    intros [[? ?] ?]. split; [split; [done|by apply Hfl]|done]. }
  assert (Hf1 : closed flying) by (intros r r' Hf Hfl; exact Hfl).
  assert (Hf2 : closed flying_active).
  { intros r r' (_ & _ & He) Hfl. unfold flying_active, asset_of. rewrite He, !andb_true_iff. intros [? ?]. split; [done|by apply Hfl]. }
  assert (Ho : ∀ ow r r', frame r r' → JobIndex.is_of ow r' = JobIndex.is_of ow r) by (intros ow r r' (E & _ & _); unfold JobIndex.is_of; by rewrite E).
  split; [etrans; [apply Hle; exact Hf1|done]|]. split; [intros ow; etrans; [apply Hle, Hcl, Ho|done]|]. split; [etrans; [apply Hle; exact Hf2|done]|].
  split; [intros ow; etrans; [apply Hle, Hca, Ho|done]|]. split.
  - intros ow a. etrans; [apply Hle, Hca|apply H5]. intros r r' Hf. rewrite (Ho ow r r' Hf). unfold asset_of. by destruct Hf as (_ & _ & ->).
  - intros k. etrans; [apply Hle, Hca|apply H6]. by intros r r' (_ & -> & _).
Qed.

Lemma count_new_le p (s s' : site) i r n :
  jobs_at s' = <[i := r]> (jobs_at s) → jobs_at s !! i = None → (count p s <= n)%nat → (p r = true → (count p s < n)%nat) → (count p s' <= n)%nat.
Proof. intros E Hi Hle Hlt. rewrite (count_new p s s' i r E Hi). destruct (p r); [specialize (Hlt eq_refl)|]; lia. Qed.

Lemma is_of_other owner o r : job_owner_id r = Some owner → JobIndex.is_of o r = true → o = owner.
Proof. unfold JobIndex.is_of. intros Ho H. apply bool_decide_eq_true in H. congruence. Qed.

Lemma bounded_admit s deleting q i now :
  site_ok s → legal_job s (Admit deleting q i now) → bounded s → bounded (perform_job s (Admit deleting q i now)).
Proof.
  intros Hs [Hi Hfree] Hb. cbn [JobRuns.perform_job].
  pose proof (admit_ok settings build_execution_profile redact_url_query stored_result redact_active_secret_text integrity_text record_json s deleting q i now Hs Hi Hfree) as H.
  destruct (admission deleting q i now s) as [o s']. cbn [snd]. destruct H as (_ & [[_ E]|[(r & _ & E & _)|(r & _ & E & Hr & Hroom & _)]]);
    [unfold bounded, count; by rewrite E..|].
  destruct Hr as (_ & Ho & Hq & Hau & _ & _ & He). destruct Hroom as (R1 & R2 & R3 & R4 & R5 & R6). destruct Hb as (H1 & H2 & H3 & H4 & H5 & H6).
  pose proof (λ p n, count_new_le p s s' i r n E (no_job_at settings integrity_text s i Hfree)) as Hnew.
  split; [by apply Hnew|]. split; [|split; [by apply Hnew|split; [|split]]].
  - intros ow. apply Hnew; [apply H2|]. intros [_ Ha]%andb_true_iff. by rewrite (is_of_other _ ow r Ho Ha).
  - intros ow. apply Hnew; [apply H4|]. intros [_ Ha]%andb_true_iff. by rewrite (is_of_other _ ow r Ho Ha).
  - intros ow a. apply Hnew; [apply H5|]. intros [_ [Ha Has]%andb_true_iff]%andb_true_iff. rewrite (is_of_other _ ow r Ho Ha).
    apply bool_decide_eq_true in Has. unfold asset_of in Has. rewrite He in Has. cbn in Has. by injection Has as <-.
  - intros k. apply Hnew; [apply H6|]. intros [_ Hk%String.eqb_eq]%andb_true_iff. by rewrite <- Hk, Hau.
Qed.

Lemma bounded_create s deleting owner o target now :
  site_ok s → legal_job s (CreateJob deleting owner o target now) → bounded s → bounded (perform_job s (CreateJob deleting owner o target now)).
Proof.
  intros Hs Hl Hb.
  destruct (create_job_ok settings build_execution_profile redact_url_query stored_result redact_active_secret_text integrity_text record_json s deleting owner o target now Hs Hl)
    as (_ & [E|(r & E & Hn & Ho & Ha & Hq & R1 & R2)]); [unfold bounded, count; by rewrite E|]. destruct Hb as (H1 & H2 & H3 & H4 & H5 & H6).
  pose proof (λ p n, count_new_le p s _ _ r n E Hn) as Hnew.
  assert (Hnone : flying_active r = false) by (unfold flying_active; by rewrite Ha).
  split; [by apply Hnew|]. split; [|split; [apply Hnew; [done|by rewrite Hnone]|]].
  - intros ow. apply Hnew; [apply H2|]. intros [_ Hx]%andb_true_iff. by rewrite (is_of_other _ ow r Ho Hx).
  - split; [intros ow; apply Hnew; [apply H4|by rewrite Hnone]|]. split; [intros ow a; apply Hnew; [apply H5|by rewrite Hnone]|].
    intros k. apply Hnew; [apply H6|by rewrite Hnone].
Qed.

Lemma bounded_step s o : site_ok s → legal_job s o → steady s o → bounded s → bounded (perform_job s o).
Proof.
  intros Hs Hl Hst Hb.
  destruct (perform_job_ok settings build_execution_profile redact_url_query stored_result redact_active_secret_text integrity_text record_json s o Hs Hl) as [_ Hch].
  assert (Hgen : (∀ i, ¬ creates o i) → bounded (perform_job s o)) by (intros Hc; by apply bounded_closed).
  destruct o; try (apply Hgen; intros j Hj; exact Hj); [by apply bounded_admit|by apply bounded_create].
Qed.

(** C30: the work in flight is bounded.  After any calls and restarts in which
    no update starts a job that has ended, the jobs queued, running or being
    cancelled are no more than the limits of the settings: in all, of an owner,
    and of those that probe assets in all, of an organization, of an asset and
    of a kind of probe. *)
Theorem work_bounded os :
  legal_jobs no_jobs os → steady_run no_jobs os →
  let s := run_jobs no_jobs os in
  (count flying s <= audit_max_inflight_jobs settings)%nat
  ∧ (∀ o, count (λ r, flying r && JobIndex.is_of o r) s <= audit_max_inflight_jobs_per_owner settings)%nat
  ∧ (count flying_active s <= active_max_inflight_jobs settings)%nat
  ∧ (∀ o, count (λ r, flying_active r && JobIndex.is_of o r) s <= active_max_inflight_jobs_per_organization settings)%nat
  ∧ (∀ o a, count (λ r, flying_active r && (JobIndex.is_of o r && bool_decide (asset_of r = Some a))) s <= active_max_inflight_jobs_per_asset settings)%nat
  ∧ (∀ k, count (λ r, flying_active r && String.eqb (audit_type (the_origin r)) k) s <= active_max_inflight_jobs_per_capability settings)%nat.
Proof.
  intros Hl Hst. cbv zeta.
  assert (H : ∀ os s, site_ok s → bounded s → legal_jobs s os → steady_run s os → bounded (run_jobs s os)).
  { clear. induction os as [|o os IH]; intros s Hs Hb; [done|]. intros [Hl Hls] [Ht Hts]. apply IH; [|by apply bounded_step|done|done].
    by apply perform_job_ok. }
  apply (H os no_jobs no_jobs_ok); [|done|done].
  assert (E : jobs_at no_jobs = ∅) by (unfold JobRuns.jobs_at, JobIndex.jobs, no_jobs; apply omap_empty).
  unfold bounded, count, jobs_where. rewrite E. setoid_rewrite map_filter_empty. rewrite map_size_empty. repeat split; intros; lia.
Qed.
End Safety.

(** ** Instances *)

Module Sample_jobs.
Definition hex (c : ascii) : string := text (replicate 32 c).
Definition hex64 (c : ascii) : string := text (replicate 64 c).
Definition at_ (n : Z) : datetime := DT (seconds n) (Some 0).
Definition few : job_settings := JobSettings true 4 2 2 2 1 2.
Definition profile (audit : string) (_ : option string) : value := VStr audit.
Definition same (s : string) : string := s.
Definition as_it_is (_ : string) (v : value) : value := v.
Definition in_text (i : integrity_input) : option string := Some (of_job i).
Definition job_text (r : JobRecord) : string := id_of r ++ status_of r.
Definition ask (key : ascii) : active_request :=
  ActiveRequest "active_tls_basic" "local-admin" (hex "a") "1" (hex "b") (hex64 "c") 1 (Some 443) (hex64 key) None.
Definition start (i : ascii) (key : ascii) (t : Z) : job_op := Admit (λ _, false) (ask key) (hex i) (at_ t).
Definition ended (i : ascii) (status : string) (t : Z) : job_op := Update (hex i) status None None None (Some "terminal") (at_ t).

Definition run_sample (os : list job_op) : site := run_jobs few profile same as_it_is same in_text job_text no_jobs os.
Definition legal_sample (os : list job_op) : Prop := legal_jobs few profile same as_it_is same in_text job_text no_jobs os.
Definition found (os : list job_op) (i : string) : option JobRecord := JobRuns.jobs_at few in_text (run_sample os) !! i.
Definition says (status : string) (o : option JobRecord) : bool := from_option (λ r, String.eqb (status_of r) status) false o.

Lemma says_true status o : says status o = true → ∃ r, o = Some r ∧ status_of r = status.
Proof. destruct o as [r|]; [|done]. cbn. intros H%String.eqb_eq. by exists r. Qed.

Definition until_cancelled : list job_op := [start "1" "d" 1; Claim (hex "1") (at_ 2); RequestCancellation (hex "1") "local-admin" (at_ 3); ended "1" "cancelled" 4].
Definition late : list job_op := [ended "1" "completed" 5; RestartJobs; Recover false true "application_restart" "" (at_ 6)].
End Sample_jobs.
Import Sample_jobs.

Lemma cancelled_is_final_witness :
  ∃ r r', found until_cancelled (hex "1") = Some r ∧ found (until_cancelled ++ late) (hex "1") = Some r' ∧ status_of r = "cancelled"
    ∧ the_evidence r' = the_evidence r ∧ status_of r' = "cancelled".
Proof.
  assert (Hl : legal_sample (until_cancelled ++ late)) by (repeat split; vm_compute; reflexivity).
  assert (Hc : Forall (λ o, ¬ creates o (hex "1")) late) by (repeat constructor; intros H; exact H).
  destruct (says_true "cancelled" (found until_cancelled (hex "1"))) as (r & Hr & Hs); [vm_compute; reflexivity|].
  destruct (says_true "cancelled" (found (until_cancelled ++ late) (hex "1"))) as (r' & Hr' & _); [vm_compute; reflexivity|].
  pose proof (cancelled_is_final few profile same as_it_is same in_text job_text until_cancelled late (hex "1") r r' Hl Hc Hr Hr') as (_ & _ & He & Hcan).
  exists r, r'. split; [exact Hr|]. split; [exact Hr'|]. split; [exact Hs|]. split; [exact He|exact (Hcan Hs)].
Defined.

Definition sample_claim (os : list job_op) (t : Z) : outcome (option JobRecord) * site :=
  JobRuns.claim few profile same as_it_is same in_text job_text (hex "1") (at_ t) (run_sample os).

Lemma job_claimed_once_witness :
  (∃ r, (sample_claim [start "1" "d" 1] 2).1 = Ok (Some r))
  ∧ ∀ r', (sample_claim [start "1" "d" 1; Claim (hex "1") (at_ 2); RestartJobs; Requeue (hex "1") (at_ 3)] 4).1 ≠ Ok (Some r').
Proof.
  assert (H : match (sample_claim [start "1" "d" 1] 2).1 with Ok (Some _) => true | _ => false end = true) by (vm_compute; reflexivity).
  destruct (sample_claim [start "1" "d" 1] 2) as [o s'] eqn:E. cbn [fst] in H |- *. destruct o as [[r|]|]; [|discriminate H|discriminate H].
  split; [by exists r|].
  assert (Hl : legal_sample ([start "1" "d" 1] ++ Claim (hex "1") (at_ 2) :: [RestartJobs; Requeue (hex "1") (at_ 3)])) by (repeat split; vm_compute; reflexivity).
  assert (Hc : Forall (λ o, ¬ creates o (hex "1")) [RestartJobs; Requeue (hex "1") (at_ 3)]) by (repeat constructor; intros Hx; exact Hx).
  exact (job_claimed_once few profile same as_it_is same in_text job_text [start "1" "d" 1] [RestartJobs; Requeue (hex "1") (at_ 3)] (hex "1") (at_ 2) (at_ 4)
           r s' Hl Hc E).
Defined.

Definition sample_admit (os : list job_op) : outcome (JobRecord * bool) * site :=
  JobRuns.admission few profile same as_it_is same in_text job_text (λ _, true) (ask "d") (hex "2") (at_ 9) (run_sample os).

Lemma key_is_one_job_witness :
  ∃ r, found until_cancelled (hex "1") = Some r ∧ (sample_admit until_cancelled).1 = (if same_request r (ask "d") then Ok (r, true) else Err "409").
Proof.
  assert (Hl : legal_sample until_cancelled) by (repeat split; vm_compute; reflexivity).
  assert (H : match found until_cancelled (hex "1") with
              | Some r => String.eqb (id_of r) (hex "1") && JobIndex.is_of "local-admin" r && bool_decide (key_of r = Some (hex64 "d"))
              | None => false end = true) by (vm_compute; reflexivity).
  destruct (found until_cancelled (hex "1")) as [r|] eqn:Hr; [|discriminate H]. apply andb_true_iff in H as [H Hk]. apply andb_true_iff in H as [Hi Ho].
  apply String.eqb_eq in Hi. apply bool_decide_eq_true in Hk. exists r. split; [reflexivity|].
  pose proof (key_is_one_job few profile same as_it_is same in_text job_text until_cancelled (λ _, true) (ask "d") (hex "2") (at_ 9) r Hl) as Hkey.
  cbv zeta in Hkey. destruct Hkey as [_ Hkey]. rewrite Hi in Hkey.
  assert (Hok : is_ok (active_record profile (ask "d") (hex "2") (at_ 9)) = true) by (vm_compute; reflexivity).
  exact (proj1 (Hkey Hr (conj Ho Hk) Hok)).
Defined.

Definition busy : list job_op := [start "1" "d" 1; Claim (hex "1") (at_ 2); ended "1" "completed" 3; start "2" "e" 4; start "3" "f" 5].

Lemma work_bounded_witness :
  legal_sample busy ∧ steady_run few profile same as_it_is same in_text job_text no_jobs busy
  ∧ count few in_text flying_active (run_sample busy) = 1%nat ∧ (count few in_text flying_active (run_sample busy) <= 2)%nat.
Proof.
  assert (Hl : legal_sample busy) by (repeat split; vm_compute; reflexivity).
  assert (Hst : steady_run few profile same as_it_is same in_text job_text no_jobs busy) by (repeat split; intros [=]).
  split; [exact Hl|]. split; [exact Hst|]. split; [vm_compute; reflexivity|].
  exact (proj1 (proj2 (proj2 (work_bounded few profile same as_it_is same in_text job_text busy Hl Hst)))).
Defined.

(** ** Work that was stopped

    [update] looks for "cancelled" only: what a worker writes of a job that is
    being cancelled, because its owner or a revocation asked for it, is written
    over the request, and the job completes. *)
Definition progress_of (t : Z) : job_op := Update (hex "1") "running" None None None (Some "normalizing") (at_ t).

Lemma revoked_work_completes :
  says "cancelling" (found [start "1" "d" 1; Claim (hex "1") (at_ 2); RevokeWork (hex "1") "local-admin" (hex "a") (at_ 3)] (hex "1")) = true
  ∧ says "completed" (found [start "1" "d" 1; Claim (hex "1") (at_ 2); RevokeWork (hex "1") "local-admin" (hex "a") (at_ 3);
                             progress_of 4; ended "1" "completed" 5] (hex "1")) = true.
Proof. split; vm_compute; reflexivity. Qed.

(** A job that was closed after a restart runs again. *)
Lemma closed_job_revived :
  says "failed" (found [start "1" "d" 1; Claim (hex "1") (at_ 2); Recover false true "application_restart" "" (at_ 3)] (hex "1")) = true
  ∧ says "running" (found [start "1" "d" 1; Claim (hex "1") (at_ 2); Recover false true "application_restart" "" (at_ 3); progress_of 4] (hex "1")) = true.
Proof. split; vm_compute; reflexivity. Qed.
