(* ===== verification/JobRetention.v ===== *)
(** * JobRetention: purging the jobs that have ended

    [purge_expired_terminal] of [JobStore] removes batch after batch while the
    index has one to give: it ends, and removes exactly the jobs it is for. *)

From S2P Require Import Prelude PyStr Grouping Sha256 BearerToken Identifiers SqlTable PyValue StampedIndex JobRecord JobIndex JobStore JobRuns JobSafety.
Local Open Scope Z_scope.

(** What retention is for: jobs that ended, not written since the cutoff. *)
Definition is_expired (cutoff : datetime) (owner : option string) (r : JobRecord) : bool :=
  mem (status_of r) terminal && (instant (job_updated_at (the_course r)) <=? instant cutoff)
  && from_option (λ o, JobIndex.is_of o r) true owner.

Section Retention.
Context (settings : job_settings) (integrity_text : integrity_input → option string) (record_json : JobRecord → string).

Abbreviation load := (_load_job_file (trusted_local settings) integrity_text).
Abbreviation digest := (active_job_record_digest record_json).
Abbreviation site_ok := (JobIndex.site_ok load digest).
Abbreviation jobs_at := (JobRuns.jobs_at settings integrity_text).
Abbreviation purge := (purge_expired_terminal settings integrity_text record_json).

Lemma expired_ok cutoff owner limit (s : site) :
  site_ok s → aware cutoff = true → from_option _GENERAL_OWNER true owner = true → (1 <= limit <= JOB_RETENTION_MAX_BATCH_SIZE)%nat →
  ∃ rs s', or_503 (expired_terminal_records load digest cutoff owner limit s) = (Ok rs, s') ∧ jobs_at s' = jobs_at s ∧ site_ok s'
    ∧ NoDup (id_of <$> rs) ∧ (∀ r, r ∈ rs → jobs_at s !! id_of r = Some r ∧ is_expired cutoff owner r = true)
    ∧ (rs = [] → ∀ i r, jobs_at s !! i = Some r → is_expired cutoff owner r = false).
Proof.
  intros Hs Hc Ho Hl. unfold expired_terminal_records. rewrite Hc, Ho. rewrite (proj2 (Nat.leb_le 1 limit)), (proj2 (Nat.leb_le limit _)) by lia. cbn [negb andb].
  set (f := λ (fs : gmap string content) (t : job_table), _). destruct (query_ok load digest f s Hs) as (s' & -> & Hf & Hs').
  destruct (sorted_rows_from load digest (files s.2) stalest_first (expired (instant cutoff) owner)) as [[Hnd Hrows] Hin]. unfold f.
  set (l := sorted_rows _ _ _) in *.
  assert (Hexp : ∀ i r, jobs_at s !! i = Some r → expired (instant cutoff) owner (the_row digest r) = is_expired cutoff owner r).
  { intros i r Hr. unfold expired, is_expired. destruct owner as [o|]; [|done]. cbn [from_option]. by rewrite (owned_row load digest _ i r o (proj2 Hs) Hr). }
  assert (Hfrom : rows_from load digest (files s.2) (take limit l)).
  { split; [rewrite fmap_take; apply (sublist_NoDup _ (fst <$> l)); [done|apply sublist_take]|]. intros i row Hi. apply Hrows. by apply elem_of_take in Hi as (n & Hn%list_elem_of_lookup_2 & _). }
  assert (Hsub : ∀ i r, (i, the_row digest r) ∈ take limit l → jobs_at s !! i = Some r → is_expired cutoff owner r = true).
  { intros i r Hi Hr. rewrite <- (Hexp i r Hr). apply (Hin i r Hr). by apply elem_of_take in Hi as (n & Hn%list_elem_of_lookup_2 & _). }
  match goal with |- context [traverse ?g (take limit l)] => set (one := g) end.
  assert (Ht : is_ok (traverse one (take limit l)) = true).
  { apply traverse_total. intros [i row] Hi. destruct (proj2 Hfrom i row Hi) as (r & Hr & ->). unfold one.
    rewrite (load_row_ok load digest _ _ i r (proj2 Hs) Hr). pose proof (Hsub i r Hi Hr) as He. unfold is_expired in He. apply andb_true_iff in He as [He1 He3].
    apply andb_true_iff in He1 as [He1 He2]. destruct (settled_job load (files s.2) i r (proj2 Hs) Hr) as (_ & _ & o & Hor & _).
    assert (row_owner (the_row digest r) = o) as -> by (cbn; by rewrite Hor). change (row_status (the_row digest r)) with (status_of r).
    change (row_updated (the_row digest r)) with (instant (job_updated_at (the_course r))).
    rewrite bool_decide_eq_true_2, String.eqb_refl, Z.eqb_refl, He1, He2 by done. by destruct owner as [ow|]; cbn [from_option] in *; [unfold JobIndex.is_of in He3; rewrite He3|]. }
  destruct (traverse one _) as [rs|] eqn:Hrs; [|done]. exists rs, s'. cbn [or_503]. split; [done|]. split; [unfold JobRuns.jobs_at; by rewrite Hf|]. split; [done|].
  destruct (loaded_rows load digest _ _ _ rs (proj2 Hs) Hfrom Hrs) as [Hnd' Hiff]. split; [done|]. split.
  - intros r [Hr Hi]%Hiff. split; [done|by apply (Hsub (id_of r))].
  - intros -> i r Hr. apply not_true_iff_false. intros He. rewrite <- (Hexp i r Hr) in He. apply (Hin i r Hr) in He.
    destruct l as [|kr l']; [by apply not_elem_of_nil in He|]. destruct limit; [lia|]. apply traverse_ok, Forall2_length in Hrs. by cbn in Hrs.
Qed.

Lemma candidate_ok cutoff owner before_delete (s : site) r :
  site_ok s → before_delete r = Ok tt → jobs_at s !! id_of r = Some r → is_expired cutoff owner r = true →
  ∃ s', purge_candidate settings integrity_text record_json cutoff owner before_delete r s = (Ok [r], s') ∧ site_ok s'
    ∧ jobs_at s' = delete (id_of r) (jobs_at s).
Proof.
  intros Hs Hb Hr He. unfold purge_candidate, _validate_identifier. rewrite Hb. cbn [after_step].
  destruct (storable_at settings integrity_text _ _ _ (proj2 Hs) Hr) as (_ & _ & ->). cbn [negb after_step].
  pose proof Hr as (c & Hc & Hl)%job_at. rewrite Hc, Hl. cbn [after_step]. rewrite String.eqb_refl. unfold is_expired in He.
  apply andb_true_iff in He as [[Ht Hu]%andb_true_iff Ho]. rewrite Ht.
  replace (from_option (λ o, negb (bool_decide (job_owner_id r = Some o))) false owner) with false
    by (destruct owner; cbn in *; [unfold JobIndex.is_of in Ho; by rewrite Ho|done]).
  replace (instant cutoff <? instant (job_updated_at (the_course r))) with false by (symmetry; apply Z.ltb_ge; by apply Z.leb_le). cbn [negb orb].
  unfold unlink_job. destruct (delete_job_ok load digest s r Hs) as (s' & -> & Hs' & Hf). cbn [after_step]. exists s'. split; [done|]. split; [done|].
  unfold JobRuns.jobs_at. by rewrite Hf, jobs_delete.
Qed.

(** The jobs but those that are named. *)
Definition without (rs : list JobRecord) (js : gmap string JobRecord) : gmap string JobRecord := filter (λ kr, kr.1 ∉ id_of <$> rs) js.

Lemma without_cons r rs js : without rs (delete (id_of r) js) = without (r :: rs) js.
Proof.
  apply map_eq. intros i. apply option_eq. intros x. unfold without. rewrite !map_lookup_filter_Some, lookup_delete_Some. cbn [fmap list_fmap].
  rewrite not_elem_of_cons. naive_solver.
Qed.

Lemma without_app rs rs' js : without rs' (without rs js) = without (rs ++ rs') js.
Proof.
  apply map_eq. intros i. apply option_eq. intros x. unfold without. rewrite !map_lookup_filter_Some, fmap_app. cbn. rewrite not_elem_of_app. naive_solver.
Qed.

Lemma batch_ok cutoff owner before_delete rs (s : site) :
  site_ok s → (∀ r, before_delete r = Ok tt) → NoDup (id_of <$> rs) →
  (∀ r, r ∈ rs → jobs_at s !! id_of r = Some r ∧ is_expired cutoff owner r = true) →
  ∃ s', purge_batch settings integrity_text record_json cutoff owner before_delete rs s = (Ok rs, s') ∧ site_ok s' ∧ jobs_at s' = without rs (jobs_at s).
Proof.
  intros Hs Hb. revert s Hs. induction rs as [|r rs IH]; intros s Hs Hnd Hin.
  { exists s. split; [done|]. split; [done|]. unfold without. symmetry. apply map_filter_id. intros i x _. by apply not_elem_of_nil. }
  cbn [fmap list_fmap] in Hnd. fold (fmap (M:=list) id_of) in Hnd. apply NoDup_cons in Hnd as [Hni Hnd]. destruct (Hin r) as [Hr He]; [left|].
  destruct (candidate_ok cutoff owner before_delete s r Hs (Hb r) Hr He) as (s1 & E1 & Hs1 & Hj1). cbn [purge_batch]. rewrite E1. cbn [after_step].
  destruct (IH s1 Hs1 Hnd) as (s2 & E2 & Hs2 & Hj2).
  { intros x Hx. destruct (Hin x) as [Hxj Hxe]; [by right|]. split; [|done]. rewrite Hj1, lookup_delete_ne; [done|]. intros E. apply Hni. rewrite E.
    by apply list_elem_of_fmap_2. }
  exists s2. rewrite E2. split; [done|]. split; [done|]. by rewrite Hj2, Hj1, without_cons.
Qed.

(** Fewer are left than before. *)
Lemma fewer cutoff owner r rs js :
  (∀ x, x ∈ r :: rs → js !! id_of x = Some x ∧ is_expired cutoff owner x = true) →
  (size (jobs_where (is_expired cutoff owner) (without (r :: rs) js)) < size (jobs_where (is_expired cutoff owner) js))%nat.
Proof.
  intros Hin. destruct (Hin r) as [Hr He]; [left|]. rewrite <- !size_dom. apply subset_size. split.
  - intros i. rewrite !elem_of_dom. intros [x [[Hx _]%map_lookup_filter_Some Hp]%map_lookup_filter_Some]. exists x. by apply map_lookup_filter_Some.
  - intros Hsub. assert (Hx : id_of r ∈ dom (jobs_where (is_expired cutoff owner) js)) by (apply elem_of_dom; exists r; by apply map_lookup_filter_Some).
    apply Hsub, elem_of_dom in Hx as [x [[_ Hx]%map_lookup_filter_Some _]%map_lookup_filter_Some]. apply Hx. left.
Qed.

End Retention.

Import Sample_jobs.

