(* ===== verification/NmapPolicy.v ===== *)
(** * NmapPolicy: which targets the Active nmap capability admits

    [backend/app/active_nmap_policy.py]: a request names up to three targets;
    each must be a private or loopback address or a local host name, and is
    returned in normal form. *)

From S2P Require Import Prelude PyStr IpAddress PyValue.
From Stdlib Require Import ZifyBool.

(** ** The policy's tables *)

(** backend/app/active_nmap_policy.py [ACTIVE_NMAP_BASIC_MAX_TARGETS] *)
Definition ACTIVE_NMAP_BASIC_MAX_TARGETS : nat := 3.
(** backend/app/active_nmap_policy.py [ACTIVE_NMAP_BASIC_MAX_TARGET_LENGTH] *)
Definition ACTIVE_NMAP_BASIC_MAX_TARGET_LENGTH : nat := 253.
(** backend/app/active_nmap_policy.py [ACTIVE_NMAP_BASIC_LOCAL_HOSTNAME_SUFFIXES] *)
Definition ACTIVE_NMAP_BASIC_LOCAL_HOSTNAME_SUFFIXES : list string :=
  [".local"; ".localhost"; ".lan"; ".home"; ".internal"; ".private"; ".test"; ".example"; ".invalid"].
(** backend/app/active_nmap_policy.py [_ALLOWED_IPV4_NETWORKS] *)
Definition _ALLOWED_IPV4_NETWORKS : list network :=
  omap ip_network ["10.0.0.0/8"; "172.16.0.0/12"; "192.168.0.0/16"; "127.0.0.0/8"].
(** backend/app/active_nmap_policy.py [_ALLOWED_IPV6_NETWORKS] *)
Definition _ALLOWED_IPV6_NETWORKS : list network := omap ip_network ["::1/128"; "fc00::/7"].
(** backend/app/active_nmap_policy.py [_BLOCKED_IP_NETWORKS] *)
Definition _BLOCKED_IP_NETWORKS : list network :=
  omap ip_network ["0.0.0.0/8"; "100.64.0.0/10"; "169.254.0.0/16"; "192.0.0.0/24"; "192.0.2.0/24";
    "198.18.0.0/15"; "198.51.100.0/24"; "203.0.113.0/24"; "224.0.0.0/4"; "240.0.0.0/4";
    "255.255.255.255/32"; "::/128"; "64:ff9b::/96"; "2001:db8::/32"; "fe80::/10"; "ff00::/8"].
(** backend/app/active_nmap_policy.py [_BLOCKED_HOSTNAMES] *)
Definition _BLOCKED_HOSTNAMES : list string :=
  ["metadata"; "metadata.google.internal"; "169.254.169.254"; "169.254.170.2"; "kubernetes.default";
   "kubernetes.default.svc"; "kubernetes.default.svc.cluster.local"].
(** backend/app/active_nmap_policy.py [_BLOCKED_HOSTNAME_FRAGMENTS] *)
Definition _BLOCKED_HOSTNAME_FRAGMENTS : list string := ["metadata"].
(** backend/app/active_nmap_policy.py [_DISALLOWED_TARGET_MARKERS] *)
Definition _DISALLOWED_TARGET_MARKERS : list string := ["*"; "/"; "\"; ","; "@"; "?"; "#"; "["; "]"].
(** backend/app/active_nmap_policy.py [_DISALLOWED_SCHEME_MARKERS] *)
Definition _DISALLOWED_SCHEME_MARKERS : list string := ["://"; "file:"; "http:"; "https:"].

(** Every literal is a network. *)
Example network_tables :
  (length _ALLOWED_IPV4_NETWORKS, length _ALLOWED_IPV6_NETWORKS, length _BLOCKED_IP_NETWORKS) = (4, 2, 16).
Proof. reflexivity. Qed.

(** ** The textual tests *)

(** backend/app/active_nmap_policy.py [_looks_like_dash_range] *)
Definition _looks_like_dash_range (value : string) : bool :=
  match rpartition "-" value with
  | None => false
  | Some (head, tail) =>
      truthy head && (truthy tail && all_chars is_digit_char tail) && any_char is_digit_char head
  end.

(** backend/app/active_nmap_policy.py [_looks_like_port_suffix] *)
Definition _looks_like_port_suffix (value : string) : bool :=
  if negb (count_char ":" value =? 1)%nat then false else
  match rpartition ":" value with
  | None => false
  | Some (host, port) => truthy host && (truthy port && all_chars is_digit_char port)
  end.

(** backend/app/active_nmap_policy.py [_is_valid_hostname] *)
Definition _is_valid_hostname (value : string) : bool :=
  all_of (λ label,
    if negb (truthy label) || (63 <? len label)%nat then false else
    if startswith "-" label || endswith "-" label then false else
    all_chars (λ c, is_alnum c || is_char "-" c) label)
  (split_on "." value).

(** ** One target *)

(** backend/app/active_nmap_policy.py [_normalize_hostname_target] *)
Definition _normalize_hostname_target (value : string) : outcome string :=
  raise "target_port_not_allowed" when contains ":" value;;
  raise "target_ambiguous" when endswith "." value || startswith "." value || contains ".." value;;
  raise "target_non_ascii" when negb (all_chars (between 0 127) value);;
  let normalized := lower value in
  raise "target_too_long" when (ACTIVE_NMAP_BASIC_MAX_TARGET_LENGTH <? len normalized)%nat;;
  raise "target_control_plane_blocked" when
    mem normalized _BLOCKED_HOSTNAMES || any_of (λ fragment, contains fragment normalized) _BLOCKED_HOSTNAME_FRAGMENTS;;
  raise "target_invalid_hostname" when negb (_is_valid_hostname normalized);;
  raise "target_not_local_private" when
    contains "." normalized
    && negb (any_of (λ suffix, endswith suffix normalized) ACTIVE_NMAP_BASIC_LOCAL_HOSTNAME_SUFFIXES);;
  Ok normalized.

(** backend/app/active_nmap_policy.py [_normalize_ip_target] *)
Definition _normalize_ip_target (parsed_ip : ip) : outcome string :=
  raise "target_special_purpose_blocked" when any_of (in_network parsed_ip) _BLOCKED_IP_NETWORKS;;
  raise "target_broadcast_or_network_like" when
    (ip_version parsed_ip =? 4)%N
    && (endswith ".0" (compressed parsed_ip) || endswith ".255" (compressed parsed_ip));;
  let allowed_networks :=
    if (ip_version parsed_ip =? 4)%N then _ALLOWED_IPV4_NETWORKS else _ALLOWED_IPV6_NETWORKS in
  raise "target_not_local_private" when negb (any_of (in_network parsed_ip) allowed_networks);;
  Ok (lower (compressed parsed_ip)).

(** backend/app/active_nmap_policy.py [_normalize_single_target] *)
Definition _normalize_single_target (target : value) : outcome string :=
  match target with
  | VStr target =>
      let value := strip target in
      raise "target_empty" when negb (truthy value);;
      raise "target_ambiguous" when negb (String.eqb value target);;
      raise "target_too_long" when (ACTIVE_NMAP_BASIC_MAX_TARGET_LENGTH <? len value)%nat;;
      raise "target_list_in_string" when any_char is_space value;;
      raise "target_unsupported_syntax" when any_of (λ marker, contains marker value) _DISALLOWED_TARGET_MARKERS;;
      raise "target_url_not_allowed" when any_of (λ marker, startswith marker (lower value)) _DISALLOWED_SCHEME_MARKERS;;
      raise "target_range_not_allowed" when _looks_like_dash_range value;;
      raise "target_port_not_allowed" when _looks_like_port_suffix value;;
      match ip_address value with
      | None => _normalize_hostname_target value
      | Some parsed_ip => _normalize_ip_target parsed_ip
      end
  | _ => Err "target_not_string"
  end.

(** ** The targets of a request *)

(** backend/app/active_nmap_policy.py [ActiveNmapTargetPolicyResult] *)
Record ActiveNmapTargetPolicyResult : Type := PolicyResult { normalized_targets : list string }.
(** backend/app/active_nmap_policy.py [target_count] *)
Definition policy_target_count (r : ActiveNmapTargetPolicyResult) : nat := length (normalized_targets r).

(** backend/app/active_nmap_policy.py [validate_active_nmap_basic_targets] *)
Definition validate_active_nmap_basic_targets (targets : value) : outcome ActiveNmapTargetPolicyResult :=
  match targets with
  | VList targets =>
      raise "targets_not_list" when (length targets =? 0)%nat;;
      raise "too_many_targets" when (ACTIVE_NMAP_BASIC_MAX_TARGETS <? length targets)%nat;;
      normalized ← traverse _normalize_single_target targets;
      raise "duplicate_targets" when negb (length (remove_dups normalized) =? length normalized)%nat;;
      Ok (PolicyResult normalized)
  | _ => Err "targets_not_list"
  end.

Example targets_normalized :
  validate_active_nmap_basic_targets (VList [VStr "10.1.2.3"; VStr "FD00:0:0:0::00A1"; VStr "Printer.LAN"])
  = Ok (PolicyResult ["10.1.2.3"; "fd00::a1"; "printer.lan"]).
Proof. reflexivity. Qed.
Example targets_refused :
  map (λ s, _normalize_single_target (VStr s))
    ["10.0.0.0/8"; "10.0.0.1-9"; "nas.lan:80"; "8.8.8.8"; "10.0.0.255"; "169.254.169.254"; "fe80::1"; "Metadata"; "corp.com"; "a..lan"; " nas"; "nas "; "http:x"; "-nas.lan"]
  = map Err ["target_unsupported_syntax"; "target_range_not_allowed"; "target_port_not_allowed"; "target_not_local_private";
     "target_broadcast_or_network_like"; "target_special_purpose_blocked"; "target_special_purpose_blocked";
     "target_control_plane_blocked"; "target_not_local_private"; "target_ambiguous"; "target_ambiguous"; "target_ambiguous";
     "target_url_not_allowed"; "target_invalid_hostname"].
Proof. reflexivity. Qed.

(** ** Private addresses

    What the address tables amount to: the RFC 1918 blocks and the loopback
    block, without addresses ending in 0 or 255; the unique-local block
    [fc00::/7] and [::1]. *)
Definition private_address (a : ip) : bool :=
  match a with
  | V4 [a; b; c; d] =>
      ((a =? 10) || (a =? 127) || ((a =? 172) && (16 <=? b) && (b <=? 31)) || ((a =? 192) && (b =? 168)))%N
      && negb (d =? 0)%N && negb (d =? 255)%N
  | V6 [a; b; c; d; e; f; g; h] _ =>
      ((64512 <=? a) && (a <=? 65023))%N
      || ((a =? 0) && (b =? 0) && (c =? 0) && (d =? 0) && (e =? 0) && (f =? 0) && (g =? 0) && (h =? 1))%N
  | _ => false
  end.

Lemma v4_last_octet a b c d :
  octets_ok [a; b; c; d] →
  endswith ".0" (compressed (V4 [a; b; c; d])) = (d =? 0)%N
  ∧ endswith ".255" (compressed (V4 [a; b; c; d])) = (d =? 255)%N.
Proof.
  intros [_ Ho].
  assert (Hd : (d <= 255)%N) by (rewrite !Forall_cons in Ho; tauto).
  assert (Hs : all_chars (λ c, negb (is_char "." c)) (str_of_N d) = true).
  { eapply all_chars_impl; [|apply str_of_N_digits]. apply every_char'. vm_compute. reflexivity. }
  assert (Hnum : (String.eqb (str_of_N d) "0" = (d =? 0)%N) ∧ (String.eqb (str_of_N d) "255" = (d =? 255)%N)).
  { assert (H : eqb (String.eqb (str_of_N d) "0") (d =? 0)%N && eqb (String.eqb (str_of_N d) "255") (d =? 255)%N = true).
    { revert Hd. intros Hd. apply (every_bits 8 (λ d, eqb (String.eqb (str_of_N d) "0") (d =? 0)%N
        && eqb (String.eqb (str_of_N d) "255") (d =? 255)%N)); [vm_compute; reflexivity|cbn; lia]. }
    apply andb_true_iff in H as [H1%eqb_prop H2%eqb_prop]. done. }
  assert (Hjoin : compressed (V4 [a; b; c; d])
      = ((str_of_N a ++ "." ++ str_of_N b ++ "." ++ str_of_N c) ++ String "." (str_of_N d))%string).
  { apply chars_inj. unfold compressed, join. cbn [fmap list_fmap String.concat].
    rewrite !chars_app. change (String "." (str_of_N d)) with ("." ++ str_of_N d)%string.
    by rewrite chars_app, <- !app_assoc. }
  rewrite Hjoin. rewrite !endswith_last_part by done. exact Hnum.
Qed.

Lemma blocked_tables_ok :
  forallb network_ok (_BLOCKED_IP_NETWORKS ++ _ALLOWED_IPV4_NETWORKS ++ _ALLOWED_IPV6_NETWORKS) = true.
Proof. vm_compute. reflexivity. Qed.

Lemma v4_tables os :
  octets_ok os → let a := V4 os in
  negb (any_of (in_interval a) _BLOCKED_IP_NETWORKS) && any_of (in_interval a) _ALLOWED_IPV4_NETWORKS
  = match os with
    | a :: b :: _ => ((a =? 10) || (a =? 127) || ((a =? 172) && (16 <=? b) && (b <=? 31)) || ((a =? 192) && (b =? 168)))%N
    | _ => false
    end.
Proof.
  intros [Hl Ho]. destruct os as [|a [|b [|c [|d []]]]]; try done.
  repeat (apply Forall_cons in Ho as [? Ho]). cbv zeta. rewrite !any_within.
  assert (Hx : ip_int (V4 [a; b; c; d]) = (16777216 * a + 65536 * b + 256 * c + d)%N) by (cbn -[N.mul N.add]; lia).
  rewrite Hx. set (x := (16777216 * a + 65536 * b + 256 * c + d)%N).
  let l := eval vm_compute in (bounds <$> _BLOCKED_IP_NETWORKS) in
    replace (bounds <$> _BLOCKED_IP_NETWORKS) with l by (vm_compute; reflexivity).
  let l := eval vm_compute in (bounds <$> _ALLOWED_IPV4_NETWORKS) in
    replace (bounds <$> _ALLOWED_IPV4_NETWORKS) with l by (vm_compute; reflexivity).
  cbn -[N.leb N.ltb x]. lia.
Qed.

Lemma v6_tables gs sc :
  groups_ok gs → let a := V6 gs sc in
  negb (any_of (in_interval a) _BLOCKED_IP_NETWORKS) && any_of (in_interval a) _ALLOWED_IPV6_NETWORKS
  = private_address a.
Proof.
  intros [Hl Ho]. destruct gs as [|a [|b [|c [|d [|e [|f [|g [|h []]]]]]]]]; try done.
  repeat (apply Forall_cons in Ho as [? Ho]). unfold group_ok in *. cbv zeta. rewrite !any_within.
  set (y := (65536 * (65536 * (65536 * (65536 * (65536 * (65536 * b + c) + d) + e) + f) + g) + h)%N).
  assert (Hx : ip_int (V6 [a; b; c; d; e; f; g; h] sc) = (5192296858534827628530496329220096 * a + y)%N)
    by (unfold y; cbn -[N.mul N.add]; lia).
  rewrite Hx. set (x := (5192296858534827628530496329220096 * a + y)%N).
  let l := eval vm_compute in (bounds <$> _BLOCKED_IP_NETWORKS) in
    replace (bounds <$> _BLOCKED_IP_NETWORKS) with l by (vm_compute; reflexivity).
  let l := eval vm_compute in (bounds <$> _ALLOWED_IPV6_NETWORKS) in
    replace (bounds <$> _ALLOWED_IPV6_NETWORKS) with l by (vm_compute; reflexivity).
  assert (Hy : (y < 5192296858534827628530496329220096)%N) by (unfold y; lia).
  assert (Hy1 : (y =? 1)%N = ((b =? 0) && (c =? 0) && (d =? 0) && (e =? 0) && (f =? 0) && (g =? 0) && (h =? 1))%N)
    by (unfold y; lia).
  transitivity (((64512 <=? a) && (a <=? 65023) || ((a =? 0) && (y =? 1)))%N);
    [|unfold private_address; rewrite Hy1; by destruct (a =? 0)%N].
  clearbody y. cbn -[N.leb N.ltb x]. unfold x. lia.
Qed.

(** The address tables and the last-octet test admit the private addresses
    and no others. *)
Lemma normalize_ip_private a :
  ip_ok a → is_ok (_normalize_ip_target a) = private_address a
            ∧ ∀ n, _normalize_ip_target a = Ok n → n = lower (compressed a).
Proof.
  intros Ha. pose proof blocked_tables_ok as Ht. rewrite !forallb_app, !andb_true_iff in Ht.
  destruct Ht as (HB & H4 & H6). unfold _normalize_ip_target.
  rewrite (any_in_network a _BLOCKED_IP_NETWORKS HB Ha).
  replace (any_of (in_network a) (if (ip_version a =? 4)%N then _ALLOWED_IPV4_NETWORKS else _ALLOWED_IPV6_NETWORKS))
    with (any_of (in_interval a) (if (ip_version a =? 4)%N then _ALLOWED_IPV4_NETWORKS else _ALLOWED_IPV6_NETWORKS)).
  2: { symmetry. destruct a; [exact (any_in_network _ _ H4 Ha)|exact (any_in_network _ _ H6 Ha)]. }
  clear HB H4 H6.
  split; [|intros n E; by inv_ok E].
  destruct a as [os|gs sc].
  - pose proof (v4_tables os Ha) as Ht. cbv zeta in Ht.
    destruct os as [|a [|b [|c [|d []]]]]; try (by destruct Ha).
    destruct (v4_last_octet a b c d Ha) as [-> ->]. cbn [ip_version N.eqb Pos.eqb andb].
    unfold private_address. rewrite <- Ht.
    destruct (any_of _ _BLOCKED_IP_NETWORKS), (any_of _ _ALLOWED_IPV4_NETWORKS), (d =? 0)%N, (d =? 255)%N; done.
  - pose proof (v6_tables gs sc Ha) as Ht. cbv zeta in Ht. rewrite <- Ht. cbn [ip_version N.eqb Pos.eqb andb].
    destruct (any_of _ _BLOCKED_IP_NETWORKS), (any_of _ _ALLOWED_IPV6_NETWORKS); done.
Qed.

(** ** Local host names *)

Definition is_host_char (c : ascii) : bool := is_lower_az c || is_digit c || is_char "-" c.

Definition host_label (l : string) : bool :=
  truthy l && (len l <=? 63)%nat && all_chars is_host_char l && negb (startswith "-" l) && negb (endswith "-" l).

(** Lower-case labels; a dotted name ends in one of the local suffixes. *)
Definition local_hostname (n : string) : bool :=
  all_of host_label (split_on "." n) && negb (contains "metadata" n)
  && (negb (contains "." n) || any_of (λ x, endswith x n) ACTIVE_NMAP_BASIC_LOCAL_HOSTNAME_SUFFIXES).

(** A lower-case ASCII character. *)
Definition is_folded (c : ascii) : bool := between 0 127 c && negb (is_upper_az c).

Lemma lower_folded s : all_chars (between 0 127) s = true → all_chars is_folded (lower s) = true.
Proof. apply all_chars_lower. apply every_char. vm_compute. reflexivity. Qed.

Lemma valid_hostname_labels n :
  all_chars is_folded n = true → _is_valid_hostname n = all_of host_label (split_on "." n).
Proof.
  intros Hn. unfold _is_valid_hostname, all_of. apply eq_bool_prop_intro. rewrite !Is_true_true, !forallb_forall.
  enough (H : ∀ l, In l (split_on "." n) →
    (if negb (truthy l) || (63 <? len l)%nat then false
     else if startswith "-" l || endswith "-" l then false else all_chars (λ c, is_alnum c || is_char "-" c) l)
    = host_label l).
  { split; intros Hl l Hin; specialize (Hl l Hin); cbn beta in Hl |- *; by rewrite H in Hl || rewrite H. }
  intros l Hl%list_elem_of_In. apply (split_on_chars _ _ _ _ Hn) in Hl.
  unfold host_label. destruct (truthy l); [|done]. cbn [negb orb andb].
  destruct (Nat.ltb_spec 63 (len l)), (Nat.leb_spec (len l) 63); try lia.
  cbn [andb]. destruct (startswith "-" l), (endswith "-" l); cbn [orb negb]; rewrite ?andb_false_r; try done.
  rewrite !andb_true_r. unfold all_chars in *. apply eq_bool_prop_intro.
  rewrite !Is_true_true, !forallb_forall in *. split; intros H' c Hc; specialize (H' c Hc); specialize (Hl c Hc).
  - assert (Hall : ∀ c, implb ((is_alnum c || is_char "-" c) && (is_folded c && negb (is_char "." c))) (is_host_char c) = true)
      by (apply every_char; vm_compute; reflexivity).
    specialize (Hall c). by rewrite H', Hl in Hall.
  - clear Hc Hl; revert c H'. apply every_char'. vm_compute. reflexivity.
Qed.

Lemma normalize_hostname_ok s n :
  _normalize_hostname_target s = Ok n → local_hostname n = true ∧ n = lower s ∧ all_chars (between 0 127) s = true.
Proof.
  intros H. unfold _normalize_hostname_target in H. inv_ok H. to_prop.
  split; [|done]. unfold local_hostname. rewrite <- valid_hostname_labels by by apply lower_folded.
  match goal with H : _is_valid_hostname _ = true |- _ => rewrite H end. cbn [andb].
  match goal with H : any_of _ _BLOCKED_HOSTNAME_FRAGMENTS = false |- _ => cbn in H; to_prop end.
  apply andb_true_iff. split; [by apply negb_true_iff|].
  match goal with H : _ && _ = false |- _ => revert H end.
  destruct (contains "." (lower s)); [|done]. by intros Hs%negb_false_iff.
Qed.

(** Only private targets pass the policy.  An accepted value is a text;
    if it reads as an address, that address is in [10/8], [172.16/12],
    [192.168/16] or [127/8] with a last octet other than 0 and 255, or is
    [::1] or in [fc00::/7], and the result is its compressed text; otherwise
    the result is the lower-case text, a host name of well-formed labels
    that has no dot or a local suffix and does not mention "metadata". *)
Theorem accepted_target_is_private v n :
  _normalize_single_target v = Ok n →
  ∃ s, v = VStr s ∧
    match ip_address s with
    | Some a => private_address a = true ∧ n = lower (compressed a)
    | None => local_hostname n = true ∧ n = lower s
    end.
Proof.
  destruct v as [| | | |s| |]; try done. intros H. exists s. split; [done|].
  unfold _normalize_single_target in H. inv_ok H. to_prop.
  match goal with E : strip s = s |- _ => rewrite E in H end.
  destruct (ip_address s) as [a|] eqn:Ea.
  - destruct (normalize_ip_private a (ip_address_ok _ _ Ea)) as [Hp Hn]. split; [|by apply Hn].
    rewrite <- Hp. by rewrite H.
  - by destruct (normalize_hostname_ok _ _ H) as (? & ? & _).
Qed.

Lemma accepted_target_is_private_witness : local_hostname "printer.lan" = true.
Proof.
  destruct (accepted_target_is_private (VStr "Printer.LAN") "printer.lan" ltac:(vm_compute; reflexivity)) as (s & E & H).
  injection E as <-. exact (proj1 H).
Defined.

(** ** Normal forms *)

(** The textual tests see nothing in the text of an address. *)
Lemma address_text_tests (s : string) :
  all_chars ip_char s = true →
  strip s = s ∧ any_char is_space s = false
  ∧ any_of (λ marker, contains marker s) _DISALLOWED_TARGET_MARKERS = false
  ∧ any_of (λ marker, startswith marker (lower s)) _DISALLOWED_SCHEME_MARKERS = false
  ∧ _looks_like_dash_range s = false ∧ lower s = s.
Proof.
  intros Hs.
  assert (Hl : lower s = s) by (eapply lower_fixed; [|exact Hs]; apply every_char; vm_compute; reflexivity).
  assert (Hsp : all_chars (λ c, negb (is_space c)) s = true)
    by (eapply all_chars_impl; [|exact Hs]; apply every_char'; vm_compute; reflexivity).
  split; [by apply strip_no_space|]. split; [by apply any_char_false|]. rewrite Hl. repeat split.
  - apply any_of_false. intros m Hm. apply (contains_outside _ _ _ Hs).
    repeat (apply elem_of_cons in Hm as [->|Hm]; [reflexivity|]). by apply elem_of_nil in Hm.
  - apply any_of_false. intros m Hm. apply (startswith_outside _ _ _ Hs).
    repeat (apply elem_of_cons in Hm as [->|Hm]; [reflexivity|]). by apply elem_of_nil in Hm.
  - unfold _looks_like_dash_range. rewrite rpartition_none; [done|].
    eapply all_chars_impl; [|exact Hs]. apply every_char'. vm_compute. reflexivity.
Qed.

Lemma canonical_address_normal a :
  ip_ok a → unscoped a = true → _normalize_single_target (VStr (compressed a)) = _normalize_ip_target a.
Proof.
  intros Ha Hu. pose proof (ip_address_compressed a Ha Hu) as Hip.
  pose proof (compressed_len a Ha Hu) as Hlen. pose proof (compressed_colons a Ha Hu) as Hcol.
  destruct (address_text_tests _ (compressed_chars a Ha Hu)) as (E1 & E2 & E3 & E4 & E5 & E6).
  unfold _normalize_single_target. rewrite E1, E2, E3, E4, E5, String.eqb_refl, Hip.
  assert (Ht : truthy (compressed a) = true) by (destruct (compressed a); [discriminate Hip|reflexivity]).
  rewrite Ht. cbn [negb].
  destruct (Nat.ltb_spec ACTIVE_NMAP_BASIC_MAX_TARGET_LENGTH (len (compressed a)));
    [unfold ACTIVE_NMAP_BASIC_MAX_TARGET_LENGTH in *; lia|].
  unfold _looks_like_port_suffix. destruct (Nat.eqb_spec (count_char ":" (compressed a)) 1); [lia|done].
Qed.

Lemma canonical_private_accepted a :
  ip_ok a → unscoped a = true → private_address a = true →
  _normalize_single_target (VStr (compressed a)) = Ok (compressed a).
Proof.
  intros Ha Hu Hpriv. rewrite canonical_address_normal by done.
  destruct (normalize_ip_private a Ha) as [Hp Hn]. rewrite Hpriv in Hp.
  destruct (_normalize_ip_target a) as [n|]; [|done]. rewrite (Hn n eq_refl). f_equal.
  apply (address_text_tests _ (compressed_chars a Ha Hu)).
Qed.

(** An address written in its canonical text is decided by the address
    alone: a private one is returned unchanged, any other is refused. *)
Theorem canonical_address_decided a :
  ip_ok a → unscoped a = true →
  if private_address a then _normalize_single_target (VStr (compressed a)) = Ok (compressed a)
  else is_ok (_normalize_single_target (VStr (compressed a))) = false.
Proof.
  intros Ha Hu. destruct (private_address a) eqn:Hp; [by apply canonical_private_accepted|].
  rewrite canonical_address_normal by done. by rewrite <- Hp, (proj1 (normalize_ip_private a Ha)).
Qed.

Lemma canonical_address_decided_witness :
  _normalize_single_target (VStr "172.31.4.9") = Ok "172.31.4.9".
Proof.
  assert (H : octets_ok [172; 31; 4; 9]%N) by (split; [done|repeat constructor; cbn; lia]).
  exact (canonical_address_decided (V4 [172; 31; 4; 9]%N) H eq_refl).
Defined.

(** A host name's characters. *)
Definition host_text (c : ascii) : bool := is_host_char c || is_char "." c.

Lemma local_hostname_chars n : local_hostname n = true → all_chars host_text n = true.
Proof.
  unfold local_hostname. intros H. to_prop. unfold host_text. apply split_on_all_chars. intros l Hl.
  match goal with H : all_of host_label _ = true |- _ => rewrite all_of_true in H; specialize (H l Hl) end.
  unfold host_label in *. to_prop. done.
Qed.

Lemma parse_v4_lower s os : parse_v4 (lower s) = Some os → lower s = s.
Proof.
  intros H. assert (Hd : all_chars (λ c, is_digit c || is_char "." c) (lower s) = true).
  { apply split_on_all_chars. intros w Hw. unfold parse_v4 in H.
    destruct (split_on "." (lower s)) as [|a [|b [|c [|d []]]]]; try done.
    apply mapM_Some_1 in H. destruct (list_elem_of_lookup_1 _ _ Hw) as [i Hi].
    destruct (Forall2_lookup_l _ _ _ _ _ H Hi) as (o & _ & Ho). unfold parse_octet in Ho.
    destruct (all_chars is_digit w); [done|]. by rewrite andb_false_r in Ho. }
  eapply lower_fixed; [|].
  2: { rewrite (proj1 (chars_forallb_lower (λ c, is_digit c || is_char "." c) s
         ltac:(apply every_char; vm_compute; reflexivity))) in Hd. exact Hd. }
  apply every_char. vm_compute. reflexivity.
Qed.

Lemma ip_address_lower_host s :
  ip_address s = None → all_chars host_text (lower s) = true → ip_address (lower s) = None.
Proof.
  intros Hs Hh. unfold ip_address. destruct (parse_v4 (lower s)) as [os|] eqn:E.
  - pose proof (parse_v4_lower _ _ E) as Hl. rewrite Hl in E. unfold ip_address in Hs. by rewrite E in Hs.
  - assert (Hc : ∀ d, host_text d = false → all_chars (λ c, negb (is_char d c)) (lower s) = true).
    { intros d Hd. eapply all_chars_impl; [|exact Hh]. intros c Hc. apply negb_true_iff.
      unfold is_char. destruct (Ascii.eqb_spec d c) as [->|]; [congruence|done]. }
    unfold parse_v6. destruct (contains "/" (lower s)); [done|]. unfold split_scope.
    rewrite partition_none by by apply Hc. unfold parse_groups, split_on.
    rewrite split_chars_no_sep; [done|]. specialize (Hc ":"%char eq_refl). apply all_chars_Forall in Hc.
    eapply Forall_impl; [exact Hc|]. intros c. apply negb_true_iff.
Qed.

Lemma dash_range_lower s : _looks_like_dash_range (lower s) = _looks_like_dash_range s.
Proof.
  unfold _looks_like_dash_range. rewrite rpartition_lower by (vm_compute; reflexivity).
  destruct (rpartition "-" s) as [[h t]|]; [|done]. cbn [fmap option_fmap option_map fst snd].
  rewrite !truthy_lower.
  rewrite (proj1 (chars_forallb_lower is_digit_char t ltac:(apply every_char; vm_compute; reflexivity))).
  by rewrite (proj2 (chars_forallb_lower is_digit_char h ltac:(apply every_char; vm_compute; reflexivity))).
Qed.

Lemma normal_hostname_stable s n :
  _normalize_hostname_target s = Ok n → _normalize_hostname_target n = Ok n.
Proof.
  intros H. destruct (normalize_hostname_ok _ _ H) as (_ & -> & Ha). revert H.
  unfold _normalize_hostname_target. rewrite lower_lower, !contains_lower, startswith_lower, endswith_lower by (vm_compute; reflexivity).
  destruct (contains ":" s); [done|]. destruct (_ || _ || _); [done|]. rewrite Ha.
  assert (Hl : all_chars (between 0 127) (lower s) = true)
    by (eapply all_chars_impl; [|by apply lower_folded]; apply every_char'; vm_compute; reflexivity).
  rewrite Hl. done.
Qed.

Lemma unscoped_text a : contains "%" (lower (compressed a)) = false → unscoped a = true.
Proof.
  rewrite contains_lower by (vm_compute; reflexivity). destruct a as [|gs [sc|]]; [done| |done].
  unfold compressed. rewrite contains_char. unfold any_char. by rewrite !chars_app, !existsb_app, orb_true_r.
Qed.

(** A normal form is its own normal form, but for a scoped address (see
    [scoped_normal_form_refused]). *)
Lemma normal_form_stable v n :
  _normalize_single_target v = Ok n → contains "%" n = false → _normalize_single_target (VStr n) = Ok n.
Proof.
  destruct v as [| | | |s| |]; try done. intros H Hsc. unfold _normalize_single_target in H. inv_ok H. to_prop.
  match goal with E : strip s = s |- _ => rewrite E in * end.
  destruct (ip_address s) as [a|] eqn:Ea.
  - pose proof (ip_address_ok _ _ Ea) as Ha. destruct (normalize_ip_private a Ha) as [Hp Hn].
    specialize (Hn n H) as ->. pose proof (unscoped_text a Hsc) as Hu.
    pose proof (address_text_tests _ (compressed_chars a Ha Hu)) as (_ & _ & _ & _ & _ & El).
    rewrite El. apply canonical_private_accepted; [done|done|]. by rewrite <- Hp, H.
  - destruct (normalize_hostname_ok _ _ H) as (Hl & -> & Hasc).
    pose proof (local_hostname_chars _ Hl) as Hch.
    assert (Hip : ip_address (lower s) = None) by by apply ip_address_lower_host.
    assert (Hsp : all_chars (λ c, negb (is_space c)) (lower s) = true)
      by (eapply all_chars_impl; [|exact Hch]; apply every_char'; vm_compute; reflexivity).
    unfold _normalize_single_target. rewrite (strip_no_space _ Hsp), String.eqb_refl, truthy_lower, len_lower, lower_lower.
    rewrite (proj2 (any_char_false _ _) Hsp), dash_range_lower, Hip.
    repeat match goal with E : ?b = _ |- context [if ?b then _ else _] => rewrite E end.
    replace (any_of (λ marker, contains marker (lower s)) _DISALLOWED_TARGET_MARKERS) with false.
    2: { symmetry. apply any_of_false. intros m Hm. apply (contains_outside _ _ _ Hch).
      repeat (apply elem_of_cons in Hm as [->|Hm]; [reflexivity|]). by apply elem_of_nil in Hm. }
    match goal with E : truthy s = true |- _ => rewrite E end.
    match goal with E : len s ≤ _ |- _ => apply Nat.ltb_ge in E; rewrite E end.
    cbn [negb]. unfold _looks_like_port_suffix. rewrite count_char_none.
    + cbn. by eapply normal_hostname_stable.
    + eapply all_chars_impl; [|exact Hch]. apply every_char'. vm_compute. reflexivity.
Qed.

(** The text after a [%] is not checked: the normal form of a scoped address
    can be one the policy refuses. *)
Lemma scoped_normal_form_refused :
  _normalize_single_target (VStr "fdaa::a:b:c:d:e:f%x-1") = Ok "fdaa:0:a:b:c:d:e:f%x-1"
  ∧ _normalize_single_target (VStr "fdaa:0:a:b:c:d:e:f%x-1") = Err "target_range_not_allowed".
Proof. vm_compute. done. Qed.
