(* ===== verification/NmapHandoff.v ===== *)
(** * NmapHandoff: the plan an Active nmap request hands off

    [backend/app/active_nmap_handoff.py]: a request payload becomes a plan of
    at most three units, one per target, all with the same ports. *)

From S2P Require Import Prelude PyStr IpAddress PyValue NmapPolicy.

(** backend/app/active_nmap_handoff.py [ACTIVE_NMAP_BASIC_MODE] *)
Definition ACTIVE_NMAP_BASIC_MODE : string := "live_nmap_basic".
(** backend/app/active_nmap_handoff.py [ACTIVE_NMAP_BASIC_PROFILE] *)
Definition ACTIVE_NMAP_BASIC_PROFILE : string := "tcp_connect_small".
(** backend/app/active_nmap_handoff.py [ACTIVE_NMAP_BASIC_MAX_PORTS_PER_TARGET] *)
Definition ACTIVE_NMAP_BASIC_MAX_PORTS_PER_TARGET : nat := 32.
(** backend/app/active_nmap_handoff.py [ACTIVE_NMAP_BASIC_MAX_TOTAL_TARGET_PORT_CHECKS] *)
Definition ACTIVE_NMAP_BASIC_MAX_TOTAL_TARGET_PORT_CHECKS : nat := 96.
(** backend/app/active_nmap_handoff.py [ACTIVE_NMAP_BASIC_CONFIRMATION_FIELDS] *)
Definition ACTIVE_NMAP_BASIC_CONFIRMATION_FIELDS : list string :=
  ["authorization_confirmed"; "local_private_scope_confirmed"; "live_traffic_confirmed"].
(** backend/app/active_nmap_handoff.py [ACTIVE_NMAP_BASIC_HANDOFF_ALLOWED_FIELDS] *)
Definition ACTIVE_NMAP_BASIC_HANDOFF_ALLOWED_FIELDS : list string :=
  ["mode"; "profile"; "targets"; "ports"; "authorization_confirmed"; "local_private_scope_confirmed";
   "live_traffic_confirmed"].

(** backend/app/active_nmap_handoff.py [ActiveNmapBasicHandoffUnit] *)
Record ActiveNmapBasicHandoffUnit : Type := HandoffUnit {
  unit_target : string;
  unit_ports : list Z;
  unit_mode : string;
  unit_profile : string;
  unit_authorization_confirmed : bool;
  unit_local_private_scope_confirmed : bool;
  unit_live_traffic_confirmed : bool;
  sequence_index : nat;
}.

(** backend/app/active_nmap_handoff.py [ActiveNmapBasicHandoffPlan] *)
Record ActiveNmapBasicHandoffPlan : Type := HandoffPlan {
  units : list ActiveNmapBasicHandoffUnit;
  target_count : nat;
  port_count : nat;
  target_port_checks : nat;
  implicit_concurrency : nat;
}.

(** backend/app/active_nmap_handoff.py [_validate_handoff_fields] *)
Definition _validate_handoff_fields (payload : dict value) : outcome unit :=
  let fields := payload.*1 in
  raise "unsupported_request_field" when
    any_of (λ f, negb (mem f ACTIVE_NMAP_BASIC_HANDOFF_ALLOWED_FIELDS)) fields;;
  raise "missing_required_field" when
    any_of (λ f, negb (mem f fields)) ACTIVE_NMAP_BASIC_HANDOFF_ALLOWED_FIELDS;;
  Ok tt.

(** backend/app/active_nmap_handoff.py [_validate_mode_and_profile] *)
Definition _validate_mode_and_profile (payload : dict value) : outcome unit :=
  raise "unsupported_mode" when negb (py_eq (get "mode" payload) (VStr ACTIVE_NMAP_BASIC_MODE));;
  raise "unsupported_profile" when negb (py_eq (get "profile" payload) (VStr ACTIVE_NMAP_BASIC_PROFILE));;
  Ok tt.

(** backend/app/active_nmap_handoff.py [_validate_confirmations] *)
Definition _validate_confirmations (payload : dict value) : outcome (list unit) :=
  traverse (λ field_name,
    raise ((field_name ++ "_missing")%string) when negb (is_true (get field_name payload));; Ok tt)
  ACTIVE_NMAP_BASIC_CONFIRMATION_FIELDS.

(* The wrapper only renames the error's class. *)
(** backend/app/active_nmap_handoff.py [_validate_targets] *)
Definition _validate_targets (targets : value) : outcome ActiveNmapTargetPolicyResult :=
  validate_active_nmap_basic_targets targets.

(** backend/app/active_nmap_handoff.py 124-129 [_validate_ports] *)
Definition validate_port (port : value) : outcome Z :=
  match port with
  | VInt port => raise "port_out_of_range" when (port <? 1)%Z || (65535 <? port)%Z;; Ok port
  | _ => Err "port_not_integer"
  end.

(** backend/app/active_nmap_handoff.py [_validate_ports] *)
Definition _validate_ports (ports : value) : outcome (list Z) :=
  match ports with
  | VList ports =>
      raise "ports_not_list" when (length ports =? 0)%nat;;
      raise "too_many_ports" when (ACTIVE_NMAP_BASIC_MAX_PORTS_PER_TARGET <? length ports)%nat;;
      traverse validate_port ports
  | _ => Err "ports_not_list"
  end.

(** backend/app/active_nmap_handoff.py [build_active_nmap_basic_handoff_plan] *)
Definition build_active_nmap_basic_handoff_plan (payload : dict value) : outcome ActiveNmapBasicHandoffPlan :=
  _ ← _validate_handoff_fields payload;
  _ ← _validate_mode_and_profile payload;
  _ ← _validate_confirmations payload;
  target_policy ← _validate_targets (get "targets" payload);
  ports ← _validate_ports (get "ports" payload);
  let total_checks := policy_target_count target_policy * length ports in
  raise "too_many_target_port_checks" when (ACTIVE_NMAP_BASIC_MAX_TOTAL_TARGET_PORT_CHECKS <? total_checks)%nat;;
  let units :=
    imap (λ index target,
      HandoffUnit target ports ACTIVE_NMAP_BASIC_MODE ACTIVE_NMAP_BASIC_PROFILE true true true index)
    (normalized_targets target_policy) in
  Ok (HandoffPlan units (length units) (length ports) total_checks 1).

Definition sample_payload (targets ports : list value) : dict value :=
  [("mode", VStr "live_nmap_basic"); ("profile", VStr "tcp_connect_small"); ("targets", VList targets);
   ("ports", VList ports); ("authorization_confirmed", VBool true);
   ("local_private_scope_confirmed", VBool true); ("live_traffic_confirmed", VBool true)].

Example plan_example :
  (λ p, (unit_target <$> units p, unit_ports <$> units p, target_port_checks p))
    <$> build_active_nmap_basic_handoff_plan (sample_payload [VStr "nas.lan"; VStr "10.1.1.7"] [VInt 22; VInt 443])
  = Ok (["nas.lan"; "10.1.1.7"], [[22; 443]; [22; 443]]%Z, 4).
Proof. reflexivity. Qed.
Example plan_refused :
  map (λ p, build_active_nmap_basic_handoff_plan p)
    [dict_pop "ports" (sample_payload [VStr "a"] [VInt 1]); sample_payload [VStr "a"; VStr "A"] [VInt 1];
     sample_payload [VStr "a"] [VBool true]; dict_set "live_traffic_confirmed" (VInt 1) (sample_payload [VStr "a"] [VInt 1])]
  = map Err ["missing_required_field"; "duplicate_targets"; "port_not_integer"; "live_traffic_confirmed_missing"].
Proof. reflexivity. Qed.

(** ** What a plan satisfies *)

Lemma validate_targets_ok v r :
  validate_active_nmap_basic_targets v = Ok r →
  ∃ l, v = VList l ∧ 1 ≤ length l ≤ 3 ∧ NoDup (normalized_targets r)
       ∧ Forall2 (λ t n, _normalize_single_target t = Ok n) l (normalized_targets r).
Proof.
  destruct v as [| | | | |l|]; try done. cbn [validate_active_nmap_basic_targets]. intros H. inv_ok H. to_prop. exists l.
  unfold ACTIVE_NMAP_BASIC_MAX_TARGETS in *. split; [done|]. split; [lia|]. cbn. split.
  - by apply remove_dups_full.
  - by apply traverse_ok.
Qed.

Lemma validate_ports_ok v ps :
  _validate_ports v = Ok ps →
  v = VList (VInt <$> ps) ∧ 1 ≤ length ps ≤ 32 ∧ Forall (λ p, 1 <= p <= 65535)%Z ps.
Proof.
  destruct v as [| | | | |l|]; try done. cbn [_validate_ports]. intros H. inv_ok H. to_prop.
  rename H into Ht. pose proof (traverse_length _ _ _ Ht) as Hl. unfold ACTIVE_NMAP_BASIC_MAX_PORTS_PER_TARGET in *.
  apply traverse_ok in Ht. split; [|split; [lia|]]; clear -Ht.
  - f_equal. induction Ht as [|x p l ps Hx _ IH]; [done|]. cbn. rewrite IH. f_equal.
    destruct x; try done. cbn in Hx. by inv_ok Hx.
  - induction Ht as [|x p l ps Hx _ IH]; constructor; [|done]. destruct x; try done. cbn in Hx.
    inv_ok Hx. to_prop. lia.
Qed.

Lemma handoff_fields_ok payload u :
  _validate_handoff_fields payload = Ok u →
  ∀ f, is_Some (dict_get f payload) ↔ f ∈ ACTIVE_NMAP_BASIC_HANDOFF_ALLOWED_FIELDS.
Proof.
  intros H f. unfold _validate_handoff_fields in H. inv_ok H. rewrite <- dict_keys_get.
  match goal with H : any_of _ payload.*1 = false |- _ => rename H into H1 end.
  match goal with H : any_of _ ACTIVE_NMAP_BASIC_HANDOFF_ALLOWED_FIELDS = false |- _ => rename H into H2 end.
  rewrite any_of_false in H1, H2. setoid_rewrite negb_false_iff in H1. setoid_rewrite negb_false_iff in H2.
  setoid_rewrite mem_true in H1. setoid_rewrite mem_true in H2. split; auto.
Qed.

Lemma handoff_confirmations_ok payload us :
  _validate_confirmations payload = Ok us →
  ∀ f, f ∈ ACTIVE_NMAP_BASIC_CONFIRMATION_FIELDS → get f payload = VBool true.
Proof.
  intros H f Hf. apply traverse_ok in H. destruct (list_elem_of_lookup_1 _ _ Hf) as [i Hi].
  destruct (Forall2_lookup_l _ _ _ _ _ H Hi) as (u & _ & Hu). cbn in Hu. inv_ok Hu. to_prop.
  destruct (get f payload) as [|[]| | | | |]; done.
Qed.

(** A property of the units made from a list of targets. *)
Lemma Forall2_imap_r {A B C} (P : A → C → Prop) (g : nat → B → C) l k :
  Forall2 (λ x y, ∀ i, P x (g i y)) l k → Forall2 P l (imap g k).
Proof.
  intros H. revert g H. revert k. induction l as [|x l IH]; intros k g H; inversion H; subst; [constructor|].
  cbn. constructor; [auto|]. apply IH. by eapply Forall2_impl; [eassumption|]; cbn.
Qed.

Lemma imap_section {A B} (g : nat → A → B) (h : B → A) l : (∀ i x, h (g i x) = x) → h <$> imap g l = l.
Proof.
  revert g. induction l as [|x l IH]; intros g H; [done|]. cbn. rewrite H. f_equal. apply IH. intros i y. apply H.
Qed.

(** The plan of an accepted payload. *)
Lemma plan_of_payload payload plan :
  build_active_nmap_basic_handoff_plan payload = Ok plan →
  ∃ targets ports,
    get "targets" payload = VList targets ∧ get "ports" payload = VList (VInt <$> ports)
    ∧ 1 ≤ length targets ≤ 3 ∧ 1 ≤ length ports ≤ 32 ∧ Forall (λ p, 1 <= p <= 65535)%Z ports
    ∧ NoDup (unit_target <$> units plan)
    ∧ Forall2 (λ t u, _normalize_single_target t = Ok (unit_target u)) targets (units plan)
    ∧ (∀ i u, units plan !! i = Some u →
         u = HandoffUnit (unit_target u) ports ACTIVE_NMAP_BASIC_MODE ACTIVE_NMAP_BASIC_PROFILE true true true i)
    ∧ target_count plan = length targets ∧ port_count plan = length ports
    ∧ target_port_checks plan = target_count plan * port_count plan.
Proof.
  intros H. unfold build_active_nmap_basic_handoff_plan in H. inv_ok H. to_prop.
  match goal with H : _validate_targets _ = Ok ?r |- _ =>
    apply validate_targets_ok in H as (l & Hl & Hn & Hd & Hf) end.
  match goal with H : _validate_ports _ = Ok _ |- _ => apply validate_ports_ok in H as (Hp & Hpn & Hpr) end.
  exists l. eexists. split; [done|]. split; [exact Hp|].
  cbn [units target_count port_count target_port_checks].
  rewrite imap_section, length_imap by done. pose proof (Forall2_length _ _ _ Hf) as Hlen.
  repeat split; try done; try lia.
  - apply Forall2_imap_r. by eapply Forall2_impl; [exact Hf|].
  - intros i u Hu. by apply list_lookup_imap_Some in Hu as (? & ? & ->).
Qed.

(** The plan of a payload is bounded and bound to it.  A payload is
    accepted exactly when each of its parts is, so that the limit on the sum
    of the checks never refuses one.  An accepted payload has exactly the
    seven fields, all three confirmations are [true]; the plan has one unit
    per target, in order, at most three and without repetition, whose target
    is the normal form of the requested one; every unit has the requested
    ports, 1 to 32 of them in 1..65535; the counts are those of the plan and
    no more than 96 checks. *)
Theorem handoff_plan_bounded payload :
  is_ok (build_active_nmap_basic_handoff_plan payload)
    = is_ok (_validate_handoff_fields payload) && is_ok (_validate_mode_and_profile payload)
      && is_ok (_validate_confirmations payload) && is_ok (_validate_targets (get "targets" payload))
      && is_ok (_validate_ports (get "ports" payload))
  ∧ ∀ plan, build_active_nmap_basic_handoff_plan payload = Ok plan →
      (∀ f, is_Some (dict_get f payload) ↔ f ∈ ACTIVE_NMAP_BASIC_HANDOFF_ALLOWED_FIELDS)
      ∧ (∀ f, f ∈ ACTIVE_NMAP_BASIC_CONFIRMATION_FIELDS → get f payload = VBool true)
      ∧ ∃ targets ports,
          get "targets" payload = VList targets ∧ get "ports" payload = VList (VInt <$> ports)
          ∧ 1 ≤ length targets ≤ 3 ∧ 1 ≤ length ports ≤ 32 ∧ Forall (λ p, 1 <= p <= 65535)%Z ports
          ∧ NoDup (unit_target <$> units plan)
          ∧ Forall2 (λ t u, _normalize_single_target t = Ok (unit_target u)) targets (units plan)
          ∧ (∀ i u, units plan !! i = Some u → unit_ports u = ports ∧ sequence_index u = i)
          ∧ target_count plan = length targets ∧ port_count plan = length ports
          ∧ target_port_checks plan = target_count plan * port_count plan ∧ target_port_checks plan ≤ 96.
Proof.
  split.
  - unfold build_active_nmap_basic_handoff_plan.
    destruct (_validate_handoff_fields payload); [|done]. destruct (_validate_mode_and_profile payload); [|done].
    destruct (_validate_confirmations payload); [|done]. unfold _validate_targets.
    destruct (validate_active_nmap_basic_targets _) as [r|] eqn:Er; [|done].
    destruct (_validate_ports _) as [ps|] eqn:Ep; [|done]. cbn -[Nat.ltb Nat.mul].
    apply validate_targets_ok in Er as (l & _ & Hl & _ & Hf). apply Forall2_length in Hf.
    apply validate_ports_ok in Ep as (_ & Hp & _). unfold policy_target_count.
    destruct (Nat.ltb_spec ACTIVE_NMAP_BASIC_MAX_TOTAL_TARGET_PORT_CHECKS (length (normalized_targets r) * length ps)); [|done].
    unfold ACTIVE_NMAP_BASIC_MAX_TOTAL_TARGET_PORT_CHECKS in *. nia.
  - intros plan H. destruct (plan_of_payload _ _ H) as (ts & ps & Ht & Hp & Hl & Hpl & Hr & Hd & Hf & Hu & Hc & Hpc & Hx).
    unfold build_active_nmap_basic_handoff_plan in H. inv_ok H.
    split; [by eapply handoff_fields_ok|]. split; [by eapply handoff_confirmations_ok|].
    exists ts, ps. repeat (split; [done|]). split; [by intros i u ->%Hu|].
    repeat (split; [done|]). rewrite Hx, Hc, Hpc. nia.
Qed.

Lemma handoff_plan_bounded_witness :
  ∃ plan, build_active_nmap_basic_handoff_plan (sample_payload [VStr "nas.lan"] [VInt 22]) = Ok plan
          ∧ target_port_checks plan ≤ 96.
Proof.
  eexists. split; [reflexivity|].
  destruct (handoff_plan_bounded (sample_payload [VStr "nas.lan"] [VInt 22])) as [_ H].
  destruct (H _ eq_refl) as (_ & _ & t & ps & _ & _ & _ & _ & _ & _ & _ & _ & _ & _ & _ & Hc). exact Hc.
Defined.
