(* ===== verification/RunnerNmap.v ===== *)
(** * RunnerNmap: the Active runner's nmap capability

    [tools/active_runner/nmap_basic] is a separate service with its own copy
    of the target policy, which it applies again before it runs anything:
    the request contract ([service.py]), the policy ([target_policy.py]), the
    command line ([command_builder.py]) and the execution ([executor.py]). *)

From S2P Require Import Prelude PyStr IpAddress PyValue.

(** ** The contract's constants *)

(** tools/active_runner/contracts.py [ACTIVE_NMAP_BASIC_CAPABILITY] *)
Definition ACTIVE_NMAP_BASIC_CAPABILITY : string := "active_nmap_basic".
(** tools/active_runner/contracts.py [ACTIVE_NMAP_BASIC_MODE] *)
Definition ACTIVE_NMAP_BASIC_MODE : string := "live_nmap_basic".
(** tools/active_runner/contracts.py [ACTIVE_NMAP_BASIC_PROFILE] *)
Definition ACTIVE_NMAP_BASIC_PROFILE : string := "tcp_connect_small".
(** tools/active_runner/contracts.py [ACTIVE_NMAP_BASIC_BINARY] *)
Definition ACTIVE_NMAP_BASIC_BINARY : string := "nmap".
(** tools/active_runner/contracts.py [ACTIVE_NMAP_BASIC_MAX_PORTS] *)
Definition ACTIVE_NMAP_BASIC_MAX_PORTS : nat := 32.
(** tools/active_runner/contracts.py [ACTIVE_NMAP_BASIC_MAX_TARGET_LENGTH] *)
Definition ACTIVE_NMAP_BASIC_MAX_TARGET_LENGTH : nat := 253.
(** tools/active_runner/contracts.py [ACTIVE_NMAP_BASIC_HOST_TIMEOUT_SECONDS] *)
Definition ACTIVE_NMAP_BASIC_HOST_TIMEOUT_SECONDS : Z := 30.
(** tools/active_runner/contracts.py [ACTIVE_NMAP_BASIC_MAX_RETRIES] *)
Definition ACTIVE_NMAP_BASIC_MAX_RETRIES : Z := 1.
(** tools/active_runner/contracts.py [ACTIVE_NMAP_BASIC_NOT_EXECUTED_REASON] *)
Definition ACTIVE_NMAP_BASIC_NOT_EXECUTED_REASON : string := "runner_skeleton_no_real_nmap".
(** tools/active_runner/contracts.py [ACTIVE_NMAP_BASIC_PROCESS_TIMEOUT_SECONDS] *)
Definition ACTIVE_NMAP_BASIC_PROCESS_TIMEOUT_SECONDS : Z := 35.
(** tools/active_runner/contracts.py [ACTIVE_NMAP_BASIC_MAX_STDOUT_BYTES] *)
Definition ACTIVE_NMAP_BASIC_MAX_STDOUT_BYTES : Z := 131072.
(** tools/active_runner/contracts.py [ACTIVE_NMAP_BASIC_MAX_STDERR_BYTES] *)
Definition ACTIVE_NMAP_BASIC_MAX_STDERR_BYTES : Z := 16384.
(** tools/active_runner/contracts.py [ACTIVE_NMAP_BASIC_MAX_PARSE_BYTES] *)
Definition ACTIVE_NMAP_BASIC_MAX_PARSE_BYTES : Z := 131072.
(** tools/active_runner/contracts.py [ACTIVE_NMAP_BASIC_MAX_PORT_OBSERVATIONS] *)
Definition ACTIVE_NMAP_BASIC_MAX_PORT_OBSERVATIONS : Z := Z.of_nat ACTIVE_NMAP_BASIC_MAX_PORTS.

(** ** The target policy *)

(** tools/active_runner/nmap_basic/target_policy.py [ACTIVE_NMAP_BASIC_LOCAL_HOSTNAME_SUFFIXES] *)
Definition ACTIVE_NMAP_BASIC_LOCAL_HOSTNAME_SUFFIXES : list string :=
  [".local"; ".localhost"; ".lan"; ".home"; ".internal"; ".private"; ".test"; ".example"; ".invalid"].
(** tools/active_runner/nmap_basic/target_policy.py [_ALLOWED_IPV4_NETWORKS] *)
Definition _ALLOWED_IPV4_NETWORKS : list network :=
  omap ip_network ["10.0.0.0/8"; "172.16.0.0/12"; "192.168.0.0/16"; "127.0.0.0/8"].
(** tools/active_runner/nmap_basic/target_policy.py [_ALLOWED_IPV6_NETWORKS] *)
Definition _ALLOWED_IPV6_NETWORKS : list network := omap ip_network ["::1/128"; "fc00::/7"].
(** tools/active_runner/nmap_basic/target_policy.py [_BLOCKED_IP_NETWORKS] *)
Definition _BLOCKED_IP_NETWORKS : list network :=
  omap ip_network ["0.0.0.0/8"; "100.64.0.0/10"; "169.254.0.0/16"; "192.0.0.0/24"; "192.0.2.0/24";
    "198.18.0.0/15"; "198.51.100.0/24"; "203.0.113.0/24"; "224.0.0.0/4"; "240.0.0.0/4";
    "255.255.255.255/32"; "::/128"; "64:ff9b::/96"; "2001:db8::/32"; "fe80::/10"; "ff00::/8"].
(** tools/active_runner/nmap_basic/target_policy.py [_BLOCKED_HOSTNAMES] *)
Definition _BLOCKED_HOSTNAMES : list string :=
  ["metadata"; "metadata.google.internal"; "169.254.169.254"; "169.254.170.2"; "kubernetes.default";
   "kubernetes.default.svc"; "kubernetes.default.svc.cluster.local"].
(** tools/active_runner/nmap_basic/target_policy.py [_BLOCKED_HOSTNAME_FRAGMENTS] *)
Definition _BLOCKED_HOSTNAME_FRAGMENTS : list string := ["metadata"].
(** tools/active_runner/nmap_basic/target_policy.py [_DISALLOWED_TARGET_MARKERS] *)
Definition _DISALLOWED_TARGET_MARKERS : list string := ["*"; "/"; "\"; ","; "@"; "?"; "#"; "["; "]"].
(** tools/active_runner/nmap_basic/target_policy.py [_DISALLOWED_SCHEME_MARKERS] *)
Definition _DISALLOWED_SCHEME_MARKERS : list string := ["://"; "file:"; "http:"; "https:"].

(** tools/active_runner/nmap_basic/target_policy.py [_looks_like_dash_range] *)
Definition _looks_like_dash_range (value : string) : bool :=
  match rpartition "-" value with
  | None => false
  | Some (head, tail) =>
      truthy head && (truthy tail && all_chars is_digit_char tail) && any_char is_digit_char head
  end.

(** tools/active_runner/nmap_basic/target_policy.py [_looks_like_port_suffix] *)
Definition _looks_like_port_suffix (value : string) : bool :=
  if negb (count_char ":" value =? 1)%nat then false else
  match rpartition ":" value with
  | None => false
  | Some (host, port) => truthy host && (truthy port && all_chars is_digit_char port)
  end.

(** tools/active_runner/nmap_basic/target_policy.py [_is_valid_hostname] *)
Definition _is_valid_hostname (value : string) : bool :=
  all_of (λ label,
    if negb (truthy label) || (63 <? len label)%nat then false else
    if startswith "-" label || endswith "-" label then false else
    all_chars (λ c, is_alnum c || is_char "-" c) label)
  (split_on "." value).

(** tools/active_runner/nmap_basic/target_policy.py [_normalize_hostname_target] *)
Definition _normalize_hostname_target (value : string) : outcome string :=
  raise "target_port_not_allowed" when contains ":" value;;
  raise "target_ambiguous" when endswith "." value || startswith "." value || contains ".." value;;
  raise "target_non_ascii" when negb (all_chars (between 0 127) value);;
  let normalized := lower value in
  raise "target_too_long" when (ACTIVE_NMAP_BASIC_MAX_TARGET_LENGTH <? len normalized)%nat;;
  raise "target_control_plane_blocked" when
    mem normalized _BLOCKED_HOSTNAMES || any_of (λ fragment, contains fragment normalized) _BLOCKED_HOSTNAME_FRAGMENTS;;
  raise "target_invalid_hostname" when negb (_is_valid_hostname normalized);;
  raise "target_not_local_private" when
    contains "." normalized
    && negb (any_of (λ suffix, endswith suffix normalized) ACTIVE_NMAP_BASIC_LOCAL_HOSTNAME_SUFFIXES);;
  Ok normalized.

(** tools/active_runner/nmap_basic/target_policy.py [_normalize_ip_target] *)
Definition _normalize_ip_target (parsed_ip : ip) : outcome string :=
  raise "target_special_purpose_blocked" when any_of (in_network parsed_ip) _BLOCKED_IP_NETWORKS;;
  raise "target_broadcast_or_network_like" when
    (ip_version parsed_ip =? 4)%N
    && (endswith ".0" (compressed parsed_ip) || endswith ".255" (compressed parsed_ip));;
  let allowed_networks :=
    if (ip_version parsed_ip =? 4)%N then _ALLOWED_IPV4_NETWORKS else _ALLOWED_IPV6_NETWORKS in
  raise "target_not_local_private" when negb (any_of (in_network parsed_ip) allowed_networks);;
  Ok (lower (compressed parsed_ip)).

(** tools/active_runner/nmap_basic/target_policy.py [_normalize_single_target] *)
Definition _normalize_single_target (target : value) : outcome string :=
  match target with
  | VStr target =>
      let value := strip target in
      raise "target_empty" when negb (truthy value);;
      raise "target_ambiguous" when negb (String.eqb value target);;
      raise "target_too_long" when (ACTIVE_NMAP_BASIC_MAX_TARGET_LENGTH <? len value)%nat;;
      raise "target_list_in_string" when any_char is_space value;;
      raise "target_unsupported_syntax" when any_of (λ marker, contains marker value) _DISALLOWED_TARGET_MARKERS;;
      raise "target_url_not_allowed" when any_of (λ marker, startswith marker (lower value)) _DISALLOWED_SCHEME_MARKERS;;
      raise "target_range_not_allowed" when _looks_like_dash_range value;;
      raise "target_port_not_allowed" when _looks_like_port_suffix value;;
      match ip_address value with
      | None => _normalize_hostname_target value
      | Some parsed_ip => _normalize_ip_target parsed_ip
      end
  | _ => Err "target_not_string"
  end.

(** tools/active_runner/nmap_basic/target_policy.py [validate_active_nmap_basic_execution_target] *)
Definition validate_active_nmap_basic_execution_target (target : value) : outcome string :=
  _normalize_single_target target.

(** ** The command line *)

(** tools/active_runner/nmap_basic/command_builder.py [FORBIDDEN_NMAP_BASIC_FLAGS] *)
Definition FORBIDDEN_NMAP_BASIC_FLAGS : list string :=
  ["-A"; "-O"; "-sV"; "-sC"; "-sS"; "-sU"; "-sN"; "-sF"; "-sX"; "-sA"; "-sW"; "-sM"; "-sI"; "-sY"; "-sZ"; "-sO"; "-sn";
   "--script"; "--script-args"; "--script-updatedb"; "--traceroute"; "--packet-trace"; "-iL"; "--exclude-file";
   "--randomize-hosts"; "-D"; "-S"; "--spoof-mac"; "-f"; "--mtu"; "--data-length"; "--source-port"].

(** tools/active_runner/nmap_basic/command_builder.py [_normalize_target] *)
Definition _normalize_target (target : value) : outcome string :=
  match target with
  | VStr target =>
      let normalized := strip target in
      raise "target_empty" when negb (truthy normalized);;
      raise "target_ambiguous" when negb (String.eqb normalized target);;
      raise "target_too_long" when (ACTIVE_NMAP_BASIC_MAX_TARGET_LENGTH <? len normalized)%nat;;
      raise "target_looks_like_flag" when startswith "-" normalized;;
      raise "target_contains_whitespace" when any_char is_space normalized;;
      Ok normalized
  | _ => Err "target_not_string"
  end.

(** tools/active_runner/nmap_basic/command_builder.py 111-116 [_normalize_ports] *)
Definition check_port (port : value) : outcome Z :=
  match port with
  | VInt port => raise "port_out_of_range" when (port <? 1)%Z || (65535 <? port)%Z;; Ok port
  | _ => Err "port_not_integer"
  end.

(** tools/active_runner/nmap_basic/command_builder.py [_normalize_ports] *)
Definition _normalize_ports (ports : value) : outcome (list Z) :=
  match ports with
  | VList ports =>
      raise "ports_empty" when (length ports =? 0)%nat;;
      raise "too_many_ports" when (ACTIVE_NMAP_BASIC_MAX_PORTS <? length ports)%nat;;
      checked ← traverse check_port ports;
      let normalized := remove_dups checked in
      raise "ports_empty" when (length normalized =? 0)%nat;;
      raise "too_many_ports" when (ACTIVE_NMAP_BASIC_MAX_PORTS <? length normalized)%nat;;
      Ok (merge_sort Z.le normalized)
  | _ => Err "ports_not_sequence"
  end.

(** tools/active_runner/nmap_basic/command_builder.py [build_active_nmap_basic_argv] *)
Definition build_active_nmap_basic_argv (target ports : value) (profile : string) : outcome (list string) :=
  raise "unsupported_profile" when negb (String.eqb profile ACTIVE_NMAP_BASIC_PROFILE);;
  normalized_target ← _normalize_target target;
  normalized_ports ← _normalize_ports ports;
  let port_argument := join "," (str_of_Z <$> normalized_ports) in
  Ok [ACTIVE_NMAP_BASIC_BINARY; "-sT"; "-Pn"; "-n"; "--max-retries"; str_of_Z ACTIVE_NMAP_BASIC_MAX_RETRIES;
      "--host-timeout"; (str_of_Z ACTIVE_NMAP_BASIC_HOST_TIMEOUT_SECONDS ++ "s")%string; "-oX"; "-"; "-p";
      port_argument; "--"; normalized_target].

Example argv_example :
  build_active_nmap_basic_argv (VStr "nas.lan") (VList [VInt 443; VInt 22; VInt 443]) "tcp_connect_small"
  = Ok ["nmap"; "-sT"; "-Pn"; "-n"; "--max-retries"; "1"; "--host-timeout"; "30s"; "-oX"; "-"; "-p"; "22,443"; "--"; "nas.lan"].
Proof. reflexivity. Qed.

(** ** The request contract *)

(** tools/active_runner/nmap_basic/service.py [UNSUPPORTED_NMAP_BASIC_SERVICE_FIELDS] *)
Definition UNSUPPORTED_NMAP_BASIC_SERVICE_FIELDS : list string :=
  ["args"; "binary"; "command"; "cookies"; "credentials"; "custom_profile"; "env"; "environment"; "executable";
   "extra_args"; "flags"; "headers"; "path"; "raw_flags"; "script"; "script_args"; "scripts"; "shell"; "shell_command";
   "stderr"; "stdin"; "stdout"; "target_file"; "target_files"; "tokens"].
(** tools/active_runner/nmap_basic/service.py [_ALLOWED_NMAP_BASIC_SERVICE_FIELDS] *)
Definition _ALLOWED_NMAP_BASIC_SERVICE_FIELDS : list string :=
  ["authorization_confirmed"; "live_traffic_confirmed"; "local_private_scope_confirmed"; "mode"; "ports"; "profile"; "target"].

(** tools/active_runner/nmap_basic/service.py [ActiveNmapBasicServiceRequest] *)
Record ActiveNmapBasicServiceRequest : Type := ServiceRequest {
  req_target : string;
  req_ports : value;
  req_mode : string;
  req_profile : string;
  req_authorization_confirmed : bool;
  req_local_private_scope_confirmed : bool;
  req_live_traffic_confirmed : bool;
}.

(** tools/active_runner/nmap_basic/service.py [_reject_unsupported_fields] *)
Definition _reject_unsupported_fields (data : dict value) : outcome unit :=
  let unknown := filter (λ f, mem f _ALLOWED_NMAP_BASIC_SERVICE_FIELDS = false) data.*1 in
  raise "unsupported_request_field" when any_of (λ f, mem f UNSUPPORTED_NMAP_BASIC_SERVICE_FIELDS) unknown;;
  raise "unknown_request_field" when negb (length unknown =? 0)%nat;;
  Ok tt.

(** tools/active_runner/nmap_basic/service.py [_required_value] *)
Definition _required_value (data : dict value) (field_name : string) : outcome value :=
  or_raise (dict_get field_name data) (field_name ++ "_missing")%string.

(** tools/active_runner/nmap_basic/service.py [_required_string] *)
Definition _required_string (data : dict value) (field_name : string) : outcome string :=
  v ← _required_value data field_name;
  or_raise (as_str v) (field_name ++ "_not_string")%string.

(** tools/active_runner/nmap_basic/service.py [_required_true] *)
Definition _required_true (data : dict value) (field_name : string) : outcome bool :=
  v ← _required_value data field_name;
  raise ((field_name ++ "_missing")%string) when negb (is_true v);;
  Ok true.

(** tools/active_runner/nmap_basic/service.py [from_mapping] *)
Definition from_mapping (data : dict value) : outcome ActiveNmapBasicServiceRequest :=
  _ ← _reject_unsupported_fields data;
  target ← _required_string data "target";
  ports ← _required_value data "ports";
  mode ← _required_string data "mode";
  profile ← _required_string data "profile";
  authorization_confirmed ← _required_true data "authorization_confirmed";
  local_private_scope_confirmed ← _required_true data "local_private_scope_confirmed";
  live_traffic_confirmed ← _required_true data "live_traffic_confirmed";
  Ok (ServiceRequest target ports mode profile authorization_confirmed local_private_scope_confirmed
        live_traffic_confirmed).

(** What a caller may pass: a request, a mapping, or something else. *)
Inductive service_input : Type :=
| RequestInput (r : ActiveNmapBasicServiceRequest)
| MappingInput (d : dict value)
| OtherInput.

(** tools/active_runner/nmap_basic/service.py [coerce_active_nmap_basic_service_request] *)
Definition coerce_active_nmap_basic_service_request (request : service_input) : outcome ActiveNmapBasicServiceRequest :=
  match request with
  | RequestInput r => Ok r
  | MappingInput d => from_mapping d
  | OtherInput => Err "request_not_mapping"
  end.

(** tools/active_runner/nmap_basic/service.py [validate_active_nmap_basic_service_contract] *)
Definition validate_active_nmap_basic_service_contract (request : ActiveNmapBasicServiceRequest) : outcome unit :=
  raise "unsupported_mode" when negb (String.eqb (req_mode request) ACTIVE_NMAP_BASIC_MODE);;
  raise "unsupported_profile" when negb (String.eqb (req_profile request) ACTIVE_NMAP_BASIC_PROFILE);;
  raise "authorization_confirmation_missing" when negb (req_authorization_confirmed request);;
  raise "local_private_scope_confirmation_missing" when negb (req_local_private_scope_confirmed request);;
  raise "live_traffic_confirmation_missing" when negb (req_live_traffic_confirmed request);;
  Ok tt.

(** [argv.index(x)]: [ValueError] when absent. *)
Fixpoint index_of (x : string) (l : list string) : outcome nat :=
  match l with
  | [] => Err "ValueError"
  | y :: l' => if String.eqb y x then Ok 0 else S <$> index_of x l'
  end.

(** tools/active_runner/nmap_basic/service.py [_port_count_from_argv] *)
Definition _port_count_from_argv (argv : list string) : outcome nat :=
  i ← index_of "-p" argv;
  port_argument ← or_raise (argv !! S i) "IndexError";
  Ok (length (split_on "," port_argument)).

(** tools/active_runner/nmap_basic/service.py [handle_active_nmap_basic_skeleton] *)
Definition handle_active_nmap_basic_skeleton (request : service_input) : outcome (dict value) :=
  normalized_request ← coerce_active_nmap_basic_service_request request;
  _ ← validate_active_nmap_basic_service_contract normalized_request;
  argv ← build_active_nmap_basic_argv (VStr (req_target normalized_request)) (req_ports normalized_request)
           (req_profile normalized_request);
  port_count ← _port_count_from_argv argv;
  Ok [("status", VStr "not_executed"); ("capability", VStr ACTIVE_NMAP_BASIC_CAPABILITY);
      ("mode", VStr ACTIVE_NMAP_BASIC_MODE); ("profile", VStr ACTIVE_NMAP_BASIC_PROFILE);
      ("execution_enabled", VBool false); ("job_created", VBool false);
      ("reason", VStr ACTIVE_NMAP_BASIC_NOT_EXECUTED_REASON); ("argv_preview_available", VBool false);
      ("command_builder_checked", VBool true); ("target_count", VInt 1);
      ("port_count", VInt (Z.of_nat port_count)); ("network_requests_sent", VNone);
      ("limits", VDict [("max_ports", VInt (Z.of_nat ACTIVE_NMAP_BASIC_MAX_PORTS));
         ("host_timeout_seconds", VInt ACTIVE_NMAP_BASIC_HOST_TIMEOUT_SECONDS);
         ("max_retries", VInt ACTIVE_NMAP_BASIC_MAX_RETRIES)]);
      ("summary", VDict [("nmap_executed", VBool false); ("parser_ran", VBool false); ("evidence_available", VBool false)])].

(** ** Execution *)

(** How [subprocess.run] comes back; captured bytes are texts of code points
    below 256. *)
Inductive process_result : Type :=
| Completed (returncode : Z) (out err : option string)
| FileNotFound
| TimedOut (out err : option string)
| OtherFailure.

(** A call of [subprocess.run]: the argument vector and the timeout. *)
Record process_call : Type := ProcessCall { call_argv : list string; call_timeout : Z }.

(** tools/active_runner/nmap_basic/executor.py [_base_result] *)
Definition _base_result (status : string) (execution_attempted : bool) : dict value :=
  [("status", VStr status); ("capability", VStr ACTIVE_NMAP_BASIC_CAPABILITY);
   ("profile", VStr ACTIVE_NMAP_BASIC_PROFILE); ("execution_attempted", VBool execution_attempted);
   ("output_truncated", VBool false); ("stderr_truncated", VBool false); ("timed_out", VBool false);
   ("argv_preview_available", VBool false); ("command_returned", VBool false); ("target_returned", VBool false);
   ("parser_ran", VBool false); ("findings_created", VBool false)].

(** tools/active_runner/nmap_basic/executor.py [_bounded_limit] *)
Definition _bounded_limit (v : value) (maximum : Z) : Z :=
  match v with
  | VInt z => if (z <? 0)%Z then maximum else Z.min z maximum
  | _ => maximum
  end.

(** tools/active_runner/nmap_basic/executor.py [_redact_forbidden_claims] *)
Definition _redact_forbidden_claims (s : string) : string :=
  foldl (λ redacted phrase, replace_str phrase "[REDACTED_CLAIM]" redacted) s
    ["confirmed vulnerability"; "exploitable"; "target is safe"].

(** tools/active_runner/nmap_basic/executor.py [_redact_target] *)
Definition _redact_target (s target : string) : string :=
  if negb (truthy target) then _redact_forbidden_claims s else
  let redacted := replace_str target "[REDACTED_TARGET]" s in
  let lower_target := lower target in
  let redacted :=
    if negb (String.eqb lower_target target) then replace_str lower_target "[REDACTED_TARGET]" redacted else redacted in
  _redact_forbidden_claims redacted.

Section executor.
  (** [raw.decode("utf-8", errors="replace")], and [subprocess.run]. *)
Context (decode_utf8 : string → string) (run : process_call → process_result).

(** tools/active_runner/nmap_basic/executor.py [_bounded_text] *)
Definition _bounded_text (v : option string) (max_bytes : Z) (target : string) : string * bool :=
  match v with
  | None => ("", false)
  | Some raw =>
      let truncated := (max_bytes <? Z.of_nat (len raw))%Z in
      let bounded := str_take (Z.to_nat max_bytes) raw in
      (_redact_target (decode_utf8 bounded) target, truncated)
  end.

(** The calls of [subprocess.run] made, and the result returned. *)
(** tools/active_runner/nmap_basic/executor.py [execute_active_nmap_basic] *)
Definition execute_active_nmap_basic (request : service_input) (timeout_seconds max_stdout_bytes max_stderr_bytes : value)
  : list process_call * dict value :=
  let timeout_budget := _bounded_limit timeout_seconds ACTIVE_NMAP_BASIC_PROCESS_TIMEOUT_SECONDS in
  let stdout_budget := _bounded_limit max_stdout_bytes ACTIVE_NMAP_BASIC_MAX_STDOUT_BYTES in
  let stderr_budget := _bounded_limit max_stderr_bytes ACTIVE_NMAP_BASIC_MAX_STDERR_BYTES in
  match
    normalized_request ← coerce_active_nmap_basic_service_request request;
    _ ← validate_active_nmap_basic_service_contract normalized_request;
    target ← validate_active_nmap_basic_execution_target (VStr (req_target normalized_request));
    argv ← build_active_nmap_basic_argv (VStr target) (req_ports normalized_request) (req_profile normalized_request);
    Ok (target, argv)
  with
  | Err reason_code =>
      ([], dict_update (_base_result "failed" false)
             [("reason", VStr reason_code); ("error_type", VStr "validation_error")])
  | Ok (target, argv) =>
      let call := ProcessCall argv timeout_budget in
      ([call],
       match run call with
       | FileNotFound =>
           dict_update (_base_result "nmap_missing" true)
             [("reason", VStr "nmap_missing"); ("error_type", VStr "nmap_missing")]
       | TimedOut out err =>
           let '(stdout, stdout_truncated) := _bounded_text out stdout_budget target in
           let '(stderr, stderr_truncated) := _bounded_text err stderr_budget target in
           dict_update (_base_result "timed_out" true)
             [("reason", VStr "process_timeout"); ("timed_out", VBool true); ("stdout", VStr stdout);
              ("stderr", VStr stderr); ("output_truncated", VBool stdout_truncated);
              ("stderr_truncated", VBool stderr_truncated)]
       | OtherFailure =>
           dict_update (_base_result "failed" true)
             [("reason", VStr "unexpected_execution_error"); ("error_type", VStr "unexpected_execution_error")]
       | Completed returncode out err =>
           let '(stdout, stdout_truncated) := _bounded_text out stdout_budget target in
           let '(stderr, stderr_truncated) := _bounded_text err stderr_budget target in
           let '(status, reason) :=
             if (returncode =? 0)%Z then ("completed", "raw_bounded") else ("failed", "nmap_nonzero_exit") in
           dict_update (_base_result status true)
             [("reason", VStr reason); ("exit_code", VInt returncode); ("stdout", VStr stdout);
              ("stderr", VStr stderr); ("output_truncated", VBool stdout_truncated);
              ("stderr_truncated", VBool stderr_truncated)]
       end)
  end.
End executor.
