(* ===== verification/NmapChain.v ===== *)
(** * NmapChain: from a handed-off plan to the command that runs

    The backend's policy and plan ([NmapPolicy], [NmapHandoff]) against the
    runner's contract, policy, command line and execution ([RunnerNmap]). *)

From S2P Require Import Prelude PyStr IpAddress PyValue NmapPolicy NmapHandoff RunnerNmap.

(** The two copies of the policy are one function. *)
Lemma runner_policy_agrees v :
  RunnerNmap._normalize_single_target v = NmapPolicy._normalize_single_target v.
Proof. reflexivity. Qed.

(** ** The ports of a command line *)

Lemma strictly_sorted l : NoDup l → StronglySorted Z.lt (merge_sort Z.le l).
Proof.
  intros Hd. assert (Hs : StronglySorted Z.le (merge_sort Z.le l)) by (apply StronglySorted_merge_sort; apply _).
  assert (Hn : NoDup (merge_sort Z.le l)) by by rewrite merge_sort_Permutation.
  induction Hs as [|x k _ IH Hx]; [constructor|]. apply NoDup_cons in Hn as [Hx' Hn]. constructor; [by apply IH|].
  rewrite Forall_forall in Hx |- *. intros y Hy. specialize (Hx y Hy). assert (x ≠ y) by (intros ->; done). lia.
Qed.

Definition port_ok (p : Z) : Prop := (1 <= p <= 65535)%Z.

Lemma check_ports_ok l ps :
  traverse check_port l = Ok ps ↔ l = VInt <$> ps ∧ Forall port_ok ps.
Proof.
  rewrite traverse_ok. revert l. induction ps as [|p ps IH]; intros l.
  - split; [intros ->%Forall2_nil_inv_r; done|]. intros [-> _]. constructor.
  - split.
    + intros (x & k & Hx & Hk & ->)%Forall2_cons_inv_r. apply IH in Hk as [-> Hps].
      destruct x; try done. cbn in Hx. inv_ok Hx. to_prop. split; [done|]. constructor; [unfold port_ok; lia|done].
    + cbn. intros [-> [Hp Hps]%Forall_cons]. constructor; [|by apply IH]. unfold port_ok in Hp. cbn.
      destruct (Z.ltb_spec p 1), (Z.ltb_spec 65535 p); try lia. done.
Qed.

Lemma normalize_ports_ok v ps :
  _normalize_ports v = Ok ps →
  ∃ l, v = VList (VInt <$> l) ∧ StronglySorted Z.lt ps ∧ (∀ p, p ∈ ps ↔ p ∈ l)
       ∧ Forall port_ok ps ∧ 1 ≤ length ps ≤ 32.
Proof.
  destruct v as [| | | | |l|]; try done. cbn [_normalize_ports]. intros H. inv_ok H. to_prop.
  match goal with H : traverse _ _ = Ok ?x |- _ => rename x into k; apply check_ports_ok in H as [-> Hk] end.
  exists k. split; [done|]. split; [apply strictly_sorted, NoDup_remove_dups|].
  assert (Hin : ∀ p, p ∈ merge_sort Z.le (remove_dups k) ↔ p ∈ k)
    by (intros p; by rewrite merge_sort_Permutation, elem_of_remove_dups).
  split; [done|]. split.
  - rewrite Forall_forall in Hk |- *. intros p Hp. by apply Hk, Hin.
  - rewrite merge_sort_Permutation. unfold ACTIVE_NMAP_BASIC_MAX_PORTS in *. lia.
Qed.

Lemma normalize_ports_total l :
  1 ≤ length l ≤ 32 → Forall port_ok l → is_ok (_normalize_ports (VList (VInt <$> l))) = true.
Proof.
  intros Hl Hp. cbn [_normalize_ports]. rewrite length_fmap.
  destruct (Nat.eqb_spec (length l) 0); [lia|].
  destruct (Nat.ltb_spec ACTIVE_NMAP_BASIC_MAX_PORTS (length l)); [unfold ACTIVE_NMAP_BASIC_MAX_PORTS in *; lia|].
  rewrite (proj2 (check_ports_ok _ _) (conj eq_refl Hp)). cbn [mbind outcome_bind].
  pose proof (remove_dups_length l). destruct (Nat.eqb_spec (length (remove_dups l)) 0) as [E|].
  - apply nil_length_inv in E. destruct l as [|p l]; [cbn in *; lia|].
    assert (p ∈ remove_dups (p :: l)) as Hin by (apply elem_of_remove_dups; left). rewrite E in Hin.
    by apply elem_of_nil in Hin.
  - destruct (Nat.ltb_spec ACTIVE_NMAP_BASIC_MAX_PORTS (length (remove_dups l))); [lia|done].
Qed.

(** ** The targets of a command line *)

(** ** The targets of a command line *)

(** What a policy result looks like: no scope, and then host-name or address
    characters only, not starting with a dash. *)
Definition target_char (c : ascii) : bool := host_text c || ip_char c.

Lemma normal_form_shape v n :
  NmapPolicy._normalize_single_target v = Ok n → contains "%" n = false →
  all_chars target_char n = true ∧ truthy n = true ∧ startswith "-" n = false
  ∧ len n ≤ NmapPolicy.ACTIVE_NMAP_BASIC_MAX_TARGET_LENGTH.
Proof.
  intros H Hsc. pose proof (normal_form_stable _ _ H Hsc) as Hn.
  assert (Hlen : len n ≤ NmapPolicy.ACTIVE_NMAP_BASIC_MAX_TARGET_LENGTH ∧ truthy n = true).
  { unfold NmapPolicy._normalize_single_target in Hn. inv_ok Hn. to_prop.
    match goal with E : strip n = n |- _ => rewrite E in * end. done. }
  assert (Hchars : (all_chars ip_char n = true ∨ local_hostname n = true)).
  { clear Hn Hlen. unfold NmapPolicy._normalize_single_target in H. destruct v as [| | | |s| |]; try done.
    inv_ok H. destruct (ip_address (strip s)) as [a|] eqn:Ea.
    - pose proof (ip_address_ok _ _ Ea) as Ha. destruct (normalize_ip_private a Ha) as [_ Hn].
      specialize (Hn n H) as ->. pose proof (unscoped_text a Hsc) as Hu. left.
      pose proof (compressed_chars a Ha Hu) as Hc. by destruct (address_text_tests _ Hc) as (_ & _ & _ & _ & _ & ->).
    - right. by destruct (normalize_hostname_ok _ _ H) as (? & _). }
  split; [|split; [apply Hlen|split; [|apply Hlen]]].
  - unfold target_char. destruct Hchars as [Hc|Hc%local_hostname_chars];
      (eapply all_chars_impl; [|exact Hc]); intros c ->; by rewrite ?orb_true_r.
  - destruct Hchars as [Hc|Hc]; [by apply (startswith_outside _ _ _ Hc)|].
    apply not_true_is_false. intros Hd. apply startswith_chars in Hd as [r Hr].
    unfold local_hostname in Hc. to_prop.
    match goal with H : all_of host_label _ = true |- _ => rename H into Hl end.
    rewrite all_of_true in Hl. unfold split_on in Hl. rewrite Hr in Hl. cbn in Hl.
    destruct (split_chars "." r) as [|w ws]; [specialize (Hl "-" ltac:(left)); done|].
    specialize (Hl (String "-" (text w)) ltac:(left)). unfold host_label in Hl. to_prop.
    by destruct w.
Qed.

Lemma normalize_target_shape n :
  all_chars target_char n = true → truthy n = true → startswith "-" n = false →
  len n ≤ NmapPolicy.ACTIVE_NMAP_BASIC_MAX_TARGET_LENGTH → _normalize_target (VStr n) = Ok n.
Proof.
  intros Hc Ht Hd Hl. assert (Hs : all_chars (λ c, negb (is_space c)) n = true).
  { eapply all_chars_impl; [|exact Hc]. apply every_char'. vm_compute. reflexivity. }
  unfold _normalize_target. rewrite (strip_no_space _ Hs), Ht, String.eqb_refl, Hd, (proj2 (any_char_false _ _) Hs).
  cbn [negb]. change RunnerNmap.ACTIVE_NMAP_BASIC_MAX_TARGET_LENGTH with NmapPolicy.ACTIVE_NMAP_BASIC_MAX_TARGET_LENGTH.
  by apply Nat.ltb_ge in Hl as ->.
Qed.

Lemma normalize_target_same v n : _normalize_target v = Ok n → v = VStr n ∧ startswith "-" n = false.
Proof.
  destruct v as [| | | |s| |]; try done. cbn [_normalize_target]. intros H. inv_ok H. to_prop.
  by match goal with E : strip s = s |- _ => rewrite E in * end.
Qed.

(** The command line, with the ports and the target left open. *)
Definition nmap_command (ports : list Z) (target : string) : list string :=
  ["nmap"; "-sT"; "-Pn"; "-n"; "--max-retries"; "1"; "--host-timeout"; "30s"; "-oX"; "-"; "-p";
   join "," (str_of_Z <$> ports); "--"; target].

Lemma argv_ok t v p argv :
  build_active_nmap_basic_argv t v p = Ok argv →
  ∃ n ports, _normalize_target t = Ok n ∧ _normalize_ports v = Ok ports ∧ argv = nmap_command ports n.
Proof. unfold build_active_nmap_basic_argv. intros H. inv_ok H. eauto. Qed.

(** Every unit of an accepted plan is executable as it stands.  Unless
    its target is a scoped IPv6 address, the runner's own policy returns the
    target unchanged, and the command line built from the unit is the fixed
    TCP-connect scan of that target after ["--"], on the unit's ports, each
    once and in increasing order. *)
Theorem handed_off_units_execute payload plan i u :
  build_active_nmap_basic_handoff_plan payload = Ok plan → units plan !! i = Some u →
  contains "%" (unit_target u) = false →
  validate_active_nmap_basic_execution_target (VStr (unit_target u)) = Ok (unit_target u)
  ∧ ∃ ports, StronglySorted Z.lt ports ∧ (∀ p, p ∈ ports ↔ p ∈ unit_ports u)
      ∧ build_active_nmap_basic_argv (VStr (unit_target u)) (VList (VInt <$> unit_ports u)) (unit_profile u)
        = Ok (nmap_command ports (unit_target u)).
Proof.
  intros H Hu Hsc. destruct (plan_of_payload _ _ H) as (ts & ps & _ & _ & _ & Hpl & Hr & _ & Hf & Hunit & _).
  destruct (Forall2_lookup_r _ _ _ _ _ Hf Hu) as (t & _ & Hn). rewrite (Hunit _ _ Hu). cbn [unit_target unit_ports unit_profile].
  split; [by eapply normal_form_stable|].
  destruct (normal_form_shape _ _ Hn Hsc) as (Hc & Ht & Hd & Hlen).
  pose proof (normalize_ports_total ps Hpl Hr) as Hok. destruct (_normalize_ports (VList (VInt <$> ps))) as [qs|] eqn:Eq; [|done].
  destruct (normalize_ports_ok _ _ Eq) as (l & [= Hl] & Hs & Hin & _). exists qs. split; [done|]. split.
  - intros p. rewrite Hin. by apply (inj (fmap VInt)) in Hl as ->.
  - unfold build_active_nmap_basic_argv. rewrite (normalize_target_shape _ Hc Ht Hd Hlen), Eq. done.
Qed.

Lemma handed_off_units_execute_witness :
  validate_active_nmap_basic_execution_target (VStr "nas.lan") = Ok "nas.lan".
Proof.
  destruct (build_active_nmap_basic_handoff_plan (sample_payload [VStr "NAS.lan"] [VInt 443; VInt 22])) as [plan|] eqn:E;
    [|vm_compute in E; discriminate E].
  refine (proj1 (handed_off_units_execute _ plan 0 (HandoffUnit "nas.lan" [443; 22]%Z
    "live_nmap_basic" "tcp_connect_small" true true true 0) E _ _));
    vm_compute in E; injection E as <-; reflexivity.
Defined.

(** ** Execution *)

(** No argument before the ["--"] is one of the forbidden flags. *)
Definition flags_of (argv : list string) : list string := take 12 argv.

Lemma ports_text_chars ports :
  Forall port_ok ports → all_chars (λ c, is_digit c || is_char "," c) (join "," (str_of_Z <$> ports)) = true.
Proof.
  intros Hp. apply all_chars_join; [done|]. intros s (p & -> & Hin)%list_elem_of_fmap.
  rewrite Forall_forall in Hp. specialize (Hp p Hin). unfold port_ok in Hp. destruct p as [|p|p]; [done| |lia].
  eapply all_chars_impl; [|apply str_of_N_digits]. intros c Hc. by rewrite Hc.
Qed.

Lemma command_has_no_forbidden_flag ports n :
  Forall port_ok ports → any_of (λ a, mem a FORBIDDEN_NMAP_BASIC_FLAGS) (flags_of (nmap_command ports n)) = false.
Proof.
  intros Hp. apply any_of_false. intros a Ha.
  assert (H : a ∈ ["nmap"; "-sT"; "-Pn"; "-n"; "--max-retries"; "1"; "--host-timeout"; "30s"; "-oX"; "-"; "-p"]
              ∨ a = join "," (str_of_Z <$> ports)) by (unfold flags_of, nmap_command in Ha; set_solver).
  destruct H as [H| ->].
  - repeat (apply elem_of_cons in H as [->|H]; [reflexivity|]). by apply elem_of_nil in H.
  - apply not_true_is_false. intros H%mem_true. pose proof (ports_text_chars ports Hp) as Hc.
    assert (Hall : forallb (startswith "-") FORBIDDEN_NMAP_BASIC_FLAGS = true) by reflexivity.
    rewrite forallb_forall in Hall. apply list_elem_of_In in H. specialize (Hall _ H).
    by rewrite (startswith_outside _ "-" _ Hc eq_refl) in Hall.
Qed.

Lemma bounded_limit_range v m : (0 <= m)%Z → (0 <= _bounded_limit v m <= m)%Z.
Proof. intros Hm. destruct v; cbn; try lia. destruct (Z.ltb_spec z 0); lia. Qed.

Lemma get_dict_update k d e : get k (dict_update d e) = default (get k d) (dict_get k (reverse e)).
Proof.
  unfold dict_update, get. revert d. induction e as [|[k' v] e IH]; intros d; [done|]. cbn [foldl].
  rewrite IH, dict_get_set, reverse_cons. clear IH. cbn [fst snd].
  induction (reverse e) as [|[k0 v0] r IHr]; cbn; [by destruct (String.eqb k' k)|].
  by destruct (String.eqb k0 k).
Qed.

(** C4: The runner starts a process only for a confirmed request on a private
    target.  Whatever is asked of it, it either starts nothing and reports a
    failure without an attempt, or starts exactly one: [nmap]'s fixed
    TCP-connect scan, with a timeout of at most 35 seconds, of the normal
    form under the backend's policy of the requested target, on the requested
    ports, each in 1..65535; none of the options is a forbidden one, and the
    target comes after ["--"] and does not look like an option. *)
Theorem runner_executes_private_only decode run request t o e calls result :
  execute_active_nmap_basic decode run request t o e = (calls, result) →
  (calls = [] ∧ get "execution_attempted" result = VBool false ∧ get "status" result = VStr "failed")
  ∨ ∃ r n requested ports timeout,
      coerce_active_nmap_basic_service_request request = Ok r
      ∧ req_authorization_confirmed r && req_local_private_scope_confirmed r && req_live_traffic_confirmed r = true
      ∧ NmapPolicy._normalize_single_target (VStr (req_target r)) = Ok n ∧ startswith "-" n = false
      ∧ req_ports r = VList (VInt <$> requested) ∧ (∀ p, p ∈ ports ↔ p ∈ requested)
      ∧ StronglySorted Z.lt ports ∧ Forall port_ok ports
      ∧ calls = [ProcessCall (nmap_command ports n) timeout] ∧ (0 <= timeout <= 35)%Z
      ∧ any_of (λ a, mem a FORBIDDEN_NMAP_BASIC_FLAGS) (flags_of (nmap_command ports n)) = false
      ∧ get "execution_attempted" result = VBool true.
Proof.
  unfold execute_active_nmap_basic. destruct (_ ≫= _) as [[n argv]|c] eqn:E.
  - intros [= <- <-]. right. inv_ok E.
    match goal with H : build_active_nmap_basic_argv _ _ _ = Ok _ |- _ => apply argv_ok in H as (n' & ports & Hn & Hp & ->) end.
    apply normalize_target_same in Hn as [[= <-] Hd]. destruct (normalize_ports_ok _ _ Hp) as (l & Hl & Hs & Hin & Hr & _).
    match goal with H : coerce_active_nmap_basic_service_request _ = Ok ?x |- _ => rename x into r end.
    match goal with H : validate_active_nmap_basic_service_contract r = Ok _ |- _ =>
      unfold validate_active_nmap_basic_service_contract in H; rename H into Hv end.
    inv_ok Hv. to_prop. exists r, n, l, ports. eexists.
    split; [done|]. split; [by rewrite !andb_true_iff|]. split; [done|]. split; [done|].
    split; [done|]. split; [done|]. split; [done|]. split; [done|]. split; [reflexivity|].
    split; [by apply bounded_limit_range|]. split; [by apply command_has_no_forbidden_flag|].
    destruct (run _); unfold _bounded_text; repeat case_match; simplify_eq; reflexivity.
  - intros [= <- <-]. left. repeat split.
Qed.

Definition sample_request : dict value :=
  [("target", VStr "NAS.lan"); ("ports", VList [VInt 443; VInt 22]); ("mode", VStr "live_nmap_basic");
   ("profile", VStr "tcp_connect_small"); ("authorization_confirmed", VBool true);
   ("local_private_scope_confirmed", VBool true); ("live_traffic_confirmed", VBool true)].
(** A process that prints a report naming its target. *)
Definition sample_run (c : process_call) : process_result :=
  Completed 0 (Some "report for nas.lan: exploitable") None.

Lemma runner_executes_private_only_witness :
  (execute_active_nmap_basic id sample_run (MappingInput sample_request) VNone VNone VNone).1
  = [ProcessCall (nmap_command [22; 443]%Z "nas.lan") 35].
Proof.
  destruct (execute_active_nmap_basic id sample_run (MappingInput sample_request) VNone VNone VNone) as [calls result] eqn:E.
  destruct (runner_executes_private_only _ _ _ _ _ _ _ _ E) as [(-> & _)|(r & n & l & ps & tm & _ & _ & _ & _ & _ & _ & _ & _ & Hc & _)];
    vm_compute in E; injection E as H1 _; [discriminate H1|].
  rewrite <- H1. reflexivity.
Defined.

Definition claims : list string := ["confirmed vulnerability"; "exploitable"; "target is safe"].
Definition claim_char (c : ascii) : bool := is_lower_az c || is_char " " c.

Lemma redacted_claims_free s p : p ∈ claims → contains p (_redact_forbidden_claims s) = false.
Proof.
  intros Hp. unfold _redact_forbidden_claims. cbn [foldl].
  repeat (apply elem_of_cons in Hp as [->|Hp];
    [repeat first [apply (contains_replaced claim_char); done
                  | apply (contains_replace claim_char); [done|done|done|done|]]|]).
  by apply elem_of_nil in Hp.
Qed.

Lemma redacted_target_free s n :
  all_chars target_char n = true → n ≠ "" → contains n (_redact_target s n) = false.
Proof.
  intros Hn Hne. unfold _redact_target. destruct (truthy n) eqn:Ht; [|by destruct n].
  cbn [negb]. unfold _redact_forbidden_claims. cbn [foldl].
  do 3 (apply (contains_replace target_char); [done|done|done|done|]).
  destruct (negb _); [apply (contains_replace target_char); [done|done|done|done|]|];
    by apply (contains_replaced target_char).
Qed.

(** What a run prints never names its target or claims a vulnerability.
    Whatever the process wrote and however it is decoded, neither the stdout
    nor the stderr of a result contains the target that was scanned or any of
    the three forbidden claims; a scoped IPv6 target is excepted. *)
Theorem output_never_names_target decode run request t o e r n k s :
  coerce_active_nmap_basic_service_request request = Ok r →
  NmapPolicy._normalize_single_target (VStr (req_target r)) = Ok n → contains "%" n = false →
  k ∈ ["stdout"; "stderr"] →
  get k (execute_active_nmap_basic decode run request t o e).2 = VStr s →
  contains n s = false ∧ ∀ p, p ∈ claims → contains p s = false.
Proof.
  intros Hr Hn Hsc Hk H. destruct (normal_form_shape _ _ Hn Hsc) as (Hc & Ht & _ & _).
  assert (Hne : n ≠ "") by by destruct n.
  assert (Hk' : k = "stdout" ∨ k = "stderr") by set_solver. clear Hk. rename Hk' into Hk.
  assert (Hb : ∀ v m x b, _bounded_text decode v m n = (x, b) →
            contains n x = false ∧ ∀ p, p ∈ claims → contains p x = false).
  { intros v m x b E. unfold _bounded_text in E. destruct v as [raw|]; injection E as <- <-.
    - split; [by apply redacted_target_free|]. intros p Hp. unfold _redact_target.
      destruct (negb _); by apply redacted_claims_free.
    - split; [by destruct n|]. intros p Hp. repeat (apply elem_of_cons in Hp as [->|Hp]; [done|]). by apply elem_of_nil in Hp. }
  revert H. unfold execute_active_nmap_basic. destruct (_ ≫= _) as [[n' argv]|c] eqn:E; cbn [snd].
  - assert (n' = n) as ->.
    { rewrite Hr in E. cbn [mbind outcome_bind] in E. inv_ok E.
      match goal with H : validate_active_nmap_basic_execution_target _ = Ok _ |- _ =>
        change (NmapPolicy._normalize_single_target (VStr (req_target r)) = Ok n') in H end. congruence. }
    destruct (run _) as [rc out err| |out err|].
    + destruct (_bounded_text decode out _ n) as [x bx] eqn:Ex. destruct (_bounded_text decode err _ n) as [y by'] eqn:Ey.
      apply Hb in Ex, Ey. destruct (rc =? 0)%Z; destruct Hk as [-> | ->]; by intros [= <-].
    + by destruct Hk as [-> | ->].
    + destruct (_bounded_text decode out _ n) as [x bx] eqn:Ex. destruct (_bounded_text decode err _ n) as [y by'] eqn:Ey.
      apply Hb in Ex, Ey. destruct Hk as [-> | ->]; by intros [= <-].
    + by destruct Hk as [-> | ->].
  - by destruct Hk as [-> | ->].
Qed.

Lemma output_never_names_target_witness :
  contains "nas.lan" "report for [REDACTED_TARGET]: [REDACTED_CLAIM]" = false.
Proof.
  refine (proj1 (output_never_names_target id sample_run (MappingInput sample_request) VNone VNone VNone
    (ServiceRequest "NAS.lan" (VList [VInt 443; VInt 22]) "live_nmap_basic" "tcp_connect_small" true true true)
    "nas.lan" "stdout" _ _ _ _ _ _)); try (vm_compute; reflexivity). left.
Defined.
