(* ===== verification/NmapBoundary.v ===== *)
(** * NmapBoundary: what crosses between the backend and the Active runner

    [backend/app/active_nmap_boundary.py]: the request of one unit, and the
    validation of the response into a report of a closed vocabulary. *)

From S2P Require Import Prelude PyStr IpAddress PyValue NmapHandoff.
From S2P Require RunnerNmap.

(** ** Tables *)

(** backend/app/active_nmap_boundary.py [ACTIVE_NMAP_BASIC_BOUNDARY_RESPONSE_MAX_BYTES] *)
Definition ACTIVE_NMAP_BASIC_BOUNDARY_RESPONSE_MAX_BYTES : Z := 32768.
(** backend/app/active_nmap_boundary.py [ACTIVE_NMAP_BASIC_BOUNDARY_ALLOWED_STATUSES] *)
Definition ACTIVE_NMAP_BASIC_BOUNDARY_ALLOWED_STATUSES : list string :=
  ["completed"; "failed"; "timed_out"; "nmap_missing"; "malformed"; "unsupported_shape"; "blocked"; "empty";
   "no_ports"; "truncated"].
(** backend/app/active_nmap_boundary.py [ACTIVE_NMAP_BASIC_BOUNDARY_ALLOWED_RESPONSE_FIELDS] *)
Definition ACTIVE_NMAP_BASIC_BOUNDARY_ALLOWED_RESPONSE_FIELDS : list string :=
  ["status"; "profile"; "target_kind"; "manual_validation_required"; "result_interpretation"; "observations";
   "output_truncated"; "execution_metadata"; "warnings"; "errors"].
(** backend/app/active_nmap_boundary.py [ACTIVE_NMAP_BASIC_BOUNDARY_SENSITIVE_FIELDS] *)
Definition ACTIVE_NMAP_BASIC_BOUNDARY_SENSITIVE_FIELDS : list string :=
  ["args"; "argv"; "banner"; "banners"; "cmd"; "command"; "cookie"; "cookies"; "credential"; "credentials";
   "extra_args"; "header"; "headers"; "host"; "hostname"; "hostnames"; "ip"; "ips"; "local_path"; "nse";
   "nse_output"; "ptr_hostname"; "ptr_hostnames"; "raw_args"; "raw_command"; "raw_stderr"; "raw_stdout";
   "raw_xml"; "resolved_ip"; "resolved_ips"; "script"; "script_output"; "scripts"; "service"; "service_banner";
   "service_product"; "stderr"; "stdout"; "target_file"; "target_files"; "token"; "tokens"; "version"; "xml"].
(** backend/app/active_nmap_boundary.py [ACTIVE_NMAP_BASIC_BOUNDARY_ALLOWED_PORT_STATES] *)
Definition ACTIVE_NMAP_BASIC_BOUNDARY_ALLOWED_PORT_STATES : list string :=
  ["closed"; "closed|filtered"; "filtered"; "open"; "open|filtered"; "unknown"; "unfiltered"].
(** backend/app/active_nmap_boundary.py [ACTIVE_NMAP_BASIC_BOUNDARY_ALLOWED_STATE_REASONS] *)
Definition ACTIVE_NMAP_BASIC_BOUNDARY_ALLOWED_STATE_REASONS : list string :=
  ["admin-prohibited"; "arp-response"; "conn-refused"; "echo-reply"; "host-prohibited"; "host-unreach";
   "localhost-response"; "net-prohibited"; "net-unreach"; "no-response"; "no-responses"; "port-unreach";
   "proto-response"; "reset"; "reset-ttl"; "syn-ack"; "timestamp-reply"; "udp-response"; "user-set"].
(** backend/app/active_nmap_boundary.py [ACTIVE_NMAP_BASIC_BOUNDARY_CONTROLLED_ERROR_CODES] *)
Definition ACTIVE_NMAP_BASIC_BOUNDARY_CONTROLLED_ERROR_CODES : list string :=
  ["active_tools_unavailable"; "active_tools_timeout"; "nmap_missing"; "malformed_output"; "unsupported_shape";
   "policy_drift"; "result_too_large"; "unexpected_fields"; "network_failure"; "fqdn_resolution_failed";
   "malformed_xml"; "nmap_nonzero_exit"; "process_timeout"; "unexpected_execution_error"; "unexpected_port";
   "unsupported_xml_shape"].
(** backend/app/active_nmap_boundary.py [ACTIVE_NMAP_BASIC_BOUNDARY_ERROR_STATUS] *)
Definition ACTIVE_NMAP_BASIC_BOUNDARY_ERROR_STATUS : dict string :=
  [("active_tools_unavailable", "failed"); ("active_tools_timeout", "timed_out");
   ("nmap_missing", "nmap_missing"); ("malformed_output", "malformed");
   ("unsupported_shape", "unsupported_shape"); ("policy_drift", "blocked"); ("result_too_large", "failed");
   ("unexpected_fields", "blocked"); ("network_failure", "failed"); ("fqdn_resolution_failed", "failed");
   ("malformed_xml", "malformed"); ("nmap_nonzero_exit", "failed"); ("process_timeout", "timed_out");
   ("unexpected_execution_error", "failed"); ("unexpected_port", "blocked");
   ("unsupported_xml_shape", "unsupported_shape")].

(** ** Identifiers *)

(** [[a-zA-Z0-9_.:-]] and [\w]. *)
Definition is_safe_id_char (c : ascii) : bool := is_ascii_alnum c || one_of "_.:-" c.
Definition is_word_char (c : ascii) : bool := is_ascii_alnum c || is_char "_" c.

(* [_SAFE_ID_RE.sub("-", s)]: every run of other characters becomes one dash. *)
(** backend/app/active_nmap_boundary.py [_SAFE_ID_RE] *)
Fixpoint sub_unsafe (in_run : bool) (l : list ascii) : list ascii :=
  match l with
  | [] => []
  | c :: l' =>
      if is_safe_id_char c then c :: sub_unsafe false l'
      else if in_run then sub_unsafe true l' else "-"%char :: sub_unsafe true l'
  end.

(** The length of a match of [(\d{1,3}\.){k}\d{1,3}\b] at the head: a run of
    digits must be taken whole, since what follows it is a dot or a
    boundary. *)
Fixpoint dotted_length (k : nat) (l : list ascii) : option nat :=
  let n := length (take_while is_digit l) in
  if (1 <=? n)%nat && (n <=? 3)%nat then
    match k with
    | O => if from_option is_word_char false (head (drop n l)) then None else Some n
    | S k' =>
        match drop n l with
        | c :: l' => if is_char "." c then (λ m, n + 1 + m) <$> dotted_length k' l' else None
        | [] => None
        end
    end
  else None.

(* [_IPV4_RE.sub("redacted-ip", s)], left to right; [skip] counts the
   characters of a match still to pass over. *)
(** backend/app/active_nmap_boundary.py [_IPV4_RE] *)
Fixpoint sub_ipv4 (skip : nat) (after_word : bool) (l : list ascii) : list ascii :=
  match l with
  | [] => []
  | c :: l' =>
      match skip with
      | S k => sub_ipv4 k (is_word_char c) l'
      | O =>
          match (if after_word then None else dotted_length 3 l) with
          | Some n => chars "redacted-ip" ++ sub_ipv4 (n - 1) (is_word_char c) l'
          | None => c :: sub_ipv4 0 (is_word_char c) l'
          end
      end
  end.

(** backend/app/active_nmap_boundary.py [_safe_boundary_id] *)
Definition _safe_boundary_id (v : value) (dflt : string) : string :=
  match v with
  | VStr s =>
      if negb (truthy s) then dflt else
      let safe := strip_chars "-" (str_take 96 (text (sub_unsafe false (chars s)))) in
      let safe := text (sub_ipv4 0 false (chars safe)) in
      if truthy safe then safe else dflt
  | _ => dflt
  end.

Example ids : map (λ s, _safe_boundary_id (VStr s) "job") ["job 7//x"; "--"; "at 10.1.2.3:80"; "v1.2.3.4.5"; "1.2.3.4567"; "1.2.3.4.5.6.7.8"]
  = ["job-7-x"; "job"; "at-redacted-ip:80"; "v1.redacted-ip"; "1.2.3.4567"; "redacted-ip.redacted-ip"].
Proof. reflexivity. Qed.

(** backend/app/active_nmap_boundary.py [_classify_target_kind] *)
Definition _classify_target_kind (target : string) : string :=
  match ip_address target with
  | None => "private_hostname"
  | Some parsed => if is_loopback parsed then "container_loopback" else "private_ip"
  end.

(** backend/app/active_nmap_boundary.py [build_active_nmap_basic_boundary_request] *)
Definition build_active_nmap_basic_boundary_request
  (unit : ActiveNmapBasicHandoffUnit) (job_id request_id correlation_id : value) : dict value :=
  [("mode", VStr ACTIVE_NMAP_BASIC_MODE);
   ("profile", VStr RunnerNmap.ACTIVE_NMAP_BASIC_PROFILE);
   ("request_id", VStr (_safe_boundary_id request_id "request"));
   ("job_id", VStr (_safe_boundary_id job_id "job"));
   ("correlation_id", VStr (_safe_boundary_id
      (if py_bool correlation_id then correlation_id
       else VStr ("active-nmap-basic-" ++ str_of_nat (sequence_index unit))%string) "correlation"));
   ("target_unit", VDict
      [("target", VStr (unit_target unit)); ("target_kind", VStr (_classify_target_kind (unit_target unit)));
       ("accepted_ports", VList (VInt <$> unit_ports unit))]);
   ("confirmations_verified_by_backend", VBool (unit_authorization_confirmed unit
      && unit_local_private_scope_confirmed unit && unit_live_traffic_confirmed unit));
   ("limits", VDict
      [("process_timeout_seconds", VInt RunnerNmap.ACTIVE_NMAP_BASIC_PROCESS_TIMEOUT_SECONDS);
       ("stdout_max_bytes", VInt RunnerNmap.ACTIVE_NMAP_BASIC_MAX_STDOUT_BYTES);
       ("stderr_max_bytes", VInt RunnerNmap.ACTIVE_NMAP_BASIC_MAX_STDERR_BYTES);
       ("response_max_bytes", VInt ACTIVE_NMAP_BASIC_BOUNDARY_RESPONSE_MAX_BYTES)])].

(** ** The response *)

(** backend/app/active_nmap_boundary.py [_normalize_key] *)
Definition _normalize_key (key : string) : string := replace_char "-" "_" (lower key).

(** backend/app/active_nmap_boundary.py [_contains_sensitive_field] *)
Fixpoint _contains_sensitive_field (v : value) : bool :=
  match v with
  | VDict d =>
      (fix go d := match d with
       | [] => false
       | (key, nested) :: d' =>
           mem (_normalize_key key) ACTIVE_NMAP_BASIC_BOUNDARY_SENSITIVE_FIELDS
           || _contains_sensitive_field nested || go d'
       end) d
  | VList l =>
      (fix go l := match l with [] => false | item :: l' => _contains_sensitive_field item || go l' end) l
  | _ => false
  end.

(** backend/app/active_nmap_boundary.py [_response_over_limit] *)
Definition _response_over_limit (response : dict value) : bool :=
  (ACTIVE_NMAP_BASIC_BOUNDARY_RESPONSE_MAX_BYTES <? Z.of_nat (len (json_dumps (VDict response))))%Z.

(** backend/app/active_nmap_boundary.py [_controlled_strings] *)
Definition _controlled_strings (v : value) : list value :=
  match v with
  | VList l => List.filter (str_in ACTIVE_NMAP_BASIC_BOUNDARY_CONTROLLED_ERROR_CODES) l
  | _ => []
  end.

(** backend/app/active_nmap_boundary.py [_safe_target_kind] *)
Definition _safe_target_kind (v : value) : string :=
  match v with
  | VStr s => if mem s ["authorized_fqdn"; "container_loopback"; "private_ip"; "private_hostname"] then s else ""
  | _ => ""
  end.

(** backend/app/active_nmap_boundary.py [_safe_execution_metadata] *)
Definition _safe_execution_metadata (v : value) : dict value :=
  let metadata := [("executor", VStr "active_nmap_basic_boundary")] in
  match v with
  | VDict d =>
      let executor := get "executor" d in
      let metadata :=
        if py_eq executor (VStr "active_nmap_basic") then dict_set "executor" executor metadata else metadata in
      let metadata :=
        match get "duration_ms" d with
        | VInt duration_ms =>
            if (0 <=? duration_ms)%Z then dict_set "duration_ms" (VInt (Z.min duration_ms 3600000)) metadata else metadata
        | _ => metadata
        end in
      foldl (λ metadata key, if is_bool (get key d) then dict_set key (get key d) metadata else metadata) metadata
        ["nmap_invoked"; "subprocess_invoked_inside_active_tools"]
  | _ => metadata
  end.

(** backend/app/active_nmap_boundary.py 257-285 [_safe_observations] *)
Definition safe_observation (accepted : list Z) (item : value) : outcome value :=
  match item with
  | VDict item =>
      let normalized_keys := _normalize_key <$> item.*1 in
      let allowed := ["port"; "protocol"; "state"; "reason"; "manual_validation_required"; "result_interpretation"] in
      raise "unexpected_fields" when
        any_of (λ k, negb (mem k allowed)) normalized_keys
        || any_of (λ k, mem k ACTIVE_NMAP_BASIC_BOUNDARY_SENSITIVE_FIELDS) normalized_keys;;
      match get "port" item with
      | VInt port =>
          raise "policy_drift" when negb (bool_decide (port ∈ accepted));;
          raise "unsupported_shape" when negb (lower_str_is "tcp" (get "protocol" item));;
          raise "malformed_output" when negb (str_in ACTIVE_NMAP_BASIC_BOUNDARY_ALLOWED_PORT_STATES (get "state" item));;
          let observation :=
            [("port", VInt port); ("protocol", VStr "tcp"); ("state", get "state" item);
             ("manual_validation_required", VBool true);
             ("result_interpretation", VStr "observed_exposure_review_indicator")] in
          let reason := get "reason" item in
          if str_in ACTIVE_NMAP_BASIC_BOUNDARY_ALLOWED_STATE_REASONS reason
          then Ok (VDict (dict_set "reason" reason observation))
          else raise "malformed_output" when negb (is_none reason);; Ok (VDict observation)
      | _ => Err "policy_drift"
      end
  | _ => Err "malformed_output"
  end.

(** backend/app/active_nmap_boundary.py [_safe_observations] *)
Definition _safe_observations (v : value) (accepted_ports : list Z) : outcome (list value) :=
  match v with
  | VNone => Ok []
  | VList l => traverse (safe_observation accepted_ports) l
  | _ => Err "malformed_output"
  end.

(** backend/app/active_nmap_boundary.py [map_active_nmap_basic_boundary_error] *)
Definition map_active_nmap_basic_boundary_error (error_code : string) : dict value :=
  let controlled_error :=
    if mem error_code ACTIVE_NMAP_BASIC_BOUNDARY_CONTROLLED_ERROR_CODES then error_code else "unexpected_fields" in
  [("status", VStr (default "" (dict_get controlled_error ACTIVE_NMAP_BASIC_BOUNDARY_ERROR_STATUS)));
   ("profile", VStr RunnerNmap.ACTIVE_NMAP_BASIC_PROFILE);
   ("manual_validation_required", VBool true);
   ("result_interpretation", VStr "observed_exposure_review_indicator");
   ("observations", VList []);
   ("output_truncated", VBool (String.eqb controlled_error "result_too_large"));
   ("execution_metadata", VDict [("executor", VStr "active_nmap_basic_boundary")]);
   ("warnings", VList []);
   ("errors", VList [VStr controlled_error])].

(** Every controlled code has a status, so the lookup never fails. *)
Example error_status_total :
  forallb (λ c, bool_decide (is_Some (dict_get c ACTIVE_NMAP_BASIC_BOUNDARY_ERROR_STATUS)))
    ACTIVE_NMAP_BASIC_BOUNDARY_CONTROLLED_ERROR_CODES = true.
Proof. reflexivity. Qed.

(** backend/app/active_nmap_boundary.py [validate_active_nmap_basic_boundary_response] *)
Definition validate_active_nmap_basic_boundary_response
  (response : value) (accepted_ports : list Z) (target_kind : value) : dict value :=
  match response with
  | VDict response =>
      if _response_over_limit response then map_active_nmap_basic_boundary_error "result_too_large" else
      let normalized_keys := _normalize_key <$> response.*1 in
      let unexpected_fields := any_of (λ k, negb (mem k ACTIVE_NMAP_BASIC_BOUNDARY_ALLOWED_RESPONSE_FIELDS)) normalized_keys in
      let sensitive_fields := any_of (λ k, mem k ACTIVE_NMAP_BASIC_BOUNDARY_SENSITIVE_FIELDS) normalized_keys in
      if unexpected_fields || sensitive_fields || _contains_sensitive_field (VDict response)
      then map_active_nmap_basic_boundary_error "unexpected_fields" else
      let status := get "status" response in
      if negb (str_in ACTIVE_NMAP_BASIC_BOUNDARY_ALLOWED_STATUSES status)
      then map_active_nmap_basic_boundary_error "unexpected_fields" else
      match _safe_observations (get "observations" response) accepted_ports with
      | Err observation_error => map_active_nmap_basic_boundary_error observation_error
      | Ok observations =>
          let errors := _controlled_strings (get "errors" response) in
          let warnings := _controlled_strings (get "warnings" response) in
          let safe_target_kind :=
            _safe_target_kind (if py_bool (get "target_kind" response) then get "target_kind" response else target_kind) in
          let result :=
            [("status", status);
             ("profile", VStr RunnerNmap.ACTIVE_NMAP_BASIC_PROFILE);
             ("manual_validation_required", VBool true);
             ("result_interpretation", VStr "observed_exposure_review_indicator");
             ("observations", VList observations);
             ("output_truncated", VBool (py_bool (get "output_truncated" response)));
             ("execution_metadata", VDict (_safe_execution_metadata (get "execution_metadata" response)));
             ("warnings", VList warnings);
             ("errors", VList errors)] in
          if truthy safe_target_kind then dict_set "target_kind" (VStr safe_target_kind) result else result
      end
  | _ => map_active_nmap_basic_boundary_error "malformed_output"
  end.

(** ** The closed vocabulary of a report *)

Definition report_words : list string :=
  ACTIVE_NMAP_BASIC_BOUNDARY_ALLOWED_STATUSES ++ ACTIVE_NMAP_BASIC_BOUNDARY_ALLOWED_PORT_STATES
  ++ ACTIVE_NMAP_BASIC_BOUNDARY_ALLOWED_STATE_REASONS ++ ACTIVE_NMAP_BASIC_BOUNDARY_CONTROLLED_ERROR_CODES
  ++ ["tcp_connect_small"; "observed_exposure_review_indicator"; "tcp"; "active_nmap_basic"; "active_nmap_basic_boundary";
      "authorized_fqdn"; "container_loopback"; "private_ip"; "private_hostname"].

Definition report_keys : list string :=
  ["status"; "profile"; "target_kind"; "manual_validation_required"; "result_interpretation"; "observations";
   "output_truncated"; "execution_metadata"; "warnings"; "errors"; "port"; "protocol"; "state"; "reason"; "executor";
   "duration_ms"; "nmap_invoked"; "subprocess_invoked_inside_active_tools"].

(** Only the words and keys above, accepted ports, durations up to an hour
    and booleans, at any depth. *)
Fixpoint closed_value (ports : list Z) (v : value) : bool :=
  match v with
  | VStr s => mem s report_words
  | VInt z => bool_decide (z ∈ ports) || ((0 <=? z)%Z && (z <=? 3600000)%Z)
  | VBool _ => true
  | VList l => forallb (closed_value ports) l
  | VDict d => forallb (λ kv, mem (fst kv) report_keys && closed_value ports (snd kv)) d
  | VNone | VFloat _ => false
  end.

(** A key at any depth of a value. *)
Inductive key_occurs (k : string) : value → Prop :=
| key_here d v : (k, v) ∈ d → key_occurs k (VDict d)
| key_in_dict d k' v : (k', v) ∈ d → key_occurs k v → key_occurs k (VDict d)
| key_in_list l v : v ∈ l → key_occurs k v → key_occurs k (VList l).

Lemma contains_sensitive_occurs v :
  _contains_sensitive_field v = true ↔
  ∃ k, key_occurs k v ∧ _normalize_key k ∈ ACTIVE_NMAP_BASIC_BOUNDARY_SENSITIVE_FIELDS.
Proof.
  set (S := ACTIVE_NMAP_BASIC_BOUNDARY_SENSITIVE_FIELDS). induction v as [| | | | |l IH|d IH] using value_ind';
    try (split; [done|by intros (k & H & _); inversion H]).
  - transitivity (∃ x, x ∈ l ∧ _contains_sensitive_field x = true).
    { clear IH. induction l as [|x l IH]; [split; [done|set_solver]|].
      change (_contains_sensitive_field (VList (x :: l)))
        with (_contains_sensitive_field x || _contains_sensitive_field (VList l)).
      rewrite orb_true_iff, IH. set_solver. }
    rewrite Forall_forall in IH. split.
    + intros (x & Hx & (k & Hk & Hs)%(IH x Hx)). exists k. split; [by eapply key_in_list|done].
    + intros (k & Hk & Hs). inversion Hk; subst. eexists. split; [done|]. apply IH; [done|eauto].
  - transitivity (∃ kv, kv ∈ d ∧ (_normalize_key kv.1 ∈ S ∨ _contains_sensitive_field kv.2 = true)).
    { clear IH. induction d as [|[k x] d IH]; [split; [done|set_solver]|].
      change (_contains_sensitive_field (VDict ((k, x) :: d)))
        with (mem (_normalize_key k) S || _contains_sensitive_field x || _contains_sensitive_field (VDict d)).
      rewrite !orb_true_iff, IH, mem_true. split.
      - intros [[H|H]|(kv & Hin & H)]; [exists (k, x); by auto using list_elem_of_here|
          exists (k, x); by auto using list_elem_of_here|exists kv; by auto using list_elem_of_further].
      - intros ([k' x'] & [[= -> ->]|Hin]%elem_of_cons & [H|H]); eauto 6. }
    rewrite Forall_forall in IH. split.
    + intros ([k x] & Hx & [Hs|Hs]); [exists k; split; [by eapply key_here|done]|].
      apply (IH _ Hx) in Hs as (k' & Hk & Hs). exists k'. split; [by eapply key_in_dict|done].
    + intros (k & Hk & Hs). inversion Hk as [d' v Hin|d' k' v Hin Hv|]; subst.
      * exists (k, v). auto.
      * exists (k', v). split; [done|]. right. apply (IH _ Hin). eauto.
Qed.

Lemma closed_not_sensitive ports v k :
  closed_value ports v = true → key_occurs k v → _normalize_key k ∉ ACTIVE_NMAP_BASIC_BOUNDARY_SENSITIVE_FIELDS.
Proof.
  intros Hc Hk Hs. induction Hk as [d v Hin|d k' v Hin _ IH|l v Hin _ IH]; cbn [closed_value] in Hc;
    rewrite forallb_forall in Hc; apply list_elem_of_In in Hin; specialize (Hc _ Hin); cbn [fst snd] in Hc;
    to_prop; [|auto|auto].
  assert (Hall : forallb (λ k, negb (mem (_normalize_key k) ACTIVE_NMAP_BASIC_BOUNDARY_SENSITIVE_FIELDS)) report_keys = true)
    by (vm_compute; reflexivity).
  rewrite forallb_forall in Hall. match goal with H : mem k report_keys = true |- _ => apply mem_true, list_elem_of_In in H end.
  specialize (Hall k ltac:(done)). apply negb_true_iff in Hall. apply mem_true in Hs. congruence.
Qed.

Lemma str_in_closed ports words v : (∀ w, w ∈ words → w ∈ report_words) → str_in words v = true → closed_value ports v = true.
Proof. intros Hw. destruct v; try done. cbn [str_in closed_value]. rewrite !mem_true. auto. Qed.

Lemma report_word w :
  w ∈ ACTIVE_NMAP_BASIC_BOUNDARY_ALLOWED_STATUSES ∨ w ∈ ACTIVE_NMAP_BASIC_BOUNDARY_ALLOWED_PORT_STATES
  ∨ w ∈ ACTIVE_NMAP_BASIC_BOUNDARY_ALLOWED_STATE_REASONS ∨ w ∈ ACTIVE_NMAP_BASIC_BOUNDARY_CONTROLLED_ERROR_CODES →
  w ∈ report_words.
Proof. unfold report_words. rewrite !elem_of_app. tauto. Qed.

Lemma closed_dict_set ports k v d :
  closed_value ports (VDict d) = true → mem k report_keys = true → closed_value ports v = true →
  closed_value ports (VDict (dict_set k v d)) = true.
Proof.
  cbn. intros Hd Hk Hv. induction d as [|[k' v'] d IH]; cbn in *; [by rewrite Hk, Hv|]. to_prop.
  destruct (String.eqb k' k); cbn; rewrite ?andb_true_iff; auto.
Qed.

Lemma controlled_strings_closed ports v : forallb (closed_value ports) (_controlled_strings v) = true.
Proof.
  destruct v as [| | | | |l|]; try done. cbn. apply forallb_forall. intros x [_ Hx]%filter_In.
  eapply str_in_closed; [|exact Hx]. intros w Hw. apply report_word. tauto.
Qed.

Lemma execution_metadata_closed ports v : closed_value ports (VDict (_safe_execution_metadata v)) = true.
Proof.
  destruct v as [| | | | | |d]; try done. cbn [_safe_execution_metadata].
  assert (Hb : ∀ k m, mem k report_keys = true → closed_value ports (VDict m) = true →
    closed_value ports (VDict (if is_bool (get k d) then dict_set k (get k d) m else m)) = true).
  { intros k m Hk Hm. destruct (get k d); try done. by apply closed_dict_set. }
  cbn [foldl]. apply Hb; [done|]. apply Hb; [done|]. clear Hb.
  set (m0 := if py_eq _ _ then _ else _).
  assert (H0 : closed_value ports (VDict m0) = true).
  { unfold m0. destruct (get "executor" d) as [| | | |s| |] eqn:Ee; try done. cbn [py_eq].
    destruct (String.eqb_spec s "active_nmap_basic") as [->|]; done. }
  clearbody m0. destruct (get "duration_ms" d) as [| |z| | | |]; try done.
  destruct (Z.leb_spec 0 z); [|done]. apply closed_dict_set; [done|done|]. cbn.
  apply orb_true_iff. right. apply andb_true_iff. rewrite !Z.leb_le. lia.
Qed.

Lemma safe_observation_closed ports item v : safe_observation ports item = Ok v → closed_value ports v = true.
Proof.
  destruct item as [| | | | | |d]; try done. cbn [safe_observation].
  destruct (_ || _); [done|]. destruct (get "port" d) as [| |port| | | |]; try done.
  destruct (bool_decide _) eqn:Ep; [|done]. cbn [negb]. destruct (lower_str_is _ _); [|done]. cbn [negb].
  destruct (str_in _ (get "state" d)) eqn:Es; [|done]. cbn [negb].
  set (obs := [("port", _); _; _; _; _]).
  assert (Ho : closed_value ports (VDict obs) = true).
  { unfold obs. cbn -[report_words]. rewrite Ep.
    rewrite (str_in_closed ports _ _ (λ w Hw, report_word w (or_intror (or_introl Hw))) Es). reflexivity. }
  clearbody obs. destruct (str_in _ (get "reason" d)) eqn:Er.
  - intros [= <-]. apply closed_dict_set; [done|done|]. eapply str_in_closed; [|exact Er].
    intros w Hw. apply report_word. tauto.
  - destruct (negb _); [done|]. by intros [= <-].
Qed.

Lemma error_report_closed ports c : closed_value ports (VDict (map_active_nmap_basic_boundary_error c)) = true.
Proof.
  unfold map_active_nmap_basic_boundary_error.
  set (code := if mem c _ then c else _).
  assert (Hc : code ∈ ACTIVE_NMAP_BASIC_BOUNDARY_CONTROLLED_ERROR_CODES).
  { unfold code. destruct (mem c _) eqn:E; [by apply mem_true|apply mem_true; reflexivity]. }
  clearbody code. revert code Hc. apply Forall_forall. repeat constructor.
Qed.

Lemma safe_observations_closed v ports obs :
  _safe_observations v ports = Ok obs → forallb (closed_value ports) obs = true.
Proof.
  destruct v as [| | | | |l|]; try done; cbn [_safe_observations]; [by intros [= <-]|].
  intros H%traverse_ok. induction H as [|x y l k Hx _ IH]; [done|]. cbn.
  by rewrite (safe_observation_closed _ _ _ Hx).
Qed.

Lemma closed_report ports status observations truncated metadata warnings errors kind :
  str_in ACTIVE_NMAP_BASIC_BOUNDARY_ALLOWED_STATUSES status = true →
  forallb (closed_value ports) observations = true → closed_value ports (VDict metadata) = true →
  forallb (closed_value ports) warnings = true → forallb (closed_value ports) errors = true →
  let result :=
    [("status", status); ("profile", VStr RunnerNmap.ACTIVE_NMAP_BASIC_PROFILE);
     ("manual_validation_required", VBool true);
     ("result_interpretation", VStr "observed_exposure_review_indicator"); ("observations", VList observations);
     ("output_truncated", VBool truncated); ("execution_metadata", VDict metadata); ("warnings", VList warnings);
     ("errors", VList errors)] in
  closed_value ports (VDict (if truthy (_safe_target_kind kind)
    then dict_set "target_kind" (VStr (_safe_target_kind kind)) result else result)) = true.
Proof.
  intros Hs Ho Hm Hw He result.
  assert (Hr : closed_value ports (VDict result) = true).
  { unfold result. cbn [closed_value forallb fst snd]. cbn [closed_value] in Hm.
    rewrite (str_in_closed ports _ _ (λ w Hw, report_word w (or_introl Hw)) Hs), Ho, Hm, Hw, He. reflexivity. }
  clearbody result. destruct (truthy _) eqn:Et; [|done]. apply closed_dict_set; [done|done|].
  destruct kind as [| | | |s| |]; try done. cbn [_safe_target_kind closed_value] in *.
  destruct (mem s _) eqn:E; [|done]. apply mem_true in E. apply mem_true. unfold report_words.
  rewrite !elem_of_app. right. right. right. right. set_solver.
Qed.

Lemma report_closed response accepted_ports target_kind :
  let report := validate_active_nmap_basic_boundary_response response accepted_ports target_kind in
  closed_value accepted_ports (VDict report) = true
  ∧ get "profile" report = VStr "tcp_connect_small" ∧ get "manual_validation_required" report = VBool true
  ∧ get "result_interpretation" report = VStr "observed_exposure_review_indicator".
Proof.
  cbv zeta. assert (He : ∀ c, closed_value accepted_ports (VDict (map_active_nmap_basic_boundary_error c)) = true
    ∧ get "profile" (map_active_nmap_basic_boundary_error c) = VStr "tcp_connect_small"
    ∧ get "manual_validation_required" (map_active_nmap_basic_boundary_error c) = VBool true
    ∧ get "result_interpretation" (map_active_nmap_basic_boundary_error c) = VStr "observed_exposure_review_indicator")
    by (intros c; split; [apply error_report_closed|done]).
  destruct response as [| | | | | |d]; try apply He. cbn [validate_active_nmap_basic_boundary_response].
  destruct (_response_over_limit d); [apply He|]. destruct (_ || _); [apply He|].
  destruct (str_in _ (get "status" d)) eqn:Es; [|apply He]. cbn [negb].
  destruct (_safe_observations _ _) as [obs|c] eqn:Eo; [|apply He].
  split; [|by destruct (truthy _)].
  apply closed_report; [done| |apply execution_metadata_closed|apply controlled_strings_closed..].
  by eapply safe_observations_closed.
Qed.

(** Nothing of a response reaches the report but its closed vocabulary.
    Whatever value the runner answers, the report's keys and texts, at any
    depth, are among the fixed ones, its integers are accepted ports or
    durations up to an hour, and no sensitive key occurs in it; its profile,
    its interpretation and the call for manual validation are fixed.  A
    response in which a sensitive key occurs at any depth is answered by an
    error report. *)
Theorem boundary_report_closed response accepted_ports target_kind :
  let report := validate_active_nmap_basic_boundary_response response accepted_ports target_kind in
  closed_value accepted_ports (VDict report) = true
  ∧ (∀ k, key_occurs k (VDict report) → _normalize_key k ∉ ACTIVE_NMAP_BASIC_BOUNDARY_SENSITIVE_FIELDS)
  ∧ get "profile" report = VStr "tcp_connect_small" ∧ get "manual_validation_required" report = VBool true
  ∧ get "result_interpretation" report = VStr "observed_exposure_review_indicator"
  ∧ (∀ k, key_occurs k response → _normalize_key k ∈ ACTIVE_NMAP_BASIC_BOUNDARY_SENSITIVE_FIELDS →
     report = map_active_nmap_basic_boundary_error "unexpected_fields"
     ∨ report = map_active_nmap_basic_boundary_error "result_too_large"
     ∨ report = map_active_nmap_basic_boundary_error "malformed_output").
Proof.
  cbv zeta. destruct (report_closed response accepted_ports target_kind) as (Hc & H1 & H2 & H3).
  split; [done|]. split; [intros k; by eapply closed_not_sensitive|]. repeat (split; [done|]). intros k Hk Hs.
  destruct response as [| | | | |l|d]; try (by right; right). cbn [validate_active_nmap_basic_boundary_response].
  destruct (_response_over_limit d); [by right; left|]. left.
  rewrite (proj2 (contains_sensitive_occurs (VDict d))), orb_true_r by eauto. done.
Qed.
