(* ===== verification/NmapClient.v ===== *)
(** * NmapClient: the backend's client of the Active runner

    [backend/app/active_tools_client.py]: the request it agrees to send, the
    answer it accepts, and the health report.  The transport ([httpx]) and
    the check of the configured base URL are arguments. *)

From S2P Require Import Prelude PyStr IpAddress PyValue NmapPolicy NmapHandoff NmapBoundary.

(** ** Tables *)

(** backend/app/active_tools_client.py [ACTIVE_TOOLS_NMAP_BASIC_MODE] *)
Definition ACTIVE_TOOLS_NMAP_BASIC_MODE : string := "live_nmap_basic".
(** backend/app/active_tools_client.py [ACTIVE_TOOLS_NMAP_BASIC_PROFILE] *)
Definition ACTIVE_TOOLS_NMAP_BASIC_PROFILE : string := "tcp_connect_small".
(** backend/app/active_tools_client.py [ACTIVE_TOOLS_NMAP_BASIC_MAX_PORTS] *)
Definition ACTIVE_TOOLS_NMAP_BASIC_MAX_PORTS : nat := 32.
(** backend/app/active_tools_client.py [ACTIVE_TOOLS_NMAP_BASIC_ALLOWED_REQUEST_FIELDS] *)
Definition ACTIVE_TOOLS_NMAP_BASIC_ALLOWED_REQUEST_FIELDS : list string :=
  ["confirmations_verified_by_backend"; "correlation_id"; "job_id"; "limits"; "mode"; "profile"; "request_id";
   "target_unit"].
(** backend/app/active_tools_client.py [ACTIVE_TOOLS_NMAP_BASIC_ALLOWED_TARGET_UNIT_FIELDS] *)
Definition ACTIVE_TOOLS_NMAP_BASIC_ALLOWED_TARGET_UNIT_FIELDS : list string :=
  ["accepted_ports"; "target"; "target_kind"].
(** backend/app/active_tools_client.py [ACTIVE_TOOLS_NMAP_BASIC_ALLOWED_TARGET_KINDS] *)
Definition ACTIVE_TOOLS_NMAP_BASIC_ALLOWED_TARGET_KINDS : list string :=
  ["authorized_fqdn"; "container_loopback"; "private_hostname"; "private_ip"].
(** backend/app/active_tools_client.py [ACTIVE_TOOLS_NMAP_BASIC_ALLOWED_LIMIT_FIELDS] *)
Definition ACTIVE_TOOLS_NMAP_BASIC_ALLOWED_LIMIT_FIELDS : list string :=
  ["process_timeout_seconds"; "response_max_bytes"; "stderr_max_bytes"; "stdout_max_bytes"].
(** backend/app/active_tools_client.py [ACTIVE_TOOLS_NMAP_BASIC_ALLOWED_RESPONSE_FIELDS] *)
Definition ACTIVE_TOOLS_NMAP_BASIC_ALLOWED_RESPONSE_FIELDS : list string :=
  ["capability"; "errors"; "execution_metadata"; "execution_enabled"; "job_created";
   "manual_validation_required"; "mode"; "network_requests_sent"; "observations"; "output_truncated";
   "profile"; "reason"; "result_interpretation"; "service"; "status"; "summary"; "target_kind";
   "target_expansion_performed"; "target_input_allowed"; "warnings"].
(** backend/app/active_tools_client.py [ACTIVE_TOOLS_NMAP_BASIC_ALLOWED_SUMMARY_FIELDS] *)
Definition ACTIVE_TOOLS_NMAP_BASIC_ALLOWED_SUMMARY_FIELDS : list string :=
  ["evidence_available"; "fake_executor"; "nmap_executed"; "port_count"; "target_count"].
(** backend/app/active_tools_client.py [ACTIVE_TOOLS_NMAP_BASIC_SENSITIVE_FIELDS] *)
Definition ACTIVE_TOOLS_NMAP_BASIC_SENSITIVE_FIELDS : list string :=
  ["args"; "argv"; "banner"; "banners"; "cmd"; "command"; "cookie"; "cookies"; "credential"; "credentials";
   "extra_args"; "header"; "headers"; "host"; "hostname"; "hostnames"; "ip"; "ips"; "local_path"; "nse";
   "nse_output"; "ptr_hostname"; "ptr_hostnames"; "raw_args"; "raw_command"; "raw_stderr"; "raw_stdout";
   "raw_xml"; "resolved_ip"; "resolved_ips"; "script"; "script_output"; "scripts"; "service_banner";
   "service_product"; "stderr"; "stdout"; "target_file"; "target_files"; "token"; "tokens"; "version"; "xml"].
(** backend/app/active_tools_client.py [ACTIVE_TOOLS_NMAP_BASIC_ERROR_CODES] *)
Definition ACTIVE_TOOLS_NMAP_BASIC_ERROR_CODES : list string :=
  ["active_tools_invalid_response"; "active_tools_timeout"; "active_tools_unavailable";
   "active_tools_unconfigured"; "active_tools_unexpected_fields"].
(** backend/app/active_tools_client.py [ACTIVE_TOOLS_NMAP_BASIC_ERROR_STATUS] *)
Definition ACTIVE_TOOLS_NMAP_BASIC_ERROR_STATUS : dict string :=
  [("active_tools_invalid_response", "malformed"); ("active_tools_timeout", "timed_out");
   ("active_tools_unavailable", "failed"); ("active_tools_unconfigured", "failed");
   ("active_tools_unexpected_fields", "blocked")].
(** backend/app/active_tools_client.py [ACTIVE_TOOLS_NMAP_BASIC_REAL_STATUSES] *)
Definition ACTIVE_TOOLS_NMAP_BASIC_REAL_STATUSES : list string :=
  ["blocked"; "completed"; "empty"; "failed"; "malformed"; "nmap_missing"; "no_ports"; "timed_out";
   "truncated"; "unsupported_shape"].
(** backend/app/active_tools_client.py [ACTIVE_TOOLS_HEALTH_ALLOWED_FIELDS] *)
Definition ACTIVE_TOOLS_HEALTH_ALLOWED_FIELDS : list string :=
  ["capabilities"; "network_requests_sent"; "nmap_executed"; "service"; "status"].
(** backend/app/active_tools_client.py [ACTIVE_TOOLS_HEALTH_ALLOWED_CAPABILITIES] *)
Definition ACTIVE_TOOLS_HEALTH_ALLOWED_CAPABILITIES : list string :=
  ["active_nmap_basic"; "active_dns_inventory"; "active_dns_osint"; "active_http_basic_header_review";
   "active_tls_basic"; "active_asset_verification"].
(** backend/app/active_tools_client.py [ACTIVE_TOOLS_HEALTH_ALLOWED_CAPABILITY_FIELDS] *)
Definition ACTIVE_TOOLS_HEALTH_ALLOWED_CAPABILITY_FIELDS : list string :=
  ["execution_enabled"; "status"; "target_input_allowed"].
(** backend/app/active_tools_client.py [ACTIVE_TOOLS_HEALTH_ERROR_CODES] *)
Definition ACTIVE_TOOLS_HEALTH_ERROR_CODES : list string :=
  ["active_tools_unconfigured"; "active_tools_unavailable"; "active_tools_timeout";
   "active_tools_invalid_response"; "active_tools_unexpected_fields"; "active_tools_not_ready"].

(** ** Tests on values *)

(** [{f(key) for key in d} == words], and [!=]. *)
Definition same_set (l k : list string) : bool := all_of (λ x, mem x k) l && all_of (λ x, mem x l) k.

(** [v in words] for a set of texts: a list or a dictionary cannot be hashed. *)
Definition in_set (words : list string) (v : value) : outcome bool :=
  match v with
  | VList _ | VDict _ => Err "TypeError"
  | _ => Ok (str_in words v)
  end.

(** backend/app/active_tools_client.py [_safe_status] *)
Definition _safe_status (v : value) : value :=
  match v with VStr s => if truthy s then VStr s else VNone | _ => VNone end.

(** backend/app/active_tools_client.py [_is_non_negative_int] *)
Definition _is_non_negative_int (v : value) : bool := match v with VInt z => (0 <=? z)%Z | _ => false end.

(** backend/app/active_tools_client.py [_is_positive_int] *)
Definition _is_positive_int (v : value) : bool := match v with VInt z => (0 <? z)%Z | _ => false end.

(** The ports of a value that is a list of them.
    [_is_port_list(v)] is that there are some. *)
(** backend/app/active_tools_client.py [_is_port_list] *)
Definition port_list (v : value) : option (list Z) :=
  match v with
  | VList l =>
      if (length l =? 0)%nat || (ACTIVE_TOOLS_NMAP_BASIC_MAX_PORTS <? length l)%nat then None else
      mapM (λ port, match port with
        | VInt port => if ((1 <=? port) && (port <=? 65535))%Z then Some port else None
        | _ => None
        end) l
  | _ => None
  end.

(** backend/app/active_tools_client.py [_is_safe_identifier] *)
Definition _is_safe_identifier (v : value) : bool :=
  match v with
  | VStr s => truthy s && (len s <=? 128)%nat && all_chars (λ c, is_alnum c || one_of "-_.:" c) s
  | _ => false
  end.

(** backend/app/active_tools_client.py [_controlled_nmap_basic_strings] *)
Definition _controlled_nmap_basic_strings (v : value) : list value :=
  match v with
  | VList l => List.filter (str_in ["no_scan_service_skeleton"]) l
  | _ => []
  end.

(** backend/app/active_tools_client.py [_normalize_key] *)
Definition _normalize_key (key : string) : string := replace_char "-" "_" (lower key).

(** ** The client's own error answers *)

(** [status] is [None] where the call leaves it out. *)
(** backend/app/active_tools_client.py [_active_tools_nmap_basic_error] *)
Definition _active_tools_nmap_basic_error (error_code : string) (status : value) : dict value :=
  let controlled_error :=
    if mem error_code ACTIVE_TOOLS_NMAP_BASIC_ERROR_CODES then error_code else "active_tools_unexpected_fields" in
  [("available", VBool false);
   ("status", if py_bool status then status
              else VStr (default "" (dict_get controlled_error ACTIVE_TOOLS_NMAP_BASIC_ERROR_STATUS)));
   ("service", VStr "active-tools"); ("capability", VStr "active_nmap_basic");
   ("mode", VStr ACTIVE_TOOLS_NMAP_BASIC_MODE); ("profile", VStr ACTIVE_TOOLS_NMAP_BASIC_PROFILE);
   ("execution_enabled", VNone); ("target_input_allowed", VNone); ("manual_validation_required", VBool true);
   ("job_created", VBool false); ("target_expansion_performed", VBool false); ("network_requests_sent", VNone);
   ("nmap_executed", VNone); ("evidence_available", VNone); ("observations", VList []); ("warnings", VList []);
   ("errors", VList [VStr controlled_error]); ("error_code", VStr controlled_error)].

(** ** The request *)

(* [None]: the request may be sent. *)
(** backend/app/active_tools_client.py [validate_active_tools_nmap_basic_request] *)
Definition validate_active_tools_nmap_basic_request (payload : value) : outcome (option (dict value)) :=
  let error c := Some (_active_tools_nmap_basic_error c VNone) in
  match payload with
  | VDict payload =>
      let keys := _normalize_key <$> payload.*1 in
      if negb (same_set keys ACTIVE_TOOLS_NMAP_BASIC_ALLOWED_REQUEST_FIELDS)
      then Ok (error "active_tools_unexpected_fields") else
      if any_of (λ k, mem k ACTIVE_TOOLS_NMAP_BASIC_SENSITIVE_FIELDS) keys
      then Ok (error "active_tools_unexpected_fields") else
      if negb (py_eq (get "mode" payload) (VStr ACTIVE_TOOLS_NMAP_BASIC_MODE))
         || negb (py_eq (get "profile" payload) (VStr ACTIVE_TOOLS_NMAP_BASIC_PROFILE))
      then Ok (error "active_tools_invalid_response") else
      if negb (is_true (get "confirmations_verified_by_backend" payload))
      then Ok (error "active_tools_invalid_response") else
      if any_of (λ k, negb (_is_safe_identifier (get k payload))) ["request_id"; "job_id"; "correlation_id"]
      then Ok (error "active_tools_invalid_response") else
      match get "target_unit" payload with
      | VDict target_unit =>
          let target_unit_keys := _normalize_key <$> target_unit.*1 in
          if negb (same_set target_unit_keys ACTIVE_TOOLS_NMAP_BASIC_ALLOWED_TARGET_UNIT_FIELDS)
          then Ok (error "active_tools_unexpected_fields") else
          if any_of (λ k, mem k ACTIVE_TOOLS_NMAP_BASIC_SENSITIVE_FIELDS) target_unit_keys
          then Ok (error "active_tools_unexpected_fields") else
          if match get "target" target_unit with
             | VStr target => negb (truthy target) || (253 <? len target)%nat || any_char is_space target
             | _ => true
             end
          then Ok (error "active_tools_invalid_response") else
          kind_known ← in_set ACTIVE_TOOLS_NMAP_BASIC_ALLOWED_TARGET_KINDS (get "target_kind" target_unit);
          if negb kind_known then Ok (error "active_tools_invalid_response") else
          match port_list (get "accepted_ports" target_unit) with
          | None => Ok (error "active_tools_invalid_response")
          | Some _ =>
              match get "limits" payload with
              | VDict limits =>
                  if negb (same_set (_normalize_key <$> limits.*1) ACTIVE_TOOLS_NMAP_BASIC_ALLOWED_LIMIT_FIELDS)
                  then Ok (error "active_tools_unexpected_fields") else
                  if any_of (λ v, negb (_is_positive_int v)) limits.*2
                  then Ok (error "active_tools_invalid_response") else Ok None
              | _ => Ok (error "active_tools_invalid_response")
              end
          end
      | _ => Ok (error "active_tools_invalid_response")
      end
  | _ => Ok (error "active_tools_invalid_response")
  end.

(** ** The answer *)

(* The status tested against the real statuses is a text here: the boundary
   answers an error otherwise. *)
(** backend/app/active_tools_client.py [validate_active_tools_nmap_basic_response] *)
Definition validate_active_tools_nmap_basic_response (payload : value) (request_payload : dict value) : dict value :=
  let error c := _active_tools_nmap_basic_error c VNone in
  match payload with
  | VDict payload =>
      let keys := _normalize_key <$> payload.*1 in
      if any_of (λ k, negb (mem k ACTIVE_TOOLS_NMAP_BASIC_ALLOWED_RESPONSE_FIELDS)) keys
         || any_of (λ k, mem k ACTIVE_TOOLS_NMAP_BASIC_SENSITIVE_FIELDS) keys
      then error "active_tools_unexpected_fields" else
      match get "summary" payload with
      | VDict summary =>
          let summary_keys := _normalize_key <$> summary.*1 in
          if any_of (λ k, negb (mem k ACTIVE_TOOLS_NMAP_BASIC_ALLOWED_SUMMARY_FIELDS)) summary_keys
          then error "active_tools_unexpected_fields" else
          if any_of (λ k, mem k ACTIVE_TOOLS_NMAP_BASIC_SENSITIVE_FIELDS) summary_keys
          then error "active_tools_unexpected_fields" else
          let accepted_ports :=
            match get "target_unit" request_payload with
            | VDict request_target_unit => get "accepted_ports" request_target_unit
            | _ => VList []
            end in
          let expected_port_count :=
            match port_list accepted_ports with Some ps => VInt (Z.of_nat (length ps)) | None => VNone end in
          let execution_enabled := get "execution_enabled" payload in
          let target_input_allowed := default (VBool false) (dict_get "target_input_allowed" payload) in
          let job_created := get "job_created" payload in
          let target_expansion_performed := get "target_expansion_performed" payload in
          let network_requests_sent := get "network_requests_sent" payload in
          let nmap_executed := get "nmap_executed" summary in
          let evidence_available := get "evidence_available" summary in
          let observations := get "observations" payload in
          if py_eq (get "status" payload) (VStr "not_executed") then
            if negb (py_eq (get "service" payload) (VStr "active-tools"))
               || negb (py_eq (get "capability" payload) (VStr "active_nmap_basic"))
               || negb (py_eq (get "mode" payload) (VStr ACTIVE_TOOLS_NMAP_BASIC_MODE))
               || negb (py_eq (get "profile" payload) (VStr ACTIVE_TOOLS_NMAP_BASIC_PROFILE))
               || negb (is_true (get "manual_validation_required" payload))
               || negb (is_false execution_enabled) || negb (is_false target_input_allowed)
               || negb (is_false job_created) || negb (is_false target_expansion_performed)
               || negb (py_eq network_requests_sent (VInt 0)) || negb (is_false nmap_executed)
               || negb (is_false evidence_available) || negb (py_eq observations (VList []))
               || negb (py_eq (get "target_count" summary) (VInt 1))
               || negb (py_eq (get "port_count" summary) expected_port_count)
            then error "active_tools_invalid_response" else
            [("available", VBool true); ("status", VStr "not_executed"); ("service", VStr "active-tools");
             ("capability", VStr "active_nmap_basic"); ("mode", VStr ACTIVE_TOOLS_NMAP_BASIC_MODE);
             ("profile", VStr ACTIVE_TOOLS_NMAP_BASIC_PROFILE); ("execution_enabled", VBool false);
             ("target_input_allowed", VBool false); ("manual_validation_required", VBool true);
             ("job_created", VBool false); ("target_expansion_performed", VBool false);
             ("network_requests_sent", VInt 0); ("nmap_executed", VBool false); ("evidence_available", VBool false);
             ("observations", VList []);
             ("warnings", VList (_controlled_nmap_basic_strings (get "warnings" payload)));
             ("errors", VList (_controlled_nmap_basic_strings (get "errors" payload))); ("error_code", VNone)]
          else
          let boundary_payload :=
            (λ k, (k, get k payload)) <$>
              ["status"; "profile"; "target_kind"; "manual_validation_required"; "result_interpretation";
               "observations"; "output_truncated"; "execution_metadata"; "warnings"; "errors"] in
          let boundary_result :=
            validate_active_nmap_basic_boundary_response (VDict boundary_payload)
              (default [] (port_list accepted_ports)) (get "target_kind" payload) in
          match get "errors" boundary_result with
          | VList (e :: es) =>
              _active_tools_nmap_basic_error
                (if any_of (λ x, py_eq x (VStr "unexpected_fields")) (e :: es)
                 then "active_tools_unexpected_fields" else "active_tools_invalid_response")
                (get "status" boundary_result)
          | _ =>
              if negb (py_eq (get "service" payload) (VStr "active-tools"))
                 || negb (str_in ACTIVE_TOOLS_NMAP_BASIC_REAL_STATUSES (get "status" payload))
                 || negb (py_eq (get "capability" payload) (VStr "active_nmap_basic"))
                 || negb (py_eq (get "mode" payload) (VStr ACTIVE_TOOLS_NMAP_BASIC_MODE))
                 || negb (py_eq (get "profile" payload) (VStr ACTIVE_TOOLS_NMAP_BASIC_PROFILE))
                 || negb (is_true (get "manual_validation_required" payload))
                 || negb (is_true execution_enabled) || negb (is_false target_input_allowed)
                 || negb (is_false job_created) || negb (is_false target_expansion_performed)
                 || negb (_is_non_negative_int network_requests_sent) || negb (is_bool nmap_executed)
                 || negb (is_bool evidence_available)
                 || negb (py_eq (get "target_count" summary) (VInt 1))
                 || negb (py_eq (get "port_count" summary) expected_port_count)
              then error "active_tools_invalid_response" else
              [("available", VBool true); ("status", get "status" boundary_result); ("service", VStr "active-tools");
               ("capability", VStr "active_nmap_basic"); ("mode", VStr ACTIVE_TOOLS_NMAP_BASIC_MODE);
               ("profile", VStr ACTIVE_TOOLS_NMAP_BASIC_PROFILE); ("target_kind", get "target_kind" boundary_result);
               ("execution_enabled", VBool true); ("target_input_allowed", VBool false);
               ("manual_validation_required", VBool true); ("job_created", VBool false);
               ("target_expansion_performed", VBool false); ("network_requests_sent", network_requests_sent);
               ("nmap_executed", nmap_executed); ("evidence_available", evidence_available);
               ("observations", get "observations" boundary_result);
               ("output_truncated", get "output_truncated" boundary_result);
               ("execution_metadata", get "execution_metadata" boundary_result);
               ("result_interpretation", get "result_interpretation" boundary_result);
               ("warnings", get "warnings" boundary_result); ("errors", get "errors" boundary_result);
               ("error_code", VNone)]
          end
      | _ => error "active_tools_invalid_response"
      end
  | _ => error "active_tools_invalid_response"
  end.

(** ** The call *)

(** How a post comes back: [httpx]'s exceptions, a body that is not JSON, or
    a decoded body. *)
Inductive http_answer : Type :=
| TimeoutException
| HTTPStatusError
| RequestError
| NotJson
| Body (payload : value).

Section client.
Context (_normalize_active_tools_base_url : option string → string).
Context (post : string → dict value → http_answer).

(* The requests posted, and the answer. *)
(** backend/app/active_tools_client.py [run_active_nmap_basic] *)
Definition run_active_nmap_basic (base_url : option string) (request_payload : dict value)
  : outcome (list (string * dict value) * dict value) :=
  request_error ← validate_active_tools_nmap_basic_request (VDict request_payload);
  match request_error with
  | Some request_error => Ok ([], request_error)
  | None =>
      let normalized_base_url := _normalize_active_tools_base_url base_url in
      if negb (truthy normalized_base_url) then Ok ([], _active_tools_nmap_basic_error "active_tools_unconfigured" VNone) else
      let url := (normalized_base_url ++ "/active/nmap-basic")%string in
      Ok ([(url, request_payload)],
        match post url request_payload with
        | TimeoutException => _active_tools_nmap_basic_error "active_tools_timeout" VNone
        | HTTPStatusError | RequestError => _active_tools_nmap_basic_error "active_tools_unavailable" VNone
        | NotJson => _active_tools_nmap_basic_error "active_tools_invalid_response" VNone
        | Body payload => validate_active_tools_nmap_basic_response payload request_payload
        end)
  end.
End client.

(** ** Health *)

(** backend/app/active_tools_client.py 530-535 [_active_tools_health_error] *)
Definition empty_capability : value :=
  VDict [("status", VNone); ("execution_enabled", VNone); ("target_input_allowed", VNone)].

Definition bool_or_none (v : value) : value := if is_bool v then v else VNone.

(** backend/app/active_tools_client.py 537-545 [_active_tools_health_error] *)
Definition safe_capability (capabilities : dict value) (capability : string) : value :=
  match get capability capabilities with
  | VDict candidate =>
      VDict [("status", _safe_status (get "status" candidate));
             ("execution_enabled", bool_or_none (get "execution_enabled" candidate));
             ("target_input_allowed", bool_or_none (get "target_input_allowed" candidate))]
  | _ => empty_capability
  end.

(** backend/app/active_tools_client.py [_active_tools_health_error] *)
Definition _active_tools_health_error (error_code : string) (status : value) (capabilities : option (dict value))
  (active_nmap_basic_status execution_enabled target_input_allowed network_requests_sent nmap_executed : value)
  : dict value :=
  let controlled_error := if mem error_code ACTIVE_TOOLS_HEALTH_ERROR_CODES then VStr error_code else VNone in
  let safe_capabilities :=
    (λ capability, (capability, match capabilities with
      | Some d => safe_capability d capability
      | None => empty_capability
      end)) <$> sorted_strs ACTIVE_TOOLS_HEALTH_ALLOWED_CAPABILITIES in
  [("available", VBool false); ("status", status); ("capabilities", VDict safe_capabilities);
   ("active_nmap_basic_status", active_nmap_basic_status); ("execution_enabled", execution_enabled);
   ("target_input_allowed", target_input_allowed); ("network_requests_sent", network_requests_sent);
   ("nmap_executed", nmap_executed); ("error_code", controlled_error)].

Definition health_error (error_code : string) : dict value :=
  _active_tools_health_error error_code VNone None VNone VNone VNone VNone VNone.

(* One capability: its normalized entry, and whether it is valid; an error is
   the answer returned early. *)
(** backend/app/active_tools_client.py 464-483 [validate_active_tools_health_payload] *)
Definition health_capability (capabilities : dict value) (capability : string) : outcome (dict value * bool) :=
  match get capability capabilities with
  | VDict candidate =>
      raise "active_tools_unexpected_fields" when
        negb (same_set (_normalize_key <$> candidate.*1) ACTIVE_TOOLS_HEALTH_ALLOWED_CAPABILITY_FIELDS);;
      let capability_status := _safe_status (get "status" candidate) in
      let execution_enabled := get "execution_enabled" candidate in
      let target_input_allowed := get "target_input_allowed" candidate in
      Ok ([("status", capability_status); ("execution_enabled", bool_or_none execution_enabled);
           ("target_input_allowed", bool_or_none target_input_allowed)],
          str_in ["disabled_no_scan"; "ready_bounded_execution"] capability_status
          && is_bool execution_enabled && is_false target_input_allowed
          && py_eq (VBool (py_eq capability_status (VStr "ready_bounded_execution"))) execution_enabled)
  | _ => Err "active_tools_invalid_response"
  end.

(** backend/app/active_tools_client.py [validate_active_tools_health_payload] *)
Definition validate_active_tools_health_payload (payload : value) : dict value :=
  match payload with
  | VDict payload =>
      if negb (same_set (_normalize_key <$> payload.*1) ACTIVE_TOOLS_HEALTH_ALLOWED_FIELDS)
      then health_error "active_tools_unexpected_fields" else
      match get "capabilities" payload with
      | VDict capabilities =>
          if negb (same_set (_normalize_key <$> capabilities.*1) ACTIVE_TOOLS_HEALTH_ALLOWED_CAPABILITIES)
          then health_error "active_tools_unexpected_fields" else
          let names := sorted_strs ACTIVE_TOOLS_HEALTH_ALLOWED_CAPABILITIES in
          match traverse (health_capability capabilities) names with
          | Err error_code => health_error error_code
          | Ok checked =>
              let capabilities_valid := all_of snd checked in
              let normalized_capabilities := zip names (VDict <$> checked.*1) in
              let nmap_capability :=
                match get "active_nmap_basic" normalized_capabilities with VDict d => d | _ => [] end in
              let status := _safe_status (get "status" payload) in
              let network_requests_sent := get "network_requests_sent" payload in
              let nmap_executed := get "nmap_executed" payload in
              let result :=
                _active_tools_health_error "" status (Some normalized_capabilities) (get "status" nmap_capability)
                  (get "execution_enabled" nmap_capability) (get "target_input_allowed" nmap_capability)
                  (if _is_non_negative_int network_requests_sent then network_requests_sent else VNone)
                  (bool_or_none nmap_executed) in
              if negb (py_eq (get "service" payload) (VStr "active-tools"))
                 || negb (py_eq status (VStr "scaffold_ready")) || negb capabilities_valid
              then dict_set "error_code" (VStr "active_tools_not_ready") result else
              if negb (_is_non_negative_int network_requests_sent) || negb (is_bool nmap_executed)
              then dict_set "error_code" (VStr "active_tools_invalid_response") result else
              if negb (py_eq network_requests_sent (VInt 0)) || py_bool nmap_executed
              then dict_set "error_code" (VStr "active_tools_invalid_response") result else
              dict_set "error_code" VNone (dict_set "available" (VBool true) result)
          end
      | _ => health_error "active_tools_invalid_response"
      end
  | _ => health_error "active_tools_invalid_response"
  end.
