(* ===== verification/NmapRequest.v ===== *)
(** * NmapRequest: the requests of a plan

    Every unit of a handoff plan ([NmapHandoff]) becomes, through the request
    builder ([NmapBoundary]), a request the client ([NmapClient]) sends: the
    two validations, written separately, agree, but for one case of long
    identifiers. *)

From S2P Require Import Prelude PyStr IpAddress PyValue NmapPolicy NmapHandoff NmapBoundary NmapClient.

(** ** Identifiers *)

Lemma sub_unsafe_chars b l : forallb is_safe_id_char (sub_unsafe b l) = true.
Proof.
  revert b. induction l as [|c l IH]; intros b; [done|]. cbn [sub_unsafe].
  destruct (is_safe_id_char c) eqn:E; [cbn [forallb]; by rewrite E, IH|]. destruct b; [apply IH|].
  cbn [forallb]. by rewrite IH.
Qed.

Lemma sub_ipv4_chars k b l : forallb is_safe_id_char l = true → forallb is_safe_id_char (sub_ipv4 k b l) = true.
Proof.
  revert k b. induction l as [|c l IH]; intros k b Hl; [done|]. cbn [forallb] in Hl.
  apply andb_true_iff in Hl as [Hc Hl]. cbn [sub_ipv4]. destruct k as [|k]; [|by apply IH].
  destruct (if b then None else _) as [n|]; [|cbn [forallb]; by rewrite Hc, IH].
  rewrite forallb_app, IH by done. reflexivity.
Qed.

Lemma drop_while_forallb (p q : ascii → bool) l : forallb q l = true → forallb q (drop_while p l) = true.
Proof.
  intros H. induction l as [|c l IH]; [done|]. cbn [forallb drop_while] in *. apply andb_true_iff in H as [Hc Hl].
  destruct (p c); [by apply IH|]. cbn [forallb]. by rewrite Hc, Hl.
Qed.

Lemma forallb_reverse {A} (q : A → bool) l : forallb q (reverse l) = forallb q l.
Proof.
  unfold reverse. rewrite <- rev_alt. induction l as [|x l IH]; [done|]. cbn [rev forallb]. rewrite forallb_app, IH. cbn. by rewrite andb_true_r, andb_comm.
Qed.

Lemma strip_chars_all q cs s : all_chars q s = true → all_chars q (strip_chars cs s) = true.
Proof.
  unfold all_chars, strip_chars, rdrop_while. intros H. rewrite chars_text, forallb_reverse.
  apply drop_while_forallb. rewrite forallb_reverse. by apply drop_while_forallb.
Qed.

(** An identifier of a request is never empty, and has safe characters. *)
Lemma boundary_id_safe v dflt :
  truthy dflt = true → all_chars is_safe_id_char dflt = true →
  truthy (_safe_boundary_id v dflt) = true ∧ all_chars is_safe_id_char (_safe_boundary_id v dflt) = true.
Proof.
  intros Ht Hd. destruct v as [| | | |s| |]; try done. cbn [_safe_boundary_id].
  destruct (negb (truthy s)); [done|]. cbv zeta. set (safe := text (sub_ipv4 _ _ _)).
  assert (Hs : all_chars is_safe_id_char safe = true).
  { unfold safe, all_chars. rewrite chars_text. apply sub_ipv4_chars. apply strip_chars_all.
    unfold all_chars, str_take. rewrite !chars_text. apply forallb_forall. intros c Hc.
    apply list_elem_of_In, elem_of_take in Hc as (i & Hi & _). apply list_elem_of_lookup_2 in Hi.
    pose proof (sub_unsafe_chars false (chars s)) as H. rewrite forallb_forall in H. apply H. by apply list_elem_of_In. }
  destruct (truthy safe) eqn:E; done.
Qed.

Lemma boundary_id_accepted v dflt :
  truthy dflt = true → all_chars is_safe_id_char dflt = true →
  _is_safe_identifier (VStr (_safe_boundary_id v dflt)) = (len (_safe_boundary_id v dflt) <=? 128)%nat.
Proof.
  intros Ht Hd. destruct (boundary_id_safe v dflt Ht Hd) as [H1 H2]. cbn [_is_safe_identifier]. rewrite H1.
  assert (H3 : all_chars (λ c, is_alnum c || one_of "-_.:" c) (_safe_boundary_id v dflt) = true)
    by (eapply all_chars_impl; [|exact H2]; apply every_char'; vm_compute; reflexivity).
  by rewrite H3, andb_true_r.
Qed.

(** ** Targets *)

(** What the client asks of a target holds of every normal form. *)
Lemma normal_form_target v n :
  _normalize_single_target v = Ok n → contains "%" n = false →
  truthy n = true ∧ (len n <= 253)%nat ∧ any_char is_space n = false.
Proof.
  intros H Hc. pose proof (normal_form_stable v n H Hc) as Hn. unfold _normalize_single_target in Hn.
  inv_ok Hn. to_prop. match goal with E : strip n = n |- _ => rewrite E in * end.
  unfold ACTIVE_NMAP_BASIC_MAX_TARGET_LENGTH in *. repeat split; try done; lia.
Qed.

Lemma plan_ports_accepted ps :
  1 ≤ length ps ≤ 32 → Forall (λ p, 1 <= p <= 65535)%Z ps → port_list (VList (VInt <$> ps)) = Some ps.
Proof.
  intros Hn Hp. unfold port_list. rewrite length_fmap. unfold ACTIVE_TOOLS_NMAP_BASIC_MAX_PORTS.
  destruct (Nat.eqb_spec (length ps) 0); [lia|]. destruct (Nat.ltb_spec 32 (length ps)); [lia|]. cbn [orb].
  clear -Hp. induction Hp as [|p ps H _ IH]; [done|]. cbn [fmap list_fmap mapM]. rewrite IH.
  destruct (Z.leb_spec 1 p), (Z.leb_spec p 65535); [done|lia..].
Qed.

(** The client sends every request of a plan.  A unit of a handoff plan
    (with no scope in its address) makes a request that passes the client's own
    validation, whatever identifiers the caller gives, unless one of the three
    identifiers is longer than 128 characters once cleaned; such a request is
    refused without being sent. *)
Theorem planned_request_sent payload plan i u job_id request_id correlation_id :
  build_active_nmap_basic_handoff_plan payload = Ok plan → units plan !! i = Some u →
  contains "%" (unit_target u) = false →
  let request := build_active_nmap_basic_boundary_request u job_id request_id correlation_id in
  validate_active_tools_nmap_basic_request (VDict request)
  = Ok (if all_of (λ k, match get k request with VStr s => (len s <=? 128)%nat | _ => false end)
             ["request_id"; "job_id"; "correlation_id"]
        then None else Some (_active_tools_nmap_basic_error "active_tools_invalid_response" VNone)).
Proof.
  intros H Hu Hc. apply plan_of_payload in H as (ts & ps & _ & _ & _ & Hn & Hp & _ & Hf & Heq & _).
  destruct (Forall2_lookup_r _ _ _ _ _ Hf Hu) as (t & _ & Ht).
  destruct (normal_form_target _ _ Ht Hc) as (H1 & H2 & H3).
  rewrite (Heq i u Hu) in *. cbn [unit_target] in *. set (n := unit_target u) in *. cbv zeta.
  unfold build_active_nmap_basic_boundary_request. cbn [unit_target unit_ports sequence_index
    unit_authorization_confirmed unit_local_private_scope_confirmed unit_live_traffic_confirmed].
  set (corr := if py_bool correlation_id then _ else _).
  pose proof (boundary_id_accepted request_id "request" eq_refl eq_refl) as E1.
  pose proof (boundary_id_accepted job_id "job" eq_refl eq_refl) as E2.
  pose proof (boundary_id_accepted corr "correlation" eq_refl eq_refl) as E3.
  set (r := _safe_boundary_id request_id "request") in *. set (j := _safe_boundary_id job_id "job") in *.
  set (c := _safe_boundary_id corr "correlation") in *. clearbody r j c n. clear corr.
  set (kind := _classify_target_kind n). assert (Hk : mem kind ACTIVE_TOOLS_NMAP_BASIC_ALLOWED_TARGET_KINDS = true).
  { unfold kind, _classify_target_kind. destruct (ip_address n); [|reflexivity]. by destruct (is_loopback _). }
  clearbody kind. pose proof (plan_ports_accepted ps Hn Hp) as Hps. set (ports := VInt <$> ps) in *. clearbody ports.
  unfold validate_active_tools_nmap_basic_request. cbv zeta.
  set (request := [("mode", _); _; _; _; _; _; _; _]).
  do 4 (match goal with |- (if ?b then _ else _) = _ => change b with false end; cbv iota).
  change (any_of (λ k, negb (_is_safe_identifier (get k request))) ["request_id"; "job_id"; "correlation_id"])
    with (negb (_is_safe_identifier (VStr r)) || (negb (_is_safe_identifier (VStr j))
          || (negb (_is_safe_identifier (VStr c)) || false))).
  change (all_of (λ k, match get k request with VStr s => (len s <=? 128)%nat | _ => false end)
            ["request_id"; "job_id"; "correlation_id"])
    with ((len r <=? 128)%nat && ((len j <=? 128)%nat && ((len c <=? 128)%nat && true))).
  rewrite E1, E2, E3.
  destruct (len r <=? 128)%nat, (len j <=? 128)%nat, (len c <=? 128)%nat; try reflexivity.
  cbn [negb orb andb].
  change (get "target_unit" request) with
    (VDict [("target", VStr n); ("target_kind", VStr kind); ("accepted_ports", VList ports)]). cbv iota.
  do 2 (match goal with |- (if ?b then _ else _) = _ => change b with false end; cbv iota).
  change (get "target" _) with (VStr n). change (get "target_kind" _) with (VStr kind).
  change (get "accepted_ports" _) with (VList ports). cbv iota. cbn [in_set str_in mbind outcome_bind].
  rewrite H1, H3, Hk, Hps. apply Nat.ltb_ge in H2. rewrite H2. reflexivity.
Qed.

Lemma planned_request_sent_witness :
  ∃ plan u, build_active_nmap_basic_handoff_plan (sample_payload [VStr "Nas.lan"] [VInt 22]) = Ok plan
    ∧ units plan !! 0 = Some u
    ∧ validate_active_tools_nmap_basic_request (VDict (build_active_nmap_basic_boundary_request u
        (VStr "job 7") (VStr "req") VNone)) = Ok None.
Proof.
  destruct (build_active_nmap_basic_handoff_plan (sample_payload [VStr "Nas.lan"] [VInt 22])) as [plan|] eqn:E;
    [|vm_compute in E; discriminate E].
  destruct (units plan !! 0) as [u|] eqn:Eu; [|vm_compute in E; injection E as <-; vm_compute in Eu; discriminate Eu].
  exists plan, u. split; [done|]. split; [done|].
  rewrite (planned_request_sent _ _ _ _ (VStr "job 7") (VStr "req") VNone E Eu);
    vm_compute in E; injection E as <-; vm_compute in Eu; injection Eu as <-; reflexivity.
Defined.

(** Hiding addresses in an identifier lengthens it: a caller's identifier of
    96 characters becomes one of 143, which the client refuses. *)
Lemma hidden_addresses_too_long :
  let i := VStr "1.1.1.1-1.1.1.1-1.1.1.1-1.1.1.1-1.1.1.1-1.1.1.1-1.1.1.1-1.1.1.1-1.1.1.1-1.1.1.1-1.1.1.1-1.1.1.1-" in
  len (_safe_boundary_id i "job") = 143 ∧ _is_safe_identifier (VStr (_safe_boundary_id i "job")) = false.
Proof. vm_compute. done. Qed.
