(* ===== verification/NmapLifecycle.v ===== *)
(** * NmapLifecycle: the lifecycle of an Active nmap job

    [backend/app/active_nmap_lifecycle.py]: the gates before the client is
    called, the normalization of what it answers, the route's answer, and the
    job result that is stored. *)

From S2P Require Import Prelude PyStr PyValue NmapHandoff NmapBoundary.
From S2P Require NmapClient.

(** ** Tables *)

(** backend/app/active_nmap_lifecycle.py [ACTIVE_NMAP_BASIC_LIFECYCLE_CONTROLLED_STATES] *)
Definition ACTIVE_NMAP_BASIC_LIFECYCLE_CONTROLLED_STATES : list string :=
  ["blocked_missing_approval"; "blocked_unconfigured"; "client_error_controlled"; "completed_real_minimal";
   "completed_no_live"; "not_executed"; "unsafe_lifecycle_result"].
(** backend/app/active_nmap_lifecycle.py [ACTIVE_NMAP_BASIC_LIFECYCLE_CLIENT_CONTROLLED_ERRORS] *)
Definition ACTIVE_NMAP_BASIC_LIFECYCLE_CLIENT_CONTROLLED_ERRORS : list string :=
  ["active_tools_invalid_response"; "active_tools_timeout"; "active_tools_unavailable";
   "active_tools_unconfigured"; "active_tools_unexpected_fields"].
(** backend/app/active_nmap_lifecycle.py [ACTIVE_NMAP_BASIC_LIFECYCLE_ROUTE_REASONS] *)
Definition ACTIVE_NMAP_BASIC_LIFECYCLE_ROUTE_REASONS : list string :=
  ACTIVE_NMAP_BASIC_LIFECYCLE_CLIENT_CONTROLLED_ERRORS ++
  ["active_nmap_basic_not_configured"; "active_tools_real_result"; "bounded_single_unit_required";
   "fake_client_not_executed"; "fake_no_live_client_required"; "internal_approval_missing";
   "real_active_tools_client_required"; "unsafe_client_result"; "unsafe_lifecycle_result"].
(** backend/app/active_nmap_lifecycle.py [ACTIVE_NMAP_BASIC_LIFECYCLE_FORBIDDEN_RESULT_KEYS] *)
Definition ACTIVE_NMAP_BASIC_LIFECYCLE_FORBIDDEN_RESULT_KEYS : list string :=
  ["banner"; "banners"; "credential"; "credentials"; "command"; "cookie"; "cookies"; "evidence"; "findings";
   "header"; "headers"; "port_observations"; "ptr"; "ptr_hostname"; "raw_args"; "raw_command"; "raw_payload";
   "raw_request"; "raw_target"; "raw_xml"; "resolved_ip"; "resolved_ips"; "service"; "service_details";
   "stderr"; "stdout"; "target"; "token"; "tokens"; "version"; "versions"; "xml"].
(** backend/app/active_nmap_lifecycle.py [ACTIVE_NMAP_BASIC_LIFECYCLE_ALLOWED_PORT_STATES] *)
Definition ACTIVE_NMAP_BASIC_LIFECYCLE_ALLOWED_PORT_STATES : list string :=
  ["closed"; "closed|filtered"; "filtered"; "open"; "open|filtered"; "unknown"; "unfiltered"].
(** backend/app/active_nmap_lifecycle.py [ACTIVE_NMAP_BASIC_LIFECYCLE_ALLOWED_STATE_REASONS] *)
Definition ACTIVE_NMAP_BASIC_LIFECYCLE_ALLOWED_STATE_REASONS : list string :=
  ["admin-prohibited"; "arp-response"; "conn-refused"; "echo-reply"; "host-prohibited"; "host-unreach";
   "localhost-response"; "net-prohibited"; "net-unreach"; "no-response"; "no-responses"; "port-unreach";
   "proto-response"; "reset"; "reset-ttl"; "syn-ack"; "timestamp-reply"; "udp-response"; "user-set"].
(** backend/app/active_nmap_lifecycle.py [ACTIVE_NMAP_BASIC_NO_LIVE_PERSISTABLE_STATES] *)
Definition ACTIVE_NMAP_BASIC_NO_LIVE_PERSISTABLE_STATES : list string :=
  ["blocked_missing_approval"; "blocked_unconfigured"; "client_error_controlled"; "completed_no_live";
   "not_executed"; "unsafe_lifecycle_result"].

(** ** Safe readings of a value *)

(** backend/app/active_nmap_lifecycle.py [_safe_status] *)
Definition _safe_status (v : value) : option string :=
  match v with VStr s => if truthy s then Some s else None | _ => None end.

(** backend/app/active_nmap_lifecycle.py [_safe_count] *)
Definition _safe_count (v : value) (fallback : nat) : value :=
  match as_int v with
  | Some z => if (0 <=? z)%Z then v else VInt (Z.of_nat fallback)
  | None => VInt (Z.of_nat fallback)
  end.

(** backend/app/active_nmap_lifecycle.py [_safe_client_error_code] *)
Definition _safe_client_error_code (v : value) : string :=
  match v with
  | VStr s => if mem s ACTIVE_NMAP_BASIC_LIFECYCLE_CLIENT_CONTROLLED_ERRORS then s else "active_tools_invalid_response"
  | _ => "active_tools_invalid_response"
  end.

(** backend/app/active_nmap_lifecycle.py [_safe_lifecycle_route_reason] *)
Definition _safe_lifecycle_route_reason (v : value) : string :=
  match v with
  | VStr s => if mem s ACTIVE_NMAP_BASIC_LIFECYCLE_ROUTE_REASONS then s else "active_tools_invalid_response"
  | _ => "active_tools_invalid_response"
  end.

(** backend/app/active_nmap_lifecycle.py [_safe_target_kind] *)
Definition _safe_target_kind (v : value) : value :=
  if str_in ["authorized_fqdn"; "container_loopback"; "private_ip"; "private_hostname"] v then v else VNone.

(** backend/app/active_nmap_lifecycle.py [_safe_string_list] *)
Definition _safe_string_list (v : value) : list value :=
  match v with
  | VList l => List.filter (λ item, match item with VStr s => truthy s | _ => false end) l
  | _ => []
  end.

(** backend/app/active_nmap_lifecycle.py [_safe_execution_bool] *)
Definition _safe_execution_bool (v : value) (key : string) : bool :=
  match v with VDict d => is_true (get key d) | _ => false end.

(** backend/app/active_nmap_lifecycle.py [_safe_real_execution_metadata] *)
Definition _safe_real_execution_metadata (v : value) : dict value :=
  match v with
  | VDict d =>
      let metadata :=
        [("executor", VStr (if py_eq (get "executor" d) (VStr "active_nmap_basic")
                            then "active_nmap_basic" else "active_nmap_basic_boundary"))] in
      let metadata :=
        foldl (λ metadata key, if is_bool (get key d) then dict_set key (get key d) metadata else metadata) metadata
          ["nmap_invoked"; "subprocess_invoked_inside_active_tools"] in
      match get "duration_ms" d with
      | VInt duration_ms =>
          if (0 <=? duration_ms)%Z then dict_set "duration_ms" (VInt (Z.min duration_ms 3600000)) metadata else metadata
      | _ => metadata
      end
  | _ => [("executor", VStr "active_nmap_basic_boundary")]
  end.

(** backend/app/active_nmap_lifecycle.py 787-814 [_safe_real_observations] *)
Definition safe_real_observation (accepted_ports : option (list Z)) (item : value) : option value :=
  match item with
  | VDict item =>
      let allowed := ["port"; "protocol"; "state"; "reason"; "manual_validation_required"; "result_interpretation"] in
      if any_of (λ k, negb (mem (lower k) allowed)) item.*1 then None else
      match get "port" item with
      | VInt port =>
          if (port <? 1)%Z || (65535 <? port)%Z then None else
          if match accepted_ports with Some ps => negb (bool_decide (port ∈ ps)) | None => false end then None else
          if negb (lower_str_is "tcp" (default (VStr "") (dict_get "protocol" item))) then None else
          if negb (str_in ACTIVE_NMAP_BASIC_LIFECYCLE_ALLOWED_PORT_STATES (get "state" item)) then None else
          let observation :=
            [("port", VInt port); ("protocol", VStr "tcp"); ("state", get "state" item);
             ("manual_validation_required", VBool true);
             ("result_interpretation", VStr "observed_exposure_review_indicator")] in
          let reason := get "reason" item in
          if str_in ACTIVE_NMAP_BASIC_LIFECYCLE_ALLOWED_STATE_REASONS reason
          then Some (VDict (dict_set "reason" reason observation))
          else if negb (is_none reason) then None else Some (VDict observation)
      | _ => None
      end
  | _ => None
  end.

(* Any item that fails empties the list. *)
(** backend/app/active_nmap_lifecycle.py [_safe_real_observations] *)
Definition _safe_real_observations (v : value) (handoff_plan : option ActiveNmapBasicHandoffPlan) : list value :=
  match v with
  | VList l =>
      let accepted_ports :=
        match handoff_plan with
        | Some plan => unit_ports <$> head (units plan)
        | None => None
        end in
      default [] (mapM (safe_real_observation accepted_ports) l)
  | _ => []
  end.

(** ** Forbidden contents *)

(** backend/app/active_nmap_lifecycle.py [_real_route_result_has_forbidden_key] *)
Fixpoint _real_route_result_has_forbidden_key (v : value) : bool :=
  match v with
  | VDict d =>
      existsb (λ kv,
        let normalized := lower (fst kv) in
        if String.eqb normalized "service" && py_eq (snd kv) (VStr "active-tools") then false else
        mem normalized ACTIVE_NMAP_BASIC_LIFECYCLE_FORBIDDEN_RESULT_KEYS
        || _real_route_result_has_forbidden_key (snd kv)) d
  | VList l => existsb _real_route_result_has_forbidden_key l
  | _ => false
  end.

(** backend/app/active_nmap_lifecycle.py [_no_live_job_result_has_forbidden_storage] *)
Fixpoint _no_live_job_result_has_forbidden_storage (v : value) : bool :=
  match v with
  | VDict d =>
      existsb (λ kv,
        mem (lower (fst kv)) ACTIVE_NMAP_BASIC_LIFECYCLE_FORBIDDEN_RESULT_KEYS
        || _no_live_job_result_has_forbidden_storage (snd kv)) d
  | VList l => existsb _no_live_job_result_has_forbidden_storage l
  | _ => false
  end.

(** backend/app/active_nmap_lifecycle.py 749-768 [_real_job_result_has_forbidden_storage] *)
Definition bad_port_observations (nested : value) : bool :=
  let allowed_real_observation_keys :=
    ["manual_validation_required"; "port"; "protocol"; "reason"; "result_interpretation"; "state"] in
  match nested with
  | VList observations =>
      any_of (λ observation, match observation with
        | VDict o => any_of (λ k, negb (mem (lower k) allowed_real_observation_keys)) o.*1
        | _ => true
        end) observations
  | _ => true
  end.

(** backend/app/active_nmap_lifecycle.py [_real_job_result_has_forbidden_storage] *)
Fixpoint _real_job_result_has_forbidden_storage (v : value) : bool :=
  match v with
  | VDict d =>
      existsb (λ kv,
        let normalized := lower (fst kv) in
        if String.eqb normalized "port_observations" then bad_port_observations (snd kv) else
        (mem normalized ACTIVE_NMAP_BASIC_LIFECYCLE_FORBIDDEN_RESULT_KEYS
         && negb (String.eqb normalized "port_observations"))
        || _real_job_result_has_forbidden_storage (snd kv)) d
  | VList l => existsb _real_job_result_has_forbidden_storage l
  | _ => false
  end.

(** backend/app/active_nmap_lifecycle.py 667-692 [_route_result_has_unsafe_markers] *)
Definition unsafe_marker (key : string) (nested : value) : bool :=
  mem (lower key) ACTIVE_NMAP_BASIC_LIFECYCLE_FORBIDDEN_RESULT_KEYS
  || (mem key ["job_created"; "storage_persisted"; "active_tools_real_call_allowed"; "execution_enabled"; "nmap_executed";
               "target_input_allowed"; "subprocess_invoked"; "target_expansion_performed"; "evidence_available"]
      && negb (is_false nested))
  || (mem key ["network_requests_sent"; "dns_queries_sent"] && negb (py_eq nested (VInt 0)))
  || (String.eqb key "observations" && negb (py_eq nested (VList []))).

(** backend/app/active_nmap_lifecycle.py [_route_result_has_unsafe_markers] *)
Fixpoint _route_result_has_unsafe_markers (v : value) : bool :=
  match v with
  | VDict d => existsb (λ kv, unsafe_marker (fst kv) (snd kv) || _route_result_has_unsafe_markers (snd kv)) d
  | VList l => existsb _route_result_has_unsafe_markers l
  | _ => false
  end.

(** [v in {None, 0}] and [v in {None, False}]: zero in any numeric type; a
    list or a dictionary cannot be hashed. *)
Definition none_or_zero (v : value) : outcome bool :=
  match v with
  | VList _ | VDict _ => Err "TypeError"
  | _ => Ok (is_none v || py_eq v (VInt 0))
  end.

(** backend/app/active_nmap_lifecycle.py [_real_route_result_has_unsafe_markers] *)
Definition _real_route_result_has_unsafe_markers (v : value) : outcome bool :=
  match v with
  | VDict d =>
      if _real_route_result_has_forbidden_key v then Ok true else
      if negb (is_false (get "job_created" d)) then Ok true else
      if negb (is_false (get "storage_persisted" d)) then Ok true else
      if negb (is_false (get "target_expansion_performed" d)) then Ok true else
      dns ← none_or_zero (get "dns_queries_sent" d);
      if negb dns then Ok true else
      subprocess ← none_or_zero (get "subprocess_invoked" d);
      if negb subprocess then Ok true else
      Ok (negb (py_eq (VList (_safe_real_observations (get "observations" d) None)) (get "observations" d)))
  | _ => Ok true
  end.

(** ** States *)

(** backend/app/active_nmap_lifecycle.py [_lifecycle_state] *)
Definition _lifecycle_state (state reason : string) (client_status : option string) : dict value :=
  let controlled_state :=
    if mem state ACTIVE_NMAP_BASIC_LIFECYCLE_CONTROLLED_STATES then state else "client_error_controlled" in
  [("audit_type", VStr "active_nmap_basic"); ("lifecycle_state", VStr controlled_state);
   ("execution_state", VStr (if truthy_opt client_status then default "" client_status else "not_executed"));
   ("reason", VStr reason); ("job_created", VBool false); ("storage_persisted", VBool false);
   ("client_invoked", VBool false); ("active_tools_client_available", VBool false);
   ("active_tools_real_call_allowed", VBool false); ("nmap_executed", VBool false); ("network_requests_sent", VInt 0);
   ("dns_queries_sent", VInt 0); ("subprocess_invoked", VBool false); ("target_expansion_performed", VBool false);
   ("evidence_available", VBool false); ("observations", VList []); ("warnings", VList []);
   ("errors", VList (if String.eqb controlled_state "completed_no_live" then [] else [VStr reason]))].

(** backend/app/active_nmap_lifecycle.py [_route_state] *)
Definition _route_state (lifecycle_state : string) (reason : value) (execution_state : string) : dict value :=
  let state :=
    if mem lifecycle_state ACTIVE_NMAP_BASIC_LIFECYCLE_CONTROLLED_STATES then lifecycle_state
    else "client_error_controlled" in
  let safe_reason := _safe_lifecycle_route_reason reason in
  [("audit_type", VStr "active_nmap_basic"); ("status", VStr execution_state); ("lifecycle_state", VStr state);
   ("execution_state", VStr execution_state); ("reason", VStr safe_reason); ("job_created", VBool false);
   ("storage_persisted", VBool false); ("client_invoked", VBool false); ("active_tools_client_available", VBool false);
   ("active_tools_real_call_allowed", VBool false); ("nmap_executed", VBool false); ("network_requests_sent", VInt 0);
   ("dns_queries_sent", VInt 0); ("subprocess_invoked", VBool false); ("target_expansion_performed", VBool false);
   ("evidence_available", VBool false); ("observations", VList []); ("warnings", VList []);
   ("errors", VList (if String.eqb state "completed_no_live" then [] else [VStr safe_reason]))].

Definition unsafe_route_state : dict value :=
  _route_state "unsafe_lifecycle_result" (VStr "unsafe_lifecycle_result") "not_executed".

(** backend/app/active_nmap_lifecycle.py [_no_live_client_result] *)
Definition _no_live_client_result : dict value :=
  [("available", VBool true); ("status", VStr "not_executed"); ("service", VStr "active-tools");
   ("capability", VStr "active_nmap_basic"); ("mode", VStr "live_nmap_basic"); ("profile", VStr "tcp_connect_small");
   ("execution_enabled", VBool false); ("target_input_allowed", VBool false); ("manual_validation_required", VBool true);
   ("job_created", VBool false); ("target_expansion_performed", VBool false); ("network_requests_sent", VInt 0);
   ("nmap_executed", VBool false); ("evidence_available", VBool false); ("observations", VList []);
   ("warnings", VList [VStr "no_scan_route_lifecycle"]); ("errors", VList []); ("error_code", VNone)].

(** ** The client's result *)

(** backend/app/active_nmap_lifecycle.py [_client_result_is_no_live_safe] *)
Definition _client_result_is_no_live_safe (client_result : dict value) : bool :=
  py_eq (get "status" client_result) (VStr "not_executed")
  && py_eq (get "service" client_result) (VStr "active-tools")
  && py_eq (get "capability" client_result) (VStr "active_nmap_basic")
  && is_false (get "execution_enabled" client_result)
  && is_false (get "target_input_allowed" client_result)
  && is_true (get "manual_validation_required" client_result)
  && is_false (get "job_created" client_result)
  && is_false (get "target_expansion_performed" client_result)
  && py_eq (get "network_requests_sent" client_result) (VInt 0)
  && is_false (get "nmap_executed" client_result)
  && is_false (get "evidence_available" client_result)
  && py_eq (get "observations" client_result) (VList [])
  && is_none (get "error_code" client_result).

(** backend/app/active_nmap_lifecycle.py [_client_result_is_real_safe] *)
Definition _client_result_is_real_safe (client_result : dict value) (handoff_plan : ActiveNmapBasicHandoffPlan)
  : outcome bool :=
  let observations := get "observations" client_result in
  known ← NmapClient.in_set ["blocked"; "completed"; "empty"; "failed"; "malformed"; "nmap_missing"; "no_ports";
                             "timed_out"; "truncated"; "unsupported_shape"] (get "status" client_result);
  Ok (known
    && py_eq (get "service" client_result) (VStr "active-tools")
    && py_eq (get "capability" client_result) (VStr "active_nmap_basic")
    && is_true (get "execution_enabled" client_result)
    && is_false (get "target_input_allowed" client_result)
    && is_true (get "manual_validation_required" client_result)
    && is_false (get "job_created" client_result)
    && is_false (get "target_expansion_performed" client_result)
    && from_option (Z.leb 0) false (as_int (get "network_requests_sent" client_result))
    && is_bool (get "nmap_executed" client_result)
    && is_bool (get "evidence_available" client_result)
    && is_list observations
    && py_eq (VList (_safe_real_observations observations (Some handoff_plan))) observations
    && is_none (get "error_code" client_result)
    && negb (_real_route_result_has_forbidden_key (VDict client_result))).

(** backend/app/active_nmap_lifecycle.py [_normalize_lifecycle_client_result] *)
Definition _normalize_lifecycle_client_result (client_result : value) (handoff_plan : ActiveNmapBasicHandoffPlan)
  : outcome (dict value) :=
  match client_result with
  | VDict client_result =>
      if negb (py_bool (get "available" client_result)) then
        Ok (dict_set "client_invoked" (VBool true)
             (_lifecycle_state "client_error_controlled" (_safe_client_error_code (get "error_code" client_result))
                (_safe_status (get "status" client_result))))
      else if _client_result_is_no_live_safe client_result then
        Ok (dict_update (_lifecycle_state "completed_no_live" "fake_client_not_executed" (Some "not_executed"))
          [("client_invoked", VBool true); ("active_tools_client_available", VBool true);
           ("active_tools_status", VStr "not_executed");
           ("target_count", VInt (Z.of_nat (target_count handoff_plan)));
           ("port_count", VInt (Z.of_nat (port_count handoff_plan)));
           ("target_port_checks", VInt (Z.of_nat (target_port_checks handoff_plan)));
           ("network_requests_sent", VInt 0); ("nmap_executed", VBool false);
           ("target_expansion_performed", VBool false); ("observations", VList [])])
      else
        safe ← _client_result_is_real_safe client_result handoff_plan;
        if negb safe then
          Ok (dict_set "active_tools_client_available" (VBool true) (dict_set "client_invoked" (VBool true)
               (_lifecycle_state "client_error_controlled" "unsafe_client_result" None)))
        else
          Ok (dict_update
            (_lifecycle_state "completed_real_minimal" "active_tools_real_result"
               (Some (default "completed" (_safe_status (get "status" client_result)))))
            [("client_invoked", VBool true); ("active_tools_client_available", VBool true);
             ("active_tools_real_call_allowed", VBool true); ("active_tools_status", get "status" client_result);
             ("target_count", VInt (Z.of_nat (target_count handoff_plan)));
             ("port_count", VInt (Z.of_nat (port_count handoff_plan)));
             ("target_port_checks", VInt (Z.of_nat (target_port_checks handoff_plan)));
             ("network_requests_sent", _safe_count (get "network_requests_sent" client_result) 0);
             ("nmap_executed", VBool (is_true (get "nmap_executed" client_result)));
             ("target_expansion_performed", VBool false);
             ("evidence_available", VBool (is_true (get "evidence_available" client_result)));
             ("observations", VList (_safe_real_observations (get "observations" client_result) (Some handoff_plan)));
             ("output_truncated", VBool (is_true (get "output_truncated" client_result)));
             ("target_kind", get "target_kind" client_result);
             ("execution_metadata", VDict (_safe_real_execution_metadata (get "execution_metadata" client_result)));
             ("warnings", VList (_safe_string_list (get "warnings" client_result)));
             ("errors", VList (_safe_string_list (get "errors" client_result)))])
  | _ =>
      Ok (dict_set "client_invoked" (VBool true)
           (_lifecycle_state "client_error_controlled" "active_tools_invalid_response" None))
  end.

(** ** The route's answer *)

(** backend/app/active_nmap_lifecycle.py [normalize_active_nmap_basic_lifecycle_route_result] *)
Definition normalize_active_nmap_basic_lifecycle_route_result (result : value) : outcome (dict value) :=
  match result with
  | VDict result =>
      let state := get "lifecycle_state" result in
      controlled ← NmapClient.in_set ACTIVE_NMAP_BASIC_LIFECYCLE_CONTROLLED_STATES state;
      match as_str state with
      | Some lifecycle_state =>
          if negb controlled then Ok unsafe_route_state else
          let real := String.eqb lifecycle_state "completed_real_minimal" in
          unsafe ← (if real then _real_route_result_has_unsafe_markers (VDict result)
                    else Ok (_route_result_has_unsafe_markers (VDict result)));
          if unsafe : bool then Ok unsafe_route_state else
          let execution_state := default "not_executed" (_safe_status (get "execution_state" result)) in
          let response :=
            dict_update
              (_route_state lifecycle_state (VStr (_safe_lifecycle_route_reason (get "reason" result))) execution_state)
              [("client_invoked", VBool (is_true (get "client_invoked" result)));
               ("active_tools_client_available", VBool (is_true (get "active_tools_client_available" result)))] in
          let response :=
            foldl (λ response count_field,
              match as_int (get count_field result) with
              | Some z => if (0 <=? z)%Z then dict_set count_field (get count_field result) response else response
              | None => response
              end) response ["target_count"; "port_count"; "target_port_checks"] in
          Ok (if negb real then response else
            dict_update response
              [("active_tools_real_call_allowed", VBool true);
               ("nmap_executed", VBool (is_true (get "nmap_executed" result)));
               ("network_requests_sent", _safe_count (get "network_requests_sent" result) 0);
               ("dns_queries_sent", VInt 0);
               ("evidence_available", VBool (is_true (get "evidence_available" result)));
               ("observations", VList (_safe_real_observations (get "observations" result) None));
               ("output_truncated", VBool (is_true (get "output_truncated" result)));
               ("target_kind", get "target_kind" result);
               ("execution_metadata", VDict (_safe_real_execution_metadata (get "execution_metadata" result)));
               ("warnings", VList (_safe_string_list (get "warnings" result)));
               ("errors", VList (_safe_string_list (get "errors" result)))])
      | None => Ok unsafe_route_state
      end
  | _ => Ok unsafe_route_state
  end.

(** ** The stored job result *)

Definition authorization_block (request_payload : dict value) : value :=
  VDict [("authorization_confirmed", VBool (is_true (get "authorization_confirmed" request_payload)));
         ("local_private_scope_confirmed", VBool (is_true (get "local_private_scope_confirmed" request_payload)));
         ("live_traffic_confirmed", VBool (is_true (get "live_traffic_confirmed" request_payload)));
         ("authorization_is_ownership_proof", VBool false)].

(** backend/app/active_nmap_lifecycle.py [build_active_nmap_basic_no_live_job_result] *)
Definition build_active_nmap_basic_no_live_job_result (route_result : value) (request_payload : dict value)
  (handoff_plan : ActiveNmapBasicHandoffPlan) : outcome (dict value) :=
  normalized ← normalize_active_nmap_basic_lifecycle_route_result route_result;
  let '(normalized, lifecycle_state) :=
    if negb (str_in ACTIVE_NMAP_BASIC_NO_LIVE_PERSISTABLE_STATES (get "lifecycle_state" normalized))
    then (unsafe_route_state, VStr "unsafe_lifecycle_result")
    else (normalized, get "lifecycle_state" normalized) in
  let reason := _safe_lifecycle_route_reason (get "reason" normalized) in
  let reasons := if py_eq lifecycle_state (VStr "completed_no_live") then [] else [VStr reason] in
  let result :=
    [("audit_type", VStr "active_nmap_basic"); ("capability", VStr "active_nmap_basic"); ("mode", VStr "live_nmap_basic");
     ("profile", VStr "tcp_connect_small"); ("status", VStr "not_executed"); ("lifecycle_state", lifecycle_state);
     ("reason", VStr reason);
     ("summary", VDict
        [("target_count", _safe_count (get "target_count" normalized) (target_count handoff_plan));
         ("port_count", _safe_count (get "port_count" normalized) (port_count handoff_plan));
         ("target_port_checks", _safe_count (get "target_port_checks" normalized) (target_port_checks handoff_plan));
         ("observation_count", VInt 0); ("manual_validation_required", VBool true)]);
     ("limits", VDict
        [("output_truncated", VBool false); ("stderr_truncated", VBool false); ("timed_out", VBool false);
         ("storage_profile", VStr "no_live_redacted"); ("max_observation_count", VInt 0)]);
     ("execution", VDict
        [("nmap_executed", VBool false); ("network_requests_sent", VInt 0); ("dns_queries_sent", VInt 0);
         ("subprocess_invoked", VBool false); ("active_tools_real_call_allowed", VBool false);
         ("target_expansion_performed", VBool false); ("evidence_available", VBool false)]);
     ("authorization", authorization_block request_payload);
     ("policy", VDict
        [("target_policy", VStr "prevalidated_local_private"); ("target_values_stored", VBool false);
         ("reason_codes", VList reasons)]);
     ("errors", VList reasons);
     ("warnings", VList [VStr "no_live_lifecycle_record"; VStr "manual_validation_required"]);
     ("redaction_notes", VList
        [VStr "raw target not stored"; VStr "raw request payload not stored";
         VStr "raw command and process output not stored";
         VStr "no evidence or observations stored for no-live persistence"])] in
  raise "active_nmap_basic_no_live_result_unsafe" when _no_live_job_result_has_forbidden_storage (VDict result);;
  Ok result.

(** [observation.get("state") == "open"] of the items, which are dictionaries. *)
Definition is_open (item : value) : bool :=
  match item with VDict d => py_eq (get "state" d) (VStr "open") | _ => false end.

(** backend/app/active_nmap_lifecycle.py [build_active_nmap_basic_real_job_result] *)
Definition build_active_nmap_basic_real_job_result (route_result : value) (request_payload : dict value)
  (handoff_plan : ActiveNmapBasicHandoffPlan) : outcome (dict value) :=
  normalized ← normalize_active_nmap_basic_lifecycle_route_result route_result;
  raise "active_nmap_basic_real_result_not_available" when
    negb (py_eq (get "lifecycle_state" normalized) (VStr "completed_real_minimal"));;
  let observations := _safe_real_observations (get "observations" normalized) (Some handoff_plan) in
  let status := default "failed" (_safe_status (get "status" normalized)) in
  let observation_count := VInt (Z.of_nat (length observations)) in
  let result :=
    [("audit_type", VStr "active_nmap_basic"); ("capability", VStr "active_nmap_basic"); ("mode", VStr "live_nmap_basic");
     ("profile", VStr "tcp_connect_small"); ("status", VStr status); ("lifecycle_state", VStr "completed_real_minimal");
     ("reason", VStr "active_tools_real_result"); ("target_kind", _safe_target_kind (get "target_kind" normalized));
     ("manual_validation_required", VBool true);
     ("result_interpretation", VStr "observed_exposure_review_indicator");
     ("port_observations", VList observations); ("observation_count", observation_count);
     ("summary", VDict
        [("target_count", _safe_count (get "target_count" normalized) (target_count handoff_plan));
         ("port_count", _safe_count (get "port_count" normalized) (port_count handoff_plan));
         ("target_port_checks", _safe_count (get "target_port_checks" normalized) (target_port_checks handoff_plan));
         ("observation_count", observation_count);
         ("open_tcp_observations_count", VInt (Z.of_nat (count_of is_open observations)));
         ("manual_validation_required", VBool true)]);
     ("limits", VDict
        [("output_truncated", VBool (is_true (get "output_truncated" normalized))); ("stderr_truncated", VBool false);
         ("timed_out", VBool (String.eqb status "timed_out")); ("storage_profile", VStr "real_minimal_redacted");
         ("max_observation_count", VInt (Z.of_nat (port_count handoff_plan)))]);
     ("execution", VDict
        [("nmap_executed", VBool (is_true (get "nmap_executed" normalized)));
         ("network_requests_sent", _safe_count (get "network_requests_sent" normalized) 0); ("dns_queries_sent", VInt 0);
         ("subprocess_invoked", VBool false);
         ("subprocess_invoked_inside_active_tools",
            VBool (_safe_execution_bool (get "execution_metadata" normalized) "subprocess_invoked_inside_active_tools"));
         ("active_tools_real_call_allowed", VBool true); ("target_expansion_performed", VBool false);
         ("evidence_available", VBool (is_true (get "evidence_available" normalized)))]);
     ("authorization", authorization_block request_payload);
     ("policy", VDict
        [("target_policy", VStr "prevalidated_local_private"); ("target_values_stored", VBool false);
         ("reason_codes", VList [])]);
     ("errors", VList (_safe_string_list (get "errors" normalized)));
     ("warnings", VList (_safe_string_list (get "warnings" normalized) ++ [VStr "manual_validation_required"]));
     ("redaction_notes", VList
        [VStr "raw target not stored"; VStr "raw request payload not stored";
         VStr "raw command and process output not stored"; VStr "raw XML not stored";
         VStr "PTR, resolved IP, banner, version, and service details not stored"])] in
  raise "active_nmap_basic_real_result_unsafe" when _real_job_result_has_forbidden_storage (VDict result);;
  Ok result.

(** backend/app/active_nmap_lifecycle.py [active_nmap_basic_no_live_job_status] *)
Definition active_nmap_basic_no_live_job_status (result : dict value) : string :=
  if py_eq (get "lifecycle_state" result) (VStr "completed_no_live") then "completed" else "failed".

(** backend/app/active_nmap_lifecycle.py [active_nmap_basic_no_live_job_error] *)
Definition active_nmap_basic_no_live_job_error (result : dict value) : option string :=
  if py_eq (get "lifecycle_state" result) (VStr "completed_no_live") then None else
  match get "reason" result with
  | VStr reason => Some (if truthy reason then reason else "unsafe_lifecycle_result")
  | _ => Some "unsafe_lifecycle_result"
  end.

(* A status that cannot be hashed raises. *)
(** backend/app/active_nmap_lifecycle.py [active_nmap_basic_real_job_status] *)
Definition active_nmap_basic_real_job_status (result : dict value) : outcome string :=
  done ← NmapClient.in_set ["completed"; "no_ports"] (get "status" result);
  Ok (if done : bool then "completed" else "failed").

(** backend/app/active_nmap_lifecycle.py [active_nmap_basic_real_job_error] *)
Definition active_nmap_basic_real_job_error (result : dict value) : outcome (option string) :=
  job_status ← active_nmap_basic_real_job_status result;
  if String.eqb job_status "completed" then Ok None else
  Ok (Some (match get "errors" result with
    | VList (VStr e :: _) => e
    | _ =>
        match get "status" result with
        | VStr status => if truthy status then status else "active_tools_real_result_failed"
        | _ => "active_tools_real_result_failed"
        end
    end)).

(** backend/app/active_nmap_lifecycle.py [is_active_nmap_basic_real_lifecycle_result] *)
Definition is_active_nmap_basic_real_lifecycle_result (result : value) : bool :=
  match result with VDict d => py_eq (get "lifecycle_state" d) (VStr "completed_real_minimal") | _ => false end.

(** ** The run *)

(** The two settings the lifecycle reads. *)
Record nmap_settings : Type := NmapSettings { active_nmap_basic_enabled : bool; active_tools_url : option string }.

(** A client: its mode, and its call with the configured URL and a request. *)
(** backend/app/active_nmap_lifecycle.py [ActiveNmapBasicNoLiveClient] *)
Record nmap_client : Type := MkClient {
  client_mode : string;
  client_call : option string → dict value → outcome value;
}.

(** backend/app/active_nmap_lifecycle.py [ActiveNmapBasicRouteNoLiveClient] *)
Definition ActiveNmapBasicRouteNoLiveClient : nmap_client :=
  MkClient "fake_no_live" (λ _ _, Ok (VDict _no_live_client_result)).

(** backend/app/active_nmap_lifecycle.py [ActiveNmapBasicRouteActiveToolsClient] *)
Definition ActiveNmapBasicRouteActiveToolsClient
  (normalize_url : option string → string) (post : string → dict value → NmapClient.http_answer) : nmap_client :=
  MkClient "active_tools_real"
    (λ base_url request_payload,
      (λ r, VDict r.2) <$> NmapClient.run_active_nmap_basic normalize_url post base_url request_payload).

(** backend/app/active_nmap_lifecycle.py [_handoff_plan_is_single_bounded_unit] *)
Definition _handoff_plan_is_single_bounded_unit (handoff_plan : ActiveNmapBasicHandoffPlan) : bool :=
  match units handoff_plan with
  | [unit] =>
      (target_count handoff_plan =? 1)%nat && (length (unit_ports unit) =? 1)%nat
      && (port_count handoff_plan =? 1)%nat && (target_port_checks handoff_plan =? 1)%nat
  | _ => false
  end.

(** backend/app/active_nmap_lifecycle.py [_blocked_before_client] *)
Definition _blocked_before_client (settings : nmap_settings) (client : option nmap_client)
  (handoff_plan : ActiveNmapBasicHandoffPlan)
  (internal_approval_confirmed fake_client_approved active_tools_real_client_approved : bool) : option (dict value) :=
  let blocked state reason := Some (_lifecycle_state state reason None) in
  if negb (active_nmap_basic_enabled settings) || negb (truthy_opt (active_tools_url settings))
  then blocked "blocked_unconfigured" "active_nmap_basic_not_configured" else
  if negb internal_approval_confirmed then blocked "blocked_missing_approval" "internal_approval_missing" else
  let mode := client_mode <$> client in
  if bool_decide (mode = Some "fake_no_live") && negb fake_client_approved
  then blocked "blocked_missing_approval" "fake_no_live_client_required" else
  if bool_decide (mode = Some "active_tools_real") && negb active_tools_real_client_approved
  then blocked "blocked_missing_approval" "real_active_tools_client_required" else
  if negb (bool_decide (mode = Some "fake_no_live")) && negb (bool_decide (mode = Some "active_tools_real"))
  then blocked "blocked_missing_approval" "real_active_tools_client_required" else
  if negb (_handoff_plan_is_single_bounded_unit handoff_plan)
  then blocked "blocked_missing_approval" "bounded_single_unit_required" else None.

(* The requests given to the client, and the result. *)
(** backend/app/active_nmap_lifecycle.py 161-192 [ActiveNmapBasicJobLifecycleSkeleton.run] *)
Definition lifecycle_run (settings : nmap_settings) (client : option nmap_client)
  (handoff_plan : ActiveNmapBasicHandoffPlan)
  (internal_approval_confirmed fake_client_approved active_tools_real_client_approved : bool)
  (request_id job_id correlation_id : value) : outcome (list (dict value) * dict value) :=
  match _blocked_before_client settings client handoff_plan internal_approval_confirmed fake_client_approved
          active_tools_real_client_approved with
  | Some blocked => Ok ([], blocked)
  | None =>
      unit ← or_raise (head (units handoff_plan)) "IndexError";
      client ← or_raise client "TypeError";
      let request_payload := build_active_nmap_basic_boundary_request unit job_id request_id correlation_id in
      client_result ← client_call client (active_tools_url settings) request_payload;
      result ← _normalize_lifecycle_client_result client_result handoff_plan;
      Ok ([request_payload], result)
  end.

(** backend/app/active_nmap_lifecycle.py [run_active_nmap_basic_lifecycle_skeleton] *)
Definition run_active_nmap_basic_lifecycle_skeleton (settings : nmap_settings) (handoff_plan : ActiveNmapBasicHandoffPlan)
  (client : option nmap_client)
  (internal_approval_confirmed fake_client_approved active_tools_real_client_approved : bool) :=
  lifecycle_run settings client handoff_plan internal_approval_confirmed fake_client_approved
    active_tools_real_client_approved (VStr "active-nmap-basic-lifecycle-skeleton")
    (VStr "active-nmap-basic-skeleton-job") (VStr "active-nmap-basic-skeleton-correlation").
