(* ===== verification/NmapJob.v ===== *)
(** * NmapJob: what becomes of an Active nmap job

    The plan ([NmapHandoff]), the client ([NmapClient], [NmapBoundary]) and
    the lifecycle ([NmapLifecycle]) composed: which requests are made, and
    what is stored of the answers. *)

From S2P Require Import Prelude PyStr PyValue NmapPolicy NmapHandoff NmapBoundary NmapLifecycle.
From S2P Require NmapClient.

(** ** Observations in normal form *)

Definition observation (port : Z) (state : string) (reason : option string) : value :=
  VDict ([("port", VInt port); ("protocol", VStr "tcp"); ("state", VStr state);
          ("manual_validation_required", VBool true);
          ("result_interpretation", VStr "observed_exposure_review_indicator")]
         ++ match reason with Some r => [("reason", VStr r)] | None => [] end).

Definition observation_ok (ports : option (list Z)) (port : Z) (state : string) (reason : option string) : Prop :=
  (1 <= port <= 65535)%Z ∧ (∀ ps, ports = Some ps → port ∈ ps)
  ∧ state ∈ ACTIVE_NMAP_BASIC_LIFECYCLE_ALLOWED_PORT_STATES
  ∧ ∀ r, reason = Some r → r ∈ ACTIVE_NMAP_BASIC_LIFECYCLE_ALLOWED_STATE_REASONS.

Lemma str_in_inv words v : str_in words v = true → ∃ s, v = VStr s ∧ s ∈ words.
Proof. destruct v; try done. cbn [str_in]. intros H%mem_true. eauto. Qed.

Lemma safe_real_observation_form ports item v :
  safe_real_observation ports item = Some v →
  ∃ p st r, v = observation p st r ∧ observation_ok ports p st r.
Proof.
  destruct item as [| | | | | |d]; try done. cbn [safe_real_observation]. cbv zeta.
  destruct (any_of _ _); [done|]. destruct (get "port" d) as [| |port| | | |]; try done.
  destruct (_ || _) eqn:Er; [done|]. destruct (match ports with Some _ => _ | None => _ end) eqn:Ep; [done|].
  destruct (negb (lower_str_is _ _)); [done|].
  destruct (str_in _ (get "state" d)) eqn:Es; [|done]. apply str_in_inv in Es as (st & -> & Hst). cbn [negb].
  assert (Hport : (1 <= port <= 65535)%Z ∧ ∀ ps, ports = Some ps → port ∈ ps).
  { to_prop. split; [lia|]. intros ps ->. by apply negb_false_iff, bool_decide_eq_true in Ep. }
  destruct (str_in _ (get "reason" d)) eqn:Ere.
  - apply str_in_inv in Ere as (r & -> & Hr). intros [= <-]. exists port, st, (Some r).
    split; [done|]. unfold observation_ok. split; [apply Hport|]. split; [apply Hport|]. split; [done|]. by intros ? [= <-].
  - destruct (negb _); [done|]. intros [= <-]. exists port, st, None. split; [done|].
    unfold observation_ok. split; [apply Hport|]. split; [apply Hport|]. done.
Qed.

Lemma safe_real_observation_fixed ports p st r :
  observation_ok ports p st r → safe_real_observation ports (observation p st r) = Some (observation p st r).
Proof.
  intros (Hp & Hin & Hs%mem_true & Hr). unfold observation.
  assert (Hrange : ((p <? 1) || (65535 <? p))%Z = false) by (apply orb_false_iff; rewrite !Z.ltb_ge; lia).
  assert (Hports : match ports with Some ps => negb (bool_decide (p ∈ ps)) | None => false end = false).
  { destruct ports as [ps|]; [|done]. apply negb_false_iff, bool_decide_eq_true. by apply Hin. }
  set (d := _ ++ _). assert (Hd : get "port" d = VInt p ∧ get "state" d = VStr st
    ∧ dict_get "protocol" d = Some (VStr "tcp") ∧ get "reason" d = from_option VStr VNone r
    ∧ any_of (λ k, negb (mem (lower k) ["port"; "protocol"; "state"; "reason"; "manual_validation_required";
                                        "result_interpretation"])) d.*1 = false)
    by (unfold d; destruct r; repeat split; reflexivity).
  destruct Hd as (H1 & H2 & H3 & H4 & H5). cbn [safe_real_observation]. cbv zeta.
  rewrite H5, H1, H3, H2, Hrange, Hports, H4. unfold d. destruct r as [r|]; cbn [str_in from_option default]; rewrite Hs.
  - specialize (Hr r eq_refl). apply mem_true in Hr. rewrite Hr. reflexivity.
  - reflexivity.
Qed.

(** The observations a reading keeps. *)
Definition plan_ports (plan : option ActiveNmapBasicHandoffPlan) : option (list Z) :=
  match plan with Some plan => unit_ports <$> head (units plan) | None => None end.

Definition observations_ok (ports : option (list Z)) (l : list value) : Prop :=
  Forall (λ v, ∃ p st r, v = observation p st r ∧ observation_ok ports p st r) l.

Lemma safe_real_observations_form v plan : observations_ok (plan_ports plan) (_safe_real_observations v plan).
Proof.
  destruct v as [| | | | |l|]; try constructor. cbn [_safe_real_observations]. fold (plan_ports plan).
  destruct (mapM _ l) as [k|] eqn:E; [|constructor]. cbn [default]. apply mapM_Some_1 in E.
  induction E as [|x y l k Hx _ IH]; constructor; [|done]. by eapply safe_real_observation_form.
Qed.

Lemma safe_real_observations_fixed l plan :
  observations_ok (plan_ports plan) l → _safe_real_observations (VList l) plan = l.
Proof.
  intros H. cbn [_safe_real_observations]. fold (plan_ports plan).
  replace (mapM (safe_real_observation (plan_ports plan)) l) with (Some l); [done|]. symmetry.
  apply mapM_Some_2. induction H as [|x l (p & st & r & -> & Ho) _ IH]; constructor; [|done].
  by apply safe_real_observation_fixed.
Qed.

Lemma observations_ok_weaken ports l : observations_ok ports l → observations_ok None l.
Proof.
  intros H. eapply Forall_impl; [exact H|]. intros v (p & st & r & -> & Hp & _ & Hs & Hr). exists p, st, r.
  split; [done|]. split; [done|]. split; [by intros|]. by split.
Qed.

Lemma observations_plain ports l : observations_ok ports l → py_eq (VList l) (VList l) = true.
Proof.
  intros H. apply py_eq_refl. cbn [plain]. apply forallb_forall. intros v Hv%list_elem_of_In.
  unfold observations_ok in H. rewrite Forall_forall in H. destruct (H v Hv) as (p & st & [r|] & -> & _); reflexivity.
Qed.

(** ** The lifecycle's result is storable *)

Lemma forbidden_dict d :
  _real_route_result_has_forbidden_key (VDict d) = false →
  ∀ k v, (k, v) ∈ d → _real_route_result_has_forbidden_key v = false.
Proof.
  cbn [_real_route_result_has_forbidden_key]. intros H k v Hin.
  assert (E : (if String.eqb (lower k) "service" && py_eq v (VStr "active-tools") then false
               else mem (lower k) ACTIVE_NMAP_BASIC_LIFECYCLE_FORBIDDEN_RESULT_KEYS
                    || _real_route_result_has_forbidden_key v) = false).
  { apply not_true_is_false. intros E. apply not_true_iff_false in H. apply H. apply existsb_exists.
    exists (k, v). by rewrite <- list_elem_of_In. }
  destruct (_ && _) eqn:Ek; [|by apply orb_false_iff in E as [_ ?]].
  to_prop. by destruct v.
Qed.

Lemma forbidden_get d k :
  _real_route_result_has_forbidden_key (VDict d) = false → _real_route_result_has_forbidden_key (get k d) = false.
Proof. intros H. destruct (get_elem k d) as [->|Hin]; [done|]. by eapply forbidden_dict. Qed.

Lemma forbidden_observations ports l :
  observations_ok ports l → _real_route_result_has_forbidden_key (VList l) = false.
Proof.
  intros H. cbn [_real_route_result_has_forbidden_key]. apply not_true_is_false. intros (v & Hv & E)%existsb_exists.
  apply list_elem_of_In in Hv. unfold observations_ok in H. rewrite Forall_forall in H. destruct (H v Hv) as (p & st & [r|] & -> & _); done.
Qed.

Lemma forbidden_strings v : _real_route_result_has_forbidden_key (VList (_safe_string_list v)) = false.
Proof.
  destruct v as [| | | | |l|]; try done. cbn [_safe_string_list _real_route_result_has_forbidden_key].
  apply not_true_is_false. intros (x & [_ Hx]%filter_In & E)%existsb_exists. by destruct x.
Qed.

Lemma forbidden_metadata v : _real_route_result_has_forbidden_key (VDict (_safe_real_execution_metadata v)) = false.
Proof.
  destruct v as [| | | | | |d]; try reflexivity. cbn [_safe_real_execution_metadata]. cbv zeta.
  destruct (py_eq (get "executor" d) _), (is_bool (get "nmap_invoked" d)) eqn:E1,
    (is_bool (get "subprocess_invoked_inside_active_tools" d)) eqn:E2; cbn [foldl]; rewrite ?E1, ?E2;
    destruct (get "nmap_invoked" d); try discriminate E1;
    destruct (get "subprocess_invoked_inside_active_tools" d); try discriminate E2;
    destruct (get "duration_ms" d) as [| |dur| | | |]; try reflexivity; destruct (0 <=? dur)%Z; reflexivity.
Qed.

Lemma existsb_dict_set {A} (f : string * A → bool) k v d :
  existsb f d = false → f (k, v) = false → existsb f (dict_set k v d) = false.
Proof.
  intros Hd Hv. induction d as [|[k' v'] d IH]; cbn [dict_set existsb] in *; [by rewrite Hv|].
  apply orb_false_iff in Hd as [H1 H2]. destruct (String.eqb_spec k' k) as [->|]; cbn [existsb].
  - by rewrite Hv, H2.
  - by rewrite H1, IH.
Qed.

Lemma existsb_dict_update (f : string * value → bool) d e :
  existsb f d = false → existsb f e = false → existsb f (dict_update d e) = false.
Proof.
  unfold dict_update. revert d. induction e as [|[k v] e IH]; intros d Hd He; [done|].
  cbn [existsb foldl fst snd] in *. apply orb_false_iff in He as [Hv He]. apply IH; [|done]. by apply existsb_dict_set.
Qed.

(** The route's answer before a real result is added. *)
Definition add_count (result response : dict value) (count_field : string) : dict value :=
  match as_int (get count_field result) with
  | Some z => if (0 <=? z)%Z then dict_set count_field (get count_field result) response else response
  | None => response
  end.

Definition route_base (state : string) (result : dict value) : dict value :=
  foldl (add_count result)
    (dict_update
      (_route_state state (VStr (_safe_lifecycle_route_reason (get "reason" result)))
         (default "not_executed" (_safe_status (get "execution_state" result))))
      [("client_invoked", VBool (is_true (get "client_invoked" result)));
       ("active_tools_client_available", VBool (is_true (get "active_tools_client_available" result)))])
    ["target_count"; "port_count"; "target_port_checks"].

Lemma add_count_get result response f k : String.eqb f k = false → get k (add_count result response f) = get k response.
Proof. intros Hk. unfold add_count. repeat case_match; try done. by rewrite get_dict_set, Hk. Qed.

Lemma add_count_existsb (f : string * value → bool) result response c :
  existsb f response = false → (∀ v, as_int v ≠ None → f (c, v) = false) → existsb f (add_count result response c) = false.
Proof.
  intros Hr Hf. unfold add_count. destruct (as_int (get c result)) as [z|] eqn:E; [|done].
  destruct (0 <=? z)%Z; [|done]. apply existsb_dict_set; [done|]. apply Hf. by rewrite E.
Qed.

Lemma route_base_get state result k :
  mem k ["target_count"; "port_count"; "target_port_checks"; "client_invoked"; "active_tools_client_available"] = false →
  get k (route_base state result) =
  get k (_route_state state (VStr (_safe_lifecycle_route_reason (get "reason" result)))
           (default "not_executed" (_safe_status (get "execution_state" result)))).
Proof.
  intros Hk. cbn [mem existsb] in Hk. unfold mem in Hk. cbn [existsb] in Hk. rewrite !orb_false_iff in Hk.
  destruct Hk as (H1 & H2 & H3 & H4 & H5 & _). rewrite String.eqb_sym in H1, H2, H3, H4, H5.
  unfold route_base. cbn [foldl]. rewrite !add_count_get by done. unfold dict_update. cbn [foldl fst snd].
  by rewrite !get_dict_set, H4, H5.
Qed.

(** A result without a real scan. *)
Lemma normalize_route_no_live d state :
  get "lifecycle_state" d = VStr state → mem state ACTIVE_NMAP_BASIC_LIFECYCLE_CONTROLLED_STATES = true →
  state ≠ "completed_real_minimal" → _route_result_has_unsafe_markers (VDict d) = false →
  normalize_active_nmap_basic_lifecycle_route_result (VDict d) = Ok (route_base state d).
Proof.
  intros Hs Hm Hr Hu. cbn [normalize_active_nmap_basic_lifecycle_route_result]. cbv zeta.
  rewrite Hs. cbn [NmapClient.in_set str_in as_str]. rewrite Hm. cbn [mbind outcome_bind negb].
  apply String.eqb_neq in Hr. rewrite Hr, Hu. done.
Qed.

Lemma route_base_no_markers state d :
  mem state ACTIVE_NMAP_BASIC_LIFECYCLE_CONTROLLED_STATES = true →
  _route_result_has_unsafe_markers (VDict (route_base state d)) = false.
Proof.
  intros Hs. cbn [_route_result_has_unsafe_markers]. unfold route_base. cbn [foldl].
  do 3 (apply add_count_existsb; [|intros v Hv; destruct v; done]).
  apply existsb_dict_update; [|reflexivity].
  unfold _route_state. rewrite Hs. destruct (String.eqb state "completed_no_live"); reflexivity.
Qed.

Lemma route_base_state state d :
  mem state ACTIVE_NMAP_BASIC_LIFECYCLE_CONTROLLED_STATES = true →
  get "lifecycle_state" (route_base state d) = VStr state.
Proof. intros Hs. rewrite route_base_get by reflexivity. unfold _route_state. by rewrite Hs. Qed.

Lemma safe_count_int v n : as_int (_safe_count v n) ≠ None.
Proof. unfold _safe_count. destruct (as_int v) eqn:E; [|done]. destruct (0 <=? z)%Z; [by rewrite E|done]. Qed.

Lemma no_live_job_total state d payload plan :
  mem state ACTIVE_NMAP_BASIC_NO_LIVE_PERSISTABLE_STATES = true →
  ∃ job, build_active_nmap_basic_no_live_job_result (VDict (route_base state d)) payload plan = Ok job
         ∧ get "lifecycle_state" job = VStr state.
Proof.
  intros Hp.
  assert (Hc : mem state ACTIVE_NMAP_BASIC_LIFECYCLE_CONTROLLED_STATES = true ∧ state ≠ "completed_real_minimal").
  { apply mem_true in Hp. revert state Hp. apply Forall_forall. repeat constructor; done. }
  destruct Hc as [Hc Hr]. unfold build_active_nmap_basic_no_live_job_result.
  rewrite (normalize_route_no_live _ state) by auto using route_base_state, route_base_no_markers.
  cbn [mbind outcome_bind]. set (route := route_base state (route_base state d)).
  assert (Hst : get "lifecycle_state" route = VStr state) by by apply route_base_state.
  rewrite Hst. cbn [str_in]. rewrite Hp. cbn [negb]. cbv zeta.
  pose proof (safe_count_int (get "target_count" route) (target_count plan)) as H1.
  pose proof (safe_count_int (get "port_count" route) (port_count plan)) as H2.
  pose proof (safe_count_int (get "target_port_checks" route) (target_port_checks plan)) as H3.
  destruct (_safe_count (get "target_count" route) _); try (by destruct H1);
    destruct (_safe_count (get "port_count" route) _); try (by destruct H2);
    destruct (_safe_count (get "target_port_checks" route) _); try (by destruct H3);
    cbn [py_eq]; destruct (String.eqb state "completed_no_live"); (eexists; split; [reflexivity|reflexivity]).
Qed.

(** ** A real result *)

Definition real_route (d : dict value) : dict value :=
  dict_update (route_base "completed_real_minimal" d)
    [("active_tools_real_call_allowed", VBool true);
     ("nmap_executed", VBool (is_true (get "nmap_executed" d)));
     ("network_requests_sent", _safe_count (get "network_requests_sent" d) 0);
     ("dns_queries_sent", VInt 0);
     ("evidence_available", VBool (is_true (get "evidence_available" d)));
     ("observations", VList (_safe_real_observations (get "observations" d) None));
     ("output_truncated", VBool (is_true (get "output_truncated" d)));
     ("target_kind", get "target_kind" d);
     ("execution_metadata", VDict (_safe_real_execution_metadata (get "execution_metadata" d)));
     ("warnings", VList (_safe_string_list (get "warnings" d)));
     ("errors", VList (_safe_string_list (get "errors" d)))].

(** What makes a result of a real scan pass the route. *)
Record real_ready (d : dict value) (l : list value) : Prop := RealReady {
  ready_state : get "lifecycle_state" d = VStr "completed_real_minimal";
  ready_keys : _real_route_result_has_forbidden_key (VDict d) = false;
  ready_job : get "job_created" d = VBool false;
  ready_storage : get "storage_persisted" d = VBool false;
  ready_expansion : get "target_expansion_performed" d = VBool false;
  ready_dns : get "dns_queries_sent" d = VInt 0;
  ready_subprocess : get "subprocess_invoked" d = VBool false;
  ready_observations : get "observations" d = VList l;
  ready_form : observations_ok None l;
}.

Lemma normalize_route_real d l :
  real_ready d l → normalize_active_nmap_basic_lifecycle_route_result (VDict d) = Ok (real_route d).
Proof.
  intros [Hs Hk H1 H2 H3 H4 H5 Ho Hf]. cbn [normalize_active_nmap_basic_lifecycle_route_result]. cbv zeta.
  rewrite Hs. cbn [NmapClient.in_set str_in as_str]. change (mem "completed_real_minimal" _) with true.
  cbn [mbind outcome_bind negb]. change (String.eqb "completed_real_minimal" "completed_real_minimal") with true.
  cbn [_real_route_result_has_unsafe_markers]. rewrite Hk, H1, H2, H3, H4, H5, Ho.
  rewrite (safe_real_observations_fixed l None) by done. rewrite (observations_plain None) by done.
  unfold real_route. rewrite Ho, (safe_real_observations_fixed l None) by done. reflexivity.
Qed.

Lemma forbidden_update d e :
  _real_route_result_has_forbidden_key (VDict d) = false → _real_route_result_has_forbidden_key (VDict e) = false →
  _real_route_result_has_forbidden_key (VDict (dict_update d e)) = false.
Proof. apply existsb_dict_update. Qed.

(** One entry of a dictionary without forbidden keys. *)
Lemma forbidden_cons k v d :
  mem (lower k) ACTIVE_NMAP_BASIC_LIFECYCLE_FORBIDDEN_RESULT_KEYS = false →
  _real_route_result_has_forbidden_key v = false → _real_route_result_has_forbidden_key (VDict d) = false →
  _real_route_result_has_forbidden_key (VDict ((k, v) :: d)) = false.
Proof.
  intros Hk Hv Hd. change (_real_route_result_has_forbidden_key (VDict ((k, v) :: d)))
    with ((if String.eqb (lower k) "service" && py_eq v (VStr "active-tools") then false
           else mem (lower k) ACTIVE_NMAP_BASIC_LIFECYCLE_FORBIDDEN_RESULT_KEYS || _real_route_result_has_forbidden_key v)
          || _real_route_result_has_forbidden_key (VDict d)).
  rewrite Hk, Hv, Hd. by destruct (_ && _).
Qed.

Lemma forbidden_int v : as_int v ≠ None → _real_route_result_has_forbidden_key v = false.
Proof. by destruct v. Qed.

Lemma route_base_no_forbidden state d : _real_route_result_has_forbidden_key (VDict (route_base state d)) = false.
Proof.
  cbn [_real_route_result_has_forbidden_key]. unfold route_base. cbn [foldl].
  do 3 (apply add_count_existsb; [|intros v Hv; destruct v; done]).
  apply existsb_dict_update; [|reflexivity].
  unfold _route_state. destruct (String.eqb _ "completed_no_live"); reflexivity.
Qed.

Lemma real_entries d e :
  real_ready d (e : list value) →
  _real_route_result_has_forbidden_key (VDict
    [("active_tools_real_call_allowed", VBool true);
     ("nmap_executed", VBool (is_true (get "nmap_executed" d)));
     ("network_requests_sent", _safe_count (get "network_requests_sent" d) 0);
     ("dns_queries_sent", VInt 0);
     ("evidence_available", VBool (is_true (get "evidence_available" d)));
     ("observations", VList (_safe_real_observations (get "observations" d) None));
     ("output_truncated", VBool (is_true (get "output_truncated" d)));
     ("target_kind", get "target_kind" d);
     ("execution_metadata", VDict (_safe_real_execution_metadata (get "execution_metadata" d)));
     ("warnings", VList (_safe_string_list (get "warnings" d)));
     ("errors", VList (_safe_string_list (get "errors" d)))]) = false.
Proof.
  intros Hd. repeat (apply forbidden_cons; [reflexivity| |]); try reflexivity.
  - apply forbidden_int, safe_count_int.
  - eapply (forbidden_observations None). apply (safe_real_observations_form _ None).
  - eapply forbidden_get, ready_keys, Hd.
  - apply forbidden_metadata.
  - apply forbidden_strings.
  - apply forbidden_strings.
Qed.

Lemma real_route_ready d l : real_ready d l → real_ready (real_route d) l.
Proof.
  intros Hd. pose proof Hd as [Hs Hk H1 H2 H3 H4 H5 Ho Hf]. unfold real_route.
  assert (Hget : ∀ k, mem k ["job_created"; "storage_persisted"; "target_expansion_performed"; "subprocess_invoked";
                             "lifecycle_state"] = true →
    get k (real_route d) = get k (_route_state "completed_real_minimal"
      (VStr (_safe_lifecycle_route_reason (get "reason" d)))
      (default "not_executed" (_safe_status (get "execution_state" d))))).
  { intros k Hm%mem_true. unfold real_route, dict_update. cbn [foldl fst snd]. rewrite !get_dict_set.
    repeat (apply elem_of_cons in Hm as [->|Hm]; [by apply route_base_get|]). by apply elem_of_nil in Hm. }
  fold (real_route d). constructor; try (rewrite Hget by reflexivity; reflexivity).
  - apply forbidden_update; [apply route_base_no_forbidden|by eapply real_entries].
  - unfold real_route, dict_update. cbn [foldl fst snd]. rewrite !get_dict_set. reflexivity.
  - unfold real_route, dict_update. cbn [foldl fst snd]. rewrite !get_dict_set. cbn.
    by rewrite Ho, (safe_real_observations_fixed l None).
  - done.
Qed.

(** *** What may be stored *)

Lemma storage_cons k v d :
  String.eqb (lower k) "port_observations" = false →
  mem (lower k) ACTIVE_NMAP_BASIC_LIFECYCLE_FORBIDDEN_RESULT_KEYS = false →
  _real_job_result_has_forbidden_storage v = false → _real_job_result_has_forbidden_storage (VDict d) = false →
  _real_job_result_has_forbidden_storage (VDict ((k, v) :: d)) = false.
Proof.
  intros Ho Hk Hv Hd. change (_real_job_result_has_forbidden_storage (VDict ((k, v) :: d)))
    with ((if String.eqb (lower k) "port_observations" then bad_port_observations v
           else (mem (lower k) ACTIVE_NMAP_BASIC_LIFECYCLE_FORBIDDEN_RESULT_KEYS
                 && negb (String.eqb (lower k) "port_observations")) || _real_job_result_has_forbidden_storage v)
          || _real_job_result_has_forbidden_storage (VDict d)).
  by rewrite Ho, Hk, Hv, Hd.
Qed.

Lemma storage_observations v d :
  bad_port_observations v = false → _real_job_result_has_forbidden_storage (VDict d) = false →
  _real_job_result_has_forbidden_storage (VDict (("port_observations", v) :: d)) = false.
Proof.
  intros Hv Hd. change (_real_job_result_has_forbidden_storage (VDict (("port_observations", v) :: d)))
    with (bad_port_observations v || _real_job_result_has_forbidden_storage (VDict d)). by rewrite Hv, Hd.
Qed.

Lemma storage_int v : as_int v ≠ None → _real_job_result_has_forbidden_storage v = false.
Proof. by destruct v. Qed.

Lemma storage_strings l :
  Forall (λ v, is_Some (as_str v)) l → _real_job_result_has_forbidden_storage (VList l) = false.
Proof.
  intros H. cbn [_real_job_result_has_forbidden_storage]. induction H as [|v l [s Hv] _ IH]; [done|].
  by destruct v.
Qed.

Lemma safe_string_list_strings v : Forall (λ v, is_Some (as_str v)) (_safe_string_list v).
Proof.
  destruct v as [| | | | |l|]; try constructor. cbn [_safe_string_list]. apply Forall_forall.
  intros x [_ Hx]%list_elem_of_In%filter_In. by destruct x.
Qed.

Lemma stored_observations ports l : observations_ok ports l → bad_port_observations (VList l) = false.
Proof.
  intros H. cbn [bad_port_observations]. apply any_of_false. intros v Hv. unfold observations_ok in H.
  rewrite Forall_forall in H. by destruct (H v Hv) as (p & st & [r|] & -> & _).
Qed.

Lemma safe_target_kind_storable v : _real_job_result_has_forbidden_storage (_safe_target_kind v) = false.
Proof. unfold _safe_target_kind. destruct (str_in _ v) eqn:E; [|done]. by apply str_in_inv in E as (s & -> & _). Qed.

Lemma real_job_total d l payload plan :
  real_ready d l → observations_ok (plan_ports (Some plan)) l →
  ∃ job, build_active_nmap_basic_real_job_result (VDict (real_route d)) payload plan = Ok job
         ∧ get "port_observations" job = VList l ∧ get "lifecycle_state" job = VStr "completed_real_minimal".
Proof.
  intros Hd Hl. unfold build_active_nmap_basic_real_job_result.
  rewrite (normalize_route_real _ l) by by apply real_route_ready. cbn [mbind outcome_bind].
  pose proof (real_route_ready _ _ (real_route_ready _ _ Hd)) as Hr. set (route := real_route (real_route d)) in *.
  rewrite (ready_state _ _ Hr), (ready_observations _ _ Hr), (safe_real_observations_fixed l (Some plan)) by done.
  change (py_eq (VStr "completed_real_minimal") (VStr "completed_real_minimal")) with true. cbn [negb]. cbv zeta.
  match goal with |- context [if ?b then Err _ else Ok ?r] => replace b with false; [exists r; done|] end.
  symmetry. repeat first [simple apply storage_cons; [reflexivity|reflexivity| |] | simple apply storage_observations];
    try reflexivity; try (apply storage_int; apply safe_count_int).
  - apply safe_target_kind_storable.
  - by eapply stored_observations.
  - apply storage_strings, safe_string_list_strings.
  - apply storage_strings. apply Forall_app_2; [apply safe_string_list_strings|by repeat constructor].
Qed.

(** What the lifecycle makes of a client's result: no scan, or a real one. *)
Lemma client_result_cases cr plan d :
  _normalize_lifecycle_client_result cr plan = Ok d →
  (∃ state, get "lifecycle_state" d = VStr state ∧ mem state ACTIVE_NMAP_BASIC_NO_LIVE_PERSISTABLE_STATES = true
            ∧ _route_result_has_unsafe_markers (VDict d) = false)
  ∨ ∃ l, real_ready d l ∧ observations_ok (plan_ports (Some plan)) l.
Proof.
  destruct cr as [| | | | | |cr]; try (intros [= <-]; left; eexists; repeat split; reflexivity).
  cbn [_normalize_lifecycle_client_result]. destruct (negb (py_bool _)).
  { intros [= <-]. left. exists "client_error_controlled". repeat split; reflexivity. }
  destruct (_client_result_is_no_live_safe cr).
  { intros [= <-]. left. exists "completed_no_live". repeat split; reflexivity. }
  intros (safe & Hsafe & H)%bind_ok. destruct safe.
  2: { injection H as <-. left. exists "client_error_controlled". repeat split; reflexivity. }
  cbn [negb] in H. injection H as <-. right.
  assert (Hk : _real_route_result_has_forbidden_key (VDict cr) = false).
  { unfold _client_result_is_real_safe in Hsafe. apply bind_ok in Hsafe as (known & _ & E). injection E as E.
    apply andb_true_iff in E as [_ E]. by apply negb_true_iff in E. }
  set (obs := _safe_real_observations (get "observations" cr) (Some plan)).
  pose proof (safe_real_observations_form (get "observations" cr) (Some plan)) as Hobs. fold obs in Hobs.
  exists obs. split; [|done].
  constructor; try (unfold get at 1; reflexivity); [|by eapply observations_ok_weaken].
  repeat (simple apply forbidden_cons; [reflexivity| |]); try reflexivity.
  - apply forbidden_int. apply safe_count_int.
  - by eapply forbidden_observations.
  - apply forbidden_strings.
  - apply forbidden_strings.
  - by apply forbidden_get.
  - by apply forbidden_get.
  - apply forbidden_metadata.
Qed.

(** Whatever the client answers can be stored.  The route keeps the state
    the lifecycle gave the result, and never finds it unsafe; the stored job
    of a real scan has the observations of the result, and the job of any
    other result keeps its state; neither job builder raises. *)
Theorem client_result_storable cr plan payload d :
  _normalize_lifecycle_client_result cr plan = Ok d →
  ∃ route, normalize_active_nmap_basic_lifecycle_route_result (VDict d) = Ok route
    ∧ get "lifecycle_state" route = get "lifecycle_state" d
    ∧ if is_active_nmap_basic_real_lifecycle_result (VDict d)
      then ∃ job, build_active_nmap_basic_real_job_result (VDict route) payload plan = Ok job
                  ∧ get "port_observations" job = get "observations" d
                  ∧ get "lifecycle_state" job = get "lifecycle_state" d
      else ∃ job, build_active_nmap_basic_no_live_job_result (VDict route) payload plan = Ok job
                  ∧ get "lifecycle_state" job = get "lifecycle_state" d.
Proof.
  intros [(state & Hs & Hp & Hm)|(l & Hd & Hl)]%client_result_cases;
    unfold is_active_nmap_basic_real_lifecycle_result.
  - assert (Hc : mem state ACTIVE_NMAP_BASIC_LIFECYCLE_CONTROLLED_STATES = true ∧ state ≠ "completed_real_minimal").
    { clear -Hp. apply mem_true in Hp. revert state Hp. apply Forall_forall. repeat constructor; done. }
    destruct Hc as [Hc Hr]. exists (route_base state d). rewrite Hs.
    split; [by apply normalize_route_no_live|]. split; [by apply route_base_state|].
    cbn [py_eq]. apply String.eqb_neq in Hr. rewrite Hr. by apply no_live_job_total.
  - exists (real_route d). rewrite (ready_state _ _ Hd). split; [by eapply normalize_route_real|].
    split; [apply (ready_state _ _ (real_route_ready _ _ Hd))|]. rewrite (ready_observations _ _ Hd).
    change (py_eq _ _) with true. by apply real_job_total.
Qed.

(** A client's result of a real scan with one open port. *)
Definition sample_client_result : value :=
  VDict [("available", VBool true); ("status", VStr "completed"); ("service", VStr "active-tools");
         ("capability", VStr "active_nmap_basic"); ("execution_enabled", VBool true);
         ("target_input_allowed", VBool false); ("manual_validation_required", VBool true);
         ("job_created", VBool false); ("target_expansion_performed", VBool false);
         ("network_requests_sent", VInt 1); ("nmap_executed", VBool true); ("evidence_available", VBool true);
         ("observations", VList [observation 22 "open" (Some "syn-ack")]); ("error_code", VNone)].
Definition sample_plan : ActiveNmapBasicHandoffPlan :=
  HandoffPlan [HandoffUnit "nas.lan" [22%Z] "live_nmap_basic" "tcp_connect_small" true true true 0] 1 1 1 1.

Lemma client_result_storable_witness :
  ∃ d route job,
    _normalize_lifecycle_client_result sample_client_result sample_plan = Ok d
    ∧ normalize_active_nmap_basic_lifecycle_route_result (VDict d) = Ok route
    ∧ build_active_nmap_basic_real_job_result (VDict route) [] sample_plan = Ok job
    ∧ get "port_observations" job = VList [observation 22 "open" (Some "syn-ack")].
Proof.
  destruct (_normalize_lifecycle_client_result sample_client_result sample_plan) as [d|] eqn:E;
    [|vm_compute in E; discriminate E].
  destruct (client_result_storable _ _ [] _ E) as (route & Hr & _ & H).
  vm_compute in E. injection E as <-.
  change (is_active_nmap_basic_real_lifecycle_result _) with true in H.
  destruct H as (job & Hj & Ho & _). eexists _, route, job. split; [reflexivity|]. auto.
Defined.

(** ** When the client is called *)

Lemma normalized_result_invoked cr plan d :
  _normalize_lifecycle_client_result cr plan = Ok d → get "client_invoked" d = VBool true.
Proof.
  destruct cr as [| | | | | |cr]; try (by intros [= <-]).
  cbn [_normalize_lifecycle_client_result]. destruct (negb _); [by intros [= <-]|].
  destruct (_client_result_is_no_live_safe cr); [by intros [= <-]|].
  intros (safe & _ & H)%bind_ok. destruct safe; by injection H as <-.
Qed.

(** The client is called only through every gate, and only once.  Either
    nothing is asked of the client and the result reports no call, no process
    and no network request; or the capability is enabled and configured, the
    internal approval is given, the client is one of the two known ones and
    approved as such, the plan is a single target with a single port, and the
    client gets exactly the request of that target and port. *)
Theorem client_called_only_when_approved settings client plan internal fake real request_id job_id correlation_id reqs d :
  lifecycle_run settings client plan internal fake real request_id job_id correlation_id = Ok (reqs, d) →
  (reqs = [] ∧ get "client_invoked" d = VBool false ∧ get "nmap_executed" d = VBool false
   ∧ get "network_requests_sent" d = VInt 0)
  ∨ (active_nmap_basic_enabled settings = true ∧ truthy_opt (active_tools_url settings) = true ∧ internal = true
     ∧ get "client_invoked" d = VBool true
     ∧ ∃ c u port, client = Some c ∧ units plan = [u] ∧ unit_ports u = [port]
       ∧ (client_mode c = "fake_no_live" ∧ fake = true ∨ client_mode c = "active_tools_real" ∧ real = true)
       ∧ reqs = [build_active_nmap_basic_boundary_request u job_id request_id correlation_id]).
Proof.
  unfold lifecycle_run. destruct (_blocked_before_client _ _ _ _ _ _) as [b|] eqn:E.
  - intros [= <- <-]. left. split; [done|]. unfold _blocked_before_client in E.
    repeat match type of E with (if ?b then _ else _) = _ => destruct b end; try discriminate E; by injection E as <-.
  - intros H. right. unfold _blocked_before_client in E.
    repeat match type of E with (if ?b then _ else _) = _ => destruct b eqn:?; [discriminate E|] end. clear E.
    to_prop. inv_ok H.
    match goal with H : _handoff_plan_is_single_bounded_unit plan = true |- _ =>
      unfold _handoff_plan_is_single_bounded_unit in H; destruct (units plan) as [|u0 []] eqn:Eu; try discriminate H end.
    to_prop. repeat match goal with H : or_raise _ _ = Ok _ |- _ => apply or_raise_ok in H end. simplify_eq/=.
    match goal with H : _normalize_lifecycle_client_result _ _ = Ok d |- _ => apply normalized_result_invoked in H end.
    match goal with H : units plan = [?y] |- _ => rename y into u end.
    match goal with H : length (unit_ports u) = 1 |- _ => destruct (unit_ports u) as [|port []] eqn:Ep; try discriminate H end.
    repeat (split; [done|]). eexists _, u, port. repeat (split; [done|]). split; [|done].
    repeat match goal with H : context [bool_decide (Some _ = Some ?m)] |- _ => revert H end.
    clear. repeat case_bool_decide; destruct fake, real; cbn; try done; intros; simplify_eq; auto.
Qed.

Lemma client_called_only_when_approved_witness :
  ∃ d, lifecycle_run (NmapSettings true (Some "http://active-tools:8080")) (Some ActiveNmapBasicRouteNoLiveClient)
         sample_plan true true false (VStr "r") (VStr "j") (VStr "c")
       = Ok ([build_active_nmap_basic_boundary_request
                (HandoffUnit "nas.lan" [22%Z] "live_nmap_basic" "tcp_connect_small" true true true 0)
                (VStr "j") (VStr "r") (VStr "c")], d)
       ∧ get "client_invoked" d = VBool true.
Proof.
  destruct (lifecycle_run (NmapSettings true (Some "http://active-tools:8080")) (Some ActiveNmapBasicRouteNoLiveClient)
         sample_plan true true false (VStr "r") (VStr "j") (VStr "c")) as [[reqs d]|] eqn:E; [|vm_compute in E; discriminate E].
  destruct (client_called_only_when_approved _ _ _ _ _ _ _ _ _ _ _ E) as [(-> & _)|(_ & _ & _ & Hi & c & u & p & _ & Hu & _ & _ & ->)].
  - vm_compute in E. discriminate E.
  - injection Hu as <-. exists d. auto.
Defined.
