(* ===== verification/NmapStored.v ===== *)
(** * NmapStored: nothing the runner answers is stored verbatim

    The closed vocabulary of [NmapBoundary] carried through the client, the
    lifecycle and the route to the stored job. *)

From S2P Require Import Prelude PyStr PyValue NmapHandoff NmapBoundary NmapLifecycle NmapJob.
From S2P Require Import NmapClient.

(** The texts a stored job can hold: the boundary's words, the states and
    reasons of the lifecycle, and the fixed notes. *)
Definition job_words : list string :=
  report_words ++ ACTIVE_NMAP_BASIC_LIFECYCLE_CONTROLLED_STATES ++ ACTIVE_NMAP_BASIC_LIFECYCLE_ROUTE_REASONS
  ++ ACTIVE_TOOLS_NMAP_BASIC_REAL_STATUSES
  ++ ["active-tools"; "active_nmap_basic"; "live_nmap_basic"; "tcp_connect_small"; "not_executed"; "failed"; "blocked";
      "malformed"; "timed_out"; "completed"; "no_scan_service_skeleton"; "fake_no_live_client_required";
      "no_live_redacted"; "real_minimal_redacted"; "prevalidated_local_private"; "no_live_lifecycle_record";
      "manual_validation_required"; "raw target not stored"; "raw request payload not stored";
      "raw command and process output not stored"; "no evidence or observations stored for no-live persistence";
      "raw XML not stored"; "PTR, resolved IP, banner, version, and service details not stored"].

Definition job_keys : list string :=
  report_keys ++
  ["available"; "service"; "capability"; "mode"; "execution_enabled"; "target_input_allowed"; "job_created";
   "target_expansion_performed"; "network_requests_sent"; "nmap_executed"; "evidence_available"; "error_code";
   "audit_type"; "lifecycle_state"; "execution_state"; "storage_persisted"; "client_invoked";
   "active_tools_client_available"; "active_tools_real_call_allowed"; "dns_queries_sent"; "subprocess_invoked";
   "active_tools_status"; "target_count"; "port_count"; "target_port_checks"; "summary"; "observation_count"; "limits";
   "stderr_truncated"; "timed_out"; "storage_profile"; "max_observation_count"; "execution"; "authorization";
   "authorization_confirmed"; "local_private_scope_confirmed"; "live_traffic_confirmed"; "authorization_is_ownership_proof";
   "policy"; "target_policy"; "target_values_stored"; "reason_codes"; "redaction_notes"; "port_observations";
   "open_tcp_observations_count"].

Abbreviation closed := (closed_text job_words job_keys).

Lemma closed_cons k v d :
  mem k job_keys = true → closed v = true → closed (VDict d) = true → closed (VDict ((k, v) :: d)) = true.
Proof. intros Hk Hv Hd. cbn [closed_text forallb fst snd] in *. by rewrite Hk, Hv, Hd. Qed.

(** Close the fixed part of a dictionary, leaving the open values. *)
Ltac close_dict := repeat (simple apply closed_cons; [reflexivity| |]); try reflexivity.

Lemma job_word w :
  w ∈ report_words ∨ w ∈ ACTIVE_NMAP_BASIC_LIFECYCLE_CONTROLLED_STATES ∨ w ∈ ACTIVE_NMAP_BASIC_LIFECYCLE_ROUTE_REASONS
  ∨ w ∈ ACTIVE_TOOLS_NMAP_BASIC_REAL_STATUSES → closed (VStr w) = true.
Proof. intros H. apply mem_true. unfold job_words. rewrite !elem_of_app. tauto. Qed.

Lemma closed_int v : as_int v ≠ None → closed v = true.
Proof. by destruct v. Qed.

Lemma closed_report_value ports v : closed_value ports v = true → closed v = true.
Proof.
  induction v as [| | | |s|l IH|d IH] using value_ind'; try done.
  - cbn [closed_value]. intros H%mem_true. by apply job_word; left.
  - cbn [closed_value closed_text]. rewrite !forallb_forall. rewrite Forall_forall in IH.
    intros H x Hx. apply IH; [by apply list_elem_of_In|by apply H].
  - cbn [closed_value closed_text]. rewrite !forallb_forall. rewrite Forall_forall in IH.
    intros H x Hx. specialize (H x Hx). to_prop. apply andb_true_iff. split.
    + apply mem_true. unfold job_keys. apply elem_of_app. left. by apply mem_true.
    + apply IH; [by apply list_elem_of_In|done].
Qed.

(** ** The client *)

Lemma client_error_closed c status : closed status = true → closed (VDict (_active_tools_nmap_basic_error c status)) = true.
Proof.
  intros Hs. unfold _active_tools_nmap_basic_error.
  set (code := if mem c _ then c else _).
  assert (Hc : code ∈ ACTIVE_TOOLS_NMAP_BASIC_ERROR_CODES)
    by (unfold code; destruct (mem c _) eqn:E; [by apply mem_true|apply mem_true; reflexivity]).
  clearbody code.
  assert (H : closed (VStr code) = true
    ∧ closed (VStr (default "" (dict_get code ACTIVE_TOOLS_NMAP_BASIC_ERROR_STATUS))) = true)
    by (revert code Hc; apply Forall_forall; repeat constructor).
  destruct H as [H1 H2]. close_dict; [by destruct (py_bool status)| |done].
  cbn [closed_text forallb]. cbn [closed_text] in H1. by rewrite H1.
Qed.

Lemma filter_words_closed words l :
  forallb (λ w, mem w job_words) words = true → closed (VList (List.filter (str_in words) l)) = true.
Proof.
  intros Hw. cbn [closed_text]. apply forallb_forall. intros x [_ Hx]%filter_In.
  apply str_in_inv in Hx as (s & -> & Hs%list_elem_of_In). cbn [closed_text]. rewrite forallb_forall in Hw. by apply Hw.
Qed.

Lemma nonneg_closed v : _is_non_negative_int v = true → closed v = true.
Proof. by destruct v. Qed.

Lemma bool_closed v : is_bool v = true → closed v = true.
Proof. by destruct v. Qed.

Lemma client_answer_closed payload request : closed (VDict (validate_active_tools_nmap_basic_response payload request)) = true.
Proof.
  assert (He : ∀ c, closed (VDict (_active_tools_nmap_basic_error c VNone)) = true) by (intros c; by apply client_error_closed).
  destruct payload as [| | | | | |p]; try apply He. cbn [validate_active_tools_nmap_basic_response]. cbv zeta.
  destruct (_ || _); [apply He|]. destruct (get "summary" p) as [| | | | | |summary]; try apply He.
  destruct (any_of _ _); [apply He|]. destruct (any_of _ _); [apply He|].
  set (ports := port_list _). destruct (py_eq (get "status" p) _).
  { destruct (_ || _); [apply He|].
    assert (Hs : ∀ v, closed (VList (_controlled_nmap_basic_strings v)) = true)
      by (intros v; destruct v; try reflexivity; by apply filter_words_closed).
    close_dict; apply Hs. }
  set (report := validate_active_nmap_basic_boundary_response _ _ _).
  assert (Hr : closed (VDict report) = true).
  { eapply closed_report_value. apply (report_closed (VDict _) (default [] ports)). }
  assert (Hget : ∀ k, closed (get k report) = true) by (intros k; by apply closed_text_get).
  pose proof (Hget "errors") as Herr.
  destruct (get "errors" report) as [| | | | |[|e es]|]; [..|by apply client_error_closed|];
    (destruct (_ || _) eqn:Eb; [apply He|]; to_prop; close_dict; first [done | apply Hget |
       match goal with H : _is_non_negative_int _ = true |- _ => by apply nonneg_closed end | by apply bool_closed]).
Qed.

Lemma request_error_form payload e :
  validate_active_tools_nmap_basic_request payload = Ok (Some e) → ∃ c, e = _active_tools_nmap_basic_error c VNone.
Proof.
  unfold validate_active_tools_nmap_basic_request. cbv zeta. intros H.
  repeat match type of H with
  | Ok None = _ => discriminate H
  | Ok _ = Ok _ => injection H as <-; eauto
  | (if ?b then _ else _) = _ => destruct b; [injection H as <-; by eauto|]
  | match ?v with _ => _ end = _ => destruct v; try (injection H as <-; by eauto)
  | _ ≫= _ = _ => apply bind_ok in H as (? & _ & H)
  end.
Qed.

Lemma run_closed normalize_url post base_url request r :
  run_active_nmap_basic normalize_url post base_url request = Ok r → closed (VDict r.2) = true.
Proof.
  assert (He : ∀ c, closed (VDict (_active_tools_nmap_basic_error c VNone)) = true) by (intros c; by apply client_error_closed).
  unfold run_active_nmap_basic. intros (e & H & E)%bind_ok. destruct e as [e|].
  - injection E as <-. cbn [snd]. by apply request_error_form in H as [c ->].
  - destruct (negb _); [injection E as <-; apply He|]. injection E as <-. cbn [snd].
    destruct (post _ _); try apply He. apply client_answer_closed.
Qed.

(** ** The lifecycle, the route and the stored job *)

Lemma safe_status_closed v s : closed v = true → NmapLifecycle._safe_status v = Some s → closed (VStr s) = true.
Proof. destruct v; try done. cbn [NmapLifecycle._safe_status]. destruct (truthy _); [|done]. by intros H [= <-]. Qed.

Lemma default_status_closed v dflt :
  closed v = true → closed (VStr dflt) = true → closed (VStr (default dflt (NmapLifecycle._safe_status v))) = true.
Proof. intros Hv Hd. destruct (NmapLifecycle._safe_status v) eqn:E; [by apply (safe_status_closed v)|done]. Qed.

Lemma route_reason_closed v : closed (VStr (_safe_lifecycle_route_reason v)) = true.
Proof.
  destruct v; try reflexivity. cbn [_safe_lifecycle_route_reason]. destruct (mem s _) eqn:E; [|reflexivity].
  apply job_word. right. right. left. by apply mem_true.
Qed.

Lemma client_reason_closed v : closed (VStr (_safe_client_error_code v)) = true.
Proof.
  destruct v; try reflexivity. cbn [_safe_client_error_code]. destruct (mem s _) eqn:E; [|reflexivity].
  apply job_word. right. right. left. unfold ACTIVE_NMAP_BASIC_LIFECYCLE_ROUTE_REASONS. apply elem_of_app. left.
  by apply mem_true.
Qed.

Lemma string_list_closed v : closed v = true → closed (VList (_safe_string_list v)) = true.
Proof. intros Hv. destruct v; try reflexivity. cbn [closed_text _safe_string_list]. by eapply (closed_text_filter _ _ _ _ Hv). Qed.

Lemma observations_closed ports l : observations_ok ports l → closed (VList l) = true.
Proof.
  intros H. cbn [closed_text]. apply forallb_forall. intros v Hv%list_elem_of_In. unfold observations_ok in H.
  rewrite Forall_forall in H. destruct (H v Hv) as (p & st & r & -> & _ & _ & Hs & Hr).
  assert (Hst : closed (VStr st) = true) by (apply job_word; left; by apply report_word; right; left).
  unfold observation. destruct r as [r|]; cbn [app]; close_dict; [done| |done].
  specialize (Hr r eq_refl). apply job_word. left. apply report_word. right. right. by left.
Qed.

Lemma metadata_closed v : closed (VDict (_safe_real_execution_metadata v)) = true.
Proof.
  destruct v as [| | | | | |d]; try reflexivity. cbn [_safe_real_execution_metadata]. cbv zeta.
  assert (Hb : ∀ m k, closed (VDict m) = true → mem k job_keys = true →
    closed (VDict (if is_bool (get k d) then dict_set k (get k d) m else m)) = true).
  { intros m k Hm Hk. destruct (is_bool (get k d)) eqn:E; [|done]. apply closed_text_set; [done|done|]. by apply bool_closed. }
  set (m := foldl _ _ _). assert (Hm : closed (VDict m) = true).
  { unfold m. cbn [foldl]. apply Hb; [|reflexivity]. apply Hb; [|reflexivity]. by destruct (py_eq _ _). }
  clearbody m. destruct (get "duration_ms" d); try done. destruct (0 <=? z)%Z; [|done]. by apply closed_text_set.
Qed.

Lemma safe_kind_closed v : closed v = true → closed (NmapLifecycle._safe_target_kind v) = true.
Proof. intros Hv. unfold NmapLifecycle._safe_target_kind. by destruct (str_in _ v). Qed.

Lemma safe_count_closed v n : closed (_safe_count v n) = true.
Proof. apply closed_int, safe_count_int. Qed.

Lemma lifecycle_state_closed state reason status :
  closed (VStr reason) = true → closed (VStr (default "not_executed" status)) = true →
  closed (VDict (_lifecycle_state state reason status)) = true.
Proof.
  intros Hr Hs. unfold _lifecycle_state.
  set (c := if mem state _ then state else _). assert (Hc : closed (VStr c) = true).
  { unfold c. destruct (mem state _) eqn:E; [|reflexivity]. apply job_word. right. left. by apply mem_true. }
  clearbody c. cbv zeta. close_dict; [done| |done|].
  - destruct status as [s|]; [|done]. cbn [truthy_opt default]. by destruct (truthy s).
  - destruct (String.eqb c _); [reflexivity|]. cbn [closed_text forallb]. cbn [closed_text] in Hr. by rewrite Hr.
Qed.

Lemma ok_inj {A} (x y : A) : Ok x = Ok y → y = x.
Proof. by intros [= ->]. Qed.

Lemma raised_ok {A} (b : bool) c (k : outcome A) x : (raise c when b;; k) = Ok x → k = Ok x.
Proof. by destruct b. Qed.

(** The real result of a closed answer. *)
Lemma normalized_result_closed cr plan d :
  closed cr = true → _normalize_lifecycle_client_result cr plan = Ok d → closed (VDict d) = true.
Proof.
  intros Hcr. destruct cr as [| | | | | |cr]; try (intros ->%ok_inj; reflexivity).
  assert (Hget : ∀ k, closed (get k cr) = true) by (intros k; by apply closed_text_get).
  cbn [_normalize_lifecycle_client_result]. destruct (negb (py_bool _)).
  { intros ->%ok_inj. apply closed_text_set; [|reflexivity|reflexivity]. apply lifecycle_state_closed.
    - apply client_reason_closed.
    - by apply default_status_closed. }
  destruct (_client_result_is_no_live_safe cr).
  { intros ->%ok_inj. apply closed_text_update; [by apply lifecycle_state_closed|]. close_dict. }
  intros (safe & _ & H)%bind_ok. destruct safe; apply ok_inj in H as ->.
  2: { do 2 (apply closed_text_set; [|reflexivity|reflexivity]). by apply lifecycle_state_closed. }
  apply closed_text_update.
  { apply lifecycle_state_closed; [reflexivity|]. by apply default_status_closed. }
  close_dict; try (by apply safe_count_closed); try apply Hget; try (by apply string_list_closed).
  - eapply observations_closed, safe_real_observations_form.
  - apply metadata_closed.
Qed.

Lemma route_state_closed state reason execution :
  closed (VStr execution) = true → closed (VDict (_route_state state reason execution)) = true.
Proof.
  intros He. unfold _route_state. set (c := if mem state _ then state else _). assert (Hc : closed (VStr c) = true).
  { unfold c. destruct (mem state _) eqn:E; [|reflexivity]. apply job_word. right. left. by apply mem_true. }
  pose proof (route_reason_closed reason) as Hr. set (r := _safe_lifecycle_route_reason reason) in *.
  clearbody c r. cbv zeta. close_dict; try done.
  destruct (String.eqb c _); [reflexivity|]. cbn [closed_text forallb]. cbn [closed_text] in Hr. by rewrite Hr.
Qed.

Lemma route_base_closed state d : closed (VDict d) = true → closed (VDict (route_base state d)) = true.
Proof.
  intros Hd. assert (Hc : ∀ r c, closed (VDict r) = true → mem c job_keys = true → closed (VDict (add_count d r c)) = true).
  { intros r c Hr Hm. unfold add_count. destruct (as_int (get c d)) as [z|] eqn:E; [|done].
    destruct (0 <=? z)%Z; [|done]. apply closed_text_set; [done|done|]. apply closed_int. by rewrite E. }
  unfold route_base. cbn [foldl]. do 3 (apply Hc; [|reflexivity]). apply closed_text_update; [|close_dict].
  apply route_state_closed. apply default_status_closed; [by apply closed_text_get|reflexivity].
Qed.

Lemma route_closed d route :
  closed (VDict d) = true → normalize_active_nmap_basic_lifecycle_route_result (VDict d) = Ok route →
  closed (VDict route) = true.
Proof.
  intros Hd. assert (Hget : ∀ k, closed (get k d) = true) by (intros k; by apply closed_text_get).
  cbn [normalize_active_nmap_basic_lifecycle_route_result]. cbv zeta. intros (controlled & _ & H)%bind_ok.
  destruct (as_str _) as [state|]; [|by apply ok_inj in H as ->]. destruct (negb controlled); [by apply ok_inj in H as ->|].
  apply bind_ok in H as (unsafe & _ & H). destruct unsafe; [by apply ok_inj in H as ->|]. apply ok_inj in H as ->.
  fold (add_count d). fold (route_base state d). pose proof (route_base_closed state d Hd) as Hb.
  destruct (negb _); [done|]. apply closed_text_update; [done|].
  close_dict; try (by apply safe_count_closed); try apply Hget; try (by apply string_list_closed).
  - eapply (observations_closed None), (safe_real_observations_form _ None).
  - apply metadata_closed.
Qed.

Lemma no_live_job_closed d payload plan job :
  closed (VDict d) = true → build_active_nmap_basic_no_live_job_result (VDict d) payload plan = Ok job →
  closed (VDict job) = true.
Proof.
  intros Hd. unfold build_active_nmap_basic_no_live_job_result. intros (route & _ & H)%bind_ok.
  set (c := if negb _ then (unsafe_route_state, VStr "unsafe_lifecycle_result") else _) in H.
  assert (Hc : closed c.2 = true).
  { unfold c. destruct (str_in _ (get "lifecycle_state" route)) eqn:E; [|reflexivity]. cbn [negb snd].
    apply str_in_inv in E as (s & -> & Hs). revert s Hs. apply Forall_forall. repeat constructor. }
  clearbody c. destruct c as [r st]. cbn [snd] in Hc. cbv zeta in H.
  pose proof (route_reason_closed (get "reason" r)) as Hr. set (reason := _safe_lifecycle_route_reason _) in *.
  clearbody reason. apply raised_ok in H. apply ok_inj in H as ->.
  assert (Hrs : closed (VList (if py_eq st (VStr "completed_no_live") then [] else [VStr reason])) = true).
  { destruct (py_eq _ _); [reflexivity|]. cbn [closed_text forallb]. cbn [closed_text] in Hr. by rewrite Hr. }
  close_dict; first [done | by apply safe_count_closed].
Qed.

Lemma real_job_closed d payload plan job :
  closed (VDict d) = true → build_active_nmap_basic_real_job_result (VDict d) payload plan = Ok job →
  closed (VDict job) = true.
Proof.
  intros Hd. unfold build_active_nmap_basic_real_job_result. intros (route & Hr & H)%bind_ok.
  apply route_closed in Hr; [|done]. assert (Hget : ∀ k, closed (get k route) = true) by (intros k; by apply closed_text_get).
  apply raised_ok in H. cbv zeta in H. apply raised_ok, ok_inj in H as ->.
  assert (Hs : ∀ k, closed (VList (_safe_string_list (get k route))) = true) by (intros k; by apply string_list_closed).
  close_dict; try (by apply safe_count_closed); try apply Hs.
  - by apply default_status_closed.
  - by apply safe_kind_closed.
  - eapply observations_closed, safe_real_observations_form.
  - specialize (Hs "warnings"). cbn [closed_text] in *. by rewrite forallb_app, Hs.
Qed.

(** ** The stored job *)

Lemma run_result_closed normalize_url post settings plan internal fake real rid jid cid reqs d :
  lifecycle_run settings (Some (ActiveNmapBasicRouteActiveToolsClient normalize_url post)) plan internal fake real
    rid jid cid = Ok (reqs, d) →
  closed (VDict d) = true.
Proof.
  unfold lifecycle_run. destruct (_blocked_before_client _ _ _ _ _ _) as [b|] eqn:E.
  - intros [=<- <-]. unfold _blocked_before_client in E.
    repeat match type of E with (if ?b then _ else _) = _ => destruct b end; try discriminate E;
      injection E as <-; reflexivity.
  - intros (u & _ & H)%bind_ok. cbn [or_raise mbind outcome_bind] in H. apply bind_ok in H as (cr & Hcr & H).
    apply bind_ok in H as (r & Hr & H). apply ok_inj in H. injection H as _ ->.
    eapply normalized_result_closed; [|exact Hr]. cbn [client_call ActiveNmapBasicRouteActiveToolsClient] in Hcr.
    destruct (run_active_nmap_basic _ _ _ _) as [x|] eqn:Ex; [|discriminate Hcr]. apply ok_inj in Hcr as ->.
    by eapply run_closed.
Qed.

(** C2: Nothing the runner answers is stored verbatim.  Whatever response the
    service gives to the request of a lifecycle run, the route's answer and the
    job result built from it (of a real scan or not) have, at any depth, only
    fixed keys and only texts of a fixed list: no target, no address, no
    command line, no output and no error text can appear in them. *)
Theorem stored_job_closed normalize_url post settings plan internal fake real rid jid cid reqs d route payload job :
  lifecycle_run settings (Some (ActiveNmapBasicRouteActiveToolsClient normalize_url post)) plan internal fake real
    rid jid cid = Ok (reqs, d) →
  normalize_active_nmap_basic_lifecycle_route_result (VDict d) = Ok route →
  build_active_nmap_basic_no_live_job_result (VDict route) payload plan = Ok job
    ∨ build_active_nmap_basic_real_job_result (VDict route) payload plan = Ok job →
  closed_text job_words job_keys (VDict route) = true ∧ closed_text job_words job_keys (VDict job) = true.
Proof.
  intros Hd%run_result_closed Hr%route_closed Hj; [|done]. split; [done|].
  destruct Hj as [Hj|Hj]; [by eapply no_live_job_closed|by eapply real_job_closed].
Qed.

(** A runner that answers with one open port. *)
Definition sample_answer : value :=
  VDict [("service", VStr "active-tools"); ("status", VStr "completed"); ("capability", VStr "active_nmap_basic");
         ("mode", VStr "live_nmap_basic"); ("profile", VStr "tcp_connect_small"); ("target_kind", VStr "private_hostname");
         ("manual_validation_required", VBool true); ("result_interpretation", VStr "observed_exposure_review_indicator");
         ("execution_enabled", VBool true); ("target_input_allowed", VBool false); ("job_created", VBool false);
         ("target_expansion_performed", VBool false); ("network_requests_sent", VInt 1);
         ("observations", VList [VDict [("port", VInt 22); ("protocol", VStr "tcp"); ("state", VStr "open");
                                        ("reason", VStr "syn-ack")]]);
         ("output_truncated", VBool false); ("execution_metadata", VDict []); ("warnings", VList []); ("errors", VList []);
         ("summary", VDict [("target_count", VInt 1); ("port_count", VInt 1); ("nmap_executed", VBool true);
                            ("evidence_available", VBool true)])].

Lemma stored_job_closed_witness :
  ∃ d route job,
    lifecycle_run (NmapSettings true (Some "http://active-tools:8080"))
      (Some (ActiveNmapBasicRouteActiveToolsClient (default "") (λ _ _, Body sample_answer)))
      sample_plan true false true (VStr "r") (VStr "j") (VStr "c") = Ok d
    ∧ build_active_nmap_basic_real_job_result (VDict route) [] sample_plan = Ok job
    ∧ get "port_observations" job = VList [observation 22 "open" (Some "syn-ack")]
    ∧ closed_text job_words job_keys (VDict job) = true.
Proof.
  destruct (lifecycle_run (NmapSettings true (Some "http://active-tools:8080"))
    (Some (ActiveNmapBasicRouteActiveToolsClient (default "") (λ _ _, Body sample_answer)))
    sample_plan true false true (VStr "r") (VStr "j") (VStr "c")) as [[reqs d]|] eqn:E; [|vm_compute in E; discriminate E].
  destruct (normalize_active_nmap_basic_lifecycle_route_result (VDict d)) as [route|] eqn:Er;
    [|vm_compute in E; injection E as <- <-; vm_compute in Er; discriminate Er].
  destruct (build_active_nmap_basic_real_job_result (VDict route) [] sample_plan) as [job|] eqn:Ej;
    [|vm_compute in E; injection E as <- <-; vm_compute in Er; injection Er as <-; vm_compute in Ej; discriminate Ej].
  exists (reqs, d), route, job. split; [done|]. split; [done|]. split.
  - vm_compute in E; injection E as <- <-; vm_compute in Er; injection Er as <-; vm_compute in Ej. by injection Ej as <-.
  - by apply (stored_job_closed _ _ _ _ _ _ _ _ _ _ _ _ _ _ _ E Er (or_intror Ej)).
Defined.
