(* ===== verification/Findings.v ===== *)
(** * Findings: triage decisions on findings

    [backend/app/finding_lifecycle.py], the functions over values: the texts,
    mentions and review dates of a decision, its effective status, and the
    chains its history must form.  The record is [FindingDecisionRecord] of
    [backend/app/models.py].  The secret redaction of [backend/app/reporting.py]
    and pydantic's text of a datetime are arguments. *)

From S2P Require Import Prelude PyStr Grouping Sha256 PyValue.

(** ** Statuses *)

(** backend/app/models.py 63-63 [FindingDecisionStatus] *)
Inductive FindingDecisionStatus : Type := open | in_review | accepted | false_positive | resolved.

#[export] Instance status_eq_dec : EqDecision FindingDecisionStatus.
Proof. solve_decision. Defined.

Definition status_text (s : FindingDecisionStatus) : string :=
  match s with
  | open => "open" | in_review => "in_review" | accepted => "accepted"
  | false_positive => "false_positive" | resolved => "resolved"
  end.

(** backend/app/finding_lifecycle.py [ALLOWED_TRANSITIONS] *)
Definition ALLOWED_TRANSITIONS (s : FindingDecisionStatus) : list FindingDecisionStatus :=
  match s with
  | open => [in_review; accepted; false_positive; resolved]
  | in_review => [open; accepted; false_positive; resolved]
  | accepted => [open; in_review; resolved]
  | false_positive => [open; in_review]
  | resolved => [open; in_review]
  end.

(** backend/app/finding_lifecycle.py [EXCEPTION_STATUSES] *)
Definition EXCEPTION_STATUSES : list FindingDecisionStatus := [accepted; false_positive].

(** backend/app/finding_lifecycle.py 27-32 [constants] *)
Definition FINDING_DECISION_CONTRACT_VERSION : string := "2026-09-11.1".
Definition MAX_DECISIONS_PER_FINDING : nat := 100.
Definition MAX_DECISIONS_PER_PROJECT : Z := 10000.
Definition MAX_PORTFOLIO_QUERY_PROJECTS : Z := 20000.
Definition FINDING_ACTIVITY_EMBEDDED_PAGE_SIZE : nat := 10.
Definition FINDING_ACTIVITY_MAX_PAGE_SIZE : nat := 25.
(** backend/app/finding_lifecycle.py [MAX_EXCEPTION_REVIEW_DAYS] *)
Definition MAX_EXCEPTION_REVIEW_DAYS : Z := 366.

(** ** Identifiers

    The patterns, all matched against the whole text. *)
Definition hex_of (n : nat) (s : string) : bool := (len s =? n)%nat && all_chars is_hex_lower s.
(** backend/app/finding_lifecycle.py [_BATCH_ID] *)
Definition _BATCH_ID (s : string) : bool := hex_of 64 s.
(** backend/app/finding_lifecycle.py [_ORGANIZATION_ID] *)
Definition _ORGANIZATION_ID (s : string) : bool := String.eqb s "local-admin" || hex_of 32 s.
(** backend/app/finding_lifecycle.py [_PROJECT_ID] *)
Definition _PROJECT_ID (s : string) : bool := hex_of 32 s.
(** backend/app/finding_lifecycle.py [_FINDING_ID] *)
Definition _FINDING_ID (s : string) : bool :=
  hex_of 64 s || (startswith "pvf_" s && hex_of 64 (str_drop 4 s)).

Definition is_name_head (c : ascii) : bool := is_lower_az c || is_digit c.
Definition is_name_char (c : ascii) : bool := is_lower_az c || is_digit c || one_of "._-" c.
(** [[a-z0-9][a-z0-9._-]{2,63}] *)
Definition username_chars (l : list ascii) : bool :=
  match l with
  | c :: l' => is_name_head c && forallb is_name_char l' && (2 <=? length l')%nat && (length l' <=? 63)%nat
  | [] => false
  end.
(** backend/app/finding_lifecycle.py [_USERNAME] *)
Definition _USERNAME (s : string) : bool := username_chars (chars s).

(** ** The record *)

(** backend/app/models.py 1383-1415 [FindingDecisionRecord] *)
Record FindingDecisionRecord : Type := DecisionRecord {
  contract_version : string;
  decision_id : string;
  organization_id : string;
  project_id : string;
  finding_id : string;
  rule_id : string;
  status : FindingDecisionStatus;
  reason : string;
  comment : option string;
  mentioned_usernames : list string;
  assignee_user_id : option string;
  assignee_username : option string;
  actor_id : string;
  actor_username : string;
  actor_role : string;
  review_at : option datetime;
  created_at : datetime;
  previous_decision_id : option string;
  batch_operation_id : option string;
}.

#[export] Instance decision_eq_dec : EqDecision FindingDecisionRecord.
Proof. solve_decision. Defined.

Definition length_within (lo hi : nat) (s : string) : bool := (lo <=? len s)%nat && (len s <=? hi)%nat.

(** What pydantic checks, on construction and when a file is read. *)
(** backend/app/models.py 1388-1433 [FindingDecisionRecord.validate_immutable_decision_contract] *)
Definition record_valid (r : FindingDecisionRecord) : bool :=
  mem (contract_version r) ["2026-09-06.1"; "2026-09-11.1"]
  && hex_of 32 (decision_id r)
  && _ORGANIZATION_ID (organization_id r)
  && hex_of 32 (project_id r)
  && _FINDING_ID (finding_id r)
  && length_within 1 160 (rule_id r)
  && length_within 3 240 (reason r)
  && from_option (length_within 0 1000) true (comment r)
  && (length (mentioned_usernames r) <=? 5)%nat
  && from_option (length_within 1 64) true (assignee_user_id r)
  && from_option (length_within 3 64) true (assignee_username r)
  && length_within 1 64 (actor_id r)
  && length_within 1 64 (actor_username r)
  && length_within 1 32 (actor_role r)
  && from_option (hex_of 32) true (previous_decision_id r)
  && from_option (hex_of 64) true (batch_operation_id r)
  && Bool.eqb (truthy_opt (assignee_user_id r)) (truthy_opt (assignee_username r))
  && negb (bool_decide (is_Some (review_at r)) && negb (bool_decide (status r ∈ EXCEPTION_STATUSES)))
  && aware (created_at r)
  && from_option aware true (review_at r)
  && bool_decide (NoDup (mentioned_usernames r))
  && all_of _USERNAME (mentioned_usernames r)
  && negb (negb (length (mentioned_usernames r) =? 0)%nat && bool_decide (comment r = None)).

(** ** Texts *)

Section texts.
Context (redact_active_secret_text : string → string).

(** backend/app/finding_lifecycle.py [safe_decision_text] *)
Definition safe_decision_text (value : option string) (required : bool) (max_length : nat) : outcome (option string) :=
  match value with
  | None => raise "reason_required" when required;; Ok None
  | Some value =>
      raise "invalid_text" when (max_length <? len value)%nat;;
      let normalized := join " " (split_space (strip value)) in
      raise "invalid_text" when any_char (λ c, (code c <? 32)%N) normalized;;
      raise "reason_required" when (required && (len normalized <? 3)%nat);;
      if negb (truthy normalized) then Ok None else
      let redacted := join " " (split_space (redact_active_secret_text normalized)) in
      Ok (Some (str_take max_length redacted))
  end.
End texts.

(** The name a mention at this place has: a whole run of name characters,
    followed by a space or the end. *)
Definition mention_name (l : list ascii) : option string :=
  let run := take_while is_name_char l in
  if username_chars run && from_option is_space true (head (drop (length run) l)) then Some (text run) else None.

(** [_MENTION.finditer]: an "@" not after a name character.  The names have
    no "@", so that matches cannot overlap. *)
(** backend/app/finding_lifecycle.py [_MENTION] *)
Fixpoint mentions_of (after_name : bool) (l : list ascii) : list string :=
  match l with
  | [] => []
  | c :: l' =>
      (if is_char "@" c && negb after_name then option_list (mention_name l') else [])
      ++ mentions_of (is_ascii_alnum c || one_of "._-" c) l'
  end.

(* One match: its name is added once; more than five raise. *)
(** backend/app/finding_lifecycle.py 902-907 [extract_decision_mentions] *)
Definition add_mention (mentions : list string) (username : string) : outcome (list string) :=
  let mentions := if mem username mentions then mentions else mentions ++ [username] in
  raise "invalid_mentions" when (5 <? length mentions)%nat;; Ok mentions.

Fixpoint fold_outcome {A B} (f : A → B → outcome A) (a : A) (l : list B) : outcome A :=
  match l with
  | [] => Ok a
  | x :: l' => a' ← f a x; fold_outcome f a' l'
  end.

(** backend/app/finding_lifecycle.py [extract_decision_mentions] *)
Definition extract_decision_mentions (value : option string) : outcome (list string) :=
  match value with
  | None => Ok []
  | Some value => fold_outcome add_mention [] (mentions_of false (chars value))
  end.

(** backend/app/finding_lifecycle.py [normalize_mentioned_usernames] *)
Definition normalize_mentioned_usernames (values : option (list value)) : outcome (list string) :=
  match values with
  | None => Ok []
  | Some values =>
      raise "invalid_mentions" when (5 <? length values)%nat;;
      let normalized := omap (λ v, match v with VStr s => Some (lower (strip s)) | _ => None end) values in
      raise "invalid_mentions" when
        (negb (length normalized =? length values)%nat
         || negb (length (remove_dups normalized) =? length normalized)%nat
         || any_of (λ s, negb (_USERNAME s)) normalized);;
      Ok normalized
  end.

Example mentions_found :
  extract_decision_mentions (Some "cc @ops-team and a@b.co @Bob @x1 @ops-team @dev.") = Ok ["ops-team"; "dev."].
Proof. reflexivity. Qed.

(** ** Review dates and the effective status *)

(** backend/app/finding_lifecycle.py [normalize_review_at] *)
Definition normalize_review_at (value : option datetime) (st : FindingDecisionStatus) (now : datetime)
    : outcome (option datetime) :=
  match value with
  | None => raise "review_date_required" when bool_decide (st ∈ EXCEPTION_STATUSES);; Ok None
  | Some value =>
      raise "review_date_not_allowed" when negb (bool_decide (st ∈ EXCEPTION_STATUSES));;
      raise "review_date_timezone_required" when negb (aware value);;
      let normalized := as_utc value in
      raise "review_date_not_future" when (instant normalized <=? instant now)%Z;;
      raise "review_date_too_far" when (instant now + days MAX_EXCEPTION_REVIEW_DAYS <? instant normalized)%Z;;
      Ok (Some normalized)
  end.

(** backend/app/finding_lifecycle.py [is_expired] *)
Definition is_expired (r : FindingDecisionRecord) (now : datetime) : bool :=
  bool_decide (status r ∈ EXCEPTION_STATUSES)
  && match review_at r with None => true | Some t => (instant t <=? instant now)%Z end.

(** backend/app/finding_lifecycle.py [effective_status] *)
Definition effective_status (r : FindingDecisionRecord) (now : datetime) : FindingDecisionStatus :=
  if is_expired r now then in_review else status r.

(** ** Digests *)

Section digests.
Context (isoformat : datetime → string).

Definition opt_text (o : option string) : value := from_option VStr VNone o.
Definition opt_time (o : option datetime) : value := from_option (λ d, VStr (isoformat d)) VNone o.

(** [record.model_dump(mode="json")], with its keys sorted. *)
Definition model_dump (r : FindingDecisionRecord) : value := VDict
  [("actor_id", VStr (actor_id r)); ("actor_role", VStr (actor_role r)); ("actor_username", VStr (actor_username r));
   ("assignee_user_id", opt_text (assignee_user_id r)); ("assignee_username", opt_text (assignee_username r));
   ("batch_operation_id", opt_text (batch_operation_id r)); ("comment", opt_text (comment r));
   ("contract_version", VStr (contract_version r)); ("created_at", VStr (isoformat (created_at r)));
   ("finding_id", VStr (finding_id r)); ("id", VStr (decision_id r));
   ("mentioned_usernames", VList (VStr <$> mentioned_usernames r)); ("organization_id", VStr (organization_id r));
   ("previous_decision_id", opt_text (previous_decision_id r)); ("project_id", VStr (project_id r));
   ("reason", VStr (reason r)); ("review_at", opt_time (review_at r)); ("rule_id", VStr (rule_id r));
   ("status", VStr (status_text (status r)))].

(** backend/app/finding_lifecycle.py [_decision_digest] *)
Definition _decision_digest (r : FindingDecisionRecord) : string := sha256_hex (json_dumps (model_dump r)).
End digests.

(** ** Chains *)

(* [child_by_parent], built item by item. *)
(** backend/app/finding_lifecycle.py 976-982 [validated_decision_chains] *)
Definition add_child (by_id : list string) (child_by_parent : dict FindingDecisionRecord) (item : FindingDecisionRecord)
    : outcome (dict FindingDecisionRecord) :=
  match previous_decision_id item with
  | None => Ok child_by_parent
  | Some parent_id =>
      raise "stored_decision_invalid" when
        (negb (mem parent_id by_id) || bool_decide (is_Some (dict_get parent_id child_by_parent)));;
      Ok (dict_set parent_id item child_by_parent)
  end.

(* [while current.id not in ...]; the fuel is the number of items, since each
   pass adds an item that was not there. *)
(** backend/app/finding_lifecycle.py 984-991 [validated_decision_chains] *)
Fixpoint follow (child_by_parent : dict FindingDecisionRecord) (fuel : nat) (chain : list FindingDecisionRecord)
    (current : FindingDecisionRecord) : list FindingDecisionRecord :=
  match fuel with
  | O => chain
  | S fuel =>
      if mem (decision_id current) (decision_id <$> chain) then chain else
      let chain := chain ++ [current] in
      match dict_get (decision_id current) child_by_parent with
      | None => chain
      | Some successor => follow child_by_parent fuel chain successor
      end
  end.

(** backend/app/finding_lifecycle.py 968-996 [validated_decision_chains] *)
Definition chain_of (items : list FindingDecisionRecord) : outcome (list FindingDecisionRecord) :=
  let by_id := decision_id <$> items in
  raise "stored_decision_invalid" when negb (length (remove_dups by_id) =? length items)%nat;;
  match filter (λ r, previous_decision_id r = None) items with
  | [root] =>
      child_by_parent ← fold_outcome (add_child by_id) [] items;
      let chain := follow child_by_parent (S (length items)) [] root in
      raise "stored_decision_invalid" when negb (length chain =? length items)%nat;;
      raise "stored_decision_invalid" when
        match chain with
        | first :: _ => any_of (λ r, negb (String.eqb (rule_id r) (rule_id first))) chain
        | [] => false
        end;;
      Ok chain
  | _ => Err "stored_decision_invalid"
  end.

(** backend/app/finding_lifecycle.py [validated_decision_chains] *)
Definition validated_decision_chains (records : list FindingDecisionRecord) : outcome (list FindingDecisionRecord) :=
  let by_finding := group_by finding_id records in
  chains ← traverse (λ finding_id, chain_of (default [] (dict_get finding_id by_finding))) (sorted_strs by_finding.*1);
  Ok (concat chains).
