(* ===== verification/FindingStore.v ===== *)
(** * FindingStore: the decision files and their batches

    [backend/app/finding_lifecycle.py], [FindingDecisionStore]: the three
    directories it keeps, and every operation, as programs that leave a state
    behind after each file system change ([CrashProg]).  Each renamed file is
    taken to be durable and whole ([os.fsync], [os.replace]); no call of the
    operating system fails.  [RiskTrendSourceClock.record_mutation], which
    never raises to its caller, is an entry of a log. *)

From S2P Require Import Prelude PyStr Grouping Sha256 PyValue CrashProg Findings.

(** ** Files

    What a name leads to: a symbolic link (to something or not), a regular
    file (with contents that parse or not), or something else. *)
Inductive entry (A : Type) : Type :=
| Symlink (resolves : bool)
| File (content : option A)
| Other.
Arguments Symlink {A} resolves.
Arguments File {A} content.
Arguments Other {A}.

(** [path.exists()], [path.is_symlink()], [path.is_file()] of a link to no
    regular file. *)
Definition exists_ {A} (e : option (entry A)) : bool :=
  match e with None => false | Some (Symlink resolves) => resolves | Some _ => true end.
Definition present {A} (e : option A) : bool := bool_decide (is_Some e).

(** ** Batches *)

(** backend/app/finding_lifecycle.py 52-64 [RemediationBatchJournal] *)
Record RemediationBatchJournal : Type := Journal {
  operation_id : string;
  journal_organization_id : string;
  request_digest : string;
  group_id : string;
  decision_ids : list string;
  decision_digests : dict string;
  prepared_at : datetime;
}.

(** backend/app/finding_lifecycle.py 57-76 [RemediationBatchJournal.model_post_init] *)
Definition journal_valid (j : RemediationBatchJournal) : bool :=
  hex_of 64 (operation_id j) && _ORGANIZATION_ID (journal_organization_id j) && hex_of 64 (request_digest j)
  && hex_of 64 (group_id j) && (1 <=? length (decision_ids j))%nat && (length (decision_ids j) <=? 25)%nat
  && bool_decide (NoDup (decision_ids j))
  && bool_decide (list_to_set (decision_digests j).*1 =@{gset string} list_to_set (decision_ids j))
  && all_of (hex_of 32) (decision_ids j)
  && all_of _BATCH_ID (decision_digests j).*2
  && aware (prepared_at j).

(** backend/app/finding_lifecycle.py [RemediationBatchReceipt] *)
Record RemediationBatchReceipt : Type := Receipt {
  receipt_journal : RemediationBatchJournal;
  completed_at : datetime;
  replayable : bool;
}.

Definition receipt_valid (r : RemediationBatchReceipt) : bool :=
  journal_valid (receipt_journal r) && aware (completed_at r).

(** A name of the journal directory: a file, or a staging directory. *)
Inductive journal_entry : Type :=
| JournalFile (e : entry RemediationBatchJournal)
| Staging (files : gmap string (entry FindingDecisionRecord)).

(** The store's directories by file name, and the mutations told to the
    clock, oldest first. *)
(** backend/app/finding_lifecycle.py 107-118 [FindingDecisionStore.__init__] *)
Record store : Type := Store {
  directory : gmap string (entry FindingDecisionRecord);
  batch_directory : gmap string (entry RemediationBatchReceipt);
  batch_journal_directory : gmap string journal_entry;
  mutations : list string;
}.

Definition set_directory (f : gmap string (entry FindingDecisionRecord) → gmap string (entry FindingDecisionRecord))
  (s : store) : store := Store (f (directory s)) (batch_directory s) (batch_journal_directory s) (mutations s).
Definition set_batches (f : gmap string (entry RemediationBatchReceipt) → gmap string (entry RemediationBatchReceipt))
  (s : store) : store := Store (directory s) (f (batch_directory s)) (batch_journal_directory s) (mutations s).
Definition set_journals (f : gmap string journal_entry → gmap string journal_entry)
  (s : store) : store := Store (directory s) (batch_directory s) (f (batch_journal_directory s)) (mutations s).

Definition record_mutation (organization : string) : prog store unit :=
  change (λ s, Store (directory s) (batch_directory s) (batch_journal_directory s) (mutations s ++ [organization])).

(** ** Names *)

Definition json_name (i : string) : string := (i ++ ".json")%string.
(** [path.stem] of a name ending in [.json]. *)
Definition json_stem (name : string) : string := str_take (len name - 5) name.
(** [path.suffix == ".json"]: a name that is only the suffix has none. *)
Definition has_json_suffix (name : string) : bool := endswith ".json" name && (5 <? len name)%nat.
(** The name of a temporary file of [_durable_write_json]. *)
Definition temporary_name (name token : string) : string := ("." ++ name ++ "." ++ token ++ ".tmp")%string.
(** The names of a directory, sorted. *)
Definition names {A} (d : gmap string A) : list string := sorted_strs (map_to_list d).*1.

(** backend/app/finding_lifecycle.py [FindingDecisionStore._path] *)
Definition _path (i : string) : outcome string :=
  raise "invalid_identifier" when negb (hex_of 32 i);; Ok (json_name i).

(** backend/app/finding_lifecycle.py [FindingDecisionStore._batch_journal_path] *)
Definition _batch_journal_path (operation : string) : outcome string :=
  raise "invalid_batch" when negb (_BATCH_ID operation);; Ok (json_name operation).
(** backend/app/finding_lifecycle.py [FindingDecisionStore._batch_receipt_path] *)
Definition _batch_receipt_path (operation : string) : outcome string :=
  raise "invalid_batch" when negb (_BATCH_ID operation);; Ok (json_name operation).
Definition staging_name (operation : string) : string := ("." ++ operation ++ ".staging")%string.
(** backend/app/finding_lifecycle.py [FindingDecisionStore._batch_staging_path] *)
Definition _batch_staging_path (operation : string) : outcome string :=
  raise "invalid_batch" when negb (_BATCH_ID operation);; Ok (staging_name operation).

(** ** Reading *)

(** backend/app/finding_lifecycle.py [FindingDecisionStore._load_decision_path] *)
Definition load_decision (name : string) (e : option (entry FindingDecisionRecord)) : outcome FindingDecisionRecord :=
  match e with
  | Some (File content) =>
      raise "stored_decision_invalid" when negb (hex_of 32 (json_stem name));;
      record ← or_raise content "stored_decision_invalid";
      raise "stored_decision_invalid" when negb (record_valid record);;
      raise "stored_decision_invalid" when negb (String.eqb (decision_id record) (json_stem name));;
      Ok record
  | _ => Err "stored_decision_invalid"
  end.

(** backend/app/finding_lifecycle.py [FindingDecisionStore._load_batch_receipt_unlocked] *)
Definition _load_batch_receipt_unlocked (s : store) (operation : string) : outcome RemediationBatchReceipt :=
  path ← _batch_receipt_path operation;
  match batch_directory s !! path with
  | Some (File content) =>
      receipt ← or_raise content "batch_state_invalid";
      raise "batch_state_invalid" when negb (receipt_valid receipt);;
      raise "batch_state_invalid" when negb (String.eqb (operation_id (receipt_journal receipt)) operation);;
      Ok receipt
  | _ => Err "batch_state_invalid"
  end.

(* One name of the directory. *)
(** backend/app/finding_lifecycle.py 720-726 [FindingDecisionStore._load_batch_receipts_unlocked] *)
Definition load_receipt (s : store) (name : string) : outcome (list (string * RemediationBatchReceipt)) :=
  if String.eqb name ".gitkeep" then Ok [] else
  match batch_directory s !! name with
  | Some (File _) =>
      raise "batch_state_invalid" when negb (has_json_suffix name) || negb (_BATCH_ID (json_stem name));;
      receipt ← _load_batch_receipt_unlocked s (json_stem name);
      Ok [(json_stem name, receipt)]
  | _ => Err "batch_state_invalid"
  end.

(** backend/app/finding_lifecycle.py [FindingDecisionStore._load_batch_receipts_unlocked] *)
Definition _load_batch_receipts_unlocked (s : store) : outcome (dict RemediationBatchReceipt) :=
  loaded ← traverse (load_receipt s) (names (batch_directory s)); Ok (concat loaded).

(** The records of a directory listing, with the identifiers seen of each
    batch; a record whose batch has no receipt is passed over. *)
Section reading.
Context (isoformat : datetime → string).
Abbreviation decision_digest := (_decision_digest isoformat).

Definition digest_is (digests : dict string) (r : FindingDecisionRecord) : bool :=
  bool_decide (dict_get (decision_id r) digests = Some (decision_digest r)).

(** backend/app/finding_lifecycle.py 681-697 [FindingDecisionStore._visible_records_unlocked] *)
Definition visible_record (s : store) (receipts : dict RemediationBatchReceipt) (name : string)
    : outcome (option FindingDecisionRecord) :=
  record ← load_decision name (directory s !! name);
  match batch_operation_id record with
  | None => Ok (Some record)
  | Some operation =>
      match dict_get operation receipts with
      | None => Ok None
      | Some receipt =>
          raise "stored_decision_invalid" when
            (negb (digest_is (decision_digests (receipt_journal receipt)) record)
             || negb (String.eqb (organization_id record) (journal_organization_id (receipt_journal receipt))));;
          Ok (Some record)
      end
  end.

Definition in_batch (operation : string) (r : FindingDecisionRecord) : bool :=
  bool_decide (batch_operation_id r = Some operation).

(** [directory.glob("*.json")], sorted. *)
Definition decision_names (s : store) : list string := filter (λ n, endswith ".json" n = true) (names (directory s)).

(** backend/app/finding_lifecycle.py [FindingDecisionStore._visible_records_unlocked] *)
Definition _visible_records_unlocked (s : store) : outcome (list FindingDecisionRecord) :=
  let paths := decision_names s in
  raise "store_limit" when (MAX_DECISIONS_PER_PROJECT * 10 <? Z.of_nat (length paths))%Z;;
  receipts ← _load_batch_receipts_unlocked s;
  found ← traverse (visible_record s receipts) paths;
  let records := omap (λ r, r) found in
  raise "stored_decision_invalid" when
    any_of (λ or, negb (bool_decide (
      list_to_set (decision_id <$> filter (λ r, in_batch or.1 r = true) records)
      =@{gset string} list_to_set (decision_ids (receipt_journal or.2))))) receipts;;
  Ok records.

(** backend/app/finding_lifecycle.py [FindingDecisionStore._list_for_project_unlocked] *)
Definition _list_for_project_unlocked (s : store) (organization project : string) : outcome (list FindingDecisionRecord) :=
  records ← _visible_records_unlocked s;
  validated_decision_chains
    (filter (λ r, organization_id r = organization ∧ project_id r = project) records).

(** backend/app/finding_lifecycle.py [FindingDecisionStore.list_for_project] *)
Definition list_for_project : store → string → string → outcome (list FindingDecisionRecord) := _list_for_project_unlocked.

Definition history_of (finding : string) (records : list FindingDecisionRecord) : list FindingDecisionRecord :=
  filter (λ r, finding_id r = finding) records.

(** The place after a cursor, counted from the start. *)
Fixpoint after_cursor (cursor : string) (l : list FindingDecisionRecord) : option nat :=
  match l with
  | [] => None
  | r :: l' => if String.eqb (decision_id r) cursor then Some 1 else S <$> after_cursor cursor l'
  end.

(** backend/app/finding_lifecycle.py [FindingDecisionStore.page_for_finding] *)
Definition page_for_finding (s : store) (organization project finding : string) (page_size : Z) (cursor : option string)
    : outcome (list FindingDecisionRecord * nat * option string) :=
  raise "invalid_activity_cursor" when
    (negb (_ORGANIZATION_ID organization) || negb (_PROJECT_ID project) || negb (_FINDING_ID finding)
     || negb ((1 <=? page_size)%Z && (page_size <=? Z.of_nat FINDING_ACTIVITY_MAX_PAGE_SIZE)%Z)
     || match cursor with Some c => negb (_PROJECT_ID c) | None => false end);;
  listed ← list_for_project s organization project;
  let newest := reverse (history_of finding listed) in
  start ← match cursor with
          | None => Ok 0
          | Some c => or_raise (after_cursor c newest) "invalid_activity_cursor"
          end;
  let items := take (Z.to_nat page_size) (drop start newest) in
  let has_more := (start + length items <? length newest)%nat in
  let next_cursor := if has_more then decision_id <$> last items else None in
  Ok (items, length newest, next_cursor).

(** backend/app/finding_lifecycle.py [FindingDecisionStore.list_for_projects] *)
Definition list_for_projects (s : store) (organization : string) (project_ids : gset string)
    : outcome (gmap string (list FindingDecisionRecord)) :=
  raise "invalid_project_scope" when
    ((MAX_PORTFOLIO_QUERY_PROJECTS <? Z.of_nat (size project_ids))%Z
     || any_of (λ p, negb (hex_of 32 p)) (elements project_ids));;
  if bool_decide (project_ids = ∅) then Ok ∅ else
  records ← _visible_records_unlocked s;
  chains ← traverse (λ project,
      chain ← validated_decision_chains (filter (λ r, organization_id r = organization ∧ project_id r = project) records);
      Ok (project, chain)) (elements project_ids);
  Ok (list_to_map chains).

(** backend/app/finding_lifecycle.py [FindingDecisionStore.report_snapshot] *)
Definition report_snapshot (s : store) (organization : string) (cutoff : datetime)
    : outcome (dict (list FindingDecisionRecord)) :=
  raise "invalid_project_scope" when negb (aware cutoff);;
  records ← _visible_records_unlocked s;
  let own := filter (λ r, organization_id r = organization) records in
  raise "snapshot_changed" when any_of (λ r, (instant cutoff <? instant (created_at r))%Z) own;;
  traverse (λ group, chain ← validated_decision_chains group.2; Ok (group.1, chain)) (group_by project_id own).
End reading.

(** ** Writing *)

(** [_durable_write_json]: a temporary file beside the path, then its
    replacement.  The token of the temporary name is a fresh [uuid4]. *)
Section writing.
Context (token : string) (now : datetime) (isoformat : datetime → string).

Definition write_over {A} (name : string) (content : A) (d : gmap string (entry A)) : gmap string (entry A) :=
  <[name := File (Some content)]> (delete (temporary_name name token) d).
Definition write_temporary {A} (name : string) (d : gmap string (entry A)) : gmap string (entry A) :=
  <[temporary_name name token := File None]> d.

Definition in_staging (f : gmap string (entry FindingDecisionRecord) → gmap string (entry FindingDecisionRecord))
  (name : string) (s : store) : store :=
  set_journals (alter (λ e, match e with Staging files => Staging (f files) | e => e end) name) s.

(** The staging directory of a name, if it is one. *)
Definition staging_files (name : string) (s : store) : option (gmap string (entry FindingDecisionRecord)) :=
  match batch_journal_directory s !! name with Some (Staging files) => Some files | _ => None end.

(* The three directories the function writes to. *)
(** backend/app/finding_lifecycle.py [_durable_write_json] *)
Definition write_staged (staging name : string) (r : FindingDecisionRecord) : prog store unit :=
  change (in_staging (write_temporary name) staging);; change (in_staging (write_over name r) staging).
Definition write_journal (name : string) (j : RemediationBatchJournal) : prog store unit :=
  change (set_journals (<[temporary_name name token := JournalFile (File None)]>));;
  change (set_journals (λ d, <[name := JournalFile (File (Some j))]> (delete (temporary_name name token) d))).
Definition write_receipt (name : string) (r : RemediationBatchReceipt) : prog store unit :=
  change (set_batches (write_temporary name));; change (set_batches (write_over name r)).
(** backend/app/storage.py [_atomic_write_json] *)
Definition write_decision (name : string) (r : FindingDecisionRecord) : prog store unit :=
  let tmp_path := (name ++ ".tmp")%string in
  change (set_directory (<[tmp_path := File None]>));;
  change (set_directory (λ d, <[name := File (Some r)]> (delete tmp_path d))).

(* One child of a staging directory. *)
(** backend/app/finding_lifecycle.py 774-777 [FindingDecisionStore._remove_staging_unlocked] *)
Definition remove_child (path : string) (child : string * entry FindingDecisionRecord) : prog store unit :=
  match child.2 with
  | File _ => change (in_staging (delete child.1) path)
  | _ => throw "batch_state_invalid"
  end.

(** backend/app/finding_lifecycle.py [FindingDecisionStore._remove_staging_unlocked] *)
Definition _remove_staging_unlocked (path : string) : prog store unit :=
  e ← reads (λ s, batch_journal_directory s !! path);
  match e with
  | None => mret tt
  | Some (JournalFile _) => throw "batch_state_invalid"
  | Some (Staging files) => _ ← each (remove_child path) (map_to_list files); change (set_journals (delete path))
  end.

(** backend/app/finding_lifecycle.py [FindingDecisionStore._cleanup_completed_batch_unlocked] *)
Definition _cleanup_completed_batch_unlocked (operation : string) : prog store unit :=
  journal ← lift (_batch_journal_path operation);
  e ← reads (λ s, batch_journal_directory s !! journal);
  match e with
  | Some (JournalFile (Symlink _)) => throw "batch_state_invalid"
  | Some (JournalFile Other) | Some (Staging _) => throw "OSError"
  | Some (JournalFile (File _)) => change (set_journals (delete journal))
  | None => mret tt
  end;;
  staging ← lift (_batch_staging_path operation);
  _remove_staging_unlocked staging.

(** The record read is the one the batch prepared. *)
Definition prepared_record (j : RemediationBatchJournal) (i : string) (r : FindingDecisionRecord) : bool :=
  in_batch (operation_id j) r && String.eqb (organization_id r) (journal_organization_id j)
  && bool_decide (dict_get i (decision_digests j) = Some (_decision_digest isoformat r)).

(* One decision of the journal. *)
(** backend/app/finding_lifecycle.py 610-627 [FindingDecisionStore._recover_batch_operation_unlocked] *)
Definition recover_decision (j : RemediationBatchJournal) (staging i : string) : prog store unit :=
  path ← lift (_path i);
  e ← reads (λ s, directory s !! path);
  record ← (if present e then lift (load_decision path e) else
    staged ← reads (λ s, staging_files staging s ≫= lookup path);
    record ← lift (match staged with
                   | Some (File _) => load_decision path staged
                   | _ => Err "batch_state_invalid"
                   end);
    change (λ s, in_staging (delete path) staging (set_directory (<[path := File (Some record)]>) s));;
    mret record);
  raises "batch_state_invalid" when negb (prepared_record j i record);; mret tt.

(** backend/app/finding_lifecycle.py [FindingDecisionStore._recover_batch_operation_unlocked] *)
Definition _recover_batch_operation_unlocked (j : RemediationBatchJournal) : prog store unit :=
  receipt_path ← lift (_batch_receipt_path (operation_id j));
  e ← reads (λ s, batch_directory s !! receipt_path);
  if present e then
    loaded ← reads (λ s, _load_batch_receipt_unlocked s (operation_id j));
    receipt ← lift loaded;
    let r := receipt_journal receipt in
    raises "batch_state_invalid" when
      (negb (String.eqb (journal_organization_id r) (journal_organization_id j))
       || negb (String.eqb (request_digest r) (request_digest j))
       || negb (bool_decide (list_to_map (decision_digests r) =@{gmap string string} list_to_map (decision_digests j))));;
    _cleanup_completed_batch_unlocked (operation_id j)
  else
    staging ← lift (_batch_staging_path (operation_id j));
    files ← reads (staging_files staging);
    raises "batch_state_invalid" when negb (bool_decide (is_Some files));;
    _ ← each (recover_decision j staging) (decision_ids j);
    let receipt := Receipt j now true in
    raises "ValidationError" when negb (receipt_valid receipt);;
    write_receipt receipt_path receipt;;
    _cleanup_completed_batch_unlocked (operation_id j);;
    record_mutation (journal_organization_id j).

(** backend/app/finding_lifecycle.py [FindingDecisionStore._recover_batch_unlocked] *)
Definition _recover_batch_unlocked (operation : string) : prog store unit :=
  path ← lift (_batch_journal_path operation);
  e ← reads (λ s, batch_journal_directory s !! path);
  match e with
  | Some (JournalFile (File content)) =>
      journal ← lift (or_raise content "batch_state_invalid");
      raises "batch_state_invalid" when negb (journal_valid journal);;
      raises "batch_state_invalid" when negb (String.eqb (operation_id journal) operation);;
      _recover_batch_operation_unlocked journal
  | _ => throw "batch_state_invalid"
  end.

(** backend/app/finding_lifecycle.py [FindingDecisionStore._replay_batch_unlocked] *)
Definition _replay_batch_unlocked (operation organization digest : string) (s : store)
    : outcome (option (list FindingDecisionRecord)) :=
  raise "invalid_batch" when (negb (_BATCH_ID operation) || negb (_BATCH_ID digest));;
  path ← _batch_receipt_path operation;
  if negb (present (batch_directory s !! path)) then Ok None else
  receipt ← _load_batch_receipt_unlocked s operation;
  let j := receipt_journal receipt in
  raise "idempotency_conflict" when negb (String.eqb (journal_organization_id j) organization);;
  raise "idempotency_conflict" when negb (String.eqb digest (request_digest j));;
  raise "batch_replay_unavailable" when negb (replayable receipt);;
  records ← traverse (λ i, path ← _path i; load_decision path (directory s !! path)) (decision_ids j);
  raise "batch_state_invalid" when
    any_of (λ r, negb (String.eqb (organization_id r) organization) || negb (in_batch operation r)
                 || negb (digest_is isoformat (decision_digests j) r)) records;;
  Ok (Some records).

(** backend/app/finding_lifecycle.py [FindingDecisionStore.replay_batch] *)
Definition replay_batch : string → string → string → store → outcome (option (list FindingDecisionRecord)) :=
  _replay_batch_unlocked.

(** [self.batch_journal_directory.glob("*.json")], the operations of it. *)
Definition journal_ids (s : store) : list string :=
  filter (λ i, _BATCH_ID i = true)
    (json_stem <$> filter (λ n, endswith ".json" n = true) (names (batch_journal_directory s))).

(* One decision file. *)
(** backend/app/finding_lifecycle.py 756-760 [FindingDecisionStore._cleanup_orphan_batches_unlocked] *)
Definition remove_orphan (known : list string) (name : string) : prog store unit :=
  e ← reads (λ s, directory s !! name);
  record ← lift (load_decision name e);
  if match batch_operation_id record with Some operation => truthy operation && negb (mem operation known) | None => false end
  then change (set_directory (delete name)) else mret tt.

(* One name of the journal directory. *)
(** backend/app/finding_lifecycle.py 763-766 [FindingDecisionStore._cleanup_orphan_batches_unlocked] *)
Definition remove_orphan_staging (journals : list string) (name : string) : prog store unit :=
  let operation := str_take (len name - 9) (str_drop 1 name) in
  if startswith "." name && endswith ".staging" name && _BATCH_ID operation && negb (mem operation journals)
  then _remove_staging_unlocked name else mret tt.

(** backend/app/finding_lifecycle.py [FindingDecisionStore._cleanup_orphan_batches_unlocked] *)
Definition _cleanup_orphan_batches_unlocked : prog store unit :=
  loaded ← reads _load_batch_receipts_unlocked;
  receipts ← lift loaded;
  journals ← reads journal_ids;
  paths ← reads decision_names;
  _ ← each (remove_orphan (receipts.*1 ++ journals)) paths;
  staged ← reads (λ s, names (batch_journal_directory s));
  _ ← each (remove_orphan_staging journals) staged;
  mret tt.

(* One name of the journal directory: was a batch recovered? *)
(** backend/app/finding_lifecycle.py 294-299 [FindingDecisionStore.recover_pending_batches] *)
Definition recover_name (name : string) : prog store bool :=
  e ← reads (λ s, batch_journal_directory s !! name);
  if startswith "." name && endswith ".staging" name then mret false else
  match e with
  | Some (JournalFile (File _)) =>
      if negb (has_json_suffix name) || negb (_BATCH_ID (json_stem name)) then mret false else
      _recover_batch_unlocked (json_stem name);; mret true
  | _ => mret false
  end.

(** backend/app/finding_lifecycle.py [FindingDecisionStore.recover_pending_batches] *)
Definition recover_pending_batches : prog store nat :=
  paths ← reads (λ s, names (batch_journal_directory s));
  recovered ← each recover_name paths;
  _cleanup_orphan_batches_unlocked;;
  mret (count_of (λ b, b) recovered).

(** backend/app/finding_lifecycle.py [FindingDecisionStore.has_pending_batches] *)
Definition has_pending_batches (s : store) : bool :=
  any_of (λ n, negb (String.eqb n ".gitkeep")) (names (batch_journal_directory s)).

(** ** New identifiers

    The [k]-th call of the identifier factory answers [id_factory k]. *)
Context (id_factory : nat → string).

Definition free_id (s : store) (candidate : string) : bool :=
  hex_of 32 candidate && negb (exists_ (directory s !! json_name candidate)).

(** backend/app/finding_lifecycle.py [FindingDecisionStore._new_id] *)
Definition _new_id (s : store) : outcome string :=
  or_raise (first_match (free_id s) (id_factory <$> seq 0 3)) "identifier_unavailable".

(* The identifier, and the calls made so far. *)
(** backend/app/finding_lifecycle.py [FindingDecisionStore._new_batch_id] *)
Fixpoint new_batch_id (s : store) (reserved : list string) (tries calls : nat) : outcome (string * nat) :=
  match tries with
  | O => Err "identifier_unavailable"
  | S tries =>
      let candidate := id_factory calls in
      if free_id s candidate && negb (mem candidate reserved) then Ok (candidate, S calls)
      else new_batch_id s reserved tries (S calls)
  end.
Definition _new_batch_id (s : store) (reserved : list string) (calls : nat) : outcome (string * nat) :=
  new_batch_id s reserved 6 calls.

(** ** Recording *)

Context (redact_active_secret_text : string → string).

(** What the caller decides, of one finding or of a batch. *)
Record decision_request : Type := Request {
  new_status : FindingDecisionStatus;
  new_reason : string;
  new_comment : option string;
  by_id : string;
  by_username : string;
  by_role : string;
  new_review_at : option datetime;
  new_assignee_user_id : option string;
  new_assignee_username : option string;
  new_mentions : option (list value);
}.

(** The request's texts, dates and mentions, checked. *)
Record safe_request : Type := Safe {
  safe_reason : string;
  safe_comment : option string;
  safe_review_at : option datetime;
  safe_mentions : list string;
}.

(** backend/app/finding_lifecycle.py 138-144 [FindingDecisionStore.record] *)
Definition check_request (q : decision_request) : outcome safe_request :=
  reason ← safe_decision_text redact_active_secret_text (Some (new_reason q)) true 240;
  reason ← or_raise reason "reason_required";
  comment ← safe_decision_text redact_active_secret_text (new_comment q) false 1000;
  review ← normalize_review_at (new_review_at q) (new_status q) now;
  mentions ← normalize_mentioned_usernames (new_mentions q);
  found ← extract_decision_mentions comment;
  raise "invalid_mentions" when negb (bool_decide (found = mentions));;
  Ok (Safe reason comment review mentions).

Definition assignee_complete (q : decision_request) : bool :=
  Bool.eqb (truthy_opt (new_assignee_user_id q)) (truthy_opt (new_assignee_username q)).

Definition rule_supported (rule : string) : bool :=
  (len rule <=? 160)%nat && negb (any_char (λ c, (code c <? 32)%N) rule).

(** backend/app/finding_lifecycle.py 154-162 [FindingDecisionStore.record] *)
Definition check_history (history : list FindingDecisionRecord) (rule : string) (st : FindingDecisionStatus)
    : outcome unit :=
  raise "finding_decision_limit" when (MAX_DECISIONS_PER_FINDING <=? length history)%nat;;
  match last history with
  | None => Ok tt
  | Some previous =>
      raise "finding_identity_conflict" when negb (String.eqb (rule_id previous) rule);;
      raise "invalid_transition" when negb (bool_decide (st ∈ ALLOWED_TRANSITIONS (effective_status previous now)));;
      Ok tt
  end.

(** backend/app/finding_lifecycle.py 165-184 [FindingDecisionStore.record] *)
Definition new_decision (q : decision_request) (safe : safe_request) (organization project finding rule i : string)
    (history : list FindingDecisionRecord) (operation : option string) : FindingDecisionRecord :=
  DecisionRecord FINDING_DECISION_CONTRACT_VERSION i organization project finding rule (new_status q)
    (safe_reason safe) (safe_comment safe) (safe_mentions safe) (new_assignee_user_id q) (new_assignee_username q)
    (by_id q) (by_username q) (by_role q) (safe_review_at safe) now (decision_id <$> last history) operation.

(** backend/app/finding_lifecycle.py [FindingDecisionStore.record] *)
Definition record (q : decision_request) (organization project finding rule : string) : prog store FindingDecisionRecord :=
  safe ← lift (check_request q);
  raises "finding_not_supported" when negb (rule_supported rule);;
  raises "invalid_assignee" when negb (assignee_complete q);;
  listed ← reads (λ s, _list_for_project_unlocked isoformat s organization project);
  existing ← lift listed;
  raises "project_decision_limit" when (MAX_DECISIONS_PER_PROJECT <=? Z.of_nat (length existing))%Z;;
  let history := history_of finding existing in
  _ ← lift (check_history history rule (new_status q));
  fresh ← reads _new_id;
  i ← lift fresh;
  let r := new_decision q safe organization project finding rule i history None in
  raises "ValidationError" when negb (record_valid r);;
  path ← lift (_path i);
  write_decision path r;;
  record_mutation organization;;
  mret r.

(** ** Batches *)

(** backend/app/finding_lifecycle.py [FindingDecisionStore._prepare_batch_unlocked] *)
Definition _prepare_batch_unlocked (operation organization digest group : string) (records : list FindingDecisionRecord)
    (prepared : datetime) : prog store RemediationBatchJournal :=
  staging ← lift (_batch_staging_path operation);
  e ← reads (λ s, batch_journal_directory s !! staging);
  raises "batch_state_invalid" when present e;;
  change (set_journals (<[staging := Staging ∅]>));;
  let digests := (λ r, (decision_id r, _decision_digest isoformat r)) <$> records in
  on_error
    (_ ← each (λ r, write_staged staging (json_name (decision_id r)) r) records;
     let journal := Journal operation organization digest group (decision_id <$> records) digests prepared in
     raises "ValidationError" when negb (journal_valid journal);;
     path ← lift (_batch_journal_path operation);
     write_journal path journal;;
     mret journal)
    (path ← lift (_batch_journal_path operation);
     e ← reads (λ s, batch_journal_directory s !! path);
     if match e with
        | None => false
        | Some (JournalFile f) => exists_ (Some f)
        | Some (Staging _) => true
        end
     then mret tt else _remove_staging_unlocked staging).

(** A project, a finding and its rule. *)
Definition batch_item : Type := string * string * string.

(* One item against the lists read so far. *)
(** backend/app/finding_lifecycle.py 365-381 [FindingDecisionStore.record_many] *)
Definition check_item (q : decision_request) (organization : string) (items : list batch_item)
    (s : store) (by_project : dict (list FindingDecisionRecord)) (item : batch_item)
    : outcome (dict (list FindingDecisionRecord)) :=
  let '(project, finding, rule) := item in
  raise "finding_not_supported" when negb (rule_supported rule);;
  by_project ← match dict_get project by_project with
               | Some _ => Ok by_project
               | None => listed ← _list_for_project_unlocked isoformat s organization project;
                         Ok (dict_set project listed by_project)
               end;
  let existing := default [] (dict_get project by_project) in
  raise "project_decision_limit" when
    (MAX_DECISIONS_PER_PROJECT
     <? Z.of_nat (length existing + count_of (λ v, String.eqb v.1.1 project) items))%Z;;
  _ ← check_history (history_of finding existing) rule (new_status q);
  Ok by_project.

(* One record of the batch, with the identifiers reserved and the factory's
   calls. *)
(** backend/app/finding_lifecycle.py 385-412 [FindingDecisionStore.record_many] *)
Definition batch_record (q : decision_request) (safe : safe_request) (organization operation : string) (s : store)
    (by_project : dict (list FindingDecisionRecord)) (st : list FindingDecisionRecord * nat) (item : batch_item)
    : outcome (list FindingDecisionRecord * nat) :=
  let '(records, calls) := st in
  let '(project, finding, rule) := item in
  let history := history_of finding (default [] (dict_get project by_project)) in
  fresh ← _new_batch_id s (decision_id <$> records) calls;
  let r := new_decision q safe organization project finding rule fresh.1 history (Some operation) in
  raise "ValidationError" when negb (record_valid r);;
  Ok (records ++ [r], fresh.2).

(** The errors turned into [store_unavailable]. *)
Definition store_error (c : string) : string :=
  if mem c ["OSError"; "ValidationError"; "ValueError"] then "store_unavailable" else c.

(** backend/app/finding_lifecycle.py 330-342 [FindingDecisionStore.record_many] *)
Definition check_batch (q : decision_request) (operation digest group : string) (items : list batch_item)
    : outcome safe_request :=
  raise "invalid_batch" when
    (negb ((1 <=? length items)%nat && (length items <=? 25)%nat)
     || negb (length (remove_dups items.*1) =? length items)%nat);;
  raise "invalid_batch" when (negb (_BATCH_ID operation) || negb (_BATCH_ID digest) || negb (_BATCH_ID group));;
  safe ← check_request q;
  raise "invalid_assignee" when negb (assignee_complete q);;
  Ok safe.

(** The batch's records, all items checked before any is made. *)
Definition batch_records (q : decision_request) (safe : safe_request) (organization operation : string)
    (items : list batch_item) (s : store) : outcome (list FindingDecisionRecord) :=
  by_project ← fold_outcome (check_item q organization items s) [] items;
  made ← fold_outcome (batch_record q safe organization operation s by_project) ([], 0) items;
  Ok made.1.

(** backend/app/finding_lifecycle.py [FindingDecisionStore.record_many] *)
Definition record_many (q : decision_request) (organization operation digest group : string) (items : list batch_item)
    : prog store (list FindingDecisionRecord * bool) :=
  safe ← lift (check_batch q operation digest group items);
  replayed ← reads (_replay_batch_unlocked operation organization digest);
  replay ← lift replayed;
  match replay with
  | Some records => mret (records, true)
  | None =>
      journal_path ← lift (_batch_journal_path operation);
      e ← reads (λ s, batch_journal_directory s !! journal_path);
      if present e then
        _recover_batch_unlocked operation;;
        replayed ← reads (_replay_batch_unlocked operation organization digest);
        replay ← lift replayed;
        match replay with
        | None => throw "batch_recovery_failed"
        | Some records => mret (records, true)
        end
      else
        made ← reads (batch_records q safe organization operation items);
        records ← lift made;
        catch (journal ← _prepare_batch_unlocked operation organization digest group records now;
               _recover_batch_operation_unlocked journal) store_error;;
        mret (records, false)
  end.

(** ** Deletion *)

(* The receipt without the removed decisions; nothing when none is left. *)
(** backend/app/finding_lifecycle.py 482-495 [FindingDecisionStore.delete_project] *)
Definition shrink_receipt (removed_ids : list string) (r : RemediationBatchReceipt)
    : option (option RemediationBatchReceipt) :=
  let j := receipt_journal r in
  let retained_ids := filter (λ i, i ∉ removed_ids) (decision_ids j) in
  if (length retained_ids =? length (decision_ids j))%nat then None else
  Some (if (length retained_ids =? 0)%nat then None else
    Some (Receipt
      (Journal (operation_id j) (journal_organization_id j) (request_digest j) (group_id j) retained_ids
         ((λ i, (i, default "" (dict_get i (decision_digests j)))) <$> retained_ids) (prepared_at j))
      (completed_at r) false)).

(** backend/app/finding_lifecycle.py [FindingDecisionStore.delete_project] *)
Definition delete_project (organization project : string) : prog store nat :=
  listed ← reads (λ s, _list_for_project_unlocked isoformat s organization project);
  records ← lift listed;
  _ ← each (λ r, path ← lift (_path (decision_id r)); change (set_directory (delete path))) records;
  loaded ← reads _load_batch_receipts_unlocked;
  receipts ← lift loaded;
  _ ← each (λ or : string * RemediationBatchReceipt,
        let name := json_name or.1 in
        match shrink_receipt (decision_id <$> records) or.2 with
        | None => mret tt
        | Some None => change (set_batches (delete name))
        | Some (Some updated) => write_receipt name updated
        end) receipts;
  (if (length records =? 0)%nat then mret tt else record_mutation organization);;
  mret (length records).

(** ** The state of each finding *)

(** backend/app/models.py [FindingLifecycleState] *)
Record FindingLifecycleState : Type := LifecycleState {
  state_finding_id : string;
  state_rule_id : string;
  current_status : FindingDecisionStatus;
  has_decision : bool;
  needs_review : bool;
  review_overdue : bool;
  current_decision : option FindingDecisionRecord;
  history : list FindingDecisionRecord;
  history_total : nat;
  history_has_more : bool;
}.

(* One finding, by its identifier and rule; a total above 100 is not valid. *)
(** backend/app/finding_lifecycle.py 518-533 [FindingDecisionStore.lifecycle_for_findings] *)
Definition lifecycle_state (by_finding : dict (list FindingDecisionRecord)) (finding rule : string)
    : outcome FindingLifecycleState :=
  let past := default [] (dict_get finding by_finding) in
  let current := last past in
  let overdue := from_option (λ r, is_expired r now) false current in
  let st := from_option (λ r, effective_status r now) open current in
  raise "ValidationError" when (100 <? length past)%nat;;
  Ok (LifecycleState finding rule st (bool_decide (is_Some current))
        (bool_decide (is_Some current) && bool_decide (st = in_review)) overdue current
        (take FINDING_ACTIVITY_EMBEDDED_PAGE_SIZE (reverse past)) (length past)
        (FINDING_ACTIVITY_EMBEDDED_PAGE_SIZE <? length past)%nat).

(** backend/app/finding_lifecycle.py [FindingDecisionStore.lifecycle_for_findings] *)
Definition lifecycle_for_findings (s : store) (organization project : string) (findings : list (string * string))
    : outcome (dict FindingLifecycleState) :=
  records ← list_for_project isoformat s organization project;
  let by_finding := group_by finding_id records in
  fold_outcome (λ states f, state ← lifecycle_state by_finding f.1 f.2; Ok (dict_set f.1 state states)) [] findings.
End writing.

(** ** The binding of a batch *)

(** [sort_keys=True], at every depth. *)
Definition key_le {A} (a b : string * A) : Prop := str_le a.1 b.1.
#[export] Instance key_le_dec {A} (a b : string * A) : Decision (key_le a b).
Proof. unfold key_le. apply _. Defined.
Fixpoint sort_keys (v : value) : value :=
  match v with
  | VDict d => VDict (merge_sort key_le ((λ kv, (kv.1, sort_keys kv.2)) <$> d))
  | VList l => VList (sort_keys <$> l)
  | _ => v
  end.

Definition nul : string := String (Ascii.ascii_of_nat 0) "".

(** The texts hashed for a batch's identity, and for its request. *)
Definition operation_text (organization key : string) : string :=
  ("inspectra-remediation-operation-v1" ++ nul ++ organization ++ nul ++ key)%string.
Definition request_text (organization actor key canonical : string) : string :=
  ("inspectra-remediation-request-v1" ++ nul ++ organization ++ nul ++ utf8 actor ++ nul ++ key ++ nul ++ canonical)%string.

(** backend/app/finding_lifecycle.py [FindingDecisionStore.batch_binding] *)
Definition batch_binding (organization actor key : string) (request_payload : value) : outcome (string * string) :=
  raise "invalid_batch" when
    (negb (_ORGANIZATION_ID organization) || negb (length_within 1 64 actor) || negb (length_within 16 128 key)
     || negb (all_chars (λ c, is_ascii_alnum c || one_of "._:-" c) key));;
  let canonical := json_dumps (sort_keys request_payload) in
  Ok (sha256_hex (operation_text organization key), sha256_hex (request_text organization actor key canonical)).
