(* ===== verification/FindingChains.v ===== *)
(** * FindingChains: the histories that load

    [validated_decision_chains] accepts exactly the records that form, finding
    by finding, one chain linked by the previous decision, and returns the
    chains in order. *)

From S2P Require Import Prelude PyStr Grouping Findings.

(** Each record names the one before it, the first one [prev]. *)
Fixpoint linked (prev : option string) (l : list FindingDecisionRecord) : Prop :=
  match l with
  | [] => True
  | r :: l' => previous_decision_id r = prev ∧ linked (Some (decision_id r)) l'
  end.

Definition same_rule (l : list FindingDecisionRecord) : Prop := ∀ r r', r ∈ l → r' ∈ l → rule_id r = rule_id r'.

(** The history of one finding. *)
Record history_ok (l : list FindingDecisionRecord) : Prop := HistoryOk {
  history_linked : linked None l;
  history_nodup : NoDup (decision_id <$> l);
  history_rule : same_rule l;
}.

Lemma linked_app p l r :
  linked p (l ++ [r]) ↔ linked p l ∧ previous_decision_id r = match last l with Some x => Some (decision_id x) | None => p end.
Proof.
  revert p. induction l as [|x l IH]; intros p; cbn [app linked]; [naive_solver|]. rewrite IH, last_cons.
  destruct (last l); naive_solver.
Qed.

(** A record that is not the first names an earlier one. *)
Lemma linked_parent p l i r :
  linked p l → l !! S i = Some r → ∃ x, l !! i = Some x ∧ previous_decision_id r = Some (decision_id x).
Proof.
  revert p i. induction l as [|y l IH]; intros p i H Hi; [done|]. destruct H as [Hp Hl]. cbn in Hi. destruct i as [|i].
  - destruct l as [|z l]; simplify_eq/=. destruct Hl as [Hz _]. by exists y.
  - by apply (IH (Some (decision_id y)) i).
Qed.

Lemma linked_head p l r : linked p l → head l = Some r → previous_decision_id r = p.
Proof. destruct l as [|x l]; [done|]. by intros [H _] [= ->]. Qed.

(** ** The children *)

Definition child_of (items : list FindingDecisionRecord) (d : dict FindingDecisionRecord) : Prop :=
  ∀ p r, dict_get p d = Some r ↔ r ∈ items ∧ previous_decision_id r = Some p.

(** The parents are known, and no two records have the same. *)
Record parents_ok (by_id : list string) (items : list FindingDecisionRecord) : Prop := ParentsOk {
  parents_known : ∀ r p, r ∈ items → previous_decision_id r = Some p → p ∈ by_id;
  parents_nodup : NoDup (omap previous_decision_id items);
}.

Lemma add_children by_id done items d :
  child_of done d → NoDup (omap previous_decision_id done) →
  (∃ d', fold_outcome (add_child by_id) d items = Ok d' ∧ child_of (done ++ items) d'
         ∧ (∀ r p, r ∈ items → previous_decision_id r = Some p → p ∈ by_id)
         ∧ NoDup (omap previous_decision_id (done ++ items)))
  ∨ (fold_outcome (add_child by_id) d items = Err "stored_decision_invalid"
     ∧ ¬ ((∀ r p, r ∈ items → previous_decision_id r = Some p → p ∈ by_id)
          ∧ NoDup (omap previous_decision_id (done ++ items)))).
Proof.
  revert done d. induction items as [|x items IH]; intros done d Hd Hn.
  { left. exists d. rewrite app_nil_r. split; [done|]. split; [done|]. split; [|done]. by intros r p Hr%elem_of_nil. }
  cbn [fold_outcome]. rewrite cons_middle, !app_assoc.
  assert (Ha : add_child by_id d x = match previous_decision_id x with
    | None => Ok d
    | Some p => if negb (mem p by_id) || bool_decide (is_Some (dict_get p d)) then Err "stored_decision_invalid"
                else Ok (dict_set p x d)
    end) by done.
  rewrite Ha. clear Ha.
  destruct (previous_decision_id x) as [p|] eqn:Ep.
  - destruct (negb (mem p by_id) || _) eqn:Eb.
    + right. split; [done|]. intros [Hk Hdup]. apply orb_true_iff in Eb as [Eb|Eb].
      * apply negb_true_iff in Eb. specialize (Hk x p ltac:(left) Ep). apply mem_true in Hk. congruence.
      * apply bool_decide_eq_true in Eb as [y [Hy Hyp]%Hd]. rewrite omap_app in Hdup.
        apply NoDup_app in Hdup as [Hdup _]. rewrite omap_app in Hdup. cbn in Hdup. rewrite Ep in Hdup.
        apply NoDup_app in Hdup as (_ & Hdis & _). apply (Hdis p); [|by left].
        apply list_elem_of_omap. by exists y.
    + apply orb_false_iff in Eb as [Eb1 Eb2]. apply negb_false_iff, mem_true in Eb1. apply bool_decide_eq_false in Eb2.
      cbn [mbind outcome_bind].
      assert (Hfresh : ∀ y, y ∈ done → previous_decision_id y ≠ Some p).
      { intros y Hy Hyp. apply Eb2. exists y. by apply Hd. }
      destruct (IH (done ++ [x]) (dict_set p x d)) as [(d' & -> & Hc & Hk & Hdup)|(-> & Hbad)].
      * intros q r. rewrite dict_get_set, elem_of_app, list_elem_of_singleton. destruct (String.eqb_spec p q) as [<-|Hq].
        { split; [intros [= <-]; split; [by right|done]|]. intros [[Hr| ->] Hrp]; [|done]. by destruct (Hfresh r Hr). }
        rewrite (Hd q r). split; [naive_solver|]. intros [[Hr| ->] Hrp]; [done|congruence].
      * rewrite omap_app. cbn. rewrite Ep. apply NoDup_app. split; [done|]. split; [|apply NoDup_singleton].
        intros q (y & Hy & Hyq)%list_elem_of_omap ->%list_elem_of_singleton. by apply (Hfresh y Hy).
      * left. exists d'. split; [done|]. split; [done|]. split; [|done].
        intros r q [->|Hr]%elem_of_cons Hrq; [congruence|by eapply Hk].
      * right. split; [done|]. intros [Hk Hdup]. apply Hbad. split; [|done]. intros r q Hr. apply Hk. by right.
  - cbn [mbind outcome_bind].
    destruct (IH (done ++ [x]) d) as [(d' & -> & Hc & Hk & Hdup)|(-> & Hbad)].
    * intros q r. rewrite elem_of_app, list_elem_of_singleton, (Hd q r). naive_solver.
    * rewrite omap_app. cbn. rewrite Ep, app_nil_r. done.
    * left. exists d'. split; [done|]. split; [done|]. split; [|done].
      intros r q [->|Hr]%elem_of_cons Hrq; [congruence|by eapply Hk].
    * right. split; [done|]. intros [Hk Hdup]. apply Hbad. split; [|done]. intros r q Hr. apply Hk. by right.
Qed.

Lemma add_children_exact by_id items :
  (∃ d, fold_outcome (add_child by_id) [] items = Ok d ∧ child_of items d ∧ parents_ok by_id items)
  ∨ (fold_outcome (add_child by_id) [] items = Err "stored_decision_invalid" ∧ ¬ parents_ok by_id items).
Proof.
  destruct (add_children by_id [] items []) as [(d & Hf & Hc & Hk & Hn)|(Hf & Hbad)].
  - intros p r. cbn. split; [done|]. by intros [Hr%elem_of_nil _].
  - constructor.
  - left. exists d. split; [done|]. split; [done|]. by split.
  - right. split; [done|]. intros [Hk Hn]. by apply Hbad.
Qed.

(** ** Following the chain *)

Lemma follow_sound items d fuel chain current :
  child_of items d → current ∈ items → (∀ r, r ∈ chain → r ∈ items) →
  linked None (chain ++ [current]) → NoDup (decision_id <$> chain) →
  let l := follow d fuel chain current in
  linked None l ∧ NoDup (decision_id <$> l) ∧ (∀ r, r ∈ l → r ∈ items).
Proof.
  intros Hd. revert chain current. induction fuel as [|fuel IH]; intros chain current Hc Hi Hl Hn; cbn [follow].
  - apply linked_app in Hl as [Hl _]. done.
  - destruct (mem (decision_id current) _) eqn:Em; [by apply linked_app in Hl as [Hl _]|].
    assert (Hn' : NoDup (decision_id <$> chain ++ [current])).
    { rewrite fmap_app. apply NoDup_app. split; [done|]. split; [|apply NoDup_singleton].
      intros i Hic ->%list_elem_of_singleton. apply mem_true in Hic. congruence. }
    assert (Hi' : ∀ r, r ∈ chain ++ [current] → r ∈ items).
    { intros r [Hr| ->%list_elem_of_singleton]%elem_of_app; auto. }
    destruct (dict_get (decision_id current) d) as [next|] eqn:En; [|done].
    apply Hd in En as [Hnext Hp]. apply IH; [done|done| |done].
    apply linked_app. split; [done|]. by rewrite last_snoc.
Qed.

(** With fuel for each record still to come, the walk reaches the end. *)
Lemma follow_complete items d chain current rest fuel :
  child_of items d → items ≡ₚ chain ++ current :: rest → history_ok (chain ++ current :: rest) →
  length rest < fuel → follow d fuel chain current = chain ++ current :: rest.
Proof.
  intros Hd. revert chain current fuel. induction rest as [|z rest IH]; intros chain current fuel Hp Hh Hf;
    (destruct fuel as [|fuel]; [cbn in Hf; lia|]); cbn [follow]; pose proof Hh as [Hl Hn _];
    (replace (mem (decision_id current) (decision_id <$> chain)) with false;
     [|symmetry; apply not_true_is_false; intros H%mem_true; rewrite fmap_app in Hn;
       apply NoDup_app in Hn as (_ & Hdis & _); apply (Hdis _ H); by left]).
  - destruct (dict_get (decision_id current) d) as [y|] eqn:Ey; [|done]. exfalso.
    apply Hd in Ey as [Hy Hyp]. rewrite Hp in Hy. apply list_elem_of_lookup_1 in Hy as [i Hi].
    destruct i as [|i].
    + assert (Hh0 : previous_decision_id y = None); [|congruence].
      apply (linked_head _ _ _ Hl). by rewrite head_lookup.
    + destruct (linked_parent _ _ _ _ Hl Hi) as (x & Hx & Hxp).
      assert (Hlast : (chain ++ [current]) !! length chain = Some current) by by rewrite list_lookup_middle.
      assert (i = length chain).
      { eapply (NoDup_lookup _ _ _ (decision_id current) Hn); rewrite list_lookup_fmap.
        - rewrite Hx. cbn. congruence.
        - by rewrite Hlast. }
      subst i. apply lookup_lt_Some in Hi. rewrite length_app in Hi. cbn in Hi. lia.
  - assert (Hz : dict_get (decision_id current) d = Some z).
    { apply Hd. split; [rewrite Hp, elem_of_app; right; right; left|].
      assert (Hi : (chain ++ current :: z :: rest) !! S (length chain) = Some z).
      { rewrite lookup_app_r by lia. by replace (S (length chain) - length chain) with 1 by lia. }
      destruct (linked_parent _ _ _ _ Hl Hi) as (x & Hx & ->). rewrite list_lookup_middle in Hx by done.
      by injection Hx as ->. }
    rewrite Hz. assert (E : chain ++ current :: z :: rest = (chain ++ [current]) ++ z :: rest) by by rewrite <- app_assoc.
    rewrite E in Hp, Hh |- *. apply IH; [done|done|]. cbn in Hf. lia.
Qed.

(** ** Exactness of one chain *)

Lemma linked_parents p l : linked (Some p) l → omap previous_decision_id l = take (length l) (p :: (decision_id <$> l)).
Proof.
  revert p. induction l as [|x l IH]; intros p; [done|]. intros [Hx Hl]. cbn [omap list_omap]. rewrite Hx.
  rewrite (IH _ Hl). done.
Qed.

Lemma history_parents l : history_ok l → parents_ok (decision_id <$> l) l.
Proof.
  intros [Hl Hn _]. split.
  - intros r p Hr Hp. apply list_elem_of_lookup_1 in Hr as [[|i] Hi].
    + rewrite (linked_head _ _ r Hl) in Hp; [done|]. by rewrite head_lookup.
    + destruct (linked_parent _ _ _ _ Hl Hi) as (x & Hx & Hxp). rewrite Hxp in Hp. injection Hp as <-.
      apply list_elem_of_fmap_2. by eapply list_elem_of_lookup_2.
  - destruct l as [|x l]; [constructor|]. destruct Hl as [Hx Hl]. cbn [omap list_omap]. rewrite Hx.
    rewrite (linked_parents _ _ Hl). eapply sublist_NoDup; [exact Hn|]. apply sublist_take.
Qed.

Lemma remove_dups_nodup `{EqDecision A} (l : list A) : NoDup l → remove_dups l = l.
Proof.
  induction l as [|x l IH]; intros H; [done|]. apply NoDup_cons in H as [Hx Hl]. cbn.
  destruct (decide_rel elem_of x l); [done|]. by rewrite IH.
Qed.

Lemma filter_none {A} (P : A → Prop) `{∀ x, Decision (P x)} (l : list A) : (∀ x, x ∈ l → ¬ P x) → filter P l = [].
Proof.
  induction l as [|x l IH]; intros Hl; [done|]. rewrite filter_cons_False by (apply Hl; left).
  apply IH. intros y Hy. apply Hl. by right.
Qed.

#[export] Instance omap_parents_Proper : Proper ((≡ₚ) ==> (≡ₚ)) (omap previous_decision_id).
Proof. intros l l' H. by rewrite H. Qed.

Lemma parents_ok_perm by_id by_id' l l' :
  by_id ≡ₚ by_id' → l ≡ₚ l' → parents_ok by_id l → parents_ok by_id' l'.
Proof.
  intros Hi Hl [Hk Hn]. split.
  - intros r p Hr Hp. rewrite <- Hi. eapply Hk; [|done]. by rewrite Hl.
  - by rewrite <- Hl.
Qed.

Lemma rules_agree l x : head l = Some x → (any_of (λ r, negb (String.eqb (rule_id r) (rule_id x))) l = false ↔ same_rule l).
Proof.
  intros Hx. rewrite any_of_false. split.
  - intros H r r' Hr Hr'. pose proof (H r Hr). pose proof (H r' Hr'). to_prop. congruence.
  - intros H r Hr. apply negb_false_iff, String.eqb_eq, H; [done|]. apply list_elem_of_lookup_2 with 0. by rewrite <- head_lookup.
Qed.

Lemma chain_of_exact items chain :
  chain_of items = Ok chain ↔ items ≠ [] ∧ chain ≡ₚ items ∧ history_ok chain.
Proof.
  unfold chain_of. cbv zeta. split.
  - intros H. inv_ok H. destruct (filter _ items) as [|root []] eqn:Er; try discriminate H. inv_ok H. to_prop.
    match goal with E : length (remove_dups _) = _ |- _ => rename E into Hid end.
    rewrite <- (length_fmap decision_id items) in Hid. apply remove_dups_full in Hid.
    match goal with E : fold_outcome _ _ _ = Ok ?d |- _ =>
      destruct (add_children_exact (decision_id <$> items) items) as [(d' & E' & Hc & _)|(E' & _)]; rewrite E in E'; [|done] end.
    injection E' as <-.
    assert (Hroot : root ∈ items ∧ previous_decision_id root = None).
    { assert (Hin : root ∈ filter (λ r, previous_decision_id r = None) items) by (rewrite Er; left).
      apply list_elem_of_filter in Hin. tauto. }
    match goal with |- context [follow ?d ?f [] root] =>
      destruct (follow_sound items d f [] root) as (Hl & Hn & Hin); [done|tauto|by intros r ?%elem_of_nil|
        by split; [apply Hroot|]|constructor|]; set (chain := follow d f [] root) in * end.
    assert (Hne : items ≠ []) by (destruct Hroot as [Hr _]; intros ->; by apply elem_of_nil in Hr).
    assert (Hperm : chain ≡ₚ items).
    { apply submseteq_length_Permutation; [|lia]. apply NoDup_submseteq; [by eapply NoDup_fmap_1|done]. }
    split; [done|]. split; [done|]. split; [done|done|].
    clearbody chain. destruct chain as [|y chain]; [by apply Permutation_nil_l in Hperm|]. by apply (rules_agree (y :: chain) y).
  - intros (Hne & Hp & Hh). pose proof Hh as [Hl Hn Hr].
    assert (Hids : NoDup (decision_id <$> items)) by by rewrite <- Hp.
    assert (Hlen : length (remove_dups (decision_id <$> items)) = length items)
      by by rewrite (remove_dups_nodup _ Hids), length_fmap.
    rewrite Hlen, Nat.eqb_refl. cbn [negb].
    destruct chain as [|root rest]; [by apply Permutation_nil_l in Hp|].
    assert (Hroot : filter (λ r, previous_decision_id r = None) items = [root]).
    { apply Permutation_singleton_r. rewrite <- Hp. rewrite filter_cons_True by apply Hl.
      replace (filter _ rest) with (@nil FindingDecisionRecord); [done|]. symmetry. apply filter_none.
      intros r Hin. apply list_elem_of_lookup_1 in Hin as [i Hi].
      destruct (linked_parent _ (root :: rest) i r Hl Hi) as (x & _ & ->). done. }
    rewrite Hroot.
    destruct (add_children_exact (decision_id <$> items) items) as [(d & -> & Hd & _)|(_ & Hbad)].
    + cbn [mbind outcome_bind]. rewrite (follow_complete items d [] root rest); [|done|by symmetry|done|].
      * cbn [app]. rewrite (Permutation_length Hp), Nat.eqb_refl. cbn [negb].
        by rewrite (proj2 (rules_agree (root :: rest) root eq_refl) Hr).
      * rewrite <- (Permutation_length Hp). cbn. lia.
    + destruct Hbad. eapply parents_ok_perm; [| |by apply history_parents]; by rewrite Hp.
Qed.

(** ** Exactness of the whole *)

Lemma validated_chains records ordered :
  validated_decision_chains records = Ok ordered ↔
  ∃ chains, Forall2 (λ f chain, chain_of (of_key finding_id f records) = Ok chain) (sorted_set (finding_id <$> records)) chains
            ∧ ordered = concat chains.
Proof.
  unfold validated_decision_chains. cbv zeta. rewrite group_by_sorted_keys, bind_ok.
  setoid_rewrite traverse_ok. split.
  - intros (chains & Hf & [= <-]). exists chains. split; [|done]. eapply Forall2_impl; [exact Hf|].
    intros f c. cbn beta. by rewrite group_by_default.
  - intros (chains & Hf & ->). exists chains. split; [|done]. eapply Forall2_impl; [exact Hf|].
    intros f c. cbn beta. by rewrite group_by_default.
Qed.

Lemma history_nil : history_ok [].
Proof. split; [done|constructor|]. by intros r r' ?%elem_of_nil. Qed.

(** Chains made of the records of their finding. *)
Definition chains_for (records : list FindingDecisionRecord) (keys : list string)
    (chains : list (list FindingDecisionRecord)) : Prop :=
  Forall2 (λ f chain, chain_of (of_key finding_id f records) = Ok chain) keys chains.

Lemma chains_keys records keys chains :
  chains_for records keys chains → Forall2 (λ f c, ∀ x, x ∈ c → finding_id x = f) keys chains.
Proof.
  intros Hf. eapply Forall2_impl; [exact Hf|]. intros f c (_ & Hp & _)%chain_of_exact x Hx.
  rewrite Hp in Hx. by apply of_key_elem in Hx as [? _].
Qed.

Lemma chains_perm records chains :
  chains_for records (sorted_set (finding_id <$> records)) chains → concat chains ≡ₚ records.
Proof.
  intros Hf. rewrite <- (groups_perm finding_id (sorted_set (finding_id <$> records)) records).
  - induction Hf as [|f c fs cs (_ & Hp & _)%chain_of_exact _ IH]; [done|]. cbn. by rewrite Hp, IH.
  - apply sorted_set_nodup.
  - intros x Hx. apply sorted_set_elem_of. by apply list_elem_of_fmap_2.
Qed.

Lemma constant_sorted (f : string) (c : list FindingDecisionRecord) :
  (∀ x, x ∈ c → finding_id x = f) → StronglySorted str_le (finding_id <$> c).
Proof.
  intros Hc. induction c as [|x c IH]; [constructor|]. cbn. constructor.
  - apply IH. intros y Hy. apply Hc. by right.
  - apply Forall_forall. intros s (y & -> & Hy)%list_elem_of_fmap.
    rewrite (Hc x) by left. rewrite (Hc y) by by right. apply str_le_refl.
Qed.

Lemma chains_sorted keys chains :
  StronglySorted str_le keys → Forall2 (λ f c, ∀ x, x ∈ c → finding_id x = f) keys chains →
  StronglySorted str_le (finding_id <$> concat chains).
Proof.
  intros Hs Hk. induction Hk as [|f c fs cs Hc Hcs IH]; [constructor|]. inversion Hs as [|? ? Hs' Hle]; subst.
  cbn. rewrite fmap_app. apply StronglySorted_app. split; [|split; [by apply (constant_sorted f)|by apply IH]].
  intros s1 s2 (x & -> & Hx)%list_elem_of_fmap (y & -> & (c' & Hc' & Hy)%concat_elem)%list_elem_of_fmap.
  rewrite (Hc x Hx). apply list_elem_of_lookup_1 in Hc' as [i Hi].
  destruct (Forall2_lookup_r _ _ _ _ _ Hcs Hi) as (f' & Hf' & Hin). rewrite (Hin y Hy).
  rewrite Forall_forall in Hle. apply Hle. by eapply list_elem_of_lookup_2.
Qed.

(** What an accepted set has of each finding. *)
Lemma chains_of_key records ordered f :
  validated_decision_chains records = Ok ordered →
  of_key finding_id f ordered ≡ₚ of_key finding_id f records ∧ history_ok (of_key finding_id f ordered).
Proof.
  intros (chains & Hf & ->)%validated_chains. pose proof (chains_keys _ _ _ Hf) as Hk. split; [by rewrite chains_perm|].
  set (keys := sorted_set (finding_id <$> records)) in *. destruct (decide (f ∈ keys)) as [Hin|Hin].
  - apply list_elem_of_lookup_1 in Hin as [i Hi]. destruct (Forall2_lookup_l _ _ _ _ _ Hf Hi) as (c & Hc & Hch).
    rewrite (of_key_concat finding_id keys chains f c); [by apply chain_of_exact in Hch as (_ & _ & Hch)|apply sorted_set_nodup|done| |].
    + intros j Hj. by rewrite (NoDup_lookup _ _ _ _ (sorted_set_nodup _) Hj Hi).
    + intros Hnot. destruct Hnot. by eapply list_elem_of_lookup_2.
  - rewrite (of_key_concat finding_id keys chains f []); [apply history_nil|apply sorted_set_nodup|done| |done].
    intros j Hj. destruct Hin. by eapply list_elem_of_lookup_2.
Qed.

Lemma of_own_key records f : f ∈ sorted_set (finding_id <$> records) → of_key finding_id f records ≠ [].
Proof.
  intros (x & -> & Hx)%sorted_set_elem_of%list_elem_of_fmap E.
  assert (Hin : x ∈ of_key finding_id (finding_id x) records) by by apply of_key_elem. rewrite E in Hin. by apply elem_of_nil in Hin.
Qed.

(** A set is accepted when each finding's records make a history. *)
Lemma chains_accepted records (h : string → list FindingDecisionRecord) :
  (∀ f, h f ≡ₚ of_key finding_id f records ∧ history_ok (h f)) →
  validated_decision_chains records = Ok (concat (h <$> sorted_set (finding_id <$> records))).
Proof.
  intros Hh. apply validated_chains. eexists. split; [|done].
  apply Forall2_fmap_r, Forall_Forall2_diag, Forall_forall. intros f Hf. apply chain_of_exact.
  split; [by apply of_own_key|apply Hh].
Qed.

(** The records of a finding are accepted in one order only. *)
Lemma history_unique l l' : l ≡ₚ l' → history_ok l → history_ok l' → l = l'.
Proof.
  intros Hp Hl Hl'. destruct (decide (l = [])) as [->|Hne]; [by apply Permutation_nil_l in Hp|].
  assert (H1 : chain_of l = Ok l) by by apply chain_of_exact.
  assert (H2 : chain_of l = Ok l') by by apply chain_of_exact. congruence.
Qed.

(** C37: The histories that load are exactly the well-formed ones.  A set of
    stored records is accepted, and put in a given order, if and only if the
    order is one of the same records, sorted by finding, in which every
    finding's records form a single chain: the first has no previous decision,
    each other one names the one just before it, the identifiers are distinct
    and the rule is always the same.  Any other set is refused. *)
Theorem validated_chains_exact records ordered :
  validated_decision_chains records = Ok ordered ↔
  ordered ≡ₚ records ∧ StronglySorted str_le (finding_id <$> ordered)
  ∧ ∀ f, history_ok (of_key finding_id f ordered).
Proof.
  split.
  - intros H. split; [|split].
    + apply validated_chains in H as (chains & Hf & ->). by apply chains_perm.
    + apply validated_chains in H as (chains & Hf & ->). eapply chains_sorted; [apply sorted_set_sorted|by eapply chains_keys].
    + intros f. by eapply chains_of_key.
  - intros (Hp & Hs & Hh). rewrite (chains_accepted records (λ f, of_key finding_id f ordered)) by (intros f; split; [by rewrite Hp|done]).
    f_equal. symmetry. apply sorted_concat; [done|apply sorted_set_sorted|apply sorted_set_nodup|].
    intros x Hx. apply sorted_set_elem_of. rewrite Hp in Hx. by apply list_elem_of_fmap_2.
Qed.
