(* ===== verification/FindingVisible.v ===== *)
(** * FindingVisible: what a reader of the decision store sees

    The directory listings of [FindingStore] as statements on the files: which
    stores can be read, and which records are then visible. *)

From S2P Require Import Prelude PyStr Grouping Sha256 PyValue CrashProg Findings FindingStore.

(** ** Names *)

Lemma json_name_stem i : json_stem (json_name i) = i.
Proof.
  unfold json_stem, json_name, str_take. rewrite len_app. change (len ".json") with 5.
  rewrite chars_app. replace (len i + 5 - 5) with (length (chars i)) by (unfold len; lia).
  rewrite take_app_length. apply text_chars.
Qed.

#[export] Instance json_name_inj : Inj (=) (=) json_name.
Proof. intros i j H. by rewrite <- (json_name_stem i), <- (json_name_stem j), H. Qed.

Lemma json_name_ends i : endswith ".json" (json_name i) = true.
Proof. apply endswith_chars. exists (chars i). unfold json_name. by rewrite chars_app. Qed.

Lemma json_name_of n : endswith ".json" n = true → n = json_name (json_stem n).
Proof.
  intros [r Hr]%endswith_chars. apply chars_inj. unfold json_name, json_stem, str_take.
  rewrite chars_app, chars_text. unfold len. rewrite Hr, length_app. change (length (chars ".json")) with 5.
  replace (length r + 5 - 5) with (length r) by lia. by rewrite take_app_length.
Qed.

Lemma json_suffix_name i : truthy i = true → has_json_suffix (json_name i) = true.
Proof.
  intros Hi. unfold has_json_suffix. rewrite json_name_ends. unfold json_name. rewrite len_app.
  change (len ".json") with 5. destruct i; [done|]. apply Nat.ltb_lt. cbn. lia.
Qed.

Lemma names_perm {A} (d : gmap string A) : names d ≡ₚ (map_to_list d).*1.
Proof. apply sorted_strs_perm. Qed.

Lemma names_elem {A} (d : gmap string A) n : n ∈ names d ↔ is_Some (d !! n).
Proof.
  rewrite names_perm, list_elem_of_fmap. split.
  - intros ([k v] & -> & H%elem_of_map_to_list). by exists v.
  - intros [v H]. exists (n, v). split; [done|]. by apply elem_of_map_to_list.
Qed.

Lemma names_nodup {A} (d : gmap string A) : NoDup (names d).
Proof. rewrite names_perm. apply NoDup_fst_map_to_list. Qed.

Lemma names_sorted {A} (d : gmap string A) : StronglySorted str_le (names d).
Proof. apply sorted_strs_sorted. Qed.

(** ** Loops over a listing *)

(** A loop over outcomes gathers what each step returns. *)
Lemma traverse_omap {A B} (f : A → outcome (option B)) l found :
  traverse f l = Ok found →
  (∀ x, x ∈ l → is_ok (f x) = true)
  ∧ omap (λ r, r) found = omap (λ x, match f x with Ok o => o | Err _ => None end) l.
Proof.
  revert found. induction l as [|x l IH]; intros found H; cbn in H; [injection H as <-; split; [by intros x ?%elem_of_nil|done]|].
  apply bind_ok in H as (o & Ho & H). apply bind_ok in H as (os & Hos & H). injection H as <-.
  destruct (IH _ Hos) as [H1 H2]. split.
  - intros y [->|Hy]%elem_of_cons; [by rewrite Ho|by apply H1].
  - cbn. rewrite Ho. destruct o; by rewrite H2.
Qed.

Lemma traverse_all_ok {A B} (f : A → outcome B) l :
  (∀ x, x ∈ l → is_ok (f x) = true) → ∃ found, traverse f l = Ok found.
Proof. intros H%traverse_total. destruct (traverse f l) as [found|]; [by exists found|done]. Qed.

Lemma omap_elem {A B} (g : A → option B) (l : list A) y : y ∈ omap g l ↔ ∃ x, x ∈ l ∧ g x = Some y.
Proof. apply list_elem_of_omap. Qed.

(** ** Receipts *)

(** The name and the entry of a good receipt. *)
Definition good_receipt (o : string) (rc : RemediationBatchReceipt) : Prop :=
  _BATCH_ID o = true ∧ receipt_valid rc = true ∧ operation_id (receipt_journal rc) = o.

Definition receipts_ok (s : store) : Prop :=
  ∀ n e, batch_directory s !! n = Some e →
    n = ".gitkeep" ∨ ∃ o rc, n = json_name o ∧ e = File (Some rc) ∧ good_receipt o rc.

Definition receipt_of (s : store) (o : string) (rc : RemediationBatchReceipt) : Prop :=
  batch_directory s !! json_name o = Some (File (Some rc)) ∧ good_receipt o rc.

Lemma batch_id_truthy o : _BATCH_ID o = true → truthy o = true.
Proof. unfold _BATCH_ID, hex_of. intros H. to_prop. by destruct o. Qed.

Lemma load_one_receipt s o rc : _load_batch_receipt_unlocked s o = Ok rc ↔ receipt_of s o rc.
Proof.
  unfold _load_batch_receipt_unlocked, _batch_receipt_path, receipt_of, good_receipt.
  destruct (_BATCH_ID o) eqn:Eo; cbn [negb mbind outcome_bind]; [|split; [done|by intros (_ & ? & _)]].
  destruct (batch_directory s !! json_name o) as [[|[rc'|]|]|]; cbn [or_raise mbind outcome_bind];
    try (split; [done|by intros (? & _)]).
  destruct (receipt_valid rc') eqn:Ev; cbn [negb].
  2: { split; [done|]. intros ([= <-] & _ & Hv & _). congruence. }
  destruct (String.eqb_spec (operation_id (receipt_journal rc')) o) as [Eq|Ne]; cbn [negb].
  - split; [intros [= <-]; done|]. by intros ([= <-] & _).
  - split; [done|]. by intros ([= <-] & _ & _ & ?).
Qed.

Lemma load_receipt_spec s n l :
  load_receipt s n = Ok l ↔
  (n = ".gitkeep" ∧ l = []) ∨ (n ≠ ".gitkeep" ∧ ∃ o rc, n = json_name o ∧ receipt_of s o rc ∧ l = [(o, rc)]).
Proof.
  unfold load_receipt. destruct (String.eqb_spec n ".gitkeep") as [->|Hn]; [naive_solver|].
  destruct (batch_directory s !! n) as [[|content|]|] eqn:Ee.
  2: { destruct (negb (has_json_suffix n) || _) eqn:Eb.
    - split; [done|]. intros [[? _]|(_ & o & rc & -> & [_ (Ho & _)] & _)]; [done|].
      rewrite json_name_stem, Ho in Eb. rewrite json_suffix_name in Eb by by apply batch_id_truthy. done.
    - to_prop. unfold has_json_suffix in *. to_prop. match goal with H : endswith _ n = true |- _ => apply json_name_of in H end.
      rewrite bind_ok. setoid_rewrite load_one_receipt. split.
      + intros (rc & Hrc & [= <-]). right. split; [done|]. by exists (json_stem n), rc.
      + intros [[? _]|(_ & o & rc & -> & Hrc & ->)]; [done|]. exists rc. by rewrite json_name_stem. }
  all: split; [done|]; intros [[? _]|(_ & o & rc & -> & [He _] & _)]; [done|congruence].
Qed.

Lemma load_receipts_ok s rs :
  _load_batch_receipts_unlocked s = Ok rs →
  receipts_ok s ∧ NoDup rs.*1 ∧ ∀ o rc, (o, rc) ∈ rs ↔ receipt_of s o rc.
Proof.
  unfold _load_batch_receipts_unlocked. intros (loaded & Hl%traverse_ok & [= <-])%bind_ok.
  assert (Hgk : ∀ o, json_name o ≠ ".gitkeep") by (intros o E; pose proof (json_name_ends o) as H; rewrite E in H; done).
  assert (Hkeys : ∀ l ks, Forall2 (λ n k, load_receipt s n = Ok k) l ks → NoDup l →
    NoDup (concat ks).*1 ∧ ∀ o, o ∈ (concat ks).*1 → json_name o ∈ l).
  { intros l ks Hf. induction Hf as [|n k l ks Hk Hf IH]; intros Hn; [split; [constructor|by intros o ?%elem_of_nil]|].
    apply NoDup_cons in Hn as [Hnl Hn]. destruct (IH Hn) as [H1 H2]. cbn. rewrite fmap_app.
    apply load_receipt_spec in Hk as [[-> ->]|(_ & o & rc & -> & _ & ->)].
    - split; [done|]. intros o Ho. right. by apply H2.
    - cbn. split.
      + apply NoDup_cons. split; [|done]. intros Ho. by apply Hnl, H2.
      + intros o' [->|Ho]%elem_of_cons; [left|right; by apply H2]. }
  destruct (Hkeys _ _ Hl (names_nodup _)) as [Hn _]. split; [|split; [done|]].
  - intros n e He. assert (Hin : n ∈ names (batch_directory s)) by (apply names_elem; eauto).
    apply list_elem_of_lookup_1 in Hin as [i Hi]. destruct (Forall2_lookup_l _ _ _ _ _ Hl Hi) as (k & _ & Hk).
    apply load_receipt_spec in Hk as [[-> _]|(_ & o & rc & -> & [He' Hg] & _)]; [by left|]. right. exists o, rc.
    split; [done|]. split; [congruence|done].
  - intros o rc. rewrite list_elem_of_In, in_concat. setoid_rewrite <- list_elem_of_In. split.
    + intros (k & Hk & Hin). apply list_elem_of_lookup_1 in Hk as [i Hi].
      destruct (Forall2_lookup_r _ _ _ _ _ Hl Hi) as (n & _ & Hk).
      apply load_receipt_spec in Hk as [[_ ->]|(_ & o' & rc' & -> & Hr & ->)]; [by apply elem_of_nil in Hin|].
      by apply list_elem_of_singleton in Hin as [= -> ->].
    + intros Hr. assert (Hin : json_name o ∈ names (batch_directory s)) by (apply names_elem; destruct Hr; eauto).
      apply list_elem_of_lookup_1 in Hin as [i Hi]. destruct (Forall2_lookup_l _ _ _ _ _ Hl Hi) as (k & Hk & He).
      exists k. split; [by eapply list_elem_of_lookup_2|].
      apply load_receipt_spec in He as [[E _]|(_ & o' & rc' & E & Hr' & ->)]; [by destruct (Hgk o)|].
      apply (inj json_name) in E as <-. destruct Hr as [Hr _], Hr' as [Hr' _]. apply list_elem_of_singleton. congruence.
Qed.

Lemma receipts_load s : receipts_ok s → ∃ rs, _load_batch_receipts_unlocked s = Ok rs.
Proof.
  intros H. unfold _load_batch_receipts_unlocked.
  destruct (traverse_all_ok (load_receipt s) (names (batch_directory s))) as [l Hl].
  - intros n [e He]%names_elem. destruct (H n e He) as [->|(o & rc & -> & -> & Hg)].
    + by rewrite (proj2 (load_receipt_spec s ".gitkeep" [])) by by left.
    + rewrite (proj2 (load_receipt_spec s (json_name o) [(o, rc)])); [done|]. right. split.
      * intros E. pose proof (json_name_ends o) as H'. by rewrite E in H'.
      * exists o, rc. split; [done|]. split; [by split|done].
  - rewrite Hl. eauto.
Qed.

(** ** Decisions *)

Definition name_of (r : FindingDecisionRecord) : string := json_name (decision_id r).

Lemma record_valid_id r : record_valid r = true → hex_of 32 (decision_id r) = true.
Proof. unfold record_valid. intros H. to_prop. done. Qed.

Lemma load_decision_ok n e r :
  endswith ".json" n = true →
  load_decision n e = Ok r ↔ e = Some (File (Some r)) ∧ record_valid r = true ∧ n = name_of r.
Proof.
  intros Hn. destruct e as [[|[r'|]|]|]; cbn [load_decision or_raise mbind outcome_bind];
    try (split; [by destruct (negb (hex_of 32 _))|by intros (? & _)]); try (split; [done|by intros (? & _)]).
  split.
  - intros H. inv_ok H. to_prop. split; [done|]. split; [done|]. rewrite (json_name_of n Hn). unfold name_of. by f_equal.
  - intros ([= ->] & Hv & ->). unfold name_of. rewrite json_name_stem, Hv, String.eqb_refl.
    by rewrite (record_valid_id _ Hv).
Qed.

Lemma decision_names_elem s n : n ∈ decision_names s ↔ endswith ".json" n = true ∧ is_Some (directory s !! n).
Proof. unfold decision_names. by rewrite list_elem_of_filter, names_elem. Qed.

Lemma sublist_sorted l k : sublist l k → StronglySorted str_le k → StronglySorted str_le l.
Proof.
  induction 1 as [|x l k Hs IH|x l k Hs IH]; intros Hk; [done| |].
  - inversion Hk as [|? ? Hk' Hx]; subst. constructor; [by apply IH|]. rewrite Forall_forall in *.
    intros y Hy. apply Hx. by eapply elem_of_sublist.
  - inversion Hk; subst. by apply IH.
Qed.

Lemma omap_names {A B} (g : A → option B) (name : B → A) (l : list A) :
  (∀ n r, g n = Some r → name r = n) → sublist (name <$> omap g l) l.
Proof.
  intros H. induction l as [|n l IH]; [constructor|]. cbn. destruct (g n) as [r|] eqn:E.
  - cbn. rewrite (H n r E). by constructor.
  - by constructor.
Qed.

Section reading.
Context (isoformat : datetime → string).

Definition decision_at (s : store) (r : FindingDecisionRecord) : Prop :=
  directory s !! name_of r = Some (File (Some r)) ∧ record_valid r = true.

Definition decisions_ok (s : store) : Prop :=
  ∀ n e, directory s !! n = Some e → endswith ".json" n = true →
    ∃ r, e = File (Some r) ∧ record_valid r = true ∧ n = name_of r.

(** A record agrees with the receipt of its batch. *)
Definition committed (rc : RemediationBatchReceipt) (r : FindingDecisionRecord) : Prop :=
  digest_is isoformat (decision_digests (receipt_journal rc)) r = true
  ∧ organization_id r = journal_organization_id (receipt_journal rc).

(** A record of no batch, or of a batch with a receipt. *)
Definition is_visible (s : store) (r : FindingDecisionRecord) : Prop :=
  decision_at s r ∧ ∀ o, batch_operation_id r = Some o → ∃ rc, receipt_of s o rc.

(** The stores that can be read. *)
Record readable (s : store) : Prop := Readable {
  readable_limit : (Z.of_nat (length (decision_names s)) <= 100000)%Z;
  readable_receipts : receipts_ok s;
  readable_decisions : decisions_ok s;
  readable_batches : ∀ r o rc, decision_at s r → batch_operation_id r = Some o → receipt_of s o rc → committed rc r;
  readable_complete : ∀ o rc, receipt_of s o rc → ∀ i, i ∈ decision_ids (receipt_journal rc) ↔
                        ∃ r, decision_at s r ∧ batch_operation_id r = Some o ∧ decision_id r = i;
}.

Lemma decision_at_names s r : decision_at s r → name_of r ∈ decision_names s.
Proof. intros [H _]. apply decision_names_elem. split; [apply json_name_ends|eauto]. Qed.

Lemma dict_get_receipt s rs o :
  _load_batch_receipts_unlocked s = Ok rs → ∀ rc, dict_get o rs = Some rc ↔ receipt_of s o rc.
Proof. intros (_ & Hn & H)%load_receipts_ok rc. by rewrite dict_get_elem, H. Qed.

(** One file of the listing. *)
Lemma visible_record_spec s rs n o :
  _load_batch_receipts_unlocked s = Ok rs → n ∈ decision_names s →
  visible_record isoformat s rs n = Ok o ↔
  ∃ r, decision_at s r ∧ n = name_of r
    ∧ (∀ op rc, batch_operation_id r = Some op → receipt_of s op rc → committed rc r)
    ∧ ((o = Some r ∧ ∀ op, batch_operation_id r = Some op → ∃ rc, receipt_of s op rc)
       ∨ (o = None ∧ ∃ op, batch_operation_id r = Some op ∧ ∀ rc, ¬ receipt_of s op rc)).
Proof.
  intros Hrs [Hj _]%decision_names_elem. pose proof (λ op, dict_get_receipt s rs op Hrs) as Hget.
  unfold visible_record. rewrite bind_ok. setoid_rewrite (λ r, load_decision_ok n (directory s !! n) r Hj).
  split.
  - intros (r & (Hd & Hv & ->) & H). exists r. split; [by split|]. split; [done|].
    destruct (batch_operation_id r) as [op|] eqn:Eb; [|injection H as <-; split; [done|]; by left].
    destruct (dict_get op rs) as [rc|] eqn:Er.
    + apply Hget in Er as Hrc. inv_ok H. to_prop. split.
      * intros op' rc' [= <-] Hrc'%Hget. rewrite Er in Hrc'. injection Hrc' as <-. by split.
      * left. split; [done|]. intros op' [= <-]. by exists rc.
    + injection H as <-. split.
      * intros op' rc' [= <-] Hrc'%Hget. congruence.
      * right. split; [done|]. exists op. split; [done|]. intros rc Hrc%Hget. congruence.
  - intros (r & [Hd Hv] & -> & Hc & Ho). exists r. split; [done|].
    destruct (batch_operation_id r) as [op|] eqn:Eb; [|by destruct Ho as [[-> _]|(_ & op & [=] & _)]].
    destruct (dict_get op rs) as [rc|] eqn:Er.
    + apply Hget in Er as Hrc. destruct (Hc op rc eq_refl Hrc) as [Hdig Horg].
      rewrite Hdig, Horg, String.eqb_refl. cbn [negb orb].
      destruct Ho as [[-> _]|(_ & op' & [= <-] & Hno)]; [done|by destruct (Hno rc)].
    + destruct Ho as [[-> Hsome]|[-> _]]; [|done]. destruct (Hsome op eq_refl) as [rc Hrc%Hget]. congruence.
Qed.

(** ** The listing *)

Definition found_at (s : store) (rs : dict RemediationBatchReceipt) (n : string) : option FindingDecisionRecord :=
  match visible_record isoformat s rs n with Ok o => o | Err _ => None end.

Lemma found_at_spec s rs n r :
  _load_batch_receipts_unlocked s = Ok rs → n ∈ decision_names s → is_ok (visible_record isoformat s rs n) = true →
  found_at s rs n = Some r ↔ is_visible s r ∧ n = name_of r.
Proof.
  intros Hrs Hn Hok. unfold found_at. destruct (visible_record isoformat s rs n) as [o|] eqn:E; [|done].
  apply visible_record_spec in E as (r' & Hr' & -> & _ & Ho); [|done..]. split.
  - intros ->. destruct Ho as [[[= <-] Hv]|[[=] _]]. done.
  - intros [[Hr Hv] Hname]. assert (r' = r) as ->.
    { destruct Hr as [Hr _], Hr' as [Hr' _]. rewrite Hname in Hr'. congruence. }
    destruct Ho as [[-> _]|(_ & op & Hop & Hno)]; [done|]. destruct (Hv op Hop) as [rc Hrc]. by destruct (Hno rc).
Qed.

(** What a listing is, but for the order. *)
Record listing (s : store) (vis : list FindingDecisionRecord) : Prop := Listing {
  listing_sorted : StronglySorted str_le (name_of <$> vis);
  listing_nodup : NoDup (name_of <$> vis);
  listing_elem : ∀ r, r ∈ vis ↔ is_visible s r;
}.

Lemma found_listing s rs :
  _load_batch_receipts_unlocked s = Ok rs → (∀ n, n ∈ decision_names s → is_ok (visible_record isoformat s rs n) = true) →
  listing s (omap (found_at s rs) (decision_names s)).
Proof.
  intros Hrs Hok. set (l := decision_names s).
  assert (Hsub : sublist (name_of <$> omap (found_at s rs) l) l).
  { assert (Hin : ∀ n, n ∈ l → n ∈ decision_names s) by done. clearbody l. induction l as [|n l IH]; [constructor|].
    cbn. destruct (found_at s rs n) as [r|] eqn:E.
    - apply found_at_spec in E as [_ ->]; [|done|apply Hin; left|apply Hok, Hin; left]. cbn. constructor.
      apply IH. intros m Hm. apply Hin. by right.
    - constructor. apply IH. intros m Hm. apply Hin. by right. }
  constructor.
  - eapply sublist_sorted; [exact Hsub|]. eapply sublist_sorted; [apply sublist_filter|apply names_sorted].
  - eapply sublist_NoDup; [|exact Hsub]. eapply sublist_NoDup; [|apply sublist_filter]. apply names_nodup.
  - intros r. rewrite omap_elem. split.
    + intros (n & Hn & Hf). apply found_at_spec in Hf as [Hv _]; auto.
    + intros Hv. exists (name_of r). pose proof (decision_at_names s r (proj1 Hv)) as Hn. split; [done|].
      apply found_at_spec; auto.
Qed.

Lemma listing_unique s vis vis' : listing s vis → listing s vis' → vis = vis'.
Proof.
  intros [S1 N1 E1] [S2 N2 E2]. assert (Hp : vis ≡ₚ vis').
  { apply NoDup_Permutation; [by eapply NoDup_fmap_1|by eapply NoDup_fmap_1|]. intros r. by rewrite E1, E2. }
  assert (Hinj : ∀ x y, x ∈ vis → y ∈ vis → name_of x = name_of y → x = y).
  { intros x y Hx Hy Hxy. apply E1 in Hx as [[Hx _] _], Hy as [[Hy _] _]. congruence. }
  clear -S1 S2 Hp Hinj. assert (Hn : name_of <$> vis = name_of <$> vis').
  { apply (StronglySorted_unique str_le); [done|done|]. by rewrite Hp. }
  apply list_eq. intros i. apply (f_equal (λ l, l !! i)) in Hn. rewrite !list_lookup_fmap in Hn.
  destruct (vis !! i) as [x|] eqn:Ex, (vis' !! i) as [y|] eqn:Ey; try done. cbn in Hn. f_equal. apply Hinj.
  - by eapply list_elem_of_lookup_2.
  - rewrite Hp. by eapply list_elem_of_lookup_2.
  - congruence.
Qed.

Lemma listing_in_batch s vis o i :
  listing s vis → (∃ rc, receipt_of s o rc) →
  i ∈ decision_id <$> filter (λ r, in_batch o r = true) vis
  ↔ ∃ r, decision_at s r ∧ batch_operation_id r = Some o ∧ decision_id r = i.
Proof.
  intros [_ _ He] Hrc. rewrite list_elem_of_fmap. setoid_rewrite list_elem_of_filter. unfold in_batch.
  setoid_rewrite bool_decide_eq_true. split.
  - intros (r & -> & Hb & [Hr _]%He). eauto.
  - intros (r & Hr & Hb & <-). exists r. split; [done|]. split; [done|]. apply He. split; [done|]. intros o' Ho'. assert (o' = o) as -> by congruence. done.
Qed.

Lemma readable_records s rs :
  readable s → _load_batch_receipts_unlocked s = Ok rs →
  ∀ n, n ∈ decision_names s → is_ok (visible_record isoformat s rs n) = true.
Proof.
  intros [_ _ Hd Hb _] Hrs n Hn. pose proof Hn as [Hj [e He]]%decision_names_elem. destruct (Hd n e He Hj) as (r & -> & Hv & ->).
  assert (Hr' : decision_at s r) by by split.
  destruct (batch_operation_id r) as [op|] eqn:Eb; [destruct (dict_get op rs) as [rc|] eqn:Er|].
  - apply (dict_get_receipt s rs op Hrs) in Er. rewrite (proj2 (visible_record_spec s rs _ (Some r) Hrs Hn)); [done|].
    exists r. split; [done|]. split; [done|]. split; [intros op' rc' Hop'; by apply (Hb r op' rc' Hr')|]. left. split; [done|].
    intros op' [= <-]%(eq_trans (eq_sym Eb)). eauto.
  - rewrite (proj2 (visible_record_spec s rs _ None Hrs Hn)); [done|]. exists r. split; [done|]. split; [done|].
    split; [intros op' rc' Hop'; by apply (Hb r op' rc' Hr')|]. right. split; [done|]. exists op. split; [done|].
    intros rc Hrc%(dict_get_receipt s rs op Hrs). congruence.
  - rewrite (proj2 (visible_record_spec s rs _ (Some r) Hrs Hn)); [done|]. exists r. split; [done|]. split; [done|].
    split; [intros op' rc' Hop'; by apply (Hb r op' rc' Hr')|]. left. split; [done|]. congruence.
Qed.

(** A store is listed if and only if it is readable, and the listing is its
    visible records by name. *)
Lemma visible_spec s vis :
  _visible_records_unlocked isoformat s = Ok vis ↔ readable s ∧ listing s vis.
Proof.
  unfold _visible_records_unlocked. cbv zeta. split.
  - intros H. inv_ok H. to_prop.
    match goal with E : traverse _ _ = Ok _ |- _ => apply traverse_omap in E as [Hok Hom] end.
    match goal with E : _load_batch_receipts_unlocked s = Ok ?x |- _ => rename E into Hrs; rename x into rs end.
    match goal with E : any_of _ _ = false |- _ => rename E into Hc end.
    rewrite Hom in Hc |- *. clear Hom.
    pose proof (found_listing s rs Hrs Hok) as Hl. fold (found_at s rs) in *. split; [|done].
    pose proof (load_receipts_ok s rs Hrs) as (Hr & _ & Hin). constructor.
    + unfold MAX_DECISIONS_PER_PROJECT in *. lia.
    + done.
    + intros n e He Hj. assert (Hn : n ∈ decision_names s) by (apply decision_names_elem; eauto).
      specialize (Hok n Hn). destruct (visible_record isoformat s rs n) as [o|] eqn:E; [|done].
      apply visible_record_spec in E as (r & [Hd Hv] & -> & _); [|done..]. exists r. split; [congruence|done].
    + intros r o rc Hd Hb Hrc. pose proof (decision_at_names s r Hd) as Hn. specialize (Hok _ Hn).
      destruct (visible_record isoformat s rs (name_of r)) as [o'|] eqn:E; [|done].
      apply visible_record_spec in E as (r' & [Hd' _] & Hname & Hcom & _); [|done..].
      destruct Hd as [Hd _]. rewrite Hname in Hd. assert (r' = r) as -> by congruence. by eapply Hcom.
    + intros o rc Hrc i. apply Hin in Hrc as Hor. rewrite any_of_false in Hc. specialize (Hc _ Hor). cbn [fst snd] in Hc.
      to_prop. rewrite <- (listing_in_batch s _ o i Hl) by eauto. rewrite <- !(elem_of_list_to_set (C := gset string)).
      by rewrite Hc.
  - intros [[Hlim Hr Hd Hb Hc] Hl]. destruct (receipts_load s Hr) as [rs Hrs].
    pose proof (load_receipts_ok s rs Hrs) as (_ & _ & Hin).
    destruct (Z.ltb_spec (MAX_DECISIONS_PER_PROJECT * 10) (Z.of_nat (length (decision_names s))));
      [unfold MAX_DECISIONS_PER_PROJECT in *; lia|]. rewrite Hrs. cbn [mbind outcome_bind].
    pose proof (readable_records s rs (Readable s Hlim Hr Hd Hb Hc) Hrs) as Hok.
    destruct (traverse_all_ok _ _ Hok) as [found Hf]. rewrite Hf. cbn [mbind outcome_bind].
    apply traverse_omap in Hf as [_ ->]. fold (found_at s rs).
    rewrite (listing_unique s _ vis (found_listing s rs Hrs Hok) Hl).
    replace (any_of _ rs) with false; [done|]. symmetry. apply any_of_false. intros [o rc] Hor. cbn [fst snd].
    apply negb_false_iff, bool_decide_eq_true, set_eq. intros i. rewrite !elem_of_list_to_set. apply Hin in Hor.
    rewrite (listing_in_batch s vis o i Hl) by eauto. by rewrite (Hc o rc Hor i).
Qed.

Lemma readable_visible s : readable s → ∃ vis, _visible_records_unlocked isoformat s = Ok vis.
Proof.
  intros H. destruct (receipts_load s (readable_receipts s H)) as [rs Hrs]. eexists. apply visible_spec.
  split; [done|]. eapply found_listing; [exact Hrs|]. by apply readable_records.
Qed.

(** The listing depends on the visible records alone. *)
Lemma listing_ext s s' vis : (∀ r, is_visible s r ↔ is_visible s' r) → listing s vis → listing s' vis.
Proof. intros H [H1 H2 H3]. split; [done|done|]. intros r. by rewrite H3, H. Qed.
End reading.

(** Mapping keeps sublists. *)
Lemma sublist_map {A B} (f : A → B) (l k : list A) : sublist l k → sublist (f <$> l) (f <$> k).
Proof. induction 1; cbn; by constructor. Qed.
