(* ===== verification/FindingBatch.v ===== *)
(** * FindingBatch: a batch of decisions across crashes

    Every state [record_many] and the recovery leave behind is one of four
    phases of the batch: staged, prepared, torn (the receipt's temporary file
    is there) or committed.  Nothing of the batch is visible before it is
    committed, and all of it after; recovery takes every phase but the torn
    one to the end. *)

From S2P Require Import Prelude PyStr Grouping Sha256 PyValue CrashProg Findings FindingStore FindingVisible.

(** A name of the journal directory that recovery passes over. *)
Definition idle (n : string) (e : journal_entry) : Prop :=
  (∃ f, e = JournalFile f) ∧ endswith ".json" n = false ∧ (startswith "." n && endswith ".staging" n) = false.

(** No batch is pending, and no decision waits for a receipt. *)
Record settled (s : store) : Prop := Settled {
  settled_journals : ∀ n e, batch_journal_directory s !! n = Some e → idle n e;
  settled_decisions : ∀ r o, decision_at s r → batch_operation_id r = Some o → ∃ rc, receipt_of s o rc;
}.

(** ** Names *)

Lemma staging_not_json o : endswith ".json" (staging_name o) = false.
Proof.
  unfold staging_name. apply not_true_is_false. intros [r Hr]%endswith_chars.
  apply (f_equal reverse) in Hr. rewrite !chars_app, !reverse_app in Hr. discriminate Hr.
Qed.

Lemma staging_is_staging o : startswith "." (staging_name o) && endswith ".staging" (staging_name o) = true.
Proof.
  unfold staging_name. rewrite startswith_text. apply endswith_chars. exists (chars ("." ++ o)).
  by rewrite <- chars_app.
Qed.

Lemma json_not_staging n : endswith ".json" n = true → endswith ".staging" n = false.
Proof.
  intros [r Hr]%endswith_chars. apply not_true_is_false. intros [q Hq]%endswith_chars.
  rewrite Hr in Hq. apply (f_equal reverse) in Hq. rewrite !reverse_app in Hq. discriminate Hq.
Qed.

Lemma temporary_ends n t : ∃ q, chars (temporary_name n t) = q ++ chars ".tmp".
Proof. exists (chars ("." ++ n ++ "." ++ t)). unfold temporary_name. rewrite !chars_app. by rewrite <- !app_assoc. Qed.

Lemma temporary_not_json n t : endswith ".json" (temporary_name n t) = false.
Proof.
  apply not_true_is_false. intros [r Hr]%endswith_chars. destruct (temporary_ends n t) as [q Hq].
  rewrite Hq in Hr. apply (f_equal reverse) in Hr. rewrite !reverse_app in Hr. discriminate Hr.
Qed.

Lemma temporary_not_staging n t : endswith ".staging" (temporary_name n t) = false.
Proof.
  apply not_true_is_false. intros [r Hr]%endswith_chars. destruct (temporary_ends n t) as [q Hq].
  rewrite Hq in Hr. apply (f_equal reverse) in Hr. rewrite !reverse_app in Hr. discriminate Hr.
Qed.

Lemma temporary_not_name n t i : temporary_name n t ≠ json_name i.
Proof. intros E. pose proof (temporary_not_json n t) as H. by rewrite E, json_name_ends in H. Qed.

Lemma staging_operation o : str_take (len (staging_name o) - 9) (str_drop 1 (staging_name o)) = o.
Proof.
  apply chars_inj. unfold str_take, str_drop, staging_name, len. rewrite !chars_text, !chars_app, !length_app.
  change (length (chars ".")) with 1. change (length (chars ".staging")) with 8. change (chars ".") with ["."%char]. cbn [app drop]. rewrite drop_0.
  replace (1 + (length (chars o) + 8) - 9) with (length (chars o)) by lia. by rewrite take_app_length.
Qed.

Lemma temporary_idle n t f : idle (temporary_name n t) (JournalFile f).
Proof.
  split; [by eexists|]. split; [apply temporary_not_json|]. by rewrite temporary_not_staging, andb_false_r.
Qed.

Lemma idle_not_json n e o : idle n e → n ≠ json_name o.
Proof. intros (_ & H & _) ->. by rewrite json_name_ends in H. Qed.

Lemma idle_not_staging n e o : idle n e → n ≠ staging_name o.
Proof. intros (_ & _ & H) ->. by rewrite staging_is_staging in H. Qed.

Lemma json_not_staging_name o i : json_name i ≠ staging_name o.
Proof. intros E. pose proof (json_name_ends i) as H. by rewrite E, staging_not_json in H. Qed.

(** ** The phases of a batch *)

Section batch.
Context (isoformat : datetime → string) (s0 : store) (j : RemediationBatchJournal) (recs : list FindingDecisionRecord).
Abbreviation op := (operation_id j).

(** The batch is prepared over a store with nothing pending. *)
Record batch_ok : Prop := BatchOk {
  b_valid : journal_valid j = true;
  b_ids : decision_ids j = decision_id <$> recs;
  b_digests : decision_digests j = (λ r, (decision_id r, _decision_digest isoformat r)) <$> recs;
  b_records : ∀ r, r ∈ recs →
    record_valid r = true ∧ batch_operation_id r = Some op ∧ organization_id r = journal_organization_id j;
  b_free : ∀ r, r ∈ recs → directory s0 !! name_of r = None;
  b_receipt : batch_directory s0 !! json_name op = None;
  b_settled : settled s0;
  b_readable : readable isoformat s0;
  b_limit : (Z.of_nat (length (decision_names s0) + length recs) <= 100000)%Z;
}.

(** The decision directory with some of the records. *)
Definition dir_with (l : list FindingDecisionRecord) : gmap string (entry FindingDecisionRecord) :=
  foldr (λ r d, <[name_of r := File (Some r)]> d) (directory s0) l.

Definition staging_ok (files : gmap string (entry FindingDecisionRecord)) : Prop :=
  ∀ n e, files !! n = Some e → ∃ x, e = File x.

(** The journal directory but for the batch's own names. *)
Definition frame (c : store) : Prop :=
  ∀ n e, batch_journal_directory c !! n = Some e → n ≠ json_name op → n ≠ staging_name op → idle n e.

Definition staging_left (c : store) : Prop :=
  ∀ e, batch_journal_directory c !! staging_name op = Some e → ∃ files, e = Staging files ∧ staging_ok files.

Record staged (c : store) : Prop := Staged {
  st_dir : directory c = directory s0;
  st_batch : batch_directory c = batch_directory s0;
  st_journal : batch_journal_directory c !! json_name op = None;
  st_staging : staging_left c;
  st_frame : frame c;
}.

Record prepared (k : nat) (c : store) : Prop := Prepared {
  pr_dir : directory c = dir_with (take k recs);
  pr_batch : batch_directory c = batch_directory s0;
  pr_journal : batch_journal_directory c !! json_name op = Some (JournalFile (File (Some j)));
  pr_staging : ∃ files, batch_journal_directory c !! staging_name op = Some (Staging files) ∧ staging_ok files
                 ∧ ∀ i r, k ≤ i → recs !! i = Some r → files !! name_of r = Some (File (Some r));
  pr_frame : frame c;
}.

(** The process stopped while it wrote the receipt. *)
Definition torn (c : store) : Prop := ∃ t, is_Some (batch_directory c !! temporary_name (json_name op) t).

Record is_committed (c : store) : Prop := Committed {
  co_dir : directory c = dir_with recs;
  co_batch : ∃ rc, batch_directory c = <[json_name op := File (Some rc)]> (batch_directory s0)
               ∧ receipt_journal rc = j ∧ receipt_valid rc = true ∧ replayable rc = true;
  co_journal : batch_journal_directory c !! json_name op = None
               ∨ batch_journal_directory c !! json_name op = Some (JournalFile (File (Some j)));
  co_staging : staging_left c;
  co_frame : frame c;
}.

Definition phase (c : store) : Prop := staged c ∨ (∃ k, prepared k c) ∨ torn c ∨ is_committed c.

Context (Hb : batch_ok).

Lemma batch_nodup : NoDup (decision_id <$> recs).
Proof. pose proof (b_valid Hb) as H. unfold journal_valid in H. to_prop. by rewrite <- (b_ids Hb). Qed.

Lemma batch_id_ok : _BATCH_ID op = true.
Proof. pose proof (b_valid Hb) as H. unfold journal_valid in H. by to_prop. Qed.

Lemma names_nodup_recs : NoDup (name_of <$> recs).
Proof.
  replace (name_of <$> recs) with (json_name <$> (decision_id <$> recs)) by (by rewrite <- list_fmap_compose).
  apply (NoDup_fmap_2 _), batch_nodup.
Qed.

Lemma dir_with_out l n : n ∉ name_of <$> l → dir_with l !! n = directory s0 !! n.
Proof.
  induction l as [|r l IH]; intros H; [done|]. cbn in H. apply not_elem_of_cons in H as [Hr Hl]. cbn.
  rewrite lookup_insert_ne by done. by apply IH.
Qed.

Lemma dir_with_in l r : NoDup (name_of <$> l) → r ∈ l → dir_with l !! name_of r = Some (File (Some r)).
Proof.
  induction l as [|x l IH]; intros Hn Hr; [by apply elem_of_nil in Hr|]. cbn in Hn. apply NoDup_cons in Hn as [Hx Hn].
  cbn. apply elem_of_cons in Hr as [->|Hr]; [by rewrite lookup_insert_eq|].
  rewrite lookup_insert_ne; [by apply IH|]. intros E. apply Hx. rewrite E. by apply list_elem_of_fmap_2.
Qed.

Lemma dir_with_snoc l r : name_of r ∉ name_of <$> l → dir_with (l ++ [r]) = <[name_of r := File (Some r)]> (dir_with l).
Proof.
  induction l as [|x l IH]; intros H; [done|]. cbn in H. apply not_elem_of_cons in H as [Hx Hl].
  cbn [app]. change (dir_with (x :: l ++ [r])) with (<[name_of x := File (Some x)]> (dir_with (l ++ [r]))).
  rewrite IH by done. by rewrite insert_insert_ne.
Qed.

(** ** Removing the staging directory *)

(** The same store, but for the contents of the staging directory. *)
Record same_but_staging (c c' : store) : Prop := SameButStaging {
  sb_dir : directory c' = directory c;
  sb_batch : batch_directory c' = batch_directory c;
  sb_journals : ∀ n, n ≠ staging_name op → batch_journal_directory c' !! n = batch_journal_directory c !! n;
  sb_left : staging_left c';
}.

Lemma same_trans c c' c'' : same_but_staging c c' → same_but_staging c' c'' → same_but_staging c c''.
Proof.
  intros [H1 H2 H3 H4] [K1 K2 K3 K4]. split; [congruence|congruence| |done]. intros n Hn. by rewrite K3, H3.
Qed.

Lemma same_in_staging c files f :
  batch_journal_directory c !! staging_name op = Some (Staging files) → staging_ok (f files) →
  same_but_staging c (in_staging f (staging_name op) c).
Proof.
  intros Hs Hf. split; [done|done| |].
  - intros n Hn. cbn. by rewrite lookup_alter_ne.
  - intros e. cbn. rewrite lookup_alter_eq, Hs. cbn. intros [= <-]. eauto.
Qed.

Lemma same_delete c : same_but_staging c (set_journals (delete (staging_name op)) c).
Proof.
  split; [done|done| |].
  - intros n Hn. cbn. by rewrite lookup_delete_ne.
  - intros e. cbn. by rewrite lookup_delete_eq.
Qed.

Lemma remove_staging_ensures (C : store → Prop) c :
  staging_left c → (∀ c', same_but_staging c c' → C c') →
  ensures C (_remove_staging_unlocked (staging_name op)) c
    (λ r c', ∃ a, r = Ok a ∧ same_but_staging c c' ∧ batch_journal_directory c' !! staging_name op = None).
Proof.
  intros Hleft HC. assert (Hself : same_but_staging c c) by by split.
  unfold _remove_staging_unlocked. apply ensures_reads.
  destruct (batch_journal_directory c !! staging_name op) as [e|] eqn:Ee; [|apply ensures_ret; [by apply HC|by exists ()]].
  destruct (Hleft e Ee) as (files & -> & Hok).
  eapply ensures_seq with (P := λ _ c', same_but_staging c c' ∧ ∃ files', batch_journal_directory c' !! staging_name op = Some (Staging files')).
  - eapply ensures_weaken; [apply (ensures_each_ok C _ (λ _ c', same_but_staging c c'
        ∧ ∃ files', batch_journal_directory c' !! staging_name op = Some (Staging files') ∧ staging_ok files'))| done |].
    + by split; [|eauto].
    + by apply HC.
    + intros pre [n x] post c' Hl [Hs (files' & Hf & Hok')] _. unfold remove_child. cbn [fst snd].
      assert (Hx : files !! n = Some x) by (apply elem_of_map_to_list; rewrite Hl, elem_of_app; right; left).
      destruct (Hok n x Hx) as [y ->].
      assert (Hs' : same_but_staging c (in_staging (delete n) (staging_name op) c')).
      { eapply same_trans; [exact Hs|]. apply (same_in_staging c' files'); [done|]. intros m e [_ H]%lookup_delete_Some. by eapply Hok'. }
      apply ensures_change; [by apply HC|by apply HC|]. exists (). split; [done|]. split; [done|].
      exists (delete n files'). cbn. rewrite lookup_alter_eq, Hf. split; [done|].
      intros m e [_ H]%lookup_delete_Some. by eapply Hok'.
    + intros r c' (ys & -> & Hs & files' & Hf & _) _. exists ys. split; [done|]. split; [done|]. eauto.
  - intros _ c' [Hs _] _. assert (Hs' := same_trans _ _ _ Hs (same_delete c')).
    apply ensures_change; [by apply HC|by apply HC|]. exists (). split; [done|]. split; [done|].
    cbn. apply lookup_delete_eq.
Qed.

(** ** Finishing a batch *)

Lemma json_staging_ne i : json_name i ≠ staging_name op.
Proof. apply json_not_staging_name. Qed.

Lemma frame_same c c' : same_but_staging c c' → frame c → frame c'.
Proof. intros [_ _ Hj _] Hf n e He H1 H2. rewrite Hj in He by done. by apply Hf. Qed.

Lemma committed_same c c' : same_but_staging c c' → is_committed c → is_committed c'.
Proof.
  intros Hs [H1 H2 H3 H4 H5]. pose proof Hs as [K1 K2 K3 K4]. split; [congruence|by rewrite K2| |done|].
  - rewrite K3; [done|apply json_staging_ne].
  - by eapply frame_same.
Qed.

Lemma staged_same c c' : same_but_staging c c' → staged c → staged c'.
Proof.
  intros Hs [H1 H2 H3 H4 H5]. pose proof Hs as [K1 K2 K3 K4]. split; [congruence|congruence| |done|].
  - rewrite K3; [done|apply json_staging_ne].
  - by eapply frame_same.
Qed.

Lemma committed_phase c : is_committed c → phase c.
Proof. by right; right; right. Qed.

(** A committed batch with nothing left to clean. *)
Definition clean (c : store) : Prop :=
  is_committed c ∧ batch_journal_directory c !! json_name op = None ∧ batch_journal_directory c !! staging_name op = None.

Lemma committed_unjournal c : is_committed c → is_committed (set_journals (delete (json_name op)) c).
Proof.
  intros [H1 H2 H3 H4 H5]. split; [done|done| | |].
  - left. cbn. apply lookup_delete_eq.
  - intros e. cbn. rewrite lookup_delete_ne by apply json_staging_ne. apply H4.
  - intros n e. cbn. intros [_ He]%lookup_delete_Some. by apply H5.
Qed.

Lemma cleanup_ensures c :
  is_committed c → ensures phase (_cleanup_completed_batch_unlocked op) c (λ r c', ∃ a, r = Ok a ∧ clean c').
Proof.
  intros Hc. unfold _cleanup_completed_batch_unlocked, _batch_journal_path, _batch_staging_path.
  rewrite batch_id_ok. cbn [negb]. apply ensures_lift_ok, ensures_reads.
  assert (Hrest : ∀ c', is_committed c' → batch_journal_directory c' !! json_name op = None →
    ensures phase (staging ← lift (Ok (staging_name op)); _remove_staging_unlocked staging) c' (λ r c'', ∃ a, r = Ok a ∧ clean c'')).
  { intros c' Hc' Hn. apply ensures_lift_ok. eapply ensures_weaken.
    - apply (remove_staging_ensures phase); [apply Hc'|]. intros c'' Hs. apply committed_phase. by eapply committed_same.
    - done.
    - intros r c'' (a & -> & Hs & Hnone) _. exists a. split; [done|]. split; [by eapply committed_same|]. split; [|done].
      rewrite (sb_journals _ _ Hs); [done|apply json_staging_ne]. }
  pose proof (co_journal c Hc) as [Hj|Hj]; rewrite Hj.
  - eapply ensures_seq with (P := λ _ c', is_committed c' ∧ batch_journal_directory c' !! json_name op = None).
    + apply ensures_ret; [by apply committed_phase|]. by exists ().
    + intros _ c' [Hc' Hn] _. by apply Hrest.
  - pose proof (committed_unjournal c Hc) as Hc'.
    apply ensures_change_seq; [by apply committed_phase|by apply committed_phase|]. apply Hrest; [done|]. cbn. apply lookup_delete_eq.
Qed.

(** ** Moving the decisions *)

Lemma dict_get_map (f : FindingDecisionRecord → string) l r :
  NoDup (decision_id <$> l) → r ∈ l → dict_get (decision_id r) ((λ r, (decision_id r, f r)) <$> l) = Some (f r).
Proof.
  intros Hn Hr. apply dict_get_elem.
  - unfold dict_ok. by rewrite <- list_fmap_compose.
  - apply list_elem_of_fmap. by exists r.
Qed.

Lemma batch_record_prepared r : r ∈ recs → prepared_record isoformat j (decision_id r) r = true.
Proof.
  intros Hr. destruct (b_records Hb r Hr) as (_ & Hop & Horg). unfold prepared_record, in_batch.
  rewrite Hop, Horg, String.eqb_refl, (b_digests Hb), (dict_get_map _ recs r batch_nodup Hr).
  by rewrite !bool_decide_true.
Qed.

Lemma load_batch_record r : r ∈ recs → load_decision (name_of r) (Some (File (Some r))) = Ok r.
Proof.
  intros Hr. apply load_decision_ok; [apply json_name_ends|]. split; [done|]. split; [|done]. by apply b_records.
Qed.

Lemma recs_lookup_name k i r : recs !! i = Some r → k ≤ i → name_of r ∉ name_of <$> take k recs.
Proof.
  intros Hi Hk (r' & E & Hr')%list_elem_of_fmap. apply elem_of_take in Hr' as (i' & Hi' & Hlt).
  assert (i = i'); [|lia]. eapply (NoDup_lookup (name_of <$> recs)); [apply names_nodup_recs| |]; rewrite list_lookup_fmap.
  - by rewrite Hi.
  - rewrite Hi'. cbn. congruence.
Qed.

(** The effect of moving a staged record. *)
Definition moved (r : FindingDecisionRecord) (c : store) : store :=
  in_staging (delete (name_of r)) (staging_name op) (set_directory (<[name_of r := File (Some r)]>) c).

Lemma moved_prepared k r c : recs !! k = Some r → prepared k c → prepared (S k) (moved r c).
Proof.
  intros Hk [H1 H2 H3 (files & Hf & Hok & Hfiles) H5]. split.
  - cbn. rewrite H1, (take_S_r recs k r Hk). symmetry. apply dir_with_snoc. by eapply recs_lookup_name.
  - done.
  - cbn. rewrite lookup_alter_ne; [done|]. apply not_eq_sym, json_staging_ne.
  - exists (delete (name_of r) files). cbn. rewrite lookup_alter_eq, Hf. split; [done|]. split.
    + intros n e [_ He]%lookup_delete_Some. by eapply Hok.
    + intros i r' Hi Hr'. rewrite lookup_delete_ne; [apply (Hfiles i); [lia|done]|].
      intros E. assert (k = i); [|lia]. eapply (NoDup_lookup (name_of <$> recs)); [apply names_nodup_recs| |];
        rewrite list_lookup_fmap; [by rewrite Hk|]. rewrite Hr'. cbn. congruence.
  - intros n e. cbn. intros He Hn1 Hn2. rewrite lookup_alter_ne in He by done. by apply (H5 n e).
Qed.

Lemma prepared_phase k c : prepared k c → phase c.
Proof. right. left. by exists k. Qed.

Lemma prepared_min k c : prepared k c → prepared (Nat.min k (length recs)) c.
Proof.
  intros [H1 H2 H3 (files & Hf & Hok & Hfiles) H5]. destruct (decide (k ≤ length recs)) as [H|H].
  { rewrite Nat.min_l by lia. by split; eauto. }
  rewrite Nat.min_r by lia. split; [rewrite H1, !take_ge by lia; done|done|done| |done]. exists files. split; [done|].
  split; [done|]. intros i r Hi Hr%lookup_lt_Some. lia.
Qed.

Lemma recover_decision_ensures k i r c :
  recs !! i = Some r → i ≤ k → prepared k c →
  ensures phase (recover_decision isoformat j (staging_name op) (decision_id r)) c
    (λ res c', ∃ a, res = Ok a ∧ prepared (Nat.max k (S i)) c').
Proof.
  intros Hi Hik Hc. assert (Hr : r ∈ recs) by by eapply list_elem_of_lookup_2.
  destruct (b_records Hb r Hr) as (Hv & _ & _).
  unfold recover_decision, _path. rewrite (record_valid_id r Hv). cbn [negb].
  apply ensures_lift_ok, ensures_reads. fold (name_of r). rewrite (pr_dir _ _ Hc).
  destruct (decide (i < k)) as [Hlt|Hge].
  - rewrite dir_with_in; [|rewrite fmap_take; eapply sublist_NoDup; [apply names_nodup_recs|apply sublist_take]|
      apply elem_of_take; by exists i].
    change (present (Some _)) with true. cbv iota. rewrite (load_batch_record r Hr).
    apply ensures_lift_ok. rewrite (batch_record_prepared r Hr). cbn [negb].
    apply ensures_ret; [by eapply prepared_phase|]. exists (). split; [done|]. by rewrite Nat.max_l by lia.
  - assert (i = k) as -> by lia.
    rewrite dir_with_out by by eapply recs_lookup_name. rewrite (b_free Hb r Hr).
    change (present None) with false. cbv iota. apply ensures_bind, ensures_reads.
    destruct (pr_staging _ _ Hc) as (files & Hf & Hok & Hfiles).
    unfold staging_files. rewrite Hf. cbn [mbind option_bind]. rewrite (Hfiles k r (le_n k) Hi).
    rewrite (load_batch_record r Hr). apply ensures_lift_ok. pose proof (moved_prepared k r c Hi Hc) as Hm.
    apply ensures_change_seq; [by eapply prepared_phase|by apply (prepared_phase (S k))|].
    apply ensures_ret; [by apply (prepared_phase (S k))|].
    rewrite (batch_record_prepared r Hr). cbn [negb]. apply ensures_ret; [by apply (prepared_phase (S k))|].
    exists (). split; [done|]. by rewrite Nat.max_r by lia.
Qed.

Lemma recover_decisions_ensures k c :
  prepared k c → k ≤ length recs →
  ensures phase (each (recover_decision isoformat j (staging_name op)) (decision_ids j)) c
    (λ res c', ∃ a, res = Ok a ∧ prepared (length recs) c').
Proof.
  intros Hc Hk. rewrite (b_ids Hb). eapply ensures_weaken.
  - apply (ensures_each_ok phase _ (λ pre c', prepared (Nat.max k (length pre)) c')).
    + cbn. by rewrite Nat.max_0_r.
    + by eapply prepared_phase.
    + intros pre i post c' Hl Hc' _.
      assert (Hi : (decision_id <$> recs) !! length pre = Some i) by (rewrite Hl; by apply list_lookup_middle).
      rewrite list_lookup_fmap in Hi. destruct (recs !! length pre) as [r|] eqn:Er; [|done]. injection Hi as <-.
      eapply ensures_weaken; [apply (recover_decision_ensures (Nat.max k (length pre)) (length pre) r c' Er); [lia|done]|done|].
      intros res c'' (a & -> & Hp) _. exists a. split; [done|]. rewrite length_app. cbn.
      by replace (Nat.max k (length pre + 1)) with (Nat.max (Nat.max k (length pre)) (S (length pre))) by lia.
  - done.
  - intros res c' (ys & -> & Hp) _. exists ys. split; [done|]. rewrite length_fmap in Hp.
    by rewrite Nat.max_r in Hp by lia.
Qed.

(** ** The receipt *)

Context (t : string) (now : datetime) (Hnow : aware now = true).

Lemma no_temporary_receipt : batch_directory s0 !! temporary_name (json_name op) t = None.
Proof.
  destruct (batch_directory s0 !! temporary_name (json_name op) t) as [e|] eqn:E; [|done]. exfalso.
  destruct (readable_receipts _ _ (b_readable Hb) _ _ E) as [H|(o & rc & H & _)].
  - pose proof (temporary_ends (json_name op) t) as [q Hq]. rewrite H in Hq.
    apply (f_equal reverse) in Hq. rewrite reverse_app in Hq. discriminate Hq.
  - by apply temporary_not_name in H.
Qed.

Lemma batch_receipt_valid : receipt_valid (Receipt j now true) = true.
Proof. unfold receipt_valid. cbn. by rewrite (b_valid Hb), Hnow. Qed.

Lemma committed_mutation c o :
  is_committed c → is_committed (Store (directory c) (batch_directory c) (batch_journal_directory c) (mutations c ++ [o])).
Proof. intros [H1 H2 H3 H4 H5]. by split. Qed.

Lemma written_committed c :
  prepared (length recs) c →
  is_committed (set_batches (write_over t (json_name op) (Receipt j now true)) (set_batches (write_temporary t (json_name op)) c)).
Proof.
  intros [H1 H2 H3 (files & Hf & Hok & _) H5]. split.
  - cbn. by rewrite H1, take_ge by lia.
  - exists (Receipt j now true). split; [|split; [done|split; [apply batch_receipt_valid|done]]].
    cbn. unfold write_over, write_temporary. rewrite H2, delete_insert_id; [done|apply no_temporary_receipt].
  - by right.
  - intros e He. cbn in He. rewrite Hf in He. injection He as <-. eauto.
  - done.
Qed.

Lemma recover_operation_prepared k c :
  prepared k c → k ≤ length recs →
  ensures phase (_recover_batch_operation_unlocked t now isoformat j) c (λ r c', ∃ a, r = Ok a ∧ clean c').
Proof.
  intros Hc Hk. unfold _recover_batch_operation_unlocked, _batch_receipt_path, _batch_staging_path.
  rewrite batch_id_ok. cbn [negb]. apply ensures_lift_ok, ensures_reads.
  rewrite (pr_batch _ _ Hc), (b_receipt Hb). change (present None) with false. cbv iota.
  apply ensures_lift_ok, ensures_reads. destruct (pr_staging _ _ Hc) as (files & Hf & _).
  assert (Hsf : staging_files (staging_name op) c = Some files) by (unfold staging_files; by rewrite Hf).
  rewrite Hsf, bool_decide_true by eauto. cbn [negb].
  eapply ensures_seq with (P := λ _, prepared (length recs)); [by apply (recover_decisions_ensures k)|]. intros _ c1 Hc1 _.
  rewrite batch_receipt_valid. cbn [negb]. unfold write_receipt.
  eapply ensures_seq with (P := λ _ c', is_committed c').
  - apply ensures_change_seq; [by eapply prepared_phase|right; right; left; exists t; cbn; unfold write_temporary; rewrite lookup_insert_eq; eauto|].
    pose proof (written_committed c1 Hc1) as Hw.
    apply ensures_change; [right; right; left; exists t; cbn; unfold write_temporary; rewrite lookup_insert_eq; eauto|by apply committed_phase|].
    by exists ().
  - intros _ c2 Hc2 _. eapply ensures_seq with (P := λ _, clean); [by apply cleanup_ensures|]. intros _ c3 (Hc3 & Hj3 & Hs3) _.
    pose proof (committed_mutation c3 (journal_organization_id j) Hc3) as Hc4.
    apply ensures_change; [by apply committed_phase|by apply committed_phase|]. by exists ().
Qed.

Lemma committed_receipt c : is_committed c → ∃ rc, receipt_of c op rc ∧ receipt_journal rc = j ∧ replayable rc = true.
Proof.
  intros Hc. destruct (co_batch c Hc) as (rc & Hd & Hj & Hv & Hp). exists rc. split; [|done]. split.
  - by rewrite Hd, lookup_insert_eq.
  - split; [apply batch_id_ok|]. split; [done|]. by rewrite Hj.
Qed.

Lemma recover_operation_committed c :
  is_committed c → ensures phase (_recover_batch_operation_unlocked t now isoformat j) c (λ r c', ∃ a, r = Ok a ∧ clean c').
Proof.
  intros Hc. destruct (committed_receipt c Hc) as (rc & Hrc & Hj & _).
  unfold _recover_batch_operation_unlocked, _batch_receipt_path. rewrite batch_id_ok. cbn [negb].
  apply ensures_lift_ok, ensures_reads. destruct Hrc as [Hrc Hg]. rewrite Hrc. change (present (Some _)) with true. cbv iota.
  apply ensures_reads. rewrite (proj2 (load_one_receipt c op rc)) by by split. apply ensures_lift_ok. cbv zeta.
  rewrite Hj, !String.eqb_refl, bool_decide_true by done. cbn [negb orb]. by apply cleanup_ensures.
Qed.

(** The recovery of the batch's journal. *)
Lemma recover_journal c :
  batch_journal_directory c !! json_name op = Some (JournalFile (File (Some j))) →
  (∃ k, prepared k c ∧ k ≤ length recs) ∨ is_committed c →
  ensures phase (_recover_batch_unlocked t now isoformat op) c (λ r c', ∃ a, r = Ok a ∧ clean c').
Proof.
  intros Hj Hc. unfold _recover_batch_unlocked, _batch_journal_path. rewrite batch_id_ok. cbn [negb].
  apply ensures_lift_ok, ensures_reads. rewrite Hj. cbn [or_raise]. apply ensures_lift_ok.
  rewrite (b_valid Hb), String.eqb_refl. cbn [negb]. destruct Hc as [(k & Hc & Hk)|Hc].
  - by eapply recover_operation_prepared.
  - by apply recover_operation_committed.
Qed.
End batch.
