(* ===== verification/FindingRecovery.v ===== *)
(** * FindingRecovery: the recovery of a store with one batch at work

    [recover_pending_batches] from any phase of a batch but the torn one: it
    ends without an error, with the batch undone when its journal was not
    written and committed when it was. *)

From S2P Require Import Prelude PyStr Grouping Sha256 PyValue CrashProg Findings FindingStore FindingVisible FindingBatch.

(** ** Orphans *)

(** The stores whose decisions all belong to a receipt, or to no batch. *)
Record accounted (isoformat : datetime → string) (c : store) : Prop := Accounted {
  ac_receipts : receipts_ok c;
  ac_decisions : decisions_ok c;
  ac_batches : ∀ r o, decision_at c r → batch_operation_id r = Some o → ∃ rc, receipt_of c o rc;
}.

Lemma remove_orphan_still iso c rs known n :
  accounted iso c → _load_batch_receipts_unlocked c = Ok rs → n ∈ decision_names c →
  remove_orphan (rs.*1 ++ known) n c = ([], Ok tt).
Proof.
  intros [_ Hd Hb] Hrs [Hj [e He]]%decision_names_elem. destruct (Hd n e He Hj) as (r & -> & Hv & ->).
  unfold remove_orphan. rewrite reads_bind, (proj2 (load_decision_ok _ _ r Hj)) by done. rewrite lift_bind.
  destruct (batch_operation_id r) as [o|] eqn:Eo; [|done].
  assert (Hr : decision_at c r) by done. destruct (Hb r o Hr Eo) as [rc Hrc].
  assert (Hin : mem o (rs.*1 ++ known) = true).
  { apply mem_true. apply elem_of_app. left. apply list_elem_of_fmap. exists (o, rc). split; [done|].
    by apply (load_receipts_ok c rs Hrs). }
  by rewrite Hin, andb_false_r.
Qed.

Lemma remove_orphans_still iso c rs known :
  accounted iso c → _load_batch_receipts_unlocked c = Ok rs →
  each (remove_orphan (rs.*1 ++ known)) (decision_names c) c = ([], Ok ((λ _, tt) <$> decision_names c)).
Proof. intros Hc Hrs. apply each_still. intros n Hn. by eapply remove_orphan_still. Qed.

Lemma ensures_still {S A B D} C (f : A → prog S B) l bs (k : list B → prog S D) s Q :
  each f l s = ([], Ok bs) → ensures C (k bs) s Q → ensures C (each f l ≫= k) s Q.
Proof. unfold ensures, mbind, prog_bind. intros ->. cbn. by destruct (k bs s). Qed.

Section recovery.
Context (isoformat : datetime → string) (s0 : store) (j : RemediationBatchJournal) (recs : list FindingDecisionRecord).
Context (Hb : batch_ok isoformat s0 j recs).
Abbreviation op := (operation_id j).
Abbreviation staged := (staged s0 j).
Abbreviation prepared := (prepared s0 j recs).
Abbreviation torn := (torn j).
Abbreviation is_committed := (is_committed s0 j recs).
Abbreviation phase := (phase s0 j recs).
Abbreviation clean := (clean s0 j recs).
Abbreviation same_but_staging := (same_but_staging j).
Abbreviation frame := (frame j).

(** ** The names of the journal directory *)

Lemma journal_names c n : frame c → n ∈ names (batch_journal_directory c) →
  n = json_name op ∨ n = staging_name op ∨ ∃ e, batch_journal_directory c !! n = Some e ∧ idle n e.
Proof.
  intros Hf [e He]%names_elem. destruct (decide (n = json_name op)) as [|H1]; [by left|].
  destruct (decide (n = staging_name op)) as [|H2]; [by right; left|]. right. right. exists e. split; [done|]. by apply Hf.
Qed.

Lemma no_journals c : frame c → batch_journal_directory c !! json_name op = None → journal_ids c = [].
Proof.
  intros Hf Hn. unfold journal_ids. replace (filter _ (names _)) with (@nil string); [done|]. symmetry.
  apply elem_of_nil_inv. intros n [Hj Hin]%list_elem_of_filter.
  destruct (journal_names c n Hf Hin) as [->|[->|(e & He & _ & Hi & _)]].
  - apply names_elem in Hin as [e He]. congruence.
  - by rewrite staging_not_json in Hj.
  - congruence.
Qed.

Lemma recover_name_idle t now n c : frame c → n ≠ json_name op → recover_name t now isoformat n c = ([], Ok false).
Proof.
  intros Hf Hn. unfold recover_name. rewrite reads_bind. destruct (startswith "." n && endswith ".staging" n) eqn:Es; [done|].
  destruct (batch_journal_directory c !! n) as [e|] eqn:Ee; [|done].
  destruct (Hf n e Ee Hn) as ((f & ->) & Hj & _).
  { intros ->. by rewrite staging_is_staging in Es. }
  destruct f; [done| |done]. unfold has_json_suffix. by rewrite Hj.
Qed.

Lemma recover_name_journal t now c (C : store → Prop) Q :
  batch_journal_directory c !! json_name op = Some (JournalFile (File (Some j))) →
  ensures C (_recover_batch_unlocked t now isoformat op) c (λ r c', ∃ a, r = Ok a ∧ Q c') →
  ensures C (recover_name t now isoformat (json_name op)) c (λ r c', ∃ b, r = Ok b ∧ Q c').
Proof.
  intros Hj Hr. unfold recover_name. apply ensures_reads.
  rewrite (json_not_staging _ (json_name_ends op)), andb_false_r, Hj.
  rewrite json_suffix_name by (apply batch_id_truthy; by apply (batch_id_ok isoformat s0 j recs)).
  rewrite json_name_stem, (batch_id_ok isoformat s0 j recs Hb). cbn [negb orb].
  eapply ensures_seq with (P := λ _, Q); [exact Hr|]. intros _ c' Hc' HC. apply ensures_ret; [done|]. by exists true.
Qed.

(** ** The loop over the journals *)

(** A batch whose journal recovery finds, or a committed one. *)
Definition resumable (c : store) : Prop :=
  (∃ k, prepared k c ∧ k ≤ length recs) ∨ is_committed c.

Lemma resumable_frame c : resumable c → frame c.
Proof. intros [(k & H & _)|H]; apply H. Qed.

Lemma resumable_phase c : resumable c → phase c.
Proof. intros [(k & H & _)|H]; [right; left; by exists k|by apply committed_phase]. Qed.

Lemma resumable_journal c e :
  resumable c → batch_journal_directory c !! json_name op = Some e → e = JournalFile (File (Some j)).
Proof. intros [(k & [_ _ H _ _] & _)|[_ _ [H|H] _ _]] He; congruence. Qed.

Lemma staged_names_still t now c :
  staged c → let l := names (batch_journal_directory c) in
  each (recover_name t now isoformat) l c = ([], Ok ((λ _, false) <$> l)).
Proof.
  intros Hc l. apply each_still. intros n Hn. apply recover_name_idle; [apply Hc|]. intros ->.
  apply names_elem in Hn as [e He]. pose proof (st_journal _ _ _ Hc). congruence.
Qed.

Lemma resumed_names t now c :
  aware now = true → resumable c →
  ensures phase (each (recover_name t now isoformat) (names (batch_journal_directory c))) c
    (λ r c', ∃ bs, r = Ok bs ∧ is_committed c' ∧ batch_journal_directory c' !! json_name op = None).
Proof.
  intros Hnow Hc. set (l := names (batch_journal_directory c)).
  eapply ensures_weaken.
  - apply (ensures_each_ok phase _ (λ pre c', ((json_name op ∉ pre) ∧ c' = c) ∨ (json_name op ∈ pre ∧ clean c'))).
    + left. split; [apply not_elem_of_nil|done].
    + by apply resumable_phase.
    + intros pre n post c' Hl Hc' HC.
      assert (Hn : NoDup l) by apply names_nodup. rewrite Hl in Hn. apply NoDup_app in Hn as (_ & Hdis & _).
      destruct (decide (n = json_name op)) as [->|Hne].
      * destruct Hc' as [[_ ->]|[Hin _]]; [|exfalso; apply (Hdis _ Hin); by left].
        assert (Hin : json_name op ∈ l) by (rewrite Hl, elem_of_app; right; left).
        apply names_elem in Hin as [e He]. pose proof (resumable_journal c e Hc He) as ->.
        eapply ensures_weaken; [apply (recover_name_journal t now c phase (λ c', clean c')); [done|]|done|].
        { by apply recover_journal. }
        intros r c'' (b & -> & Hcl) _. exists b. split; [done|]. right. split; [|done]. apply elem_of_app. right. left.
      * assert (Hf : frame c') by (destruct Hc' as [[_ ->]|[_ [H _]]]; [by apply resumable_frame|apply H]).
        unfold ensures. rewrite recover_name_idle by done. split; [by intros s' ->%list_elem_of_singleton|].
        exists false. split; [done|]. cbn. destruct Hc' as [[Hin ->]|[Hin Hcl]]; [left|right]; (split; [|done]).
        -- rewrite not_elem_of_app, not_elem_of_cons. split; [done|]. split; [done|]. apply not_elem_of_nil.
        -- apply elem_of_app. by left.
  - done.
  - intros r c' (bs & -> & Hc') _. exists bs. split; [done|]. destruct Hc' as [[Hin ->]|[_ (H1 & H2 & _)]]; [|done].
    assert (Hj : batch_journal_directory c !! json_name op = None).
    { destruct (batch_journal_directory c !! json_name op) as [e|] eqn:E; [|done]. destruct Hin. apply names_elem. eauto. }
    split; [|done]. destruct Hc as [(k & [_ _ H _ _] & _)|H]; [congruence|done].
Qed.
(** ** What a phase leaves in the other directories *)

Lemma new_name_json r : endswith ".json" (name_of r) = true.
Proof. apply json_name_ends. Qed.

Lemma dir_with_elem l n e :
  NoDup (name_of <$> l) → (∀ r, r ∈ l → directory s0 !! name_of r = None) →
  dir_with s0 l !! n = Some e ↔ directory s0 !! n = Some e ∨ ∃ r, r ∈ l ∧ n = name_of r ∧ e = File (Some r).
Proof.
  intros Hn Hfree. destruct (decide (n ∈ name_of <$> l)) as [(r & -> & Hr)%list_elem_of_fmap|Hout].
  - rewrite (dir_with_in s0 l r Hn Hr), (Hfree r Hr). split.
    + intros [= <-]. right. by exists r.
    + intros [[=]|(r' & Hr' & E & ->)]. pose proof (dir_with_in s0 l r' Hn Hr') as H1.
      rewrite <- E, (dir_with_in s0 l r Hn Hr) in H1. done.
  - rewrite dir_with_out by done. split; [by left|]. intros [H|(r & Hr & -> & _)]; [done|].
    destruct Hout. by apply list_elem_of_fmap_2.
Qed.

(** The decisions of a store whose directory holds some of the records. *)
Lemma decision_at_with c l r :
  sublist l recs → directory c = dir_with s0 l → decision_at c r ↔ decision_at s0 r ∨ r ∈ l.
Proof.
  intros Hs Hd. unfold decision_at. rewrite Hd.
  assert (Hn : NoDup (name_of <$> l)).
  { eapply sublist_NoDup; [by apply (names_nodup_recs isoformat s0 j recs)|]. by apply sublist_map. }
  rewrite dir_with_elem; [|done|intros x Hx; apply (b_free _ _ _ _ Hb); by eapply elem_of_sublist]. split.
  - intros [[H|(r' & Hr' & _ & [= ->])] Hv]; [by left|by right].
  - intros [[H Hv]|Hr]; [by split; [left|]|]. split; [right; by exists r|].
    apply (b_records _ _ _ _ Hb). by eapply elem_of_sublist.
Qed.

Lemma decisions_ok_with c l :
  sublist l recs → directory c = dir_with s0 l → decisions_ok c.
Proof.
  intros Hs Hd n e. rewrite Hd.
  assert (Hn : NoDup (name_of <$> l)).
  { eapply sublist_NoDup; [by apply (names_nodup_recs isoformat s0 j recs)|]. by apply sublist_map. }
  rewrite dir_with_elem; [|done|intros x Hx; apply (b_free _ _ _ _ Hb); by eapply elem_of_sublist].
  intros [H|(r & Hr & -> & ->)] Hj; [by apply (readable_decisions _ _ (b_readable _ _ _ _ Hb))|].
  exists r. split; [done|]. split; [|done]. apply (b_records _ _ _ _ Hb). by eapply elem_of_sublist.
Qed.

Lemma receipt_of_same c o rc : batch_directory c = batch_directory s0 → receipt_of c o rc ↔ receipt_of s0 o rc.
Proof. intros H. unfold receipt_of. by rewrite H. Qed.

Lemma no_receipt_before rc : ¬ receipt_of s0 op rc.
Proof. intros [H _]. rewrite (b_receipt _ _ _ _ Hb) in H. done. Qed.

(** The receipt of a committed batch. *)
Definition its_receipt (c : store) (rc0 : RemediationBatchReceipt) : Prop :=
  batch_directory c = <[json_name op := File (Some rc0)]> (batch_directory s0)
  ∧ receipt_journal rc0 = j ∧ receipt_valid rc0 = true.

Lemma receipt_of_committed c rc0 o rc :
  its_receipt c rc0 → receipt_of c o rc ↔ receipt_of s0 o rc ∨ (o = op ∧ rc = rc0).
Proof.
  intros (Hd & Hj & Hv). unfold receipt_of. rewrite Hd. destruct (decide (o = op)) as [->|Hne].
  - rewrite lookup_insert_eq, (b_receipt _ _ _ _ Hb). split.
    + intros [[= ->] _]. by right.
    + intros [[[=] _]|[_ ->]]. split; [done|]. split; [by apply (batch_id_ok isoformat s0 j recs)|].
      split; [done|]. by rewrite Hj.
  - rewrite lookup_insert_ne by (intros E%(inj json_name); congruence). naive_solver.
Qed.

Lemma receipts_ok_committed c rc0 : its_receipt c rc0 → receipts_ok c.
Proof.
  intros (Hd & Hj & Hv) n e. rewrite Hd. intros [[<- <-]|[_ H]]%lookup_insert_Some.
  - right. exists op, rc0. split; [done|]. split; [done|]. split; [by apply (batch_id_ok isoformat s0 j recs)|].
    split; [done|]. by rewrite Hj.
  - by apply (readable_receipts _ _ (b_readable _ _ _ _ Hb)).
Qed.

Lemma staged_accounted c : staged c → accounted isoformat c.
Proof.
  intros Hc. pose proof (st_batch _ _ _ Hc) as Hbat. pose proof (st_dir _ _ _ Hc) as Hdir. split.
  - intros n e. rewrite Hbat. apply (readable_receipts _ _ (b_readable _ _ _ _ Hb)).
  - intros n e. rewrite Hdir. apply (readable_decisions _ _ (b_readable _ _ _ _ Hb)).
  - intros r o Hr Ho. unfold decision_at in Hr. rewrite Hdir in Hr.
    destruct (settled_decisions _ (b_settled _ _ _ _ Hb) r o Hr Ho) as [rc Hrc]. exists rc. by apply receipt_of_same.
Qed.

Lemma committed_its_receipt c : is_committed c → ∃ rc0, its_receipt c rc0.
Proof. intros Hc. destruct (co_batch _ _ _ _ Hc) as (rc & Hd & Hj & Hv & _). by exists rc. Qed.

Lemma committed_accounted c : is_committed c → accounted isoformat c.
Proof.
  intros Hc. destruct (committed_its_receipt c Hc) as [rc0 Hrc0]. split.
  - by eapply receipts_ok_committed.
  - apply (decisions_ok_with c recs); [done|apply Hc].
  - intros r o Hr Ho. apply (decision_at_with c recs) in Hr; [|done|apply Hc]. destruct Hr as [Hr|Hr].
    + destruct (settled_decisions _ (b_settled _ _ _ _ Hb) r o Hr Ho) as [rc Hrc]. exists rc.
      apply (receipt_of_committed c rc0); [done|]. by left.
    + destruct (b_records _ _ _ _ Hb r Hr) as (_ & Ho' & _). assert (o = op) as -> by congruence.
      exists rc0. apply (receipt_of_committed c rc0); [done|]. by right.
Qed.
(** ** Cleaning up *)

Lemma each_staging c :
  staged c ∨ is_committed c → batch_journal_directory c !! json_name op = None →
  ensures phase (each (remove_orphan_staging []) (names (batch_journal_directory c))) c
    (λ r c', ∃ ys, r = Ok ys ∧ same_but_staging c c' ∧ batch_journal_directory c' !! staging_name op = None).
Proof.
  intros Hc Hj. assert (Hphase : ∀ c', same_but_staging c c' → phase c').
  { intros c' Hs. destruct Hc as [Hc|Hc]; [left; by eapply staged_same|apply committed_phase; by eapply committed_same]. }
  assert (Hleft : staging_left j c) by (destruct Hc as [[]|[]]; done).
  assert (Hframe : frame c) by (destruct Hc as [[]|[]]; done).
  assert (Hself : same_but_staging c c) by by split.
  eapply ensures_weaken.
  - apply (ensures_each_ok phase _ (λ pre c', same_but_staging c c'
      ∧ (if decide (staging_name op ∈ pre) then batch_journal_directory c' !! staging_name op = None else c' = c))).
    + split; [done|]. rewrite decide_False by apply not_elem_of_nil. done.
    + by apply Hphase.
    + intros pre n post c' Hl [Hs Hnone] HC. unfold remove_orphan_staging. cbv zeta.
      destruct (decide (n = staging_name op)) as [->|Hne].
      * rewrite staging_is_staging, staging_operation, (batch_id_ok isoformat s0 j recs Hb). cbn [andb negb mem].
        eapply ensures_weaken.
        -- apply (remove_staging_ensures j phase); [apply Hs|]. intros c'' Hs'. apply Hphase. by eapply same_trans.
        -- done.
        -- intros r c'' (a & -> & Hs' & Hn) _. exists a. split; [done|]. split; [by eapply same_trans|].
           rewrite decide_True; [done|]. apply elem_of_app. right. left.
      * assert (Hin : n ∈ names (batch_journal_directory c)) by (rewrite Hl, elem_of_app; right; left).
        assert (Hst : startswith "." n && endswith ".staging" n = false).
        { destruct (journal_names c n Hframe Hin) as [->|[->|(e & He & _ & _ & H)]]; [|done|done].
          by rewrite (json_not_staging _ (json_name_ends op)), andb_false_r. }
        rewrite Hst. cbn [andb]. apply ensures_ret; [done|]. exists tt. split; [done|]. split; [done|].
        assert (Hiff : staging_name op ∈ pre ++ [n] ↔ staging_name op ∈ pre).
        { rewrite elem_of_app, list_elem_of_singleton. split; [intros [H|H]; [done|congruence]|by left]. }
        by rewrite (decide_ext _ _ _ _ Hiff).
  - done.
  - intros r c' (ys & -> & Hs & Hnone) _. exists ys. split; [done|]. split; [done|].
    case_decide as Hin; [done|]. subst c'. destruct (batch_journal_directory c !! staging_name op) as [e|] eqn:Ee; [|done].
    destruct Hin. apply names_elem. eauto.
Qed.
Lemma orphans_ensures c :
  staged c ∨ is_committed c → batch_journal_directory c !! json_name op = None →
  ensures phase _cleanup_orphan_batches_unlocked c
    (λ r c', r = Ok tt ∧ same_but_staging c c' ∧ batch_journal_directory c' !! staging_name op = None).
Proof.
  intros Hc Hj. assert (Hac : accounted isoformat c) by (destruct Hc; [by apply staged_accounted|by apply committed_accounted]).
  assert (Hframe : frame c) by (destruct Hc as [[]|[]]; done).
  destruct (receipts_load c (ac_receipts _ _ Hac)) as [rs Hrs].
  unfold _cleanup_orphan_batches_unlocked. apply ensures_reads. rewrite Hrs. apply ensures_lift_ok, ensures_reads, ensures_reads.
  eapply ensures_still; [by apply (remove_orphans_still isoformat)|].
  rewrite (no_journals c Hframe Hj). apply ensures_reads. eapply ensures_seq
    with (P := λ _ c', same_but_staging c c' ∧ batch_journal_directory c' !! staging_name op = None); [by apply each_staging|].
  intros _ c' Hc' HC. apply ensures_ret; [done|]. done.
Qed.

(** ** The whole recovery *)

(** Nothing of the batch is left to do. *)
Definition resting (c : store) : Prop :=
  (staged c ∨ is_committed c) ∧ batch_journal_directory c !! json_name op = None
  ∧ batch_journal_directory c !! staging_name op = None.

Lemma resting_same c c' :
  staged c ∨ is_committed c → batch_journal_directory c !! json_name op = None → same_but_staging c c' →
  batch_journal_directory c' !! staging_name op = None → resting c' ∧ (is_committed c → is_committed c').
Proof.
  intros Hc Hj Hs Hn. split; [|intros H; by eapply committed_same]. split; [|split; [|done]].
  - destruct Hc as [Hc|Hc]; [left; by eapply staged_same|right; by eapply committed_same].
  - rewrite (sb_journals _ _ _ Hs); [done|]. apply json_staging_ne.
Qed.

Lemma recover_staged t now c :
  staged c → ensures phase (recover_pending_batches t now isoformat) c (λ r c', ∃ n, r = Ok n ∧ resting c').
Proof.
  intros Hc. unfold recover_pending_batches. apply ensures_reads.
  eapply ensures_still; [by apply staged_names_still|].
  eapply ensures_seq with (P := λ _, resting).
  - eapply ensures_weaken; [apply orphans_ensures; [by left|apply Hc]|done|]. intros r c' (-> & Hs & Hn) _.
    exists tt. split; [done|]. by eapply resting_same; [left|apply Hc|..].
  - intros _ c' Hc' HC. apply ensures_ret; [done|]. eauto.
Qed.

Lemma recover_resumable t now c :
  aware now = true → resumable c →
  ensures phase (recover_pending_batches t now isoformat) c (λ r c', ∃ n, r = Ok n ∧ resting c' ∧ is_committed c').
Proof.
  intros Hnow Hc. unfold recover_pending_batches. apply ensures_reads.
  eapply ensures_seq with (P := λ _ c', is_committed c' ∧ batch_journal_directory c' !! json_name op = None).
  - eapply ensures_weaken; [by apply resumed_names|done|]. intros r c' (bs & -> & H1 & H2) _. by exists bs.
  - intros bs c1 [Hc1 Hj1] _. eapply ensures_seq with (P := λ _ c', resting c' ∧ is_committed c').
    + eapply ensures_weaken; [apply orphans_ensures; [by right|done]|done|]. intros r c' (-> & Hs & Hn) _.
      exists tt. split; [done|]. destruct (resting_same c1 c' (or_intror Hc1) Hj1 Hs Hn) as [Hr Hi]. auto.
    + intros _ c' Hc' HC. apply ensures_ret; [done|]. eauto.
Qed.

(** Recovery is never stuck outside the torn phase. *)
Lemma recover_phase t now c :
  aware now = true → phase c → ¬ torn c →
  ensures phase (recover_pending_batches t now isoformat) c
    (λ r c', ∃ n, r = Ok n ∧ resting c' ∧ (¬ staged c → is_committed c')).
Proof.
  intros Hnow Hc Ht.
  assert (Hcase : staged c ∨ resumable c).
  { destruct Hc as [Hc|[[k Hc]|[Hc|Hc]]]; [by left| |done|by right; right]. right. left.
    exists (Nat.min k (length recs)). split; [by apply prepared_min|lia]. }
  destruct Hcase as [Hs|Hr].
  - eapply ensures_weaken; [by apply recover_staged|done|]. intros r c' (n & -> & H) _. exists n. done.
  - eapply ensures_weaken; [by apply recover_resumable|done|]. intros r c' (n & -> & H1 & H2) _. by exists n.
Qed.
End recovery.
