(* ===== verification/FindingAtomic.v ===== *)
(** * FindingAtomic: a batch of decisions is recorded whole or not at all

    What a reader sees in each phase of a batch, [record_many] from a store
    with nothing pending, and the two together across crashes and repeated
    recoveries. *)

From S2P Require Import Prelude PyStr Grouping Sha256 PyValue CrashProg Findings FindingStore FindingVisible FindingBatch FindingRecovery.

(** ** What a reader sees *)

Lemma visible_same iso c s :
  directory c = directory s → batch_directory c = batch_directory s →
  _visible_records_unlocked iso c = _visible_records_unlocked iso s.
Proof. intros Hd Hr. destruct c, s. cbn in Hd, Hr. by subst. Qed.

(** A receipt's temporary file makes the store unreadable. *)
Lemma torn_unreadable iso j c : torn j c → is_ok (_visible_records_unlocked iso c) = false.
Proof.
  intros (t & e & He). destruct (_visible_records_unlocked iso c) as [vis|] eqn:Ev; [|done]. exfalso.
  apply visible_spec in Ev as [Hr _]. destruct (readable_receipts _ _ Hr _ _ He) as [H|(o & rc & H & _)].
  - destruct (temporary_ends (json_name (operation_id j)) t) as [q Hq]. rewrite H in Hq.
    apply (f_equal reverse) in Hq. rewrite reverse_app in Hq. discriminate Hq.
  - by apply temporary_not_name in H.
Qed.

Section reading.
Context (isoformat : datetime → string) (s0 : store) (j : RemediationBatchJournal) (recs : list FindingDecisionRecord).
Context (Hb : batch_ok isoformat s0 j recs).
Abbreviation op := (operation_id j).
Abbreviation staged := (staged s0 j).
Abbreviation prepared := (prepared s0 j recs).
Abbreviation is_committed := (is_committed s0 j recs).
Abbreviation phase := (phase s0 j recs).
Abbreviation _visible_records := (_visible_records_unlocked isoformat).

Lemma names_count c l :
  sublist l recs → directory c = dir_with s0 l →
  (Z.of_nat (length (decision_names c)) <= 100000)%Z.
Proof.
  intros Hs Hd. pose proof (b_limit _ _ _ _ Hb) as Hlim.
  assert (Hle : length (decision_names c) ≤ length (decision_names s0 ++ (name_of <$> l))).
  { apply submseteq_length, NoDup_submseteq.
    - unfold decision_names. eapply sublist_NoDup; [apply (names_nodup (directory c))|apply sublist_filter].
    - intros n [Hj [e He]]%decision_names_elem. rewrite Hd in He. apply elem_of_app.
      destruct (decide (n ∈ name_of <$> l)) as [|Hout]; [by right|left].
      rewrite dir_with_out in He by done. apply decision_names_elem. eauto. }
  rewrite length_app, length_fmap in Hle. apply sublist_length in Hs. lia.
Qed.

(** Before the receipt, the batch's records are not visible. *)
Lemma visible_before c l r :
  sublist l recs → directory c = dir_with s0 l → batch_directory c = batch_directory s0 →
  is_visible c r ↔ is_visible s0 r.
Proof.
  intros Hs Hd Hbat. unfold is_visible. rewrite (decision_at_with isoformat s0 j recs Hb c l r Hs Hd).
  setoid_rewrite (receipt_of_same s0 c _ _ Hbat). split; [|naive_solver]. intros [[Hr|Hr] Ho]; [done|]. exfalso.
  assert (Hin : r ∈ recs) by by eapply elem_of_sublist.
  destruct (Ho op) as [rc Hrc]; [by apply (b_records _ _ _ _ Hb)|]. by apply (no_receipt_before isoformat s0 j recs Hb rc).
Qed.

Lemma readable_before c l :
  sublist l recs → directory c = dir_with s0 l → batch_directory c = batch_directory s0 → readable isoformat c.
Proof.
  intros Hs Hd Hbat. pose proof (b_readable _ _ _ _ Hb) as H0.
  assert (Hold : ∀ r o rc, decision_at c r → batch_operation_id r = Some o → receipt_of s0 o rc → decision_at s0 r).
  { intros r o rc Hr Ho Hrc. apply (decision_at_with isoformat s0 j recs Hb c l r Hs Hd) in Hr as [|Hr]; [done|]. exfalso.
    assert (Hin : r ∈ recs) by by eapply elem_of_sublist. destruct (b_records _ _ _ _ Hb r Hin) as (_ & Ho' & _).
    assert (o = op) as -> by congruence. by apply (no_receipt_before isoformat s0 j recs Hb rc). }
  split.
  - by eapply names_count.
  - intros n e. rewrite Hbat. apply (readable_receipts _ _ H0).
  - by eapply (decisions_ok_with isoformat s0 j recs Hb).
  - intros r o rc Hr Ho Hrc%(receipt_of_same s0 c _ _ Hbat). apply (readable_batches _ _ H0 r o); [|done|done]. by eapply Hold.
  - intros o rc Hrc%(receipt_of_same s0 c _ _ Hbat) i. rewrite (readable_complete _ _ H0 o rc Hrc). split.
    + intros (r & Hr & Ho & Hi). exists r. split; [|done].
      apply (decision_at_with isoformat s0 j recs Hb c l r Hs Hd). by left.
    + intros (r & Hr & Ho & Hi). exists r. split; [|done]. by eapply Hold.
Qed.

(** After it, all of them are. *)
Lemma visible_after c r : is_committed c → is_visible c r ↔ is_visible s0 r ∨ r ∈ recs.
Proof.
  intros Hc. destruct (committed_its_receipt s0 j recs c Hc) as [rc0 Hrc0]. unfold is_visible.
  rewrite (decision_at_with isoformat s0 j recs Hb c recs r) by (done || apply Hc).
  setoid_rewrite (receipt_of_committed isoformat s0 j recs Hb c rc0 _ _ Hrc0). split.
  - intros [[Hr|Hr] Ho]; [|by right]. left. split; [done|]. intros o Hoo. by apply (settled_decisions _ (b_settled _ _ _ _ Hb) r).
  - intros [[Hr Ho]|Hr].
    + split; [by left|]. intros o Hoo. destruct (Ho o Hoo) as [rc Hrc]. exists rc. by left.
    + split; [by right|]. intros o Hoo. destruct (b_records _ _ _ _ Hb r Hr) as (_ & Ho' & _).
      exists rc0. right. split; [congruence|done].
Qed.

Lemma recs_committed rc0 r : receipt_journal rc0 = j → r ∈ recs → committed isoformat rc0 r.
Proof.
  intros Hj Hr. pose proof (batch_record_prepared isoformat s0 j recs Hb r Hr) as H. unfold prepared_record in H. to_prop.
  unfold committed, digest_is. rewrite Hj. split; [by apply bool_decide_eq_true|done].
Qed.

Lemma old_not_op r : decision_at s0 r → batch_operation_id r ≠ Some op.
Proof.
  intros Hr Ho. destruct (settled_decisions _ (b_settled _ _ _ _ Hb) r op Hr Ho) as [rc Hrc].
  by apply (no_receipt_before isoformat s0 j recs Hb rc).
Qed.

Lemma readable_after c : is_committed c → readable isoformat c.
Proof.
  intros Hc. pose proof (b_readable _ _ _ _ Hb) as H0. destruct (committed_its_receipt s0 j recs c Hc) as [rc0 Hrc0].
  pose proof (co_dir _ _ _ _ Hc) as Hd. pose proof Hrc0 as (_ & Hj0 & _).
  assert (Hat : ∀ r, decision_at c r ↔ decision_at s0 r ∨ r ∈ recs) by (intros r; by apply (decision_at_with isoformat s0 j recs Hb)).
  assert (Hrec : ∀ r, r ∈ recs → batch_operation_id r = Some op) by (intros r Hr; by apply (b_records _ _ _ _ Hb)).
  pose proof (λ o rc, receipt_of_committed isoformat s0 j recs Hb c rc0 o rc Hrc0) as Hof. split.
  - by apply (names_count c recs).
  - by apply (receipts_ok_committed isoformat s0 j recs Hb c rc0).
  - by apply (decisions_ok_with isoformat s0 j recs Hb c recs).
  - intros r o rc [Hr|Hr]%Hat Ho [Hrc|[-> ->]]%Hof; [|by destruct (old_not_op r Hr)| |by apply recs_committed].
    + by apply (readable_batches _ _ H0 r o).
    + exfalso. assert (o = op) as -> by (specialize (Hrec r Hr); congruence). by apply (no_receipt_before isoformat s0 j recs Hb rc).
  - intros o rc [Hrc|[-> ->]]%Hof i; [|rewrite Hj0, (b_ids _ _ _ _ Hb)].
    + rewrite (readable_complete _ _ H0 o rc Hrc). setoid_rewrite Hat. split; [naive_solver|].
      intros (r & [Hr|Hr] & Ho & Hi); [by exists r|]. exfalso.
      assert (o = op) as -> by (specialize (Hrec r Hr); congruence). by apply (no_receipt_before isoformat s0 j recs Hb rc).
    + rewrite list_elem_of_fmap. setoid_rewrite Hat. split.
      * intros (r & -> & Hr). exists r. auto.
      * intros (r & [Hr|Hr] & Ho & <-); [by destruct (old_not_op r Hr)|by exists r].
Qed.
Lemma s0_frame : frame j s0 ∧ staging_left j s0 ∧ batch_journal_directory s0 !! json_name op = None
  ∧ batch_journal_directory s0 !! staging_name op = None.
Proof.
  pose proof (settled_journals _ (b_settled _ _ _ _ Hb)) as H.
  assert (Hs : batch_journal_directory s0 !! staging_name op = None).
  { destruct (_ !! staging_name op) as [e|] eqn:E; [|done]. by destruct (idle_not_staging _ e op (H _ e E)). }
  split; [intros n e He _ _; by apply H|]. split; [intros e He; congruence|]. split; [|done].
  destruct (_ !! json_name op) as [e|] eqn:E; [|done]. by destruct (idle_not_json _ e op (H _ e E)).
Qed.

(** The batch can be committed. *)
Lemma committed_exists : ∃ c, is_committed c.
Proof.
  destruct s0_frame as (Hf & Hl & Hj & _).
  exists (Store (dir_with s0 recs) (<[json_name op := File (Some (Receipt j (prepared_at j) true))]> (batch_directory s0))
            (batch_journal_directory s0) (mutations s0)).
  split; [done| |by left|done|done]. eexists. split; [done|]. split; [done|]. split; [|done].
  apply (batch_receipt_valid isoformat s0 j recs Hb). pose proof (b_valid _ _ _ _ Hb) as Hv. unfold journal_valid in Hv. by to_prop.
Qed.

(** A committed batch is answered again, to the same request. *)
Lemma replay_committed c organization digest :
  is_committed c → _BATCH_ID digest = true →
  _replay_batch_unlocked isoformat op organization digest c =
  if String.eqb (journal_organization_id j) organization && String.eqb digest (request_digest j)
  then Ok (Some recs) else Err "idempotency_conflict".
Proof.
  intros Hc Hdig. destruct (committed_receipt isoformat s0 j recs Hb c Hc) as (rc & Hrc & Hj & Hp).
  unfold _replay_batch_unlocked, _batch_receipt_path. rewrite (batch_id_ok isoformat s0 j recs Hb), Hdig.
  cbn [negb orb mbind outcome_bind]. rewrite (proj1 Hrc). change (present (Some _)) with true. cbn [negb].
  rewrite (proj2 (load_one_receipt c op rc) Hrc). cbn [mbind outcome_bind]. cbv zeta. rewrite Hj, Hp.
  destruct (String.eqb (journal_organization_id j) organization) eqn:Eo; [|done]. cbn [negb andb].
  destruct (String.eqb digest (request_digest j)) eqn:Ed; [|done]. cbn [negb].
  assert (Hload : traverse (λ i, path ← _path i; load_decision path (directory c !! path)) (decision_ids j) = Ok recs).
  { apply traverse_ok. rewrite (b_ids _ _ _ _ Hb). apply Forall2_fmap_l, Forall_Forall2_diag, Forall_forall. intros r Hr.
    pose proof (b_records _ _ _ _ Hb r Hr) as (Hv & _). unfold compose, _path. rewrite (record_valid_id r Hv). cbn [negb mbind outcome_bind].
    rewrite (co_dir _ _ _ _ Hc). fold (name_of r).
    rewrite dir_with_in; [|by apply (names_nodup_recs isoformat s0 j recs)|done]. by apply (load_batch_record isoformat s0 j recs Hb). }
  rewrite Hload. cbn [mbind outcome_bind].
  replace (any_of _ recs) with false; [done|]. symmetry. apply any_of_false. intros r Hr.
  pose proof (batch_record_prepared isoformat s0 j recs Hb r Hr) as H. unfold prepared_record in H. to_prop.
  match goal with E : organization_id r = _ |- _ => rewrite E end. rewrite Eo, String.eqb_refl.
  unfold digest_is. rewrite bool_decide_true by done. by match goal with E : in_batch _ _ = _ |- _ => rewrite E end.
Qed.

(** The two listings a batch leads from and to. *)
Lemma visible_phases vis0 :
  _visible_records s0 = Ok vis0 →
  ∃ vis1, vis1 ≡ₚ vis0 ++ recs
    ∧ ∀ c, phase c → (_visible_records c = Ok vis0 ∧ ¬ is_committed c) ∨ _visible_records c = Ok vis1 ∧ is_committed c
                     ∨ torn j c ∧ is_ok (_visible_records c) = false.
Proof.
  intros [_ Hl0]%visible_spec.
  assert (Hbefore : ∀ c l, sublist l recs → directory c = dir_with s0 l → batch_directory c = batch_directory s0 →
    _visible_records c = Ok vis0 ∧ ¬ is_committed c).
  { intros c l Hs Hd Hbat. split.
    - apply visible_spec. split; [by eapply readable_before|]. eapply listing_ext; [|exact Hl0]. intros r. symmetry.
      by eapply visible_before.
    - intros [rc Hrc]%committed_its_receipt. assert (H : receipt_of c op rc).
      { apply (receipt_of_committed isoformat s0 j recs Hb c rc); [done|]. by right. }
      apply (receipt_of_same s0 c _ _ Hbat) in H. by apply (no_receipt_before isoformat s0 j recs Hb rc). }
  destruct committed_exists as [c1 Hc1].
  destruct (readable_visible isoformat c1 (readable_after c1 Hc1)) as [vis1 Hvis1].
  pose proof Hvis1 as [_ Hl1]%visible_spec. exists vis1. split.
  - apply NoDup_Permutation.
    + apply (NoDup_fmap_1 name_of), Hl1.
    + apply NoDup_app. split; [apply (NoDup_fmap_1 name_of), Hl0|]. split.
      * intros r [Hr _]%(listing_elem _ _ Hl0) Hin. destruct (b_records _ _ _ _ Hb r Hin) as (_ & Ho & _). by destruct (old_not_op r Hr).
      * apply (NoDup_fmap_1 name_of). by apply (names_nodup_recs isoformat s0 j recs).
    + intros r. rewrite elem_of_app, (listing_elem _ _ Hl1), (listing_elem _ _ Hl0). by apply visible_after.
  - intros c [Hc|[[k Hc]|[Hc|Hc]]].
    + left. apply (Hbefore c []); [apply sublist_nil_l|apply Hc..].
    + left. apply (Hbefore c (take k recs)); [apply sublist_take|apply Hc..].
    + right. right. split; [done|]. by eapply torn_unreadable.
    + right. left. split; [|done]. apply visible_spec. split; [by apply readable_after|]. eapply listing_ext; [|exact Hl1].
      intros r. exact (iff_trans (visible_after c1 r Hc1) (iff_sym (visible_after c r Hc))).
Qed.
End reading.

(** ** Preparing *)

Section preparing.
Context (isoformat : datetime → string) (s0 : store) (j : RemediationBatchJournal) (recs : list FindingDecisionRecord).
Context (Hb : batch_ok isoformat s0 j recs).
Abbreviation op := (operation_id j).
Abbreviation phase := (phase s0 j recs).

(** The staging directory holds the records. *)
Record staging_with (l : list FindingDecisionRecord) (c : store) : Prop := StagingWith {
  sw_dir : directory c = directory s0;
  sw_batch : batch_directory c = batch_directory s0;
  sw_journal : batch_journal_directory c !! json_name op = None;
  sw_staging : ∃ files, batch_journal_directory c !! staging_name op = Some (Staging files) ∧ staging_ok files
                 ∧ ∀ r, r ∈ l → files !! name_of r = Some (File (Some r));
  sw_frame : frame j c;
}.

Lemma staging_phase l c : staging_with l c → phase c.
Proof.
  intros [H1 H2 H3 (files & Hf & Hok & _) H5]. left. split; [done|done|done| |done].
  intros e He. rewrite Hf in He. injection He as <-. eauto.
Qed.

Lemma in_staging_with l l' f c :
  staging_with l c →
  (∀ files, staging_ok files → (∀ r, r ∈ l → files !! name_of r = Some (File (Some r))) →
     staging_ok (f files) ∧ ∀ r, r ∈ l' → f files !! name_of r = Some (File (Some r))) →
  staging_with l' (in_staging f (staging_name op) c).
Proof.
  intros [H1 H2 H3 (files & Hf & Hok & Hl) H5] Hfiles. destruct (Hfiles files Hok Hl) as [Hok' Hl']. split.
  - done.
  - done.
  - cbn. rewrite lookup_alter_ne; [done|]. apply not_eq_sym, json_not_staging_name.
  - exists (f files). cbn. by rewrite lookup_alter_eq, Hf.
  - intros n e. cbn. intros He Hn1 Hn2. rewrite lookup_alter_ne in He by done. by apply H5.
Qed.

Lemma write_staged_ensures t l r c :
  staging_with l c → name_of r ∉ name_of <$> l →
  ensures phase (write_staged t (staging_name op) (name_of r) r) c (λ res c', ∃ a, res = Ok a ∧ staging_with (l ++ [r]) c').
Proof.
  intros Hc Hr. unfold write_staged.
  assert (H1 : staging_with l (in_staging (write_temporary t (name_of r)) (staging_name op) c)).
  { eapply in_staging_with; [exact Hc|]. intros files Hok Hl. unfold write_temporary. split.
    - intros n e [[_ <-]|[_ He]]%lookup_insert_Some; [by exists None|by eapply Hok].
    - intros r' Hr'. rewrite lookup_insert_ne; [by apply Hl|]. apply temporary_not_name. }
  assert (H2 : staging_with (l ++ [r]) (in_staging (write_over t (name_of r) r) (staging_name op)
                 (in_staging (write_temporary t (name_of r)) (staging_name op) c))).
  { eapply in_staging_with; [exact H1|]. intros files Hok Hl. unfold write_over. split.
    - intros n e [[_ <-]|[_ He]]%lookup_insert_Some; [by eexists|]. apply lookup_delete_Some in He as [_ He]. by eapply Hok.
    - intros r' Hr'. apply elem_of_app in Hr' as [Hr'|Hr']; [|apply list_elem_of_singleton in Hr' as ->; by rewrite lookup_insert_eq].
      rewrite lookup_insert_ne; [|intros E; apply Hr; rewrite E; by apply list_elem_of_fmap_2].
      rewrite lookup_delete_ne; [by apply Hl|]. apply temporary_not_name. }
  apply ensures_change_seq; [by eapply staging_phase|by eapply staging_phase|].
  apply ensures_change; [by eapply staging_phase|by eapply staging_phase|]. by exists tt.
Qed.

Lemma write_all_ensures t c :
  staging_with [] c →
  ensures phase (each (λ r, write_staged t (staging_name op) (json_name (decision_id r)) r) recs) c
    (λ res c', ∃ a, res = Ok a ∧ staging_with recs c').
Proof.
  intros Hc. apply (ensures_each_ok phase _ staging_with); [done|by eapply staging_phase|].
  intros pre r post c' Hl Hc' _. apply (write_staged_ensures t pre r c' Hc').
  pose proof (names_nodup_recs isoformat s0 j recs Hb) as Hn. rewrite Hl, fmap_app in Hn.
  apply NoDup_app in Hn as (_ & Hd & _). intros Hin. apply (Hd _ Hin). left.
Qed.

Lemma write_journal_ensures t c :
  staging_with recs c →
  ensures phase (write_journal t (json_name op) j) c (λ res c', ∃ a, res = Ok a ∧ prepared s0 j recs 0 c').
Proof.
  intros Hc. pose proof Hc as [H1 H2 H3 (files & Hf & Hok & Hl) H5]. unfold write_journal.
  set (tmp := temporary_name (json_name op) t). assert (Ht1 : tmp ≠ json_name op) by apply temporary_not_name.
  assert (Ht2 : tmp ≠ staging_name op).
  { intros E. pose proof (temporary_not_staging (json_name op) t) as H. fold tmp in H. rewrite E in H.
    pose proof (staging_is_staging op) as H'. by rewrite H, andb_false_r in H'. }
  pose proof (json_not_staging_name op op) as Hne.
  assert (Hs : staging_with recs (set_journals (<[tmp := JournalFile (File None)]>) c)).
  { split; [done|done| | |].
    - cbn. by rewrite lookup_insert_ne.
    - exists files. cbn. by rewrite lookup_insert_ne.
    - intros n e. cbn. intros [[<- <-]|[_ He]]%lookup_insert_Some Hn1 Hn2; [apply temporary_idle|by apply H5]. }
  assert (Hp : prepared s0 j recs 0 (set_journals (λ d, <[json_name op := JournalFile (File (Some j))]> (delete tmp d))
                 (set_journals (<[tmp := JournalFile (File None)]>) c))).
  { split; [done|done| | |].
    - cbn. by rewrite lookup_insert_eq.
    - exists files. cbn. rewrite lookup_insert_ne, lookup_delete_ne, lookup_insert_ne by done. split; [done|]. split; [done|].
      intros i r _ Hr. apply Hl. by eapply list_elem_of_lookup_2.
    - intros n e. cbn. intros He Hn1 Hn2. rewrite lookup_insert_ne in He by done.
      apply lookup_delete_Some in He as [Hn He]. rewrite lookup_insert_ne in He by done. by apply H5. }
  apply ensures_change_seq; [by eapply staging_phase|by eapply staging_phase|].
  apply ensures_change; [by eapply staging_phase|by apply (prepared_phase _ _ _ 0)|]. by exists tt.
Qed.

Lemma staging_start : staging_with [] (set_journals (<[staging_name op := Staging ∅]>) s0).
Proof.
  destruct (s0_frame isoformat s0 j recs Hb) as (Hf & _ & Hj & _). split; [done|done| | |].
  - cbn. rewrite lookup_insert_ne; [done|]. apply not_eq_sym, json_not_staging_name.
  - exists ∅. cbn. rewrite lookup_insert_eq. split; [done|]. split; [by intros n e [=]|]. by intros r ?%elem_of_nil.
  - intros n e. cbn. intros He Hn1 Hn2. rewrite lookup_insert_ne in He by done. by apply Hf.
Qed.

Lemma s0_phase : phase s0.
Proof. destruct (s0_frame isoformat s0 j recs Hb) as (Hf & Hl & Hj & _). by left. Qed.

Lemma prepare_ensures t :
  ensures phase (_prepare_batch_unlocked t isoformat op (journal_organization_id j) (request_digest j) (group_id j) recs
    (prepared_at j)) s0 (λ r c, r = Ok j ∧ prepared s0 j recs 0 c).
Proof.
  destruct (s0_frame isoformat s0 j recs Hb) as (_ & _ & _ & Hs).
  unfold _prepare_batch_unlocked, _batch_staging_path, _batch_journal_path.
  rewrite (batch_id_ok isoformat s0 j recs Hb). cbn [negb]. apply ensures_lift_ok, ensures_reads. rewrite Hs.
  change (present None) with false. cbv iota.
  apply ensures_change_seq; [apply s0_phase|eapply staging_phase, staging_start|]. cbv zeta.
  apply ensures_on_error. eapply ensures_weaken with (Q := λ r c, r = Ok j ∧ prepared s0 j recs 0 c); [|done|by intros r c [-> Hc] _].
  eapply ensures_seq with (P := λ _, staging_with recs); [apply write_all_ensures, staging_start|]. intros _ c Hc HC.
  assert (Hj : Journal op (journal_organization_id j) (request_digest j) (group_id j) (decision_id <$> recs)
                 ((λ r, (decision_id r, _decision_digest isoformat r)) <$> recs) (prepared_at j) = j).
  { pose proof (b_ids _ _ _ _ Hb) as H1. pose proof (b_digests _ _ _ _ Hb) as H2. destruct j. cbn in *. by rewrite H1, H2. }
  rewrite Hj, (b_valid _ _ _ _ Hb). cbn [negb]. apply ensures_lift_ok.
  eapply ensures_seq with (P := λ _, prepared s0 j recs 0); [by apply write_journal_ensures|]. intros _ c' Hc' HC'.
  by apply ensures_ret.
Qed.
End preparing.

(** ** What [record_many] makes *)

Lemma fold_outcome_inv {A B} (f : A → B → outcome A) (I : list B → A → Prop) l a b :
  fold_outcome f a l = Ok b → I [] a →
  (∀ pre x a a', x ∈ l → I pre a → f a x = Ok a' → I (pre ++ [x]) a') → I l b.
Proof.
  intros Hf H0 Hstep. cut (∀ pre a, fold_outcome f a l = Ok b → I pre a → I (pre ++ l) b); [intros H; by apply (H [] a)|].
  clear H0 Hf a. induction l as [|x l IH]; intros pre a Hf Ha; cbn in Hf; [injection Hf as <-; by rewrite app_nil_r|].
  apply bind_ok in Hf as (a' & Hx & Hf). replace (pre ++ x :: l) with ((pre ++ [x]) ++ l) by by rewrite <- app_assoc.
  eapply IH; [|done|].
  - intros pre' y b0 b1 Hy. apply Hstep. by right.
  - eapply Hstep; [by left|done|done].
Qed.

Lemma new_batch_id_free id_factory s reserved tries calls i n :
  new_batch_id id_factory s reserved tries calls = Ok (i, n) → free_id s i = true ∧ i ∉ reserved.
Proof.
  revert calls. induction tries as [|tries IH]; intros calls H; [done|]. cbn in H.
  destruct (free_id s (id_factory calls)) eqn:Ef; cbn [andb] in H; [|by eapply IH].
  destruct (mem (id_factory calls) reserved) eqn:Em; cbn [negb] in H; [by eapply IH|].
  injection H as <- <-. split; [done|]. by rewrite <- mem_true, Em.
Qed.

(** A record that decides an item of the batch. *)
Record decides (q : decision_request) (now : datetime) (organization operation : string) (item : batch_item)
    (r : FindingDecisionRecord) : Prop := Decides {
  de_project : project_id r = item.1.1;
  de_finding : finding_id r = item.1.2;
  de_rule : rule_id r = item.2;
  de_status : status r = new_status q;
  de_created : created_at r = now;
  de_organization : organization_id r = organization;
  de_operation : batch_operation_id r = Some operation;
}.

Section making.
Context (now : datetime) (isoformat : datetime → string) (id_factory : nat → string)
  (redact : string → string) (q : decision_request) (organization operation digest group : string)
  (items : list batch_item) (s0 : store).

Lemma batch_records_made safe recs :
  batch_records now isoformat id_factory q safe organization operation items s0 = Ok recs →
  Forall2 (decides q now organization operation) items recs ∧ NoDup (decision_id <$> recs)
  ∧ ∀ r, r ∈ recs → record_valid r = true ∧ exists_ (directory s0 !! name_of r) = false.
Proof.
  unfold batch_records. intros (by_project & _ & (made & Hm & [= <-])%bind_ok)%bind_ok.
  refine (fold_outcome_inv _ (λ pre made, Forall2 (decides q now organization operation) pre made.1
    ∧ NoDup (decision_id <$> made.1)
    ∧ ∀ r, r ∈ made.1 → record_valid r = true ∧ exists_ (directory s0 !! name_of r) = false) _ _ _ Hm _ _).
  { split; [constructor|]. split; [constructor|]. by intros r ?%elem_of_nil. }
  intros pre [[project finding] rule] [done calls] made' _ (H1 & H2 & H3) Hr. cbn [fst] in *. unfold batch_record in Hr.
  apply bind_ok in Hr as ([i n] & Hi & Hr). apply new_batch_id_free in Hi as [Hf Hi]. cbn [fst snd] in Hr. cbv zeta in Hr.
  inv_ok Hr. to_prop. cbn [fst]. split.
  - apply Forall2_app; [done|]. by repeat constructor.
  - rewrite fmap_app. split.
    + apply NoDup_app. split; [done|]. split; [|apply NoDup_singleton]. intros x Hx Hx'. by apply list_elem_of_singleton in Hx' as ->.
    + intros r Hr. apply elem_of_app in Hr as [Hr|Hr]; [by apply H3|]. apply list_elem_of_singleton in Hr as ->. split; [done|].
      unfold free_id in Hf. by to_prop.
Qed.
(** The journal [record_many] prepares. *)
Definition its_journal (recs : list FindingDecisionRecord) : RemediationBatchJournal :=
  Journal operation organization digest group (decision_id <$> recs)
    ((λ r, (decision_id r, _decision_digest isoformat r)) <$> recs) now.

Lemma digest_hex s : _BATCH_ID (sha256_hex s) = true.
Proof.
  destruct (sha256_hex_chars s) as [Hc Hl]. unfold _BATCH_ID, hex_of. rewrite Hl, Nat.eqb_refl. by apply all_chars_Forall.
Qed.

Lemma decides_elem recs r :
  Forall2 (decides q now organization operation) items recs → r ∈ recs →
  organization_id r = organization ∧ batch_operation_id r = Some operation.
Proof.
  intros Hdec [i Hi]%list_elem_of_lookup_1. destruct (Forall2_lookup_r _ _ _ _ _ Hdec Hi) as (item & _ & Hd).
  split; [apply (de_organization _ _ _ _ _ _ Hd)|apply (de_operation _ _ _ _ _ _ Hd)].
Qed.

Lemma record_valid_organization r : record_valid r = true → _ORGANIZATION_ID (organization_id r) = true.
Proof. unfold record_valid. intros H. by to_prop. Qed.

Lemma its_journal_valid safe recs :
  aware now = true → check_batch now redact q operation digest group items = Ok safe →
  batch_records now isoformat id_factory q safe organization operation items s0 = Ok recs →
  journal_valid (its_journal recs) = true.
Proof.
  intros Hnow Hq Hrecs. pose proof (batch_records_made safe recs Hrecs) as (Hdec & Hnd & Hval).
  pose proof (Forall2_length _ _ _ Hdec) as Hlen. unfold check_batch in Hq. inv_ok Hq. to_prop.
  assert (Horg : _ORGANIZATION_ID organization = true).
  { assert (is_Some (recs !! 0)) as [r Hr] by (apply lookup_lt_is_Some; lia). apply list_elem_of_lookup_2 in Hr.
    destruct (Hval r Hr) as [Hv _]. destruct (decides_elem recs r Hdec Hr) as [<- _]. by apply record_valid_organization. }
  unfold journal_valid, its_journal.
  cbn [operation_id journal_organization_id request_digest group_id decision_ids decision_digests prepared_at].
  rewrite length_fmap, <- Hlen, <- !list_fmap_compose. unfold _BATCH_ID in *.
  repeat match goal with |- _ && _ = true => apply andb_true_iff; split end; try assumption; try by apply Nat.leb_le.
  - by apply bool_decide_eq_true.
  - by apply bool_decide_eq_true.
  - apply forallb_forall. intros i (r & -> & Hr)%list_elem_of_In%list_elem_of_fmap. by apply record_valid_id, Hval.
  - apply forallb_forall. intros d (r & -> & Hr)%list_elem_of_In%list_elem_of_fmap. apply digest_hex.
Qed.

(** The batch [record_many] is about to write. *)
Lemma its_batch_ok safe recs vis0 :
  aware now = true → settled s0 → _visible_records_unlocked isoformat s0 = Ok vis0 →
  (Z.of_nat (length (decision_names s0) + length items) <= 100000)%Z →
  check_batch now redact q operation digest group items = Ok safe →
  batch_directory s0 !! json_name operation = None →
  batch_records now isoformat id_factory q safe organization operation items s0 = Ok recs →
  batch_ok isoformat s0 (its_journal recs) recs.
Proof.
  intros Hnow Hs [Hr _]%visible_spec Hlim Hq Hnone Hrecs.
  pose proof (batch_records_made safe recs Hrecs) as (Hdec & Hnd & Hval). split; try done.
  - by eapply its_journal_valid.
  - intros r Hin. destruct (decides_elem recs r Hdec Hin). split; [by apply Hval|done].
  - intros r Hin. destruct (Hval r Hin) as [_ Hfree]. destruct (directory s0 !! name_of r) as [e|] eqn:Ee; [|done].
    destruct (readable_decisions _ _ Hr _ _ Ee) as (r' & -> & _); [apply json_name_ends|done].
  - by rewrite <- (Forall2_length _ _ _ Hdec).
Qed.

(** [record_many] over a store with nothing pending: an error and no effect,
    the answer of a committed batch and no effect, or a new batch. *)
Lemma record_many_cases token vis0 :
  aware now = true → settled s0 → _visible_records_unlocked isoformat s0 = Ok vis0 →
  (Z.of_nat (length (decision_names s0) + length items) <= 100000)%Z →
  let run := record_many token now isoformat id_factory redact q organization operation digest group items in
  (∃ e, run s0 = ([], Err e))
  ∨ (∃ rs, _replay_batch_unlocked isoformat operation organization digest s0 = Ok (Some rs) ∧ run s0 = ([], Ok (rs, true)))
  ∨ (∃ recs, batch_ok isoformat s0 (its_journal recs) recs
       ∧ (∃ safe, check_batch now redact q operation digest group items = Ok safe
            ∧ batch_records now isoformat id_factory q safe organization operation items s0 = Ok recs)
       ∧ ensures (phase s0 (its_journal recs) recs) run s0
           (λ r c, r = Ok (recs, false) ∧ clean s0 (its_journal recs) recs c)).
Proof.
  intros Hnow Hs Hvis Hlim run. unfold run, record_many.
  destruct (check_batch now redact q operation digest group items) as [safe|e] eqn:Eq; [rewrite lift_bind|left; by exists e].
  rewrite reads_bind. destruct (_replay_batch_unlocked isoformat operation organization digest s0) as [[rs|]|e] eqn:Er;
    [rewrite lift_bind|rewrite lift_bind|left; by exists e].
  { right. left. by exists rs. }
  assert (Hop : _BATCH_ID operation = true ∧ batch_directory s0 !! json_name operation = None).
  { unfold _replay_batch_unlocked, _batch_receipt_path in Er. destruct (_BATCH_ID operation) eqn:Eo; [|done].
    destruct (_BATCH_ID digest); [|done]. cbn [negb orb mbind outcome_bind] in Er.
    destruct (batch_directory s0 !! json_name operation); [|done]. cbn [present] in Er. inv_ok Er. }
  destruct Hop as [Hop Hnone]. unfold _batch_journal_path. rewrite Hop. cbn [negb]. rewrite lift_bind, reads_bind.
  assert (Hj : batch_journal_directory s0 !! json_name operation = None).
  { destruct (batch_journal_directory s0 !! json_name operation) as [e|] eqn:E; [|done]. by destruct (idle_not_json _ e operation (settled_journals _ Hs _ _ E)). }
  rewrite Hj. change (present None) with false. cbv iota. rewrite reads_bind.
  destruct (batch_records now isoformat id_factory q safe organization operation items s0) as [recs|e] eqn:Erec; [|left; by exists e].
  rewrite lift_bind. right. right. exists recs.
  assert (Hb : batch_ok isoformat s0 (its_journal recs) recs) by by eapply its_batch_ok.
  split; [done|]. split; [by exists safe|].
  apply ensures_lift_ok, ensures_reads. rewrite Er. apply ensures_lift_ok, ensures_lift_ok, ensures_reads. rewrite Hj.
  change (present None) with false. cbv iota. apply ensures_reads. rewrite Erec. apply ensures_lift_ok.
  eapply ensures_seq with (P := λ _, clean s0 (its_journal recs) recs).
  - apply ensures_catch. eapply ensures_weaken with (Q := λ r c, ∃ a, r = Ok a ∧ clean s0 (its_journal recs) recs c).
    + apply ensures_bind. eapply ensures_weaken; [apply (prepare_ensures isoformat s0 (its_journal recs) recs Hb token)|done|].
      intros r c [-> Hc] _. by apply (recover_operation_prepared isoformat s0 (its_journal recs) recs Hb token now Hnow 0 c Hc), Nat.le_0_l.
    + done.
    + intros r c (a & -> & Hc) _. by exists a.
  - intros _ c Hc HC. by apply ensures_ret.
Qed.
End making.

Lemma committed_not_torn iso s0 j recs c : batch_ok iso s0 j recs → is_committed s0 j recs c → ¬ torn j c.
Proof.
  intros Hb Hc Ht. pose proof (torn_unreadable iso j c Ht) as H.
  destruct (readable_visible iso c (readable_after iso s0 j recs Hb c Hc)) as [vis Hv]. by rewrite Hv in H.
Qed.

(** ** A store with nothing pending *)

(** Recovery has nothing to do there. *)
Lemma recover_settled t now iso s :
  settled s → readable iso s → ∃ n, recover_pending_batches t now iso s = ([], Ok n).
Proof.
  intros Hs Hr. pose proof (settled_journals _ Hs) as Hidle.
  assert (Hac : accounted iso s).
  { split; [apply (readable_receipts _ _ Hr)|apply (readable_decisions _ _ Hr)|apply (settled_decisions _ Hs)]. }
  destruct (receipts_load s (ac_receipts _ _ Hac)) as [rs Hrs].
  assert (Hnames : each (recover_name t now iso) (names (batch_journal_directory s)) s
                   = ([], Ok ((λ _, false) <$> names (batch_journal_directory s)))).
  { apply each_still. intros n [e He]%names_elem. destruct (Hidle n e He) as ((f & ->) & Hj & Hst).
    unfold recover_name. rewrite reads_bind, Hst, He. destruct f; [done| |done]. unfold has_json_suffix. by rewrite Hj. }
  assert (Hstaged : ∀ js, each (remove_orphan_staging js) (names (batch_journal_directory s)) s
                   = ([], Ok ((λ _, tt) <$> names (batch_journal_directory s)))).
  { intros js. apply each_still. intros n [e He]%names_elem. destruct (Hidle n e He) as (_ & _ & Hst).
    unfold remove_orphan_staging. by rewrite Hst. }
  unfold recover_pending_batches. rewrite reads_bind. unfold mbind at 1, prog_bind at 1. rewrite Hnames.
  unfold final at 1. cbn [last default]. unfold mbind at 1, prog_bind at 1.
  unfold _cleanup_orphan_batches_unlocked. rewrite reads_bind, Hrs, lift_bind, !reads_bind.
  unfold mbind at 1, prog_bind at 1. rewrite (remove_orphans_still iso s rs (journal_ids s) Hac Hrs).
  unfold final at 1. cbn [last default]. rewrite reads_bind. unfold mbind at 1, prog_bind at 1. rewrite Hstaged. by eexists.
Qed.

Lemma resting_settled iso s0 j recs c : batch_ok iso s0 j recs → resting s0 j recs c → settled c.
Proof.
  intros Hb (Hc & Hj & Hs).
  assert (Hac : accounted iso c).
  { destruct Hc as [Hc|Hc]; [by apply (staged_accounted iso s0 j recs)|by apply (committed_accounted iso s0 j recs)]. }
  assert (Hf : frame j c) by (destruct Hc as [[]|[]]; done). split; [|apply (ac_batches _ _ Hac)].
  intros n e He. apply Hf; [done| |]; intros ->; congruence.
Qed.

(** ** Across crashes *)

Section atomic.
Context (isoformat : datetime → string).
Abbreviation visible := (_visible_records_unlocked isoformat).

(** The stores a stop may leave: at any effect of the run, and at any effect
    of a recovery started from such a store that can still be read. *)
Inductive after_crashes {A} (run : prog store A) (s0 : store) : store → Prop :=
| crashed_in_run c : c ∈ s0 :: (run s0).1 → after_crashes run s0 c
| crashed_in_recovery t now c c' :
    after_crashes run s0 c → is_ok (visible c) = true → aware now = true →
    c' ∈ c :: (recover_pending_batches t now isoformat c).1 → after_crashes run s0 c'.

(** A temporary file of the batch's receipt is there. *)
Definition half_written (operation : string) (c : store) : Prop :=
  ∃ t, is_Some (batch_directory c !! temporary_name (json_name operation) t).

(** What holds of a store a stop may leave: a reader sees the old listing or
    the new one, unless the receipt is half written; and recovery ends without
    an error, with nothing pending, and keeps a listing that was new. *)
Definition all_or_nothing (operation : string) (vis0 vis1 : list FindingDecisionRecord) (c : store) : Prop :=
  (visible c = Ok vis0 ∨ visible c = Ok vis1 ∨ half_written operation c ∧ is_ok (visible c) = false)
  ∧ ∀ t now, aware now = true → is_ok (visible c) = true →
      let run := recover_pending_batches t now isoformat c in
      is_ok run.2 = true ∧ settled (final c run.1)
      ∧ (visible (final c run.1) = Ok vis0 ∨ visible (final c run.1) = Ok vis1)
      ∧ (visible c = Ok vis1 → visible (final c run.1) = Ok vis1).

(** How a call on [s0] that makes [recs] ends: with those records and the new
    listing, or else with nothing made and nothing changed. *)
Definition ends_with (s0 : store) (recs vis1 : list FindingDecisionRecord)
    (ended : list store * outcome (list FindingDecisionRecord * bool)) : Prop :=
  match ended.2 with
  | Ok (rs, false) => rs = recs ∧ visible (final s0 ended.1) = Ok vis1
  | _ => recs = [] ∧ final s0 ended.1 = s0
  end.

Lemma run_phases {A} (run : prog store A) s0 j recs c Q :
  batch_ok isoformat s0 j recs → ensures (phase s0 j recs) run s0 Q → after_crashes run s0 c → phase s0 j recs c.
Proof.
  intros Hb [Hrun _]. induction 1 as [c Hc|t now c c' _ IH Hok Hnow Hc']; [by apply Hrun|].
  assert (Ht : ¬ torn j c) by (intros Ht; by rewrite (torn_unreadable isoformat j c Ht) in Hok).
  destruct (recover_phase isoformat s0 j recs Hb t now c Hnow IH Ht) as [H _]. by apply H.
Qed.

Lemma batch_all_or_nothing s0 j recs vis0 vis1 c :
  batch_ok isoformat s0 j recs → visible s0 = Ok vis0 →
  (∀ c, phase s0 j recs c → (visible c = Ok vis0 ∧ ¬ is_committed s0 j recs c) ∨ visible c = Ok vis1 ∧ is_committed s0 j recs c
                     ∨ torn j c ∧ is_ok (visible c) = false) →
  phase s0 j recs c → all_or_nothing (operation_id j) vis0 vis1 c.
Proof.
  intros Hb H0 Hphases Hc. split.
  { destruct (Hphases c Hc) as [[H _]|[[H _]|[Ht H]]]; [by left|by right; left|by right; right]. }
  intros t now Hnow Hok run.
  assert (Ht : ¬ torn j c) by (intros Ht; by rewrite (torn_unreadable isoformat j c Ht) in Hok).
  destruct (recover_phase isoformat s0 j recs Hb t now c Hnow Hc Ht) as [Hall (n & Hn & Hrest & Hcom)].
  fold run in Hall, Hn, Hrest, Hcom. rewrite Hn. split; [done|]. split; [by eapply resting_settled|].
  assert (Hfin : phase s0 j recs (final c run.1)) by apply Hall, final_elem.
  pose proof Hrest as [Hr _].
  assert (Hfok : is_ok (visible (final c run.1)) = true).
  { destruct Hr as [Hr|Hr].
    - by rewrite (visible_same isoformat _ s0 (st_dir _ _ _ Hr) (st_batch _ _ _ Hr)), H0.
    - destruct (readable_visible isoformat _ (readable_after isoformat s0 j recs Hb _ Hr)) as [vis ->]. done. }
  split.
  - destruct (Hphases _ Hfin) as [[H _]|[[H _]|[_ H]]]; [by left|by right|by rewrite H in Hfok].
  - intros Hv1. destruct (Hphases c Hc) as [[Hv0 _]|[[_ Hyes]|[_ H]]]; [| |by rewrite H in Hok].
    + assert (vis1 = vis0) as -> by congruence. by destruct (Hphases _ Hfin) as [[H _]|[[H _]|[_ H]]]; [| |by rewrite H in Hfok].
    + assert (Hns : ¬ staged s0 j c).
      { intros Hst. destruct (committed_receipt isoformat s0 j recs Hb c Hyes) as (rc & [Hrc _] & _).
        rewrite (st_batch _ _ _ Hst), (b_receipt _ _ _ _ Hb) in Hrc. done. }
      destruct (Hphases _ Hfin) as [[_ H]|[[H _]|[_ H]]]; [by destruct (H (Hcom Hns))|done|by rewrite H in Hfok].
Qed.

(** With nothing pending and nothing to write, nothing changes. *)
Lemma still_all_or_nothing operation s0 vis0 :
  settled s0 → visible s0 = Ok vis0 → all_or_nothing operation vis0 vis0 s0.
Proof.
  intros Hs Hv. split; [by left|]. intros t now _ _ run. pose proof Hv as [Hr _]%visible_spec.
  destruct (recover_settled t now isoformat s0 Hs Hr) as [n Hn]. subst run. rewrite Hn. cbn. auto.
Qed.

Lemma still_after {A} (run : prog store A) s0 r vis0 c :
  settled s0 → visible s0 = Ok vis0 → run s0 = ([], r) → after_crashes run s0 c → c = s0.
Proof.
  intros Hs Hv Hrun. pose proof Hv as [Hr _]%visible_spec.
  induction 1 as [c Hc|t now c c' _ -> _ _ Hc'].
  - rewrite Hrun in Hc. by apply list_elem_of_singleton in Hc.
  - destruct (recover_settled t now isoformat s0 Hs Hr) as [n Hn]. rewrite Hn in Hc'. by apply list_elem_of_singleton in Hc'.
Qed.


(** A batch is recorded once.  When [record_many] has answered new records,
    every later call with the same operation, whatever else it asks for, leaves
    the store as it is: it answers those records, marked as replayed, when the
    organization and the request's digest are the same, and raises
    [idempotency_conflict] otherwise. *)
Theorem batch_replayed token now id_factory redact q organization operation digest group items s0 vis0 rs
    token' now' id_factory' q' organization' digest' group' items' safe' :
  aware now = true → settled s0 → visible s0 = Ok vis0 →
  (Z.of_nat (length (decision_names s0) + length items) <= 100000)%Z →
  let run := record_many token now isoformat id_factory redact q organization operation digest group items in
  (run s0).2 = Ok (rs, false) →
  check_batch now' redact q' operation digest' group' items' = Ok safe' →
  record_many token' now' isoformat id_factory' redact q' organization' operation digest' group' items' (final s0 (run s0).1)
  = ([], if String.eqb organization organization' && String.eqb digest' digest then Ok (rs, true)
         else Err "idempotency_conflict").
Proof.
  intros Hnow Hs Hvis Hlim run Hrs Hq.
  destruct (record_many_cases now isoformat id_factory redact q organization operation digest group items s0 token vis0
    Hnow Hs Hvis Hlim) as [[e Hrun]|[(rs' & _ & Hrun)|(recs & Hb & _ & [_ [Hres [Hcom _]]])]].
  1,2: unfold run in Hrs; rewrite Hrun in Hrs; discriminate Hrs.
  fold run in Hres, Hcom. rewrite Hrs in Hres. injection Hres as <-.
  assert (Hdig : _BATCH_ID digest' = true) by (unfold check_batch in Hq; inv_ok Hq; by to_prop).
  unfold record_many. rewrite Hq, lift_bind, reads_bind.
  pose proof (replay_committed isoformat s0 _ rs Hb _ organization' digest' Hcom Hdig) as Hreplay.
  cbn [its_journal operation_id journal_organization_id request_digest] in Hreplay. rewrite Hreplay.
  by destruct (String.eqb organization organization' && String.eqb digest' digest).
Qed.
End atomic.

(** ** A concrete batch *)

Lemma default_elem {A} (d : A) (l : list A) n : n < length l → default d (l !! n) ∈ l.
Proof. intros [x Hx]%lookup_lt_is_Some. rewrite Hx. by eapply list_elem_of_lookup_2. Qed.

Module Sample.
Definition iso (d : datetime) : string := str_of_Z (wall d).
Definition hex (n : nat) (c : ascii) : string := text (repeat c n).
Definition factory (k : nat) : string := hex 32 (if (k =? 0)%nat then "a" else "b")%char.
Definition noon : datetime := DT 1000000 (Some 0%Z).
Definition request : decision_request := Request in_review "because of" None "u1" "user" "admin" None None None None.
Definition project := hex 32 "1"%char.
Definition operation := hex 64 "9"%char.
Definition items : list batch_item := [(project, hex 64 "f"%char, "rule"); (project, hex 64 "e"%char, "other")].
Definition nothing : store := Store ∅ ∅ ∅ [].
Definition run : store → list store * outcome (list FindingDecisionRecord * bool) :=
  record_many "t1" noon iso factory (λ x, x) request "local-admin" operation operation operation items.

Lemma nothing_settled : settled nothing.
Proof. split; [done|]. by intros r o [H _]. Qed.

Definition new_records (ended : list store * outcome (list FindingDecisionRecord * bool)) : list FindingDecisionRecord :=
  match ended.2 with Ok (rs, false) => rs | _ => [] end.
End Sample.
Import Sample.


Lemma batch_replayed_witness :
  record_many "t2" noon iso factory (λ x, x) request "local-admin" operation operation operation items
    (final nothing (run nothing).1)
  = ([], if String.eqb "local-admin" "local-admin" && String.eqb operation operation
         then Ok (new_records (run nothing), true) else Err "idempotency_conflict").
Proof.
  refine (batch_replayed iso "t1" noon factory (λ x, x) request "local-admin" operation operation operation items nothing []
    (new_records (run nothing)) "t2" noon factory request "local-admin" operation operation
    items (Safe "because of" None None []) _ _ _ _ _ _).
  - done.
  - apply nothing_settled.
  - by vm_compute.
  - by vm_compute.
  - by vm_compute.
  - by vm_compute.
Defined.

(** ** Where a stop does harm *)

(** The states a batch of one decision passes through. *)
Definition passed : list store :=
  (record_many "t1" noon iso factory (λ x, x) request "local-admin" operation operation operation (take 1 items) nothing).1.

(** A process stopped while it writes the receipt leaves a store that can
    neither be read nor recovered: the seventh of the states passed through, in
    which the journal and the decision are whole.  Recovery itself writes
    the receipt and raises all the same, so the file stays. *)
Definition half_written_state : store := default nothing (passed !! 6).
Definition half_written_recovery := recover_pending_batches "t2" noon iso half_written_state.
#[local] Opaque passed half_written_state half_written_recovery.

Lemma half_written_receipt_blocks :
  half_written_state ∈ passed
  ∧ half_written operation half_written_state
  ∧ half_written_recovery.2 = Err "batch_state_invalid"
  ∧ half_written operation (final half_written_state half_written_recovery.1)
  ∧ is_ok (_visible_records_unlocked iso (final half_written_state half_written_recovery.1)) = false.
Proof.
  assert (H : (6 <? length passed)%nat && present (batch_directory half_written_state !! temporary_name (json_name operation) "t1")
    && bool_decide (half_written_recovery.2 = Err "batch_state_invalid")
    && present (batch_directory (final half_written_state half_written_recovery.1) !! temporary_name (json_name operation) "t1")
    && negb (is_ok (_visible_records_unlocked iso (final half_written_state half_written_recovery.1))) = true) by by vm_compute.
  apply andb_prop in H as [H H5]. apply andb_prop in H as [H H4]. apply andb_prop in H as [H H3]. apply andb_prop in H as [H1 H2].
  apply Nat.ltb_lt in H1. apply bool_decide_eq_true in H2, H3, H4. apply negb_true_iff in H5.
  refine (conj (default_elem _ _ _ H1) (conj (ex_intro _ "t1" H2) (conj H3 (conj (ex_intro _ "t1" H4) H5)))).
Qed.

(** A process stopped while it deletes the project, after the first decision:
    the receipt still names it, and the store can neither be read nor
    recovered, nor the deletion started again. *)
Definition recorded_state : store := default nothing (last passed).
Definition deletion := delete_project "t3" iso "local-admin" project recorded_state.
Definition half_deleted_state : store := default nothing (deletion.1 !! 0).
Definition half_deleted_recovery := recover_pending_batches "t2" noon iso half_deleted_state.
#[local] Opaque recorded_state deletion half_deleted_state half_deleted_recovery.

Lemma half_deleted_project_blocks :
  half_deleted_state ∈ deletion.1
  ∧ is_ok (_visible_records_unlocked iso recorded_state) = true
  ∧ _visible_records_unlocked iso half_deleted_state = Err "stored_decision_invalid"
  ∧ (delete_project "t3" iso "local-admin" project half_deleted_state).2 = Err "stored_decision_invalid"
  ∧ _visible_records_unlocked iso (final half_deleted_state half_deleted_recovery.1) = Err "stored_decision_invalid".
Proof.
  assert (H : (0 <? length deletion.1)%nat && is_ok (_visible_records_unlocked iso recorded_state)
    && bool_decide (_visible_records_unlocked iso half_deleted_state = Err "stored_decision_invalid")
    && bool_decide ((delete_project "t3" iso "local-admin" project half_deleted_state).2 = Err "stored_decision_invalid")
    && bool_decide (_visible_records_unlocked iso (final half_deleted_state half_deleted_recovery.1) = Err "stored_decision_invalid")
    = true) by by vm_compute.
  apply andb_prop in H as [H H5]. apply andb_prop in H as [H H4]. apply andb_prop in H as [H H3]. apply andb_prop in H as [H1 H2].
  apply Nat.ltb_lt in H1. apply bool_decide_eq_true in H3, H4, H5.
  refine (conj (default_elem _ _ _ H1) (conj H2 (conj H3 (conj H4 H5)))).
Qed.

(** A process stopped while it writes the batch's journal leaves a file that
    no recovery removes: recovery ends without an error and readers are not
    harmed, but the store says forever that a batch is pending. *)
Definition half_journal_state : store := default nothing (passed !! 3).
Definition half_journal_recovery := recover_pending_batches "t2" noon iso half_journal_state.
#[local] Opaque half_journal_state half_journal_recovery.

Lemma half_journal_pending :
  half_journal_state ∈ passed
  ∧ _visible_records_unlocked iso half_journal_state = Ok []
  ∧ half_journal_recovery.2 = Ok 0
  ∧ has_pending_batches (final half_journal_state half_journal_recovery.1) = true.
Proof.
  assert (H : (3 <? length passed)%nat && bool_decide (_visible_records_unlocked iso half_journal_state = Ok [])
    && bool_decide (half_journal_recovery.2 = Ok 0)
    && has_pending_batches (final half_journal_state half_journal_recovery.1) = true) by by vm_compute.
  apply andb_prop in H as [H H4]. apply andb_prop in H as [H H3]. apply andb_prop in H as [H1 H2].
  apply Nat.ltb_lt in H1. apply bool_decide_eq_true in H2, H3.
  refine (conj (default_elem _ _ _ H1) (conj H2 (conj H3 H4))).
Qed.
