(* ===== verification/FindingHistory.v ===== *)
(** * FindingHistory: recording keeps every finding's history

    A decision recorded alone or in a batch is the next link of its finding's
    history: every project that could be listed can still be, and each
    history grows by the records of that finding and nothing else. *)

From S2P Require Import Prelude PyStr Grouping Sha256 PyValue CrashProg Findings FindingStore FindingChains FindingVisible FindingBatch FindingRecovery FindingAtomic.

(** ** The next link *)

(** The record a history continues with. *)
Record continues (h : list FindingDecisionRecord) (r : FindingDecisionRecord) : Prop := Continues {
  cn_previous : previous_decision_id r = decision_id <$> last h;
  cn_fresh : decision_id r ∉ decision_id <$> h;
  cn_rule : ∀ x, x ∈ h → rule_id x = rule_id r;
}.

Lemma history_continues h r : history_ok h → continues h r → history_ok (h ++ [r]).
Proof.
  intros [Hl Hn Hr] [Hp Hf Hx]. split.
  - apply linked_app. split; [done|]. rewrite Hp. by destruct (last h).
  - rewrite fmap_app. apply NoDup_app. split; [done|]. split; [|apply NoDup_singleton].
    intros i Hi Hi'. by apply list_elem_of_singleton in Hi' as ->.
  - intros x y Hxin Hyin. rewrite elem_of_app, list_elem_of_singleton in Hxin, Hyin.
    destruct Hxin as [Hxin| ->], Hyin as [Hyin| ->]; [by apply Hr|by apply Hx|symmetry; by apply Hx|done].
Qed.

Lemma at_most_one {A} (l : list A) (f : A → string) k : NoDup (f <$> l) → of_key f k l = [] ∨ ∃ x, of_key f k l = [x].
Proof.
  intros Hn. induction l as [|x l IH]; [by left|]. cbn in Hn. apply NoDup_cons in Hn as [Hx Hn].
  unfold of_key. rewrite filter_cons. destruct (decide (f x = k)) as [<-|]; [|by apply IH]. right. exists x. f_equal.
  apply (of_key_none f (f x) l Hx).
Qed.

(** Records of different findings, each the next link of its history. *)
Lemma histories_continue records records' recs l :
  validated_decision_chains records = Ok l → records' ≡ₚ records ++ recs → NoDup (finding_id <$> recs) →
  (∀ r, r ∈ recs → continues (history_of (finding_id r) l) r) →
  ∃ l', validated_decision_chains records' = Ok l' ∧ ∀ f, history_of f l' = history_of f l ++ history_of f recs.
Proof.
  intros Hl Hp Hn Hc.
  assert (Hh : ∀ f, history_of f l ++ history_of f recs ≡ₚ of_key finding_id f records'
                    ∧ history_ok (history_of f l ++ history_of f recs)).
  { intros f. destruct (chains_of_key records l f Hl) as [Hperm Hok]. split; [by rewrite Hp, of_key_app, <- Hperm|].
    destruct (at_most_one recs finding_id f Hn) as [E|[r E]]; unfold of_key in E; unfold history_of; rewrite E; [by rewrite app_nil_r|].
    assert (Hr : r ∈ filter (λ x, finding_id x = f) recs) by (rewrite E; left). apply list_elem_of_filter in Hr as [<- Hr].
    apply history_continues; [done|by apply Hc]. }
  exists (concat ((λ f, history_of f l ++ history_of f recs) <$> sorted_set (finding_id <$> records'))).
  assert (Hl' := chains_accepted records' _ Hh). split; [done|]. intros f.
  destruct (chains_of_key _ _ f Hl') as [Hp' Hok']. destruct (Hh f) as [Hpf Hokf]. apply history_unique; [|done|done].
  by rewrite Hpf.
Qed.

(** ** The listings of the projects *)

Section listing.
Context (isoformat : datetime → string).
Abbreviation visible := (_visible_records_unlocked isoformat).
Abbreviation listed := (_list_for_project_unlocked isoformat).

Definition owned (organization project : string) (l : list FindingDecisionRecord) : list FindingDecisionRecord :=
  filter (λ r, organization_id r = organization ∧ project_id r = project) l.

(** Each of the records continues its history in its project's listing. *)
Definition continue_all (s : store) (recs : list FindingDecisionRecord) : Prop :=
  NoDup ((λ r, (organization_id r, project_id r, finding_id r)) <$> recs)
  ∧ ∀ r, r ∈ recs → ∃ l, listed s (organization_id r) (project_id r) = Ok l ∧ continues (history_of (finding_id r) l) r.

(** Every project that was listed still is, with the records added. *)
Definition extended (s s' : store) (recs : list FindingDecisionRecord) : Prop :=
  ∀ organization project l, listed s organization project = Ok l →
    ∃ l', listed s' organization project = Ok l'
      ∧ ∀ f, history_of f l' = history_of f l ++ history_of f (owned organization project recs).

Lemma owned_nodup organization project recs :
  NoDup ((λ r, (organization_id r, project_id r, finding_id r)) <$> recs) →
  NoDup (finding_id <$> owned organization project recs).
Proof.
  intros Hn. induction recs as [|r recs IH]; [constructor|]. cbn in Hn. apply NoDup_cons in Hn as [Hr Hn].
  unfold owned. rewrite filter_cons. destruct (decide _) as [[Ho Hp]|]; [|by apply IH]. cbn. apply NoDup_cons.
  split; [|by apply IH]. intros (r' & E & [[Ho' Hp'] Hr']%list_elem_of_filter)%list_elem_of_fmap.
  apply Hr. apply list_elem_of_fmap. exists r'. split; [congruence|done].
Qed.

Lemma listings_extended s s' vis vis' recs :
  visible s = Ok vis → visible s' = Ok vis' → vis' ≡ₚ vis ++ recs → continue_all s recs → extended s s' recs.
Proof.
  intros Hv Hv' Hp [Hn Hc] organization project l Hl. unfold _list_for_project_unlocked in Hl |- *.
  rewrite Hv in Hl. rewrite Hv'. cbn [mbind outcome_bind] in *.
  apply (histories_continue (owned organization project vis) _ (owned organization project recs) l Hl).
  - unfold owned. by rewrite Hp, filter_app.
  - by apply owned_nodup.
  - intros r [[Ho Hpr] Hr]%list_elem_of_filter. destruct (Hc r Hr) as (l0 & Hl0 & Hcon).
    unfold _list_for_project_unlocked in Hl0. rewrite Hv, Ho, Hpr in Hl0. cbn [mbind outcome_bind] in Hl0.
    rewrite Hl in Hl0. by injection Hl0 as <-.
Qed.

Lemma listed_visible s organization project l x :
  listed s organization project = Ok l → x ∈ l → ∃ vis, visible s = Ok vis ∧ x ∈ vis.
Proof.
  unfold _list_for_project_unlocked. intros (vis & Hv & Hl)%bind_ok Hx. exists vis. split; [done|].
  destruct (chains_of_key _ _ (finding_id x) Hl) as [Hp _].
  assert (H : x ∈ of_key finding_id (finding_id x) l) by by apply of_key_elem.
  rewrite Hp in H. by apply of_key_elem in H as [_ [_ H]%list_elem_of_filter].
Qed.

(** A free identifier is not in any listing. *)
Lemma free_not_listed s organization project l i :
  listed s organization project = Ok l → exists_ (directory s !! json_name i) = false → i ∉ decision_id <$> l.
Proof.
  intros Hl Hfree (x & -> & Hx)%list_elem_of_fmap. destruct (listed_visible _ _ _ _ x Hl Hx) as (vis & Hv & Hin).
  apply visible_spec in Hv as [_ Hlist]. apply (listing_elem _ _ Hlist) in Hin as [[Hd _] _].
  unfold name_of in Hd. by rewrite Hd in Hfree.
Qed.
End listing.

(** ** One decision *)

(** The transition a history admits. *)
Definition admits (now : datetime) (h : list FindingDecisionRecord) (rule : string) (st : FindingDecisionStatus) : Prop :=
  length h < MAX_DECISIONS_PER_FINDING
  ∧ ∀ p, last h = Some p → rule_id p = rule ∧ st ∈ ALLOWED_TRANSITIONS (effective_status p now).

Lemma check_history_ok now h rule st u : check_history now h rule st = Ok u → admits now h rule st.
Proof.
  unfold check_history. destruct (MAX_DECISIONS_PER_FINDING <=? length h)%nat eqn:El; [done|]. to_prop.
  intros H. split; [done|]. intros p Hp. rewrite Hp in H. inv_ok H. by to_prop.
Qed.

Section one.
Context (isoformat : datetime → string).
Abbreviation visible := (_visible_records_unlocked isoformat).

(** The same decision files, whatever the other names lead to. *)
Record same_decisions (s s' : store) : Prop := SameDecisions {
  sd_directory : ∀ n, endswith ".json" n = true → directory s' !! n = directory s !! n;
  sd_batches : batch_directory s' = batch_directory s;
}.

Lemma same_decisions_names s s' : same_decisions s s' → decision_names s' = decision_names s.
Proof.
  intros [Hd _]. assert (Hs : ∀ s, StronglySorted str_le (decision_names s)).
  { intros x. eapply sublist_sorted; [apply sublist_filter|apply names_sorted]. }
  assert (Hn : ∀ s, NoDup (decision_names s)).
  { intros x. eapply sublist_NoDup; [apply (names_nodup (directory x))|apply sublist_filter]. }
  apply (StronglySorted_unique str_le); [apply Hs|apply Hs|]. apply NoDup_Permutation; [apply Hn|apply Hn|].
  intros n. rewrite !decision_names_elem. split; intros [Hj He]; (split; [done|]); by rewrite Hd in * || rewrite <- Hd.
Qed.

Lemma same_decisions_visible s s' vis : same_decisions s s' → visible s = Ok vis → visible s' = Ok vis.
Proof.
  intros Hs [Hr Hl]%visible_spec. pose proof Hs as [Hd Hbat].
  assert (Hat : ∀ r, decision_at s' r ↔ decision_at s r).
  { intros r. unfold decision_at. by rewrite Hd by apply json_name_ends. }
  assert (Hof : ∀ o rc, receipt_of s' o rc ↔ receipt_of s o rc) by (intros o rc; unfold receipt_of; by rewrite Hbat).
  apply visible_spec. split.
  - split.
    + rewrite (same_decisions_names s s' Hs). apply (readable_limit _ _ Hr).
    + unfold receipts_ok. rewrite Hbat. apply (readable_receipts _ _ Hr).
    + intros n e He Hj. rewrite Hd in He by done. by apply (readable_decisions _ _ Hr).
    + intros r o rc Hr1%Hat Ho Hrc%Hof. by apply (readable_batches _ _ Hr r o).
    + intros o rc Hrc%Hof i. rewrite (readable_complete _ _ Hr o rc Hrc). by setoid_rewrite Hat.
  - eapply listing_ext; [|exact Hl]. intros r. unfold is_visible. rewrite Hat. by setoid_rewrite Hof.
Qed.

(** A decision of no batch, under a free name. *)
Lemma added_visible s r vis :
  visible s = Ok vis → record_valid r = true → batch_operation_id r = None → directory s !! name_of r = None →
  (Z.of_nat (length (decision_names s)) < 100000)%Z →
  ∃ vis', visible (set_directory (<[name_of r := File (Some r)]>) s) = Ok vis' ∧ vis' ≡ₚ vis ++ [r].
Proof.
  intros [Hr Hl]%visible_spec Hv Ho Hfree Hlim. set (s' := set_directory _ s).
  assert (Hat : ∀ x, decision_at s' x ↔ decision_at s x ∨ x = r).
  { intros x. unfold decision_at, s'. cbn. rewrite lookup_insert_Some. split.
    - intros [[[_ [= ->]]|[_ Hd]] Hx]; [by right|by left].
    - intros [[Hd Hx]| ->]; (split; [|done]); [right|by left]. split; [|done]. intros E. by rewrite <- E, Hfree in Hd. }
  assert (Hof : ∀ o rc, receipt_of s' o rc ↔ receipt_of s o rc) by done.
  assert (Hvis : ∀ x, is_visible s' x ↔ is_visible s x ∨ x = r).
  { intros x. unfold is_visible. rewrite Hat. setoid_rewrite Hof. split.
    - intros [[Hx| ->] Hb]; [by left|by right].
    - intros [[Hx Hb]| ->]; [by split; [left|]|]. split; [by right|]. intros o. by rewrite Ho. }
  assert (Hread : readable isoformat s').
  { split.
    - assert (Hle : length (decision_names s') ≤ length (name_of r :: decision_names s)).
      { apply submseteq_length, NoDup_submseteq.
        - eapply sublist_NoDup; [apply (names_nodup (directory s'))|apply sublist_filter].
        - intros n [Hj [e He]]%decision_names_elem. apply elem_of_cons. unfold s' in He. cbn in He.
          apply lookup_insert_Some in He as [[<- _]|[_ He]]; [by left|]. right. apply decision_names_elem. eauto. }
      cbn in Hle. lia.
    - apply (readable_receipts _ _ Hr).
    - intros n e. unfold s'. cbn. intros [[<- <-]|[_ He]]%lookup_insert_Some Hj; [by exists r|by apply (readable_decisions _ _ Hr)].
    - intros x o rc [Hx| ->]%Hat Hxo Hrc; [by apply (readable_batches _ _ Hr x o)|congruence].
    - intros o rc Hrc i. rewrite (readable_complete _ _ Hr o rc Hrc). setoid_rewrite Hat. split; [naive_solver|].
      intros (x & [Hx| ->] & Hxo & Hi); [by exists x|congruence]. }
  destruct (readable_visible isoformat s' Hread) as [vis' Hvis']. exists vis'. split; [done|].
  apply visible_spec in Hvis' as [_ Hl']. apply NoDup_Permutation.
  - apply (NoDup_fmap_1 name_of), Hl'.
  - apply NoDup_app. split; [apply (NoDup_fmap_1 name_of), Hl|]. split; [|apply NoDup_singleton].
    intros x [[Hx _] _]%(listing_elem _ _ Hl) Hin. apply list_elem_of_singleton in Hin as ->. congruence.
  - intros x. by rewrite elem_of_app, list_elem_of_singleton, (listing_elem _ _ Hl'), (listing_elem _ _ Hl), Hvis.
Qed.

(** The decision a call makes, of the listing it read. *)
Record made_from (now : datetime) (q : decision_request) (organization project finding rule : string)
    (operation : option string) (s : store) (r : FindingDecisionRecord) : Prop := MadeFrom {
  mf_valid : record_valid r = true;
  mf_organization : organization_id r = organization;
  mf_project : project_id r = project;
  mf_finding : finding_id r = finding;
  mf_rule : rule_id r = rule;
  mf_status : status r = new_status q;
  mf_created : created_at r = now;
  mf_operation : batch_operation_id r = operation;
  mf_history : ∃ l, _list_for_project_unlocked isoformat s organization project = Ok l
    ∧ admits now (history_of finding l) rule (new_status q) ∧ continues (history_of finding l) r;
}.

Lemma new_decision_continues now q safe organization project finding rule i h l s operation :
  _list_for_project_unlocked isoformat s organization project = Ok l → h = history_of finding l →
  admits now h rule (new_status q) → exists_ (directory s !! json_name i) = false →
  continues h (new_decision now q safe organization project finding rule i h operation).
Proof.
  intros Hl -> [_ Ha] Hfree. split.
  - done.
  - cbn. intros (x & E & [_ Hx]%list_elem_of_filter)%list_elem_of_fmap.
    apply (free_not_listed isoformat s organization project l i Hl Hfree). apply list_elem_of_fmap. by exists x.
  - intros x Hx. cbn. assert (Hh : history_ok (history_of finding l)).
    { unfold _list_for_project_unlocked in Hl. apply bind_ok in Hl as (vis & _ & Hl). by apply (chains_of_key _ _ finding Hl). }
    destruct (last (history_of finding l)) as [p|] eqn:Ep; [|by apply last_None in Ep; rewrite Ep in Hx; apply elem_of_nil in Hx].
    destruct (Ha p eq_refl) as [<- _]. apply (history_rule _ Hh); [done|]. apply last_Some in Ep as [k ->].
    apply elem_of_app. right. left.
Qed.

Lemma made_continue s q now organization project finding rule r :
  made_from now q organization project finding rule None s r → continue_all isoformat s [r].
Proof.
  intros [_ Ho Hp Hf _ _ _ _ (l & Hl & _ & Hc)]. split; [apply NoDup_singleton|].
  intros x Hx. apply list_elem_of_singleton in Hx as ->. exists l. by rewrite Ho, Hp, Hf.
Qed.

Lemma written_not_json n : endswith ".json" (n ++ ".tmp") = false.
Proof.
  apply not_true_is_false. intros [r Hr]%endswith_chars. rewrite chars_app in Hr. apply (f_equal reverse) in Hr.
  rewrite !reverse_app in Hr. discriminate Hr.
Qed.

Lemma record_runs now id_factory redact q organization project finding rule s vis :
  visible s = Ok vis →
  let run := record now isoformat id_factory redact q organization project finding rule in
  (∃ e, run s = ([], Err e))
  ∨ ∃ r s1 s2 s3, run s = ([s1; s2; s3], Ok r)
      ∧ made_from now q organization project finding rule None s r ∧ directory s !! name_of r = None
      ∧ same_decisions s s1 ∧ same_decisions (set_directory (<[name_of r := File (Some r)]>) s) s2
      ∧ same_decisions (set_directory (<[name_of r := File (Some r)]>) s) s3.
Proof.
  intros Hvis run. unfold run, record.
  destruct (check_request now redact q) as [safe|e]; [rewrite lift_bind|left; by exists e].
  destruct (negb (rule_supported rule)); [left; by eexists|]. destruct (negb (assignee_complete q)); [left; by eexists|].
  rewrite reads_bind. destruct (_list_for_project_unlocked isoformat s organization project) as [l|e] eqn:El;
    [rewrite lift_bind|left; by exists e].
  destruct (MAX_DECISIONS_PER_PROJECT <=? _)%Z; [left; by eexists|]. cbv zeta.
  destruct (check_history now (history_of finding l) rule (new_status q)) as [u|e] eqn:Eh; [rewrite lift_bind|left; by exists e].
  rewrite reads_bind. destruct (_new_id id_factory s) as [i|e] eqn:Ei; [rewrite lift_bind|left; by exists e].
  set (r := new_decision now q safe organization project finding rule i (history_of finding l) None).
  destruct (record_valid r) eqn:Ev; cbn [negb]; [|left; by eexists].
  unfold _path. change i with (decision_id r). rewrite (record_valid_id r Ev). cbn [negb]. rewrite lift_bind.
  right. exists r. do 3 eexists. split; [reflexivity|].
  unfold _new_id in Ei. apply or_raise_ok, first_match_Some in Ei as [_ Hf]. unfold free_id in Hf. to_prop.
  assert (Hfree : directory s !! name_of r = None).
  { destruct (directory s !! name_of r) as [e|] eqn:Ee; [|done]. apply visible_spec in Hvis as [Hr _].
    destruct (readable_decisions _ _ Hr _ _ Ee) as (r' & -> & _); [apply json_name_ends|]. unfold name_of in Ee. cbn in Ee.
    match goal with H : exists_ _ = false |- _ => by rewrite Ee in H end. }
  split; [|split; [done|]].
  { split; try done. exists l. split; [done|]. pose proof (check_history_ok _ _ _ _ _ Eh) as Ha. split; [done|].
    by eapply new_decision_continues. }
  assert (Htmp : ∀ n, endswith ".json" n = true → n ≠ (name_of r ++ ".tmp")%string).
  { intros n Hn ->. by rewrite written_not_json in Hn. }
  assert (Hlast : same_decisions (set_directory (<[name_of r := File (Some r)]>) s)
    (set_directory (λ d, <[name_of r := File (Some r)]> (delete (name_of r ++ ".tmp")%string d))
       (set_directory (<[(name_of r ++ ".tmp")%string := File None]>) s))).
  { split; [|done]. intros n Hn. cbn. destruct (decide (n = name_of r)) as [->|Hne]; [by rewrite !lookup_insert_eq|].
    rewrite !lookup_insert_ne by done. rewrite lookup_delete_ne by (apply not_eq_sym; by apply Htmp).
    by rewrite lookup_insert_ne by (apply not_eq_sym; by apply Htmp). }
  split; [|split; [exact Hlast|destruct Hlast as [H1 H2]; by split]].
  split; [|done]. intros n Hn. cbn. rewrite lookup_insert_ne; [done|]. apply not_eq_sym. by apply Htmp.
Qed.

End one.

(** ** A batch of decisions *)

Section many.
Context (now : datetime) (isoformat : datetime → string) (id_factory : nat → string)
  (redact : string → string) (q : decision_request) (organization operation digest group : string)
  (items : list batch_item) (s0 : store).
Abbreviation listed := (_list_for_project_unlocked isoformat).

(** The lists read, and what they were checked for. *)
Definition lists_ok (bp : dict (list FindingDecisionRecord)) : Prop :=
  ∀ p l, dict_get p bp = Some l → listed s0 organization p = Ok l.
Definition item_ok (bp : dict (list FindingDecisionRecord)) (item : batch_item) : Prop :=
  ∃ l, dict_get item.1.1 bp = Some l ∧ admits now (history_of item.1.2 l) item.2 (new_status q).

Lemma check_item_ok bp item bp' :
  lists_ok bp → check_item now isoformat q organization items s0 bp item = Ok bp' →
  lists_ok bp' ∧ item_ok bp' item ∧ ∀ x, item_ok bp x → item_ok bp' x.
Proof.
  destruct item as [[project finding] rule]. intros Hbp H. unfold check_item in H.
  destruct (negb (rule_supported rule)); [done|]. apply bind_ok in H as (bp1 & Hbp1 & H).
  inv_ok H. assert (Hok : lists_ok bp' ∧ is_Some (dict_get project bp') ∧ ∀ x, item_ok bp x → item_ok bp' x).
  { destruct (dict_get project bp) as [l|] eqn:El; [injection Hbp1 as <-; eauto|].
    apply bind_ok in Hbp1 as (l & Hl & [= <-]). split; [|split].
    - intros p l'. rewrite dict_get_set. destruct (String.eqb_spec project p) as [<-|]; [by intros [= <-]|apply Hbp].
    - rewrite dict_get_set, String.eqb_refl. by eexists.
    - intros y (l' & Hl' & Hy). exists l'. split; [|done]. rewrite dict_get_set.
      destruct (String.eqb_spec project y.1.1) as [E|]; [congruence|done]. }
  destruct Hok as (H1 & [l Hl] & H2). split; [done|]. split; [|done]. exists l. split; [done|].
  rewrite Hl in *. cbn in *. by eapply check_history_ok.
Qed.

Lemma all_items_ok bp :
  fold_outcome (check_item now isoformat q organization items s0) [] items = Ok bp →
  lists_ok bp ∧ ∀ x, x ∈ items → item_ok bp x.
Proof.
  intros H. refine (fold_outcome_inv _ (λ pre bp, lists_ok bp ∧ ∀ x, x ∈ pre → item_ok bp x) _ _ _ H _ _).
  - split; [by intros p l|]. by intros x ?%elem_of_nil.
  - intros pre x bp0 bp1 _ [Hl Hpre] Hx. destruct (check_item_ok _ _ _ Hl Hx) as (H1 & H2 & H3). split; [done|].
    intros y Hy. apply elem_of_app in Hy as [Hy|Hy]; [by apply H3, Hpre|]. by apply list_elem_of_singleton in Hy as ->.
Qed.

(** Each record is made of its own item. *)
Lemma batch_records_from safe recs :
  batch_records now isoformat id_factory q safe organization operation items s0 = Ok recs →
  Forall2 (λ item r, made_from isoformat now q organization item.1.1 item.1.2 item.2 (Some operation) s0 r) items recs.
Proof.
  unfold batch_records. intros (bp & Hbp & (made & Hm & [= <-])%bind_ok)%bind_ok. destruct (all_items_ok bp Hbp) as [Hl Hi].
  refine (fold_outcome_inv _ (λ pre made, Forall2 (λ item r, made_from isoformat now q organization item.1.1 item.1.2 item.2
    (Some operation) s0 r) pre made.1) _ _ _ Hm _ _); [constructor|].
  intros pre [[project finding] rule] [done calls] made' Hin Hpre Hr. cbn [fst] in *. unfold batch_record in Hr.
  apply bind_ok in Hr as ([i n] & Hfresh & Hr). apply new_batch_id_free in Hfresh as [Hf _]. cbn [fst snd] in Hr. cbv zeta in Hr.
  destruct (Hi _ Hin) as (l & Hget & Ha). cbn [fst snd] in *. rewrite Hget in Hr. cbn [default] in Hr. inv_ok Hr. to_prop. cbn [fst].
  apply Forall2_app; [done|]. constructor; [|constructor]. unfold free_id in Hf. to_prop.
  split; try done. exists l. split; [by apply Hl|]. split; [done|].
  eapply new_decision_continues; [by apply Hl|done|done|done].
Qed.

Lemma batch_continues safe recs :
  check_batch now redact q operation digest group items = Ok safe →
  batch_records now isoformat id_factory q safe organization operation items s0 = Ok recs →
  continue_all isoformat s0 recs.
Proof.
  intros Hq Hrecs. pose proof (batch_records_from safe recs Hrecs) as Hfrom. split.
  - assert (Hn : NoDup items.*1).
    { unfold check_batch in Hq. inv_ok Hq. to_prop. apply remove_dups_full.
      match goal with E : length (remove_dups _) = _ |- _ => by rewrite E, length_fmap end. }
    replace ((λ r, (organization_id r, project_id r, finding_id r)) <$> recs) with ((λ x, (organization, x.1, x.2)) <$> items.*1).
    + apply NoDup_fmap_2; [|done]. intros [a b] [a' b'] E. cbn in E. congruence.
    + clear -Hfrom. induction Hfrom as [|x r l k Hx _ IH]; [done|].
      destruct Hx as [_ Ho Hp Hf _ _ _ _ _]. cbn. by rewrite IH, Ho, Hp, Hf.
  - intros r Hr. apply list_elem_of_lookup_1 in Hr as [i Hr]. destruct (Forall2_lookup_r _ _ _ _ _ Hfrom Hr) as (x & _ & Hx).
    destruct Hx as [_ Ho Hp Hf _ _ _ _ (l & Hl & _ & Hc)]. exists l. by rewrite Ho, Hp, Hf.
Qed.

(** [FindingDecisionStore.record_many] appends to the histories.  When a
    call on a store with nothing pending answers new records, there is one for
    each item, in order, a valid decision whose transition was checked against
    the item's own history and which names that history's last decision; and
    every listing of a project still loads, each history longer by the batch's
    records of that finding, at most one, and otherwise unchanged. *)
Theorem record_many_appends token vis0 rs :
  aware now = true → settled s0 → _visible_records_unlocked isoformat s0 = Ok vis0 →
  (Z.of_nat (length (decision_names s0) + length items) <= 100000)%Z →
  let run := record_many token now isoformat id_factory redact q organization operation digest group items in
  (run s0).2 = Ok (rs, false) →
  Forall2 (λ item r, made_from isoformat now q organization item.1.1 item.1.2 item.2 (Some operation) s0 r) items rs
  ∧ extended isoformat s0 (final s0 (run s0).1) rs
  ∧ ∀ project finding, length (history_of finding (owned organization project rs)) <= 1.
Proof.
  intros Hnow Hs Hvis Hlim run Hrs.
  destruct (record_many_cases now isoformat id_factory redact q organization operation digest group items s0 token vis0
    Hnow Hs Hvis Hlim) as [[e Hrun]|[(rs' & _ & Hrun)|(recs & Hb & (safe & Hq & Hrecs) & [Hall [Hres [Hcom _]]])]].
  1,2: unfold run in Hrs; rewrite Hrun in Hrs; discriminate Hrs.
  fold run in Hall, Hres, Hcom. rewrite Hrs in Hres. injection Hres as <-.
  pose proof (batch_continues safe rs Hq Hrecs) as Hcon. split; [by eapply batch_records_from|]. split.
  - destruct (visible_phases isoformat s0 _ rs Hb vis0 Hvis) as (vis1 & Hperm & Hphases).
    destruct (Hphases _ (Hall _ (final_elem _ _))) as [[_ H]|[[H _]|[H _]]]; [done| |].
    + by apply (listings_extended isoformat s0 _ vis0 vis1).
    + by destruct (committed_not_torn isoformat s0 _ rs _ Hb Hcom H).
  - intros project finding. destruct (at_most_one (owned organization project rs) finding_id finding) as [E|[x E]].
    + apply owned_nodup, Hcon.
    + unfold history_of. unfold of_key in E. rewrite E. cbn. lia.
    + unfold history_of. unfold of_key in E. rewrite E. cbn. lia.
Qed.
End many.

(** ** Concrete calls *)

(** The first decision of a store, and a second one that follows it. *)
Definition first_run := record Sample.noon Sample.iso Sample.factory (λ x, x) Sample.request "local-admin" Sample.project
  (Sample.hex 64 "f"%char) "rule".


Lemma record_many_appends_witness :
  Forall2 (λ item r, made_from Sample.iso Sample.noon Sample.request "local-admin" item.1.1 item.1.2 item.2
                       (Some Sample.operation) Sample.nothing r) Sample.items (Sample.new_records (Sample.run Sample.nothing))
  ∧ extended Sample.iso Sample.nothing (final Sample.nothing (Sample.run Sample.nothing).1)
      (Sample.new_records (Sample.run Sample.nothing))
  ∧ ∀ project finding, length (history_of finding (owned "local-admin" project (Sample.new_records (Sample.run Sample.nothing)))) <= 1.
Proof.
  refine (record_many_appends Sample.noon Sample.iso Sample.factory (λ x, x) Sample.request "local-admin" Sample.operation
    Sample.operation Sample.operation Sample.items Sample.nothing "t1" [] (Sample.new_records (Sample.run Sample.nothing)) _ _ _ _ _).
  - done.
  - apply Sample.nothing_settled.
  - by vm_compute.
  - by vm_compute.
  - by vm_compute.
Defined.
