(* ===== verification/FindingPages.v ===== *)
(** * FindingPages: reading a history page by page

    The activity pages of [page_for_finding], newest first: a client that
    follows the cursors reads every decision of the finding, once. *)

From S2P Require Import Prelude PyStr Grouping Sha256 PyValue CrashProg Findings FindingStore FindingChains FindingVisible FindingBatch FindingRecovery FindingAtomic FindingHistory.

Section pages.
Context (isoformat : datetime → string) (s : store) (organization project finding : string) (page_size : Z).
Abbreviation page := (page_for_finding isoformat s organization project finding page_size).

(** The client: pages until one names no cursor. *)
Fixpoint read_pages (fuel : nat) (cursor : option string) : outcome (list FindingDecisionRecord) :=
  match fuel with
  | O => Err "out of fuel"
  | S fuel =>
      answer ← page cursor;
      match answer.2 with
      | None => Ok answer.1.1
      | Some next => rest ← read_pages fuel (Some next); Ok (answer.1.1 ++ rest)
      end
  end.

Lemma after_cursor_at l i r :
  NoDup (decision_id <$> l) → l !! i = Some r → after_cursor (decision_id r) l = Some (S i).
Proof.
  revert i. induction l as [|x l IH]; intros i Hn Hi; [done|]. cbn in Hn. apply NoDup_cons in Hn as [Hx Hn]. cbn.
  destruct i as [|i]; [injection Hi as ->; by rewrite String.eqb_refl|].
  destruct (String.eqb_spec (decision_id x) (decision_id r)) as [E|_].
  - destruct Hx. rewrite E. apply list_elem_of_fmap_2. by eapply list_elem_of_lookup_2.
  - by rewrite (IH i).
Qed.

(** The cursor that stands for a place of the list. *)
Definition cursor_at (newest : list FindingDecisionRecord) (k : nat) : option string :=
  match k with O => None | S i => decision_id <$> newest !! i end.

Section listed.
Context (l : list FindingDecisionRecord) (Hl : list_for_project isoformat s organization project = Ok l).
Abbreviation newest := (reverse (history_of finding l)).

Lemma newest_nodup : NoDup (decision_id <$> newest).
Proof.
  unfold list_for_project, _list_for_project_unlocked in Hl. apply bind_ok in Hl as (vis & _ & Hc).
  destruct (chains_of_key _ _ finding Hc) as [_ [_ Hn _]]. by rewrite fmap_reverse, reverse_Permutation.
Qed.

Lemma newest_hex r : r ∈ newest → _PROJECT_ID (decision_id r) = true.
Proof.
  rewrite elem_of_reverse. intros [_ Hr]%list_elem_of_filter.
  destruct (listed_visible isoformat s organization project l r Hl Hr) as (vis & [_ Hlist]%visible_spec & Hin).
  apply (listing_elem _ _ Hlist) in Hin as [[_ Hv] _]. by apply record_valid_id.
Qed.

Context (Horg : _ORGANIZATION_ID organization = true) (Hproj : _PROJECT_ID project = true)
  (Hfind : _FINDING_ID finding = true) (Hsize : (1 <= page_size <= Z.of_nat FINDING_ACTIVITY_MAX_PAGE_SIZE)%Z).

Lemma page_at k :
  k <= length newest →
  page (cursor_at newest k)
  = Ok (take (Z.to_nat page_size) (drop k newest), length newest,
        if (k + length (take (Z.to_nat page_size) (drop k newest)) <? length newest)%nat
        then decision_id <$> last (take (Z.to_nat page_size) (drop k newest)) else None).
Proof.
  intros Hk. unfold page_for_finding. rewrite Horg, Hproj, Hfind.
  replace ((1 <=? page_size)%Z && (page_size <=? Z.of_nat FINDING_ACTIVITY_MAX_PAGE_SIZE)%Z) with true
    by (symmetry; apply andb_true_iff; split; apply Z.leb_le; lia).
  destruct k as [|i].
  - cbn [cursor_at negb orb]. by rewrite Hl.
  - cbn [cursor_at]. destruct (lookup_lt_is_Some_2 newest i) as [r Hr]; [lia|]. rewrite Hr. cbn [fmap option_fmap option_map negb orb].
    rewrite (newest_hex r) by by eapply list_elem_of_lookup_2. cbn [negb]. rewrite Hl. cbn [mbind outcome_bind]. cbv zeta.
    by rewrite (after_cursor_at newest i r newest_nodup Hr).
Qed.

Lemma read_from fuel k :
  k <= length newest → length newest - k < fuel → read_pages fuel (cursor_at newest k) = Ok (drop k newest).
Proof.
  revert k. induction fuel as [|fuel IH]; intros k Hk Hf; [lia|]. cbn [read_pages]. rewrite page_at by done.
  cbn [mbind outcome_bind fst snd]. set (items := take (Z.to_nat page_size) (drop k newest)).
  assert (Hlen : length items = Nat.min (Z.to_nat page_size) (length newest - k)).
  { unfold items. by rewrite length_take, length_drop. }
  destruct (k + length items <? length newest)%nat eqn:Em; to_prop.
  - assert (Hne : items ≠ []) by (intros E; rewrite E in Hlen; cbn in Hlen; lia).
    assert (Hc : decision_id <$> last items = cursor_at newest (k + length items)).
    { replace (k + length items) with (S (k + (length items - 1))) by (destruct items; [done|cbn; lia]). cbn [cursor_at].
      f_equal. rewrite last_lookup. unfold items at 2. rewrite lookup_take_lt by lia. rewrite lookup_drop. f_equal. destruct items; [done|cbn; lia]. }
    destruct (last items) as [x|] eqn:Ex; [|by apply last_None in Ex]. cbn [fmap option_fmap option_map] in *.
    rewrite Hc, IH by lia. cbn [mbind outcome_bind]. f_equal.
    assert (Hfull : length items = Z.to_nat page_size) by lia.
    rewrite Hfull, <- drop_drop. unfold items. apply take_drop.
  - unfold items. rewrite take_ge; [done|]. rewrite length_drop. lia.
Qed.
End listed.

(** C11: The activity pages cover a history.  For a listed project and a valid
    page size, a client that starts without a cursor and follows each page's
    next cursor ends, within one page more than the history has decisions, and
    has read the whole history of the finding, newest first, each decision
    once; every page says how many there are in all. *)
Theorem pages_cover_history l :
  _list_for_project_unlocked isoformat s organization project = Ok l →
  _ORGANIZATION_ID organization = true → _PROJECT_ID project = true → _FINDING_ID finding = true →
  (1 <= page_size <= Z.of_nat FINDING_ACTIVITY_MAX_PAGE_SIZE)%Z →
  read_pages (S (length (history_of finding l))) None = Ok (reverse (history_of finding l))
  ∧ ∀ k, k <= length (history_of finding l) →
      ∃ items next, page (cursor_at (reverse (history_of finding l)) k) = Ok (items, length (history_of finding l), next).
Proof.
  intros Hl Ho Hp Hf Hs. split.
  - rewrite <- (drop_0 (reverse (history_of finding l))). rewrite <- (read_from l Hl Ho Hp Hf Hs (S (length (history_of finding l))) 0); [done|lia|].
    rewrite length_reverse. lia.
  - intros k Hk. rewrite (page_at l Hl Ho Hp Hf Hs k) by (by rewrite length_reverse). rewrite length_reverse. by do 2 eexists.
Qed.
End pages.

(** ** A history of two decisions, read in pages of one *)

Module Sample_pages.
Definition finding := Sample.hex 64 "f"%char.
Definition decided (s : store) (i : ascii) (st : FindingDecisionStatus) : store :=
  final s (record Sample.noon Sample.iso (λ _, Sample.hex 32 i) (λ x, x)
    (Request st "because of" None "u1" "user" "admin" None None None None) "local-admin" Sample.project finding "rule" s).1.
Definition two : store := decided (decided Sample.nothing "a" in_review) "b" open.
Definition listed : list FindingDecisionRecord :=
  match _list_for_project_unlocked Sample.iso two "local-admin" Sample.project with Ok l => l | Err _ => [] end.
End Sample_pages.
Import Sample_pages.

Lemma pages_cover_history_witness :
  (read_pages Sample.iso two "local-admin" Sample.project finding 1 (S (length (history_of finding listed))) None
   = Ok (reverse (history_of finding listed))
   ∧ ∀ k, k <= length (history_of finding listed) →
       ∃ items next, page_for_finding Sample.iso two "local-admin" Sample.project finding 1
         (cursor_at (reverse (history_of finding listed)) k) = Ok (items, length (history_of finding listed), next))
  ∧ decision_id <$> reverse (history_of finding listed) = [Sample.hex 32 "b"%char; Sample.hex 32 "a"%char].
Proof.
  split; [|by vm_compute].
  apply (pages_cover_history Sample.iso two "local-admin" Sample.project finding 1 listed); try by vm_compute.
Defined.
